(* ===== verification/_CoqProject ===== *)
-Q . S2P
Prelude.v
Bytes.v
HashSpec.v
Md5.v
Sha1.v
Sha256.v
Hmac.v
AesInterface.v
AesInternal.v
AesCorrect.v
AesWrap.v
AesCtr.v
AesOmac.v
AesEax.v
AesSiv.v
AesCcm.v
AesGcm.v
EapolState.v
EapolAuth.v
EapolProofs.v
EapolProps.v
EapolTheorems.v
EapServer.v
EapServerProofs.v
EapServerRun.v
EapMethods.v
EapServerProps.v
EapServerTheorems.v
EapIntegrated.v
Rc4.v
WpaKeys.v
WpaKde.v
WpaState.v
WpaFrame.v
WpaPsk.v
WpaGroup.v
WpaPtk.v
WpaAuth.v
WpaProofs.v
WpaRun.v
WpaLoop.v
WpaInv.v
WpaSystem.v
WpaSafety.v
WpaTheorems.v
WpaReplay.v
WpaSupp.v
WpaSta.v
WpaStaProofs.v
WpaStaSafety.v
WpaStaAccess.v
WpaStaGroup.v
WpaExchange.v
WpaExamples.v
WpaStaExamples.v
PmksaCache.v
PmksaProofs.v
PmksaRefine.v
PmksaOps.v
PmksaTheorems.v
