(* ===== verification/Prelude.v ===== *)
(** * wlan-tools: a verification of the security core of hostap

    The repository collects the tools of a wireless access point; its own core
    is [hostap-2.10], the access point daemon [hostapd] and the station
    [wpa_supplicant].  This development models the parts of hostap on which the
    authentication of a station rests, and proves them correct.  Paths below are
    relative to [src/hostap-2.10/src].

    ** The program and its model

    A station that associates gets an EAPOL state machine
    ([eapol_auth/eapol_auth_sm.c]), which keeps its port closed until it is
    authenticated.  That machine talks to an EAP server
    ([eap_server/eap_server.c]) through a record of shared variables; the server
    runs EAP methods ([eap_server_identity.c], [eap_server_md5.c]), or passes the
    exchange to an AAA server.  Keys that result are cached
    ([ap/pmksa_cache_auth.c]) and are derived, wrapped and used with the
    primitives of [crypto/].  From such a key, or a pre-shared one, the 4-way
    handshake ([ap/wpa_auth.c]) derives the pairwise keys ([common/wpa_common.c]),
    installs them and opens the port; it sends group keys too.  The station
    ([rsn_supp/wpa.c]) answers its frames and installs the same keys.

    - [Prelude], [Bytes]: machine words as [Z] with their wrap-around written
      out, byte buffers, loops, record update; [utils/common.h]'s accessors.
    - [HashSpec], [Md5], [Sha1], [Sha256]: [crypto/md5-internal.c],
      [sha1-internal.c] and [sha256-internal.c] beside the standards' definitions
      of the hashes.  The streaming contexts are records with the C fields.
    - [Hmac]: [md5.c], [sha1.c], [sha256.c] (HMAC), [sha1-prf.c], [sha256-prf.c],
      [sha1-pbkdf2.c], against the interface [HashFn] that the hashes implement.
    - [AesInterface]: the block cipher as [crypto.h] offers it, a class with laws.
      [AesInternal] and [AesCorrect] implement it with [aes-internal.c],
      [aes-internal-enc.c] and [aes-internal-dec.c]; [AesWrap], [AesCtr],
      [AesOmac], [AesEax], [AesSiv], [AesCcm], [AesGcm] are the modes
      [aes-wrap.c], [aes-unwrap.c], [aes-ctr.c], [aes-cbc.c], [aes-omac1.c],
      [aes-eax.c], [aes-siv.c], [aes-ccm.c] and [aes-gcm.c], proved against the
      interface only.
    - [EapolState]: the fields of [struct eapol_state_machine] and of
      [struct eap_eapol_interface]; [EapolAuth]: each [SM_STATE] of
      [eapol_auth_sm.c] is a function [sm_X_Y_Enter], each [SM_STEP] a function
      [sm_X_Step], callbacks are events, and the EAP server is the class
      [EapServer]; the notifications of [ap/ieee802_1x.c] that write to the
      machine are there too.  [EapolProofs], [EapolProps] and [EapolTheorems] hold
      the proofs, the inputs and reachable states, and the theorems.
    - [EapServer]: [eap_server.c] in the same style, with a method as a record of
      functions; [EapServerProofs] states the contract [EapMethodsLaws] between
      server and methods; [EapServerRun] proves that runs end; [EapMethods]
      models Identity and MD5 and proves that they keep the contract;
      [EapServerProps] and [EapServerTheorems] hold the properties.
    - [EapIntegrated] instantiates the class [EapServer] of [EapolAuth] with the
      server of [eap_server.c] and transfers the theorems of both.
    - [Rc4]: [crypto/rc4.c].  [WpaKeys]: the key derivation, integrity codes and
      cipher tables of [common/wpa_common.c]; [WpaKde]: its parser of EAPOL-Key
      key data, and the writer of [ap/wpa_auth_ie.c].
    - [WpaState]: [struct wpa_state_machine], [struct wpa_group] and what crosses the
      boundary of [ap/wpa_auth.c]: calls out are events, their results come from the
      class [WpaEnv].  [WpaFrame]: the layout, integrity code and encryption of
      EAPOL-Key frames.  [WpaPsk]: the keys tried for a station ([ap_config.c],
      [wpa_auth_glue.c]).  [WpaGroup]: the group key machine, sending and events.
      [WpaPtk]: the machines [WPA_PTK] and [WPA_PTK_GROUP] and [wpa_sm_step].
      [WpaAuth]: [wpa_receive] and the other entry points.
    - [WpaProofs]: what each of these functions changes; [WpaRun] and [WpaLoop]: the
      passes of [wpa_sm_step] as transitions, and its termination; [WpaInv]: the
      invariants; [WpaSystem]: runs, sequences of calls from outside; [WpaSafety],
      [WpaTheorems] and [WpaReplay]: the theorems.
    - [WpaSupp]: the station, [struct wpa_sm], and its [wpa_sm_rx_eapol];
      [WpaExchange]: what it makes of the frames that [__wpa_send_eapol] builds.
      [WpaExamples]: a whole handshake, evaluated, and the theorems at its inputs.
    - [WpaSta]: the functions of [rsn_supp/wpa.c] a frame is handed to, and those that
      begin and end an association; calls out are events, their results come from the
      class [SuppEnv].  [WpaStaProofs]: which of them leave keys and access alone;
      [WpaStaSafety]: runs, and the pairwise key; [WpaStaAccess]: what a frame needs to
      install keys; [WpaStaGroup]: the group key.  [WpaStaExamples]: access point and
      station at work together, and the theorems at their frames.
    - [PmksaCache]: [ap/pmksa_cache_auth.c] over a heap of entries, with the
      places of [wpa_auth.c] and [wpa_auth_ie.c] that keep pointers to them;
      [PmksaProofs] relates a heap to two lists, [PmksaRefine] and [PmksaOps]
      prove that each function does on the lists what it should, and
      [PmksaTheorems] draws the conclusions for sequences of calls.

    ** What the theorems show

    - Access: the port opens only after success; success is reported only after
      an EAP method succeeded; with the integrated server the two compose
      ([no_method_no_access]).  The port status is always the one last reported,
      and a failure is held for the whole quiet period.
    - Progress: [eapol_sm_step_run] and [eap_server_sm_step] end, no [NULL] method
      is called, and a lost request is repeated a fixed number of times.
    - Protocol: responses are matched to the outstanding request, a Nak narrows
      the proposals, EAP-MD5 accepts exactly RFC 1994's answer.
    - Primitives: AES decryption inverts encryption; each mode is the standard's
      function and its authenticated modes accept exactly what they produce; the
      hashes, HMAC, the PRF, the KDF and PBKDF2 are the standards' functions.
    - Pairwise keys: both sides derive the key of IEEE 802.11, the integrity code
      is the one the key descriptor names, and the key data parser reads nothing
      outside its buffer and finds the group key that was written.
    - Handshake: in every run, a pairwise key is installed and the port opened only
      while a frame is processed whose MIC verifies under a PTK derived from a trusted
      PMK and, for an installation, from a nonce drawn since the one before
      ([install_authenticated], [port_opened_authenticated]); [wpa_sm_step] ends
      ([wpa_sm_step_ends]), lost messages are repeated a fixed number of times
      ([handshake_retry_limit]), answers are accepted once ([answer_accepted_once]),
      and what is sent is what the station receives ([sent_frame_received]).
    - Station: whatever frames arrive, it installs at most one pairwise key for each
      nonce it draws ([ptk_installed_once]: no key is installed again); with RSN it
      installs keys and opens its port only for a frame whose MIC verifies under a
      PTK it derived ([station_keys_authenticated]); within an association the group
      key in use is not installed again ([gtk_not_reinstalled]).
    - Key cache: it refines a pair of lists for every sequence of calls, leaves no
      pointer to a freed entry, is bounded, finds what was added and expires
      what is due.
    - Where the code does not do what it means to, a theorem says so
      ([reauth_start_null_method], [pending_wait_rewinds],
      [identity_without_memory], [omac1_aes_vector_empty_fragment],
      [okc_ignores_limit], [wpa_sm_step_endless], [wpa_gtk_unauthenticated],
      [bigtk_not_installed_again]).

    ** Bounds and fuel

    Words are [Z] kept in range by [u8], [u16], [u32], [u64] and [to_int] where C
    converts.  [eapol_sm_step_run] makes the 100 passes the source allows.
    [eap_server_sm_step] loops while something changed: [STEP_FUEL] is 64 passes
    and a rank proves that 50 suffice; [PROPOSE_FUEL] is 10 for the methods of a
    user, of which there are at most 8.  Loops over buffers take fuel from the
    length they consume, and their specifications hold without a premise on the
    fuel.  The loop of [wpa_sm_step] has [STEP_FUEL] = 128 passes in [WpaPtk], and
    the rank of [ptk_loop_ends] shows that it ends earlier; that of [wpa_rekey_gtk]
    has 8 ([REKEY_FUEL], [rekey_loop_ends]); the search for a PMK makes one pass
    more than there are keys ([search_fuel]).  Loops over the entries of the PMKSA cache may pass once more than
    there are entries.

    ** Not modelled

    Memory is abstract: [os_malloc] is a parameter ([Malloc]), as are random
    numbers and the clock; uninitialised memory is an arbitrary argument.  The
    host is little-endian.  Logging, debug output and the text dumps of state are
    left out.  The builds have the optional ERP, FILS, OWE, DPP, Suite B, SHA-384
    and testing code compiled out, and fast BSS transition (FT), OCV, DPP, P2P and
    the other build options of the WPA authenticator too.  What the WPA authenticator
    writes to an EAPOL machine after [abort_auth] is an input of the machine, as are
    RADIUS messages.  EAP methods but Identity and MD5 enter through the contract
    [EapMethodsLaws].

    The handshake is modelled for one station of one group: the other stations
    count in [GKeyDoneStations], dynamic VLAN groups are left out, and what
    [wpa_validate_wpa_ie] negotiates is an input.  Its theorems are about AKMs whose
    MIC has a fixed length (not FILS, OWE or DPP); they assume that nonces can be
    drawn and [wpa_group_update_count] is at least 1, as the configuration parser
    enforces; [sent_frame_received] is about WPA2.  Of the supplicant the
    builds with FT, FILS, OWE, DPP, OCV, P2P and TDLS, pre-authentication and the text
    dumps are left out, and its PMKSA cache is a parameter of the handshake.

    RADIUS, SAE, FT, WPS and P2P, the drivers and the control interfaces are not
    modelled; [glibc-2.3] is a vendored C library, [libnl-3.0], [iw-4.0] and
    [wireless_tools.25] are interfaces to the kernel. *)

From stdpp Require Export base list list_numbers numbers option strings.
From Stdlib Require Export ZArith Lia.

#[export] Set Default Goal Selector "!".
#[global] Open Scope Z_scope.

(** ** Machine integers: C's unsigned types as [Z] with their wrap-around *)

Definition u8 (x : Z) : Z := Z.land x 255.
Definition u16 (x : Z) : Z := Z.land x 65535.
Definition u32 (x : Z) : Z := Z.land x 4294967295.
Definition u64 (x : Z) : Z := Z.land x 18446744073709551615.

(** C's [BIT(n)]. *)
Definition BIT (n : Z) : Z := Z.shiftl 1 n.

(** [lia] for goals with [/] and [mod] by constants. *)
Ltac zdiv := Z.to_euclidean_division_equations; lia.

(** ** Byte buffers *)

Abbreviation bytes := (list Z).

Definition is_byte (b : Z) : Prop := 0 <= b < 256.
Definition wf_bytes (l : bytes) : Prop := Forall is_byte l.
Definition is_u32 (x : Z) : Prop := 0 <= x < 4294967296.

#[export] Instance is_byte_dec b : Decision (is_byte b).
Proof. unfold is_byte. apply _. Defined.
#[export] Instance is_u32_dec b : Decision (is_u32 b).
Proof. unfold is_u32. apply _. Defined.

(** [a[i]] of a C array; indices out of range read the default 0, and every
    theorem that needs the value carries the bound. *)
Definition get (l : bytes) (i : nat) : Z := nth i l 0.

(** The [len] bytes at offset [off], [memcpy] into a buffer, and [xor]. *)
Definition sub (off len : nat) (l : bytes) : bytes := take len (drop off l).
Definition memcpy (dst : bytes) (off : nat) (src : bytes) : bytes :=
  take off dst ++ src ++ drop (off + length src) dst.
Definition xor_bytes : bytes -> bytes -> bytes := zip_with Z.lxor.

(** ** Loops

    [for (i = lo; i < lo + n; i++) s = body(i, s)] and the same loop run
    downwards, [for (i = lo + n - 1; i >= lo; i--)]. *)

Definition for_up {S} (lo : Z) (n : nat) (body : Z -> S -> S) (s : S) : S :=
  foldl (fun s i => body i s) s (seqZ lo (Z.of_nat n)).
Definition for_down {S} (lo : Z) (n : nat) (body : Z -> S -> S) (s : S) : S :=
  foldl (fun s i => body i s) s (reverse (seqZ lo (Z.of_nat n))).

(** ** Record update

    [r <| f := v |>] is [r] with field [f] replaced.  A record declares one
    [Settable] instance (its eta expansion) and one [Setter] instance per
    field, each solved by [solve_setter]. *)

Class Settable (R : Type) := settable_eta : R -> R.
Class Setter {R T : Type} (p : R -> T) := set : (T -> T) -> R -> R.
Arguments set {R T} p {Setter} _ _.

Ltac solve_setter :=
  match goal with
  | |- @Setter ?R ?T ?p =>
    let i := constr:(_ : Settable R) in
    let e := eval hnf in i in
    match e with
    | (fun x => @?body x) =>
      let b := eval pattern p in e in
      match b with
      | ?F _ => exact (fun f r => ltac:(
          let t := eval cbv beta in (F (fun r' => f (p r')) r) in exact t))
      end
    end
  end.

Declare Scope record_scope.
Delimit Scope record_scope with record.
Notation "r <| f := v |>" := (set f (fun _ => v) r)
  (at level 1, f at level 99, v at level 99, left associativity,
   format "r  <| f  :=  v |>") : record_scope.
Notation "r <| f ::= g |>" := (set f g r)
  (at level 1, f at level 99, g at level 99, left associativity,
   format "r  <| f  ::=  g |>") : record_scope.
Open Scope record_scope.

(** ** Bits

    [bits] proves an equation between words by comparing every bit. *)

Lemma testbit_small x n i : 0 <= x < 2 ^ n -> n <= i -> Z.testbit x i = false.
Proof.
  intros Hx Hi. destruct (Z.eq_dec x 0) as [->|]; [apply Z.bits_0|].
  apply Z.bits_above_log2; [lia|].
  assert (Z.log2 x < n); [|lia]. apply Z.log2_lt_pow2; lia.
Qed.

Lemma testbit_byte x i : is_byte x -> 8 <= i -> Z.testbit x i = false.
Proof. intros Hx Hi. apply (testbit_small x 8); [exact Hx|lia]. Qed.

Lemma testbit_u32 x i : is_u32 x -> 32 <= i -> Z.testbit x i = false.
Proof. intros Hx Hi. apply (testbit_small x 32); [exact Hx|lia]. Qed.

Lemma testbit_ones n i : 0 <= n -> 0 <= i -> Z.testbit (Z.ones n) i = bool_decide (i < n).
Proof.
  intros Hn Hi. case_bool_decide.
  - apply Z.ones_spec_low. lia.
  - apply Z.ones_spec_high. lia.
Qed.

Lemma bound_of_testbit x n :
  0 <= x -> 0 <= n -> (forall i, n <= i -> Z.testbit x i = false) -> x < 2 ^ n.
Proof.
  intros Hx Hn Hb. destruct (Z.lt_ge_cases x (2 ^ n)) as [|Hge]; [done|].
  exfalso. assert (Hx0 : x <> 0) by (pose proof (Z.pow_pos_nonneg 2 n); lia).
  assert (n <= Z.log2 x) by (apply Z.log2_le_pow2; lia).
  specialize (Hb (Z.log2 x) ltac:(lia)).
  rewrite Z.bit_log2 in Hb; [done|lia].
Qed.

Lemma lxor_bound n x y :
  0 <= n -> 0 <= x < 2 ^ n -> 0 <= y < 2 ^ n -> 0 <= Z.lxor x y < 2 ^ n.
Proof.
  intros Hn Hx Hy. assert (H0 : 0 <= Z.lxor x y) by (apply Z.lxor_nonneg; lia).
  split; [done|]. apply bound_of_testbit; [done..|].
  intros i Hi. rewrite Z.lxor_spec, !(testbit_small _ n) by (done || lia). done.
Qed.

Lemma is_byte_lxor x y : is_byte x -> is_byte y -> is_byte (Z.lxor x y).
Proof. apply (lxor_bound 8). lia. Qed.
Lemma is_u32_lxor x y : is_u32 x -> is_u32 y -> is_u32 (Z.lxor x y).
Proof. apply (lxor_bound 32). lia. Qed.

Lemma u8_mod x : u8 x = x mod 256.
Proof. unfold u8. change 255 with (Z.ones 8). rewrite Z.land_ones by lia. done. Qed.
Lemma u16_mod x : u16 x = x mod 65536.
Proof. unfold u16. change 65535 with (Z.ones 16). rewrite Z.land_ones by lia. done. Qed.
Lemma u32_mod x : u32 x = x mod 4294967296.
Proof. unfold u32. change 4294967295 with (Z.ones 32). rewrite Z.land_ones by lia. done. Qed.
Lemma u64_mod x : u64 x = x mod 18446744073709551616.
Proof.
  unfold u64. change 18446744073709551615 with (Z.ones 64).
  rewrite Z.land_ones by lia. done.
Qed.
Lemma is_byte_u8 x : is_byte (u8 x).
Proof. rewrite u8_mod. apply Z.mod_pos_bound. lia. Qed.
Lemma is_u32_u32 x : is_u32 (u32 x).
Proof. rewrite u32_mod. apply Z.mod_pos_bound. lia. Qed.
Lemma u8_id x : is_byte x -> u8 x = x.
Proof. intros. rewrite u8_mod. by apply Z.mod_small. Qed.
Lemma u32_id x : is_u32 x -> u32 x = x.
Proof. intros. rewrite u32_mod. by apply Z.mod_small. Qed.

Create HintDb wlan discriminated.
#[export] Hint Resolve is_byte_u8 is_u32_u32 is_byte_lxor is_u32_lxor : wlan.

Create Rewrite HintDb zbits.
#[export] Hint Rewrite Z.lxor_spec Z.land_spec Z.lor_spec Z.testbit_0_l
  xorb_false_r xorb_false_l andb_false_r andb_false_l andb_true_r andb_true_l
  orb_false_r orb_false_l : zbits.

(** [bits_at i] pushes [Z.testbit _ i] through the bit operations. *)
Ltac shift_step :=
  match goal with
  | |- context [Z.testbit (Z.shiftr ?x ?n) ?i] =>
      rewrite (Z.shiftr_spec x n i) by lia
  | |- context [Z.testbit (Z.shiftl ?x ?n) ?i] =>
      first [ rewrite (Z.shiftl_spec_low x n i) by lia
            | rewrite (Z.shiftl_spec_high x n i) by lia
            | rewrite (Z.shiftl_spec x n i) by lia ]
  end.
Ltac neg_step :=
  match goal with
  | |- context [Z.testbit ?x ?i] =>
      first [ rewrite (Z.testbit_neg_r x i) by lia
            | rewrite (testbit_byte x i) by (first [assumption|auto with wlan] || lia)
            | rewrite (testbit_u32 x i) by (first [assumption|auto with wlan] || lia) ]
  end.
Ltac bits_push := repeat (autorewrite with zbits; try shift_step); repeat neg_step;
  autorewrite with zbits.

(** ** Loop lemmas *)

Lemma for_up_0 {S} lo (body : Z -> S -> S) s : for_up lo 0 body s = s.
Proof. done. Qed.

Lemma for_up_S {S} lo n (body : Z -> S -> S) s :
  for_up lo (Datatypes.S n) body s = body (lo + Z.of_nat n) (for_up lo n body s).
Proof.
  unfold for_up. rewrite Nat2Z.inj_succ, <- Z.add_1_r, seqZ_app by lia.
  by rewrite foldl_app.
Qed.

Lemma for_down_S {S} lo n (body : Z -> S -> S) s :
  for_down lo (Datatypes.S n) body s = for_down lo n body (body (lo + Z.of_nat n) s).
Proof.
  unfold for_down. rewrite Nat2Z.inj_succ, <- Z.add_1_r, seqZ_app by lia.
  by rewrite reverse_app, foldl_app.
Qed.

Lemma for_up_inv {S} (P : S -> Prop) lo n (body : Z -> S -> S) s :
  (forall i s, lo <= i < lo + Z.of_nat n -> P s -> P (body i s)) ->
  P s -> P (for_up lo n body s).
Proof.
  induction n as [|n IH]; intros Hb Hs; [done|].
  rewrite for_up_S. apply Hb; [lia|]. apply IH; [|done].
  intros i s' Hi. apply Hb. lia.
Qed.

Lemma for_down_inv {S} (P : S -> Prop) lo n (body : Z -> S -> S) s :
  (forall i s, lo <= i < lo + Z.of_nat n -> P s -> P (body i s)) ->
  P s -> P (for_down lo n body s).
Proof.
  revert s. induction n as [|n IH]; intros s Hb Hs; [done|].
  rewrite for_down_S. apply IH; [|apply Hb; [lia|done]].
  intros i s' Hi. apply Hb. lia.
Qed.

(** An invariant that counts the iterations. *)
Lemma for_up_ind {S} (P : nat -> S -> Prop) lo n (body : Z -> S -> S) s :
  (forall k s, (k < n)%nat -> P k s -> P (Datatypes.S k) (body (lo + Z.of_nat k) s)) ->
  P 0%nat s -> P n (for_up lo n body s).
Proof.
  induction n as [|n IH]; intros Hb Hs; [done|].
  rewrite for_up_S. apply Hb; [lia|]. apply IH; [|done].
  intros k s' Hk. apply Hb. lia.
Qed.

(** A downward loop undoes an upward one when each body undoes the other. *)
Lemma for_down_for_up {S} (P : S -> Prop) lo n (f g : Z -> S -> S) s :
  (forall i s, lo <= i < lo + Z.of_nat n -> P s -> P (f i s) /\ g i (f i s) = s) ->
  P s -> for_down lo n g (for_up lo n f s) = s.
Proof.
  induction n as [|n IH]; intros Hb Hs; [done|].
  rewrite for_up_S, for_down_S.
  assert (Hs' : P (for_up lo n f s)).
  { apply for_up_inv; [|done]. intros i s' Hi Hp. by apply Hb; [lia|]. }
  destruct (Hb (lo + Z.of_nat n) _ ltac:(lia) Hs') as [_ ->].
  apply IH; [|done]. intros i s' Hi. apply Hb. lia.
Qed.

Lemma for_up_for_down {S} (P : S -> Prop) lo n (f g : Z -> S -> S) s :
  (forall i s, lo <= i < lo + Z.of_nat n -> P s -> P (g i s) /\ f i (g i s) = s) ->
  P s -> for_up lo n f (for_down lo n g s) = s.
Proof.
  revert s. induction n as [|n IH]; intros s Hb Hs; [done|].
  rewrite for_up_S, for_down_S.
  destruct (Hb (lo + Z.of_nat n) s ltac:(lia) Hs) as [Hs' Hfg].
  rewrite IH; [exact Hfg| |done]. intros i s' Hi. apply Hb. lia.
Qed.

(** Two loops that stay related run to related states. *)
Lemma for_up_sim {S T} (R : S -> T -> Prop) lo n (f : Z -> S -> S) (g : Z -> T -> T) s t :
  (forall i s t, lo <= i < lo + Z.of_nat n -> R s t -> R (f i s) (g i t)) ->
  R s t -> R (for_up lo n f s) (for_up lo n g t).
Proof.
  induction n as [|n IH]; intros Hb Hr; [done|].
  rewrite !for_up_S. apply Hb; [lia|]. apply IH; [|done].
  intros i s' t' Hi. apply Hb. lia.
Qed.

(** ** Buffer lemmas *)

Lemma length_memcpy dst off src :
  (off + length src <= length dst)%nat -> length (memcpy dst off src) = length dst.
Proof. intros. unfold memcpy. rewrite !length_app, length_take, length_drop. lia. Qed.

Lemma length_sub off len l :
  (off + len <= length l)%nat -> length (sub off len l) = len.
Proof. intros. unfold sub. rewrite length_take, length_drop. lia. Qed.

Lemma sub_memcpy dst off src :
  (off + length src <= length dst)%nat -> sub off (length src) (memcpy dst off src) = src.
Proof.
  intros. unfold sub, memcpy.
  rewrite drop_app_length' by (rewrite length_take; lia).
  by rewrite take_app_length.
Qed.

Lemma memcpy_sub dst off src :
  (off + length src <= length dst)%nat ->
  memcpy (memcpy dst off src) off (sub off (length src) dst) = dst.
Proof.
  intros. unfold memcpy at 1.
  rewrite length_sub by done.
  unfold memcpy. rewrite take_app_length' by (rewrite length_take; lia).
  rewrite drop_app_ge by (rewrite length_take; lia).
  rewrite drop_app_length' by (rewrite length_take; lia).
  unfold sub. rewrite <- (take_drop off dst) at 4. f_equal.
  rewrite <- (take_drop (length src) (drop off dst)) at 2.
  by rewrite drop_drop.
Qed.

Lemma sub_memcpy_len dst off src n :
  length src = n -> (off + n <= length dst)%nat -> sub off n (memcpy dst off src) = src.
Proof. intros <- ?. by apply sub_memcpy. Qed.

Lemma memcpy_sub_len dst off src n :
  length src = n -> (off + n <= length dst)%nat ->
  memcpy (memcpy dst off src) off (sub off n dst) = dst.
Proof. intros <- ?. by apply memcpy_sub. Qed.

Lemma wf_bytes_app l k : wf_bytes (l ++ k) <-> wf_bytes l /\ wf_bytes k.
Proof. apply Forall_app. Qed.
Lemma wf_bytes_take n l : wf_bytes l -> wf_bytes (take n l).
Proof. apply Forall_take. Qed.
Lemma wf_bytes_drop n l : wf_bytes l -> wf_bytes (drop n l).
Proof. apply Forall_drop. Qed.
Lemma wf_bytes_sub off n l : wf_bytes l -> wf_bytes (sub off n l).
Proof. intros. by apply wf_bytes_take, wf_bytes_drop. Qed.
Lemma wf_bytes_memcpy dst off src :
  wf_bytes dst -> wf_bytes src -> wf_bytes (memcpy dst off src).
Proof.
  intros. unfold memcpy. apply wf_bytes_app. split; [by apply wf_bytes_take|].
  apply wf_bytes_app. split; [done|by apply wf_bytes_drop].
Qed.
Lemma wf_bytes_replicate n b : is_byte b -> wf_bytes (replicate n b).
Proof. apply Forall_replicate. Qed.

Lemma is_byte_get l i : wf_bytes l -> is_byte (get l i).
Proof.
  intros Hl. unfold get. destruct (decide (i < length l)%nat).
  - assert (H : nth i l 0 ∈ l) by (apply list_elem_of_In, nth_In; lia).
    unfold wf_bytes in Hl. rewrite Forall_forall in Hl. by apply Hl.
  - rewrite nth_overflow by lia. unfold is_byte. lia.
Qed.

Lemma wf_bytes_insert i b l : is_byte b -> wf_bytes l -> wf_bytes (<[i:=b]> l).
Proof. intros. by apply Forall_insert. Qed.

Lemma wf_bytes_xor a b : wf_bytes a -> wf_bytes b -> wf_bytes (xor_bytes a b).
Proof.
  intros Ha. revert b. induction Ha as [|x a Hx Ha IH]; intros b Hb; [by constructor|].
  destruct Hb as [|y b Hy Hb]; [constructor|]. constructor; [|by apply IH].
  by apply is_byte_lxor.
Qed.

Lemma length_xor_bytes a b : length (xor_bytes a b) = min (length a) (length b).
Proof. apply length_zip_with. Qed.

Lemma xor_bytes_comm a b : xor_bytes a b = xor_bytes b a.
Proof.
  revert b. induction a as [|x a IH]; intros [|y b]; try done.
  simpl. by rewrite Z.lxor_comm, IH.
Qed.

Lemma xor_bytes_cancel a b :
  (length b <= length a)%nat -> xor_bytes a (xor_bytes a b) = b.
Proof.
  revert b. induction a as [|x a IH]; intros [|y b]; simpl; intros; try done; [lia|].
  rewrite IH by lia. by rewrite <- Z.lxor_assoc, Z.lxor_nilpotent, Z.lxor_0_l.
Qed.

Lemma xor_bytes_cancel_r a b :
  (length b <= length a)%nat -> xor_bytes (xor_bytes b a) a = b.
Proof. intros. by rewrite xor_bytes_comm, (xor_bytes_comm b), xor_bytes_cancel. Qed.

Lemma xor_bytes_app a1 a2 b1 b2 :
  length a1 = length b1 -> xor_bytes (a1 ++ a2) (b1 ++ b2) = xor_bytes a1 b1 ++ xor_bytes a2 b2.
Proof. intros. by apply zip_with_app. Qed.

#[export] Hint Resolve wf_bytes_take wf_bytes_drop wf_bytes_sub wf_bytes_memcpy
  is_byte_get wf_bytes_insert wf_bytes_xor : wlan.

Lemma land_lxor_l x y m : Z.land (Z.lxor x y) m = Z.lxor (Z.land x m) (Z.land y m).
Proof.
  apply Z.bits_inj'. intros i Hi. rewrite ?Z.lxor_spec, ?Z.land_spec, ?Z.lxor_spec.
  by destruct (Z.testbit x i), (Z.testbit y i), (Z.testbit m i).
Qed.

Lemma testbit_u8 x i : 0 <= i -> Z.testbit (u8 x) i = bool_decide (i < 8) && Z.testbit x i.
Proof.
  intros Hi. unfold u8. change 255 with (Z.ones 8).
  rewrite Z.land_spec, testbit_ones by lia. apply andb_comm.
Qed.

Lemma testbit_u32_trunc x i :
  0 <= i -> Z.testbit (u32 x) i = bool_decide (i < 32) && Z.testbit x i.
Proof.
  intros Hi. unfold u32. change 4294967295 with (Z.ones 32).
  rewrite Z.land_spec, testbit_ones by lia. apply andb_comm.
Qed.

(** A bounded-quantifier test, for facts about lookup tables. *)
Definition all_below (n : Z) (P : Z -> bool) : bool := forallb P (seqZ 0 n).

Lemma all_below_spec n P : all_below n P = true -> forall x, 0 <= x < n -> P x = true.
Proof.
  intros H x Hx. unfold all_below in H. rewrite forallb_forall in H.
  apply H, list_elem_of_In, elem_of_seqZ. lia.
Qed.

Lemma byte_forall (P : Z -> bool) :
  all_below 256 P = true -> forall x, is_byte x -> P x = true.
Proof. intros H x Hx. by apply (all_below_spec 256). Qed.

Lemma xor_bytes_assoc a b c :
  xor_bytes a (xor_bytes b c) = xor_bytes (xor_bytes a b) c.
Proof.
  revert b c. induction a as [|x a IH]; intros [|y b] [|z c]; try done.
  simpl. by rewrite Z.lxor_assoc, IH.
Qed.

Lemma xor_bytes_zero_r a n : (length a <= n)%nat -> xor_bytes a (replicate n 0) = a.
Proof.
  revert n. induction a as [|x a IH]; intros [|n] Hl; simpl in *; try done; [lia|].
  by rewrite Z.lxor_0_r, IH by lia.
Qed.

Lemma xor_bytes_zero_l a n : (length a <= n)%nat -> xor_bytes (replicate n 0) a = a.
Proof. intros. by rewrite xor_bytes_comm, xor_bytes_zero_r. Qed.

Lemma length_concat_sum {A} (ls : list (list A)) :
  length (concat ls) = sum_list (length <$> ls).
Proof. induction ls as [|l ls IH]; [done|]. simpl. by rewrite length_app, IH. Qed.

(** ** The allocator

    [os_malloc] is libc's: whether a request succeeds, and what the memory
    holds, is a parameter of the functions that allocate. *)

Class Malloc := os_malloc : nat -> option bytes.

Class MallocLaws (M : Malloc) :=
  os_malloc_length : forall n b, os_malloc n = Some b -> length b = n.

(** [os_memdup(src, len)] is [os_malloc] followed by a copy. *)
Definition os_memdup `{Malloc} (src : bytes) : option bytes :=
  match os_malloc (length src) with None => None | Some b => Some (memcpy b 0 src) end.

Lemma os_memdup_spec `{M : Malloc} `{!MallocLaws M} src b :
  os_memdup src = Some b -> b = src.
Proof.
  unfold os_memdup. destruct (os_malloc (length src)) as [b'|] eqn:E; [|done].
  apply os_malloc_length in E. intros [= <-]. unfold memcpy.
  by rewrite take_0, drop_ge, app_nil_r by lia.
Qed.

(** An allocator that always succeeds, for the concrete examples. *)
Definition zero_malloc : Malloc := fun n => Some (replicate n 0).
#[export] Instance zero_malloc_laws : MallocLaws zero_malloc.
Proof. intros n b [= <-]. apply length_replicate. Qed.
