(* ===== verification/Bytes.v ===== *)
(** * Unaligned big- and little-endian memory accesses

    The [WPA_GET_*] and [WPA_PUT_*] inlines of hostap's [utils/common.h].  A
    [GET] reads from the start of the buffer it is given; a [PUT] returns the
    bytes it stores, which the caller places with [memcpy]. *)

From S2P Require Import Prelude.

Definition WPA_GET_BE16 (a : bytes) : Z :=
  u16 (Z.lor (Z.shiftl (get a 0) 8) (get a 1)).
Definition WPA_PUT_BE16 (val : Z) : bytes :=
  [u8 (Z.shiftr (u16 val) 8); u8 (Z.land (u16 val) 255)].

Definition WPA_GET_LE16 (a : bytes) : Z :=
  u16 (Z.lor (Z.shiftl (get a 1) 8) (get a 0)).
Definition WPA_PUT_LE16 (val : Z) : bytes :=
  [u8 (Z.land (u16 val) 255); u8 (Z.shiftr (u16 val) 8)].

Definition WPA_GET_BE24 (a : bytes) : Z :=
  u32 (Z.lor (Z.lor (Z.shiftl (get a 0) 16) (Z.shiftl (get a 1) 8)) (get a 2)).
Definition WPA_PUT_BE24 (val : Z) : bytes :=
  let val := u32 val in
  [u8 (Z.land (Z.shiftr val 16) 255); u8 (Z.land (Z.shiftr val 8) 255);
   u8 (Z.land val 255)].

Definition WPA_GET_BE32 (a : bytes) : Z :=
  u32 (Z.lor (Z.lor (Z.lor (Z.shiftl (get a 0) 24) (Z.shiftl (get a 1) 16))
                    (Z.shiftl (get a 2) 8)) (get a 3)).
Definition WPA_PUT_BE32 (val : Z) : bytes :=
  let val := u32 val in
  [u8 (Z.land (Z.shiftr val 24) 255); u8 (Z.land (Z.shiftr val 16) 255);
   u8 (Z.land (Z.shiftr val 8) 255); u8 (Z.land val 255)].

Definition WPA_GET_LE32 (a : bytes) : Z :=
  u32 (Z.lor (Z.lor (Z.lor (Z.shiftl (get a 3) 24) (Z.shiftl (get a 2) 16))
                    (Z.shiftl (get a 1) 8)) (get a 0)).
Definition WPA_PUT_LE32 (val : Z) : bytes :=
  let val := u32 val in
  [u8 (Z.land val 255); u8 (Z.land (Z.shiftr val 8) 255);
   u8 (Z.land (Z.shiftr val 16) 255); u8 (Z.land (Z.shiftr val 24) 255)].

Definition WPA_GET_BE64 (a : bytes) : Z :=
  u64 (Z.lor (Z.lor (Z.lor (Z.lor (Z.lor (Z.lor (Z.lor
    (Z.shiftl (get a 0) 56) (Z.shiftl (get a 1) 48))
    (Z.shiftl (get a 2) 40)) (Z.shiftl (get a 3) 32))
    (Z.shiftl (get a 4) 24)) (Z.shiftl (get a 5) 16))
    (Z.shiftl (get a 6) 8)) (get a 7)).
Definition WPA_PUT_BE64 (val : Z) : bytes :=
  let val := u64 val in
  [u8 (Z.shiftr val 56); u8 (Z.shiftr val 48); u8 (Z.shiftr val 40);
   u8 (Z.shiftr val 32); u8 (Z.shiftr val 24); u8 (Z.shiftr val 16);
   u8 (Z.shiftr val 8); u8 (Z.land val 255)].

Definition WPA_GET_LE64 (a : bytes) : Z :=
  u64 (Z.lor (Z.lor (Z.lor (Z.lor (Z.lor (Z.lor (Z.lor
    (Z.shiftl (get a 7) 56) (Z.shiftl (get a 6) 48))
    (Z.shiftl (get a 5) 40)) (Z.shiftl (get a 4) 32))
    (Z.shiftl (get a 3) 24)) (Z.shiftl (get a 2) 16))
    (Z.shiftl (get a 1) 8)) (get a 0)).
Definition WPA_PUT_LE64 (val : Z) : bytes :=
  let val := u64 val in
  [u8 (Z.land val 255); u8 (Z.shiftr val 8); u8 (Z.shiftr val 16);
   u8 (Z.shiftr val 24); u8 (Z.shiftr val 32); u8 (Z.shiftr val 40);
   u8 (Z.shiftr val 48); u8 (Z.shiftr val 56)].

(** ** Big-endian numbers of any length *)

Fixpoint be_decode_acc (acc : Z) (l : bytes) : Z :=
  match l with [] => acc | b :: l => be_decode_acc (acc * 256 + b) l end.
Definition be_decode : bytes -> Z := be_decode_acc 0.

Fixpoint be_encode (n : nat) (z : Z) : bytes :=
  match n with O => [] | S n => be_encode n (z / 256) ++ [z mod 256] end.

Lemma be_decode_acc_spec l acc :
  be_decode_acc acc l = acc * 256 ^ Z.of_nat (length l) + be_decode l.
Proof.
  unfold be_decode. revert acc. induction l as [|b l IH]; intros acc; cbn [be_decode_acc length].
  - rewrite Z.pow_0_r. lia.
  - rewrite IH, (IH (0 * 256 + b)), Nat2Z.inj_succ, Z.pow_succ_r by lia. ring.
Qed.

Lemma be_decode_app l k :
  be_decode (l ++ k) = be_decode l * 256 ^ Z.of_nat (length k) + be_decode k.
Proof.
  rewrite <- be_decode_acc_spec. unfold be_decode. generalize 0.
  induction l as [|b l IH]; intros acc; [done|]. apply IH.
Qed.

Lemma be_decode_snoc l b : be_decode (l ++ [b]) = be_decode l * 256 + b.
Proof. rewrite be_decode_app. change (be_decode [b]) with b. simpl. lia. Qed.

Lemma be_decode_range l :
  wf_bytes l -> 0 <= be_decode l < 256 ^ Z.of_nat (length l).
Proof.
  induction l as [|b l IH] using rev_ind; intros Hl; [done|].
  apply wf_bytes_app in Hl as [Hl Hb]. apply Forall_cons in Hb as [Hb _].
  specialize (IH Hl). rewrite be_decode_snoc, length_app. simpl length.
  rewrite Nat2Z.inj_add, Z.pow_add_r by lia. unfold is_byte in Hb.
  change (256 ^ Z.of_nat 1) with 256. lia.
Qed.

Lemma length_be_encode n z : length (be_encode n z) = n.
Proof. revert z. induction n as [|n IH]; intros z; [done|]. simpl. rewrite length_app, IH. simpl. lia. Qed.

Lemma wf_be_encode n z : wf_bytes (be_encode n z).
Proof.
  revert z. induction n as [|n IH]; intros z; [constructor|]. simpl.
  apply wf_bytes_app. split; [apply IH|]. apply Forall_singleton, Z.mod_pos_bound. lia.
Qed.

Lemma be_encode_decode l : wf_bytes l -> be_encode (length l) (be_decode l) = l.
Proof.
  induction l as [|b l IH] using rev_ind; intros Hl; [done|].
  apply wf_bytes_app in Hl as [Hl Hb]. apply Forall_cons in Hb as [Hb _]. unfold is_byte in Hb.
  rewrite length_app, Nat.add_comm, be_decode_snoc. simpl.
  replace ((be_decode l * 256 + b) / 256) with (be_decode l) by zdiv.
  replace ((be_decode l * 256 + b) mod 256) with b by zdiv.
  by rewrite IH.
Qed.

Lemma be_decode_encode n z : be_decode (be_encode n z) = z mod 256 ^ Z.of_nat n.
Proof.
  revert z. induction n as [|n IH]; intros z; simpl.
  - symmetry. apply Z.mod_1_r.
  - rewrite be_decode_snoc, IH, Nat2Z.inj_succ, Z.pow_succ_r by lia.
    assert (0 < 256 ^ Z.of_nat n) by (apply Z.pow_pos_nonneg; lia).
    rewrite Z.rem_mul_r by lia. lia.
Qed.

(** ** The accessors are the big-endian numbers *)

(** [a | b] is [a + b] when [b] lies below the low zeros of [a]. *)
Lemma lor_add n a b : 0 <= n -> a mod 2 ^ n = 0 -> 0 <= b < 2 ^ n -> Z.lor a b = a + b.
Proof.
  intros Hn Ha Hb. rewrite <- Z.add_lor_land.
  assert (E : Z.land a b = 0); [|lia].
  apply Z.bits_inj'. intros i Hi. rewrite Z.land_spec, Z.bits_0.
  destruct (Z.lt_ge_cases i n).
  - rewrite <- (Z.mod_pow2_bits_low a n i), Ha, Z.bits_0 by lia. done.
  - rewrite (testbit_small b n i) by lia. apply andb_false_r.
Qed.

Lemma shiftl_lor_add a b n m :
  0 <= m <= n -> 0 <= a -> 0 <= b < 2 ^ (n - m) ->
  Z.lor (Z.shiftl a n) (Z.shiftl b m) = a * 2 ^ n + b * 2 ^ m.
Proof.
  intros Hm Ha Hb. rewrite !Z.shiftl_mul_pow2 by lia.
  assert (E : 2 ^ n = 2 ^ (n - m) * 2 ^ m) by (rewrite <- Z.pow_add_r by lia; f_equal; lia).
  apply (lor_add n); [lia|apply Z.mod_mul; lia|].
  pose proof (Z.pow_pos_nonneg 2 m). nia.
Qed.

(** Or-ing one more byte below [k] bytes that are already in place. *)
Lemma lor_next acc b n :
  0 <= n -> is_byte b ->
  Z.lor (acc * 2 ^ (n + 8)) (Z.shiftl b n) = (acc * 256 + b) * 2 ^ n.
Proof.
  intros Hn Hb. unfold is_byte in Hb. rewrite Z.shiftl_mul_pow2, (lor_add (n + 8)).
  - rewrite Z.pow_add_r by lia. change (2 ^ 8) with 256. ring.
  - lia.
  - apply Z.mod_mul. lia.
  - rewrite Z.pow_add_r by lia. pose proof (Z.pow_pos_nonneg 2 n). change (2 ^ 8) with 256. nia.
  - lia.
Qed.

Lemma lor_last acc b : is_byte b -> Z.lor (acc * 2 ^ 8) b = acc * 256 + b.
Proof.
  intros Hb. rewrite <- (Z.shiftl_0_r b), (lor_next _ _ 0) by done.
  rewrite Z.pow_0_r, Z.shiftl_0_r. ring.
Qed.

Lemma put_byte w n v :
  0 <= n -> n + 8 <= w -> u8 (Z.shiftr (Z.land v (Z.ones w)) n) = (v / 2 ^ n) mod 256.
Proof.
  intros Hn Hw. rewrite u8_mod, <- (Z.shiftr_div_pow2 v n) by lia. change 256 with (2 ^ 8).
  rewrite <- !Z.land_ones by lia. apply Z.bits_inj'. intros i Hi.
  rewrite !Z.land_spec, !Z.shiftr_spec, Z.land_spec by lia.
  destruct (Z.lt_ge_cases i 8).
  - rewrite (Z.ones_spec_low w) by lia. by rewrite andb_true_r.
  - rewrite (Z.ones_spec_high 8) by lia. by rewrite !andb_false_r.
Qed.

Ltac wf_literal := unfold wf_bytes; rewrite ?Forall_cons, ?Forall_nil; auto 20 with wlan.

Lemma WPA_GET_BE16_decode a b l : is_byte a -> is_byte b ->
  WPA_GET_BE16 (a :: b :: l) = be_decode [a; b].
Proof.
  intros Ha Hb. unfold WPA_GET_BE16, be_decode, be_decode_acc. cbn [get nth].
  rewrite Z.shiftl_mul_pow2, lor_last by (done || lia). unfold is_byte in *.
  rewrite u16_mod. zdiv.
Qed.

Lemma WPA_GET_BE24_decode a b c l : is_byte a -> is_byte b -> is_byte c ->
  WPA_GET_BE24 (a :: b :: c :: l) = be_decode [a; b; c].
Proof.
  intros Ha Hb Hc. unfold WPA_GET_BE24, be_decode, be_decode_acc. cbn [get nth].
  rewrite Z.shiftl_mul_pow2, (lor_next _ _ 8), lor_last by (done || lia). unfold is_byte in *.
  rewrite u32_mod. zdiv.
Qed.

Lemma WPA_GET_BE32_decode a b c d l : is_byte a -> is_byte b -> is_byte c -> is_byte d ->
  WPA_GET_BE32 (a :: b :: c :: d :: l) = be_decode [a; b; c; d].
Proof.
  intros Ha Hb Hc Hd. unfold WPA_GET_BE32. cbn [get nth].
  rewrite Z.shiftl_mul_pow2, (lor_next _ _ 16), (lor_next _ _ 8), lor_last by (done || lia).
  rewrite u32_mod. apply Z.mod_small.
  apply (be_decode_range [a; b; c; d]). wf_literal.
Qed.

Lemma WPA_GET_BE64_decode a b c d e f g h l :
  wf_bytes [a; b; c; d; e; f; g; h] ->
  WPA_GET_BE64 (a :: b :: c :: d :: e :: f :: g :: h :: l) = be_decode [a; b; c; d; e; f; g; h].
Proof.
  intros Hw. pose proof (be_decode_range _ Hw) as Hr. unfold wf_bytes in Hw.
  rewrite !Forall_cons in Hw. destruct Hw as (Ha & Hb & Hc & Hd & He & Hf & Hg & Hh & _).
  unfold WPA_GET_BE64. cbn [get nth].
  rewrite Z.shiftl_mul_pow2, (lor_next _ _ 48), (lor_next _ _ 40), (lor_next _ _ 32),
    (lor_next _ _ 24), (lor_next _ _ 16), (lor_next _ _ 8), lor_last by (done || lia).
  rewrite u64_mod. apply Z.mod_small. exact Hr.
Qed.

Lemma put_low w v : 8 <= w -> u8 (Z.land (Z.land v (Z.ones w)) 255) = v mod 256.
Proof.
  intros Hw. pose proof (put_byte w 0 v ltac:(lia) ltac:(lia)) as H.
  rewrite Z.shiftr_0_r, Z.pow_0_r, Z.div_1_r in H. rewrite <- H.
  unfold u8. by rewrite <- Z.land_assoc.
Qed.

Lemma put_masked w n v :
  0 <= n -> n + 8 <= w ->
  u8 (Z.land (Z.shiftr (Z.land v (Z.ones w)) n) 255) = (v / 2 ^ n) mod 256.
Proof.
  intros. rewrite <- (put_byte w n v) by done. unfold u8. by rewrite <- Z.land_assoc.
Qed.

Lemma WPA_PUT_BE16_encode v : WPA_PUT_BE16 v = be_encode 2 v.
Proof.
  unfold WPA_PUT_BE16, u16. change 65535 with (Z.ones 16).
  by rewrite put_byte, put_low by lia.
Qed.

Lemma WPA_PUT_BE24_encode v : WPA_PUT_BE24 v = be_encode 3 v.
Proof.
  unfold WPA_PUT_BE24, u32. change 4294967295 with (Z.ones 32). cbv zeta.
  rewrite !put_masked, put_low by lia. cbn [be_encode app]. by rewrite !Z.div_div by lia.
Qed.

Lemma WPA_PUT_BE32_encode v : WPA_PUT_BE32 v = be_encode 4 v.
Proof.
  unfold WPA_PUT_BE32, u32. change 4294967295 with (Z.ones 32). cbv zeta.
  rewrite !put_masked, put_low by lia. cbn [be_encode app]. by rewrite !Z.div_div by lia.
Qed.

Lemma WPA_PUT_BE64_encode v : WPA_PUT_BE64 v = be_encode 8 v.
Proof.
  unfold WPA_PUT_BE64, u64. change 18446744073709551615 with (Z.ones 64). cbv zeta.
  rewrite !put_byte, put_low by lia. cbn [be_encode app]. by rewrite !Z.div_div by lia.
Qed.

(** The little-endian accessors are the big-endian ones on the reversed bytes. *)
Lemma WPA_PUT_LE_reverse v :
  WPA_PUT_LE16 v = reverse (WPA_PUT_BE16 v) /\ WPA_PUT_LE32 v = reverse (WPA_PUT_BE32 v) /\
  WPA_PUT_LE64 v = reverse (WPA_PUT_BE64 v).
Proof. done. Qed.

Lemma WPA_GET_LE_reverse a b c d e f g h l k :
  WPA_GET_LE16 (a :: b :: l) = WPA_GET_BE16 (b :: a :: k) /\
  WPA_GET_LE32 (a :: b :: c :: d :: l) = WPA_GET_BE32 (d :: c :: b :: a :: k) /\
  WPA_GET_LE64 (a :: b :: c :: d :: e :: f :: g :: h :: l) =
  WPA_GET_BE64 (h :: g :: f :: e :: d :: c :: b :: a :: k).
Proof. done. Qed.

Lemma is_byte_mod x : is_byte (x mod 256).
Proof. apply Z.mod_pos_bound. lia. Qed.
#[export] Hint Resolve is_byte_mod : wlan.

(** Reading what was written, the big-endian widths. *)
Lemma WPA_GET_PUT_BE v l :
  WPA_GET_BE16 (WPA_PUT_BE16 v ++ l) = u16 v /\
  WPA_GET_BE24 (WPA_PUT_BE24 v ++ l) = v mod 2 ^ 24 /\
  WPA_GET_BE32 (WPA_PUT_BE32 v ++ l) = u32 v /\
  WPA_GET_BE64 (WPA_PUT_BE64 v ++ l) = u64 v.
Proof.
  rewrite WPA_PUT_BE16_encode, WPA_PUT_BE24_encode, WPA_PUT_BE32_encode, WPA_PUT_BE64_encode.
  rewrite u16_mod, u32_mod, u64_mod. split_and!.
  - etrans; [apply WPA_GET_BE16_decode; apply is_byte_mod|]. apply (be_decode_encode 2 v).
  - etrans; [apply WPA_GET_BE24_decode; apply is_byte_mod|]. apply (be_decode_encode 3 v).
  - etrans; [apply WPA_GET_BE32_decode; apply is_byte_mod|]. apply (be_decode_encode 4 v).
  - etrans; [apply WPA_GET_BE64_decode; wf_literal|].
    apply (be_decode_encode 8 v).
Qed.

(** Every accessor of [utils/common.h] reads back what its writer stored,
    truncated to the width: 16, 24, 32 and 64 bits big-endian, 16, 32 and 64
    bits little-endian, whatever follows in the buffer. *)
Theorem WPA_GET_PUT v l :
  WPA_GET_BE16 (WPA_PUT_BE16 v ++ l) = u16 v /\
  WPA_GET_BE24 (WPA_PUT_BE24 v ++ l) = v mod 2 ^ 24 /\
  WPA_GET_BE32 (WPA_PUT_BE32 v ++ l) = u32 v /\
  WPA_GET_BE64 (WPA_PUT_BE64 v ++ l) = u64 v /\
  WPA_GET_LE16 (WPA_PUT_LE16 v ++ l) = u16 v /\
  WPA_GET_LE32 (WPA_PUT_LE32 v ++ l) = u32 v /\
  WPA_GET_LE64 (WPA_PUT_LE64 v ++ l) = u64 v.
Proof.
  destruct (WPA_GET_PUT_BE v l) as (H16 & H24 & H32 & H64). split_and!; [done..|exact H16| |].
  - exact H32.
  - exact H64.
Qed.
