(* ===== verification/HashSpec.v ===== *)
(** * Iterated hash functions

    MD5, SHA-1 and SHA-256 pad a message to whole blocks of 64 bytes and fold a
    compression function over the blocks.  This is the one-shot reference the
    streaming code of hostap's [crypto/*-internal.c] is proved equal to, with
    the invariant its contexts keep between two calls ([streams]). *)

From S2P Require Import Prelude Bytes.

Section iterated.
Context (compress : list Z -> bytes -> list Z).   (* one 64-byte block *)
Context (iv : list Z).                            (* the initial state *)
Context (encode_length : Z -> bytes).             (* 8 bytes from a number of bits *)

(** [n] blocks of [data]. *)
Fixpoint absorb (n : nat) (st : list Z) (data : bytes) : list Z :=
  match n with
  | O => st
  | S n => absorb n (compress st (take 64 data)) (drop 64 data)
  end.

(** The bit 1, zeros up to 56 modulo 64 bytes, and the length in bits. *)
Definition md_padding (n : nat) : bytes :=
  128 :: replicate (Z.to_nat ((55 - Z.of_nat n) mod 64)) 0 ++ encode_length (8 * Z.of_nat n).

Definition md_state (msg : bytes) : list Z :=
  let padded := msg ++ md_padding (length msg) in
  absorb (length padded / 64) iv padded.

(** ** Streaming

    What a context holds after the bytes [data]: the state of its whole blocks,
    and the rest at the start of the block buffer. *)
Record streams (st : list Z) (buf data : bytes) : Prop := {
  st_state : st = absorb (length data / 64) iv data;
  st_rest : take (length data mod 64) buf = drop (64 * (length data / 64)) data;
  st_buf : length buf = 64%nat;
}.

Lemma absorb_add n m st data :
  absorb (n + m) st data = absorb m (absorb n st data) (drop (64 * n) data).
Proof.
  revert st data. induction n as [|n IH]; intros st data; [done|].
  cbn [absorb Nat.add]. rewrite IH, drop_drop. do 2 f_equal. lia.
Qed.

Lemma absorb_app n st data more :
  (64 * n <= length data)%nat -> absorb n st (data ++ more) = absorb n st data.
Proof.
  revert st data. induction n as [|n IH]; intros st data Hl; [done|]. cbn [absorb].
  rewrite take_app_le, drop_app_le by lia. apply IH. rewrite length_drop. lia.
Qed.

Lemma streams_init buf : length buf = 64%nat -> streams iv buf [].
Proof. intros Hb. split; [done|by rewrite drop_nil|done]. Qed.

Lemma div_mod_64 n : (n = 64 * (n / 64) + n mod 64 /\ n mod 64 < 64)%nat.
Proof. pose proof (Nat.div_mod n 64). pose proof (Nat.mod_upper_bound n 64). lia. Qed.

Lemma div_mod_unique_64 n q r :
  n = (64 * q + r)%nat -> (r < 64)%nat -> (n / 64 = q /\ n mod 64 = r)%nat.
Proof.
  intros E Hr. split; symmetry; [by apply (Nat.div_unique n 64 q r)|].
  by apply (Nat.mod_unique n 64 q r).
Qed.

(** The rest of the data does not fill the block buffer. *)
Lemma streams_fill st buf data x :
  streams st buf data -> (length data mod 64 + length x < 64)%nat ->
  streams st (memcpy buf (length data mod 64) x) (data ++ x).
Proof.
  intros [Hs Hr Hb] Hx. pose proof (div_mod_64 (length data)) as [Hd Hm].
  destruct (div_mod_unique_64 (length (data ++ x)) (length data / 64)
    (length data mod 64 + length x)) as [Eq Em]; [rewrite length_app; lia|done|].
  split; rewrite ?Eq, ?Em.
  - rewrite absorb_app by lia. done.
  - unfold memcpy. rewrite app_assoc, take_app_le by (rewrite length_app, length_take; lia).
    rewrite take_ge by (rewrite length_app, length_take; lia).
    rewrite Hr, drop_app_le by lia. done.
  - rewrite length_memcpy by lia. done.
Qed.

(** A block is complete. *)
Lemma streams_block st buf data x buf' :
  streams st buf data -> (length data mod 64 + length x = 64)%nat -> length buf' = 64%nat ->
  streams (compress st (take (length data mod 64) buf ++ x)) buf' (data ++ x).
Proof.
  intros [Hs Hr Hb] Hx Hb'. pose proof (div_mod_64 (length data)) as [Hd Hm].
  destruct (div_mod_unique_64 (length (data ++ x)) (S (length data / 64)) 0) as [Eq Em];
    [rewrite length_app; lia|lia|].
  split; rewrite ?Eq, ?Em; [| |done].
  - replace (S (length data / 64)) with (length data / 64 + 1)%nat by lia.
    rewrite absorb_add, absorb_app by lia. cbn [absorb].
    rewrite <- Hs, Hr, drop_app_le by lia. f_equal.
    rewrite take_ge; [done|]. rewrite length_app, length_drop. lia.
  - rewrite take_0, drop_ge; [done|]. rewrite length_app. lia.
Qed.

Lemma streams_aligned st buf data x buf' :
  streams st buf data -> (length data mod 64 = 0)%nat -> length x = 64%nat ->
  length buf' = 64%nat -> streams (compress st x) buf' (data ++ x).
Proof.
  intros Hs Hm Hx Hb. pose proof (streams_block st buf data x buf' Hs) as H.
  rewrite Hm in H. by apply H.
Qed.

(** The bytes of the buffer after the rest do not matter. *)
Lemma streams_buf st buf buf' data :
  streams st buf data -> length buf' = 64%nat ->
  take (length data mod 64) buf' = take (length data mod 64) buf -> streams st buf' data.
Proof. intros [Hs Hr Hb] Hb' Ht. split; [done| |done]. by rewrite Ht. Qed.

Lemma memcpy_block buf r x :
  (r + length x = 64)%nat -> length buf = 64%nat -> memcpy buf r x = take r buf ++ x.
Proof. intros Hr Hb. unfold memcpy. by rewrite (drop_ge buf), app_nil_r by lia. Qed.

(** The length after the padding. *)
Lemma length_md_padding n :
  (forall z, length (encode_length z) = 8%nat) ->
  ((n + length (md_padding n)) mod 64 = 0)%nat.
Proof.
  intros He. unfold md_padding. cbn [length].
  rewrite length_app, length_replicate, He.
  apply Nat2Z.inj. rewrite Nat2Z.inj_mod. zdiv.
Qed.

Lemma streams_final st buf msg :
  streams st buf (msg ++ md_padding (length msg)) -> st = md_state msg.
Proof. intros [Hs _ _]. exact Hs. Qed.

(** ** The last block

    What the code stores in the buffer when it pads in place: the byte 0x80,
    then zeros up to position 56 of the same or of the next block. *)
Lemma streams_pad_short st buf msg :
  (forall z, length (encode_length z) = 8%nat) ->
  streams st buf msg -> (length msg mod 64 < 56)%nat ->
  md_state msg =
    compress st (take (length msg mod 64) buf ++ 128 :: replicate (55 - length msg mod 64) 0
                 ++ encode_length (8 * Z.of_nat (length msg))).
Proof.
  intros He Hs Hm. symmetry. apply (streams_final _ buf).
  assert (Hz : Z.to_nat ((55 - Z.of_nat (length msg)) mod 64) = (55 - length msg mod 64)%nat).
  { apply Nat2Z.inj. rewrite Z2Nat.id by zdiv. rewrite Nat2Z.inj_sub, Nat2Z.inj_mod by lia.
    pose proof (Nat2Z.inj_mod (length msg) 64). zdiv. }
  unfold md_padding. rewrite Hz. apply (streams_block _ buf); [done| |apply Hs].
  cbn [length]. rewrite length_app, length_replicate, He. lia.
Qed.

Lemma streams_pad_long st buf msg :
  (forall z, length (encode_length z) = 8%nat) ->
  streams st buf msg -> (56 <= length msg mod 64)%nat ->
  md_state msg =
    compress (compress st (take (length msg mod 64) buf ++ 128
                           :: replicate (63 - length msg mod 64) 0))
      (replicate 56 0 ++ encode_length (8 * Z.of_nat (length msg))).
Proof.
  intros He Hs Hm. symmetry. apply (streams_final _ buf).
  pose proof (div_mod_64 (length msg)) as [Hd Hlt].
  assert (Hz : Z.to_nat ((55 - Z.of_nat (length msg)) mod 64)
               = (63 - length msg mod 64 + 56)%nat).
  { apply Nat2Z.inj. rewrite Z2Nat.id by zdiv.
    rewrite Nat2Z.inj_add, Nat2Z.inj_sub, Nat2Z.inj_mod by lia.
    pose proof (Nat2Z.inj_mod (length msg) 64). zdiv. }
  unfold md_padding. rewrite Hz, replicate_add, <- app_assoc, app_comm_cons, app_assoc.
  set (one := 128 :: replicate (63 - length msg mod 64) 0).
  assert (Ho : length one = (64 - length msg mod 64)%nat).
  { unfold one. cbn [length]. rewrite length_replicate. lia. }
  apply (streams_aligned _ buf).
  - apply (streams_block _ buf); [done|lia|apply Hs].
  - rewrite length_app, Ho. symmetry. apply (Nat.mod_unique _ _ (S (length msg / 64))); lia.
  - rewrite length_app, length_replicate, He. done.
  - apply Hs.
Qed.

End iterated.

(** ** 32-bit words *)

(** Addition modulo 2^32, rotation to the left, and the complement. *)
Definition add32 (x y : Z) : Z := (x + y) mod 2 ^ 32.
Definition ROTL (n x : Z) : Z := Z.lor ((x * 2 ^ n) mod 2 ^ 32) (x / 2 ^ (32 - n)).
Definition not32 (x : Z) : Z := 2 ^ 32 - 1 - x.

(** The words of a block. *)
Definition words_of (read : bytes -> Z) (block : bytes) : list Z :=
  map (fun i => read (drop (4 * i) block)) (seq 0 16).

Definition words32 (l : list Z) : Prop := Forall is_u32 l.

Lemma u32_add x y : u32 (x + y) = add32 x y.
Proof. apply u32_mod. Qed.
Lemma add32_assoc x y z : add32 x (add32 y z) = add32 (add32 x y) z.
Proof.
  unfold add32. rewrite Zplus_mod_idemp_l, Zplus_mod_idemp_r by lia. f_equal. lia.
Qed.
Lemma add32_comm x y : add32 x y = add32 y x.
Proof. unfold add32. f_equal. lia. Qed.
Lemma is_u32_add32 x y : is_u32 (add32 x y).
Proof. apply Z.mod_pos_bound. lia. Qed.

Lemma rotl_code n x :
  0 < n < 32 -> Z.lor (u32 (Z.shiftl x n)) (Z.shiftr x (32 - n)) = ROTL n x.
Proof. intros. unfold ROTL. by rewrite u32_mod, Z.shiftl_mul_pow2, Z.shiftr_div_pow2 by lia. Qed.

Lemma is_u32_lor x y : is_u32 x -> is_u32 y -> is_u32 (Z.lor x y).
Proof.
  intros Hx Hy. assert (0 <= Z.lor x y) by (apply Z.lor_nonneg; unfold is_u32 in *; lia).
  split; [done|]. apply (bound_of_testbit _ 32); [done|lia|]. intros i Hi.
  by rewrite Z.lor_spec, !testbit_u32 by done.
Qed.
Lemma is_u32_land x y : is_u32 x -> is_u32 y -> is_u32 (Z.land x y).
Proof.
  intros Hx Hy. assert (0 <= Z.land x y) by (apply Z.land_nonneg; unfold is_u32 in *; lia).
  split; [done|]. apply (bound_of_testbit _ 32); [done|lia|]. intros i Hi.
  by rewrite Z.land_spec, !testbit_u32 by done.
Qed.
Lemma is_u32_rotl n x : 0 < n < 32 -> is_u32 x -> is_u32 (ROTL n x).
Proof.
  intros Hn Hx. apply is_u32_lor; [apply Z.mod_pos_bound; lia|].
  unfold is_u32 in *. split; [apply Z.div_pos; lia|].
  apply Z.div_lt_upper_bound; [lia|]. nia.
Qed.
Lemma is_u32_not32 x : is_u32 x -> is_u32 (not32 x).
Proof. unfold is_u32, not32. lia. Qed.
#[export] Hint Resolve is_u32_add32 is_u32_lor is_u32_land is_u32_not32 : wlan.

Lemma u32_lnot x : is_u32 x -> u32 (Z.lnot x) = not32 x.
Proof.
  intros Hx. rewrite u32_mod. unfold not32, Z.lnot, is_u32 in *.
  symmetry. apply (Z.mod_unique_pos _ _ (-1)); lia.
Qed.

Lemma testbit_not32 x i :
  is_u32 x -> 0 <= i -> Z.testbit (not32 x) i = bool_decide (i < 32) && negb (Z.testbit x i).
Proof.
  intros Hx Hi. by rewrite <- u32_lnot, testbit_u32_trunc, Z.lnot_spec by done.
Qed.

(** Equations between boolean functions of 32-bit words, bit by bit. *)
Ltac bool_word :=
  apply Z.bits_inj'; let i := fresh "i" in let Hi := fresh "Hi" in intros i Hi;
  repeat rewrite ?Z.lxor_spec, ?Z.land_spec, ?Z.lor_spec, ?testbit_not32 by auto with wlan;
  destruct (decide (i < 32));
  [rewrite ?bool_decide_eq_true_2 by done|
   rewrite ?bool_decide_eq_false_2, ?testbit_u32 by (done || lia)];
  repeat match goal with |- context [Z.testbit ?x ?j] => destruct (Z.testbit x j) end;
  done.

Lemma words32_words_of read block :
  (forall b, is_u32 (read b)) -> words32 (words_of read block).
Proof. intros H. apply Forall_fmap, Forall_true. intros i. apply H. Qed.

Lemma words32_get l i : words32 l -> is_u32 (get l i).
Proof.
  intros Hl. unfold get. destruct (nth_in_or_default i l 0) as [Hi| ->]; [|unfold is_u32; lia].
  unfold words32 in Hl. rewrite List.Forall_forall in Hl. by apply Hl.
Qed.
#[export] Hint Resolve words32_get : wlan.

(** ** The count of bits

    MD5 and SHA-1 keep the number of bits in two words and propagate the carry
    by hand. *)
Definition bit_count (n b0 b1 : Z) : Prop :=
  b0 = (8 * n) mod 2 ^ 32 /\ b1 = (8 * n / 2 ^ 32) mod 2 ^ 32.

Lemma bit_count_carry n len b0 b1 :
  0 <= n -> 0 <= len < 2 ^ 32 -> bit_count n b0 b1 ->
  let s := u32 (b0 + u32 (Z.shiftl len 3)) in
  (s <? b0) = (s <? u32 (Z.shiftl len 3)) /\
  bit_count (n + len) s
    (u32 ((if s <? b0 then u32 (b1 + 1) else b1) + Z.shiftr len 29)).
Proof.
  intros Hn Hlen [-> ->]. cbv zeta. rewrite Z.shiftl_mul_pow2, Z.shiftr_div_pow2, !u32_mod by lia.
  change (2 ^ 3) with 8. change (2 ^ 29) with 536870912. change (2 ^ 32) with 4294967296 in *.
  unfold bit_count. change (2 ^ 32) with 4294967296.
  assert (E : 8 * n mod 4294967296 = 8 * (n mod 536870912)) by zdiv.
  assert (E1 : 8 * n / 4294967296 = n / 536870912) by zdiv.
  assert (E2 : len * 8 mod 4294967296 = 8 * (len mod 536870912)) by zdiv.
  assert (E3 : 8 * (n + len) / 4294967296 = (n + len) / 536870912) by zdiv.
  assert (E4 : 8 * (n + len) mod 4294967296 = 8 * ((n + len) mod 536870912)) by zdiv.
  rewrite E, E1, E2, E3, E4.
  assert (E5 : (8 * (n mod 536870912) + 8 * (len mod 536870912)) mod 4294967296
               = 8 * ((n + len) mod 536870912)) by zdiv.
  rewrite E5. split; [|split; [done|]].
  - destruct (Z.ltb_spec (8 * ((n + len) mod 536870912)) (8 * (n mod 536870912))),
      (Z.ltb_spec (8 * ((n + len) mod 536870912)) (8 * (len mod 536870912))); try done; zdiv.
  - destruct (Z.ltb_spec (8 * ((n + len) mod 536870912)) (8 * (n mod 536870912))) as [Hc|Hc].
    + rewrite Zplus_mod_idemp_l by lia.
      rewrite <- Z.add_assoc, Zplus_mod_idemp_l by lia. f_equal. zdiv.
    + rewrite Zplus_mod_idemp_l by lia. f_equal. zdiv.
Qed.

Lemma bit_count_rest n b0 b1 :
  bit_count (Z.of_nat n) b0 b1 -> Z.land (Z.shiftr b0 3) 63 = Z.of_nat (n mod 64).
Proof.
  intros [-> _]. rewrite Z.shiftr_div_pow2 by lia. change 63 with (Z.ones 6).
  rewrite Z.land_ones, Nat2Z.inj_mod by lia. change (2 ^ 3) with 8.
  change (2 ^ 32) with 4294967296. change (2 ^ 6) with 64. zdiv.
Qed.

Lemma be_encode_add n m z :
  be_encode (n + m) z = be_encode n (z / 256 ^ Z.of_nat m) ++ be_encode m z.
Proof.
  revert z. induction m as [|m IH]; intros z.
  - by rewrite Nat.add_0_r, Z.pow_0_r, Z.div_1_r, app_nil_r.
  - rewrite Nat.add_succ_r. cbn [be_encode]. rewrite IH, <- app_assoc. do 2 f_equal.
    rewrite Nat2Z.inj_succ, Z.pow_succ_r, Z.div_div by lia. done.
Qed.

Lemma be_encode_mod n z : be_encode n (z mod 256 ^ Z.of_nat n) = be_encode n z.
Proof.
  rewrite <- (be_encode_decode (be_encode n z)), length_be_encode by apply wf_be_encode.
  by rewrite be_decode_encode.
Qed.

(** The two words are the 8 bytes of the count. *)
Lemma bit_count_encode n b0 b1 :
  bit_count n b0 b1 -> be_encode 4 b1 ++ be_encode 4 b0 = be_encode 8 (8 * n).
Proof.
  intros [-> ->]. rewrite (be_encode_add 4 4).
  f_equal; exact (be_encode_mod 4 _).
Qed.

Lemma words32_add st r : words32 (zip_with add32 st r).
Proof.
  revert r. induction st as [|x st IH]; intros [|y r]; try by constructor.
  constructor; [apply is_u32_add32|apply IH].
Qed.

(** Truncating a sum once is truncating after every addition. *)
Lemma add32_u32 x y : add32 (u32 x) y = u32 (x + y).
Proof. unfold add32. rewrite !u32_mod. apply Zplus_mod_idemp_l. Qed.
Lemma add32_u32_2 x y : add32 x y = u32 (x + y).
Proof. symmetry. apply u32_mod. Qed.

Lemma add32_sum5 a b c d e : add32 (add32 (add32 (add32 a b) c) d) e = u32 (a + b + c + d + e).
Proof. by rewrite (add32_u32_2 a), !add32_u32. Qed.

Lemma BE32_be_decode (l : bytes) :
  wf_bytes l -> (4 <= length l)%nat -> WPA_GET_BE32 l = be_decode (take 4 l).
Proof.
  intros Hw Hl. destruct l as [|a [|b [|c [|d l]]]]; cbn in Hl; try lia.
  unfold wf_bytes in Hw. rewrite !Forall_cons in Hw. destruct Hw as (?&?&?&?&_).
  by apply WPA_GET_BE32_decode.
Qed.

Lemma get_take n (l : list Z) i : (i < n)%nat -> get (take n l) i = get l i.
Proof. intros. unfold get. rewrite !nth_lookup. by rewrite lookup_take_lt. Qed.

(** ** Padding in place *)

Lemma take_memcpy_0 b x n : length x = n -> take n (memcpy b 0 x) = x.
Proof. intros <-. unfold memcpy. rewrite take_0. cbn [app]. by rewrite take_app_length. Qed.

Lemma memcpy_pad b r n :
  (r + 1 + n <= length b)%nat ->
  take (r + 1 + n) (memcpy (memcpy b r [128]) (S r) (replicate n 0))
  = take r b ++ 128 :: replicate n 0.
Proof.
  intros Hb. unfold memcpy at 1. rewrite app_assoc, take_app_length'.
  - unfold memcpy. cbn [length]. rewrite app_assoc, take_app_length'
      by (rewrite length_app, length_take; cbn [length]; lia).
    by rewrite <- app_assoc.
  - rewrite length_app, length_replicate, length_take, length_memcpy by (cbn [length]; lia). lia.
Qed.

Lemma length_memcpy_pad b r n :
  length b = 64%nat -> (S r + n <= 64)%nat ->
  length (memcpy (memcpy b r [128]) (S r) (replicate n 0)) = 64%nat.
Proof.
  intros Hb Hn.
  rewrite !length_memcpy; rewrite ?length_memcpy, ?length_replicate; cbn [length]; lia.
Qed.

(** ** Digests *)

Lemma wf_concat_encode f (st : list Z) :
  (forall w, wf_bytes (f w)) -> wf_bytes (concat (map f st)).
Proof.
  intros Hf. induction st as [|w st IH]; [constructor|]. apply wf_bytes_app. split; [apply Hf|done].
Qed.

Lemma length_concat_encode f n (st : list Z) :
  (forall w, length (f w : bytes) = n) -> length (concat (map f st)) = (length st * n)%nat.
Proof.
  intros Hf. induction st as [|w st IH]; [done|]. cbn [map concat length].
  rewrite length_app, IH, Hf. lia.
Qed.
