(* ===== verification/Md5.v ===== *)
(** * MD5

    Hostap's [crypto/md5-internal.c], on a little-endian machine, where
    [byteReverse] is empty and the block is read as words in the order of
    RFC 1321; the hash of a fragment vector is proved equal to the RFC's hash of
    the concatenation. *)

From S2P Require Import Prelude Bytes HashSpec.

(** ** Code *)

Record MD5Context := { buf : list Z; bits0 : Z; bits1 : Z; in_ : bytes }.

#[export] Instance md5_context_settable : Settable MD5Context :=
  fun c => {| buf := buf c; bits0 := bits0 c; bits1 := bits1 c; in_ := in_ c |}.
#[export] Instance set_buf : Setter buf := ltac:(solve_setter).
#[export] Instance set_bits0 : Setter bits0 := ltac:(solve_setter).
#[export] Instance set_bits1 : Setter bits1 := ltac:(solve_setter).
#[export] Instance set_in : Setter in_ := ltac:(solve_setter).

Definition F1 (x y z : Z) : Z := Z.lxor z (Z.land x (Z.lxor y z)).
Definition F2 (x y z : Z) : Z := F1 z x y.
Definition F3 (x y z : Z) : Z := Z.lxor (Z.lxor x y) z.
Definition F4 (x y z : Z) : Z := Z.lxor y (Z.lor x (u32 (Z.lnot z))).

(** The registers [a], [b], [c], [d] are the elements 0 to 3 of a list. *)
Definition MD5STEP (f : Z -> Z -> Z -> Z) (w x y z : nat) (data s : Z) (r : list Z) : list Z :=
  let v := u32 (get r w + u32 (f (get r x) (get r y) (get r z) + u32 data)) in
  let v := Z.lor (u32 (Z.shiftl v s)) (Z.shiftr v (32 - s)) in
  <[w := u32 (v + get r x)]> r.

Definition md5_steps (in_ : list Z) : list (list Z -> list Z) :=
  let a := 0%nat in let b := 1%nat in let c := 2%nat in let d := 3%nat in
  [
   MD5STEP F1 a b c d (get in_ 0 + 0xd76aa478) 7;
   MD5STEP F1 d a b c (get in_ 1 + 0xe8c7b756) 12;
   MD5STEP F1 c d a b (get in_ 2 + 0x242070db) 17;
   MD5STEP F1 b c d a (get in_ 3 + 0xc1bdceee) 22;
   MD5STEP F1 a b c d (get in_ 4 + 0xf57c0faf) 7;
   MD5STEP F1 d a b c (get in_ 5 + 0x4787c62a) 12;
   MD5STEP F1 c d a b (get in_ 6 + 0xa8304613) 17;
   MD5STEP F1 b c d a (get in_ 7 + 0xfd469501) 22;
   MD5STEP F1 a b c d (get in_ 8 + 0x698098d8) 7;
   MD5STEP F1 d a b c (get in_ 9 + 0x8b44f7af) 12;
   MD5STEP F1 c d a b (get in_ 10 + 0xffff5bb1) 17;
   MD5STEP F1 b c d a (get in_ 11 + 0x895cd7be) 22;
   MD5STEP F1 a b c d (get in_ 12 + 0x6b901122) 7;
   MD5STEP F1 d a b c (get in_ 13 + 0xfd987193) 12;
   MD5STEP F1 c d a b (get in_ 14 + 0xa679438e) 17;
   MD5STEP F1 b c d a (get in_ 15 + 0x49b40821) 22;
   MD5STEP F2 a b c d (get in_ 1 + 0xf61e2562) 5;
   MD5STEP F2 d a b c (get in_ 6 + 0xc040b340) 9;
   MD5STEP F2 c d a b (get in_ 11 + 0x265e5a51) 14;
   MD5STEP F2 b c d a (get in_ 0 + 0xe9b6c7aa) 20;
   MD5STEP F2 a b c d (get in_ 5 + 0xd62f105d) 5;
   MD5STEP F2 d a b c (get in_ 10 + 0x02441453) 9;
   MD5STEP F2 c d a b (get in_ 15 + 0xd8a1e681) 14;
   MD5STEP F2 b c d a (get in_ 4 + 0xe7d3fbc8) 20;
   MD5STEP F2 a b c d (get in_ 9 + 0x21e1cde6) 5;
   MD5STEP F2 d a b c (get in_ 14 + 0xc33707d6) 9;
   MD5STEP F2 c d a b (get in_ 3 + 0xf4d50d87) 14;
   MD5STEP F2 b c d a (get in_ 8 + 0x455a14ed) 20;
   MD5STEP F2 a b c d (get in_ 13 + 0xa9e3e905) 5;
   MD5STEP F2 d a b c (get in_ 2 + 0xfcefa3f8) 9;
   MD5STEP F2 c d a b (get in_ 7 + 0x676f02d9) 14;
   MD5STEP F2 b c d a (get in_ 12 + 0x8d2a4c8a) 20;
   MD5STEP F3 a b c d (get in_ 5 + 0xfffa3942) 4;
   MD5STEP F3 d a b c (get in_ 8 + 0x8771f681) 11;
   MD5STEP F3 c d a b (get in_ 11 + 0x6d9d6122) 16;
   MD5STEP F3 b c d a (get in_ 14 + 0xfde5380c) 23;
   MD5STEP F3 a b c d (get in_ 1 + 0xa4beea44) 4;
   MD5STEP F3 d a b c (get in_ 4 + 0x4bdecfa9) 11;
   MD5STEP F3 c d a b (get in_ 7 + 0xf6bb4b60) 16;
   MD5STEP F3 b c d a (get in_ 10 + 0xbebfbc70) 23;
   MD5STEP F3 a b c d (get in_ 13 + 0x289b7ec6) 4;
   MD5STEP F3 d a b c (get in_ 0 + 0xeaa127fa) 11;
   MD5STEP F3 c d a b (get in_ 3 + 0xd4ef3085) 16;
   MD5STEP F3 b c d a (get in_ 6 + 0x04881d05) 23;
   MD5STEP F3 a b c d (get in_ 9 + 0xd9d4d039) 4;
   MD5STEP F3 d a b c (get in_ 12 + 0xe6db99e5) 11;
   MD5STEP F3 c d a b (get in_ 15 + 0x1fa27cf8) 16;
   MD5STEP F3 b c d a (get in_ 2 + 0xc4ac5665) 23;
   MD5STEP F4 a b c d (get in_ 0 + 0xf4292244) 6;
   MD5STEP F4 d a b c (get in_ 7 + 0x432aff97) 10;
   MD5STEP F4 c d a b (get in_ 14 + 0xab9423a7) 15;
   MD5STEP F4 b c d a (get in_ 5 + 0xfc93a039) 21;
   MD5STEP F4 a b c d (get in_ 12 + 0x655b59c3) 6;
   MD5STEP F4 d a b c (get in_ 3 + 0x8f0ccc92) 10;
   MD5STEP F4 c d a b (get in_ 10 + 0xffeff47d) 15;
   MD5STEP F4 b c d a (get in_ 1 + 0x85845dd1) 21;
   MD5STEP F4 a b c d (get in_ 8 + 0x6fa87e4f) 6;
   MD5STEP F4 d a b c (get in_ 15 + 0xfe2ce6e0) 10;
   MD5STEP F4 c d a b (get in_ 6 + 0xa3014314) 15;
   MD5STEP F4 b c d a (get in_ 13 + 0x4e0811a1) 21;
   MD5STEP F4 a b c d (get in_ 4 + 0xf7537e82) 6;
   MD5STEP F4 d a b c (get in_ 11 + 0xbd3af235) 10;
   MD5STEP F4 c d a b (get in_ 2 + 0x2ad7d2bb) 15;
   MD5STEP F4 b c d a (get in_ 9 + 0xeb86d391) 21].

Definition MD5Transform (buf in_ : list Z) : list Z :=
  let r := foldl (fun r step => step r) buf (md5_steps in_) in
  zip_with (fun x y => u32 (x + y)) buf r.

(** [ctx->in] cast to an array of words. *)
Definition in_words (in_ : bytes) : list Z := words_of WPA_GET_LE32 in_.

Definition MD5Init (ctx : MD5Context) : MD5Context :=
  ctx <| buf := [0x67452301; 0xefcdab89; 0x98badcfe; 0x10325476] |>
      <| bits0 := 0 |> <| bits1 := 0 |>.

(** [while (len >= 64)], then the remaining bytes. *)
Fixpoint MD5Update_blocks (fuel : nat) (ctx : MD5Context) (data : bytes) (len : Z) : MD5Context :=
  match fuel with
  | O => ctx
  | S fuel =>
    if 64 <=? len then
      let ctx := ctx <| in_ := memcpy (in_ ctx) 0 (take 64 data) |> in
      let ctx := ctx <| buf := MD5Transform (buf ctx) (in_words (in_ ctx)) |> in
      MD5Update_blocks fuel ctx (drop 64 data) (len - 64)
    else ctx <| in_ := memcpy (in_ ctx) 0 (take (Z.to_nat len) data) |>
  end.

(** The number of bits, with the carry from the low to the high word. *)
Definition MD5Update_count (ctx : MD5Context) (len : Z) : MD5Context :=
  let t := bits0 ctx in
  let ctx := ctx <| bits0 := u32 (t + u32 (Z.shiftl len 3)) |> in
  let ctx := if bits0 ctx <? t then ctx <| bits1 := u32 (bits1 ctx + 1) |> else ctx in
  ctx <| bits1 := u32 (bits1 ctx + Z.shiftr len 29) |>.

Definition MD5Update (ctx : MD5Context) (data : bytes) (len : Z) : MD5Context :=
  let t := bits0 ctx in
  let ctx := MD5Update_count ctx len in
  let t := Z.land (Z.shiftr t 3) 0x3f in
  if negb (t =? 0) then
    let p := Z.to_nat t in
    let t := 64 - t in
    if len <? t then ctx <| in_ := memcpy (in_ ctx) p (take (Z.to_nat len) data) |>
    else
      let ctx := ctx <| in_ := memcpy (in_ ctx) p (take (Z.to_nat t) data) |> in
      let ctx := ctx <| buf := MD5Transform (buf ctx) (in_words (in_ ctx)) |> in
      MD5Update_blocks (S (Z.to_nat (len / 64))) ctx (drop (Z.to_nat t) data) (len - t)
  else MD5Update_blocks (S (Z.to_nat (len / 64))) ctx data len.

Definition MD5Final (ctx : MD5Context) : bytes :=
  let count := Z.land (Z.shiftr (bits0 ctx) 3) 0x3f in
  let ctx := ctx <| in_ := memcpy (in_ ctx) (Z.to_nat count) [0x80] |> in
  let p := S (Z.to_nat count) in
  let count := 64 - 1 - count in
  let ctx :=
    if count <? 8 then
      let ctx := ctx <| in_ := memcpy (in_ ctx) p (replicate (Z.to_nat count) 0) |> in
      let ctx := ctx <| buf := MD5Transform (buf ctx) (in_words (in_ ctx)) |> in
      ctx <| in_ := memcpy (in_ ctx) 0 (replicate 56 0) |>
    else ctx <| in_ := memcpy (in_ ctx) p (replicate (Z.to_nat (count - 8)) 0) |> in
  let ctx := ctx <| in_ := memcpy (in_ ctx) 56 (WPA_PUT_LE32 (bits0 ctx)) |> in
  let ctx := ctx <| in_ := memcpy (in_ ctx) 60 (WPA_PUT_LE32 (bits1 ctx)) |> in
  let ctx := ctx <| buf := MD5Transform (buf ctx) (in_words (in_ ctx)) |> in
  concat (map WPA_PUT_LE32 (buf ctx)).

(** [stack] is the uninitialised context; [len[i]] is converted to [unsigned]. *)
Definition md5_vector (stack : MD5Context) (addr : list bytes) : option bytes :=
  let ctx := MD5Init stack in
  let ctx := foldl (fun ctx a => MD5Update ctx a (u32 (Z.of_nat (length a)))) ctx addr in
  Some (MD5Final ctx).

(** ** RFC 1321

    Step [t] (from 0) takes (A, B, C, D) to (D, B + ((A + f(B,C,D) + X[k] +
    T[t+1]) <<< s), B, C).  The constants T[i] are the first 32 bits after the
    point of |sin i|, computed here with 96 bits of fraction from the series of
    sin 1 and cos 1 and the addition theorems. *)

Definition fraction : Z := 2 ^ 96.
Fixpoint series (n : nat) (term : Z) (k : Z) : Z :=
  match n with O => 0 | S n => term - series n (term / ((k + 1) * (k + 2))) (k + 2) end.
Definition sin1 : Z := series 20 fraction 1.
Definition cos1 : Z := series 20 fraction 0.
Definition next_angle (p : Z * Z) : Z * Z :=
  ((p.1 * cos1 + p.2 * sin1) / fraction, (p.2 * cos1 - p.1 * sin1) / fraction).
Definition sine (i : nat) : Z := (Nat.iter i next_angle (0, fraction)).1.
Definition rfc_T (i : nat) : Z := Z.abs (sine i) * 2 ^ 32 / fraction.
Definition rfc_table : list Z := Eval vm_compute in map rfc_T (seq 1 64).

Definition rfc_f (t : nat) (x y z : Z) : Z :=
  match (t / 16)%nat with
  | 0%nat => Z.lor (Z.land x y) (Z.land (not32 x) z)
  | 1%nat => Z.lor (Z.land x z) (Z.land y (not32 z))
  | 2%nat => Z.lxor x (Z.lxor y z)
  | _ => Z.lxor y (Z.lor x (not32 z))
  end.
Definition rfc_k (t : nat) : nat :=
  match (t / 16)%nat with
  | 0%nat => t
  | 1%nat => (5 * t + 1) mod 16
  | 2%nat => (3 * t + 5) mod 16
  | _ => (7 * t) mod 16
  end.
Definition rfc_s (t : nat) : Z :=
  get (match (t / 16)%nat with
       | 0%nat => [7; 12; 17; 22]
       | 1%nat => [5; 9; 14; 20]
       | 2%nat => [4; 11; 16; 23]
       | _ => [6; 10; 15; 21]
       end) (t mod 4).

Definition rfc_step (X : list Z) (st : list Z) (t : nat) : list Z :=
  match st with
  | [A; B; C; D] =>
    [D; add32 B (ROTL (rfc_s t) (add32 (add32 (add32 A (rfc_f t B C D)) (get X (rfc_k t)))
                                       (get rfc_table t))); B; C]
  | _ => st
  end.

Definition rfc_compress (st : list Z) (block : bytes) : list Z :=
  zip_with add32 st (foldl (rfc_step (words_of WPA_GET_LE32 block)) st (seq 0 64)).

Definition rfc_iv : list Z :=
  WPA_GET_LE32 <$> [[0x01;0x23;0x45;0x67]; [0x89;0xab;0xcd;0xef]; [0xfe;0xdc;0xba;0x98];
                    [0x76;0x54;0x32;0x10]].

Definition md5 (msg : bytes) : bytes :=
  concat (map (fun w => reverse (be_encode 4 w))
    (md_state rfc_compress rfc_iv (fun n => reverse (be_encode 8 n)) msg)).

(** ** The transform is the RFC's *)

(** The registers as the RFC orders them before step [t]: A is register [-t mod 4]. *)
Definition reg (t k : nat) : nat := ((k + 3 * t) mod 4)%nat.
Definition view (t : nat) (r : list Z) : list Z :=
  [get r (reg t 0); get r (reg t 1); get r (reg t 2); get r (reg t 3)].

Definition code_f (t : nat) : Z -> Z -> Z -> Z :=
  match (t / 16)%nat with 0%nat => F1 | 1%nat => F2 | 2%nat => F3 | _ => F4 end.
Definition code_step (X : list Z) (t : nat) : list Z -> list Z :=
  MD5STEP (code_f t) (reg t 0) (reg t 1) (reg t 2) (reg t 3)
    (get X (rfc_k t) + get rfc_table t) (rfc_s t).

Lemma md5_steps_regular X : md5_steps X = map (code_step X) (seq 0 64).
Proof. reflexivity. Qed.

Lemma code_f_rfc t x y z : is_u32 x -> is_u32 y -> is_u32 z -> code_f t x y z = rfc_f t x y z.
Proof.
  intros Hx Hy Hz. unfold code_f, rfc_f, F2.
  destruct (t / 16)%nat as [|[|[|n]]]; unfold F1, F3, F4; rewrite ?u32_lnot by done; bool_word.
Qed.

Lemma is_u32_rfc_f t x y z : is_u32 x -> is_u32 y -> is_u32 z -> is_u32 (rfc_f t x y z).
Proof. intros. unfold rfc_f. destruct (t / 16)%nat as [|[|[|n]]]; auto 6 with wlan. Qed.

Lemma rfc_s_range t : 0 < rfc_s t < 32.
Proof.
  unfold rfc_s. pose proof (Nat.mod_upper_bound t 4 ltac:(lia)).
  destruct (t / 16)%nat as [|[|[|n]]]; destruct (t mod 4)%nat as [|[|[|[|m]]]]; cbn; lia.
Qed.

Lemma md5_reg_cases t : exists w, (w < 4)%nat /\
  reg t 0 = w /\ reg t 1 = ((w + 1) mod 4)%nat /\ reg t 2 = ((w + 2) mod 4)%nat /\
  reg t 3 = ((w + 3) mod 4)%nat /\ reg (S t) 0 = ((w + 3) mod 4)%nat /\ reg (S t) 1 = w /\
  reg (S t) 2 = ((w + 1) mod 4)%nat /\ reg (S t) 3 = ((w + 2) mod 4)%nat.
Proof.
  exists (reg t 0). split; [by apply Nat.mod_upper_bound|]. unfold reg.
  replace (3 * S t)%nat with (3 * t + 3)%nat by lia.
  generalize (3 * t)%nat. intros n. rewrite !Nat.Div0.add_mod_idemp_l.
  split_and!; try (f_equal; lia);
    [replace (1 + (n + 3))%nat with (n + 1 * 4)%nat by lia
    |replace (2 + (n + 3))%nat with (n + 1 + 1 * 4)%nat by lia
    |replace (3 + (n + 3))%nat with (n + 2 + 1 * 4)%nat by lia];
    rewrite Nat.Div0.mod_add; f_equal; lia.
Qed.

(** One step: the view of the registers changes as the RFC says. *)
Lemma code_step_rfc X t r :
  length r = 4%nat -> words32 r ->
  view (S t) (code_step X t r) = rfc_step X (view t r) t /\
  length (code_step X t r) = 4%nat /\ words32 (code_step X t r).
Proof.
  intros Hl Hw. pose proof (rfc_s_range t) as Hs.
  unfold code_step, MD5STEP. rewrite !u32_add, code_f_rfc by auto with wlan.
  rewrite rotl_code, !add32_assoc, (add32_comm (ROTL _ _)) by done.
  set (v := add32 (get r (reg t 1)) _). split_and!.
  - unfold view at 2. cbn [rfc_step]. fold v. unfold view.
    destruct (md5_reg_cases t) as (w & Hlt & -> & -> & -> & -> & -> & -> & -> & ->).
    destruct r as [|r0 [|r1 [|r2 [|r3 [|]]]]]; try done.
    destruct w as [|[|[|[|w]]]]; [reflexivity..|lia].
  - by rewrite length_insert.
  - apply Forall_insert; [done|]. apply is_u32_add32.
Qed.

Lemma code_steps_rfc X n r :
  length r = 4%nat -> words32 r ->
  let r' := foldl (fun r step => step r) r (map (code_step X) (seq 0 n)) in
  view n r' = foldl (rfc_step X) (view 0 r) (seq 0 n) /\ length r' = 4%nat /\ words32 r'.
Proof.
  intros Hl Hw. cbv zeta. induction n as [|n (Hv & Hl' & Hw')]; [done|].
  rewrite seq_S, map_app, !foldl_app. cbn [map foldl Nat.add].
  destruct (code_step_rfc X n _ Hl' Hw') as (-> & ? & ?). by rewrite Hv.
Qed.

Lemma md5_view_0 r : length r = 4%nat -> view 0 r = r.
Proof. by destruct r as [|? [|? [|? [|? [|]]]]]. Qed.
Lemma view_64 r : view 64 r = view 0 r.
Proof. done. Qed.

Definition wf_state (st : list Z) : Prop := length st = 4%nat /\ words32 st.

Lemma MD5Transform_rfc st block :
  wf_state st ->
  MD5Transform st (in_words block) = rfc_compress st block /\ wf_state (rfc_compress st block).
Proof.
  intros [Hl Hw]. unfold MD5Transform, rfc_compress. rewrite md5_steps_regular.
  destruct (code_steps_rfc (in_words block) 64 st Hl Hw) as (Hv & Hl' & _).
  rewrite view_64, !md5_view_0 in Hv by done. fold (in_words block). rewrite <- Hv.
  split; [|split].
  - apply zip_with_ext; [|done..]. intros. apply u32_add.
  - rewrite length_zip_with, Hl, Hl'. done.
  - apply words32_add.
Qed.

Lemma md5_absorb_wf n st data : wf_state st -> wf_state (absorb rfc_compress n st data).
Proof.
  revert st data. induction n as [|n IH]; intros st data Hs; [done|].
  apply IH. by apply MD5Transform_rfc.
Qed.

Lemma rfc_iv_wf : wf_state rfc_iv.
Proof. split; [done|]. by apply (bool_decide_unpack _). Qed.

(** ** Streaming *)

Ltac ctx_simpl := cbn [buf bits0 bits1 in_ set set_buf set_bits0 set_bits1 set_in].

Record md5_holds (ctx : MD5Context) (data : bytes) : Prop := {
  holds_blocks : streams rfc_compress rfc_iv (buf ctx) (in_ ctx) data;
  holds_count : bit_count (Z.of_nat (length data)) (bits0 ctx) (bits1 ctx);
}.

Lemma md5_streams_wf st b data : streams rfc_compress rfc_iv st b data -> wf_state st.
Proof. intros [-> _ _]. apply md5_absorb_wf, rfc_iv_wf. Qed.

Lemma md5_block_holds st b data x b' :
  streams rfc_compress rfc_iv st b data ->
  (length data mod 64 + length x = 64)%nat -> length b' = 64%nat ->
  streams rfc_compress rfc_iv
    (MD5Transform st (in_words (memcpy b (length data mod 64) x))) b' (data ++ x).
Proof.
  intros Hs Hx Hb. rewrite memcpy_block by (done || apply Hs).
  destruct (MD5Transform_rfc st (take (length data mod 64) b ++ x)) as [-> _];
    [by eapply md5_streams_wf|]. by apply (streams_block _ _ _ b).
Qed.

Lemma MD5Update_blocks_holds fuel ctx data more len :
  len = Z.of_nat (length more) -> len < 64 * Z.of_nat fuel ->
  streams rfc_compress rfc_iv (buf ctx) (in_ ctx) data -> (length data mod 64 = 0)%nat ->
  let ctx' := MD5Update_blocks fuel ctx more len in
  streams rfc_compress rfc_iv (buf ctx') (in_ ctx') (data ++ more) /\
  bits0 ctx' = bits0 ctx /\ bits1 ctx' = bits1 ctx.
Proof.
  intros -> Hf. revert ctx data more Hf.
  induction fuel as [|fuel IH]; intros ctx data more Hf Hs Hm; [lia|]. cbn [MD5Update_blocks].
  case_match eqn:E; cbv zeta.
  - assert (Hl : length (take 64 more) = 64%nat) by (rewrite length_take; lia).
    replace (Z.of_nat (length more) - 64) with (Z.of_nat (length (drop 64 more)))
      by (rewrite length_drop; lia).
    replace (data ++ more) with ((data ++ take 64 more) ++ drop 64 more)
      by (by rewrite <- app_assoc, take_drop).
    match goal with |- context [MD5Update_blocks _ ?c _ _] => set (c' := c) end.
    destruct (IH c' (data ++ take 64 more) (drop 64 more)) as (? & Hb0 & Hb1).
    + rewrite length_drop. lia.
    + unfold c'. ctx_simpl. pose proof (md5_block_holds _ _ data (take 64 more)
        (memcpy (in_ ctx) 0 (take 64 more)) Hs) as Hn. rewrite Hm in Hn. apply Hn; [lia|].
      rewrite length_memcpy; [apply Hs|]. rewrite Hl. by rewrite (st_buf _ _ _ _ _ Hs).
    + rewrite length_app, Hl. rewrite <- Nat.Div0.add_mod_idemp_l, Hm. done.
    + by rewrite Hb0, Hb1.
  - rewrite Nat2Z.id, take_ge by lia. ctx_simpl. split; [|done].
    pose proof (streams_fill _ _ _ _ data more Hs) as Hn. rewrite Hm in Hn. apply Hn. lia.
Qed.

Lemma MD5Update_count_holds ctx (data more : bytes) :
  bit_count (Z.of_nat (length data)) (bits0 ctx) (bits1 ctx) ->
  Z.of_nat (length more) < 2 ^ 32 ->
  let ctx' := MD5Update_count ctx (Z.of_nat (length more)) in
  buf ctx' = buf ctx /\ in_ ctx' = in_ ctx /\
  bit_count (Z.of_nat (length (data ++ more))) (bits0 ctx') (bits1 ctx').
Proof.
  intros Hc Hl.
  destruct (bit_count_carry _ (Z.of_nat (length more)) _ _ (Nat2Z.is_nonneg (length data))
    ltac:(lia) Hc) as [_ Hc'].
  rewrite <- Nat2Z.inj_add, <- length_app in Hc'.
  unfold MD5Update_count. cbv zeta. ctx_simpl. by case_match.
Qed.

Lemma MD5Update_holds ctx (data more : bytes) :
  md5_holds ctx data -> Z.of_nat (length more) < 2 ^ 32 ->
  md5_holds (MD5Update ctx more (Z.of_nat (length more))) (data ++ more).
Proof.
  intros [Hs Hc] Hl. unfold MD5Update. rewrite (bit_count_rest _ _ _ Hc).
  destruct (MD5Update_count_holds ctx data more Hc Hl) as (Eb & Ei & Hc').
  revert Eb Ei Hc'. generalize (MD5Update_count ctx (Z.of_nat (length more))).
  intros ctx' Eb Ei Hc'. rewrite <- Eb, <- Ei in Hs.
  pose proof (div_mod_64 (length data)) as [_ Hm].
  case_match eqn:E0; [case_match eqn:E1|].
  - split; [|done]. ctx_simpl. rewrite !Nat2Z.id, take_ge by lia. apply streams_fill; [done|lia].
  - replace (Z.to_nat (64 - Z.of_nat (length data mod 64))) with (64 - length data mod 64)%nat by lia.
    rewrite Nat2Z.id. set (r := (length data mod 64)%nat) in *.
    replace (Z.of_nat (length more) - (64 - Z.of_nat r))
      with (Z.of_nat (length (drop (64 - r) more))) by (rewrite length_drop; lia).
    replace (data ++ more) with ((data ++ take (64 - r) more) ++ drop (64 - r) more) in *
      by (by rewrite <- app_assoc, take_drop).
    assert (Hx : length (take (64 - r) more) = (64 - r)%nat) by (rewrite length_take; lia).
    match goal with |- md5_holds (MD5Update_blocks _ ?c _ _) _ => set (c2 := c) end.
    destruct (MD5Update_blocks_holds (S (Z.to_nat (Z.of_nat (length more) / 64))) c2
      (data ++ take (64 - r) more) (drop (64 - r) more) _ eq_refl) as (? & Hb0 & Hb1).
    + rewrite length_drop. zdiv.
    + unfold c2. ctx_simpl. apply md5_block_holds; [done|lia|].
      rewrite length_memcpy; rewrite ?(st_buf _ _ _ _ _ Hs); lia.
    + destruct (div_mod_unique_64 (length (data ++ take (64 - r) more)) (S (length data / 64)) 0);
        [|lia|done]. rewrite length_app. pose proof (div_mod_64 (length data)). lia.
    + split; [done|]. by rewrite Hb0, Hb1.
  - destruct (MD5Update_blocks_holds (S (Z.to_nat (Z.of_nat (length more) / 64))) ctx'
      data more _ eq_refl) as (? & Hb0 & Hb1); [zdiv|done|lia|].
    split; [done|]. by rewrite Hb0, Hb1.
Qed.

Lemma length_le_encode n z : length (reverse (be_encode n z)) = n.
Proof. by rewrite length_reverse, length_be_encode. Qed.

(** The two words of the count at the end of the last block. *)
Lemma md5_length_bytes n b0 b1 :
  bit_count n b0 b1 -> WPA_PUT_LE32 b0 ++ WPA_PUT_LE32 b1 = reverse (be_encode 8 (8 * n)).
Proof.
  intros Hc. rewrite <- (bit_count_encode _ _ _ Hc), reverse_app.
  destruct (WPA_PUT_LE_reverse b0) as (_ & -> & _).
  destruct (WPA_PUT_LE_reverse b1) as (_ & -> & _).
  by rewrite !WPA_PUT_BE32_encode.
Qed.

Lemma memcpy_56 b x y :
  length b = 64%nat -> length x = 4%nat -> length y = 4%nat ->
  memcpy (memcpy b 56 x) 60 y = take 56 b ++ x ++ y.
Proof.
  intros Hb Hx Hy. unfold memcpy at 1.
  unfold memcpy. rewrite Hx, Hy, (drop_ge (_ ++ _)), app_nil_r
    by (rewrite !length_app, length_take, length_drop; lia).
  rewrite app_assoc, take_app_length' by (rewrite length_app, length_take; lia).
  by rewrite <- app_assoc.
Qed.

Lemma md5_digest st :
  concat (map WPA_PUT_LE32 st) = concat (map (fun w => reverse (be_encode 4 w)) st).
Proof.
  f_equal. apply map_ext. intros w. destruct (WPA_PUT_LE_reverse w) as (_ & -> & _).
  by rewrite WPA_PUT_BE32_encode.
Qed.

Lemma length_WPA_PUT_LE32 v : length (WPA_PUT_LE32 v) = 4%nat.
Proof. done. Qed.

Lemma MD5Final_holds ctx data : md5_holds ctx data -> MD5Final ctx = md5 data.
Proof.
  intros [Hs Hc]. unfold MD5Final, md5. rewrite (bit_count_rest _ _ _ Hc), md5_digest.
  pose proof (md5_streams_wf _ _ _ Hs) as Hw. pose proof (st_buf _ _ _ _ _ Hs) as Hb.
  pose proof (div_mod_64 (length data)) as [_ Hm]. rewrite !Nat2Z.id.
  pose proof (memcpy_pad (in_ ctx) (length data mod 64)) as Hpad.
  do 2 f_equal. case_match eqn:E; ctx_simpl; rewrite memcpy_56; try done.
  - rewrite (streams_pad_long _ _ _ _ _ _ (length_le_encode 8) Hs) by lia.
    replace (Z.to_nat (64 - 1 - Z.of_nat (length data mod 64)))
      with (63 - length data mod 64)%nat by lia.
    rewrite <- Hpad, <- md5_length_bytes with (1 := Hc) by lia.
    rewrite (take_ge (memcpy _ (S _) _)) by (rewrite length_memcpy_pad; lia).
    rewrite (take_memcpy_0 _ (replicate 56 0) 56) by done.
    destruct (MD5Transform_rfc _ (memcpy (memcpy (in_ ctx) (length data mod 64) [128])
      (S (length data mod 64)) (replicate (63 - length data mod 64) 0)) Hw) as [-> Hw'].
    by apply MD5Transform_rfc.
  - rewrite length_memcpy; rewrite length_memcpy_pad, ?length_replicate; lia.
  - rewrite (streams_pad_short _ _ _ _ _ _ (length_le_encode 8) Hs) by lia.
    replace (Z.to_nat (64 - 1 - Z.of_nat (length data mod 64) - 8))
      with (55 - length data mod 64)%nat by lia.
    rewrite app_comm_cons, (app_assoc _ (128 :: _)), <- Hpad, <- md5_length_bytes with (1 := Hc) by lia.
    replace (length data mod 64 + 1 + (55 - length data mod 64))%nat with 56%nat by lia.
    by apply MD5Transform_rfc.
  - apply length_memcpy_pad; lia.
Qed.

Lemma MD5Init_holds stack : length (in_ stack) = 64%nat -> md5_holds (MD5Init stack) [].
Proof.
  intros Hl. split; [|done]. unfold MD5Init. ctx_simpl. split; [reflexivity| |done].
  by rewrite drop_nil.
Qed.

Lemma md5_updates ctx data addr :
  md5_holds ctx data -> Forall (fun a : bytes => Z.of_nat (length a) < 2 ^ 32) addr ->
  md5_holds (foldl (fun ctx (a : bytes) => MD5Update ctx a (u32 (Z.of_nat (length a)))) ctx addr)
    (data ++ concat addr).
Proof.
  intros Hh Ha. revert ctx data Hh.
  induction Ha as [|a addr Ha _ IH]; intros ctx data Hh; cbn [foldl concat]; [by rewrite app_nil_r|].
  rewrite u32_id, app_assoc by (unfold is_u32; lia). apply IH. by apply MD5Update_holds.
Qed.

Lemma length_md5 m : length (md5 m) = 16%nat.
Proof.
  unfold md5. rewrite (length_concat_encode _ 4).
  - unfold md_state. by rewrite (proj1 (md5_absorb_wf _ _ _ rfc_iv_wf)).
  - intros w. by rewrite length_reverse, length_be_encode.
Qed.
Lemma md5_vector_holds stack addr :
  length (in_ stack) = 64%nat ->
  Forall (fun a : bytes => Z.of_nat (length a) < 2 ^ 32) addr ->
  md5_vector stack addr = Some (md5 (concat addr)).
Proof.
  intros Hl Ha. unfold md5_vector. f_equal. apply MD5Final_holds.
  apply (md5_updates _ []); [by apply MD5Init_holds|done].
Qed.

(** [md5_vector] of fragments shorter than 2^32 bytes, however they are cut,
    is the MD5 of RFC 1321 of their concatenation, and it cannot fail; what the
    context on the stack held before does not matter. *)
Theorem md5_vector_spec stack addr :
  length (in_ stack) = 64%nat ->
  Forall (fun a : bytes => Z.of_nat (length a) < 2 ^ 32) addr ->
  md5_vector stack addr = Some (md5 (concat addr)).
Proof. apply md5_vector_holds. Qed.

(** A context with arbitrary contents. *)
Definition some_context : MD5Context :=
  {| buf := [1; 2; 3; 4]; bits0 := 5; bits1 := 6; in_ := replicate 64 7 |}.

(** RFC 1321's test "abc", in two fragments. *)
Lemma md5_vector_spec_witness :
  md5_vector some_context [[0x61]; [0x62; 0x63]] = Some (md5 [0x61; 0x62; 0x63]) /\
  be_decode (md5 [0x61; 0x62; 0x63]) = 0x900150983cd24fb0d6963f7d28e17f72.
Proof.
  split; [|vm_compute; reflexivity].
  refine (md5_vector_spec some_context [[0x61]; [0x62; 0x63]] eq_refl _). repeat constructor.
Defined.
