(* ===== verification/Sha1.v ===== *)
(** * SHA-1

    Hostap's [crypto/sha1-internal.c], on a little-endian machine and with
    [SHA1HANDSOFF], as the file defines it; the hash of a fragment vector is
    proved equal to the hash of FIPS 180-4 of the concatenation. *)

From S2P Require Import Prelude Bytes HashSpec.

(** ** Code *)

Record SHA1Context := { state : list Z; count0 : Z; count1 : Z; buffer : bytes }.

#[export] Instance sha1_context_settable : Settable SHA1Context :=
  fun c => {| state := state c; count0 := count0 c; count1 := count1 c; buffer := buffer c |}.
#[export] Instance set_state : Setter state := ltac:(solve_setter).
#[export] Instance set_count0 : Setter count0 := ltac:(solve_setter).
#[export] Instance set_count1 : Setter count1 := ltac:(solve_setter).
#[export] Instance set_buffer : Setter buffer := ltac:(solve_setter).

Definition rol (value bits : Z) : Z :=
  Z.lor (u32 (Z.shiftl value bits)) (Z.shiftr value (32 - bits)).

(** [block->l] with element [i] expanded. *)
Definition blk0 (i : nat) (l : list Z) : list Z :=
  <[i := Z.lor (Z.land (rol (get l i) 24) 0xFF00FF00)
               (Z.land (rol (get l i) 8) 0x00FF00FF)]> l.
Definition blk (i : nat) (l : list Z) : list Z :=
  let at_ n := get l (Nat.land (i + n) 15) in
  <[Nat.land i 15 := rol (Z.lxor (Z.lxor (Z.lxor (at_ 13%nat) (at_ 8%nat)) (at_ 2%nat))
                                 (at_ 0%nat)) 1]> l.

(** The working variables [a] to [e] are the elements 0 to 4 of [s]. *)
Definition R0 (v w x y z i : nat) (sl : list Z * list Z) : list Z * list Z :=
  let s := sl.1 in
  let l := blk0 i sl.2 in
  let s := <[z := u32 (get s z + (Z.lxor (Z.land (get s w) (Z.lxor (get s x) (get s y))) (get s y)
             + get l i + 0x5A827999 + rol (get s v) 5))]> s in
  (<[w := rol (get s w) 30]> s, l).
Definition R1 (v w x y z i : nat) (sl : list Z * list Z) : list Z * list Z :=
  let s := sl.1 in
  let l := blk i sl.2 in
  let s := <[z := u32 (get s z + (Z.lxor (Z.land (get s w) (Z.lxor (get s x) (get s y))) (get s y)
             + get l (Nat.land i 15) + 0x5A827999 + rol (get s v) 5))]> s in
  (<[w := rol (get s w) 30]> s, l).
Definition R2 (v w x y z i : nat) (sl : list Z * list Z) : list Z * list Z :=
  let s := sl.1 in
  let l := blk i sl.2 in
  let s := <[z := u32 (get s z + (Z.lxor (Z.lxor (get s w) (get s x)) (get s y)
             + get l (Nat.land i 15) + 0x6ED9EBA1 + rol (get s v) 5))]> s in
  (<[w := rol (get s w) 30]> s, l).
Definition R3 (v w x y z i : nat) (sl : list Z * list Z) : list Z * list Z :=
  let s := sl.1 in
  let l := blk i sl.2 in
  let s := <[z := u32 (get s z + (Z.lor (Z.land (Z.lor (get s w) (get s x)) (get s y))
                                        (Z.land (get s w) (get s x))
             + get l (Nat.land i 15) + 0x8F1BBCDC + rol (get s v) 5))]> s in
  (<[w := rol (get s w) 30]> s, l).
Definition R4 (v w x y z i : nat) (sl : list Z * list Z) : list Z * list Z :=
  let s := sl.1 in
  let l := blk i sl.2 in
  let s := <[z := u32 (get s z + (Z.lxor (Z.lxor (get s w) (get s x)) (get s y)
             + get l (Nat.land i 15) + 0xCA62C1D6 + rol (get s v) 5))]> s in
  (<[w := rol (get s w) 30]> s, l).

Definition sha1_steps : list (list Z * list Z -> list Z * list Z) :=
  let a := 0%nat in let b := 1%nat in let c := 2%nat in let d := 3%nat in let e := 4%nat in
  ([
   R0 a b c d e 0; R0 e a b c d 1; R0 d e a b c 2; R0 c d e a b 3;
   R0 b c d e a 4; R0 a b c d e 5; R0 e a b c d 6; R0 d e a b c 7;
   R0 c d e a b 8; R0 b c d e a 9; R0 a b c d e 10; R0 e a b c d 11;
   R0 d e a b c 12; R0 c d e a b 13; R0 b c d e a 14; R0 a b c d e 15;
   R1 e a b c d 16; R1 d e a b c 17; R1 c d e a b 18; R1 b c d e a 19;
   R2 a b c d e 20; R2 e a b c d 21; R2 d e a b c 22; R2 c d e a b 23;
   R2 b c d e a 24; R2 a b c d e 25; R2 e a b c d 26; R2 d e a b c 27;
   R2 c d e a b 28; R2 b c d e a 29; R2 a b c d e 30; R2 e a b c d 31;
   R2 d e a b c 32; R2 c d e a b 33; R2 b c d e a 34; R2 a b c d e 35;
   R2 e a b c d 36; R2 d e a b c 37; R2 c d e a b 38; R2 b c d e a 39;
   R3 a b c d e 40; R3 e a b c d 41; R3 d e a b c 42; R3 c d e a b 43;
   R3 b c d e a 44; R3 a b c d e 45; R3 e a b c d 46; R3 d e a b c 47;
   R3 c d e a b 48; R3 b c d e a 49; R3 a b c d e 50; R3 e a b c d 51;
   R3 d e a b c 52; R3 c d e a b 53; R3 b c d e a 54; R3 a b c d e 55;
   R3 e a b c d 56; R3 d e a b c 57; R3 c d e a b 58; R3 b c d e a 59;
   R4 a b c d e 60; R4 e a b c d 61; R4 d e a b c 62; R4 c d e a b 63;
   R4 b c d e a 64; R4 a b c d e 65; R4 e a b c d 66; R4 d e a b c 67;
   R4 c d e a b 68; R4 b c d e a 69; R4 a b c d e 70; R4 e a b c d 71;
   R4 d e a b c 72; R4 c d e a b 73; R4 b c d e a 74; R4 a b c d e 75;
   R4 e a b c d 76; R4 d e a b c 77; R4 c d e a b 78; R4 b c d e a 79])%nat.

(** The new [state]; the block is copied and read as words. *)
Definition SHA1Transform (st : list Z) (data : bytes) : list Z :=
  let block := words_of WPA_GET_LE32 data in
  let s := (foldl (fun sl step => step sl) (st, block) sha1_steps).1 in
  zip_with (fun x y => u32 (x + y)) st s.

Definition SHA1Init (context : SHA1Context) : SHA1Context :=
  context <| state := [0x67452301; 0xEFCDAB89; 0x98BADCFE; 0x10325476; 0xC3D2E1F0] |>
          <| count0 := 0 |> <| count1 := 0 |>.

Definition SHA1Update_count (context : SHA1Context) (len : Z) : SHA1Context :=
  let context := context <| count0 := u32 (count0 context + u32 (Z.shiftl len 3)) |> in
  let context := if count0 context <? u32 (Z.shiftl len 3)
                 then context <| count1 := u32 (count1 context + 1) |> else context in
  context <| count1 := u32 (count1 context + Z.shiftr len 29) |>.

(** [for ( ; i + 63 < len; i += 64)]: the state and [i] after the loop. *)
Fixpoint update_loop (fuel : nat) (st : list Z) (data : bytes) (i len : Z) : list Z * Z :=
  match fuel with
  | O => (st, i)
  | S fuel =>
    if u32 (i + 63) <? len then
      update_loop fuel (SHA1Transform st (sub (Z.to_nat i) 64 data)) data (u32 (i + 64)) len
    else (st, i)
  end.

Definition SHA1Update (context : SHA1Context) (data : bytes) (len : Z) : SHA1Context :=
  let j := Z.land (Z.shiftr (count0 context) 3) 63 in
  let context := SHA1Update_count context len in
  if 63 <? u32 (j + len) then
    let i := 64 - j in
    let context :=
      context <| buffer := memcpy (buffer context) (Z.to_nat j) (take (Z.to_nat i) data) |> in
    let context := context <| state := SHA1Transform (state context) (buffer context) |> in
    let r := update_loop (S (Z.to_nat (len / 64))) (state context) data i len in
    let context := context <| state := r.1 |> in
    context <| buffer := memcpy (buffer context) 0 (sub (Z.to_nat r.2) (Z.to_nat (len - r.2)) data) |>
  else context <| buffer := memcpy (buffer context) (Z.to_nat j) (take (Z.to_nat len) data) |>.

(** [while ((context->count[0] & 504) != 448)]: at most 63 passes. *)
Fixpoint pad_loop (fuel : nat) (context : SHA1Context) : SHA1Context :=
  match fuel with
  | O => context
  | S fuel =>
    if negb (Z.land (count0 context) 504 =? 448) then pad_loop fuel (SHA1Update context [0] 1)
    else context
  end.

Definition SHA1Final (context : SHA1Context) : bytes :=
  let finalcount := map (fun i =>
    u8 (Z.land (Z.shiftr (if 4 <=? i then count0 context else count1 context)
                         ((3 - Z.land i 3) * 8)) 255)) (seqZ 0 8) in
  let context := SHA1Update context [128] 1 in
  let context := pad_loop 64 context in
  let context := SHA1Update context finalcount 8 in
  map (fun i => u8 (Z.land (Z.shiftr (get (state context) (Z.to_nat (Z.shiftr i 2)))
                                     ((3 - Z.land i 3) * 8)) 255)) (seqZ 0 20).

(** [stack] is the uninitialised context; [len[i]] is converted to [u32]. *)
Definition sha1_vector (stack : SHA1Context) (addr : list bytes) : option bytes :=
  let ctx := SHA1Init stack in
  let ctx := foldl (fun ctx (a : bytes) => SHA1Update ctx a (u32 (Z.of_nat (length a)))) ctx addr in
  Some (SHA1Final ctx).

(** ** FIPS 180-4

    The constants are the square roots of 2, 3, 5 and 10, times 2^30. *)

Definition fips_K (t : nat) : Z :=
  match (t / 20)%nat with
  | 0%nat => Z.sqrt (2 * 2 ^ 60)
  | 1%nat => Z.sqrt (3 * 2 ^ 60)
  | 2%nat => Z.sqrt (5 * 2 ^ 60)
  | _ => Z.sqrt (10 * 2 ^ 60)
  end.
Definition fips_f (t : nat) (x y z : Z) : Z :=
  match (t / 20)%nat with
  | 0%nat => Z.lxor (Z.land x y) (Z.land (not32 x) z)
  | 2%nat => Z.lxor (Z.lxor (Z.land x y) (Z.land x z)) (Z.land y z)
  | _ => Z.lxor (Z.lxor x y) z
  end.
Definition fips_word (block : bytes) (t : nat) (W : list Z) : Z :=
  if (t <? 16)%nat then be_decode (take 4 (drop (4 * t) block))
  else ROTL 1 (Z.lxor (Z.lxor (Z.lxor (get W (t - 3)) (get W (t - 8))) (get W (t - 14)))
                      (get W (t - 16))).
Fixpoint fips_W (block : bytes) (n : nat) : list Z :=
  match n with
  | O => []
  | S n => let W := fips_W block n in W ++ [fips_word block n W]
  end.
Definition fips_step (W : list Z) (st : list Z) (t : nat) : list Z :=
  match st with
  | [a; b; c; d; e] =>
    [add32 (add32 (add32 (add32 (ROTL 5 a) (fips_f t b c d)) e) (fips_K t)) (get W t);
     a; ROTL 30 b; c; d]
  | _ => st
  end.
Definition fips_compress (st : list Z) (block : bytes) : list Z :=
  zip_with add32 st (foldl (fips_step (fips_W block 80)) st (seq 0 80)).
Definition fips_iv : list Z :=
  be_decode ∘ reverse <$> [[0x01;0x23;0x45;0x67]; [0x89;0xab;0xcd;0xef]; [0xfe;0xdc;0xba;0x98];
                           [0x76;0x54;0x32;0x10]; [0xf0;0xe1;0xd2;0xc3]].
Definition sha1 (msg : bytes) : bytes :=
  concat (map (be_encode 4) (md_state fips_compress fips_iv (be_encode 8) msg)).

(** ** The transform is the standard's *)

(** *** The message schedule, kept in the last 16 words *)

Lemma testbit_masks i :
  0 <= i < 32 ->
  Z.testbit 0xFF00FF00 i = bool_decide (8 <= i < 16 \/ 24 <= i) /\
  Z.testbit 0x00FF00FF i = bool_decide (i < 8 \/ 16 <= i < 24).
Proof.
  intros Hi. split; apply Bool.eqb_prop; revert i Hi;
    apply all_below_spec; vm_compute; reflexivity.
Qed.

(** Reversing the bytes of a word with two rotations. *)
Lemma swap_word a b c d l :
  is_byte a -> is_byte b -> is_byte c -> is_byte d ->
  let x := WPA_GET_LE32 (a :: b :: c :: d :: l) in
  Z.lor (Z.land (rol x 24) 0xFF00FF00) (Z.land (rol x 8) 0x00FF00FF)
  = WPA_GET_BE32 (a :: b :: c :: d :: l).
Proof.
  intros Ha Hb Hc Hd. cbv zeta. unfold WPA_GET_LE32, WPA_GET_BE32, rol, get. cbn [nth].
  apply Z.bits_inj'. intros i Hi.
  rewrite Z.lor_spec, !Z.land_spec, (testbit_u32_trunc (Z.lor _ d)) by done.
  destruct (decide (32 <= i)) as [Hn|Hn].
  - rewrite bool_decide_eq_false_2 by lia.
    rewrite (testbit_u32 0xFF00FF00 i), (testbit_u32 0x00FF00FF i) by (done || lia).
    by rewrite !andb_false_r.
  - destruct (testbit_masks i ltac:(lia)) as [-> ->].
    rewrite !Z.lor_spec, !testbit_u32_trunc, !Z.shiftr_spec, !testbit_u32_trunc by lia.
    assert (Hr : i < 8 \/ 8 <= i < 16 \/ 16 <= i < 24 \/ 24 <= i) by lia.
    destruct Hr as [Hr|[Hr|[Hr|Hr]]];
      do 2 (rewrite ?testbit_u32_trunc by lia;
        repeat match goal with
          | |- context [bool_decide ?P] =>
            first [ rewrite (bool_decide_eq_true_2 P) by lia
                  | rewrite (bool_decide_eq_false_2 P) by lia ]
          end; cbn [andb orb]; bits_push); f_equal; lia.
Qed.

Lemma land_15 n : Nat.land n 15 = (n mod 16)%nat.
Proof. exact (Nat.land_ones n 4). Qed.

Lemma sha1_length_fips_W block n : length (fips_W block n) = n.
Proof. induction n as [|n IH]; [done|]. cbn [fips_W]. rewrite length_app, IH. cbn. lia. Qed.

Lemma fips_W_prefix block n t : (t < n)%nat -> get (fips_W block n) t = fips_word block t (fips_W block t).
Proof.
  intros Ht. induction n as [|n IH]; [lia|]. cbn [fips_W]. unfold get.
  destruct (decide (t = n)) as [->|].
  - by rewrite app_nth2, sha1_length_fips_W, Nat.sub_diag by (rewrite sha1_length_fips_W; lia).
  - rewrite app_nth1 by (rewrite sha1_length_fips_W; lia). apply IH. lia.
Qed.

Lemma rol_ROTL n x : 0 < n < 32 -> rol x n = ROTL n x.
Proof. apply rotl_code. Qed.

(** What the 16 words hold before step [t]. *)
Record sched (block : bytes) (t : nat) (l : list Z) : Prop := {
  sched_len : length l = 16%nat;
  sched_done : forall j, (j < t <= j + 16)%nat -> get l (j mod 16) = get (fips_W block 80) j;
  sched_todo : forall j, (t <= j < 16)%nat -> get l j = WPA_GET_LE32 (drop (4 * j) block);
}.

Lemma get_insert_eq l i v : (i < length l)%nat -> get (<[i := v]> l) i = v.
Proof. intros. unfold get. rewrite nth_lookup, list_lookup_insert_eq; [done|lia]. Qed.
Lemma get_insert_ne l i j v : i <> j -> get (<[i := v]> l) j = get l j.
Proof. intros. unfold get. by rewrite !nth_lookup, list_lookup_insert_ne. Qed.

Definition expand (t : nat) (l : list Z) : list Z := if (t <? 16)%nat then blk0 t l else blk t l.

(** The new word is stored over the word of 16 steps before. *)
Lemma sched_insert block t l :
  sched block t l ->
  sched block (S t) (<[(t mod 16)%nat := get (fips_W block 80) t]> l).
Proof.
  intros [Hl Hd Ht]. pose proof (Nat.mod_upper_bound t 16 ltac:(lia)).
  split; [by rewrite length_insert| |].
  - intros j Hj. destruct (decide (j = t)) as [->|]; [by rewrite get_insert_eq by lia|].
    rewrite get_insert_ne; [apply Hd; lia|]. intros E.
    pose proof (Nat.div_mod t 16). pose proof (Nat.div_mod j 16). lia.
  - intros j Hj. rewrite get_insert_ne; [apply Ht; lia|]. rewrite Nat.mod_small by lia. lia.
Qed.

Lemma word_at (block : bytes) j :
  wf_bytes block -> length block = 64%nat -> (j < 16)%nat ->
  exists a b c d l, drop (4 * j) block = a :: b :: c :: d :: l /\
    is_byte a /\ is_byte b /\ is_byte c /\ is_byte d.
Proof.
  intros Hw Hl Hj. pose proof (wf_bytes_drop (4 * j) _ Hw) as H.
  destruct (drop (4 * j) block) as [|a [|b [|c [|d l]]]] eqn:E;
    try (apply (f_equal length) in E; rewrite length_drop in E; cbn [length] in E; lia).
  unfold wf_bytes in H. rewrite !Forall_cons in H. exists a, b, c, d, l. tauto.
Qed.

Lemma get_fips_W block t : (t < 80)%nat -> get (fips_W block 80) t = fips_word block t (fips_W block t).
Proof. apply fips_W_prefix. Qed.

Lemma get_W_earlier block t j :
  (j < t)%nat -> (t < 80)%nat -> get (fips_W block t) j = get (fips_W block 80) j.
Proof. intros Hj Ht. rewrite get_fips_W by lia. by apply fips_W_prefix. Qed.

Lemma sha1_words32_fips_W block n :
  wf_bytes block -> length block = 64%nat -> words32 (fips_W block n).
Proof.
  intros Hw Hl. induction n as [|n IH]; [by constructor|]. cbn [fips_W].
  apply Forall_app. split; [done|]. apply Forall_singleton. unfold fips_word.
  destruct (Nat.ltb_spec n 16).
  - rewrite <- BE32_be_decode; [apply is_u32_u32|by apply wf_bytes_drop|]. rewrite length_drop. lia.
  - apply is_u32_rotl; [lia|]. auto 6 with wlan.
Qed.

Lemma expand_fips block t l :
  wf_bytes block -> length block = 64%nat -> (t < 80)%nat -> sched block t l ->
  expand t l = <[(t mod 16)%nat := get (fips_W block 80) t]> l.
Proof.
  intros Hw Hb Ht [Hl Hd Htodo]. unfold expand. rewrite get_fips_W by done. unfold fips_word.
  destruct (Nat.ltb_spec t 16) as [H16|H16].
  - unfold blk0. rewrite Nat.mod_small, Htodo by lia. f_equal.
    rewrite <- BE32_be_decode; [|by apply wf_bytes_drop|rewrite length_drop; lia].
    destruct (word_at block t Hw Hb H16) as (a & b & c & d & k & -> & ? & ? & ? & ?).
    by apply swap_word.
  - unfold blk. rewrite !land_15, rol_ROTL by lia. f_equal. f_equal.
    assert (Hat : forall n m, (m + n = 16)%nat -> (0 < m)%nat ->
      get l ((t + n) mod 16) = get (fips_W block t) (t - m)).
    { intros n m Hm Hm0. rewrite get_W_earlier, <- Hd by lia. f_equal.
      replace (t + n)%nat with (t - m + 1 * 16)%nat by lia. apply Nat.Div0.mod_add. }
    rewrite (Hat 13%nat 3%nat), (Hat 8%nat 8%nat), (Hat 2%nat 14%nat), (Hat 0%nat 16%nat) by lia.
    done.
Qed.

(** *** The registers *)

(** The registers as FIPS orders them before step [t]: a is register [-t mod 5]. *)
Definition reg (t k : nat) : nat := ((k + 4 * t) mod 5)%nat.
Definition view (t : nat) (r : list Z) : list Z :=
  [get r (reg t 0); get r (reg t 1); get r (reg t 2); get r (reg t 3); get r (reg t 4)].

Definition code_R (t : nat) : nat -> nat -> nat -> nat -> nat -> nat ->
    list Z * list Z -> list Z * list Z :=
  match (t / 20)%nat with
  | 0%nat => if (t <? 16)%nat then R0 else R1
  | 1%nat => R2
  | 2%nat => R3
  | _ => R4
  end.

Lemma sha1_steps_regular :
  sha1_steps =
    map (fun t => code_R t (reg t 0) (reg t 1) (reg t 2) (reg t 3) (reg t 4) t) (seq 0 80).
Proof. reflexivity. Qed.

Definition core (f : Z -> Z -> Z -> Z) (k word : Z) (v w x y z : nat) (s : list Z) : list Z :=
  let s := <[z := u32 (get s z + (f (get s w) (get s x) (get s y) + word + k + rol (get s v) 5))]> s in
  <[w := rol (get s w) 30]> s.

Definition code_f (t : nat) (x y z : Z) : Z :=
  match (t / 20)%nat with
  | 0%nat => Z.lxor (Z.land x (Z.lxor y z)) z
  | 2%nat => Z.lor (Z.land (Z.lor x y) z) (Z.land x y)
  | _ => Z.lxor (Z.lxor x y) z
  end.

Lemma code_R_core t v w x y z s l :
  (t < 80)%nat ->
  code_R t v w x y z t (s, l) =
    (core (code_f t) (fips_K t) (get (expand t l) (t mod 16)) v w x y z s, expand t l).
Proof.
  intros Ht. unfold code_R, core, code_f, fips_K, expand.
  destruct (Nat.ltb_spec t 16) as [H16|H16].
  - rewrite Nat.div_small, Nat.mod_small by lia. reflexivity.
  - assert (E : (t / 20 < 4)%nat) by (apply Nat.Div0.div_lt_upper_bound; lia).
    rewrite <- land_15. destruct (t / 20)%nat as [|[|[|[|n]]]]; [reflexivity..|lia].
Qed.

Lemma code_f_fips t x y z : is_u32 x -> is_u32 y -> is_u32 z -> code_f t x y z = fips_f t x y z.
Proof.
  intros. unfold code_f, fips_f. destruct (t / 20)%nat as [|[|[|n]]]; [bool_word|done|bool_word|done].
Qed.

Lemma sha1_reg_cases t : exists v, (v < 5)%nat /\
  reg t 0 = v /\ reg t 1 = ((v + 1) mod 5)%nat /\ reg t 2 = ((v + 2) mod 5)%nat /\
  reg t 3 = ((v + 3) mod 5)%nat /\ reg t 4 = ((v + 4) mod 5)%nat /\
  reg (S t) 0 = ((v + 4) mod 5)%nat /\ reg (S t) 1 = v /\ reg (S t) 2 = ((v + 1) mod 5)%nat /\
  reg (S t) 3 = ((v + 2) mod 5)%nat /\ reg (S t) 4 = ((v + 3) mod 5)%nat.
Proof.
  exists (reg t 0). split; [by apply Nat.mod_upper_bound|]. unfold reg.
  replace (4 * S t)%nat with (4 * t + 4)%nat by lia.
  generalize (4 * t)%nat. intros n. rewrite !Nat.Div0.add_mod_idemp_l.
  split_and!; try (f_equal; lia);
    [replace (1 + (n + 4))%nat with (n + 1 * 5)%nat by lia
    |replace (2 + (n + 4))%nat with (n + 1 + 1 * 5)%nat by lia
    |replace (3 + (n + 4))%nat with (n + 2 + 1 * 5)%nat by lia
    |replace (4 + (n + 4))%nat with (n + 3 + 1 * 5)%nat by lia];
    rewrite Nat.Div0.mod_add; f_equal; lia.
Qed.

Definition wf_state (st : list Z) : Prop := length st = 5%nat /\ words32 st.

Lemma core_fips W t r :
  wf_state r ->
  let r' := core (code_f t) (fips_K t) (get W t) (reg t 0) (reg t 1) (reg t 2) (reg t 3) (reg t 4) r in
  view (S t) r' = fips_step W (view t r) t /\ wf_state r'.
Proof.
  intros [Hl Hw]. cbv zeta. unfold core. rewrite code_f_fips, !rol_ROTL by (auto with wlan || lia).
  unfold view at 2. cbn [fips_step]. rewrite (add32_sum5 (ROTL 5 (get r (reg t 0)))).
  replace (ROTL 5 (get r (reg t 0)) + fips_f t (get r (reg t 1)) (get r (reg t 2)) (get r (reg t 3)) +
           get r (reg t 4) + fips_K t + get W t)
    with (get r (reg t 4) + (fips_f t (get r (reg t 1)) (get r (reg t 2)) (get r (reg t 3)) + get W t +
            fips_K t + ROTL 5 (get r (reg t 0)))) by lia.
  pose proof (is_u32_u32 (get r (reg t 4) + (fips_f t (get r (reg t 1)) (get r (reg t 2)) (get r (reg t 3))
    + get W t + fips_K t + ROTL 5 (get r (reg t 0))))) as Hu. revert Hu.
  generalize (u32 (get r (reg t 4) + (fips_f t (get r (reg t 1)) (get r (reg t 2)) (get r (reg t 3))
    + get W t + fips_K t + ROTL 5 (get r (reg t 0))))). intros T Hu. split; [|split].
  - unfold view. destruct (sha1_reg_cases t) as (v & Hlt & -> & -> & -> & -> & -> & -> & -> & -> & -> & ->).
    destruct r as [|r0 [|r1 [|r2 [|r3 [|r4 [|]]]]]]; try done.
    destruct v as [|[|[|[|[|v]]]]]; [reflexivity..|lia].
  - by rewrite !length_insert.
  - assert (Hw' : words32 (<[reg t 4:=T]> r)) by (by apply Forall_insert).
    apply Forall_insert; [done|]. apply is_u32_rotl; [lia|]. by apply words32_get.
Qed.

Lemma sha1_view_0 r : length r = 5%nat -> view 0 r = r.
Proof. by destruct r as [|? [|? [|? [|? [|? [|]]]]]]. Qed.
Lemma view_80 r : view 80 r = view 0 r.
Proof. done. Qed.

Lemma sched_start block : length block = 64%nat -> sched block 0 (words_of WPA_GET_LE32 block).
Proof.
  intros Hl. split; [done|lia|]. intros j Hj. unfold get, words_of.
  change (map _ _) with ((fun i => WPA_GET_LE32 (drop (4 * i) block)) <$> seq 0 16).
  by rewrite nth_lookup, list_lookup_fmap, lookup_seq_lt by lia.
Qed.

Lemma steps_fips block n s l :
  wf_bytes block -> length block = 64%nat -> (n <= 80)%nat -> wf_state s -> sched block 0 l ->
  let r := foldl (fun sl step => step sl) (s, l)
    (map (fun t => code_R t (reg t 0) (reg t 1) (reg t 2) (reg t 3) (reg t 4) t) (seq 0 n)) in
  view n r.1 = foldl (fips_step (fips_W block 80)) (view 0 s) (seq 0 n) /\
  wf_state r.1 /\ sched block n r.2.
Proof.
  intros Hw Hl Hn Hs Hsch. cbv zeta. induction n as [|n IH]; [done|].
  destruct IH as (Hv & Hs' & Hsch'); [lia|].
  rewrite seq_S, map_app, !foldl_app. cbn [map foldl Nat.add].
  destruct (foldl _ (s, l) _) as [s' l']. cbn [fst snd] in *.
  rewrite code_R_core, (expand_fips block) by (done || lia). cbn [fst snd].
  pose proof (sched_insert _ _ _ Hsch') as Hi. pose proof (sched_done _ _ _ Hi n ltac:(lia)) as Hg.
  rewrite Hg. destruct (core_fips (fips_W block 80) n s' Hs') as [-> Hc]. by rewrite Hv.
Qed.

Lemma SHA1Transform_fips st block :
  wf_state st -> wf_bytes block -> length block = 64%nat ->
  SHA1Transform st block = fips_compress st block /\ wf_state (fips_compress st block).
Proof.
  intros Hs Hw Hl. unfold SHA1Transform, fips_compress. cbv zeta. rewrite sha1_steps_regular.
  pose proof (sched_start block Hl) as Hsch.
  destruct (steps_fips block 80 st _ Hw Hl (le_n 80) Hs Hsch) as (Hv & [Hl' _] & _).
  rewrite view_80, (sha1_view_0 st), sha1_view_0 in Hv by first [exact Hl' | apply Hs]. rewrite <- Hv.
  split; [|split].
  - apply zip_with_ext; [|done..]. intros. apply u32_add.
  - rewrite length_zip_with, Hl'. by destruct Hs as [-> _].
  - apply words32_add.
Qed.

(** ** Streaming *)

Ltac ctx_simpl :=
  cbn [state count0 count1 buffer set set_state set_count0 set_count1 set_buffer].

Record sha1_holds (ctx : SHA1Context) (data : bytes) : Prop := {
  holds_blocks : streams fips_compress fips_iv (state ctx) (buffer ctx) data;
  holds_count : bit_count (Z.of_nat (length data)) (count0 ctx) (count1 ctx);
  holds_state : wf_state (state ctx);
  holds_wf : wf_bytes data;
}.

Lemma sha1_streams_rest_wf st b data :
  streams fips_compress fips_iv st b data -> wf_bytes data -> wf_bytes (take (length data mod 64) b).
Proof. intros [_ -> _] Hw. by apply wf_bytes_drop. Qed.

Lemma sha1_block_holds st b data x b' :
  streams fips_compress fips_iv st b data -> wf_state st -> wf_bytes data -> wf_bytes x ->
  (length data mod 64 + length x = 64)%nat -> length b' = 64%nat ->
  let st' := SHA1Transform st (memcpy b (length data mod 64) x) in
  streams fips_compress fips_iv st' b' (data ++ x) /\ wf_state st'.
Proof.
  intros Hs Hst Hd Hw Hx Hb. pose proof (st_buf _ _ _ _ _ Hs) as Hl. cbv zeta.
  rewrite memcpy_block by done.
  destruct (SHA1Transform_fips st (take (length data mod 64) b ++ x)) as [-> Hw']; [done| | |].
  - apply wf_bytes_app. split; [by eapply sha1_streams_rest_wf|done].
  - rewrite length_app, length_take. lia.
  - split; [|done]. by apply (streams_block _ _ _ b).
Qed.

(** [i] bytes of [more] are taken; the rest of the whole blocks follow. *)
Lemma update_loop_holds fuel st b data more i :
  streams fips_compress fips_iv st b (data ++ take i more) -> wf_state st ->
  wf_bytes more -> (length (data ++ take i more) mod 64 = 0)%nat ->
  (i <= length more)%nat -> Z.of_nat (length more) < 2 ^ 32 - 64 ->
  (length more - i < 64 * fuel)%nat ->
  let r := update_loop fuel st more (Z.of_nat i) (Z.of_nat (length more)) in
  exists i', r.2 = Z.of_nat i' /\ (i' <= length more < i' + 64)%nat /\
    streams fips_compress fips_iv r.1 b (data ++ take i' more) /\ wf_state r.1 /\
    (length (data ++ take i' more) mod 64 = 0)%nat.
Proof.
  revert st i. induction fuel as [|fuel IH]; intros st i Hs Hst Hw Hm Hi Hl Hf; [lia|].
  cbn [update_loop]. rewrite u32_id by (unfold is_u32; lia).
  destruct (Z.ltb_spec (Z.of_nat i + 63) (Z.of_nat (length more))) as [Hlt|Hge].
  - rewrite u32_id, Nat2Z.id by (unfold is_u32; lia).
    replace (Z.of_nat i + 64) with (Z.of_nat (i + 64)) by lia.
    assert (E : data ++ take (i + 64) more = (data ++ take i more) ++ sub i 64 more).
    { rewrite <- app_assoc. f_equal. symmetry. apply take_take_drop. }
    assert (Hsub : length (sub i 64 more) = 64%nat) by (rewrite length_sub; lia).
    destruct (SHA1Transform_fips st (sub i 64 more) Hst (wf_bytes_sub _ _ _ Hw) Hsub) as [ET HT].
    rewrite ET. apply IH; rewrite ?E; try done; try lia.
    + by apply (streams_aligned _ _ _ b); [..|apply Hs].
    + rewrite length_app, Hsub, <- Nat.Div0.add_mod_idemp_l, Hm. done.
  - exists i. cbn [fst snd]. split_and!; [done|lia|lia|done..].
Qed.

Lemma SHA1Update_count_holds ctx (data more : bytes) :
  bit_count (Z.of_nat (length data)) (count0 ctx) (count1 ctx) ->
  Z.of_nat (length more) < 2 ^ 32 ->
  let ctx' := SHA1Update_count ctx (Z.of_nat (length more)) in
  state ctx' = state ctx /\ buffer ctx' = buffer ctx /\
  bit_count (Z.of_nat (length (data ++ more))) (count0 ctx') (count1 ctx').
Proof.
  intros Hc Hl.
  destruct (bit_count_carry _ (Z.of_nat (length more)) _ _ (Nat2Z.is_nonneg (length data))
    ltac:(lia) Hc) as [Hcarry Hc'].
  rewrite <- Nat2Z.inj_add, <- length_app in Hc'.
  unfold SHA1Update_count. cbv zeta. ctx_simpl. rewrite Hcarry in Hc'. by case_match.
Qed.

Lemma SHA1Update_holds ctx data more :
  sha1_holds ctx data -> wf_bytes more -> Z.of_nat (length more) < 2 ^ 32 - 64 ->
  sha1_holds (SHA1Update ctx more (Z.of_nat (length more))) (data ++ more).
Proof.
  intros [Hs Hc Hst Hd] Hw Hl. unfold SHA1Update. rewrite (bit_count_rest _ _ _ Hc).
  destruct (SHA1Update_count_holds ctx data more Hc ltac:(lia)) as (Eb & Ei & Hc').
  revert Eb Ei Hc'. generalize (SHA1Update_count ctx (Z.of_nat (length more))).
  intros ctx' Eb Ei Hc'. rewrite <- Eb in Hs, Hst. rewrite <- Ei in Hs. clear Eb Ei Hc ctx.
  assert (Hwx : wf_bytes (data ++ more)) by (by apply wf_bytes_app).
  pose proof (div_mod_64 (length data)) as [Hq Hm]. pose proof (st_buf _ _ _ _ _ Hs) as Hb.
  rewrite u32_id by (unfold is_u32; lia).
  set (r := (length data mod 64)%nat) in *.
  destruct (Z.ltb_spec 63 (Z.of_nat r + Z.of_nat (length more))).
  - replace (64 - Z.of_nat r) with (Z.of_nat (64 - r)) by lia. rewrite !Nat2Z.id.
    assert (Hx : length (take (64 - r) more) = (64 - r)%nat) by (rewrite length_take; lia).
    destruct (sha1_block_holds _ _ _ (take (64 - r) more)
      (memcpy (buffer ctx') r (take (64 - r) more)) Hs Hst Hd
      (wf_bytes_take _ _ Hw) ltac:(fold r; lia)) as [Hs1 Hst1].
    { rewrite length_memcpy by lia. done. }
    destruct (div_mod_unique_64 (length (data ++ take (64 - r) more)) (length data / 64 + 1) 0)
      as [_ Em]; [rewrite length_app; lia|lia|].
    destruct (update_loop_holds (S (Z.to_nat (Z.of_nat (length more) / 64))) _ _ _ _ _
      Hs1 Hst1 Hw Em ltac:(lia) Hl ltac:(zdiv)) as (i' & Ei' & Hi' & Hs2 & Hst2 & Em2).
    fold r in Hs2, Hst2, Ei'. ctx_simpl. rewrite Ei'.
    rewrite Nat2Z.id. replace (Z.to_nat (Z.of_nat (length more) - Z.of_nat i'))
      with (length more - i')%nat by lia.
    split; ctx_simpl; [|done|exact Hst2|done].
    replace (data ++ more) with ((data ++ take i' more) ++ drop i' more)
      by (by rewrite <- app_assoc, take_drop).
    assert (Esub : sub i' (length more - i') more = drop i' more).
    { unfold sub. rewrite take_ge; [done|]. rewrite length_drop. lia. }
    rewrite Esub. pose proof (streams_fill _ _ _ _ _ (drop i' more) Hs2) as Hf.
    rewrite Em2 in Hf. apply Hf. rewrite length_drop. lia.
  - split; ctx_simpl; [|done..]. rewrite !Nat2Z.id, take_ge by lia.
    apply streams_fill; [done|lia].
Qed.

(** ** The padding *)

(** The loop that stores bytes of words, most significant first. *)
Lemma word_bytes w :
  is_u32 w -> map (fun i => u8 (Z.land (Z.shiftr w ((3 - i) * 8)) 255)) [0; 1; 2; 3] = be_encode 4 w.
Proof.
  intros Hw. rewrite <- WPA_PUT_BE32_encode. unfold WPA_PUT_BE32. rewrite u32_id by done.
  cbn [map]. change ((3 - 3) * 8) with 0. by rewrite (Z.shiftr_0_r w).
Qed.

Lemma bit_count_u32 n b0 b1 : bit_count n b0 b1 -> is_u32 b0 /\ is_u32 b1.
Proof. intros [-> ->]. split; apply Z.mod_pos_bound; lia. Qed.

Lemma finalcount_bytes n ctx :
  bit_count n (count0 ctx) (count1 ctx) ->
  map (fun i => u8 (Z.land (Z.shiftr (if 4 <=? i then count0 ctx else count1 ctx)
                                     ((3 - Z.land i 3) * 8)) 255)) (seqZ 0 8)
  = be_encode 8 (8 * n).
Proof.
  intros Hc. rewrite <- (bit_count_encode _ _ _ Hc). destruct (bit_count_u32 _ _ _ Hc) as [H0 H1].
  rewrite <- (word_bytes (count1 ctx)), <- (word_bytes (count0 ctx)) by done. reflexivity.
Qed.

Lemma digest_bytes st :
  wf_state st ->
  map (fun i => u8 (Z.land (Z.shiftr (get st (Z.to_nat (Z.shiftr i 2))) ((3 - Z.land i 3) * 8)) 255))
    (seqZ 0 20) = concat (map (be_encode 4) st).
Proof.
  intros [Hl Hw]. destruct st as [|a [|b [|c [|d [|e [|]]]]]]; try done.
  unfold words32 in Hw. rewrite !Forall_cons in Hw. destruct Hw as (?&?&?&?&?&_).
  cbn [map concat]. rewrite <- !word_bytes by done. reflexivity.
Qed.

Lemma is_byte_0 : is_byte 0.
Proof. unfold is_byte. lia. Qed.

Lemma land_504 x : Z.land x 504 = 8 * Z.land (Z.shiftr x 3) 63.
Proof.
  rewrite Z.mul_comm. change 8 with (2 ^ 3). rewrite <- Z.shiftl_mul_pow2 by lia.
  change 504 with (Z.shiftl 63 3). apply Z.bits_inj'. intros i Hi. rewrite Z.land_spec.
  destruct (decide (i < 3)).
  - by rewrite !Z.shiftl_spec_low, andb_false_r by lia.
  - rewrite !Z.shiftl_spec, Z.land_spec, Z.shiftr_spec by lia. by rewrite Z.sub_add.
Qed.

(** [k] bytes are missing up to position 56 of a block. *)
Lemma pad_loop_holds fuel ctx data k :
  sha1_holds ctx data -> Z.of_nat k = (56 - Z.of_nat (length data)) mod 64 -> (k < fuel)%nat ->
  sha1_holds (pad_loop fuel ctx) (data ++ replicate k 0).
Proof.
  revert ctx data k. induction fuel as [|fuel IH]; intros ctx data k Hh Hk Hf; [lia|].
  cbn [pad_loop]. rewrite land_504, (bit_count_rest _ _ _ (holds_count _ _ Hh)), Nat2Z.inj_mod.
  change (Z.of_nat 64) with 64.
  destruct (Z.eqb_spec (8 * (Z.of_nat (length data) mod 64)) 448) as [H|H]; cbn [negb].
  - assert (k = 0%nat) as -> by zdiv. by rewrite app_nil_r.
  - destruct k as [|k]; [exfalso; zdiv|].
    replace (data ++ replicate (S k) 0) with ((data ++ [0]) ++ replicate k 0)
      by (by rewrite <- app_assoc).
    apply IH; [|rewrite length_app; cbn [length]; zdiv|lia].
    apply (SHA1Update_holds ctx data [0]); [done| |done].
    apply Forall_singleton, is_byte_0.
Qed.

Lemma SHA1Final_holds ctx data : sha1_holds ctx data -> SHA1Final ctx = sha1 data.
Proof.
  intros Hh. unfold SHA1Final. rewrite (finalcount_bytes _ _ (holds_count _ _ Hh)).
  assert (H1 : sha1_holds (SHA1Update ctx [128] 1) (data ++ [128])).
  { apply (SHA1Update_holds ctx data [128]); [done| |done].
    apply Forall_singleton. unfold is_byte. lia. }
  set (k := Z.to_nat ((55 - Z.of_nat (length data)) mod 64)).
  assert (H2 : sha1_holds (pad_loop 64 (SHA1Update ctx [128] 1)) ((data ++ [128]) ++ replicate k 0)).
  { apply pad_loop_holds; [done| |unfold k; zdiv]. rewrite length_app. cbn [length]. unfold k. zdiv. }
  assert (H3 : sha1_holds (SHA1Update (pad_loop 64 (SHA1Update ctx [128] 1))
      (be_encode 8 (8 * Z.of_nat (length data))) 8)
    (data ++ md_padding (be_encode 8) (length data))).
  { unfold md_padding. fold k.
    replace (data ++ _) with (((data ++ [128]) ++ replicate k 0) ++ be_encode 8 (8 * Z.of_nat (length data)))
      by (by rewrite <- !app_assoc).
    pose proof (SHA1Update_holds _ _ (be_encode 8 (8 * Z.of_nat (length data))) H2) as H.
    rewrite length_be_encode in H. apply H; [apply wf_be_encode|done]. }
  rewrite digest_bytes by apply H3. unfold sha1. do 2 f_equal.
  apply (streams_final _ _ _ _ _ _ (holds_blocks _ _ H3)).
Qed.

Lemma sha1_fips_iv_wf : wf_state fips_iv.
Proof. split; [done|]. by apply (bool_decide_unpack _). Qed.

Lemma sha1_fips_compress_wf st block : wf_state st -> wf_state (fips_compress st block).
Proof.
  intros [Hl Hw]. split; [|apply words32_add]. unfold fips_compress.
  rewrite length_zip_with, Hl.
  assert (H : forall n, length (foldl (fips_step (fips_W block 80)) st (seq 0 n)) = 5%nat).
  { induction n as [|n IH]; [done|]. rewrite seq_S, foldl_app. cbn [foldl].
    destruct (foldl _ st _) as [|? [|? [|? [|? [|? [|]]]]]]; done. }
  by rewrite H.
Qed.

Lemma length_sha1_state m : length (md_state fips_compress fips_iv (be_encode 8) m) = 5%nat.
Proof.
  unfold md_state. pose proof sha1_fips_iv_wf as H. revert H. generalize fips_iv (m ++ md_padding (be_encode 8) (length m)).
  intros st data. generalize (length data / 64)%nat. intros n. revert st data.
  induction n as [|n IH]; intros st data H; [apply H|]. apply IH, sha1_fips_compress_wf, H.
Qed.

Lemma SHA1Init_holds stack : length (buffer stack) = 64%nat -> sha1_holds (SHA1Init stack) [].
Proof.
  intros Hl. unfold SHA1Init. split; ctx_simpl; [|done|exact sha1_fips_iv_wf|by constructor].
  split; [reflexivity|by rewrite drop_nil|done].
Qed.

Lemma sha1_updates ctx data addr :
  sha1_holds ctx data ->
  Forall (fun a : bytes => wf_bytes a /\ Z.of_nat (length a) < 2 ^ 32 - 64) addr ->
  sha1_holds (foldl (fun ctx (a : bytes) => SHA1Update ctx a (u32 (Z.of_nat (length a)))) ctx addr)
    (data ++ concat addr).
Proof.
  intros Hh Ha. revert ctx data Hh.
  induction Ha as [|a addr [Hw Ha] _ IH]; intros ctx data Hh; cbn [foldl concat];
    [by rewrite app_nil_r|].
  rewrite u32_id, app_assoc by (unfold is_u32; lia). apply IH. by apply SHA1Update_holds.
Qed.

Lemma sha1_vector_holds stack addr :
  length (buffer stack) = 64%nat ->
  Forall (fun a : bytes => wf_bytes a /\ Z.of_nat (length a) < 2 ^ 32 - 64) addr ->
  sha1_vector stack addr = Some (sha1 (concat addr)).
Proof.
  intros Hl Ha. unfold sha1_vector. f_equal. apply SHA1Final_holds.
  apply (sha1_updates _ []); [by apply SHA1Init_holds|done].
Qed.

(** C26: [sha1_vector] of byte fragments shorter than 2^32 - 64 bytes, however
    they are cut, is the SHA-1 of FIPS 180-4 of their concatenation, and it
    cannot fail; what the context on the stack held before does not matter. *)
Theorem sha1_vector_spec stack addr :
  length (buffer stack) = 64%nat ->
  Forall (fun a : bytes => wf_bytes a /\ Z.of_nat (length a) < 2 ^ 32 - 64) addr ->
  sha1_vector stack addr = Some (sha1 (concat addr)).
Proof. apply sha1_vector_holds. Qed.

(** A context with arbitrary contents. *)
Definition some_context : SHA1Context :=
  {| state := [1; 2; 3; 4; 5]; count0 := 5; count1 := 6; buffer := replicate 64 7 |}.

(** The standard's test "abc", in two fragments. *)
Lemma sha1_vector_spec_witness :
  sha1_vector some_context [[0x61]; [0x62; 0x63]] = Some (sha1 [0x61; 0x62; 0x63]) /\
  be_decode (sha1 [0x61; 0x62; 0x63]) = 0xa9993e364706816aba3e25717850c26c9cd0d89d.
Proof.
  split; [|vm_compute; reflexivity].
  refine (sha1_vector_spec some_context [[0x61]; [0x62; 0x63]] eq_refl _).
  repeat (apply Forall_cons; split; [split; [by apply (bool_decide_unpack _)|done]|]). constructor.
Defined.
