(* ===== verification/Sha256.v ===== *)
(** * SHA-256

    Hostap's [crypto/sha256-internal.c]; the hash of a fragment vector is proved
    equal to the hash of FIPS 180-4 of the concatenation, whose constants are
    computed from the square and cube roots of the first primes. *)

From S2P Require Import Prelude Bytes HashSpec.

(** ** Code *)

Definition SHA256_BLOCK_SIZE : Z := 64.

(** The field [length] is [length_] here; [unsigned long] has 64 bits. *)
Record sha256_state := { length_ : Z; state : list Z; curlen : Z; buf : bytes }.

#[export] Instance sha256_state_settable : Settable sha256_state :=
  fun c => {| length_ := length_ c; state := state c; curlen := curlen c; buf := buf c |}.
#[export] Instance set_length : Setter length_ := ltac:(solve_setter).
#[export] Instance set_state : Setter state := ltac:(solve_setter).
#[export] Instance set_curlen : Setter curlen := ltac:(solve_setter).
#[export] Instance set_buf : Setter buf := ltac:(solve_setter).

(** A row of the table. *)
Definition row (a b c d e : Z) : list Z := [a; b; c; d; e].
Definition K : list Z :=
  row 0x428a2f98 0x71374491 0xb5c0fbcf 0xe9b5dba5 0x3956c25b ++
  row 0x59f111f1 0x923f82a4 0xab1c5ed5 0xd807aa98 0x12835b01 ++
  row 0x243185be 0x550c7dc3 0x72be5d74 0x80deb1fe 0x9bdc06a7 ++
  row 0xc19bf174 0xe49b69c1 0xefbe4786 0x0fc19dc6 0x240ca1cc ++
  row 0x2de92c6f 0x4a7484aa 0x5cb0a9dc 0x76f988da 0x983e5152 ++
  row 0xa831c66d 0xb00327c8 0xbf597fc7 0xc6e00bf3 0xd5a79147 ++
  row 0x06ca6351 0x14292967 0x27b70a85 0x2e1b2138 0x4d2c6dfc ++
  row 0x53380d13 0x650a7354 0x766a0abb 0x81c2c92e 0x92722c85 ++
  row 0xa2bfe8a1 0xa81a664b 0xc24b8b70 0xc76c51a3 0xd192e819 ++
  row 0xd6990624 0xf40e3585 0x106aa070 0x19a4c116 0x1e376c08 ++
  row 0x2748774c 0x34b0bcb5 0x391c0cb3 0x4ed8aa4a 0x5b9cca4f ++
  row 0x682e6ff3 0x748f82ee 0x78a5636f 0x84c87814 0x8cc70208 ++
  [0x90befffa; 0xa4506ceb; 0xbef9a3f7; 0xc67178f2].

Definition RORc (x y : Z) : Z :=
  Z.land (Z.lor (Z.shiftr (Z.land x 0xFFFFFFFF) (Z.land y 31))
                (u64 (Z.shiftl x (32 - Z.land y 31)))) 0xFFFFFFFF.
Definition Ch (x y z : Z) : Z := Z.lxor z (Z.land x (Z.lxor y z)).
Definition Maj (x y z : Z) : Z := Z.lor (Z.land (Z.lor x y) z) (Z.land x y).
Definition S_ (x n : Z) : Z := RORc x n.
Definition R_ (x n : Z) : Z := Z.shiftr (Z.land x 0xFFFFFFFF) n.
Definition Sigma0 (x : Z) : Z := Z.lxor (Z.lxor (S_ x 2) (S_ x 13)) (S_ x 22).
Definition Sigma1 (x : Z) : Z := Z.lxor (Z.lxor (S_ x 6) (S_ x 11)) (S_ x 25).
Definition Gamma0 (x : Z) : Z := Z.lxor (Z.lxor (S_ x 7) (S_ x 18)) (R_ x 3).
Definition Gamma1 (x : Z) : Z := Z.lxor (Z.lxor (S_ x 17) (S_ x 19)) (R_ x 10).

(** [RND] on the elements of [S] named by its arguments. *)
Definition RND (W : list Z) (a b c d e f g h i : nat) (s : list Z) : list Z :=
  let t0 := u32 (get s h + Sigma1 (get s e) + Ch (get s e) (get s f) (get s g)
                 + get K i + get W i) in
  let t1 := u32 (Sigma0 (get s a) + Maj (get s a) (get s b) (get s c)) in
  let s := <[d := u32 (get s d + t0)]> s in
  <[h := u32 (t0 + t1)]> s.

Definition compress_round (W : list Z) (i : Z) (s : list Z) : list Z :=
  let s := RND W 0 1 2 3 4 5 6 7 (Z.to_nat i) s in
  let t := get s 7 in
  let s := <[7%nat := get s 6]> s in let s := <[6%nat := get s 5]> s in
  let s := <[5%nat := get s 4]> s in let s := <[4%nat := get s 3]> s in
  let s := <[3%nat := get s 2]> s in let s := <[2%nat := get s 1]> s in
  let s := <[1%nat := get s 0]> s in <[0%nat := t]> s.

(** [W[0..15]] from the block, [W[16..63]] from the words before. *)
Definition fill_W (data : bytes) : list Z :=
  let W := map (fun i => WPA_GET_BE32 (drop (4 * i) data)) (seq 0 16) ++ replicate 48 0 in
  for_up 16 48 (fun i W =>
    let w n := get W (Z.to_nat (i - n)) in
    <[Z.to_nat i := u32 (Gamma1 (w 2) + w 7 + Gamma0 (w 15) + w 16)]> W) W.

(** The new [md->state]; the function always returns 0. *)
Definition sha256_compress (st : list Z) (data : bytes) : list Z :=
  let W := fill_W data in
  let s := for_up 0 64 (compress_round W) st in
  zip_with (fun x y => u32 (x + y)) st s.

Definition sha256_init (md : sha256_state) : sha256_state :=
  md <| curlen := 0 |> <| length_ := 0 |>
     <| state := [0x6A09E667; 0xBB67AE85; 0x3C6EF372; 0xA54FF53A;
                  0x510E527F; 0x9B05688C; 0x1F83D9AB; 0x5BE0CD19] |>.

(** [while (inlen > 0)]: every pass takes at least one byte. *)
Fixpoint process_loop (fuel : nat) (md : sha256_state) (data : bytes) : sha256_state :=
  match fuel with
  | O => md
  | S fuel =>
    let inlen := Z.of_nat (length data) in
    if 0 <? inlen then
      if (curlen md =? 0) && (SHA256_BLOCK_SIZE <=? inlen) then
        let md := md <| state := sha256_compress (state md) (take 64 data) |> in
        let md := md <| length_ := u64 (length_ md + SHA256_BLOCK_SIZE * 8) |> in
        process_loop fuel md (drop 64 data)
      else
        let n := Z.to_nat (Z.min inlen (SHA256_BLOCK_SIZE - curlen md)) in
        let md := md <| buf := memcpy (buf md) (Z.to_nat (curlen md)) (take n data) |> in
        let md := md <| curlen := u32 (curlen md + Z.of_nat n) |> in
        let md :=
          if curlen md =? SHA256_BLOCK_SIZE then
            let md := md <| state := sha256_compress (state md) (buf md) |> in
            let md := md <| length_ := u64 (length_ md + 8 * SHA256_BLOCK_SIZE) |> in
            md <| curlen := 0 |>
          else md in
        process_loop fuel md (drop n data)
    else md
  end.

Definition sha256_process (md : sha256_state) (data : bytes) : option sha256_state :=
  if 64 <=? curlen md then None
  else Some (process_loop (S (length data)) md data).

(** [while (md->curlen < limit) md->buf[md->curlen++] = 0;] *)
Fixpoint zero_until (fuel : nat) (limit : Z) (md : sha256_state) : sha256_state :=
  match fuel with
  | O => md
  | S fuel =>
    if curlen md <? limit then
      let md := md <| buf := <[Z.to_nat (curlen md) := 0]> (buf md) |> in
      zero_until fuel limit (md <| curlen := u32 (curlen md + 1) |>)
    else md
  end.

(** Padding to whole blocks, once the byte 0x80 is stored. *)
Definition done_blocks (md : sha256_state) : sha256_state :=
  let md :=
    if 56 <? curlen md then
      let md := zero_until 64 SHA256_BLOCK_SIZE md in
      let md := md <| state := sha256_compress (state md) (buf md) |> in
      md <| curlen := 0 |>
    else md in
  let md := zero_until 64 56 md in
  let md := md <| buf := memcpy (buf md) 56 (WPA_PUT_BE64 (length_ md)) |> in
  md <| state := sha256_compress (state md) (buf md) |>.

Definition sha256_done (md : sha256_state) : option bytes :=
  if 64 <=? curlen md then None
  else
    let md := md <| length_ := u64 (length_ md + u32 (curlen md * 8)) |> in
    let md := md <| buf := <[Z.to_nat (curlen md) := 0x80]> (buf md) |> in
    let md := md <| curlen := u32 (curlen md + 1) |> in
    let md := done_blocks md in
    Some (concat (map (fun i => WPA_PUT_BE32 (get (state md) i)) (seq 0 8))).

Fixpoint process_all (md : sha256_state) (addr : list bytes) : option sha256_state :=
  match addr with
  | [] => Some md
  | a :: addr => md ← sha256_process md a; process_all md addr
  end.

(** [stack] is the uninitialised context; [None] is -1. *)
Definition sha256_vector (stack : sha256_state) (addr : list bytes) : option bytes :=
  md ← process_all (sha256_init stack) addr; sha256_done md.

(** ** FIPS 180-4 *)

(** The [n]-th bits after the point of the roots of primes. *)
Fixpoint icbrt (n : nat) (r x : Z) : Z :=
  match n with
  | O => r
  | S n =>
    let r' := r + 2 ^ Z.of_nat n in
    icbrt n (if r' ^ 3 <=? x then r' else r) x
  end.
Definition is_prime (p : Z) : bool := all_below (Z.sqrt p - 1) (fun d => negb (p mod (d + 2) =? 0)).
Definition primes64 : list Z := filter is_prime (seqZ 2 310).
Definition fips_K : list Z :=
  Eval vm_compute in map (fun p => icbrt 40 0 (p * 2 ^ 96) mod 2 ^ 32) primes64.
Definition fips_iv : list Z :=
  Eval vm_compute in map (fun p => Z.sqrt (p * 2 ^ 64) mod 2 ^ 32) (take 8 primes64).

Definition ROTR (n x : Z) : Z := Z.lor (x / 2 ^ n) ((x * 2 ^ (32 - n)) mod 2 ^ 32).
Definition SHR (n x : Z) : Z := x / 2 ^ n.
Definition fips_Ch (x y z : Z) : Z := Z.lxor (Z.land x y) (Z.land (not32 x) z).
Definition fips_Maj (x y z : Z) : Z :=
  Z.lxor (Z.lxor (Z.land x y) (Z.land x z)) (Z.land y z).
Definition Sum0 (x : Z) : Z := Z.lxor (Z.lxor (ROTR 2 x) (ROTR 13 x)) (ROTR 22 x).
Definition Sum1 (x : Z) : Z := Z.lxor (Z.lxor (ROTR 6 x) (ROTR 11 x)) (ROTR 25 x).
Definition sig0 (x : Z) : Z := Z.lxor (Z.lxor (ROTR 7 x) (ROTR 18 x)) (SHR 3 x).
Definition sig1 (x : Z) : Z := Z.lxor (Z.lxor (ROTR 17 x) (ROTR 19 x)) (SHR 10 x).

(** The message schedule: word [t] from the words before it. *)
Definition fips_word (block : bytes) (t : nat) (W : list Z) : Z :=
  if (t <? 16)%nat then be_decode (take 4 (drop (4 * t) block))
  else add32 (add32 (add32 (sig1 (get W (t - 2))) (get W (t - 7))) (sig0 (get W (t - 15))))
             (get W (t - 16)).
Fixpoint fips_W (block : bytes) (n : nat) : list Z :=
  match n with
  | O => []
  | S n => let W := fips_W block n in W ++ [fips_word block n W]
  end.

Definition fips_round (W : list Z) (st : list Z) (t : nat) : list Z :=
  match st with
  | [a; b; c; d; e; f; g; h] =>
    let T1 := add32 (add32 (add32 (add32 h (Sum1 e)) (fips_Ch e f g)) (get fips_K t)) (get W t) in
    let T2 := add32 (Sum0 a) (fips_Maj a b c) in
    [add32 T1 T2; a; b; c; add32 d T1; e; f; g]
  | _ => st
  end.

Definition fips_compress (st : list Z) (block : bytes) : list Z :=
  zip_with add32 st (foldl (fips_round (fips_W block 64)) st (seq 0 64)).

Definition sha256 (msg : bytes) : bytes :=
  concat (map (be_encode 4) (md_state fips_compress fips_iv (be_encode 8) msg)).

(** ** The compression function is the standard's *)

Lemma RORc_ROTR x n : is_u32 x -> 0 < n < 32 -> RORc x n = ROTR n x.
Proof.
  intros Hx Hn. unfold RORc, ROTR. change 0xFFFFFFFF with 4294967295. change 31 with (Z.ones 5).
  rewrite (Z.land_ones n), (Z.mod_small n) by (change (2 ^ 5) with 32; lia).
  fold (u32 x). rewrite (u32_id x) by done. rewrite Z.land_lor_distr_l. f_equal.
  - fold (u32 (Z.shiftr x n)). rewrite Z.shiftr_div_pow2 by lia. apply u32_id.
    unfold is_u32 in *. split; [apply Z.div_pos; lia|]. apply Z.div_lt_upper_bound; nia.
  - unfold u64. rewrite <- Z.land_assoc. change (Z.land 18446744073709551615 4294967295) with 4294967295.
    fold (u32 (Z.shiftl x (32 - n))). by rewrite u32_mod, Z.shiftl_mul_pow2 by lia.
Qed.

Lemma is_u32_div x n : is_u32 x -> 0 <= n -> is_u32 (x / 2 ^ n).
Proof.
  unfold is_u32. intros Hx Hn. split; [apply Z.div_pos; lia|]. apply Z.div_lt_upper_bound; nia.
Qed.
Lemma is_u32_ROTR n x : is_u32 x -> 0 < n < 32 -> is_u32 (ROTR n x).
Proof. intros. apply is_u32_lor; [by apply is_u32_div; [|lia]|]. apply Z.mod_pos_bound. lia. Qed.

Lemma Sigma0_Sum0 x : is_u32 x -> Sigma0 x = Sum0 x.
Proof. intros. unfold Sigma0, Sum0, S_. by rewrite !RORc_ROTR by (done || lia). Qed.
Lemma Sigma1_Sum1 x : is_u32 x -> Sigma1 x = Sum1 x.
Proof. intros. unfold Sigma1, Sum1, S_. by rewrite !RORc_ROTR by (done || lia). Qed.
Lemma R_SHR x n : is_u32 x -> 0 <= n -> R_ x n = SHR n x.
Proof.
  intros. unfold R_, SHR. change 0xFFFFFFFF with 4294967295. fold (u32 x).
  by rewrite u32_id, Z.shiftr_div_pow2.
Qed.
Lemma Gamma0_sig0 x : is_u32 x -> Gamma0 x = sig0 x.
Proof. intros. unfold Gamma0, sig0, S_. by rewrite !RORc_ROTR, R_SHR by (done || lia). Qed.
Lemma Gamma1_sig1 x : is_u32 x -> Gamma1 x = sig1 x.
Proof. intros. unfold Gamma1, sig1, S_. by rewrite !RORc_ROTR, R_SHR by (done || lia). Qed.
Lemma Ch_fips x y z : is_u32 x -> is_u32 y -> is_u32 z -> Ch x y z = fips_Ch x y z.
Proof. intros. unfold Ch, fips_Ch. bool_word. Qed.
Lemma Maj_fips x y z : is_u32 x -> is_u32 y -> is_u32 z -> Maj x y z = fips_Maj x y z.
Proof. intros. unfold Maj, fips_Maj. bool_word. Qed.

Lemma K_fips : K = fips_K.
Proof. reflexivity. Qed.

Lemma compress_round_fips W t s :
  length s = 8%nat -> words32 s ->
  compress_round W (Z.of_nat t) s = fips_round W s t.
Proof.
  intros Hl Hw. destruct s as [|a [|b [|c [|d [|e [|f [|g [|h [|]]]]]]]]]; try done.
  unfold words32 in Hw. rewrite !Forall_cons in Hw. destruct Hw as (?&?&?&?&?&?&?&?&_).
  unfold compress_round. rewrite Nat2Z.id. unfold RND.
  change (get [a; b; c; d; e; f; g; h] 0) with a. change (get [a; b; c; d; e; f; g; h] 1) with b.
  change (get [a; b; c; d; e; f; g; h] 2) with c. change (get [a; b; c; d; e; f; g; h] 3) with d.
  change (get [a; b; c; d; e; f; g; h] 4) with e. change (get [a; b; c; d; e; f; g; h] 5) with f.
  change (get [a; b; c; d; e; f; g; h] 6) with g. change (get [a; b; c; d; e; f; g; h] 7) with h.
  rewrite Sigma1_Sum1, Sigma0_Sum0, Ch_fips, Maj_fips, K_fips by done. unfold fips_round.
  rewrite !(add32_sum5 h), (add32_u32_2 (Sum0 _)).
  generalize (u32 (h + Sum1 e + fips_Ch e f g + get fips_K t + get W t)) as T1.
  generalize (u32 (Sum0 a + fips_Maj a b c)) as T2. intros T2 T1. rewrite !add32_u32_2. reflexivity.
Qed.

Definition wf_state (st : list Z) : Prop := length st = 8%nat /\ words32 st.

Lemma fips_round_wf W t s : wf_state s -> wf_state (fips_round W s t).
Proof.
  intros [Hl Hw]. destruct s as [|a [|b [|c [|d [|e [|f [|g [|h [|]]]]]]]]]; try done.
  unfold words32 in Hw. rewrite !Forall_cons in Hw. destruct Hw as (?&?&?&?&?&?&?&?&_).
  split; [done|]. cbn [fips_round]. repeat (constructor; [first [assumption | apply is_u32_add32]|]).
  constructor.
Qed.

Lemma rounds_fips W n s :
  wf_state s ->
  for_up 0 n (compress_round W) s = foldl (fips_round W) s (seq 0 n) /\
  wf_state (foldl (fips_round W) s (seq 0 n)).
Proof.
  intros Hs. induction n as [|n [IH Hw]]; [done|].
  rewrite for_up_S, seq_S, foldl_app, IH. cbn [foldl Nat.add]. destruct Hw as [Hl Hw].
  rewrite Z.add_0_l, compress_round_fips by done. split; [done|]. by apply fips_round_wf.
Qed.

(** *** The message schedule *)

Lemma sha256_length_fips_W block n : length (fips_W block n) = n.
Proof. induction n as [|n IH]; [done|]. cbn [fips_W]. rewrite length_app, IH. cbn. lia. Qed.

Lemma fips_W_16 block :
  wf_bytes block -> length block = 64%nat ->
  fips_W block 16 = map (fun i => WPA_GET_BE32 (drop (4 * i) block)) (seq 0 16).
Proof.
  intros Hw Hl.
  assert (H : forall n, (n <= 16)%nat ->
    fips_W block n = map (fun i => WPA_GET_BE32 (drop (4 * i) block)) (seq 0 n)); [|by apply H].
  induction n as [|n IH]; intros Hn; [done|].
  cbn [fips_W]. rewrite seq_S, map_app, <- IH by lia. cbn [map Nat.add]. do 2 f_equal.
  unfold fips_word. destruct (Nat.ltb_spec n 16); [|lia]. symmetry.
  apply BE32_be_decode; [by apply wf_bytes_drop|]. rewrite length_drop. lia.
Qed.

Lemma sha256_words32_fips_W block n :
  wf_bytes block -> length block = 64%nat -> words32 (fips_W block n).
Proof.
  intros Hw Hl. induction n as [|n IH]; [by constructor|]. cbn [fips_W].
  apply Forall_app. split; [done|]. apply Forall_singleton. unfold fips_word.
  destruct (Nat.ltb_spec n 16); [|apply is_u32_add32].
  rewrite <- BE32_be_decode; [apply is_u32_u32|by apply wf_bytes_drop|]. rewrite length_drop. lia.
Qed.

Lemma fill_W_fips block :
  wf_bytes block -> length block = 64%nat -> fill_W block = fips_W block 64.
Proof.
  intros Hw Hl. unfold fill_W. cbv zeta.
  set (body := fun i W => _). set (W0 := _ ++ replicate 48 0).
  assert (H : length (for_up 16 48 body W0) = 64%nat /\
              take (16 + 48) (for_up 16 48 body W0) = fips_W block (16 + 48)).
  { apply (for_up_ind (fun k W => length W = 64%nat /\ take (16 + k) W = fips_W block (16 + k))).
    - intros k W Hk (HWl & HW). unfold body.
      replace (16 + Z.of_nat k) with (Z.of_nat (16 + k)) by lia. rewrite Nat2Z.id.
      assert (Hg : forall n, 1 <= n <= 16 ->
        get W (Z.to_nat (Z.of_nat (16 + k) - n)) = get (fips_W block (16 + k)) (16 + k - Z.to_nat n)).
      { intros n Hn. rewrite <- HW, get_take by lia. f_equal. lia. }
      rewrite (Hg 2), (Hg 7), (Hg 15), (Hg 16) by lia.
      split; [by rewrite length_insert|].
      rewrite Nat.add_succ_r. cbn [fips_W].
      rewrite (take_S_r _ _ (u32 (Gamma1 (get (fips_W block (16 + k)) (16 + k - 2)) +
          get (fips_W block (16 + k)) (16 + k - 7) +
          Gamma0 (get (fips_W block (16 + k)) (16 + k - 15)) +
          get (fips_W block (16 + k)) (16 + k - 16))))
        by (rewrite list_lookup_insert_eq; [done|lia]).
      rewrite take_insert_ge, HW by lia. do 2 f_equal. unfold fips_word.
      destruct (Nat.ltb_spec (16 + k) 16); [lia|].
      pose proof (sha256_words32_fips_W block (16 + k) Hw Hl) as Hu.
      rewrite Gamma1_sig1, Gamma0_sig0, (add32_u32_2 (sig1 _)), !add32_u32 by auto with wlan.
      done.
    - split; [done|]. rewrite fips_W_16 by done. unfold W0. rewrite take_app_length'; [done|].
      by rewrite length_map. }
  destruct H as [HWl HW]. rewrite take_ge in HW by lia. exact HW.
Qed.

Lemma sha256_fips_compress_wf st block : wf_state st -> wf_state (fips_compress st block).
Proof.
  intros Hs. destruct (rounds_fips (fips_W block 64) 64 st Hs) as [_ [Hl' _]].
  destruct Hs as [Hl _]. unfold fips_compress. generalize dependent (foldl (fips_round (fips_W block 64)) st (seq 0 64)).
  intros r Hr. split; [|apply words32_add]. rewrite length_zip_with, Hl, Hr. done.
Qed.

Lemma sha256_compress_fips st block :
  wf_state st -> wf_bytes block -> length block = 64%nat ->
  sha256_compress st block = fips_compress st block.
Proof.
  intros Hs Hw Hl. unfold sha256_compress, fips_compress. cbv zeta. rewrite fill_W_fips by done.
  destruct (rounds_fips (fips_W block 64) 64 st Hs) as [E _]. rewrite E.
  apply zip_with_ext; [|done..]. intros. apply u32_add.
Qed.

(** ** Streaming *)

Ltac md_simpl := cbn [length_ state curlen buf set set_length set_state set_curlen set_buf].

Record sha256_holds (md : sha256_state) (data : bytes) : Prop := {
  holds_blocks : streams fips_compress fips_iv (state md) (buf md) data;
  holds_curlen : curlen md = Z.of_nat (length data mod 64);
  holds_length : length_ md = (512 * Z.of_nat (length data / 64)) mod 2 ^ 64;
  holds_wf : wf_bytes data;
}.

Lemma sha256_fips_iv_wf : wf_state fips_iv.
Proof. split; [done|]. by apply (bool_decide_unpack _). Qed.

Lemma sha256_absorb_wf n st data : wf_state st -> wf_state (absorb fips_compress n st data).
Proof.
  revert st data. induction n as [|n IH]; intros st data Hs; [done|].
  apply IH. by apply sha256_fips_compress_wf.
Qed.

Lemma sha256_streams_wf st b data : streams fips_compress fips_iv st b data -> wf_state st.
Proof. intros [-> _ _]. apply sha256_absorb_wf, sha256_fips_iv_wf. Qed.

Lemma sha256_streams_rest_wf st b data :
  streams fips_compress fips_iv st b data -> wf_bytes data -> wf_bytes (take (length data mod 64) b).
Proof. intros [_ -> _] Hw. by apply wf_bytes_drop. Qed.

Lemma sha256_block_holds st b data x b' :
  streams fips_compress fips_iv st b data -> wf_bytes data -> wf_bytes x ->
  (length data mod 64 + length x = 64)%nat -> length b' = 64%nat ->
  streams fips_compress fips_iv (sha256_compress st (memcpy b (length data mod 64) x)) b' (data ++ x).
Proof.
  intros Hs Hd Hw Hx Hb. pose proof (st_buf _ _ _ _ _ Hs) as Hl.
  rewrite memcpy_block, sha256_compress_fips by
    first [ done | by eapply sha256_streams_wf
          | apply wf_bytes_app; split; [by eapply sha256_streams_rest_wf|done]
          | rewrite length_app, length_take; lia ].
  by apply (streams_block _ _ _ b).
Qed.

(** The number of bits of the blocks so far, after one more block. *)
Lemma length_block n m v :
  (m = n + 1)%nat -> v = (512 * Z.of_nat n) mod 2 ^ 64 ->
  u64 (v + 512) = (512 * Z.of_nat m) mod 2 ^ 64.
Proof.
  intros -> ->. rewrite u64_mod. change 18446744073709551616 with (2 ^ 64).
  rewrite Zplus_mod_idemp_l by lia. f_equal. lia.
Qed.

Lemma process_loop_holds fuel md data more :
  sha256_holds md data -> wf_bytes more -> (length more < fuel)%nat ->
  sha256_holds (process_loop fuel md more) (data ++ more).
Proof.
  revert md data more. induction fuel as [|fuel IH]; intros md data more Hh Hw Hf; [lia|].
  cbn [process_loop]. destruct Hh as [Hs Hc Hn Hd].
  pose proof (div_mod_64 (length data)) as [Hq Hm]. pose proof (st_buf _ _ _ _ _ Hs) as Hb.
  destruct (Z.ltb_spec 0 (Z.of_nat (length more))) as [Hpos|Hz].
  2: { destruct more; [|cbn in Hz; lia]. rewrite app_nil_r. done. }
  rewrite Hc. case_match eqn:E.
  - apply andb_prop in E as [E0 E1]. unfold SHA256_BLOCK_SIZE in E1.
    replace (data ++ more) with ((data ++ take 64 more) ++ drop 64 more)
      by (by rewrite <- app_assoc, take_drop).
    assert (Hx : length (take 64 more) = 64%nat) by (rewrite length_take; lia).
    apply IH; [|by apply wf_bytes_drop|rewrite length_drop; lia].
    destruct (div_mod_unique_64 (length (data ++ take 64 more)) (length data / 64 + 1) 0)
      as [Eq Em]; [rewrite length_app; lia|lia|].
    split; md_simpl; rewrite ?Eq, ?Em.
    + rewrite sha256_compress_fips by (by eapply sha256_streams_wf || by apply wf_bytes_take || done).
      apply (streams_aligned _ _ _ (buf md)); [done|lia|done|done].
    + lia.
    + by apply (length_block (length data / 64)).
    + apply wf_bytes_app. split; [done|by apply wf_bytes_take].
  - unfold SHA256_BLOCK_SIZE in *. rewrite !Nat2Z.id.
    set (n := Z.to_nat (Z.min (Z.of_nat (length more)) (64 - Z.of_nat (length data mod 64)))).
    assert (Hle : (1 <= n /\ n <= length more /\ length data mod 64 + n <= 64)%nat) by lia.
    replace (data ++ more) with ((data ++ take n more) ++ drop n more)
      by (by rewrite <- app_assoc, take_drop).
    assert (Hx : length (take n more) = n) by (rewrite length_take; lia).
    assert (Hwx : wf_bytes (data ++ take n more)).
    { apply wf_bytes_app. split; [done|by apply wf_bytes_take]. }
    apply IH; [|by apply wf_bytes_drop|rewrite length_drop; lia].
    md_simpl. rewrite u32_id by (unfold is_u32; lia). case_match eqn:E2; md_simpl.
    + destruct (div_mod_unique_64 (length (data ++ take n more)) (length data / 64 + 1) 0)
        as [Eq Em]; [rewrite length_app; lia|lia|].
      split; md_simpl; rewrite ?Eq, ?Em; [|done| |done].
      * apply sha256_block_holds; [done..|by apply wf_bytes_take|lia|].
        rewrite length_memcpy by lia. done.
      * by apply (length_block (length data / 64)).
    + destruct (div_mod_unique_64 (length (data ++ take n more)) (length data / 64)
        (length data mod 64 + n)) as [Eq Em]; [rewrite length_app; lia|lia|].
      split; md_simpl; rewrite ?Eq, ?Em; [|lia|done|done].
      apply streams_fill; [done|lia].
Qed.

Lemma sha256_process_holds md data more :
  sha256_holds md data -> wf_bytes more ->
  exists md', sha256_process md more = Some md' /\ sha256_holds md' (data ++ more).
Proof.
  intros Hh Hw. unfold sha256_process. rewrite (holds_curlen _ _ Hh).
  pose proof (div_mod_64 (length data)) as [_ Hm].
  destruct (Z.leb_spec 64 (Z.of_nat (length data mod 64))); [lia|].
  eexists. split; [done|]. apply process_loop_holds; [done..|lia].
Qed.

Lemma memcpy_snoc b r n :
  (r + n < length b)%nat ->
  <[(r + n)%nat := 0]> (memcpy b r (replicate n 0)) = memcpy b r (replicate (n + 1) 0).
Proof.
  intros Hl. unfold memcpy. rewrite !length_replicate, replicate_add, <- app_assoc.
  rewrite app_assoc, insert_app_r_alt by (rewrite length_app, length_take, length_replicate; lia).
  rewrite length_app, length_take, length_replicate, <- app_assoc.
  replace (r + n - (min r (length b) + n))%nat with 0%nat by lia. do 2 f_equal.
  destruct (drop (r + n) b) as [|x l] eqn:E.
  { apply (f_equal length) in E. rewrite length_drop in E. cbn in E. lia. }
  cbn. f_equal. rewrite Nat.add_assoc, <- drop_drop, E. done.
Qed.

Lemma memcpy_next b r n :
  (n <= r < length b)%nat ->
  <[r := 0]> (memcpy b (r - n) (replicate n 0)) = memcpy b (r - n) (replicate (n + 1) 0).
Proof. intros Hr. rewrite <- memcpy_snoc by lia. f_equal. lia. Qed.

Lemma zero_until_done md limit b :
  curlen md = limit -> buf md = b -> md = md <| buf := b |> <| curlen := limit |>.
Proof. intros <- <-. by destruct md. Qed.

Lemma zero_until_fills fuel limit md r n b0 :
  curlen md = Z.of_nat r -> (Z.of_nat r <= limit <= 64) -> length (buf md) = 64%nat ->
  limit - Z.of_nat r <= Z.of_nat fuel ->
  buf md = memcpy b0 (r - n) (replicate n 0) -> (n <= r)%nat -> length b0 = 64%nat ->
  zero_until fuel limit md =
    md <| buf := memcpy b0 (r - n) (replicate (Z.to_nat limit - (r - n)) 0) |> <| curlen := limit |>.
Proof.
  revert md r n. induction fuel as [|fuel IH]; intros md r n Hc Hr Hb Hf Eb Hn Hb0.
  - cbn [zero_until]. replace (Z.to_nat limit - (r - n))%nat with n by lia.
    by apply zero_until_done; [lia|].
  - cbn [zero_until]. rewrite Hc. destruct (Z.ltb_spec (Z.of_nat r) limit).
    + rewrite Nat2Z.id, u32_id by (md_simpl; rewrite Hc; unfold is_u32; lia). rewrite Eb.
      rewrite memcpy_next by lia.
      rewrite (IH _ (S r) (n + 1)%nat); md_simpl; try done; try lia.
      * by replace (S r - (n + 1))%nat with (r - n)%nat by lia.
      * rewrite length_memcpy; rewrite ?length_replicate; lia.
      * f_equal. lia.
    + replace (Z.to_nat limit - (r - n))%nat with n by lia.
      by apply zero_until_done; [lia|].
Qed.

Lemma memcpy_nil b r : memcpy b r [] = b.
Proof. unfold memcpy. cbn [length app]. by rewrite Nat.add_0_r, take_drop. Qed.

Lemma insert_memcpy (b : bytes) r v : (r < length b)%nat -> <[r := v]> b = memcpy b r [v].
Proof.
  intros. rewrite insert_take_drop by done. unfold memcpy. cbn [length app].
  by rewrite Nat.add_1_r.
Qed.

(** The zeros after the byte 0x80 at position [r]. *)
Lemma zero_until_pad md limit b r :
  buf md = <[r := 128]> b -> curlen md = Z.of_nat (S r) -> (S r <= limit <= 64)%nat ->
  length b = 64%nat ->
  zero_until 64 (Z.of_nat limit) md =
    md <| buf := memcpy (memcpy b r [128]) (S r) (replicate (limit - S r) 0) |>
       <| curlen := Z.of_nat limit |>.
Proof.
  intros Eb Hc Hl Hb. rewrite insert_memcpy in Eb by lia.
  assert (Hlm : length (memcpy b r [128]) = 64%nat) by (rewrite length_memcpy; cbn [length]; lia).
  rewrite (zero_until_fills 64 _ md (S r) 0 (memcpy b r [128])); try lia; try done.
  - by rewrite Nat2Z.id, Nat.sub_0_r.
  - by rewrite Eb.
  - by rewrite Eb, Nat.sub_0_r, memcpy_nil.
Qed.

Lemma zero_until_block md limit :
  curlen md = 0 -> (limit <= 64)%nat -> length (buf md) = 64%nat ->
  zero_until 64 (Z.of_nat limit) md =
    md <| buf := memcpy (buf md) 0 (replicate limit 0) |> <| curlen := Z.of_nat limit |>.
Proof.
  intros Hc Hl Hb. rewrite (zero_until_fills 64 _ md 0 0 (buf md)); try lia; try done.
  by rewrite Nat2Z.id, !Nat.sub_0_r.
Qed.

Lemma memcpy_56_8 b x :
  length b = 64%nat -> length x = 8%nat -> memcpy b 56 x = take 56 b ++ x.
Proof. intros Hb Hx. by apply memcpy_block; [rewrite Hx|]. Qed.

Lemma length_WPA_PUT_BE64 v : length (WPA_PUT_BE64 v) = 8%nat.
Proof. done. Qed.

(** The length stored at the end of the last block. *)
Lemma length_bytes n v c :
  v = (512 * Z.of_nat (n / 64)) mod 2 ^ 64 -> c = Z.of_nat (n mod 64) ->
  WPA_PUT_BE64 (u64 (v + u32 (c * 8))) = be_encode 8 (8 * Z.of_nat n).
Proof.
  intros -> ->. pose proof (div_mod_64 n) as [Hq Hm].
  rewrite u32_id by (unfold is_u32; lia). rewrite u64_mod, WPA_PUT_BE64_encode.
  change 18446744073709551616 with (2 ^ 64). rewrite Zplus_mod_idemp_l by lia.
  replace (512 * Z.of_nat (n / 64) + Z.of_nat (n mod 64) * 8) with (8 * Z.of_nat n) by lia.
  exact (be_encode_mod 8 _).
Qed.

Lemma digest_words st :
  wf_state st -> concat (map (fun i => WPA_PUT_BE32 (get st i)) (seq 0 8)) = concat (map (be_encode 4) st).
Proof.
  intros [Hl _].
  rewrite (map_ext _ (fun i => be_encode 4 (get st i))) by (intros; apply WPA_PUT_BE32_encode).
  do 8 (destruct st as [|? st]; [done|]). by destruct st.
Qed.

Lemma wf_be_blocks (x : bytes) n z : wf_bytes x -> wf_bytes (x ++ be_encode n z).
Proof. intros. apply wf_bytes_app. split; [done|apply wf_be_encode]. Qed.

Lemma wf_pad (x : bytes) n : wf_bytes x -> wf_bytes (x ++ 128 :: replicate n 0).
Proof.
  intros. apply wf_bytes_app. split; [done|]. constructor; [by unfold is_byte; lia|].
  apply wf_bytes_replicate. unfold is_byte. lia.
Qed.

Lemma done_blocks_state md data b :
  streams fips_compress fips_iv (state md) b data -> wf_bytes data ->
  buf md = <[(length data mod 64)%nat := 128]> b ->
  curlen md = Z.of_nat (S (length data mod 64)) ->
  WPA_PUT_BE64 (length_ md) = be_encode 8 (8 * Z.of_nat (length data)) ->
  state (done_blocks md) = md_state fips_compress fips_iv (be_encode 8) data.
Proof.
  intros Hs Hd Eb Ec El. pose proof (sha256_streams_wf _ _ _ Hs) as Hw.
  pose proof (st_buf _ _ _ _ _ Hs) as Hb. pose proof (div_mod_64 (length data)) as [_ Hm].
  pose proof (sha256_streams_rest_wf _ _ _ Hs Hd) as Hr. unfold done_blocks.
  set (r := (length data mod 64)%nat) in *.
  assert (Hlen : length (take r b) = r) by (rewrite length_take; lia).
  change SHA256_BLOCK_SIZE with (Z.of_nat 64). change 56 with (Z.of_nat 56).
  destruct (Z.ltb_spec (Z.of_nat 56) (curlen md)) as [H|H].
  - rewrite (zero_until_pad md 64 b r) by (done || lia).
    rewrite (zero_until_block _ 56) by (done || lia || (md_simpl; apply length_memcpy_pad; lia)).
    md_simpl. rewrite El.
    rewrite (streams_pad_long _ _ _ _ _ _ (length_be_encode 8) Hs) by (fold r; lia). fold r.
    pose proof (memcpy_pad b r (63 - r) ltac:(lia)) as Hp.
    rewrite take_ge in Hp by (rewrite length_memcpy_pad; lia).
    replace (64 - S r)%nat with (63 - r)%nat by lia. rewrite Hp.
    assert (Hfull : length (take r b ++ 128 :: replicate (63 - r) 0) = 64%nat).
    { rewrite length_app, Hlen. cbn [length]. rewrite length_replicate. lia. }
    rewrite memcpy_56_8 by (rewrite ?length_be_encode, ?length_memcpy;
      rewrite ?length_replicate; done || lia).
    rewrite take_memcpy_0 by done.
    rewrite (sha256_compress_fips (state md)) by (done || by apply wf_pad).
    apply sha256_compress_fips.
    + apply sha256_fips_compress_wf. done.
    + apply wf_be_blocks, wf_bytes_replicate. by unfold is_byte; lia.
    + by rewrite length_app, length_be_encode, length_replicate.
  - rewrite (zero_until_pad md 56 b r) by (done || lia). md_simpl. rewrite El.
    rewrite (streams_pad_short _ _ _ _ _ _ (length_be_encode 8) Hs) by (fold r; lia). fold r.
    rewrite memcpy_56_8 by (apply length_be_encode || (apply length_memcpy_pad; lia)).
    pose proof (memcpy_pad b r (55 - r) ltac:(lia)) as Hp.
    replace (r + 1 + (55 - r))%nat with 56%nat in Hp by lia.
    replace (56 - S r)%nat with (55 - r)%nat by lia. rewrite Hp.
    rewrite <- app_assoc. apply sha256_compress_fips; [done| |].
    + rewrite app_comm_cons, app_assoc. apply wf_be_blocks, wf_pad. done.
    + rewrite length_app, Hlen. cbn [length app]. rewrite length_app, length_replicate, length_be_encode. lia.
Qed.

Lemma md_state_wf data : wf_state (md_state fips_compress fips_iv (be_encode 8) data).
Proof. apply sha256_absorb_wf, sha256_fips_iv_wf. Qed.

Lemma sha256_done_holds md data :
  sha256_holds md data -> sha256_done md = Some (sha256 data).
Proof.
  intros [Hs Hc Hn Hd]. unfold sha256_done. pose proof (div_mod_64 (length data)) as [_ Hm].
  destruct (Z.leb_spec 64 (curlen md)); [lia|]. f_equal. unfold sha256.
  rewrite (done_blocks_state _ data (buf md)); try done.
  - apply digest_words, md_state_wf.
  - md_simpl. by rewrite Hc, Nat2Z.id.
  - md_simpl. rewrite u32_id by (unfold is_u32; lia). lia.
  - md_simpl. by rewrite (length_bytes _ _ _ Hn Hc).
Qed.

Lemma process_all_holds md data addr :
  sha256_holds md data -> Forall wf_bytes addr ->
  exists md', process_all md addr = Some md' /\ sha256_holds md' (data ++ concat addr).
Proof.
  intros Hh Ha. revert md data Hh.
  induction Ha as [|a addr Ha _ IH]; intros md data Hh; cbn [process_all concat].
  - exists md. by rewrite app_nil_r.
  - destruct (sha256_process_holds _ _ _ Hh Ha) as (md' & E & Hh'). rewrite E.
    destruct (IH _ _ Hh') as (md'' & E' & Hh''). exists md''. by rewrite app_assoc.
Qed.

Lemma sha256_init_holds stack : length (buf stack) = 64%nat -> sha256_holds (sha256_init stack) [].
Proof.
  intros Hl. unfold sha256_init. split; md_simpl; [|done..|by constructor].
  split; [reflexivity|by rewrite drop_nil|done].
Qed.

Lemma sha256_vector_holds stack addr :
  length (buf stack) = 64%nat -> Forall wf_bytes addr ->
  sha256_vector stack addr = Some (sha256 (concat addr)).
Proof.
  intros Hl Ha. unfold sha256_vector.
  destruct (process_all_holds _ [] addr (sha256_init_holds stack Hl) Ha) as (md & E & Hh).
  rewrite E. by apply sha256_done_holds.
Qed.

(** C25: [sha256_vector] of byte fragments, however they are cut, is the SHA-256
    of FIPS 180-4 of their concatenation, and it cannot fail; what the context
    on the stack held before does not matter. *)
Theorem sha256_vector_spec stack addr :
  length (buf stack) = 64%nat -> Forall wf_bytes addr ->
  sha256_vector stack addr = Some (sha256 (concat addr)).
Proof. apply sha256_vector_holds. Qed.

(** A context with arbitrary contents. *)
Definition some_context : sha256_state :=
  {| length_ := 9; state := [1; 2; 3; 4; 5; 6; 7; 8]; curlen := 70; buf := replicate 64 7 |}.

(** The standard's test "abc", in two fragments. *)
Lemma sha256_vector_spec_witness :
  sha256_vector some_context [[0x61]; [0x62; 0x63]] = Some (sha256 [0x61; 0x62; 0x63]) /\
  be_decode (sha256 [0x61; 0x62; 0x63])
    = 0xba7816bf8f01cfea414140de5dae2223b00361a396177a9cb410ff61f20015ad.
Proof.
  split; [|vm_compute; reflexivity].
  refine (sha256_vector_spec some_context [[0x61]; [0x62; 0x63]] eq_refl _).
  by apply (bool_decide_unpack _).
Defined.
