(* ===== verification/Hmac.v ===== *)
(** * HMAC and the key derivation functions over it

    Hostap's [crypto/md5.c], [sha1.c] and [sha256.c], three copies of one HMAC;
    [sha1-prf.c], [sha256-prf.c] and [sha1-pbkdf2.c].  The HMAC is written
    against the interface [HashFn] of a hash function over fragment vectors,
    which the three hashes of [Md5], [Sha1] and [Sha256] implement. *)

From S2P Require Import Prelude Bytes HashSpec.
From S2P Require Md5 Sha1 Sha256.

(** ** The interface of the hash functions *)

(** [md5_vector], [sha1_vector] or [sha256_vector], [None] for -1; the hash of
    a whole message; the bytes of a digest; the fragments it takes. *)
Class HashFn := {
  hash_vector : list bytes -> option bytes;
  hash : bytes -> bytes;
  mac_len : nat;
  hash_ok : bytes -> Prop;
}.

Class HashFnLaws (F : HashFn) := {
  hash_vector_ok : forall addr, Forall hash_ok addr -> hash_vector addr = Some (hash (concat addr));
  length_hash : forall m, length (hash m) = mac_len;
  wf_hash : forall m, wf_bytes (hash m);
  mac_len_block : (mac_len <= 64)%nat;
  hash_ok_small : forall x, wf_bytes x -> (length x <= 64)%nat -> hash_ok x;
}.

Lemma wf_le_encode n z : wf_bytes (reverse (be_encode n z)).
Proof. unfold wf_bytes. rewrite Forall_reverse. apply wf_be_encode. Qed.

#[export] Instance md5_fn (stack : Md5.MD5Context) : HashFn :=
  {| hash_vector := Md5.md5_vector stack; hash := Md5.md5; mac_len := 16;
     hash_ok a := Z.of_nat (length a) < 2 ^ 32 |}.
#[export] Instance sha1_fn (stack : Sha1.SHA1Context) : HashFn :=
  {| hash_vector := Sha1.sha1_vector stack; hash := Sha1.sha1; mac_len := 20;
     hash_ok a := wf_bytes a /\ Z.of_nat (length a) < 2 ^ 32 - 64 |}.
#[export] Instance sha256_fn (stack : Sha256.sha256_state) : HashFn :=
  {| hash_vector := Sha256.sha256_vector stack; hash := Sha256.sha256; mac_len := 32;
     hash_ok := wf_bytes |}.

Lemma length_sha1 m : length (Sha1.sha1 m) = 20%nat.
Proof.
  unfold Sha1.sha1. rewrite (length_concat_encode _ 4) by apply length_be_encode.
  by rewrite Sha1.length_sha1_state.
Qed.
Lemma wf_sha1 m : wf_bytes (Sha1.sha1 m).
Proof. apply wf_concat_encode. intros w. apply wf_be_encode. Qed.
Lemma length_sha256 m : length (Sha256.sha256 m) = 32%nat.
Proof.
  unfold Sha256.sha256. rewrite (length_concat_encode _ 4) by apply length_be_encode.
  by rewrite (proj1 (Sha256.md_state_wf m)).
Qed.

#[export] Instance md5_fn_laws stack :
  length (Md5.in_ stack) = 64%nat -> HashFnLaws (md5_fn stack).
Proof.
  intros Hl. split; cbn [hash_vector hash mac_len hash_ok md5_fn].
  - intros addr Ha. by apply Md5.md5_vector_holds.
  - apply Md5.length_md5.
  - intros m. apply wf_concat_encode. intros w. apply wf_le_encode.
  - lia.
  - intros x _ Hx. lia.
Qed.

#[export] Instance sha1_fn_laws stack :
  length (Sha1.buffer stack) = 64%nat -> HashFnLaws (sha1_fn stack).
Proof.
  intros Hl. split; cbn [hash_vector hash mac_len hash_ok sha1_fn].
  - intros addr Ha. by apply Sha1.sha1_vector_holds.
  - apply length_sha1.
  - apply wf_sha1.
  - lia.
  - intros x Hw Hx. split; [done|lia].
Qed.

#[export] Instance sha256_fn_laws stack :
  length (Sha256.buf stack) = 64%nat -> HashFnLaws (sha256_fn stack).
Proof.
  intros Hl. split; cbn [hash_vector hash mac_len hash_ok sha256_fn].
  - intros addr Ha. by apply Sha256.sha256_vector_holds.
  - apply length_sha256.
  - intros m. apply wf_concat_encode. intros w. apply wf_be_encode.
  - lia.
  - intros x Hw Hx. done.
Qed.

(** ** Code *)

(** [k_pad]: the key in 64 zeroed bytes, xored with [pad]. *)
Definition k_pad (key : bytes) (pad : Z) : bytes :=
  let k := memcpy (replicate 64 0) 0 key in
  for_up 0 64 (fun i k => <[Z.to_nat i := Z.lxor (get k (Z.to_nat i)) pad]> k) k.

(** The text the three files share; [limit] is the number of fragments for
    which [_addr] has room. *)
Definition hmac_vector (F : HashFn) (limit : nat) (key : bytes) (addr : list bytes) : option bytes :=
  if (limit <? length addr)%nat then None
  else
    key ← (if (64 <? length key)%nat then hash_vector [key] else Some key);
    mac ← hash_vector (k_pad key 0x36 :: addr);
    hash_vector [k_pad key 0x5c; take mac_len mac].

Definition hmac_md5_vector stack := hmac_vector (md5_fn stack) 5.
Definition hmac_sha1_vector stack := hmac_vector (sha1_fn stack) 5.
Definition hmac_sha256_vector stack := hmac_vector (sha256_fn stack) 10.
Definition hmac_md5 stack (key data : bytes) := hmac_md5_vector stack key [data].
Definition hmac_sha1 stack (key data : bytes) := hmac_sha1_vector stack key [data].
Definition hmac_sha256 stack (key data : bytes) := hmac_sha256_vector stack key [data].

(** [while (pos < buf_len)] of [sha1_prf] and [sha256_prf_bits]: a pass makes
    [len] bytes or is the last one. *)
Fixpoint prf_loop (mac : Z -> option bytes) (next : Z -> Z) (len fuel : nat) (counter : Z)
    (buf : bytes) (buf_len : nat) : option bytes :=
  match fuel with
  | O => None
  | S fuel =>
    let pos := length buf in
    if (pos <? buf_len)%nat then
      let plen := (buf_len - pos)%nat in
      hash ← mac counter;
      if (len <=? plen)%nat then
        prf_loop mac next len fuel (next counter) (buf ++ hash) buf_len
      else Some (buf ++ take plen hash)
    else Some buf
  end.

(** The bytes written to [buf]; [label] is the string without its terminator. *)
Definition sha1_prf (stack : Sha1.SHA1Context) (key label data : bytes) (buf_len : nat) : option bytes :=
  prf_loop (fun counter => hmac_sha1_vector stack key [label ++ [0]; data; [counter]])
    (fun counter => u8 (counter + 1)) 20 (S (S (buf_len / 20))) 0 [] buf_len.

Definition sha256_prf_bits (stack : Sha256.sha256_state) (key label data : bytes)
    (buf_len_bits : Z) : option bytes :=
  let buf_len := Z.to_nat (u64 (buf_len_bits + 7) / 8) in
  let length_le := WPA_PUT_LE16 buf_len_bits in
  buf ← prf_loop
          (fun counter => hmac_sha256_vector stack key [WPA_PUT_LE16 counter; label; data; length_le])
          (fun counter => u16 (counter + 1)) 32 (S (S (buf_len / 32))) 1 [] buf_len;
  if negb (buf_len_bits mod 8 =? 0) then
    let mask := u8 (Z.shiftl 0xff (8 - buf_len_bits mod 8)) in
    Some (<[(length buf - 1)%nat := Z.land (get buf (length buf - 1)) mask]> buf)
  else Some buf.

Definition sha256_prf (stack : Sha256.sha256_state) (key label data : bytes) (buf_len : nat) :=
  sha256_prf_bits stack key label data (u64 (Z.of_nat buf_len * 8)).

(** [for (i = 1; i < iterations; i++)]: [tmp] and [digest]. *)
Fixpoint pbkdf2_loop (stack : Sha1.SHA1Context) (n : nat) (passphrase tmp digest : bytes) : option bytes :=
  match n with
  | O => Some digest
  | S n =>
    tmp2 ← hmac_sha1 stack passphrase tmp;
    pbkdf2_loop stack n passphrase tmp2 (xor_bytes digest tmp2)
  end.

Definition pbkdf2_sha1_f (stack : Sha1.SHA1Context) (passphrase ssid : bytes) (iterations count : Z) :
    option bytes :=
  let count_buf := [Z.land (Z.shiftr count 24) 0xff; Z.land (Z.shiftr count 16) 0xff;
                    Z.land (Z.shiftr count 8) 0xff; Z.land count 0xff] in
  tmp ← hmac_sha1_vector stack passphrase [ssid; count_buf];
  pbkdf2_loop stack (Z.to_nat (iterations - 1)) passphrase tmp tmp.

(** [while (left > 0)]. *)
Fixpoint pbkdf2_sha1_loop (stack : Sha1.SHA1Context) (fuel : nat) (passphrase ssid : bytes)
    (iterations count : Z) (buf : bytes) (left : nat) : option bytes :=
  match fuel with
  | O => None
  | S fuel =>
    if (0 <? left)%nat then
      let count := u32 (count + 1) in
      digest ← pbkdf2_sha1_f stack passphrase ssid iterations count;
      let plen := if (20 <? left)%nat then 20%nat else left in
      pbkdf2_sha1_loop stack fuel passphrase ssid iterations count (buf ++ take plen digest)
        (left - plen)
    else Some buf
  end.

Definition pbkdf2_sha1 (stack : Sha1.SHA1Context) (passphrase ssid : bytes) (iterations : Z)
    (buflen : nat) : option bytes :=
  pbkdf2_sha1_loop stack (S (S (buflen / 20))) passphrase ssid iterations 0 [] buflen.

(** ** RFC 2104 *)

(** HMAC of a whole text with the hash function [H]. *)
Definition hmac (H : bytes -> bytes) (key text : bytes) : bytes :=
  let key := if (64 <? length key)%nat then H key else key in
  let block := key ++ replicate (64 - length key) 0 in
  H (xor_bytes block (replicate 64 0x5c) ++ H (xor_bytes block (replicate 64 0x36) ++ text)).

Section rfc2104.
Context (F : HashFn) `{!HashFnLaws F}.

Lemma xor_loop (l : bytes) (pad : Z) n :
  (n <= length l)%nat ->
  for_up 0 n (fun i k => <[Z.to_nat i := Z.lxor (get k (Z.to_nat i)) pad]> k) l
  = xor_bytes (take n l) (replicate n pad) ++ drop n l.
Proof.
  intros Hn. set (body := fun i k => _).
  apply (for_up_ind (fun k s => (k <= n)%nat -> s = xor_bytes (take k l) (replicate k pad) ++ drop k l)
    0 n body l); [|done|done].
  intros k s Hk IH _. rewrite IH by lia. unfold body. rewrite Z.add_0_l, Nat2Z.id.
  destruct (lookup_lt_is_Some_2 l k ltac:(lia)) as [x Hx].
  assert (Hlen : length (xor_bytes (take k l) (replicate k pad)) = k)
    by (rewrite length_xor_bytes, length_take, length_replicate; lia).
  rewrite (drop_S l x k Hx) at 1 2. unfold get. rewrite app_nth2 by lia.
  rewrite Hlen, Nat.sub_diag. cbn [nth].
  rewrite insert_app_r_alt, Hlen, Nat.sub_diag by lia. cbn [insert list_insert].
  rewrite (take_S_r _ _ x Hx), replicate_S_end.
  unfold xor_bytes. rewrite zip_with_app by (rewrite length_take, length_replicate; lia).
  by rewrite <- app_assoc.
Qed.

Lemma k_pad_spec key pad :
  (length key <= 64)%nat ->
  k_pad key pad = xor_bytes (key ++ replicate (64 - length key) 0) (replicate 64 pad).
Proof.
  intros Hk. unfold k_pad.
  assert (E : memcpy (replicate 64 0) 0 key = key ++ replicate (64 - length key) 0).
  { unfold memcpy. rewrite take_0, Nat.add_0_l, drop_replicate. done. }
  rewrite E, xor_loop; [|rewrite length_app, length_replicate; lia].
  assert (Hl : length (key ++ replicate (64 - length key) 0) = 64%nat)
    by (rewrite length_app, length_replicate; lia).
  by rewrite take_ge, drop_ge, app_nil_r by lia.
Qed.

Lemma wf_k_pad key pad :
  wf_bytes key -> is_byte pad -> (length key <= 64)%nat ->
  wf_bytes (k_pad key pad) /\ length (k_pad key pad) = 64%nat.
Proof.
  intros Hw Hp Hk. rewrite k_pad_spec by done. split.
  - apply wf_bytes_xor; [|by apply wf_bytes_replicate]. apply wf_bytes_app. split; [done|].
    apply wf_bytes_replicate. unfold is_byte. lia.
  - rewrite length_xor_bytes, length_app, !length_replicate. lia.
Qed.

Lemma hmac_vector_hmac limit key addr :
  wf_bytes key -> hash_ok key -> Forall hash_ok addr -> (length addr <= limit)%nat ->
  hmac_vector F limit key addr = Some (hmac hash key (concat addr)).
Proof.
  intros Hw Hk Ha Hl. unfold hmac_vector.
  destruct (Nat.ltb_spec limit (length addr)); [lia|].
  assert (Hpad : forall k, wf_bytes k -> (length k <= 64)%nat ->
    hash_vector (k_pad k 0x36 :: addr) ≫= (fun mac => hash_vector [k_pad k 0x5c; take mac_len mac])
    = Some (hash (xor_bytes (k ++ replicate (64 - length k) 0) (replicate 64 0x5c)
        ++ hash (xor_bytes (k ++ replicate (64 - length k) 0) (replicate 64 0x36) ++ concat addr)))).
  { intros k Hwk Hlk.
    destruct (wf_k_pad k 0x36 Hwk ltac:(unfold is_byte; lia) Hlk) as [Hw1 Hl1].
    destruct (wf_k_pad k 0x5c Hwk ltac:(unfold is_byte; lia) Hlk) as [Hw2 Hl2].
    rewrite hash_vector_ok by (constructor; [apply hash_ok_small; [done|lia]|done]). cbn [mbind option_bind].
    rewrite take_ge by (by rewrite length_hash).
    rewrite hash_vector_ok.
    - cbn [concat]. rewrite app_nil_r, !k_pad_spec by done. done.
    - pose proof mac_len_block. repeat constructor; apply hash_ok_small; try done; [lia|apply wf_hash|].
      rewrite length_hash. lia. }
  unfold hmac. destruct (Nat.ltb_spec 64 (length key)).
  - rewrite hash_vector_ok by (by constructor). cbn [mbind option_bind concat].
    rewrite app_nil_r. apply (Hpad (hash key)); [apply wf_hash|].
    rewrite length_hash. apply mac_len_block.
  - cbn [mbind option_bind]. by apply (Hpad key).
Qed.

End rfc2104.

Lemma hmac_vector_limit F limit key addr :
  (limit < length addr)%nat -> hmac_vector F limit key addr = None.
Proof. intros H. unfold hmac_vector. by destruct (Nat.ltb_spec limit (length addr)); [|lia]. Qed.

(** Fragments all three hash functions take. *)
Definition fragment_ok (a : bytes) : Prop := wf_bytes a /\ Z.of_nat (length a) < 2 ^ 32 - 64.

Lemma hmac_md5_vector_hmac stack key addr :
  length (Md5.in_ stack) = 64%nat -> fragment_ok key -> Forall fragment_ok addr ->
  (length addr <= 5)%nat ->
  hmac_md5_vector stack key addr = Some (hmac Md5.md5 key (concat addr)).
Proof.
  intros Hs [Hw Hk] Ha Hl. pose proof (md5_fn_laws stack Hs).
  apply (hmac_vector_hmac (md5_fn stack)); [done| |  |done]; cbn [hash_ok md5_fn]; [lia|].
  eapply Forall_impl; [exact Ha|]. intros a [_ H']. lia.
Qed.

Lemma hmac_sha1_vector_hmac stack key addr :
  length (Sha1.buffer stack) = 64%nat -> fragment_ok key -> Forall fragment_ok addr ->
  (length addr <= 5)%nat ->
  hmac_sha1_vector stack key addr = Some (hmac Sha1.sha1 key (concat addr)).
Proof.
  intros Hs Hk Ha Hl. pose proof (sha1_fn_laws stack Hs).
  by apply (hmac_vector_hmac (sha1_fn stack)); [apply Hk|..].
Qed.

Lemma hmac_sha256_vector_hmac stack key addr :
  length (Sha256.buf stack) = 64%nat -> wf_bytes key -> Forall wf_bytes addr ->
  (length addr <= 10)%nat ->
  hmac_sha256_vector stack key addr = Some (hmac Sha256.sha256 key (concat addr)).
Proof.
  intros Hs Hk Ha Hl. pose proof (sha256_fn_laws stack Hs).
  by apply (hmac_vector_hmac (sha256_fn stack)).
Qed.

(** C27: the HMACs over fragment vectors are RFC 2104's over the concatenation,
    with the key hashed first when it is longer than a block; with more than 5
    fragments (10 for SHA-256) they fail. *)
Theorem hmac_vector_rfc2104 smd5 ssha1 ssha256 key addr :
  length (Md5.in_ smd5) = 64%nat -> length (Sha1.buffer ssha1) = 64%nat ->
  length (Sha256.buf ssha256) = 64%nat -> fragment_ok key -> Forall fragment_ok addr ->
  hmac_md5_vector smd5 key addr
    = (if (5 <? length addr)%nat then None else Some (hmac Md5.md5 key (concat addr))) /\
  hmac_sha1_vector ssha1 key addr
    = (if (5 <? length addr)%nat then None else Some (hmac Sha1.sha1 key (concat addr))) /\
  hmac_sha256_vector ssha256 key addr
    = (if (10 <? length addr)%nat then None else Some (hmac Sha256.sha256 key (concat addr))).
Proof.
  intros H5 H1 H2 Hk Ha.
  assert (Hw : Forall wf_bytes addr) by (eapply Forall_impl; [exact Ha|]; by intros a []).
  destruct (Nat.ltb_spec 5 (length addr)), (Nat.ltb_spec 10 (length addr)); split_and!;
    first [ by apply hmac_vector_limit | by apply hmac_md5_vector_hmac
          | by apply hmac_sha1_vector_hmac | apply hmac_sha256_vector_hmac; [done|apply Hk|done..] ].
Qed.

(** ** The key derivation functions *)

(** [m] blocks from [h], with the counters [c], [next c], ... *)
Fixpoint prf_blocks (h : Z -> bytes) (next : Z -> Z) (m : nat) (c : Z) : bytes :=
  match m with O => [] | S m => h c ++ prf_blocks h next m (next c) end.

Section prf.
Context (h : Z -> bytes) (next : Z -> Z) (len : nat).
Context (mac : Z -> option bytes) (counter_ok : Z -> Prop).
Hypothesis h_len : forall c, length (h c) = len.
Hypothesis len_pos : (0 < len)%nat.
Hypothesis mac_h : forall c, counter_ok c -> mac c = Some (h c).
Hypothesis next_ok : forall c, counter_ok (next c).

Lemma prf_loop_blocks fuel m c buf buf_len :
  counter_ok c ->
  (length buf <= buf_len)%nat -> (buf_len - length buf <= len * m)%nat ->
  (buf_len - length buf < len * fuel)%nat ->
  prf_loop mac next len fuel c buf buf_len
  = Some (buf ++ take (buf_len - length buf) (prf_blocks h next m c)).
Proof using h_len len_pos mac_h next_ok.
  revert m c buf. induction fuel as [|fuel IH]; intros m c buf Hc Hb Hm Hf; [lia|].
  cbn [prf_loop]. destruct (Nat.ltb_spec (length buf) buf_len) as [Hlt|Hge].
  - rewrite mac_h by done. cbn [mbind option_bind].
    destruct m as [|m]; [lia|]. cbn [prf_blocks].
    destruct (Nat.leb_spec len (buf_len - length buf)).
    + rewrite (IH m) by (rewrite ?length_app, ?h_len; done || lia). rewrite <- app_assoc. do 2 f_equal.
      rewrite length_app, h_len, take_app_ge, h_len by (rewrite h_len; lia). f_equal.
      f_equal. lia.
    + by rewrite take_app_le by (rewrite h_len; lia).
  - replace (buf_len - length buf)%nat with 0%nat by lia. by rewrite take_0, app_nil_r.
Qed.

End prf.

Lemma blocks_enough n len : (0 < len)%nat -> (n <= len * S (n / len) /\ n < len * S (S (n / len)))%nat.
Proof. intros H. pose proof (Nat.div_mod n len). pose proof (Nat.mod_upper_bound n len). lia. Qed.

(** IEEE 802.11, PRF: the text of block [i] is the label, a zero byte, the data
    and [i] in one byte; the output is the first [n] bytes of the blocks. *)
Definition ieee80211_prf (key label data : bytes) (n : nat) : bytes :=
  take n (prf_blocks (fun i => hmac Sha1.sha1 key (label ++ [0] ++ data ++ [i]))
            (fun i => u8 (i + 1)) (S (n / 20)) 0).

Lemma sha1_prf_ieee stack key label data buf_len :
  length (Sha1.buffer stack) = 64%nat -> fragment_ok key -> fragment_ok (label ++ [0]) ->
  fragment_ok data ->
  sha1_prf stack key label data buf_len = Some (ieee80211_prf key label data buf_len).
Proof.
  intros Hs Hk Hl Hd. destruct (blocks_enough buf_len 20 ltac:(lia)).
  unfold sha1_prf, ieee80211_prf.
  rewrite (prf_loop_blocks (fun i => hmac Sha1.sha1 key (label ++ [0] ++ data ++ [i])) _ 20 _ is_byte)
    with (m := S (buf_len / 20)); cbn [length]; rewrite ?Nat.sub_0_r; try done.
  - intros c. apply length_sha1.
  - lia.
  - intros c Hc. rewrite hmac_sha1_vector_hmac; [|done..| |cbn; lia].
    + cbn [concat]. by rewrite <- !app_assoc.
    + apply Forall_cons. split; [exact Hl|]. apply Forall_cons. split; [exact Hd|].
      apply Forall_singleton. split; [by apply Forall_singleton|done].
  - intros c. apply is_byte_u8.
  - lia.
Qed.

(** IEEE 802.11, KDF with SHA-256: the text of block [i], from 1, is [i], the
    label, the data and the number of bits; the output is the first bits of the
    blocks, with the rest of the last byte cleared. *)
Definition ieee80211_kdf (key label data : bytes) (bits : Z) : bytes :=
  let n := Z.to_nat ((bits + 7) / 8) in
  let out := take n (prf_blocks
    (fun i => hmac Sha256.sha256 key (WPA_PUT_LE16 i ++ label ++ data ++ WPA_PUT_LE16 bits))
    (fun i => u16 (i + 1)) (S (n / 32)) 1) in
  if bits mod 8 =? 0 then out
  else take (n - 1) out ++ [Z.land (get out (n - 1)) (256 - 2 ^ (8 - bits mod 8))].

Lemma wf_LE16 v : wf_bytes (WPA_PUT_LE16 v).
Proof. repeat constructor; apply is_byte_u8. Qed.

Lemma length_prf_blocks h next len m c :
  (forall c, length (h c) = len) -> length (prf_blocks h next m c) = (len * m)%nat.
Proof.
  intros Hl. revert c. induction m as [|m IH]; intros c; [cbn; lia|].
  cbn [prf_blocks]. rewrite length_app, Hl, IH. lia.
Qed.

Lemma last_byte_mask r : 0 < r < 8 -> u8 (Z.shiftl 0xff (8 - r)) = 256 - 2 ^ (8 - r).
Proof.
  intros Hr. assert (H : r = 1 \/ r = 2 \/ r = 3 \/ r = 4 \/ r = 5 \/ r = 6 \/ r = 7) by lia.
  by destruct H as [->|[->|[->|[->|[->|[->| ->]]]]]].
Qed.

Lemma sha256_prf_bits_ieee stack key label data bits :
  length (Sha256.buf stack) = 64%nat -> wf_bytes key -> wf_bytes label -> wf_bytes data ->
  0 <= bits < 2 ^ 64 - 7 ->
  sha256_prf_bits stack key label data bits = Some (ieee80211_kdf key label data bits).
Proof.
  intros Hs Hk Hl Hd Hb. unfold sha256_prf_bits, ieee80211_kdf.
  assert (E64 : u64 (bits + 7) = bits + 7) by (rewrite u64_mod; apply Z.mod_small; lia).
  rewrite E64.
  set (n := Z.to_nat ((bits + 7) / 8)). destruct (blocks_enough n 32 ltac:(lia)) as [Hn1 Hn2].
  set (h := fun i => hmac Sha256.sha256 key (WPA_PUT_LE16 i ++ label ++ data ++ WPA_PUT_LE16 bits)).
  assert (Hh : forall c, length (h c) = 32%nat).
  { intros c. apply length_sha256. }
  rewrite (prf_loop_blocks h _ 32 _ (fun _ => True)) with (m := S (n / 32));
    cbn [length]; rewrite ?Nat.sub_0_r; try done; try lia.
  2: { intros c _. rewrite hmac_sha256_vector_hmac; [|done..| |cbn; lia].
       - cbn [concat]. unfold h. by rewrite app_nil_r.
       - repeat (apply Forall_cons; split; [first [apply wf_LE16|done]|]). constructor. }
  cbn [mbind option_bind app].
  assert (Hout : length (take n (prf_blocks h (fun i => u16 (i + 1)) (S (n / 32)) 1)) = n).
  { rewrite length_take, (length_prf_blocks _ _ 32) by done. lia. }
  revert Hout. generalize (take n (prf_blocks h (fun i => u16 (i + 1)) (S (n / 32)) 1)).
  intros out Hout. destruct (Z.eqb_spec (bits mod 8) 0) as [E|E]; cbn [negb]; [done|].
  assert (Hpos : (1 <= n)%nat) by (unfold n; zdiv).
  rewrite Hout, last_byte_mask by (pose proof (Z.mod_pos_bound bits 8); lia).
  rewrite insert_take_drop by lia. rewrite (drop_ge out) by lia. done.
Qed.

(** ** PBKDF2 (RFC 2898)

    [U n] is U_(n+1) for block [i]; T_i is the exclusive or of the first
    [iterations] of them. *)
Fixpoint pbkdf2_U (P S : bytes) (i : Z) (n : nat) : bytes :=
  match n with
  | O => hmac Sha1.sha1 P (S ++ be_encode 4 i)
  | Datatypes.S n => hmac Sha1.sha1 P (pbkdf2_U P S i n)
  end.
Definition pbkdf2_T (P S : bytes) (iterations i : Z) : bytes :=
  foldl xor_bytes (pbkdf2_U P S i 0) (map (pbkdf2_U P S i) (seq 1 (Z.to_nat iterations - 1))).
Definition rfc2898_pbkdf2 (P S : bytes) (iterations : Z) (dkLen : nat) : bytes :=
  take dkLen (prf_blocks (pbkdf2_T P S iterations) (fun i => u32 (i + 1)) (Datatypes.S (dkLen / 20)) 1).

Section pbkdf2.
Context (stack : Sha1.SHA1Context) (P S : bytes).
Hypothesis stack_len : length (Sha1.buffer stack) = 64%nat.
Hypothesis P_ok : fragment_ok P.
Hypothesis S_ok : fragment_ok S.

Lemma fragment_sha1 m : fragment_ok (Sha1.sha1 m).
Proof. split; [apply wf_sha1|]. by rewrite length_sha1. Qed.
Lemma length_U i n : length (pbkdf2_U P S i n) = 20%nat.
Proof. destruct n; apply length_sha1. Qed.
Lemma fragment_U i n : fragment_ok (pbkdf2_U P S i n).
Proof. destruct n; apply fragment_sha1. Qed.

Lemma pbkdf2_loop_U i n k digest :
  pbkdf2_loop stack n P (pbkdf2_U P S i k) digest
  = Some (foldl xor_bytes digest (map (pbkdf2_U P S i) (seq (k + 1) n))).
Proof using stack_len P_ok.
  revert k digest. induction n as [|n IH]; intros k digest; [done|]. cbn [pbkdf2_loop].
  unfold hmac_sha1. rewrite hmac_sha1_vector_hmac; [|done..| |cbn; lia].
  2: { constructor; [apply fragment_U|constructor]. }
  cbn [mbind option_bind concat]. rewrite app_nil_r.
  change (hmac Sha1.sha1 P (pbkdf2_U P S i k)) with (pbkdf2_U P S i (Datatypes.S k)).
  by rewrite IH, !Nat.add_1_r.
Qed.

Lemma count_bytes i :
  is_u32 i ->
  [Z.land (Z.shiftr i 24) 0xff; Z.land (Z.shiftr i 16) 0xff; Z.land (Z.shiftr i 8) 0xff; Z.land i 0xff]
  = be_encode 4 i.
Proof.
  intros Hi. rewrite <- WPA_PUT_BE32_encode. unfold WPA_PUT_BE32. rewrite u32_id by done.
  assert (E : forall x, Z.land x 0xff = u8 (Z.land x 0xff)).
  { intros x. unfold u8. by rewrite <- Z.land_assoc. }
  by rewrite <- (E (Z.shiftr i 24)), <- (E (Z.shiftr i 16)), <- (E (Z.shiftr i 8)), <- (E i).
Qed.

Lemma pbkdf2_sha1_f_T iterations i :
  is_u32 i -> pbkdf2_sha1_f stack P S iterations i = Some (pbkdf2_T P S iterations i).
Proof using stack_len P_ok S_ok.
  intros Hi. unfold pbkdf2_sha1_f. rewrite count_bytes by done.
  rewrite hmac_sha1_vector_hmac; [|done..| |cbn; lia].
  2: { apply Forall_cons. split; [exact S_ok|]. apply Forall_singleton.
       split; [apply wf_be_encode|by rewrite length_be_encode]. }
  cbn [mbind option_bind concat]. rewrite app_nil_r.
  rewrite (pbkdf2_loop_U i _ 0). unfold pbkdf2_T. do 4 f_equal. lia.
Qed.

Lemma length_T iterations i : length (pbkdf2_T P S iterations i) = 20%nat.
Proof.
  unfold pbkdf2_T. assert (H : length (pbkdf2_U P S i 0) = 20%nat) by apply length_U.
  revert H. generalize (pbkdf2_U P S i 0) (seq 1 (Z.to_nat iterations - 1)).
  intros d l. revert d. induction l as [|k l IH]; intros d Hd; [done|]. cbn [map foldl].
  apply IH. rewrite length_xor_bytes, Hd, length_U. done.
Qed.

Lemma pbkdf2_sha1_loop_T iterations fuel m count buf left :
  (left <= 20 * m)%nat -> (left + 20 <= 20 * fuel)%nat ->
  pbkdf2_sha1_loop stack fuel P S iterations count buf left
  = Some (buf ++ take left (prf_blocks (pbkdf2_T P S iterations) (fun i => u32 (i + 1)) m (u32 (count + 1)))).
Proof using stack_len P_ok S_ok.
  revert m count buf left. induction fuel as [|fuel IH]; intros m count buf left Hm Hf; [lia|].
  cbn [pbkdf2_sha1_loop]. destruct (Nat.ltb_spec 0 left).
  - rewrite pbkdf2_sha1_f_T by apply is_u32_u32. cbn [mbind option_bind].
    destruct m as [|m]; [lia|]. cbn [prf_blocks].
    destruct (Nat.ltb_spec 20 left).
    + rewrite (IH m) by lia. rewrite <- app_assoc, take_app_ge, length_T by (rewrite length_T; lia).
      by rewrite take_ge by (rewrite length_T; lia).
    + rewrite Nat.sub_diag, (IH 0%nat) by lia. rewrite take_0, app_nil_r.
      by rewrite take_app_le by (rewrite length_T; lia).
  - replace left with 0%nat by lia. by rewrite take_0, app_nil_r.
Qed.

End pbkdf2.

(** The pairwise master key of a passphrase: [pbkdf2_sha1] returns the
    first [buflen] bytes of the PBKDF2 of RFC 2898 with HMAC-SHA-1, for any
    passphrase, SSID and number of iterations; it cannot fail. *)
Theorem pbkdf2_sha1_rfc2898 stack passphrase ssid iterations buflen :
  length (Sha1.buffer stack) = 64%nat -> fragment_ok passphrase -> fragment_ok ssid ->
  pbkdf2_sha1 stack passphrase ssid iterations buflen
  = Some (rfc2898_pbkdf2 passphrase ssid iterations buflen).
Proof.
  intros Hs Hp Hssid. destruct (blocks_enough buflen 20 ltac:(lia)).
  unfold pbkdf2_sha1, rfc2898_pbkdf2.
  rewrite (pbkdf2_sha1_loop_T stack passphrase ssid) with (m := S (buflen / 20)); done || lia.
Qed.

(** C28: the key derivation functions of IEEE 802.11: [sha1_prf] is its PRF and
    [sha256_prf_bits] its KDF, for every number of output bytes or bits. *)
Theorem prf_kdf_ieee80211 ssha1 ssha256 key label data buf_len bits :
  length (Sha1.buffer ssha1) = 64%nat -> length (Sha256.buf ssha256) = 64%nat ->
  fragment_ok key -> fragment_ok (label ++ [0]) -> fragment_ok data -> 0 <= bits < 2 ^ 64 - 7 ->
  sha1_prf ssha1 key label data buf_len = Some (ieee80211_prf key label data buf_len) /\
  sha256_prf_bits ssha256 key label data bits = Some (ieee80211_kdf key label data bits).
Proof.
  intros H1 H2 Hk Hl Hd Hb. split; [by apply sha1_prf_ieee|].
  apply sha256_prf_bits_ieee; [done|apply Hk| |apply Hd|done].
  destruct Hl as [Hl _]. by apply wf_bytes_app in Hl as [Hl _].
Qed.

(** ** Witnesses *)

Lemma fragment_ok_check a :
  bool_decide (wf_bytes a) = true -> (Z.of_nat (length a) <? 2 ^ 32 - 64) = true -> fragment_ok a.
Proof. intros H1 H2. split; [by apply bool_decide_eq_true_1 in H1|by apply Z.ltb_lt]. Qed.

(** RFC 2202's and RFC 4231's first tests: the key is 20 times 0x0b, the text
    "Hi There". *)
Definition hi_there : list bytes := [[0x48; 0x69]; [0x20; 0x54; 0x68; 0x65; 0x72; 0x65]].
Definition key_0b : bytes := replicate 20 0x0b.
Lemma hmac_vector_rfc2104_witness :
  be_decode <$> hmac_sha1_vector Sha1.some_context key_0b hi_there
    = Some 0xb617318655057264e28bc0b6fb378c8ef146be00 /\
  be_decode <$> hmac_sha256_vector Sha256.some_context key_0b hi_there
    = Some 0xb0344c61d8db38535ca8afceaf0bf12b881dc200c9833da726e9376c2e32cff7.
Proof.
  destruct (hmac_vector_rfc2104 Md5.some_context Sha1.some_context Sha256.some_context key_0b hi_there
    eq_refl eq_refl eq_refl) as (_ & H1 & H2).
  - apply fragment_ok_check; reflexivity.
  - repeat (apply Forall_cons; split; [apply fragment_ok_check; reflexivity|]). constructor.
  - rewrite H1, H2. split; vm_compute; reflexivity.
Defined.

(** RFC 6070's second test: "password", "salt", two iterations. *)
Definition rfc6070_password : bytes := [0x70; 0x61; 0x73; 0x73; 0x77; 0x6f; 0x72; 0x64].
Definition rfc6070_salt : bytes := [0x73; 0x61; 0x6c; 0x74].
Lemma pbkdf2_sha1_rfc2898_witness :
  be_decode <$> pbkdf2_sha1 Sha1.some_context rfc6070_password rfc6070_salt 2 20
    = Some 0xea6c014dc72d6f8ccd1ed92ace1d41f0d8de8957.
Proof.
  rewrite (pbkdf2_sha1_rfc2898 Sha1.some_context rfc6070_password rfc6070_salt 2 20 eq_refl).
  - vm_compute. reflexivity.
  - apply fragment_ok_check; reflexivity.
  - apply fragment_ok_check; reflexivity.
Defined.

(** A 24-byte key with the PRF and a 13-bit one with the KDF. *)
Lemma prf_kdf_ieee80211_witness :
  sha1_prf Sha1.some_context key_0b rfc6070_password rfc6070_salt 24
    = Some (ieee80211_prf key_0b rfc6070_password rfc6070_salt 24) /\
  length <$> sha256_prf_bits Sha256.some_context key_0b rfc6070_password rfc6070_salt 13 = Some 2%nat.
Proof.
  destruct (prf_kdf_ieee80211 Sha1.some_context Sha256.some_context key_0b rfc6070_password
    rfc6070_salt 24 13 eq_refl eq_refl) as [H1 H2].
  - apply fragment_ok_check; reflexivity.
  - apply fragment_ok_check; reflexivity.
  - apply fragment_ok_check; reflexivity.
  - split; [discriminate|reflexivity].
  - split; [exact H1|]. rewrite H2. vm_compute. reflexivity.
Defined.
