(* ===== verification/AesInterface.v ===== *)
(** * The AES interface of hostap's [crypto/crypto.h]

    The block-cipher modes call AES only through [aes_encrypt_init],
    [aes_encrypt], [aes_decrypt_init] and [aes_decrypt]; hostap links one of
    several implementations behind that header.  [Aes] is the interface and
    [AesLaws] is what an implementation promises to its clients. *)

From S2P Require Import Prelude.

Definition AES_BLOCK_SIZE : nat := 16.

Definition is_block (b : bytes) : Prop := length b = AES_BLOCK_SIZE /\ wf_bytes b.

#[export] Instance is_block_dec b : Decision (is_block b).
Proof. unfold is_block, wf_bytes. apply _. Defined.

(** [init] returns [None] for the C [NULL]. *)
Class Aes := {
  aes_ctx : Type;
  aes_encrypt_init : bytes -> Z -> option aes_ctx;
  aes_encrypt : aes_ctx -> bytes -> bytes;
  aes_decrypt_init : bytes -> Z -> option aes_ctx;
  aes_decrypt : aes_ctx -> bytes -> bytes }.

Class AesLaws (A : Aes) := {
  (** a block is encrypted (decrypted) to a block *)
  aes_encrypt_block : forall key n c b,
    wf_bytes key -> aes_encrypt_init key n = Some c -> is_block b ->
    is_block (aes_encrypt c b);
  aes_decrypt_block : forall key n d b,
    wf_bytes key -> aes_decrypt_init key n = Some d -> is_block b ->
    is_block (aes_decrypt d b);
  (** a key is accepted for both directions or for none *)
  aes_init_agree : forall key n,
    is_Some (aes_encrypt_init key n) <-> is_Some (aes_decrypt_init key n);
  (** the contexts made from one key are inverse to each other *)
  aes_decrypt_encrypt : forall key n c d b,
    wf_bytes key -> aes_encrypt_init key n = Some c -> aes_decrypt_init key n = Some d ->
    is_block b -> aes_decrypt d (aes_encrypt c b) = b }.

(** ** Decryption is injective too

    Blocks are finitely many, so a left inverse of encryption is a right
    inverse as well; the interface need not promise it. *)

Fixpoint all_bytes_of (n : nat) : list bytes :=
  match n with
  | O => [[]]
  | S n => l ← all_bytes_of n; (fun b => b :: l) <$> seqZ 0 256
  end.

Lemma elem_of_all_bytes_of n l :
  l ∈ all_bytes_of n <-> length l = n /\ wf_bytes l.
Proof.
  revert l. induction n as [|n IH]; intros l; cbn [all_bytes_of].
  - rewrite list_elem_of_singleton. split; [intros ->; by split; [|constructor] |].
    intros [Hl _]. by destruct l.
  - rewrite list_elem_of_bind. split.
    + intros (k & (b & -> & Hb%elem_of_seqZ)%list_elem_of_fmap & [Hk Hw]%IH).
      split; [by simpl; rewrite Hk|]. constructor; [unfold is_byte; lia|done].
    + intros [Hl Hw]. destruct l as [|b l]; [done|]. apply Forall_cons in Hw as [Hb Hw].
      exists l. split; [|apply IH; by split; [injection Hl|] ].
      apply list_elem_of_fmap. exists b. unfold is_byte in Hb.
      split; [done|]. apply elem_of_seqZ. lia.
Qed.

Lemma NoDup_all_bytes_of n : NoDup (all_bytes_of n).
Proof.
  induction n as [|n IH]; cbn [all_bytes_of]; [apply NoDup_singleton|].
  apply NoDup_bind; [| |done].
  - intros l1 l2 k _ _ H1 H2.
    apply list_elem_of_fmap in H1 as (b1 & -> & _).
    apply list_elem_of_fmap in H2 as (b2 & [= _ ->] & _). done.
  - intros l _. apply NoDup_fmap_2; [by intros b1 b2 [= ->]|]. apply NoDup_seqZ.
Qed.

Lemma right_inverse_of_left (n : nat) (f g : bytes -> bytes) :
  let P := fun b : bytes => length b = n /\ wf_bytes b in
  (forall b, P b -> P (f b)) -> (forall b, P b -> g (f b) = b) ->
  forall b, P b -> f (g b) = b.
Proof.
  intros P Hf Hgf b Hb.
  assert (Hperm : f <$> all_bytes_of n ≡ₚ all_bytes_of n).
  { apply submseteq_length_Permutation; [|by rewrite length_fmap].
    apply NoDup_submseteq.
    - apply NoDup_fmap_2_strong; [|apply NoDup_all_bytes_of].
      intros x y Hx Hy E. apply elem_of_all_bytes_of in Hx, Hy.
      rewrite <- (Hgf x), <- (Hgf y) by done. by rewrite E.
    - intros x (y & -> & Hy)%list_elem_of_fmap. apply elem_of_all_bytes_of in Hy.
      by apply elem_of_all_bytes_of, Hf. }
  apply elem_of_all_bytes_of in Hb as Hin. rewrite <- Hperm in Hin.
  apply list_elem_of_fmap in Hin as (a & -> & Ha).
  apply elem_of_all_bytes_of in Ha. by rewrite Hgf.
Qed.

Lemma aes_encrypt_decrypt `{A : Aes} `{L : !AesLaws A} key n c d b :
  wf_bytes key -> aes_encrypt_init key n = Some c -> aes_decrypt_init key n = Some d ->
  is_block b -> aes_encrypt c (aes_decrypt d b) = b.
Proof.
  intros Hk Hc Hd. revert b. apply (right_inverse_of_left AES_BLOCK_SIZE).
  - intros b Hb. by eapply aes_encrypt_block.
  - intros b Hb. by eapply aes_decrypt_encrypt.
Qed.
