(* ===== verification/AesCorrect.v ===== *)
(** * Correctness of the table-driven AES

    Decryption inverts encryption for every key size, which makes the code of
    [AesInternal] an instance of the [Aes] interface.  The proof follows the
    "equivalent inverse cipher": one decryption round applied to the
    SubBytes/ShiftRows image of a state undoes one encryption round. *)

From Stdlib Require Import Btauto.
From S2P Require Import Prelude Bytes AesInterface AesInternal.

(** ** Bytes of a word *)

Definition pack (a b c d : Z) : Z :=
  Z.shiftl a 24 ^^ Z.shiftl b 16 ^^ Z.shiftl c 8 ^^ d.

Lemma is_byte_B3 w : is_byte (B3 w). Proof. apply is_byte_u8. Qed.
Lemma is_byte_B2 w : is_byte (B2 w). Proof. apply is_byte_u8. Qed.
Lemma is_byte_B1 w : is_byte (B1 w). Proof. apply is_byte_u8. Qed.
Lemma is_byte_B0 w : is_byte (B0 w). Proof. apply is_byte_u8. Qed.
#[export] Hint Resolve is_byte_B3 is_byte_B2 is_byte_B1 is_byte_B0 : wlan.

Lemma B3_lxor x y : B3 (x ^^ y) = B3 x ^^ B3 y.
Proof. unfold B3. by rewrite Z.shiftr_lxor, land_lxor_l. Qed.
Lemma B2_lxor x y : B2 (x ^^ y) = B2 x ^^ B2 y.
Proof. unfold B2. by rewrite Z.shiftr_lxor, land_lxor_l. Qed.
Lemma B1_lxor x y : B1 (x ^^ y) = B1 x ^^ B1 y.
Proof. unfold B1. by rewrite Z.shiftr_lxor, land_lxor_l. Qed.
Lemma B0_lxor x y : B0 (x ^^ y) = B0 x ^^ B0 y.
Proof. unfold B0. by rewrite land_lxor_l. Qed.

Ltac byte_of_pack :=
  intros; apply Z.bits_inj'; intros i Hi; unfold pack;
  match goal with |- Z.testbit (?f _) _ = _ => unfold f end;
  change 0xff with (Z.ones 8); rewrite Z.land_spec, testbit_ones by lia;
  case_bool_decide; bits_push; first
    [ reflexivity | f_equal; lia
    | symmetry; apply testbit_byte; (assumption || lia) ].

Lemma B3_pack a b c d :
  is_byte a -> is_byte b -> is_byte c -> is_byte d -> B3 (pack a b c d) = a.
Proof. byte_of_pack. Qed.
Lemma B2_pack a b c d :
  is_byte a -> is_byte b -> is_byte c -> is_byte d -> B2 (pack a b c d) = b.
Proof. byte_of_pack. Qed.
Lemma B1_pack a b c d :
  is_byte a -> is_byte b -> is_byte c -> is_byte d -> B1 (pack a b c d) = c.
Proof. byte_of_pack. Qed.
Lemma B0_pack a b c d :
  is_byte a -> is_byte b -> is_byte c -> is_byte d -> B0 (pack a b c d) = d.
Proof. byte_of_pack. Qed.

Lemma pack_bytes w : is_u32 w -> pack (B3 w) (B2 w) (B1 w) (B0 w) = w.
Proof.
  intros Hw. apply Z.bits_inj'. intros i Hi. unfold pack.
  destruct (decide (i < 8)), (decide (i < 16)), (decide (i < 24)),
    (decide (i < 32)); try lia; bits_push; unfold B3, B2, B1, B0;
    change 0xff with (Z.ones 8);
    rewrite ?Z.land_spec, ?testbit_ones by lia;
    rewrite ?bool_decide_eq_true_2 by lia; bits_push; try done; f_equal; lia.
Qed.

Lemma rotr_lxor n x y :
  0 < n < 32 -> is_u32 x -> is_u32 y -> rotr (x ^^ y) n = rotr x n ^^ rotr y n.
Proof.
  intros Hn Hx Hy. apply Z.bits_inj'. intros i Hi. unfold rotr.
  rewrite Z.lxor_spec, !testbit_u32_trunc by lia. case_bool_decide; [|done].
  destruct (decide (i < 32 - n)); bits_push; done.
Qed.

(** ** The tables

    [TE4] is the S-box; [M0] the inverse MixColumns image of a byte in the
    most significant position, which the code obtains as [Td0[TE4(x)]]. *)

Definition M0 (x : Z) : Z := tab Td0 (TE4 x).

Definition u32b (x : Z) : bool := (0 <=? x) && (x <? 4294967296).

Lemma u32b_spec x : u32b x = true -> is_u32 x.
Proof. unfold u32b, is_u32. lia. Qed.

Definition M0_table : list Z := map M0 (seqZ 0 256).

Lemma M0_table_spec x : is_byte x -> M0 x = nth (Z.to_nat x) M0_table 0.
Proof.
  intros Hx. apply Z.eqb_eq. revert x Hx.
  refine (byte_forall (fun x => M0 x =? nth (Z.to_nat x) M0_table 0) _).
  vm_compute. reflexivity.
Qed.

Lemma M0_lxor x y : is_byte x -> is_byte y -> M0 (x ^^ y) = M0 x ^^ M0 y.
Proof.
  intros Hx Hy.
  rewrite !M0_table_spec by auto with wlan.
  assert (H : all_below 256 (fun x => all_below 256 (fun y =>
     nth (Z.to_nat (x ^^ y)) M0_table 0 =?
     nth (Z.to_nat x) M0_table 0 ^^ nth (Z.to_nat y) M0_table 0)) = true)
    by (vm_compute; reflexivity).
  apply Z.eqb_eq. by apply (byte_forall _ (byte_forall _ H x Hx)).
Qed.

(** A fact about one table entry, checked for the 256 entries. *)
Ltac table_fact x Hx :=
  revert x Hx;
  match goal with
  | |- forall x, is_byte x -> is_u32 (@?f x) =>
    intros x Hx; apply u32b_spec; revert x Hx;
    refine (byte_forall (fun x => u32b (f x)) _)
  | |- forall x, is_byte x -> @?f x = @?g x =>
    intros x Hx; apply Z.eqb_eq; revert x Hx;
    refine (byte_forall (fun x => f x =? g x) _)
  end; vm_compute; reflexivity.

Lemma is_byte_TE4 x : is_byte (TE4 x).
Proof. apply is_byte_u8. Qed.
#[export] Hint Resolve is_byte_TE4 : wlan.

Lemma is_u32_M0 x : is_byte x -> is_u32 (M0 x).
Proof. intros Hx. table_fact x Hx. Qed.
Lemma is_u32_Te0 x : is_byte x -> is_u32 (tab Te0 x).
Proof. intros Hx. table_fact x Hx. Qed.
Lemma Td4s_TE4 x : is_byte x -> tab Td4s (TE4 x) = x.
Proof. intros Hx. table_fact x Hx. Qed.
Lemma is_u32_rotr x n : is_u32 (rotr x n).
Proof. apply is_u32_u32. Qed.
#[export] Hint Resolve is_u32_M0 is_u32_Te0 is_u32_rotr : wlan.

(** The masked table words are S-box bytes in position. *)
Lemma TE41_S i : TE41 i = Z.shiftl (TE4 (B3 i)) 24.
Proof.
  unfold TE41. generalize (B3 i), (is_byte_B3 i). intros x Hx. table_fact x Hx.
Qed.
Lemma TE42_S i : TE42 i = Z.shiftl (TE4 (B2 i)) 16.
Proof.
  unfold TE42. generalize (B2 i), (is_byte_B2 i). intros x Hx. table_fact x Hx.
Qed.
Lemma TE43_S i : TE43 i = Z.shiftl (TE4 (B1 i)) 8.
Proof.
  unfold TE43. generalize (B1 i), (is_byte_B1 i). intros x Hx. table_fact x Hx.
Qed.
Lemma TE44_S i : TE44 i = TE4 (B0 i).
Proof.
  unfold TE44. generalize (B0 i), (is_byte_B0 i). intros x Hx. table_fact x Hx.
Qed.

Definition sbsr (a b c d : Z) : Z := TE41 a ^^ TE42 b ^^ TE43 c ^^ TE44 d.

Lemma sbsr_pack a b c d :
  sbsr a b c d = pack (TE4 (B3 a)) (TE4 (B2 b)) (TE4 (B1 c)) (TE4 (B0 d)).
Proof. unfold sbsr. by rewrite TE41_S, TE42_S, TE43_S, TE44_S. Qed.

(** ** The inverse MixColumns transform *)


Lemma u8_TE4 x : Z.land (TE4 x) 0xff = TE4 x.
Proof. apply (u8_id (TE4 x)). auto with wlan. Qed.

Lemma shiftr_24 w : is_u32 w -> Z.shiftr w 24 = B3 w.
Proof.
  intros Hw. symmetry. apply (u8_id (Z.shiftr w 24)). unfold is_byte, is_u32 in *.
  rewrite Z.shiftr_div_pow2 by lia. change (2 ^ 24) with 16777216. zdiv.
Qed.

Lemma inv_mix_word_M0 w :
  is_u32 w ->
  inv_mix_word w = M0 (B3 w) ^^ rotr (M0 (B2 w)) 8 ^^ rotr (M0 (B1 w)) 16
                   ^^ rotr (M0 (B0 w)) 24.
Proof.
  intros Hw. unfold inv_mix_word, TD0_, TD1_, TD2_, TD3_.
  rewrite !u8_TE4, shiftr_24 by done. done.
Qed.

Lemma is_u32_inv_mix_word w : is_u32 w -> is_u32 (inv_mix_word w).
Proof. intros. rewrite inv_mix_word_M0 by done. auto 10 with wlan. Qed.

Lemma inv_mix_word_lxor x y :
  is_u32 x -> is_u32 y ->
  inv_mix_word (x ^^ y) = inv_mix_word x ^^ inv_mix_word y.
Proof.
  intros. rewrite !inv_mix_word_M0 by auto with wlan.
  rewrite B3_lxor, B2_lxor, B1_lxor, B0_lxor, !M0_lxor by auto with wlan.
  rewrite !rotr_lxor by (auto with wlan || lia).
  apply Z.bits_inj'. intros i Hi. rewrite !Z.lxor_spec. btauto.
Qed.

(** The encryption columns are mapped back to the S-box bytes. *)
Lemma inv_mix_col0 x : is_byte x -> inv_mix_word (tab Te0 x) = Z.shiftl (TE4 x) 24.
Proof. intros Hx. table_fact x Hx. Qed.
Lemma inv_mix_col1 x :
  is_byte x -> inv_mix_word (rotr (tab Te0 x) 8) = Z.shiftl (TE4 x) 16.
Proof. intros Hx. table_fact x Hx. Qed.
Lemma inv_mix_col2 x :
  is_byte x -> inv_mix_word (rotr (tab Te0 x) 16) = Z.shiftl (TE4 x) 8.
Proof. intros Hx. table_fact x Hx. Qed.
Lemma inv_mix_col3 x : is_byte x -> inv_mix_word (rotr (tab Te0 x) 24) = TE4 x.
Proof. intros Hx. table_fact x Hx. Qed.

Definition mix (a b c d : Z) : Z := TE0 a ^^ TE1 b ^^ TE2 c ^^ TE3 d.

Lemma is_u32_mix a b c d : is_u32 (mix a b c d).
Proof. unfold mix, TE0, TE1, TE2, TE3. auto 10 with wlan. Qed.
#[export] Hint Resolve is_u32_mix is_u32_inv_mix_word : wlan.

Lemma inv_mix_mix a b c d : inv_mix_word (mix a b c d) = sbsr a b c d.
Proof.
  unfold mix, TE0, TE1, TE2, TE3. rewrite !inv_mix_word_lxor by auto 10 with wlan.
  rewrite inv_mix_col0, inv_mix_col1, inv_mix_col2, inv_mix_col3 by auto with wlan.
  by rewrite sbsr_pack.
Qed.

(** ** Rounds *)

Definition SBSR (s : words) : words :=
  let '(s0, s1, s2, s3) := s in
  (sbsr s0 s1 s2 s3, sbsr s1 s2 s3 s0, sbsr s2 s3 s0 s1, sbsr s3 s0 s1 s2).

Definition u32_words (s : words) : Prop :=
  let '(s0, s1, s2, s3) := s in is_u32 s0 /\ is_u32 s1 /\ is_u32 s2 /\ is_u32 s3.

Lemma is_u32_get l i : Forall is_u32 l -> is_u32 (get l i).
Proof.
  intros Hl. unfold get. destruct (decide (i < length l)%nat).
  - rewrite Forall_forall in Hl. by apply Hl, list_elem_of_In, nth_In.
  - rewrite nth_overflow by lia. unfold is_u32. lia.
Qed.
#[export] Hint Resolve is_u32_get : wlan.

Lemma B3_sbsr a b c d : B3 (sbsr a b c d) = TE4 (B3 a).
Proof. rewrite sbsr_pack. apply B3_pack; auto with wlan. Qed.
Lemma B2_sbsr a b c d : B2 (sbsr a b c d) = TE4 (B2 b).
Proof. rewrite sbsr_pack. apply B2_pack; auto with wlan. Qed.
Lemma B1_sbsr a b c d : B1 (sbsr a b c d) = TE4 (B1 c).
Proof. rewrite sbsr_pack. apply B1_pack; auto with wlan. Qed.
Lemma B0_sbsr a b c d : B0 (sbsr a b c d) = TE4 (B0 d).
Proof. rewrite sbsr_pack. apply B0_pack; auto with wlan. Qed.

Lemma td_sbsr a b1 b2 b3 c1 c2 c3 d1 d2 d3 e1 e2 e3 :
  is_u32 a ->
  TD0 (sbsr a b1 b2 b3) ^^ TD1 (sbsr c1 a c2 c3) ^^ TD2 (sbsr d1 d2 a d3) ^^
  TD3 (sbsr e1 e2 e3 a) = inv_mix_word a.
Proof.
  intros. unfold TD0, TD1, TD2, TD3.
  by rewrite B3_sbsr, B2_sbsr, B1_sbsr, B0_sbsr, inv_mix_word_M0.
Qed.

Lemma td4_sbsr a b1 b2 b3 c1 c2 c3 d1 d2 d3 e1 e2 e3 :
  is_u32 a ->
  TD41 (sbsr a b1 b2 b3) ^^ TD42 (sbsr c1 a c2 c3) ^^ TD43 (sbsr d1 d2 a d3) ^^
  TD44 (sbsr e1 e2 e3 a) = a.
Proof.
  intros. unfold TD41, TD42, TD43, TD44.
  rewrite B3_sbsr, B2_sbsr, B1_sbsr, B0_sbsr, !Td4s_TE4 by auto with wlan.
  rewrite <- (pack_bytes a) at 5 by done. unfold pack.
  pose proof (is_byte_B3 a). pose proof (is_byte_B2 a). pose proof (is_byte_B1 a).
  unfold is_byte in *.
  rewrite !u32_id; [done|unfold is_u32; rewrite Z.shiftl_mul_pow2 by lia..]; lia.
Qed.

Definition key_pair (rk : list Z) (p : nat) (drk : list Z) (q : nat) : Prop :=
  forall c, (c < 4)%nat -> get drk (q + c) = inv_mix_word (get rk (p + c)).

Lemma ROUND_enc_mix rk p s0 s1 s2 s3 :
  ROUND_enc rk p (s0, s1, s2, s3) =
  (mix s0 s1 s2 s3 ^^ get rk p, mix s1 s2 s3 s0 ^^ get rk (p + 1),
   mix s2 s3 s0 s1 ^^ get rk (p + 2), mix s3 s0 s1 s2 ^^ get rk (p + 3)).
Proof. reflexivity. Qed.

Lemma round_dec_enc rk drk p q s :
  Forall is_u32 rk -> key_pair rk p drk q ->
  ROUND_dec drk q (SBSR (ROUND_enc rk p s)) = SBSR s.
Proof.
  intros Hrk Hk. destruct s as [[[s0 s1] s2] s3].
  pose proof (Hk 0%nat ltac:(lia)) as K0. rewrite !Nat.add_0_r in K0.
  pose proof (Hk 1%nat ltac:(lia)) as K1. pose proof (Hk 2%nat ltac:(lia)) as K2.
  pose proof (Hk 3%nat ltac:(lia)) as K3.
  rewrite ROUND_enc_mix. unfold ROUND_dec, SBSR. rewrite !td_sbsr by auto with wlan.
  rewrite K0, K1, K2, K3, !inv_mix_word_lxor, !inv_mix_mix by auto with wlan.
  by rewrite !Z.lxor_assoc, !Z.lxor_nilpotent, !Z.lxor_0_r.
Qed.

Lemma u32_ROUND_enc rk p s : Forall is_u32 rk -> u32_words (ROUND_enc rk p s).
Proof.
  intros Hrk. destruct s as [[[s0 s1] s2] s3]. rewrite ROUND_enc_mix.
  unfold u32_words.
  repeat split; auto with wlan; apply is_u32_lxor; auto with wlan.
Qed.

(** [n] rounds, each with the next four key words. *)
Fixpoint rounds (R : nat -> words -> words) (n p : nat) (s : words) : words :=
  match n with
  | O => s
  | S n => rounds R n (p + 4) (R (p + 4)%nat s)
  end.

Lemma rounds_snoc R n p s :
  rounds R (S n) p s = R (p + 4 * S n)%nat (rounds R n p s).
Proof.
  revert p s. induction n as [|n IH]; intros p s; [done|].
  change (rounds R (S (S n)) p s) with (rounds R (S n) (p + 4) (R (p + 4)%nat s)).
  rewrite IH. f_equal. lia.
Qed.

(** The code's loop runs [2 r - 1] rounds and leaves the pointer at the last
    round key. *)
Lemma round_loop_rounds R r p s :
  round_loop R (S r) p s = (rounds R (2 * r + 1) p s, (p + 8 * S r)%nat).
Proof.
  revert p s. induction r as [|r IH]; intros p s.
  - simpl. f_equal.
  - change (round_loop R (S (S r)) p s) with
      (round_loop R (S r) (p + 8) (R (p + 8)%nat (R (p + 4)%nat s))).
    rewrite IH. replace (2 * S r + 1)%nat with (S (S (2 * r + 1))) by lia.
    simpl. replace (p + 4 + 4)%nat with (p + 8)%nat by lia. f_equal. lia.
Qed.

Lemma rounds_dec_enc rk drk n p q s :
  Forall is_u32 rk ->
  (forall i, (i < n)%nat -> key_pair rk (p + 4 * (n - i)) drk (q + 4 * S i)) ->
  rounds (ROUND_dec drk) n q (SBSR (rounds (ROUND_enc rk) n p s)) = SBSR s.
Proof.
  intros Hrk. revert q. induction n as [|n IH]; intros q Hk; [done|].
  rewrite (rounds_snoc (ROUND_enc rk)).
  change (rounds (ROUND_dec drk) (S n) q ?x) with
    (rounds (ROUND_dec drk) n (q + 4) (ROUND_dec drk (q + 4) x)).
  rewrite round_dec_enc; [|done|].
  - apply IH. intros i Hi. specialize (Hk (S i) ltac:(lia)).
    replace (q + 4 + 4 * S i)%nat with (q + 4 * S (S i))%nat by lia.
    by replace (n - i)%nat with (S n - S i)%nat by lia.
  - specialize (Hk 0%nat ltac:(lia)).
    replace (S n - 0)%nat with (S n) in Hk by lia.
    by replace (q + 4 * 1)%nat with (q + 4)%nat in Hk by lia.
Qed.

(** ** Key schedules *)

Lemma get_insert i j v (l : list Z) :
  (i < length l)%nat -> get (<[i := v]> l) j = if decide (i = j) then v else get l j.
Proof.
  intros Hi. unfold get. rewrite !nth_lookup. case_decide as Hij.
  - subst. by rewrite list_lookup_insert_eq.
  - by rewrite list_lookup_insert_ne.
Qed.

Lemma length_swap_word i j rk : length (swap_word i j rk) = length rk.
Proof. unfold swap_word, wput. by rewrite !length_insert. Qed.

Lemma get_swap_word i j rk x :
  (i < length rk)%nat -> (j < length rk)%nat ->
  get (swap_word i j rk) x =
  if decide (x = j) then get rk i else if decide (x = i) then get rk j else get rk x.
Proof.
  intros Hi Hj. unfold swap_word, wput.
  rewrite get_insert by (by rewrite length_insert). rewrite get_insert by done.
  repeat case_decide; subst; done.
Qed.

Definition swap_block (a b : nat) (rk : list Z) : list Z :=
  swap_word (a + 3) (b + 3) (swap_word (a + 2) (b + 2)
    (swap_word (a + 1) (b + 1) (swap_word a b rk))).

Lemma length_swap_block a b rk : length (swap_block a b rk) = length rk.
Proof. unfold swap_block. by rewrite !length_swap_word. Qed.

Lemma get_swap_block a b rk k c :
  (4 * a + 3 < length rk)%nat -> (4 * b + 3 < length rk)%nat -> (c < 4)%nat ->
  get (swap_block (4 * a) (4 * b) rk) (4 * k + c) =
  get rk (4 * (if decide (k = a) then b else if decide (k = b) then a else k) + c).
Proof.
  intros Ha Hb Hc. unfold swap_block.
  assert (H : (c = 0 \/ c = 1 \/ c = 2 \/ c = 3)%nat) by lia.
  destruct (decide (k = a)) as [-> |]; [|destruct (decide (k = b)) as [-> |] ];
    (destruct H as [-> | [-> | [-> | ->] ] ]);
    repeat (rewrite get_swap_word by (rewrite ?length_swap_word; lia);
            repeat case_decide; try lia);
    f_equal; lia.
Qed.

Lemma get_invert_order fuel a b rk k c :
  (b - a <= 2 * fuel)%nat -> (4 * b + 3 < length rk)%nat -> (c < 4)%nat ->
  get (invert_order fuel (4 * a) (4 * b) rk) (4 * k + c) =
  get rk (4 * (if decide (a <= k <= b)%nat then a + b - k else k) + c).
Proof.
  revert a b rk. induction fuel as [|fuel IH]; intros a b rk Hf Hl Hc; cbn [invert_order].
  - f_equal. case_decide; lia.
  - destruct (Nat.ltb_spec (4 * a) (4 * b)) as [Hlt|Hge].
    + change (swap_word (4 * a + 3) (4 * b + 3) _) with (swap_block (4 * a) (4 * b) rk).
      replace (4 * a + 4)%nat with (4 * S a)%nat by lia.
      replace (4 * b - 4)%nat with (4 * (b - 1))%nat by lia.
      rewrite IH by (rewrite ?length_swap_block; lia).
      rewrite get_swap_block by lia. f_equal. repeat case_decide; lia.
    + f_equal. case_decide; lia.
Qed.

Lemma length_invert_order fuel i j rk : length (invert_order fuel i j rk) = length rk.
Proof.
  revert i j rk. induction fuel as [|fuel IH]; intros i j rk; cbn [invert_order]; [done|].
  destruct (i <? j)%nat; [|done]. by rewrite IH, !length_swap_word.
Qed.

Definition inv_mix_block (i : Z) (rk : list Z) : list Z :=
  for_up 0 4 (fun j rk =>
    let p := Z.to_nat (4 * i + j) in wput p (inv_mix_word (get rk p)) rk) rk.

Lemma length_inv_mix_block i rk : length (inv_mix_block i rk) = length rk.
Proof.
  unfold inv_mix_block. apply (for_up_inv (fun l => length l = length rk)); [|done].
  intros j l _ Hl. unfold wput. by rewrite length_insert.
Qed.

Lemma get_inv_mix_block (b : nat) rk k c :
  (4 * b + 3 < length rk)%nat -> (c < 4)%nat ->
  get (inv_mix_block (Z.of_nat b) rk) (4 * k + c) =
  if decide (k = b) then inv_mix_word (get rk (4 * k + c)) else get rk (4 * k + c).
Proof.
  intros Hb Hc. unfold inv_mix_block.
  change (for_up 0 4 ?f rk) with (f 3 (f 2 (f 1 (f 0 rk)))). cbv beta zeta.
  replace (Z.to_nat (4 * Z.of_nat b + 0)) with (4 * b)%nat by lia.
  replace (Z.to_nat (4 * Z.of_nat b + 1)) with (4 * b + 1)%nat by lia.
  replace (Z.to_nat (4 * Z.of_nat b + 2)) with (4 * b + 2)%nat by lia.
  replace (Z.to_nat (4 * Z.of_nat b + 3)) with (4 * b + 3)%nat by lia.
  unfold wput.
  assert (H : (c = 0 \/ c = 1 \/ c = 2 \/ c = 3)%nat) by lia.
  destruct (decide (k = b)) as [-> |]; (destruct H as [-> | [-> | [-> | ->] ] ]);
    repeat (rewrite get_insert by (rewrite ?length_insert; lia);
            case_decide; try lia); rewrite ?Nat.add_0_r; done.
Qed.

Lemma get_inv_mix_keys (R : nat) rk k c :
  (4 * R < length rk)%nat -> (c < 4)%nat ->
  get (inv_mix_keys (Z.of_nat R) rk) (4 * k + c) =
  if decide (1 <= k < R)%nat then inv_mix_word (get rk (4 * k + c))
  else get rk (4 * k + c).
Proof.
  intros HR Hc. unfold inv_mix_keys.
  replace (Z.to_nat (Z.of_nat R - 1)) with (R - 1)%nat by lia.
  change (fun i rk => for_up 0 4 _ rk) with inv_mix_block.
  assert (H : forall n, (n <= R - 1)%nat ->
    length (for_up 1 n inv_mix_block rk) = length rk /\
    get (for_up 1 n inv_mix_block rk) (4 * k + c) =
    if decide (1 <= k < S n)%nat then inv_mix_word (get rk (4 * k + c))
    else get rk (4 * k + c)).
  { induction n as [|n IH]; intros Hn.
    - rewrite for_up_0. split; [done|]. by rewrite decide_False by lia.
    - destruct (IH ltac:(lia)) as [Hlen IHg]. rewrite for_up_S.
      split; [by rewrite length_inv_mix_block|].
      replace (1 + Z.of_nat n) with (Z.of_nat (S n)) by lia.
      rewrite get_inv_mix_block by lia. rewrite IHg.
      repeat case_decide; done || lia. }
  destruct (H (R - 1)%nat ltac:(lia)) as [_ ->]. repeat case_decide; done || lia.
Qed.

(** The words of a schedule stay 32-bit words, and its length is kept. *)
Definition schedule (rk : list Z) : Prop :=
  length rk = AES_PRIV_WORDS /\ Forall is_u32 rk.

Lemma schedule_wput i v rk : is_u32 v -> schedule rk -> schedule (wput i v rk).
Proof.
  intros Hv [Hl Hw]. split; [unfold wput; by rewrite length_insert|].
  by apply Forall_insert.
Qed.

Lemma schedule_get rk i : schedule rk -> is_u32 (get rk i).
Proof. intros [_ H]. auto with wlan. Qed.

Lemma is_u32_land_mask x m : is_u32 m -> 0 <= x -> is_u32 (Z.land x m).
Proof.
  intros Hm Hx. assert (0 <= Z.land x m) by (apply Z.land_nonneg; lia).
  split; [done|]. apply (bound_of_testbit _ 32); [done|lia|].
  intros i Hi. rewrite Z.land_spec, (testbit_u32 m) by done. apply andb_false_r.
Qed.

Lemma Te0_nonneg x : is_byte x -> 0 <= tab Te0 x.
Proof. intros Hx. apply (is_u32_Te0 x Hx). Qed.

Ltac masked :=
  apply is_u32_land_mask; [unfold is_u32; lia|];
  rewrite ?Z.shiftr_nonneg; first [apply Te0_nonneg; auto with wlan | apply is_u32_u32].

Lemma is_u32_TE421 i : is_u32 (TE421 i). Proof. unfold TE421. masked. Qed.
Lemma is_u32_TE432 i : is_u32 (TE432 i). Proof. unfold TE432. masked. Qed.
Lemma is_u32_TE443 i : is_u32 (TE443 i). Proof. unfold TE443. masked. Qed.
Lemma is_u32_TE414 i : is_u32 (TE414 i). Proof. unfold TE414. masked. Qed.
Lemma is_u32_TE411 i : is_u32 (TE411 i). Proof. unfold TE411. masked. Qed.
Lemma is_u32_TE422 i : is_u32 (TE422 i). Proof. unfold TE422. masked. Qed.
Lemma is_u32_TE433 i : is_u32 (TE433 i). Proof. unfold TE433. masked. Qed.
Lemma is_u32_TE444 i : is_u32 (TE444 i). Proof. unfold TE444. masked. Qed.
Lemma is_u32_RCON i : is_u32 (RCON i). Proof. apply is_u32_u32. Qed.
#[export] Hint Resolve is_u32_TE421 is_u32_TE432 is_u32_TE443 is_u32_TE414
  is_u32_TE411 is_u32_TE422 is_u32_TE433 is_u32_TE444 is_u32_RCON schedule_get : wlan.

Lemma is_u32_of_byte x n : 0 <= n <= 24 -> is_byte x -> is_u32 (Z.shiftl x n).
Proof.
  intros Hn Hx. unfold is_byte, is_u32 in *. rewrite Z.shiftl_mul_pow2 by lia.
  assert (2 ^ n <= 2 ^ 24) by (apply Z.pow_le_mono_r; lia).
  assert (0 < 2 ^ n) by (apply Z.pow_pos_nonneg; lia).
  change (2 ^ 24) with 16777216 in *. nia.
Qed.

Lemma is_u32_GETU32 p : wf_bytes p -> is_u32 (GETU32 p).
Proof.
  intros Hp. unfold GETU32.
  pose proof (is_u32_of_byte (get p 3) 0 ltac:(lia) ltac:(auto with wlan)) as H3.
  rewrite Z.shiftl_0_r in H3.
  repeat apply is_u32_lxor; auto with wlan; apply is_u32_of_byte; auto with wlan; lia.
Qed.

(** Each store of a schedule step keeps it a schedule; the [let]s of the code
    are introduced one at a time. *)
Ltac schedule_store :=
  apply schedule_wput; [repeat apply is_u32_lxor; auto 4 with wlan|assumption].
Ltac solve_schedule :=
  repeat lazymatch goal with
  | |- schedule (let x := ?v in @?b x) =>
    lazymatch type of v with
    | list Z =>
      let H := fresh "Hs" in
      assert (H : schedule v) by schedule_store;
      change (schedule (b v)); generalize v, H; clear H; intros ? ?; cbv beta
    | _ => change (schedule (b v)); generalize v; intros ?; cbv beta
    end
  | |- schedule (if ?c then _ else _) => destruct c
  | |- schedule (wput _ _ _) => schedule_store
  | |- schedule _ => assumption
  end.

Lemma schedule_expand128 i rk : schedule rk -> schedule (expand128 i rk).
Proof. intros H. cbv beta delta [expand128]. solve_schedule. Qed.
Lemma schedule_expand192 i rk : schedule rk -> schedule (expand192 i rk).
Proof.
  intros H. cbv beta delta [expand192]. solve_schedule.
Qed.
Lemma schedule_expand256 i rk : schedule rk -> schedule (expand256 i rk).
Proof.
  intros H. cbv beta delta [expand256]. solve_schedule.
Qed.
#[export] Hint Resolve is_u32_GETU32 schedule_expand128 schedule_expand192
  schedule_expand256 : wlan.

Lemma rijndaelKeySetupEnc_ok junk key bits Nr rk :
  schedule junk -> wf_bytes key -> rijndaelKeySetupEnc junk key bits = (Nr, rk) ->
  schedule rk /\ (Nr = -1 \/ Nr = 10 \/ Nr = 12 \/ Nr = 14).
Proof.
  intros Hj Hk.
  assert (Hput : forall i off l, schedule l -> schedule (wput i (GETU32 (drop off key)) l)).
  { intros i off l Hl. apply schedule_wput; auto with wlan. }
  cbv beta delta [rijndaelKeySetupEnc].
  repeat match goal with
  | |- (let x := wput ?i ?v ?l in @?b x) = _ -> _ =>
    let H := fresh "Hs" in
    assert (H : schedule (wput i v l)) by (apply (Hput _ 0%nat) || apply Hput; assumption);
    change (b (wput i v l) = (Nr, rk) ->
            schedule rk /\ (Nr = -1 \/ Nr = 10 \/ Nr = 12 \/ Nr = 14));
    generalize (wput i v l), H; clear H; intros ? ?; cbv beta
  | |- (if ?c then _ else _) = _ -> _ =>
    destruct c;
    [intros [= <- <-]; (split; [|lia]); apply for_up_inv; auto with wlan|]
  end.
  intros [= <- <-]. split; [done|lia].
Qed.

Lemma schedule_inv_mix_keys Nr rk : schedule rk -> schedule (inv_mix_keys Nr rk).
Proof.
  intros H. unfold inv_mix_keys. apply for_up_inv; [|done]. intros i rk' _ H'.
  apply for_up_inv; [|done]. intros j rk'' _ H''. apply schedule_wput; [|done].
  auto with wlan.
Qed.

Lemma schedule_swap_word i j rk : schedule rk -> schedule (swap_word i j rk).
Proof. intros H. unfold swap_word. apply schedule_wput; auto with wlan.
  apply schedule_wput; auto with wlan. Qed.

Lemma schedule_invert_order fuel i j rk :
  schedule rk -> schedule (invert_order fuel i j rk).
Proof.
  revert i j rk. induction fuel as [|fuel IH]; intros i j rk H; cbn [invert_order]; [done|].
  destruct (i <? j)%nat; [|done]. apply IH. by repeat apply schedule_swap_word.
Qed.

(** What [rijndaelKeySetupDec] leaves in word [c] of round key [k]. *)
Lemma get_dec_schedule (R : nat) rk k c :
  schedule rk -> (4 * R + 3 < AES_PRIV_WORDS)%nat -> (k <= R)%nat -> (c < 4)%nat ->
  get (inv_mix_keys (Z.of_nat R) (invert_order R 0 (4 * R) rk)) (4 * k + c) =
  if decide (1 <= k < R)%nat then inv_mix_word (get rk (4 * (R - k) + c))
  else get rk (4 * (R - k) + c).
Proof.
  intros [Hl _] HR Hk Hc.
  rewrite get_inv_mix_keys by (rewrite ?length_invert_order; lia).
  change (invert_order R 0 (4 * R) rk) with (invert_order R (4 * 0) (4 * R) rk).
  rewrite get_invert_order by lia.
  repeat case_decide; done || lia || (repeat f_equal; lia).
Qed.

(** ** Blocks *)

Lemma GETU32_PUTU32 w l : is_u32 w -> GETU32 (PUTU32 w ++ l) = w.
Proof.
  intros Hw. rewrite <- (pack_bytes w) at 2 by done. unfold GETU32, pack.
  change (get (PUTU32 w ++ l) 0) with (B3 w).
  change (get (PUTU32 w ++ l) 1) with (B2 w).
  change (get (PUTU32 w ++ l) 2) with (B1 w).
  change (get (PUTU32 w ++ l) 3) with (B0 w).
  rewrite u32_id; [done|]. apply is_u32_of_byte; auto with wlan. lia.
Qed.

Lemma PUTU32_GETU32 p :
  wf_bytes p -> (4 <= length p)%nat -> PUTU32 (GETU32 p) = take 4 p.
Proof.
  intros Hp Hl. destruct p as [|a [|b [|c [|d p] ] ] ]; try (simpl in Hl; lia).
  unfold wf_bytes in Hp. rewrite !Forall_cons in Hp. destruct Hp as (Ha & Hb & Hc & Hd & _).
  assert (E : GETU32 (a :: b :: c :: d :: p) = pack a b c d).
  { unfold GETU32, pack. cbn [get nth]. rewrite u32_id; [done|].
    apply is_u32_of_byte; [lia|done]. }
  rewrite E. change (PUTU32 ?w) with [B3 w; B2 w; B1 w; B0 w]. cbn [take].
  by rewrite B3_pack, B2_pack, B1_pack, B0_pack.
Qed.

Lemma block_words b :
  is_block b ->
  PUTU32 (GETU32 b) ++ PUTU32 (GETU32 (drop 4 b)) ++ PUTU32 (GETU32 (drop 8 b)) ++
  PUTU32 (GETU32 (drop 12 b)) = b.
Proof.
  intros [Hl Hb]. unfold AES_BLOCK_SIZE in Hl.
  rewrite !PUTU32_GETU32 by (rewrite ?length_drop; auto with wlan; lia).
  rewrite (take_ge (drop 12 b)) by (rewrite length_drop; lia).
  replace (drop 12 b) with (drop 4 (drop 8 b)) by (by rewrite drop_drop).
  rewrite take_drop. replace (drop 8 b) with (drop 4 (drop 4 b)) by (by rewrite drop_drop).
  by rewrite take_drop, take_drop.
Qed.

(** ** Decryption inverts encryption *)

(** [drk] holds the decryption round keys of [rk] for [N] rounds. *)
Definition dec_keys (N : nat) (rk drk : list Z) : Prop :=
  forall k c, (k <= N)%nat -> (c < 4)%nat ->
  get drk (4 * k + c) =
  if decide (1 <= k < N)%nat then inv_mix_word (get rk (4 * (N - k) + c))
  else get rk (4 * (N - k) + c).

Lemma dec_keys_first N rk drk c :
  dec_keys N rk drk -> (c < 4)%nat -> get drk c = get rk (4 * N + c).
Proof.
  intros Hk Hc. change c with (4 * 0 + c)%nat at 1.
  rewrite (Hk 0%nat c) by lia. rewrite decide_False by lia.
  f_equal. lia.
Qed.

Lemma dec_keys_last N rk drk c :
  dec_keys N rk drk -> (c < 4)%nat -> get drk (4 * N + c) = get rk c.
Proof.
  intros Hk Hc. rewrite (Hk N c) by lia. rewrite decide_False by lia.
  f_equal. lia.
Qed.

Lemma u32_rounds_enc rk n p s :
  Forall is_u32 rk -> u32_words s -> u32_words (rounds (ROUND_enc rk) n p s).
Proof.
  intros Hrk. revert p s. induction n as [|n IH]; intros p s Hs; [done|].
  apply IH. by apply u32_ROUND_enc.
Qed.

Definition add_key (rk : list Z) (p : nat) (s : words) : words :=
  let '(s0, s1, s2, s3) := s in
  (s0 ^^ get rk p, s1 ^^ get rk (p + 1), s2 ^^ get rk (p + 2), s3 ^^ get rk (p + 3)).

Definition load (b : bytes) : words :=
  (GETU32 b, GETU32 (drop 4 b), GETU32 (drop 8 b), GETU32 (drop 12 b)).

Definition store (s : words) : bytes :=
  let '(s0, s1, s2, s3) := s in PUTU32 s0 ++ PUTU32 s1 ++ PUTU32 s2 ++ PUTU32 s3.

(** The two ciphers as key addition, rounds, and the last round. *)
Lemma rijndaelEncrypt_rounds rk r pt :
  rijndaelEncrypt rk (Z.of_nat (2 * S r)) pt =
  store (add_key rk (8 * S r)
    (SBSR (rounds (ROUND_enc rk) (2 * r + 1) 0 (add_key rk 0 (load pt))))).
Proof.
  unfold rijndaelEncrypt. rewrite Z.shiftr_div_pow2 by lia.
  replace (Z.to_nat (Z.of_nat (2 * S r) / 2 ^ 1)) with (S r)
    by (change (2 ^ 1) with 2; zdiv).
  rewrite round_loop_rounds. unfold load, add_key.
  by destruct (rounds _ _ _ _) as [[[t0 t1] t2] t3].
Qed.

Definition unSBSR (s : words) : words :=
  let '(s0, s1, s2, s3) := s in
  (TD41 s0 ^^ TD42 s3 ^^ TD43 s2 ^^ TD44 s1, TD41 s1 ^^ TD42 s0 ^^ TD43 s3 ^^ TD44 s2,
   TD41 s2 ^^ TD42 s1 ^^ TD43 s0 ^^ TD44 s3, TD41 s3 ^^ TD42 s2 ^^ TD43 s1 ^^ TD44 s0).

Lemma rijndaelDecrypt_rounds rk r ct :
  rijndaelDecrypt rk (Z.of_nat (2 * S r)) ct =
  store (add_key rk (8 * S r)
    (unSBSR (rounds (ROUND_dec rk) (2 * r + 1) 0 (add_key rk 0 (load ct))))).
Proof.
  unfold rijndaelDecrypt. rewrite Z.shiftr_div_pow2 by lia.
  replace (Z.to_nat (Z.of_nat (2 * S r) / 2 ^ 1)) with (S r)
    by (change (2 ^ 1) with 2; zdiv).
  rewrite round_loop_rounds. unfold load, add_key.
  by destruct (rounds _ _ _ _) as [[[t0 t1] t2] t3].
Qed.

Lemma unSBSR_SBSR s : u32_words s -> unSBSR (SBSR s) = s.
Proof.
  destruct s as [[[s0 s1] s2] s3]. intros (H0 & H1 & H2 & H3).
  unfold unSBSR, SBSR. by rewrite !td4_sbsr.
Qed.

Lemma load_store s : u32_words s -> load (store s) = s.
Proof.
  destruct s as [[[s0 s1] s2] s3]. intros (H0 & H1 & H2 & H3).
  unfold load, store.
  change (drop 4 (PUTU32 s0 ++ ?l)) with l.
  change (drop 8 (PUTU32 s0 ++ PUTU32 s1 ++ ?l)) with l.
  change (drop 12 (PUTU32 s0 ++ PUTU32 s1 ++ PUTU32 s2 ++ ?l)) with l.
  rewrite !GETU32_PUTU32 by done.
  rewrite <- (app_nil_r (PUTU32 s3)). by rewrite GETU32_PUTU32.
Qed.

Lemma store_load b : is_block b -> store (load b) = b.
Proof. intros. unfold store, load. by apply block_words. Qed.

Lemma u32_add_key rk p s : schedule rk -> u32_words s -> u32_words (add_key rk p s).
Proof.
  intros Hrk. destruct s as [[[s0 s1] s2] s3]. intros (H0 & H1 & H2 & H3).
  unfold add_key. refine (conj _ (conj _ (conj _ _))); auto with wlan.
Qed.

Lemma u32_load b : wf_bytes b -> u32_words (load b).
Proof.
  intros. unfold load. refine (conj _ (conj _ (conj _ _))); auto with wlan.
Qed.

Lemma add_key_cancel rk drk p q s :
  (forall c, (c < 4)%nat -> get drk (q + c) = get rk (p + c)) ->
  add_key drk q (add_key rk p s) = s.
Proof.
  intros Hk. pose proof (Hk 0%nat ltac:(lia)) as K0. rewrite !Nat.add_0_r in K0.
  destruct s as [[[s0 s1] s2] s3]. unfold add_key.
  rewrite K0, !Hk by lia.
  by rewrite !Z.lxor_assoc, !Z.lxor_nilpotent, !Z.lxor_0_r.
Qed.

Lemma u32_SBSR s : u32_words (SBSR s).
Proof.
  assert (H : forall a b c d, is_u32 (sbsr a b c d)).
  { intros. unfold sbsr, TE41, TE42, TE43, TE44. repeat apply is_u32_lxor; masked. }
  destruct s as [[[s0 s1] s2] s3]. by repeat split; apply H.
Qed.

Lemma rijndael_roundtrip rk drk r pt :
  schedule rk -> dec_keys (2 * S r) rk drk -> is_block pt ->
  rijndaelDecrypt drk (Z.of_nat (2 * S r)) (rijndaelEncrypt rk (Z.of_nat (2 * S r)) pt) = pt.
Proof.
  intros Hrk Hk Hpt. pose proof Hrk as [_ Hu].
  rewrite rijndaelDecrypt_rounds, rijndaelEncrypt_rounds.
  rewrite load_store by (apply u32_add_key; [done|apply u32_SBSR]).
  rewrite add_key_cancel.
  - rewrite (rounds_dec_enc rk); [|done|].
    + rewrite unSBSR_SBSR, add_key_cancel; [by apply store_load| |].
      * intros c Hc. replace (8 * S r + c)%nat with (4 * (2 * S r) + c)%nat by lia.
        by rewrite (dec_keys_last _ rk).
      * apply u32_add_key; [done|]. apply u32_load. apply Hpt.
    + intros i Hi c Hc. replace (0 + 4 * S i + c)%nat with (4 * S i + c)%nat by lia.
      rewrite (Hk (S i) c) by lia. rewrite decide_True by lia. do 2 f_equal. lia.
  - intros c Hc. rewrite (dec_keys_first (2 * S r) rk) by done. f_equal. lia.
Qed.

(** ** The interface *)

Lemma schedule_ctx rk Nr :
  is_u32 Nr -> schedule rk -> schedule (wput AES_PRIV_NR_POS Nr rk).
Proof. apply schedule_wput. Qed.

Lemma get_ctx rk Nr i :
  schedule rk -> (i < 60)%nat -> get (wput AES_PRIV_NR_POS Nr rk) i = get rk i.
Proof.
  intros [Hl _] Hi. unfold wput, AES_PRIV_NR_POS. unfold AES_PRIV_WORDS in Hl.
  rewrite get_insert by lia. by rewrite decide_False by lia.
Qed.

Lemma get_ctx_rounds rk Nr :
  schedule rk -> get (wput AES_PRIV_NR_POS Nr rk) AES_PRIV_NR_POS = Nr.
Proof.
  intros [Hl _]. unfold wput, AES_PRIV_NR_POS. unfold AES_PRIV_WORDS in Hl.
  rewrite get_insert by lia. by rewrite decide_True.
Qed.

Lemma is_block_store s : is_block (store s).
Proof.
  destruct s as [[[s0 s1] s2] s3]. split; [done|].
  unfold store, PUTU32. repeat apply Forall_app_2; repeat constructor; apply is_byte_u8.
Qed.

Lemma internal_encrypt_init_inv alloc junk key len c :
  schedule junk -> wf_bytes key ->
  internal_encrypt_init alloc junk key len = Some c ->
  exists r rk, rijndaelKeySetupEnc junk key (len * 8) = (Z.of_nat (2 * S r), rk) /\
    (2 * S r <= 14)%nat /\ schedule rk /\
    c = wput AES_PRIV_NR_POS (Z.of_nat (2 * S r)) rk.
Proof.
  intros Hj Hk. unfold internal_encrypt_init. destruct alloc; [|done].
  destruct (rijndaelKeySetupEnc junk key (len * 8)) as [Nr rk] eqn:E.
  destruct (rijndaelKeySetupEnc_ok _ _ _ _ _ Hj Hk E) as [Hrk HNr].
  case_match eqn:En; [done|]. intros [= <-].
  destruct HNr as [-> | [-> | [-> | ->] ] ]; [done|..].
  - exists 4%nat, rk. split_and!; [done|lia|done|done].
  - exists 5%nat, rk. split_and!; [done|lia|done|done].
  - exists 6%nat, rk. split_and!; [done|lia|done|done].
Qed.

Lemma internal_decrypt_init_inv alloc junk key len d r rk :
  rijndaelKeySetupEnc junk key (len * 8) = (Z.of_nat (2 * S r), rk) ->
  internal_decrypt_init alloc junk key len = Some d ->
  d = wput AES_PRIV_NR_POS (Z.of_nat (2 * S r))
        (inv_mix_keys (Z.of_nat (2 * S r)) (invert_order (2 * S r) 0 (4 * (2 * S r)) rk)).
Proof.
  intros E. unfold internal_decrypt_init, rijndaelKeySetupDec. rewrite E.
  generalize (2 * S r)%nat. intros N. destruct alloc; [|done].
  destruct (Z.ltb_spec (Z.of_nat N) 0); [lia|].
  destruct (Z.ltb_spec (Z.of_nat N) 0); [lia|]. intros [= <-].
  rewrite <- (Nat2Z.inj_mul 4), !Nat2Z.id. done.
Qed.

Lemma internal_roundtrip alloc junk key len c d b :
  schedule junk ->
  internal_encrypt_init alloc junk key len = Some c ->
  internal_decrypt_init alloc junk key len = Some d ->
  wf_bytes key -> is_block b -> internal_decrypt d (internal_encrypt c b) = b.
Proof.
  intros Hj Hc Hd Hkey Hb.
  destruct (internal_encrypt_init_inv _ _ _ _ _ Hj Hkey Hc) as (r & rk & E & Hr & Hrk & ->).
  rewrite (internal_decrypt_init_inv _ _ _ _ _ _ _ E Hd).
  unfold internal_encrypt, internal_decrypt.
  assert (Hdk : schedule (inv_mix_keys (Z.of_nat (2 * S r))
                  (invert_order (2 * S r) 0 (4 * (2 * S r)) rk))).
  { by apply schedule_inv_mix_keys, schedule_invert_order. }
  rewrite !get_ctx_rounds by done.
  apply rijndael_roundtrip; [apply schedule_ctx; [unfold is_u32; lia|done]| |done].
  intros k i Hk Hi. rewrite !get_ctx by (done || lia).
  apply get_dec_schedule; unfold AES_PRIV_WORDS; done || lia.
Qed.

(** hostap's internal AES implements the [crypto.h] interface, whatever memory
    the allocator returns for the contexts. *)
Definition InternalAes (alloc : bool) (junk : list Z) : Aes := {|
  aes_encrypt_init := internal_encrypt_init alloc junk;
  aes_encrypt := internal_encrypt;
  aes_decrypt_init := internal_decrypt_init alloc junk;
  aes_decrypt := internal_decrypt |}.

Lemma schedule_zero : schedule (replicate AES_PRIV_WORDS 0).
Proof. split; [done|]. apply Forall_replicate. unfold is_u32. lia. Qed.

Lemma internal_encrypt_block alloc junk key n c b :
  schedule junk -> wf_bytes key ->
  internal_encrypt_init alloc junk key n = Some c -> is_block (internal_encrypt c b).
Proof.
  intros Hj Hk Hc.
  destruct (internal_encrypt_init_inv _ _ _ _ _ Hj Hk Hc) as (r & rk & _ & _ & Hrk & ->).
  unfold internal_encrypt. rewrite get_ctx_rounds, rijndaelEncrypt_rounds by done.
  apply is_block_store.
Qed.

Lemma internal_init_agree alloc junk key n :
  is_Some (internal_encrypt_init alloc junk key n) <->
  is_Some (internal_decrypt_init alloc junk key n).
Proof.
  unfold internal_encrypt_init, internal_decrypt_init, rijndaelKeySetupDec.
  destruct alloc; [|done]. destruct (rijndaelKeySetupEnc junk key (n * 8)) as [Nr rk].
  destruct (Nr <? 0) eqn:E; rewrite ?E; [reflexivity|]. split; eauto.
Qed.

Lemma internal_decrypt_block alloc junk key n d b :
  schedule junk -> wf_bytes key ->
  internal_decrypt_init alloc junk key n = Some d -> is_block (internal_decrypt d b).
Proof.
  intros Hj Hk Hd.
  destruct (proj2 (internal_init_agree alloc junk key n)) as [c Hc]; [by eexists|].
  destruct (internal_encrypt_init_inv _ _ _ _ _ Hj Hk Hc) as (r & rk & E & _ & Hrk & _).
  rewrite (internal_decrypt_init_inv _ _ _ _ _ _ _ E Hd). unfold internal_decrypt.
  rewrite get_ctx_rounds by (by apply schedule_inv_mix_keys, schedule_invert_order).
  rewrite rijndaelDecrypt_rounds. apply is_block_store.
Qed.

#[export] Instance InternalAes_laws alloc junk `(Hj : schedule junk) :
  AesLaws (InternalAes alloc junk).
Proof.
  split; simpl.
  - intros. by eapply internal_encrypt_block.
  - intros. by eapply internal_decrypt_block.
  - intros. apply internal_init_agree.
  - intros. by eapply internal_roundtrip.
Qed.

(** The instance the concrete examples run on: contexts in zeroed memory. *)
Definition ZeroedAes : Aes := InternalAes true (replicate AES_PRIV_WORDS 0).
#[export] Instance ZeroedAes_laws : AesLaws ZeroedAes :=
  InternalAes_laws true _ schedule_zero.

(** The bytes [0, 1, ..., n - 1]: the keys of the standards' test vectors. *)
Definition counting (n : Z) : bytes := seqZ 0 n.

Definition by_decision {P : Prop} {d : Decision P} (H : bool_decide P = true) : P :=
  bool_decide_eq_true_1 P H.
#[export] Instance wf_bytes_dec l : Decision (wf_bytes l).
Proof. unfold wf_bytes. apply _. Defined.

(** ** The cipher *)

Lemma key_setup_succeeds junk key len :
  len = 16 \/ len = 24 \/ len = 32 ->
  is_Some (internal_encrypt_init true junk key len) /\
  is_Some (internal_decrypt_init true junk key len).
Proof.
  intros Hlen.
  assert (H : is_Some (internal_encrypt_init true junk key len)).
  { unfold internal_encrypt_init, rijndaelKeySetupEnc.
    destruct Hlen as [-> | [-> | ->] ]; cbn [Z.mul Z.eqb Pos.mul Pos.eqb]; by eexists. }
  split; [done|]. by apply internal_init_agree.
Qed.

(** C33: the AES of hostap is a permutation of blocks for every 128-, 192- and
    256-bit key: the table-driven encryption and decryption, with the key
    schedules the two set-up functions expand into memory of any contents, are
    inverse to each other, in both orders; set-up succeeds once memory is
    allocated. *)
Theorem aes_internal_roundtrip junk key len b :
  schedule junk -> wf_bytes key -> is_block b -> len = 16 \/ len = 24 \/ len = 32 ->
  exists c d, internal_encrypt_init true junk key len = Some c /\
    internal_decrypt_init true junk key len = Some d /\
    internal_decrypt d (internal_encrypt c b) = b /\
    internal_encrypt c (internal_decrypt d b) = b.
Proof.
  intros Hj Hk Hb Hlen. destruct (key_setup_succeeds junk key len Hlen) as [ [c Hc] [d Hd] ].
  exists c, d. split_and!; [done|done|by eapply internal_roundtrip|].
  exact (aes_encrypt_decrypt (L := InternalAes_laws true junk Hj) key len c d b Hk Hc Hd Hb).
Qed.

(** FIPS 197, C.1 to C.3. *)
Definition fips197_plain : bytes := be_encode 16 0x00112233445566778899aabbccddeeff.

Definition fips197_encrypt (len : Z) : option bytes :=
  c ← internal_encrypt_init true (replicate AES_PRIV_WORDS 0) (counting len) len;
  Some (internal_encrypt c fips197_plain).

Example fips197_vectors :
  fips197_encrypt 16 = Some (be_encode 16 0x69c4e0d86a7b0430d8cdb78070b4c55a) /\
  fips197_encrypt 24 = Some (be_encode 16 0xdda97ca4864cdfe06eaf70a0ec0d7191) /\
  fips197_encrypt 32 = Some (be_encode 16 0x8ea2b7ca516745bfeafc49904b496089).
Proof. vm_compute. done. Qed.

Lemma aes_internal_roundtrip_witness :
  exists c d,
    internal_encrypt_init true (replicate AES_PRIV_WORDS 0) (counting 24) 24 = Some c /\
    internal_decrypt_init true (replicate AES_PRIV_WORDS 0) (counting 24) 24 = Some d /\
    internal_decrypt d (internal_encrypt c fips197_plain) = fips197_plain /\
    internal_encrypt c (internal_decrypt d fips197_plain) = fips197_plain.
Proof.
  apply aes_internal_roundtrip.
  - exact schedule_zero.
  - apply by_decision. vm_compute. reflexivity.
  - apply by_decision. vm_compute. reflexivity.
  - right. left. reflexivity.
Defined.
