(* ===== verification/AesWrap.v ===== *)
(** * AES key wrap (RFC 3394)

    [aes_wrap] and [aes_unwrap] of hostap's [crypto/aes-wrap.c] and
    [aes-unwrap.c], over any implementation of the AES interface.  A function
    returns the C return value (0 or -1) with the contents of its output
    buffer. *)

From S2P Require Import Prelude AesInterface AesInternal AesCorrect.

Section wrap.
Context `{A : Aes}.

(** [a[7] ^= t; a[6] ^= t >> 8; a[5] ^= t >> 16; a[4] ^= t >> 24;] *)
Definition xor_counter (a : bytes) (t : Z) : bytes :=
  let a := <[7%nat := u8 (Z.lxor (get a 7) t)]> a in
  let a := <[6%nat := u8 (Z.lxor (get a 6) (Z.shiftr t 8))]> a in
  let a := <[5%nat := u8 (Z.lxor (get a 5) (Z.shiftr t 16))]> a in
  <[4%nat := u8 (Z.lxor (get a 4) (Z.shiftr t 24))]> a.

(** One iteration of the loop: [cipher] holds [a] in its first 8 bytes and
    [r] at [cipher + 8 * i]. *)
Definition wrap_step (ctx : aes_ctx) (n : nat) (j i : Z) (cipher : bytes) : bytes :=
  let r := (8 * Z.to_nat i)%nat in
  let b := aes_encrypt ctx (sub 0 8 cipher ++ sub r 8 cipher) in
  let t := u32 (Z.of_nat n * j + i) in
  let cipher := memcpy cipher 0 (xor_counter (take 8 b) t) in
  memcpy cipher r (drop 8 b).

Definition aes_wrap (kek : bytes) (kek_len : Z) (n : nat) (plain : bytes)
    : Z * bytes :=
  let cipher := replicate 8 0xa6 ++ take (8 * n) plain in
  match aes_encrypt_init kek kek_len with
  | None => (-1, cipher)
  | Some ctx =>
    (0, for_up 0 6 (fun j => for_up 1 n (wrap_step ctx n j)) cipher)
  end.

(** The state of the unwrapping loop is the register [a] and the output
    buffer; iteration [i] works on [r = plain + (i - 1) * 8]. *)
Definition unwrap_step (ctx : aes_ctx) (n : nat) (j i : Z) (s : bytes * bytes)
    : bytes * bytes :=
  let '(a, plain) := s in
  let r := (8 * Z.to_nat (i - 1))%nat in
  let t := u32 (Z.of_nat n * j + i) in
  let b := aes_decrypt ctx (xor_counter a t ++ sub r 8 plain) in
  (take 8 b, memcpy plain r (drop 8 b)).

Definition aes_unwrap (kek : bytes) (kek_len : Z) (n : nat) (cipher : bytes)
    : Z * bytes :=
  let a := take 8 cipher in
  let plain := sub 8 (8 * n) cipher in
  match aes_decrypt_init kek kek_len with
  | None => (-1, plain)
  | Some ctx =>
    let '(a, plain) :=
      for_down 0 6 (fun j => for_down 1 n (unwrap_step ctx n j)) (a, plain) in
    if forallb (fun x => x =? 0xa6) a then (0, plain) else (-1, plain)
  end.
End wrap.

Section proofs.
Context `{A : Aes} {L : AesLaws A}.

Lemma u8_lxor_cancel x t : is_byte x -> u8 (Z.lxor (u8 (Z.lxor x t)) t) = x.
Proof.
  intros Hx. apply Z.bits_inj'. intros i Hi.
  rewrite testbit_u8, Z.lxor_spec, testbit_u8, Z.lxor_spec by lia.
  case_bool_decide.
  - by destruct (Z.testbit x i), (Z.testbit t i).
  - symmetry. apply testbit_byte; [done|lia].
Qed.

Lemma xor_counter_involutive a t :
  length a = 8%nat -> wf_bytes a -> xor_counter (xor_counter a t) t = a.
Proof.
  intros Hl Ha. do 9 (destruct a as [|? a]; try done). unfold wf_bytes in Ha.
  repeat (apply Forall_cons in Ha as [? Ha]).
  unfold xor_counter, get. simpl. by rewrite !u8_lxor_cancel.
Qed.

Lemma length_xor_counter a t : length (xor_counter a t) = length a.
Proof. unfold xor_counter. by rewrite !length_insert. Qed.

Lemma wf_xor_counter a t : wf_bytes a -> wf_bytes (xor_counter a t).
Proof. intros. unfold xor_counter. repeat apply wf_bytes_insert; auto with wlan. Qed.

(** The wrapping step on the pair of registers. *)
Definition wrap_pair (ctx : aes_ctx) (n : nat) (j i : Z) (s : bytes * bytes)
    : bytes * bytes :=
  let '(a, r) := s in
  let off := (8 * Z.to_nat (i - 1))%nat in
  let b := aes_encrypt ctx (a ++ sub off 8 r) in
  (xor_counter (take 8 b) (u32 (Z.of_nat n * j + i)), memcpy r off (drop 8 b)).

(** The registers: [a] of 8 bytes, [r] of [8 n] bytes. *)
Definition registers (n : nat) (s : bytes * bytes) : Prop :=
  length s.1 = 8%nat /\ length s.2 = (8 * n)%nat /\ wf_bytes s.1 /\ wf_bytes s.2.

Context (kek : bytes) (kek_len : Z) (ctx : aes_ctx) (n : nat).
Context (Hkek : wf_bytes kek) (Hinit : aes_encrypt_init kek kek_len = Some ctx).

Lemma enc_block b : is_block b -> is_block (aes_encrypt ctx b).
Proof. intros. by apply (aes_encrypt_block kek kek_len). Qed.

Lemma step_block (i : Z) s :
  registers n s -> 1 <= i < 1 + Z.of_nat n ->
  is_block (s.1 ++ sub (8 * Z.to_nat (i - 1)) 8 s.2).
Proof.
  intros (H1 & H2 & H3 & H4) Hi. split.
  - rewrite length_app, length_sub by lia. unfold AES_BLOCK_SIZE. lia.
  - apply wf_bytes_app. auto with wlan.
Qed.

Lemma wrap_pair_registers j i s :
  1 <= i < 1 + Z.of_nat n -> registers n s -> registers n (wrap_pair ctx n j i s).
Proof.
  intros Hi Hs. pose proof (step_block i s Hs Hi) as Hb. destruct s as [a r].
  apply enc_block in Hb as [Hbl Hbw].
  destruct Hs as (H1 & H2 & H3 & H4). cbn [fst snd] in *. unfold AES_BLOCK_SIZE in Hbl.
  unfold registers, wrap_pair; cbn [fst snd].
  rewrite length_xor_counter, length_memcpy, length_take by (rewrite length_drop; lia).
  split_and!; [lia|lia| |]; auto using wf_xor_counter with wlan.
Qed.

Lemma wrap_step_pair j i a r :
  1 <= i < 1 + Z.of_nat n -> registers n (a, r) ->
  wrap_step ctx n j i (a ++ r) =
  (wrap_pair ctx n j i (a, r)).1 ++ (wrap_pair ctx n j i (a, r)).2.
Proof.
  intros Hi Hs. pose proof (step_block i _ Hs Hi) as Hb.
  apply enc_block in Hb as [Hbl Hbw].
  destruct Hs as (H1 & H2 & H3 & H4). cbn [fst snd] in *. unfold AES_BLOCK_SIZE in Hbl.
  unfold wrap_step.
  replace (sub 0 8 (a ++ r)) with a
    by (unfold sub; rewrite drop_0, take_app_length'; done).
  replace (8 * Z.to_nat i)%nat with (length a + 8 * Z.to_nat (i - 1))%nat by lia.
  set (o := (8 * Z.to_nat (i - 1))%nat) in *.
  replace (sub (length a + o) 8 (a ++ r)) with (sub o 8 r)
    by (unfold sub; by rewrite <- drop_drop, drop_app_length).
  set (b := aes_encrypt ctx (a ++ sub o 8 r)) in *.
  assert (Hx : length (xor_counter (take 8 b) (u32 (Z.of_nat n * j + i))) = length a).
  { rewrite length_xor_counter, length_take. lia. }
  set (x := xor_counter _ _) in *. unfold memcpy at 2. rewrite take_0, Hx. simpl.
  rewrite drop_app_length. unfold memcpy.
  rewrite <- Hx, take_app_add, <- app_assoc. do 3 f_equal.
  replace (length x + o + length (drop 8 b))%nat
    with (length x + (o + length (drop 8 b)))%nat by lia.
  by rewrite <- drop_drop, drop_app_length.
Qed.

(** The two loops as functions of the registers. *)
Definition wrap_all (s : bytes * bytes) : bytes * bytes :=
  for_up 0 6 (fun j => for_up 1 n (wrap_pair ctx n j)) s.
Definition unwrap_all (d : aes_ctx) (s : bytes * bytes) : bytes * bytes :=
  for_down 0 6 (fun j => for_down 1 n (unwrap_step d n j)) s.

Lemma wrap_loop_pair a r :
  registers n (a, r) ->
  for_up 0 6 (fun j => for_up 1 n (wrap_step ctx n j)) (a ++ r) =
  (wrap_all (a, r)).1 ++ (wrap_all (a, r)).2 /\ registers n (wrap_all (a, r)).
Proof.
  intros Hs.
  apply (for_up_sim (fun buf s => buf = s.1 ++ s.2 /\ registers n s)); [|by split].
  intros j buf s _ Hr.
  apply (for_up_sim (fun buf s => buf = s.1 ++ s.2 /\ registers n s)); [|done].
  intros i buf' [a' r'] Hi [-> Hs']. split; [apply wrap_step_pair; assumption|].
  by apply wrap_pair_registers.
Qed.

Context (d : aes_ctx) (Hdec : aes_decrypt_init kek kek_len = Some d).

Lemma dec_block b : is_block b -> is_block (aes_decrypt d b).
Proof. intros. by apply (aes_decrypt_block kek kek_len). Qed.

Lemma unwrap_step_registers j i s :
  1 <= i < 1 + Z.of_nat n -> registers n s -> registers n (unwrap_step d n j i s).
Proof.
  intros Hi (H1 & H2 & H3 & H4). destruct s as [a r]. cbn [fst snd] in *.
  assert (Hb : is_block (xor_counter a (u32 (Z.of_nat n * j + i)) ++
                         sub (8 * Z.to_nat (i - 1)) 8 r)).
  { split; [rewrite length_app, length_xor_counter, length_sub by lia; unfold AES_BLOCK_SIZE; lia|].
    apply wf_bytes_app. auto using wf_xor_counter with wlan. }
  apply dec_block in Hb as [Hbl Hbw].
  unfold AES_BLOCK_SIZE in Hbl. unfold registers, unwrap_step. cbn [fst snd].
  rewrite length_memcpy, length_take by (rewrite length_drop; lia).
  split_and!; [lia|lia| |]; auto with wlan.
Qed.

Lemma unwrap_wrap_step j i s :
  1 <= i < 1 + Z.of_nat n -> registers n s ->
  unwrap_step d n j i (wrap_pair ctx n j i s) = s.
Proof.
  intros Hi Hs. pose proof (step_block i s Hs Hi) as Hb.
  pose proof (aes_decrypt_encrypt kek kek_len ctx d _ Hkek Hinit Hdec Hb) as Hde.
  apply enc_block in Hb as [Hbl Hbw].
  destruct s as [a r]. destruct Hs as (H1 & H2 & H3 & H4). cbn [fst snd] in *.
  unfold AES_BLOCK_SIZE in Hbl. unfold unwrap_step, wrap_pair.
  set (o := (8 * Z.to_nat (i - 1))%nat) in *.
  set (b := aes_encrypt ctx (a ++ sub o 8 r)) in *.
  rewrite xor_counter_involutive by (rewrite ?length_take; auto with wlan; lia).
  assert (Hl8 : length (drop 8 b) = 8%nat) by (rewrite length_drop; lia).
  rewrite sub_memcpy_len, take_drop, Hde by (done || lia).
  rewrite take_app_length', drop_app_length' by done.
  by rewrite memcpy_sub_len by (done || lia).
Qed.

Lemma wrap_unwrap_step j i s :
  1 <= i < 1 + Z.of_nat n -> registers n s ->
  wrap_pair ctx n j i (unwrap_step d n j i s) = s.
Proof.
  intros Hi (H1 & H2 & H3 & H4). destruct s as [a r]. cbn [fst snd] in *.
  set (t := u32 (Z.of_nat n * j + i)). set (o := (8 * Z.to_nat (i - 1))%nat).
  assert (Hb : is_block (xor_counter a t ++ sub o 8 r)).
  { split; [rewrite length_app, length_xor_counter, length_sub by lia; unfold AES_BLOCK_SIZE; lia|].
    apply wf_bytes_app. auto using wf_xor_counter with wlan. }
  pose proof (aes_encrypt_decrypt kek kek_len ctx d _ Hkek Hinit Hdec Hb) as Hed.
  apply dec_block in Hb as [Hbl Hbw].
  unfold AES_BLOCK_SIZE in Hbl. unfold unwrap_step, wrap_pair. fold t o.
  set (b := aes_decrypt d (xor_counter a t ++ sub o 8 r)) in *.
  assert (Hl8 : length (drop 8 b) = 8%nat) by (rewrite length_drop; lia).
  rewrite sub_memcpy_len, take_drop, Hed by (done || lia).
  rewrite take_app_length', drop_app_length' by (by rewrite length_xor_counter).
  rewrite xor_counter_involutive by done.
  by rewrite memcpy_sub_len by (done || lia).
Qed.

Lemma unwrap_wrap_all s : registers n s -> unwrap_all d (wrap_all s) = s.
Proof.
  apply (for_down_for_up (registers n)). intros j s' _ Hs'. split.
  - apply for_up_inv; [|done]. intros i s'' Hi. by apply wrap_pair_registers.
  - apply (for_down_for_up (registers n)); [|done]. intros i s'' Hi Hs''.
    split; [by apply wrap_pair_registers|by apply unwrap_wrap_step].
Qed.

Lemma wrap_unwrap_all s :
  registers n s -> wrap_all (unwrap_all d s) = s /\ registers n (unwrap_all d s).
Proof.
  intros Hs. split.
  - revert Hs. apply (for_up_for_down (registers n)). intros j s' _ Hs'. split.
    + apply for_down_inv; [|done]. intros i s'' Hi. by apply unwrap_step_registers.
    + apply (for_up_for_down (registers n)); [|done]. intros i s'' Hi Hs''.
      split; [by apply unwrap_step_registers|by apply wrap_unwrap_step].
  - unfold unwrap_all. apply for_down_inv; [|done]. intros j s' _ Hs'.
    apply for_down_inv; [|done]. intros i s'' Hi. by apply unwrap_step_registers.
Qed.

Lemma registers_wrap plain :
  length plain = (8 * n)%nat -> wf_bytes plain -> registers n (replicate 8 0xa6, plain).
Proof.
  intros Hl Hp. split_and!; simpl; [done|done| |done].
  apply (wf_bytes_replicate 8). unfold is_byte. lia.
Qed.
End proofs.

(** RFC 3394 round trip.  Unwrapping, with the same key-encryption key, what
    [aes_wrap] produced succeeds and returns the wrapped key; for every key
    accepted by the AES implementation and every number [n] of 64-bit units. *)
Theorem aes_unwrap_wrap `{A : Aes} `{L : !AesLaws A} kek kek_len n plain ctx :
  wf_bytes kek -> aes_encrypt_init kek kek_len = Some ctx ->
  length plain = (8 * n)%nat -> wf_bytes plain ->
  exists cipher, aes_wrap kek kek_len n plain = (0, cipher) /\
    length cipher = (8 * n + 8)%nat /\ aes_unwrap kek kek_len n cipher = (0, plain).
Proof.
  intros Hkek Hinit Hl Hp.
  destruct (proj1 (aes_init_agree kek kek_len)) as [d Hd]; [by eexists|].
  pose proof (registers_wrap n plain Hl Hp) as Hr.
  destruct (wrap_loop_pair kek kek_len ctx n Hkek Hinit _ _ Hr) as [Hw Hr'].
  unfold aes_wrap, aes_unwrap. rewrite Hinit, Hd, take_ge, Hw by lia.
  eexists. split; [done|].
  pose proof (unwrap_wrap_all kek kek_len ctx n Hkek Hinit d Hd _ Hr) as Hu.
  destruct (wrap_all ctx n _) as [a r]. destruct Hr' as (H1 & H2 & _).
  cbn [fst snd] in *. split; [rewrite length_app; lia|].
  unfold sub. rewrite take_app_length', drop_app_length', take_ge by lia.
  unfold unwrap_all in Hu. by rewrite Hu.
Qed.

(** C38: integrity.  If [aes_unwrap] accepts a wrapped key, then that wrapped key
    is the one [aes_wrap] produces for the key it returned: exactly one wrapped
    form of each key is accepted. *)
Theorem aes_unwrap_sound `{A : Aes} `{L : !AesLaws A} kek kek_len n cipher plain :
  wf_bytes kek -> length cipher = (8 * n + 8)%nat -> wf_bytes cipher ->
  aes_unwrap kek kek_len n cipher = (0, plain) ->
  aes_wrap kek kek_len n plain = (0, cipher).
Proof.
  intros Hkek Hl Hc. unfold aes_unwrap.
  destruct (aes_decrypt_init kek kek_len) as [d|] eqn:Hd; [|done].
  destruct (proj2 (aes_init_agree kek kek_len)) as [ctx Hinit]; [by eexists|].
  assert (Hr : registers n (take 8 cipher, sub 8 (8 * n) cipher)).
  { split_and!; cbn [fst snd]; auto with wlan; [|apply length_sub; lia].
    rewrite length_take. lia. }
  destruct (wrap_unwrap_all kek kek_len ctx n Hkek Hinit d Hd _ Hr) as [Hw Hr'].
  change (for_down 0 6 _ ?s) with (unwrap_all n d s).
  destruct (unwrap_all n d _) as [a r]. case_match eqn:Ha; intros [= ->].
  assert (a = replicate 8 0xa6) as ->.
  { destruct Hr' as (H1 & _). cbn [fst] in H1. rewrite <- H1. clear -Ha.
    induction a as [|x a IH]; [done|]. simpl in *.
    apply andb_true_iff in Ha as [->%Z.eqb_eq Ha]. by rewrite <- IH. }
  unfold aes_wrap. rewrite Hinit.
  destruct (wrap_loop_pair kek kek_len ctx n Hkek Hinit _ _ Hr') as [Hw' _].
  rewrite take_ge, Hw', Hw by (destruct Hr' as (_ & H2 & _); cbn [snd] in H2; lia).
  cbn [fst snd]. f_equal. unfold sub.
  by rewrite (take_ge (drop 8 cipher)), take_drop by (rewrite length_drop; lia).
Qed.

(** RFC 3394, 4.1: 128 bits of key data with a 128-bit KEK. *)
Definition rfc3394_plain : bytes :=
  [0x00; 0x11; 0x22; 0x33; 0x44; 0x55; 0x66; 0x77;
   0x88; 0x99; 0xaa; 0xbb; 0xcc; 0xdd; 0xee; 0xff].
Definition rfc3394_cipher : bytes :=
  [0x1f; 0xa6; 0x8b; 0x0a; 0x81; 0x12; 0xb4; 0x47; 0xae; 0xf3; 0x4b; 0xd8;
   0xfb; 0x5a; 0x7b; 0x82; 0x9d; 0x3e; 0x86; 0x23; 0x71; 0xd2; 0xcf; 0xe5].

Example aes_wrap_rfc3394 :
  aes_wrap (A := ZeroedAes) (counting 16) 16 2 rfc3394_plain = (0, rfc3394_cipher).
Proof. vm_compute. reflexivity. Qed.

Lemma aes_unwrap_wrap_witness :
  exists cipher, aes_wrap (A := ZeroedAes) (counting 16) 16 2 rfc3394_plain = (0, cipher) /\
    length cipher = 24%nat /\
    aes_unwrap (A := ZeroedAes) (counting 16) 16 2 cipher = (0, rfc3394_plain).
Proof.
  eapply (aes_unwrap_wrap (A := ZeroedAes) (counting 16) 16 2 rfc3394_plain).
  - apply by_decision. vm_compute. reflexivity.
  - vm_compute. reflexivity.
  - reflexivity.
  - apply by_decision. vm_compute. reflexivity.
Defined.

Lemma aes_unwrap_sound_witness :
  aes_wrap (A := ZeroedAes) (counting 16) 16 2 rfc3394_plain = (0, rfc3394_cipher).
Proof.
  apply (aes_unwrap_sound (A := ZeroedAes) (counting 16) 16 2 rfc3394_cipher rfc3394_plain).
  - apply by_decision. vm_compute. reflexivity.
  - reflexivity.
  - apply by_decision. vm_compute. reflexivity.
  - vm_compute. reflexivity.
Defined.
