(* ===== verification/AesCtr.v ===== *)
(** * AES counter mode and CBC mode

    [aes_ctr_encrypt] and [aes_128_ctr_encrypt] of hostap's
    [crypto/aes-ctr.c]; [aes_128_cbc_encrypt] and [aes_128_cbc_decrypt] of
    [aes-cbc.c] (the [TEST_FAIL] hook is compiled out).  All four work in place: they return the C
    return value with the final contents of [data]. *)

From S2P Require Import Prelude Bytes AesInterface AesInternal AesCorrect.

Section modes.
Context `{A : Aes}.

(** [for (i = AES_BLOCK_SIZE - 1; i >= 0; i--) { counter[i]++; if (counter[i]) break; }] *)
Fixpoint ctr_inc_from (i : nat) (counter : bytes) : bytes :=
  let c := u8 (get counter i + 1) in
  let counter := <[i := c]> counter in
  if c =? 0 then match i with O => counter | S i => ctr_inc_from i counter end
  else counter.
Definition ctr_inc : bytes -> bytes := ctr_inc_from (AES_BLOCK_SIZE - 1).

(** The [while (left > 0)] loop; [data] is what [pos] still points to, and
    each iteration consumes at least one byte, so [fuel] is its length. *)
Fixpoint ctr_loop (fuel : nat) (ctx : aes_ctx) (counter data : bytes) : bytes :=
  match fuel with
  | O => data
  | S fuel =>
    if (length data =? 0)%nat then data else
    let buf := aes_encrypt ctx counter in
    let len := if (length data <? AES_BLOCK_SIZE)%nat then length data
               else AES_BLOCK_SIZE in
    xor_bytes (take len data) buf ++ ctr_loop fuel ctx (ctr_inc counter) (drop len data)
  end.

Definition aes_ctr_encrypt (key : bytes) (key_len : Z) (nonce data : bytes)
    : Z * bytes :=
  match aes_encrypt_init key key_len with
  | None => (-1, data)
  | Some ctx => (0, ctr_loop (length data) ctx (take AES_BLOCK_SIZE nonce) data)
  end.

Definition aes_128_ctr_encrypt (key nonce data : bytes) : Z * bytes :=
  aes_ctr_encrypt key 16 nonce data.

(** [blocks] iterations; what [pos] points to after them is left alone. *)
Fixpoint cbc_encrypt_loop (blocks : nat) (ctx : aes_ctx) (cbc pos : bytes) : bytes :=
  match blocks with
  | O => pos
  | S blocks =>
    let cbc := xor_bytes cbc (take AES_BLOCK_SIZE pos) in
    let cbc := aes_encrypt ctx cbc in
    cbc ++ cbc_encrypt_loop blocks ctx cbc (drop AES_BLOCK_SIZE pos)
  end.

Definition aes_128_cbc_encrypt (key iv data : bytes) : Z * bytes :=
  match aes_encrypt_init key 16 with
  | None => (-1, data)
  | Some ctx =>
    (0, cbc_encrypt_loop (length data / AES_BLOCK_SIZE) ctx (take AES_BLOCK_SIZE iv) data)
  end.

Fixpoint cbc_decrypt_loop (blocks : nat) (ctx : aes_ctx) (cbc pos : bytes) : bytes :=
  match blocks with
  | O => pos
  | S blocks =>
    let tmp := take AES_BLOCK_SIZE pos in
    xor_bytes (aes_decrypt ctx tmp) cbc ++
    cbc_decrypt_loop blocks ctx tmp (drop AES_BLOCK_SIZE pos)
  end.

Definition aes_128_cbc_decrypt (key iv data : bytes) : Z * bytes :=
  match aes_decrypt_init key 16 with
  | None => (-1, data)
  | Some ctx =>
    (0, cbc_decrypt_loop (length data / AES_BLOCK_SIZE) ctx (take AES_BLOCK_SIZE iv) data)
  end.
End modes.

(** ** The counter *)

Lemma ctr_inc_from_eq i p b z :
  length p = i ->
  ctr_inc_from i (p ++ b :: z) =
  let c := (b + 1) mod 256 in
  if c =? 0 then match i with O => p ++ c :: z | S i => ctr_inc_from i (p ++ c :: z) end
  else p ++ c :: z.
Proof.
  intros Hl.
  assert (H : u8 (get (p ++ b :: z) i + 1) = (b + 1) mod 256).
  { rewrite u8_mod, <- Hl. unfold get. by rewrite nth_middle. }
  assert (H' : <[i := (b + 1) mod 256]> (p ++ b :: z) = p ++ (b + 1) mod 256 :: z).
  { rewrite insert_app_r_alt by lia. by rewrite Hl, Nat.sub_diag. }
  destruct i as [|i]; cbn [ctr_inc_from]; by rewrite H, H'.
Qed.

Lemma ctr_inc_from_spec i p z :
  length p = S i -> wf_bytes p ->
  exists p', ctr_inc_from i (p ++ z) = p' ++ z /\ length p' = S i /\ wf_bytes p' /\
    be_decode p' = (be_decode p + 1) mod 256 ^ Z.of_nat (S i).
Proof.
  revert p z. induction i as [|i IH]; intros p z Hl Hp;
    destruct p as [|b p _] using rev_ind; try done;
    rewrite length_app, Nat.add_comm in Hl; injection Hl as Hl;
    apply wf_bytes_app in Hp as [Hp Hb]; apply Forall_cons in Hb as [Hb _];
    pose proof (be_decode_range p Hp) as Hr; unfold is_byte in Hb;
    rewrite <- app_assoc; cbn [app]; rewrite ctr_inc_from_eq by done; cbv zeta.
  - destruct p; [|done]. exists [(b + 1) mod 256]. split; [by destruct (_ =? 0)|].
    split; [done|]. split; [|done].
    apply Forall_singleton, Z.mod_pos_bound. lia.
  - rewrite !be_decode_snoc, Nat2Z.inj_succ, Z.pow_succ_r by lia. rewrite Hl in Hr.
    set (M := 256 ^ Z.of_nat (S i)) in *. destruct (Z.eqb_spec ((b + 1) mod 256) 0) as [E|E].
    + assert (b = 255) as -> by zdiv.
      destruct (IH p ((255 + 1) mod 256 :: z) Hl Hp) as (p' & -> & Hl' & Hw' & Hd').
      exists (p' ++ [0]). rewrite <- app_assoc, length_app, be_decode_snoc, Hd'.
      split_and!; [done|simpl; lia| |].
      { apply wf_bytes_app; split; [done|]. by apply Forall_singleton. }
      replace (be_decode p * 256 + 255 + 1) with (256 * (be_decode p + 1)) by lia.
      rewrite Z.mul_mod_distr_l by lia. fold M. lia.
    + exists (p ++ [(b + 1) mod 256]). rewrite <- app_assoc, length_app, be_decode_snoc.
      split_and!; [done|simpl; lia| |].
      { apply wf_bytes_app; split; [done|]. apply Forall_singleton, Z.mod_pos_bound. lia. }
      rewrite !Z.mod_small by (first [zdiv | nia]). lia.
Qed.

(** The counter [k] steps after [c]: a 128-bit big-endian addition. *)
Definition add_counter (c : bytes) (k : Z) : bytes := be_encode AES_BLOCK_SIZE (be_decode c + k).

Lemma ctr_inc_spec c : is_block c -> ctr_inc c = add_counter c 1.
Proof.
  intros [Hl Hw]. unfold ctr_inc, add_counter.
  destruct (ctr_inc_from_spec (AES_BLOCK_SIZE - 1) c [] Hl Hw) as (c' & E & Hl' & Hw' & Hd).
  rewrite !app_nil_r in E. rewrite E, <- (be_encode_decode c') by done.
  rewrite Hd, Hl'. change (S (AES_BLOCK_SIZE - 1)) with AES_BLOCK_SIZE.
  rewrite <- be_decode_encode.
  rewrite <- (length_be_encode AES_BLOCK_SIZE (be_decode c + 1)) at 1.
  apply be_encode_decode, wf_be_encode.
Qed.

Lemma is_block_add_counter c k : is_block (add_counter c k).
Proof. split; [apply length_be_encode|apply wf_be_encode]. Qed.

Lemma ctr_be_encode_mod n z : be_encode n (z mod 256 ^ Z.of_nat n) = be_encode n z.
Proof.
  rewrite <- be_decode_encode. rewrite <- (length_be_encode n z) at 1.
  apply be_encode_decode, wf_be_encode.
Qed.

Lemma add_counter_add c i j : add_counter (add_counter c i) j = add_counter c (i + j).
Proof.
  unfold add_counter. rewrite be_decode_encode, <- ctr_be_encode_mod.
  rewrite Z.add_mod_idemp_l by (apply Z.pow_nonzero; lia).
  by rewrite ctr_be_encode_mod, Z.add_assoc.
Qed.

Lemma add_counter_0 c : is_block c -> add_counter c 0 = c.
Proof.
  intros [Hl Hw]. unfold add_counter. rewrite Z.add_0_r, <- Hl. by apply be_encode_decode.
Qed.

Section proofs.
Context `{A : Aes} `{L : !AesLaws A}.

(** Byte [i] of the key stream: SP 800-38A's counter mode. *)
Definition ctr_keystream (ctx : aes_ctx) (nonce : bytes) (i : nat) : Z :=
  get (aes_encrypt ctx (add_counter nonce (Z.of_nat (i / AES_BLOCK_SIZE))))
      (i mod AES_BLOCK_SIZE).

Lemma xor_bytes_imap l k :
  (length l <= length k)%nat -> xor_bytes l k = imap (fun i b => Z.lxor b (get k i)) l.
Proof.
  revert k. induction l as [|x l IH]; intros [|y k] Hl; simpl in *; try done; [lia|].
  f_equal. rewrite IH by lia. done.
Qed.

Lemma ctr_loop_spec ctx c data fuel k :
  (forall b, is_block b -> is_block (aes_encrypt ctx b)) ->
  is_block c -> (length data <= fuel)%nat ->
  ctr_loop fuel ctx (add_counter c (Z.of_nat k)) data =
  imap (fun i b => Z.lxor b (ctr_keystream ctx c (AES_BLOCK_SIZE * k + i))) data.
Proof.
  intros Henc Hc. revert data k. induction fuel as [|fuel IH]; intros data k Hf.
  { by destruct data; [|simpl in Hf; lia]. }
  cbn [ctr_loop]. destruct (Nat.eqb_spec (length data) 0) as [E|E].
  { by apply length_zero_iff_nil in E as ->. }
  pose proof (Henc _ (is_block_add_counter c (Z.of_nat k))) as [Hbl _].
  set (len := if (length data <? AES_BLOCK_SIZE)%nat then _ else _).
  assert (Hlen : len = min (length data) AES_BLOCK_SIZE).
  { unfold len. case_match eqn:Ht; [apply Nat.ltb_lt in Ht|apply Nat.ltb_ge in Ht]; lia. }
  unfold AES_BLOCK_SIZE in *.
  rewrite ctr_inc_spec, add_counter_add by apply is_block_add_counter.
  replace (Z.of_nat k + 1) with (Z.of_nat (S k)) by lia.
  rewrite IH by (rewrite length_drop; lia).
  rewrite <- (take_drop len data) at 3. rewrite imap_app. f_equal.
  - rewrite xor_bytes_imap by (rewrite length_take; lia).
    apply imap_ext. intros i x Hi. apply lookup_lt_Some in Hi.
    rewrite length_take in Hi. unfold ctr_keystream, AES_BLOCK_SIZE.
    rewrite (Nat.mul_comm 16 k), Nat.div_add_l, Nat.div_small, Nat.add_0_r by lia.
    by rewrite (Nat.add_comm (k * 16)), Nat.Div0.mod_add, Nat.mod_small by lia.
  - apply imap_ext. intros i x Hi. apply lookup_lt_Some in Hi.
    rewrite length_drop in Hi. rewrite length_take. do 2 f_equal. lia.
Qed.

Lemma imap_lxor_involutive (f : nat -> Z) (l : bytes) :
  imap (fun i b => Z.lxor b (f i)) (imap (fun i b => Z.lxor b (f i)) l) = l.
Proof.
  apply list_eq. intros i. rewrite !list_lookup_imap. destruct (l !! i) as [x|]; [|done].
  simpl. by rewrite Z.lxor_assoc, Z.lxor_nilpotent, Z.lxor_0_r.
Qed.

Lemma cbc_decrypt_encrypt_loop key n ctx d blocks cbc pos :
  wf_bytes key -> aes_encrypt_init key n = Some ctx -> aes_decrypt_init key n = Some d ->
  is_block cbc -> wf_bytes pos -> (AES_BLOCK_SIZE * blocks <= length pos)%nat ->
  cbc_decrypt_loop blocks d cbc (cbc_encrypt_loop blocks ctx cbc pos) = pos.
Proof.
  intros Hk Hc Hd. revert cbc pos. induction blocks as [|m IH]; intros cbc pos Hcbc Hp Hl; [done|].
  cbn [cbc_decrypt_loop cbc_encrypt_loop]. unfold AES_BLOCK_SIZE in *.
  assert (Hx : is_block (xor_bytes cbc (take 16 pos))).
  { destruct Hcbc as [Hcl Hcw]. unfold AES_BLOCK_SIZE in Hcl. split; [|auto with wlan].
    rewrite length_xor_bytes, length_take. unfold AES_BLOCK_SIZE. lia. }
  pose proof (aes_encrypt_block key n ctx _ Hk Hc Hx) as [Hel Hew].
  unfold AES_BLOCK_SIZE in Hel.
  rewrite take_app_length', drop_app_length' by done.
  rewrite (aes_decrypt_encrypt key n ctx d) by done.
  rewrite IH; [|done|auto with wlan|rewrite length_drop; lia].
  rewrite xor_bytes_comm, xor_bytes_cancel.
  - apply take_drop.
  - destruct Hcbc as [Hcl _]. rewrite length_take. unfold AES_BLOCK_SIZE in Hcl. lia.
Qed.
End proofs.

(** The shared form of the property below. *)
Lemma aes_ctr_spec `{A : Aes} `{L : !AesLaws A} key key_len ctx nonce data :
  wf_bytes key -> aes_encrypt_init key key_len = Some ctx -> is_block nonce ->
  aes_ctr_encrypt key key_len nonce data =
  (0, imap (fun i b => Z.lxor b (ctr_keystream ctx nonce i)) data).
Proof.
  intros Hk Hc Hn. unfold aes_ctr_encrypt. rewrite Hc, take_ge.
  - rewrite <- (add_counter_0 nonce) at 1 by done.
    rewrite (ctr_loop_spec ctx nonce data _ 0); [done| |done|done].
    intros b. by apply (aes_encrypt_block key key_len).
  - destruct Hn as [-> _]. done.
Qed.

Lemma wf_ctr `{A : Aes} `{L : !AesLaws A} key key_len ctx nonce data :
  wf_bytes key -> aes_encrypt_init key key_len = Some ctx -> wf_bytes data ->
  wf_bytes (imap (fun i b => Z.lxor b (ctr_keystream ctx nonce i)) data).
Proof.
  intros Hk Hc Hd. apply Forall_lookup. intros i x. rewrite list_lookup_imap.
  destruct (data !! i) as [y|] eqn:E; [|done]. intros [= <-].
  apply is_byte_lxor; [by eapply Forall_lookup_1|]. unfold ctr_keystream. apply is_byte_get.
  apply (aes_encrypt_block key key_len); [done..|apply is_block_add_counter].
Qed.

(** Counter mode is SP 800-38A's CTR: byte [i] of the output is byte [i] of
    the input xor-ed with byte [i mod 16] of the encryption of the nonce plus
    [i / 16], a 128-bit big-endian counter with wrap-around; for data of every
    length, block multiple or not. *)
Theorem aes_ctr_encrypt_spec `{A : Aes} `{L : !AesLaws A} key key_len ctx nonce data :
  wf_bytes key -> aes_encrypt_init key key_len = Some ctx -> is_block nonce ->
  aes_ctr_encrypt key key_len nonce data =
  (0, imap (fun i b => Z.lxor b (ctr_keystream ctx nonce i)) data).
Proof. apply aes_ctr_spec. Qed.

(** Counter mode is an involution, whatever the nonce buffer; this is what the
    clients of the mode use. *)
Lemma aes_ctr_involutive `{A : Aes} `{L : !AesLaws A} key key_len nonce data out :
  wf_bytes key -> is_block nonce ->
  aes_ctr_encrypt key key_len nonce data = (0, out) ->
  length out = length data /\ aes_ctr_encrypt key key_len nonce out = (0, data).
Proof.
  intros Hk Hn. destruct (aes_encrypt_init key key_len) as [ctx|] eqn:Hc.
  - rewrite (aes_ctr_spec key key_len ctx) by done. intros [= <-].
    rewrite length_imap. split; [done|].
    rewrite (aes_ctr_spec key key_len ctx) by done.
    by rewrite imap_lxor_involutive.
  - unfold aes_ctr_encrypt. by rewrite Hc.
Qed.

(** CBC round trip.  Decrypting in CBC mode what was encrypted in CBC mode
    with the same key and IV restores the buffer, the trailing partial block
    that neither function touches included. *)
Theorem aes_128_cbc_roundtrip `{A : Aes} `{L : !AesLaws A} key iv data out :
  wf_bytes key -> is_block iv -> wf_bytes data ->
  aes_128_cbc_encrypt key iv data = (0, out) ->
  length out = length data /\ aes_128_cbc_decrypt key iv out = (0, data).
Proof.
  intros Hk Hiv Hd. unfold aes_128_cbc_encrypt, aes_128_cbc_decrypt.
  destruct (aes_encrypt_init key 16) as [ctx|] eqn:Hc; [|done].
  destruct (proj1 (aes_init_agree key 16)) as [d Hdec]; [by eexists|].
  rewrite Hdec, take_ge by (by destruct Hiv as [-> _]). intros [= <-].
  assert (Hb : (AES_BLOCK_SIZE * (length data / AES_BLOCK_SIZE) <= length data)%nat).
  { apply Nat.Div0.mul_div_le. }
  assert (Hlen : forall blocks cbc pos, is_block cbc -> wf_bytes pos ->
    (AES_BLOCK_SIZE * blocks <= length pos)%nat ->
    length (cbc_encrypt_loop blocks ctx cbc pos) = length pos).
  { intros blocks. induction blocks as [|m IH]; intros cbc pos [Hcl Hcw] Hp Hl; [done|].
    cbn [cbc_encrypt_loop]. unfold AES_BLOCK_SIZE in *.
    assert (Hx : is_block (xor_bytes cbc (take 16 pos))).
    { split; [|auto with wlan]. rewrite length_xor_bytes, length_take.
      unfold AES_BLOCK_SIZE. lia. }
    pose proof (aes_encrypt_block key 16 ctx _ Hk Hc Hx) as Hx'.
    rewrite length_app, IH; [|done|auto with wlan|rewrite length_drop; lia].
    destruct Hx' as [-> _]. rewrite length_drop. unfold AES_BLOCK_SIZE. lia. }
  rewrite Hlen by done. split; [done|].
  by rewrite (cbc_decrypt_encrypt_loop key 16).
Qed.

(** SP 800-38A, F.5.1: CTR-AES128, the first 18 bytes. *)
Definition sp800_38a_key : bytes :=
  [0x2b; 0x7e; 0x15; 0x16; 0x28; 0xae; 0xd2; 0xa6;
   0xab; 0xf7; 0x15; 0x88; 0x09; 0xcf; 0x4f; 0x3c].
Definition sp800_38a_counter : bytes := seqZ 0xf0 16.
Definition sp800_38a_plain : bytes :=
  [0x6b; 0xc1; 0xbe; 0xe2; 0x2e; 0x40; 0x9f; 0x96;
   0xe9; 0x3d; 0x7e; 0x11; 0x73; 0x93; 0x17; 0x2a; 0xae; 0x2d].
Definition sp800_38a_ctx : aes_ctx (Aes := ZeroedAes) :=
  default [] (aes_encrypt_init (Aes := ZeroedAes) sp800_38a_key 16).

Lemma aes_ctr_encrypt_spec_witness :
  aes_ctr_encrypt (A := ZeroedAes) sp800_38a_key 16 sp800_38a_counter sp800_38a_plain =
  (0, [0x87; 0x4d; 0x61; 0x91; 0xb6; 0x20; 0xe3; 0x26; 0x1b; 0xef; 0x68; 0x64;
       0x99; 0x0d; 0xb6; 0xce; 0x98; 0x06]).
Proof.
  rewrite (aes_ctr_encrypt_spec (A := ZeroedAes) sp800_38a_key 16 sp800_38a_ctx
             sp800_38a_counter sp800_38a_plain).
  - vm_compute. reflexivity.
  - apply by_decision. vm_compute. reflexivity.
  - vm_compute. reflexivity.
  - apply by_decision. vm_compute. reflexivity.
Defined.

Lemma aes_128_cbc_roundtrip_witness :
  aes_128_cbc_decrypt (A := ZeroedAes) sp800_38a_key sp800_38a_counter
    (aes_128_cbc_encrypt (A := ZeroedAes) sp800_38a_key sp800_38a_counter sp800_38a_plain).2
  = (0, sp800_38a_plain).
Proof.
  eapply (aes_128_cbc_roundtrip (A := ZeroedAes) sp800_38a_key sp800_38a_counter
            sp800_38a_plain).
  - apply by_decision. vm_compute. reflexivity.
  - apply by_decision. vm_compute. reflexivity.
  - apply by_decision. vm_compute. reflexivity.
  - vm_compute. reflexivity.
Defined.
