(* ===== verification/AesOmac.v ===== *)
(** * OMAC1 / AES-CMAC

    [gf_mulx], [omac1_aes_vector] and its wrappers of hostap's
    [crypto/aes-omac1.c].  The message is a vector of fragments which the code
    walks with a pointer; the model keeps the pointer, so a read past the end
    of a fragment, or of the vector, is the result [None]. *)

From S2P Require Import Prelude Bytes AesInterface AesInternal AesCorrect.

(** [pad] doubled in GF(2^128), in place. *)
Definition gf_mulx (pad : bytes) : bytes :=
  let carry := Z.land (get pad 0) 0x80 in
  let pad := for_up 0 15 (fun i pad =>
    <[Z.to_nat i := u8 (Z.lor (Z.shiftl (get pad (Z.to_nat i)) 1)
                              (Z.shiftr (get pad (Z.to_nat (i + 1))) 7))]> pad) pad in
  let pad := <[15%nat := u8 (Z.shiftl (get pad 15) 1)]> pad in
  if carry =? 0 then pad else <[15%nat := u8 (Z.lxor (get pad 15) 0x87)]> pad.

Section omac.
Context `{A : Aes}.

(** The cursor: what is left of the current fragment ([pos] to [end]) and the
    fragments after it. *)
Definition cursor : Type := bytes * list bytes.

(** [count] iterations of
    [cbc[i] ^= *pos++; if (pos >= end) { if (stop) break; e++; pos = addr[e]; ... }]
    from index [i]. *)
Fixpoint omac_absorb (count i : nat) (stop : nat -> bool) (cbc : bytes) (c : cursor)
    : option (bytes * cursor) :=
  match count with
  | O => Some (cbc, c)
  | S count =>
    match c with
    | ([], _) => None (* *pos is past the end of the fragment *)
    | (b :: pos, rest) =>
      let cbc := <[i := Z.lxor (get cbc i) b]> cbc in
      match pos with
      | [] =>
        if stop (i + 1)%nat then Some (cbc, ([], rest)) else
        match rest with
        | [] => None (* addr[e] is past the end of the vector *)
        | pos :: rest => omac_absorb count (i + 1) stop cbc (pos, rest)
        end
      | _ => omac_absorb count (i + 1) stop cbc (pos, rest)
      end
    end
  end.

(** [while (left >= AES_BLOCK_SIZE)]; [fuel] bounds the [left / 16]
    iterations. *)
Fixpoint omac_blocks (fuel : nat) (ctx : aes_ctx) (left : nat) (cbc : bytes) (c : cursor)
    : option (nat * bytes * cursor) :=
  match fuel with
  | O => Some (left, cbc, c)
  | S fuel =>
    if (AES_BLOCK_SIZE <=? left)%nat then
      match omac_absorb AES_BLOCK_SIZE 0
              (fun i1 => (i1 =? AES_BLOCK_SIZE)%nat && (left =? AES_BLOCK_SIZE)%nat)
              cbc c with
      | None => None
      | Some (cbc, c) =>
        let cbc := if (AES_BLOCK_SIZE <? left)%nat then aes_encrypt ctx cbc else cbc in
        omac_blocks fuel ctx (left - AES_BLOCK_SIZE) cbc c
      end
    else Some (left, cbc, c)
  end.

Definition omac1_aes_vector (key : bytes) (key_len : Z) (addr : list bytes)
    : option (Z * bytes) :=
  match aes_encrypt_init key key_len with
  | None => Some (-1, [])
  | Some ctx =>
    let cbc := replicate AES_BLOCK_SIZE 0 in
    let total_len := sum_list (length <$> addr) in
    match addr with
    | [] => None (* addr[0] *)
    | pos :: rest =>
      '(nleft, cbc, c) ← omac_blocks (S total_len) ctx total_len cbc (pos, rest);
      let pad := aes_encrypt ctx (replicate AES_BLOCK_SIZE 0) in
      let pad := gf_mulx pad in
      '(pad, cbc) ←
        (if (0 <? nleft)%nat || (total_len =? 0)%nat then
           '(cbc, _) ← omac_absorb nleft 0 (fun i1 => (i1 =? nleft)%nat) cbc c;
           let cbc := <[nleft := Z.lxor (get cbc nleft) 0x80]> cbc in
           Some (gf_mulx pad, cbc)
         else Some (pad, cbc));
      Some (0, aes_encrypt ctx (xor_bytes pad cbc))
    end
  end.

Definition omac1_aes_128_vector (key : bytes) (addr : list bytes) : option (Z * bytes) :=
  omac1_aes_vector key 16 addr.
Definition omac1_aes_128 (key data : bytes) : option (Z * bytes) :=
  omac1_aes_128_vector key [data].
Definition omac1_aes_256 (key data : bytes) : option (Z * bytes) :=
  omac1_aes_vector key 32 [data].

(** ** CMAC as NIST SP 800-38B defines it *)

Fixpoint cmac_chain (fuel : nat) (ctx : aes_ctx) (c msg : bytes) : bytes * bytes :=
  match fuel with
  | O => (c, msg)
  | S fuel =>
    if (length msg <=? AES_BLOCK_SIZE)%nat then (c, msg) else
    cmac_chain fuel ctx (aes_encrypt ctx (xor_bytes c (take AES_BLOCK_SIZE msg)))
               (drop AES_BLOCK_SIZE msg)
  end.

Definition cmac_double (x : Z) : Z :=
  let y := (2 * x) mod 2 ^ 128 in if Z.testbit x 127 then Z.lxor y 0x87 else y.

Definition cmac (ctx : aes_ctx) (msg : bytes) : bytes :=
  let k1 := cmac_double (be_decode (aes_encrypt ctx (replicate AES_BLOCK_SIZE 0))) in
  let k2 := cmac_double k1 in
  let '(c, last) := cmac_chain (length msg) ctx (replicate AES_BLOCK_SIZE 0) msg in
  let last :=
    if (length last =? AES_BLOCK_SIZE)%nat
    then xor_bytes last (be_encode AES_BLOCK_SIZE k1)
    else xor_bytes (last ++ 0x80 :: replicate (AES_BLOCK_SIZE - 1 - length last) 0)
                   (be_encode AES_BLOCK_SIZE k2) in
  aes_encrypt ctx (xor_bytes c last).
End omac.

(** ** The doubling *)

Lemma shift_pair b c :
  is_byte b -> is_byte c ->
  u8 (Z.lor (Z.shiftl b 1) (Z.shiftr c 7)) = 2 * (b mod 128) + c / 128.
Proof.
  intros Hb Hc.
  assert (H : forall b, is_byte b -> forall c, is_byte c ->
    (u8 (Z.lor (Z.shiftl b 1) (Z.shiftr c 7)) =? 2 * (b mod 128) + c / 128) = true).
  { intros b' Hb'. apply byte_forall. revert b' Hb'. apply byte_forall.
    vm_compute. reflexivity. }
  by apply Z.eqb_eq, H.
Qed.

Lemma shift_last b : is_byte b -> u8 (Z.shiftl b 1) = 2 * (b mod 128).
Proof.
  intros Hb. apply Z.eqb_eq. revert b Hb.
  refine (byte_forall (fun b => u8 (Z.shiftl b 1) =? 2 * (b mod 128)) _).
  vm_compute. reflexivity.
Qed.

Lemma carry_bit b : is_byte b -> (Z.land b 0x80 =? 0) = (b / 128 =? 0).
Proof.
  intros Hb. apply eqb_true_iff. revert b Hb.
  refine (byte_forall (fun b => Bool.eqb (Z.land b 0x80 =? 0) (b / 128 =? 0)) _).
  vm_compute. reflexivity.
Qed.

Lemma lxor_low d b c : is_byte b -> is_byte c -> 0 <= d ->
  Z.lxor (d * 256 + b) c = d * 256 + Z.lxor b c.
Proof.
  intros Hb Hc Hd.
  assert (Hsum : forall x, is_byte x -> d * 256 + x = Z.lxor (Z.shiftl d 8) x).
  { intros x Hx. rewrite Z.shiftl_mul_pow2 by lia. change (2 ^ 8) with 256.
    rewrite Z.add_nocarry_lxor; [done|]. apply Z.bits_inj'. intros i Hi.
    rewrite Z.land_spec, Z.testbit_0_l. change 256 with (2 ^ 8).
    destruct (decide (i < 8)).
    - by rewrite Z.mul_pow2_bits_low.
    - rewrite (testbit_byte x) by (done || lia). apply andb_false_r. }
  rewrite !Hsum by auto with wlan. by rewrite Z.lxor_assoc.
Qed.

Ltac destruct_block x Hl :=
  do 16 (destruct x as [|? x]; [done|]); destruct x; [|done]; clear Hl.


Lemma gf_mulx_eval b0 b1 b2 b3 b4 b5 b6 b7 b8 b9 b10 b11 b12 b13 b14 b15 :
  let s b c := u8 (Z.lor (Z.shiftl b 1) (Z.shiftr c 7)) in
  gf_mulx [b0; b1; b2; b3; b4; b5; b6; b7; b8; b9; b10; b11; b12; b13; b14; b15] =
  [s b0 b1; s b1 b2; s b2 b3; s b3 b4; s b4 b5; s b5 b6; s b6 b7; s b7 b8; s b8 b9;
   s b9 b10; s b10 b11; s b11 b12; s b12 b13; s b13 b14; s b14 b15] ++
  [if Z.land b0 0x80 =? 0 then u8 (Z.shiftl b15 1)
   else u8 (Z.lxor (u8 (Z.shiftl b15 1)) 0x87)].
Proof.
  cbv zeta. unfold gf_mulx.
  cbv -[u8 Z.lor Z.shiftl Z.shiftr Z.land Z.lxor Z.eqb].
  by destruct (Z.eqb _ 0).
Qed.

Lemma split_bit b : is_byte b -> exists q r, b = 128 * q + r /\ b / 128 = q /\
  b mod 128 = r /\ 0 <= q <= 1 /\ 0 <= r < 128.
Proof. intros Hb. exists (b / 128), (b mod 128). unfold is_byte in Hb. split_and!; zdiv. Qed.

Lemma cmac_double_split x q y :
  0 <= q <= 1 -> 0 <= y < 2 ^ 128 -> 2 * x = q * 2 ^ 128 + y ->
  cmac_double x = if q =? 0 then y else Z.lxor y 0x87.
Proof.
  intros Hq Hy E. unfold cmac_double.
  assert ((2 * x) mod 2 ^ 128 = y) as ->.
  { symmetry. apply (Z.mod_unique _ _ q); [by left|lia]. }
  assert (x / 2 ^ 127 = q) as Hd.
  { symmetry. apply (Z.div_unique _ _ _ (x - q * 2 ^ 127)); [left|lia].
    change (2 ^ 128) with (2 * 2 ^ 127) in *. lia. }
  destruct (Z.testbit x 127) eqn:Ht.
  - apply Z.testbit_true in Ht; [|lia]. rewrite Hd in Ht.
    destruct (Z.eqb_spec q 0) as [->|]; done.
  - apply Z.testbit_false in Ht; [|lia]. rewrite Hd in Ht.
    assert (q = 0) as -> by zdiv. done.
Qed.

Lemma double_arith q0 q1 q2 q3 q4 q5 q6 q7 q8 q9 q10 q11 q12 q13 q14 q15
    r0 r1 r2 r3 r4 r5 r6 r7 r8 r9 r10 r11 r12 r13 r14 r15 :
  2 * be_decode [128 * q0 + r0; 128 * q1 + r1; 128 * q2 + r2; 128 * q3 + r3; 128 * q4 + r4; 128 *
    q5 + r5; 128 * q6 + r6; 128 * q7 + r7; 128 * q8 + r8; 128 * q9 + r9; 128 * q10 +
    r10; 128 * q11 + r11; 128 * q12 + r12; 128 * q13 + r13; 128 * q14 + r14; 128 *
    q15 + r15] =
  q0 * 2 ^ 128 + (be_decode [2 * r0 + q1; 2 * r1 + q2; 2 * r2 + q3; 2 * r3 + q4; 2 * r4 + q5; 2 * r5 + q6; 2
    * r6 + q7; 2 * r7 + q8; 2 * r8 + q9; 2 * r9 + q10; 2 * r10 + q11; 2 * r11 + q12;
    2 * r12 + q13; 2 * r13 + q14; 2 * r14 + q15] * 256 + 2 * r15).
Proof. unfold be_decode, be_decode_acc. ring. Qed.

(** [gf_mulx] is the doubling of SP 800-38B on the big-endian number. *)
Lemma gf_mulx_double pad :
  is_block pad ->
  is_block (gf_mulx pad) /\ be_decode (gf_mulx pad) = cmac_double (be_decode pad).
Proof.
  intros [Hl Hw]. destruct_block pad Hl. unfold wf_bytes in Hw.
  rewrite !Forall_cons in Hw.
  destruct Hw as (H0&H1&H2&H3&H4&H5&H6&H7&H8&H9&H10&H11&H12&H13&H14&H15&_).
  rewrite gf_mulx_eval. cbv zeta. rewrite !shift_pair, shift_last, carry_bit by done.
  repeat match goal with
  | H : is_byte ?b |- _ =>
    let q := fresh "q" in let r := fresh "r" in let E := fresh "E" in
    destruct (split_bit b H) as (q & r & E & -> & -> & ? & ?); clear H
  end.
  match goal with |- context [?l ++ [if ?q =? 0 then ?a else ?b] ] =>
    set (hd := l); set (lo := a);
    assert (Hhd : wf_bytes hd) by (repeat constructor; unfold is_byte; lia);
    assert (Hlo : is_byte lo) by (unfold lo, is_byte; lia);
    assert (Hlen : length hd = 15%nat) by done;
    assert (Hq : 0 <= q <= 1) by assumption
  end.
  assert (H87 : is_byte 0x87) by (unfold is_byte; lia).
  pose proof (be_decode_range (hd ++ [lo])) as Hr.
  rewrite length_app, Hlen in Hr. change (256 ^ Z.of_nat (15 + length [lo])) with (2 ^ 128) in Hr.
  specialize (Hr ltac:(apply wf_bytes_app; split; [done|by apply Forall_singleton])).
  rewrite be_decode_snoc in Hr.
  pose proof (be_decode_range hd Hhd) as Hr'.
  match goal with |- context [if ?q =? 0 then lo else _] =>
    rewrite (cmac_double_split _ q (be_decode hd * 256 + lo)) end; [|exact Hq|exact Hr|].
  - split.
    + split; [by rewrite length_app, Hlen|]. apply wf_bytes_app. split; [done|].
      apply Forall_singleton. destruct (_ =? 0); auto with wlan.
    + rewrite be_decode_snoc. destruct (_ =? 0); [done|].
      rewrite u8_id by auto with wlan. symmetry. apply lxor_low; [done..|lia].
  - unfold hd, lo. subst. apply double_arith.
Qed.

(** ** The cursor *)

(** [l] xor-ed into [cbc] from index [i] on. *)
Fixpoint xor_at (i : nat) (l cbc : bytes) : bytes :=
  match l with
  | [] => cbc
  | b :: l => xor_at (i + 1) l (<[i := Z.lxor (get cbc i) b]> cbc)
  end.

Lemma xor_at_app l p q :
  (length l <= length q)%nat ->
  xor_at (length p) l (p ++ q) = p ++ xor_bytes (take (length l) q) l ++ drop (length l) q.
Proof.
  revert p q. induction l as [|b l IH]; intros p q Hl; [done|].
  destruct q as [|x q]; simpl in Hl; [lia|]. cbn [xor_at].
  unfold get. rewrite nth_middle, insert_app_r_alt, Nat.sub_diag by lia.
  change (<[0%nat:=Z.lxor x b]> (x :: q)) with (Z.lxor x b :: q).
  replace (p ++ Z.lxor x b :: q) with ((p ++ [Z.lxor x b]) ++ q) by (by rewrite <- app_assoc).
  replace (length p + 1)%nat with (length (p ++ [Z.lxor x b])) by (rewrite length_app; done).
  rewrite IH by lia. by rewrite <- app_assoc.
Qed.

Lemma xor_at_0 l q :
  (length l <= length q)%nat ->
  xor_at 0 l q = xor_bytes (take (length l) q) l ++ drop (length l) q.
Proof. intros. by apply (xor_at_app l []). Qed.

(** Every fragment still to be read is non-empty. *)
Definition ready (c : cursor) : Prop := Forall (fun l : bytes => l <> []) (c.1 :: c.2).
Definition remaining (c : cursor) : bytes := c.1 ++ concat c.2.

(** Absorbing [n] bytes from a ready cursor: no fault, the bytes are those of
    the concatenated message, and the cursor is ready for the rest if any. *)
Lemma omac_absorb_ready n i stop cbc c :
  ready c -> (n <= length (remaining c))%nat ->
  (forall j, (j <= n)%nat -> stop (i + j)%nat = (j =? n)%nat && (n =? length (remaining c))%nat) ->
  exists c', omac_absorb n i stop cbc c = Some (xor_at i (take n (remaining c)) cbc, c') /\
    ((n < length (remaining c))%nat -> ready c' /\ remaining c' = drop n (remaining c)).
Proof.
  revert i cbc c. induction n as [|n IH]; intros i cbc [pos rest] Hr Hn Hstop.
  { exists (pos, rest). split; [done|]. intros _. by rewrite drop_0. }
  destruct pos as [|b pos]; [by apply Forall_cons in Hr as [? _]|].
  unfold remaining in *. cbn [omac_absorb fst snd app] in *. cbn [length] in *.
  destruct pos as [|b' pos].
  - rewrite (Hstop 1%nat) by lia. cbn [app take xor_at drop] in *.
    destruct rest as [|r rest].
    + simpl in *. assert (n = 0%nat) as -> by lia. simpl.
      eexists. split; [done|]. lia.
    + assert (Hc : (0 < length (concat (r :: rest)))%nat).
      { apply Forall_cons in Hr as [_ Hr]. apply Forall_cons in Hr as [Hr _].
        simpl. rewrite length_app. destruct r; [done|simpl; lia]. }
      replace ((1 =? S n)%nat && (S n =? S (length (concat (r :: rest))))%nat) with false
        by (symmetry; apply andb_false_iff; rewrite !Nat.eqb_neq; lia).
      destruct (IH (i + 1)%nat (<[i:=Z.lxor (get cbc i) b]> cbc) (r, rest))
        as (c' & E & Hc').
      * by apply Forall_cons in Hr as [_ Hr].
      * cbn [fst snd]. simpl in *. lia.
      * intros j Hj. rewrite <- Nat.add_assoc, (Hstop (1 + j)%nat) by lia. done.
      * exists c'. split; [exact E|]. intros Hlt. apply Hc'. simpl in *. lia.
  - destruct (IH (i + 1)%nat (<[i:=Z.lxor (get cbc i) b]> cbc) (b' :: pos, rest))
      as (c' & E & Hc').
    + apply Forall_cons in Hr as [_ Hr]. by apply Forall_cons.
    + cbn [fst snd]. lia.
    + intros j Hj. rewrite <- Nat.add_assoc, (Hstop (1 + j)%nat) by lia. done.
    + exists c'. split; [exact E|]. intros Hlt. apply Hc'. cbn [fst snd] in *. lia.
Qed.

Section proofs.
Context `{A : Aes}.
Context (ctx : aes_ctx) (Henc : forall b, is_block b -> is_block (aes_encrypt ctx b)).

Lemma is_block_xor a b : is_block a -> is_block b -> is_block (xor_bytes a b).
Proof.
  intros [Ha Hwa] [Hb Hwb]. split; [|auto with wlan].
  rewrite length_xor_bytes, Ha, Hb. done.
Qed.

Lemma is_block_take m : (AES_BLOCK_SIZE <= length m)%nat -> wf_bytes m ->
  is_block (take AES_BLOCK_SIZE m).
Proof. intros. split; [rewrite length_take; lia|auto with wlan]. Qed.

Lemma xor_at_block l cbc : is_block cbc -> length l = AES_BLOCK_SIZE ->
  xor_at 0 l cbc = xor_bytes cbc l.
Proof.
  intros [Hc _] Hl. rewrite xor_at_0 by lia.
  by rewrite take_ge, drop_ge, app_nil_r by lia.
Qed.

(** The block loop leaves the chaining value and the last block of the
    CMAC of the concatenated fragments. *)
Lemma omac_blocks_chain fuel cbc c :
  let m := remaining c in
  ready c -> wf_bytes m -> is_block cbc -> (length m <= fuel)%nat ->
  let '(cbc', last) := cmac_chain fuel ctx cbc m in
  is_block cbc' /\ (0 < length last)%nat /\ wf_bytes last /\
  ((length last = AES_BLOCK_SIZE /\ exists c',
      omac_blocks (S fuel) ctx (length m) cbc c = Some (0%nat, xor_bytes cbc' last, c')) \/
   ((length last < AES_BLOCK_SIZE)%nat /\ exists c',
      omac_blocks (S fuel) ctx (length m) cbc c = Some (length last, cbc', c') /\
      ready c' /\ remaining c' = last)).
Proof.
  revert cbc c. induction fuel as [|fuel IH]; intros cbc c m Hr Hw Hcbc Hf;
    (assert (Hm : (0 < length m)%nat);
      [unfold m, remaining; destruct c as [ [|? ?] ?];
       [by apply Forall_cons in Hr as [? _]|simpl; lia]|]);
    [lia|].
  cbn [cmac_chain]. destruct (Nat.leb_spec (length m) AES_BLOCK_SIZE) as [Hle|Hgt].
  - split; [done|]. split; [done|]. split; [done|].
    destruct (decide (length m = AES_BLOCK_SIZE)) as [Heq|Hne].
    + left. split; [done|].
      destruct (omac_absorb_ready AES_BLOCK_SIZE 0
        (fun i1 => (i1 =? AES_BLOCK_SIZE)%nat && (length m =? AES_BLOCK_SIZE)%nat) cbc c)
        as (c' & E & _); [done|fold m; lia| |].
      { intros j Hj. fold m. by rewrite (Nat.eqb_sym (length m)). }
      exists c'. remember (S fuel) as f. cbn [omac_blocks].
      rewrite (proj2 (Nat.leb_le AES_BLOCK_SIZE (length m))) by lia.
      rewrite E. fold m. rewrite take_ge, xor_at_block by (done || lia).
      rewrite (proj2 (Nat.ltb_ge AES_BLOCK_SIZE (length m))) by lia.
      rewrite Heq, Nat.sub_diag. subst f. done.
    + right. split; [lia|]. exists c. split; [|done].
      remember (S fuel) as f. cbn [omac_blocks].
      by rewrite (proj2 (Nat.leb_gt AES_BLOCK_SIZE (length m))) by lia.
  - destruct (omac_absorb_ready AES_BLOCK_SIZE 0
      (fun i1 => (i1 =? AES_BLOCK_SIZE)%nat && (length m =? AES_BLOCK_SIZE)%nat) cbc c)
      as (c' & E & Hc'); [done|fold m; lia| |].
    { intros j Hj. fold m. by rewrite (Nat.eqb_sym (length m)). }
    fold m in E, Hc'. destruct (Hc' Hgt) as [Hr' Hm'].
    rewrite xor_at_block in E
      by (rewrite ?length_take; try done; unfold AES_BLOCK_SIZE in *; lia).
    assert (Hx : is_block (xor_bytes cbc (take AES_BLOCK_SIZE m))).
    { apply is_block_xor; [done|]. apply is_block_take; [lia|done]. }
    specialize (IH (aes_encrypt ctx (xor_bytes cbc (take AES_BLOCK_SIZE m))) c').
    cbv zeta in IH. rewrite Hm' in IH. specialize (IH Hr' ltac:(auto with wlan) (Henc _ Hx)).
    specialize (IH ltac:(rewrite length_drop; unfold AES_BLOCK_SIZE; lia)).
    replace (omac_blocks (S (S fuel)) ctx (length m) cbc c) with
      (omac_blocks (S fuel) ctx (length (drop AES_BLOCK_SIZE m))
         (aes_encrypt ctx (xor_bytes cbc (take AES_BLOCK_SIZE m))) c'); [exact IH|].
    symmetry. remember (S fuel) as f. cbn [omac_blocks].
    rewrite (proj2 (Nat.leb_le AES_BLOCK_SIZE (length m))) by lia. rewrite E.
    rewrite (proj2 (Nat.ltb_lt AES_BLOCK_SIZE (length m))) by lia.
    by rewrite length_drop.
Qed.

(** The last block, padded, as the code leaves it in [cbc]. *)
Lemma pad_last cbc last :
  is_block cbc -> (length last < AES_BLOCK_SIZE)%nat ->
  let cbc' := xor_at 0 last cbc in
  <[length last := Z.lxor (get cbc' (length last)) 0x80]> cbc' =
  xor_bytes cbc (last ++ 0x80 :: replicate (AES_BLOCK_SIZE - 1 - length last) 0).
Proof.
  intros [Hl _] Hlt. cbv zeta. rewrite xor_at_0 by lia.
  set (p := xor_bytes (take (length last) cbc) last).
  assert (Hp : length p = length last).
  { unfold p. rewrite length_xor_bytes, length_take. lia. }
  set (z := 0x80 :: _).
  replace (xor_bytes cbc (last ++ z)) with
    (xor_bytes (take (length last) cbc ++ drop (length last) cbc) (last ++ z))
    by (by rewrite take_drop).
  rewrite xor_bytes_app by (rewrite length_take; lia). fold p.
  destruct (drop (length last) cbc) as [|x q] eqn:E.
  { apply (f_equal length) in E. rewrite length_drop in E. simpl in E. lia. }
  assert (Hq : length q = (AES_BLOCK_SIZE - 1 - length last)%nat).
  { apply (f_equal length) in E. rewrite length_drop in E. simpl in E. lia. }
  rewrite <- Hp at 1 2. unfold get. rewrite nth_middle, insert_app_r_alt, Nat.sub_diag by lia.
  unfold z. cbn [xor_bytes zip_with]. change (<[0%nat:=Z.lxor x 0x80]> (x :: q)) with (Z.lxor x 0x80 :: q).
  change (zip_with Z.lxor q ?z) with (xor_bytes q z).
  by rewrite xor_bytes_zero_r by lia.
Qed.

Lemma mulx_subkeys :
  let l := aes_encrypt ctx (replicate AES_BLOCK_SIZE 0) in
  let k1 := cmac_double (be_decode l) in
  gf_mulx l = be_encode AES_BLOCK_SIZE k1 /\
  gf_mulx (gf_mulx l) = be_encode AES_BLOCK_SIZE (cmac_double k1).
Proof.
  cbv zeta. assert (Hl : is_block (aes_encrypt ctx (replicate AES_BLOCK_SIZE 0))).
  { apply Henc. split; [done|]. by apply (wf_bytes_replicate 16). }
  destruct (gf_mulx_double _ Hl) as [ [H1 H1'] E1].
  destruct (gf_mulx_double _ (conj H1 H1')) as [ [H2 H2'] E2].
  rewrite <- E1, <- E2. split.
  - etransitivity; [symmetry; by apply be_encode_decode|by rewrite H1].
  - etransitivity; [symmetry; by apply be_encode_decode|by rewrite H2].
Qed.

(** The whole walk over the fragments: either the message ends on a block
    boundary and the chaining value includes it, or the last partial (maybe
    empty) block is absorbed by the second loop. *)
Lemma omac_walk pos rest :
  let m := remaining (pos, rest) in
  wf_bytes m -> (m = [] \/ ready (pos, rest)) ->
  let '(cbc', last) := cmac_chain (length m) ctx (replicate AES_BLOCK_SIZE 0) m in
  is_block cbc' /\ wf_bytes last /\ exists c',
  ((length last = AES_BLOCK_SIZE /\ m <> [] /\
    omac_blocks (S (length m)) ctx (length m) (replicate AES_BLOCK_SIZE 0) (pos, rest) =
      Some (0%nat, xor_bytes cbc' last, c')) \/
   ((length last < AES_BLOCK_SIZE)%nat /\ (m <> [] -> 0 < length last)%nat /\
    omac_blocks (S (length m)) ctx (length m) (replicate AES_BLOCK_SIZE 0) (pos, rest) =
      Some (length last, cbc', c') /\ exists c'',
    omac_absorb (length last) 0 (fun i1 => (i1 =? length last)%nat) cbc' c' =
      Some (xor_at 0 last cbc', c''))).
Proof.
  intros m Hw Hm.
  assert (Hz : is_block (replicate AES_BLOCK_SIZE 0)).
  { split; [done|]. by apply (wf_bytes_replicate 16). }
  destruct (decide (m = [])) as [E0|E0].
  { rewrite E0. cbn [length cmac_chain]. split; [done|]. split; [constructor|].
    exists (pos, rest). right. unfold AES_BLOCK_SIZE. simpl. split; [lia|].
    split; [done|]. split; [done|]. by eexists. }
  destruct Hm as [?|Hr]; [done|].
  pose proof (omac_blocks_chain (length m) _ (pos, rest) Hr Hw Hz (Nat.le_refl _)) as H.
  fold m in H. destruct (cmac_chain _ _ _ m) as [cbc' last].
  destruct H as (Hc & Hpos & Hwl & [ [Hlen [c' E] ] | (Hlt & c' & E & Hrc & Hrem)]).
  - split; [done|]. split; [done|]. exists c'. by left.
  - split; [done|]. split; [done|]. exists c'. right. split; [done|]. split; [done|].
    split; [done|].
    destruct (omac_absorb_ready (length last) 0 (fun i1 => (i1 =? length last)%nat) cbc' c')
      as (c'' & E' & _); [done|by rewrite Hrem| |].
    { intros j Hj. rewrite Hrem, (Nat.eqb_refl (length last)). by destruct (_ =? _)%nat. }
    exists c''. by rewrite E', Hrem, take_ge.
Qed.
End proofs.

(** A CMAC is a block. *)
Lemma is_block_cmac `{A : Aes} ctx msg :
  (forall b, is_block b -> is_block (aes_encrypt ctx b)) -> wf_bytes msg ->
  is_block (cmac ctx msg).
Proof.
  intros Henc Hw. unfold cmac.
  assert (Hz : is_block (replicate AES_BLOCK_SIZE 0)).
  { split; [done|]. by apply (wf_bytes_replicate 16). }
  assert (H : forall fuel c m, is_block c -> wf_bytes m -> (length m <= fuel)%nat ->
    let '(c', last) := cmac_chain fuel ctx c m in
    is_block c' /\ wf_bytes last /\ (length last <= AES_BLOCK_SIZE)%nat).
  { intros fuel. induction fuel as [|fuel IH]; intros c m Hc Hm Hf; cbn [cmac_chain].
    - split_and!; [done..|lia].
    - destruct (Nat.leb_spec (length m) AES_BLOCK_SIZE); [done|].
      apply IH; [|auto with wlan|rewrite length_drop; unfold AES_BLOCK_SIZE; lia].
      apply Henc, is_block_xor; [done|]. apply is_block_take; [lia|done]. }
  specialize (H (length msg) _ msg Hz Hw (Nat.le_refl _)).
  destruct (cmac_chain _ _ _ msg) as [c last]. destruct H as (Hc & Hl & Hlen).
  apply Henc, is_block_xor; [done|].
  destruct (Nat.eqb_spec (length last) AES_BLOCK_SIZE); (split;
    [rewrite length_xor_bytes, length_be_encode|apply wf_bytes_xor; [|apply wf_be_encode] ]).
  - lia.
  - done.
  - rewrite length_app. simpl length. rewrite length_replicate. unfold AES_BLOCK_SIZE in *. lia.
  - apply wf_bytes_app. split; [done|]. constructor; [unfold is_byte; lia|].
    apply wf_bytes_replicate. done.
Qed.

(** The code's MAC of a fragmented message is the CMAC of the concatenation. *)
Lemma omac1_vector_cmac `{A : Aes} `{L : !AesLaws A} key key_len ctx addr :
  wf_bytes key -> aes_encrypt_init key key_len = Some ctx ->
  addr <> [] -> wf_bytes (concat addr) ->
  (concat addr = [] \/ Forall (fun l : bytes => l <> []) addr) ->
  omac1_aes_vector key key_len addr = Some (0, cmac ctx (concat addr)).
Proof.
  intros Hk Hc Hne Hw Hf.
  assert (Henc : forall b, is_block b -> is_block (aes_encrypt ctx b)).
  { intros b. by apply (aes_encrypt_block key key_len). }
  destruct (mulx_subkeys ctx Henc) as [Ek1 Ek2].
  unfold omac1_aes_vector, cmac. rewrite Hc, <- length_concat_sum.
  destruct addr as [|pos rest]; [done|].
  pose proof (omac_walk ctx Henc pos rest Hw Hf) as H. unfold remaining in H.
  cbn [fst snd] in H. change (pos ++ concat rest) with (concat (pos :: rest)) in H.
  set (m := concat (pos :: rest)) in *.
  destruct (cmac_chain _ _ _ m) as [cbc' last].
  destruct H as (Hc' & Hwl & c' & [(Hlen & Hm & E) | (Hlt & Hm & E & c'' & E')]).
  - rewrite E. cbn [mbind option_bind]. rewrite Hlen, Nat.eqb_refl.
    destruct m as [|b m']; [done|]. cbn [length Nat.ltb Nat.leb orb Nat.eqb mbind option_bind].
    rewrite Ek1. do 3 f_equal. by rewrite xor_bytes_comm, xor_bytes_assoc.
  - rewrite E. cbn [mbind option_bind].
    replace ((0 <? length last)%nat || (length m =? 0)%nat) with true.
    + rewrite E'. cbn [mbind option_bind].
      rewrite (proj2 (Nat.eqb_neq _ _)) by lia. rewrite Ek2, pad_last by done.
      do 3 f_equal. by rewrite xor_bytes_comm, xor_bytes_assoc.
    + symmetry. apply orb_true_iff. destruct m; [by right|left].
      apply Nat.ltb_lt. by apply Hm.
Qed.

(** A single buffer, for the clients. *)
Lemma omac1_single_cmac `{A : Aes} `{L : !AesLaws A} key key_len ctx data :
  wf_bytes key -> aes_encrypt_init key key_len = Some ctx -> wf_bytes data ->
  omac1_aes_vector key key_len [data] = Some (0, cmac ctx data).
Proof.
  intros Hk Hc Hw. rewrite (omac1_vector_cmac key key_len ctx); simpl; rewrite ?app_nil_r; try done.
  destruct (decide (data = [])); [by left|right; by repeat constructor].
Qed.

(** AES-CMAC of a fragmented message.  For fragments that are all non-empty
    (or an empty message), [omac1_aes_vector] never reads outside a fragment or
    the vector and returns the SP 800-38B CMAC of the concatenation: the result
    does not depend on how the message is split. *)
Theorem omac1_aes_vector_cmac `{A : Aes} `{L : !AesLaws A} key key_len ctx addr :
  wf_bytes key -> aes_encrypt_init key key_len = Some ctx ->
  addr <> [] -> wf_bytes (concat addr) ->
  (concat addr = [] \/ Forall (fun l : bytes => l <> []) addr) ->
  omac1_aes_vector key key_len addr = Some (0, cmac ctx (concat addr)).
Proof. apply omac1_vector_cmac. Qed.

(** The precondition of [omac1_aes_vector_cmac] is needed.  When the vector starts with an empty
    fragment and the message is not empty, the code dereferences [pos] before
    it compares it with [end]: the first read is past the end of the fragment. *)
Theorem omac1_aes_vector_empty_fragment `{A : Aes} key key_len ctx addr :
  aes_encrypt_init key key_len = Some ctx -> concat addr <> [] ->
  omac1_aes_vector key key_len ([] :: addr) = None.
Proof.
  intros Hc Hne. unfold omac1_aes_vector. rewrite Hc, <- length_concat_sum.
  cbn [concat app]. destruct (concat addr) as [|b m] eqn:E; [done|].
  cbn [length omac_blocks]. destruct (AES_BLOCK_SIZE <=? S (length m))%nat; done.
Qed.

(** SP 800-38B, D.1, example 3 (a 40-byte message), in three fragments. *)
Definition sp800_38b_msg : bytes :=
  [0x6b; 0xc1; 0xbe; 0xe2; 0x2e; 0x40; 0x9f; 0x96; 0xe9; 0x3d; 0x7e; 0x11; 0x73; 0x93;
   0x17; 0x2a; 0xae; 0x2d; 0x8a; 0x57; 0x1e; 0x03; 0xac; 0x9c; 0x9e; 0xb7; 0x6f; 0xac;
   0x45; 0xaf; 0x8e; 0x51; 0x30; 0xc8; 0x1c; 0x46; 0xa3; 0x5c; 0xe4; 0x11].
Definition sp800_38b_mac : bytes :=
  [0xdf; 0xa6; 0x67; 0x47; 0xde; 0x9a; 0xe6; 0x30; 0x30; 0xca; 0x32; 0x61; 0x14; 0x97;
   0xc8; 0x27].
Definition sp800_38b_key : bytes :=
  [0x2b; 0x7e; 0x15; 0x16; 0x28; 0xae; 0xd2; 0xa6;
   0xab; 0xf7; 0x15; 0x88; 0x09; 0xcf; 0x4f; 0x3c].
Definition sp800_38b_ctx : aes_ctx (Aes := ZeroedAes) :=
  default [] (aes_encrypt_init (Aes := ZeroedAes) sp800_38b_key 16).

Lemma omac1_aes_vector_cmac_witness :
  omac1_aes_vector (A := ZeroedAes) sp800_38b_key 16
    [take 5 sp800_38b_msg; sub 5 30 sp800_38b_msg; drop 35 sp800_38b_msg] =
  Some (0, sp800_38b_mac).
Proof.
  rewrite (omac1_aes_vector_cmac (A := ZeroedAes) sp800_38b_key 16 sp800_38b_ctx).
  - vm_compute. reflexivity.
  - apply by_decision. vm_compute. reflexivity.
  - vm_compute. reflexivity.
  - discriminate.
  - apply by_decision. vm_compute. reflexivity.
  - right. repeat constructor; discriminate.
Defined.

Lemma omac1_aes_vector_empty_fragment_witness :
  omac1_aes_vector (A := ZeroedAes) sp800_38b_key 16 [ []; [0x6b] ] = None.
Proof.
  apply (omac1_aes_vector_empty_fragment (A := ZeroedAes) sp800_38b_key 16 sp800_38b_ctx).
  - vm_compute. reflexivity.
  - discriminate.
Defined.
