(* ===== verification/AesEax.v ===== *)
(** * AES-128 EAX

    [aes_128_eax_encrypt] and [aes_128_eax_decrypt] of hostap's
    [crypto/aes-eax.c].  The outer [option] is [None] for a memory fault in
    [omac1_aes_128]; the functions return the C return value with the final
    contents of their in/out buffers. *)

From S2P Require Import Prelude Bytes AesInterface AesInternal AesCorrect AesCtr AesOmac.

Section eax.
Context `{A : Aes} `{M : Malloc}.

(** [buf[15] = k; os_memcpy(buf + 16, src, len);] *)
Definition eax_fill (buf : bytes) (k : Z) (src : bytes) : bytes :=
  memcpy (<[15%nat := k]> buf) 16 src.

Definition eax_buf_len (nonce hdr data : bytes) : nat :=
  let buf_len := if (length data <? length nonce)%nat then length nonce else length data in
  let buf_len := if (buf_len <? length hdr)%nat then length hdr else buf_len in
  (buf_len + 16)%nat.

(** Returns [(ret, data, tag)]. *)
Definition aes_128_eax_encrypt (key nonce hdr data tag : bytes)
    : option (Z * bytes * bytes) :=
  match os_malloc (eax_buf_len nonce hdr data) with
  | None => Some (-1, data, tag)
  | Some buf =>
    let buf := memcpy buf 0 (replicate 15 0) in
    let buf := eax_fill buf 0 nonce in
    '(r, nonce_mac) ← omac1_aes_128 key (take (16 + length nonce) buf);
    if negb (r =? 0) then Some (-1, data, tag) else
    let buf := eax_fill buf 1 hdr in
    '(r, hdr_mac) ← omac1_aes_128 key (take (16 + length hdr) buf);
    if negb (r =? 0) then Some (-1, data, tag) else
    let '(r, data) := aes_128_ctr_encrypt key nonce_mac data in
    if negb (r =? 0) then Some (-1, data, tag) else
    let buf := eax_fill buf 2 data in
    '(r, data_mac) ← omac1_aes_128 key (take (16 + length data) buf);
    if negb (r =? 0) then Some (-1, data, tag) else
    Some (0, data, xor_bytes (xor_bytes nonce_mac data_mac) hdr_mac)
  end.

(** Returns [(ret, data)]. *)
Definition aes_128_eax_decrypt (key nonce hdr data tag : bytes) : option (Z * bytes) :=
  match os_malloc (eax_buf_len nonce hdr data) with
  | None => Some (-1, data)
  | Some buf =>
    let buf := memcpy buf 0 (replicate 15 0) in
    let buf := eax_fill buf 0 nonce in
    '(r, nonce_mac) ← omac1_aes_128 key (take (16 + length nonce) buf);
    if negb (r =? 0) then Some (-1, data) else
    let buf := eax_fill buf 1 hdr in
    '(r, hdr_mac) ← omac1_aes_128 key (take (16 + length hdr) buf);
    if negb (r =? 0) then Some (-1, data) else
    let buf := eax_fill buf 2 data in
    '(r, data_mac) ← omac1_aes_128 key (take (16 + length data) buf);
    if negb (r =? 0) then Some (-1, data) else
    if bool_decide (take AES_BLOCK_SIZE tag =
                    xor_bytes (xor_bytes nonce_mac data_mac) hdr_mac)
    then Some (aes_128_ctr_encrypt key nonce_mac data)
    else Some (-2, data)
  end.
End eax.

(** ** Proofs *)

(** The buffer starts with 15 zeros. *)
Definition eax_prefix (buf : bytes) : Prop := take 15 buf = replicate 15 0.

Lemma eax_prefix_init buf : (15 <= length buf)%nat -> eax_prefix (memcpy buf 0 (replicate 15 0)).
Proof.
  intros Hl. unfold eax_prefix, memcpy. rewrite take_0. cbn [app].
  by rewrite take_app_length'.
Qed.

Lemma eax_fill_spec buf k src :
  eax_prefix buf -> (16 + length src <= length buf)%nat ->
  take (16 + length src) (eax_fill buf k src) = replicate 15 0 ++ k :: src /\
  eax_prefix (eax_fill buf k src) /\ length (eax_fill buf k src) = length buf.
Proof.
  intros Hp Hl. unfold eax_fill.
  assert (Hl' : (16 + length src <= length (<[15%nat:=k]> buf))%nat) by (by rewrite length_insert).
  assert (Ht : take 16 (<[15%nat:=k]> buf) = replicate 15 0 ++ [k]).
  { rewrite (take_S_r _ 15 k) by (apply list_lookup_insert_eq; lia).
    by rewrite take_insert_ge, Hp by lia. }
  split_and!.
  - unfold memcpy. rewrite Ht, <- app_assoc. cbn [app].
    rewrite (app_comm_cons src _ k).
    rewrite (app_assoc (replicate 15 0) (k :: src)).
    by rewrite take_app_length' by (rewrite length_app, length_replicate; simpl; lia).
  - unfold eax_prefix, memcpy. rewrite Ht, <- app_assoc. by rewrite take_app_length'.
  - rewrite length_memcpy by done. by rewrite length_insert.
Qed.

Lemma eax_buf_len_bounds nonce hdr data :
  (16 + length nonce <= eax_buf_len nonce hdr data)%nat /\
  (16 + length hdr <= eax_buf_len nonce hdr data)%nat /\
  (16 + length data <= eax_buf_len nonce hdr data)%nat.
Proof.
  unfold eax_buf_len. cbv zeta.
  repeat case_match; rewrite ?Nat.ltb_lt, ?Nat.ltb_ge in *; lia.
Qed.

Section proofs.
Context `{A : Aes} `{L : !AesLaws A} `{M : Malloc} `{ML : !MallocLaws M}.

(** OMAC^t of the EAX specification. *)
Definition eax_omac (ctx : aes_ctx) (t : Z) (l : bytes) : bytes :=
  cmac ctx (replicate 15 0 ++ t :: l).

Definition eax_tag (ctx : aes_ctx) (nonce hdr crypt : bytes) : bytes :=
  xor_bytes (xor_bytes (eax_omac ctx 0 nonce) (eax_omac ctx 2 crypt)) (eax_omac ctx 1 hdr).

Lemma wf_tagged t l : is_byte t -> wf_bytes l -> wf_bytes (replicate 15 0 ++ t :: l).
Proof.
  intros Ht Hl. apply wf_bytes_app. split; [by apply (wf_bytes_replicate 15)|].
  by constructor.
Qed.

Context (key : bytes) (ctx : aes_ctx).
Context (Hk : wf_bytes key) (Hc : aes_encrypt_init key 16 = Some ctx).

Lemma is_block_eax_omac t l : is_byte t -> wf_bytes l -> is_block (eax_omac ctx t l).
Proof.
  intros. apply is_block_cmac; [|by apply wf_tagged].
  intros b. by apply (aes_encrypt_block key 16).
Qed.

(** One MAC over the shared buffer. *)
Lemma omac_fill buf t l :
  eax_prefix buf -> (16 + length l <= length buf)%nat -> is_byte t -> wf_bytes l ->
  omac1_aes_128 key (take (16 + length l) (eax_fill buf t l)) = Some (0, eax_omac ctx t l).
Proof.
  intros Hp Hl Ht Hw. destruct (eax_fill_spec buf t l Hp Hl) as (-> & _ & _).
  unfold omac1_aes_128, omac1_aes_128_vector. apply omac1_single_cmac; [done..|].
  by apply wf_tagged.
Qed.

Lemma eax_encrypt_spec nonce hdr data tag buf :
  wf_bytes nonce -> wf_bytes hdr -> wf_bytes data ->
  os_malloc (eax_buf_len nonce hdr data) = Some buf ->
  aes_128_eax_encrypt key nonce hdr data tag =
  let crypt := (aes_128_ctr_encrypt key (eax_omac ctx 0 nonce) data).2 in
  Some (0, crypt, eax_tag ctx nonce hdr crypt).
Proof.
  intros Hn Hh Hd Hm. unfold aes_128_eax_encrypt. rewrite Hm.
  apply os_malloc_length in Hm.
  destruct (eax_buf_len_bounds nonce hdr data) as (B1 & B2 & B3).
  set (buf0 := memcpy buf 0 (replicate 15 0)).
  assert (Hl0 : length buf0 = eax_buf_len nonce hdr data).
  { unfold buf0. rewrite length_memcpy; rewrite ?length_replicate; lia. }
  assert (Hp0 : eax_prefix buf0) by (apply eax_prefix_init; lia).
  destruct (eax_fill_spec buf0 0 nonce Hp0 ltac:(lia)) as (_ & Hp1 & Hl1).
  destruct (eax_fill_spec _ 1 hdr Hp1 ltac:(lia)) as (_ & Hp2 & Hl2).
  rewrite omac_fill by (done || lia). cbn [mbind option_bind Z.eqb negb].
  rewrite omac_fill by (done || lia). cbn [mbind option_bind Z.eqb negb].
  pose proof (is_block_eax_omac 0 nonce ltac:(done) Hn) as Hb.
  unfold aes_128_ctr_encrypt. rewrite (aes_ctr_spec key 16 ctx) by done.
  cbn [Z.eqb negb snd]. rewrite omac_fill.
  - done.
  - done.
  - rewrite length_imap. lia.
  - done.
  - apply (wf_ctr key 16 ctx); done.
Qed.

Lemma eax_decrypt_spec nonce hdr data tag buf :
  wf_bytes nonce -> wf_bytes hdr -> wf_bytes data ->
  os_malloc (eax_buf_len nonce hdr data) = Some buf ->
  aes_128_eax_decrypt key nonce hdr data tag =
  if bool_decide (take AES_BLOCK_SIZE tag = eax_tag ctx nonce hdr data)
  then Some (aes_128_ctr_encrypt key (eax_omac ctx 0 nonce) data) else Some (-2, data).
Proof.
  intros Hn Hh Hd Hm. unfold aes_128_eax_decrypt. rewrite Hm.
  apply os_malloc_length in Hm.
  destruct (eax_buf_len_bounds nonce hdr data) as (B1 & B2 & B3).
  set (buf0 := memcpy buf 0 (replicate 15 0)).
  assert (Hl0 : length buf0 = eax_buf_len nonce hdr data).
  { unfold buf0. rewrite length_memcpy; rewrite ?length_replicate; lia. }
  assert (Hp0 : eax_prefix buf0) by (apply eax_prefix_init; lia).
  destruct (eax_fill_spec buf0 0 nonce Hp0 ltac:(lia)) as (_ & Hp1 & Hl1).
  destruct (eax_fill_spec _ 1 hdr Hp1 ltac:(lia)) as (_ & Hp2 & Hl2).
  do 3 (rewrite omac_fill by (done || lia); cbn [mbind option_bind Z.eqb negb]).
  done.
Qed.
End proofs.

(** EAX round trip and authenticity.  Decrypting an encrypted message with a
    16-byte tag returns 0 and the plaintext exactly when the tag is the one the
    encryption produced; with any other tag it returns -2 and leaves the
    ciphertext in the buffer. *)
Theorem aes_128_eax_roundtrip `{A : Aes} `{L : !AesLaws A} `{M : Malloc} `{ML : !MallocLaws M}
    key nonce hdr data tag0 crypt tag tag' :
  wf_bytes key -> wf_bytes nonce -> wf_bytes hdr -> wf_bytes data ->
  aes_128_eax_encrypt key nonce hdr data tag0 = Some (0, crypt, tag) ->
  length tag' = 16%nat ->
  length crypt = length data /\
  aes_128_eax_decrypt key nonce hdr crypt tag' =
  if bool_decide (tag' = tag) then Some (0, data) else Some (-2, crypt).
Proof.
  intros Hk Hn Hh Hd He Ht.
  destruct (os_malloc (eax_buf_len nonce hdr data)) as [buf|] eqn:Hm;
    [|unfold aes_128_eax_encrypt in He; by rewrite Hm in He].
  destruct (aes_encrypt_init key 16) as [ctx|] eqn:Hc.
  - rewrite (eax_encrypt_spec key ctx Hk Hc _ _ _ _ buf) in He by done.
    cbv zeta in He. injection He as <- <-.
    pose proof (is_block_eax_omac key ctx Hk Hc 0 nonce ltac:(done) Hn) as Hb.
    unfold aes_128_ctr_encrypt. rewrite (aes_ctr_spec key 16 ctx) by done. cbn [snd].
    rewrite length_imap. split; [done|].
    rewrite (eax_decrypt_spec key ctx Hk Hc _ _ _ _ buf);
      [|done|done|by apply (wf_ctr key 16 ctx)|unfold eax_buf_len in *; by rewrite length_imap].
    rewrite take_ge by (unfold AES_BLOCK_SIZE; lia).
    case_bool_decide; [|done]. unfold aes_128_ctr_encrypt.
    rewrite (aes_ctr_spec key 16 ctx) by done. by rewrite imap_lxor_involutive.
  - unfold aes_128_eax_encrypt, omac1_aes_128, omac1_aes_128_vector, omac1_aes_vector in He.
    by rewrite Hm, Hc in He.
Qed.

(** The first non-trivial test vector of the EAX paper (section "Test vectors"
    of Bellare, Rogaway and Wagner), MSG = F7FB. *)
Definition eax_key : bytes :=
  [0x91; 0x94; 0x5d; 0x3f; 0x4d; 0xcb; 0xee; 0x0b;
   0xf4; 0x5e; 0xf5; 0x22; 0x55; 0xf0; 0x95; 0xa4].
Definition eax_nonce : bytes :=
  [0xbe; 0xca; 0xf0; 0x43; 0xb0; 0xa2; 0x3d; 0x84;
   0x31; 0x94; 0xba; 0x97; 0x2c; 0x66; 0xde; 0xbd].
Definition eax_hdr : bytes := [0xfa; 0x3b; 0xfd; 0x48; 0x06; 0xeb; 0x53; 0xfa].
Definition eax_crypt : bytes := [0x19; 0xdd].
Definition eax_tag_bytes : bytes :=
  [0x5c; 0x4c; 0x93; 0x31; 0x04; 0x9d; 0x0b; 0xda;
   0xb0; 0x27; 0x74; 0x08; 0xf6; 0x79; 0x67; 0xe5].

Lemma aes_128_eax_roundtrip_witness :
  length eax_crypt = 2%nat /\
  aes_128_eax_decrypt (A := ZeroedAes) (M := zero_malloc) eax_key eax_nonce eax_hdr
    eax_crypt eax_tag_bytes = Some (0, [0xf7; 0xfb]).
Proof.
  apply (aes_128_eax_roundtrip (A := ZeroedAes) (M := zero_malloc) eax_key eax_nonce eax_hdr
    [0xf7; 0xfb] [] eax_crypt eax_tag_bytes eax_tag_bytes).
  1-4: apply by_decision; vm_compute; reflexivity.
  - vm_compute. reflexivity.
  - reflexivity.
Defined.
