(* ===== verification/AesSiv.v ===== *)
(** * AES-SIV (RFC 5297)

    [dbl], [xor], [xorend], [pad_block], [aes_s2v], [aes_siv_encrypt] and
    [aes_siv_decrypt] of hostap's [crypto/aes-siv.c].  The outer [option] is
    [None] for a memory fault in [omac1_aes_vector]. *)

From S2P Require Import Prelude Bytes AesInterface AesInternal AesCorrect AesCtr AesOmac.

Definition siv_zero : bytes := replicate AES_BLOCK_SIZE 0.

(** The file's own copy of the doubling. *)
Definition dbl (pad : bytes) : bytes :=
  let carry := Z.land (get pad 0) 0x80 in
  let pad := for_up 0 15 (fun i pad =>
    <[Z.to_nat i := u8 (Z.lor (Z.shiftl (get pad (Z.to_nat i)) 1)
                              (Z.shiftr (get pad (Z.to_nat (i + 1))) 7))]> pad) pad in
  let pad := <[15%nat := u8 (Z.shiftl (get pad 15) 1)]> pad in
  if carry =? 0 then pad else <[15%nat := u8 (Z.lxor (get pad 15) 0x87)]> pad.

(** [for (i = 0; i < AES_BLOCK_SIZE; i++) *a++ ^= *b++;] *)
Definition xor (a b : bytes) : bytes := xor_bytes a (take AES_BLOCK_SIZE b).

(** [b] xor-ed into the end of [a]. *)
Definition xorend (a b : bytes) : bytes :=
  if (length a <? length b)%nat then a else
  take (length a - length b) a ++ xor_bytes (drop (length a - length b) a) b.

(** Called with [len < AES_BLOCK_SIZE]. *)
Definition pad_block (addr : bytes) : bytes :=
  let pad := memcpy (replicate AES_BLOCK_SIZE 0) 0 addr in
  if (length addr <? AES_BLOCK_SIZE)%nat then <[length addr := 0x80]> pad else pad.

Definition ENOMEM : Z := 12.

Section siv.
Context `{A : Aes} `{M : Malloc}.

(** The loop over all elements but the last: [tmp] is the running value. *)
Fixpoint s2v_loop (key : bytes) (key_len : Z) (tmp : bytes) (addr : list bytes)
    : option (Z * bytes) :=
  match addr with
  | [] => Some (0, tmp)
  | a :: addr =>
    '(ret, tmp2) ← omac1_aes_vector key key_len [a];
    if negb (ret =? 0) then Some (ret, tmp) else
    s2v_loop key key_len (xor (dbl tmp) tmp2) addr
  end.

(** Returns [(ret, mac)]. *)
Definition aes_s2v (key : bytes) (key_len : Z) (addr : list bytes) : option (Z * bytes) :=
  match last addr with
  | None =>
    omac1_aes_vector key key_len [<[(AES_BLOCK_SIZE - 1)%nat := 1]> siv_zero]
  | Some a =>
    '(ret, tmp) ← omac1_aes_vector key key_len [siv_zero];
    if negb (ret =? 0) then Some (ret, []) else
    '(ret, tmp) ← s2v_loop key key_len tmp (removelast addr);
    if negb (ret =? 0) then Some (ret, []) else
    if (AES_BLOCK_SIZE <=? length a)%nat then
      match os_memdup a with
      | None => Some (- ENOMEM, [])
      | Some buf => omac1_aes_vector key key_len [xorend buf tmp]
      end
    else
      let tmp := dbl tmp in
      let tmp := xor tmp (pad_block a) in
      omac1_aes_vector key key_len [tmp]
  end.

(** [ARRAY_SIZE(_addr) - 1] *)
Definition SIV_MAX_AD : nat := 5.

Definition siv_key_len_ok (key_len : Z) : bool :=
  (key_len =? 32) || (key_len =? 48) || (key_len =? 64).

(** [v[8] &= 0x7f; v[12] &= 0x7f;] *)
Definition siv_mask (v : bytes) : bytes :=
  let v := <[8%nat := Z.land (get v 8) 0x7f]> v in
  <[12%nat := Z.land (get v 12) 0x7f]> v.

(** Returns [(ret, out)]; [out] is empty when nothing was written. *)
Definition aes_siv_encrypt (key : bytes) (key_len : Z) (pw : bytes) (addr : list bytes)
    : option (Z * bytes) :=
  if (SIV_MAX_AD <? length addr)%nat || negb (siv_key_len_ok key_len)
  then Some (-1, []) else
  let key_len := key_len / 2 in
  let k1 := key in
  let k2 := drop (Z.to_nat key_len) key in
  '(ret, v) ← aes_s2v k1 key_len (addr ++ [pw]);
  if negb (ret =? 0) then Some (-1, []) else
  let iv := v in
  let '(ret, crypt_pw) := aes_ctr_encrypt k2 key_len (siv_mask v) pw in
  Some (ret, iv ++ crypt_pw).

Definition aes_siv_decrypt (key : bytes) (key_len : Z) (iv_crypt : bytes) (addr : list bytes)
    : option (Z * bytes) :=
  if (length iv_crypt <? AES_BLOCK_SIZE)%nat || (SIV_MAX_AD <? length addr)%nat ||
     negb (siv_key_len_ok key_len)
  then Some (-1, []) else
  let key_len := key_len / 2 in
  let k1 := key in
  let k2 := drop (Z.to_nat key_len) key in
  let iv := take AES_BLOCK_SIZE iv_crypt in
  let out := drop AES_BLOCK_SIZE iv_crypt in
  let '(ret, out) := aes_ctr_encrypt k2 key_len (siv_mask iv) out in
  if negb (ret =? 0) then Some (ret, out) else
  '(ret, check) ← aes_s2v k1 key_len (addr ++ [out]);
  if negb (ret =? 0) then Some (ret, out) else
  if bool_decide (check = take AES_BLOCK_SIZE iv_crypt) then Some (0, out) else Some (-1, out).
End siv.

(** ** Proofs *)

Lemma dbl_gf_mulx pad : dbl pad = gf_mulx pad.
Proof. reflexivity. Qed.

Lemma is_block_dbl pad : is_block pad -> is_block (dbl pad).
Proof. intros. rewrite dbl_gf_mulx. by apply gf_mulx_double. Qed.

Lemma is_block_siv_xor a b : is_block a -> is_block b -> is_block (xor a b).
Proof.
  intros Ha Hb. unfold xor. destruct Hb as [Hl Hw]. rewrite take_ge by lia.
  by apply is_block_xor.
Qed.

Lemma is_block_siv_mask v : is_block v -> is_block (siv_mask v).
Proof.
  assert (Hland : forall x, is_byte x -> is_byte (Z.land x 0x7f)).
  { intros x Hx. apply (bool_decide_eq_true_1 (is_byte (Z.land x 0x7f))).
    revert x Hx. apply byte_forall. vm_compute. done. }
  intros [Hl Hw]. unfold siv_mask. split; [by rewrite !length_insert|].
  auto 10 using is_byte_get with wlan.
Qed.

Lemma is_block_pad_block a :
  (length a < AES_BLOCK_SIZE)%nat -> wf_bytes a -> is_block (pad_block a).
Proof.
  intros Hl Hw. unfold pad_block. rewrite (proj2 (Nat.ltb_lt _ _)) by done.
  split.
  - rewrite length_insert, length_memcpy; rewrite ?length_replicate; unfold AES_BLOCK_SIZE in *; lia.
  - apply wf_bytes_insert; [unfold is_byte; lia|]. apply wf_bytes_memcpy; [|done].
    by apply (wf_bytes_replicate 16).
Qed.

Lemma wf_xorend a b : wf_bytes a -> wf_bytes b -> wf_bytes (xorend a b).
Proof.
  intros. unfold xorend. destruct (_ <? _)%nat; [done|]. apply wf_bytes_app. auto with wlan.
Qed.

Section proofs.
Context `{A : Aes} `{L : !AesLaws A} `{M : Malloc} `{ML : !MallocLaws M}.
Context (key : bytes) (key_len : Z) (Hk : wf_bytes key).

(** A single-buffer MAC that returns 0 is a block. *)
Lemma omac_single_block data v :
  wf_bytes data -> omac1_aes_vector key key_len [data] = Some (0, v) -> is_block v.
Proof.
  intros Hw. destruct (aes_encrypt_init key key_len) as [ctx|] eqn:Hc.
  - rewrite (omac1_single_cmac key key_len ctx) by done. intros [= <-].
    apply is_block_cmac; [|done]. intros b. by apply (aes_encrypt_block key key_len).
  - unfold omac1_aes_vector. by rewrite Hc.
Qed.

Lemma s2v_loop_block tmp addr v :
  is_block tmp -> Forall wf_bytes addr -> s2v_loop key key_len tmp addr = Some (0, v) ->
  is_block v.
Proof.
  revert tmp. induction addr as [|a addr IH]; intros tmp Ht Ha; cbn [s2v_loop].
  - by intros [= <-].
  - apply Forall_cons in Ha as [Ha Hr].
    destruct (omac1_aes_vector key key_len [a]) as [ [ret tmp2]|] eqn:E; [|done].
    cbn [mbind option_bind]. destruct (Z.eqb_spec ret 0) as [->|Hne].
    + apply IH; [|done]. apply is_block_siv_xor; [by apply is_block_dbl|].
      by apply omac_single_block in E.
    + cbn [negb]. intros [= ? _]. done.
Qed.

Lemma aes_s2v_block addr v :
  Forall wf_bytes addr -> aes_s2v key key_len addr = Some (0, v) -> is_block v.
Proof.
  intros Ha. unfold aes_s2v.
  assert (Hz : is_block siv_zero) by (split; [done|by apply (wf_bytes_replicate 16)]).
  destruct (last addr) as [a|] eqn:El.
  - apply last_Some in El as [addr' ->]. rewrite removelast_last.
    apply Forall_app in Ha as [Ha' Ha]. apply Forall_cons in Ha as [Ha _].
    destruct (omac1_aes_vector key key_len [siv_zero]) as [ [ret tmp]|] eqn:E; [|done].
    cbn [mbind option_bind]. destruct (Z.eqb_spec ret 0) as [->|Hne];
      [|cbn [negb]; intros [= ? _]; done].
    cbn [negb]. apply omac_single_block in E; [|apply Hz].
    destruct (s2v_loop key key_len tmp addr') as [ [ret tmp']|] eqn:E'; [|done].
    cbn [mbind option_bind]. destruct (Z.eqb_spec ret 0) as [->|Hne];
      [|cbn [negb]; intros [= ? _]; done].
    cbn [negb]. apply s2v_loop_block in E'; [|done..].
    destruct (Nat.leb_spec AES_BLOCK_SIZE (length a)).
    + destruct (os_memdup a) as [buf|] eqn:Em; [|by unfold ENOMEM].
      apply os_memdup_spec in Em as ->. apply omac_single_block.
      apply wf_xorend; [done|apply E'].
    + apply omac_single_block. apply is_block_siv_xor; [by apply is_block_dbl|].
      by apply is_block_pad_block.
  - apply omac_single_block. apply wf_bytes_insert; [unfold is_byte; lia|apply Hz].
Qed.
End proofs.

(** C35: SIV is deterministic authenticated encryption.  [aes_siv_decrypt] accepts
    a buffer and returns the plaintext [pw] exactly when the buffer is what
    [aes_siv_encrypt] produces for [pw] under the same key and associated data:
    the round trip and the rejection of every other buffer at once. *)
Theorem aes_siv_decrypt_iff_encrypt `{A : Aes} `{L : !AesLaws A} `{M : Malloc}
    `{ML : !MallocLaws M}
    key key_len iv_crypt pw addr :
  wf_bytes key -> wf_bytes iv_crypt -> wf_bytes pw -> Forall wf_bytes addr ->
  (aes_siv_decrypt key key_len iv_crypt addr = Some (0, pw) <->
   aes_siv_encrypt key key_len pw addr = Some (0, iv_crypt)).
Proof.
  intros Hk Hiv Hpw Haddr. unfold aes_siv_decrypt, aes_siv_encrypt.
  set (k2 := drop _ key). assert (Hk2 : wf_bytes k2) by (by apply wf_bytes_drop).
  destruct ((SIV_MAX_AD <? length addr)%nat) eqn:Ead;
    [rewrite orb_true_r; by split|].
  destruct (siv_key_len_ok key_len); [|rewrite !orb_true_r; by split].
  rewrite !orb_false_r. cbn [orb negb].
  assert (Hv : forall p v, wf_bytes p ->
    aes_s2v key (key_len / 2) (addr ++ [p]) = Some (0, v) -> is_block v).
  { intros p v Hp. apply aes_s2v_block; [done|]. apply Forall_app. split; [done|].
    by apply Forall_singleton. }
  split.
  - destruct (Nat.ltb_spec (length iv_crypt) AES_BLOCK_SIZE) as [|Hlen]; [done|]. cbn [orb].
    destruct (aes_ctr_encrypt _ _ _ _) as [ret out] eqn:Ectr.
    destruct (Z.eqb_spec ret 0) as [->|Hne]; [|cbn [negb]; intros [= ? _]; done].
    cbn [negb].
    destruct (aes_s2v _ _ _) as [ [ret check]|] eqn:Es; [|done]. cbn [mbind option_bind].
    destruct (Z.eqb_spec ret 0) as [->|Hne]; [|cbn [negb]; intros [= ? _]; done].
    cbn [negb]. case_bool_decide as Hcheck; [|done]. intros [= ->].
    rewrite Es. cbn [mbind option_bind negb Z.eqb].
    apply aes_ctr_involutive in Ectr as [_ Ectr]; [|done|].
    + by rewrite Hcheck, Ectr, take_drop.
    + apply is_block_siv_mask. rewrite <- Hcheck. by apply (Hv pw).
  - destruct (aes_s2v _ _ _) as [ [ret v]|] eqn:Es; [|done]. cbn [mbind option_bind].
    destruct (Z.eqb_spec ret 0) as [->|Hne]; [|done]. cbn [negb].
    destruct (aes_ctr_encrypt _ _ _ _) as [ret crypt] eqn:Ectr. intros [= -> <-].
    apply Hv in Es as Hb; [|done]. destruct Hb as [Hl Hw].
    apply aes_ctr_involutive in Ectr as [_ Ectr]; [|done|by apply is_block_siv_mask].
    rewrite (proj2 (Nat.ltb_ge _ _)) by (rewrite length_app; lia). cbn [orb].
    rewrite take_app_length', drop_app_length' by done.
    rewrite Ectr. cbn [negb Z.eqb]. rewrite Es. cbn [mbind option_bind negb Z.eqb].
    by rewrite bool_decide_eq_true_2.
Qed.

(** RFC 5297, A.1. *)
Definition siv_key : bytes := map (fun i => 255 - i) (seqZ 0 16) ++ seqZ 0xf0 16.
Definition siv_ad : bytes := seqZ 0x10 24.
Definition siv_plain : bytes := map (fun i => 0x11 * i) (seqZ 1 14).
Definition siv_crypt : bytes :=
  [0x85; 0x63; 0x2d; 0x07; 0xc6; 0xe8; 0xf3; 0x7f; 0x95; 0x0a; 0xcd; 0x32; 0x0a; 0x2e;
   0xcc; 0x93; 0x40; 0xc0; 0x2b; 0x96; 0x90; 0xc4; 0xdc; 0x04; 0xda; 0xef; 0x7f; 0x6a;
   0xfe; 0x5c].

Lemma aes_siv_decrypt_iff_encrypt_witness :
  aes_siv_decrypt (A := ZeroedAes) (M := zero_malloc) siv_key 32 siv_crypt [siv_ad] =
  Some (0, siv_plain).
Proof.
  apply (aes_siv_decrypt_iff_encrypt (A := ZeroedAes) (M := zero_malloc)).
  1-4: apply by_decision; vm_compute; reflexivity.
  vm_compute. reflexivity.
Defined.
