(* ===== verification/AesCcm.v ===== *)
(** * AES-CCM

    [aes_ccm_ae] and [aes_ccm_ad] of hostap's [crypto/aes-ccm.c] with their
    helpers.  For a partial last block [aes_ccm_encr] stores a whole block of
    key stream and then xors only the message bytes into it, so what it stores
    is a whole number of blocks, longer than the message; the model returns
    all the bytes stored.  [a0] stands for the uninitialised contents of the
    counter block on the stack. *)

From S2P Require Import Prelude Bytes AesInterface AesInternal AesCorrect.

(** [for (i = 0; i < n; i++) x[i] ^= *data++], the whole of [data]. *)
Definition xor_prefix (x data : bytes) : bytes :=
  xor_bytes (take (length data) x) data ++ drop (length data) x.

Definition xor_aes_block (dst src : bytes) : bytes := xor_prefix dst (take AES_BLOCK_SIZE src).

Section ccm.
Context `{A : Aes}.

Definition aes_ccm_auth_start (aes : aes_ctx) (M L : Z) (nonce aad : bytes) (plain_len : Z)
    : bytes :=
  let aad_len := length aad in
  let b0 := if (aad_len =? 0)%nat then 0 else 0x40 in
  let b0 := u8 (Z.lor b0 (Z.shiftl (u64 (M - 2) / 2) 3)) in
  let b0 := u8 (Z.lor b0 (L - 1)) in
  let b := b0 :: take (Z.to_nat (15 - L)) nonce ++ WPA_PUT_BE16 plain_len in
  let x := aes_encrypt aes b in
  if (aad_len =? 0)%nat then x else
  let aad_buf := WPA_PUT_BE16 (Z.of_nat aad_len) ++ aad ++
                 replicate (2 * AES_BLOCK_SIZE - 2 - aad_len) 0 in
  let aad_buf := xor_aes_block aad_buf x in
  let x := aes_encrypt aes (take AES_BLOCK_SIZE aad_buf) in
  if (AES_BLOCK_SIZE - 2 <? aad_len)%nat
  then aes_encrypt aes (xor_aes_block (drop AES_BLOCK_SIZE aad_buf) x) else x.

(** [blocks] full blocks are left; [data] is what is left to read. *)
Fixpoint ccm_auth_from (blocks : nat) (aes : aes_ctx) (data x : bytes) : bytes :=
  match blocks with
  | O => if (length data =? 0)%nat then x else aes_encrypt aes (xor_prefix x data)
  | S blocks =>
    ccm_auth_from blocks aes (drop AES_BLOCK_SIZE data)
      (aes_encrypt aes (xor_aes_block x data))
  end.
Definition aes_ccm_auth (aes : aes_ctx) (data x : bytes) : bytes :=
  ccm_auth_from (length data / AES_BLOCK_SIZE) aes data x.

Definition aes_ccm_encr_start (L : Z) (nonce a : bytes) : bytes :=
  memcpy (<[0%nat := u8 (L - 1)]> a) 1 (take (Z.to_nat (15 - L)) nonce).

(** [WPA_PUT_BE16(&a[AES_BLOCK_SIZE - 2], i)] *)
Definition ccm_counter (a : bytes) (i : Z) : bytes :=
  memcpy a (AES_BLOCK_SIZE - 2) (WPA_PUT_BE16 i).

(** Returns the bytes stored from [out] on and the counter block. *)
Fixpoint ccm_encr_from (blocks : nat) (i : Z) (aes : aes_ctx) (inp a : bytes)
    : bytes * bytes :=
  match blocks with
  | O =>
    if (length inp =? 0)%nat then ([], a) else
    let a := ccm_counter a i in
    (xor_prefix (aes_encrypt aes a) inp, a)
  | S blocks =>
    let a := ccm_counter a i in
    let out := xor_aes_block (aes_encrypt aes a) inp in
    let '(outs, a) := ccm_encr_from blocks (i + 1) aes (drop AES_BLOCK_SIZE inp) a in
    (out ++ outs, a)
  end.
Definition aes_ccm_encr (aes : aes_ctx) (inp a : bytes) : bytes * bytes :=
  ccm_encr_from (length inp / AES_BLOCK_SIZE) 1 aes inp a.

(** [auth[i] = x[i] ^ tmp[i]] for [i < M]; also the new counter block. *)
Definition aes_ccm_encr_auth (aes : aes_ctx) (M : nat) (x a : bytes) : bytes * bytes :=
  let a := ccm_counter a 0 in
  let tmp := aes_encrypt aes a in
  (xor_bytes (take M x) (take M tmp), a).
Definition aes_ccm_decr_auth (aes : aes_ctx) (M : nat) (a auth : bytes) : bytes * bytes :=
  let a := ccm_counter a 0 in
  let tmp := aes_encrypt aes a in
  (xor_bytes (take M auth) (take M tmp), a).

Context (a0 : bytes).

(** Returns [(ret, crypt, auth)], empty buffers when nothing is written. *)
Definition aes_ccm_ae (key : bytes) (key_len : Z) (nonce : bytes) (M : nat)
    (plain aad : bytes) : Z * bytes * bytes :=
  let L := 2 in
  if (30 <? length aad)%nat || (AES_BLOCK_SIZE <? M)%nat then (-1, [], []) else
  match aes_encrypt_init key key_len with
  | None => (-1, [], [])
  | Some aes =>
    let x := aes_ccm_auth_start aes (Z.of_nat M) L nonce aad (Z.of_nat (length plain)) in
    let x := aes_ccm_auth aes plain x in
    let a := aes_ccm_encr_start L nonce a0 in
    let '(crypt, a) := aes_ccm_encr aes plain a in
    let '(auth, a) := aes_ccm_encr_auth aes M x a in
    (0, crypt, auth)
  end.

(** Returns [(ret, plain)]; only the message bytes of [plain] are read back. *)
Definition aes_ccm_ad (key : bytes) (key_len : Z) (nonce : bytes) (M : nat)
    (crypt aad auth : bytes) : Z * bytes :=
  let L := 2 in
  if (30 <? length aad)%nat || (AES_BLOCK_SIZE <? M)%nat then (-1, []) else
  match aes_encrypt_init key key_len with
  | None => (-1, [])
  | Some aes =>
    let a := aes_ccm_encr_start L nonce a0 in
    let '(t, a) := aes_ccm_decr_auth aes M a auth in
    let '(plain, a) := aes_ccm_encr aes crypt a in
    let x := aes_ccm_auth_start aes (Z.of_nat M) L nonce aad (Z.of_nat (length crypt)) in
    let x := aes_ccm_auth aes (take (length crypt) plain) x in
    if bool_decide (take M x = t) then (0, plain) else (-1, plain)
  end.
End ccm.

(** ** Proofs *)

Lemma length_xor_prefix x data :
  (length data <= length x)%nat -> length (xor_prefix x data) = length x.
Proof.
  intros. unfold xor_prefix.
  rewrite length_app, length_xor_bytes, length_take, length_drop. lia.
Qed.

Lemma wf_xor_prefix x data : wf_bytes x -> wf_bytes data -> wf_bytes (xor_prefix x data).
Proof. intros. unfold xor_prefix. apply wf_bytes_app. auto with wlan. Qed.

(** Xoring a prefix in, reading it back and xoring it in again. *)
Lemma xor_prefix_cancel x data :
  (length data <= length x)%nat ->
  take (length data) (xor_prefix x (take (length data) (xor_prefix x data))) = data.
Proof.
  intros Hl. unfold xor_prefix at 2.
  assert (Hx : length (xor_bytes (take (length data) x) data) = length data)
    by (rewrite length_xor_bytes, length_take; lia).
  rewrite take_app_length' by done. unfold xor_prefix. rewrite !Hx.
  rewrite take_app_length'.
  - rewrite xor_bytes_cancel; [done|]. rewrite length_take. lia.
  - rewrite length_xor_bytes, length_take. lia.
Qed.

Lemma xor_aes_block_cancel x data rest :
  length x = AES_BLOCK_SIZE -> (AES_BLOCK_SIZE <= length data)%nat ->
  xor_aes_block x (xor_aes_block x data ++ rest) = take AES_BLOCK_SIZE data.
Proof.
  intros Hx Hd. assert (Ht : length (take AES_BLOCK_SIZE data) = AES_BLOCK_SIZE)
    by (rewrite length_take; lia).
  assert (Hl : length (xor_aes_block x data) = AES_BLOCK_SIZE)
    by (unfold xor_aes_block; rewrite length_xor_prefix by lia; done).
  unfold xor_aes_block at 1. rewrite take_app_length' by done.
  pose proof (xor_prefix_cancel x (take AES_BLOCK_SIZE data) ltac:(lia)) as Hc.
  rewrite Ht in Hc. unfold xor_aes_block in *. rewrite take_ge in Hc.
  - by rewrite (take_ge (xor_prefix x (take _ data))) in Hc by lia.
  - rewrite length_xor_prefix; [lia|]. rewrite length_take. lia.
Qed.

Lemma is_block_xor_prefix x data :
  is_block x -> wf_bytes data -> (length data <= AES_BLOCK_SIZE)%nat ->
  is_block (xor_prefix x data).
Proof.
  intros [Hl Hw] Hd Hn. split; [|by apply wf_xor_prefix].
  rewrite length_xor_prefix; [done|lia].
Qed.

Lemma is_block_xor_aes_block x data :
  is_block x -> wf_bytes data -> is_block (xor_aes_block x data).
Proof.
  intros. apply is_block_xor_prefix; [done|auto with wlan|]. rewrite length_take. lia.
Qed.

Lemma ccm_counter_eq a i :
  length a = AES_BLOCK_SIZE -> ccm_counter a i = take 14 a ++ WPA_PUT_BE16 i.
Proof.
  intros Hl. unfold ccm_counter, memcpy. f_equal.
  rewrite drop_ge; [apply app_nil_r|]. rewrite Hl. unfold AES_BLOCK_SIZE. simpl. lia.
Qed.

Lemma length_ccm_counter a i :
  length a = AES_BLOCK_SIZE -> length (ccm_counter a i) = AES_BLOCK_SIZE.
Proof.
  intros Hl. rewrite ccm_counter_eq, length_app, length_take by done.
  rewrite Hl. done.
Qed.

Lemma take_ccm_counter a i :
  length a = AES_BLOCK_SIZE -> take 14 (ccm_counter a i) = take 14 a.
Proof.
  intros Hl. rewrite ccm_counter_eq by done. apply take_app_length'.
  rewrite length_take, Hl. done.
Qed.

Lemma wf_put_be16 v : wf_bytes (WPA_PUT_BE16 v).
Proof. repeat constructor; apply is_byte_u8. Qed.

Lemma is_block_ccm_counter a i : is_block a -> is_block (ccm_counter a i).
Proof.
  intros [Hl Hw]. split; [by apply length_ccm_counter|].
  apply wf_bytes_memcpy; [done|apply wf_put_be16].
Qed.

Lemma take_aes_ccm_encr_start nonce a :
  length a = AES_BLOCK_SIZE -> length nonce = 13%nat ->
  length (aes_ccm_encr_start 2 nonce a) = AES_BLOCK_SIZE /\
  take 14 (aes_ccm_encr_start 2 nonce a) = 1 :: nonce.
Proof.
  intros Hl Hn. unfold aes_ccm_encr_start. change (Z.to_nat (15 - 2)) with 13%nat.
  rewrite take_ge by lia. unfold AES_BLOCK_SIZE in *. split.
  - rewrite length_memcpy; rewrite length_insert; lia.
  - destruct a as [|x a]; [done|]. unfold memcpy. cbn [insert list_insert take app].
    rewrite take_0. cbn [app]. f_equal. by apply take_app_length'.
Qed.

Lemma is_block_aes_ccm_encr_start nonce a :
  is_block a -> length nonce = 13%nat -> wf_bytes nonce ->
  is_block (aes_ccm_encr_start 2 nonce a).
Proof.
  intros [Hl Hw] Hn Hwn. split; [by apply take_aes_ccm_encr_start|].
  unfold aes_ccm_encr_start. auto using is_byte_u8 with wlan.
Qed.

Section proofs.
Context `{A : Aes} (aes : aes_ctx).
Context (Henc : forall b, is_block b -> is_block (aes_encrypt aes b)).

(** Two counter blocks that agree on flags and nonce make the same stream. *)
Lemma ccm_encr_from_agree blocks i inp a a' :
  length a = AES_BLOCK_SIZE -> length a' = AES_BLOCK_SIZE -> take 14 a = take 14 a' ->
  (ccm_encr_from blocks i aes inp a).1 = (ccm_encr_from blocks i aes inp a').1.
Proof.
  destruct blocks as [|blocks]; cbn [ccm_encr_from]; intros Ha Ha' E.
  - destruct (_ =? _)%nat; [done|]. by rewrite !ccm_counter_eq, E by done.
  - by rewrite !ccm_counter_eq, E by done.
Qed.

Lemma ccm_encr_from_counter blocks i inp a :
  length a = AES_BLOCK_SIZE ->
  length (ccm_encr_from blocks i aes inp a).2 = AES_BLOCK_SIZE /\
  take 14 (ccm_encr_from blocks i aes inp a).2 = take 14 a.
Proof.
  revert i inp a. induction blocks as [|m IH]; intros i inp a Ha; cbn [ccm_encr_from].
  - destruct (_ =? _)%nat; [done|]. cbn [snd].
    by rewrite length_ccm_counter, take_ccm_counter.
  - destruct (ccm_encr_from m _ _ _ _) as [outs a'] eqn:E.
    destruct (IH (i + 1) (drop AES_BLOCK_SIZE inp) (ccm_counter a i)) as [H1 H2].
    + by apply length_ccm_counter.
    + rewrite E in H1, H2. cbn [snd] in *. by rewrite H1, H2, take_ccm_counter.
Qed.

Lemma ccm_encr_from_involutive blocks i inp a :
  is_block a -> (length inp / AES_BLOCK_SIZE = blocks)%nat ->
  let out := (ccm_encr_from blocks i aes inp a).1 in
  (length inp <= length out)%nat /\
  take (length inp) (ccm_encr_from blocks i aes (take (length inp) out) a).1 = inp.
Proof.
  revert i inp a. induction blocks as [|m IH]; intros i inp a Ha Hb; cbn [ccm_encr_from];
    pose proof (is_block_ccm_counter a i Ha) as Hc;
    destruct (Henc _ Hc) as [He _]; unfold AES_BLOCK_SIZE in Hb, He; cbv zeta.
  - apply Nat.div_small_iff in Hb; [|done].
    destruct (Nat.eqb_spec (length inp) 0) as [E0|E0]; cbn [fst].
    { apply length_zero_iff_nil in E0 as ->. done. }
    rewrite length_xor_prefix by lia. split; [lia|].
    rewrite length_take, length_xor_prefix, Nat.min_l by lia.
    rewrite (proj2 (Nat.eqb_neq _ _)) by done.
    cbn [fst]. apply xor_prefix_cancel. lia.
  - assert (Hl : (16 * S m <= length inp)%nat).
    { rewrite <- Hb. apply Nat.Div0.mul_div_le. }
    destruct (ccm_encr_from m _ _ _ _) as [outs a'] eqn:E. cbn [fst].
    unfold AES_BLOCK_SIZE in *.
    destruct (IH (i + 1) (drop 16 inp) (ccm_counter a i) Hc) as [H1 H2].
    { rewrite length_drop. replace (length inp) with (16 * 1 + (length inp - 16))%nat in Hb by lia.
      rewrite Nat.mul_comm, Nat.div_add_l in Hb; lia. }
    rewrite E in H1, H2. cbn [fst] in H1, H2. rewrite length_drop in H1, H2.
    assert (Ht : length (take 16 inp) = 16%nat) by (rewrite length_take; lia).
    assert (Hx : length (xor_aes_block (aes_encrypt aes (ccm_counter a i)) inp) = 16%nat).
    { unfold xor_aes_block, AES_BLOCK_SIZE. by rewrite length_xor_prefix by lia. }
    rewrite length_app, Hx. split; [lia|].
    rewrite take_app_ge, Hx by lia.
    rewrite drop_app_length' by done.
    destruct (ccm_encr_from m (i + 1) aes (take _ outs) _) as [o2 a2]. cbn [fst] in *.
    rewrite xor_aes_block_cancel by (unfold AES_BLOCK_SIZE; lia).
    unfold AES_BLOCK_SIZE. rewrite take_app_ge, Ht, H2 by lia. apply take_drop.
Qed.
End proofs.

Lemma xor_take_inj M (x t k : bytes) :
  (M <= length k)%nat -> length x = M -> length t = M ->
  (x = xor_bytes t (take M k) <-> t = xor_bytes x (take M k)).
Proof.
  intros Hk Hx Ht. split; intros ->; rewrite xor_bytes_cancel_r; try done;
    rewrite length_take; lia.
Qed.

Lemma is_block_ccm_auth_from `{A : Aes} blocks aes data x :
  (forall b, is_block b -> is_block (aes_encrypt aes b)) ->
  is_block x -> wf_bytes data -> (length data / AES_BLOCK_SIZE = blocks)%nat ->
  is_block (ccm_auth_from blocks aes data x).
Proof.
  intros He. revert data x. induction blocks as [|m IH]; intros data x Hx Hd Hb; cbn [ccm_auth_from].
  - destruct (_ =? _)%nat; [done|]. apply He, is_block_xor_prefix; [done..|].
    apply Nat.div_small_iff in Hb; [|done]. lia.
  - unfold AES_BLOCK_SIZE in *.
    assert (Hl : (16 * S m <= length data)%nat).
    { rewrite <- Hb. apply Nat.Div0.mul_div_le. }
    apply IH; [by apply He, is_block_xor_aes_block|auto with wlan|].
    rewrite length_drop. replace (length data) with (16 * 1 + (length data - 16))%nat in Hb by lia.
    rewrite Nat.mul_comm, Nat.div_add_l in Hb; lia.
Qed.

Lemma is_block_ccm_auth_start `{A : Aes} aes M nonce aad plain_len :
  (forall b, is_block b -> is_block (aes_encrypt aes b)) ->
  length nonce = 13%nat -> wf_bytes nonce -> wf_bytes aad -> (length aad <= 30)%nat ->
  is_block (aes_ccm_auth_start aes M 2 nonce aad plain_len).
Proof.
  intros He Hn Hwn Hwa Hla. unfold aes_ccm_auth_start.
  change (Z.to_nat (15 - 2)) with 13%nat. rewrite (take_ge nonce) by lia.
  set (b0 := u8 _). set (x := aes_encrypt aes _).
  assert (Hx : is_block x).
  { apply He. split; [simpl; rewrite length_app, Hn; done|].
    constructor; [apply is_byte_u8|]. apply wf_bytes_app. split; [done|apply wf_put_be16]. }
  destruct (_ =? 0)%nat; [done|].
  set (buf := _ ++ aad ++ _).
  assert (Hb : length buf = 32%nat /\ wf_bytes buf).
  { unfold buf, AES_BLOCK_SIZE. split.
    - rewrite !length_app, length_replicate. simpl. lia.
    - rewrite !wf_bytes_app. split_and!; [apply wf_put_be16|done|by apply wf_bytes_replicate]. }
  destruct Hb as [Hbl Hbw]. destruct Hx as [Hxl Hxw]. unfold AES_BLOCK_SIZE in Hxl.
  assert (Hy : length (xor_aes_block buf x) = 32%nat /\ wf_bytes (xor_aes_block buf x)).
  { unfold xor_aes_block. split; [|apply wf_xor_prefix; auto with wlan].
    rewrite length_xor_prefix; [done|]. rewrite length_take. lia. }
  destruct Hy as [Hyl Hyw].
  assert (Hx2 : is_block (aes_encrypt aes (take AES_BLOCK_SIZE (xor_aes_block buf x)))).
  { apply He. split; [|auto with wlan]. rewrite length_take. unfold AES_BLOCK_SIZE. lia. }
  destruct (_ <? _)%nat; [|done]. apply He, is_block_xor_aes_block; [|apply Hx2].
  split; [|auto with wlan]. rewrite length_drop. unfold AES_BLOCK_SIZE. lia.
Qed.

(** C37: CCM round trip and authenticity.  For every key, 13-byte nonce, message,
    tag length [M <= 16] and associated data of at most 30 bytes that
    [aes_ccm_ae] accepts, [aes_ccm_ad] on the produced ciphertext restores the
    message whatever tag it is given, and returns 0 exactly when the tag is the
    one that was produced; what either function finds on its stack makes no
    difference.  The store at [crypt] is never shorter than the message. *)
Theorem aes_ccm_roundtrip `{A : Aes} `{L : !AesLaws A}
    a0 a1 key key_len nonce M plain aad crypt auth auth' :
  is_block a0 -> is_block a1 ->
  wf_bytes key -> wf_bytes nonce -> wf_bytes plain -> wf_bytes aad ->
  length nonce = 13%nat ->
  aes_ccm_ae a0 key key_len nonce M plain aad = (0, crypt, auth) ->
  length auth' = M ->
  (length plain <= length crypt)%nat /\ length auth = M /\
  exists out, take (length plain) out = plain /\
    aes_ccm_ad a1 key key_len nonce M (take (length plain) crypt) aad auth' =
    (if bool_decide (auth' = auth) then 0 else -1, out).
Proof.
  intros Ha0 Ha1 Hk Hwn Hp Had Hn. unfold aes_ccm_ae, aes_ccm_ad.
  destruct (Nat.ltb_spec 30 (length aad)) as [|Had30]; [done|].
  destruct (Nat.ltb_spec AES_BLOCK_SIZE M) as [|HM]; [done|]. cbn [orb].
  destruct (aes_encrypt_init key key_len) as [aes|] eqn:Hc; [|done].
  pose proof (fun b => aes_encrypt_block key key_len aes b Hk Hc) as He.
  pose proof (is_block_aes_ccm_encr_start nonce a0 Ha0 Hn Hwn) as Hs0.
  pose proof (is_block_aes_ccm_encr_start nonce a1 Ha1 Hn Hwn) as Hs1.
  destruct (take_aes_ccm_encr_start nonce a0 (proj1 Ha0) Hn) as [_ Ht0].
  destruct (take_aes_ccm_encr_start nonce a1 (proj1 Ha1) Hn) as [_ Ht1].
  set (s0 := aes_ccm_encr_start 2 nonce a0) in *. set (s1 := aes_ccm_encr_start 2 nonce a1) in *.
  set (x := aes_ccm_auth_start _ _ _ _ _ _). set (y := aes_ccm_auth aes plain x).
  assert (Hy : is_block y).
  { apply is_block_ccm_auth_from; [done| |done..]. by apply is_block_ccm_auth_start. }
  unfold aes_ccm_encr, aes_ccm_encr_auth, aes_ccm_decr_auth.
  set (blocks := (length plain / AES_BLOCK_SIZE)%nat).
  destruct (ccm_encr_from_involutive aes He blocks 1 plain s0 Hs0 eq_refl) as [Hlen Hinv].
  destruct (ccm_encr_from_counter aes blocks 1 plain s0 (proj1 Hs0)) as [Hcl Hct].
  destruct (ccm_encr_from blocks 1 aes plain s0) as [c a'] eqn:Ec. cbn [fst snd] in *.
  intros [= -> <-] HM'. split; [done|].
  pose proof (is_block_ccm_counter s1 0 Hs1) as Hb1.
  assert (Ek : ccm_counter a' 0 = ccm_counter s1 0).
  { rewrite !ccm_counter_eq by (done || apply Hs1). by rewrite Hct, Ht0, Ht1. }
  rewrite Ek. set (k := aes_encrypt aes (ccm_counter s1 0)).
  assert (Hkl : length k = AES_BLOCK_SIZE) by apply (He _ Hb1).
  destruct Hy as [Hyl Hyw].
  assert (Hxy : length (take M y) = M) by (rewrite length_take; lia).
  split. { rewrite length_xor_bytes, !length_take. lia. }
  assert (Hcr : length (take (length plain) crypt) = length plain) by (rewrite length_take; lia).
  rewrite Hcr. fold blocks.
  pose proof (ccm_encr_from_agree aes blocks 1 (take (length plain) crypt) s0
    (ccm_counter s1 0) (proj1 Hs0) (proj1 Hb1)
    ltac:(by rewrite take_ccm_counter, Ht0, Ht1 by apply Hs1)) as Hag.
  destruct (ccm_encr_from blocks 1 aes _ (ccm_counter s1 0)) as [out a2]. cbn [fst] in Hag.
  exists out. rewrite <- Hag. split; [done|]. rewrite Hinv. fold x. fold y.
  rewrite (take_ge auth') by lia.
  pose proof (xor_take_inj M (take M y) auth' k ltac:(lia) Hxy HM') as Hiff.
  by rewrite (bool_decide_ext _ _ Hiff); case_bool_decide.
Qed.

(** RFC 3610, packet vector #1: an 8-byte MIC. *)
Definition ccm_key : bytes := seqZ 0xc0 16.
Definition ccm_nonce : bytes := [0; 0; 0; 3; 2; 1; 0; 0xa0; 0xa1; 0xa2; 0xa3; 0xa4; 0xa5].
Definition ccm_aad : bytes := seqZ 0 8.
Definition ccm_plain : bytes := seqZ 8 23.
Definition ccm_crypt : bytes :=
  [0x58; 0x8c; 0x97; 0x9a; 0x61; 0xc6; 0x63; 0xd2; 0xf0; 0x66; 0xd0; 0xc2;
   0xc0; 0xf9; 0x89; 0x80; 0x6d; 0x5f; 0x6b; 0x61; 0xda; 0xc3; 0x84].
Definition ccm_auth : bytes := [0x17; 0xe8; 0xd1; 0x2c; 0xfd; 0xf9; 0x26; 0xe0].

Example aes_ccm_rfc3610 :
  let '(ret, crypt, auth) :=
    aes_ccm_ae (A := ZeroedAes) (replicate 16 0) ccm_key 16 ccm_nonce 8 ccm_plain ccm_aad in
  (ret, take 23 crypt, auth) = (0, ccm_crypt, ccm_auth).
Proof. vm_compute. reflexivity. Qed.

Lemma aes_ccm_roundtrip_witness :
  let crypt := (aes_ccm_ae (A := ZeroedAes) (replicate 16 0) ccm_key 16 ccm_nonce 8
                  ccm_plain ccm_aad).1.2 in
  (23 <= length crypt)%nat /\ 8%nat = 8%nat /\
  exists out, take 23 out = ccm_plain /\
    aes_ccm_ad (A := ZeroedAes) (replicate 16 7) ccm_key 16 ccm_nonce 8 (take 23 crypt)
      ccm_aad ccm_auth = (0, out).
Proof.
  apply (aes_ccm_roundtrip (A := ZeroedAes) (replicate 16 0) (replicate 16 7) ccm_key 16
           ccm_nonce 8 ccm_plain ccm_aad _ ccm_auth ccm_auth).
  1-6: apply by_decision; vm_compute; reflexivity.
  - reflexivity.
  - vm_compute. reflexivity.
  - reflexivity.
Defined.
