(* ===== verification/AesGcm.v ===== *)
(** * AES-GCM

    [crypto/aes-gcm.c] of hostap: the block helpers, the multiplication in
    GF(2^128), GHASH, GCTR, [aes_gcm_ae], [aes_gcm_ad] and [aes_gmac]. *)

From S2P Require Import Prelude Bytes AesInterface AesInternal AesCorrect.

Definition inc32 (block : bytes) : bytes :=
  let val := WPA_GET_BE32 (drop (AES_BLOCK_SIZE - 4) block) in
  let val := u32 (val + 1) in
  memcpy block (AES_BLOCK_SIZE - 4) (WPA_PUT_BE32 val).

(** Both arguments are 16-byte blocks ([src] may be the start of more). *)
Definition xor_block (dst src : bytes) : bytes := xor_bytes dst (take AES_BLOCK_SIZE src).

Definition shift_right_block (v : bytes) : bytes :=
  let val := WPA_GET_BE32 (drop 12 v) in
  let val := Z.shiftr val 1 in
  let val := if Z.land (get v 11) 0x01 =? 0 then val else Z.lor val 0x80000000 in
  let v := memcpy v 12 (WPA_PUT_BE32 val) in
  let val := WPA_GET_BE32 (drop 8 v) in
  let val := Z.shiftr val 1 in
  let val := if Z.land (get v 7) 0x01 =? 0 then val else Z.lor val 0x80000000 in
  let v := memcpy v 8 (WPA_PUT_BE32 val) in
  let val := WPA_GET_BE32 (drop 4 v) in
  let val := Z.shiftr val 1 in
  let val := if Z.land (get v 3) 0x01 =? 0 then val else Z.lor val 0x80000000 in
  let v := memcpy v 4 (WPA_PUT_BE32 val) in
  let val := WPA_GET_BE32 v in
  let val := Z.shiftr val 1 in
  memcpy v 0 (WPA_PUT_BE32 val).

(** One pass of the inner loop on [(z, v)]. *)
Definition gf_step (x : bytes) (i j : Z) (zv : bytes * bytes) : bytes * bytes :=
  let '(z, v) := zv in
  let z := if Z.land (get x (Z.to_nat i)) (BIT (7 - j)) =? 0 then z else xor_block z v in
  let v :=
    if Z.land (get v 15) 0x01 =? 0 then shift_right_block v else
    let v := shift_right_block v in
    <[0%nat := Z.lxor (get v 0) 0xe1]> v in
  (z, v).

Definition gf_mult (x y : bytes) : bytes :=
  let z := replicate 16 0 in
  let v := y in
  (for_up 0 16 (fun i => for_up 0 8 (fun j => gf_step x i j)) (z, v)).1.

Definition ghash_start : bytes := replicate 16 0.

(** [m] full blocks are left to absorb; [dot] is the multiplication by [h]. *)
Fixpoint ghash_from (dot : bytes -> bytes) (m : nat) (xpos y : bytes) : bytes :=
  match m with
  | O =>
    if (0 <? length xpos)%nat then
      let tmp := xpos ++ replicate (16 - length xpos) 0 in
      dot (xor_block y tmp)
    else y
  | S m => ghash_from dot m (drop 16 xpos) (dot (xor_block y xpos))
  end.
Definition ghash (h x y : bytes) : bytes :=
  ghash_from (fun y => gf_mult y h) (length x / 16) x y.

Section gcm.
Context `{A : Aes}.

Fixpoint gctr_from (n : nat) (aes : aes_ctx) (cb xpos : bytes) : bytes :=
  match n with
  | O =>
    if (length xpos =? 0)%nat then [] else
    let tmp := aes_encrypt aes cb in
    xor_bytes xpos (take (length xpos) tmp)
  | S n =>
    let ypos := aes_encrypt aes cb in
    xor_block ypos xpos ++ gctr_from n aes (inc32 cb) (drop AES_BLOCK_SIZE xpos)
  end.
Definition aes_gctr (aes : aes_ctx) (icb x : bytes) : bytes :=
  if (length x =? 0)%nat then [] else
  gctr_from (length x / 16) aes (take AES_BLOCK_SIZE icb) x.

Definition aes_gcm_init_hash_subkey (key : bytes) (key_len : Z) : option (aes_ctx * bytes) :=
  match aes_encrypt_init key key_len with
  | None => None
  | Some aes => Some (aes, aes_encrypt aes (replicate AES_BLOCK_SIZE 0))
  end.

Definition aes_gcm_prepare_j0 (iv H : bytes) : bytes :=
  if (length iv =? 12)%nat then
    let J0 := iv ++ replicate (AES_BLOCK_SIZE - length iv) 0 in
    <[(AES_BLOCK_SIZE - 1)%nat := 0x01]> J0
  else
    let J0 := ghash_start in
    let J0 := ghash H iv J0 in
    let len_buf := WPA_PUT_BE64 0 ++ WPA_PUT_BE64 (Z.of_nat (length iv) * 8) in
    ghash H len_buf J0.

Definition aes_gcm_gctr (aes : aes_ctx) (J0 inp : bytes) : bytes :=
  if (length inp =? 0)%nat then [] else
  let J0inc := inc32 (take AES_BLOCK_SIZE J0) in
  aes_gctr aes J0inc inp.

Definition aes_gcm_ghash (H aad crypt : bytes) : bytes :=
  let S := ghash_start in
  let S := ghash H aad S in
  let S := ghash H crypt S in
  let len_buf := WPA_PUT_BE64 (Z.of_nat (length aad) * 8) ++
                 WPA_PUT_BE64 (Z.of_nat (length crypt) * 8) in
  ghash H len_buf S.

(** Returns [(ret, crypt, tag)], empty buffers when nothing is written. *)
Definition aes_gcm_ae (key : bytes) (key_len : Z) (iv plain aad : bytes)
    : Z * bytes * bytes :=
  match aes_gcm_init_hash_subkey key key_len with
  | None => (-1, [], [])
  | Some (aes, H) =>
    let J0 := aes_gcm_prepare_j0 iv H in
    let crypt := aes_gcm_gctr aes J0 plain in
    let S := aes_gcm_ghash H aad crypt in
    let tag := aes_gctr aes J0 S in
    (0, crypt, tag)
  end.

(** Returns [(ret, plain)]. *)
Definition aes_gcm_ad (key : bytes) (key_len : Z) (iv crypt aad tag : bytes) : Z * bytes :=
  match aes_gcm_init_hash_subkey key key_len with
  | None => (-1, [])
  | Some (aes, H) =>
    let J0 := aes_gcm_prepare_j0 iv H in
    let plain := aes_gcm_gctr aes J0 crypt in
    let S := aes_gcm_ghash H aad crypt in
    let T := aes_gctr aes J0 S in
    if bool_decide (take 16 tag = T) then (0, plain) else (-1, plain)
  end.

(** Returns [(ret, tag)]. *)
Definition aes_gmac (key : bytes) (key_len : Z) (iv aad : bytes) : Z * bytes :=
  let '(ret, _, tag) := aes_gcm_ae key key_len iv [] aad in (ret, tag).
End gcm.

(** ** Multiplication in GF(2^128)

    SP 800-38D reads a block as the polynomial whose coefficient of [x^k] is
    the [k]-th bit from the left: bit [127 - k] of the big-endian number. *)

(** Multiplication by [x], modulo [x^128 + x^7 + x^2 + x + 1]. *)
Definition gf_mulx_right (v : Z) : Z :=
  if Z.testbit v 0 then Z.lxor (Z.shiftr v 1) (Z.shiftl 0xe1 120) else Z.shiftr v 1.

(** The product as the sum of the [y * x^k] with [k] a term of [x]; the first
    [n] terms of it. *)
Definition gf_partial (x y : Z) (n : nat) : Z :=
  foldr (fun k acc => Z.lxor (if Z.testbit x (127 - Z.of_nat k)
                              then Nat.iter k gf_mulx_right y else 0) acc) 0 (seq 0 n).
Definition gf_product (x y : Z) : Z := gf_partial x y 128.

Lemma testbit_be_decode l i :
  wf_bytes l -> 0 <= i < 8 * Z.of_nat (length l) ->
  Z.testbit (be_decode l) i =
  Z.testbit (get l (length l - 1 - Z.to_nat (i / 8))) (i mod 8).
Proof.
  revert i. induction l as [|b l IH] using rev_ind; intros i Hl Hi; [simpl in Hi; lia|].
  apply wf_bytes_app in Hl as [Hl Hb]. apply Forall_cons in Hb as [Hb _].
  rewrite length_app in Hi |- *. cbn [length] in Hi |- *.
  rewrite be_decode_snoc. change 256 with (2 ^ 8). rewrite <- lor_last by done.
  rewrite <- Z.shiftl_mul_pow2, Z.lor_spec by lia. unfold get.
  destruct (Z.lt_ge_cases i 8).
  - rewrite Z.shiftl_spec_low by lia. cbn [orb].
    rewrite Z.div_small, Z.mod_small by lia.
    rewrite app_nth2 by lia. replace (_ - _)%nat with 0%nat by lia. done.
  - rewrite Z.shiftl_spec_high, (testbit_byte b), orb_false_r by (done || lia).
    rewrite IH by (done || lia). unfold get.
    replace ((i - 8) / 8) with (i / 8 - 1) by zdiv.
    replace ((i - 8) mod 8) with (i mod 8) by zdiv.
    assert (1 <= i / 8 < Z.of_nat (length l) + 1) by zdiv.
    rewrite app_nth1 by lia. do 2 f_equal. lia.
Qed.

Lemma be_decode_xor a b :
  length a = length b -> wf_bytes a -> wf_bytes b ->
  be_decode (xor_bytes a b) = Z.lxor (be_decode a) (be_decode b).
Proof.
  revert b. induction a as [|x a IH] using rev_ind; intros b Hl Ha Hb.
  { destruct b; [done|]. simpl in Hl. lia. }
  destruct b as [|y b _] using rev_ind; [rewrite length_app in Hl; simpl in Hl; lia|].
  rewrite !length_app in Hl. simpl in Hl.
  apply wf_bytes_app in Ha as [Ha Hx]. apply Forall_cons in Hx as [Hx _].
  apply wf_bytes_app in Hb as [Hb Hy]. apply Forall_cons in Hy as [Hy _].
  rewrite xor_bytes_app by lia. cbn [xor_bytes zip_with].
  rewrite !be_decode_snoc, IH by (done || lia). change 256 with (2 ^ 8).
  rewrite <- !lor_last, <- !Z.shiftl_mul_pow2 by (auto with wlan || lia).
  apply Z.bits_inj'. intros i Hi.
  rewrite !Z.lxor_spec, !Z.lor_spec, !Z.lxor_spec.
  destruct (Z.lt_ge_cases i 8).
  - by rewrite !Z.shiftl_spec_low by lia.
  - rewrite (testbit_byte x i), (testbit_byte y i) by (done || lia).
    rewrite !Z.shiftl_spec_high, Z.lxor_spec by lia. by rewrite !orb_false_r.
Qed.

(** ** One step of the multiplication *)

Lemma put_word val :
  is_u32 val -> exists p0 p1 p2 p3, WPA_PUT_BE32 val = [p0; p1; p2; p3] /\
    wf_bytes [p0; p1; p2; p3] /\ be_decode [p0; p1; p2; p3] = val.
Proof.
  intros Hv. pose proof (be_decode_encode 4 val) as Hd.
  pose proof (wf_be_encode 4 val) as Hw. rewrite <- WPA_PUT_BE32_encode in Hd, Hw.
  do 4 eexists. split; [reflexivity|]. split; [exact Hw|].
  etrans; [exact Hd|]. apply Z.mod_small. exact Hv.
Qed.

(** A word shifted right with the low bit of the byte before it on top. *)
Lemma half_word a w :
  is_byte a -> is_u32 w ->
  (if Z.land a 0x01 =? 0 then Z.shiftr w 1 else Z.lor (Z.shiftr w 1) 0x80000000) =
  (a mod 2) * 2 ^ 31 + w / 2.
Proof.
  intros Ha Hw. unfold is_byte, is_u32 in *.
  change (Z.land a 0x01) with (Z.land a (Z.ones 1)).
  rewrite Z.land_ones, Z.shiftr_div_pow2 by lia.
  change (2 ^ 1) with 2. destruct (Z.eqb_spec (a mod 2) 0) as [E|]; [rewrite E; lia|].
  assert (a mod 2 = 1) as -> by zdiv. rewrite Z.lor_comm, (lor_add 31).
  - lia.
  - lia.
  - done.
  - zdiv.
Qed.

Lemma be_decode_word a b c d :
  wf_bytes [a; b; c; d] ->
  is_u32 (be_decode [a; b; c; d]) /\
  exists h l, be_decode [a; b; c; d] = 2 * h + l /\ 0 <= l <= 1 /\ d mod 2 = l /\
    be_decode [a; b; c; d] / 2 = h /\ 0 <= h < 2 ^ 31.
Proof.
  intros Hw. pose proof (be_decode_range _ Hw) as Hr. unfold wf_bytes in Hw.
  rewrite !Forall_cons in Hw. destruct Hw as (_ & _ & _ & Hd & _).
  simpl length in Hr. change (256 ^ Z.of_nat 4) with 4294967296 in Hr.
  split; [exact Hr|]. change [a; b; c; d] with ([a; b; c] ++ [d]) in *.
  rewrite be_decode_snoc in *. unfold is_byte in Hd.
  remember (be_decode [a; b; c]) as X.
  exists ((X * 256 + d) / 2), (d mod 2). split_and!; zdiv.
Qed.

Lemma word_split a b c d l :
  wf_bytes [a; b; c; d] -> WPA_GET_BE32 (a :: b :: c :: d :: l) = be_decode [a; b; c; d].
Proof.
  intros Hw. unfold wf_bytes in Hw. rewrite !Forall_cons in Hw.
  apply WPA_GET_BE32_decode; tauto.
Qed.

Lemma be_decode_words a b c d :
  length b = 4%nat -> length c = 4%nat -> length d = 4%nat ->
  be_decode (a ++ b ++ c ++ d) =
  be_decode a * 2 ^ 96 + be_decode b * 2 ^ 64 + be_decode c * 2 ^ 32 + be_decode d.
Proof.
  intros Hb Hc Hd. rewrite !be_decode_app, !length_app, Hb, Hc, Hd.
  change (256 ^ Z.of_nat (4 + (4 + 4))) with (2 ^ 96).
  change (256 ^ Z.of_nat (4 + 4)) with (2 ^ 64).
  change (256 ^ Z.of_nat 4) with (2 ^ 32). lia.
Qed.

Lemma shift_right_words a0 a1 a2 a3 b0 b1 b2 b3 c0 c1 c2 c3 d0 d1 d2 d3 :
  let A := [a0; a1; a2; a3] in let B := [b0; b1; b2; b3] in
  let C := [c0; c1; c2; c3] in let D := [d0; d1; d2; d3] in
  wf_bytes A -> wf_bytes B -> wf_bytes C -> wf_bytes D ->
  exists A' B' C' D', shift_right_block (A ++ B ++ C ++ D) = A' ++ B' ++ C' ++ D' /\
    Forall (fun l => length l = 4%nat /\ wf_bytes l) [A'; B'; C'; D'] /\
    be_decode A' = be_decode A / 2 /\
    be_decode B' = (a3 mod 2) * 2 ^ 31 + be_decode B / 2 /\
    be_decode C' = (b3 mod 2) * 2 ^ 31 + be_decode C / 2 /\
    be_decode D' = (c3 mod 2) * 2 ^ 31 + be_decode D / 2.
Proof.
  intros A B C D HA HB HC HD. subst A B C D.
  destruct (be_decode_word _ _ _ _ HA) as (HuA & ? & la & _ & Hla & Ela & HhA & HAr).
  destruct (be_decode_word _ _ _ _ HB) as (HuB & ? & lb & _ & Hlb & Elb & HhB & HBr).
  destruct (be_decode_word _ _ _ _ HC) as (HuC & ? & lc & _ & Hlc & Elc & HhC & HCr).
  destruct (be_decode_word _ _ _ _ HD) as (HuD & ? & ld & _ & Hld & Eld & HhD & HDr).
  assert (Hb : is_byte a3 /\ is_byte b3 /\ is_byte c3).
  { unfold wf_bytes in *. rewrite !Forall_cons in HA, HB, HC. tauto. }
  destruct Hb as (Ha3 & Hb3 & Hc3).
  destruct (put_word ((c3 mod 2) * 2 ^ 31 + be_decode [d0; d1; d2; d3] / 2)) as (p0 & p1 & p2 & p3 & Ep & Hp & Hdp).
  { unfold is_u32. rewrite Elc, HhD. lia. }
  destruct (put_word ((b3 mod 2) * 2 ^ 31 + be_decode [c0; c1; c2; c3] / 2)) as (q0 & q1 & q2 & q3 & Eq & Hq & Hdq).
  { unfold is_u32. rewrite Elb, HhC. lia. }
  destruct (put_word ((a3 mod 2) * 2 ^ 31 + be_decode [b0; b1; b2; b3] / 2)) as (r0 & r1 & r2 & r3 & Er & Hr & Hdr).
  { unfold is_u32. rewrite Ela, HhB. lia. }
  destruct (put_word (be_decode [a0; a1; a2; a3] / 2)) as (s0 & s1 & s2 & s3 & Es & Hs & Hds).
  { unfold is_u32. rewrite HhA. lia. }
  exists [s0; s1; s2; s3], [r0; r1; r2; r3], [q0; q1; q2; q3], [p0; p1; p2; p3].
  split_and!; [|by rewrite ?Forall_cons, ?Forall_nil|done..].
  unfold shift_right_block, memcpy. cbn [app drop get nth].
  rewrite (word_split d0), (half_word c3), Ep by done. cbn [take drop app length Nat.add get nth].
  rewrite (word_split c0), (half_word b3), Eq by done. cbn [take drop app length Nat.add get nth].
  rewrite (word_split b0), (half_word a3), Er by done. cbn [take drop app length Nat.add get nth].
  rewrite (word_split a0), Z.shiftr_div_pow2 by (done || lia). change (2 ^ 1) with 2.
  rewrite Es. done.
Qed.

Ltac four_words v Hl :=
  do 16 (destruct v as [|? v]; [discriminate Hl|]); destruct v; [|discriminate Hl].

Lemma shift_right_block_spec v :
  is_block v ->
  is_block (shift_right_block v) /\
  be_decode (shift_right_block v) = Z.shiftr (be_decode v) 1 /\
  (Z.land (get v 15) 0x01 =? 0) = negb (Z.testbit (be_decode v) 0).
Proof.
  intros [Hl Hw]. unfold AES_BLOCK_SIZE in Hl. four_words v Hl.
  rename z into a0, z0 into a1, z1 into a2, z2 into a3, z3 into b0, z4 into b1, z5 into b2,
    z6 into b3, z7 into c0, z8 into c1, z9 into c2, z10 into c3, z11 into d0, z12 into d1,
    z13 into d2, z14 into d3.
  change [a0; a1; a2; a3; b0; b1; b2; b3; c0; c1; c2; c3; d0; d1; d2; d3] with
    ([a0; a1; a2; a3] ++ [b0; b1; b2; b3] ++ [c0; c1; c2; c3] ++ [d0; d1; d2; d3]) in *.
  rewrite !wf_bytes_app in Hw. destruct Hw as (HA & HB & HC & HD).
  destruct (shift_right_words a0 a1 a2 a3 b0 b1 b2 b3 c0 c1 c2 c3 d0 d1 d2 d3 HA HB HC HD)
    as (A' & B' & C' & D' & -> & HF & EA & EB & EC & ED).
  rewrite !Forall_cons in HF. destruct HF as ((? & ?) & (? & ?) & (? & ?) & (? & ?) & _).
  destruct (be_decode_word _ _ _ _ HA) as (_ & hA & lA & EVA & HlA & EA3 & EhA & _).
  destruct (be_decode_word _ _ _ _ HB) as (_ & hB & lB & EVB & HlB & EB3 & EhB & _).
  destruct (be_decode_word _ _ _ _ HC) as (_ & hC & lC & EVC & HlC & EC3 & EhC & _).
  destruct (be_decode_word _ _ _ _ HD) as (_ & hD & lD & EVD & HlD & ED3 & EhD & _).
  split_and!.
  - split; [rewrite !length_app; unfold AES_BLOCK_SIZE; lia|]. by rewrite !wf_bytes_app.
  - rewrite !be_decode_words by done. rewrite EA, EB, EC, ED, EhA, EhB, EhC, EhD, EA3, EB3, EC3.
    rewrite EVA, EVB, EVC, EVD, Z.shiftr_div_pow2 by lia.
    apply (Z.div_unique _ _ _ lD); [left; lia|]. lia.
  - change (get _ 15) with d3. change (Z.land d3 0x01) with (Z.land d3 (Z.ones 1)).
    rewrite Z.land_ones by lia. change (2 ^ 1) with 2. rewrite ED3.
    rewrite Z.bit0_odd, be_decode_words, EVD by done.
    assert (HE : Z.odd (2 * hD + lD) = Z.odd lD) by (rewrite Z.odd_add, Z.odd_mul; done).
    rewrite Z.odd_add, HE, Z.odd_add, (Z.odd_mul _ (2 ^ 32)), Z.odd_add.
    rewrite !Z.odd_mul. change (Z.odd (2 ^ 96)) with false.
    change (Z.odd (2 ^ 64)) with false. change (Z.odd (2 ^ 32)) with false.
    rewrite !andb_false_r. cbn [xorb].
    assert (lD = 0 \/ lD = 1) as [-> | ->] by lia; done.
Qed.

Lemma land_BIT x n : 0 <= n -> (Z.land x (BIT n) =? 0) = negb (Z.testbit x n).
Proof.
  intros Hn. unfold BIT. rewrite Z.shiftl_mul_pow2, Z.mul_1_l by lia.
  destruct (Z.testbit x n) eqn:Ht; cbn [negb].
  - apply Z.eqb_neq. intros E. apply (f_equal (fun y => Z.testbit y n)) in E.
    rewrite Z.land_spec, Ht, Z.pow2_bits_true, Z.bits_0 in E by lia. done.
  - apply Z.eqb_eq, Z.bits_inj'. intros i Hi. rewrite Z.land_spec, Z.bits_0.
    destruct (Z.eq_dec i n) as [->|]; [by rewrite Ht|].
    rewrite Z.pow2_bits_false by lia. apply andb_false_r.
Qed.

Lemma is_block_xor_block z v :
  is_block z -> is_block v ->
  is_block (xor_block z v) /\ be_decode (xor_block z v) = Z.lxor (be_decode z) (be_decode v).
Proof.
  intros [Hz Hzw] [Hv Hvw]. unfold xor_block. rewrite take_ge by lia. split.
  - split; [rewrite length_xor_bytes; lia|by apply wf_bytes_xor].
  - apply be_decode_xor; [by rewrite Hz|done..].
Qed.

Lemma reduce_block v :
  is_block v ->
  let v' := <[0%nat := Z.lxor (get v 0) 0xe1]> v in
  is_block v' /\ be_decode v' = Z.lxor (be_decode v) (Z.shiftl 0xe1 120).
Proof.
  intros Hv. cbv zeta. assert (Hr : is_block (0xe1 :: replicate 15 0)).
  { split; [done|]. by constructor; [|apply (wf_bytes_replicate 15)]. }
  assert (E : <[0%nat := Z.lxor (get v 0) 0xe1]> v = xor_block v (0xe1 :: replicate 15 0)).
  { destruct Hv as [Hl _]. destruct v as [|b v]; [done|]. injection Hl as Hl.
    unfold xor_block. rewrite take_ge by done. cbn [insert list_insert get nth xor_bytes zip_with].
    f_equal. symmetry. apply (xor_bytes_zero_r v 15). lia. }
  rewrite E. by apply is_block_xor_block.
Qed.

Lemma gf_step_spec x k z v :
  is_block x -> is_block z -> is_block v -> (k < 128)%nat ->
  let '(z', v') := gf_step x (Z.of_nat (k / 8)) (Z.of_nat (k mod 8)) (z, v) in
  is_block z' /\ is_block v' /\ be_decode v' = gf_mulx_right (be_decode v) /\
  be_decode z' = Z.lxor (be_decode z)
    (if Z.testbit (be_decode x) (127 - Z.of_nat k) then be_decode v else 0).
Proof.
  intros Hx Hz Hv Hk. unfold gf_step.
  assert (Hkd : Z.of_nat (k / 8) = Z.of_nat k / 8) by (rewrite Nat2Z.inj_div; done).
  assert (Hkm : Z.of_nat (k mod 8) = Z.of_nat k mod 8) by (rewrite Nat2Z.inj_mod; done).
  destruct Hx as [Hxl Hxw]. unfold AES_BLOCK_SIZE in Hxl.
  rewrite testbit_be_decode, Hxl by (done || lia).
  rewrite land_BIT by (rewrite Hkm; zdiv).
  replace (16 - 1 - Z.to_nat ((127 - Z.of_nat k) / 8))%nat with (Z.to_nat (Z.of_nat (k / 8)))
    by (rewrite Hkd; zdiv).
  replace ((127 - Z.of_nat k) mod 8) with (7 - Z.of_nat (k mod 8)) by (rewrite Hkm; zdiv).
  destruct (is_block_xor_block z v Hz Hv) as [Hzb Hzd].
  destruct (shift_right_block_spec v Hv) as (Hsb & Hsd & Hs0).
  destruct (reduce_block _ Hsb) as [Hrb Hrd].
  rewrite Hs0. unfold gf_mulx_right.
  destruct (Z.testbit (get x _) _); cbn [negb]; destruct (Z.testbit (be_decode v) 0); cbn [negb];
    split_and!; rewrite ?Z.lxor_0_r, ?Hrd, ?Hsd; first [assumption|reflexivity].
Qed.

Lemma gf_partial_S x y n :
  gf_partial x y (S n) = Z.lxor (gf_partial x y n)
    (if Z.testbit x (127 - Z.of_nat n) then Nat.iter n gf_mulx_right y else 0).
Proof.
  unfold gf_partial. rewrite seq_S, foldr_app. cbn [foldr Nat.add].
  rewrite Z.lxor_0_r. generalize (seq 0 n). intros l.
  induction l as [|k l IH]; cbn [foldr]; [by rewrite Z.lxor_0_l|].
  by rewrite IH, Z.lxor_assoc.
Qed.

Definition gf_inv (x y : bytes) (n : nat) (zv : bytes * bytes) : Prop :=
  is_block zv.1 /\ is_block zv.2 /\
  be_decode zv.1 = gf_partial (be_decode x) (be_decode y) n /\
  be_decode zv.2 = Nat.iter n gf_mulx_right (be_decode y).

Lemma gf_inv_step x y i j zv :
  is_block x -> (i < 16)%nat -> (j < 8)%nat -> gf_inv x y (8 * i + j) zv ->
  gf_inv x y (8 * i + S j) (gf_step x (Z.of_nat i) (Z.of_nat j) zv).
Proof.
  intros Hx Hi Hj (Hz & Hv & Ez & Ev). destruct zv as [z v]. cbn [fst snd] in *.
  pose proof (gf_step_spec x (8 * i + j) z v Hx Hz Hv ltac:(lia)) as H.
  replace ((8 * i + j) / 8)%nat with i in H
    by (rewrite Nat.mul_comm, Nat.div_add_l, Nat.div_small; lia).
  replace ((8 * i + j) mod 8)%nat with j in H
    by (rewrite Nat.add_comm, Nat.mul_comm, Nat.Div0.mod_add, Nat.mod_small; lia).
  destruct (gf_step _ _ _ _) as [z' v']. destruct H as (Hz' & Hv' & Ev' & Ez').
  rewrite Nat.add_succ_r. split_and!; [done..| |].
  - cbn [fst]. by rewrite gf_partial_S, Ez', Ez, Ev.
  - cbn [snd]. by rewrite Ev', Ev.
Qed.

(** The shared form of the property below. *)
Lemma gf_mult_product x y :
  is_block x -> is_block y ->
  is_block (gf_mult x y) /\ be_decode (gf_mult x y) = gf_product (be_decode x) (be_decode y).
Proof.
  intros Hx Hy. unfold gf_mult.
  assert (H : gf_inv x y (8 * 16) (for_up 0 16 (fun i => for_up 0 8 (fun j => gf_step x i j))
                                     (replicate 16 0, y))).
  { refine (for_up_ind (fun i => gf_inv x y (8 * i)%nat) 0 16 _ _ _ _).
    - intros i zv Hi Hinv. rewrite Z.add_0_l.
      replace (8 * S i)%nat with (8 * i + 8)%nat by lia.
      apply (for_up_ind (fun j => gf_inv x y (8 * i + j))); [|by rewrite Nat.add_0_r].
      intros j s Hj. rewrite Z.add_0_l. by apply gf_inv_step.
    - split_and!; [split; [done|by apply (wf_bytes_replicate 16)]|done..]. }
  destruct H as (Hz & _ & Ez & _). split; [exact Hz|].
  change (8 * 16)%nat with 128%nat in Ez. exact Ez.
Qed.

(** C34: [gf_mult] is the multiplication of GF(2^128) with GCM's bit order: its
    byte-wise shifts, carries and reductions compute the polynomial product
    modulo [x^128 + x^7 + x^2 + x + 1] of the two blocks. *)
Theorem gf_mult_spec x y :
  is_block x -> is_block y ->
  gf_mult x y = be_encode 16 (gf_product (be_decode x) (be_decode y)).
Proof.
  intros Hx Hy. destruct (gf_mult_product x y Hx Hy) as [ [Hl Hw] <-].
  unfold AES_BLOCK_SIZE in Hl. rewrite <- Hl at 1. by rewrite be_encode_decode.
Qed.

(** ** GHASH and GCTR *)

Lemma is_block_zero : is_block (replicate 16 0).
Proof. split; [done|by apply (wf_bytes_replicate 16)]. Qed.

Lemma is_block_take_min data :
  (16 <= length data)%nat -> wf_bytes data -> is_block (take AES_BLOCK_SIZE data).
Proof.
  intros Hl Hw. split; [|auto with wlan]. rewrite length_take. unfold AES_BLOCK_SIZE. lia.
Qed.

Lemma xor_block_take z data : xor_block z data = xor_block z (take AES_BLOCK_SIZE data).
Proof. unfold xor_block. by rewrite take_take. Qed.

Lemma div_blocks n m : (n / 16 = S m)%nat -> (16 <= n /\ (n - 16) / 16 = m)%nat.
Proof.
  intros H. pose proof (Nat.Div0.mul_div_le n 16).
  split; [lia|]. replace n with (1 * 16 + (n - 16))%nat in H by lia.
  rewrite Nat.div_add_l in H; lia.
Qed.

Lemma is_block_ghash_from dot m x y :
  (forall b, is_block b -> is_block (dot b)) ->
  is_block y -> wf_bytes x -> (length x / 16 = m)%nat -> is_block (ghash_from dot m x y).
Proof.
  intros Hd. revert x y. induction m as [|m IH]; intros x y Hy Hx Hm; cbn [ghash_from].
  - apply Nat.div_small_iff in Hm; [|done]. destruct (0 <? length x)%nat; [|done].
    apply Hd, is_block_xor_block; [done|]. split.
    + rewrite length_app, length_replicate. unfold AES_BLOCK_SIZE. lia.
    + apply wf_bytes_app. split; [done|by apply wf_bytes_replicate].
  - apply div_blocks in Hm as [Hl Hm]. apply IH; [|auto with wlan|by rewrite length_drop].
    rewrite xor_block_take. apply Hd, is_block_xor_block; [done|by apply is_block_take_min].
Qed.

Lemma is_block_ghash h x y :
  is_block h -> is_block y -> wf_bytes x -> is_block (ghash h x y).
Proof.
  intros Hh Hy Hx. apply is_block_ghash_from; [|done..].
  intros b Hb. by apply gf_mult_product.
Qed.

Lemma wf_put_be64 v : wf_bytes (WPA_PUT_BE64 v).
Proof. rewrite WPA_PUT_BE64_encode. apply wf_be_encode. Qed.

Lemma is_block_prepare_j0 iv H :
  is_block H -> wf_bytes iv -> is_block (aes_gcm_prepare_j0 iv H).
Proof.
  intros HH Hiv. unfold aes_gcm_prepare_j0. destruct (Nat.eqb_spec (length iv) 12) as [E|E].
  - split.
    + rewrite length_insert, length_app, length_replicate, E. done.
    + apply wf_bytes_insert; [done|]. apply wf_bytes_app. split; [done|].
      by apply wf_bytes_replicate.
  - apply is_block_ghash; [done| |].
    + apply is_block_ghash; [done|apply is_block_zero|done].
    + apply wf_bytes_app. split; apply wf_put_be64.
Qed.

Lemma is_block_gcm_ghash H aad crypt :
  is_block H -> wf_bytes aad -> wf_bytes crypt -> is_block (aes_gcm_ghash H aad crypt).
Proof.
  intros HH Ha Hc. unfold aes_gcm_ghash. apply is_block_ghash; [done| |].
  - apply is_block_ghash; [done| |done]. apply is_block_ghash; [done|apply is_block_zero|done].
  - apply wf_bytes_app. split; apply wf_put_be64.
Qed.

Lemma is_block_inc32 b : is_block b -> is_block (inc32 b).
Proof.
  intros [Hl Hw]. unfold inc32. rewrite WPA_PUT_BE32_encode. split.
  - rewrite length_memcpy; [done|]. rewrite length_be_encode, Hl. done.
  - apply wf_bytes_memcpy; [done|apply wf_be_encode].
Qed.

Section gctr.
Context `{A : Aes} (aes : aes_ctx).
Context (Henc : forall b, is_block b -> is_block (aes_encrypt aes b)).

Lemma gctr_from_involutive n cb x :
  is_block cb -> wf_bytes x -> (length x / 16 = n)%nat ->
  length (gctr_from n aes cb x) = length x /\ wf_bytes (gctr_from n aes cb x) /\
  gctr_from n aes cb (gctr_from n aes cb x) = x.
Proof.
  revert cb x. induction n as [|n IH]; intros cb x Hcb Hx Hn; cbn [gctr_from];
    destruct (Henc cb Hcb) as [Hel Hew]; unfold AES_BLOCK_SIZE in Hel.
  - apply Nat.div_small_iff in Hn; [|done].
    destruct (Nat.eqb_spec (length x) 0) as [E|E].
    { apply length_zero_iff_nil in E as ->. done. }
    assert (Hlx : length (xor_bytes x (take (length x) (aes_encrypt aes cb))) = length x)
      by (rewrite length_xor_bytes, length_take; lia).
    rewrite Hlx. split_and!; [done|auto with wlan|].
    rewrite (proj2 (Nat.eqb_neq _ _)) by done.
    rewrite xor_bytes_cancel_r; [done|]. rewrite length_take. lia.
  - apply div_blocks in Hn as [Hl Hn].
    pose proof (is_block_take_min x Hl Hx) as Ht.
    destruct (is_block_xor_block _ _ (Henc cb Hcb) Ht) as [ [Hxl Hxw] _].
    rewrite <- xor_block_take in Hxl, Hxw. unfold AES_BLOCK_SIZE in Hxl |- *.
    destruct (IH (inc32 cb) (drop 16 x)) as (Hr1 & Hr2 & Hr3);
      [by apply is_block_inc32|auto with wlan|by rewrite length_drop|].
    rewrite length_drop in Hr1.
    split_and!; [rewrite length_app; lia|by apply wf_bytes_app|].
    rewrite drop_app_length', Hr3 by done.
    etrans; [|apply (take_drop 16)]. f_equal.
    unfold xor_block, AES_BLOCK_SIZE in *. rewrite take_app_length' by done.
    rewrite xor_bytes_cancel; [done|].
    rewrite length_take. lia.
Qed.

Lemma aes_gctr_block icb s :
  is_block icb -> is_block s -> is_block (aes_gctr aes icb s).
Proof.
  intros Hi [Hl Hw]. unfold aes_gctr. unfold AES_BLOCK_SIZE in Hl. rewrite Hl. cbn [Nat.eqb].
  change (16 / 16)%nat with 1%nat.
  destruct Hi as [Hil Hiw]. rewrite take_ge by lia.
  destruct (gctr_from_involutive 1 icb s) as (H1 & H2 & _); [by split|done|by rewrite Hl|].
  split; [|done]. rewrite H1. done.
Qed.

Lemma aes_gcm_gctr_involutive J0 x :
  is_block J0 -> wf_bytes x ->
  length (aes_gcm_gctr aes J0 x) = length x /\ wf_bytes (aes_gcm_gctr aes J0 x) /\
  aes_gcm_gctr aes J0 (aes_gcm_gctr aes J0 x) = x.
Proof.
  intros HJ Hx. unfold aes_gcm_gctr, aes_gctr.
  destruct (Nat.eqb_spec (length x) 0) as [E|E].
  { apply length_zero_iff_nil in E as ->. done. }
  assert (Hb : is_block (inc32 (take AES_BLOCK_SIZE J0))).
  { destruct HJ. rewrite take_ge by lia. by apply is_block_inc32. }
  destruct Hb as [Hbl Hbw]. rewrite (take_ge (inc32 _)) by lia.
  destruct (gctr_from_involutive (length x / 16) (inc32 (take AES_BLOCK_SIZE J0)) x)
    as (H1 & H2 & H3); [by split|done..|].
  rewrite H1, (proj2 (Nat.eqb_neq _ _)) by done. done.
Qed.
End gctr.

(** C36: GCM round trip and authenticity.  What [aes_gcm_ae] produces has the
    length of the plaintext and a 16-byte tag; [aes_gcm_ad] decrypts it to the
    plaintext and returns 0 exactly when the first 16 bytes of the tag it is
    given are the produced tag; for every IV length, 12 bytes or not. *)
Theorem aes_gcm_roundtrip `{A : Aes} `{L : !AesLaws A}
    key key_len iv plain aad crypt tag tag' :
  wf_bytes key -> wf_bytes iv -> wf_bytes plain -> wf_bytes aad ->
  aes_gcm_ae key key_len iv plain aad = (0, crypt, tag) ->
  length crypt = length plain /\ length tag = 16%nat /\
  aes_gcm_ad key key_len iv crypt aad tag' =
  (if bool_decide (take 16 tag' = tag) then 0 else -1, plain).
Proof.
  intros Hk Hiv Hp Ha. unfold aes_gcm_ae, aes_gcm_ad, aes_gcm_init_hash_subkey.
  destruct (aes_encrypt_init key key_len) as [aes|] eqn:Hc; [|done].
  pose proof (fun b => aes_encrypt_block key key_len aes b Hk Hc) as He.
  pose proof (He _ is_block_zero) as HH. set (H := aes_encrypt _ _) in *.
  change (replicate AES_BLOCK_SIZE 0) with (replicate 16 0).
  fold H. pose proof (is_block_prepare_j0 iv H HH Hiv) as HJ.
  set (J0 := aes_gcm_prepare_j0 iv H) in *.
  destruct (aes_gcm_gctr_involutive aes He J0 plain HJ Hp) as (H1 & H2 & H3).
  intros [ [_ <-]%pair_eq <-]%pair_eq. split; [done|].
  pose proof (is_block_gcm_ghash H aad _ HH Ha H2) as HS.
  split; [by apply (aes_gctr_block aes He)|].
  rewrite H3. by case_bool_decide.
Qed.

(** GMAC is the GCM tag of an empty message: [aes_gmac] succeeds exactly when
    the key is accepted, and the tag it returns is the one [aes_gcm_ad] checks
    for that associated data and no ciphertext. *)
Theorem aes_gmac_spec `{A : Aes} `{L : !AesLaws A} key key_len iv aad tag tag' :
  wf_bytes key -> wf_bytes iv -> wf_bytes aad ->
  aes_gmac key key_len iv aad = (0, tag) ->
  aes_gcm_ad key key_len iv [] aad tag' =
  (if bool_decide (take 16 tag' = tag) then 0 else -1, []).
Proof.
  intros Hk Hiv Ha. unfold aes_gmac, aes_gcm_ae, aes_gcm_ad.
  destruct (aes_gcm_init_hash_subkey key key_len) as [ [aes H]|]; [|done].
  intros [_ <-]%pair_eq. change (aes_gcm_gctr aes _ []) with (@nil Z). by case_bool_decide.
Qed.

(** ** Test cases 4 and 5 of the GCM specification (McGrew and Viega) *)

Definition gcm_key : bytes := be_encode 16 0xfeffe9928665731c6d6a8f9467308308.
Definition gcm_plain : bytes := be_encode 60
  0xd9313225f88406e5a55909c5aff5269a86a7a9531534f7da2e4c303d8a318a721c3c0c95956809532fcf0e2449a6b525b16aedf5aa0de657ba637b39.
Definition gcm_aad : bytes := be_encode 20 0xfeedfacedeadbeeffeedfacedeadbeefabaddad2.
Definition gcm_iv12 : bytes := be_encode 12 0xcafebabefacedbaddecaf888.
Definition gcm_iv8 : bytes := be_encode 8 0xcafebabefacedbad.
Definition gcm_crypt : bytes := be_encode 60
  0x42831ec2217774244b7221b784d0d49ce3aa212f2c02a4e035c17e2329aca12e21d514b25466931c7d8f6a5aac84aa051ba30b396a0aac973d58e091.
Definition gcm_tag : bytes := be_encode 16 0x5bc94fbc3221a5db94fae95ae7121a47.
Definition gcm_crypt8 : bytes := be_encode 60
  0x61353b4c2806934a777ff51fa22a4755699b2a714fcdc6f83766e5f97b6c742373806900e49f24b22b097544d4896b424989b5e1ebac0f07c23f4598.
Definition gcm_tag8 : bytes := be_encode 16 0x3612d2e79e3b0785561be14aaca2fccb.

Example aes_gcm_case_5 :
  aes_gcm_ae (A := ZeroedAes) gcm_key 16 gcm_iv8 gcm_plain gcm_aad = (0, gcm_crypt8, gcm_tag8).
Proof. vm_compute. reflexivity. Qed.

Lemma aes_gcm_roundtrip_witness :
  length gcm_crypt = length gcm_plain /\ length gcm_tag = 16%nat /\
  aes_gcm_ad (A := ZeroedAes) gcm_key 16 gcm_iv12 gcm_crypt gcm_aad (gcm_tag8 ++ [1]) =
  (if bool_decide (take 16 (gcm_tag8 ++ [1]) = gcm_tag) then 0 else -1, gcm_plain).
Proof.
  apply (aes_gcm_roundtrip (A := ZeroedAes) gcm_key 16 gcm_iv12 gcm_plain gcm_aad).
  1-4: apply by_decision; vm_compute; reflexivity.
  vm_compute. reflexivity.
Defined.

Lemma aes_gmac_spec_witness :
  let tag := (aes_gmac (A := ZeroedAes) gcm_key 16 gcm_iv12 gcm_aad).2 in
  aes_gcm_ad (A := ZeroedAes) gcm_key 16 gcm_iv12 [] gcm_aad tag =
  (if bool_decide (take 16 tag = tag) then 0 else -1, []).
Proof.
  apply (aes_gmac_spec (A := ZeroedAes) gcm_key 16 gcm_iv12 gcm_aad).
  1-3: apply by_decision; vm_compute; reflexivity.
  vm_compute. reflexivity.
Defined.

(** The unit of the multiplication is the block 80 00 ... 00. *)
Lemma gf_mult_spec_witness :
  gf_mult (0x80 :: replicate 15 0) gcm_tag = be_encode 16 (gf_product (2 ^ 127) (be_decode gcm_tag))
  /\ gf_product (2 ^ 127) (be_decode gcm_tag) = be_decode gcm_tag.
Proof.
  split; [|vm_compute; reflexivity].
  apply (gf_mult_spec (0x80 :: replicate 15 0) gcm_tag);
    apply by_decision; vm_compute; reflexivity.
Defined.
