(* ===== verification/EapolState.v ===== *)
(** * The EAPOL authenticator: data

    [struct eapol_state_machine] of hostap's [eapol_auth/eapol_auth_sm_i.h],
    the EAP interface [struct eap_eapol_interface] of [eap_server/eap.h] that
    it shares with the EAP server, and the configuration of
    [eapol_auth/eapol_auth_sm.h].  Every field has the name it has in C.  The
    machine is allocated zeroed, so [PortTypes] and [PortState] have a value
    for the 0 that none of their enumerators is.  Left out are the fields no
    function of [eapol_auth_sm.c] uses: [last_recv_radius], [radius_class] and
    the two pointers [eapol] and [sta] passed to the callbacks. *)

From S2P Require Import Prelude.

(** ** Enumerations *)

Inductive PortTypes := PortTypes_0 | ForceUnauthorized | ForceAuthorized | Auto.
Inductive PortState := PortState_0 | Unauthorized | Authorized.
Inductive ControlledDirection := Both | In.

Inductive auth_pae :=
| AUTH_PAE_INITIALIZE | AUTH_PAE_DISCONNECTED | AUTH_PAE_CONNECTING
| AUTH_PAE_AUTHENTICATING | AUTH_PAE_AUTHENTICATED | AUTH_PAE_ABORTING
| AUTH_PAE_HELD | AUTH_PAE_FORCE_AUTH | AUTH_PAE_FORCE_UNAUTH | AUTH_PAE_RESTART.

Inductive be_auth :=
| BE_AUTH_REQUEST | BE_AUTH_RESPONSE | BE_AUTH_SUCCESS | BE_AUTH_FAIL
| BE_AUTH_TIMEOUT | BE_AUTH_IDLE | BE_AUTH_INITIALIZE | BE_AUTH_IGNORE.

Inductive reauth_timer := REAUTH_TIMER_INITIALIZE | REAUTH_TIMER_REAUTHENTICATE.
Inductive auth_key_tx := AUTH_KEY_TX_NO_KEY_TRANSMIT | AUTH_KEY_TX_KEY_TRANSMIT.
Inductive key_rx := KEY_RX_NO_KEY_RECEIVE | KEY_RX_KEY_RECEIVE.
Inductive ctrl_dir := CTRL_DIR_FORCE_BOTH | CTRL_DIR_IN_OR_BOTH.

#[export] Instance PortTypes_eq_dec : EqDecision PortTypes. Proof. solve_decision. Defined.
#[export] Instance PortState_eq_dec : EqDecision PortState. Proof. solve_decision. Defined.
#[export] Instance ControlledDirection_eq_dec : EqDecision ControlledDirection. Proof. solve_decision. Defined.
#[export] Instance auth_pae_eq_dec : EqDecision auth_pae. Proof. solve_decision. Defined.
#[export] Instance be_auth_eq_dec : EqDecision be_auth. Proof. solve_decision. Defined.
#[export] Instance reauth_timer_eq_dec : EqDecision reauth_timer. Proof. solve_decision. Defined.
#[export] Instance auth_key_tx_eq_dec : EqDecision auth_key_tx. Proof. solve_decision. Defined.
#[export] Instance key_rx_eq_dec : EqDecision key_rx. Proof. solve_decision. Defined.
#[export] Instance ctrl_dir_eq_dec : EqDecision ctrl_dir. Proof. solve_decision. Defined.

Definition AUTH_PAE_DEFAULT_quietPeriod : Z := 60.
Definition AUTH_PAE_DEFAULT_reAuthMax : Z := 2.
Definition BE_AUTH_DEFAULT_serverTimeout : Z := 30.

Definition EAPOL_SM_PREAUTH : Z := BIT 0.
Definition EAPOL_SM_WAIT_START : Z := BIT 1.
Definition EAPOL_SM_USES_WPA : Z := BIT 2.
Definition EAPOL_SM_FROM_PMKSA_CACHE : Z := BIT 3.

(** ** The EAP interface *)

Record eap_eapol_interface := mk_eap_if {
  eapResp : bool;
  eapRespData : option bytes;
  portEnabled : bool;
  retransWhile : Z;
  eapRestart : bool;
  eapSRTT : Z;
  eapRTTVAR : Z;
  eapReq : bool;
  eapNoReq : bool;
  eapSuccess : bool;
  eapFail : bool;
  eapTimeout : bool;
  eapReqData : option bytes;
  eapKeyData : option bytes;
  eapKeyDataLen : Z;
  eapSessionId : option bytes;
  eapSessionIdLen : Z;
  eapKeyAvailable : bool;
  aaaEapReq : bool;
  aaaEapNoReq : bool;
  aaaSuccess : bool;
  aaaFail : bool;
  aaaEapReqData : option bytes;
  aaaEapKeyData : option bytes;
  aaaEapKeyDataLen : Z;
  aaaEapKeyAvailable : bool;
  aaaMethodTimeout : Z;
  aaaEapResp : bool;
  aaaEapRespData : option bytes;
  aaaTimeout : bool }.

#[export] Instance eap_eapol_interface_eta : Settable _ :=
  fun r => mk_eap_if
    r.(eapResp) r.(eapRespData) r.(portEnabled) r.(retransWhile) r.(eapRestart) r.(eapSRTT)
    r.(eapRTTVAR) r.(eapReq) r.(eapNoReq) r.(eapSuccess) r.(eapFail) r.(eapTimeout)
    r.(eapReqData) r.(eapKeyData) r.(eapKeyDataLen) r.(eapSessionId) r.(eapSessionIdLen)
    r.(eapKeyAvailable) r.(aaaEapReq) r.(aaaEapNoReq) r.(aaaSuccess) r.(aaaFail)
    r.(aaaEapReqData) r.(aaaEapKeyData) r.(aaaEapKeyDataLen) r.(aaaEapKeyAvailable)
    r.(aaaMethodTimeout) r.(aaaEapResp) r.(aaaEapRespData) r.(aaaTimeout).

#[export] Instance set_eapResp : Setter eapResp. Proof. solve_setter. Defined.
#[export] Instance set_eapRespData : Setter eapRespData. Proof. solve_setter. Defined.
#[export] Instance set_portEnabled : Setter portEnabled. Proof. solve_setter. Defined.
#[export] Instance set_retransWhile : Setter retransWhile. Proof. solve_setter. Defined.
#[export] Instance set_eapRestart : Setter eapRestart. Proof. solve_setter. Defined.
#[export] Instance set_eapSRTT : Setter eapSRTT. Proof. solve_setter. Defined.
#[export] Instance set_eapRTTVAR : Setter eapRTTVAR. Proof. solve_setter. Defined.
#[export] Instance set_eapReq : Setter eapReq. Proof. solve_setter. Defined.
#[export] Instance set_eapNoReq : Setter eapNoReq. Proof. solve_setter. Defined.
#[export] Instance set_eapSuccess : Setter eapSuccess. Proof. solve_setter. Defined.
#[export] Instance set_eapFail : Setter eapFail. Proof. solve_setter. Defined.
#[export] Instance set_eapTimeout : Setter eapTimeout. Proof. solve_setter. Defined.
#[export] Instance set_eapReqData : Setter eapReqData. Proof. solve_setter. Defined.
#[export] Instance set_eapKeyData : Setter eapKeyData. Proof. solve_setter. Defined.
#[export] Instance set_eapKeyDataLen : Setter eapKeyDataLen. Proof. solve_setter. Defined.
#[export] Instance set_eapSessionId : Setter eapSessionId. Proof. solve_setter. Defined.
#[export] Instance set_eapSessionIdLen : Setter eapSessionIdLen. Proof. solve_setter. Defined.
#[export] Instance set_eapKeyAvailable : Setter eapKeyAvailable. Proof. solve_setter. Defined.
#[export] Instance set_aaaEapReq : Setter aaaEapReq. Proof. solve_setter. Defined.
#[export] Instance set_aaaEapNoReq : Setter aaaEapNoReq. Proof. solve_setter. Defined.
#[export] Instance set_aaaSuccess : Setter aaaSuccess. Proof. solve_setter. Defined.
#[export] Instance set_aaaFail : Setter aaaFail. Proof. solve_setter. Defined.
#[export] Instance set_aaaEapReqData : Setter aaaEapReqData. Proof. solve_setter. Defined.
#[export] Instance set_aaaEapKeyData : Setter aaaEapKeyData. Proof. solve_setter. Defined.
#[export] Instance set_aaaEapKeyDataLen : Setter aaaEapKeyDataLen. Proof. solve_setter. Defined.
#[export] Instance set_aaaEapKeyAvailable : Setter aaaEapKeyAvailable. Proof. solve_setter. Defined.
#[export] Instance set_aaaMethodTimeout : Setter aaaMethodTimeout. Proof. solve_setter. Defined.
#[export] Instance set_aaaEapResp : Setter aaaEapResp. Proof. solve_setter. Defined.
#[export] Instance set_aaaEapRespData : Setter aaaEapRespData. Proof. solve_setter. Defined.
#[export] Instance set_aaaTimeout : Setter aaaTimeout. Proof. solve_setter. Defined.

(** A zeroed interface, as [eap_server_sm_init] leaves it. *)
Definition zero_eap_if : eap_eapol_interface :=
  mk_eap_if false None false 0 false 0 0 false false false false false None None 0 None 0 false false
    false false false None None 0 false 0 false None false.

(** ** The state machine

    [eap_sm] is the EAP server's own state, which this code only passes on. *)

Section state.
Context {eap_sm : Type}.

Record eapol_state_machine := mk_sm {
  aWhile : Z;
  quietWhile : Z;
  reAuthWhen : Z;
  authAbort : bool;
  authFail : bool;
  authPortStatus : PortState;
  authStart : bool;
  authTimeout : bool;
  authSuccess : bool;
  eapolEap : bool;
  initialize : bool;
  keyDone : bool;
  keyRun : bool;
  keyTxEnabled : bool;
  portControl : PortTypes;
  portValid : bool;
  reAuthenticate : bool;
  auth_pae_state : auth_pae;
  eapolLogoff : bool;
  eapolStart : bool;
  portMode : PortTypes;
  reAuthCount : Z;
  quietPeriod : Z;
  reAuthMax : Z;
  authEntersConnecting : Z;
  authEapLogoffsWhileConnecting : Z;
  authEntersAuthenticating : Z;
  authAuthSuccessesWhileAuthenticating : Z;
  authAuthTimeoutsWhileAuthenticating : Z;
  authAuthFailWhileAuthenticating : Z;
  authAuthEapStartsWhileAuthenticating : Z;
  authAuthEapLogoffWhileAuthenticating : Z;
  authAuthReauthsWhileAuthenticated : Z;
  authAuthEapStartsWhileAuthenticated : Z;
  authAuthEapLogoffWhileAuthenticated : Z;
  be_auth_state : be_auth;
  serverTimeout : Z;
  backendResponses : Z;
  backendAccessChallenges : Z;
  backendOtherRequestsToSupplicant : Z;
  backendAuthSuccesses : Z;
  backendAuthFails : Z;
  reauth_timer_state : reauth_timer;
  reAuthPeriod : Z;
  reAuthEnabled : bool;
  auth_key_tx_state : auth_key_tx;
  key_rx_state : key_rx;
  rxKey : bool;
  ctrl_dir_state : ctrl_dir;
  adminControlledDirections : ControlledDirection;
  operControlledDirections : ControlledDirection;
  operEdge : bool;
  dot1xAuthEapolFramesRx : Z;
  dot1xAuthEapolFramesTx : Z;
  dot1xAuthEapolStartFramesRx : Z;
  dot1xAuthEapolLogoffFramesRx : Z;
  dot1xAuthEapolRespIdFramesRx : Z;
  dot1xAuthEapolRespFramesRx : Z;
  dot1xAuthEapolReqIdFramesTx : Z;
  dot1xAuthEapolReqFramesTx : Z;
  dot1xAuthInvalidEapolFramesRx : Z;
  dot1xAuthEapLengthErrorFramesRx : Z;
  dot1xAuthLastEapolFrameVersion : Z;
  addr : bytes;
  flags : Z;
  eap_if : eap_eapol_interface;
  radius_identifier : Z;
  last_eap_id : Z;
  identity : option bytes;
  identity_len : Z;
  eap_type_authsrv : Z;
  eap_type_supp : Z;
  radius_cui : option bytes;
  eap : option eap_sm;
  initializing : bool;
  changed : bool;
  remediation : Z;
  acct_multi_session_id : Z }.
End state.
Arguments eapol_state_machine : clear implicits.

#[export] Instance eapol_state_machine_eta {S} : Settable (eapol_state_machine S) :=
  fun r => mk_sm
    r.(aWhile) r.(quietWhile) r.(reAuthWhen) r.(authAbort) r.(authFail) r.(authPortStatus)
    r.(authStart) r.(authTimeout) r.(authSuccess) r.(eapolEap) r.(initialize) r.(keyDone)
    r.(keyRun) r.(keyTxEnabled) r.(portControl) r.(portValid) r.(reAuthenticate)
    r.(auth_pae_state) r.(eapolLogoff) r.(eapolStart) r.(portMode) r.(reAuthCount)
    r.(quietPeriod) r.(reAuthMax) r.(authEntersConnecting) r.(authEapLogoffsWhileConnecting)
    r.(authEntersAuthenticating) r.(authAuthSuccessesWhileAuthenticating)
    r.(authAuthTimeoutsWhileAuthenticating) r.(authAuthFailWhileAuthenticating)
    r.(authAuthEapStartsWhileAuthenticating) r.(authAuthEapLogoffWhileAuthenticating)
    r.(authAuthReauthsWhileAuthenticated) r.(authAuthEapStartsWhileAuthenticated)
    r.(authAuthEapLogoffWhileAuthenticated) r.(be_auth_state) r.(serverTimeout)
    r.(backendResponses) r.(backendAccessChallenges) r.(backendOtherRequestsToSupplicant)
    r.(backendAuthSuccesses) r.(backendAuthFails) r.(reauth_timer_state) r.(reAuthPeriod)
    r.(reAuthEnabled) r.(auth_key_tx_state) r.(key_rx_state) r.(rxKey) r.(ctrl_dir_state)
    r.(adminControlledDirections) r.(operControlledDirections) r.(operEdge)
    r.(dot1xAuthEapolFramesRx) r.(dot1xAuthEapolFramesTx) r.(dot1xAuthEapolStartFramesRx)
    r.(dot1xAuthEapolLogoffFramesRx) r.(dot1xAuthEapolRespIdFramesRx)
    r.(dot1xAuthEapolRespFramesRx) r.(dot1xAuthEapolReqIdFramesTx)
    r.(dot1xAuthEapolReqFramesTx) r.(dot1xAuthInvalidEapolFramesRx)
    r.(dot1xAuthEapLengthErrorFramesRx) r.(dot1xAuthLastEapolFrameVersion) r.(addr) r.(flags)
    r.(eap_if) r.(radius_identifier) r.(last_eap_id) r.(identity) r.(identity_len)
    r.(eap_type_authsrv) r.(eap_type_supp) r.(radius_cui) r.(eap) r.(initializing) r.(changed)
    r.(remediation) r.(acct_multi_session_id).

#[export] Instance set_aWhile {S} : Setter (R := eapol_state_machine S) aWhile. Proof. solve_setter. Defined.
#[export] Instance set_quietWhile {S} : Setter (R := eapol_state_machine S) quietWhile. Proof. solve_setter. Defined.
#[export] Instance set_reAuthWhen {S} : Setter (R := eapol_state_machine S) reAuthWhen. Proof. solve_setter. Defined.
#[export] Instance set_authAbort {S} : Setter (R := eapol_state_machine S) authAbort. Proof. solve_setter. Defined.
#[export] Instance set_authFail {S} : Setter (R := eapol_state_machine S) authFail. Proof. solve_setter. Defined.
#[export] Instance set_authPortStatus {S} : Setter (R := eapol_state_machine S) authPortStatus. Proof. solve_setter. Defined.
#[export] Instance set_authStart {S} : Setter (R := eapol_state_machine S) authStart. Proof. solve_setter. Defined.
#[export] Instance set_authTimeout {S} : Setter (R := eapol_state_machine S) authTimeout. Proof. solve_setter. Defined.
#[export] Instance set_authSuccess {S} : Setter (R := eapol_state_machine S) authSuccess. Proof. solve_setter. Defined.
#[export] Instance set_eapolEap {S} : Setter (R := eapol_state_machine S) eapolEap. Proof. solve_setter. Defined.
#[export] Instance set_initialize {S} : Setter (R := eapol_state_machine S) initialize. Proof. solve_setter. Defined.
#[export] Instance set_keyDone {S} : Setter (R := eapol_state_machine S) keyDone. Proof. solve_setter. Defined.
#[export] Instance set_keyRun {S} : Setter (R := eapol_state_machine S) keyRun. Proof. solve_setter. Defined.
#[export] Instance set_keyTxEnabled {S} : Setter (R := eapol_state_machine S) keyTxEnabled. Proof. solve_setter. Defined.
#[export] Instance set_portControl {S} : Setter (R := eapol_state_machine S) portControl. Proof. solve_setter. Defined.
#[export] Instance set_portValid {S} : Setter (R := eapol_state_machine S) portValid. Proof. solve_setter. Defined.
#[export] Instance set_reAuthenticate {S} : Setter (R := eapol_state_machine S) reAuthenticate. Proof. solve_setter. Defined.
#[export] Instance set_auth_pae_state {S} : Setter (R := eapol_state_machine S) auth_pae_state. Proof. solve_setter. Defined.
#[export] Instance set_eapolLogoff {S} : Setter (R := eapol_state_machine S) eapolLogoff. Proof. solve_setter. Defined.
#[export] Instance set_eapolStart {S} : Setter (R := eapol_state_machine S) eapolStart. Proof. solve_setter. Defined.
#[export] Instance set_portMode {S} : Setter (R := eapol_state_machine S) portMode. Proof. solve_setter. Defined.
#[export] Instance set_reAuthCount {S} : Setter (R := eapol_state_machine S) reAuthCount. Proof. solve_setter. Defined.
#[export] Instance set_quietPeriod {S} : Setter (R := eapol_state_machine S) quietPeriod. Proof. solve_setter. Defined.
#[export] Instance set_reAuthMax {S} : Setter (R := eapol_state_machine S) reAuthMax. Proof. solve_setter. Defined.
#[export] Instance set_authEntersConnecting {S} : Setter (R := eapol_state_machine S) authEntersConnecting. Proof. solve_setter. Defined.
#[export] Instance set_authEapLogoffsWhileConnecting {S} : Setter (R := eapol_state_machine S) authEapLogoffsWhileConnecting. Proof. solve_setter. Defined.
#[export] Instance set_authEntersAuthenticating {S} : Setter (R := eapol_state_machine S) authEntersAuthenticating. Proof. solve_setter. Defined.
#[export] Instance set_authAuthSuccessesWhileAuthenticating {S} : Setter (R := eapol_state_machine S) authAuthSuccessesWhileAuthenticating. Proof. solve_setter. Defined.
#[export] Instance set_authAuthTimeoutsWhileAuthenticating {S} : Setter (R := eapol_state_machine S) authAuthTimeoutsWhileAuthenticating. Proof. solve_setter. Defined.
#[export] Instance set_authAuthFailWhileAuthenticating {S} : Setter (R := eapol_state_machine S) authAuthFailWhileAuthenticating. Proof. solve_setter. Defined.
#[export] Instance set_authAuthEapStartsWhileAuthenticating {S} : Setter (R := eapol_state_machine S) authAuthEapStartsWhileAuthenticating. Proof. solve_setter. Defined.
#[export] Instance set_authAuthEapLogoffWhileAuthenticating {S} : Setter (R := eapol_state_machine S) authAuthEapLogoffWhileAuthenticating. Proof. solve_setter. Defined.
#[export] Instance set_authAuthReauthsWhileAuthenticated {S} : Setter (R := eapol_state_machine S) authAuthReauthsWhileAuthenticated. Proof. solve_setter. Defined.
#[export] Instance set_authAuthEapStartsWhileAuthenticated {S} : Setter (R := eapol_state_machine S) authAuthEapStartsWhileAuthenticated. Proof. solve_setter. Defined.
#[export] Instance set_authAuthEapLogoffWhileAuthenticated {S} : Setter (R := eapol_state_machine S) authAuthEapLogoffWhileAuthenticated. Proof. solve_setter. Defined.
#[export] Instance set_be_auth_state {S} : Setter (R := eapol_state_machine S) be_auth_state. Proof. solve_setter. Defined.
#[export] Instance set_serverTimeout {S} : Setter (R := eapol_state_machine S) serverTimeout. Proof. solve_setter. Defined.
#[export] Instance set_backendResponses {S} : Setter (R := eapol_state_machine S) backendResponses. Proof. solve_setter. Defined.
#[export] Instance set_backendAccessChallenges {S} : Setter (R := eapol_state_machine S) backendAccessChallenges. Proof. solve_setter. Defined.
#[export] Instance set_backendOtherRequestsToSupplicant {S} : Setter (R := eapol_state_machine S) backendOtherRequestsToSupplicant. Proof. solve_setter. Defined.
#[export] Instance set_backendAuthSuccesses {S} : Setter (R := eapol_state_machine S) backendAuthSuccesses. Proof. solve_setter. Defined.
#[export] Instance set_backendAuthFails {S} : Setter (R := eapol_state_machine S) backendAuthFails. Proof. solve_setter. Defined.
#[export] Instance set_reauth_timer_state {S} : Setter (R := eapol_state_machine S) reauth_timer_state. Proof. solve_setter. Defined.
#[export] Instance set_reAuthPeriod {S} : Setter (R := eapol_state_machine S) reAuthPeriod. Proof. solve_setter. Defined.
#[export] Instance set_reAuthEnabled {S} : Setter (R := eapol_state_machine S) reAuthEnabled. Proof. solve_setter. Defined.
#[export] Instance set_auth_key_tx_state {S} : Setter (R := eapol_state_machine S) auth_key_tx_state. Proof. solve_setter. Defined.
#[export] Instance set_key_rx_state {S} : Setter (R := eapol_state_machine S) key_rx_state. Proof. solve_setter. Defined.
#[export] Instance set_rxKey {S} : Setter (R := eapol_state_machine S) rxKey. Proof. solve_setter. Defined.
#[export] Instance set_ctrl_dir_state {S} : Setter (R := eapol_state_machine S) ctrl_dir_state. Proof. solve_setter. Defined.
#[export] Instance set_adminControlledDirections {S} : Setter (R := eapol_state_machine S) adminControlledDirections. Proof. solve_setter. Defined.
#[export] Instance set_operControlledDirections {S} : Setter (R := eapol_state_machine S) operControlledDirections. Proof. solve_setter. Defined.
#[export] Instance set_operEdge {S} : Setter (R := eapol_state_machine S) operEdge. Proof. solve_setter. Defined.
#[export] Instance set_dot1xAuthEapolFramesRx {S} : Setter (R := eapol_state_machine S) dot1xAuthEapolFramesRx. Proof. solve_setter. Defined.
#[export] Instance set_dot1xAuthEapolFramesTx {S} : Setter (R := eapol_state_machine S) dot1xAuthEapolFramesTx. Proof. solve_setter. Defined.
#[export] Instance set_dot1xAuthEapolStartFramesRx {S} : Setter (R := eapol_state_machine S) dot1xAuthEapolStartFramesRx. Proof. solve_setter. Defined.
#[export] Instance set_dot1xAuthEapolLogoffFramesRx {S} : Setter (R := eapol_state_machine S) dot1xAuthEapolLogoffFramesRx. Proof. solve_setter. Defined.
#[export] Instance set_dot1xAuthEapolRespIdFramesRx {S} : Setter (R := eapol_state_machine S) dot1xAuthEapolRespIdFramesRx. Proof. solve_setter. Defined.
#[export] Instance set_dot1xAuthEapolRespFramesRx {S} : Setter (R := eapol_state_machine S) dot1xAuthEapolRespFramesRx. Proof. solve_setter. Defined.
#[export] Instance set_dot1xAuthEapolReqIdFramesTx {S} : Setter (R := eapol_state_machine S) dot1xAuthEapolReqIdFramesTx. Proof. solve_setter. Defined.
#[export] Instance set_dot1xAuthEapolReqFramesTx {S} : Setter (R := eapol_state_machine S) dot1xAuthEapolReqFramesTx. Proof. solve_setter. Defined.
#[export] Instance set_dot1xAuthInvalidEapolFramesRx {S} : Setter (R := eapol_state_machine S) dot1xAuthInvalidEapolFramesRx. Proof. solve_setter. Defined.
#[export] Instance set_dot1xAuthEapLengthErrorFramesRx {S} : Setter (R := eapol_state_machine S) dot1xAuthEapLengthErrorFramesRx. Proof. solve_setter. Defined.
#[export] Instance set_dot1xAuthLastEapolFrameVersion {S} : Setter (R := eapol_state_machine S) dot1xAuthLastEapolFrameVersion. Proof. solve_setter. Defined.
#[export] Instance set_addr {S} : Setter (R := eapol_state_machine S) addr. Proof. solve_setter. Defined.
#[export] Instance set_flags {S} : Setter (R := eapol_state_machine S) flags. Proof. solve_setter. Defined.
#[export] Instance set_eap_if {S} : Setter (R := eapol_state_machine S) eap_if. Proof. solve_setter. Defined.
#[export] Instance set_radius_identifier {S} : Setter (R := eapol_state_machine S) radius_identifier. Proof. solve_setter. Defined.
#[export] Instance set_last_eap_id {S} : Setter (R := eapol_state_machine S) last_eap_id. Proof. solve_setter. Defined.
#[export] Instance set_identity {S} : Setter (R := eapol_state_machine S) identity. Proof. solve_setter. Defined.
#[export] Instance set_identity_len {S} : Setter (R := eapol_state_machine S) identity_len. Proof. solve_setter. Defined.
#[export] Instance set_eap_type_authsrv {S} : Setter (R := eapol_state_machine S) eap_type_authsrv. Proof. solve_setter. Defined.
#[export] Instance set_eap_type_supp {S} : Setter (R := eapol_state_machine S) eap_type_supp. Proof. solve_setter. Defined.
#[export] Instance set_radius_cui {S} : Setter (R := eapol_state_machine S) radius_cui. Proof. solve_setter. Defined.
#[export] Instance set_eap {S} : Setter (R := eapol_state_machine S) eap. Proof. solve_setter. Defined.
#[export] Instance set_initializing {S} : Setter (R := eapol_state_machine S) initializing. Proof. solve_setter. Defined.
#[export] Instance set_changed {S} : Setter (R := eapol_state_machine S) changed. Proof. solve_setter. Defined.
#[export] Instance set_remediation {S} : Setter (R := eapol_state_machine S) remediation. Proof. solve_setter. Defined.
#[export] Instance set_acct_multi_session_id {S} : Setter (R := eapol_state_machine S) acct_multi_session_id. Proof. solve_setter. Defined.

(** The zeroed structure of [os_zalloc].  The zeroed [eap_if] pointer is never followed:
    it is set before the machine is used. *)
Definition zero_sm {S} : eapol_state_machine S :=
  mk_sm 0 0 0 false false PortState_0 false false false false false false false false PortTypes_0
    false false AUTH_PAE_INITIALIZE false false PortTypes_0 0 0 0 0 0 0 0 0 0 0 0 0 0 0
    BE_AUTH_REQUEST 0 0 0 0 0 0 REAUTH_TIMER_INITIALIZE 0 false AUTH_KEY_TX_NO_KEY_TRANSMIT
    KEY_RX_NO_KEY_RECEIVE false CTRL_DIR_FORCE_BOTH Both Both false 0 0 0 0 0 0 0 0 0 0 0
    (replicate 6 0) 0 zero_eap_if 0 0 None 0 0 0 None None false false 0 0.

(** ** Reading an updated structure *)

Tactic Notation "sm_simpl" := cbn [
    set set_eapResp set_eapRespData set_portEnabled set_retransWhile set_eapRestart
    set_eapSRTT set_eapRTTVAR set_eapReq set_eapNoReq set_eapSuccess set_eapFail
    set_eapTimeout set_eapReqData set_eapKeyData set_eapKeyDataLen set_eapSessionId
    set_eapSessionIdLen set_eapKeyAvailable set_aaaEapReq set_aaaEapNoReq set_aaaSuccess
    set_aaaFail set_aaaEapReqData set_aaaEapKeyData set_aaaEapKeyDataLen
    set_aaaEapKeyAvailable set_aaaMethodTimeout set_aaaEapResp set_aaaEapRespData
    set_aaaTimeout set_aWhile set_quietWhile set_reAuthWhen set_authAbort set_authFail
    set_authPortStatus set_authStart set_authTimeout set_authSuccess set_eapolEap
    set_initialize set_keyDone set_keyRun set_keyTxEnabled set_portControl set_portValid
    set_reAuthenticate set_auth_pae_state set_eapolLogoff set_eapolStart set_portMode
    set_reAuthCount set_quietPeriod set_reAuthMax set_authEntersConnecting
    set_authEapLogoffsWhileConnecting set_authEntersAuthenticating
    set_authAuthSuccessesWhileAuthenticating set_authAuthTimeoutsWhileAuthenticating
    set_authAuthFailWhileAuthenticating set_authAuthEapStartsWhileAuthenticating
    set_authAuthEapLogoffWhileAuthenticating set_authAuthReauthsWhileAuthenticated
    set_authAuthEapStartsWhileAuthenticated set_authAuthEapLogoffWhileAuthenticated
    set_be_auth_state set_serverTimeout set_backendResponses set_backendAccessChallenges
    set_backendOtherRequestsToSupplicant set_backendAuthSuccesses set_backendAuthFails
    set_reauth_timer_state set_reAuthPeriod set_reAuthEnabled set_auth_key_tx_state
    set_key_rx_state set_rxKey set_ctrl_dir_state set_adminControlledDirections
    set_operControlledDirections set_operEdge set_dot1xAuthEapolFramesRx
    set_dot1xAuthEapolFramesTx set_dot1xAuthEapolStartFramesRx
    set_dot1xAuthEapolLogoffFramesRx set_dot1xAuthEapolRespIdFramesRx
    set_dot1xAuthEapolRespFramesRx set_dot1xAuthEapolReqIdFramesTx
    set_dot1xAuthEapolReqFramesTx set_dot1xAuthInvalidEapolFramesRx
    set_dot1xAuthEapLengthErrorFramesRx set_dot1xAuthLastEapolFrameVersion set_addr
    set_flags set_eap_if set_radius_identifier set_last_eap_id set_identity set_identity_len
    set_eap_type_authsrv set_eap_type_supp set_radius_cui set_eap set_initializing
    set_changed set_remediation set_acct_multi_session_id eapResp eapRespData portEnabled
    retransWhile eapRestart eapSRTT eapRTTVAR eapReq eapNoReq eapSuccess eapFail eapTimeout
    eapReqData eapKeyData eapKeyDataLen eapSessionId eapSessionIdLen eapKeyAvailable
    aaaEapReq aaaEapNoReq aaaSuccess aaaFail aaaEapReqData aaaEapKeyData aaaEapKeyDataLen
    aaaEapKeyAvailable aaaMethodTimeout aaaEapResp aaaEapRespData aaaTimeout aWhile
    quietWhile reAuthWhen authAbort authFail authPortStatus authStart authTimeout
    authSuccess eapolEap initialize keyDone keyRun keyTxEnabled portControl portValid
    reAuthenticate auth_pae_state eapolLogoff eapolStart portMode reAuthCount quietPeriod
    reAuthMax authEntersConnecting authEapLogoffsWhileConnecting authEntersAuthenticating
    authAuthSuccessesWhileAuthenticating authAuthTimeoutsWhileAuthenticating
    authAuthFailWhileAuthenticating authAuthEapStartsWhileAuthenticating
    authAuthEapLogoffWhileAuthenticating authAuthReauthsWhileAuthenticated
    authAuthEapStartsWhileAuthenticated authAuthEapLogoffWhileAuthenticated be_auth_state
    serverTimeout backendResponses backendAccessChallenges backendOtherRequestsToSupplicant
    backendAuthSuccesses backendAuthFails reauth_timer_state reAuthPeriod reAuthEnabled
    auth_key_tx_state key_rx_state rxKey ctrl_dir_state adminControlledDirections
    operControlledDirections operEdge dot1xAuthEapolFramesRx dot1xAuthEapolFramesTx
    dot1xAuthEapolStartFramesRx dot1xAuthEapolLogoffFramesRx dot1xAuthEapolRespIdFramesRx
    dot1xAuthEapolRespFramesRx dot1xAuthEapolReqIdFramesTx dot1xAuthEapolReqFramesTx
    dot1xAuthInvalidEapolFramesRx dot1xAuthEapLengthErrorFramesRx
    dot1xAuthLastEapolFrameVersion addr flags eap_if radius_identifier last_eap_id identity
    identity_len eap_type_authsrv eap_type_supp radius_cui eap initializing changed
    remediation acct_multi_session_id].
Tactic Notation "sm_simpl" "in" hyp(H) := cbn [
    set set_eapResp set_eapRespData set_portEnabled set_retransWhile set_eapRestart
    set_eapSRTT set_eapRTTVAR set_eapReq set_eapNoReq set_eapSuccess set_eapFail
    set_eapTimeout set_eapReqData set_eapKeyData set_eapKeyDataLen set_eapSessionId
    set_eapSessionIdLen set_eapKeyAvailable set_aaaEapReq set_aaaEapNoReq set_aaaSuccess
    set_aaaFail set_aaaEapReqData set_aaaEapKeyData set_aaaEapKeyDataLen
    set_aaaEapKeyAvailable set_aaaMethodTimeout set_aaaEapResp set_aaaEapRespData
    set_aaaTimeout set_aWhile set_quietWhile set_reAuthWhen set_authAbort set_authFail
    set_authPortStatus set_authStart set_authTimeout set_authSuccess set_eapolEap
    set_initialize set_keyDone set_keyRun set_keyTxEnabled set_portControl set_portValid
    set_reAuthenticate set_auth_pae_state set_eapolLogoff set_eapolStart set_portMode
    set_reAuthCount set_quietPeriod set_reAuthMax set_authEntersConnecting
    set_authEapLogoffsWhileConnecting set_authEntersAuthenticating
    set_authAuthSuccessesWhileAuthenticating set_authAuthTimeoutsWhileAuthenticating
    set_authAuthFailWhileAuthenticating set_authAuthEapStartsWhileAuthenticating
    set_authAuthEapLogoffWhileAuthenticating set_authAuthReauthsWhileAuthenticated
    set_authAuthEapStartsWhileAuthenticated set_authAuthEapLogoffWhileAuthenticated
    set_be_auth_state set_serverTimeout set_backendResponses set_backendAccessChallenges
    set_backendOtherRequestsToSupplicant set_backendAuthSuccesses set_backendAuthFails
    set_reauth_timer_state set_reAuthPeriod set_reAuthEnabled set_auth_key_tx_state
    set_key_rx_state set_rxKey set_ctrl_dir_state set_adminControlledDirections
    set_operControlledDirections set_operEdge set_dot1xAuthEapolFramesRx
    set_dot1xAuthEapolFramesTx set_dot1xAuthEapolStartFramesRx
    set_dot1xAuthEapolLogoffFramesRx set_dot1xAuthEapolRespIdFramesRx
    set_dot1xAuthEapolRespFramesRx set_dot1xAuthEapolReqIdFramesTx
    set_dot1xAuthEapolReqFramesTx set_dot1xAuthInvalidEapolFramesRx
    set_dot1xAuthEapLengthErrorFramesRx set_dot1xAuthLastEapolFrameVersion set_addr
    set_flags set_eap_if set_radius_identifier set_last_eap_id set_identity set_identity_len
    set_eap_type_authsrv set_eap_type_supp set_radius_cui set_eap set_initializing
    set_changed set_remediation set_acct_multi_session_id eapResp eapRespData portEnabled
    retransWhile eapRestart eapSRTT eapRTTVAR eapReq eapNoReq eapSuccess eapFail eapTimeout
    eapReqData eapKeyData eapKeyDataLen eapSessionId eapSessionIdLen eapKeyAvailable
    aaaEapReq aaaEapNoReq aaaSuccess aaaFail aaaEapReqData aaaEapKeyData aaaEapKeyDataLen
    aaaEapKeyAvailable aaaMethodTimeout aaaEapResp aaaEapRespData aaaTimeout aWhile
    quietWhile reAuthWhen authAbort authFail authPortStatus authStart authTimeout
    authSuccess eapolEap initialize keyDone keyRun keyTxEnabled portControl portValid
    reAuthenticate auth_pae_state eapolLogoff eapolStart portMode reAuthCount quietPeriod
    reAuthMax authEntersConnecting authEapLogoffsWhileConnecting authEntersAuthenticating
    authAuthSuccessesWhileAuthenticating authAuthTimeoutsWhileAuthenticating
    authAuthFailWhileAuthenticating authAuthEapStartsWhileAuthenticating
    authAuthEapLogoffWhileAuthenticating authAuthReauthsWhileAuthenticated
    authAuthEapStartsWhileAuthenticated authAuthEapLogoffWhileAuthenticated be_auth_state
    serverTimeout backendResponses backendAccessChallenges backendOtherRequestsToSupplicant
    backendAuthSuccesses backendAuthFails reauth_timer_state reAuthPeriod reAuthEnabled
    auth_key_tx_state key_rx_state rxKey ctrl_dir_state adminControlledDirections
    operControlledDirections operEdge dot1xAuthEapolFramesRx dot1xAuthEapolFramesTx
    dot1xAuthEapolStartFramesRx dot1xAuthEapolLogoffFramesRx dot1xAuthEapolRespIdFramesRx
    dot1xAuthEapolRespFramesRx dot1xAuthEapolReqIdFramesTx dot1xAuthEapolReqFramesTx
    dot1xAuthInvalidEapolFramesRx dot1xAuthEapLengthErrorFramesRx
    dot1xAuthLastEapolFrameVersion addr flags eap_if radius_identifier last_eap_id identity
    identity_len eap_type_authsrv eap_type_supp radius_cui eap initializing changed
    remediation acct_multi_session_id] in H.
