(* ===== verification/EapolAuth.v ===== *)
(** * The EAPOL authenticator: operations

    Hostap's [eapol_auth/eapol_auth_sm.c]: the six state machines of IEEE
    802.1X-2004, the loop that runs them, the port timers, allocation and
    configuration; [SM_ENTRY_MA] and the other macros of
    [utils/state_machine.h] are expanded under the names they produce.

    The calls that leave the module (the callbacks of [struct eapol_auth_cb]
    and the event loop) are recorded as events, newest first.  They do not
    change the machine, except [abort_auth], whose effect on it in
    [ap/ieee802_1x.c] is modelled (what the WPA authenticator then writes to it
    is an input like any other); [alive] answers the [sta_entry_alive] callback
    from the calls made before it.  Debug output and the [logger] callback are
    left out.  [CONFIG_WEP] is the build option. *)

From Stdlib Require Import Ascii.
From S2P Require Import Prelude EapolState.

#[local] Open Scope string_scope.
#[local] Open Scope Z_scope.

(** ** What the module calls *)

(** The EAP server.  One [eap_server_sm_step] may look up users through
    [eapol_sm_get_eap_user]; it reports the [remediation] field of each. *)
Class EapServer := {
  eap_sm : Type;
  eap_server_sm_init : option eap_sm;
  eap_server_sm_step : eap_sm -> eap_eapol_interface ->
                       eap_sm * eap_eapol_interface * list Z * bool;
  eap_sm_pending_cb : eap_sm -> eap_sm;
  eap_server_clear_identity : eap_sm -> eap_sm;
  eap_sm_notify_cached : eap_sm -> eap_sm }.

(** [portEnabled] belongs to the lower layer: the EAP server only reads it. *)
Class EapServerLaws (E : EapServer) :=
  eap_step_portEnabled : forall e i, (eap_server_sm_step e i).1.1.2.(portEnabled) = i.(portEnabled).

Inductive eapol_event := EAPOL_AUTH_SM_CHANGE | EAPOL_AUTH_REAUTHENTICATE.

Inductive event :=
| SetPortAuthorized (authorized : bool)
| EapolSend (data : bytes)
| AaaSend (data : bytes)
| Finished (success : bool) (preauth : bool) (remediation : Z)
| AbortAuth
| TxKey
| EapolEvent (e : eapol_event)
| ScheduleStep            (* eloop_register_timeout(0, 0, eapol_sm_step_cb) *)
| ScheduleTick            (* eloop_register_timeout(1, 0, eapol_port_timers_tick) *)
| CancelStep
| CancelTick
| EapDeinit.

(** ** [eap_common.c] *)

Definition EAP_HDR_LEN : nat := 4.
Definition EAP_CODE_SUCCESS : Z := 3.
Definition EAP_CODE_FAILURE : Z := 4.
Definition EAP_TYPE_NONE : Z := 0.
Definition EAP_TYPE_IDENTITY : Z := 1.

Definition eap_get_id (msg : bytes) : Z :=
  if (length msg <? EAP_HDR_LEN)%nat then 0 else get msg 1.
Definition eap_get_type (msg : bytes) : Z :=
  if (length msg <? EAP_HDR_LEN + 1)%nat then EAP_TYPE_NONE else get msg 4.

Notation "a != b" := (negb (bool_decide (a = b))) (at level 70).
Notation "a == b" := (bool_decide (a = b)) (at level 70).

(** An unsigned counter. *)
Definition incr (c : Z) : Z := u32 (c + 1).
(** An [unsigned int] stored in an [int]. *)
Definition to_int (x : Z) : Z := if x <? 2147483648 then x else x - 4294967296.

Section eapol.
Context `{E : EapServer} (CONFIG_WEP : bool).

Abbreviation machine := (eapol_state_machine eap_sm).

Record world := mk_world { sm : machine; events : list event }.
#[local] Instance world_eta : Settable world := fun w => mk_world w.(sm) w.(events).
#[local] Instance set_sm : Setter sm. Proof. solve_setter. Defined.
#[local] Instance set_events : Setter events. Proof. solve_setter. Defined.

Definition emit (e : event) (w : world) : world := w <| events ::= cons e |>.
Definition upd (f : machine -> machine) (w : world) : world := w <| sm ::= f |>.
Definition upd_if (f : eap_eapol_interface -> eap_eapol_interface) (w : world) : world :=
  upd (fun sm => sm <| eap_if ::= f |>) w.

Definition setPortAuthorized : world -> world := emit (SetPortAuthorized true).
Definition setPortUnauthorized : world -> world := emit (SetPortAuthorized false).

Definition has_flag (w : world) (flag : Z) : bool :=
  negb (Z.land w.(sm).(flags) flag =? 0).

Definition finished (success : bool) (w : world) : world :=
  emit (Finished success (has_flag w EAPOL_SM_PREAUTH) w.(sm).(remediation)) w.

Definition eapol_auth_tx_canned_eap (success : bool) (w : world) : world :=
  let w := upd (fun sm => sm <| last_eap_id := u8 (sm.(last_eap_id) + 1) |>) w in
  let eap := [if success then EAP_CODE_SUCCESS else EAP_CODE_FAILURE;
              w.(sm).(last_eap_id); 0; 4] in
  let w := emit (EapolSend eap) w in
  upd (fun sm => sm <| dot1xAuthEapolFramesTx ::= incr |>) w.

Definition eapol_auth_tx_req (w : world) : world :=
  match w.(sm).(eap_if).(eapReqData) with
  | None => w
  | Some data =>
    if (length data <? EAP_HDR_LEN)%nat then w else
    if has_flag w EAPOL_SM_WAIT_START then w else
    let w := upd (fun sm => sm <| last_eap_id := eap_get_id data |>) w in
    let w := emit (EapolSend data) w in
    let w := upd (fun sm => sm <| dot1xAuthEapolFramesTx ::= incr |>) w in
    if eap_get_type data =? EAP_TYPE_IDENTITY
    then upd (fun sm => sm <| dot1xAuthEapolReqIdFramesTx ::= incr |>) w
    else upd (fun sm => sm <| dot1xAuthEapolReqFramesTx ::= incr |>) w
  end.

(** [eloop_register_timeout(0, 0, eapol_sm_step_cb, sm, NULL)] *)
Definition eapol_auth_step (w : world) : world := emit ScheduleStep w.

Definition ieee802_1x_notify_port_enabled (enabled : bool) (w : world) : world :=
  eapol_auth_step (upd_if (fun i => i <| portEnabled := enabled |>) w).

(** The callback behind [abortAuth]: a peer that did not answer the last
    request is disconnected. *)
Definition ap_sta_disconnect (w : world) : world := ieee802_1x_notify_port_enabled false w.
Definition ieee802_1x_abort_auth (w : world) : world :=
  let w := emit AbortAuth w in
  if w.(sm).(eap_if).(eapTimeout)
  then ap_sta_disconnect (upd_if (fun i => i <| portEnabled := false |>) w)
  else w.

(** ** Authenticator PAE state machine *)

(** [SM_ENTRY_MA(AUTH_PAE, st, auth_pae)]: [changed] is set when its
    condition holds and kept otherwise. *)
Definition AUTH_PAE_entry (global : bool) (st : auth_pae) : world -> world :=
  upd (fun sm => sm <| changed ::= orb (negb global || (sm.(auth_pae_state) != st)) |>
                    <| auth_pae_state := st |>).

Definition sm_AUTH_PAE_INITIALIZE_Enter (global : bool) (w : world) : world :=
  let w := AUTH_PAE_entry global AUTH_PAE_INITIALIZE w in
  upd (fun sm => sm <| portMode := Auto |> <| keyRun := false |>) w.

Definition sm_AUTH_PAE_DISCONNECTED_Enter (global : bool) (w : world) : world :=
  let from_initialize := w.(sm).(auth_pae_state) == AUTH_PAE_INITIALIZE in
  let w :=
    if w.(sm).(eapolLogoff) then
      if w.(sm).(auth_pae_state) == AUTH_PAE_CONNECTING
      then upd (fun sm => sm <| authEapLogoffsWhileConnecting ::= incr |>) w
      else if w.(sm).(auth_pae_state) == AUTH_PAE_AUTHENTICATED
      then upd (fun sm => sm <| authAuthEapLogoffWhileAuthenticated ::= incr |>) w
      else w
    else w in
  let w := AUTH_PAE_entry global AUTH_PAE_DISCONNECTED w in
  let w := upd (fun sm => sm <| authPortStatus := Unauthorized |>) w in
  let w := setPortUnauthorized w in
  let w := upd (fun sm => sm <| reAuthCount := 0 |> <| eapolLogoff := false |>) w in
  if negb from_initialize then finished false w else w.

Definition sm_AUTH_PAE_RESTART_Enter (global : bool) (w : world) : world :=
  let w :=
    if w.(sm).(auth_pae_state) == AUTH_PAE_AUTHENTICATED then
      let w := if w.(sm).(reAuthenticate)
               then upd (fun sm => sm <| authAuthReauthsWhileAuthenticated ::= incr |>) w
               else w in
      let w := if w.(sm).(eapolStart)
               then upd (fun sm => sm <| authAuthEapStartsWhileAuthenticated ::= incr |>) w
               else w in
      if w.(sm).(eapolLogoff)
      then upd (fun sm => sm <| authAuthEapLogoffWhileAuthenticated ::= incr |>) w
      else w
    else w in
  let w := AUTH_PAE_entry global AUTH_PAE_RESTART w in
  upd_if (fun i => i <| eapRestart := true |>) w.

Definition sm_AUTH_PAE_CONNECTING_Enter (global : bool) (w : world) : world :=
  let w := if w.(sm).(auth_pae_state) != AUTH_PAE_CONNECTING
           then upd (fun sm => sm <| authEntersConnecting ::= incr |>) w else w in
  let w := AUTH_PAE_entry global AUTH_PAE_CONNECTING w in
  upd (fun sm => sm <| reAuthenticate := false |> <| reAuthCount ::= incr |>) w.

Definition sm_AUTH_PAE_HELD_Enter (global : bool) (w : world) : world :=
  let w := if (w.(sm).(auth_pae_state) == AUTH_PAE_AUTHENTICATING) && w.(sm).(authFail)
           then upd (fun sm => sm <| authAuthFailWhileAuthenticating ::= incr |>) w else w in
  let w := AUTH_PAE_entry global AUTH_PAE_HELD w in
  let w := upd (fun sm => sm <| authPortStatus := Unauthorized |>) w in
  let w := setPortUnauthorized w in
  let w := upd (fun sm => sm <| quietWhile := to_int sm.(quietPeriod) |>
                             <| eapolLogoff := false |>) w in
  finished false w.

Definition sm_AUTH_PAE_AUTHENTICATED_Enter (global : bool) (w : world) : world :=
  let w := if (w.(sm).(auth_pae_state) == AUTH_PAE_AUTHENTICATING) && w.(sm).(authSuccess)
           then upd (fun sm => sm <| authAuthSuccessesWhileAuthenticating ::= incr |>) w
           else w in
  let w := AUTH_PAE_entry global AUTH_PAE_AUTHENTICATED w in
  let w := upd (fun sm => sm <| authPortStatus := Authorized |>) w in
  let w := setPortAuthorized w in
  let w := upd (fun sm => sm <| reAuthCount := 0 |>) w in
  finished true w.

Definition sm_AUTH_PAE_AUTHENTICATING_Enter (global : bool) (w : world) : world :=
  let w := AUTH_PAE_entry global AUTH_PAE_AUTHENTICATING w in
  upd (fun sm => sm <| eapolStart := false |> <| authSuccess := false |>
                    <| authFail := false |> <| authTimeout := false |>
                    <| authStart := true |> <| keyRun := false |> <| keyDone := false |>) w.

Definition sm_AUTH_PAE_ABORTING_Enter (global : bool) (w : world) : world :=
  let w :=
    if w.(sm).(auth_pae_state) == AUTH_PAE_AUTHENTICATING then
      let w := if w.(sm).(authTimeout)
               then upd (fun sm => sm <| authAuthTimeoutsWhileAuthenticating ::= incr |>) w
               else w in
      let w := if w.(sm).(eapolStart)
               then upd (fun sm => sm <| authAuthEapStartsWhileAuthenticating ::= incr |>) w
               else w in
      if w.(sm).(eapolLogoff)
      then upd (fun sm => sm <| authAuthEapLogoffWhileAuthenticating ::= incr |>) w
      else w
    else w in
  let w := AUTH_PAE_entry global AUTH_PAE_ABORTING w in
  upd (fun sm => sm <| authAbort := true |> <| keyRun := false |> <| keyDone := false |>) w.

Definition sm_AUTH_PAE_FORCE_AUTH_Enter (global : bool) (w : world) : world :=
  let w := AUTH_PAE_entry global AUTH_PAE_FORCE_AUTH w in
  let w := upd (fun sm => sm <| authPortStatus := Authorized |>) w in
  let w := setPortAuthorized w in
  let w := upd (fun sm => sm <| portMode := ForceAuthorized |> <| eapolStart := false |>) w in
  eapol_auth_tx_canned_eap true w.

Definition sm_AUTH_PAE_FORCE_UNAUTH_Enter (global : bool) (w : world) : world :=
  let w := AUTH_PAE_entry global AUTH_PAE_FORCE_UNAUTH w in
  let w := upd (fun sm => sm <| authPortStatus := Unauthorized |>) w in
  let w := setPortUnauthorized w in
  let w := upd (fun sm => sm <| portMode := ForceUnauthorized |> <| eapolStart := false |>) w in
  eapol_auth_tx_canned_eap false w.

Definition sm_AUTH_PAE_Step (w : world) : world :=
  let s := w.(sm) in
  if ((s.(portControl) == Auto) && (s.(portMode) != s.(portControl))) ||
     s.(initialize) || negb s.(eap_if).(portEnabled)
  then sm_AUTH_PAE_INITIALIZE_Enter true w
  else if (s.(portControl) == ForceAuthorized) && (s.(portMode) != s.(portControl)) &&
          negb (s.(initialize) || negb s.(eap_if).(portEnabled))
  then sm_AUTH_PAE_FORCE_AUTH_Enter true w
  else if (s.(portControl) == ForceUnauthorized) && (s.(portMode) != s.(portControl)) &&
          negb (s.(initialize) || negb s.(eap_if).(portEnabled))
  then sm_AUTH_PAE_FORCE_UNAUTH_Enter true w
  else match s.(auth_pae_state) with
  | AUTH_PAE_INITIALIZE => sm_AUTH_PAE_DISCONNECTED_Enter false w
  | AUTH_PAE_DISCONNECTED => sm_AUTH_PAE_RESTART_Enter false w
  | AUTH_PAE_RESTART =>
    if negb s.(eap_if).(eapRestart) then sm_AUTH_PAE_CONNECTING_Enter false w else w
  | AUTH_PAE_HELD =>
    if s.(quietWhile) =? 0 then sm_AUTH_PAE_RESTART_Enter false w else w
  | AUTH_PAE_CONNECTING =>
    if s.(eapolLogoff) || (s.(reAuthMax) <? s.(reAuthCount))
    then sm_AUTH_PAE_DISCONNECTED_Enter false w
    else if (s.(eap_if).(eapReq) && (s.(reAuthCount) <=? s.(reAuthMax))) ||
            s.(eap_if).(eapSuccess) || s.(eap_if).(eapFail)
    then sm_AUTH_PAE_AUTHENTICATING_Enter false w else w
  | AUTH_PAE_AUTHENTICATED =>
    if s.(eapolStart) || s.(reAuthenticate) then sm_AUTH_PAE_RESTART_Enter false w
    else if s.(eapolLogoff) || negb s.(portValid)
    then sm_AUTH_PAE_DISCONNECTED_Enter false w else w
  | AUTH_PAE_AUTHENTICATING =>
    if s.(authSuccess) && s.(portValid) then sm_AUTH_PAE_AUTHENTICATED_Enter false w
    else if s.(authFail) || (s.(keyDone) && negb s.(portValid))
    then sm_AUTH_PAE_HELD_Enter false w
    else if s.(eapolStart) || s.(eapolLogoff) || s.(authTimeout)
    then sm_AUTH_PAE_ABORTING_Enter false w else w
  | AUTH_PAE_ABORTING =>
    if s.(eapolLogoff) && negb s.(authAbort) then sm_AUTH_PAE_DISCONNECTED_Enter false w
    else if negb s.(eapolLogoff) && negb s.(authAbort)
    then sm_AUTH_PAE_RESTART_Enter false w else w
  | AUTH_PAE_FORCE_AUTH =>
    if s.(eapolStart) then sm_AUTH_PAE_FORCE_AUTH_Enter false w else w
  | AUTH_PAE_FORCE_UNAUTH =>
    if s.(eapolStart) then sm_AUTH_PAE_FORCE_UNAUTH_Enter false w else w
  end.

(** ** Backend Authentication state machine *)

Definition BE_AUTH_entry (global : bool) (st : be_auth) : world -> world :=
  upd (fun sm => sm <| changed ::= orb (negb global || (sm.(be_auth_state) != st)) |>
                    <| be_auth_state := st |>).

Definition sm_BE_AUTH_INITIALIZE_Enter (global : bool) (w : world) : world :=
  let w := BE_AUTH_entry global BE_AUTH_INITIALIZE w in
  let w := ieee802_1x_abort_auth w in
  let w := upd_if (fun i => i <| eapNoReq := false |>) w in
  upd (fun sm => sm <| authAbort := false |>) w.

Definition sm_BE_AUTH_REQUEST_Enter (global : bool) (w : world) : world :=
  let w := BE_AUTH_entry global BE_AUTH_REQUEST w in
  let w := eapol_auth_tx_req w in
  let w := upd_if (fun i => i <| eapReq := false |>) w in
  let w := upd (fun sm => sm <| backendOtherRequestsToSupplicant ::= incr |>) w in
  upd (fun sm => sm <| eapolEap := false |>) w.

Definition sm_BE_AUTH_RESPONSE_Enter (global : bool) (w : world) : world :=
  let w := BE_AUTH_entry global BE_AUTH_RESPONSE w in
  let w := upd (fun sm => sm <| authTimeout := false |> <| eapolEap := false |>) w in
  let w := upd_if (fun i => i <| eapNoReq := false |>) w in
  let w := upd (fun sm => sm <| aWhile := to_int sm.(serverTimeout) |>) w in
  let w := upd_if (fun i => i <| eapResp := true |>) w in
  upd (fun sm => sm <| backendResponses ::= incr |>) w.

Definition sm_BE_AUTH_SUCCESS_Enter (global : bool) (w : world) : world :=
  let w := BE_AUTH_entry global BE_AUTH_SUCCESS w in
  let w := eapol_auth_tx_req w in
  upd (fun sm => sm <| authSuccess := true |> <| keyRun := true |>) w.

Definition sm_BE_AUTH_FAIL_Enter (global : bool) (w : world) : world :=
  let w := BE_AUTH_entry global BE_AUTH_FAIL w in
  let w := eapol_auth_tx_req w in
  upd (fun sm => sm <| authFail := true |>) w.

Definition sm_BE_AUTH_TIMEOUT_Enter (global : bool) (w : world) : world :=
  let w := BE_AUTH_entry global BE_AUTH_TIMEOUT w in
  upd (fun sm => sm <| authTimeout := true |>) w.

Definition sm_BE_AUTH_IDLE_Enter (global : bool) (w : world) : world :=
  let w := BE_AUTH_entry global BE_AUTH_IDLE w in
  upd (fun sm => sm <| authStart := false |>) w.

Definition sm_BE_AUTH_IGNORE_Enter (global : bool) (w : world) : world :=
  let w := BE_AUTH_entry global BE_AUTH_IGNORE w in
  upd_if (fun i => i <| eapNoReq := false |>) w.

Definition sm_BE_AUTH_Step (w : world) : world :=
  let s := w.(sm) in
  if (s.(portControl) != Auto) || s.(initialize) || s.(authAbort)
  then sm_BE_AUTH_INITIALIZE_Enter true w
  else match s.(be_auth_state) with
  | BE_AUTH_INITIALIZE => sm_BE_AUTH_IDLE_Enter false w
  | BE_AUTH_REQUEST =>
    if s.(eapolEap) then sm_BE_AUTH_RESPONSE_Enter false w
    else if s.(eap_if).(eapReq) then sm_BE_AUTH_REQUEST_Enter false w
    else if s.(eap_if).(eapTimeout) then sm_BE_AUTH_TIMEOUT_Enter false w else w
  | BE_AUTH_RESPONSE =>
    let w := if s.(eap_if).(eapNoReq) then sm_BE_AUTH_IGNORE_Enter false w else w in
    let s := w.(sm) in
    if s.(eap_if).(eapReq) then
      let w := upd (fun sm => sm <| backendAccessChallenges ::= incr |>) w in
      sm_BE_AUTH_REQUEST_Enter false w
    else if s.(aWhile) =? 0 then sm_BE_AUTH_TIMEOUT_Enter false w
    else if s.(eap_if).(eapFail) then
      let w := upd (fun sm => sm <| backendAuthFails ::= incr |>) w in
      sm_BE_AUTH_FAIL_Enter false w
    else if s.(eap_if).(eapSuccess) then
      let w := upd (fun sm => sm <| backendAuthSuccesses ::= incr |>) w in
      sm_BE_AUTH_SUCCESS_Enter false w
    else w
  | BE_AUTH_SUCCESS => sm_BE_AUTH_IDLE_Enter false w
  | BE_AUTH_FAIL => sm_BE_AUTH_IDLE_Enter false w
  | BE_AUTH_TIMEOUT => sm_BE_AUTH_IDLE_Enter false w
  | BE_AUTH_IDLE =>
    if s.(eap_if).(eapFail) && s.(authStart) then sm_BE_AUTH_FAIL_Enter false w
    else if s.(eap_if).(eapReq) && s.(authStart) then sm_BE_AUTH_REQUEST_Enter false w
    else if s.(eap_if).(eapSuccess) && s.(authStart) then sm_BE_AUTH_SUCCESS_Enter false w
    else w
  | BE_AUTH_IGNORE =>
    if s.(eapolEap) then sm_BE_AUTH_RESPONSE_Enter false w
    else if s.(eap_if).(eapReq) then sm_BE_AUTH_REQUEST_Enter false w
    else if s.(eap_if).(eapTimeout) then sm_BE_AUTH_TIMEOUT_Enter false w else w
  end.

(** ** Reauthentication Timer state machine *)

Definition REAUTH_TIMER_entry (global : bool) (st : reauth_timer) : world -> world :=
  upd (fun sm => sm <| changed ::= orb (negb global || (sm.(reauth_timer_state) != st)) |>
                    <| reauth_timer_state := st |>).

Definition sm_REAUTH_TIMER_INITIALIZE_Enter (global : bool) (w : world) : world :=
  let w := REAUTH_TIMER_entry global REAUTH_TIMER_INITIALIZE w in
  upd (fun sm => sm <| reAuthWhen := to_int sm.(reAuthPeriod) |>) w.

Definition sm_REAUTH_TIMER_REAUTHENTICATE_Enter (global : bool) (w : world) : world :=
  let w := REAUTH_TIMER_entry global REAUTH_TIMER_REAUTHENTICATE w in
  let w := upd (fun sm => sm <| reAuthenticate := true |>) w in
  emit (EapolEvent EAPOL_AUTH_REAUTHENTICATE) w.

Definition sm_REAUTH_TIMER_Step (w : world) : world :=
  let s := w.(sm) in
  if (s.(portControl) != Auto) || s.(initialize) ||
     (s.(authPortStatus) == Unauthorized) || negb s.(reAuthEnabled)
  then sm_REAUTH_TIMER_INITIALIZE_Enter true w
  else match s.(reauth_timer_state) with
  | REAUTH_TIMER_INITIALIZE =>
    if s.(reAuthWhen) =? 0 then sm_REAUTH_TIMER_REAUTHENTICATE_Enter false w else w
  | REAUTH_TIMER_REAUTHENTICATE => sm_REAUTH_TIMER_INITIALIZE_Enter false w
  end.

(** ** Authenticator Key Transmit and Key Receive state machines *)

Definition AUTH_KEY_TX_entry (global : bool) (st : auth_key_tx) : world -> world :=
  upd (fun sm => sm <| changed ::= orb (negb global || (sm.(auth_key_tx_state) != st)) |>
                    <| auth_key_tx_state := st |>).

Definition sm_AUTH_KEY_TX_NO_KEY_TRANSMIT_Enter (global : bool) (w : world) : world :=
  AUTH_KEY_TX_entry global AUTH_KEY_TX_NO_KEY_TRANSMIT w.

Definition sm_AUTH_KEY_TX_KEY_TRANSMIT_Enter (global : bool) (w : world) : world :=
  let w := AUTH_KEY_TX_entry global AUTH_KEY_TX_KEY_TRANSMIT w in
  let w := emit TxKey w in
  let w := upd_if (fun i => i <| eapKeyAvailable := false |>) w in
  upd (fun sm => sm <| keyDone := true |>) w.

Definition sm_AUTH_KEY_TX_Step (w : world) : world :=
  let s := w.(sm) in
  if s.(initialize) || (s.(portControl) != Auto)
  then sm_AUTH_KEY_TX_NO_KEY_TRANSMIT_Enter true w
  else match s.(auth_key_tx_state) with
  | AUTH_KEY_TX_NO_KEY_TRANSMIT =>
    if s.(keyTxEnabled) && s.(eap_if).(eapKeyAvailable) && s.(keyRun) &&
       negb (has_flag w EAPOL_SM_USES_WPA)
    then sm_AUTH_KEY_TX_KEY_TRANSMIT_Enter false w else w
  | AUTH_KEY_TX_KEY_TRANSMIT =>
    if negb s.(keyTxEnabled) || negb s.(keyRun)
    then sm_AUTH_KEY_TX_NO_KEY_TRANSMIT_Enter false w
    else if s.(eap_if).(eapKeyAvailable)
    then sm_AUTH_KEY_TX_KEY_TRANSMIT_Enter false w else w
  end.

Definition KEY_RX_entry (global : bool) (st : key_rx) : world -> world :=
  upd (fun sm => sm <| changed ::= orb (negb global || (sm.(key_rx_state) != st)) |>
                    <| key_rx_state := st |>).

Definition sm_KEY_RX_NO_KEY_RECEIVE_Enter (global : bool) (w : world) : world :=
  KEY_RX_entry global KEY_RX_NO_KEY_RECEIVE w.

Definition sm_KEY_RX_KEY_RECEIVE_Enter (global : bool) (w : world) : world :=
  let w := KEY_RX_entry global KEY_RX_KEY_RECEIVE w in
  upd (fun sm => sm <| rxKey := false |>) w.

Definition sm_KEY_RX_Step (w : world) : world :=
  let s := w.(sm) in
  if s.(initialize) || negb s.(eap_if).(portEnabled)
  then sm_KEY_RX_NO_KEY_RECEIVE_Enter true w
  else match s.(key_rx_state) with
  | KEY_RX_NO_KEY_RECEIVE => if s.(rxKey) then sm_KEY_RX_KEY_RECEIVE_Enter false w else w
  | KEY_RX_KEY_RECEIVE => if s.(rxKey) then sm_KEY_RX_KEY_RECEIVE_Enter false w else w
  end.

(** ** Controlled Directions state machine *)

Definition CTRL_DIR_entry (global : bool) (st : ctrl_dir) : world -> world :=
  upd (fun sm => sm <| changed ::= orb (negb global || (sm.(ctrl_dir_state) != st)) |>
                    <| ctrl_dir_state := st |>).

Definition sm_CTRL_DIR_FORCE_BOTH_Enter (global : bool) (w : world) : world :=
  let w := CTRL_DIR_entry global CTRL_DIR_FORCE_BOTH w in
  upd (fun sm => sm <| operControlledDirections := Both |>) w.

Definition sm_CTRL_DIR_IN_OR_BOTH_Enter (global : bool) (w : world) : world :=
  let w := CTRL_DIR_entry global CTRL_DIR_IN_OR_BOTH w in
  upd (fun sm => sm <| operControlledDirections := sm.(adminControlledDirections) |>) w.

Definition sm_CTRL_DIR_Step (w : world) : world :=
  let s := w.(sm) in
  if s.(initialize) then sm_CTRL_DIR_IN_OR_BOTH_Enter true w
  else match s.(ctrl_dir_state) with
  | CTRL_DIR_FORCE_BOTH =>
    if s.(eap_if).(portEnabled) && s.(operEdge)
    then sm_CTRL_DIR_IN_OR_BOTH_Enter false w else w
  | CTRL_DIR_IN_OR_BOTH =>
    let w := if s.(operControlledDirections) != s.(adminControlledDirections)
             then sm_CTRL_DIR_IN_OR_BOTH_Enter false w else w in
    let s := w.(sm) in
    if negb s.(eap_if).(portEnabled) || negb s.(operEdge)
    then sm_CTRL_DIR_FORCE_BOTH_Enter false w else w
  end.

(** ** Running the machines *)

(** [eap_user->remediation] sets the machine's flag; it is never cleared. *)
Definition eapol_sm_get_eap_user (user_remediation : Z) (sm : machine) : machine :=
  if negb (user_remediation =? 0) then sm <| remediation := 1 |> else sm.

(** [eap_server_sm_step(sm->eap)] with the effects on the shared structures. *)
Definition eap_step (e : eap_sm) (w : world) : world * bool :=
  let '(e, i, users, again) := eap_server_sm_step e w.(sm).(eap_if) in
  let w := upd (fun sm => foldl (fun sm u => eapol_sm_get_eap_user u sm) sm users) w in
  (upd (fun sm => sm <| eap := Some e |> <| eap_if := i |>) w, again).

Context (alive : list event -> bool).

Definition eapol_sm_sta_entry_alive (w : world) : bool := alive w.(events).

Definition step_if_alive (step : world -> world) (w : world) : world :=
  if w.(sm).(initializing) || eapol_sm_sta_entry_alive w then step w else w.

(** One pass from [restart:] over the six machines. *)
Definition run_machines (w : world) : world :=
  let w := sm_AUTH_PAE_Step w in
  let w := step_if_alive sm_BE_AUTH_Step w in
  let w := step_if_alive sm_REAUTH_TIMER_Step w in
  let w := if CONFIG_WEP then step_if_alive sm_AUTH_KEY_TX_Step w else w in
  let w := if CONFIG_WEP then step_if_alive sm_KEY_RX_Step w else w in
  step_if_alive sm_CTRL_DIR_Step w.

(** The six state variables compared with their [prev_] copies. *)
Definition states (sm : machine)
    : auth_pae * be_auth * reauth_timer * auth_key_tx * key_rx * ctrl_dir :=
  (sm.(auth_pae_state), sm.(be_auth_state), sm.(reauth_timer_state),
   sm.(auth_key_tx_state), sm.(key_rx_state), sm.(ctrl_dir_state)).

(** [max_steps] is what the C variable holds at [restart:]. *)
Fixpoint step_run (max_steps : nat) (w : world) : world :=
  match max_steps with
  | O => w
  | S max_steps =>
    let prev := states w.(sm) in
    let w := run_machines w in
    let restart w := if (0 <? max_steps)%nat then step_run max_steps w
                     else eapol_auth_step w in
    if prev != states w.(sm) then restart w else
    let notify w :=
      if eapol_sm_sta_entry_alive w then emit (EapolEvent EAPOL_AUTH_SM_CHANGE) w else w in
    if eapol_sm_sta_entry_alive w then
      match w.(sm).(eap) with
      | None => notify w
      | Some e =>
        let '(w, again) := eap_step e w in
        if again then restart w else
        if w.(sm).(eap_if).(aaaEapResp) then
          let w := upd_if (fun i => i <| aaaEapResp := false |>) w in
          match w.(sm).(eap_if).(aaaEapRespData) with
          | None => w
          | Some data => notify (emit (AaaSend data) w)
          end
        else notify w
      end
    else notify w
  end.

Definition eapol_sm_step_run (w : world) : world := step_run 100 w.
Definition eapol_sm_step_cb (w : world) : world := eapol_sm_step_run w.

(** [if (state->x > 0) state->x--;] *)
Definition tick_down (x : Z) : Z := if 0 <? x then x - 1 else x.

Definition eapol_port_timers_tick (w : world) : world :=
  let w := upd (fun sm => sm <| aWhile ::= tick_down |>) w in
  let w := upd (fun sm => sm <| quietWhile ::= tick_down |>) w in
  let w := upd (fun sm => sm <| reAuthWhen ::= tick_down |>) w in
  let w := upd_if (fun i => i <| retransWhile ::= tick_down |>) w in
  let w := eapol_sm_step_run w in
  emit ScheduleTick w.

Definition eapol_auth_initialize (w : world) : world :=
  let w := upd (fun sm => sm <| initializing := true |>) w in
  let w := upd (fun sm => sm <| initialize := true |>) w in
  let w := eapol_sm_step_run w in
  let w := upd (fun sm => sm <| initialize := false |>) w in
  let w := eapol_sm_step_run w in
  let w := upd (fun sm => sm <| initializing := false |>) w in
  let w := emit CancelTick w in
  emit ScheduleTick w.

Definition eapol_auth_reauthenticate (w : world) : world :=
  let w := upd (fun sm => sm <| reAuthenticate := true |>) w in
  eapol_auth_step w.

(** [eapol_auth_eap_pending_cb]; [ctx_is_eap] tells whether the pointer it is
    given is the machine's EAP state. *)
Definition eapol_auth_eap_pending_cb (ctx_is_eap : bool) (w : world) : Z * world :=
  match w.(sm).(eap) with
  | Some e =>
    if negb ctx_is_eap then (-1, w) else
    let w := upd (fun sm => sm <| eap := Some (eap_sm_pending_cb e) |>) w in
    (0, eapol_auth_step w)
  | None => (-1, w)
  end.

(** ** External configuration *)

Definition tolower (c : ascii) : ascii :=
  let n := N_of_ascii c in
  if ((65 <=? n) && (n <=? 90))%N then ascii_of_N (n + 32) else c.
Fixpoint string_map (f : ascii -> ascii) (s : string) : string :=
  match s with EmptyString => EmptyString | String c s => String (f c) (string_map f s) end.
(** [os_strcasecmp(a, b) == 0] *)
Definition strcaseeq (a b : string) : bool := String.eqb (string_map tolower a) (string_map tolower b).

Definition isspace (c : ascii) : bool :=
  let n := N_of_ascii c in ((n =? 32) || ((9 <=? n) && (n <=? 13)))%N.
Definition digit_value (c : ascii) : option Z :=
  let n := Z.of_N (N_of_ascii c) in
  if (48 <=? n) && (n <=? 57) then Some (n - 48) else None.
Fixpoint digits (acc : Z) (s : string) : Z :=
  match s with
  | EmptyString => acc
  | String c s =>
    match digit_value c with None => acc | Some d => digits (10 * acc + d) s end
  end.
(** [atoi]: white space, a sign, decimal digits; the value of a number that
    does not fit in an [int] is undefined in C. *)
Fixpoint atoi (s : string) : Z :=
  match s with
  | EmptyString => 0
  | String c s' =>
    if isspace c then atoi s'
    else if bool_decide (c = "-"%char) then - digits 0 s'
    else if bool_decide (c = "+"%char) then digits 0 s'
    else digits 0 s
  end.

Definition eapol_auth_set_conf (param value : string) (w : world) : Z * world :=
  if strcaseeq param "AdminControlledDirections" then
    if String.eqb value "Both"
    then (0, eapol_auth_step (upd (fun sm => sm <| adminControlledDirections := Both |>) w))
    else if String.eqb value "In"
    then (0, eapol_auth_step (upd (fun sm => sm <| adminControlledDirections := In |>) w))
    else (-1, w)
  else if strcaseeq param "AdminControlledPortControl" then
    if String.eqb value "ForceAuthorized"
    then (0, eapol_auth_step (upd (fun sm => sm <| portControl := ForceAuthorized |>) w))
    else if String.eqb value "ForceUnauthorized"
    then (0, eapol_auth_step (upd (fun sm => sm <| portControl := ForceUnauthorized |>) w))
    else if String.eqb value "Auto"
    then (0, eapol_auth_step (upd (fun sm => sm <| portControl := Auto |>) w))
    else (-1, w)
  else if strcaseeq param "quietPeriod"
  then (0, upd (fun sm => sm <| quietPeriod := u32 (atoi value) |>) w)
  else if strcaseeq param "serverTimeout"
  then (0, upd (fun sm => sm <| serverTimeout := u32 (atoi value) |>) w)
  else if strcaseeq param "reAuthPeriod"
  then (0, upd (fun sm => sm <| reAuthPeriod := u32 (atoi value) |>) w)
  else if strcaseeq param "reAuthEnabled" then
    if String.eqb value "TRUE"
    then (0, eapol_auth_step (upd (fun sm => sm <| reAuthEnabled := true |>) w))
    else if String.eqb value "FALSE"
    then (0, eapol_auth_step (upd (fun sm => sm <| reAuthEnabled := false |>) w))
    else (-1, w)
  else if strcaseeq param "KeyTransmissionEnabled" then
    if String.eqb value "TRUE"
    then (0, eapol_auth_step (upd (fun sm => sm <| keyTxEnabled := true |>) w))
    else if String.eqb value "FALSE"
    then (0, eapol_auth_step (upd (fun sm => sm <| keyTxEnabled := false |>) w))
    else (-1, w)
  else (-1, w).

(** ** Allocation *)

Record eapol_auth_config := mk_config {
  eap_reauth_period : Z; wpa : Z; individual_wep_key_len : Z;
  eap_req_id_text : option bytes; eap_req_id_text_len : Z;
  erp_send_reauth_start : Z; erp_domain : option bytes }.

Record eapol_authenticator := mk_authenticator {
  conf : eapol_auth_config;
  default_wep_key : option bytes; default_wep_key_idx : Z }.

Context `{M : Malloc}.

(** [os_strdup]: the copy has a terminator. *)
Definition os_strdup (s : bytes) : option bytes :=
  match os_malloc (length s + 1) with None => None | Some _ => Some s end.
(** [wpabuf_alloc_copy(data, len)]; its header is 32 bytes. *)
Definition wpabuf_alloc_copy (data : bytes) : option bytes :=
  match os_malloc (32 + length data) with None => None | Some _ => Some data end.

(** [eapol_auth_conf_clone(dst, src)] into a zeroed [dst]; [None] for -1. *)
Definition eapol_auth_conf_clone (src : eapol_auth_config) : option eapol_auth_config :=
  let wep := if CONFIG_WEP then src.(individual_wep_key_len) else 0 in
  text ← match src.(eap_req_id_text) with
         | Some t =>
           match os_memdup (take (Z.to_nat src.(eap_req_id_text_len)) t) with
           | None => None
           | Some t => Some (Some t, src.(eap_req_id_text_len))
           end
         | None => Some (None, 0)
         end;
  domain ← match src.(erp_domain) with
           | Some d => match os_strdup d with None => None | Some d => Some (Some d) end
           | None => Some None
           end;
  Some (mk_config src.(eap_reauth_period) src.(wpa) wep text.1 text.2
          src.(erp_send_reauth_start) domain).

Definition eapol_auth_init (config : eapol_auth_config) : option eapol_authenticator :=
  match eapol_auth_conf_clone config with
  | None => None
  | Some c =>
    let idx := if CONFIG_WEP && (0 <? config.(individual_wep_key_len)) then 1 else 0 in
    Some (mk_authenticator c None idx)
  end.

(** The calls of [eapol_auth_free]. *)
Definition eapol_auth_free (w : world) : list event :=
  let ev := CancelStep :: CancelTick :: w.(events) in
  match w.(sm).(eap) with None => ev | Some _ => EapDeinit :: ev end.

(** The machine as [eapol_auth_alloc] fills it in before it starts it;
    [e] is what [eap_server_sm_init] returned. *)
Definition eapol_auth_new (eapol : eapol_authenticator) (address : bytes) (fl : Z)
    (e : option eap_sm) : machine :=
  let sm := zero_sm <| radius_identifier := -1 |> <| addr := take 6 address |>
                    <| flags := fl |> in
  let sm := sm <| auth_pae_state := AUTH_PAE_INITIALIZE |>
               <| quietPeriod := AUTH_PAE_DEFAULT_quietPeriod |>
               <| reAuthMax := AUTH_PAE_DEFAULT_reAuthMax |> in
  let sm := sm <| be_auth_state := BE_AUTH_INITIALIZE |>
               <| serverTimeout := BE_AUTH_DEFAULT_serverTimeout |> in
  let sm := sm <| reauth_timer_state := REAUTH_TIMER_INITIALIZE |>
               <| reAuthPeriod := u32 eapol.(conf).(eap_reauth_period) |>
               <| reAuthEnabled := 0 <? eapol.(conf).(eap_reauth_period) |> in
  let sm := sm <| auth_key_tx_state := AUTH_KEY_TX_NO_KEY_TRANSMIT |>
               <| key_rx_state := KEY_RX_NO_KEY_RECEIVE |>
               <| ctrl_dir_state := CTRL_DIR_IN_OR_BOTH |> <| portControl := Auto |> in
  let tx := CONFIG_WEP && (eapol.(conf).(wpa) =? 0) &&
            ((eapol.(default_wep_key) != None) ||
             (0 <? eapol.(conf).(individual_wep_key_len))) in
  sm <| keyTxEnabled := tx |> <| portValid := eapol.(conf).(wpa) =? 0 |> <| eap := e |>.

(** The size of the machine does not matter to the allocator's answer.
    [session_id] is what [radius_gen_session_id] produced, [None] when it
    failed; the result carries the calls made on the way. *)
Definition eapol_auth_alloc (eapol : eapol_authenticator) (address : bytes) (fl : Z)
    (ident cui : option bytes) (session_id : option Z) : option world * list event :=
  match os_malloc 1 with
  | None => (None, [])
  | Some _ =>
    let e := eap_server_sm_init in
    let w := mk_world (eapol_auth_new eapol address fl e) [] in
    match e with
    | None => (None, eapol_auth_free w)
    | Some _ =>
      let w := upd (fun sm => sm <| eap_if := zero_eap_if |>) w in
      let w := eapol_auth_initialize w in
      let w :=
        match ident with
        | None => w
        | Some id =>
          match os_strdup id with
          | None => upd (fun sm => sm <| identity := None |>) w
          | Some s => upd (fun sm => sm <| identity := Some s |>
                                        <| identity_len := Z.of_nat (length id) |>) w
          end
        end in
      let w :=
        match cui with
        | None => w
        | Some c => upd (fun sm => sm <| radius_cui := wpabuf_alloc_copy c |>) w
        end in
      match session_id with
      | None => (None, eapol_auth_free w)
      | Some id => let w := upd (fun sm => sm <| acct_multi_session_id := id |>) w in
                   (Some w, w.(events))
      end
    end
  end.

(** ** Input from the access point: [ap/ieee802_1x.c] *)

Definition ieee802_1x_notify_port_valid (valid : bool) (w : world) : world :=
  eapol_auth_step (upd (fun sm => sm <| portValid := valid |>) w).

Definition ieee802_1x_notify_pre_auth (pre_auth : bool) (w : world) : world :=
  if pre_auth then upd (fun sm => sm <| flags ::= fun f => Z.lor f EAPOL_SM_PREAUTH |>) w
  else upd (fun sm => sm <| flags ::= fun f => Z.land f (Z.lnot EAPOL_SM_PREAUTH) |>) w.

(** [eap] points to [len] bytes that start with the EAP header. *)
Definition handle_eap_response (eap : bytes) (len : nat) (w : world) : world :=
  if (len <? EAP_HDR_LEN + 1)%nat then w else
  let w := upd (fun sm => sm <| eap_type_supp := get eap 4 |>) w in
  let w := upd (fun sm => sm <| dot1xAuthEapolRespFramesRx ::= incr |>) w in
  let w := upd_if (fun i => i <| eapRespData := wpabuf_alloc_copy (take len eap) |>) w in
  upd (fun sm => sm <| eapolEap := true |>) w.

Context (CONFIG_ERP : bool).

Definition handle_eap_initiate (eap : bytes) (len : nat) (w : world) : world :=
  if negb CONFIG_ERP then w else
  if (len <? EAP_HDR_LEN + 1)%nat then w else
  let w := upd_if (fun i => i <| eapRespData := wpabuf_alloc_copy (take len eap) |>) w in
  upd (fun sm => sm <| eapolEap := true |>) w.

Definition EAP_CODE_RESPONSE : Z := 2.
Definition EAP_CODE_INITIATE : Z := 5.

Definition handle_eap (buf : bytes) (w : world) : world :=
  if (length buf <? EAP_HDR_LEN)%nat then w else
  let eap_len := Z.to_nat (Z.lor (Z.shiftl (get buf 2) 8) (get buf 3)) in
  if (eap_len <? EAP_HDR_LEN)%nat then w
  else if (length buf <? eap_len)%nat then w
  else if get buf 0 =? EAP_CODE_RESPONSE then handle_eap_response buf eap_len w
  else if get buf 0 =? EAP_CODE_INITIATE then handle_eap_initiate buf eap_len w
  else w.

(** The part of [ieee802_1x_receive] that follows the checks on the station:
    one EAPOL frame body of type [type] reaches its machine. *)
Definition IEEE802_1X_TYPE_EAP_PACKET : Z := 0.
Definition IEEE802_1X_TYPE_EAPOL_START : Z := 1.
Definition IEEE802_1X_TYPE_EAPOL_LOGOFF : Z := 2.
Definition IEEE802_1X_TYPE_EAPOL_KEY : Z := 3.
Definition IEEE802_1X_TYPE_EAPOL_ENCAPSULATED_ASF_ALERT : Z := 4.
Definition IEEE802_1X_TYPE_EAPOL_MKA : Z := 5.

Context (CONFIG_MACSEC : bool).

Definition clear_identity (w : world) : world :=
  upd (fun sm => sm <| eap ::= option_map eap_server_clear_identity |>) w.

Definition ieee802_1x_receive_frame (type : Z) (body : bytes) (w : world) : world :=
  let w :=
    if type =? IEEE802_1X_TYPE_EAP_PACKET then handle_eap body w
    else if type =? IEEE802_1X_TYPE_EAPOL_START then
      let w := upd (fun sm => sm <| flags ::= fun f => Z.land f (Z.lnot EAPOL_SM_WAIT_START) |>) w in
      let w := upd (fun sm => sm <| eapolStart := true |>
                                 <| dot1xAuthEapolStartFramesRx ::= incr |>) w in
      clear_identity w
    else if type =? IEEE802_1X_TYPE_EAPOL_LOGOFF then
      let w := upd (fun sm => sm <| eapolLogoff := true |>
                                 <| dot1xAuthEapolLogoffFramesRx ::= incr |>) w in
      clear_identity w
    else if type =? IEEE802_1X_TYPE_EAPOL_KEY then w
    else if type =? IEEE802_1X_TYPE_EAPOL_ENCAPSULATED_ASF_ALERT then w
    else if CONFIG_MACSEC && (type =? IEEE802_1X_TYPE_EAPOL_MKA) then w
    else upd (fun sm => sm <| dot1xAuthInvalidEapolFramesRx ::= incr |>) w in
  eapol_auth_step w.

(** The fields of a PMKSA cache entry that are copied to the machine
    ([ap/pmksa_cache_auth.c]). *)
Record cached_data := mk_cached {
  c_identity : option bytes; c_cui : option bytes; c_eap_type : Z; c_session_id : Z }.

Definition pmksa_cache_to_eapol_data (c : cached_data) (w : world) : world :=
  let w :=
    match c.(c_identity) with
    | None => w
    | Some id =>
      match os_memdup id with
      | None => upd (fun sm => sm <| identity := None |>) w
      | Some id => upd (fun sm => sm <| identity := Some id |>
                                     <| identity_len := Z.of_nat (length id) |>) w
      end
    end in
  let w :=
    match c.(c_cui) with
    | None => w
    | Some cui => upd (fun sm => sm <| radius_cui := wpabuf_alloc_copy cui |>) w
    end in
  upd (fun sm => sm <| eap_type_authsrv := c.(c_eap_type) |>
                    <| acct_multi_session_id := c.(c_session_id) |>) w.

(** A key the station already has, from 802.11r or FILS or from the cache. *)
Inductive known_pmk := pmk_none | pmk_ft_fils | pmk_cache (c : cached_data).

(** The machine is put in the state that follows a successful EAP exchange. *)
Definition skip_eap (w : world) : world :=
  let w := upd (fun sm => sm <| keyRun := true |>) w in
  let w := upd_if (fun i => i <| eapKeyAvailable := true |>) w in
  let w := upd (fun sm => sm <| auth_pae_state := AUTH_PAE_AUTHENTICATING |>
                             <| be_auth_state := BE_AUTH_SUCCESS |>
                             <| authSuccess := true |> <| authFail := false |>) w in
  upd (fun sm => sm <| eap ::= option_map eap_sm_notify_cached |>) w.

(** [ieee802_1x_new_station] once the machine exists; [wait_start] is the WPS
    condition, [reassoc] whether the machine existed before. *)
Definition ieee802_1x_new_station (CONFIG_WPS wait_start reassoc : bool) (known : known_pmk)
    (w : world) : world :=
  let w :=
    if CONFIG_WPS then
      let w := upd (fun sm => sm <| flags ::= fun f => Z.land f (Z.lnot EAPOL_SM_WAIT_START) |>) w in
      if wait_start
      then upd (fun sm => sm <| flags ::= fun f => Z.lor f EAPOL_SM_WAIT_START |>) w else w
    else w in
  let w := upd_if (fun i => i <| portEnabled := true |>) w in
  match known with
  | pmk_ft_fils => upd (fun sm => sm <| portValid := true |>) (skip_eap w)
  | pmk_cache c => pmksa_cache_to_eapol_data c (skip_eap w)
  | pmk_none =>
    let w := if reassoc then upd (fun sm => sm <| reAuthenticate := true |>) w else w in
    eapol_auth_step w
  end.
End eapol.
