(* ===== verification/EapolProofs.v ===== *)
(** * The EAPOL authenticator: proofs

    First what each state machine leaves alone, then an induction principle
    for [step_run], the inputs of the machine and its reachable states, and the
    properties: the port status is what was last reported, the port opens only
    after success, an authentication failure is held for the quiet period. *)

From S2P Require Import Prelude EapolState EapolAuth.

Ltac w_simpl :=
  cbn [EapolAuth.sm events set_sm set_events world_eta emit upd upd_if set]; sm_simpl.

(** The last report made to the access point. *)
Fixpoint last_port (l : list event) : option bool :=
  match l with
  | [] => None
  | SetPortAuthorized b :: _ => Some b
  | _ :: l => last_port l
  end.

Definition is_port_event (e : event) : bool :=
  match e with SetPortAuthorized _ => true | _ => false end.

(** How often the port was opened. *)
Fixpoint times_opened (l : list event) : nat :=
  match l with
  | [] => 0
  | SetPortAuthorized true :: l => S (times_opened l)
  | _ :: l => times_opened l
  end.

Lemma times_opened_cons e l : is_port_event e = false -> times_opened (e :: l) = times_opened l.
Proof. by destruct e. Qed.

Lemma last_port_cons e l : is_port_event e = false -> last_port (e :: l) = last_port l.
Proof. by destruct e. Qed.

Section frames.
Context `{E : EapServer}.
Abbreviation W := (world (E := E)).

Lemma sm_upd f (w : W) : (upd f w).(sm) = f w.(sm).
Proof. done. Qed.
Lemma events_upd f (w : W) : (upd f w).(events) = w.(events).
Proof. done. Qed.

(** What the machines other than AUTH_PAE leave alone. *)
Record same_port (w w' : W) : Prop := {
  sp_pae : w'.(sm).(auth_pae_state) = w.(sm).(auth_pae_state);
  sp_status : w'.(sm).(authPortStatus) = w.(sm).(authPortStatus);
  sp_mode : w'.(sm).(portMode) = w.(sm).(portMode);
  sp_control : w'.(sm).(portControl) = w.(sm).(portControl);
  sp_quiet : w'.(sm).(quietWhile) = w.(sm).(quietWhile);
  sp_init : w'.(sm).(initialize) = w.(sm).(initialize);
  sp_enabled : w'.(sm).(eap_if).(portEnabled) = true -> w.(sm).(eap_if).(portEnabled) = true;
  sp_stays : w.(sm).(portControl) = Auto -> w.(sm).(initialize) = false ->
             w.(sm).(authAbort) = false ->
             w'.(sm).(eap_if).(portEnabled) = w.(sm).(eap_if).(portEnabled) /\
             w'.(sm).(authAbort) = false;
  sp_last : last_port w'.(events) = last_port w.(events);
  sp_opened : times_opened w'.(events) = times_opened w.(events) }.

#[global] Instance same_port_preorder : PreOrder same_port.
Proof.
  split; [by split|]. intros w1 w2 w3 [] []. split; try (etrans; eassumption); [auto|].
  intros Hc Hi Ha. destruct (sp_stays0 Hc Hi Ha) as [E1 E2]. rewrite <- E1. apply sp_stays1; congruence.
Qed.

Lemma same_port_tx_req w : same_port w (eapol_auth_tx_req w).
Proof.
  unfold eapol_auth_tx_req. destruct (eapReqData _); [|by split].
  destruct (_ <? _)%nat; [by split|]. destruct (has_flag _ _); [by split|].
  destruct (_ =? _); split; w_simpl; first [reflexivity | exact id | intros; by split].
Qed.

(** The whole effect is on other fields and on other events. *)
Ltac frame :=
  unfold sm_BE_AUTH_IDLE_Enter, sm_BE_AUTH_RESPONSE_Enter,
    sm_BE_AUTH_TIMEOUT_Enter, sm_BE_AUTH_IGNORE_Enter, sm_REAUTH_TIMER_INITIALIZE_Enter,
    sm_REAUTH_TIMER_REAUTHENTICATE_Enter, sm_AUTH_KEY_TX_NO_KEY_TRANSMIT_Enter,
    sm_AUTH_KEY_TX_KEY_TRANSMIT_Enter, sm_KEY_RX_NO_KEY_RECEIVE_Enter,
    sm_KEY_RX_KEY_RECEIVE_Enter, sm_CTRL_DIR_FORCE_BOTH_Enter, sm_CTRL_DIR_IN_OR_BOTH_Enter,
    BE_AUTH_entry, REAUTH_TIMER_entry, AUTH_KEY_TX_entry, KEY_RX_entry, CTRL_DIR_entry in *;
  split; w_simpl; cbn [last_port times_opened];
    first [reflexivity | exact id | intros; split; [reflexivity|assumption]
          | intros; split; reflexivity].
Ltac via_tx := etrans; [|etrans; [apply same_port_tx_req|frame] ]; frame.

Lemma same_port_REQUEST w : same_port w (sm_BE_AUTH_REQUEST_Enter false w).
Proof. unfold sm_BE_AUTH_REQUEST_Enter. via_tx. Qed.
Lemma same_port_SUCCESS w : same_port w (sm_BE_AUTH_SUCCESS_Enter false w).
Proof. unfold sm_BE_AUTH_SUCCESS_Enter. via_tx. Qed.
Lemma same_port_FAIL w : same_port w (sm_BE_AUTH_FAIL_Enter false w).
Proof. unfold sm_BE_AUTH_FAIL_Enter. via_tx. Qed.

(** The callback may disable the port, when an authentication is aborted. *)
Lemma same_port_INITIALIZE g w :
  w.(sm).(portControl) <> Auto \/ w.(sm).(initialize) = true \/ w.(sm).(authAbort) = true ->
  same_port w (sm_BE_AUTH_INITIALIZE_Enter g w).
Proof.
  intros Hg. unfold sm_BE_AUTH_INITIALIZE_Enter, ieee802_1x_abort_auth, ap_sta_disconnect,
    ieee802_1x_notify_port_enabled, eapol_auth_step, BE_AUTH_entry.
  cbv zeta. destruct (eapTimeout _); split; w_simpl; cbn [last_port times_opened];
    try first [reflexivity | exact id | discriminate].
  all: intros; destruct Hg as [?|[?|?] ]; congruence.
Qed.

Lemma same_port_BE_AUTH w : same_port w (sm_BE_AUTH_Step w).
Proof.
  unfold sm_BE_AUTH_Step. destruct (_ || _ || _) eqn:Hg.
  { apply same_port_INITIALIZE. apply orb_prop in Hg as [ [Hg|Hg]%orb_prop|Hg]; [left|tauto..].
    by apply negb_true_iff, bool_decide_eq_false in Hg. }
  repeat case_match;
    lazymatch goal with
    | |- same_port _ (sm_BE_AUTH_REQUEST_Enter _ _) => etrans; [|apply same_port_REQUEST]
    | |- same_port _ (sm_BE_AUTH_SUCCESS_Enter _ _) => etrans; [|apply same_port_SUCCESS]
    | |- same_port _ (sm_BE_AUTH_FAIL_Enter _ _) => etrans; [|apply same_port_FAIL]
    | _ => idtac
    end; frame.
Qed.

Lemma same_port_REAUTH_TIMER w : same_port w (sm_REAUTH_TIMER_Step w).
Proof. unfold sm_REAUTH_TIMER_Step. repeat case_match; frame. Qed.

Lemma same_port_AUTH_KEY_TX w : same_port w (sm_AUTH_KEY_TX_Step w).
Proof. unfold sm_AUTH_KEY_TX_Step. repeat case_match; frame. Qed.

Lemma same_port_KEY_RX w : same_port w (sm_KEY_RX_Step w).
Proof. unfold sm_KEY_RX_Step. repeat case_match; frame. Qed.

Lemma same_port_CTRL_DIR w : same_port w (sm_CTRL_DIR_Step w).
Proof. unfold sm_CTRL_DIR_Step. repeat case_match; frame. Qed.

Lemma same_port_emit e w : is_port_event e = false -> same_port w (emit e w).
Proof. intros He. split; w_simpl; try first [reflexivity | exact id | intros; by split];
  [by apply last_port_cons|by apply times_opened_cons]. Qed.

Lemma same_port_users users (s : eapol_state_machine eap_sm) :
  let s' := foldl (fun sm u => eapol_sm_get_eap_user u sm) s users in
  s' = s \/ s' = s <| remediation := 1 |>.
Proof.
  cbv zeta. induction users as [|u users IH] using rev_ind; [by left|].
  rewrite foldl_app. cbn [foldl].
  destruct IH as [E0 | E0]; rewrite E0; unfold eapol_sm_get_eap_user; case_match;
    first [by left | by right].
Qed.

Context `{EL : !EapServerLaws E}.

Lemma same_port_eap_step e w : same_port w (eap_step e w).1.
Proof.
  unfold eap_step. pose proof (eap_step_portEnabled e w.(sm).(eap_if)) as Hp.
  destruct (eap_server_sm_step e _) as [ [ [e' i'] users] again]. cbn [fst snd] in *.
  destruct (same_port_users users w.(sm)) as [Eu | Eu];
    split; rewrite ?sm_upd, ?events_upd; rewrite ?Eu; sm_simpl; rewrite ?Hp; done.
Qed.

Section run.
Context (wep : bool) (alive : list event -> bool).

Lemma same_port_if_alive step w :
  (forall w, same_port w (step w)) -> same_port w (step_if_alive alive step w).
Proof. intros Hs. unfold step_if_alive. by case_match. Qed.

Lemma same_port_if_wep step w :
  (forall w, same_port w (step w)) ->
  same_port w (if wep then step_if_alive alive step w else w).
Proof. intros Hs. case_match; [by apply same_port_if_alive|reflexivity]. Qed.

(** One pass changes the port only through AUTH_PAE. *)
Lemma same_port_run_machines w :
  same_port (sm_AUTH_PAE_Step w) (run_machines wep alive w).
Proof.
  unfold run_machines.
  etrans; [|apply same_port_if_alive, same_port_CTRL_DIR].
  etrans; [|apply same_port_if_wep, same_port_KEY_RX].
  etrans; [|apply same_port_if_wep, same_port_AUTH_KEY_TX].
  etrans; [|apply same_port_if_alive, same_port_REAUTH_TIMER].
  apply same_port_if_alive, same_port_BE_AUTH.
Qed.

(** What holds after the first pass, and through every later one, holds
    after the run. *)
Lemma step_run_first (P : W -> Prop) :
  (forall w, P w -> P (run_machines wep alive w)) ->
  (forall e w, P w -> P (eap_step e w).1) ->
  (forall w, P w -> P (upd_if (fun i => i <| aaaEapResp := false |>) w)) ->
  (forall e w, is_port_event e = false -> P w -> P (emit e w)) ->
  forall n w, P (run_machines wep alive w) -> P (step_run wep alive (S n) w).
Proof.
  intros Hrun Heap Haaa Hemit n. induction n as [n IH] using lt_wf_ind. intros w Hw.
  cbn [step_run]. set (w1 := run_machines wep alive w) in *.
  assert (Hrestart : forall w, P w ->
    P (if (0 <? n)%nat then step_run wep alive n w else eapol_auth_step w)).
  { intros w' Hw'. destruct n as [|n]; [by apply Hemit|].
    apply IH; [lia|]. by apply Hrun. }
  assert (Hnotify : forall w, P w ->
    P (if eapol_sm_sta_entry_alive alive w then emit (EapolEvent EAPOL_AUTH_SM_CHANGE) w else w)).
  { intros w' Hw'. destruct (eapol_sm_sta_entry_alive alive w'); [by apply Hemit|done]. }
  destruct (negb _); [by apply Hrestart|].
  destruct (eapol_sm_sta_entry_alive alive w1) eqn:Ha; [|done].
  destruct (eap (sm w1)) as [e|]; [|by apply Hemit].
  pose proof (Heap e w1 Hw) as Hw2. destruct (eap_step e w1) as [w2 again]. cbn [fst] in Hw2.
  destruct again; [by apply Hrestart|].
  destruct (aaaEapResp _); [|by apply Hnotify].
  apply Haaa in Hw2. destruct (aaaEapRespData _); [|done].
  by apply Hnotify, Hemit.
Qed.

Lemma step_run_ind (P : W -> Prop) :
  (forall w, P w -> P (run_machines wep alive w)) ->
  (forall e w, P w -> P (eap_step e w).1) ->
  (forall w, P w -> P (upd_if (fun i => i <| aaaEapResp := false |>) w)) ->
  (forall e w, is_port_event e = false -> P w -> P (emit e w)) ->
  forall n w, P w -> P (step_run wep alive n w).
Proof.
  intros Hrun Heap Haaa Hemit n w Hw. destruct n as [|n]; [done|].
  apply step_run_first; [done..|]. by apply Hrun.
Qed.

(** The same for a property of the port alone. *)
Lemma step_run_port (P : W -> Prop) :
  (forall w, P w -> P (sm_AUTH_PAE_Step w)) ->
  (forall w w', same_port w w' -> P w -> P w') ->
  forall n w, P w -> P (step_run wep alive n w).
Proof.
  intros Hs Hp. apply step_run_ind.
  - intros w Hw. eapply Hp; [apply same_port_run_machines|by apply Hs].
  - intros e w. apply Hp, same_port_eap_step.
  - intros w. apply Hp. frame.
  - intros e w He. apply Hp. by apply same_port_emit.
Qed.

Lemma step_run_port_first (P : W -> Prop) :
  (forall w, P w -> P (sm_AUTH_PAE_Step w)) ->
  (forall w w', same_port w w' -> P w -> P w') ->
  forall n w, P (sm_AUTH_PAE_Step w) -> P (step_run wep alive (S n) w).
Proof.
  intros Hs Hp n w Hw. apply step_run_first.
  - intros w' Hw'. eapply Hp; [apply same_port_run_machines|by apply Hs].
  - intros e w'. apply Hp, same_port_eap_step.
  - intros w'. apply Hp. frame.
  - intros e w' He. apply Hp. by apply same_port_emit.
  - eapply Hp; [apply same_port_run_machines|done].
Qed.
End run.
End frames.

(** ** The authenticator PAE as a transition function *)

Section pae.
Context `{E : EapServer}.
Abbreviation W := (world (E := E)).
Abbreviation machine := (eapol_state_machine eap_sm).

(** The state AUTH_PAE enters next: [(global, state)], or nothing. *)
Definition auth_pae_next (s : machine) : option (bool * auth_pae) :=
  let down := s.(initialize) || negb s.(eap_if).(portEnabled) in
  let mode_changed := s.(portMode) != s.(portControl) in
  if ((s.(portControl) == Auto) && mode_changed) || down then Some (true, AUTH_PAE_INITIALIZE)
  else if (s.(portControl) == ForceAuthorized) && mode_changed
  then Some (true, AUTH_PAE_FORCE_AUTH)
  else if (s.(portControl) == ForceUnauthorized) && mode_changed
  then Some (true, AUTH_PAE_FORCE_UNAUTH)
  else
    let go st := Some (false, st) in
    match s.(auth_pae_state) with
    | AUTH_PAE_INITIALIZE => go AUTH_PAE_DISCONNECTED
    | AUTH_PAE_DISCONNECTED => go AUTH_PAE_RESTART
    | AUTH_PAE_RESTART => if s.(eap_if).(eapRestart) then None else go AUTH_PAE_CONNECTING
    | AUTH_PAE_HELD => if s.(quietWhile) =? 0 then go AUTH_PAE_RESTART else None
    | AUTH_PAE_CONNECTING =>
      if s.(eapolLogoff) || (s.(reAuthMax) <? s.(reAuthCount)) then go AUTH_PAE_DISCONNECTED
      else if s.(eap_if).(eapReq) || s.(eap_if).(eapSuccess) || s.(eap_if).(eapFail)
      then go AUTH_PAE_AUTHENTICATING else None
    | AUTH_PAE_AUTHENTICATED =>
      if s.(eapolStart) || s.(reAuthenticate) then go AUTH_PAE_RESTART
      else if s.(eapolLogoff) || negb s.(portValid) then go AUTH_PAE_DISCONNECTED else None
    | AUTH_PAE_AUTHENTICATING =>
      if s.(authSuccess) && s.(portValid) then go AUTH_PAE_AUTHENTICATED
      else if s.(authFail) || (s.(keyDone) && negb s.(portValid)) then go AUTH_PAE_HELD
      else if s.(eapolStart) || s.(eapolLogoff) || s.(authTimeout) then go AUTH_PAE_ABORTING
      else None
    | AUTH_PAE_ABORTING =>
      if s.(authAbort) then None
      else if s.(eapolLogoff) then go AUTH_PAE_DISCONNECTED else go AUTH_PAE_RESTART
    | AUTH_PAE_FORCE_AUTH => if s.(eapolStart) then go AUTH_PAE_FORCE_AUTH else None
    | AUTH_PAE_FORCE_UNAUTH => if s.(eapolStart) then go AUTH_PAE_FORCE_UNAUTH else None
    end.

Definition auth_pae_enter (global : bool) (st : auth_pae) : W -> W :=
  match st with
  | AUTH_PAE_INITIALIZE => sm_AUTH_PAE_INITIALIZE_Enter global
  | AUTH_PAE_DISCONNECTED => sm_AUTH_PAE_DISCONNECTED_Enter global
  | AUTH_PAE_CONNECTING => sm_AUTH_PAE_CONNECTING_Enter global
  | AUTH_PAE_AUTHENTICATING => sm_AUTH_PAE_AUTHENTICATING_Enter global
  | AUTH_PAE_AUTHENTICATED => sm_AUTH_PAE_AUTHENTICATED_Enter global
  | AUTH_PAE_ABORTING => sm_AUTH_PAE_ABORTING_Enter global
  | AUTH_PAE_HELD => sm_AUTH_PAE_HELD_Enter global
  | AUTH_PAE_FORCE_AUTH => sm_AUTH_PAE_FORCE_AUTH_Enter global
  | AUTH_PAE_FORCE_UNAUTH => sm_AUTH_PAE_FORCE_UNAUTH_Enter global
  | AUTH_PAE_RESTART => sm_AUTH_PAE_RESTART_Enter global
  end.

(** The redundant tests of the code drop out. *)
Lemma auth_pae_step_next (w : W) :
  sm_AUTH_PAE_Step w =
  match auth_pae_next w.(sm) with None => w | Some (g, st) => auth_pae_enter g st w end.
Proof.
  unfold sm_AUTH_PAE_Step, auth_pae_next. cbv zeta.
  destruct (initialize _); cbn [orb negb]; [by rewrite !orb_true_r|].
  destruct (portEnabled _); cbn [orb negb]; [|by rewrite !orb_true_r].
  rewrite !orb_false_r, !andb_true_r.
  destruct (_ && _); [done|]. destruct (_ && _); [done|]. destruct (_ && _); [done|].
  destruct (auth_pae_state _); try (by repeat case_match).
  - destruct (eapolLogoff _); [done|]. cbn [orb].
    rewrite (Z.leb_antisym (reAuthMax _)).
    destruct (_ <? _); [done|]. cbn [negb]. rewrite andb_true_r. by case_match.
  - destruct (eapolLogoff _), (authAbort _); done.
  - by destruct (eapRestart _).
Qed.

(** *** What entering a state does to the port *)

Definition status_after (st : auth_pae) (status : PortState) : PortState :=
  match st with
  | AUTH_PAE_DISCONNECTED | AUTH_PAE_HELD | AUTH_PAE_FORCE_UNAUTH => Unauthorized
  | AUTH_PAE_AUTHENTICATED | AUTH_PAE_FORCE_AUTH => Authorized
  | _ => status
  end.
Definition report_after (st : auth_pae) (last : option bool) : option bool :=
  match st with
  | AUTH_PAE_DISCONNECTED | AUTH_PAE_HELD | AUTH_PAE_FORCE_UNAUTH => Some false
  | AUTH_PAE_AUTHENTICATED | AUTH_PAE_FORCE_AUTH => Some true
  | _ => last
  end.
Definition opens_in (st : auth_pae) : nat :=
  match st with AUTH_PAE_AUTHENTICATED | AUTH_PAE_FORCE_AUTH => 1 | _ => 0 end.
Definition mode_after (st : auth_pae) (mode : PortTypes) : PortTypes :=
  match st with
  | AUTH_PAE_INITIALIZE => Auto
  | AUTH_PAE_FORCE_AUTH => ForceAuthorized
  | AUTH_PAE_FORCE_UNAUTH => ForceUnauthorized
  | _ => mode
  end.

Record entered (st : auth_pae) (w w' : W) : Prop := {
  en_pae : w'.(sm).(auth_pae_state) = st;
  en_status : w'.(sm).(authPortStatus) = status_after st w.(sm).(authPortStatus);
  en_mode : w'.(sm).(portMode) = mode_after st w.(sm).(portMode);
  en_control : w'.(sm).(portControl) = w.(sm).(portControl);
  en_init : w'.(sm).(initialize) = w.(sm).(initialize);
  en_success : w'.(sm).(authSuccess) =
    match st with AUTH_PAE_AUTHENTICATING => false | _ => w.(sm).(authSuccess) end;
  en_eap : w'.(sm).(eap_if).(eapSuccess) = w.(sm).(eap_if).(eapSuccess);
  en_enabled : w'.(sm).(eap_if).(portEnabled) = w.(sm).(eap_if).(portEnabled);
  en_abort : w'.(sm).(authAbort) =
    match st with AUTH_PAE_ABORTING => true | _ => w.(sm).(authAbort) end;
  en_quiet : w'.(sm).(quietWhile) =
    match st with AUTH_PAE_HELD => to_int w.(sm).(quietPeriod) | _ => w.(sm).(quietWhile) end;
  en_last : last_port w'.(events) = report_after st (last_port w.(events));
  en_opened : times_opened w'.(events) = (opens_in st + times_opened w.(events))%nat }.

Lemma entered_finished st b w w' : entered st w w' -> entered st w (finished b w').
Proof. by intros []. Qed.

(** Counters and the canned packet do not matter. *)
Record same_pae (w w' : W) : Prop := {
  pe_port : same_port w w';
  pe_success : w'.(sm).(authSuccess) = w.(sm).(authSuccess);
  pe_eap : w'.(sm).(eap_if).(eapSuccess) = w.(sm).(eap_if).(eapSuccess);
  pe_enabled : w'.(sm).(eap_if).(portEnabled) = w.(sm).(eap_if).(portEnabled);
  pe_abort : w'.(sm).(authAbort) = w.(sm).(authAbort);
  pe_period : w'.(sm).(quietPeriod) = w.(sm).(quietPeriod) }.

Lemma entered_before st w w1 w2 : same_pae w w1 -> entered st w1 w2 -> entered st w w2.
Proof.
  intros [ [] ? ? ? ? ?] [].
  split; destruct st; cbn [status_after mode_after report_after opens_in] in *; congruence.
Qed.

Ltac pae_frame :=
  repeat split; w_simpl; cbn [last_port times_opened status_after report_after mode_after opens_in Nat.add];
    first [reflexivity | exact id | assumption].

(** The counters that the entry code updates first. *)
Ltac skip_counters w1 :=
  lazymatch goal with
  | |- entered ?st ?w _ =>
    assert (Hw1 : same_pae w w1) by (unfold w1; repeat case_match; pae_frame);
    apply (entered_before st w w1); [exact Hw1|]; clearbody w1
  end.

Lemma entered_AUTH_PAE_INITIALIZE g (w : W) : entered AUTH_PAE_INITIALIZE w (sm_AUTH_PAE_INITIALIZE_Enter g w).
Proof. unfold sm_AUTH_PAE_INITIALIZE_Enter, AUTH_PAE_entry. pae_frame. Qed.

Lemma entered_DISCONNECTED g (w : W) :
  entered AUTH_PAE_DISCONNECTED w (sm_AUTH_PAE_DISCONNECTED_Enter g w).
Proof.
  unfold sm_AUTH_PAE_DISCONNECTED_Enter, AUTH_PAE_entry.
  set (w1 := if eapolLogoff _ then _ else w). skip_counters w1.
  destruct (negb _); [apply entered_finished|]; pae_frame.
Qed.

Lemma entered_RESTART g (w : W) : entered AUTH_PAE_RESTART w (sm_AUTH_PAE_RESTART_Enter g w).
Proof.
  unfold sm_AUTH_PAE_RESTART_Enter, AUTH_PAE_entry.
  set (w1 := if _ == _ then _ else w). skip_counters w1. pae_frame.
Qed.

Lemma entered_CONNECTING g (w : W) :
  entered AUTH_PAE_CONNECTING w (sm_AUTH_PAE_CONNECTING_Enter g w).
Proof.
  unfold sm_AUTH_PAE_CONNECTING_Enter, AUTH_PAE_entry.
  set (w1 := if _ != _ then _ else w). skip_counters w1. pae_frame.
Qed.

(** The entry of HELD and AUTHENTICATED up to the [finished] callback. *)
Lemma entered_HELD_body g (w : W) :
  entered AUTH_PAE_HELD w (
    let w := AUTH_PAE_entry g AUTH_PAE_HELD w in
    let w := upd (fun sm => sm <| authPortStatus := Unauthorized |>) w in
    let w := setPortUnauthorized w in
    upd (fun sm => sm <| quietWhile := to_int sm.(quietPeriod) |> <| eapolLogoff := false |>) w).
Proof. unfold AUTH_PAE_entry. pae_frame. Qed.

Lemma entered_HELD g (w : W) : entered AUTH_PAE_HELD w (sm_AUTH_PAE_HELD_Enter g w).
Proof.
  unfold sm_AUTH_PAE_HELD_Enter. set (w1 := if _ && _ then _ else w).
  assert (Hw1 : same_pae w w1) by (unfold w1; repeat case_match; pae_frame).
  apply (entered_before _ w w1); [exact Hw1|].
  apply entered_finished, (entered_HELD_body g w1).
Qed.

Lemma entered_AUTHENTICATED_body g (w : W) :
  entered AUTH_PAE_AUTHENTICATED w (
    let w := AUTH_PAE_entry g AUTH_PAE_AUTHENTICATED w in
    let w := upd (fun sm => sm <| authPortStatus := Authorized |>) w in
    let w := setPortAuthorized w in
    upd (fun sm => sm <| reAuthCount := 0 |>) w).
Proof. unfold AUTH_PAE_entry. pae_frame. Qed.

Lemma entered_AUTHENTICATED g (w : W) :
  entered AUTH_PAE_AUTHENTICATED w (sm_AUTH_PAE_AUTHENTICATED_Enter g w).
Proof.
  unfold sm_AUTH_PAE_AUTHENTICATED_Enter. set (w1 := if _ && _ then _ else w).
  assert (Hw1 : same_pae w w1) by (unfold w1; repeat case_match; pae_frame).
  apply (entered_before _ w w1); [exact Hw1|].
  apply entered_finished, (entered_AUTHENTICATED_body g w1).
Qed.

Lemma entered_AUTHENTICATING g (w : W) :
  entered AUTH_PAE_AUTHENTICATING w (sm_AUTH_PAE_AUTHENTICATING_Enter g w).
Proof. unfold sm_AUTH_PAE_AUTHENTICATING_Enter, AUTH_PAE_entry. pae_frame. Qed.

Lemma entered_ABORTING g (w : W) :
  entered AUTH_PAE_ABORTING w (sm_AUTH_PAE_ABORTING_Enter g w).
Proof.
  unfold sm_AUTH_PAE_ABORTING_Enter, AUTH_PAE_entry.
  set (w1 := if _ == _ then _ else w). skip_counters w1. pae_frame.
Qed.

Lemma entered_FORCE_AUTH g (w : W) :
  entered AUTH_PAE_FORCE_AUTH w (sm_AUTH_PAE_FORCE_AUTH_Enter g w).
Proof.
  unfold sm_AUTH_PAE_FORCE_AUTH_Enter, AUTH_PAE_entry, eapol_auth_tx_canned_eap. pae_frame.
Qed.

Lemma entered_FORCE_UNAUTH g (w : W) :
  entered AUTH_PAE_FORCE_UNAUTH w (sm_AUTH_PAE_FORCE_UNAUTH_Enter g w).
Proof.
  unfold sm_AUTH_PAE_FORCE_UNAUTH_Enter, AUTH_PAE_entry, eapol_auth_tx_canned_eap. pae_frame.
Qed.

Lemma auth_pae_entered g st (w : W) : entered st w (auth_pae_enter g st w).
Proof.
  destruct st;
    [apply entered_AUTH_PAE_INITIALIZE | apply entered_DISCONNECTED | apply entered_CONNECTING
    | apply entered_AUTHENTICATING | apply entered_AUTHENTICATED | apply entered_ABORTING
    | apply entered_HELD | apply entered_FORCE_AUTH | apply entered_FORCE_UNAUTH
    | apply entered_RESTART].
Qed.
End pae.
