(* ===== verification/EapolProps.v ===== *)
(** * The EAPOL authenticator: properties

    The inputs a machine receives, its reachable states, and what holds in all
    of them. *)

From S2P Require Import Prelude EapolState EapolAuth EapolProofs.

Section properties.
Context `{E : EapServer} (CONFIG_WEP CONFIG_WPS CONFIG_ERP CONFIG_MACSEC : bool).
Context (alive : list event -> bool) `{M : Malloc}.
Abbreviation W := (world (E := E)).

(** ** Inputs

    The timer and the event loop, the peer's frames, the access point, the
    management interface, the EAP server's and the AAA server's answers. *)

Inductive input :=
| in_tick
| in_step_cb
| in_frame (type : Z) (body : bytes)
| in_reauthenticate
| in_eap_pending (ctx_is_eap : bool)
| in_aaa (req noreq success fail : bool) (data : option bytes)
| in_auth_fail
| in_port_valid (valid : bool)
| in_pre_auth (pre_auth : bool)
| in_port_enabled (enabled : bool)
| in_set_conf (param value : string)
| in_new_station (wait_start reassoc : bool) (known : known_pmk).

Definition apply_input (i : input) (w : W) : W :=
  match i with
  | in_tick => eapol_port_timers_tick CONFIG_WEP alive w
  | in_step_cb => eapol_sm_step_cb CONFIG_WEP alive w
  | in_frame type body => ieee802_1x_receive_frame CONFIG_ERP CONFIG_MACSEC type body w
  | in_reauthenticate => eapol_auth_reauthenticate w
  | in_eap_pending b => (eapol_auth_eap_pending_cb b w).2
  | in_aaa req noreq success fail data =>
    upd_if (fun i => i <| aaaEapReq := req |> <| aaaEapNoReq := noreq |>
                       <| aaaSuccess := success |> <| aaaFail := fail |>
                       <| aaaEapReqData := data |>) w
  | in_auth_fail => upd (fun sm => sm <| authFail := true |>) w
  | in_port_valid b => ieee802_1x_notify_port_valid b w
  | in_pre_auth b => ieee802_1x_notify_pre_auth b w
  | in_port_enabled b => ieee802_1x_notify_port_enabled b w
  | in_set_conf p v => (eapol_auth_set_conf p v w).2
  | in_new_station wait_start reassoc known =>
    ieee802_1x_new_station CONFIG_WPS wait_start reassoc known w
  end.

Inductive reachable : W -> Prop :=
| reach_alloc eapol address fl ident cui id w ev :
    eapol_auth_alloc CONFIG_WEP alive eapol address fl ident cui id = (Some w, ev) ->
    reachable w
| reach_input i w : reachable w -> reachable (apply_input i w).

(** The inputs that run no machine leave the port alone. *)
Definition quiet_input (i : input) : bool :=
  match i with in_tick | in_step_cb => false | _ => true end.

Record same_status (w w' : W) : Prop := {
  ss_pae : w'.(sm).(auth_pae_state) = w.(sm).(auth_pae_state) \/
           w'.(sm).(auth_pae_state) = AUTH_PAE_AUTHENTICATING;
  ss_status : w'.(sm).(authPortStatus) = w.(sm).(authPortStatus);
  ss_events : w'.(events) = w.(events) \/ w'.(events) = ScheduleStep :: w.(events) }.

(** Everything the peer and the EAP exchange can touch without a machine
    running; the fields that decide about the port are not among it. *)
Record same_control (w w' : W) : Prop := {
  sc_pae : w'.(sm).(auth_pae_state) = w.(sm).(auth_pae_state);
  sc_status : w'.(sm).(authPortStatus) = w.(sm).(authPortStatus);
  sc_mode : w'.(sm).(portMode) = w.(sm).(portMode);
  sc_control : w'.(sm).(portControl) = w.(sm).(portControl);
  sc_quiet : w'.(sm).(quietWhile) = w.(sm).(quietWhile);
  sc_init : w'.(sm).(initialize) = w.(sm).(initialize);
  sc_success : w'.(sm).(authSuccess) = w.(sm).(authSuccess);
  sc_eap : w'.(sm).(eap_if).(eapSuccess) = w.(sm).(eap_if).(eapSuccess);
  sc_enabled : w'.(sm).(eap_if).(portEnabled) = w.(sm).(eap_if).(portEnabled);
  sc_abort : w'.(sm).(authAbort) = w.(sm).(authAbort);
  sc_events : w'.(events) = w.(events) \/ w'.(events) = ScheduleStep :: w.(events) }.

#[local] Instance same_control_refl : Reflexive same_control.
Proof. split; by try left. Qed.

Ltac touch := split; w_simpl; first [reflexivity | left; reflexivity | right; reflexivity].

Lemma same_control_step w w' :
  same_control w w' -> w'.(events) = w.(events) -> same_control w (eapol_auth_step w').
Proof.
  intros [] He. split; try assumption. right.
  change (events (eapol_auth_step w')) with (ScheduleStep :: events w'). by rewrite He.
Qed.

Lemma handle_eap_control body w :
  same_control w (handle_eap CONFIG_ERP body w) /\
  (handle_eap CONFIG_ERP body w).(events) = w.(events).
Proof.
  unfold handle_eap, handle_eap_response, handle_eap_initiate.
  repeat case_match; split; try reflexivity; touch.
Qed.

Lemma receive_frame_control type body w :
  same_control w (ieee802_1x_receive_frame CONFIG_ERP CONFIG_MACSEC type body w).
Proof.
  unfold ieee802_1x_receive_frame.
  destruct (type =? IEEE802_1X_TYPE_EAP_PACKET).
  { destruct (handle_eap_control body w). by apply same_control_step. }
  repeat case_match; touch.
Qed.

Lemma set_conf_control param value w :
  (eapol_auth_set_conf param value w).2.(sm).(portControl) = w.(sm).(portControl) ->
  same_control w (eapol_auth_set_conf param value w).2.
Proof.
  unfold eapol_auth_set_conf.
  repeat case_match; cbn [snd]; intros Hc; split; w_simpl;
    first [reflexivity | exact Hc | left; reflexivity | right; reflexivity].
Qed.

Lemma new_station_none_control wait_start reassoc w :
  w.(sm).(eap_if).(portEnabled) = true ->
  same_control w (ieee802_1x_new_station CONFIG_WPS wait_start reassoc pmk_none w).
Proof.
  intros Hp. unfold ieee802_1x_new_station.
  repeat case_match; split; w_simpl;
    first [reflexivity | by symmetry | left; reflexivity | right; reflexivity].
Qed.

(** Inputs that the peer and the servers can cause at any time. *)
Definition peer_input (i : input) : bool :=
  match i with
  | in_tick | in_step_cb | in_frame _ _ | in_reauthenticate | in_eap_pending _
  | in_aaa _ _ _ _ _ | in_auth_fail | in_port_valid _ | in_pre_auth _ => true
  | _ => false
  end.

Lemma peer_input_control i w :
  peer_input i = true -> quiet_input i = true -> same_control w (apply_input i w).
Proof.
  destruct i; try done; intros _ _; cbn [apply_input];
    unfold eapol_auth_reauthenticate, eapol_auth_eap_pending_cb, ieee802_1x_notify_port_valid,
      ieee802_1x_notify_pre_auth.
  - apply receive_frame_control.
  - touch.
  - repeat case_match; cbn [snd]; first [reflexivity | touch].
  - touch.
  - touch.
  - touch.
  - case_match; touch.
Qed.

Context `{EL : !EapServerLaws E}.

(** ** The reported status *)

Definition reported (last : option bool) : PortState :=
  match last with None => PortState_0 | Some true => Authorized | Some false => Unauthorized end.

(** [authPortStatus] is what was last reported, and agrees with the state. *)
Definition port_ok (w : W) : Prop :=
  w.(sm).(authPortStatus) = reported (last_port w.(events)) /\
  status_after w.(sm).(auth_pae_state) w.(sm).(authPortStatus) = w.(sm).(authPortStatus).

Lemma port_ok_pae w : port_ok w -> port_ok (sm_AUTH_PAE_Step w).
Proof.
  intros [Hr Hs]. rewrite auth_pae_step_next.
  destruct (auth_pae_next _) as [ [g st]|]; [|done].
  pose proof (auth_pae_entered g st w) as He.
  split; rewrite (en_status _ _ _ He), ?(en_last _ _ _ He), ?(en_pae _ _ _ He), ?Hr;
    by destruct st.
Qed.

Lemma port_ok_same w w' : same_port w w' -> port_ok w -> port_ok w'.
Proof. intros [] [Hr Hs]. split; congruence. Qed.

Lemma port_ok_run w : port_ok w -> port_ok (eapol_sm_step_run CONFIG_WEP alive w).
Proof. apply step_run_port; [apply port_ok_pae|apply port_ok_same]. Qed.

Lemma port_ok_status w w' : same_status w w' -> port_ok w -> port_ok w'.
Proof.
  intros [Hp Hst He] [Hr Hs].
  assert (Hl : last_port w'.(events) = last_port w.(events)) by (by destruct He as [-> | ->]).
  split; [congruence|]. destruct Hp as [-> | ->]; [congruence|done].
Qed.

Lemma same_control_status w w' : same_control w w' -> same_status w w'.
Proof. intros []. split; [by left|done..]. Qed.

Lemma quiet_input_status i w : quiet_input i = true -> same_status w (apply_input i w).
Proof.
  destruct (peer_input i) eqn:Hp.
  - intros Hq. by apply same_control_status, peer_input_control.
  - destruct i; try done; intros _; cbn [apply_input];
      unfold ieee802_1x_notify_port_enabled.
    + split; w_simpl; first [reflexivity | left; reflexivity | right; reflexivity].
    + unfold eapol_auth_set_conf. repeat case_match; cbn [snd]; split; w_simpl;
        first [reflexivity | left; reflexivity | right; reflexivity].
    + unfold ieee802_1x_new_station, skip_eap, pmksa_cache_to_eapol_data.
      repeat case_match; split; w_simpl;
        first [reflexivity | left; reflexivity | right; reflexivity].
Qed.

Lemma port_ok_input i w : port_ok w -> port_ok (apply_input i w).
Proof.
  intros Hw. destruct (quiet_input i) eqn:Hq.
  - by eapply port_ok_status; [apply quiet_input_status|].
  - destruct i; try done; cbn [apply_input].
    + unfold eapol_port_timers_tick. eapply port_ok_same; [by apply same_port_emit|].
      apply port_ok_run. destruct Hw. by split.
    + by apply port_ok_run.
Qed.

(** ** Allocation *)

(** A machine on a disabled port only re-enters INITIALIZE. *)
Definition port_down (w : W) : Prop :=
  w.(sm).(eap_if).(portEnabled) = false /\ w.(sm).(auth_pae_state) = AUTH_PAE_INITIALIZE /\
  w.(sm).(authPortStatus) = PortState_0 /\ w.(sm).(portControl) = Auto /\
  last_port w.(events) = None /\ times_opened w.(events) = 0%nat.

Lemma port_down_pae w : port_down w -> port_down (sm_AUTH_PAE_Step w).
Proof.
  intros (Hp & Hs & Hst & Hc & Hl & Ho). rewrite auth_pae_step_next.
  assert (Hn : auth_pae_next w.(sm) = Some (true, AUTH_PAE_INITIALIZE)).
  { unfold auth_pae_next. rewrite Hp. cbn [negb]. by rewrite !orb_true_r. }
  rewrite Hn. pose proof (auth_pae_entered true AUTH_PAE_INITIALIZE w) as He.
  split_and!.
  - by rewrite (en_enabled _ _ _ He).
  - apply (en_pae _ _ _ He).
  - by rewrite (en_status _ _ _ He).
  - by rewrite (en_control _ _ _ He).
  - by rewrite (en_last _ _ _ He).
  - by rewrite (en_opened _ _ _ He).
Qed.

Lemma port_down_same w w' : same_port w w' -> port_down w -> port_down w'.
Proof.
  intros [] (Hp & ? & ? & ? & ? & ?). split_and!; try congruence.
  destruct (portEnabled (eap_if (sm w'))) eqn:E'; [|done].
  by rewrite sp_enabled in Hp.
Qed.

Lemma port_down_run w : port_down w -> port_down (eapol_sm_step_run CONFIG_WEP alive w).
Proof. apply step_run_port; [apply port_down_pae|apply port_down_same]. Qed.

Lemma port_down_initialize b w :
  port_down w -> port_down (upd (fun sm => sm <| initialize := b |>) w).
Proof. intros (? & ? & ? & ? & ? & ?). by split_and!. Qed.
Lemma port_down_init b w :
  port_down w -> port_down (upd (fun sm => sm <| initializing := b |>) w).
Proof. intros (? & ? & ? & ? & ? & ?). by split_and!. Qed.

Definition port_ready (w : W) : Prop := port_down w /\ w.(sm).(initialize) = false.

Lemma port_ready_run w : port_ready w -> port_ready (eapol_sm_step_run CONFIG_WEP alive w).
Proof.
  apply step_run_port.
  - intros w' [Hd Hi]. split; [by apply port_down_pae|]. rewrite auth_pae_step_next.
    destruct (auth_pae_next _) as [ [g st]|]; [|done].
    by rewrite (en_init _ _ _ (auth_pae_entered g st w')).
  - intros w' w'' Hs [Hd Hi]. split; [by eapply port_down_same|].
    by rewrite (sp_init _ _ Hs).
Qed.

Lemma initialize_ready w :
  port_down w ->
  let w' := eapol_auth_initialize CONFIG_WEP alive w in
  port_ready w' /\ w'.(sm).(initializing) = false /\ head w'.(events) = Some ScheduleTick.
Proof.
  intros H0. unfold eapol_auth_initialize. cbv zeta.
  apply (port_down_init true), (port_down_initialize true), port_down_run in H0.
  revert H0. generalize (eapol_sm_step_run CONFIG_WEP alive
    (upd (fun sm => sm <| initialize := true |>) (upd (fun sm => sm <| initializing := true |>) w))).
  intros w1 H1. apply (port_down_initialize false) in H1.
  assert (H2 : port_ready (upd (fun sm => sm <| initialize := false |>) w1)) by (by split).
  apply port_ready_run in H2. revert H2.
  generalize (eapol_sm_step_run CONFIG_WEP alive (upd (fun sm => sm <| initialize := false |>) w1)).
  intros w3 [ (? & ? & ? & ? & ? & ?) ?]. by split_and!; [split; [split_and!|]| |].
Qed.

Lemma alloc_port_down eapol address fl ident cui id w ev :
  eapol_auth_alloc CONFIG_WEP alive eapol address fl ident cui id = (Some w, ev) ->
  port_ready w /\ w.(sm).(initializing) = false /\
  ev = w.(events) /\ head ev = Some ScheduleTick.
Proof.
  unfold eapol_auth_alloc. destruct (os_malloc 1); [|done].
  destruct eap_server_sm_init as [e|]; [|done]. destruct id as [id|]; [|done].
  set (w0 := upd _ (mk_world _ _)).
  assert (H0 : port_down w0) by (by split_and!).
  destruct (initialize_ready w0 H0) as ([Hd Hi] & Hg & Hh). revert Hd Hi Hg Hh.
  generalize (eapol_auth_initialize CONFIG_WEP alive w0). clear w0 H0.
  intros w0 (? & ? & ? & ? & ? & ?) Hi Hg Hh Hres.
  apply pair_eq in Hres as [Hw Hev]. apply Some_inj in Hw. subst w ev.
  repeat case_match; (split; [split; [split_and!|]|split_and!]); w_simpl; done.
Qed.

Lemma reachable_port_ok w : reachable w -> port_ok w.
Proof.
  induction 1 as [eapol address fl ident cui id w ev Ha|i w _ IH]; [|by apply port_ok_input].
  apply alloc_port_down in Ha as ([(_ & Hp & Hs & _ & Hl & _) _] & _).
  split; [by rewrite Hl|by rewrite Hp].
Qed.

(** ** A port without success stays closed *)

(** The machines change [authSuccess] only on the EAP server's word. *)
Definition no_success (w : W) : Prop :=
  w.(sm).(authSuccess) = false /\ w.(sm).(eap_if).(eapSuccess) = false.

Ltac same_success H := destruct H; split; w_simpl; assumption.

Lemma no_success_tx_req w : no_success w -> no_success (eapol_auth_tx_req w).
Proof. intros H. unfold eapol_auth_tx_req. repeat case_match; same_success H. Qed.

Lemma no_success_REQUEST w : no_success w -> no_success (sm_BE_AUTH_REQUEST_Enter false w).
Proof.
  intros H. unfold sm_BE_AUTH_REQUEST_Enter, BE_AUTH_entry.
  set (w1 := upd _ w). assert (H1 : no_success w1) by same_success H.
  apply no_success_tx_req in H1. same_success H1.
Qed.
Lemma no_success_FAIL w : no_success w -> no_success (sm_BE_AUTH_FAIL_Enter false w).
Proof.
  intros H. unfold sm_BE_AUTH_FAIL_Enter, BE_AUTH_entry.
  set (w1 := upd _ w). assert (H1 : no_success w1) by same_success H.
  apply no_success_tx_req in H1. same_success H1.
Qed.

Ltac keep_success H :=
  lazymatch goal with
  | |- no_success (sm_BE_AUTH_REQUEST_Enter _ _) => apply no_success_REQUEST; keep_success H
  | |- no_success (sm_BE_AUTH_FAIL_Enter _ _) => apply no_success_FAIL; keep_success H
  | |- no_success ?w => first [is_var w; exact H | same_success H]
  end.

Lemma no_success_BE_AUTH w : no_success w -> no_success (sm_BE_AUTH_Step w).
Proof.
  intros H. unfold sm_BE_AUTH_Step. pose proof (proj2 H) as He.
  destruct (_ || _ || _).
  { unfold sm_BE_AUTH_INITIALIZE_Enter, ieee802_1x_abort_auth, BE_AUTH_entry. cbv zeta.
    destruct (eapTimeout _); same_success H. }
  destruct (be_auth_state _);
    unfold sm_BE_AUTH_IDLE_Enter, sm_BE_AUTH_RESPONSE_Enter, sm_BE_AUTH_TIMEOUT_Enter,
      BE_AUTH_entry; rewrite ?He, ?andb_false_l;
    try (repeat case_match; keep_success H).
  set (w1 := if eapNoReq _ then _ else w).
  assert (H1 : no_success w1).
  { unfold w1, sm_BE_AUTH_IGNORE_Enter, BE_AUTH_entry. case_match; keep_success H. }
  clearbody w1. rewrite (proj2 H1).
  repeat case_match; keep_success H1.
Qed.

Lemma no_success_if_alive step w :
  (forall w, no_success w -> no_success (step w)) ->
  no_success w -> no_success (step_if_alive alive step w).
Proof. intros Hs H. unfold step_if_alive. case_match; [by apply Hs|done]. Qed.

Lemma no_success_rest w :
  no_success w -> no_success (sm_REAUTH_TIMER_Step w) /\ no_success (sm_AUTH_KEY_TX_Step w) /\
  no_success (sm_KEY_RX_Step w) /\ no_success (sm_CTRL_DIR_Step w).
Proof.
  intros H. unfold sm_REAUTH_TIMER_Step, sm_AUTH_KEY_TX_Step, sm_KEY_RX_Step, sm_CTRL_DIR_Step,
    sm_REAUTH_TIMER_INITIALIZE_Enter, sm_REAUTH_TIMER_REAUTHENTICATE_Enter,
    sm_AUTH_KEY_TX_NO_KEY_TRANSMIT_Enter, sm_AUTH_KEY_TX_KEY_TRANSMIT_Enter,
    sm_KEY_RX_NO_KEY_RECEIVE_Enter, sm_KEY_RX_KEY_RECEIVE_Enter, sm_CTRL_DIR_FORCE_BOTH_Enter,
    sm_CTRL_DIR_IN_OR_BOTH_Enter, REAUTH_TIMER_entry, AUTH_KEY_TX_entry, KEY_RX_entry,
    CTRL_DIR_entry.
  split_and!; repeat case_match; keep_success H.
Qed.

Lemma no_success_run_machines w :
  no_success (sm_AUTH_PAE_Step w) -> no_success (run_machines CONFIG_WEP alive w).
Proof.
  intros H. unfold run_machines.
  assert (Hwep : forall step w, (forall w, no_success w -> no_success (step w)) -> no_success w ->
    no_success (if CONFIG_WEP then step_if_alive alive step w else w)).
  { intros step w' Hs Hw. destruct CONFIG_WEP; [by apply no_success_if_alive|done]. }
  apply no_success_if_alive; [intros w' Hw'; by apply no_success_rest|].
  apply Hwep; [intros w' Hw'; by apply no_success_rest|].
  apply Hwep; [intros w' Hw'; by apply no_success_rest|].
  apply no_success_if_alive; [intros w' Hw'; by apply no_success_rest|].
  apply no_success_if_alive; [apply no_success_BE_AUTH|done].
Qed.

(** The port has never been opened and nothing is about to open it. *)
Definition closed (w : W) : Prop :=
  no_success w /\ w.(sm).(portControl) <> ForceAuthorized /\
  opens_in w.(sm).(auth_pae_state) = 0%nat /\ times_opened w.(events) = 0%nat.

Lemma closed_pae w : closed w -> closed (sm_AUTH_PAE_Step w).
Proof.
  intros ([Ha Hs] & Hc & Hn & Ho). rewrite auth_pae_step_next.
  destruct (auth_pae_next w.(sm)) as [ [g st]|] eqn:En; [|by split_and!].
  assert (Hst : opens_in st = 0%nat).
  { revert En. unfold auth_pae_next. rewrite Ha, Hs.
    rewrite (bool_decide_eq_false_2 _ Hc). cbn [andb].
    destruct (auth_pae_state w.(sm)); try discriminate Hn;
      repeat case_match; intros [= <- <-]; done. }
  pose proof (auth_pae_entered g st w) as He. split_and!; [split| | |].
  - rewrite (en_success _ _ _ He). by destruct st.
  - by rewrite (en_eap _ _ _ He).
  - by rewrite (en_control _ _ _ He).
  - by rewrite (en_pae _ _ _ He).
  - by rewrite (en_opened _ _ _ He), Hst, Ho.
Qed.

Lemma closed_same w w' : same_port w w' -> no_success w' -> closed w -> closed w'.
Proof. intros [] Hn (_ & Hc & Hp & Ho). split_and!; [done|congruence..]. Qed.

Lemma closed_run_machines w : closed w -> closed (run_machines CONFIG_WEP alive w).
Proof.
  intros Hw. apply closed_pae in Hw.
  eapply closed_same; [apply same_port_run_machines|apply no_success_run_machines, Hw|done].
Qed.

(** An EAP server that has not reported success. *)
Context (silent : forall e i, i.(eapSuccess) = false ->
           (eap_server_sm_step e i).1.1.2.(eapSuccess) = false).

Lemma closed_eap_step e w : closed w -> closed (eap_step e w).1.
Proof.
  intros Hw. eapply closed_same; [apply same_port_eap_step| |done].
  destruct Hw as [ [Ha Hs] _]. specialize (silent e _ Hs). unfold eap_step.
  destruct (eap_server_sm_step e _) as [ [ [e' i'] users] again]. cbn [fst snd] in *.
  split; rewrite !sm_upd; [|done].
  destruct (same_port_users users w.(sm)) as [Eu | Eu]; rewrite Eu; sm_simpl; done.
Qed.

Lemma closed_step_run n w : closed w -> closed (step_run CONFIG_WEP alive n w).
Proof.
  apply step_run_ind.
  - apply closed_run_machines.
  - apply closed_eap_step.
  - intros w' (Hn & ? & ? & ?). split_and!; [same_success Hn|done..].
  - intros e w' He Hw. eapply closed_same; [by apply same_port_emit| |done].
    destruct Hw as [Hn _]. same_success Hn.
Qed.

Lemma closed_run w : closed w -> closed (eapol_sm_step_run CONFIG_WEP alive w).
Proof. apply closed_step_run. Qed.

(** Inputs by which the operator or a cached key opens the port. *)
Definition grants (i : input) : bool :=
  match i with
  | in_new_station _ _ (pmk_ft_fils | pmk_cache _) => true
  | in_set_conf p v => strcaseeq p "AdminControlledPortControl" && String.eqb v "ForceAuthorized"
  | _ => false
  end.

Lemma closed_control w w' : same_control w w' -> closed w -> closed w'.
Proof.
  intros [] ([Ha Hs] & Hc & Hp & Ho). split_and!; [by split; congruence|congruence|congruence|].
  by destruct sc_events0 as [-> | ->].
Qed.

Lemma closed_input i w : grants i = false -> closed w -> closed (apply_input i w).
Proof.
  intros Hg Hw. destruct (peer_input i) eqn:Hp; [destruct (quiet_input i) eqn:Hq|].
  - by eapply closed_control; [apply peer_input_control|].
  - destruct i; try done; cbn [apply_input]; [|by apply closed_run].
    unfold eapol_port_timers_tick.
    destruct Hw as (Hn & ? & ? & ?).
    set (w1 := upd_if _ _).
    assert (Hcl : closed w1) by (split_and!; [same_success Hn|done..]).
    apply closed_run in Hcl. revert Hcl.
    generalize (eapol_sm_step_run CONFIG_WEP alive w1). intros w2 (Hn' & ? & ? & ?).
    split_and!; [same_success Hn'|done..].
  - destruct Hw as (Hn & Hc & ? & ?). destruct i; try done; cbn [apply_input].
    + revert Hg. cbn [grants]. unfold eapol_auth_set_conf.
      destruct (strcaseeq param "AdminControlledDirections") eqn:?;
        [intros _|destruct (strcaseeq param "AdminControlledPortControl"); cbn [andb]; intros Hg];
        rewrite ?Hg;
        repeat case_match; cbn [snd]; unfold eapol_auth_step;
        split_and!; first [same_success Hn | done].
    + unfold ieee802_1x_new_station. destruct known; try discriminate Hg.
      unfold eapol_auth_step. repeat case_match; (split_and!; [same_success Hn|done..]).
Qed.

Lemma closed_inputs ins w :
  forallb (fun i => negb (grants i)) ins = true -> closed w ->
  times_opened (foldl (fun w i => apply_input i w) w ins).(events) = 0%nat.
Proof.
  revert w. induction ins as [|i ins IH]; intros w Hg Hw; [apply Hw|].
  cbn [forallb] in Hg. apply andb_prop in Hg as [Hi Hg]. apply IH; [done|].
  apply negb_true_iff in Hi. by apply closed_input.
Qed.

Lemma alloc_closed eapol address fl ident cui id w ev :
  eapol_auth_alloc CONFIG_WEP alive eapol address fl ident cui id = (Some w, ev) ->
  w.(sm).(authSuccess) = false -> w.(sm).(eap_if).(eapSuccess) = false -> closed w.
Proof.
  intros Ha Hs He. apply alloc_port_down in Ha as ([(_ & Hp & _ & Hc & _ & Ho) _] & _).
  split_and!; [by split|by rewrite Hc|by rewrite Hp|done].
Qed.

(** ** The quiet period *)

(** Held with [q] seconds to go. *)
Definition held (q : Z) (w : W) : Prop :=
  w.(sm).(auth_pae_state) = AUTH_PAE_HELD /\ w.(sm).(quietWhile) = q /\
  w.(sm).(portControl) = Auto /\ w.(sm).(portMode) = Auto /\
  w.(sm).(initialize) = false /\ w.(sm).(eap_if).(portEnabled) = true /\
  w.(sm).(authPortStatus) = Unauthorized /\ last_port w.(events) = Some false /\
  w.(sm).(authAbort) = false.

Lemma held_pae q w : q <> 0 -> held q w -> held q (sm_AUTH_PAE_Step w).
Proof.
  intros Hq Hw. rewrite auth_pae_step_next. pose proof Hw as (Hp & Ht & Hc & Hm & Hi & He & _).
  unfold auth_pae_next. rewrite Hp, Hc, Hm, Hi, He, Ht, (proj2 (Z.eqb_neq q 0) Hq). exact Hw.
Qed.

Lemma held_same q w w' : same_port w w' -> held q w -> held q w'.
Proof.
  intros [] (? & ? & Hc & ? & Hi & ? & ? & ? & Ha).
  destruct (sp_stays Hc Hi Ha). split_and!; congruence.
Qed.

Lemma held_run q w : q <> 0 -> held q w -> held q (eapol_sm_step_run CONFIG_WEP alive w).
Proof.
  intros Hq. apply step_run_port; [intros w'; by apply held_pae|intros w' w''; apply held_same].
Qed.

Lemma held_control q w w' : same_control w w' -> held q w -> held q w'.
Proof.
  intros [] (? & ? & ? & ? & ? & ? & ? & Hl & ?). split_and!; try congruence.
  by destruct sc_events0 as [-> | ->].
Qed.

Definition ticks (i : input) : Z := match i with in_tick => 1 | _ => 0 end.

Lemma held_input q i w :
  peer_input i = true -> ticks i < q -> held q w -> held (q - ticks i) (apply_input i w).
Proof.
  intros Hp Hq Hw. destruct (quiet_input i) eqn:Hi.
  - assert (ticks i = 0) as -> by (by destruct i). rewrite Z.sub_0_r.
    by eapply held_control; [apply peer_input_control|].
  - destruct i; try done; cbn [apply_input ticks] in *.
    + unfold eapol_port_timers_tick. eapply held_same; [by apply same_port_emit|].
      apply held_run; [lia|]. destruct Hw as (? & Ht & ? & ? & ? & ? & ? & ? & ?).
      split_and!; try done. w_simpl. rewrite Ht. unfold tick_down.
      by rewrite (proj2 (Z.ltb_lt 0 q)) by lia.
    + rewrite Z.sub_0_r. apply held_run; [lia|done].
Qed.

Lemma held_inputs q ins w :
  forallb peer_input ins = true -> foldr (fun i n => ticks i + n) 0 ins < q -> held q w ->
  held (q - foldr (fun i n => ticks i + n) 0 ins) (foldl (fun w i => apply_input i w) w ins).
Proof.
  revert q w. induction ins as [|i ins IH]; intros q w Hp Hq Hw; cbn [foldr foldl forallb] in *.
  - by rewrite Z.sub_0_r.
  - apply andb_prop in Hp as [Hi Hp].
    assert (H0 : 0 <= ticks i) by (by destruct i).
    assert (H1 : 0 <= foldr (fun i n => ticks i + n) 0 ins).
    { clear. induction ins as [|i ins IH]; simpl; [done|]. by destruct i; simpl; lia. }
    replace (q - (ticks i + foldr (fun i n => ticks i + n) 0 ins)) with
      (q - ticks i - foldr (fun i n => ticks i + n) 0 ins) by lia.
    apply IH; [done|lia|]. apply held_input; [done|lia|done].
Qed.

(** A failed authentication, about to be noticed. *)
Definition failing (w : W) : Prop :=
  w.(sm).(auth_pae_state) = AUTH_PAE_AUTHENTICATING /\ w.(sm).(authFail) = true /\
  w.(sm).(authSuccess) && w.(sm).(portValid) = false /\
  w.(sm).(portControl) = Auto /\ w.(sm).(portMode) = Auto /\
  w.(sm).(initialize) = false /\ w.(sm).(eap_if).(portEnabled) = true /\
  w.(sm).(authAbort) = false /\ 0 < w.(sm).(quietPeriod) < 2147483648.

#[global] Instance failing_dec w : Decision (failing w).
Proof. unfold failing. apply _. Defined.

Lemma failing_held w :
  failing w -> held w.(sm).(quietPeriod) (eapol_sm_step_run CONFIG_WEP alive w).
Proof.
  intros (Hp & Hf & Hs & Hc & Hm & Hi & He & Ht & Hq).
  unfold eapol_sm_step_run. apply (step_run_port_first CONFIG_WEP alive).
  - intros w'. apply held_pae. lia.
  - intros w' w''. apply held_same.
  - assert (Hn : auth_pae_next w.(sm) = Some (false, AUTH_PAE_HELD)).
    { unfold auth_pae_next. by rewrite Hp, Hc, Hm, Hi, He, Hs, Hf. }
    rewrite auth_pae_step_next, Hn.
    pose proof (auth_pae_entered false AUTH_PAE_HELD w) as Hen.
    split_and!.
    + apply (en_pae _ _ _ Hen).
    + rewrite (en_quiet _ _ _ Hen). unfold to_int.
      by rewrite (proj2 (Z.ltb_lt _ _)) by lia.
    + by rewrite (en_control _ _ _ Hen).
    + by rewrite (en_mode _ _ _ Hen).
    + by rewrite (en_init _ _ _ Hen).
    + by rewrite (en_enabled _ _ _ Hen).
    + by rewrite (en_status _ _ _ Hen).
    + by rewrite (en_last _ _ _ Hen).
    + by rewrite (en_abort _ _ _ Hen).
Qed.

(** ** What opens the port *)

(** The two conditions of IEEE 802.1X: the operator forces the port open, or
    an authentication succeeded and its keys are installed. *)
Definition opens (s : eapol_state_machine eap_sm) : bool :=
  s.(eap_if).(portEnabled) && negb s.(initialize) &&
  (((s.(portControl) == ForceAuthorized) && (s.(portMode) != s.(portControl))) ||
   ((s.(portMode) == s.(portControl)) || (s.(portControl) == PortTypes_0)) &&
   (((s.(auth_pae_state) == AUTH_PAE_AUTHENTICATING) && s.(authSuccess) && s.(portValid)) ||
    ((s.(auth_pae_state) == AUTH_PAE_FORCE_AUTH) && s.(eapolStart)))).

Ltac decide_constants :=
  repeat match goal with
  | |- context [bool_decide (?a = ?b)] =>
      let r := eval vm_compute in (bool_decide (a = b)) in change (bool_decide (a = b)) with r
  end; cbn [andb orb negb].

Lemma auth_pae_next_opens s :
  match auth_pae_next s with None => 0%nat | Some (_, st) => opens_in st end =
  (if opens s then 1 else 0)%nat.
Proof.
  unfold auth_pae_next, opens.
  destruct (portEnabled _), (initialize s); cbn [negb andb orb];
    rewrite ?orb_true_r, ?orb_false_r; try done.
  set (next := match auth_pae_state s with AUTH_PAE_INITIALIZE => _ | _ => _ end).
  set (cond := ((auth_pae_state s == _) && _ && _) || _).
  assert (H : match next with None => 0%nat | Some (_, st) => opens_in st end =
              (if cond then 1 else 0)%nat).
  { unfold next, cond. destruct (auth_pae_state s); decide_constants; rewrite ?orb_false_r;
      repeat match goal with |- context [if ?b then _ else _] => destruct b end; done. }
  clearbody next cond.
  destruct (portMode s), (portControl s); decide_constants; first [exact H | done].
Qed.

Lemma pass_opens w :
  times_opened (run_machines CONFIG_WEP alive w).(events) =
  ((if opens w.(sm) then 1 else 0) + times_opened w.(events))%nat.
Proof.
  rewrite (sp_opened _ _ (same_port_run_machines CONFIG_WEP alive w)), auth_pae_step_next.
  rewrite <- auth_pae_next_opens. destruct (auth_pae_next w.(sm)) as [ [g st]|]; [|done].
  apply (en_opened _ _ _ (auth_pae_entered g st w)).
Qed.

(** ** The run settles *)

Lemma states_eap_step e w : states (eap_step e w).1.(sm) = states w.(sm).
Proof.
  unfold eap_step. destruct (eap_server_sm_step e _) as [ [ [e' i'] users] again]. cbn [fst].
  rewrite !sm_upd.
  destruct (same_port_users users w.(sm)) as [Eu | Eu]; rewrite Eu; unfold states; sm_simpl; done.
Qed.

(** The last pass changed no state, or another run is scheduled. *)
Definition settled (w : W) : Prop :=
  head w.(events) = Some ScheduleStep \/
  exists w0, states w0.(sm) = states (run_machines CONFIG_WEP alive w0).(sm) /\
             states (run_machines CONFIG_WEP alive w0).(sm) = states w.(sm).

Lemma step_run_settled n w : settled (step_run CONFIG_WEP alive (S n) w).
Proof.
  revert w. induction n as [n IH] using lt_wf_ind. intros w. cbn [step_run].
  set (w1 := run_machines CONFIG_WEP alive w).
  assert (Hrestart : forall w,
    settled (if (0 <? n)%nat then step_run CONFIG_WEP alive n w else eapol_auth_step w)).
  { intros w'. destruct n as [|n]; [by left|]. apply IH. lia. }
  destruct (negb _) eqn:Hs; [apply Hrestart|].
  apply negb_false_iff, bool_decide_eq_true_1 in Hs.
  assert (Hend : forall w2, states w2.(sm) = states w1.(sm) -> settled w2).
  { intros w2 H2. right. exists w. by split. }
  assert (Hnotify : forall w2, states w2.(sm) = states w1.(sm) -> settled
      (if eapol_sm_sta_entry_alive alive w2
       then emit (EapolEvent EAPOL_AUTH_SM_CHANGE) w2 else w2)).
  { intros w2 H2. apply Hend. by destruct (eapol_sm_sta_entry_alive alive w2). }
  destruct (eapol_sm_sta_entry_alive alive w1) eqn:Ha.
  2: { by apply Hend. }
  destruct (eap (sm w1)) as [e|]; [|by apply Hend].
  pose proof (states_eap_step e w1) as He. destruct (eap_step e w1) as [w2 again].
  cbn [fst] in He. destruct again; [apply Hrestart|].
  destruct (aaaEapResp _); [|by apply Hnotify].
  destruct (aaaEapRespData _); [|by apply Hend]. by apply Hnotify.
Qed.

(** ** Configuration *)

(** Only the parameters changed: no machine has moved and nothing was sent. *)
Definition same_run (w w' : W) : Prop :=
  states w'.(sm) = states w.(sm) /\ w'.(sm).(authPortStatus) = w.(sm).(authPortStatus) /\
  w'.(sm).(eap_if) = w.(sm).(eap_if) /\ w'.(sm).(portMode) = w.(sm).(portMode).

Lemma set_conf_result param value w :
  let '(ret, w') := eapol_auth_set_conf param value w in
  (ret = -1 /\ w' = w) \/
  (ret = 0 /\ same_run w w' /\
   (w'.(events) = ScheduleStep :: w.(events) \/
    w'.(events) = w.(events) /\ w'.(sm).(portControl) = w.(sm).(portControl) /\
    w'.(sm).(reAuthEnabled) = w.(sm).(reAuthEnabled) /\
    w'.(sm).(keyTxEnabled) = w.(sm).(keyTxEnabled))).
Proof.
  unfold eapol_auth_set_conf, same_run, states.
  repeat match goal with |- context [if ?b then _ else _] => destruct b end;
    first [left; split; reflexivity | right; split; [reflexivity|] ];
    (split; [split_and!; w_simpl; reflexivity|]);
    first [left; reflexivity | right; split_and!; reflexivity].
Qed.
End properties.
