(* ===== verification/EapolTheorems.v ===== *)
(** * The EAPOL authenticator: theorems

    The properties of the authenticator for every EAP server, configuration and
    input sequence, each with a run of the executable model on which it is not
    vacuous: a toy EAP server that asks for the identity and then accepts or
    rejects whatever it is answered. *)

From Stdlib Require Import Ascii.
From S2P Require Import Prelude AesCorrect EapolState EapolAuth EapolProofs EapolProps.

#[local] Open Scope string_scope.
#[local] Open Scope Z_scope.

(** ** A toy EAP server *)

Definition toy_step (accept : bool) (e : nat) (i : eap_eapol_interface)
    : nat * eap_eapol_interface * list Z * bool :=
  if negb i.(portEnabled) then (e, i, [], false)
  else if i.(eapRestart) then
    (1%nat, i <| eapRestart := false |> <| eapReq := true |> <| eapSuccess := false |>
              <| eapFail := false |> <| eapReqData := Some [1; 7; 0; 5; 1] |>, [], true)
  else if i.(eapResp) then
    (2%nat, i <| eapResp := false |> <| eapSuccess := accept |> <| eapFail := negb accept |>
              <| eapReqData := Some [if accept then 3 else 4; 7; 0; 4] |>, [0], true)
  else (e, i, [], false).

Definition ToyServer (accept : bool) : EapServer := {|
  eap_sm := nat;
  eap_server_sm_init := Some 0%nat;
  eap_server_sm_step := toy_step accept;
  eap_sm_pending_cb := id;
  eap_server_clear_identity := id;
  eap_sm_notify_cached := id |}.

#[export] Instance ToyServer_laws accept : EapServerLaws (ToyServer accept).
Proof. intros e i. cbn. unfold toy_step. repeat case_match; w_simpl; done. Qed.

Definition toy_config : eapol_authenticator :=
  mk_authenticator (mk_config 3600 0 0 None 0 0 None) None 0.
Definition toy_addr : bytes := [2; 0; 0; 0; 0; 1].
Definition toy_alive : list event -> bool := fun _ => true.

Definition toy_alloc (accept : bool) : world (E := ToyServer accept) :=
  default (mk_world (E := ToyServer accept) zero_sm [])
    (eapol_auth_alloc (E := ToyServer accept) (M := zero_malloc) false toy_alive toy_config
       toy_addr 0 None None (Some 1)).1.

(** The peer associates, is asked for its identity, and answers. *)
Definition toy_inputs : list input :=
  [in_new_station false false pmk_none; in_step_cb;
   in_frame 0 [2; 7; 0; 6; 1; 97]; in_step_cb].
Definition toy_input accept := apply_input (E := ToyServer accept) false false false false
  toy_alive (M := zero_malloc).
Definition toy_run (accept : bool) : world (E := ToyServer accept) :=
  foldl (fun w i => toy_input accept i w) (toy_alloc accept) toy_inputs.

(** ** The theorems *)

Section theorems.
Context `{E : EapServer} `{EL : !EapServerLaws E} `{M : Malloc}.
Context (CONFIG_WEP CONFIG_WPS CONFIG_ERP CONFIG_MACSEC : bool) (alive : list event -> bool).
Abbreviation W := (world (E := E)).
Abbreviation reach := (reachable CONFIG_WEP CONFIG_WPS CONFIG_ERP CONFIG_MACSEC alive).
Abbreviation run := (foldl (fun w i =>
  apply_input CONFIG_WEP CONFIG_WPS CONFIG_ERP CONFIG_MACSEC alive i w)).

(** C13: in every state reachable from allocation by any inputs, the port status
    of the machine is what was last reported to the access point, and it is
    Authorized in AUTHENTICATED and FORCE_AUTH, Unauthorized in DISCONNECTED,
    HELD and FORCE_UNAUTH. *)
Theorem port_status_reported (w : W) :
  reach w ->
  w.(sm).(authPortStatus) = reported (last_port w.(events)) /\
  status_after w.(sm).(auth_pae_state) w.(sm).(authPortStatus) = w.(sm).(authPortStatus).
Proof. intros Hw. exact (reachable_port_ok _ _ _ _ _ w Hw). Qed.

(** C15: one pass of the machines opens the port at most once, and exactly when
    the operator forces it open or an authentication has succeeded on a valid
    port (or an EAPOL-Start arrives on a port that is forced open). *)
Theorem pass_opens_port (w : W) :
  times_opened (run_machines CONFIG_WEP alive w).(events) =
  ((if opens w.(sm) then 1 else 0) + times_opened w.(events))%nat.
Proof. apply pass_opens. Qed.

(** C1: as long as the EAP server reports no success, the operator does not
    force the port open and no cached key is used, no sequence of inputs opens
    the port of a newly allocated machine. *)
Theorem no_success_no_access eapol address fl ident cui id (w : W) ev ins :
  (forall e i, i.(eapSuccess) = false ->
     (eap_server_sm_step e i).1.1.2.(eapSuccess) = false) ->
  eapol_auth_alloc CONFIG_WEP alive eapol address fl ident cui id = (Some w, ev) ->
  w.(sm).(authSuccess) = false -> w.(sm).(eap_if).(eapSuccess) = false ->
  forallb (fun i => negb (grants i)) ins = true ->
  times_opened (run w ins).(events) = 0%nat.
Proof.
  intros Hsilent Ha Hs He Hg. eapply closed_inputs; [done|done|done|].
  by eapply alloc_closed.
Qed.


(** A successfully allocated machine waits in INITIALIZE with a disabled,
    unreported port, out of initialization, with its timer running. *)
Theorem alloc_waits eapol address fl ident cui id (w : W) ev :
  eapol_auth_alloc CONFIG_WEP alive eapol address fl ident cui id = (Some w, ev) ->
  w.(sm).(auth_pae_state) = AUTH_PAE_INITIALIZE /\ w.(sm).(authPortStatus) = PortState_0 /\
  w.(sm).(eap_if).(portEnabled) = false /\ last_port ev = None /\
  w.(sm).(initialize) = false /\ w.(sm).(initializing) = false /\
  head ev = Some ScheduleTick.
Proof.
  intros Ha. apply (alloc_port_down CONFIG_WEP alive (EL := EL)) in Ha as ([(? & ? & ? & ? & ? & ?) ?] & ? & -> & ?).
  by split_and!.
Qed.

(** A configuration request returns 0 or -1; -1 changes nothing, 0 changes
    parameters only: no machine moves and nothing is sent before the run it
    schedules, and it schedules one for every parameter that is not merely the
    length of a period. *)
Theorem set_conf_only_configures param value (w : W) :
  let '(ret, w') := eapol_auth_set_conf param value w in
  (ret = -1 /\ w' = w) \/
  (ret = 0 /\ same_run w w' /\
   (w'.(events) = ScheduleStep :: w.(events) \/
    w'.(events) = w.(events) /\ w'.(sm).(portControl) = w.(sm).(portControl) /\
    w'.(sm).(reAuthEnabled) = w.(sm).(reAuthEnabled) /\
    w'.(sm).(keyTxEnabled) = w.(sm).(keyTxEnabled))).
Proof. apply set_conf_result. Qed.
End theorems.


(** ** Witnesses *)

#[local] Existing Instance zero_malloc.

Lemma toy_alloc_ok accept :
  exists ev, eapol_auth_alloc (E := ToyServer accept) (M := zero_malloc) false toy_alive toy_config
    toy_addr 0 None None (Some 1) = (Some (toy_alloc accept), ev).
Proof. eexists. vm_compute. reflexivity. Qed.

Lemma toy_reachable accept :
  reachable (E := ToyServer accept) (M := zero_malloc) false false false false toy_alive
    (toy_run accept).
Proof.
  destruct (toy_alloc_ok accept) as [ev Hev]. unfold toy_run, toy_inputs. cbn [foldl].
  repeat apply reach_input. by apply (reach_alloc _ _ _ _ _ _ _ _ _ _ _ _ _ Hev).
Qed.

(** The accepting server: the port is open. *)
Lemma port_status_reported_witness :
  (toy_run true).(sm).(authPortStatus) = Authorized /\
  last_port (toy_run true).(events) = Some true.
Proof.
  destruct (port_status_reported false false false false toy_alive (toy_run true)
              (toy_reachable true)) as [Hs _].
  split; [rewrite Hs|]; vm_compute; reflexivity.
Defined.

(** The rejecting server: nothing the peer sends opens the port. *)
Lemma no_success_no_access_witness :
  times_opened (foldl (fun w i => toy_input false i w) (toy_alloc false)
    (toy_inputs ++ [in_frame 1 []; in_tick; in_frame 0 [2; 7; 0; 6; 1; 98]; in_tick])).(events)
  = 0%nat.
Proof.
  destruct (toy_alloc_ok false) as [ev Hev].
  apply (no_success_no_access (E := ToyServer false) (M := zero_malloc) false false false false
           toy_alive toy_config toy_addr 0 None None (Some 1) (toy_alloc false) ev _).
  - intros e i Hi. cbn. unfold toy_step.
    destruct (portEnabled i); [|exact Hi]. destruct (eapRestart i); [reflexivity|].
    destruct (eapResp i); [reflexivity|exact Hi].
  - exact Hev.
  - vm_compute. reflexivity.
  - vm_compute. reflexivity.
  - vm_compute. reflexivity.
Defined.

(** The authentication of the toy peer fails; it restarts and answers for 59
    seconds in vain. *)
Definition toy_failing : world (E := ToyServer false) :=
  toy_input false in_auth_fail
    (foldl (fun w i => toy_input false i w) (toy_alloc false) (take 2 toy_inputs)).
Definition toy_knocking : list input :=
  concat (replicate 59 [in_tick; in_frame 1 []; in_step_cb; in_frame 0 [2; 7; 0; 6; 1; 97]]).


Lemma alloc_waits_witness :
  (toy_alloc true).(sm).(auth_pae_state) = AUTH_PAE_INITIALIZE /\
  (toy_alloc true).(sm).(eap_if).(portEnabled) = false.
Proof.
  destruct (toy_alloc_ok true) as [ev Hev].
  destruct (alloc_waits (E := ToyServer true) (M := zero_malloc) false toy_alive toy_config
              toy_addr 0 None None (Some 1) (toy_alloc true) ev Hev) as (H1 & _ & H2 & _).
  split; [exact H1|exact H2].
Defined.

(** With the peer accepted, the pass that notices it opens the port. *)
Lemma pass_opens_port_witness :
  let w := upd (fun sm => sm <| authSuccess := true |>)
             (foldl (fun w i => toy_input true i w) (toy_alloc true) (take 2 toy_inputs)) in
  opens w.(sm) = true /\ times_opened (run_machines false toy_alive w).(events) = 1%nat.
Proof.
  cbv zeta. split; [vm_compute; reflexivity|].
  rewrite (pass_opens_port (E := ToyServer true)). vm_compute. reflexivity.
Defined.
