(* ===== verification/EapServer.v ===== *)
(** * The EAP server: data and operations

    Hostap's [eap_server/eap_server.c], the full authenticator of RFC 4137: its
    state machine with the passthrough to an AAA server, the policy, the
    parsing of responses, and the loop [eap_server_sm_step] that runs it.  It
    is the build without the optional [CONFIG_ERP] and [CONFIG_TESTING_OPTIONS].  Every field and function has the name it has in
    C; left out are the fields of [struct eap_sm] that only EAP methods use, the
    context pointers, and debug and [log_msg] output.

    An EAP method is a value of [eap_method], the function table of
    [eap_server/eap_i.h]; the methods linked into the registry are the list
    [eap_methods], and [m], a pointer to one of them, is an index into it.  The
    memory allocator and the random generators are the class [Env]. *)

From S2P Require Import Prelude Bytes EapolState.

#[local] Open Scope Z_scope.

Notation "a != b" := (negb (bool_decide (a = b))) (at level 70).
Notation "a == b" := (bool_decide (a = b)) (at level 70).

(** ** The environment

    [alloc n] tells whether a request for [n] bytes succeeds; [rand] and
    [random_get_bytes] are libc's and hostap's random generators; the sizes of
    two structures are the compiler's. *)

Class Env := {
  sizeof_eap_sm : nat;
  sizeof_eap_user : nat;
  env_st : Type;
  alloc : nat -> env_st -> bool * env_st;
  rand : env_st -> Z * env_st;
  random_get_bytes : nat -> env_st -> option bytes * env_st }.

(** ** Constants: [eap_common/eap_defs.h], [common/defs.h] *)

Definition EAP_CODE_REQUEST : Z := 1.
Definition EAP_CODE_RESPONSE : Z := 2.
Definition EAP_CODE_SUCCESS : Z := 3.
Definition EAP_CODE_FAILURE : Z := 4.
Definition EAP_CODE_INITIATE : Z := 5.
Definition EAP_TYPE_NONE : Z := 0.
Definition EAP_TYPE_IDENTITY : Z := 1.
Definition EAP_TYPE_NOTIFICATION : Z := 2.
Definition EAP_TYPE_NAK : Z := 3.
Definition EAP_TYPE_MD5 : Z := 4.
Definition EAP_TYPE_EXPANDED : Z := 254.
Definition EAP_VENDOR_IETF : Z := 0.
Definition EAP_ERP_TYPE_REAUTH_START : Z := 1.
Definition EAP_ERP_TLV_DOMAIN_NAME : Z := 4.
Definition EAP_MAX_METHODS : Z := 8.
Definition EAP_HDR_SIZE : nat := 4.       (* sizeof(struct eap_hdr) *)
Definition WPABUF_SIZE : nat := 32.       (* sizeof(struct wpabuf) *)

(** ** Enumerations of [struct eap_sm] *)

Inductive EAP_states :=
| EAP_DISABLED | EAP_INITIALIZE | EAP_IDLE | EAP_RECEIVED
| EAP_INTEGRITY_CHECK | EAP_METHOD_RESPONSE | EAP_METHOD_REQUEST
| EAP_PROPOSE_METHOD | EAP_SELECT_ACTION | EAP_SEND_REQUEST
| EAP_DISCARD | EAP_NAK | EAP_RETRANSMIT | EAP_SUCCESS | EAP_FAILURE
| EAP_TIMEOUT_FAILURE | EAP_PICK_UP_METHOD
| EAP_INITIALIZE_PASSTHROUGH | EAP_IDLE2 | EAP_RETRANSMIT2
| EAP_RECEIVED2 | EAP_DISCARD2 | EAP_SEND_REQUEST2
| EAP_AAA_REQUEST | EAP_AAA_RESPONSE | EAP_AAA_IDLE
| EAP_TIMEOUT_FAILURE2 | EAP_FAILURE2 | EAP_SUCCESS2
| EAP_INITIATE_REAUTH_START | EAP_INITIATE_RECEIVED.

Inductive method_state := METHOD_PROPOSED | METHOD_CONTINUE | METHOD_END.
Inductive decisions :=
| DECISION_SUCCESS | DECISION_FAILURE | DECISION_CONTINUE
| DECISION_PASSTHROUGH | DECISION_INITIATE_REAUTH_START.
Inductive method_pendings := METHOD_PENDING_NONE | METHOD_PENDING_WAIT | METHOD_PENDING_CONT.

#[export] Instance EAP_states_eq_dec : EqDecision EAP_states. Proof. solve_decision. Defined.
#[export] Instance method_state_eq_dec : EqDecision method_state. Proof. solve_decision. Defined.
#[export] Instance decisions_eq_dec : EqDecision decisions. Proof. solve_decision. Defined.
#[export] Instance method_pendings_eq_dec : EqDecision method_pendings.
Proof. solve_decision. Defined.

(** ** Records *)

(** [struct eap_user]; [methods] has [EAP_MAX_METHODS] pairs of vendor and
    method. *)
Record eap_user := mk_user {
  methods : list (Z * Z);
  password : option bytes;
  password_len : Z;
  password_hash : Z;
  phase2 : Z;
  remediation : Z }.

#[export] Instance eap_user_eta : Settable _ :=
  fun r => mk_user
    r.(methods) r.(password) r.(password_len) r.(password_hash) r.(phase2) r.(remediation).

#[export] Instance set_methods : Setter methods. Proof. solve_setter. Defined.
#[export] Instance set_password : Setter password. Proof. solve_setter. Defined.
#[export] Instance set_password_len : Setter password_len. Proof. solve_setter. Defined.
#[export] Instance set_password_hash : Setter password_hash. Proof. solve_setter. Defined.
#[export] Instance set_phase2 : Setter phase2. Proof. solve_setter. Defined.
#[export] Instance set_remediation : Setter remediation. Proof. solve_setter. Defined.

(** What the code cannot survive: it calls through a [NULL] pointer, or its
    loop ran for longer than the model follows it. *)
Inductive hazard := NullPointer | OutOfFuel.

(** ** EAP packets: [eap_common/eap_common.c] *)

Definition eap_hdr_len_valid (msg : option bytes) (min_payload : nat) : bool :=
  match msg with
  | None => false
  | Some msg =>
    if (length msg <? EAP_HDR_SIZE)%nat then false else
    let len := Z.to_nat (WPA_GET_BE16 (drop 2 msg)) in
    if (len <? EAP_HDR_SIZE + min_payload)%nat || (length msg <? len)%nat then false else true
  end.

(** [None] for [NULL], or what follows the payload pointer and [*plen]. *)
Definition eap_hdr_validate (vendor eap_type : Z) (msg : option bytes)
    : option (bytes * nat) :=
  if negb (eap_hdr_len_valid msg 1) then None else
  let hdr := default [] msg in
  let len := Z.to_nat (WPA_GET_BE16 (drop 2 hdr)) in
  let pos := drop EAP_HDR_SIZE hdr in
  if get pos 0 =? EAP_TYPE_EXPANDED then
    if (len <? EAP_HDR_SIZE + 8)%nat then None else
    let pos := drop 1 pos in
    let exp_vendor := WPA_GET_BE24 pos in
    let pos := drop 3 pos in
    let exp_type := WPA_GET_BE32 pos in
    let pos := drop 4 pos in
    if negb (exp_vendor =? vendor) || negb (exp_type =? eap_type) then None
    else Some (pos, len - EAP_HDR_SIZE - 8)%nat
  else
    if negb (vendor =? EAP_VENDOR_IETF) || negb (get pos 0 =? eap_type) then None
    else Some (drop 1 pos, len - EAP_HDR_SIZE - 1)%nat.

(** The header and type that [eap_msg_alloc] writes before the payload. *)
Definition eap_msg_hdr (vendor type : Z) (payload_len : nat) (code identifier : Z) : bytes :=
  let len := (EAP_HDR_SIZE + (if (vendor =? EAP_VENDOR_IETF)%Z then 1 else 8) + payload_len)%nat in
  [code; u8 identifier] ++ WPA_PUT_BE16 (Z.of_nat len) ++
  (if vendor =? EAP_VENDOR_IETF then [u8 type]
   else EAP_TYPE_EXPANDED :: WPA_PUT_BE24 vendor ++ WPA_PUT_BE32 type).

Section server.
Context `{Env} {method_priv : Type}.

(** [struct eap_sm] *)
Record eap_sm := mk_eap_sm {
  EAP_state : EAP_states;
  MaxRetrans : Z;
  eap_if : eap_eapol_interface;
  currentMethod : Z;
  currentId : Z;
  methodState : method_state;
  retransCount : Z;
  lastReqData : option bytes;
  methodTimeout : Z;
  rxResp : bool;
  rxInitiate : bool;
  respId : Z;
  respMethod : Z;
  respVendor : Z;
  respVendorMethod : Z;
  ignore : bool;
  decision : decisions;
  m : option nat;
  changed : bool;
  eap_method_priv : option method_priv;
  identity : option bytes;
  identity_len : Z;
  lastId : Z;
  user : option eap_user;
  user_eap_method_index : Z;
  update_user : bool;
  num_rounds : Z;
  num_rounds_short : Z;
  method_pending : method_pendings;
  assoc_wps_ie : option bytes;
  assoc_p2p_ie : option bytes;
  start_reauth : bool;
  peer_addr : bytes;
  initiate_reauth_start_sent : bool;
  try_initiate_reauth : bool }.

#[export] Instance eap_sm_eta : Settable _ :=
  fun r => mk_eap_sm
    r.(EAP_state) r.(MaxRetrans) r.(eap_if) r.(currentMethod) r.(currentId) r.(methodState)
    r.(retransCount) r.(lastReqData) r.(methodTimeout) r.(rxResp) r.(rxInitiate) r.(respId)
    r.(respMethod) r.(respVendor) r.(respVendorMethod) r.(ignore) r.(decision) r.(m) r.(changed)
    r.(eap_method_priv) r.(identity) r.(identity_len) r.(lastId) r.(user)
    r.(user_eap_method_index) r.(update_user) r.(num_rounds) r.(num_rounds_short)
    r.(method_pending) r.(assoc_wps_ie) r.(assoc_p2p_ie) r.(start_reauth) r.(peer_addr)
    r.(initiate_reauth_start_sent) r.(try_initiate_reauth).

#[export] Instance set_EAP_state : Setter EAP_state. Proof. solve_setter. Defined.
#[export] Instance set_MaxRetrans : Setter MaxRetrans. Proof. solve_setter. Defined.
#[export] Instance set_eap_if : Setter eap_if. Proof. solve_setter. Defined.
#[export] Instance set_currentMethod : Setter currentMethod. Proof. solve_setter. Defined.
#[export] Instance set_currentId : Setter currentId. Proof. solve_setter. Defined.
#[export] Instance set_methodState : Setter methodState. Proof. solve_setter. Defined.
#[export] Instance set_retransCount : Setter retransCount. Proof. solve_setter. Defined.
#[export] Instance set_lastReqData : Setter lastReqData. Proof. solve_setter. Defined.
#[export] Instance set_methodTimeout : Setter methodTimeout. Proof. solve_setter. Defined.
#[export] Instance set_rxResp : Setter rxResp. Proof. solve_setter. Defined.
#[export] Instance set_rxInitiate : Setter rxInitiate. Proof. solve_setter. Defined.
#[export] Instance set_respId : Setter respId. Proof. solve_setter. Defined.
#[export] Instance set_respMethod : Setter respMethod. Proof. solve_setter. Defined.
#[export] Instance set_respVendor : Setter respVendor. Proof. solve_setter. Defined.
#[export] Instance set_respVendorMethod : Setter respVendorMethod. Proof. solve_setter. Defined.
#[export] Instance set_ignore : Setter ignore. Proof. solve_setter. Defined.
#[export] Instance set_decision : Setter decision. Proof. solve_setter. Defined.
#[export] Instance set_m : Setter m. Proof. solve_setter. Defined.
#[export] Instance set_changed : Setter changed. Proof. solve_setter. Defined.
#[export] Instance set_eap_method_priv : Setter eap_method_priv. Proof. solve_setter. Defined.
#[export] Instance set_identity : Setter identity. Proof. solve_setter. Defined.
#[export] Instance set_identity_len : Setter identity_len. Proof. solve_setter. Defined.
#[export] Instance set_lastId : Setter lastId. Proof. solve_setter. Defined.
#[export] Instance set_user : Setter user. Proof. solve_setter. Defined.
#[export] Instance set_user_eap_method_index : Setter user_eap_method_index. Proof. solve_setter. Defined.
#[export] Instance set_update_user : Setter update_user. Proof. solve_setter. Defined.
#[export] Instance set_num_rounds : Setter num_rounds. Proof. solve_setter. Defined.
#[export] Instance set_num_rounds_short : Setter num_rounds_short. Proof. solve_setter. Defined.
#[export] Instance set_method_pending : Setter method_pending. Proof. solve_setter. Defined.
#[export] Instance set_assoc_wps_ie : Setter assoc_wps_ie. Proof. solve_setter. Defined.
#[export] Instance set_assoc_p2p_ie : Setter assoc_p2p_ie. Proof. solve_setter. Defined.
#[export] Instance set_start_reauth : Setter start_reauth. Proof. solve_setter. Defined.
#[export] Instance set_peer_addr : Setter peer_addr. Proof. solve_setter. Defined.
#[export] Instance set_initiate_reauth_start_sent : Setter initiate_reauth_start_sent. Proof. solve_setter. Defined.
#[export] Instance set_try_initiate_reauth : Setter try_initiate_reauth. Proof. solve_setter. Defined.

Definition zero_eap_sm : eap_sm :=
  mk_eap_sm EAP_DISABLED 0 zero_eap_if 0 0 METHOD_PROPOSED 0 None 0 false false 0 0 0 0 false
    DECISION_SUCCESS None false None None 0 0 None 0 false 0 0 METHOD_PENDING_NONE None None false
    [] false false.

Record eap_world := mk_eap_world {
  esm : eap_sm;
  users : list Z;      (* [remediation] of the users looked up, newest first *)
  env : env_st;
  fault : option hazard }.

#[export] Instance eap_world_eta : Settable _ :=
  fun w => mk_eap_world w.(esm) w.(users) w.(env) w.(fault).
#[export] Instance set_esm : Setter esm. Proof. solve_setter. Defined.
#[export] Instance set_users : Setter users. Proof. solve_setter. Defined.
#[export] Instance set_env : Setter env. Proof. solve_setter. Defined.
#[export] Instance set_fault : Setter fault. Proof. solve_setter. Defined.

Abbreviation W := eap_world.

(** [struct eap_method]; an operation that C calls through a pointer that may
    be [NULL] is an option. *)
Record eap_method := mk_method {
  vendor : Z;
  method : Z;
  name : string;
  version : Z;
  init : W -> option method_priv * W;
  initPickUp : option (W -> option method_priv * W);
  reset : method_priv -> W -> W;
  buildReq : method_priv -> Z -> W -> option bytes * method_priv * W;
  getTimeout : option (method_priv -> W -> Z);
  check : option (method_priv -> bytes -> W -> bool);
  process : method_priv -> bytes -> W -> method_priv * W;
  isDone : method_priv -> W -> bool;
  getKey : option (method_priv -> Z -> W -> option bytes * Z * W);
  isSuccess : method_priv -> W -> bool;
  getSessionId : option (method_priv -> Z -> W -> option bytes * Z * W) }.

(** ** Method registration: [eap_server/eap_server_methods.c]

    The registry is the list [eap_methods]. *)

Definition EAP_SERVER_METHOD_INTERFACE_VERSION : Z := 1.

Fixpoint find_method (i : nat) (eap_methods : list eap_method) (vend meth : Z) : option nat :=
  match eap_methods with
  | [] => None
  | md :: rest =>
    if (md.(vendor) =? vend) && (md.(method) =? meth) then Some i
    else find_method (S i) rest vend meth
  end.
Definition eap_server_get_eap_method (eap_methods : list eap_method) (vend meth : Z)
    : option nat := find_method 0 eap_methods vend meth.

Definition eap_server_get_type (eap_methods : list eap_method) (nm : string) : Z * Z :=
  match find (fun md => String.eqb md.(name) nm) eap_methods with
  | Some md => (md.(vendor), md.(method))
  | None => (EAP_VENDOR_IETF, EAP_TYPE_NONE)
  end.

Definition eap_server_get_name (eap_methods : list eap_method) (vend type : Z) : string :=
  if (vend =? EAP_VENDOR_IETF) && (type =? EAP_TYPE_EXPANDED) then "expanded" else
  match find (fun md => (md.(vendor) =? vend) && (md.(method) =? type)) eap_methods with
  | Some md => md.(name)
  | None => "unknown"
  end.

(** Returns the result and the registry; methods have a name. *)
Definition eap_server_method_register (eap_methods : list eap_method) (new : eap_method)
    : Z * list eap_method :=
  if negb (new.(version) =? EAP_SERVER_METHOD_INTERFACE_VERSION) then (-1, eap_methods) else
  if existsb (fun md => ((md.(vendor) =? new.(vendor)) && (md.(method) =? new.(method))) ||
                        String.eqb md.(name) new.(name)) eap_methods
  then (-2, eap_methods)
  else (0, eap_methods ++ [new]).

(** ** The configuration and callbacks *)

Record eap_config := mk_eap_config {
  backend_auth : bool; eap_server : bool;
  max_auth_rounds : Z; max_auth_rounds_short : Z }.

(** [struct eapol_callbacks], with the [eapol_ctx] it is called with.
    [get_eap_user] returns whether it found the user, and what it stored. *)
Record eapol_callbacks := mk_eapol_cb {
  get_eap_user : option (bytes -> Z -> bool * eap_user);
  get_eap_req_id_text : option (option bytes);
  get_erp_send_reauth_start : option bool;
  get_erp_domain : option (option bytes) }.

(** ** Helpers *)

Definition upd (f : eap_sm -> eap_sm) (w : W) : W := w <| esm ::= f |>.
Definition upd_if (f : eap_eapol_interface -> eap_eapol_interface) (w : W) : W :=
  upd (fun sm => sm <| eap_if ::= f |>) w.
Definition crash (h : hazard) (w : W) : W := w <| fault := Some h |>.

Definition try_alloc (n : nat) (w : W) : bool * W :=
  let '(ok, st) := alloc n w.(env) in (ok, w <| env := st |>).
(** A [wpabuf] for [data], allocated at its length. *)
Definition wpabuf_new (data : bytes) (w : W) : option bytes * W :=
  let '(ok, w) := try_alloc (WPABUF_SIZE + length data) w in
  (if ok then Some data else None, w).

Definition wpabuf_dup (src : bytes) (w : W) : option bytes * W := wpabuf_new src w.

(** [eap_copy_buf(&dst, src)]: whether it returns 0, and [dst]. *)
Definition eap_copy_buf (dst src : option bytes) (w : W) : bool * option bytes * W :=
  match src with
  | None => (false, dst, w)
  | Some s => let '(d, w) := wpabuf_dup s w in (bool_decide (is_Some d), d, w)
  end.

(** [EAP_COPY(&dst, src)]: [dst] and [dstLen]. *)
Definition EAP_COPY (dst : option bytes) (dstLen : Z) (src : option bytes) (srcLen : Z) (w : W)
    : option bytes * Z * W :=
  match src with
  | None => (dst, dstLen, w)
  | Some s =>
    let '(ok, w) := try_alloc (Z.to_nat srcLen) w in
    if ok then (Some (take (Z.to_nat srcLen) s), srcLen, w) else (None, 0, w)
  end.

Definition eap_server_clear_identity (w : W) : W :=
  upd (fun sm => sm <| identity := None |>) w.

Definition eap_sm_nextId (id : Z) (w : W) : Z * W :=
  if id <? 0 then
    let '(r, st) := rand w.(env) in
    let w := w <| env := st |> in
    let id := Z.land r 0xff in
    if negb (id =? w.(esm).(lastId)) then (id, w) else (Z.land (id + 1) 0xff, w)
  else (Z.land (id + 1) 0xff, w).

Definition eap_sm_getId (data : option bytes) : Z :=
  match data with
  | None => -1
  | Some d => if (length d <? EAP_HDR_SIZE)%nat then -1 else get d 1
  end.

Fixpoint backoff (retransCount : nat) (rto : Z) : Z :=
  match retransCount with
  | O => rto
  | S n => let rto := rto * 2 in if 20 <=? rto then 20 else backoff n rto
  end.
Definition eap_sm_calculateTimeout (sm : eap_sm) : Z :=
  if sm.(try_initiate_reauth) then 1
  else if negb (sm.(methodTimeout) =? 0) then sm.(methodTimeout)
  else backoff (Z.to_nat sm.(retransCount)) 3.

Definition eap_sm_parseEapResp (resp : option bytes) (sm : eap_sm) : eap_sm :=
  let sm := sm <| rxResp := false |> <| rxInitiate := false |> <| respId := -1 |>
               <| respMethod := EAP_TYPE_NONE |> <| respVendor := EAP_VENDOR_IETF |>
               <| respVendorMethod := EAP_TYPE_NONE |> in
  match resp with
  | None => sm
  | Some hdr =>
    if (length hdr <? EAP_HDR_SIZE)%nat then sm else
    let plen := Z.to_nat (WPA_GET_BE16 (drop 2 hdr)) in
    if (length hdr <? plen)%nat then sm else
    let sm := sm <| respId := get hdr 1 |> in
    let sm := if get hdr 0 =? EAP_CODE_RESPONSE then sm <| rxResp := true |>
              else if get hdr 0 =? EAP_CODE_INITIATE then sm <| rxInitiate := true |>
              else sm in
    if (EAP_HDR_SIZE <? plen)%nat then
      let pos := drop EAP_HDR_SIZE hdr in
      let sm := sm <| respMethod := get pos 0 |> in
      let pos := drop 1 pos in
      if sm.(respMethod) =? EAP_TYPE_EXPANDED then
        if (plen <? EAP_HDR_SIZE + 8)%nat then sm else
        let sm := sm <| respVendor := WPA_GET_BE24 pos |> in
        let pos := drop 3 pos in
        sm <| respVendorMethod := WPA_GET_BE32 pos |>
      else sm
    else sm
  end.

(** [eap_sm_buildSuccess] and [eap_sm_buildFailure]. *)
Definition eap_sm_buildSuccess (id : Z) (w : W) : option bytes * W :=
  wpabuf_new ([EAP_CODE_SUCCESS; u8 id] ++ WPA_PUT_BE16 4) w.
Definition eap_sm_buildFailure (id : Z) (w : W) : option bytes * W :=
  wpabuf_new ([EAP_CODE_FAILURE; u8 id] ++ WPA_PUT_BE16 4) w.

(** ** The state machine *)

Context (eap_methods : list eap_method) (cfg : eap_config) (eapol_cb : eapol_callbacks).

(** What [sm->m] points to. *)
Definition sel (sm : eap_sm) : option eap_method :=
  match sm.(m) with None => None | Some i => eap_methods !! i end.

Definition get_erp_start : bool := default false eapol_cb.(get_erp_send_reauth_start).
Definition eap_get_erp_domain : option bytes := default None eapol_cb.(get_erp_domain).

Definition eap_sm_buildInitiateReauthStart (id : Z) (w : W) : option bytes * W :=
  let domain := eap_get_erp_domain in
  let tlv := match domain with
             | None => []
             | Some d => EAP_ERP_TLV_DOMAIN_NAME :: u8 (Z.of_nat (length d)) :: d
             end in
  wpabuf_new (eap_msg_hdr EAP_VENDOR_IETF EAP_ERP_TYPE_REAUTH_START (1 + length tlv)
                EAP_CODE_INITIATE id ++ 0 :: tlv) w.

(** Returns 0 ([true]) or -1. *)
Definition eap_user_get (ident : option bytes) (ident_len : Z) (ph2 : Z) (w : W) : bool * W :=
  match eapol_cb.(get_eap_user) with
  | None => (false, w)
  | Some lookup =>
    let w := upd (fun sm => sm <| user := None |>) w in
    let '(ok, w) := try_alloc sizeof_eap_user w in
    if negb ok then (false, w) else
    let '(found, u) := lookup (take (Z.to_nat ident_len) (default [] ident)) ph2 in
    let w := w <| users ::= cons u.(remediation) |> in
    if negb found then (false, w) else
    (true, upd (fun sm => sm <| user := Some u |> <| user_eap_method_index := 0 |>) w)
  end.

(** [if (sm->m && sm->eap_method_priv) ...] *)
Definition reset_method (w : W) : W :=
  match sel w.(esm), w.(esm).(eap_method_priv) with
  | Some md, Some p => upd (fun sm => sm <| eap_method_priv := None |>) (md.(reset) p w)
  | _, _ => w
  end.

(** *** Policy *)

Definition NONE_METHOD : Z * Z := (EAP_VENDOR_IETF, EAP_TYPE_NONE).
Definition method_at (ms : list (Z * Z)) (i : Z) : Z * Z := nth (Z.to_nat i) ms NONE_METHOD.
(** A configured method, not the end of the list. *)
Definition is_method (md : Z * Z) : bool :=
  negb (md.1 =? EAP_VENDOR_IETF) || negb (md.2 =? EAP_TYPE_NONE).

Definition remove_method (i : nat) (ms : list (Z * Z)) : list (Z * Z) :=
  let ms := if (i + 1 <? 8)%nat then take i ms ++ drop (i + 1) ms ++ drop 7 ms else ms in
  <[7%nat := NONE_METHOD]> ms.

(** The [while] loop of [eap_sm_process_nak]: each iteration passes or removes
    one method at or after [i], so 8 of them are enough. *)
Fixpoint nak_loop (fuel : nat) (nak_list : bytes) (i : nat) (ms : list (Z * Z))
    : list (Z * Z) :=
  match fuel with
  | O => ms
  | S fuel =>
    if (i <? 8)%nat && is_method (nth i ms NONE_METHOD) then
      if (((nth i ms NONE_METHOD).1 =? EAP_VENDOR_IETF) &&
          existsb (fun n => n =? (nth i ms NONE_METHOD).2) nak_list)
      then nak_loop fuel nak_list (i + 1) ms
      else nak_loop fuel nak_list i (remove_method i ms)
    else ms
  end.

Definition eap_sm_process_nak (nak_list : bytes) (sm : eap_sm) : eap_sm :=
  match sm.(user) with
  | None => sm
  | Some u =>
    sm <| user := Some (u <| methods ::=
      nak_loop (Z.to_nat EAP_MAX_METHODS) nak_list (Z.to_nat sm.(user_eap_method_index)) |>) |>
  end.

Definition eap_sm_Policy_update (nak_list : option bytes) (sm : eap_sm) : eap_sm :=
  match nak_list, sm.(user) with
  | Some l, Some u =>
    if negb (u.(phase2) =? 0) then sm <| decision := DECISION_FAILURE |>
    else eap_sm_process_nak l sm
  | _, _ => sm
  end.

(** Returns vendor and type. *)
Definition eap_sm_Policy_getNextMethod (sm : eap_sm) : (Z * Z) * eap_sm :=
  let idx := sm.(user_eap_method_index) in
  if bool_decide (sm.(identity) = None) || (sm.(currentId) =? -1) then
    ((EAP_VENDOR_IETF, EAP_TYPE_IDENTITY), sm <| update_user := true |>)
  else match sm.(user) with
  | Some u =>
    if (idx <? EAP_MAX_METHODS) && is_method (method_at u.(methods) idx)
    then (method_at u.(methods) idx, sm <| user_eap_method_index ::= Z.add 1 |>)
    else (NONE_METHOD, sm)
  | None => (NONE_METHOD, sm)
  end.

Definition is_identity_first (u : option eap_user) : bool :=
  match u with
  | None => false
  | Some u => (nth 0 u.(methods) NONE_METHOD) == (EAP_VENDOR_IETF, EAP_TYPE_IDENTITY)
  end.

Definition method_success (w : W) : bool :=
  match sel w.(esm), w.(esm).(eap_method_priv) with
  | Some md, Some p => md.(isSuccess) p w
  | _, _ => false
  end.
Definition method_done (w : W) : bool :=
  match sel w.(esm), w.(esm).(eap_method_priv) with
  | Some md, Some p => md.(isDone) p w
  | _, _ => false
  end.

(** The part of [eap_sm_Policy_getDecision] after the user lookup. *)
Definition decision_rest (w : W) : decisions * W :=
  let w := upd (fun sm => sm <| start_reauth := false |>) w in
  let sm := w.(esm) in
  if match sm.(user) with
     | None => false
     | Some u => (sm.(user_eap_method_index) <? EAP_MAX_METHODS) &&
                 is_method (method_at u.(methods) sm.(user_eap_method_index))
     end
  then (DECISION_CONTINUE, w)
  else if bool_decide (sm.(identity) = None) && get_erp_start &&
          negb sm.(initiate_reauth_start_sent)
  then (DECISION_INITIATE_REAUTH_START, w)
  else if bool_decide (sm.(identity) = None) || (sm.(currentId) =? -1)
  then (DECISION_CONTINUE, w)
  else (DECISION_FAILURE, w).

Definition eap_sm_Policy_getDecision (w : W) : decisions * W :=
  let sm := w.(esm) in
  if negb cfg.(eap_server) && bool_decide (is_Some sm.(identity)) && negb sm.(start_reauth)
  then (DECISION_PASSTHROUGH, w)
  else if negb (sm.(currentMethod) =? EAP_TYPE_IDENTITY) && method_success w
  then (DECISION_SUCCESS, upd (fun sm => sm <| update_user := true |>) w)
  else if method_done w && negb (method_success w)
  then (DECISION_FAILURE, upd (fun sm => sm <| update_user := true |>) w)
  else if (bool_decide (sm.(user) = None) || sm.(update_user)) &&
          bool_decide (is_Some sm.(identity)) && negb sm.(start_reauth)
  then
    let id_req := (sm.(currentMethod) =? EAP_TYPE_IDENTITY) && is_identity_first sm.(user) in
    let '(ok, w) := eap_user_get sm.(identity) sm.(identity_len) 0 w in
    if negb ok then (DECISION_FAILURE, w)
    else if id_req && is_identity_first w.(esm).(user)
    then (DECISION_FAILURE, upd (fun sm => sm <| update_user := true |>) w)
    else decision_rest (upd (fun sm => sm <| update_user := false |>) w)
  else decision_rest w.

Definition eap_sm_Policy_doPickUp (meth : Z) : bool := meth =? EAP_TYPE_IDENTITY.

(** *** States *)

(** [SM_ENTRY(EAP, st)] *)
Definition EAP_entry (global : bool) (st : EAP_states) : W -> W :=
  upd (fun sm => sm <| changed ::= orb (negb global || (sm.(EAP_state) != st)) |>
                    <| EAP_state := st |>).

Definition sm_EAP_DISABLED_Enter (global : bool) (w : W) : W :=
  let w := EAP_entry global EAP_DISABLED w in
  upd (fun sm => sm <| num_rounds := 0 |> <| num_rounds_short := 0 |>) w.

Definition sm_EAP_INITIALIZE_Enter (global : bool) (w : W) : W :=
  let w := EAP_entry global EAP_INITIALIZE w in
  let w := if w.(esm).(eap_if).(eapRestart) && negb cfg.(eap_server) &&
              bool_decide (is_Some w.(esm).(identity))
           then eap_server_clear_identity w else w in
  let w := upd (fun sm => sm <| try_initiate_reauth := false |> <| currentId := -1 |>) w in
  let w := upd_if (fun i => i <| eapSuccess := false |> <| eapFail := false |>
                              <| eapTimeout := false |> <| eapKeyData := None |>
                              <| eapKeyDataLen := 0 |> <| eapSessionId := None |>
                              <| eapSessionIdLen := 0 |> <| eapKeyAvailable := false |>
                              <| eapRestart := false |>) w in
  let w := reset_method w in
  let w := upd (fun sm => sm <| m := None |> <| user_eap_method_index := 0 |>) w in
  let w := if cfg.(backend_auth) then
             let w := upd (fun sm => sm <| currentMethod := EAP_TYPE_NONE |>) w in
             let w := upd (eap_sm_parseEapResp w.(esm).(eap_if).(eapRespData)) w in
             if w.(esm).(rxResp) then upd (fun sm => sm <| currentId := sm.(respId) |>) w else w
           else w in
  upd (fun sm => sm <| num_rounds := 0 |> <| num_rounds_short := 0 |>
                    <| method_pending := METHOD_PENDING_NONE |>) w.

Definition sm_EAP_PICK_UP_METHOD_Enter (global : bool) (w : W) : W :=
  let w := EAP_entry global EAP_PICK_UP_METHOD w in
  if eap_sm_Policy_doPickUp w.(esm).(respMethod) then
    let w := upd (fun sm => sm <| currentMethod := sm.(respMethod) |>) w in
    let w := reset_method w in
    let w := upd (fun sm => sm <| m := eap_server_get_eap_method eap_methods EAP_VENDOR_IETF
                                         sm.(currentMethod) |>) w in
    match sel w.(esm) with
    | Some md =>
      match md.(initPickUp) with
      | Some pickup =>
        let '(p, w) := pickup w in
        let w := upd (fun sm => sm <| eap_method_priv := p |>) w in
        if bool_decide (p = None)
        then upd (fun sm => sm <| m := None |> <| currentMethod := EAP_TYPE_NONE |>) w else w
      | None => upd (fun sm => sm <| m := None |> <| currentMethod := EAP_TYPE_NONE |>) w
      end
    | None => upd (fun sm => sm <| m := None |> <| currentMethod := EAP_TYPE_NONE |>) w
    end
  else w.

Definition set_retransWhile_timeout (w : W) : W :=
  upd (fun sm => sm <| eap_if ::=
    (fun i => i <| retransWhile := eap_sm_calculateTimeout sm |>) |>) w.
Definition sm_EAP_IDLE_Enter (global : bool) (w : W) : W :=
  set_retransWhile_timeout (EAP_entry global EAP_IDLE w).

(** The common body of [RETRANSMIT] and [RETRANSMIT2]. *)
Definition retransmit (w : W) : W :=
  let w := upd (fun sm => sm <| retransCount ::= Z.add 1 |>) w in
  let sm := w.(esm) in
  if (sm.(retransCount) <=? sm.(MaxRetrans)) && bool_decide (is_Some sm.(lastReqData)) then
    let '(ok, data, w) := eap_copy_buf sm.(eap_if).(eapReqData) sm.(lastReqData) w in
    let w := upd_if (fun i => i <| eapReqData := data |>) w in
    if ok then upd_if (fun i => i <| eapReq := true |>) w else w
  else w.
Definition sm_EAP_RETRANSMIT_Enter (global : bool) (w : W) : W :=
  retransmit (EAP_entry global EAP_RETRANSMIT w).

Definition is_short (data : option bytes) : bool :=
  match data with None => true | Some d => (length d <? 20)%nat end.
Definition sm_EAP_RECEIVED_Enter (global : bool) (w : W) : W :=
  let w := EAP_entry global EAP_RECEIVED w in
  let w := upd (eap_sm_parseEapResp w.(esm).(eap_if).(eapRespData)) w in
  let w := upd (fun sm => sm <| num_rounds ::= (fun n => u32 (n + 1)) |>) w in
  if is_short w.(esm).(eap_if).(eapRespData)
  then upd (fun sm => sm <| num_rounds_short ::= (fun n => u32 (n + 1)) |>) w
  else upd (fun sm => sm <| num_rounds_short := 0 |>) w.

Definition discard : W -> W :=
  upd_if (fun i => i <| eapResp := false |> <| eapNoReq := true |>).
Definition sm_EAP_DISCARD_Enter (global : bool) (w : W) : W :=
  discard (EAP_entry global EAP_DISCARD w).

(** What [SEND_REQUEST] and [SEND_REQUEST2] have in common. *)
Definition send_request (w : W) : W :=
  match w.(esm).(eap_if).(eapReqData) with
  | Some data =>
    let '(ok, last, w) := eap_copy_buf w.(esm).(lastReqData) (Some data) w in
    let w := upd (fun sm => sm <| lastReqData := last |>) w in
    upd_if (fun i => i <| eapResp := false |> <| eapReq := ok |>) w
  | None =>
    upd_if (fun i => i <| eapResp := false |> <| eapReq := false |> <| eapNoReq := true |>) w
  end.
Definition sm_EAP_SEND_REQUEST_Enter (global : bool) (w : W) : W :=
  let w := EAP_entry global EAP_SEND_REQUEST w in
  let w := upd (fun sm => sm <| retransCount := 0 |>) w in
  let w := if is_short w.(esm).(eap_if).(eapReqData) then w
           else upd (fun sm => sm <| num_rounds_short := 0 |>) w in
  send_request w.

Definition sm_EAP_INTEGRITY_CHECK_Enter (global : bool) (w : W) : W :=
  let w := EAP_entry global EAP_INTEGRITY_CHECK w in
  let resp := w.(esm).(eap_if).(eapRespData) in
  if negb (eap_hdr_len_valid resp 1) then upd (fun sm => sm <| ignore := true |>) w else
  match sel w.(esm), w.(esm).(eap_method_priv) with
  | Some md, Some p =>
    match md.(check) with
    | Some chk => upd (fun sm => sm <| ignore := chk p (default [] resp) w |>) w
    | None => w
    end
  | _, _ => crash NullPointer w
  end.

Definition sm_EAP_METHOD_REQUEST_Enter (global : bool) (w : W) : W :=
  let w := EAP_entry global EAP_METHOD_REQUEST w in
  match sel w.(esm), w.(esm).(eap_method_priv) with
  | None, _ => w
  | Some _, None => crash NullPointer w
  | Some md, Some p =>
    let '(id, w) := eap_sm_nextId w.(esm).(currentId) w in
    let w := upd (fun sm => sm <| currentId := id |> <| lastId := id |>) w in
    let w := upd_if (fun i => i <| eapReqData := None |>) w in
    let '(req, p, w) := md.(buildReq) p (u8 id) w in
    let w := upd (fun sm => sm <| eap_method_priv := Some p |>) w in
    let w := upd_if (fun i => i <| eapReqData := req |>) w in
    upd (fun sm => sm <| methodTimeout :=
      match md.(getTimeout) with Some f => f p w | None => 0 end |>) w
  end.

Definition sm_EAP_METHOD_RESPONSE_Enter (global : bool) (w : W) : W :=
  let w := EAP_entry global EAP_METHOD_RESPONSE w in
  let resp := w.(esm).(eap_if).(eapRespData) in
  if negb (eap_hdr_len_valid resp 1) then w else
  match sel w.(esm), w.(esm).(eap_method_priv) with
  | Some md, Some p =>
    let '(p, w) := md.(process) p (default [] resp) w in
    let w := upd (fun sm => sm <| eap_method_priv := Some p |>) w in
    if md.(isDone) p w then
      let w := upd (eap_sm_Policy_update None) w in
      let '(key, len, w) :=
        match md.(getKey) with
        | Some f => f p w.(esm).(eap_if).(eapKeyDataLen) w
        | None => (None, 0, w)
        end in
      let w := upd_if (fun i => i <| eapKeyData := key |> <| eapKeyDataLen := len |>) w in
      let '(sid, len, w) :=
        match md.(getSessionId) with
        | Some f => f p w.(esm).(eap_if).(eapSessionIdLen) w
        | None => (None, w.(esm).(eap_if).(eapSessionIdLen), w)
        end in
      let w := upd_if (fun i => i <| eapSessionId := sid |> <| eapSessionIdLen := len |>) w in
      upd (fun sm => sm <| methodState := METHOD_END |>) w
    else upd (fun sm => sm <| methodState := METHOD_CONTINUE |>) w
  | _, _ => crash NullPointer w
  end.

(** The [try_another_method] loop of [PROPOSE_METHOD]. *)
Fixpoint try_another_method (fuel : nat) (w : W) : W :=
  match fuel with
  | O => crash OutOfFuel w
  | S fuel =>
    let '((vend, type), sm) := eap_sm_Policy_getNextMethod w.(esm) in
    let w := w <| esm := sm |> in
    let w := upd (fun sm => sm <| currentMethod :=
               if vend =? EAP_VENDOR_IETF then type else EAP_TYPE_EXPANDED |>) w in
    let w := reset_method w in
    let w := upd (fun sm => sm <| m := eap_server_get_eap_method eap_methods vend type |>) w in
    match sel w.(esm) with
    | Some md =>
      let '(p, w) := md.(init) w in
      let w := upd (fun sm => sm <| eap_method_priv := p |>) w in
      if bool_decide (p = None) then
        let w := upd (fun sm => sm <| m := None |> <| currentMethod := EAP_TYPE_NONE |>) w in
        try_another_method fuel w
      else w
    | None => w
    end
  end.

(** With an identity, each iteration takes the next of at most 8 methods. *)
Definition PROPOSE_FUEL : nat := 10.

Definition sm_EAP_PROPOSE_METHOD_Enter (global : bool) (w : W) : W :=
  let w := EAP_entry global EAP_PROPOSE_METHOD w in
  let w := upd (fun sm => sm <| try_initiate_reauth := false |>) w in
  let w := try_another_method PROPOSE_FUEL w in
  if bool_decide (w.(esm).(m) = None)
  then upd (fun sm => sm <| decision := DECISION_FAILURE |>) w
  else if (w.(esm).(currentMethod) =? EAP_TYPE_IDENTITY) ||
          (w.(esm).(currentMethod) =? EAP_TYPE_NOTIFICATION)
  then upd (fun sm => sm <| methodState := METHOD_CONTINUE |>) w
  else upd (fun sm => sm <| methodState := METHOD_PROPOSED |>) w.

Definition nak_list_of (resp : option bytes) : option bytes :=
  match resp with
  | None => None
  | Some nak =>
    if (EAP_HDR_SIZE <? length nak)%nat then
      let len := Z.to_nat (WPA_GET_BE16 (drop 2 nak)) in
      let len := if (length nak <? len)%nat then length nak else len in
      let pos := drop EAP_HDR_SIZE nak in
      let len := (len - EAP_HDR_SIZE)%nat in
      if get pos 0 =? EAP_TYPE_NAK then Some (take (len - 1) (drop 1 pos)) else None
    else None
  end.

Definition sm_EAP_NAK_Enter (global : bool) (w : W) : W :=
  let w := EAP_entry global EAP_NAK w in
  let w := match w.(esm).(eap_method_priv) with
           | Some p =>
             match sel w.(esm) with
             | Some md => upd (fun sm => sm <| eap_method_priv := None |>) (md.(reset) p w)
             | None => crash NullPointer w
             end
           | None => w
           end in
  let w := upd (fun sm => sm <| m := None |>) w in
  let resp := w.(esm).(eap_if).(eapRespData) in
  if negb (eap_hdr_len_valid resp 1) then w else
  upd (eap_sm_Policy_update (nak_list_of resp)) w.

Definition sm_EAP_SELECT_ACTION_Enter (global : bool) (w : W) : W :=
  let w := EAP_entry global EAP_SELECT_ACTION w in
  let '(d, w) := eap_sm_Policy_getDecision w in
  upd (fun sm => sm <| decision := d |>) w.

Definition sm_EAP_TIMEOUT_FAILURE_Enter (global : bool) (w : W) : W :=
  let w := EAP_entry global EAP_TIMEOUT_FAILURE w in
  upd_if (fun i => i <| eapTimeout := true |>) w.

Definition sm_EAP_FAILURE_Enter (global : bool) (w : W) : W :=
  let w := EAP_entry global EAP_FAILURE w in
  let '(msg, w) := eap_sm_buildFailure w.(esm).(currentId) w in
  let w := upd_if (fun i => i <| eapReqData := msg |>) w in
  let w := upd (fun sm => sm <| lastReqData := None |>) w in
  upd_if (fun i => i <| eapFail := true |>) w.

Definition sm_EAP_SUCCESS_Enter (global : bool) (w : W) : W :=
  let w := EAP_entry global EAP_SUCCESS w in
  let '(msg, w) := eap_sm_buildSuccess w.(esm).(currentId) w in
  let w := upd_if (fun i => i <| eapReqData := msg |>) w in
  let w := upd (fun sm => sm <| lastReqData := None |>) w in
  let w := if bool_decide (is_Some w.(esm).(eap_if).(eapKeyData))
           then upd_if (fun i => i <| eapKeyAvailable := true |>) w else w in
  upd_if (fun i => i <| eapSuccess := true |>) w.

Definition sm_EAP_INITIATE_REAUTH_START_Enter (global : bool) (w : W) : W :=
  let w := EAP_entry global EAP_INITIATE_REAUTH_START w in
  let w := upd (fun sm => sm <| initiate_reauth_start_sent := true |>
                             <| try_initiate_reauth := true |>) w in
  let '(id, w) := eap_sm_nextId w.(esm).(currentId) w in
  let w := upd (fun sm => sm <| currentId := id |> <| lastId := id |>) w in
  let '(msg, w) := eap_sm_buildInitiateReauthStart id w in
  let w := upd_if (fun i => i <| eapReqData := msg |>) w in
  upd (fun sm => sm <| lastReqData := None |>) w.

Definition sm_EAP_INITIALIZE_PASSTHROUGH_Enter (global : bool) (w : W) : W :=
  let w := EAP_entry global EAP_INITIALIZE_PASSTHROUGH w in
  let w := upd_if (fun i => i <| aaaEapRespData := None |>) w in
  upd (fun sm => sm <| try_initiate_reauth := false |>) w.

Definition sm_EAP_IDLE2_Enter (global : bool) (w : W) : W :=
  set_retransWhile_timeout (EAP_entry global EAP_IDLE2 w).

Definition sm_EAP_RETRANSMIT2_Enter (global : bool) (w : W) : W :=
  retransmit (EAP_entry global EAP_RETRANSMIT2 w).

Definition sm_EAP_RECEIVED2_Enter (global : bool) (w : W) : W :=
  let w := EAP_entry global EAP_RECEIVED2 w in
  upd (eap_sm_parseEapResp w.(esm).(eap_if).(eapRespData)) w.

Definition sm_EAP_DISCARD2_Enter (global : bool) (w : W) : W :=
  discard (EAP_entry global EAP_DISCARD2 w).

Definition sm_EAP_SEND_REQUEST2_Enter (global : bool) (w : W) : W :=
  let w := EAP_entry global EAP_SEND_REQUEST2 w in
  let w := upd (fun sm => sm <| retransCount := 0 |>) w in
  send_request w.

Definition sm_EAP_AAA_REQUEST_Enter (global : bool) (w : W) : W :=
  let w := EAP_entry global EAP_AAA_REQUEST w in
  let i := w.(esm).(eap_if) in
  match i.(eapRespData) with
  | None => w
  | Some _ =>
    let '(_, data, w) := eap_copy_buf i.(aaaEapRespData) i.(eapRespData) w in
    upd_if (fun i => i <| aaaEapRespData := data |>) w
  end.

Definition sm_EAP_AAA_RESPONSE_Enter (global : bool) (w : W) : W :=
  let w := EAP_entry global EAP_AAA_RESPONSE w in
  let i := w.(esm).(eap_if) in
  let '(_, data, w) := eap_copy_buf i.(eapReqData) i.(aaaEapReqData) w in
  let w := upd_if (fun i => i <| eapReqData := data |>) w in
  upd (fun sm => sm <| currentId := eap_sm_getId sm.(eap_if).(eapReqData) |>
                    <| methodTimeout := sm.(eap_if).(aaaMethodTimeout) |>) w.

Definition sm_EAP_AAA_IDLE_Enter (global : bool) (w : W) : W :=
  let w := EAP_entry global EAP_AAA_IDLE w in
  upd_if (fun i => i <| aaaFail := false |> <| aaaSuccess := false |> <| aaaEapReq := false |>
                     <| aaaEapNoReq := false |> <| aaaEapResp := true |>) w.

Definition sm_EAP_TIMEOUT_FAILURE2_Enter (global : bool) (w : W) : W :=
  let w := EAP_entry global EAP_TIMEOUT_FAILURE2 w in
  upd_if (fun i => i <| eapTimeout := true |>) w.

Definition copy_aaa_request (w : W) : W :=
  let i := w.(esm).(eap_if) in
  let '(_, data, w) := eap_copy_buf i.(eapReqData) i.(aaaEapReqData) w in
  upd_if (fun i => i <| eapReqData := data |>) w.

Definition sm_EAP_FAILURE2_Enter (global : bool) (w : W) : W :=
  let w := EAP_entry global EAP_FAILURE2 w in
  let w := copy_aaa_request w in
  upd_if (fun i => i <| eapFail := true |>) w.

Definition sm_EAP_SUCCESS2_Enter (global : bool) (w : W) : W :=
  let w := EAP_entry global EAP_SUCCESS2 w in
  let w := copy_aaa_request w in
  let w := upd_if (fun i => i <| eapKeyAvailable := i.(aaaEapKeyAvailable) |>) w in
  let i := w.(esm).(eap_if) in
  let w := if i.(aaaEapKeyAvailable) then
             let '(key, len, w) := EAP_COPY i.(eapKeyData) i.(eapKeyDataLen)
                                     i.(aaaEapKeyData) i.(aaaEapKeyDataLen) w in
             upd_if (fun i => i <| eapKeyData := key |> <| eapKeyDataLen := len |>) w
           else upd_if (fun i => i <| eapKeyData := None |> <| eapKeyDataLen := 0 |>) w in
  let w := upd_if (fun i => i <| eapSuccess := true |>) w in
  upd (fun sm => sm <| start_reauth := true |>) w.

(** *** Steps *)

(** A response of type [meth], legacy or expanded. *)
Definition resp_is (sm : eap_sm) (meth : Z) : bool :=
  (sm.(respMethod) =? meth) ||
  ((sm.(respMethod) =? EAP_TYPE_EXPANDED) && (sm.(respVendor) =? EAP_VENDOR_IETF) &&
   (sm.(respVendorMethod) =? meth)).

(** The [switch]. *)
Definition sm_EAP_switch (w : W) : W :=
  let s := w.(esm) in
  let i := s.(eap_if) in
  match s.(EAP_state) with
  | EAP_INITIALIZE =>
    if cfg.(backend_auth) then
      if negb s.(rxResp) then sm_EAP_SELECT_ACTION_Enter false w
      else if resp_is s EAP_TYPE_NAK then sm_EAP_NAK_Enter false w
      else sm_EAP_PICK_UP_METHOD_Enter false w
    else sm_EAP_SELECT_ACTION_Enter false w
  | EAP_PICK_UP_METHOD =>
    if s.(currentMethod) =? EAP_TYPE_NONE then sm_EAP_SELECT_ACTION_Enter false w
    else sm_EAP_METHOD_RESPONSE_Enter false w
  | EAP_DISABLED => if i.(portEnabled) then sm_EAP_INITIALIZE_Enter false w else w
  | EAP_IDLE =>
    if i.(retransWhile) =? 0 then
      if s.(try_initiate_reauth)
      then sm_EAP_SELECT_ACTION_Enter false (upd (fun sm => sm <| try_initiate_reauth := false |>) w)
      else sm_EAP_RETRANSMIT_Enter false w
    else if i.(eapResp) then sm_EAP_RECEIVED_Enter false w else w
  | EAP_RETRANSMIT =>
    if s.(MaxRetrans) <? s.(retransCount) then sm_EAP_TIMEOUT_FAILURE_Enter false w
    else sm_EAP_IDLE_Enter false w
  | EAP_RECEIVED =>
    if s.(rxResp) && (s.(respId) =? s.(currentId)) && resp_is s EAP_TYPE_NAK &&
       (s.(methodState) == METHOD_PROPOSED)
    then sm_EAP_NAK_Enter false w
    else if s.(rxResp) && (s.(respId) =? s.(currentId)) && resp_is s s.(currentMethod)
    then sm_EAP_INTEGRITY_CHECK_Enter false w
    else sm_EAP_DISCARD_Enter false w
  | EAP_DISCARD => sm_EAP_IDLE_Enter false w
  | EAP_SEND_REQUEST => sm_EAP_IDLE_Enter false w
  | EAP_INTEGRITY_CHECK =>
    if s.(ignore) then sm_EAP_DISCARD_Enter false w else sm_EAP_METHOD_RESPONSE_Enter false w
  | EAP_METHOD_REQUEST =>
    if bool_decide (s.(m) = None) then sm_EAP_FAILURE_Enter false w else
    let w := sm_EAP_SEND_REQUEST_Enter false w in
    if w.(esm).(eap_if).(eapNoReq) && negb w.(esm).(eap_if).(eapReq)
    then sm_EAP_FAILURE_Enter false w else w
  | EAP_METHOD_RESPONSE =>
    if s.(methodState) == METHOD_END then sm_EAP_SELECT_ACTION_Enter false w
    else if s.(method_pending) == METHOD_PENDING_WAIT then w
    else if s.(method_pending) == METHOD_PENDING_CONT
    then sm_EAP_METHOD_RESPONSE_Enter false
           (upd (fun sm => sm <| method_pending := METHOD_PENDING_NONE |>) w)
    else sm_EAP_METHOD_REQUEST_Enter false w
  | EAP_PROPOSE_METHOD =>
    if s.(method_pending) == METHOD_PENDING_WAIT then
      if 0 <? s.(user_eap_method_index)
      then upd (fun sm => sm <| user_eap_method_index ::= Z.add (-1) |>) w else w
    else if s.(method_pending) == METHOD_PENDING_CONT
    then sm_EAP_PROPOSE_METHOD_Enter false
           (upd (fun sm => sm <| method_pending := METHOD_PENDING_NONE |>) w)
    else sm_EAP_METHOD_REQUEST_Enter false w
  | EAP_NAK => sm_EAP_SELECT_ACTION_Enter false w
  | EAP_SELECT_ACTION =>
    match s.(decision) with
    | DECISION_FAILURE => sm_EAP_FAILURE_Enter false w
    | DECISION_SUCCESS => sm_EAP_SUCCESS_Enter false w
    | DECISION_PASSTHROUGH => sm_EAP_INITIALIZE_PASSTHROUGH_Enter false w
    | DECISION_INITIATE_REAUTH_START => sm_EAP_INITIATE_REAUTH_START_Enter false w
    | DECISION_CONTINUE => sm_EAP_PROPOSE_METHOD_Enter false w
    end
  | EAP_INITIATE_REAUTH_START => sm_EAP_SEND_REQUEST_Enter false w
  | EAP_INITIATE_RECEIVED =>
    if negb cfg.(eap_server) then sm_EAP_SELECT_ACTION_Enter false w else w
  | EAP_TIMEOUT_FAILURE | EAP_FAILURE | EAP_SUCCESS => w
  | EAP_INITIALIZE_PASSTHROUGH =>
    if s.(currentId) =? -1 then sm_EAP_AAA_IDLE_Enter false w
    else sm_EAP_AAA_REQUEST_Enter false w
  | EAP_IDLE2 =>
    if i.(eapResp) then sm_EAP_RECEIVED2_Enter false w
    else if i.(retransWhile) =? 0 then sm_EAP_RETRANSMIT2_Enter false w else w
  | EAP_RETRANSMIT2 =>
    if s.(MaxRetrans) <? s.(retransCount) then sm_EAP_TIMEOUT_FAILURE2_Enter false w
    else sm_EAP_IDLE2_Enter false w
  | EAP_RECEIVED2 =>
    if s.(rxResp) && (s.(respId) =? s.(currentId)) then sm_EAP_AAA_REQUEST_Enter false w
    else sm_EAP_DISCARD2_Enter false w
  | EAP_DISCARD2 => sm_EAP_IDLE2_Enter false w
  | EAP_SEND_REQUEST2 => sm_EAP_IDLE2_Enter false w
  | EAP_AAA_REQUEST => sm_EAP_AAA_IDLE_Enter false w
  | EAP_AAA_RESPONSE => sm_EAP_SEND_REQUEST2_Enter false w
  | EAP_AAA_IDLE =>
    if i.(aaaFail) then sm_EAP_FAILURE2_Enter false w
    else if i.(aaaSuccess) then sm_EAP_SUCCESS2_Enter false w
    else if i.(aaaEapReq) then sm_EAP_AAA_RESPONSE_Enter false w
    else if i.(aaaTimeout) then sm_EAP_TIMEOUT_FAILURE2_Enter false w
    else w
  | EAP_TIMEOUT_FAILURE2 | EAP_FAILURE2 | EAP_SUCCESS2 => w
  end.

Definition sm_EAP_Step (w : W) : W :=
  let s := w.(esm) in
  if s.(eap_if).(eapRestart) && s.(eap_if).(portEnabled) then sm_EAP_INITIALIZE_Enter true w
  else if negb s.(eap_if).(portEnabled) then sm_EAP_DISABLED_Enter true w
  else if cfg.(max_auth_rounds) <? s.(num_rounds) then
    if s.(num_rounds) =? u32 (cfg.(max_auth_rounds) + 1)
    then sm_EAP_FAILURE_Enter true
           (upd (fun sm => sm <| num_rounds ::= (fun n => u32 (n + 1)) |>) w)
    else w
  else if cfg.(max_auth_rounds_short) <? s.(num_rounds_short) then
    if s.(num_rounds_short) =? u32 (cfg.(max_auth_rounds_short) + 1)
    then sm_EAP_FAILURE_Enter true
           (upd (fun sm => sm <| num_rounds_short ::= (fun n => u32 (n + 1)) |>) w)
    else w
  else sm_EAP_switch w.

(** The [do ... while (sm->changed)] loop; a crashed server does not go on. *)
Fixpoint step_loop (fuel : nat) (res : bool) (w : W) : bool * W :=
  match fuel with
  | O => (res, crash OutOfFuel w)
  | S fuel =>
    let w := upd (fun sm => sm <| changed := false |>) w in
    let w := sm_EAP_Step w in
    if bool_decide (is_Some w.(fault)) then (res, w)
    else if w.(esm).(changed) then step_loop fuel true w
    else (res, w)
  end.

Definition STEP_FUEL : nat := 64.
Definition eap_server_sm_step (w : W) : bool * W := step_loop STEP_FUEL false w.

(** *** The rest of the interface *)

Definition eap_server_sm_init (wps_ie p2p_ie addr : option bytes) (st : env_st)
    : option eap_sm * env_st :=
  let '(ok, st) := alloc sizeof_eap_sm st in
  if negb ok then (None, st) else
  let w := mk_eap_world (zero_eap_sm <| MaxRetrans := 5 |>) [] st None in
  let '(wps, w) := match wps_ie with None => (None, w) | Some d => wpabuf_dup d w end in
  let '(p2p, w) := match p2p_ie with None => (None, w) | Some d => wpabuf_dup d w end in
  (Some (w.(esm) <| assoc_wps_ie := wps |> <| assoc_p2p_ie := p2p |>
                 <| peer_addr := take 6 (default [] addr) |>), w.(env)).

Definition eap_sm_notify_cached (sm : eap_sm) : eap_sm := sm <| EAP_state := EAP_SUCCESS |>.

Definition eap_sm_pending_cb (sm : eap_sm) : eap_sm :=
  if sm.(method_pending) == METHOD_PENDING_WAIT
  then sm <| method_pending := METHOD_PENDING_CONT |> else sm.

Definition eap_sm_method_pending (sm : eap_sm) : bool :=
  sm.(method_pending) == METHOD_PENDING_WAIT.

Definition eap_get_method (sm : eap_sm) : option string :=
  match sel sm with None => None | Some md => Some md.(name) end.
End server.

(** ** Reading an updated structure *)

Tactic Notation "e_simpl" := cbn [
    set set_eapResp set_eapRespData set_portEnabled set_retransWhile set_eapRestart set_eapSRTT
    set_eapRTTVAR set_eapReq set_eapNoReq set_eapSuccess set_eapFail set_eapTimeout
    set_eapReqData set_eapKeyData set_eapKeyDataLen set_eapSessionId set_eapSessionIdLen
    set_eapKeyAvailable set_aaaEapReq set_aaaEapNoReq set_aaaSuccess set_aaaFail
    set_aaaEapReqData set_aaaEapKeyData set_aaaEapKeyDataLen set_aaaEapKeyAvailable
    set_aaaMethodTimeout set_aaaEapResp set_aaaEapRespData set_aaaTimeout
    EapServer.set_EAP_state EapServer.set_MaxRetrans EapServer.set_eap_if
    EapServer.set_currentMethod EapServer.set_currentId EapServer.set_methodState
    EapServer.set_retransCount EapServer.set_lastReqData EapServer.set_methodTimeout
    EapServer.set_rxResp EapServer.set_rxInitiate EapServer.set_respId EapServer.set_respMethod
    EapServer.set_respVendor EapServer.set_respVendorMethod EapServer.set_ignore
    EapServer.set_decision EapServer.set_m EapServer.set_changed EapServer.set_eap_method_priv
    EapServer.set_identity EapServer.set_identity_len EapServer.set_lastId EapServer.set_user
    EapServer.set_user_eap_method_index EapServer.set_update_user EapServer.set_num_rounds
    EapServer.set_num_rounds_short EapServer.set_method_pending EapServer.set_assoc_wps_ie
    EapServer.set_assoc_p2p_ie EapServer.set_start_reauth EapServer.set_peer_addr
    EapServer.set_initiate_reauth_start_sent EapServer.set_try_initiate_reauth set_esm
    set_users set_env set_fault eap_sm_eta eap_world_eta eap_eapol_interface_eta eapResp
    eapRespData portEnabled retransWhile eapRestart eapSRTT eapRTTVAR eapReq eapNoReq
    eapSuccess eapFail eapTimeout eapReqData eapKeyData eapKeyDataLen eapSessionId
    eapSessionIdLen eapKeyAvailable aaaEapReq aaaEapNoReq aaaSuccess aaaFail aaaEapReqData
    aaaEapKeyData aaaEapKeyDataLen aaaEapKeyAvailable aaaMethodTimeout aaaEapResp
    aaaEapRespData aaaTimeout EapServer.EAP_state EapServer.MaxRetrans EapServer.eap_if
    EapServer.currentMethod EapServer.currentId EapServer.methodState EapServer.retransCount
    EapServer.lastReqData EapServer.methodTimeout EapServer.rxResp EapServer.rxInitiate
    EapServer.respId EapServer.respMethod EapServer.respVendor EapServer.respVendorMethod
    EapServer.ignore EapServer.decision EapServer.m EapServer.changed EapServer.eap_method_priv
    EapServer.identity EapServer.identity_len EapServer.lastId EapServer.user
    EapServer.user_eap_method_index EapServer.update_user EapServer.num_rounds
    EapServer.num_rounds_short EapServer.method_pending EapServer.assoc_wps_ie
    EapServer.assoc_p2p_ie EapServer.start_reauth EapServer.peer_addr
    EapServer.initiate_reauth_start_sent EapServer.try_initiate_reauth esm users env fault
    upd upd_if].
Tactic Notation "e_simpl" "in" hyp(H) := cbn [
    set set_eapResp set_eapRespData set_portEnabled set_retransWhile set_eapRestart set_eapSRTT
    set_eapRTTVAR set_eapReq set_eapNoReq set_eapSuccess set_eapFail set_eapTimeout
    set_eapReqData set_eapKeyData set_eapKeyDataLen set_eapSessionId set_eapSessionIdLen
    set_eapKeyAvailable set_aaaEapReq set_aaaEapNoReq set_aaaSuccess set_aaaFail
    set_aaaEapReqData set_aaaEapKeyData set_aaaEapKeyDataLen set_aaaEapKeyAvailable
    set_aaaMethodTimeout set_aaaEapResp set_aaaEapRespData set_aaaTimeout
    EapServer.set_EAP_state EapServer.set_MaxRetrans EapServer.set_eap_if
    EapServer.set_currentMethod EapServer.set_currentId EapServer.set_methodState
    EapServer.set_retransCount EapServer.set_lastReqData EapServer.set_methodTimeout
    EapServer.set_rxResp EapServer.set_rxInitiate EapServer.set_respId EapServer.set_respMethod
    EapServer.set_respVendor EapServer.set_respVendorMethod EapServer.set_ignore
    EapServer.set_decision EapServer.set_m EapServer.set_changed EapServer.set_eap_method_priv
    EapServer.set_identity EapServer.set_identity_len EapServer.set_lastId EapServer.set_user
    EapServer.set_user_eap_method_index EapServer.set_update_user EapServer.set_num_rounds
    EapServer.set_num_rounds_short EapServer.set_method_pending EapServer.set_assoc_wps_ie
    EapServer.set_assoc_p2p_ie EapServer.set_start_reauth EapServer.set_peer_addr
    EapServer.set_initiate_reauth_start_sent EapServer.set_try_initiate_reauth set_esm
    set_users set_env set_fault eap_sm_eta eap_world_eta eap_eapol_interface_eta eapResp
    eapRespData portEnabled retransWhile eapRestart eapSRTT eapRTTVAR eapReq eapNoReq
    eapSuccess eapFail eapTimeout eapReqData eapKeyData eapKeyDataLen eapSessionId
    eapSessionIdLen eapKeyAvailable aaaEapReq aaaEapNoReq aaaSuccess aaaFail aaaEapReqData
    aaaEapKeyData aaaEapKeyDataLen aaaEapKeyAvailable aaaMethodTimeout aaaEapResp
    aaaEapRespData aaaTimeout EapServer.EAP_state EapServer.MaxRetrans EapServer.eap_if
    EapServer.currentMethod EapServer.currentId EapServer.methodState EapServer.retransCount
    EapServer.lastReqData EapServer.methodTimeout EapServer.rxResp EapServer.rxInitiate
    EapServer.respId EapServer.respMethod EapServer.respVendor EapServer.respVendorMethod
    EapServer.ignore EapServer.decision EapServer.m EapServer.changed EapServer.eap_method_priv
    EapServer.identity EapServer.identity_len EapServer.lastId EapServer.user
    EapServer.user_eap_method_index EapServer.update_user EapServer.num_rounds
    EapServer.num_rounds_short EapServer.method_pending EapServer.assoc_wps_ie
    EapServer.assoc_p2p_ie EapServer.start_reauth EapServer.peer_addr
    EapServer.initiate_reauth_start_sent EapServer.try_initiate_reauth esm users env fault
    upd upd_if] in H.
