(* ===== verification/EapServerProofs.v ===== *)
(** * The EAP server: what its steps do

    The contract between the server and its methods ([EapMethodsLaws]), and for
    every state of the machine what entering it changes ([entered]): the basis
    of the proofs that a run ends and never goes through a [NULL] pointer. *)

From S2P Require Import Prelude Bytes EapolState EapServer.

#[local] Open Scope Z_scope.

(** ** The contract of EAP methods *)

Section laws.
Context `{Env} {method_priv : Type}.
Abbreviation W := (eap_world (method_priv := method_priv)).
Implicit Types w : W.

(** The fields a method may write are cleared, the server's own are kept. *)
Definition server_part (sm : eap_sm (method_priv := method_priv)) : eap_sm :=
  sm <| identity := None |> <| identity_len := 0 |> <| user := None |>
     <| user_eap_method_index := 0 |> <| update_user := false |>
     <| method_pending := METHOD_PENDING_NONE |> <| MaxRetrans := 0 |>.

(** What calling a method may do: it writes its own fields, allocates and looks
    up users; it does not itself end a pending wait. *)
Record framed (w w' : W) : Prop := {
  fr_sm : server_part w'.(esm) = server_part w.(esm);
  fr_fault : w'.(fault) = w.(fault);
  fr_pending : w'.(esm).(method_pending) = METHOD_PENDING_CONT ->
               w.(esm).(method_pending) = METHOD_PENDING_CONT;
  fr_index : 0 <= w.(esm).(user_eap_method_index) -> 0 <= w'.(esm).(user_eap_method_index) }.

#[global] Instance framed_preorder : PreOrder framed.
Proof.
  split; [by split|]. intros w1 w2 w3 [] [].
  split; [by etrans|by etrans|by auto|by auto].
Qed.

(** What a failing [init] leaves alone besides. *)
Definition same_user (w w' : W) : Prop :=
  w'.(esm).(identity) = w.(esm).(identity) /\ w'.(esm).(user) = w.(esm).(user) /\
  w'.(esm).(user_eap_method_index) = w.(esm).(user_eap_method_index).

Record method_laws (md : eap_method (method_priv := method_priv)) : Prop := {
  law_init w : framed w (md.(init) w).2 /\
               ((md.(init) w).1 = None -> same_user w (md.(init) w).2);
  law_initPickUp f w : md.(initPickUp) = Some f -> framed w (f w).2;
  law_reset p w : framed w (md.(reset) p w) /\ same_user w (md.(reset) p w);
  law_buildReq p id w : framed w (md.(buildReq) p id w).2;
  law_process p resp w : framed w (md.(process) p resp w).2;
  law_getKey f p len w : md.(getKey) = Some f -> framed w (f p len w).2;
  law_getSessionId f p len w : md.(getSessionId) = Some f -> framed w (f p len w).2;
  law_isSuccess p w w' : md.(isSuccess) p w = md.(isSuccess) p w';
  law_type : (md.(vendor), md.(method)) <> NONE_METHOD }.

Class EapMethodsLaws (eap_methods : list (eap_method (method_priv := method_priv))) : Prop :=
  methods_laws : Forall method_laws eap_methods.

Lemma server_part_fields (sm sm' : eap_sm (method_priv := method_priv)) :
  server_part sm' = server_part sm ->
  sm'.(EAP_state) = sm.(EAP_state) /\ sm'.(eap_if) = sm.(eap_if) /\
  sm'.(currentMethod) = sm.(currentMethod) /\ sm'.(currentId) = sm.(currentId) /\
  sm'.(m) = sm.(m) /\ sm'.(eap_method_priv) = sm.(eap_method_priv) /\
  sm'.(num_rounds) = sm.(num_rounds) /\ sm'.(num_rounds_short) = sm.(num_rounds_short) /\
  sm'.(decision) = sm.(decision) /\ sm'.(try_initiate_reauth) = sm.(try_initiate_reauth).
Proof.
  intros E. split_and!.
  all: match goal with |- ?f _ = _ => exact (f_equal f E) end.
Qed.
End laws.

(** The limits are [unsigned int]s. *)
Class unsigned_config (cfg : eap_config) : Prop :=
  config_unsigned : 0 <= cfg.(max_auth_rounds) /\ 0 <= cfg.(max_auth_rounds_short).

(** ** Entering a state *)

Section effects.
Context `{Env} {method_priv : Type}.
Context (eap_methods : list (eap_method (method_priv := method_priv))).
Context (cfg : eap_config) (eapol_cb : eapol_callbacks).
Context `{ML : !EapMethodsLaws eap_methods} {CO : unsigned_config cfg}.
Abbreviation W := (eap_world (method_priv := method_priv)).
Implicit Types w : W.

Definition has_method w : Prop :=
  is_Some (sel eap_methods w.(esm)) /\ is_Some w.(esm).(eap_method_priv).
(** The method pointer and its data are set together. *)
Definition method_wf w : Prop :=
  0 <= w.(esm).(user_eap_method_index) /\
  (has_method w \/ w.(esm).(m) = None /\ w.(esm).(eap_method_priv) = None).

(** [currentMethod] is the type of the selected method. *)
Definition type_of (md : eap_method (method_priv := method_priv)) : Z :=
  if md.(vendor) =? EAP_VENDOR_IETF then md.(method) else EAP_TYPE_EXPANDED.
Definition typed w : Prop :=
  forall md, sel eap_methods w.(esm) = Some md -> w.(esm).(currentMethod) = type_of md.

(** One of the two limits on the number of rounds is exceeded. *)
Definition over w : bool :=
  (cfg.(max_auth_rounds) <? w.(esm).(num_rounds)) ||
  (cfg.(max_auth_rounds_short) <? w.(esm).(num_rounds_short)).

Definition resp_after (st : EAP_states) (resp : bool) : bool :=
  match st with
  | EAP_DISCARD | EAP_DISCARD2 | EAP_SEND_REQUEST | EAP_SEND_REQUEST2 => false
  | _ => resp
  end.
Definition success_after (st : EAP_states) (success : bool) : bool :=
  match st with
  | EAP_INITIALIZE => false
  | EAP_SUCCESS | EAP_SUCCESS2 => true
  | _ => success
  end.
(** The states in which the selected method may change. *)
Definition selects (st : EAP_states) : bool :=
  match st with
  | EAP_INITIALIZE | EAP_PICK_UP_METHOD | EAP_PROPOSE_METHOD | EAP_NAK => true
  | _ => false
  end.
Definition decides (st : EAP_states) : bool :=
  match st with EAP_SELECT_ACTION | EAP_PROPOSE_METHOD | EAP_NAK => true | _ => false end.

Record entered (st : EAP_states) w w' : Prop := {
  en_state : w'.(esm).(EAP_state) = st;
  en_fault : w'.(fault) = w.(fault);
  en_port : w'.(esm).(eap_if).(portEnabled) = w.(esm).(eap_if).(portEnabled);
  en_restart : w'.(esm).(eap_if).(eapRestart) =
               negb (st == EAP_INITIALIZE) && w.(esm).(eap_if).(eapRestart);
  en_resp : w'.(esm).(eap_if).(eapResp) = resp_after st w.(esm).(eap_if).(eapResp);
  en_success : w'.(esm).(eap_if).(eapSuccess) = success_after st w.(esm).(eap_if).(eapSuccess);
  en_aaa : w'.(esm).(eap_if).(aaaSuccess) =
           negb (st == EAP_AAA_IDLE) && w.(esm).(eap_if).(aaaSuccess);
  en_retr : (st == EAP_IDLE) || (st == EAP_IDLE2) = true ->
            w'.(esm).(eap_if).(retransWhile) <> 0;
  en_pending : w'.(esm).(method_pending) = METHOD_PENDING_CONT ->
               w.(esm).(method_pending) = METHOD_PENDING_CONT;
  en_over : st <> EAP_RECEIVED -> over w' = true -> over w = true;
  en_wf : method_wf w -> method_wf w';
  en_typed : typed w -> typed w';
  en_m : selects st = false -> w'.(esm).(m) = w.(esm).(m);
  en_decision : decides st = false -> w'.(esm).(decision) = w.(esm).(decision) }.

Lemma find_method_lookup i (l : list (eap_method (method_priv := method_priv))) vend meth j :
  find_method i l vend meth = Some j ->
  (i <= j)%nat /\ exists md, l !! (j - i)%nat = Some md /\
    md.(vendor) = vend /\ md.(method) = meth.
Proof.
  revert i. induction l as [|md l IH]; intros i; [done|]. cbn [find_method].
  destruct (_ && _) eqn:E.
  - intros [= <-]. split; [lia|]. rewrite Nat.sub_diag. exists md. split; [done|].
    apply andb_prop in E as [?%Z.eqb_eq ?%Z.eqb_eq]. done.
  - intros [Hi Hl]%IH. split; [lia|].
    replace (j - i)%nat with (S (j - S i)) by lia. exact Hl.
Qed.

Lemma get_method_sel vend meth i :
  eap_server_get_eap_method eap_methods vend meth = Some i ->
  exists md, eap_methods !! i = Some md /\ md.(vendor) = vend /\ md.(method) = meth.
Proof. intros [_ Hl]%find_method_lookup. by rewrite Nat.sub_0_r in Hl. Qed.

Lemma sel_laws sm md : sel eap_methods sm = Some md -> method_laws md.
Proof.
  unfold sel. destruct (m sm) as [i|]; [|done]. intros Hi.
  by eapply Forall_lookup_1 in Hi; [|apply ML].
Qed.

Lemma calculateTimeout_nonzero sm : eap_sm_calculateTimeout (method_priv := method_priv) sm <> 0.
Proof.
  unfold eap_sm_calculateTimeout. destruct (try_initiate_reauth sm); [done|].
  destruct (Z.eqb_spec (methodTimeout sm) 0); cbn [negb]; [|done].
  assert (Hb : forall n rto, 0 < rto -> 0 < backoff n rto).
  { intros n. induction n as [|n IH]; intros rto Hr; cbn [backoff]; [done|].
    case_match; [lia|apply IH; lia]. }
  specialize (Hb (Z.to_nat (retransCount sm)) 3). lia.
Qed.

Lemma not_over_0 n : 0 <= n -> (n <? 0) = false.
Proof. intros Hn. apply Z.ltb_ge. lia. Qed.

(** *** States that call no method *)

Ltac allocs :=
  repeat match goal with
  | |- context [alloc ?n ?st] => destruct (alloc n st) as [ [] ?]
  | |- context [rand ?st] => destruct (rand st) as [? ?]
  end.
Ltac over_0 :=
  rewrite ?(not_over_0 _ (proj1 CO)), ?(not_over_0 _ (proj2 CO)), ?orb_false_r; cbn [orb].
Ltac enter :=
  split; e_simpl; try done; unfold method_wf, has_method, typed, over, sel; e_simpl;
  over_0; try tauto; try done; try (by intros _ ->).

Lemma entered_DISABLED g w : entered EAP_DISABLED w (sm_EAP_DISABLED_Enter g w).
Proof. unfold sm_EAP_DISABLED_Enter, EAP_entry. enter. Qed.

Lemma entered_IDLE g w : entered EAP_IDLE w (sm_EAP_IDLE_Enter g w).
Proof.
  unfold sm_EAP_IDLE_Enter, set_retransWhile_timeout, EAP_entry. enter.
  intros _. apply calculateTimeout_nonzero.
Qed.

Lemma entered_IDLE2 g w : entered EAP_IDLE2 w (sm_EAP_IDLE2_Enter g w).
Proof.
  unfold sm_EAP_IDLE2_Enter, set_retransWhile_timeout, EAP_entry. enter.
  intros _. apply calculateTimeout_nonzero.
Qed.

Ltac copies :=
  unfold eap_sm_buildFailure, eap_sm_buildSuccess, eap_sm_nextId, eap_copy_buf, wpabuf_dup,
    wpabuf_new, try_alloc; e_simpl;
  repeat match goal with
  | |- context [match ?d with Some _ => _ | None => _ end] =>
    lazymatch d with alloc _ _ => fail | _ => destruct d end; e_simpl
  | |- context [if ?b then _ else _] => destruct b; e_simpl
  | |- context [alloc ?n ?st] => destruct (alloc n st) as [ [] ?]; e_simpl
  | |- context [rand ?st] => destruct (rand st) as [? ?]; e_simpl
  end.

Lemma entered_retransmit st w :
  st = EAP_RETRANSMIT \/ st = EAP_RETRANSMIT2 -> entered st w (retransmit (EAP_entry false st w)).
Proof. intros Hst. unfold retransmit, EAP_entry. destruct Hst as [-> | ->]; copies; enter. Qed.

Lemma entered_RETRANSMIT w : entered EAP_RETRANSMIT w (sm_EAP_RETRANSMIT_Enter false w).
Proof. apply entered_retransmit. by left. Qed.
Lemma entered_RETRANSMIT2 w : entered EAP_RETRANSMIT2 w (sm_EAP_RETRANSMIT2_Enter false w).
Proof. apply entered_retransmit. by right. Qed.

(** Parsing a response sets the fields that describe it. *)
Lemma parse_keeps resp (sm : eap_sm (method_priv := method_priv)) :
  let sm' := eap_sm_parseEapResp resp sm in
  (sm'.(EAP_state) = sm.(EAP_state) /\ sm'.(eap_if) = sm.(eap_if) /\ sm'.(m) = sm.(m) /\
   sm'.(eap_method_priv) = sm.(eap_method_priv)) /\
  (sm'.(num_rounds) = sm.(num_rounds) /\ sm'.(num_rounds_short) = sm.(num_rounds_short) /\
   sm'.(decision) = sm.(decision) /\ sm'.(currentMethod) = sm.(currentMethod)) /\
  sm'.(user_eap_method_index) = sm.(user_eap_method_index) /\
  sm'.(method_pending) = sm.(method_pending).
Proof.
  cbv zeta. unfold eap_sm_parseEapResp. destruct resp as [hdr|]; [|done].
  repeat match goal with |- context [if ?b then _ else _] => destruct b end; done.
Qed.

Ltac parsed :=
  match goal with
  | |- context [eap_sm_parseEapResp ?r ?s] =>
    let sm := fresh "sm" in
    let E1 := fresh in let E2 := fresh in let E3 := fresh in let E4 := fresh in
    let E5 := fresh in let E6 := fresh in let E7 := fresh in let E8 := fresh in
    let E9 := fresh in let E10 := fresh in
    pose proof (parse_keeps r s) as ((E1 & E2 & E3 & E4) & (E5 & E6 & E7 & E8) & E9 & E10);
    generalize dependent (eap_sm_parseEapResp r s); intros sm E1 E2 E3 E4 E5 E6 E7 E8 E9 E10;
    e_simpl in E1; e_simpl in E2; e_simpl in E3; e_simpl in E4; e_simpl in E5;
    e_simpl in E6; e_simpl in E7; e_simpl in E8; e_simpl in E9; e_simpl in E10; e_simpl
  end.
(** Rewrite with the equations that say what a call kept. *)
Ltac kept :=
  e_simpl;
  repeat match goal with
  | E : EAP_state _ = _ |- _ => rewrite E in *; clear E
  | E : EapServer.eap_if _ = _ |- _ => rewrite E in *; clear E
  | E : num_rounds _ = _ |- _ => rewrite E in *; clear E
  | E : num_rounds_short _ = _ |- _ => rewrite E in *; clear E
  | E : decision _ = _ |- _ => rewrite E in *; clear E
  | E : user_eap_method_index _ = _ |- _ => rewrite E in *; clear E
  | E : method_pending _ = method_pending _ |- _ => rewrite E in *; clear E
  | E : m _ = _ |- _ => rewrite E in *; clear E
  | E : eap_method_priv _ = _ |- _ => rewrite E in *; clear E
  | E : currentMethod _ = _ |- _ => rewrite E in *; clear E
  | E : fault _ = _ |- _ => rewrite E in *; clear E
  end.

Ltac enter_parsed :=
  split; unfold method_wf, has_method, typed, over, sel; e_simpl; try parsed; kept; done.

Lemma entered_RECEIVED w : entered EAP_RECEIVED w (sm_EAP_RECEIVED_Enter false w).
Proof.
  unfold sm_EAP_RECEIVED_Enter, EAP_entry. e_simpl. destruct (is_short _); enter_parsed.
Qed.
Lemma entered_RECEIVED2 w : entered EAP_RECEIVED2 w (sm_EAP_RECEIVED2_Enter false w).
Proof. unfold sm_EAP_RECEIVED2_Enter, EAP_entry. enter_parsed. Qed.

Lemma entered_DISCARD w : entered EAP_DISCARD w (sm_EAP_DISCARD_Enter false w).
Proof. unfold sm_EAP_DISCARD_Enter, discard, EAP_entry. enter. Qed.
Lemma entered_DISCARD2 w : entered EAP_DISCARD2 w (sm_EAP_DISCARD2_Enter false w).
Proof. unfold sm_EAP_DISCARD2_Enter, discard, EAP_entry. enter. Qed.

Lemma entered_SEND_REQUEST w : entered EAP_SEND_REQUEST w (sm_EAP_SEND_REQUEST_Enter false w).
Proof.
  unfold sm_EAP_SEND_REQUEST_Enter, send_request, EAP_entry. copies; enter.
Qed.
Lemma entered_SEND_REQUEST2 w : entered EAP_SEND_REQUEST2 w (sm_EAP_SEND_REQUEST2_Enter false w).
Proof. unfold sm_EAP_SEND_REQUEST2_Enter, send_request, EAP_entry. copies; enter. Qed.

Lemma entered_FAILURE g w : entered EAP_FAILURE w (sm_EAP_FAILURE_Enter g w).
Proof. unfold sm_EAP_FAILURE_Enter, EAP_entry. copies; enter. Qed.
Lemma entered_SUCCESS w : entered EAP_SUCCESS w (sm_EAP_SUCCESS_Enter false w).
Proof. unfold sm_EAP_SUCCESS_Enter, EAP_entry. copies; enter. Qed.
Lemma entered_TIMEOUT_FAILURE w :
  entered EAP_TIMEOUT_FAILURE w (sm_EAP_TIMEOUT_FAILURE_Enter false w).
Proof. unfold sm_EAP_TIMEOUT_FAILURE_Enter, EAP_entry. enter. Qed.
Lemma entered_TIMEOUT_FAILURE2 w :
  entered EAP_TIMEOUT_FAILURE2 w (sm_EAP_TIMEOUT_FAILURE2_Enter false w).
Proof. unfold sm_EAP_TIMEOUT_FAILURE2_Enter, EAP_entry. enter. Qed.
Lemma entered_INITIATE_REAUTH_START w :
  entered EAP_INITIATE_REAUTH_START w (sm_EAP_INITIATE_REAUTH_START_Enter eapol_cb false w).
Proof.
  unfold sm_EAP_INITIATE_REAUTH_START_Enter, eap_sm_buildInitiateReauthStart, EAP_entry.
  cbv zeta. copies; enter.
Qed.
Lemma entered_INITIALIZE_PASSTHROUGH w :
  entered EAP_INITIALIZE_PASSTHROUGH w (sm_EAP_INITIALIZE_PASSTHROUGH_Enter false w).
Proof. unfold sm_EAP_INITIALIZE_PASSTHROUGH_Enter, EAP_entry. enter. Qed.
Lemma entered_AAA_REQUEST w : entered EAP_AAA_REQUEST w (sm_EAP_AAA_REQUEST_Enter false w).
Proof. unfold sm_EAP_AAA_REQUEST_Enter, EAP_entry. copies; enter. Qed.
Lemma entered_AAA_RESPONSE w : entered EAP_AAA_RESPONSE w (sm_EAP_AAA_RESPONSE_Enter false w).
Proof. unfold sm_EAP_AAA_RESPONSE_Enter, EAP_entry. copies; enter. Qed.
Lemma entered_AAA_IDLE w : entered EAP_AAA_IDLE w (sm_EAP_AAA_IDLE_Enter false w).
Proof. unfold sm_EAP_AAA_IDLE_Enter, EAP_entry. enter. Qed.
Lemma entered_FAILURE2 w : entered EAP_FAILURE2 w (sm_EAP_FAILURE2_Enter false w).
Proof. unfold sm_EAP_FAILURE2_Enter, copy_aaa_request, EAP_entry. copies; enter. Qed.
Lemma entered_SUCCESS2 w : entered EAP_SUCCESS2 w (sm_EAP_SUCCESS2_Enter false w).
Proof.
  unfold sm_EAP_SUCCESS2_Enter, copy_aaa_request, EAP_COPY, EAP_entry. copies; enter.
Qed.

(** *** States that call a method *)

(** A change that [entered] does not see. *)
Record inert w w' : Prop := {
  in_state : w'.(esm).(EAP_state) = w.(esm).(EAP_state);
  in_fault : w'.(fault) = w.(fault);
  in_port : w'.(esm).(eap_if).(portEnabled) = w.(esm).(eap_if).(portEnabled);
  in_restart : w'.(esm).(eap_if).(eapRestart) = w.(esm).(eap_if).(eapRestart);
  in_resp : w'.(esm).(eap_if).(eapResp) = w.(esm).(eap_if).(eapResp);
  in_success : w'.(esm).(eap_if).(eapSuccess) = w.(esm).(eap_if).(eapSuccess);
  in_aaa : w'.(esm).(eap_if).(aaaSuccess) = w.(esm).(eap_if).(aaaSuccess);
  in_retr : w'.(esm).(eap_if).(retransWhile) = w.(esm).(eap_if).(retransWhile);
  in_pending : w'.(esm).(method_pending) = METHOD_PENDING_CONT ->
               w.(esm).(method_pending) = METHOD_PENDING_CONT;
  in_over : over w' = true -> over w = true;
  in_wf : method_wf w -> method_wf w';
  in_typed : typed w -> typed w';
  in_m : w'.(esm).(m) = w.(esm).(m);
  in_decision : w'.(esm).(decision) = w.(esm).(decision) }.

#[global] Instance inert_preorder : PreOrder inert.
Proof.
  split; [by split|]. intros w1 w2 w3 [] []. split; first [by etrans|by auto].
Qed.

Lemma entered_inert st w w1 w2 : entered st w w1 -> inert w1 w2 -> entered st w w2.
Proof.
  intros [] []. split; try first [by etrans|by auto|by rewrite in_retr0; auto].
  - intros Hd. rewrite in_m0. auto.
  - intros Hd. rewrite in_decision0. auto.
Qed.

Lemma inert_framed w w' : framed w w' -> inert w w'.
Proof.
  intros [Hs Hf Hp Hi].
  apply server_part_fields in Hs as (E1&E2&E3&E4&E5&E6&E7&E8&E9&E10).
  split; try done; unfold over, method_wf, has_method, typed, sel.
  all: rewrite ?E2, ?E3, ?E5, ?E6, ?E7, ?E8; try done. by intros [? ?]; auto.
Qed.

Ltac inert_upd := split; unfold method_wf, has_method, typed, over, sel; e_simpl; done.

Lemma entered_entry st w :
  (st = EAP_METHOD_REQUEST \/ st = EAP_METHOD_RESPONSE \/ st = EAP_SELECT_ACTION \/
   st = EAP_PROPOSE_METHOD \/ st = EAP_NAK \/ st = EAP_PICK_UP_METHOD) ->
  entered st w (EAP_entry false st w).
Proof.
  intros Hst. unfold EAP_entry.
  repeat destruct Hst as [-> | Hst]; [..|rewrite Hst]; enter.
Qed.

Lemma inert_priv p w :
  has_method w -> inert w (upd (fun sm => sm <| eap_method_priv := Some p |>) w).
Proof.
  intros [Hm Hp]. split; try done. intros [Hi _]. unfold method_wf, has_method, sel. e_simpl.
  split; [done|]. left. split; [exact Hm|done].
Qed.

Lemma has_method_inert w w' : inert w w' -> method_wf w -> has_method w -> has_method w'.
Proof.
  intros [] Hw [ [md Hm] _]. destruct (in_wf0 Hw) as [_ [?|[Hn _] ] ]; [done|].
  rewrite in_m0 in Hn. unfold sel in Hm. by rewrite Hn in Hm.
Qed.

Lemma inert_nextId id w : inert w (eap_sm_nextId id w).2.
Proof.
  unfold eap_sm_nextId. destruct (id <? 0); [|done]. destruct (rand _). cbv zeta.
  destruct (negb _); inert_upd.
Qed.

Lemma entered_INTEGRITY_CHECK w :
  has_method w -> entered EAP_INTEGRITY_CHECK w (sm_EAP_INTEGRITY_CHECK_Enter eap_methods false w).
Proof.
  intros [ [md Hm] [p Hp] ]. unfold sm_EAP_INTEGRITY_CHECK_Enter, EAP_entry.
  destruct (negb _); [enter|]. unfold sel in *. e_simpl. rewrite Hm, Hp.
  destruct (check md); enter.
Qed.

Lemma entered_METHOD_REQUEST w :
  method_wf w ->
  entered EAP_METHOD_REQUEST w (sm_EAP_METHOD_REQUEST_Enter eap_methods false w).
Proof.
  intros Hw. unfold sm_EAP_METHOD_REQUEST_Enter.
  pose proof (entered_entry EAP_METHOD_REQUEST w ltac:(tauto)) as He.
  apply (entered_inert _ _ _ _ He). pose proof (en_wf _ _ _ He Hw) as Hw1.
  generalize dependent (EAP_entry false EAP_METHOD_REQUEST w). intros w1 _ Hw1.
  destruct (sel eap_methods (esm w1)) as [md|] eqn:Hm; [|done].
  destruct (eap_method_priv (esm w1)) as [p|] eqn:Hp.
  2: { destruct Hw1 as [_ [ [_ [? ?] ]|[Hn _] ] ]; [congruence|].
       unfold sel in Hm. by rewrite Hn in Hm. }
  assert (Hh : has_method w1) by (split; [by rewrite Hm|by rewrite Hp]).
  pose proof (inert_nextId (currentId (esm w1)) w1) as Hn.
  destruct (eap_sm_nextId (currentId (esm w1)) w1) as [id w2]. cbn [snd] in Hn.
  set (w3 := upd_if _ (upd _ w2)).
  assert (H3 : inert w1 w3) by (etrans; [exact Hn|inert_upd]).
  pose proof (law_buildReq md (sel_laws _ _ Hm) p (u8 id) w3) as Hb.
  destruct (buildReq md p (u8 id) w3) as [ [req p'] w4]. cbn [snd] in Hb.
  apply inert_framed in Hb.
  assert (H4 : inert w1 w4) by (by etrans).
  etrans; [exact H4|]. etrans; [apply inert_priv; by apply (has_method_inert _ _ H4)|].
  inert_upd.
Qed.

Lemma entered_METHOD_RESPONSE w :
  has_method w -> method_wf w ->
  entered EAP_METHOD_RESPONSE w (sm_EAP_METHOD_RESPONSE_Enter eap_methods false w).
Proof.
  intros Hh Hw. unfold sm_EAP_METHOD_RESPONSE_Enter.
  pose proof (entered_entry EAP_METHOD_RESPONSE w ltac:(tauto)) as He.
  apply (entered_inert _ _ _ _ He). pose proof (en_wf _ _ _ He Hw) as Hw1.
  assert (Hh1 : has_method (EAP_entry false EAP_METHOD_RESPONSE w)) by exact Hh.
  generalize dependent (EAP_entry false EAP_METHOD_RESPONSE w). intros w1 _ Hw1 Hh1.
  destruct (negb _); [done|]. pose proof Hh1 as [ [md Hm] [p Hp] ].
  rewrite Hm, Hp. pose proof (sel_laws _ _ Hm) as L.
  pose proof (law_process md L p (default [] (eapRespData (eap_if (esm w1)))) w1) as Hb.
  destruct (process md p _ w1) as [p' w2]. cbn [snd] in Hb. apply inert_framed in Hb.
  set (w3 := upd _ w2).
  assert (H3 : inert w1 w3).
  { etrans; [exact Hb|]. apply inert_priv. by apply (has_method_inert _ _ Hb). }
  etrans; [exact H3|]. destruct (isDone md p' w3); [|inert_upd].
  assert (H4 : inert w3 (upd (eap_sm_Policy_update None) w3)) by done.
  etrans; [exact H4|]. generalize (upd (eap_sm_Policy_update None) w3). intros w4.
  set (k := match getKey md with Some f => _ | None => _ end).
  assert (Hk : inert w4 k.2).
  { unfold k. destruct (getKey md) eqn:Eg; [|done]. by eapply inert_framed, law_getKey. }
  destruct k as [ [key len] w5]. cbn [snd] in Hk. etrans; [exact Hk|].
  assert (H6 : forall w, inert w (upd_if (fun i => i <| eapKeyData := key |>
                                                     <| eapKeyDataLen := len |>) w))
    by (intros; inert_upd).
  etrans; [apply H6|]. generalize (upd_if (fun i => i <| eapKeyData := key |>
    <| eapKeyDataLen := len |>) w5). intros w6.
  set (s := match getSessionId md with Some f => _ | None => _ end).
  assert (Hs : inert w6 s.2).
  { unfold s. destruct (getSessionId md) eqn:Eg; [|done].
    by eapply inert_framed, law_getSessionId. }
  destruct s as [ [sid len'] w7]. cbn [snd] in Hs. etrans; [exact Hs|]. inert_upd.
Qed.

Lemma inert_user_get ident len ph w : inert w (eap_user_get eapol_cb ident len ph w).2.
Proof.
  unfold eap_user_get. destruct (get_eap_user eapol_cb) as [lookup|]; [|done].
  cbv zeta. unfold try_alloc. e_simpl. destruct (alloc _ _) as [ [] ?]; [|inert_upd].
  cbn [negb]. destruct (lookup _ _) as [ [] u]; cbn [negb snd]; [|inert_upd].
  split; unfold method_wf, has_method, typed, over, sel; e_simpl; try done. by intros [_ ?].
Qed.

Lemma inert_decision_rest w : inert w (decision_rest eapol_cb w).2.
Proof.
  unfold decision_rest. cbv zeta.
  repeat match goal with |- context [if ?b then _ else _] =>
    lazymatch b with context [if _ then _ else _] => fail | _ => destruct b end end; inert_upd.
Qed.

Lemma inert_getDecision w :
  inert w (eap_sm_Policy_getDecision eap_methods cfg eapol_cb w).2.
Proof.
  unfold eap_sm_Policy_getDecision. cbv zeta.
  destruct (_ && _); [done|]. destruct (_ && _); [inert_upd|].
  destruct (_ && _); [inert_upd|]. destruct (_ && _); [|apply inert_decision_rest].
  pose proof (inert_user_get (identity (esm w)) (identity_len (esm w)) 0 w) as Hu.
  destruct (eap_user_get _ _ _ _ _) as [ok w1]. cbn [snd] in Hu.
  etrans; [exact Hu|]. destruct (negb ok); [done|]. destruct (_ && _); [inert_upd|].
  etrans; [|apply inert_decision_rest]. inert_upd.
Qed.

Lemma SELECT_ACTION_decision w :
  let d := eap_sm_Policy_getDecision eap_methods cfg eapol_cb
             (EAP_entry false EAP_SELECT_ACTION w) in
  (sm_EAP_SELECT_ACTION_Enter eap_methods cfg eapol_cb false w) =
  upd (fun sm => sm <| decision := d.1 |>) d.2.
Proof.
  cbv zeta. unfold sm_EAP_SELECT_ACTION_Enter. by destruct (eap_sm_Policy_getDecision _ _ _ _).
Qed.

Lemma entered_SELECT_ACTION w :
  entered EAP_SELECT_ACTION w (sm_EAP_SELECT_ACTION_Enter eap_methods cfg eapol_cb false w).
Proof.
  rewrite SELECT_ACTION_decision.
  pose proof (inert_getDecision (EAP_entry false EAP_SELECT_ACTION w)) as Hd.
  pose proof (entered_entry EAP_SELECT_ACTION w ltac:(tauto)) as He.
  destruct (eap_sm_Policy_getDecision _ _ _ _) as [d w1]. cbn [fst snd] in *.
  apply (entered_inert _ _ _ _ He) in Hd. by destruct Hd.
Qed.

Lemma entered_NAK w :
  method_wf w -> entered EAP_NAK w (sm_EAP_NAK_Enter eap_methods false w).
Proof.
  intros Hw. unfold sm_EAP_NAK_Enter.
  pose proof (entered_entry EAP_NAK w ltac:(tauto)) as He.
  pose proof (en_wf _ _ _ He Hw) as Hw1.
  generalize dependent (EAP_entry false EAP_NAK w). intros w1 He Hw1.
  set (w2 := match eap_method_priv (esm w1) with Some p => _ | None => _ end).
  assert (H2 : exists w', framed w1 w' /\ w2 = upd (fun sm => sm <| eap_method_priv := None |>) w').
  { unfold w2. destruct Hw1 as [_ [ [ [md Hm] [p Hp] ]|[Hm Hp] ] ]; rewrite Hp.
    - rewrite Hm. eexists. split; [apply (law_reset md (sel_laws _ _ Hm))|done].
    - exists w1. split; [done|]. destruct w1 as [s1 ? ? ?]. destruct s1. cbn in Hp. by subst. }
  clearbody w2. destruct H2 as (w' & Hf%inert_framed & ->).
  apply (entered_inert _ _ _ _ He) in Hf.
  assert (Hc : forall nl (sm : eap_sm (method_priv := method_priv)),
    exists d u, eap_sm_Policy_update nl sm = sm <| decision := d |> <| user := u |>).
  { intros nl sm. assert (Hid : sm = sm <| decision := decision sm |> <| user := user sm |>)
      by (by destruct sm).
    unfold eap_sm_Policy_update, eap_sm_process_nak.
    destruct nl; [|by eauto]. destruct (user sm) eqn:Eu; [|by eauto].
    destruct (negb _); [exists DECISION_FAILURE, (user sm)|]; [by destruct sm|].
    exists (decision sm). eexists. by destruct sm. }
  destruct Hf. cbv zeta. destruct (eap_hdr_len_valid _ _); cbn [negb].
  all: split; unfold method_wf, has_method, typed, over, sel in *; e_simpl;
    try (match goal with |- context [eap_sm_Policy_update ?nl ?s] =>
           destruct (Hc nl s) as (d & u & E); rewrite E; e_simpl end); try done.
  all: intros Hi; split; [exact (proj1 (en_wf0 Hi))|by right].
Qed.

Lemma reset_method_spec w : method_wf w ->
  exists w', framed w w' /\ same_user w w' /\
    reset_method eap_methods w = upd (fun sm => sm <| eap_method_priv := None |>) w'.
Proof.
  intros [_ [ [ [md Hm] [p Hp] ]|[Hm Hp] ] ]; unfold reset_method.
  - rewrite Hm, Hp. exists (reset md p w).
    destruct (law_reset md (sel_laws _ _ Hm) p w). by split_and!.
  - exists w. split_and!; [done|done|]. unfold sel. rewrite Hm.
    destruct w as [s ? ? ?], s. cbn in Hp. by subst.
Qed.

Lemma inert_clear_identity w : inert w (eap_server_clear_identity w).
Proof. unfold eap_server_clear_identity. inert_upd. Qed.

Ltac inert_in H :=
  let H1 := fresh in let H2 := fresh in let H3 := fresh in let H4 := fresh in
  let H5 := fresh in let H6 := fresh in let H7 := fresh in let H8 := fresh in
  let H9 := fresh in let H10 := fresh in let H11 := fresh in let H12 := fresh in
  let H13 := fresh in let H14 := fresh in
  destruct H as [H1 H2 H3 H4 H5 H6 H13 H7 H8 H9 H10 H14 H11 H12]; clear H14;
  unfold over, method_wf, has_method, sel in H9, H10;
  e_simpl in H1; e_simpl in H2; e_simpl in H3; e_simpl in H4; e_simpl in H5; e_simpl in H6;
  e_simpl in H7; e_simpl in H8; e_simpl in H9; e_simpl in H10; e_simpl in H11; e_simpl in H12;
  e_simpl in H13.

(** What [INITIALIZE] adds to [entered]. *)
Lemma entered_INITIALIZE g w :
  method_wf w ->
  let w' := sm_EAP_INITIALIZE_Enter eap_methods cfg g w in
  entered EAP_INITIALIZE w w' /\ over w' = false /\
  (cfg.(backend_auth) = true -> w'.(esm).(currentMethod) = EAP_TYPE_NONE).
Proof.
  intros Hw. unfold sm_EAP_INITIALIZE_Enter, EAP_entry. cbv zeta.
  set (w1 := upd _ w). set (w2 := if _ && _ then _ else w1).
  assert (H2 : inert w1 w2).
  { unfold w2. destruct (_ && _); [apply inert_clear_identity|done]. }
  clearbody w2. subst w1. inert_in H2.
  set (w3 := upd_if _ _).
  destruct (reset_method_spec w3) as (w4 & Hf & _ & ->).
  { unfold method_wf, has_method, sel. unfold w3. e_simpl. auto. }
  subst w3. apply inert_framed in Hf. inert_in Hf.
  cbv zeta. destruct (backend_auth cfg); [destruct (rxResp _)|].
  all: split_and!; [|unfold over; e_simpl; by over_0|intros Hb; e_simpl; try parsed; done].
  all: split; unfold over, method_wf, has_method, typed, sel; e_simpl; over_0; try parsed;
    cbn [resp_after success_after]; try change (EAP_INITIALIZE != EAP_INITIALIZE) with false;
    try change (EAP_INITIALIZE != EAP_AAA_IDLE) with true;
    cbn [andb]; try congruence; try done.
  all: try (intros _ md; match goal with E : m _ = None |- _ => rewrite E end; discriminate).
  all: intros _; split; [|right; split; congruence];
    try match goal with E : user_eap_method_index _ = 0 |- _ => rewrite E end; done.
Qed.

(** A change that may select another method. *)
Record calm w w' : Prop := {
  ca_state : w'.(esm).(EAP_state) = w.(esm).(EAP_state);
  ca_fault : w'.(fault) = w.(fault);
  ca_port : w'.(esm).(eap_if).(portEnabled) = w.(esm).(eap_if).(portEnabled);
  ca_restart : w'.(esm).(eap_if).(eapRestart) = w.(esm).(eap_if).(eapRestart);
  ca_resp : w'.(esm).(eap_if).(eapResp) = w.(esm).(eap_if).(eapResp);
  ca_success : w'.(esm).(eap_if).(eapSuccess) = w.(esm).(eap_if).(eapSuccess);
  ca_aaa : w'.(esm).(eap_if).(aaaSuccess) = w.(esm).(eap_if).(aaaSuccess);
  ca_pending : w'.(esm).(method_pending) = METHOD_PENDING_CONT ->
               w.(esm).(method_pending) = METHOD_PENDING_CONT;
  ca_over : over w' = true -> over w = true;
  ca_decision : w'.(esm).(decision) = w.(esm).(decision) }.

#[global] Instance calm_preorder : PreOrder calm.
Proof.
  split; [by split|]. intros w1 w2 w3 [] []. split; first [by etrans|by auto].
Qed.
Lemma calm_inert w w' : inert w w' -> calm w w'.
Proof. by intros []. Qed.
Ltac calm_upd := split; unfold over; e_simpl; done.

Lemma entered_calm st w w1 w2 :
  selects st = true -> entered st w w1 -> calm w1 w2 -> method_wf w2 -> typed w2 ->
  entered st w w2.
Proof.
  intros Hst [] [] Hw Ht. split; try first [by etrans|by auto|congruence].
  - by destruct st.
  - intros Hd. rewrite ca_decision0. auto.
Qed.

Lemma calm_reset w : method_wf w -> calm w (reset_method eap_methods w) /\
  same_user w (reset_method eap_methods w) /\
  (reset_method eap_methods w).(esm).(currentId) = w.(esm).(currentId) /\
  (reset_method eap_methods w).(esm).(currentMethod) = w.(esm).(currentMethod) /\
  (reset_method eap_methods w).(esm).(eap_method_priv) = None /\
  0 <= (reset_method eap_methods w).(esm).(user_eap_method_index).
Proof.
  intros Hw. destruct (reset_method_spec w Hw) as (w' & Hf & Hs & ->).
  pose proof (server_part_fields _ _ (fr_sm _ _ Hf)) as (_ & _ & E1 & E2 & _).
  split_and!; try done; [|exact (fr_index _ _ Hf (proj1 Hw))].
  etrans; [apply calm_inert, inert_framed, Hf|]. calm_upd.
Qed.

Lemma selected sm md vend meth :
  sm.(m) = eap_server_get_eap_method eap_methods vend meth ->
  sel eap_methods sm = Some md ->
  md ∈ eap_methods /\ md.(vendor) = vend /\ md.(method) = meth.
Proof.
  unfold sel. intros ->. destruct (eap_server_get_eap_method _ _ _) eqn:E; [|done].
  apply get_method_sel in E as (md' & E & Hv). rewrite E. intros [= <-].
  split; [|done]. by eapply list_elem_of_lookup_2.
Qed.

Lemma not_selected sm vend meth :
  sm.(m) = eap_server_get_eap_method eap_methods vend meth ->
  sel eap_methods sm = None -> sm.(m) = None.
Proof.
  unfold sel. intros ->. destruct (eap_server_get_eap_method _ _ _) eqn:E; [|done].
  apply get_method_sel in E as (md' & E & Hv). by rewrite E.
Qed.

Lemma selected_type sm md vend meth :
  sm.(m) = eap_server_get_eap_method eap_methods vend meth ->
  sel eap_methods sm = Some md ->
  type_of md = if vend =? EAP_VENDOR_IETF then meth else EAP_TYPE_EXPANDED.
Proof. intros Hm Hs. destruct (selected sm md vend meth Hm Hs) as (_ & Hv & Ht). unfold type_of. by rewrite Hv, Ht. Qed.

Lemma entered_PICK_UP_METHOD w :
  method_wf w ->
  let w' := sm_EAP_PICK_UP_METHOD_Enter eap_methods false w in
  entered EAP_PICK_UP_METHOD w w' /\
  (w.(esm).(currentMethod) = EAP_TYPE_NONE ->
   has_method w' \/ w'.(esm).(currentMethod) = EAP_TYPE_NONE).
Proof.
  intros Hw. unfold sm_EAP_PICK_UP_METHOD_Enter. cbv zeta.
  pose proof (entered_entry EAP_PICK_UP_METHOD w ltac:(tauto)) as He.
  pose proof (en_wf _ _ _ He Hw) as Hw1.
  set (w1 := EAP_entry _ _ w) in *.
  assert (Hc : currentMethod (esm w1) = currentMethod (esm w)) by done. clearbody w1.
  destruct (eap_sm_Policy_doPickUp _).
  2: { split; [done|]. intros Hn. right. by rewrite Hc. }
  set (w2 := upd _ w1).
  destruct (calm_reset w2) as (Hr & _ & _ & _ & Hp & Hi).
  { exact Hw1. }
  assert (H2 : calm w1 (reset_method eap_methods w2)) by (etrans; [|exact Hr]; calm_upd).
  generalize dependent (reset_method eap_methods w2). intros w3 _ Hp Hi H3.
  set (w4 := upd _ w3).
  assert (H4 : calm w1 w4) by (etrans; [exact H3|calm_upd]).
  set (wn := upd (fun sm => sm <| m := None |> <| currentMethod := EAP_TYPE_NONE |>) w4).
  assert (Hn : entered EAP_PICK_UP_METHOD w wn /\ currentMethod (esm wn) = EAP_TYPE_NONE).
  { split; [|done]. apply (entered_calm _ _ w1); [done|exact He| |split; [exact Hi|by right]|done].
    etrans; [exact H4|calm_upd]. }
  destruct (sel eap_methods (esm w4)) as [md|] eqn:Hm; [|split; [|right]; apply Hn].
  destruct (initPickUp md) as [pickup|] eqn:Ep; [|split; [|right]; apply Hn].
  pose proof (law_initPickUp md (sel_laws _ _ Hm) pickup w4 Ep) as Hf.
  destruct (pickup w4) as [p w5]. cbn [snd] in Hf.
  pose proof (server_part_fields _ _ (fr_sm _ _ Hf)) as (_ & _ & Ec & _ & Em & _).
  pose proof (fr_index _ _ Hf Hi) as Hi5.
  apply inert_framed, calm_inert in Hf.
  assert (H5 : calm w1 w5) by (etrans; [exact H4|exact Hf]).
  destruct p as [p|]; [rewrite bool_decide_eq_false_2 by done|rewrite bool_decide_eq_true_2 by done].
  - assert (Hh : has_method (upd (fun sm => sm <| eap_method_priv := Some p |>) w5)).
    { unfold has_method, sel in *. e_simpl. rewrite Em, Hm. split; by eexists. }
    split; [|by left]. apply (entered_calm _ _ w1); [done|exact He| |split; [exact Hi5|by left]|].
    { etrans; [exact H5|calm_upd]. }
    intros md' Hm'. unfold sel in Hm, Hm'. e_simpl in Hm'. e_simpl. rewrite Em in Hm'.
    rewrite Hm in Hm'. injection Hm' as <-. rewrite Ec.
    symmetry. exact (selected_type (esm w4) md EAP_VENDOR_IETF (currentMethod (esm w4)) eq_refl Hm).
  - split; [|by right].
    apply (entered_calm _ _ w1); [done|exact He| |split; [exact Hi5|by right]|done].
    etrans; [exact H5|calm_upd].
Qed.

(** The Identity method always starts: it fails only when it gets no memory. *)
Definition identity_starts : Prop :=
  forall md w, md ∈ eap_methods -> md.(vendor) = EAP_VENDOR_IETF ->
  md.(method) = EAP_TYPE_IDENTITY -> is_Some (md.(init) w).1.

(** What [getNextMethod] returns and changes. *)
Lemma getNextMethod_cases (sm : eap_sm (method_priv := method_priv)) :
  let needs_identity := identity sm = None \/ currentId sm = -1 in
  let '(vt, sm') := eap_sm_Policy_getNextMethod sm in
  (needs_identity /\ vt = (EAP_VENDOR_IETF, EAP_TYPE_IDENTITY) /\
   sm' = sm <| update_user := true |>) \/
  (~ needs_identity /\ user_eap_method_index sm < EAP_MAX_METHODS /\
   sm' = sm <| user_eap_method_index ::= Z.add 1 |>) \/
  (~ needs_identity /\ vt = NONE_METHOD /\ sm' = sm).
Proof.
  cbv zeta. unfold eap_sm_Policy_getNextMethod.
  destruct (bool_decide (identity sm = None)) eqn:E1; cbn [orb].
  { apply bool_decide_eq_true in E1. left. tauto. }
  apply bool_decide_eq_false in E1.
  destruct (Z.eqb_spec (currentId sm) (-1)); [left; tauto|].
  destruct (user sm); [|right; right; tauto].
  destruct (Z.ltb_spec (user_eap_method_index sm) EAP_MAX_METHODS); [|right; right; tauto].
  cbn [andb]. destruct (is_method _); [|right; right; tauto]. right; left. tauto.
Qed.

Lemma try_another_method_ends fuel w :
  identity_starts -> method_wf w ->
  (1 <= fuel)%nat -> 9 - w.(esm).(user_eap_method_index) <= Z.of_nat fuel ->
  let w' := try_another_method eap_methods fuel w in calm w w' /\ method_wf w' /\ typed w'.
Proof.
  intros Hid. revert w. induction fuel as [|fuel IH]; intros w Hw Hf Hx; [lia|].
  cbn [try_another_method]. cbv zeta. pose proof (getNextMethod_cases (esm w)) as Hc.
  destruct (eap_sm_Policy_getNextMethod (esm w)) as [ [vend type] sm']. cbv zeta in Hc.
  set (w2 := upd _ (set esm _ w)).
  assert (H2 : calm w w2 /\ method_wf w2).
  { destruct Hw as [Hi Hw]. destruct Hc as [(_ & _ & ->)|[(_ & _ & ->)|(_ & _ & ->)] ];
      (split; [calm_upd|split; [unfold w2; e_simpl; lia|exact Hw] ]). }
  destruct (calm_reset w2 (proj2 H2)) as (Hr & (Hri & Hru & Hrx) & Hrc & Hrm & Hp & Hi).
  assert (H3 : calm w (reset_method eap_methods w2)) by (etrans; [apply H2|exact Hr]).
  generalize dependent (reset_method eap_methods w2). intros w3 _ Hri Hru Hrx Hrc Hrm Hp Hi H3.
  set (w4 := upd _ w3). assert (H4 : calm w w4) by (etrans; [exact H3|calm_upd]).
  destruct (sel eap_methods (esm w4)) as [md|] eqn:Hm.
  2: { split; [exact H4|]. split; [|intros md' Hm'; congruence].
       split; [exact Hi|right; split; [|exact Hp] ]. by apply (not_selected (esm w4) vend type). }
  destruct (selected (esm w4) md vend type eq_refl Hm) as (Hin & Hv & Ht).
  pose proof (sel_laws _ _ Hm) as L. destruct (law_init md L w4) as [Hl Hk].
  destruct (init md w4) as [p w5] eqn:Ei. cbn [fst snd] in Hl, Hk.
  pose proof (server_part_fields _ _ (fr_sm _ _ Hl)) as (_ & _ & Ec & _ & Em & _).
  pose proof (fr_index _ _ Hl Hi) as Hi5.
  apply inert_framed, calm_inert in Hl.
  assert (H5 : calm w w5) by (etrans; [exact H4|exact Hl]).
  destruct p as [p|]; [rewrite bool_decide_eq_false_2 by done|rewrite bool_decide_eq_true_2 by done].
  { assert (Hm5 : sel eap_methods (esm w5) = Some md) by (unfold sel in *; by rewrite Em).
    split; [etrans; [exact H5|calm_upd]|]. split; [split; [exact Hi5|left] |].
    - split; e_simpl; [by exists md|by exists p].
    - intros md' Hm'. assert (Some md = Some md') as [= <-] by (by rewrite <- Hm5, <- Hm').
      e_simpl. rewrite Ec, (selected_type (esm w4) md vend type eq_refl Hm). exact Hrm. }
  destruct (Hk eq_refl) as (_ & _ & Hk').
  set (w6 := upd _ (upd _ w5)).
  assert (H6 : calm w w6) by (etrans; [exact H5|calm_upd]).
  assert (Hx6 : user_eap_method_index (esm w6) = user_eap_method_index (esm w2)).
  { unfold w6. e_simpl. rewrite Hk'. unfold w4. e_simpl. exact Hrx. }
  destruct Hc as [(_ & E & _)|[(_ & Hlt & ->)|(_ & E & _)] ].
  - injection E as -> ->. destruct (Hid md w4 Hin Hv Ht) as [? Hs]. by rewrite Ei in Hs.
  - assert (Hx2 : user_eap_method_index (esm w2) = 1 + user_eap_method_index (esm w)) by done.
    rewrite Hx2 in Hx6. unfold EAP_MAX_METHODS in Hlt. destruct Hw as [Hi0 _].
    destruct (IH w6) as (Hc6 & Hw6 & Ht6); [split; [exact Hi5|by right]|lia|lia|].
    split; [by etrans|done].
  - injection E as -> ->. destruct (law_type md L). by rewrite Hv, Ht.
Qed.

Lemma entered_PROPOSE_METHOD w :
  identity_starts -> method_wf w ->
  entered EAP_PROPOSE_METHOD w (sm_EAP_PROPOSE_METHOD_Enter eap_methods false w).
Proof.
  intros Hid Hw. unfold sm_EAP_PROPOSE_METHOD_Enter.
  pose proof (entered_entry EAP_PROPOSE_METHOD w ltac:(tauto)) as He.
  pose proof (en_wf _ _ _ He Hw) as Hw1.
  set (w1 := EAP_entry _ _ w) in *. clearbody w1. cbv zeta.
  set (w2 := upd _ w1).
  assert (H2 : inert w1 w2) by (unfold w2; inert_upd).
  apply (entered_inert _ _ _ _ He) in H2. pose proof (en_wf _ _ _ H2 Hw) as Hw2.
  destruct (try_another_method_ends PROPOSE_FUEL w2 Hid Hw2) as (H3 & Hw3 & Ht3).
  { unfold PROPOSE_FUEL. lia. }
  { destruct Hw2. unfold PROPOSE_FUEL. lia. }
  set (w3 := try_another_method _ _ w2) in *. clearbody w3.
  assert (H4 : entered EAP_PROPOSE_METHOD w w3)
    by (by apply (entered_calm _ _ w2)).
  destruct (bool_decide _); [by destruct H4|]. destruct (_ || _); by destruct H4.
Qed.
End effects.
