(* ===== verification/EapServerRun.v ===== *)
(** * The EAP server: runs

    [eap_server_sm_step] ends: a rank bounds how many states a run can still
    enter.  On the way no [NULL] method pointer is followed, unless an
    EAP-Initiate/Re-auth-Start is sent. *)

From S2P Require Import Prelude Bytes EapolState EapServer EapServerProofs.

#[local] Open Scope Z_scope.
#[local] Opaque try_another_method.

Section run.
Context `{Env} {method_priv : Type}.
Context (eap_methods : list (eap_method (method_priv := method_priv))).
Context (cfg : eap_config) (eapol_cb : eapol_callbacks).
Context `{ML : !EapMethodsLaws eap_methods} {CO : unsigned_config cfg}.
Context (identity_ok : identity_starts eap_methods) (no_reauth_start : get_erp_start eapol_cb = false).
Abbreviation W := (eap_world (method_priv := method_priv)).
Implicit Types w : W.

(** ** The rank of a state *)

Definition cont w : Z := if w.(esm).(method_pending) == METHOD_PENDING_CONT then 1 else 0.
Definition aaa_answered (i : eap_eapol_interface) : bool :=
  i.(aaaFail) || i.(aaaSuccess) || i.(aaaEapReq) || i.(aaaTimeout).

Definition state_rank w : Z :=
  let i := w.(esm).(eap_if) in
  match w.(esm).(EAP_state) with
  | EAP_FAILURE | EAP_SUCCESS | EAP_TIMEOUT_FAILURE
  | EAP_FAILURE2 | EAP_SUCCESS2 | EAP_TIMEOUT_FAILURE2 => 0
  | EAP_IDLE =>
    if i.(retransWhile) =? 0
    then (if w.(esm).(try_initiate_reauth) then 24 else if i.(eapResp) then 34 else 2)
    else (if i.(eapResp) then 32 else 0)
  | EAP_IDLE2 => if i.(eapResp) then 32 else if i.(retransWhile) =? 0 then 2 else 0
  | EAP_RETRANSMIT | EAP_DISCARD | EAP_SEND_REQUEST
  | EAP_RETRANSMIT2 | EAP_DISCARD2 | EAP_SEND_REQUEST2 => if i.(eapResp) then 33 else 1
  | EAP_AAA_IDLE => if aaa_answered i then 10 else 0
  | EAP_AAA_RESPONSE => 9
  | EAP_AAA_REQUEST => 12
  | EAP_INITIALIZE_PASSTHROUGH => 13
  | EAP_METHOD_REQUEST | EAP_INITIATE_REAUTH_START => 14
  | EAP_PROPOSE_METHOD => 16 + cont w
  | EAP_SELECT_ACTION => 20
  | EAP_NAK => 22
  | EAP_INITIATE_RECEIVED => 25
  | EAP_METHOD_RESPONSE => 26 + cont w
  | EAP_PICK_UP_METHOD => 28
  | EAP_INTEGRITY_CHECK => 30
  | EAP_RECEIVED | EAP_RECEIVED2 => 31
  | EAP_INITIALIZE => 40
  | EAP_DISABLED => 42
  end.

Definition rank w : Z :=
  let s := w.(esm) in
  if s.(eap_if).(eapRestart) && s.(eap_if).(portEnabled) then 50
  else if negb s.(eap_if).(portEnabled) then (if s.(EAP_state) == EAP_DISABLED then 0 else 1)
  else if over cfg w then (if s.(EAP_state) == EAP_FAILURE then 0 else 1)
  else state_rank w.

(** ** The invariant *)

Definition state_inv w : Prop :=
  let s := w.(esm) in
  match s.(EAP_state) with
  | EAP_IDLE | EAP_RETRANSMIT | EAP_RECEIVED | EAP_DISCARD | EAP_SEND_REQUEST
  | EAP_INTEGRITY_CHECK | EAP_METHOD_RESPONSE => s.(m) <> None
  | EAP_INITIALIZE => cfg.(backend_auth) = true -> s.(currentMethod) = EAP_TYPE_NONE
  | EAP_PICK_UP_METHOD => s.(m) <> None \/ s.(currentMethod) = EAP_TYPE_NONE
  | EAP_SELECT_ACTION => s.(decision) <> DECISION_INITIATE_REAUTH_START
  | EAP_INITIATE_REAUTH_START => False
  | _ => True
  end.
Definition inv w : Prop := method_wf eap_methods w /\ state_inv w.

Lemma has_method_m w : method_wf eap_methods w -> w.(esm).(m) <> None -> has_method eap_methods w.
Proof. intros [_ [?|[? _] ] ]; [done|congruence]. Qed.
Lemma m_has_method w : has_method eap_methods w -> w.(esm).(m) <> None.
Proof. intros [ [md Hm] _] Hn. unfold sel in Hm. by rewrite Hn in Hm. Qed.

(** Neither restarting, nor down, nor out of rounds: the [switch] decides. *)
Definition normal w : Prop :=
  w.(esm).(eap_if).(portEnabled) = true /\ w.(esm).(eap_if).(eapRestart) = false /\
  over cfg w = false.

Lemma rank_normal w : normal w -> rank w = state_rank w.
Proof. intros (Hp & Hr & Ho). unfold rank. by rewrite Hp, Hr, Ho. Qed.

Definition stepped w w' : Prop :=
  w'.(fault) = w.(fault) /\ inv w' /\ (w'.(esm).(changed) = true -> rank w' < rank w).

Lemma entered_normal st w w' :
  st <> EAP_RECEIVED -> entered eap_methods cfg st w w' -> normal w -> normal w'.
Proof.
  intros Hst He (Hp & Hr & Ho). split_and!.
  - by rewrite (en_port _ _ _ _ _ He).
  - rewrite (en_restart _ _ _ _ _ He), Hr. apply andb_false_r.
  - destruct (over cfg w') eqn:E; [|done]. by rewrite (en_over _ _ _ _ _ He Hst E) in Ho.
Qed.

(** Entering [st], after a change that [entered] does not see. *)
Lemma stepped_entered st w w1 w' :
  normal w -> method_wf eap_methods w -> inert eap_methods cfg w w1 ->
  entered eap_methods cfg st w1 w' -> state_inv w' ->
  (st = EAP_RECEIVED -> 31 < state_rank w) ->
  (st <> EAP_RECEIVED -> state_rank w' < state_rank w) -> stepped w w'.
Proof.
  intros Hn Hw Hi He Hs Hr Hlt. split_and!.
  - rewrite (en_fault _ _ _ _ _ He). apply (in_fault _ _ _ _ Hi).
  - split; [|done]. by apply (en_wf _ _ _ _ _ He), (in_wf _ _ _ _ Hi).
  - intros _. rewrite (rank_normal w Hn). destruct Hn as (Hp & Hre & Ho).
    assert (Hn1 : normal w1).
    { split_and!; [by rewrite (in_port _ _ _ _ Hi)|by rewrite (in_restart _ _ _ _ Hi)|].
      destruct (over cfg w1) eqn:E; [|done]. by rewrite (in_over _ _ _ _ Hi E) in Ho. }
    destruct (decide (st = EAP_RECEIVED)) as [->|Hst].
    2: { rewrite rank_normal; [auto|]. by apply (entered_normal st w1). }
    specialize (Hr eq_refl). revert Hr. generalize (state_rank w). intros r Hr.
    unfold rank, state_rank.
    rewrite (en_state _ _ _ _ _ He), (en_restart _ _ _ _ _ He), (en_port _ _ _ _ _ He).
    destruct Hn1 as (-> & -> & _). rewrite andb_false_r. cbn [negb andb].
    destruct (over cfg w'); [case_bool_decide|]; lia.
Qed.

(** [METHOD_REQUEST] may enter two states. *)
Lemma stepped_failure w w1 :
  normal w -> method_wf eap_methods w -> entered eap_methods cfg EAP_SEND_REQUEST w w1 ->
  0 < state_rank w -> stepped w (sm_EAP_FAILURE_Enter false w1).
Proof.
  intros Hn Hw H1 Hr. pose proof (entered_FAILURE eap_methods cfg false w1) as H2.
  assert (Hn1 : normal w1) by (by apply (entered_normal EAP_SEND_REQUEST w)).
  split_and!.
  - rewrite (en_fault _ _ _ _ _ H2). apply (en_fault _ _ _ _ _ H1).
  - split; [apply (en_wf _ _ _ _ _ H2), (en_wf _ _ _ _ _ H1), Hw|].
    unfold state_inv. rewrite (en_state _ _ _ _ _ H2). exact I.
  - intros _. rewrite (rank_normal w Hn), rank_normal.
    2: by apply (entered_normal EAP_FAILURE w1).
    revert Hr. generalize (state_rank w). intros r Hr.
    unfold state_rank. rewrite (en_state _ _ _ _ _ H2). exact Hr.
Qed.

(** *** The switch *)

Lemma decision_no_start w :
  (eap_sm_Policy_getDecision eap_methods cfg eapol_cb w).1 <> DECISION_INITIATE_REAUTH_START.
Proof using no_reauth_start.
  assert (Hrest : forall w, (decision_rest eapol_cb w).1 <> DECISION_INITIATE_REAUTH_START).
  { intros w'. unfold decision_rest. cbv zeta. rewrite no_reauth_start, andb_false_r. cbn [andb].
    repeat match goal with |- context [if ?b then _ else _] =>
      lazymatch b with context [match _ with _ => _ end] => fail | _ => destruct b end end.
    all: try done. all: by destruct (user _) as [u|]; [destruct (_ && _)|]. }
  unfold eap_sm_Policy_getDecision. cbv zeta.
  destruct (_ && _); [done|]. destruct (_ && _); [done|]. destruct (_ && _); [done|].
  destruct (_ && _); [|apply Hrest]. destruct (eap_user_get _ _ _ _ _) as [ok w1].
  destruct (negb ok); [done|]. destruct (_ && _); [done|apply Hrest].
Qed.

Lemma state_inv_SELECT_ACTION w :
  state_inv (sm_EAP_SELECT_ACTION_Enter eap_methods cfg eapol_cb false w).
Proof using ML CO no_reauth_start.
  pose proof (en_state _ _ _ _ _ (entered_SELECT_ACTION eap_methods cfg eapol_cb w)) as Hs.
  unfold state_inv. rewrite Hs. rewrite SELECT_ACTION_decision. e_simpl.
  apply decision_no_start.
Qed.

(** The machine enters a state: what is left is the invariant of that state
    and that its rank is smaller. *)
Ltac leads He :=
  match goal with
  | Hn : normal ?w, Hw : method_wf _ ?w |- stepped ?w _ =>
    refine (stepped_entered _ w _ _ Hn Hw _ He _ _ _);
    [try reflexivity
    |try apply state_inv_SELECT_ACTION;
     unfold state_inv; rewrite ?(en_state _ _ _ _ _ He); try exact I
    |try discriminate
    |intros _; unfold state_rank, cont;
     rewrite ?(en_state _ _ _ _ _ He), ?(en_resp _ _ _ _ _ He); cbn [resp_after] ]
  end.
Ltac ranks :=
  repeat match goal with
  | |- context [if ?b then _ else _] =>
    lazymatch b with context [if _ then _ else _] => fail | _ => destruct b eqn:? end
  end; try lia.

(** A rank that depends on a pending wait. *)
Lemma cont_bounds w : 0 <= cont w <= 1.
Proof. unfold cont. case_bool_decide; lia. Qed.

Lemma cont_entered st w w' :
  entered eap_methods cfg st w w' -> cont w' <= cont w.
Proof.
  intros He. unfold cont. case_bool_decide as Hp; [|case_bool_decide; lia].
  by rewrite bool_decide_eq_true_2 by by apply (en_pending _ _ _ _ _ He).
Qed.

Lemma keeps_method st w w' :
  entered eap_methods cfg st w w' -> selects st = false ->
  w.(esm).(m) <> None -> w'.(esm).(m) <> None.
Proof. intros He Hst Hm. by rewrite (en_m _ _ _ _ _ He Hst). Qed.

(** The rank of the state the run was in. *)
Ltac low Est := rewrite Est; rewrite ?Z.eqb_refl; cbv iota; try lia.

(** A pending wait in [PROPOSE_METHOD]. *)
Lemma stepped_pending w :
  inv w -> normal w -> w.(esm).(changed) = false -> w.(esm).(EAP_state) = EAP_PROPOSE_METHOD ->
  0 < w.(esm).(user_eap_method_index) ->
  stepped w (upd (fun sm => sm <| user_eap_method_index ::= Z.add (-1) |>) w).
Proof.
  intros [ [Hi Hw] _] _ Hc Est Hx. split_and!; [done| |e_simpl; by rewrite Hc].
  split; [|unfold state_inv; e_simpl; rewrite Est; exact I].
  unfold method_wf, has_method, sel in *. e_simpl. split; [lia|exact Hw].
Qed.

(** One lemma per state the [switch] leaves. *)
Definition leaves (st : EAP_states) : Prop :=
  forall w, w.(esm).(EAP_state) = st -> inv w -> normal w -> w.(esm).(changed) = false ->
  stepped w (sm_EAP_switch eap_methods cfg eapol_cb w).

Ltac leaving :=
  let Est := fresh "Est" in
  intros w Est [Hw Hs] Hn Hc;
  assert (Hsame : stepped w w) by (split_and!; [done|split; [done|exact Hs]|by rewrite Hc]);
  pose proof (entered_SELECT_ACTION eap_methods cfg eapol_cb w) as Hsel;
  pose proof (entered_NAK eap_methods cfg w Hw) as Hnak;
  unfold sm_EAP_switch; cbv zeta; unfold state_inv in Hs; rewrite Est in *; cbv iota in Hs |- *.

Lemma leaves_DISABLED : leaves EAP_DISABLED.
Proof using All.
  leaving. destruct (entered_INITIALIZE eap_methods cfg false w Hw) as (He & _ & Hb).
  destruct (portEnabled _); [|done]. leads He; [exact Hb|]. low Est; ranks.
Qed.

Lemma leaves_INITIALIZE : leaves EAP_INITIALIZE.
Proof using All.
  leaving. destruct (backend_auth cfg); [|leads Hsel; low Est].
  destruct (rxResp _); cbn [negb]; [|leads Hsel; low Est].
  destruct (resp_is _ _); [leads Hnak; by rewrite Est|].
  destruct (entered_PICK_UP_METHOD eap_methods cfg w Hw) as [He Hm].
  leads He; [|low Est].
  destruct (Hm (Hs eq_refl)) as [?%m_has_method|?]; auto.
Qed.

Lemma leaves_IDLE : leaves EAP_IDLE.
Proof using All.
  leaving. destruct (Z.eqb_spec (retransWhile (EapServer.eap_if (esm w))) 0) as [Hr|Hr].
  + destruct (try_initiate_reauth (esm w)) eqn:Et.
    * set (w1 := upd _ w). pose proof (entered_SELECT_ACTION eap_methods cfg eapol_cb w1) as He.
      leads He; [by split|]. rewrite Et, Hr; low Est.
    * pose proof (entered_RETRANSMIT eap_methods cfg w) as He.
      leads He; [by apply (keeps_method _ _ _ He eq_refl)|].
      rewrite Et, Hr; low Est; ranks.
  + destruct (eapResp _) eqn:Er; [|done].
    pose proof (entered_RECEIVED eap_methods cfg w) as He.
    leads He; [by apply (keeps_method _ _ _ He eq_refl)| |].
    all: unfold state_rank; rewrite Er; apply Z.eqb_neq in Hr; rewrite Hr; low Est.
Qed.

Lemma leaves_RECEIVED : leaves EAP_RECEIVED.
Proof using All.
  leaving. destruct (_ && _ && _ && _); [leads Hnak; by rewrite Est|].
  destruct (_ && _ && _).
  + pose proof (entered_INTEGRITY_CHECK eap_methods cfg w (has_method_m w Hw Hs)) as He.
    leads He; [by apply (keeps_method _ _ _ He eq_refl)|low Est].
  + pose proof (entered_DISCARD eap_methods cfg w) as He.
    leads He; [by apply (keeps_method _ _ _ He eq_refl)|low Est].
Qed.

Lemma leaves_INTEGRITY_CHECK : leaves EAP_INTEGRITY_CHECK.
Proof using All.
  leaving. destruct (ignore _).
  + pose proof (entered_DISCARD eap_methods cfg w) as He.
    leads He; [by apply (keeps_method _ _ _ He eq_refl)|low Est].
  + pose proof (entered_METHOD_RESPONSE eap_methods cfg w (has_method_m w Hw Hs) Hw) as He.
    leads He; [by apply (keeps_method _ _ _ He eq_refl)|].
    low Est; fold (cont w). pose proof (cont_bounds w). pose proof (cont_entered _ _ _ He).
    unfold cont in *. lia.
Qed.

Lemma leaves_METHOD_RESPONSE : leaves EAP_METHOD_RESPONSE.
Proof using All.
  leaving. destruct (_ == METHOD_END); [leads Hsel; low Est; pose proof (cont_bounds w); unfold cont in *; lia|].
  destruct (_ == METHOD_PENDING_WAIT); [done|].
  destruct (_ == METHOD_PENDING_CONT) eqn:Ep.
  + set (w1 := upd _ w). assert (Hi : inert eap_methods cfg w w1) by (by split).
    pose proof (entered_METHOD_RESPONSE eap_methods cfg w1 (has_method_m w Hw Hs)
                  (in_wf _ _ _ _ Hi Hw)) as He.
    leads He; [exact Hi|by apply (keeps_method _ _ _ He eq_refl)|].
    rewrite Est, Ep. pose proof (cont_entered _ _ _ He) as Hct.
    change (cont w1) with 0 in Hct. unfold cont in Hct. lia.
  + pose proof (entered_METHOD_REQUEST eap_methods cfg w Hw) as He. leads He. low Est. ranks.
Qed.

Lemma leaves_METHOD_REQUEST : leaves EAP_METHOD_REQUEST.
Proof using All.
  leaving. pose proof (entered_SEND_REQUEST eap_methods cfg w) as He.
  destruct (bool_decide (m _ = None)) eqn:Em.
  { pose proof (entered_FAILURE eap_methods cfg false w) as Hf. leads Hf. low Est. }
  apply bool_decide_eq_false in Em. destruct (_ && _).
  + apply stepped_failure; [done|done|done|]. unfold state_rank. low Est.
  + leads He; [by apply (keeps_method _ _ _ He eq_refl)|low Est].
Qed.

Lemma leaves_PROPOSE_METHOD : leaves EAP_PROPOSE_METHOD.
Proof using All.
  leaving. destruct (_ == METHOD_PENDING_WAIT).
  { destruct (0 <? _) eqn:Ei; [|done]. apply Z.ltb_lt in Ei.
    by apply stepped_pending; [split; [|unfold state_inv; rewrite Est; exact I]|..]. }
  destruct (_ == METHOD_PENDING_CONT) eqn:Ep.
  + set (w1 := upd _ w). assert (Hi : inert eap_methods cfg w w1) by (by split).
    pose proof (entered_PROPOSE_METHOD eap_methods cfg w1 identity_ok
                  (in_wf _ _ _ _ Hi Hw)) as He.
    leads He; [exact Hi|]. rewrite Est, Ep. pose proof (cont_entered _ _ _ He) as Hct.
    change (cont w1) with 0 in Hct. unfold cont in Hct. lia.
  + pose proof (entered_METHOD_REQUEST eap_methods cfg w Hw) as He. leads He. low Est. ranks.
Qed.

Lemma leaves_SELECT_ACTION : leaves EAP_SELECT_ACTION.
Proof using All.
  leaving. destruct (decision (esm w)) eqn:Ed; [..|done].
  + pose proof (entered_SUCCESS eap_methods cfg w) as He. leads He. low Est.
  + pose proof (entered_FAILURE eap_methods cfg false w) as He. leads He. low Est.
  + pose proof (entered_PROPOSE_METHOD eap_methods cfg w identity_ok Hw) as He. leads He.
    low Est. ranks.
  + pose proof (entered_INITIALIZE_PASSTHROUGH eap_methods cfg w) as He. leads He. low Est.
Qed.

Lemma leaves_SEND_REQUEST : leaves EAP_SEND_REQUEST.
Proof using All.
  leaving. pose proof (entered_IDLE eap_methods cfg false w) as He.
  pose proof (en_retr _ _ _ _ _ He eq_refl) as Hr%Z.eqb_neq.
  leads He; [by apply (keeps_method _ _ _ He eq_refl)|]. rewrite Hr. low Est. ranks.
Qed.

Lemma leaves_DISCARD : leaves EAP_DISCARD.
Proof using All.
  leaving. pose proof (entered_IDLE eap_methods cfg false w) as He.
  pose proof (en_retr _ _ _ _ _ He eq_refl) as Hr%Z.eqb_neq.
  leads He; [by apply (keeps_method _ _ _ He eq_refl)|]. rewrite Hr. low Est. ranks.
Qed.

Lemma leaves_NAK : leaves EAP_NAK.
Proof using All.
  leaving. leads Hsel. low Est.
Qed.

Lemma leaves_RETRANSMIT : leaves EAP_RETRANSMIT.
Proof using All.
  leaving. destruct (_ <? _).
  + pose proof (entered_TIMEOUT_FAILURE eap_methods cfg w) as He. leads He. low Est. ranks.
  + pose proof (entered_IDLE eap_methods cfg false w) as He.
    pose proof (en_retr _ _ _ _ _ He eq_refl) as Hr%Z.eqb_neq.
    leads He; [by apply (keeps_method _ _ _ He eq_refl)|]. rewrite Hr. low Est. ranks.
Qed.

Lemma leaves_PICK_UP_METHOD : leaves EAP_PICK_UP_METHOD.
Proof using All.
  leaving. destruct (Z.eqb_spec (currentMethod (esm w)) EAP_TYPE_NONE) as [Hm|Hm]; [leads Hsel; low Est|].
  destruct Hs as [Hs|Hs]; [|done].
  pose proof (entered_METHOD_RESPONSE eap_methods cfg w (has_method_m w Hw Hs) Hw) as He.
  leads He; [by apply (keeps_method _ _ _ He eq_refl)|]. low Est. ranks.
Qed.

Lemma leaves_INITIALIZE_PASSTHROUGH : leaves EAP_INITIALIZE_PASSTHROUGH.
Proof using All.
  leaving. destruct (_ =? _).
  + pose proof (entered_AAA_IDLE eap_methods cfg w) as He. leads He. low Est. ranks.
  + pose proof (entered_AAA_REQUEST eap_methods cfg w) as He. leads He. low Est.
Qed.

Lemma leaves_IDLE2 : leaves EAP_IDLE2.
Proof using All.
  leaving. destruct (eapResp _) eqn:Er.
  { pose proof (entered_RECEIVED2 eap_methods cfg w) as He. leads He. rewrite Er. low Est. }
  destruct (_ =? 0) eqn:Et; [|done].
  pose proof (entered_RETRANSMIT2 eap_methods cfg w) as He. leads He. rewrite Er, Et. low Est.
Qed.

Lemma leaves_RETRANSMIT2 : leaves EAP_RETRANSMIT2.
Proof using All.
  leaving. destruct (_ <? _).
  + pose proof (entered_TIMEOUT_FAILURE2 eap_methods cfg w) as He. leads He. low Est. ranks.
  + pose proof (entered_IDLE2 eap_methods cfg false w) as He.
    pose proof (en_retr _ _ _ _ _ He eq_refl) as Hr%Z.eqb_neq.
    leads He. rewrite Hr. low Est. ranks.
Qed.

Lemma leaves_RECEIVED2 : leaves EAP_RECEIVED2.
Proof using All.
  leaving. destruct (_ && _).
  + pose proof (entered_AAA_REQUEST eap_methods cfg w) as He. leads He. low Est.
  + pose proof (entered_DISCARD2 eap_methods cfg w) as He. leads He. low Est.
Qed.

Lemma leaves_DISCARD2 : leaves EAP_DISCARD2.
Proof using All.
  leaving. pose proof (entered_IDLE2 eap_methods cfg false w) as He.
  pose proof (en_retr _ _ _ _ _ He eq_refl) as Hr%Z.eqb_neq. leads He. rewrite Hr. low Est. ranks.
Qed.

Lemma leaves_SEND_REQUEST2 : leaves EAP_SEND_REQUEST2.
Proof using All.
  leaving. pose proof (entered_IDLE2 eap_methods cfg false w) as He.
  pose proof (en_retr _ _ _ _ _ He eq_refl) as Hr%Z.eqb_neq. leads He. rewrite Hr. low Est. ranks.
Qed.

Lemma leaves_AAA_REQUEST : leaves EAP_AAA_REQUEST.
Proof using All.
  leaving. pose proof (entered_AAA_IDLE eap_methods cfg w) as He. leads He. low Est. ranks.
Qed.

Lemma leaves_AAA_RESPONSE : leaves EAP_AAA_RESPONSE.
Proof using All.
  leaving. pose proof (entered_SEND_REQUEST2 eap_methods cfg w) as He. leads He. low Est.
Qed.

Lemma leaves_AAA_IDLE : leaves EAP_AAA_IDLE.
Proof using All.
  leaving. unfold aaa_answered.
  destruct (aaaFail _) eqn:E1;
    [pose proof (entered_FAILURE2 eap_methods cfg w) as He; leads He; unfold aaa_answered; rewrite E1; low Est; cbn [orb]; lia|].
  destruct (aaaSuccess _) eqn:E2;
    [pose proof (entered_SUCCESS2 eap_methods cfg w) as He; leads He; unfold aaa_answered; rewrite E1, E2; low Est; cbn [orb]; lia|].
  destruct (aaaEapReq _) eqn:E3;
    [pose proof (entered_AAA_RESPONSE eap_methods cfg w) as He; leads He; unfold aaa_answered; rewrite E1, E2, E3; low Est; cbn [orb]; lia|].
  destruct (aaaTimeout _) eqn:E4; [|done].
  pose proof (entered_TIMEOUT_FAILURE2 eap_methods cfg w) as He. leads He. unfold aaa_answered. rewrite E1, E2, E3, E4. low Est. cbn [orb]. lia.
Qed.

Lemma leaves_INITIATE_REAUTH_START : leaves EAP_INITIATE_REAUTH_START.
Proof using All.
  leaving. done.
Qed.

Lemma leaves_INITIATE_RECEIVED : leaves EAP_INITIATE_RECEIVED.
Proof using All.
  leaving. destruct (negb _); [|done]. leads Hsel. low Est.
Qed.

Lemma leaves_end w :
  inv w -> w.(esm).(changed) = false ->
  sm_EAP_switch eap_methods cfg eapol_cb w = w ->
  stepped w (sm_EAP_switch eap_methods cfg eapol_cb w).
Proof. intros Hi Hc ->. split_and!; [done|done|by rewrite Hc]. Qed.

Lemma switch_stepped w :
  inv w -> normal w -> w.(esm).(changed) = false ->
  stepped w (sm_EAP_switch eap_methods cfg eapol_cb w).
Proof using All.
  intros Hi Hn Hc. destruct (EAP_state (esm w)) eqn:Est.
  - by apply leaves_DISABLED.
  - by apply leaves_INITIALIZE.
  - by apply leaves_IDLE.
  - by apply leaves_RECEIVED.
  - by apply leaves_INTEGRITY_CHECK.
  - by apply leaves_METHOD_RESPONSE.
  - by apply leaves_METHOD_REQUEST.
  - by apply leaves_PROPOSE_METHOD.
  - by apply leaves_SELECT_ACTION.
  - by apply leaves_SEND_REQUEST.
  - by apply leaves_DISCARD.
  - by apply leaves_NAK.
  - by apply leaves_RETRANSMIT.
  - apply leaves_end; [done|done|]. unfold sm_EAP_switch. by rewrite Est.
  - apply leaves_end; [done|done|]. unfold sm_EAP_switch. by rewrite Est.
  - apply leaves_end; [done|done|]. unfold sm_EAP_switch. by rewrite Est.
  - by apply leaves_PICK_UP_METHOD.
  - by apply leaves_INITIALIZE_PASSTHROUGH.
  - by apply leaves_IDLE2.
  - by apply leaves_RETRANSMIT2.
  - by apply leaves_RECEIVED2.
  - by apply leaves_DISCARD2.
  - by apply leaves_SEND_REQUEST2.
  - by apply leaves_AAA_REQUEST.
  - by apply leaves_AAA_RESPONSE.
  - by apply leaves_AAA_IDLE.
  - apply leaves_end; [done|done|]. unfold sm_EAP_switch. by rewrite Est.
  - apply leaves_end; [done|done|]. unfold sm_EAP_switch. by rewrite Est.
  - apply leaves_end; [done|done|]. unfold sm_EAP_switch. by rewrite Est.
  - by apply leaves_INITIATE_REAUTH_START.
  - by apply leaves_INITIATE_RECEIVED.
Qed.

(** *** A step *)

Lemma stepped_down w :
  inv w -> w.(esm).(changed) = false -> w.(esm).(eap_if).(portEnabled) = false ->
  stepped w (sm_EAP_DISABLED_Enter true w).
Proof using CO.
  intros [Hw Hs] Hc Hp. pose proof (entered_DISABLED eap_methods cfg true w) as He.
  split_and!; [apply (en_fault _ _ _ _ _ He)|split; [by apply (en_wf _ _ _ _ _ He)|] |].
  - unfold state_inv. rewrite (en_state _ _ _ _ _ He). exact I.
  - intros Hch. unfold rank.
    rewrite (en_state _ _ _ _ _ He), (en_port _ _ _ _ _ He), Hp, !andb_false_r. cbn [negb].
    rewrite bool_decide_eq_true_2 by done. unfold sm_EAP_DISABLED_Enter, EAP_entry in Hch.
    e_simpl in Hch. rewrite Hc in Hch. cbn [negb orb] in Hch. rewrite orb_false_r in Hch.
    case_bool_decide; [done|lia].
Qed.

Lemma stepped_out_of_rounds f w :
  (forall sm, exists n k, f sm = sm <| num_rounds := n |> <| num_rounds_short := k |>) ->
  inv w -> w.(esm).(changed) = false ->
  w.(esm).(eap_if).(portEnabled) = true -> w.(esm).(eap_if).(eapRestart) = false ->
  over cfg w = true ->
  stepped w (sm_EAP_FAILURE_Enter true (upd f w)).
Proof using CO.
  intros Hf [Hw Hs] Hc Hp Hr Ho. destruct (Hf (esm w)) as (n & k & E).
  set (w1 := upd (fun sm => sm <| num_rounds := n |> <| num_rounds_short := k |>) w).
  assert (E1 : upd f w = w1).
  { unfold w1, upd. destruct w as [s us st fl]. cbn [esm] in E. e_simpl. cbv [set set_esm].
    cbn [esm users env fault]. rewrite E. reflexivity. }
  rewrite E1. pose proof (entered_FAILURE eap_methods cfg true w1) as He.
  assert (Hch : changed (esm (sm_EAP_FAILURE_Enter true w1)) =
                (EAP_state (esm w) != EAP_FAILURE) || changed (esm w)).
  { unfold sm_EAP_FAILURE_Enter, EAP_entry, eap_sm_buildFailure, wpabuf_new, try_alloc, w1.
    e_simpl. destruct (alloc _ _) as [ [] ?]; e_simpl; by destruct (_ == _). }
  split_and!; [apply (en_fault _ _ _ _ _ He)|split; [by apply (en_wf _ _ _ _ _ He)|] |].
  - unfold state_inv. rewrite (en_state _ _ _ _ _ He). exact I.
  - rewrite Hch, Hc, orb_false_r. intros Hne.
    unfold rank, state_rank.
    rewrite (en_state _ _ _ _ _ He), (en_port _ _ _ _ _ He), (en_restart _ _ _ _ _ He).
    change (portEnabled (eap_if (esm w1))) with (portEnabled (eap_if (esm w))).
    change (eapRestart (eap_if (esm w1))) with (eapRestart (eap_if (esm w))).
    rewrite Hp, Hr, Ho, andb_false_r. cbn [negb andb].
    apply negb_true_iff in Hne. rewrite Hne, bool_decide_eq_true_2 by done.
    by destruct (over cfg (sm_EAP_FAILURE_Enter true w1)).
Qed.

Lemma step_stepped w :
  inv w -> w.(esm).(changed) = false -> stepped w (sm_EAP_Step eap_methods cfg eapol_cb w).
Proof using All.
  intros Hi Hc.
  assert (Hsame : stepped w w) by (split_and!; [done|done|by rewrite Hc]).
  unfold sm_EAP_Step. cbv zeta.
  destruct (portEnabled _) eqn:Hp; [|rewrite andb_false_r; by apply stepped_down].
  rewrite andb_true_r. cbn [negb]. destruct (eapRestart _) eqn:Hr.
  { destruct (entered_INITIALIZE eap_methods cfg true w (proj1 Hi)) as (He & Ho & Hb).
    split_and!; [apply (en_fault _ _ _ _ _ He)|split; [apply (en_wf _ _ _ _ _ He), Hi|] |].
    - unfold state_inv. rewrite (en_state _ _ _ _ _ He). exact Hb.
    - intros _. unfold rank. rewrite Hp, Hr, (en_restart _ _ _ _ _ He), (en_port _ _ _ _ _ He), Ho, Hp.
      change (EAP_INITIALIZE != EAP_INITIALIZE) with false. cbn [negb andb].
      unfold state_rank. rewrite (en_state _ _ _ _ _ He). lia. }
  destruct (max_auth_rounds cfg <? _) eqn:E1.
  { destruct (_ =? _); [|done]. apply stepped_out_of_rounds; [|done..|by unfold over; rewrite E1].
    intros sm. exists (u32 (num_rounds sm + 1)), (num_rounds_short sm). by destruct sm. }
  destruct (max_auth_rounds_short cfg <? _) eqn:E2.
  { destruct (_ =? _); [|done].
    apply stepped_out_of_rounds; [|done..|by unfold over; rewrite E2, orb_true_r].
    intros sm. exists (num_rounds sm), (u32 (num_rounds_short sm + 1)). by destruct sm. }
  apply switch_stepped; [done|split_and!; [done|done|by unfold over; rewrite E1, E2]|done].
Qed.

Lemma rank_bounds w : 0 <= rank w <= 50.
Proof.
  pose proof (cont_bounds w) as Hc.
  assert (Hs : 0 <= state_rank w <= 42).
  { unfold state_rank. destruct (EAP_state _);
      repeat match goal with |- context [if ?b then _ else _] => destruct b end; lia. }
  unfold rank. revert Hs. generalize (state_rank w). intros r Hs.
  repeat match goal with |- context [if ?b then _ else _] => destruct b end; lia.
Qed.

(** *** A run *)

Lemma step_loop_ends fuel res w :
  inv w -> w.(fault) = None -> rank w < Z.of_nat fuel ->
  let w' := (step_loop eap_methods cfg eapol_cb fuel res w).2 in
  w'.(fault) = None /\ inv w' /\ w'.(esm).(changed) = false.
Proof using All.
  revert res w. induction fuel as [|fuel IH]; intros res w Hi Hf Hr.
  { pose proof (rank_bounds w). lia. }
  cbn [step_loop]. set (w1 := upd (fun sm => sm <| changed := false |>) w).
  destruct (step_stepped w1) as (Hf2 & Hi2 & Hr2); [exact Hi|done|].
  cbv zeta. set (w2 := sm_EAP_Step _ _ _ w1) in *.
  change (fault w1) with (fault w) in Hf2. rewrite Hf in Hf2.
  rewrite bool_decide_eq_false_2 by (rewrite Hf2; apply is_Some_None).
  destruct (changed (esm w2)) eqn:E; [|done].
  apply IH; [done|done|]. specialize (Hr2 eq_refl). change (rank w1) with (rank w) in Hr2. lia.
Qed.

Lemma step_ends w :
  inv w -> w.(fault) = None ->
  let w' := (eap_server_sm_step eap_methods cfg eapol_cb w).2 in
  w'.(fault) = None /\ inv w' /\ w'.(esm).(changed) = false.
Proof using All.
  intros Hi Hf. apply step_loop_ends; [done|done|].
  pose proof (rank_bounds w). unfold STEP_FUEL. lia.
Qed.

End run.
