(* ===== verification/EapMethods.v ===== *)
(** * EAP methods: Identity and MD5

    Hostap's [eap_server/eap_server_identity.c], [eap_server/eap_server_md5.c]
    and [eap_common/chap.c], registered the way [eap_server_methods.c] does it,
    and the proof that they keep the contract of [EapServerProofs].  MD5 itself
    is the parameter [md5_vector], which may fail; [None] is its -1. *)

From S2P Require Import Prelude Bytes EapolState EapServer EapServerProofs.

#[local] Open Scope Z_scope.

Class Md5 := md5_vector : list bytes -> option bytes.

Definition CHAP_MD5_LEN : nat := 16.
Definition CHALLENGE_LEN : nat := 16.

Definition chap_md5 `{Md5} (id : Z) (secret challenge : bytes) : option bytes :=
  md5_vector [ [id]; secret; challenge].

(** The private data of the two methods: the target of [eap_method_priv]. *)
Inductive data_state := CONTINUE | SUCCESS | FAILURE.
#[export] Instance data_state_eq_dec : EqDecision data_state. Proof. solve_decision. Defined.

Inductive method_data :=
| eap_identity_data (state : data_state) (pick_up : bool)
| eap_md5_data (challenge : bytes) (state : data_state).

Definition state_of (d : method_data) : data_state :=
  match d with eap_identity_data s _ => s | eap_md5_data _ s => s end.

Definition sizeof_identity_data : nat := 8.
Definition sizeof_md5_data : nat := 20.

Section methods.
Context `{Env} `{Md5} (eapol_cb : eapol_callbacks).
Abbreviation W := (eap_world (method_priv := method_data)).

(** ** Identity *)

Definition eap_identity_init (w : W) : option method_data * W :=
  let '(ok, w) := try_alloc sizeof_identity_data w in
  (if ok then Some (eap_identity_data CONTINUE false) else None, w).

Definition eap_identity_initPickUp (w : W) : option method_data * W :=
  let '(d, w) := eap_identity_init w in
  (match d with Some (eap_identity_data s _) => Some (eap_identity_data s true) | d => d end, w).

Definition eap_identity_reset (d : method_data) (w : W) : W := w.

Definition eap_identity_buildReq (d : method_data) (id : Z) (w : W)
    : option bytes * method_data * W :=
  let req_data := match eapol_cb.(get_eap_req_id_text) with
                  | Some (Some text) => text | _ => [] end in
  let '(req, w) := wpabuf_new (eap_msg_hdr EAP_VENDOR_IETF EAP_TYPE_IDENTITY (length req_data)
                                 EAP_CODE_REQUEST id ++ req_data) w in
  match req, d with
  | None, eap_identity_data _ p => (None, eap_identity_data FAILURE p, w)
  | _, _ => (req, d, w)
  end.

Definition eap_identity_check (d : method_data) (respData : bytes) (w : W) : bool :=
  bool_decide (eap_hdr_validate EAP_VENDOR_IETF EAP_TYPE_IDENTITY (Some respData) = None).

(** The rest of [eap_identity_process], after the pick-up test. *)
Definition eap_identity_store (d : method_data) (respData : bytes) (w : W) : method_data * W :=
  match eap_hdr_validate EAP_VENDOR_IETF EAP_TYPE_IDENTITY (Some respData) with
  | None => (d, w)
  | Some (pos, len) =>
    let '(_, w) := try_alloc (len * 4 + 1) w in
    let w := if bool_decide (is_Some w.(esm).(identity))
             then upd (fun sm => sm <| update_user := true |>) w else w in
    let '(ok, w) := try_alloc (if (len =? 0)%nat then 1 else len) w in
    if negb ok then (eap_identity_data FAILURE false, upd (fun sm => sm <| identity := None |>) w)
    else (eap_identity_data SUCCESS false,
          upd (fun sm => sm <| identity := Some (take len pos) |>
                            <| identity_len := Z.of_nat len |>) w)
  end.

Definition eap_identity_process (d : method_data) (respData : bytes) (w : W) : method_data * W :=
  match d with
  | eap_identity_data s true =>
    if eap_identity_check d respData w then (eap_identity_data FAILURE true, w)
    else eap_identity_store (eap_identity_data s false) respData w
  | _ => eap_identity_store d respData w
  end.

Definition eap_identity_isDone (d : method_data) (w : W) : bool := state_of d != CONTINUE.
Definition eap_identity_isSuccess (d : method_data) (w : W) : bool := state_of d == SUCCESS.

Definition eap_identity : eap_method :=
  mk_method EAP_VENDOR_IETF EAP_TYPE_IDENTITY "Identity" EAP_SERVER_METHOD_INTERFACE_VERSION
    eap_identity_init (Some eap_identity_initPickUp) eap_identity_reset eap_identity_buildReq
    None (Some eap_identity_check) eap_identity_process eap_identity_isDone None
    eap_identity_isSuccess None.

Definition eap_server_identity_register (l : list eap_method) : Z * list eap_method :=
  eap_server_method_register l eap_identity.

(** ** MD5 *)

Definition eap_md5_init (w : W) : option method_data * W :=
  let '(ok, w) := try_alloc sizeof_md5_data w in
  (if ok then Some (eap_md5_data (replicate CHALLENGE_LEN 0) CONTINUE) else None, w).

Definition eap_md5_reset (d : method_data) (w : W) : W := w.

Definition eap_md5_buildReq (d : method_data) (id : Z) (w : W)
    : option bytes * method_data * W :=
  match d with
  | eap_md5_data old _ =>
    let '(r, st) := random_get_bytes CHALLENGE_LEN w.(env) in
    let w := w <| env := st |> in
    match r with
    | None => (None, eap_md5_data old FAILURE, w)
    | Some challenge =>
      let '(req, w) := wpabuf_new (eap_msg_hdr EAP_VENDOR_IETF EAP_TYPE_MD5 (1 + CHALLENGE_LEN)
                          EAP_CODE_REQUEST id ++ Z.of_nat CHALLENGE_LEN :: challenge) w in
      match req with
      | None => (None, eap_md5_data challenge FAILURE, w)
      | Some _ => (req, eap_md5_data challenge CONTINUE, w)
      end
    end
  | _ => (None, d, w)
  end.

Definition eap_md5_check (d : method_data) (respData : bytes) (w : W) : bool :=
  match eap_hdr_validate EAP_VENDOR_IETF EAP_TYPE_MD5 (Some respData) with
  | None => true
  | Some (pos, len) =>
    if (len <? 1)%nat then true
    else if negb (get pos 0 =? Z.of_nat CHAP_MD5_LEN) || (len <? 1 + CHAP_MD5_LEN)%nat then true
    else false
  end.

Definition eap_get_id (msg : bytes) : Z :=
  if (length msg <? EAP_HDR_SIZE)%nat then 0 else get msg 1.

Definition eap_md5_process (d : method_data) (respData : bytes) (w : W) : method_data * W :=
  match d with
  | eap_md5_data challenge state =>
    match w.(esm).(user) with
    | Some u =>
      match u.(password) with
      | Some pw =>
        if negb (u.(password_hash) =? 0) then (eap_md5_data challenge FAILURE, w) else
        match eap_hdr_validate EAP_VENDOR_IETF EAP_TYPE_MD5 (Some respData) with
        | None => (d, w)
        | Some (pos, plen) =>
          if negb (get pos 0 =? Z.of_nat CHAP_MD5_LEN) || (plen <? 1 + CHAP_MD5_LEN)%nat
          then (d, w) else
          let pos := drop 1 pos in
          match chap_md5 (eap_get_id respData) (take (Z.to_nat u.(password_len)) pw) challenge with
          | None => (eap_md5_data challenge FAILURE, w)
          | Some hash =>
            if bool_decide (take CHAP_MD5_LEN hash = take CHAP_MD5_LEN pos)
            then (eap_md5_data challenge SUCCESS, w)
            else (eap_md5_data challenge FAILURE, w)
          end
        end
      | None => (eap_md5_data challenge FAILURE, w)
      end
    | None => (eap_md5_data challenge FAILURE, w)
    end
  | _ => (d, w)
  end.

Definition eap_md5_isDone (d : method_data) (w : W) : bool := state_of d != CONTINUE.
Definition eap_md5_isSuccess (d : method_data) (w : W) : bool := state_of d == SUCCESS.

Definition eap_md5 : eap_method :=
  mk_method EAP_VENDOR_IETF EAP_TYPE_MD5 "MD5" EAP_SERVER_METHOD_INTERFACE_VERSION
    eap_md5_init None eap_md5_reset eap_md5_buildReq None (Some eap_md5_check) eap_md5_process
    eap_md5_isDone None eap_md5_isSuccess None.

Definition eap_server_md5_register (l : list eap_method) : Z * list eap_method :=
  eap_server_method_register l eap_md5.

(** The two methods, registered in hostapd's order. *)
Definition registered_methods : list eap_method :=
  (eap_server_md5_register (eap_server_identity_register []).2).2.

(** ** The contract *)

Lemma registered : registered_methods = [eap_identity; eap_md5].
Proof. reflexivity. Qed.

Lemma framed_alloc n (w : W) : framed w (try_alloc n w).2.
Proof. unfold try_alloc. destruct (alloc _ _). by split. Qed.
Lemma framed_wpabuf d (w : W) : framed w (wpabuf_new d w).2.
Proof.
  unfold wpabuf_new. pose proof (framed_alloc (WPABUF_SIZE + length d) w) as Hf.
  by destruct (try_alloc _ _).
Qed.
Lemma framed_identity f (w : W) :
  (forall sm, exists i l u, f sm = sm <| identity := i |> <| identity_len := l |>
                                      <| update_user := u |>) ->
  framed w (upd f w).
Proof.
  intros Hf. destruct (Hf (esm w)) as (i & l & u & E).
  split; e_simpl; rewrite ?E; done.
Qed.

Lemma framed_identity_store d resp (w : W) : framed w (eap_identity_store d resp w).2.
Proof.
  unfold eap_identity_store. destruct (eap_hdr_validate _ _ _) as [ [pos len]|]; [|done].
  pose proof (framed_alloc (len * 4 + 1) w) as H1. destruct (try_alloc _ w) as [b w1].
  cbn [snd] in H1. etrans; [exact H1|].
  set (w2 := if bool_decide _ then _ else w1).
  assert (H2 : framed w1 w2).
  { unfold w2. destruct (bool_decide _); [|done]. apply framed_identity.
    intros sm. exists (identity sm), (identity_len sm), true. by destruct sm. }
  etrans; [exact H2|].
  pose proof (framed_alloc (if (len =? 0)%nat then 1%nat else len) w2) as H3.
  destruct (try_alloc _ w2) as [ok w3]. cbn [snd] in H3. etrans; [exact H3|].
  destruct (negb ok); cbn [snd]; apply framed_identity; intros sm.
  - exists None, (identity_len sm), (update_user sm). by destruct sm.
  - exists (Some (take len pos)), (Z.of_nat len), (update_user sm). by destruct sm.
Qed.

Lemma framed_identity_init (w : W) : framed w (eap_identity_init w).2.
Proof.
  unfold eap_identity_init. pose proof (framed_alloc sizeof_identity_data w) as Hf.
  by destruct (try_alloc _ w).
Qed.

Lemma same_user_alloc n (w : W) : same_user w (try_alloc n w).2.
Proof. unfold try_alloc. by destruct (alloc _ _). Qed.

Lemma identity_laws : method_laws eap_identity.
Proof.
  split; cbn [init initPickUp reset buildReq process getKey getSessionId eap_identity]; try done.
  - intros w. split; [apply framed_identity_init|intros _].
    unfold eap_identity_init. pose proof (same_user_alloc sizeof_identity_data w).
    by destruct (try_alloc _ w).
  - intros f w [= <-]. unfold eap_identity_initPickUp.
    pose proof (framed_identity_init w). by destruct (eap_identity_init w).
  - intros p id w. unfold eap_identity_buildReq. cbv zeta.
    match goal with |- context [wpabuf_new ?d w] => pose proof (framed_wpabuf d w) as Hf end.
    destruct (wpabuf_new _ w) as [ [req|] w']; by destruct p.
  - intros p resp w. unfold eap_identity_process. destruct p as [s [] |c s];
      try apply framed_identity_store.
    destruct (eap_identity_check _ _ _); [done|apply framed_identity_store].
Qed.

Lemma md5_laws : method_laws eap_md5.
Proof.
  split; cbn [init initPickUp reset buildReq process getKey getSessionId eap_md5]; try done.
  - intros w. unfold eap_md5_init.
    pose proof (framed_alloc sizeof_md5_data w). pose proof (same_user_alloc sizeof_md5_data w).
    by destruct (try_alloc _ w).
  - intros p id w. unfold eap_md5_buildReq. destruct p as [s b|c s]; [done|].
    destruct (random_get_bytes _ _) as [ [ch|] st]; [|by split].
    set (w1 := w <| env := st |>). assert (H1 : framed w w1) by (by split).
    match goal with |- context [wpabuf_new ?d w1] => pose proof (framed_wpabuf d w1) as Hf end.
    destruct (wpabuf_new _ w1) as [ [req|] w']; by etrans.
  - intros p resp w. unfold eap_md5_process. by repeat case_match.
Qed.

#[export] Instance registered_laws : EapMethodsLaws registered_methods.
Proof.
  unfold EapMethodsLaws. rewrite registered. apply Forall_cons. split; [apply identity_laws|].
  apply Forall_cons. split; [apply md5_laws|constructor].
Qed.
End methods.
