(* ===== verification/EapServerProps.v ===== *)
(** * The EAP server: properties

    What the server promises to the authenticator above it, for all methods
    that keep their contract: success is reported only after a method or the
    AAA server succeeded, responses are matched to the outstanding request,
    lost requests are sent again a bounded number of times, and a Nak narrows
    the methods down to what the peer accepts. *)

From S2P Require Import Prelude Bytes EapolState EapServer EapServerProofs EapServerRun.

#[local] Open Scope Z_scope.
#[local] Opaque try_another_method.

Section props.
Context `{Env} {method_priv : Type}.
Context (eap_methods : list (eap_method (method_priv := method_priv))).
Context (cfg : eap_config) (eapol_cb : eapol_callbacks).
Context `{ML : !EapMethodsLaws eap_methods} {CO : unsigned_config cfg}.
Context (identity_ok : identity_starts eap_methods) (no_reauth_start : get_erp_start eapol_cb = false).
Abbreviation W := (eap_world (method_priv := method_priv)).
Implicit Types w : W.
Abbreviation step := (sm_EAP_Step eap_methods cfg eapol_cb).

(** ** Success *)

(** A method other than Identity is selected and reports success. *)
Definition succeeded (w : W) : Prop :=
  w.(esm).(currentMethod) <> EAP_TYPE_IDENTITY /\ method_success eap_methods w = true.
(** A decision for success is only taken then. *)
Definition decided (w : W) : Prop :=
  w.(esm).(EAP_state) = EAP_SELECT_ACTION -> w.(esm).(decision) = DECISION_SUCCESS -> succeeded w.
Definition aaa_accepts (w : W) : Prop :=
  w.(esm).(EAP_state) = EAP_AAA_IDLE /\ w.(esm).(eap_if).(aaaSuccess) = true.

(** The states of the passthrough to an AAA server, and how they are reached. *)
Definition passthrough (st : EAP_states) : bool :=
  match st with
  | EAP_INITIALIZE_PASSTHROUGH | EAP_IDLE2 | EAP_RETRANSMIT2 | EAP_RECEIVED2 | EAP_DISCARD2
  | EAP_SEND_REQUEST2 | EAP_AAA_REQUEST | EAP_AAA_RESPONSE | EAP_AAA_IDLE
  | EAP_TIMEOUT_FAILURE2 | EAP_FAILURE2 | EAP_SUCCESS2 => true
  | _ => false
  end.
Definition passes_through (w : W) : Prop :=
  passthrough w.(esm).(EAP_state) = true \/
  w.(esm).(EAP_state) = EAP_SELECT_ACTION /\ w.(esm).(decision) = DECISION_PASSTHROUGH.

(** What makes the machine enter [st] from [w]. *)
Definition success_guard (w : W) (st : EAP_states) (w1 w' : W) : Prop :=
  match st with
  | EAP_SUCCESS => normal cfg w /\ w1 = w /\ w' = sm_EAP_SUCCESS_Enter false w /\
      w.(esm).(EAP_state) = EAP_SELECT_ACTION /\ w.(esm).(decision) = DECISION_SUCCESS
  | EAP_SUCCESS2 => normal cfg w /\ w1 = w /\ aaa_accepts w
  | EAP_SELECT_ACTION => w' = sm_EAP_SELECT_ACTION_Enter eap_methods cfg eapol_cb false w1
  | _ => if passthrough st then passes_through w else True
  end.
(** What entering a state is compared with. *)
Definition same_interface (w w1 : W) : Prop :=
  w1.(esm).(eap_if).(eapSuccess) = w.(esm).(eap_if).(eapSuccess) /\
  w1.(esm).(eap_if).(portEnabled) = w.(esm).(eap_if).(portEnabled) /\
  (typed eap_methods w -> typed eap_methods w1).
Definition moves (w w' : W) : Prop :=
  w' = w \/
  w'.(esm).(EAP_state) = EAP_PROPOSE_METHOD /\ same_interface w w' \/
  exists st w1, entered eap_methods cfg st w1 w' /\ same_interface w w1 /\
    success_guard w st w1 w'.

Lemma moves_entered st w1 w w' :
  entered eap_methods cfg st w1 w' ->
  same_interface w w1 -> success_guard w st w1 w' -> moves w w'.
Proof. intros ? ? ?. do 2 right. by exists st, w1. Qed.

(** A passthrough state is entered from another, or by decision. *)
Ltac passing :=
  match goal with
  | Est : EAP_state (esm ?w) = EAP_SELECT_ACTION |- success_guard ?w _ _ _ => by right
  | Est : EAP_state (esm ?w) = _ |- success_guard ?w _ _ _ =>
    left; rewrite Est; reflexivity
  end.

(** Apply the lemma of the state that is entered. *)
Ltac moved :=
  lazymatch goal with
  | |- moves ?w ?w => left; reflexivity
  | |- moves ?w ?w' =>
    let go L := (eapply (moves_entered _ _ _ _ L); [by split_and!|try exact I; try passing]) in
    lazymatch w' with
    | sm_EAP_DISABLED_Enter ?g ?w1 => go (entered_DISABLED eap_methods cfg g w1)
    | sm_EAP_INITIALIZE_Enter _ _ ?g ?w1 => go (proj1 (entered_INITIALIZE eap_methods cfg g w1 ltac:(eassumption)))
    | sm_EAP_PICK_UP_METHOD_Enter _ _ ?w1 => go (proj1 (entered_PICK_UP_METHOD eap_methods cfg w1 ltac:(eassumption)))
    | sm_EAP_IDLE_Enter ?g ?w1 => go (entered_IDLE eap_methods cfg g w1)
    | sm_EAP_RETRANSMIT_Enter _ ?w1 => go (entered_RETRANSMIT eap_methods cfg w1)
    | sm_EAP_RECEIVED_Enter _ ?w1 => go (entered_RECEIVED eap_methods cfg w1)
    | sm_EAP_DISCARD_Enter _ ?w1 => go (entered_DISCARD eap_methods cfg w1)
    | sm_EAP_SEND_REQUEST_Enter _ ?w1 => go (entered_SEND_REQUEST eap_methods cfg w1)
    | sm_EAP_METHOD_REQUEST_Enter _ _ ?w1 => go (entered_METHOD_REQUEST eap_methods cfg w1 ltac:(eassumption))
    | sm_EAP_NAK_Enter _ _ ?w1 => go (entered_NAK eap_methods cfg w1 ltac:(eassumption))
    | sm_EAP_SELECT_ACTION_Enter _ _ _ _ ?w1 =>
      eapply (moves_entered EAP_SELECT_ACTION w1); [apply entered_SELECT_ACTION|by split_and!|reflexivity]
    | sm_EAP_TIMEOUT_FAILURE_Enter _ ?w1 => go (entered_TIMEOUT_FAILURE eap_methods cfg w1)
    | sm_EAP_FAILURE_Enter ?g ?w1 => go (entered_FAILURE eap_methods cfg g w1)
    | sm_EAP_SUCCESS_Enter _ ?w1 => go (entered_SUCCESS eap_methods cfg w1)
    | sm_EAP_INITIATE_REAUTH_START_Enter _ _ ?w1 => go (entered_INITIATE_REAUTH_START eap_methods cfg eapol_cb w1)
    | sm_EAP_INITIALIZE_PASSTHROUGH_Enter _ ?w1 => go (entered_INITIALIZE_PASSTHROUGH eap_methods cfg w1)
    | sm_EAP_IDLE2_Enter ?g ?w1 => go (entered_IDLE2 eap_methods cfg g w1)
    | sm_EAP_RETRANSMIT2_Enter _ ?w1 => go (entered_RETRANSMIT2 eap_methods cfg w1)
    | sm_EAP_RECEIVED2_Enter _ ?w1 => go (entered_RECEIVED2 eap_methods cfg w1)
    | sm_EAP_DISCARD2_Enter _ ?w1 => go (entered_DISCARD2 eap_methods cfg w1)
    | sm_EAP_SEND_REQUEST2_Enter _ ?w1 => go (entered_SEND_REQUEST2 eap_methods cfg w1)
    | sm_EAP_AAA_REQUEST_Enter _ ?w1 => go (entered_AAA_REQUEST eap_methods cfg w1)
    | sm_EAP_AAA_RESPONSE_Enter _ ?w1 => go (entered_AAA_RESPONSE eap_methods cfg w1)
    | sm_EAP_AAA_IDLE_Enter _ ?w1 => go (entered_AAA_IDLE eap_methods cfg w1)
    | sm_EAP_TIMEOUT_FAILURE2_Enter _ ?w1 => go (entered_TIMEOUT_FAILURE2 eap_methods cfg w1)
    | sm_EAP_FAILURE2_Enter _ ?w1 => go (entered_FAILURE2 eap_methods cfg w1)
    | sm_EAP_SUCCESS2_Enter _ ?w1 => go (entered_SUCCESS2 eap_methods cfg w1)
    end
  end.

Ltac moves_by L := eapply (moves_entered _ _ _ _ L); [by split_and!|exact I].

Lemma switch_moves w :
  inv eap_methods cfg w -> normal cfg w -> moves w (sm_EAP_switch eap_methods cfg eapol_cb w).
Proof using All.
  intros [Hw Hs] Hn. unfold sm_EAP_switch. cbv zeta. unfold state_inv in Hs.
  destruct (EAP_state (esm w)) eqn:Est.
  all: repeat match goal with
    | |- moves _ (if ?b then _ else _) => destruct b eqn:?
    | |- moves _ (match ?d with DECISION_SUCCESS => _ | _ => _ end) => destruct d eqn:?
    end; try moved.
  - moves_by (entered_INTEGRITY_CHECK eap_methods cfg w (has_method_m _ w Hw Hs)).
  - moves_by (entered_METHOD_RESPONSE eap_methods cfg w (has_method_m _ w Hw Hs) Hw).
  - set (w1 := upd _ w).
    moves_by (entered_METHOD_RESPONSE eap_methods cfg w1 (has_method_m _ w Hw Hs) Hw).
  - eapply (moves_entered _ _ _ _ (entered_FAILURE eap_methods cfg false _)); [|exact I].
    pose proof (entered_SEND_REQUEST eap_methods cfg w) as He.
    split_and!; [apply (en_success _ _ _ _ _ He)|apply (en_port _ _ _ _ _ He)|apply (en_typed _ _ _ _ _ He)].
  - right; left. by split_and!.
  - set (w1 := upd _ w). moves_by (entered_PROPOSE_METHOD eap_methods cfg w1 identity_ok Hw).
  - by split_and!.
  - moves_by (entered_PROPOSE_METHOD eap_methods cfg w identity_ok Hw).
  - apply Z.eqb_neq in Heqb. destruct Hs as [Hs|?]; [|done].
    moves_by (entered_METHOD_RESPONSE eap_methods cfg w (has_method_m _ w Hw Hs) Hw).
  - by split_and!.
Qed.

Lemma step_moves w : inv eap_methods cfg w -> moves w (step w).
Proof using All.
  intros Hi. unfold sm_EAP_Step. cbv zeta.
  destruct (portEnabled _) eqn:Hp; [|rewrite andb_false_r; cbn [negb]; moved].
  rewrite andb_true_r. cbn [negb]. destruct (eapRestart _) eqn:Hr.
  { pose proof (proj1 Hi). moved. }
  destruct (max_auth_rounds cfg <? _) eqn:E1; [destruct (_ =? _); moved|].
  destruct (max_auth_rounds_short cfg <? _) eqn:E2; [destruct (_ =? _); moved|].
  apply switch_moves; [done|]. by split_and!; [..|unfold over; rewrite E1, E2].
Qed.

(** *** The decision *)

Lemma method_success_keeps w w' :
  w'.(esm).(m) = w.(esm).(m) -> w'.(esm).(eap_method_priv) = w.(esm).(eap_method_priv) ->
  method_success eap_methods w' = method_success eap_methods w.
Proof using ML.
  intros Em Ep. unfold method_success. replace (sel _ (esm w')) with (sel eap_methods (esm w))
    by (unfold sel; by rewrite Em).
  rewrite Ep. destruct (sel _ _) as [md|] eqn:Hm; [|reflexivity].
  destruct (eap_method_priv (esm w)); [|reflexivity].
  apply (law_isSuccess md (sel_laws _ _ _ Hm)).
Qed.

Lemma getDecision_success w :
  let d := eap_sm_Policy_getDecision eap_methods cfg eapol_cb w in
  d.1 = DECISION_SUCCESS ->
  succeeded w /\ d.2 = upd (fun sm => sm <| update_user := true |>) w.
Proof.
  cbv zeta. unfold eap_sm_Policy_getDecision. cbv zeta.
  destruct (negb (eap_server cfg) && _ && _); [done|].
  destruct (negb (_ =? _) && _) eqn:E.
  { intros _. split; [|done]. apply andb_prop in E as [Et Es].
    by apply negb_true_iff, Z.eqb_neq in Et. }
  destruct (method_done _ _ && _); [done|].
  assert (Hrest : forall w, (decision_rest eapol_cb w).1 <> DECISION_SUCCESS).
  { intros w'. unfold decision_rest. cbv zeta.
    by repeat case_match. }
  destruct ((_ || _) && _ && _); [|intros E'; by apply Hrest in E'].
  destruct (eap_user_get _ _ _ _ _) as [ok w2].
  destruct (negb ok); [done|]. destruct (_ && _ && _); [done|intros E'; by apply Hrest in E'].
Qed.

Lemma decided_SELECT_ACTION w :
  decided (sm_EAP_SELECT_ACTION_Enter eap_methods cfg eapol_cb false w).
Proof using ML.
  intros _. rewrite SELECT_ACTION_decision. set (w1 := EAP_entry _ _ w).
  pose proof (getDecision_success w1) as Hd. cbv zeta in Hd.
  destruct (eap_sm_Policy_getDecision _ _ _ w1) as [d w2]. e_simpl. cbn [fst snd] in *.
  intros E. destruct (Hd E) as [ [Ht Hs] ->]. split; [exact Ht|].
  by rewrite (method_success_keeps w1).
Qed.

Lemma succeeded_SUCCESS w : succeeded w -> succeeded (sm_EAP_SUCCESS_Enter false w).
Proof using ML.
  intros [Hc Hs]. unfold succeeded. rewrite (method_success_keeps w).
  all: unfold sm_EAP_SUCCESS_Enter, eap_sm_buildSuccess, EAP_entry, wpabuf_new, try_alloc;
    e_simpl; destruct (alloc _ _) as [ [] ?]; e_simpl; destruct (bool_decide _); done.
Qed.

(** *** Runs *)

(** [granted w0 w]: success, reported in a run from [w0]. *)
Definition granted (w0 w : W) : Prop :=
  w.(esm).(EAP_state) = EAP_SUCCESS /\ succeeded w \/
  w.(esm).(EAP_state) = EAP_SUCCESS2 /\ aaa_accepts w0.
Definition sound (w0 w : W) : Prop :=
  (if w.(esm).(eap_if).(eapSuccess) then normal cfg w /\ granted w0 w
   else aaa_accepts w -> aaa_accepts w0) /\ decided w.

Lemma sound_entered w0 w st w1 w' :
  w.(esm).(eap_if).(eapSuccess) = false -> sound w0 w ->
  entered eap_methods cfg st w1 w' ->
  same_interface w w1 -> success_guard w st w1 w' -> sound w0 w'.
Proof using ML.
  intros Hf [Ha Hd] He [E _] Hg. unfold sound. rewrite Hf in E, Ha.
  assert (Hst := en_state _ _ _ _ _ He). rewrite (en_success _ _ _ _ _ He), E. split.
  - destruct st; cbn [success_after success_guard] in *;
      try (intros [Hs' Haa]; rewrite (en_aaa _ _ _ _ _ He) in Haa; congruence).
    + destruct Hg as (Hn & -> & -> & Hs & Hdec). split; [by apply (entered_normal eap_methods _ EAP_SUCCESS w)|].
      left. split; [done|]. by apply succeeded_SUCCESS, Hd.
    + intros [_ Haa]. by rewrite (en_aaa _ _ _ _ _ He) in Haa.
    + destruct Hg as (Hn & -> & Hacc). split; [by apply (entered_normal eap_methods _ EAP_SUCCESS2 w)|].
      right. split; [done|auto].
  - intros Hs. rewrite Hst in Hs. clear Hst. subst st.
        change (w' = sm_EAP_SELECT_ACTION_Enter eap_methods cfg eapol_cb false w1) in Hg.
    pose proof (decided_SELECT_ACTION w1) as Hd'. rewrite <- Hg in Hd'.
    exact (Hd' (en_state _ _ _ _ _ He)).
Qed.

Lemma step_sound w0 w :
  inv eap_methods cfg w -> sound w0 w -> sound w0 (step w).
Proof using All.
  intros Hi Hs. destruct (eapSuccess (eap_if (esm w))) eqn:E.
  - destruct Hs as [Ha Hd]. rewrite E in Ha. destruct Ha as [ (Hp & Hr & Ho) Hg].
    assert (Hw : step w = w).
    { unfold sm_EAP_Step. cbv zeta. rewrite Hp, Hr. cbn [negb andb].
      unfold over in Ho. apply orb_false_iff in Ho as [-> ->]. unfold sm_EAP_switch.
      by destruct Hg as [ [-> _]|[-> _] ]. }
    rewrite Hw. split; [|done]. by rewrite E.
  - destruct (step_moves w Hi) as [-> |[ [Hst [Hf _] ]|(st & w1 & He & Hw1 & Hg)] ]; [done| |].
    + rewrite E in Hf. split; [rewrite Hf; intros [Hs' _]; congruence|intros Hs'; congruence].
    + by apply (sound_entered w0 w st w1).
Qed.

Lemma succeeded_esm w w' :
  w'.(esm).(m) = w.(esm).(m) -> w'.(esm).(eap_method_priv) = w.(esm).(eap_method_priv) ->
  w'.(esm).(currentMethod) = w.(esm).(currentMethod) -> succeeded w -> succeeded w'.
Proof using ML.
  intros Hm Hp Hc [H1 H2]. split; [congruence|]. by rewrite (method_success_keeps w).
Qed.

(** Clearing [changed] and a crash do not matter. *)
Lemma sound_keeps w0 w w' :
  (exists c, w'.(esm) = w.(esm) <| changed := c |>) -> sound w0 w -> sound w0 w'.
Proof using ML.
  intros [c E]. assert (Hs : succeeded w -> succeeded w')
    by (apply succeeded_esm; by rewrite E).
  unfold sound, decided, granted, aaa_accepts, normal, over. rewrite E. e_simpl.
  destruct (eapSuccess _); intuition.
Qed.

(** What every pass preserves, a run preserves. *)
Lemma run_invariant (P : W -> Prop) :
  (forall w w', (exists c, w'.(esm) = w.(esm) <| changed := c |>) -> P w -> P w') ->
  (forall w, inv eap_methods cfg w -> P w -> P (step w)) ->
  forall w, inv eap_methods cfg w -> P w -> P (eap_server_sm_step eap_methods cfg eapol_cb w).2.
Proof using All.
  intros Hk Hp. unfold eap_server_sm_step. generalize STEP_FUEL as fuel, false as res.
  intros fuel. induction fuel as [|fuel IH]; intros res w Hi Hw.
  { apply (Hk w); [|done]. exists (changed (esm w)). by destruct w as [ []]. }
  cbn [step_loop]. set (w1 := upd (fun sm => sm <| changed := false |>) w).
  assert (H1 : P (step w1)) by (apply Hp; [exact Hi|apply (Hk w); [by exists false|exact Hw] ]).
  destruct (step_stepped eap_methods cfg eapol_cb identity_ok no_reauth_start w1)
    as (_ & Hi2 & _); [exact Hi|done|].
  cbv zeta. destruct (bool_decide _); [exact H1|]. destruct (changed _); [|exact H1].
  by apply IH.
Qed.

Lemma run_sound w :
  inv eap_methods cfg w -> decided w -> w.(esm).(eap_if).(eapSuccess) = false ->
  sound w (eap_server_sm_step eap_methods cfg eapol_cb w).2.
Proof using All.
  intros Hi Hd Hf. apply run_invariant; [by apply sound_keeps|by intros; apply step_sound|done|].
  unfold sound. by rewrite Hf.
Qed.

Lemma decided_keeps w w' :
  w'.(esm).(EAP_state) = w.(esm).(EAP_state) -> w'.(esm).(decision) = w.(esm).(decision) ->
  w'.(esm).(m) = w.(esm).(m) -> w'.(esm).(eap_method_priv) = w.(esm).(eap_method_priv) ->
  w'.(esm).(currentMethod) = w.(esm).(currentMethod) -> decided w -> decided w'.
Proof using ML.
  unfold decided. intros -> -> Hm Hp Hc Hd Hs Hdec. by apply (succeeded_esm w); auto.
Qed.

Lemma step_decided w : inv eap_methods cfg w -> decided w -> decided (step w).
Proof using All.
  intros Hi Hd. destruct (step_moves w Hi) as [-> |[ [Hst _]|(st & w1 & He & _ & Hg)] ]; [done| |].
  - intros Hs. congruence.
  - intros Hs. rewrite (en_state _ _ _ _ _ He) in Hs. subst st.
    change (step w = sm_EAP_SELECT_ACTION_Enter eap_methods cfg eapol_cb false w1) in Hg.
    pose proof (decided_SELECT_ACTION w1) as Hd'. rewrite <- Hg in Hd'.
    exact (Hd' (en_state _ _ _ _ _ He)).
Qed.

Lemma run_decided w :
  inv eap_methods cfg w -> decided w ->
  decided (eap_server_sm_step eap_methods cfg eapol_cb w).2.
Proof using All.
  apply run_invariant; [|by apply step_decided].
  intros w1 w2 [c E]. by apply decided_keeps; rewrite E.
Qed.

(** [portEnabled] belongs to the layer below. *)
Lemma run_port w :
  inv eap_methods cfg w ->
  (eap_server_sm_step eap_methods cfg eapol_cb w).2.(esm).(eap_if).(portEnabled) =
  w.(esm).(eap_if).(portEnabled).
Proof using All.
  intros Hi. apply (run_invariant (fun w' => portEnabled (eap_if (esm w')) = portEnabled (eap_if (esm w))));
    [|clear Hi|done|done].
  - by intros w1 w2 [c ->].
  - intros w1 Hi Hw1. rewrite <- Hw1.
    destruct (step_moves w1 Hi) as [-> |[ [_ [_ [? _] ] ]|(st & w2 & He & [_ [Hp _] ] & _)] ]; [done..|].
    by rewrite (en_port _ _ _ _ _ He).
Qed.

(** *** A server without an AAA server, none of whose methods succeeds *)

Definition local w : Prop := ~ passes_through w.
(** The Identity method aside. *)
Definition no_method_succeeds : Prop :=
  forall md p w, md ∈ eap_methods -> type_of md <> EAP_TYPE_IDENTITY -> md.(isSuccess) p w = false.

(** The method that succeeded. *)
Lemma succeeded_method w :
  typed eap_methods w -> succeeded w ->
  exists md p, md ∈ eap_methods /\ type_of md <> EAP_TYPE_IDENTITY /\
    sel eap_methods w.(esm) = Some md /\ w.(esm).(eap_method_priv) = Some p /\
    md.(isSuccess) p w = true.
Proof.
  intros Ht [Hc Hs]. unfold method_success in Hs.
  destruct (sel eap_methods (esm w)) as [md|] eqn:Hm; [|done].
  destruct (eap_method_priv (esm w)) as [p|]; [|done]. exists md, p.
  rewrite (Ht md Hm) in Hc. split_and!; [|done..].
  unfold sel in Hm. destruct (m (esm w)) as [i|]; [|done]. by eapply list_elem_of_lookup_2.
Qed.

Lemma not_succeeded w : no_method_succeeds -> typed eap_methods w -> ~ succeeded w.
Proof.
  intros Hn Ht Hs. destruct (succeeded_method w Ht Hs) as (md & p & Hin & Hty & _ & _ & Hsu).
  by rewrite Hn in Hsu.
Qed.

Lemma run_typed w :
  inv eap_methods cfg w -> typed eap_methods w ->
  typed eap_methods (eap_server_sm_step eap_methods cfg eapol_cb w).2.
Proof using All.
  apply run_invariant.
  - intros w1 w2 [c E]. unfold typed, sel. by rewrite E.
  - intros w1 Hi Ht.
    destruct (step_moves w1 Hi) as [-> |[ [_ [_ [_ Ht1] ] ]|(st & w2 & He & [_ [_ Ht2] ] & _)] ];
      [done|by apply Ht1|]. by apply (en_typed _ _ _ _ _ He), Ht2.
Qed.

Lemma getDecision_local w :
  cfg.(eap_server) = true ->
  (eap_sm_Policy_getDecision eap_methods cfg eapol_cb w).1 <> DECISION_PASSTHROUGH.
Proof.
  intros Hc. unfold eap_sm_Policy_getDecision, decision_rest. rewrite Hc. cbn [negb andb].
  cbv zeta. by repeat case_match.
Qed.

Lemma step_local w :
  cfg.(eap_server) = true -> inv eap_methods cfg w -> local w -> local (step w).
Proof using All.
  intros Hc Hi Hl. destruct (step_moves w Hi) as [-> |[ [Hst _]|(st & w1 & He & _ & Hg)] ]; [done| |].
  - unfold local, passes_through. rewrite Hst. by intros [?|[? _] ].
  - unfold local, passes_through. rewrite (en_state _ _ _ _ _ He).
    destruct st; cbn [passthrough] in *; try (by exfalso; apply Hl); try (by intros [?|[? _] ]).
    + intros [?|[_ Hdec] ]; [done|].
      change (step w = sm_EAP_SELECT_ACTION_Enter eap_methods cfg eapol_cb false w1) in Hg.
      rewrite Hg, SELECT_ACTION_decision in Hdec. by apply getDecision_local in Hdec.
    + exfalso. apply Hl. left. destruct Hg as (_ & _ & [Hs' _]). by rewrite Hs'.
Qed.

Lemma run_local w :
  cfg.(eap_server) = true -> inv eap_methods cfg w -> local w ->
  local (eap_server_sm_step eap_methods cfg eapol_cb w).2.
Proof using All.
  intros Hc. apply run_invariant; [|by intros; apply step_local].
  intros w1 w2 [c E]. unfold local, passes_through. by rewrite E.
Qed.

Lemma run_silent w :
  cfg.(eap_server) = true -> no_method_succeeds -> inv eap_methods cfg w -> decided w -> local w ->
  typed eap_methods w -> w.(esm).(eap_if).(eapSuccess) = false ->
  (eap_server_sm_step eap_methods cfg eapol_cb w).2.(esm).(eap_if).(eapSuccess) = false.
Proof using All.
  intros Hc Hn Hi Hd Hl Ht Hf. destruct (run_sound w Hi Hd Hf) as [Hs _].
  destruct (eapSuccess (eap_if (esm (eap_server_sm_step _ _ _ w).2))); [|done].
  destruct Hs as [_ [ [_ Hs]|[_ [Hs _] ] ] ].
  - by apply (not_succeeded _ Hn (run_typed w Hi Ht)) in Hs.
  - exfalso. apply Hl. left. by rewrite Hs.
Qed.

(** ** Lost requests *)

Lemma step_normal w : normal cfg w -> step w = sm_EAP_switch eap_methods cfg eapol_cb w.
Proof.
  intros (Hp & Hr & Ho). unfold sm_EAP_Step. cbv zeta. rewrite Hp, Hr. cbn [negb andb].
  unfold over in Ho. by apply orb_false_iff in Ho as [-> ->].
Qed.

Definition clear_changed : W -> W := upd (fun sm => sm <| changed := false |>).

(** One pass of the loop that goes on, and one that ends it. *)
Lemma step_loop_next fuel res w :
  let w' := step (clear_changed w) in
  w'.(fault) = None -> w'.(esm).(changed) = true ->
  step_loop eap_methods cfg eapol_cb (S fuel) res w =
  step_loop eap_methods cfg eapol_cb fuel true w'.
Proof.
  cbv zeta. intros Hf Hc. cbn [step_loop]. cbv zeta. fold (clear_changed w).
  rewrite bool_decide_eq_false_2 by (rewrite Hf; apply is_Some_None). by rewrite Hc.
Qed.
Lemma step_loop_stop fuel res w :
  let w' := step (clear_changed w) in
  w'.(esm).(changed) = false ->
  step_loop eap_methods cfg eapol_cb (S fuel) res w = (res, w').
Proof.
  cbv zeta. intros Hc. cbn [step_loop]. cbv zeta. fold (clear_changed w). rewrite Hc. by destruct (bool_decide _).
Qed.

(** A request is outstanding and no response has come. *)
Record waiting (req : bytes) w : Prop := {
  wa_state : w.(esm).(EAP_state) = EAP_IDLE;
  wa_normal : normal cfg w;
  wa_fault : w.(fault) = None;
  wa_resp : w.(esm).(eap_if).(eapResp) = false;
  wa_start : w.(esm).(try_initiate_reauth) = false;
  wa_count : 0 <= w.(esm).(retransCount) <= w.(esm).(MaxRetrans);
  wa_last : w.(esm).(lastReqData) = Some req }.

(** [retransWhile] counts down to 0. *)
Definition expire w : W :=
  (eap_server_sm_step eap_methods cfg eapol_cb
     (upd_if (fun i => i <| retransWhile := 0 |>) w)).2.

Lemma backoff_spec n : backoff n 3 = Z.min 20 (3 * 2 ^ Z.of_nat n).
Proof.
  assert (Hb : forall n r, 0 < r -> backoff n r = match n with O => r | _ => Z.min 20 (r * 2 ^ Z.of_nat n) end).
  { clear n. intros n. induction n as [|n IH]; intros r Hr; [done|].
    cbn [backoff]. rewrite Nat2Z.inj_succ, Z.pow_succ_r by lia.
    pose proof (Z.pow_pos_nonneg 2 (Z.of_nat n) ltac:(lia) ltac:(lia)).
    destruct (Z.leb_spec 20 (r * 2)); [nia|]. rewrite IH by lia.
    destruct n as [|n]; [|f_equal; lia]. change (2 ^ Z.of_nat 0) with 1. lia. }
  rewrite Hb by lia. destruct n; [done|reflexivity].
Qed.

Definition sent_again (req : bytes) w w' : Prop :=
  if (alloc (WPABUF_SIZE + length req) w.(env)).1
  then w'.(esm).(eap_if).(eapReq) = true /\ w'.(esm).(eap_if).(eapReqData) = Some req
  else w'.(esm).(eap_if).(eapReqData) = None.

Lemma RETRANSMIT_effect req w :
  w.(esm).(lastReqData) = Some req ->
  let w' := sm_EAP_RETRANSMIT_Enter false w in
  w'.(esm).(changed) = true /\ w'.(esm).(retransCount) = 1 + w.(esm).(retransCount) /\
  w'.(esm).(MaxRetrans) = w.(esm).(MaxRetrans) /\ w'.(esm).(lastReqData) = Some req /\
  w'.(esm).(methodTimeout) = w.(esm).(methodTimeout) /\
  w'.(esm).(try_initiate_reauth) = w.(esm).(try_initiate_reauth) /\
  (w.(esm).(retransCount) < w.(esm).(MaxRetrans) -> sent_again req w w').
Proof.
  intros Hl. cbv zeta. unfold sm_EAP_RETRANSMIT_Enter, retransmit, EAP_entry, sent_again,
    eap_copy_buf, wpabuf_dup, wpabuf_new, try_alloc. e_simpl. rewrite Hl.
  rewrite bool_decide_eq_true_2 by done. rewrite andb_true_r.
  destruct (Z.leb_spec (1 + retransCount (esm w)) (MaxRetrans (esm w))); e_simpl.
  - by destruct (alloc _ _) as [ [] ?]; e_simpl; split_and!.
  - split_and!; try done. intros. lia.
Qed.

(** A run of two passes that change something and one that does not. *)
Lemma two_passes w w1 w2 :
  step (clear_changed w) = w1 -> w1.(fault) = None -> w1.(esm).(changed) = true ->
  step (clear_changed w1) = w2 -> w2.(fault) = None -> w2.(esm).(changed) = true ->
  step (clear_changed w2) = clear_changed w2 ->
  (eap_server_sm_step eap_methods cfg eapol_cb w).2 = clear_changed w2.
Proof.
  intros E1 Hf1 Hc1 E2 Hf2 Hc2 E3. unfold eap_server_sm_step.
  change STEP_FUEL with (S (S (S 61))). generalize 61%nat as fuel. intros fuel.
  rewrite step_loop_next by (by rewrite E1). rewrite E1.
  rewrite step_loop_next by (by rewrite E2). rewrite E2.
  by rewrite step_loop_stop; rewrite E3.
Qed.

Lemma RETRANSMIT_next w :
  normal cfg w -> w.(esm).(EAP_state) = EAP_RETRANSMIT ->
  step w = if w.(esm).(MaxRetrans) <? w.(esm).(retransCount)
           then sm_EAP_TIMEOUT_FAILURE_Enter false w else sm_EAP_IDLE_Enter false w.
Proof. intros Hn Hs. rewrite step_normal by exact Hn. unfold sm_EAP_switch. by rewrite Hs. Qed.

Lemma IDLE_waits w :
  normal cfg w -> w.(esm).(EAP_state) = EAP_IDLE -> w.(esm).(eap_if).(retransWhile) <> 0 ->
  w.(esm).(eap_if).(eapResp) = false -> step w = w.
Proof.
  intros Hn Hs Hr%Z.eqb_neq Hp. rewrite step_normal by exact Hn. unfold sm_EAP_switch.
  by rewrite Hs, Hr, Hp.
Qed.

Lemma TIMEOUT_FAILURE_stays w :
  normal cfg w -> w.(esm).(EAP_state) = EAP_TIMEOUT_FAILURE -> step w = w.
Proof. intros Hn Hs. rewrite step_normal by exact Hn. unfold sm_EAP_switch. by rewrite Hs. Qed.

Lemma normal_keeps w w' :
  w'.(esm).(eap_if).(portEnabled) = w.(esm).(eap_if).(portEnabled) ->
  w'.(esm).(eap_if).(eapRestart) = w.(esm).(eap_if).(eapRestart) ->
  w'.(esm).(num_rounds) = w.(esm).(num_rounds) ->
  w'.(esm).(num_rounds_short) = w.(esm).(num_rounds_short) -> normal cfg w -> normal cfg w'.
Proof. unfold normal, over. by intros -> -> -> ->. Qed.

(** After the wait has run out: the request is sent again. *)
Definition resend w : W :=
  sm_EAP_RETRANSMIT_Enter false (clear_changed (upd_if (fun i => i <| retransWhile := 0 |>) w)).

Record resent (req : bytes) w w1 : Prop := {
  re_state : w1.(esm).(EAP_state) = EAP_RETRANSMIT;
  re_normal : normal cfg w1;
  re_fault : w1.(fault) = None;
  re_resp : w1.(esm).(eap_if).(eapResp) = false;
  re_changed : w1.(esm).(changed) = true;
  re_start : w1.(esm).(try_initiate_reauth) = false;
  re_count : w1.(esm).(retransCount) = 1 + w.(esm).(retransCount);
  re_max : w1.(esm).(MaxRetrans) = w.(esm).(MaxRetrans);
  re_last : w1.(esm).(lastReqData) = Some req;
  re_timeout : w1.(esm).(methodTimeout) = w.(esm).(methodTimeout);
  re_sent : w.(esm).(retransCount) < w.(esm).(MaxRetrans) -> sent_again req w w1 }.

Lemma resend_resent req w : waiting req w -> resent req w (resend w).
Proof.
  intros [Hs Hn Hf Hr Ht Hc Hl]. unfold resend.
  set (w0 := clear_changed _). assert (Hn0 : normal cfg w0) by (by apply (normal_keeps w)).
  pose proof (entered_RETRANSMIT eap_methods cfg w0) as He.
  destruct (RETRANSMIT_effect req w0 Hl) as (Hch & Hcnt & Hmax & Hl' & Hmt & Hst & Hsn).
  split.
  - apply (en_state _ _ _ _ _ He).
  - by eapply entered_normal; [|exact He|exact Hn0].
  - rewrite (en_fault _ _ _ _ _ He). exact Hf.
  - rewrite (en_resp _ _ _ _ _ He). exact Hr.
  - exact Hch.
  - rewrite Hst. exact Ht.
  - exact Hcnt.
  - exact Hmax.
  - exact Hl'.
  - exact Hmt.
  - exact Hsn.
Qed.

Lemma step_resend req w :
  waiting req w ->
  step (clear_changed (upd_if (fun i => i <| retransWhile := 0 |>) w)) = resend w.
Proof.
  intros [Hs Hn Hf Hr Ht Hc Hl]. rewrite step_normal by (by apply (normal_keeps w)).
  unfold sm_EAP_switch, resend, clear_changed. e_simpl. by rewrite Hs, Ht.
Qed.

(** What follows, from where it has been sent again. *)
Definition after_resend w1 : W :=
  clear_changed (if w1.(esm).(MaxRetrans) <? w1.(esm).(retransCount)
                 then sm_EAP_TIMEOUT_FAILURE_Enter false (clear_changed w1)
                 else sm_EAP_IDLE_Enter false (clear_changed w1)).

Lemma after_resend_stays req w w1 :
  resent req w w1 -> step (after_resend w1) = after_resend w1.
Proof.
  intros Hr. unfold after_resend.
  assert (Hn2 : normal cfg (clear_changed w1)) by (apply (normal_keeps w1); [done..|apply Hr]).
  assert (Hr2 : eapResp (eap_if (esm (clear_changed w1))) = false) by apply Hr.
  generalize dependent (clear_changed w1). intros w2 Hn2 Hr2.
  destruct (_ <? _).
  - apply TIMEOUT_FAILURE_stays; [|done]. apply (normal_keeps w2); [done..|exact Hn2].
  - pose proof (en_retr _ _ _ _ _ (entered_IDLE eap_methods cfg false w2) eq_refl) as Hz.
    apply IDLE_waits; [by apply (normal_keeps w2)|done|exact Hz|exact Hr2].
Qed.

Lemma expire_passes req w w1 :
  step (clear_changed (upd_if (fun i => i <| retransWhile := 0 |>) w)) = w1 ->
  resent req w w1 -> expire w = after_resend w1.
Proof.
  intros E1 Hr. unfold expire.
  assert (E2 : step (clear_changed w1) = if MaxRetrans (esm w1) <? retransCount (esm w1)
     then sm_EAP_TIMEOUT_FAILURE_Enter false (clear_changed w1)
     else sm_EAP_IDLE_Enter false (clear_changed w1)).
  { rewrite RETRANSMIT_next; [done|apply (normal_keeps w1); [done..|apply Hr]|apply Hr]. }
  apply (two_passes _ w1); [exact E1|apply Hr|apply Hr|exact E2|..].
  - destruct (_ <? _); apply Hr.
  - by destruct (_ <? _).
  - exact (after_resend_stays req w w1 Hr).
Qed.

Lemma expire_cases req w : waiting req w -> expire w = after_resend (resend w).
Proof.
  intros Hw. exact (expire_passes req w _ (step_resend req w Hw) (resend_resent req w Hw)).
Qed.

(** How long to wait for the response after the [n]-th transmission. *)
Definition patience w (n : Z) : Z :=
  if w.(esm).(methodTimeout) =? 0 then Z.min 20 (3 * 2 ^ n) else w.(esm).(methodTimeout).

Lemma calculateTimeout_spec w :
  w.(esm).(try_initiate_reauth) = false -> 0 <= w.(esm).(retransCount) ->
  eap_sm_calculateTimeout w.(esm) = patience w w.(esm).(retransCount).
Proof.
  intros Ht Hc. unfold eap_sm_calculateTimeout, patience. rewrite Ht.
  destruct (_ =? 0); [|done]. cbn [negb]. rewrite backoff_spec. by rewrite Z2Nat.id.
Qed.

Lemma expire_waits req w :
  waiting req w -> w.(esm).(retransCount) < w.(esm).(MaxRetrans) ->
  let w' := expire w in
  waiting req w' /\ w'.(esm).(retransCount) = 1 + w.(esm).(retransCount) /\
  w'.(esm).(MaxRetrans) = w.(esm).(MaxRetrans) /\
  w'.(esm).(methodTimeout) = w.(esm).(methodTimeout) /\
  w'.(esm).(eap_if).(retransWhile) = patience w w'.(esm).(retransCount) /\ sent_again req w w'.
Proof.
  intros Hw Hlt. cbv zeta. rewrite (expire_cases req w Hw).
  pose proof (resend_resent req w Hw) as Hr. pose proof (wa_count _ _ Hw) as Hc.
  generalize dependent (resend w). intros w1 Hr. unfold after_resend.
  rewrite (re_count _ _ _ Hr), (re_max _ _ _ Hr).
  replace (MaxRetrans (esm w) <? 1 + retransCount (esm w)) with false by lia.
  pose proof (calculateTimeout_spec w1 (re_start _ _ _ Hr)) as Ht.
  rewrite (re_count _ _ _ Hr) in Ht. specialize (Ht ltac:(lia)).
  split_and!; [|apply Hr|apply Hr|apply Hr| |by apply (re_sent _ _ _ Hr)].
  - split; [done|apply (normal_keeps w1); [done..|apply Hr]|apply Hr|apply Hr|apply Hr| |apply Hr].
    change (0 <= retransCount (esm w1) <= MaxRetrans (esm w1)).
    rewrite (re_count _ _ _ Hr), (re_max _ _ _ Hr). lia.
  - change (eap_sm_calculateTimeout (esm w1) = patience w (retransCount (esm w1))).
    rewrite Ht, (re_count _ _ _ Hr). unfold patience. by rewrite (re_timeout _ _ _ Hr).
Qed.

Lemma expire_gives_up req w :
  waiting req w -> w.(esm).(MaxRetrans) <= w.(esm).(retransCount) ->
  let w' := expire w in
  w'.(esm).(EAP_state) = EAP_TIMEOUT_FAILURE /\ w'.(esm).(eap_if).(eapTimeout) = true.
Proof.
  intros Hw Hlt. cbv zeta. rewrite (expire_cases req w Hw).
  pose proof (resend_resent req w Hw) as Hr.
  generalize dependent (resend w). intros w1 Hr. unfold after_resend.
  rewrite (re_count _ _ _ Hr), (re_max _ _ _ Hr).
  by replace (MaxRetrans (esm w) <? 1 + retransCount (esm w)) with true by lia.
Qed.

Lemma expire_all req n w :
  waiting req w -> w.(esm).(retransCount) + Z.of_nat n <= w.(esm).(MaxRetrans) ->
  let w' := Nat.iter n expire w in
  waiting req w' /\ w'.(esm).(retransCount) = w.(esm).(retransCount) + Z.of_nat n /\
  w'.(esm).(MaxRetrans) = w.(esm).(MaxRetrans) /\
  w'.(esm).(methodTimeout) = w.(esm).(methodTimeout).
Proof.
  intros Hw. induction n as [|n IH]; intros Hn; [split_and!; try done; cbn; lia|].
  destruct IH as (Hw1 & Hc & Hm & Ht); [lia|]. cbn [Nat.iter nat_rect].
  change (nat_rect _ _ _ n) with (Nat.iter n expire w).
  generalize dependent (Nat.iter n expire w). intros w1 Hw1 Hc Hm Ht.
  destruct (expire_waits req w1 Hw1) as (Hw2 & Hc2 & Hm2 & Ht2 & _); [lia|].
  cbv zeta in *. split_and!; [done|lia|lia|by rewrite Ht2].
Qed.

(** ** Unexpected responses *)

(** A response of type [meth], legacy or expanded, to the request [id]. *)
Definition type_is (meth : Z) (resp : bytes) : bool :=
  (get resp 4 =? meth) ||
  ((get resp 4 =? EAP_TYPE_EXPANDED) && (12 <=? WPA_GET_BE16 (drop 2 resp)) &&
   (WPA_GET_BE24 (drop 5 resp) =? EAP_VENDOR_IETF) && (WPA_GET_BE32 (drop 8 resp) =? meth)).
Definition answers (id meth : Z) (resp : bytes) : bool :=
  (4 <=? length resp)%nat && (Z.to_nat (WPA_GET_BE16 (drop 2 resp)) <=? length resp)%nat &&
  (get resp 0 =? EAP_CODE_RESPONSE) && (get resp 1 =? id) &&
  (4 <? WPA_GET_BE16 (drop 2 resp)) && type_is meth resp.
(** An answer to the outstanding request: of the method's type, or a Nak of
    the method that was proposed. *)
Definition expected (sm : eap_sm (method_priv := method_priv)) (resp : bytes) : bool :=
  answers sm.(currentId) sm.(currentMethod) resp ||
  (answers sm.(currentId) EAP_TYPE_NAK resp && (sm.(methodState) == METHOD_PROPOSED)).

Lemma get_drop n i (l : bytes) : get (drop n l) i = get l (n + i).
Proof. unfold get. by rewrite !nth_lookup, lookup_drop. Qed.

Lemma parse_answers resp (sm : eap_sm (method_priv := method_priv)) id meth :
  meth <> EAP_TYPE_NONE ->
  let sm' := eap_sm_parseEapResp (Some resp) sm in
  sm'.(rxResp) && (sm'.(respId) =? id) && resp_is sm' meth = answers id meth resp.
Proof.
  intros Hm. cbv zeta. unfold eap_sm_parseEapResp, answers, EAP_HDR_SIZE.
  set (len := WPA_GET_BE16 (drop 2 resp)).
  destruct (Nat.ltb_spec (length resp) 4); destruct (Nat.leb_spec 4 (length resp)); try lia; [done|].
  destruct (Nat.ltb_spec (length resp) (Z.to_nat len));
    destruct (Nat.leb_spec (Z.to_nat len) (length resp)); try lia; [done|].
  cbn [andb]. unfold type_is. fold len. rewrite !drop_drop, get_drop. cbn [Nat.add].
  assert (Hnone : (EAP_TYPE_NONE =? meth) = false) by (apply Z.eqb_neq; congruence).
  assert (Hlen : (12 <=? len) = negb (Z.to_nat len <? 12)%nat) by
    (destruct (Z.leb_spec 12 len), (Nat.ltb_spec (Z.to_nat len) 12); [lia|done|done|lia]).
  assert (Hlt : (4 <? len) = (4 <? Z.to_nat len)%nat) by
    (destruct (Z.ltb_spec 4 len), (Nat.ltb_spec 4 (Z.to_nat len)); [done|lia|lia|done]).
  rewrite Hlen, Hlt. clear Hlen Hlt.
  destruct (4 <? Z.to_nat len)%nat, (get resp 0 =? EAP_CODE_RESPONSE),
    (get resp 0 =? EAP_CODE_INITIATE); e_simpl; unfold resp_is; e_simpl; cbn [andb];
    rewrite ?Hnone, ?andb_false_r; try done.
  all: change (4 + 8)%nat with 12%nat.
  all: destruct (get resp 4 =? EAP_TYPE_EXPANDED) eqn:Et; e_simpl; rewrite ?Et;
    destruct (Z.to_nat len <? 12)%nat; e_simpl; rewrite ?Hnone, ?Et; cbn [negb andb]; try done.
  all: by rewrite ?andb_false_r, ?andb_true_r, ?orb_false_r.
Qed.

(** What the server keeps when it discards a response: everything but the
    description of the last packet, the counters of rounds and the interface. *)
Definition kept_part (sm : eap_sm (method_priv := method_priv)) : eap_sm :=
  sm <| EAP_state := EAP_DISABLED |> <| eap_if := zero_eap_if |> <| changed := false |>
     <| rxResp := false |> <| rxInitiate := false |> <| respId := 0 |> <| respMethod := 0 |>
     <| respVendor := 0 |> <| respVendorMethod := 0 |> <| num_rounds := 0 |>
     <| num_rounds_short := 0 |>.

Lemma kept_parse resp (sm : eap_sm (method_priv := method_priv)) :
  kept_part (eap_sm_parseEapResp resp sm) = kept_part sm.
Proof.
  unfold eap_sm_parseEapResp. destruct resp as [hdr|]; [|done].
  repeat match goal with |- context [if ?b then _ else _] => destruct b end; done.
Qed.

(** The run does not exceed the limits on rounds by one more response. *)
Definition rounds_left w : Prop :=
  0 <= w.(esm).(num_rounds) < cfg.(max_auth_rounds) /\ cfg.(max_auth_rounds) < 2 ^ 32 /\
  0 <= w.(esm).(num_rounds_short) < cfg.(max_auth_rounds_short) /\
  cfg.(max_auth_rounds_short) < 2 ^ 32.

Record received (resp : bytes) w w1 : Prop := {
  rc_state : w1.(esm).(EAP_state) = EAP_RECEIVED;
  rc_normal : normal cfg w1;
  rc_fault : w1.(fault) = w.(fault);
  rc_changed : w1.(esm).(changed) = true;
  rc_kept : kept_part w1.(esm) = kept_part w.(esm);
  rc_if : w1.(esm).(eap_if) = w.(esm).(eap_if);
  rc_answers id meth : meth <> EAP_TYPE_NONE ->
    w1.(esm).(rxResp) && (w1.(esm).(respId) =? id) && resp_is w1.(esm) meth =
    answers id meth resp }.

Lemma receive_received resp w :
  normal cfg w -> rounds_left w -> w.(esm).(eap_if).(eapRespData) = Some resp ->
  received resp w (sm_EAP_RECEIVED_Enter false w).
Proof.
  intros (Hp & Hre & _) (H1 & H2 & H3 & H4) Hr.
  set (w1 := sm_EAP_RECEIVED_Enter false w).
  assert (E : exists n, w1.(esm) =
            (eap_sm_parseEapResp (Some resp) (esm (EAP_entry false EAP_RECEIVED w)))
              <| num_rounds := u32 (num_rounds (esm w) + 1) |> <| num_rounds_short := n |> /\
              (n = 0 \/ n = u32 (num_rounds_short (esm w) + 1)) /\ w1.(fault) = w.(fault)).
  { pose proof (parse_keeps (Some resp) (esm (EAP_entry false EAP_RECEIVED w)))
      as (_ & (E1 & E2 & _) & _).
    change (num_rounds (esm (EAP_entry false EAP_RECEIVED w))) with (num_rounds (esm w)) in E1.
    change (num_rounds_short (esm (EAP_entry false EAP_RECEIVED w)))
      with (num_rounds_short (esm w)) in E2.
    rewrite <- E1, <- E2. unfold w1, sm_EAP_RECEIVED_Enter. cbv zeta.
    change (eapRespData (eap_if (esm (EAP_entry false EAP_RECEIVED w))))
      with (eapRespData (eap_if (esm w))). rewrite Hr.
    destruct (is_short _);
      (eexists; split; [reflexivity|split; [|reflexivity] ]); [by right|by left]. }
  destruct E as (n & E & Hn & Hf). clearbody w1.
  set (sm0 := esm (EAP_entry false EAP_RECEIVED w)) in *.
  pose proof (parse_keeps (Some resp) sm0) as ((P1 & P2 & _) & _).
  pose proof (kept_parse (Some resp) sm0) as Pk.
  pose proof (fun id meth Hm => parse_answers resp sm0 id meth Hm) as Pa.
  assert (Pc : changed (eap_sm_parseEapResp (Some resp) sm0) = true).
  { unfold eap_sm_parseEapResp.
    by repeat match goal with |- context [if ?b then _ else _] => destruct b end. }
  split.
  - rewrite E. exact P1.
  - unfold normal, over. rewrite E. e_simpl. rewrite P2. split; [exact Hp|]. split; [exact Hre|].
    rewrite u32_id in Hn |- * by (unfold is_u32; lia). apply orb_false_iff.
    rewrite !Z.ltb_ge. lia.
  - exact Hf.
  - rewrite E. exact Pc.
  - rewrite E. exact Pk.
  - rewrite E. exact P2.
  - intros id meth Hm. rewrite E. exact (Pa id meth Hm).
Qed.

Lemma RECEIVED_discards w :
  normal cfg w -> w.(esm).(EAP_state) = EAP_RECEIVED ->
  w.(esm).(rxResp) && (w.(esm).(respId) =? w.(esm).(currentId)) && resp_is w.(esm) EAP_TYPE_NAK &&
    (w.(esm).(methodState) == METHOD_PROPOSED) = false ->
  w.(esm).(rxResp) && (w.(esm).(respId) =? w.(esm).(currentId)) &&
    resp_is w.(esm) w.(esm).(currentMethod) = false ->
  step w = sm_EAP_DISCARD_Enter false w.
Proof.
  intros Hn Hs H1 H2. rewrite step_normal by exact Hn. unfold sm_EAP_switch. by rewrite Hs, H1, H2.
Qed.

Lemma receive_unexpected resp w w1 :
  received resp w w1 -> w.(esm).(currentMethod) <> EAP_TYPE_NONE ->
  expected w.(esm) resp = false ->
  step (clear_changed w1) = sm_EAP_DISCARD_Enter false (clear_changed w1).
Proof.
  intros Hr Hm He. pose proof (rc_kept _ _ _ Hr) as Hk. unfold expected in He.
  assert (Ei : currentId (esm w1) = currentId (esm w)) by exact (f_equal currentId Hk).
  assert (Em : currentMethod (esm w1) = currentMethod (esm w)) by exact (f_equal currentMethod Hk).
  assert (Es : methodState (esm w1) = methodState (esm w)) by exact (f_equal methodState Hk).
  rewrite <- Ei, <- Es in He. rewrite <- Em in He, Hm.
  rewrite <- (rc_answers _ _ _ Hr _ _ Hm), <- (rc_answers _ _ _ Hr _ EAP_TYPE_NAK) in He by done.
  apply orb_false_iff in He as [He1 He2].
  apply RECEIVED_discards; [apply (normal_keeps w1); [done..|apply Hr]|apply Hr|exact He2|exact He1].
Qed.

(** The run that discards a response. *)
Lemma discard_run resp w w1 :
  step (clear_changed w) = w1 -> received resp w w1 -> w.(fault) = None ->
  w.(esm).(currentMethod) <> EAP_TYPE_NONE -> expected w.(esm) resp = false ->
  (eap_server_sm_step eap_methods cfg eapol_cb w).2 =
  clear_changed (sm_EAP_IDLE_Enter false (clear_changed
    (sm_EAP_DISCARD_Enter false (clear_changed w1)))).
Proof.
  intros E1 Hr Hf Hm He. pose proof (receive_unexpected resp w w1 Hr Hm He) as E2.
  set (w2 := sm_EAP_DISCARD_Enter false (clear_changed w1)) in *.
  assert (H2 : normal cfg w2 /\ w2.(fault) = None /\ w2.(esm).(changed) = true /\
               w2.(esm).(EAP_state) = EAP_DISCARD /\ w2.(esm).(eap_if).(eapResp) = false).
  { split; [apply (normal_keeps w1); [done..|apply Hr]|split; [|done] ].
    change (fault w1 = None). by rewrite (rc_fault _ _ _ Hr). }
  clearbody w2. destruct H2 as (Hn2 & Hf2 & Hc2 & Hs2 & Hr2).
  assert (E3 : step (clear_changed w2) = sm_EAP_IDLE_Enter false (clear_changed w2)).
  { rewrite step_normal by (by apply (normal_keeps w2)). unfold sm_EAP_switch.
    change (EAP_state (esm (clear_changed w2))) with (EAP_state (esm w2)). by rewrite Hs2. }
  pose proof (entered_IDLE eap_methods cfg false (clear_changed w2)) as Hi.
  set (w3 := sm_EAP_IDLE_Enter false (clear_changed w2)) in *.
  assert (H3 : normal cfg w3 /\ w3.(fault) = None /\ w3.(esm).(changed) = true /\
               w3.(esm).(EAP_state) = EAP_IDLE /\ w3.(esm).(eap_if).(eapResp) = false).
  { split; [by apply (normal_keeps w2)|done]. }
  pose proof (en_retr _ _ _ _ _ Hi eq_refl) as Hz. clear Hi. clearbody w3.
  destruct H3 as (Hn3 & Hf3 & Hc3 & Hs3 & Hr3).
  assert (E4 : step (clear_changed w3) = clear_changed w3).
  { apply IDLE_waits; [by apply (normal_keeps w3)|done..]. }
  unfold eap_server_sm_step. change STEP_FUEL with (S (S (S (S 60)))).
  generalize 60%nat as fuel. intros fuel.
  rewrite step_loop_next by (rewrite E1; first [by rewrite (rc_fault _ _ _ Hr)|apply (rc_changed _ _ _ Hr)]).
  rewrite E1, step_loop_next by (by rewrite E2). rewrite E2, step_loop_next by (by rewrite E3).
  rewrite E3. by rewrite step_loop_stop; rewrite E4.
Qed.

Lemma IDLE_receives w :
  normal cfg w -> w.(esm).(EAP_state) = EAP_IDLE -> w.(esm).(eap_if).(retransWhile) <> 0 ->
  w.(esm).(eap_if).(eapResp) = true -> step w = sm_EAP_RECEIVED_Enter false w.
Proof.
  intros Hn Hs Hr%Z.eqb_neq Hp. rewrite step_normal by exact Hn. unfold sm_EAP_switch.
  by rewrite Hs, Hr, Hp.
Qed.

Lemma received_clear resp w w1 : received resp (clear_changed w) w1 -> received resp w w1.
Proof. intros []. by split. Qed.

Definition dropped w w' : Prop :=
  w'.(esm).(EAP_state) = EAP_IDLE /\ w'.(esm).(eap_if).(eapResp) = false /\
  w'.(esm).(eap_if).(eapNoReq) = true /\ w'.(fault) = None /\
  kept_part w'.(esm) = kept_part w.(esm).

Lemma drop_dropped w w1 :
  kept_part w1.(esm) = kept_part w.(esm) -> w1.(fault) = None ->
  dropped w (clear_changed (sm_EAP_IDLE_Enter false (clear_changed
    (sm_EAP_DISCARD_Enter false (clear_changed w1))))).
Proof. intros Hk Hf. unfold dropped. rewrite <- Hk. split_and!; [done..|exact Hf|done]. Qed.

(** An iteration of [PROPOSE_METHOD]'s loop that gets no Identity method. *)
Lemma try_identity_again md i fuel w :
  method_wf eap_methods w -> w.(esm).(identity) = None ->
  eap_server_get_eap_method eap_methods EAP_VENDOR_IETF EAP_TYPE_IDENTITY = Some i ->
  eap_methods !! i = Some md -> (forall w, (md.(init) w).1 = None) ->
  (forall w, method_wf eap_methods w -> w.(esm).(identity) = None ->
     (try_another_method eap_methods fuel w).(fault) = Some OutOfFuel) ->
  (try_another_method eap_methods (S fuel) w).(fault) = Some OutOfFuel.
Proof using ML cfg.
  intros Hw Hid Hg Hl Hinit IH. cbn [try_another_method]. cbv zeta.
  unfold eap_sm_Policy_getNextMethod. cbv zeta. rewrite Hid, bool_decide_eq_true_2 by done.
  cbn [orb]. rewrite Z.eqb_refl.
  set (w2 := upd _ (set esm _ w)).
  assert (Hw2 : method_wf eap_methods w2) by exact Hw.
  assert (Hid2 : w2.(esm).(identity) = None) by exact Hid. clearbody w2.
  destruct (calm_reset eap_methods cfg w2 Hw2) as (_ & (Hri & _) & _ & _ & Hp & Hi).
  generalize dependent (reset_method eap_methods w2). intros w3 Hri Hp Hi. rewrite Hg.
  set (w4 := upd _ w3).
  assert (Hm : sel eap_methods (esm w4) = Some md) by exact Hl. rewrite Hm.
  destruct (law_init md (sel_laws _ _ _ Hm) w4) as [Hf Hk]. specialize (Hinit w4).
  pose proof (fr_index _ _ Hf Hi) as Hi5.
  destruct (init md w4) as [p w5]. cbn [fst snd] in *. subst p.
  rewrite bool_decide_eq_true_2 by done. apply IH.
  - split; [exact Hi5|by right].
  - destruct (Hk eq_refl) as [E _]. e_simpl. rewrite E. unfold w4. e_simpl. by rewrite Hri.
Qed.
End props.

(** ** Nak *)

(** The methods of a list that ends at the first [NONE_METHOD]. *)
Fixpoint live (ms : list (Z * Z)) : list (Z * Z) :=
  match ms with
  | [] => []
  | md :: ms => if is_method md then md :: live ms else []
  end.
(** The methods still to be proposed from index [i] on. *)
Definition live_from (i : nat) (ms : list (Z * Z)) : list (Z * Z) := live (drop i ms).
(** The peer's Nak names the method. *)
Definition wanted (nak_list : bytes) (md : Z * Z) : bool :=
  (md.1 =? EAP_VENDOR_IETF) && existsb (fun n => n =? md.2) nak_list.

Lemma live_app_none ms : live (ms ++ [NONE_METHOD]) = live ms.
Proof. induction ms as [|md ms IH]; [done|]. cbn. by rewrite IH. Qed.

Lemma remove_method_spec i ms :
  length ms = 8%nat -> (i < 8)%nat ->
  remove_method i ms = take i ms ++ drop (S i) ms ++ [NONE_METHOD].
Proof.
  intros Hl Hi. do 9 (destruct ms as [|? ms]; try discriminate Hl). clear Hl.
  do 8 (destruct i as [|i]; [reflexivity|]). lia.
Qed.

Lemma live_from_cases i ms :
  length ms = 8%nat -> (i < 8)%nat ->
  live_from i ms = if is_method (nth i ms NONE_METHOD)
                   then nth i ms NONE_METHOD :: live_from (S i) ms else [].
Proof.
  intros Hl Hi. unfold live_from.
  do 9 (destruct ms as [|? ms]; try discriminate Hl). clear Hl.
  do 8 (destruct i as [|i]; [reflexivity|]). lia.
Qed.

Lemma nth_take_eq (i j : nat) (l l' : list (Z * Z)) d :
  take j l = take j l' -> (i < j)%nat -> nth i l d = nth i l' d.
Proof.
  revert i l l'. induction j as [|j IH]; intros i l l' E Hi; [lia|].
  destruct l as [|x l], l' as [|x' l']; cbn in E; try done.
  injection E as -> E. destruct i as [|i]; [done|]. cbn [nth]. apply IH; [done|lia].
Qed.

Lemma length_live ms : (length (live ms) <= length ms)%nat.
Proof. induction ms as [|md ms IH]; [done|]. cbn. destruct (is_method md); cbn; lia. Qed.

Lemma live_from_removed i ms :
  length ms = 8%nat -> (i < 8)%nat ->
  let ms1 := remove_method i ms in
  length ms1 = 8%nat /\ take i ms1 = take i ms /\ live_from i ms1 = live_from (S i) ms.
Proof.
  intros Hl Hi. cbv zeta. rewrite (remove_method_spec i ms Hl Hi). split_and!.
  - rewrite !length_app, length_take, length_drop. cbn. lia.
  - rewrite take_app_le by (rewrite length_take; lia). by rewrite take_take, Nat.min_id.
  - unfold live_from. rewrite drop_app_le by (rewrite length_take; lia).
    rewrite (drop_ge (take i ms)) by (rewrite length_take; lia). apply live_app_none.
Qed.

Lemma nak_loop_spec fuel nl i ms :
  length ms = 8%nat -> (length (live_from i ms) <= fuel)%nat ->
  let ms' := nak_loop fuel nl i ms in
  length ms' = 8%nat /\ take i ms' = take i ms /\
  live_from i ms' = List.filter (wanted nl) (live_from i ms).
Proof.
  revert i ms. induction fuel as [|fuel IH]; intros i ms Hl Hf; cbv zeta; cbn [nak_loop].
  { split_and!; [done|done|]. by destruct (live_from i ms); [|cbn in Hf; lia]. }
  destruct (Nat.ltb_spec i 8) as [Hi|Hi]; cbn [andb].
  2: { split_and!; [done|done|]. unfold live_from. by rewrite drop_ge by lia. }
  rewrite (live_from_cases i ms Hl Hi) in Hf |- *.
  destruct (is_method (nth i ms NONE_METHOD)) eqn:Hm.
  2: { split_and!; [done|done|]. by rewrite (live_from_cases i ms Hl Hi), Hm. }
  fold (wanted nl (nth i ms NONE_METHOD)). cbn [List.filter]. cbn [length] in Hf.
  replace (i + 1)%nat with (S i) by lia.
  destruct (wanted nl (nth i ms NONE_METHOD)).
  - destruct (IH (S i) ms Hl ltac:(lia)) as (Hl' & Ht & Hv).
    set (ms' := nak_loop fuel nl (S i) ms) in *.
    split_and!; [done| |].
    + apply (f_equal (take i)) in Ht. by rewrite !take_take, Nat.min_l in Ht by lia.
    + rewrite (live_from_cases i ms' Hl' Hi), (nth_take_eq i (S i) ms' ms _ Ht ltac:(lia)), Hm.
      by rewrite Hv.
  - destruct (live_from_removed i ms Hl Hi) as (Hl1 & Ht1 & Hv1).
    destruct (IH i (remove_method i ms) Hl1) as (Hl' & Ht & Hv); [rewrite Hv1; lia|].
    by rewrite Hl', Ht, Ht1, Hv, Hv1.
Qed.
