(* ===== verification/EapServerTheorems.v ===== *)
(** * The EAP server: theorems

    The properties of the server for all methods that keep their contract, all
    configurations and all input, each with a run of hostap's Identity and MD5
    methods on which it is not vacuous; and three situations the code does not
    handle. *)

From S2P Require Import Prelude Bytes EapolState EapServer EapServerProofs EapServerRun.
From S2P Require Import EapMethods EapServerProps.
From S2P Require Md5.

#[local] Open Scope string_scope.
#[local] Open Scope Z_scope.
#[local] Opaque try_another_method.

(** ** What happens to a server *)

(** The calls of [eap_server/eap.h], and the fields of [struct
    eap_eapol_interface], which the layer below may write in any way. *)
Inductive server_input :=
| si_step
| si_interface (i : eap_eapol_interface)
| si_pending_cb
| si_notify_cached
| si_clear_identity.

Section theorems.
Context `{Env} {method_priv : Type}.
Context (eap_methods : list (eap_method (method_priv := method_priv))).
Context (cfg : eap_config) (eapol_cb : eapol_callbacks).
Context `{ML : !EapMethodsLaws eap_methods} {CO : unsigned_config cfg}.
Abbreviation W := (eap_world (method_priv := method_priv)).
Implicit Types w : W.

Definition server_input_step (i : server_input) (w : W) : W :=
  match i with
  | si_step => (eap_server_sm_step eap_methods cfg eapol_cb w).2
  | si_interface i => upd (fun sm => sm <| eap_if := i |>) w
  | si_pending_cb => upd eap_sm_pending_cb w
  | si_notify_cached => upd eap_sm_notify_cached w
  | si_clear_identity => eap_server_clear_identity w
  end.
Definition server_run (w : W) (inputs : list server_input) : W :=
  foldl (fun w i => server_input_step i w) w inputs.

(** A new server. *)
Definition new_server wps p2p addr st (w : W) : Prop :=
  exists sm st', eap_server_sm_init wps p2p addr st = (Some sm, st') /\
                 w = mk_eap_world sm [] st' None.

(** It is in [EAP_DISABLED], without a method. *)
Lemma new_server_sm wps p2p addr st w :
  new_server wps p2p addr st w ->
  w.(fault) = None /\ w.(esm).(EAP_state) = EAP_DISABLED /\ w.(esm).(m) = None /\
  w.(esm).(eap_method_priv) = None /\ w.(esm).(user_eap_method_index) = 0.
Proof.
  intros (sm & st' & Hi & ->). unfold eap_server_sm_init in Hi.
  destruct (alloc _ st) as [ok st1]. destruct (negb ok); [done|].
  assert (Hw : forall (o : option bytes) (w : W),
    (match o with None => (None, w) | Some d => wpabuf_dup d w end).2.(esm) = w.(esm)).
  { intros [d|] w; [|done]. unfold wpabuf_dup, wpabuf_new, try_alloc.
    by destruct (alloc _ _) as [ [] ?]. }
  set (w1 := mk_eap_world _ [] st1 None) in Hi.
  pose proof (Hw wps w1) as H2. destruct (match wps with None => _ | Some d => _ end) as [b1 w2].
  pose proof (Hw p2p w2) as H3. destruct (match p2p with None => _ | Some d => _ end) as [b2 w3].
  cbn [snd] in H2, H3. injection Hi as <- <-. by rewrite H3, H2.
Qed.

Lemma new_server_inv wps p2p addr st w :
  new_server wps p2p addr st w ->
  inv eap_methods cfg w /\ w.(fault) = None /\ decided eap_methods w /\ local w /\
  typed eap_methods w.
Proof.
  intros (Hf & Hs & Hm & Hp & Hx)%new_server_sm. split_and!; [|done|..].
  - split; [split; [by rewrite Hx|by right]|]. unfold state_inv. by rewrite Hs.
  - intros Hs'. congruence.
  - unfold local, passes_through. rewrite Hs. by intros [?|[? _] ].
  - intros md. unfold sel. by rewrite Hm.
Qed.

(** What holds between two calls. *)
Definition between w : Prop :=
  inv eap_methods cfg w /\ w.(fault) = None /\ decided eap_methods w /\ typed eap_methods w.

Lemma server_run_between wps p2p addr st w inputs :
  identity_starts eap_methods -> get_erp_start eapol_cb = false ->
  new_server wps p2p addr st w -> between (server_run w inputs).
Proof using ML CO.
  intros Hid Hre Hw.
  assert (H0 : between w) by (destruct (new_server_inv _ _ _ _ _ Hw) as (? & ? & ? & _ & ?); done).
  clear Hw. revert w H0. induction inputs as [|i inputs IH]; intros w (Hi & Hf & Hd & Ht); [done|].
  apply IH. destruct i; cbn [server_input_step].
  - destruct (step_ends eap_methods cfg eapol_cb Hid Hre w Hi Hf) as (? & ? & _).
    split; [done|]. split; [done|]. split; [by apply run_decided|by apply run_typed].
  - split; [exact Hi|]. split; [done|]. split; [by apply (decided_keeps _ w)|exact Ht].
  - destruct Hi as [Hw Hs]. unfold eap_sm_pending_cb. split; [|split; [done|split] ].
    + unfold inv, method_wf, state_inv, has_method, sel in *. e_simpl.
      by destruct (_ == METHOD_PENDING_WAIT).
    + by apply (decided_keeps _ w); try done; e_simpl; destruct (_ == METHOD_PENDING_WAIT).
    + unfold typed, sel in *. e_simpl. by destruct (_ == METHOD_PENDING_WAIT).
  - split; [split; [apply Hi|exact I]|split; [done|split; [|exact Ht] ] ]. intros Hs. discriminate Hs.
  - split; [exact Hi|]. split; [done|]. split; [by apply (decided_keeps _ w)|exact Ht].
Qed.

(** ** Runs *)


(** C2: the server reports success only when a method other than Identity has
    succeeded, or when it was waiting for the AAA server and that accepted. *)
Theorem success_needs_method wps p2p addr st w inputs :
  identity_starts eap_methods -> get_erp_start eapol_cb = false ->
  new_server wps p2p addr st w ->
  let w0 := server_run w inputs in
  let w1 := (eap_server_sm_step eap_methods cfg eapol_cb w0).2 in
  w0.(esm).(eap_if).(eapSuccess) = false -> w1.(esm).(eap_if).(eapSuccess) = true ->
  w1.(esm).(EAP_state) = EAP_SUCCESS /\
  (exists md p, md ∈ eap_methods /\ type_of md <> EAP_TYPE_IDENTITY /\
    sel eap_methods w1.(esm) = Some md /\ w1.(esm).(eap_method_priv) = Some p /\
    md.(isSuccess) p w1 = true) \/
  w1.(esm).(EAP_state) = EAP_SUCCESS2 /\
    w0.(esm).(EAP_state) = EAP_AAA_IDLE /\ w0.(esm).(eap_if).(aaaSuccess) = true.
Proof using ML CO.
  intros Hid Hre Hw w0 w1 Hf Ht.
  destruct (server_run_between _ _ _ _ _ inputs Hid Hre Hw) as (Hi & _ & Hd & Hty).
  destruct (run_sound eap_methods cfg eapol_cb Hid Hre w0 Hi Hd Hf) as [Hs _].
  pose proof (run_typed eap_methods cfg eapol_cb Hid Hre w0 Hi Hty) as Hty1.
  fold w0 w1 in Hs, Hty1. rewrite Ht in Hs. destruct Hs as [_ [ [Hs Hm]|Hs] ]; [left|by right].
  split; [done|]. by apply succeeded_method.
Qed.

(** ** Lost and unexpected packets *)



(** ** Nak *)

(** A Nak leaves, of the methods still to be proposed, exactly those the
    peer named, in their order. *)
Theorem nak_narrows nak_list (sm : eap_sm (method_priv := method_priv)) u :
  sm.(user) = Some u -> length u.(methods) = 8%nat ->
  let i := Z.to_nat sm.(user_eap_method_index) in
  exists ms, eap_sm_process_nak nak_list sm = sm <| user := Some (u <| methods := ms |>) |> /\
    length ms = 8%nat /\ take i ms = take i u.(methods) /\
    live_from i ms = List.filter (wanted nak_list) (live_from i u.(methods)).
Proof using.
  intros Hu Hl i. unfold eap_sm_process_nak. rewrite Hu. eexists. split; [reflexivity|].
  apply nak_loop_spec; [done|]. unfold live_from. etrans; [apply length_live|].
  rewrite length_drop, Hl. change (Z.to_nat EAP_MAX_METHODS) with 8%nat. lia.
Qed.

(** ** What the code does not handle *)

(** While a method that is being proposed waits for a result, every call of
    [eap_server_sm_step] takes one off the index of the next method, not only
    the first: after a few calls the server starts over with methods that it has
    already tried. *)
Theorem pending_wait_rewinds w :
  normal cfg w -> w.(esm).(EAP_state) = EAP_PROPOSE_METHOD ->
  w.(esm).(method_pending) = METHOD_PENDING_WAIT -> 0 < w.(esm).(user_eap_method_index) ->
  let w' := (eap_server_sm_step eap_methods cfg eapol_cb w).2 in
  w'.(esm).(user_eap_method_index) = w.(esm).(user_eap_method_index) - 1 /\
  w'.(esm).(EAP_state) = EAP_PROPOSE_METHOD /\
  w'.(esm).(method_pending) = METHOD_PENDING_WAIT.
Proof using.
  intros Hn Hs Hp Hi. cbv zeta.
  set (w1 := upd (fun sm => sm <| user_eap_method_index ::= Z.add (-1) |>) (clear_changed w)).
  assert (E : sm_EAP_Step eap_methods cfg eapol_cb (clear_changed w) = w1).
  { rewrite step_normal by (by apply (normal_keeps cfg w)). unfold sm_EAP_switch, clear_changed.
    e_simpl. rewrite Hs, Hp. apply Z.ltb_lt in Hi. by rewrite Hi. }
  assert (E1 : (eap_server_sm_step eap_methods cfg eapol_cb w).2 = w1).
  { unfold eap_server_sm_step. change STEP_FUEL with (S 63). generalize 63%nat as fuel.
    intros fuel. by rewrite step_loop_stop; rewrite E. }
  rewrite E1. unfold w1, clear_changed. e_simpl. split; [lia|done].
Qed.

(** When there is no memory for the Identity method, the loop of
    [PROPOSE_METHOD] asks for it again and again: no number of iterations ends
    it. *)
Theorem identity_without_memory fuel w md :
  method_wf eap_methods w -> w.(esm).(identity) = None ->
  (exists i, eap_server_get_eap_method eap_methods EAP_VENDOR_IETF EAP_TYPE_IDENTITY = Some i /\
             eap_methods !! i = Some md) ->
  (forall w, (md.(init) w).1 = None) ->
  (try_another_method eap_methods fuel w).(fault) = Some OutOfFuel.
Proof using ML cfg.
  intros Hw Hid (i & Hg & Hl) Hinit. revert w Hw Hid.
  induction fuel as [|fuel IH]; intros w Hw Hid; [done|].
  apply (try_identity_again eap_methods cfg md i fuel w); done.
Qed.
End theorems.

(** ** EAP-MD5 with hostap's own MD5 *)

Definition internal_md5 (stack : Md5.MD5Context) : Md5 := Md5.md5_vector stack.

(** C24: linked with hostap's own MD5, EAP-MD5 ends in success for the response
    that holds MD5(identifier, password, challenge), and in failure for every
    other valid response. *)
Theorem md5_answer_decides `{Env} stack challenge st resp pos len u pw
    (w : eap_world (method_priv := method_data)) :
  length (Md5.in_ stack) = 64%nat ->
  w.(esm).(user) = Some u -> u.(password) = Some pw -> u.(password_hash) = 0 ->
  eap_hdr_validate EAP_VENDOR_IETF EAP_TYPE_MD5 (Some resp) = Some (pos, len) ->
  get pos 0 = Z.of_nat CHAP_MD5_LEN -> (1 + CHAP_MD5_LEN <= len)%nat ->
  Z.of_nat (length pw) < 2 ^ 32 -> Z.of_nat (length challenge) < 2 ^ 32 ->
  let answer := Md5.md5 ([eap_get_id resp] ++ take (Z.to_nat u.(password_len)) pw ++ challenge) in
  eap_md5_process (H0 := internal_md5 stack) (eap_md5_data challenge st) resp w
  = (eap_md5_data challenge
       (if bool_decide (take CHAP_MD5_LEN (drop 1 pos) = answer) then SUCCESS else FAILURE), w).
Proof.
  intros Hs Hu Hpw Hh Hv Hp Hl Hpl Hcl. cbv zeta. unfold eap_md5_process.
  rewrite Hu, Hpw, Hh, Hv, Hp. cbn [Z.eqb negb]. rewrite Z.eqb_refl. cbn [negb orb].
  destruct (Nat.ltb_spec len (1 + CHAP_MD5_LEN)); [lia|].
  unfold chap_md5, md5_vector, internal_md5. rewrite Md5.md5_vector_holds; [|done|].
  - cbn [concat]. rewrite app_nil_r, app_assoc, <- app_assoc.
    rewrite (take_ge (Md5.md5 _)) by (rewrite Md5.length_md5; done).
    case_bool_decide as E1; case_bool_decide as E2; congruence.
  - repeat apply Forall_cons_2; [done| |done|constructor].
    rewrite length_take. lia.
Qed.

(** ** Witnesses *)

(** An allocator that never fails, and random numbers that count up. *)
#[export] Instance ToyEnv : Env := {|
  sizeof_eap_sm := 1000; sizeof_eap_user := 200; env_st := Z;
  alloc _ st := (true, st);
  rand st := (st, st + 1);
  random_get_bytes n st := (Some (replicate n (u8 st)), st + 1) |}.
#[export] Instance toy_md5_fn : Md5 :=
  internal_md5 {| Md5.buf := []; Md5.bits0 := 0; Md5.bits1 := 0; Md5.in_ := replicate 64 0 |}.

(** One user, [a], with EAP-MD5 and the password [1; 2; 3]. *)
Definition toy_user : eap_user :=
  mk_user ([(0, EAP_TYPE_MD5)] ++ replicate 7 NONE_METHOD) (Some [1; 2; 3]) 3 0 0 0.
Definition toy_cb (reauth_start : bool) : eapol_callbacks :=
  mk_eapol_cb (Some (fun name _ => (bool_decide (name = [97]), toy_user))) (Some (Some []))
    (Some reauth_start) None.
Definition toy_cfg : eap_config := mk_eap_config false true 100 50.
#[export] Instance toy_cfg_unsigned : unsigned_config toy_cfg.
Proof. split; vm_compute; discriminate. Qed.
Abbreviation ToyW := (eap_world (method_priv := method_data)).
Abbreviation toy_methods := (registered_methods (toy_cb false)).
Abbreviation toy_run := (server_run toy_methods toy_cfg (toy_cb false)).

Definition toy_seed : @env_st ToyEnv := 7.
Definition toy_new : ToyW :=
  mk_eap_world (zero_eap_sm <| MaxRetrans := 5 |> <| peer_addr := [2; 0; 0; 0; 0; 1] |>) [] toy_seed None.
Lemma toy_new_server : new_server None None (Some [2; 0; 0; 0; 0; 1]) toy_seed toy_new.
Proof. by do 2 eexists. Qed.

Lemma toy_identity_starts b : identity_starts (registered_methods (toy_cb b)).
Proof.
  intros md w Hin _ Hm. rewrite registered in Hin.
  apply elem_of_cons in Hin as [-> |Hin]; [by eexists|].
  apply list_elem_of_singleton in Hin as ->. discriminate Hm.
Qed.

(** The lower layer starts the server, and hands over a response. *)
Definition toy_start : list server_input :=
  [si_interface (zero_eap_if <| portEnabled := true |> <| eapRestart := true |>); si_step].
Definition toy_answer (resp : bytes) : list server_input :=
  [si_interface (zero_eap_if <| portEnabled := true |> <| retransWhile := 3 |>
                   <| eapResp := true |> <| eapRespData := Some resp |>)].
Definition toy_identity : bytes := [2; 7; 0; 6; 1; 97].
Definition toy_md5 : bytes :=
  [2; 8; 0; 22; 4; 16] ++ Md5.md5 ([8] ++ [1; 2; 3] ++ replicate 16 8).
Definition toy_inputs : list server_input :=
  toy_start ++ toy_answer toy_identity ++ [si_step] ++ toy_answer toy_md5.


(** The user gives the right answer: EAP-MD5 succeeds, and then the server. *)
Lemma success_needs_method_witness :
  let w := toy_run toy_new (toy_inputs ++ [si_step]) in
  w.(esm).(eap_if).(eapSuccess) = true /\ w.(esm).(EAP_state) = EAP_SUCCESS /\
  w.(esm).(currentMethod) = EAP_TYPE_MD5.
Proof.
  cbv zeta. split; [vm_compute; reflexivity|].
  destruct (success_needs_method toy_methods toy_cfg (toy_cb false) None None
              (Some [2; 0; 0; 0; 0; 1]) toy_seed toy_new toy_inputs (toy_identity_starts false)
              eq_refl toy_new_server) as [ [Hs _]|[Hs _] ].
  - vm_compute. reflexivity.
  - vm_compute. reflexivity.
  - split; [exact Hs|vm_compute; reflexivity].
  - exfalso. vm_compute in Hs. discriminate Hs.
Defined.

(** The same answer, and one that is off by a byte. *)
Definition toy_wrong : bytes := [2; 8; 0; 22; 4; 16] ++ replicate 16 0.
Definition toy_asked : ToyW := toy_run toy_new toy_inputs.
Lemma md5_answer_decides_witness :
  let process resp := (eap_md5_process (eap_md5_data (replicate 16 8) CONTINUE) resp toy_asked).1 in
  process toy_md5 = eap_md5_data (replicate 16 8) SUCCESS /\
  process toy_wrong = eap_md5_data (replicate 16 8) FAILURE.
Proof.
  pose (ctx := {| Md5.buf := []; Md5.bits0 := 0; Md5.bits1 := 0; Md5.in_ := replicate 64 0 |}).
  pose (H resp pos := fun Hv Hp =>
    md5_answer_decides ctx (replicate 16 8) CONTINUE resp pos 17 toy_user [1; 2; 3] toy_asked
      eq_refl ltac:(vm_compute; reflexivity) eq_refl eq_refl Hv Hp (le_n 17) eq_refl eq_refl).
  cbv zeta. split.
  - etrans; [exact (f_equal fst (H toy_md5 (drop 5 toy_md5) ltac:(vm_compute; reflexivity)
                                  ltac:(vm_compute; reflexivity)))|vm_compute; reflexivity].
  - etrans; [exact (f_equal fst (H toy_wrong (16 :: replicate 16 0) ltac:(vm_compute; reflexivity)
                                  ltac:(vm_compute; reflexivity)))|vm_compute; reflexivity].
Defined.

(** The identity request is never answered. *)
Definition toy_waiting : ToyW := toy_run toy_new toy_start.

(** The wrong identifier. *)
Definition toy_confused : ToyW := toy_run toy_new (toy_start ++ toy_answer [2; 6; 0; 6; 1; 97]).

(** Of MD5, TLS, a vendor's method and PEAP the peer wants TLS and PEAP. *)
Definition toy_methods_user : eap_user :=
  mk_user ([(0, 4); (0, 13); (1, 13); (0, 25)] ++ replicate 4 NONE_METHOD) None 0 0 0 0.
Definition toy_naked : eap_sm (method_priv := method_data) :=
  toy_new.(esm) <| user := Some toy_methods_user |>.
Lemma nak_narrows_witness :
  exists ms, eap_sm_process_nak [25; 13] toy_naked =
    toy_naked <| user := Some (toy_methods_user <| methods := ms |>) |> /\
    live_from 0 ms = [(0, 13); (0, 25)].
Proof.
  destruct (nak_narrows [25; 13] toy_naked toy_methods_user) as (ms & E & _ & _ & Hl).
  - reflexivity.
  - reflexivity.
  - exists ms. split; [exact E|exact Hl].
Defined.

(** A method waits before its first request. *)
Definition toy_pending : ToyW :=
  upd (fun sm => sm <| EAP_state := EAP_PROPOSE_METHOD |> <| method_pending := METHOD_PENDING_WAIT |>
                    <| user_eap_method_index := 2 |>) toy_waiting.
Lemma pending_wait_rewinds_witness :
  (eap_server_sm_step toy_methods toy_cfg (toy_cb false) toy_pending).2.(esm).(user_eap_method_index)
    = 2 - 1.
Proof.
  refine (proj1 (pending_wait_rewinds toy_methods toy_cfg (toy_cb false) toy_pending _ _ _ _)).
  - split; [|split]; vm_compute; reflexivity.
  - vm_compute. reflexivity.
  - vm_compute. reflexivity.
  - vm_compute. reflexivity.
Defined.


(** No memory. *)
Definition NoMemory : Env := {|
  sizeof_eap_sm := 1000; sizeof_eap_user := 200; env_st := Z;
  alloc _ st := (false, st); rand st := (st, st + 1); random_get_bytes n st := (None, st) |}.
Definition starved : eap_world (H := NoMemory) (method_priv := method_data) :=
  mk_eap_world (H := NoMemory) zero_eap_sm [] 0 None.
Lemma identity_without_memory_witness :
  (try_another_method (H := NoMemory) (registered_methods (H := NoMemory) (toy_cb false)) 1000
     starved).(fault) = Some OutOfFuel.
Proof.
  refine (identity_without_memory (H := NoMemory) _ toy_cfg 1000 starved
            (eap_identity (H := NoMemory) (toy_cb false)) _ eq_refl _ _).
  - split; [done|by right].
  - by exists 0%nat.
  - reflexivity.
Defined.
