(* ===== verification/EapIntegrated.v ===== *)
(** * The authenticator with its own EAP server

    [EapolAuth] is written against the interface [EapServer]; here the server of
    [eap_server.c] implements it, as in an access point without an external
    server.  An EAP state machine of the authenticator is a server state with
    what holds between two calls, so the laws of the interface are theorems. *)

From S2P Require Import Prelude Bytes EapServer EapServerProofs EapServerRun.
From S2P Require Import EapMethods EapServerProps EapServerTheorems.
From S2P Require Import EapolState EapolAuth EapolProofs EapolProps EapolTheorems.

#[local] Open Scope Z_scope.

Section integrated.
Context `{V : Env} {method_priv : Type}.
Context (eap_methods : list (eap_method (method_priv := method_priv))).
Context (cfg : eap_config) (eapol_cb : eapol_callbacks).
Context `{ML : !EapMethodsLaws eap_methods} {CO : unsigned_config cfg}.
Context (identity_ok : identity_starts eap_methods) (no_reauth_start : get_erp_start eapol_cb = false).
Abbreviation W := (eap_world (method_priv := method_priv)).

(** A server between two calls; [users] and [fault] belong to a call. *)
Abbreviation machine := (EapServer.eap_sm (method_priv := method_priv) * env_st)%type.
Definition resting (x : machine) : W := mk_eap_world x.1 [] x.2 None.
Definition server_ok (x : machine) : Prop :=
  inv eap_methods cfg (resting x) /\ decided eap_methods (resting x) /\
  typed eap_methods (resting x) /\
  (cfg.(eap_server) = true -> local (resting x)).
Definition server := {x : machine | server_ok x}.

Definition called (e : server) (i : eap_eapol_interface) : W :=
  EapServer.upd (fun sm => sm <| EapServer.eap_if := i |>) (resting (proj1_sig e)).
Definition call (e : server) (i : eap_eapol_interface) : bool * W :=
  EapServer.eap_server_sm_step eap_methods cfg eapol_cb (called e i).

Lemma called_between e i :
  inv eap_methods cfg (called e i) /\ decided eap_methods (called e i) /\
  typed eap_methods (called e i) /\
  (cfg.(eap_server) = true -> local (called e i)).
Proof using ML.
  destruct e as [x (Hi & Hd & Ht & Hl)]. split; [exact Hi|].
  split; [by apply (decided_keeps _ (resting x))|]. split; [exact Ht|exact Hl].
Qed.

Lemma rest_ok (w : W) :
  inv eap_methods cfg w -> decided eap_methods w -> typed eap_methods w -> (cfg.(eap_server) = true -> local w) ->
  server_ok (w.(esm), w.(env)).
Proof using ML.
  intros Hi Hd Ht Hl. split; [exact Hi|]. split; [by apply (decided_keeps _ w)|].
  split; [exact Ht|exact Hl].
Qed.

Lemma call_ok e i : server_ok ((call e i).2.(esm), (call e i).2.(env)).
Proof using All.
  destruct (called_between e i) as (Hi & Hd & Ht & Hl). apply rest_ok.
  - exact (proj1 (proj2 (step_ends eap_methods cfg eapol_cb identity_ok no_reauth_start _ Hi eq_refl))).
  - exact (run_decided eap_methods cfg eapol_cb identity_ok no_reauth_start _ Hi Hd).
  - exact (run_typed eap_methods cfg eapol_cb identity_ok no_reauth_start _ Hi Ht).
  - intros Hc. exact (run_local eap_methods cfg eapol_cb identity_ok no_reauth_start _ Hc Hi (Hl Hc)).
Qed.

Definition set_machine (f : EapServer.eap_sm -> EapServer.eap_sm) (x : machine) : machine :=
  (f x.1, x.2).

Lemma pending_cb_ok x : server_ok x -> server_ok (set_machine EapServer.eap_sm_pending_cb x).
Proof using ML.
  intros (Hi & Hd & Ht & Hl). unfold set_machine, EapServer.eap_sm_pending_cb, server_ok.
  destruct (_ == METHOD_PENDING_WAIT); [|by destruct x]. split; [exact Hi|].
  split; [by apply (decided_keeps _ (resting x))|split; [exact Ht|exact Hl] ].
Qed.
Lemma clear_identity_ok x :
  server_ok x -> server_ok (set_machine (fun sm => sm <| EapServer.identity := None |>) x).
Proof using ML.
  intros (Hi & Hd & Ht & Hl). split; [exact Hi|].
  split; [by apply (decided_keeps _ (resting x))|split; [exact Ht|exact Hl] ].
Qed.
Lemma notify_cached_ok x : server_ok x -> server_ok (set_machine EapServer.eap_sm_notify_cached x).
Proof using.
  intros ([Hw _] & _ & Ht & _). split; [by split|]. split; [done|]. split; [exact Ht|]. by intros _ [?|[? _] ].
Qed.

Lemma init_ok wps p2p addr st sm st' :
  EapServer.eap_server_sm_init wps p2p addr st = (Some sm, st') -> server_ok (sm, st').
Proof.
  intros E. destruct (new_server_inv eap_methods cfg wps p2p addr st (resting (sm, st')))
    as (Hi & _ & Hd & Hl & Ht); [by exists sm, st'|]. done.
Qed.

(** [eap_server_sm_init] for one station. *)
Definition init_server (wps p2p addr : option bytes) (st : env_st) : option server :=
  match EapServer.eap_server_sm_init wps p2p addr st as r
    return EapServer.eap_server_sm_init wps p2p addr st = r -> option server with
  | (Some sm, st') => fun E => Some (exist server_ok (sm, st') (init_ok _ _ _ _ _ _ E))
  | (None, _) => fun _ => None
  end eq_refl.

Definition step_server (e : server) (i : eap_eapol_interface)
    : server * eap_eapol_interface * list Z * bool :=
  let w := (call e i).2 in
  (exist server_ok (w.(esm), w.(env)) (call_ok e i), w.(esm).(EapServer.eap_if),
   rev w.(users), (call e i).1).
Definition on_server (f : EapServer.eap_sm -> EapServer.eap_sm)
    (Hf : forall x, server_ok x -> server_ok (set_machine f x)) (e : server) : server :=
  exist server_ok (set_machine f (proj1_sig e)) (Hf _ (proj2_sig e)).

Definition IntegratedServer (wps p2p addr : option bytes) (st : env_st) : EapServer := {|
  eap_sm := server;
  eap_server_sm_init := init_server wps p2p addr st;
  eap_server_sm_step := step_server;
  eap_sm_pending_cb := on_server _ pending_cb_ok;
  eap_server_clear_identity := on_server _ clear_identity_ok;
  eap_sm_notify_cached := on_server _ notify_cached_ok |}.

#[export] Instance IntegratedServer_laws wps p2p addr st :
  EapServerLaws (IntegratedServer wps p2p addr st).
Proof using All.
  intros e i. destruct (called_between e i) as (Hi & _).
  exact (run_port eap_methods cfg eapol_cb identity_ok no_reauth_start _ Hi).
Qed.

(** ** What the composition guarantees *)

(** C12: the EAP server keeps the contract the authenticator relies on, for every
    state of the server and of the interface: it leaves [portEnabled] alone, ends
    its run without a fault and with nothing left to do, and turns [eapSuccess]
    on only after a method has succeeded or an AAA server it waited for has
    accepted. *)
Theorem server_refines_interface wps p2p addr st
    (e : eap_sm (EapServer := IntegratedServer wps p2p addr st)) (i : eap_eapol_interface) :
  let '(e', i', users, again) := eap_server_sm_step e i in
  let w' := EapServer.upd (fun sm => sm <| EapServer.eap_if := i' |>) (resting (proj1_sig e')) in
  i'.(portEnabled) = i.(portEnabled) /\ (call e i).2.(fault) = None /\
  w'.(esm).(EapServer.changed) = false /\
  (i.(eapSuccess) = false -> i'.(eapSuccess) = true ->
   succeeded eap_methods w' /\ typed eap_methods w' \/ aaa_accepts (called e i)).
Proof using All.
  destruct (called_between e i) as (Hi & Hd & Ht & _). cbn [eap_server_sm_step IntegratedServer step_server proj1_sig].
  assert (Hr : fault (call e i).2 = None /\ EapServer.changed (esm (call e i).2) = false).
  { pose proof (step_ends eap_methods cfg eapol_cb identity_ok no_reauth_start _ Hi eq_refl)
      as (Hf & _ & Hc). exact (conj Hf Hc). }
  assert (Hp : portEnabled (EapServer.eap_if (esm (call e i).2)) = i.(portEnabled))
    by exact (run_port eap_methods cfg eapol_cb identity_ok no_reauth_start _ Hi).
  assert (Hs : eapSuccess i = false -> sound eap_methods cfg (called e i) (call e i).2)
    by exact (run_sound eap_methods cfg eapol_cb identity_ok no_reauth_start _ Hi Hd).
  assert (Ht' : typed eap_methods (call e i).2)
    by exact (run_typed eap_methods cfg eapol_cb identity_ok no_reauth_start _ Hi Ht).
  destruct Hr as [Hf Hc].
  generalize dependent (call e i). intros [b w1] Hf Hc Hp Hs Ht'.
  split; [exact Hp|]. split; [exact Hf|]. split; [exact Hc|].
  cbn [snd] in *. intros Hi0 Hi1. destruct (Hs Hi0) as [Hg _]. rewrite Hi1 in Hg.
  destruct Hg as [_ [ [_ Hg]|[_ Hg] ] ]; [left|by right].
  split; [by apply (succeeded_esm _ w1)|exact Ht'].
Qed.

Context `{M : Malloc} (CONFIG_WEP CONFIG_WPS CONFIG_ERP CONFIG_MACSEC : bool).
Context (alive : list event -> bool).

End integrated.

(** ** Witnesses *)

#[local] Existing Instance zero_malloc.

(** An access point whose server knows the Identity method only. *)
Definition identity_only : list (eap_method (method_priv := method_data)) :=
  (eap_server_identity_register (toy_cb false) []).2.
#[export] Instance identity_only_laws : EapMethodsLaws identity_only.
Proof. apply Forall_cons. split; [apply identity_laws|constructor]. Qed.
Lemma identity_only_starts : identity_starts identity_only.
Proof. intros md w Hin _ _. apply list_elem_of_singleton in Hin as ->. by eexists. Qed.

Definition identity_server : EapServer :=
  IntegratedServer identity_only toy_cfg (toy_cb false) identity_only_starts eq_refl
    None None None toy_seed.
Definition station : option (world (E := identity_server)) :=
  (eapol_auth_alloc (E := identity_server) false toy_alive toy_config toy_addr 0 None None
     (Some 1)).1.
(** The peer associates, gives its identity, and tries some packets. *)
Definition knocking : list input :=
  [in_new_station false false pmk_none; in_step_cb; in_frame 0 toy_identity; in_step_cb;
   in_frame 0 [3; 7; 0; 4]; in_frame 1 []; in_tick; in_frame 0 toy_md5; in_step_cb].


(** The server that knows EAP-MD5 as well: the right response turns [eapSuccess]
    on, through the interface. *)
Definition md5_server : EapServer :=
  IntegratedServer (registered_methods (toy_cb false)) toy_cfg (toy_cb false)
    (toy_identity_starts false) eq_refl None None None toy_seed.

Lemma server_refines_interface_witness :
  match eap_server_sm_init (EapServer := md5_server) with
  | Some e =>
    let '(e', i', _, _) := eap_server_sm_step (EapServer := md5_server) e
                             (zero_eap_if <| portEnabled := true |> <| eapRestart := true |>) in
    i'.(portEnabled) = true
  | None => False
  end.
Proof.
  assert (Hb : match eap_server_sm_init (EapServer := md5_server) with
               | Some _ => true | None => false end = true) by (vm_compute; reflexivity).
  destruct (eap_server_sm_init (EapServer := md5_server)) as [e|]; [|discriminate Hb].
  pose proof (server_refines_interface (registered_methods (toy_cb false)) toy_cfg (toy_cb false)
    (toy_identity_starts false) eq_refl None None None toy_seed e
    (zero_eap_if <| portEnabled := true |> <| eapRestart := true |>)) as Hr.
  unfold md5_server in *.
  destruct (eap_server_sm_step e _) as [ [ [e' i'] users] again]. apply Hr.
Defined.
