(* ===== verification/Rc4.v ===== *)
(** * RC4

    Hostap's [crypto/rc4.c].  The permutation [S] is a list of 256 bytes, called [perm]; the
    indices [i], [j] are [u32] values masked to a byte. *)

From S2P Require Import Prelude.

(** ** Code *)

Definition S_SWAP (a b : Z) (perm : bytes) : bytes :=
  let t := get perm (Z.to_nat a) in
  let perm := <[Z.to_nat a := get perm (Z.to_nat b)]> perm in
  <[Z.to_nat b := t]> perm.

(** The key setup: [j], [kpos] and [S]. *)
Definition rc4_setup_step (key : bytes) (i : Z) (st : Z * nat * bytes) : Z * nat * bytes :=
  let '(j, kpos, perm) := st in
  let j := Z.land (j + get perm (Z.to_nat i) + get key kpos) 0xff in
  let kpos := (kpos + 1)%nat in
  let kpos := if (length key <=? kpos)%nat then 0%nat else kpos in
  (j, kpos, S_SWAP i j perm).
Definition rc4_setup (key : bytes) : bytes :=
  (for_up 0 256 (rc4_setup_step key) (0, 0%nat, seqZ 0 256)).2.

(** One step of the generator: [i], [j] and [S]. *)
Definition rc4_next (st : Z * Z * bytes) : Z * Z * bytes :=
  let '(i, j, perm) := st in
  let i := Z.land (i + 1) 0xff in
  let j := Z.land (j + get perm (Z.to_nat i)) 0xff in
  (i, j, S_SWAP i j perm).
Definition rc4_byte (st : Z * Z * bytes) : Z :=
  let '(i, j, perm) := st in
  get perm (Z.to_nat (Z.land (get perm (Z.to_nat i) + get perm (Z.to_nat j)) 0xff)).

Fixpoint rc4_apply (data : bytes) (st : Z * Z * bytes) : bytes :=
  match data with
  | [] => []
  | b :: data => let st := rc4_next st in Z.lxor b (rc4_byte st) :: rc4_apply data st
  end.

(** The data afterwards; the function always returns 0. *)
Definition rc4_skip (key : bytes) (skip : nat) (data : bytes) : bytes :=
  rc4_apply data (Nat.iter skip rc4_next (0, 0, rc4_setup key)).

(** ** Properties *)

Lemma length_rc4_apply data st : length (rc4_apply data st) = length data.
Proof. revert st. induction data as [|b data IH]; intros st; [done|]. cbn. by rewrite IH. Qed.
Lemma length_rc4_skip key skip data : length (rc4_skip key skip data) = length data.
Proof. apply length_rc4_apply. Qed.

Lemma rc4_apply_twice data st : rc4_apply (rc4_apply data st) st = data.
Proof.
  revert st. induction data as [|b data IH]; intros st; [done|]. cbn [rc4_apply].
  rewrite IH. f_equal. by rewrite Z.lxor_assoc, Z.lxor_nilpotent, Z.lxor_0_r.
Qed.

(** Decryption is encryption. *)
Lemma rc4_skip_involutive key skip data : rc4_skip key skip (rc4_skip key skip data) = data.
Proof. apply rc4_apply_twice. Qed.

(** The permutation stays one of bytes, so the output is bytes. *)
Definition rc4_ok (perm : bytes) : Prop := length perm = 256%nat /\ wf_bytes perm.

Lemma S_SWAP_ok a b perm : rc4_ok perm -> rc4_ok (S_SWAP a b perm).
Proof.
  intros [Hl Hw]. split; unfold S_SWAP; [by rewrite !length_insert|]. auto with wlan.
Qed.
Lemma rc4_setup_ok key : rc4_ok (rc4_setup key).
Proof.
  unfold rc4_setup. apply (for_up_inv (fun st : Z * nat * bytes => rc4_ok st.2)).
  - intros i [[j kpos] S] _ HS. cbn [rc4_setup_step snd]. by apply S_SWAP_ok.
  - split; [done|]. apply (bool_decide_eq_true_1 _). reflexivity.
Qed.
Lemma rc4_next_ok st : rc4_ok st.2 -> rc4_ok (rc4_next st).2.
Proof. destruct st as [[i j] S]. cbn [rc4_next snd]. apply S_SWAP_ok. Qed.

Lemma wf_rc4_apply data st : wf_bytes data -> rc4_ok st.2 -> wf_bytes (rc4_apply data st).
Proof.
  intros Hd. revert st. induction Hd as [|b data Hb Hd IH]; intros st HS; [constructor|].
  cbn [rc4_apply]. apply rc4_next_ok in HS. constructor; [|by apply IH].
  apply is_byte_lxor; [done|]. destruct (rc4_next st) as [[i j] S]. by apply is_byte_get, HS.
Qed.
Lemma wf_rc4_skip key skip data : wf_bytes data -> wf_bytes (rc4_skip key skip data).
Proof.
  intros Hd. apply wf_rc4_apply; [done|].
  induction skip as [|skip IH]; cbn [Nat.iter nat_rect]; [apply rc4_setup_ok|by apply rc4_next_ok].
Qed.

(** RFC 6229: key 0x0102030405. *)
Example rc4_rfc6229 : rc4_skip [1; 2; 3; 4; 5] 0 (replicate 8 0) = [0xb2; 0x39; 0x63; 0x05; 0xf0; 0x3d; 0xc0; 0x27].
Proof. vm_compute. reflexivity. Qed.
