(* ===== verification/WpaKeys.v ===== *)
(** * WPA: key management suites, ciphers and pairwise keys

    Hostap's [common/defs.h] (key management and cipher bits and the predicates
    on them) and the part of [common/wpa_common.c] that the access point and the
    station share: sizes of keys, the derivation of the pairwise transient key
    ([wpa_pmk_to_ptk]), the integrity code of EAPOL-Key frames
    ([wpa_eapol_key_mic]) and the PMKID.

    The build has none of [CONFIG_FILS], [CONFIG_OWE], [CONFIG_DPP],
    [CONFIG_HS20], [CONFIG_SUITEB], [CONFIG_SUITEB192], [CONFIG_SHA384] and
    [CONFIG_IEEE80211R]; [CONFIG_SAE] is a parameter. *)

From Stdlib Require Import Ascii.
From S2P Require Import Prelude Bytes HashSpec Hmac AesInterface AesInternal AesCorrect AesOmac.
From S2P Require Md5 Sha1 Sha256.

(** ** Sizes *)

Definition PMKID_LEN : nat := 16.
Definition PMK_LEN : nat := 32.
Definition PMK_LEN_MAX : nat := 64.
Definition ETH_ALEN : nat := 6.
Definition WPA_REPLAY_COUNTER_LEN : nat := 8.
Definition WPA_NONCE_LEN : nat := 32.
Definition WPA_KEY_RSC_LEN : nat := 8.
Definition WPA_KCK_MAX_LEN : nat := 32.
Definition WPA_KEK_MAX_LEN : nat := 64.
Definition WPA_TK_MAX_LEN : nat := 32.
Definition WPA_KDK_MAX_LEN : nat := 32.
Definition MD5_MAC_LEN : nat := 16.

(** ** [defs.h] *)

Definition WPA_CIPHER_NONE : Z := BIT 0.
Definition WPA_CIPHER_TKIP : Z := BIT 3.
Definition WPA_CIPHER_CCMP : Z := BIT 4.
Definition WPA_CIPHER_AES_128_CMAC : Z := BIT 5.
Definition WPA_CIPHER_GCMP : Z := BIT 6.
Definition WPA_CIPHER_GCMP_256 : Z := BIT 8.
Definition WPA_CIPHER_CCMP_256 : Z := BIT 9.
Definition WPA_CIPHER_BIP_GMAC_128 : Z := BIT 11.
Definition WPA_CIPHER_BIP_GMAC_256 : Z := BIT 12.
Definition WPA_CIPHER_BIP_CMAC_256 : Z := BIT 13.

Definition WPA_KEY_MGMT_IEEE8021X : Z := BIT 0.
Definition WPA_KEY_MGMT_PSK : Z := BIT 1.
Definition WPA_KEY_MGMT_FT_IEEE8021X : Z := BIT 5.
Definition WPA_KEY_MGMT_FT_PSK : Z := BIT 6.
Definition WPA_KEY_MGMT_IEEE8021X_SHA256 : Z := BIT 7.
Definition WPA_KEY_MGMT_PSK_SHA256 : Z := BIT 8.
Definition WPA_KEY_MGMT_SAE : Z := BIT 10.
Definition WPA_KEY_MGMT_FT_SAE : Z := BIT 11.
Definition WPA_KEY_MGMT_CCKM : Z := BIT 14.
Definition WPA_KEY_MGMT_OSEN : Z := BIT 15.
Definition WPA_KEY_MGMT_IEEE8021X_SUITE_B : Z := BIT 16.
Definition WPA_KEY_MGMT_IEEE8021X_SUITE_B_192 : Z := BIT 17.
Definition WPA_KEY_MGMT_FILS_SHA256 : Z := BIT 18.
Definition WPA_KEY_MGMT_FILS_SHA384 : Z := BIT 19.
Definition WPA_KEY_MGMT_FT_FILS_SHA256 : Z := BIT 20.
Definition WPA_KEY_MGMT_FT_FILS_SHA384 : Z := BIT 21.
Definition WPA_KEY_MGMT_OWE : Z := BIT 22.
Definition WPA_KEY_MGMT_DPP : Z := BIT 23.
Definition WPA_KEY_MGMT_FT_IEEE8021X_SHA384 : Z := BIT 24.

(** [!!(akm & (a | b | ...))]. *)
Definition has_any (akm : Z) (l : list Z) : bool := negb (Z.land akm (foldr Z.lor 0 l) =? 0).

Definition wpa_key_mgmt_wpa_ieee8021x (akm : Z) : bool :=
  has_any akm [WPA_KEY_MGMT_IEEE8021X; WPA_KEY_MGMT_FT_IEEE8021X; WPA_KEY_MGMT_FT_IEEE8021X_SHA384;
               WPA_KEY_MGMT_CCKM; WPA_KEY_MGMT_OSEN; WPA_KEY_MGMT_IEEE8021X_SHA256;
               WPA_KEY_MGMT_IEEE8021X_SUITE_B; WPA_KEY_MGMT_IEEE8021X_SUITE_B_192;
               WPA_KEY_MGMT_FILS_SHA256; WPA_KEY_MGMT_FILS_SHA384;
               WPA_KEY_MGMT_FT_FILS_SHA256; WPA_KEY_MGMT_FT_FILS_SHA384].
Definition wpa_key_mgmt_wpa_psk (akm : Z) : bool :=
  has_any akm [WPA_KEY_MGMT_PSK; WPA_KEY_MGMT_FT_PSK; WPA_KEY_MGMT_PSK_SHA256;
               WPA_KEY_MGMT_SAE; WPA_KEY_MGMT_FT_SAE].
Definition wpa_key_mgmt_ft (akm : Z) : bool :=
  has_any akm [WPA_KEY_MGMT_FT_PSK; WPA_KEY_MGMT_FT_IEEE8021X; WPA_KEY_MGMT_FT_IEEE8021X_SHA384;
               WPA_KEY_MGMT_FT_SAE; WPA_KEY_MGMT_FT_FILS_SHA256; WPA_KEY_MGMT_FT_FILS_SHA384].
Definition wpa_key_mgmt_sae (akm : Z) : bool := has_any akm [WPA_KEY_MGMT_SAE; WPA_KEY_MGMT_FT_SAE].
Definition wpa_key_mgmt_fils (akm : Z) : bool :=
  has_any akm [WPA_KEY_MGMT_FILS_SHA256; WPA_KEY_MGMT_FILS_SHA384;
               WPA_KEY_MGMT_FT_FILS_SHA256; WPA_KEY_MGMT_FT_FILS_SHA384].
Definition wpa_key_mgmt_sha256 (akm : Z) : bool :=
  has_any akm [WPA_KEY_MGMT_PSK_SHA256; WPA_KEY_MGMT_IEEE8021X_SHA256; WPA_KEY_MGMT_SAE;
               WPA_KEY_MGMT_FT_SAE; WPA_KEY_MGMT_OSEN; WPA_KEY_MGMT_IEEE8021X_SUITE_B;
               WPA_KEY_MGMT_FILS_SHA256; WPA_KEY_MGMT_FT_FILS_SHA256].
Definition wpa_key_mgmt_sha384 (akm : Z) : bool :=
  has_any akm [WPA_KEY_MGMT_IEEE8021X_SUITE_B_192; WPA_KEY_MGMT_FT_IEEE8021X_SHA384;
               WPA_KEY_MGMT_FILS_SHA384; WPA_KEY_MGMT_FT_FILS_SHA384].
Definition wpa_key_mgmt_suite_b (akm : Z) : bool :=
  has_any akm [WPA_KEY_MGMT_IEEE8021X_SUITE_B; WPA_KEY_MGMT_IEEE8021X_SUITE_B_192].

Inductive wpa_alg :=
| WPA_ALG_NONE | WPA_ALG_WEP | WPA_ALG_TKIP | WPA_ALG_CCMP | WPA_ALG_BIP_CMAC_128 | WPA_ALG_GCMP
| WPA_ALG_SMS4 | WPA_ALG_KRK | WPA_ALG_GCMP_256 | WPA_ALG_CCMP_256 | WPA_ALG_BIP_GMAC_128
| WPA_ALG_BIP_GMAC_256 | WPA_ALG_BIP_CMAC_256.
#[export] Instance wpa_alg_eq_dec : EqDecision wpa_alg.
Proof. solve_decision. Defined.

(** A C [switch] on a value: the first label that is equal. *)
Fixpoint switch {A} (x : Z) (cases : list (list Z * A)) (dflt : A) : A :=
  match cases with
  | [] => dflt
  | (labels, a) :: cases => if existsb (Z.eqb x) labels then a else switch x cases dflt
  end.

(** ** Sizes by suite and cipher ([wpa_common.c]) *)

Definition wpa_kck_len (akmp : Z) (pmk_len : nat) : nat :=
  switch akmp
    [([WPA_KEY_MGMT_IEEE8021X_SUITE_B_192; WPA_KEY_MGMT_FT_IEEE8021X_SHA384], 24);
     ([WPA_KEY_MGMT_FILS_SHA256; WPA_KEY_MGMT_FT_FILS_SHA256;
       WPA_KEY_MGMT_FILS_SHA384; WPA_KEY_MGMT_FT_FILS_SHA384], 0);
     ([WPA_KEY_MGMT_DPP], pmk_len / 2);
     ([WPA_KEY_MGMT_OWE], pmk_len / 2)]%nat 16%nat.

Definition wpa_kek_len (akmp : Z) (pmk_len : nat) : nat :=
  let by_pmk := (if (pmk_len <=? 32)%nat then 16 else 32)%nat in
  switch akmp
    [([WPA_KEY_MGMT_FILS_SHA384; WPA_KEY_MGMT_FT_FILS_SHA384], 64%nat);
     ([WPA_KEY_MGMT_IEEE8021X_SUITE_B_192; WPA_KEY_MGMT_FILS_SHA256;
       WPA_KEY_MGMT_FT_FILS_SHA256; WPA_KEY_MGMT_FT_IEEE8021X_SHA384], 32%nat);
     ([WPA_KEY_MGMT_DPP], by_pmk);
     ([WPA_KEY_MGMT_OWE], by_pmk)] 16%nat.

Definition wpa_mic_len (akmp : Z) (pmk_len : nat) : nat :=
  switch akmp
    [([WPA_KEY_MGMT_IEEE8021X_SUITE_B_192; WPA_KEY_MGMT_FT_IEEE8021X_SHA384], 24);
     ([WPA_KEY_MGMT_FILS_SHA256; WPA_KEY_MGMT_FILS_SHA384;
       WPA_KEY_MGMT_FT_FILS_SHA256; WPA_KEY_MGMT_FT_FILS_SHA384], 0);
     ([WPA_KEY_MGMT_DPP], pmk_len / 2);
     ([WPA_KEY_MGMT_OWE], pmk_len / 2)]%nat 16%nat.

Definition wpa_use_akm_defined (akmp : Z) : bool :=
  (akmp =? WPA_KEY_MGMT_OSEN) || (akmp =? WPA_KEY_MGMT_OWE) || (akmp =? WPA_KEY_MGMT_DPP) ||
  (akmp =? WPA_KEY_MGMT_FT_IEEE8021X_SHA384) || wpa_key_mgmt_sae akmp ||
  wpa_key_mgmt_suite_b akmp || wpa_key_mgmt_fils akmp.

Definition wpa_use_cmac (akmp : Z) : bool :=
  (akmp =? WPA_KEY_MGMT_OSEN) || (akmp =? WPA_KEY_MGMT_OWE) || (akmp =? WPA_KEY_MGMT_DPP) ||
  wpa_key_mgmt_ft akmp || wpa_key_mgmt_sha256 akmp || wpa_key_mgmt_sae akmp ||
  wpa_key_mgmt_suite_b akmp.

Definition wpa_use_aes_key_wrap (akmp : Z) : bool :=
  (akmp =? WPA_KEY_MGMT_OSEN) || (akmp =? WPA_KEY_MGMT_OWE) || (akmp =? WPA_KEY_MGMT_DPP) ||
  wpa_key_mgmt_ft akmp || wpa_key_mgmt_sha256 akmp || wpa_key_mgmt_sae akmp ||
  wpa_key_mgmt_suite_b akmp.

Definition wpa_cipher_key_len (cipher : Z) : nat :=
  switch cipher
    [([WPA_CIPHER_CCMP_256; WPA_CIPHER_GCMP_256; WPA_CIPHER_BIP_GMAC_256; WPA_CIPHER_BIP_CMAC_256], 32);
     ([WPA_CIPHER_CCMP; WPA_CIPHER_GCMP; WPA_CIPHER_AES_128_CMAC; WPA_CIPHER_BIP_GMAC_128], 16);
     ([WPA_CIPHER_TKIP], 32)]%nat 0%nat.

Definition wpa_cipher_to_alg (cipher : Z) : wpa_alg :=
  switch cipher
    [([WPA_CIPHER_CCMP_256], WPA_ALG_CCMP_256); ([WPA_CIPHER_GCMP_256], WPA_ALG_GCMP_256);
     ([WPA_CIPHER_CCMP], WPA_ALG_CCMP); ([WPA_CIPHER_GCMP], WPA_ALG_GCMP);
     ([WPA_CIPHER_TKIP], WPA_ALG_TKIP); ([WPA_CIPHER_AES_128_CMAC], WPA_ALG_BIP_CMAC_128);
     ([WPA_CIPHER_BIP_GMAC_128], WPA_ALG_BIP_GMAC_128);
     ([WPA_CIPHER_BIP_GMAC_256], WPA_ALG_BIP_GMAC_256);
     ([WPA_CIPHER_BIP_CMAC_256], WPA_ALG_BIP_CMAC_256)] WPA_ALG_NONE.

(** ** Comparison of memory *)

(** [os_memcmp(a, b, n)], up to the size of the result. *)
Fixpoint os_memcmp (n : nat) (a b : bytes) : Z :=
  match n with
  | O => 0
  | S n => if get a 0 =? get b 0 then os_memcmp n (tail a) (tail b) else get a 0 - get b 0
  end.

(** [os_memcmp(a, b, n) == 0]. *)
Definition same (n : nat) (a b : bytes) : bool := bool_decide (take n a = take n b).

(** ** The cryptography a build links *)

(** The AES implementation, and the uninitialised stack of the hash functions. *)
Class Crypto := {
  crypto_aes :: Aes;
  md5_stack : Md5.MD5Context;
  sha1_stack : Sha1.SHA1Context;
  sha256_stack : Sha256.sha256_state }.

Class CryptoLaws (C : Crypto) := {
  crypto_aes_laws :: AesLaws crypto_aes;
  md5_stack_len : length (Md5.in_ md5_stack) = 64%nat;
  sha1_stack_len : length (Sha1.buffer sha1_stack) = 64%nat;
  sha256_stack_len : length (Sha256.buf sha256_stack) = 64%nat }.

(** The characters of a C string literal, without the terminator. *)
Fixpoint str (s : String.string) : bytes :=
  match s with
  | String.EmptyString => []
  | String.String c s => Z.of_nat (nat_of_ascii c) :: str s
  end.

(** ** Key identifiers *)

Section pmkid.
Context (s1 : Sha1.SHA1Context) (s256 : Sha256.sha256_state) (hash0 : bytes).

(** "PMK Name". *)
Definition pmk_name : bytes := [0x50; 0x4d; 0x4b; 0x20; 0x4e; 0x61; 0x6d; 0x65].

(** The 16 bytes copied to [pmkid]; [hash0] is [hash] before the call. *)
Definition rsn_pmkid (pmk aa spa0 : bytes) (akmp0 : Z) : bytes :=
  let addr := [pmk_name; take ETH_ALEN aa; take ETH_ALEN spa0] in
  let hash :=
    if wpa_key_mgmt_sha256 akmp0 then default hash0 (hmac_sha256_vector s256 pmk addr)
    else default hash0 (hmac_sha1_vector s1 pmk addr) in
  take PMKID_LEN hash.
End pmkid.

(** ** The pairwise transient key

    [struct wpa_ptk] without the keys of fast BSS transition. *)

Record wpa_ptk := mk_ptk {
  kck : bytes; kek : bytes; tk : bytes; kdk : bytes;
  kck_len : nat; kek_len : nat; tk_len : nat; kdk_len : nat }.
#[export] Instance ptk_settable : Settable wpa_ptk :=
  fun p => mk_ptk (kck p) (kek p) (tk p) (kdk p) (kck_len p) (kek_len p) (tk_len p) (kdk_len p).
#[export] Instance set_kck : Setter kck := ltac:(solve_setter).
#[export] Instance set_kek : Setter kek := ltac:(solve_setter).
#[export] Instance set_tk : Setter tk := ltac:(solve_setter).
#[export] Instance set_kdk : Setter kdk := ltac:(solve_setter).
#[export] Instance set_kck_len : Setter kck_len := ltac:(solve_setter).
#[export] Instance set_kek_len : Setter kek_len := ltac:(solve_setter).
#[export] Instance set_tk_len : Setter tk_len := ltac:(solve_setter).
#[export] Instance set_kdk_len : Setter kdk_len := ltac:(solve_setter).

(** A cleared key. *)
Definition zero_ptk : wpa_ptk :=
  mk_ptk (replicate WPA_KCK_MAX_LEN 0) (replicate WPA_KEK_MAX_LEN 0) (replicate WPA_TK_MAX_LEN 0)
    (replicate WPA_KDK_MAX_LEN 0) 0 0 0 0.

Section keys.
Context {C : Crypto} (CONFIG_SAE : bool).

(** The two values in [os_memcmp] order, [data] of the derivation. *)
Definition min_max (n : nat) (a b : bytes) : bytes :=
  if os_memcmp n a b <? 0 then take n a ++ take n b else take n b ++ take n a.

Definition MAX_Z_LEN : nat := 66.

(** [pmk] is [pmk_len] bytes long, [z] is [z_len]; the C return value and the
    key.  SHA-384 needs build options that are off. *)
Definition wpa_pmk_to_ptk (pmk : bytes) (label : bytes) (addr1 addr2 nonce1 nonce2 : bytes)
    (ptk : wpa_ptk) (akmp cipher : Z) (z : option bytes) (kdk_len0 : nat) : Z * wpa_ptk :=
  let pmk_len := length pmk in
  let z_len := length (default [] z) in
  if (pmk_len =? 0)%nat then (-1, ptk)
  else if (MAX_Z_LEN <? z_len)%nat then (-1, ptk)
  else
    let data := min_max ETH_ALEN addr1 addr2 ++ min_max WPA_NONCE_LEN nonce1 nonce2 in
    let data := match z with Some z => data ++ z | None => data end in
    if (WPA_KDK_MAX_LEN <? kdk_len0)%nat then (-1, ptk)
    else
      let ptk := ptk <| kck_len := wpa_kck_len akmp pmk_len |> in
      let ptk := ptk <| kek_len := wpa_kek_len akmp pmk_len |> in
      let ptk := ptk <| tk_len := wpa_cipher_key_len cipher |> in
      let ptk := ptk <| kdk_len := kdk_len0 |> in
      if (tk_len ptk =? 0)%nat then (-1, ptk)
      else
        let ptk_len := (kck_len ptk + kek_len ptk + tk_len ptk + kdk_len ptk)%nat in
        let tmp :=
          if wpa_key_mgmt_sha384 akmp then None
          else if wpa_key_mgmt_sha256 akmp then sha256_prf sha256_stack pmk label data ptk_len
          else sha1_prf sha1_stack pmk label data ptk_len in
        match tmp with
        | None => (-1, ptk)
        | Some tmp =>
          let ptk := ptk <| kck ::= fun b => memcpy b 0 (take (kck_len ptk) tmp) |> in
          let tmp := drop (kck_len ptk) tmp in
          let ptk := ptk <| kek ::= fun b => memcpy b 0 (take (kek_len ptk) tmp) |> in
          let tmp := drop (kek_len ptk) tmp in
          let ptk := ptk <| tk ::= fun b => memcpy b 0 (take (tk_len ptk) tmp) |> in
          let tmp := drop (tk_len ptk) tmp in
          let ptk := if (kdk_len0 =? 0)%nat then ptk
                     else ptk <| kdk ::= fun b => memcpy b 0 (take (kdk_len ptk) tmp) |> in
          (0, ptk)
        end.

(** ** The integrity code of EAPOL-Key frames *)

Definition WPA_KEY_INFO_TYPE_AKM_DEFINED : Z := 0.
Definition WPA_KEY_INFO_TYPE_HMAC_MD5_RC4 : Z := BIT 0.
Definition WPA_KEY_INFO_TYPE_HMAC_SHA1_AES : Z := BIT 1.
Definition WPA_KEY_INFO_TYPE_AES_128_CMAC : Z := 3.

(** A call of [omac1_aes_128] with one fragment that is not empty reads nothing
    out of bounds ([AesOmac.omac1_aes_vector_cmac]). *)
Definition cmac_mic (key buf : bytes) : option bytes :=
  match omac1_aes_128 (take 16 key) buf with
  | Some (0, mic) => Some mic
  | _ => None
  end.

(** The bytes written to [mic], [None] for -1. *)
Definition wpa_eapol_key_mic (key : bytes) (key_len : nat) (akmp ver : Z) (buf : bytes) : option bytes :=
  if (key_len =? 0)%nat then None
  else
    switch ver
      [([WPA_KEY_INFO_TYPE_HMAC_MD5_RC4], hmac_md5 md5_stack (take key_len key) buf);
       ([WPA_KEY_INFO_TYPE_HMAC_SHA1_AES],
          hash ← hmac_sha1 sha1_stack (take key_len key) buf; Some (take MD5_MAC_LEN hash));
       ([WPA_KEY_INFO_TYPE_AES_128_CMAC], cmac_mic key buf);
       ([WPA_KEY_INFO_TYPE_AKM_DEFINED],
          if CONFIG_SAE && ((akmp =? WPA_KEY_MGMT_SAE) || (akmp =? WPA_KEY_MGMT_FT_SAE))
          then cmac_mic key buf else None)]
      None.
End keys.

(** ** The PTK is the key of IEEE 802.11 *)

Lemma os_memcmp_anti n a b : os_memcmp n a b < 0 <-> 0 < os_memcmp n b a.
Proof.
  revert a b. induction n as [|n IH]; intros a b; cbn [os_memcmp]; [lia|].
  destruct (Z.eqb_spec (get a 0) (get b 0)), (Z.eqb_spec (get b 0) (get a 0)); try lia. apply IH.
Qed.

Lemma os_memcmp_0 n a b :
  (n <= length a)%nat -> (n <= length b)%nat -> os_memcmp n a b = 0 <-> take n a = take n b.
Proof.
  revert a b. induction n as [|n IH]; intros a b Ha Hb; [done|].
  destruct a as [|x a], b as [|y b]; try (cbn in *; lia). cbn [os_memcmp tail take get nth].
  unfold get; cbn [nth]. cbn [length] in *. destruct (Z.eqb_spec x y) as [->|Hne].
  - rewrite IH by lia. split; [by intros ->|by intros [= ->]].
  - split; [lia|]. by intros [= ? _].
Qed.

Lemma min_max_comm n a b :
  (n <= length a)%nat -> (n <= length b)%nat -> min_max n a b = min_max n b a.
Proof.
  intros Ha Hb. unfold min_max. pose proof (os_memcmp_anti n a b). pose proof (os_memcmp_anti n b a).
  destruct (Z.ltb_spec (os_memcmp n a b) 0), (Z.ltb_spec (os_memcmp n b a) 0); try done; [lia|].
  assert (E : take n a = take n b) by (apply os_memcmp_0; lia). by rewrite E.
Qed.

Lemma length_min_max n a b :
  (n <= length a)%nat -> (n <= length b)%nat -> length (min_max n a b) = (2 * n)%nat.
Proof. intros. unfold min_max. case_match; rewrite length_app, !length_take; lia. Qed.

Lemma wf_min_max n a b : wf_bytes a -> wf_bytes b -> wf_bytes (min_max n a b).
Proof.
  intros. unfold min_max. case_match; apply wf_bytes_app; split; by apply wf_bytes_take.
Qed.

(** The keys of a [wpa_ptk], one after the other. *)
Definition ptk_bytes (p : wpa_ptk) : bytes :=
  take (kck_len p) (kck p) ++ take (kek_len p) (kek p) ++ take (tk_len p) (tk p) ++ take (kdk_len p) (kdk p).

(** The PRF (for a SHA-256 suite the KDF) of IEEE 802.11. *)
Definition ieee80211_ptk (akmp : Z) (pmk label data : bytes) (len : nat) : bytes :=
  if wpa_key_mgmt_sha256 akmp then ieee80211_kdf pmk label data (8 * Z.of_nat len)
  else ieee80211_prf pmk label data len.

(** The buffers have the sizes of the C arrays. *)
Record wf_ptk (p : wpa_ptk) : Prop := {
  kck_size : length (kck p) = WPA_KCK_MAX_LEN; kek_size : length (kek p) = WPA_KEK_MAX_LEN;
  tk_size : length (tk p) = WPA_TK_MAX_LEN; kdk_size : length (kdk p) = WPA_KDK_MAX_LEN;
}.
Lemma wf_zero_ptk : wf_ptk zero_ptk.
Proof. by split. Qed.

Lemma length_ieee80211_ptk akmp pmk label data len : length (ieee80211_ptk akmp pmk label data len) = len.
Proof.
  unfold ieee80211_ptk, ieee80211_kdf, ieee80211_prf. case_match.
  - assert (E : (8 * Z.of_nat len) mod 8 = 0) by zdiv. rewrite E. cbn [Z.eqb].
    assert (En : Z.to_nat ((8 * Z.of_nat len + 7) / 8) = len) by zdiv. rewrite En.
    rewrite length_take, (length_prf_blocks _ _ 32) by (intros c; apply length_sha256).
    destruct (blocks_enough len 32 ltac:(lia)). lia.
  - rewrite length_take, (length_prf_blocks _ _ 20) by (intros c; apply length_sha1).
    destruct (blocks_enough len 20 ltac:(lia)). lia.
Qed.

(** [switch] takes one of its values. *)
Lemma switch_ind {A} (P : A -> Prop) x cases dflt :
  Forall (fun c => P c.2) cases -> P dflt -> P (switch x cases dflt).
Proof. intros Hc Hd. induction Hc as [|[l a] cases Ha Hc IH]; [done|]. cbn [switch]. by case_match. Qed.

Ltac by_switch := apply switch_ind; [repeat (apply Forall_cons; split; [|]); try apply Forall_nil; cbn [snd]|].

Lemma kck_len_bound akmp n : (n <= PMK_LEN_MAX)%nat -> (wpa_kck_len akmp n <= WPA_KCK_MAX_LEN)%nat.
Proof.
  unfold PMK_LEN_MAX, WPA_KCK_MAX_LEN. intros Hn.
  assert (n / 2 <= 32)%nat by (apply Nat.Div0.div_le_upper_bound; lia).
  unfold wpa_kck_len. by_switch; done || lia.
Qed.
Lemma kek_len_bound akmp n : (wpa_kek_len akmp n <= WPA_KEK_MAX_LEN)%nat.
Proof.
  unfold wpa_kek_len, WPA_KEK_MAX_LEN. by_switch; try lia; case_match; lia.
Qed.
Lemma tk_len_bound cipher : (wpa_cipher_key_len cipher <= WPA_TK_MAX_LEN)%nat.
Proof. unfold wpa_cipher_key_len, WPA_TK_MAX_LEN. by_switch; lia. Qed.

Lemma take_memcpy_front b x n :
  (n <= length x)%nat -> take n (memcpy b 0 (take n x)) = take n x.
Proof.
  intros Hn. unfold memcpy. rewrite take_0. cbn [app]. rewrite take_app_le by (rewrite length_take; lia).
  by rewrite take_take, Nat.min_id.
Qed.
Lemma length_memcpy_0 b x n : (n <= length b)%nat -> length (memcpy b 0 (take n x)) = length b.
Proof. intros Hn. apply length_memcpy. rewrite length_take. lia. Qed.

Section ptk.
Context {C : Crypto} {L : CryptoLaws C}.

Definition pairwise_key_expansion : bytes := str "Pairwise key expansion".

Lemma fragment_app a b :
  fragment_ok a -> wf_bytes b -> Z.of_nat (length a + length b) < 2 ^ 32 - 64 -> fragment_ok (a ++ b).
Proof. intros [Ha _] Hb Hl. split; [by apply wf_bytes_app|]. by rewrite length_app. Qed.

(** The inputs of a derivation; the addresses and nonces have their lengths. *)
Record ptk_inputs (pmk addr1 addr2 nonce1 nonce2 : bytes) : Prop := {
  pmk_ok : fragment_ok pmk; pmk_some : pmk <> [];
  addr1_ok : wf_bytes addr1 /\ length addr1 = ETH_ALEN;
  addr2_ok : wf_bytes addr2 /\ length addr2 = ETH_ALEN;
  nonce1_ok : wf_bytes nonce1 /\ length nonce1 = WPA_NONCE_LEN;
  nonce2_ok : wf_bytes nonce2 /\ length nonce2 = WPA_NONCE_LEN;
}.

Definition ptk_data (addr1 addr2 nonce1 nonce2 : bytes) : bytes :=
  min_max ETH_ALEN addr1 addr2 ++ min_max WPA_NONCE_LEN nonce1 nonce2.

Lemma ptk_data_ok pmk addr1 addr2 nonce1 nonce2 :
  ptk_inputs pmk addr1 addr2 nonce1 nonce2 -> fragment_ok (ptk_data addr1 addr2 nonce1 nonce2).
Proof.
  intros [_ _ [? ?] [? ?] [? ?] [? ?]]. split.
  - apply wf_bytes_app; split; by apply wf_min_max.
  - unfold ptk_data. rewrite length_app, !length_min_max by lia. cbn. lia.
Qed.

Lemma ptk_data_comm pmk addr1 addr2 nonce1 nonce2 :
  ptk_inputs pmk addr1 addr2 nonce1 nonce2 ->
  ptk_data addr1 addr2 nonce1 nonce2 = ptk_data addr2 addr1 nonce2 nonce1.
Proof.
  intros [_ _ [? ?] [? ?] [? ?] [? ?]]. unfold ptk_data.
  by rewrite (min_max_comm _ addr1), (min_max_comm _ nonce1) by lia.
Qed.

(** The derivation without a shared secret [z]. *)
Lemma derived_bytes akmp pmk addr1 addr2 nonce1 nonce2 len :
  ptk_inputs pmk addr1 addr2 nonce1 nonce2 -> Z.of_nat len < 2 ^ 32 ->
  (if wpa_key_mgmt_sha256 akmp
   then sha256_prf sha256_stack pmk pairwise_key_expansion (ptk_data addr1 addr2 nonce1 nonce2) len
   else sha1_prf sha1_stack pmk pairwise_key_expansion (ptk_data addr1 addr2 nonce1 nonce2) len)
  = Some (ieee80211_ptk akmp pmk pairwise_key_expansion (ptk_data addr1 addr2 nonce1 nonce2) len).
Proof using L.
  intros Hi Hl. pose proof (ptk_data_ok _ _ _ _ _ Hi) as Hd. destruct Hi as [Hp _ _ _ _ _].
  assert (Hlab : fragment_ok (pairwise_key_expansion ++ [0]))
    by (apply fragment_ok_check; reflexivity).
  unfold ieee80211_ptk. case_match.
  - unfold sha256_prf. rewrite u64_mod, Z.mod_small by lia.
    rewrite sha256_prf_bits_ieee; [by rewrite Z.mul_comm|apply sha256_stack_len|apply Hp| |apply Hd|lia].
    destruct Hlab as [Hlab _]. by apply wf_bytes_app in Hlab as [? _].
  - apply sha1_prf_ieee; [apply sha1_stack_len|done..].
Qed.

(** What [wpa_pmk_to_ptk] returns when it does not fail. *)
Definition ptk_of (akmp cipher : Z) (pmk : bytes) (kdk_len0 : nat) (tmp : bytes) (ptk : wpa_ptk) : wpa_ptk :=
  let ptk := ptk <| kck_len := wpa_kck_len akmp (length pmk) |>
                 <| kek_len := wpa_kek_len akmp (length pmk) |>
                 <| tk_len := wpa_cipher_key_len cipher |> <| kdk_len := kdk_len0 |> in
  let ptk := ptk <| kck ::= fun b => memcpy b 0 (take (kck_len ptk) tmp) |> in
  let tmp := drop (kck_len ptk) tmp in
  let ptk := ptk <| kek ::= fun b => memcpy b 0 (take (kek_len ptk) tmp) |> in
  let tmp := drop (kek_len ptk) tmp in
  let ptk := ptk <| tk ::= fun b => memcpy b 0 (take (tk_len ptk) tmp) |> in
  let tmp := drop (tk_len ptk) tmp in
  if (kdk_len0 =? 0)%nat then ptk
  else ptk <| kdk ::= fun b => memcpy b 0 (take (kdk_len ptk) tmp) |>.

(** The bytes a derivation makes. *)
Definition ptk_total (akmp cipher : Z) (pmk : bytes) (kdk_len0 : nat) : nat :=
  wpa_kck_len akmp (length pmk) + wpa_kek_len akmp (length pmk) + wpa_cipher_key_len cipher + kdk_len0.

Ltac ptk_simpl :=
  cbn [kck kek tk kdk kck_len kek_len tk_len kdk_len set set_kck set_kek set_tk set_kdk
       set_kck_len set_kek_len set_tk_len set_kdk_len].

Lemma ptk_of_spec akmp cipher pmk kdk_len0 tmp ptk :
  wf_ptk ptk -> (length pmk <= PMK_LEN_MAX)%nat -> (kdk_len0 <= WPA_KDK_MAX_LEN)%nat ->
  length tmp = ptk_total akmp cipher pmk kdk_len0 ->
  wf_ptk (ptk_of akmp cipher pmk kdk_len0 tmp ptk) /\
  ptk_bytes (ptk_of akmp cipher pmk kdk_len0 tmp ptk) = tmp.
Proof.
  intros [H1 H2 H3 H4] Hp Hk Ht. pose proof (kck_len_bound akmp (length pmk) Hp) as B1.
  pose proof (kek_len_bound akmp (length pmk)) as B2. pose proof (tk_len_bound cipher) as B3.
  unfold ptk_total in Ht. unfold ptk_of.
  set (n1 := wpa_kck_len akmp (length pmk)) in *. set (n2 := wpa_kek_len akmp (length pmk)) in *.
  set (n3 := wpa_cipher_key_len cipher) in *. ptk_simpl.
  unfold ptk_bytes. split.
  - case_match; ptk_simpl; split; ptk_simpl; rewrite ?length_memcpy_0; lia.
  - destruct (Nat.eqb_spec kdk_len0 0) as [E|E]; ptk_simpl;
      rewrite !take_memcpy_front by (rewrite ?length_drop; lia).
    + rewrite E, take_0, app_nil_r, (take_ge (drop n2 _)) by (rewrite !length_drop; lia).
      by rewrite !take_drop.
    + rewrite (take_ge (drop n3 _)) by (rewrite !length_drop; lia). by rewrite !take_drop.
Qed.

(** The derivation fails only for an empty PMK, an unknown cipher, a suite that
    needs SHA-384, or a key derivation key that is too long. *)
Lemma wpa_pmk_to_ptk_eq pmk addr1 addr2 nonce1 nonce2 ptk akmp cipher kdk_len0 :
  ptk_inputs pmk addr1 addr2 nonce1 nonce2 -> (length pmk <= PMK_LEN_MAX)%nat ->
  (kdk_len0 <= WPA_KDK_MAX_LEN)%nat -> wpa_cipher_key_len cipher <> 0%nat ->
  wpa_key_mgmt_sha384 akmp = false ->
  wpa_pmk_to_ptk pmk pairwise_key_expansion addr1 addr2 nonce1 nonce2 ptk akmp cipher None kdk_len0
  = (0, ptk_of akmp cipher pmk kdk_len0
          (ieee80211_ptk akmp pmk pairwise_key_expansion (ptk_data addr1 addr2 nonce1 nonce2)
             (ptk_total akmp cipher pmk kdk_len0)) ptk).
Proof using L.
  intros Hi Hp Hk Hc H384. unfold wpa_pmk_to_ptk.
  assert (E0 : (length pmk =? 0)%nat = false).
  { apply Nat.eqb_neq. intros E. apply length_zero_iff_nil in E. by destruct Hi. }
  rewrite E0. cbn [default length]. assert (EZ : (MAX_Z_LEN <? 0)%nat = false) by done. rewrite EZ.
  assert (EK : (WPA_KDK_MAX_LEN <? kdk_len0)%nat = false) by (apply Nat.ltb_ge; lia). rewrite EK.
  ptk_simpl. assert (EC : (wpa_cipher_key_len cipher =? 0)%nat = false) by (by apply Nat.eqb_neq).
  rewrite EC, H384. fold (ptk_data addr1 addr2 nonce1 nonce2).
  fold (ptk_total akmp cipher pmk kdk_len0).
  rewrite derived_bytes; [done|done|].
  pose proof (kck_len_bound akmp (length pmk) Hp). pose proof (kek_len_bound akmp (length pmk)).
  pose proof (tk_len_bound cipher). unfold ptk_total.
  unfold WPA_KCK_MAX_LEN, WPA_KEK_MAX_LEN, WPA_TK_MAX_LEN, WPA_KDK_MAX_LEN in *. lia.
Qed.
End ptk.

(** ** The integrity codes of the standard *)

(** By key descriptor version; [ctx] is the AES key schedule of the KCK. *)
Definition ieee80211_mic `{A : Aes} (sae : bool) (ver akmp : Z) (key : bytes) (ctx : aes_ctx) (buf : bytes) :
    option bytes :=
  if ver =? 1 then Some (hmac Md5.md5 key buf)
  else if ver =? 2 then Some (take 16 (hmac Sha1.sha1 key buf))
  else if ver =? 3 then Some (cmac ctx buf)
  else if (ver =? 0) && sae && ((akmp =? WPA_KEY_MGMT_SAE) || (akmp =? WPA_KEY_MGMT_FT_SAE))
  then Some (cmac ctx buf) else None.

Lemma cmac_mic_cmac `{C : Crypto} `{L : !CryptoLaws C} key ctx buf :
  wf_bytes key -> aes_encrypt_init (take 16 key) 16 = Some ctx -> wf_bytes buf -> buf <> [] ->
  cmac_mic key buf = Some (cmac ctx buf).
Proof.
  intros Hk Hc Hb Hne. unfold cmac_mic, omac1_aes_128, omac1_aes_128_vector.
  rewrite (omac1_vector_cmac _ _ ctx) by
    (cbn [concat]; rewrite ?app_nil_r; auto using wf_bytes_take).
  cbn [concat]. by rewrite app_nil_r.
Qed.

(** C18: the pairwise transient key.  With a PMK, addresses and nonces of the right
    sizes, [wpa_pmk_to_ptk] succeeds and fills the key with the bytes that the PRF
    (or KDF) of IEEE 802.11 derives, one key after the other, without overflowing
    a buffer; the access point and the station, which pass their addresses and
    nonces in opposite roles, derive the same key. *)
Theorem ptk_ieee80211 `{C : Crypto} `{L : !CryptoLaws C} pmk addr1 addr2 nonce1 nonce2 ptk akmp cipher
    kdk_len0 :
  ptk_inputs pmk addr1 addr2 nonce1 nonce2 -> (length pmk <= PMK_LEN_MAX)%nat -> wf_ptk ptk ->
  (kdk_len0 <= WPA_KDK_MAX_LEN)%nat -> wpa_cipher_key_len cipher <> 0%nat ->
  wpa_key_mgmt_sha384 akmp = false ->
  exists p,
    wpa_pmk_to_ptk pmk pairwise_key_expansion addr1 addr2 nonce1 nonce2 ptk akmp cipher None kdk_len0 = (0, p) /\
    wpa_pmk_to_ptk pmk pairwise_key_expansion addr2 addr1 nonce2 nonce1 ptk akmp cipher None kdk_len0 = (0, p) /\
    wf_ptk p /\
    ptk_bytes p = ieee80211_ptk akmp pmk pairwise_key_expansion (ptk_data addr1 addr2 nonce1 nonce2)
                    (ptk_total akmp cipher pmk kdk_len0).
Proof.
  intros Hi Hp Hw Hk Hc H384.
  assert (Hi' : ptk_inputs pmk addr2 addr1 nonce2 nonce1) by (destruct Hi; by split).
  destruct (ptk_of_spec akmp cipher pmk kdk_len0
    (ieee80211_ptk akmp pmk pairwise_key_expansion (ptk_data addr1 addr2 nonce1 nonce2)
      (ptk_total akmp cipher pmk kdk_len0)) ptk Hw Hp Hk) as [H1 H2];
    [apply length_ieee80211_ptk|].
  eexists. split; [by apply wpa_pmk_to_ptk_eq|]. split; [|done].
  rewrite wpa_pmk_to_ptk_eq by done. by rewrite (ptk_data_comm pmk).
Qed.

(** C19: [wpa_eapol_key_mic] computes the integrity code that the key descriptor
    version names (HMAC-MD5, HMAC-SHA-1 cut to 16 bytes, AES-CMAC), and fails for
    the versions and suites the build does not know, or without a key. *)
Theorem eapol_key_mic_ieee80211 `{C : Crypto} `{L : !CryptoLaws C} sae key n akmp ver buf ctx :
  fragment_ok key -> fragment_ok buf -> buf <> [] -> (n <= length key)%nat -> 0 <= ver < 8 ->
  aes_encrypt_init (take 16 key) 16 = Some ctx ->
  wpa_eapol_key_mic sae key n akmp ver buf
  = if (n =? 0)%nat then None else ieee80211_mic sae ver akmp (take n key) ctx buf.
Proof.
  intros Hk Hb Hne Hn Hv Hc. unfold wpa_eapol_key_mic. case_match; [done|].
  assert (Hkn : fragment_ok (take n key)).
  { destruct Hk as [? ?]. split; [by apply wf_bytes_take|]. rewrite length_take. lia. }
  assert (Hv' : ver = 0 \/ ver = 1 \/ ver = 2 \/ ver = 3 \/ 3 < ver) by lia.
  unfold switch, ieee80211_mic, WPA_KEY_INFO_TYPE_HMAC_MD5_RC4, WPA_KEY_INFO_TYPE_HMAC_SHA1_AES,
    WPA_KEY_INFO_TYPE_AES_128_CMAC, WPA_KEY_INFO_TYPE_AKM_DEFINED.
  change (BIT 0) with 1. change (BIT 1) with 2.
  destruct Hv' as [->|[->|[->|[->|Hv']]]]; cbn [existsb orb Z.eqb andb].
  - case_match; [|done]. destruct Hk, Hb. by apply cmac_mic_cmac.
  - unfold hmac_md5. rewrite hmac_md5_vector_hmac; [|apply md5_stack_len|done|by constructor|cbn; lia].
    cbn [concat]. by rewrite app_nil_r.
  - unfold hmac_sha1. rewrite hmac_sha1_vector_hmac; [|apply sha1_stack_len|done|by constructor|cbn; lia].
    cbn [concat]. by rewrite app_nil_r.
  - destruct Hk, Hb. by apply cmac_mic_cmac.
  - repeat (rewrite (proj2 (Z.eqb_neq _ _)) by lia; cbn [existsb orb andb]). done.
Qed.

(** ** Witnesses: the example of IEEE 802.11 *)

(** Hostap's own implementations. *)
Definition internal_crypto : Crypto :=
  {| crypto_aes := ZeroedAes; md5_stack := Md5.some_context; sha1_stack := Sha1.some_context;
     sha256_stack := Sha256.some_context |}.
#[export] Instance internal_crypto_laws : CryptoLaws internal_crypto.
Proof. constructor; [exact ZeroedAes_laws|reflexivity..]. Qed.

Definition example_pmk : bytes :=
  [0x0d; 0xc0; 0xd6; 0xeb; 0x90; 0x55; 0x5e; 0xd6; 0x41; 0x97; 0x56; 0xb9; 0xa1; 0x5e; 0xc3; 0xe3;
   0x20; 0x9b; 0x63; 0xdf; 0x70; 0x7d; 0xd5; 0x08; 0xd1; 0x45; 0x81; 0xf8; 0x98; 0x27; 0x21; 0xaf].
Definition example_aa : bytes := [0xa0; 0xa1; 0xa1; 0xa3; 0xa4; 0xa5].
Definition example_spa : bytes := [0xb0; 0xb1; 0xb2; 0xb3; 0xb4; 0xb5].
Definition example_snonce : bytes := seqZ 0xc0 10 ++ seqZ 0xd0 16 ++ seqZ 0xe0 6.
Definition example_anonce : bytes := seqZ 0xe0 10 ++ seqZ 0xf0 16 ++ seqZ 0 6.

Lemma example_inputs : ptk_inputs example_pmk example_aa example_spa example_anonce example_snonce.
Proof.
  split; [apply fragment_ok_check; reflexivity|discriminate|..];
    (apply by_decision; vm_compute; reflexivity).
Qed.

Lemma ptk_ieee80211_witness :
  exists p,
    wpa_pmk_to_ptk (C := internal_crypto) example_pmk pairwise_key_expansion example_aa example_spa
      example_anonce example_snonce zero_ptk WPA_KEY_MGMT_PSK WPA_CIPHER_CCMP None 0 = (0, p) /\
    ptk_bytes p = be_encode 16 0x379f9852d0199236b94e407ce4c00ec8
               ++ be_encode 16 0x47c9edc01c2c6e5b4910caddfb3e51a7
               ++ be_encode 16 0xb2360c79e9710fdd58bea93deaf06599.
Proof.
  destruct (ptk_ieee80211 (C := internal_crypto) example_pmk example_aa example_spa example_anonce
    example_snonce zero_ptk WPA_KEY_MGMT_PSK WPA_CIPHER_CCMP 0 example_inputs) as (p & Hp & _ & _ & Hb).
  - vm_compute. lia.
  - exact wf_zero_ptk.
  - vm_compute. lia.
  - vm_compute. lia.
  - vm_compute. reflexivity.
  - exists p. split; [exact Hp|]. rewrite Hb. vm_compute. reflexivity.
Defined.

(** The KCK of the example and a buffer of 99 bytes. *)
Definition example_kck : bytes := be_encode 16 0x379f9852d0199236b94e407ce4c00ec8.
Lemma eapol_key_mic_ieee80211_witness :
  wpa_eapol_key_mic (C := internal_crypto) false example_kck 16 WPA_KEY_MGMT_PSK 2 (seqZ 0 99)
  = Some (take 16 (hmac Sha1.sha1 example_kck (seqZ 0 99))).
Proof.
  rewrite (eapol_key_mic_ieee80211 (C := internal_crypto) false example_kck 16 WPA_KEY_MGMT_PSK 2
    (seqZ 0 99) (default [] (aes_encrypt_init (Aes := ZeroedAes) example_kck 16))).
  - reflexivity.
  - apply fragment_ok_check; reflexivity.
  - apply fragment_ok_check; reflexivity.
  - discriminate.
  - vm_compute. lia.
  - lia.
  - vm_compute. reflexivity.
Defined.
