(* ===== verification/WpaKde.v ===== *)
(** * The key data of EAPOL-Key frames

    Hostap's [wpa_parse_kde_ies] of [common/wpa_common.c], which splits the key
    data of a received EAPOL-Key frame into elements and key data
    encapsulations, with [wpa_parse_generic] and [wpa_parse_vendor_specific],
    [wpa_compare_rsn_ie], and the writer [wpa_add_kde] of [ap/wpa_auth_ie.c].

    A pointer into the buffer is an offset.  Reads are checked: a function that
    reads a byte past the end of the buffer returns [None], as does a loop that
    does not end. *)

From S2P Require Import Prelude Bytes WpaKeys.

(** ** Constants ([wpa_common.h], [ieee802_11_defs.h]) *)

Definition RSN_SELECTOR_LEN : nat := 4.
Definition RSN_SELECTOR (a b c d : Z) : Z :=
  Z.lor (Z.lor (Z.lor (Z.shiftl a 24) (Z.shiftl b 16)) (Z.shiftl c 8)) d.

Definition RSN_KEY_DATA_GROUPKEY : Z := RSN_SELECTOR 0x00 0x0f 0xac 1.
Definition RSN_KEY_DATA_MAC_ADDR : Z := RSN_SELECTOR 0x00 0x0f 0xac 3.
Definition RSN_KEY_DATA_PMKID : Z := RSN_SELECTOR 0x00 0x0f 0xac 4.
Definition RSN_KEY_DATA_IGTK : Z := RSN_SELECTOR 0x00 0x0f 0xac 9.
Definition RSN_KEY_DATA_KEYID : Z := RSN_SELECTOR 0x00 0x0f 0xac 10.
Definition RSN_KEY_DATA_OCI : Z := RSN_SELECTOR 0x00 0x0f 0xac 13.
Definition RSN_KEY_DATA_BIGTK : Z := RSN_SELECTOR 0x00 0x0f 0xac 14.
Definition WFA_KEY_DATA_IP_ADDR_REQ : Z := RSN_SELECTOR 0x50 0x6f 0x9a 4.
Definition WFA_KEY_DATA_IP_ADDR_ALLOC : Z := RSN_SELECTOR 0x50 0x6f 0x9a 5.
Definition WFA_KEY_DATA_TRANSITION_DISABLE : Z := RSN_SELECTOR 0x50 0x6f 0x9a 0x20.
Definition WFA_KEY_DATA_DPP : Z := RSN_SELECTOR 0x50 0x6f 0x9a 0x21.
Definition WPA_OUI_TYPE : Z := RSN_SELECTOR 0x00 0x50 0xf2 1.
Definition OSEN_IE_VENDOR_TYPE : Z := 0x506f9a12.
Definition OUI_MICROSOFT : Z := 0x0050f2.
Definition WMM_OUI_TYPE : Z := 2.
Definition WMM_OUI_SUBTYPE_INFORMATION_ELEMENT : Z := 0.
Definition WMM_OUI_SUBTYPE_PARAMETER_ELEMENT : Z := 1.

Definition WLAN_EID_SUPP_RATES : Z := 1.
Definition WLAN_EID_SUPPORTED_CHANNELS : Z := 36.
Definition WLAN_EID_HT_CAP : Z := 45.
Definition WLAN_EID_QOS : Z := 46.
Definition WLAN_EID_RSN : Z := 48.
Definition WLAN_EID_EXT_SUPP_RATES : Z := 50.
Definition WLAN_EID_MOBILITY_DOMAIN : Z := 54.
Definition WLAN_EID_FAST_BSS_TRANSITION : Z := 55.
Definition WLAN_EID_TIMEOUT_INTERVAL : Z := 56.
Definition WLAN_EID_SUPPORTED_OPERATING_CLASSES : Z := 59.
Definition WLAN_EID_LINK_ID : Z := 101.
Definition WLAN_EID_EXT_CAPAB : Z := 127.
Definition WLAN_EID_VHT_CAP : Z := 191.
Definition WLAN_EID_VHT_AID : Z := 197.
Definition WLAN_EID_VENDOR_SPECIFIC : Z := 221.
Definition WLAN_EID_RSNX : Z := 244.
Definition WLAN_EID_EXTENSION : Z := 255.
Definition WLAN_EID_EXT_HE_CAPABILITIES : Z := 35.
Definition WLAN_EID_EXT_HE_6GHZ_BAND_CAP : Z := 59.
Definition WLAN_TIMEOUT_REASSOC_DEADLINE : Z := 1.
Definition WLAN_TIMEOUT_KEY_LIFETIME : Z := 2.
Definition IEEE80211_HE_CAPAB_MIN_LEN : nat := 6 + 11.
(** [sizeof] of [ieee80211_ht_capabilities], [ieee80211_vht_capabilities] and
    [ieee80211_he_6ghz_band_cap]. *)
Definition sizeof_ht_capabilities : nat := 2 + 1 + 16 + 2 + 4 + 1.
Definition sizeof_vht_capabilities : nat := 4 + 8.
Definition sizeof_he_6ghz_band_cap : nat := 2.

(** ** The result of the parser

    [struct wpa_eapol_ie_parse]; a pointer that has a length in C is a pair. *)
Abbreviation span := (option (nat * nat)).
Record wpa_eapol_ie_parse := mk_ies {
  wpa_ie : span; rsn_ie : span; pmkid : option nat; key_id : option nat; gtk : span; mac_addr : span;
  igtk : span; bigtk : span; mdie : span; ftie : span; ip_addr_req : option nat;
  ip_addr_alloc : option nat; transition_disable : span; dpp_kde : span; oci : span; osen : span;
  rsnxe : span; reassoc_deadline : option nat; key_lifetime : option nat; lnkid : span;
  ext_capab : span; supp_rates : span; ext_supp_rates : span; ht_capabilities : option nat;
  vht_capabilities : option nat; he_capabilities : span; he_6ghz_capabilities : option nat;
  supp_channels : span; supp_oper_classes : span; qosinfo : Z; aid : Z; wmm : span }.

(** [os_memset(ie, 0, sizeof] of it[)]. *)
Definition no_ies : wpa_eapol_ie_parse :=
  mk_ies None None None None None None None None None None None None None None None None None None None
    None None None None None None None None None None 0 0 None.

#[export] Instance ies_settable : Settable wpa_eapol_ie_parse :=
  fun i => mk_ies (wpa_ie i) (rsn_ie i) (pmkid i) (key_id i) (gtk i) (mac_addr i) (igtk i) (bigtk i)
    (mdie i) (ftie i) (ip_addr_req i) (ip_addr_alloc i) (transition_disable i) (dpp_kde i) (oci i)
    (osen i) (rsnxe i) (reassoc_deadline i) (key_lifetime i) (lnkid i) (ext_capab i) (supp_rates i)
    (ext_supp_rates i) (ht_capabilities i) (vht_capabilities i) (he_capabilities i)
    (he_6ghz_capabilities i) (supp_channels i) (supp_oper_classes i) (qosinfo i) (aid i) (wmm i).
#[export] Instance set_kde_wpa_ie : Setter wpa_ie := ltac:(solve_setter).
#[export] Instance set_kde_rsn_ie : Setter rsn_ie := ltac:(solve_setter).
#[export] Instance set_kde_pmkid : Setter pmkid := ltac:(solve_setter).
#[export] Instance set_kde_key_id : Setter key_id := ltac:(solve_setter).
#[export] Instance set_kde_gtk : Setter gtk := ltac:(solve_setter).
#[export] Instance set_kde_mac_addr : Setter mac_addr := ltac:(solve_setter).
#[export] Instance set_kde_igtk : Setter igtk := ltac:(solve_setter).
#[export] Instance set_kde_bigtk : Setter bigtk := ltac:(solve_setter).
#[export] Instance set_kde_mdie : Setter mdie := ltac:(solve_setter).
#[export] Instance set_kde_ftie : Setter ftie := ltac:(solve_setter).
#[export] Instance set_kde_ip_addr_req : Setter ip_addr_req := ltac:(solve_setter).
#[export] Instance set_kde_ip_addr_alloc : Setter ip_addr_alloc := ltac:(solve_setter).
#[export] Instance set_kde_transition_disable : Setter transition_disable := ltac:(solve_setter).
#[export] Instance set_kde_dpp_kde : Setter dpp_kde := ltac:(solve_setter).
#[export] Instance set_kde_oci : Setter oci := ltac:(solve_setter).
#[export] Instance set_kde_osen : Setter osen := ltac:(solve_setter).
#[export] Instance set_kde_rsnxe : Setter rsnxe := ltac:(solve_setter).
#[export] Instance set_kde_reassoc_deadline : Setter reassoc_deadline := ltac:(solve_setter).
#[export] Instance set_kde_key_lifetime : Setter key_lifetime := ltac:(solve_setter).
#[export] Instance set_kde_lnkid : Setter lnkid := ltac:(solve_setter).
#[export] Instance set_kde_ext_capab : Setter ext_capab := ltac:(solve_setter).
#[export] Instance set_kde_supp_rates : Setter supp_rates := ltac:(solve_setter).
#[export] Instance set_kde_ext_supp_rates : Setter ext_supp_rates := ltac:(solve_setter).
#[export] Instance set_kde_ht_capabilities : Setter ht_capabilities := ltac:(solve_setter).
#[export] Instance set_kde_vht_capabilities : Setter vht_capabilities := ltac:(solve_setter).
#[export] Instance set_kde_he_capabilities : Setter he_capabilities := ltac:(solve_setter).
#[export] Instance set_kde_he_6ghz_capabilities : Setter he_6ghz_capabilities := ltac:(solve_setter).
#[export] Instance set_kde_supp_channels : Setter supp_channels := ltac:(solve_setter).
#[export] Instance set_kde_supp_oper_classes : Setter supp_oper_classes := ltac:(solve_setter).
#[export] Instance set_kde_qosinfo : Setter qosinfo := ltac:(solve_setter).
#[export] Instance set_kde_aid : Setter aid := ltac:(solve_setter).
#[export] Instance set_kde_wmm : Setter wmm := ltac:(solve_setter).

(** ** The parser *)

Section parse.
Context (buf : bytes).

(** [pos[i]] and [&pos[i]] of [n] bytes. *)
Definition rd (i : nat) : option Z := buf !! i.
Definition rd_n (i n : nat) : option bytes :=
  if (i + n <=? length buf)%nat then Some (sub i n buf) else None.
Definition RSN_SELECTOR_GET (i : nat) : option Z := b ← rd_n i 4; Some (WPA_GET_BE32 b).

(** [pos[1] >= n && RSN_SELECTOR_GET(pos + 2) == sel]. *)
Definition kde_is (pos : nat) (len : nat) (n : nat) (sel : Z) : option bool :=
  if (n <=? len)%nat then v ← RSN_SELECTOR_GET (pos + 2); Some (v =? sel) else Some false.

(** The encapsulations [wpa_parse_generic] looks for after the WPA element, in
    its order: the least length, the selector, and what is stored ([d] is the
    first byte after the selector, [len] is [pos[1]]). *)
Definition kde_rules : list (nat * Z * (nat -> nat -> wpa_eapol_ie_parse -> wpa_eapol_ie_parse)) :=
  let d pos := (pos + 2 + RSN_SELECTOR_LEN)%nat in
  let n len := (len - RSN_SELECTOR_LEN)%nat in
  [(4%nat, OSEN_IE_VENDOR_TYPE, fun pos len ie => ie <| osen := Some (pos, (len + 2)%nat) |>);
   ((RSN_SELECTOR_LEN + PMKID_LEN)%nat, RSN_KEY_DATA_PMKID, fun pos len ie => ie <| pmkid := Some (d pos) |>);
   ((RSN_SELECTOR_LEN + 2)%nat, RSN_KEY_DATA_KEYID, fun pos len ie => ie <| key_id := Some (d pos) |>);
   ((RSN_SELECTOR_LEN + 3)%nat, RSN_KEY_DATA_GROUPKEY, fun pos len ie => ie <| gtk := Some (d pos, n len) |>);
   ((RSN_SELECTOR_LEN + 3)%nat, RSN_KEY_DATA_MAC_ADDR, fun pos len ie => ie <| mac_addr := Some (d pos, n len) |>);
   ((RSN_SELECTOR_LEN + 3)%nat, RSN_KEY_DATA_IGTK, fun pos len ie => ie <| igtk := Some (d pos, n len) |>);
   ((RSN_SELECTOR_LEN + 3)%nat, RSN_KEY_DATA_BIGTK, fun pos len ie => ie <| bigtk := Some (d pos, n len) |>);
   ((RSN_SELECTOR_LEN + 1)%nat, WFA_KEY_DATA_IP_ADDR_REQ, fun pos len ie => ie <| ip_addr_req := Some (d pos) |>);
   ((RSN_SELECTOR_LEN + 3 * 4)%nat, WFA_KEY_DATA_IP_ADDR_ALLOC, fun pos len ie => ie <| ip_addr_alloc := Some (d pos) |>);
   ((RSN_SELECTOR_LEN + 3)%nat, RSN_KEY_DATA_OCI, fun pos len ie => ie <| oci := Some (d pos, n len) |>);
   ((RSN_SELECTOR_LEN + 1)%nat, WFA_KEY_DATA_TRANSITION_DISABLE, fun pos len ie => ie <| transition_disable := Some (d pos, n len) |>);
   ((RSN_SELECTOR_LEN + 2)%nat, WFA_KEY_DATA_DPP, fun pos len ie => ie <| dpp_kde := Some (d pos, n len) |>)].

(** The [if]s in sequence; 2 when none applies. *)
Fixpoint try_rules (rules : list (nat * Z * (nat -> nat -> wpa_eapol_ie_parse -> wpa_eapol_ie_parse)))
    (pos len : nat) (ie : wpa_eapol_ie_parse) : option (Z * wpa_eapol_ie_parse) :=
  match rules with
  | [] => Some (2, ie)
  | (n, sel, store) :: rules =>
    found ← kde_is pos len n sel;
    if found : bool then Some (0, store pos len ie) else try_rules rules pos len ie
  end.

Definition wpa_parse_generic (pos : nat) (ie : wpa_eapol_ie_parse) : option (Z * wpa_eapol_ie_parse) :=
  l ← rd (pos + 1);
  let len := Z.to_nat l in
  if l =? 0 then Some (1, ie)
  else
    wpa ← kde_is pos len 6 WPA_OUI_TYPE;
    wpa ← (if wpa : bool then
             v0 ← rd (pos + 2 + 4);
             if v0 =? 1 then v1 ← rd (pos + 2 + 4 + 1); Some (v1 =? 0) else Some false
           else Some false);
    if wpa : bool then Some (0, ie <| wpa_ie := Some (pos, (len + 2)%nat) |>)
    else try_rules kde_rules pos len ie.

Definition wpa_parse_vendor_specific (pos : nat) (ie : wpa_eapol_ie_parse) : option wpa_eapol_ie_parse :=
  l ← rd (pos + 1);
  let len := Z.to_nat l in
  if l <? 4 then Some ie
  else
    b ← rd_n (pos + 2) 3;
    let oui := WPA_GET_BE24 b in
    if oui =? OUI_MICROSOFT then
      t ← rd (pos + 5);
      if (t =? WMM_OUI_TYPE) && (4 <? l) then
        s ← rd (pos + 6);
        if s =? WMM_OUI_SUBTYPE_INFORMATION_ELEMENT then Some (ie <| wmm := Some ((pos + 2)%nat, len) |>)
        else if s =? WMM_OUI_SUBTYPE_PARAMETER_ELEMENT then Some (ie <| wmm := Some ((pos + 2)%nat, len) |>)
        else Some ie
      else Some ie
    else Some ie.

(** One element that fits the buffer: whether the end mark was found, and the
    result so far. *)
Definition parse_element (pos : nat) (id : Z) (len : nat) (ie : wpa_eapol_ie_parse) :
    option (bool * wpa_eapol_ie_parse) :=
  let whole := Some (pos, (len + 2)%nat) in
  let body := (pos + 2)%nat in
  let next ie := Some (false, ie) in
  if id =? WLAN_EID_RSN then next (ie <| rsn_ie := whole |>)
  else if id =? WLAN_EID_RSNX then next (ie <| rsnxe := whole |>)
  else if id =? WLAN_EID_MOBILITY_DOMAIN then next (ie <| mdie := whole |>)
  else if id =? WLAN_EID_FAST_BSS_TRANSITION then next (ie <| ftie := whole |>)
  else if (id =? WLAN_EID_TIMEOUT_INTERVAL) && (5 <=? len)%nat then
    t ← rd (pos + 2);
    if t =? WLAN_TIMEOUT_REASSOC_DEADLINE then next (ie <| reassoc_deadline := Some pos |>)
    else if t =? WLAN_TIMEOUT_KEY_LIFETIME then next (ie <| key_lifetime := Some pos |>)
    else next ie
  else if id =? WLAN_EID_LINK_ID then
    if (18 <=? len)%nat then next (ie <| lnkid := whole |>) else next ie
  else if id =? WLAN_EID_EXT_CAPAB then next (ie <| ext_capab := whole |>)
  else if id =? WLAN_EID_SUPP_RATES then next (ie <| supp_rates := whole |>)
  else if id =? WLAN_EID_EXT_SUPP_RATES then next (ie <| ext_supp_rates := whole |>)
  else if (id =? WLAN_EID_HT_CAP) && (sizeof_ht_capabilities <=? len)%nat then
    next (ie <| ht_capabilities := Some body |>)
  else if id =? WLAN_EID_VHT_AID then
    if (2 <=? len)%nat then
      b ← rd_n (pos + 2) 2; next (ie <| aid := Z.land (WPA_GET_LE16 b) 0x3fff |>)
    else next ie
  else if (id =? WLAN_EID_VHT_CAP) && (sizeof_vht_capabilities <=? len)%nat then
    next (ie <| vht_capabilities := Some body |>)
  else if id =? WLAN_EID_EXTENSION then
    (* the two conditions read [pos[2]] when the element is long enough *)
    he ← (if (1 + IEEE80211_HE_CAPAB_MIN_LEN <=? len)%nat then
            t ← rd (pos + 2); Some (t =? WLAN_EID_EXT_HE_CAPABILITIES) else Some false);
    if he : bool then next (ie <| he_capabilities := Some ((pos + 3)%nat, (len - 1)%nat) |>)
    else
      band ← (if (1 + sizeof_he_6ghz_band_cap <=? len)%nat then
                t ← rd (pos + 2); Some (t =? WLAN_EID_EXT_HE_6GHZ_BAND_CAP) else Some false);
      if band : bool then next (ie <| he_6ghz_capabilities := Some (pos + 3)%nat |>) else next ie
  else if (id =? WLAN_EID_QOS) && (1 <=? len)%nat then
    q ← rd (pos + 2); next (ie <| qosinfo := q |>)
  else if id =? WLAN_EID_SUPPORTED_CHANNELS then next (ie <| supp_channels := Some (body, len) |>)
  else if id =? WLAN_EID_SUPPORTED_OPERATING_CLASSES then
    if (2 <=? len)%nat && (len <=? 253)%nat then next (ie <| supp_oper_classes := Some (body, len) |>)
    else next ie
  else if id =? WLAN_EID_VENDOR_SPECIFIC then
    '(ret, ie) ← wpa_parse_generic pos ie;
    if ret =? 1 then Some (true, ie)
    else if ret =? 2 then ie ← wpa_parse_vendor_specific pos ie; next ie
    else next ie
  else next ie.

(** [for (pos = buf, end = pos + len; end - pos > 1; pos += 2 + pos[1])]. *)
Fixpoint parse_loop (fuel : nat) (pos : nat) (ie : wpa_eapol_ie_parse) : option (Z * wpa_eapol_ie_parse) :=
  match fuel with
  | O => None
  | S fuel =>
    if (1 <? length buf - pos)%nat then
      id ← rd pos;
      l ← rd (pos + 1);
      let len := Z.to_nat l in
      if (id =? 0xdd) && ((pos =? length buf - 1)%nat || (l =? 0)) then Some (0, ie)
      else if (length buf - pos <? 2 + len)%nat then Some (-1, ie)
      else
        '(end_mark, ie) ← parse_element pos id len ie;
        if end_mark : bool then Some (0, ie) else parse_loop fuel (pos + (2 + len)) ie
    else Some (0, ie)
  end.

(** The C return value and the contents of [ie]. *)
Definition wpa_parse_kde_ies : option (Z * wpa_eapol_ie_parse) := parse_loop (S (length buf)) 0 no_ies.
End parse.

(** ** Comparing and writing elements *)

(** [ie1] and [ie2] are [None] for [NULL]; without [CONFIG_IEEE80211R] the
    argument [ft_initial_assoc] is not used. *)
Definition wpa_compare_rsn_ie (ie1 ie2 : option bytes) : Z :=
  match ie1, ie2 with
  | Some ie1, Some ie2 =>
    if (length ie1 =? length ie2)%nat && same (length ie1) ie1 ie2 then 0 else -1
  | _, _ => -1
  end.

(** The bytes written; the length is an octet. *)
Definition wpa_add_kde (kde : Z) (data : bytes) (data2 : option bytes) : bytes :=
  let data2 := default [] data2 in
  [WLAN_EID_VENDOR_SPECIFIC; u8 (Z.of_nat (RSN_SELECTOR_LEN + length data + length data2))] ++
  WPA_PUT_BE32 kde ++ data ++ data2.

(** ** The parser stays in its buffer *)

(** The memory behind each pointer: its length in C, or what the code and the
    comments of its users take it to point to. *)
Definition spans (ie : wpa_eapol_ie_parse) : list span :=
  let fixed (n : nat) (p : option nat) : span := (fun p => (p, n)) <$> p in
  [wpa_ie ie; rsn_ie ie; fixed PMKID_LEN (pmkid ie); fixed 2%nat (key_id ie); gtk ie; mac_addr ie; igtk ie;
   bigtk ie; mdie ie; ftie ie; fixed 1%nat (ip_addr_req ie); fixed 12%nat (ip_addr_alloc ie);
   transition_disable ie; dpp_kde ie; oci ie; osen ie; rsnxe ie; fixed 7%nat (reassoc_deadline ie);
   fixed 7%nat (key_lifetime ie); lnkid ie; ext_capab ie; supp_rates ie; ext_supp_rates ie;
   fixed sizeof_ht_capabilities (ht_capabilities ie); fixed sizeof_vht_capabilities (vht_capabilities ie);
   he_capabilities ie; fixed sizeof_he_6ghz_band_cap (he_6ghz_capabilities ie); supp_channels ie;
   supp_oper_classes ie; wmm ie].

Definition span_fits (size : nat) (s : span) : Prop :=
  match s with Some (p, n) => (p + n <= size)%nat | None => True end.
Definition ies_fit (size : nat) (ie : wpa_eapol_ie_parse) : Prop := Forall (span_fits size) (spans ie).

(** The spans after an update are the old ones with one replaced. *)
Lemma fits_set size k s ie ie' :
  spans ie' = <[k := s]> (spans ie) -> span_fits size s -> ies_fit size ie -> ies_fit size ie'.
Proof. unfold ies_fit. intros -> Hs Hie. by apply Forall_insert. Qed.

(** Reads a field of an updated result. *)
Ltac kde_simpl :=
  cbn [set set_kde_wpa_ie set_kde_rsn_ie set_kde_pmkid set_kde_key_id set_kde_gtk set_kde_mac_addr
  set_kde_igtk set_kde_bigtk set_kde_mdie set_kde_ftie set_kde_ip_addr_req set_kde_ip_addr_alloc
  set_kde_transition_disable set_kde_dpp_kde set_kde_oci set_kde_osen set_kde_rsnxe
  set_kde_reassoc_deadline set_kde_key_lifetime set_kde_lnkid set_kde_ext_capab set_kde_supp_rates
  set_kde_ext_supp_rates set_kde_ht_capabilities set_kde_vht_capabilities set_kde_he_capabilities
  set_kde_he_6ghz_capabilities set_kde_supp_channels set_kde_supp_oper_classes set_kde_qosinfo
  set_kde_aid set_kde_wmm wpa_ie rsn_ie pmkid key_id gtk mac_addr igtk bigtk mdie ftie ip_addr_req
  ip_addr_alloc transition_disable dpp_kde oci osen rsnxe reassoc_deadline key_lifetime lnkid
  ext_capab supp_rates ext_supp_rates ht_capabilities vht_capabilities he_capabilities
  he_6ghz_capabilities supp_channels supp_oper_classes qosinfo aid wmm].

Ltac unfold_sizes := unfold PMKID_LEN, RSN_SELECTOR_LEN, sizeof_ht_capabilities, sizeof_vht_capabilities,
  sizeof_he_6ghz_band_cap, IEEE80211_HE_CAPAB_MIN_LEN in *.

(** [fits_at k]: the [k]-th span was set to memory inside the buffer. *)
Ltac fits_at k :=
  match goal with
  | H : ies_fit ?n ?ie |- ies_fit ?n ?ie' =>
    refine (fits_set n k _ ie ie' eq_refl _ H);
    repeat match goal with E : (_ <=? _)%nat = true |- _ => apply Nat.leb_le in E end;
    kde_simpl; cbn [span_fits fmap option_fmap option_map]; unfold_sizes; lia
  end.
Ltac fits_from k :=
  lazymatch k with 30%nat => fail | _ => first [fits_at k | fits_from (S k)] end.
Ltac fits_tac := fits_from 0%nat.

Section fits.
Context (buf : bytes).

Lemma rd_ok i : (i < length buf)%nat -> exists b, rd buf i = Some b.
Proof. apply lookup_lt_is_Some_2. Qed.
Lemma rd_n_ok i n : (i + n <= length buf)%nat -> exists b, rd_n buf i n = Some b /\ length b = n.
Proof.
  intros H. unfold rd_n. destruct (Nat.leb_spec (i + n) (length buf)); [|lia].
  eexists. split; [done|]. by apply length_sub.
Qed.

Lemma kde_is_ok pos len n sel :
  (pos + 2 + len <= length buf)%nat -> (4 <= n)%nat -> exists b, kde_is buf pos len n sel = Some b /\ (b = true -> n <= len)%nat.
Proof.
  intros Hb Hn. unfold kde_is. destruct (Nat.leb_spec n len).
  - unfold RSN_SELECTOR_GET. destruct (rd_n_ok (pos + 2) 4 ltac:(lia)) as (b & Hb' & _). rewrite Hb'.
    cbn [mbind option_bind]. eauto.
  - exists false. by split.
Qed.

(** A rule stores memory inside its element. *)
Definition rule_fits (r : nat * Z * (nat -> nat -> wpa_eapol_ie_parse -> wpa_eapol_ie_parse)) : Prop :=
  (4 <= r.1.1)%nat /\
  forall pos len ie, (r.1.1 <= len)%nat -> (pos + 2 + len <= length buf)%nat ->
    ies_fit (length buf) ie -> ies_fit (length buf) (r.2 pos len ie).

Lemma kde_rules_fit : Forall rule_fits kde_rules.
Proof.
  unfold kde_rules. unfold_sizes.
  repeat (apply Forall_cons; split;
    [split; cbn [fst snd]; [lia|intros pos len ie Hlen Hpos Hie; fits_tac]|]).
  apply Forall_nil. exact I.
Qed.

Lemma try_rules_fit rules pos len ie :
  Forall rule_fits rules -> (pos + 2 + len <= length buf)%nat -> ies_fit (length buf) ie ->
  exists r ie', try_rules buf rules pos len ie = Some (r, ie') /\ ies_fit (length buf) ie'.
Proof.
  intros Hr Hp Hie. induction Hr as [|[[n sel] store] rules [Hn Hs] Hr IH]; [by exists 2, ie|].
  cbn [try_rules fst snd] in *. destruct (kde_is_ok pos len n sel Hp Hn) as ([] & Hk & Hl); rewrite Hk;
    cbn [mbind option_bind]; [|done].
  exists 0, (store pos len ie). split; [done|]. apply Hs; [by apply Hl|done..].
Qed.

Lemma parse_generic_fit pos ie l :
  rd buf (pos + 1) = Some l -> (pos + 2 + Z.to_nat l <= length buf)%nat -> ies_fit (length buf) ie ->
  exists r ie', wpa_parse_generic buf pos ie = Some (r, ie') /\ ies_fit (length buf) ie'.
Proof.
  intros Hl Hp Hie. unfold wpa_parse_generic. rewrite Hl. cbn [mbind option_bind]. case_match; [eauto|].
  destruct (kde_is_ok pos (Z.to_nat l) 6 WPA_OUI_TYPE Hp ltac:(lia)) as ([] & Hk & H6); rewrite Hk;
    cbn [mbind option_bind].
  - specialize (H6 eq_refl). destruct (rd_ok (pos + 2 + 4) ltac:(lia)) as [v0 H0]. rewrite H0.
    cbn [mbind option_bind]. destruct (v0 =? 1); cbn [mbind option_bind].
    + destruct (rd_ok (pos + 2 + 4 + 1) ltac:(lia)) as [v1 H1]. rewrite H1. cbn [mbind option_bind].
      destruct (v1 =? 0); [|by apply try_rules_fit; [apply kde_rules_fit|..] ].
      eexists _, _. split; [done|]. fits_tac.
    + by apply try_rules_fit; [apply kde_rules_fit|..].
  - by apply try_rules_fit; [apply kde_rules_fit|..].
Qed.

Lemma parse_vendor_specific_fit pos ie l :
  rd buf (pos + 1) = Some l -> (pos + 2 + Z.to_nat l <= length buf)%nat -> ies_fit (length buf) ie ->
  exists ie', wpa_parse_vendor_specific buf pos ie = Some ie' /\ ies_fit (length buf) ie'.
Proof.
  intros Hl Hp Hie. unfold wpa_parse_vendor_specific. rewrite Hl. cbn [mbind option_bind].
  destruct (Z.ltb_spec l 4); [eauto|].
  destruct (rd_n_ok (pos + 2) 3 ltac:(lia)) as (b & Hb & _). rewrite Hb. cbn [mbind option_bind].
  case_match; [|eauto]. destruct (rd_ok (pos + 5) ltac:(lia)) as [t Ht]. rewrite Ht. cbn [mbind option_bind].
  destruct (t =? WMM_OUI_TYPE); cbn [andb]; [|eauto]. destruct (Z.ltb_spec 4 l); [|eauto].
  destruct (rd_ok (pos + 6) ltac:(lia)) as [s Hs]. rewrite Hs. cbn [mbind option_bind].
  repeat case_match; (eexists; split; [done|]); first [done | fits_tac].
Qed.

Lemma vendor_element_fit pos l ie :
  rd buf (pos + 1) = Some l -> (pos + 2 + Z.to_nat l <= length buf)%nat -> ies_fit (length buf) ie ->
  exists stop ie',
    ('(ret, ie) ← wpa_parse_generic buf pos ie;
     if ret =? 1 then Some (true, ie)
     else if ret =? 2 then ie ← wpa_parse_vendor_specific buf pos ie; Some (false, ie)
     else Some (false, ie)) = Some (stop, ie') /\ ies_fit (length buf) ie'.
Proof.
  intros Hl Hp Hie. destruct (parse_generic_fit pos ie l Hl Hp Hie) as (r & ie' & Hg & Hie').
  rewrite Hg. cbn [mbind option_bind]. destruct (r =? 1); [eauto|]. destruct (r =? 2); [|eauto].
  destruct (parse_vendor_specific_fit pos ie' l Hl Hp Hie') as (ie'' & Hv & Hie''). rewrite Hv. eauto.
Qed.

Lemma parse_element_fit pos id l ie :
  rd buf (pos + 1) = Some l -> (pos + 2 + Z.to_nat l <= length buf)%nat -> ies_fit (length buf) ie ->
  exists stop ie', parse_element buf pos id (Z.to_nat l) ie = Some (stop, ie') /\ ies_fit (length buf) ie'.
Proof.
  intros Hl Hp Hie. pose proof (vendor_element_fit pos l ie Hl Hp Hie) as Hvendor.
  unfold parse_element. set (len := Z.to_nat l) in *.
  assert (Hrd : (1 <= len)%nat -> exists t, rd buf (pos + 2) = Some t) by (intros; apply rd_ok; lia).
  assert (Hrd2 : (2 <= len)%nat -> exists b, rd_n buf (pos + 2) 2 = Some b).
  { intros. destruct (rd_n_ok (pos + 2) 2 ltac:(lia)) as (b & Hb & _). eauto. }
  assert (Hret : forall ie', ies_fit (length buf) ie' ->
    exists stop ie'', Some (false, ie') = Some (stop, ie'') /\ ies_fit (length buf) ie'') by eauto.
  repeat match goal with
    | |- context [if ?b then _ else _] =>
      lazymatch b with
      | (_ =? WLAN_EID_VENDOR_SPECIFIC) => destruct b; [exact Hvendor|]
      | _ && _ => let E := fresh "E" in destruct b eqn:E; [apply andb_true_iff in E as [_ E]|clear E]
      | _ => let E := fresh "E" in destruct b eqn:E
      end; try (apply Hret; first [exact Hie | fits_tac])
    | E : (_ <=? len)%nat = true |- _ => apply Nat.leb_le in E
    | |- context [rd buf (pos + 2)] =>
      destruct Hrd as [? ->]; [unfold_sizes; lia|]; cbn [mbind option_bind]
    | |- context [rd_n buf (pos + 2) 2] =>
      destruct Hrd2 as [? ->]; [lia|]; cbn [mbind option_bind]; apply Hret; exact Hie
    | |- _ => progress cbn [mbind option_bind]
    | |- _ => apply Hret; first [exact Hie | fits_tac]
    end.
Qed.

Lemma parse_loop_fit fuel pos ie :
  (length buf - pos < fuel)%nat -> ies_fit (length buf) ie ->
  exists r ie', parse_loop buf fuel pos ie = Some (r, ie') /\ (r = 0 \/ r = -1) /\ ies_fit (length buf) ie'.
Proof.
  revert pos ie. induction fuel as [|fuel IH]; intros pos ie Hf Hie; cbn [parse_loop]; [lia|].
  destruct (Nat.ltb_spec 1 (length buf - pos)); [|eauto 6].
  destruct (rd_ok pos ltac:(lia)) as [id Hid]. rewrite Hid. cbn [mbind option_bind].
  destruct (rd_ok (pos + 1) ltac:(lia)) as [l Hl]. rewrite Hl. cbn [mbind option_bind].
  case_match; [eauto 6|]. destruct (Nat.ltb_spec (length buf - pos) (2 + Z.to_nat l)); [eauto 6|].
  destruct (parse_element_fit pos id l ie Hl ltac:(lia) Hie) as (stop & ie' & He & Hie'). rewrite He.
  cbn [mbind option_bind]. destruct stop; [eauto 6|]. apply IH; [lia|done].
Qed.

Lemma no_ies_fit size : ies_fit size no_ies.
Proof. unfold ies_fit, spans. repeat (apply Forall_cons; split; [exact I|]). by apply Forall_nil. Qed.
End fits.

(** C20: the parser of key data is memory safe and total: for every buffer
    [wpa_parse_kde_ies] returns 0 or -1 after a number of passes bounded by the
    length, reads no byte outside the buffer, and each pointer it stores has the
    memory its users rely on (its length, a PMKID, a MAC address, a capability
    structure) inside the buffer. *)
Theorem parse_kde_in_bounds buf :
  exists r ie, wpa_parse_kde_ies buf = Some (r, ie) /\ (r = 0 \/ r = -1) /\ ies_fit (length buf) ie.
Proof. apply parse_loop_fit; [lia|apply no_ies_fit]. Qed.

(** ** Elements as the standard writes them *)

(** An element: identifier and at most 255 bytes. *)
Definition element : Type := Z * bytes.
Definition wf_element (e : element) : Prop :=
  is_byte e.1 /\ (length e.2 <= 255)%nat /\ ~ (e.1 = WLAN_EID_VENDOR_SPECIFIC /\ e.2 = []).
Definition encode (e : element) : bytes := e.1 :: Z.of_nat (length e.2) :: e.2.
Definition encode_all (l : list element) : bytes := mjoin (encode <$> l).

(** The padding of encrypted key data: 0xdd and zeros, or nothing. *)
Definition padding (pad : bytes) : Prop := pad = [] \/ exists n, pad = 0xdd :: replicate n 0.

(** The selector of a vendor-specific element, and the group key encapsulation. *)
Definition selector (e : element) : Z := WPA_GET_BE32 (take 4 e.2).
Definition is_group_key (e : element) : bool :=
  (e.1 =? WLAN_EID_VENDOR_SPECIFIC) && (RSN_SELECTOR_LEN + 3 <=? length e.2)%nat &&
  (selector e =? RSN_KEY_DATA_GROUPKEY).

Section at_element.
Context (pre post : bytes) (e : element).
Hypothesis e_ok : wf_element e.
Let buf : bytes := pre ++ encode e ++ post.
Let pos : nat := length pre.

Lemma length_buf : length buf = (pos + (2 + length e.2) + length post)%nat.
Proof. unfold buf, pos, encode. rewrite !length_app. cbn [length]. lia. Qed.

Lemma rd_id : rd buf pos = Some e.1.
Proof. unfold rd, buf, pos. rewrite lookup_app_r, Nat.sub_diag by lia. done. Qed.
Lemma rd_len : rd buf (pos + 1) = Some (Z.of_nat (length e.2)).
Proof.
  unfold rd, buf, pos. rewrite lookup_app_r by lia.
  replace (length pre + 1 - length pre)%nat with 1%nat by lia. done.
Qed.

Lemma rd_selector : (4 <= length e.2)%nat -> RSN_SELECTOR_GET buf (pos + 2) = Some (selector e).
Proof.
  intros H. unfold RSN_SELECTOR_GET, rd_n. pose proof length_buf. case_match eqn:E; [|apply Nat.leb_gt in E; lia].
  cbn [mbind option_bind]. unfold selector. do 2 f_equal. unfold sub, buf, pos.
  rewrite drop_app_ge by lia. replace (length pre + 2 - length pre)%nat with 2%nat by lia.
  change (drop 2 (encode e ++ post)) with (e.2 ++ post). by rewrite take_app_le by lia.
Qed.

Lemma kde_is_selector n sel :
  (4 <= n)%nat -> kde_is buf pos (length e.2) n sel = Some ((n <=? length e.2)%nat && (selector e =? sel)).
Proof.
  intros Hn. unfold kde_is. destruct (Nat.leb_spec n (length e.2)); [|done].
  rewrite rd_selector by lia. done.
Qed.

(** The group key is stored by its own encapsulation only. *)
Definition gtk_after (ie : wpa_eapol_ie_parse) : span :=
  if is_group_key e then Some ((pos + 6)%nat, (length e.2 - 4)%nat) else gtk ie.

Lemma other_selector ie sel :
  selector e = sel -> sel <> RSN_KEY_DATA_GROUPKEY -> gtk ie = gtk_after ie.
Proof.
  intros Hs Hne. unfold gtk_after, is_group_key. apply Z.eqb_neq in Hne. by rewrite Hs, Hne, andb_false_r.
Qed.

Lemma rules_gtk ie r ie' :
  e.1 = WLAN_EID_VENDOR_SPECIFIC ->
  try_rules buf kde_rules pos (length e.2) ie = Some (r, ie') ->
  gtk ie' = gtk_after ie /\ (r = 0 \/ r = 2).
Proof.
  intros Hid. unfold kde_rules. cbn [try_rules].
  repeat (rewrite kde_is_selector by (unfold_sizes; lia)). intros H.
  assert (Hg : is_group_key e = (RSN_SELECTOR_LEN + 3 <=? length e.2)%nat && (selector e =? RSN_KEY_DATA_GROUPKEY))
    by (unfold is_group_key; by rewrite Hid).
  repeat (cbn [mbind option_bind] in H;
    match type of H with
    | (if ?b then _ else _) = _ =>
      let E := fresh "E" in
      destruct b eqn:E; [injection H as <- <-; kde_simpl; split; [|by left];
        apply andb_true_iff in E as [_ E%Z.eqb_eq];
        first [ by apply (other_selector ie _ E)
              | unfold gtk_after; rewrite Hg; do 2 f_equal; unfold_sizes; lia ]|]
    end).
  cbn [mbind option_bind] in H. injection H as <- <-. split; [|by right]. unfold gtk_after. by rewrite Hg.
Qed.

Lemma vendor_specific_gtk ie ie' : wpa_parse_vendor_specific buf pos ie = Some ie' -> gtk ie' = gtk ie.
Proof.
  unfold wpa_parse_vendor_specific. intros H.
  repeat match type of H with
    | ?o ≫= _ = Some _ => destruct o; cbn [mbind option_bind] in H; [|done]
    | (if ?b then _ else _) = Some _ => destruct b
    | Some _ = Some _ => injection H as <-
    end; done.
Qed.

Lemma generic_gtk ie r ie' :
  e.1 = WLAN_EID_VENDOR_SPECIFIC ->
  wpa_parse_generic buf pos ie = Some (r, ie') -> gtk ie' = gtk_after ie /\ (r = 0 \/ r = 2).
Proof using e_ok.
  intros Hid. destruct e_ok as (_ & _ & Hne). unfold wpa_parse_generic. rewrite rd_len.
  cbn [mbind option_bind]. rewrite Nat2Z.id.
  destruct (Z.eqb_spec (Z.of_nat (length e.2)) 0) as [E|_].
  { exfalso. apply Hne. split; [done|]. apply length_zero_iff_nil. lia. }
  rewrite kde_is_selector by lia. cbn [mbind option_bind].
  destruct ((6 <=? length e.2)%nat && (selector e =? WPA_OUI_TYPE)) eqn:E;
    cbn [mbind option_bind]; [|by apply rules_gtk].
  apply andb_true_iff in E as [_ E%Z.eqb_eq].
  destruct (rd buf (pos + 2 + 4)) as [v0|]; [|done]. cbn [mbind option_bind].
  destruct (v0 =? 1); cbn [mbind option_bind]; [|by apply rules_gtk].
  destruct (rd buf (pos + 2 + 4 + 1)) as [v1|]; [|done]. cbn [mbind option_bind].
  destruct (v1 =? 0); [|by apply rules_gtk]. intros H. injection H as <- <-. kde_simpl.
  split; [|by left]. by apply (other_selector ie _ E).
Qed.

Lemma element_gtk ie stop ie' :
  parse_element buf pos e.1 (length e.2) ie = Some (stop, ie') ->
  stop = false /\ gtk ie' = gtk_after ie.
Proof using e_ok.
  destruct (Z.eqb_spec e.1 WLAN_EID_VENDOR_SPECIFIC) as [Hid|Hid].
  - unfold parse_element. rewrite Hid. cbn [Z.eqb andb]. intros H.
    assert (Hv : ('(ret, ie) ← wpa_parse_generic buf pos ie;
      if ret =? 1 then Some (true, ie)
      else if ret =? 2 then ie ← wpa_parse_vendor_specific buf pos ie; Some (false, ie)
      else Some (false, ie)) = Some (stop, ie')) by exact H. clear H.
    destruct (wpa_parse_generic buf pos ie) as [[r ie1]|] eqn:Hg; [|done].
    apply generic_gtk in Hg as [Hg Hr]; [|done]. cbn [mbind option_bind] in Hv.
    destruct Hr as [-> | ->]; cbn [Z.eqb] in Hv; [by injection Hv as <- <-|].
    cbn in Hv. destruct (wpa_parse_vendor_specific buf pos ie1) as [ie2|] eqn:Hs; [|done].
    injection Hv as <- <-. apply vendor_specific_gtk in Hs. by rewrite Hs.
  - assert (Eg : gtk_after ie = gtk ie).
    { unfold gtk_after, is_group_key. apply Z.eqb_neq in Hid. by rewrite Hid. }
    rewrite Eg. apply Z.eqb_neq in Hid. unfold parse_element. rewrite Hid. intros H.
    repeat match type of H with
      | (if ?b then _ else _) = Some _ => destruct b
      | ?o ≫= _ = Some _ => destruct o; cbn [mbind option_bind] in H; [|done]
      | Some _ = Some _ => injection H as <- <-
      | (if ?b then _ else _) ≫= _ = Some _ => destruct b
      end; done.
Qed.
End at_element.

(** ** What the writer puts in, the parser finds *)

(** The group key among elements: the last one wins. *)
Fixpoint gtk_of (pos : nat) (l : list element) (old : span) : span :=
  match l with
  | [] => old
  | e :: l => gtk_of (pos + (2 + length e.2)) l
                (if is_group_key e then Some ((pos + 6)%nat, (length e.2 - 4)%nat) else old)
  end.

Lemma encode_all_cons e l : encode_all (e :: l) = encode e ++ encode_all l.
Proof. done. Qed.
Lemma encode_all_app l k : encode_all (l ++ k) = encode_all l ++ encode_all k.
Proof. unfold encode_all. by rewrite fmap_app, join_app. Qed.
Lemma length_encode e : length (encode e) = (2 + length e.2)%nat.
Proof. done. Qed.

Lemma loop_padding pre pad fuel ie :
  padding pad -> parse_loop (pre ++ pad) (S fuel) (length pre) ie = Some (0, ie).
Proof.
  intros Hp. cbn [parse_loop]. rewrite length_app.
  replace (length pre + length pad - length pre)%nat with (length pad) by lia.
  destruct Hp as [->|[n ->]]; [done|]. cbn [length]. rewrite length_replicate.
  destruct n as [|n]; [done|]. cbn [Nat.ltb Nat.leb]. unfold rd.
  rewrite !lookup_app_r, Nat.sub_diag by lia.
  replace (length pre + 1 - length pre)%nat with 1%nat by lia. cbn. by rewrite orb_true_r.
Qed.

Lemma loop_gtk l pre pad fuel ie :
  Forall wf_element l -> padding pad ->
  (length (encode_all l ++ pad) < fuel)%nat -> ies_fit (length (pre ++ encode_all l ++ pad)) ie ->
  exists ie', parse_loop (pre ++ encode_all l ++ pad) fuel (length pre) ie = Some (0, ie') /\
    gtk ie' = gtk_of (length pre) l (gtk ie).
Proof.
  intros Hl Hpad. revert pre fuel ie. induction Hl as [|e l He Hl IH]; intros pre fuel ie Hf Hie.
  - destruct fuel as [|fuel]; [lia|]. exists ie. split; [by apply loop_padding|done].
  - rewrite encode_all_cons, <- app_assoc in *. destruct fuel as [|fuel]; [lia|].
    set (post := encode_all l ++ pad) in *. pose proof (length_buf pre post e) as Hb.
    cbn [parse_loop]. rewrite Hb. destruct (Nat.ltb_spec 1 (length pre + (2 + length e.2) + length post - length pre)); [|lia].
    rewrite rd_id. cbn [mbind option_bind]. rewrite rd_len. cbn [mbind option_bind]. rewrite Nat2Z.id.
    destruct He as (Hid & Hlen & Hne). assert (He : wf_element e) by done.
    case_match eqn:E.
    { exfalso. apply andb_true_iff in E as [E1%Z.eqb_eq [E2%Nat.eqb_eq|E2%Z.eqb_eq]%orb_true_iff]; [lia|].
      apply Hne. split; [done|]. apply length_zero_iff_nil. lia. }
    destruct (Nat.ltb_spec (length pre + (2 + length e.2) + length post - length pre) (2 + length e.2)); [lia|].
    destruct (parse_element_fit (pre ++ encode e ++ post) (length pre) e.1 (Z.of_nat (length e.2)) ie)
      as (stop & ie1 & H1 & Hf1); [apply rd_len|rewrite Nat2Z.id, Hb; lia|done|].
    rewrite Nat2Z.id in H1. rewrite H1. cbn [mbind option_bind].
    apply element_gtk in H1 as [-> Hg]; [|done].
    specialize (IH (pre ++ encode e) fuel ie1).
    assert (Ep : length (pre ++ encode e) = (length pre + (2 + length e.2))%nat)
      by (by rewrite length_app, length_encode).
    rewrite <- app_assoc, Ep in IH.
    destruct IH as (ie' & Hp & Hg'); [rewrite length_app, length_encode in Hf; unfold post in *; lia|exact Hf1|].
    exists ie'. split; [exact Hp|]. cbn [gtk_of]. by rewrite Hg', Hg.
Qed.

Lemma gtk_of_none l pos old : Forall (fun e => is_group_key e = false) l -> gtk_of pos l old = old.
Proof. intros H. revert pos old. induction H as [|e l He H IH]; intros pos old; [done|]. cbn [gtk_of]. by rewrite He, IH. Qed.
Lemma gtk_of_app l k pos old :
  gtk_of pos (l ++ k) old = gtk_of (pos + length (encode_all l)) k (gtk_of pos l old).
Proof.
  revert pos old. induction l as [|e l IH]; intros pos old.
  - cbn [app gtk_of]. by rewrite Nat.add_0_r.
  - cbn [app gtk_of]. rewrite IH, encode_all_cons, length_app, length_encode. f_equal. lia.
Qed.

(** [wpa_add_kde] writes an element. *)
Definition kde_element (kde : Z) (data : bytes) (data2 : option bytes) : element :=
  (WLAN_EID_VENDOR_SPECIFIC, WPA_PUT_BE32 kde ++ data ++ default [] data2).
Lemma add_kde_encode kde data data2 :
  (length data + length (default [] data2) <= 251)%nat ->
  wpa_add_kde kde data data2 = encode (kde_element kde data data2).
Proof.
  intros H. unfold wpa_add_kde, encode, kde_element. cbn [fst snd].
  assert (E : length (WPA_PUT_BE32 kde) = 4%nat) by done. rewrite !length_app, E.
  rewrite u8_id by (unfold is_byte, RSN_SELECTOR_LEN; lia). unfold RSN_SELECTOR_LEN.
  reflexivity.
Qed.

(** C21: the key data round trip.  When the key data that the access point sends
    (elements, the group key encapsulation that [wpa_add_kde] writes, more
    elements, and the padding for encryption) is parsed by [wpa_parse_kde_ies],
    the result is 0 and points to exactly the bytes written after the selector:
    the key identifier octets and the group key. *)
Theorem gtk_kde_roundtrip before after hdr key pad :
  Forall wf_element before -> Forall wf_element after -> padding pad ->
  Forall (fun e => is_group_key e = false) after ->
  wf_bytes hdr -> wf_bytes key -> (3 <= length hdr + length key <= 251)%nat ->
  exists ie p n,
    wpa_parse_kde_ies (encode_all before ++ wpa_add_kde RSN_KEY_DATA_GROUPKEY hdr (Some key)
                       ++ encode_all after ++ pad) = Some (0, ie) /\
    gtk ie = Some (p, n) /\
    sub p n (encode_all before ++ wpa_add_kde RSN_KEY_DATA_GROUPKEY hdr (Some key)
             ++ encode_all after ++ pad) = hdr ++ key.
Proof.
  intros Hb Ha Hpad Hng Hh Hk Hlen. rewrite add_kde_encode by (cbn [from_option id]; lia).
  set (e := kde_element RSN_KEY_DATA_GROUPKEY hdr (Some key)).
  assert (E4 : length (WPA_PUT_BE32 RSN_KEY_DATA_GROUPKEY) = 4%nat) by done.
  assert (El : length e.2 = (4 + (length hdr + length key))%nat).
  { unfold e, kde_element. cbn [snd from_option id]. rewrite !length_app, E4. done. }
  assert (He : wf_element e).
  { split; [done|]. split; [lia|]. intros [_ E]. rewrite E in El. cbn in El. lia. }
  assert (Eg : is_group_key e = true).
  { unfold is_group_key. rewrite El. cbn [fst e kde_element Z.eqb andb].
    assert (E7 : (RSN_SELECTOR_LEN + 3 <=? 4 + (length hdr + length key))%nat = true)
      by (apply Nat.leb_le; unfold RSN_SELECTOR_LEN; lia).
    rewrite E7. reflexivity. }
  set (buf := encode_all before ++ encode e ++ encode_all after ++ pad).
  assert (Ebuf : buf = [] ++ encode_all (before ++ e :: after) ++ pad).
  { unfold buf. rewrite encode_all_app, encode_all_cons, <- !app_assoc. done. }
  destruct (loop_gtk (before ++ e :: after) [] pad (S (length buf)) no_ies) as (ie & Hp & Hg).
  - apply Forall_app. split; [done|]. by apply Forall_cons.
  - done.
  - rewrite Ebuf. cbn [app]. lia.
  - rewrite <- Ebuf. apply no_ies_fit.
  - rewrite <- Ebuf in Hp. rewrite gtk_of_app in Hg. cbn [gtk_of] in Hg. rewrite Eg, gtk_of_none in Hg by done.
    exists ie, (length (encode_all before) + 6)%nat, (length e.2 - 4)%nat. split; [exact Hp|].
    split; [by rewrite Hg|].
    unfold sub, buf. rewrite <- drop_drop, drop_app_length.
    change (drop 6 (encode e ++ encode_all after ++ pad))
      with ((hdr ++ key) ++ encode_all after ++ pad).
    rewrite take_app_le by (rewrite length_app; lia). apply take_ge. rewrite length_app. lia.
Qed.

(** An RSN element, the group key 1 and padding. *)
Definition some_rsn : element :=
  (WLAN_EID_RSN, [1; 0; 0; 15; 172; 4; 1; 0; 0; 15; 172; 4; 1; 0; 0; 15; 172; 2; 0; 0]).
Lemma gtk_kde_roundtrip_witness :
  exists ie,
    wpa_parse_kde_ies (encode_all [some_rsn]
      ++ wpa_add_kde RSN_KEY_DATA_GROUPKEY [1; 0] (Some (seqZ 100 16)) ++ encode_all [] ++ [0xdd; 0]) = Some (0, ie)
    /\ gtk ie = Some (28%nat, 18%nat).
Proof.
  destruct (gtk_kde_roundtrip [some_rsn] [] [1; 0] (seqZ 100 16) [0xdd; 0]) as (ie & p & n & H & _).
  - apply Forall_cons. split; [|by apply Forall_nil]. split; [vm_compute; split; [intro K; discriminate K|reflexivity]|].
    split; [cbn; lia|]. intros [_ H]. discriminate H.
  - by apply Forall_nil.
  - right. exists 1%nat. reflexivity.
  - by apply Forall_nil.
  - apply (bool_decide_eq_true_1 _). vm_compute. reflexivity.
  - apply (bool_decide_eq_true_1 _). vm_compute. reflexivity.
  - vm_compute. lia.
  - exists ie. split; [exact H|]. vm_compute in H. injection H as <-. reflexivity.
Defined.
