(* ===== verification/WpaState.v ===== *)
(** * The WPA authenticator: data

    The station state machine [struct wpa_state_machine] and the group state
    machine [struct wpa_group] of hostap's [ap/wpa_auth_i.h], the configuration
    of [ap/wpa_auth.h], and what crosses the boundary of [wpa_auth.c]: the calls
    of [struct wpa_auth_callbacks] and of the event loop, which are recorded as
    events, and the answers they give ([WpaEnv]).

    One station of one group (no dynamic VLANs) is modelled; the other stations
    of the group matter through [GKeyDoneStations] only.  Left out are the fields
    of fast BSS transition, FILS, OCV, P2P and DPP, which this build does not
    have. *)

From S2P Require Import Prelude Bytes WpaKeys.

(** ** Constants *)

Definition RSNA_MAX_EAPOL_RETRIES : nat := 4.
Definition WPA_GMK_LEN : nat := 32.
Definition WPA_GTK_MAX_LEN : nat := 32.
Definition WPA_IGTK_MAX_LEN : nat := 32.
Definition WPA_BIGTK_MAX_LEN : nat := 32.
Definition PMK_LEN_SUITE_B_192 : nat := 48.
Definition WPA_PROTO_RSN : Z := BIT 1.

Definition WLAN_REASON_PREV_AUTH_NOT_VALID : Z := 2.
Definition WLAN_REASON_CLASS3_FRAME_FROM_NONASSOC_STA : Z := 7.
Definition WLAN_REASON_4WAY_HANDSHAKE_TIMEOUT : Z := 15.
Definition WLAN_REASON_GROUP_KEY_UPDATE_TIMEOUT : Z := 16.

Definition KEY_FLAG_MODIFY : Z := BIT 0.
Definition KEY_FLAG_DEFAULT : Z := BIT 1.
Definition KEY_FLAG_RX : Z := BIT 2.
Definition KEY_FLAG_TX : Z := BIT 3.
Definition KEY_FLAG_GROUP : Z := BIT 4.
Definition KEY_FLAG_PAIRWISE : Z := BIT 5.
Definition KEY_FLAG_RX_TX : Z := Z.lor KEY_FLAG_RX KEY_FLAG_TX.
Definition KEY_FLAG_GROUP_TX_DEFAULT : Z := Z.lor (Z.lor KEY_FLAG_GROUP KEY_FLAG_TX) KEY_FLAG_DEFAULT.
Definition KEY_FLAG_PAIRWISE_RX_TX : Z := Z.lor KEY_FLAG_PAIRWISE KEY_FLAG_RX_TX.
Definition KEY_FLAG_PAIRWISE_RX : Z := Z.lor KEY_FLAG_PAIRWISE KEY_FLAG_RX.
Definition KEY_FLAG_PAIRWISE_RX_TX_MODIFY : Z := Z.lor KEY_FLAG_PAIRWISE_RX_TX KEY_FLAG_MODIFY.

Definition WLAN_RSNX_CAPAB_SECURE_LTF : Z := 8.

(** Milliseconds. *)
Definition eapol_key_timeout_first : Z := 100.
Definition eapol_key_timeout_subseq : Z := 1000.
Definition eapol_key_timeout_first_group : Z := 500.
Definition eapol_key_timeout_no_retrans : Z := 4000.

(** ** The station *)

Inductive wpa_ptk_states :=
| WPA_PTK_INITIALIZE | WPA_PTK_DISCONNECT | WPA_PTK_DISCONNECTED | WPA_PTK_AUTHENTICATION
| WPA_PTK_AUTHENTICATION2 | WPA_PTK_INITPMK | WPA_PTK_INITPSK | WPA_PTK_PTKSTART
| WPA_PTK_PTKCALCNEGOTIATING | WPA_PTK_PTKCALCNEGOTIATING2 | WPA_PTK_PTKINITNEGOTIATING
| WPA_PTK_PTKINITDONE.
Inductive wpa_ptk_group_states :=
| WPA_PTK_GROUP_IDLE | WPA_PTK_GROUP_REKEYNEGOTIATING | WPA_PTK_GROUP_REKEYESTABLISHED
| WPA_PTK_GROUP_KEYERROR.
Inductive wpa_version := WPA_VERSION_NO_WPA | WPA_VERSION_WPA | WPA_VERSION_WPA2.
Inductive wpa_group_states :=
| WPA_GROUP_GTK_INIT | WPA_GROUP_SETKEYS | WPA_GROUP_SETKEYSDONE | WPA_GROUP_FATAL_FAILURE.
#[export] Instance wpa_ptk_states_dec : EqDecision wpa_ptk_states. Proof. solve_decision. Defined.
#[export] Instance wpa_ptk_group_states_dec : EqDecision wpa_ptk_group_states. Proof. solve_decision. Defined.
#[export] Instance wpa_version_dec : EqDecision wpa_version. Proof. solve_decision. Defined.
#[export] Instance wpa_group_states_dec : EqDecision wpa_group_states. Proof. solve_decision. Defined.

Record wpa_key_replay_counter := mk_counter { counter : bytes; valid : bool }.
Definition zero_counter : wpa_key_replay_counter := mk_counter (replicate WPA_REPLAY_COUNTER_LEN 0) false.

(** What is read of the entry [sm->pmksa] points to. *)
Record pmksa_ref := { pmksa_pmk : bytes; pmksa_pmkid : bytes }.

(** [wpa_ie], [rsnxe] and [pmkid] of the C structure have the prefix [sm_]. *)
Record wpa_state_machine := mk_sm {
  addr : bytes; p2p_dev_addr : bytes; wpa_ptk_state : wpa_ptk_states;
  wpa_ptk_group_state : wpa_ptk_group_states; Init : bool; DeauthenticationRequest : bool;
  AuthenticationRequest : bool; ReAuthenticationRequest : bool; Disconnect : bool;
  disconnect_reason : Z; TimeoutCtr : Z; GTimeoutCtr : Z; TimeoutEvt : bool; EAPOLKeyReceived : bool;
  EAPOLKeyPairwise : bool; EAPOLKeyRequest : bool; MICVerified : bool; GUpdateStationKeys : bool;
  ANonce : bytes; SNonce : bytes; alt_SNonce : bytes; alt_replay_counter : bytes; PMK : bytes;
  pmk_len : nat; sm_pmkid : bytes; PTK : wpa_ptk; keyidx_active : Z; use_ext_key_id : bool;
  PTK_valid : bool; pairwise_set : bool; tk_already_set : bool; keycount : Z; Pair : bool;
  key_replay : list wpa_key_replay_counter; prev_key_replay : list wpa_key_replay_counter;
  PInitAKeys : bool; PTKRequest : bool; has_GTK : bool; PtkGroupInit : bool;
  last_rx_eapol_key : option bytes; last_rx_eapol_key_len : nat; changed : bool; in_step_loop : bool;
  pending_deinit : bool; started : bool; mgmt_frame_prot : bool; rx_eapol_key_secure : bool;
  update_snonce : bool; alt_snonce_valid : bool; is_wnmsleep : bool; pmkid_set : bool;
  req_replay_counter : bytes; req_replay_counter_used : bool; sm_wpa_ie : option bytes;
  sm_rsnxe : option bytes; wpa : wpa_version; pairwise : Z; wpa_key_mgmt : Z; pmksa : option pmksa_ref;
  dot11RSNAStatsTKIPLocalMICFailures : Z; dot11RSNAStatsTKIPRemoteMICFailures : Z;
  pending_1_of_4_timeout : bool }.
#[export] Instance sm_settable : Settable wpa_state_machine :=
  fun r => mk_sm
    (addr r) (p2p_dev_addr r) (wpa_ptk_state r) (wpa_ptk_group_state r) (Init r)
    (DeauthenticationRequest r) (AuthenticationRequest r) (ReAuthenticationRequest r) (Disconnect r)
    (disconnect_reason r) (TimeoutCtr r) (GTimeoutCtr r) (TimeoutEvt r) (EAPOLKeyReceived r)
    (EAPOLKeyPairwise r) (EAPOLKeyRequest r) (MICVerified r) (GUpdateStationKeys r) (ANonce r)
    (SNonce r) (alt_SNonce r) (alt_replay_counter r) (PMK r) (pmk_len r) (sm_pmkid r) (PTK r)
    (keyidx_active r) (use_ext_key_id r) (PTK_valid r) (pairwise_set r) (tk_already_set r) (keycount r)
    (Pair r) (key_replay r) (prev_key_replay r) (PInitAKeys r) (PTKRequest r) (has_GTK r)
    (PtkGroupInit r) (last_rx_eapol_key r) (last_rx_eapol_key_len r) (changed r) (in_step_loop r)
    (pending_deinit r) (started r) (mgmt_frame_prot r) (rx_eapol_key_secure r) (update_snonce r)
    (alt_snonce_valid r) (is_wnmsleep r) (pmkid_set r) (req_replay_counter r)
    (req_replay_counter_used r) (sm_wpa_ie r) (sm_rsnxe r) (wpa r) (pairwise r) (wpa_key_mgmt r)
    (pmksa r) (dot11RSNAStatsTKIPLocalMICFailures r) (dot11RSNAStatsTKIPRemoteMICFailures r)
    (pending_1_of_4_timeout r).
#[export] Instance set_sm_addr : Setter addr := ltac:(solve_setter).
#[export] Instance set_sm_p2p_dev_addr : Setter p2p_dev_addr := ltac:(solve_setter).
#[export] Instance set_sm_wpa_ptk_state : Setter wpa_ptk_state := ltac:(solve_setter).
#[export] Instance set_sm_wpa_ptk_group_state : Setter wpa_ptk_group_state := ltac:(solve_setter).
#[export] Instance set_sm_Init : Setter Init := ltac:(solve_setter).
#[export] Instance set_sm_DeauthenticationRequest : Setter DeauthenticationRequest := ltac:(solve_setter).
#[export] Instance set_sm_AuthenticationRequest : Setter AuthenticationRequest := ltac:(solve_setter).
#[export] Instance set_sm_ReAuthenticationRequest : Setter ReAuthenticationRequest := ltac:(solve_setter).
#[export] Instance set_sm_Disconnect : Setter Disconnect := ltac:(solve_setter).
#[export] Instance set_sm_disconnect_reason : Setter disconnect_reason := ltac:(solve_setter).
#[export] Instance set_sm_TimeoutCtr : Setter TimeoutCtr := ltac:(solve_setter).
#[export] Instance set_sm_GTimeoutCtr : Setter GTimeoutCtr := ltac:(solve_setter).
#[export] Instance set_sm_TimeoutEvt : Setter TimeoutEvt := ltac:(solve_setter).
#[export] Instance set_sm_EAPOLKeyReceived : Setter EAPOLKeyReceived := ltac:(solve_setter).
#[export] Instance set_sm_EAPOLKeyPairwise : Setter EAPOLKeyPairwise := ltac:(solve_setter).
#[export] Instance set_sm_EAPOLKeyRequest : Setter EAPOLKeyRequest := ltac:(solve_setter).
#[export] Instance set_sm_MICVerified : Setter MICVerified := ltac:(solve_setter).
#[export] Instance set_sm_GUpdateStationKeys : Setter GUpdateStationKeys := ltac:(solve_setter).
#[export] Instance set_sm_ANonce : Setter ANonce := ltac:(solve_setter).
#[export] Instance set_sm_SNonce : Setter SNonce := ltac:(solve_setter).
#[export] Instance set_sm_alt_SNonce : Setter alt_SNonce := ltac:(solve_setter).
#[export] Instance set_sm_alt_replay_counter : Setter alt_replay_counter := ltac:(solve_setter).
#[export] Instance set_sm_PMK : Setter PMK := ltac:(solve_setter).
#[export] Instance set_sm_pmk_len : Setter pmk_len := ltac:(solve_setter).
#[export] Instance set_sm_sm_pmkid : Setter sm_pmkid := ltac:(solve_setter).
#[export] Instance set_sm_PTK : Setter PTK := ltac:(solve_setter).
#[export] Instance set_sm_keyidx_active : Setter keyidx_active := ltac:(solve_setter).
#[export] Instance set_sm_use_ext_key_id : Setter use_ext_key_id := ltac:(solve_setter).
#[export] Instance set_sm_PTK_valid : Setter PTK_valid := ltac:(solve_setter).
#[export] Instance set_sm_pairwise_set : Setter pairwise_set := ltac:(solve_setter).
#[export] Instance set_sm_tk_already_set : Setter tk_already_set := ltac:(solve_setter).
#[export] Instance set_sm_keycount : Setter keycount := ltac:(solve_setter).
#[export] Instance set_sm_Pair : Setter Pair := ltac:(solve_setter).
#[export] Instance set_sm_key_replay : Setter key_replay := ltac:(solve_setter).
#[export] Instance set_sm_prev_key_replay : Setter prev_key_replay := ltac:(solve_setter).
#[export] Instance set_sm_PInitAKeys : Setter PInitAKeys := ltac:(solve_setter).
#[export] Instance set_sm_PTKRequest : Setter PTKRequest := ltac:(solve_setter).
#[export] Instance set_sm_has_GTK : Setter has_GTK := ltac:(solve_setter).
#[export] Instance set_sm_PtkGroupInit : Setter PtkGroupInit := ltac:(solve_setter).
#[export] Instance set_sm_last_rx_eapol_key : Setter last_rx_eapol_key := ltac:(solve_setter).
#[export] Instance set_sm_last_rx_eapol_key_len : Setter last_rx_eapol_key_len := ltac:(solve_setter).
#[export] Instance set_sm_changed : Setter changed := ltac:(solve_setter).
#[export] Instance set_sm_in_step_loop : Setter in_step_loop := ltac:(solve_setter).
#[export] Instance set_sm_pending_deinit : Setter pending_deinit := ltac:(solve_setter).
#[export] Instance set_sm_started : Setter started := ltac:(solve_setter).
#[export] Instance set_sm_mgmt_frame_prot : Setter mgmt_frame_prot := ltac:(solve_setter).
#[export] Instance set_sm_rx_eapol_key_secure : Setter rx_eapol_key_secure := ltac:(solve_setter).
#[export] Instance set_sm_update_snonce : Setter update_snonce := ltac:(solve_setter).
#[export] Instance set_sm_alt_snonce_valid : Setter alt_snonce_valid := ltac:(solve_setter).
#[export] Instance set_sm_is_wnmsleep : Setter is_wnmsleep := ltac:(solve_setter).
#[export] Instance set_sm_pmkid_set : Setter pmkid_set := ltac:(solve_setter).
#[export] Instance set_sm_req_replay_counter : Setter req_replay_counter := ltac:(solve_setter).
#[export] Instance set_sm_req_replay_counter_used : Setter req_replay_counter_used := ltac:(solve_setter).
#[export] Instance set_sm_sm_wpa_ie : Setter sm_wpa_ie := ltac:(solve_setter).
#[export] Instance set_sm_sm_rsnxe : Setter sm_rsnxe := ltac:(solve_setter).
#[export] Instance set_sm_wpa : Setter wpa := ltac:(solve_setter).
#[export] Instance set_sm_pairwise : Setter pairwise := ltac:(solve_setter).
#[export] Instance set_sm_wpa_key_mgmt : Setter wpa_key_mgmt := ltac:(solve_setter).
#[export] Instance set_sm_pmksa : Setter pmksa := ltac:(solve_setter).
#[export] Instance set_sm_dot11RSNAStatsTKIPLocalMICFailures : Setter dot11RSNAStatsTKIPLocalMICFailures := ltac:(solve_setter).
#[export] Instance set_sm_dot11RSNAStatsTKIPRemoteMICFailures : Setter dot11RSNAStatsTKIPRemoteMICFailures := ltac:(solve_setter).
#[export] Instance set_sm_pending_1_of_4_timeout : Setter pending_1_of_4_timeout := ltac:(solve_setter).

(** ** The group; [changed] of the C structure is [group_changed] *)

Record wpa_group := mk_group {
  vlan_id : Z; GInit : bool; GKeyDoneStations : Z; GTKReKey : bool; GTK_len : nat; GN : Z; GM : Z;
  GTKAuthenticator : bool; Counter : bytes; wpa_group_state : wpa_group_states; GMK : bytes;
  GTK : list bytes; GNonce : bytes; group_changed : bool; first_sta_seen : bool;
  reject_4way_hs_for_entropy : bool; IGTK : list bytes; BIGTK : list bytes; GN_igtk : Z; GM_igtk : Z;
  GN_bigtk : Z; GM_bigtk : Z }.
#[export] Instance group_settable : Settable wpa_group :=
  fun r => mk_group
    (vlan_id r) (GInit r) (GKeyDoneStations r) (GTKReKey r) (GTK_len r) (GN r) (GM r)
    (GTKAuthenticator r) (Counter r) (wpa_group_state r) (GMK r) (GTK r) (GNonce r) (group_changed r)
    (first_sta_seen r) (reject_4way_hs_for_entropy r) (IGTK r) (BIGTK r) (GN_igtk r) (GM_igtk r)
    (GN_bigtk r) (GM_bigtk r).
#[export] Instance set_group_vlan_id : Setter vlan_id := ltac:(solve_setter).
#[export] Instance set_group_GInit : Setter GInit := ltac:(solve_setter).
#[export] Instance set_group_GKeyDoneStations : Setter GKeyDoneStations := ltac:(solve_setter).
#[export] Instance set_group_GTKReKey : Setter GTKReKey := ltac:(solve_setter).
#[export] Instance set_group_GTK_len : Setter GTK_len := ltac:(solve_setter).
#[export] Instance set_group_GN : Setter GN := ltac:(solve_setter).
#[export] Instance set_group_GM : Setter GM := ltac:(solve_setter).
#[export] Instance set_group_GTKAuthenticator : Setter GTKAuthenticator := ltac:(solve_setter).
#[export] Instance set_group_Counter : Setter Counter := ltac:(solve_setter).
#[export] Instance set_group_wpa_group_state : Setter wpa_group_state := ltac:(solve_setter).
#[export] Instance set_group_GMK : Setter GMK := ltac:(solve_setter).
#[export] Instance set_group_GTK : Setter GTK := ltac:(solve_setter).
#[export] Instance set_group_GNonce : Setter GNonce := ltac:(solve_setter).
#[export] Instance set_group_group_changed : Setter group_changed := ltac:(solve_setter).
#[export] Instance set_group_first_sta_seen : Setter first_sta_seen := ltac:(solve_setter).
#[export] Instance set_group_reject_4way_hs_for_entropy : Setter reject_4way_hs_for_entropy := ltac:(solve_setter).
#[export] Instance set_group_IGTK : Setter IGTK := ltac:(solve_setter).
#[export] Instance set_group_BIGTK : Setter BIGTK := ltac:(solve_setter).
#[export] Instance set_group_GN_igtk : Setter GN_igtk := ltac:(solve_setter).
#[export] Instance set_group_GM_igtk : Setter GM_igtk := ltac:(solve_setter).
#[export] Instance set_group_GN_bigtk : Setter GN_bigtk := ltac:(solve_setter).
#[export] Instance set_group_GM_bigtk : Setter GM_bigtk := ltac:(solve_setter).

(** ** The authenticator *)

(** [struct wpa_auth_config], as far as it is used, and the address and
    information element of [struct wpa_authenticator].  [conf_wpa] is the field
    [wpa] of the configuration. *)
Record wpa_auth_config := {
  conf_wpa : Z; wpa_group_cipher : Z; wpa_group_rekey : Z; wpa_gmk_rekey : Z; wpa_strict_rekey : bool;
  wpa_ptk_rekey : Z;  wpa_deny_ptk0_rekey : bool; wpa_group_update_count : Z; wpa_pairwise_update_count : Z;
  wpa_disable_eapol_key_retries : bool; eapol_version : Z; tx_status : bool; ieee80211w : bool;
  beacon_prot : bool; group_mgmt_cipher : Z; disable_gtk : bool; secure_ltf : bool;
  transition_disable : Z; force_kdk_derivation : bool;
  auth_addr : bytes; auth_wpa_ie : bytes }.

Inductive wpa_eapol_variable :=
| WPA_EAPOL_portEnabled | WPA_EAPOL_portValid | WPA_EAPOL_authorized | WPA_EAPOL_portControl_Auto
| WPA_EAPOL_keyRun | WPA_EAPOL_keyAvailable | WPA_EAPOL_keyDone | WPA_EAPOL_inc_EapolFramesTx.

Inductive wpa_timer :=
| T_send_eapol | T_rekey_ptk | T_rekey_gtk | T_rekey_gmk | T_call_step.
#[export] Instance wpa_timer_dec : EqDecision wpa_timer. Proof. solve_decision. Defined.

(** What random bytes are drawn for. *)
Inductive random_use := R_ANonce | R_GMK | R_Counter | R_GTK | R_stub_gtk | R_igtk | R_bigtk.

(** The calls that leave the module, newest first.  [Deauth] is the [disconnect]
    callback: [ap_sta_disconnect] sends the deauthentication, withdraws the
    authorization and disables the EAPOL port.  [addr] is [None] for the
    broadcast address.  [Random] carries the bytes left in the buffer, which a
    failed call may have changed too. *)
Inductive event :=
| SendEapol (data : bytes) (encrypt : bool)
| SetKey (vlan : Z) (alg : wpa_alg) (addr : option bytes) (idx : Z) (key : bytes) (flag : Z)
| SetEapol (var : wpa_eapol_variable) (value : Z)
| Deauth (reason : Z)
| StorePtksa (ptk : wpa_ptk)
| ClearPtksa
| PskFailure
| MicFailure
| UpdateVlan (id : Z)
| GetSeqnum (idx : Z)
| Allocate (size : nat)
| Random (use : random_use) (ok : bool) (b : bytes).

(** The answers, given the calls made before (with the present one first). *)
Class WpaEnv := {
  random_get_bytes : list event -> random_use -> nat -> bool * bytes;
  os_alloc : list event -> bool;
  random_pool_ready : list event -> bool;
  wpa_get_ntp_timestamp : list event -> bytes;
  cb_set_key : list event -> Z;
  cb_get_seqnum : list event -> option bytes;
  cb_get_msk : list event -> option bytes;
  cb_update_vlan : list event -> Z;
  cb_mic_failure_report : list event -> Z;
  (** the other stations of the group that [wpa_group_update_sta] marks *)
  other_stations : list event -> Z;
  (** the address of the [struct wpa_group], as 8 bytes *)
  group_address : bytes }.

(** ** The whole state

    [eap_keyRun] and [eap_keyAvailable] are fields of the station's EAPOL state
    machine; [freed] says that the station's memory has been released, and
    [fault] that a null pointer was dereferenced. *)
Record world := mk_world {
  sm : wpa_state_machine; group : wpa_group; dot11RSNA4WayHandshakeFailures : Z;
  auth_RemoteMICFailures : Z; eap_keyRun : bool; eap_keyAvailable : bool;
  events : list event; timers : list (wpa_timer * Z); freed : bool; fault : bool }.
#[export] Instance world_settable : Settable world :=
  fun r => mk_world
    (sm r) (group r) (dot11RSNA4WayHandshakeFailures r) (auth_RemoteMICFailures r) (eap_keyRun r)
    (eap_keyAvailable r) (events r) (timers r) (freed r) (fault r).
#[export] Instance set_w_sm : Setter sm := ltac:(solve_setter).
#[export] Instance set_w_group : Setter group := ltac:(solve_setter).
#[export] Instance set_w_dot11RSNA4WayHandshakeFailures : Setter dot11RSNA4WayHandshakeFailures := ltac:(solve_setter).
#[export] Instance set_w_auth_RemoteMICFailures : Setter auth_RemoteMICFailures := ltac:(solve_setter).
#[export] Instance set_w_eap_keyRun : Setter eap_keyRun := ltac:(solve_setter).
#[export] Instance set_w_eap_keyAvailable : Setter eap_keyAvailable := ltac:(solve_setter).
#[export] Instance set_w_events : Setter events := ltac:(solve_setter).
#[export] Instance set_w_timers : Setter timers := ltac:(solve_setter).
#[export] Instance set_w_freed : Setter freed := ltac:(solve_setter).
#[export] Instance set_w_fault : Setter fault := ltac:(solve_setter).

(** Reads a field of an updated record. *)
Ltac wpa_simpl :=
  cbn [set set_sm_addr set_sm_p2p_dev_addr set_sm_wpa_ptk_state set_sm_wpa_ptk_group_state set_sm_Init
  set_sm_DeauthenticationRequest set_sm_AuthenticationRequest set_sm_ReAuthenticationRequest
  set_sm_Disconnect set_sm_disconnect_reason set_sm_TimeoutCtr set_sm_GTimeoutCtr set_sm_TimeoutEvt
  set_sm_EAPOLKeyReceived set_sm_EAPOLKeyPairwise set_sm_EAPOLKeyRequest set_sm_MICVerified
  set_sm_GUpdateStationKeys set_sm_ANonce set_sm_SNonce set_sm_alt_SNonce set_sm_alt_replay_counter
  set_sm_PMK set_sm_pmk_len set_sm_sm_pmkid set_sm_PTK set_sm_keyidx_active set_sm_use_ext_key_id
  set_sm_PTK_valid set_sm_pairwise_set set_sm_tk_already_set set_sm_keycount set_sm_Pair
  set_sm_key_replay set_sm_prev_key_replay set_sm_PInitAKeys set_sm_PTKRequest set_sm_has_GTK
  set_sm_PtkGroupInit set_sm_last_rx_eapol_key set_sm_last_rx_eapol_key_len set_sm_changed
  set_sm_in_step_loop set_sm_pending_deinit set_sm_started set_sm_mgmt_frame_prot
  set_sm_rx_eapol_key_secure set_sm_update_snonce set_sm_alt_snonce_valid set_sm_is_wnmsleep
  set_sm_pmkid_set set_sm_req_replay_counter set_sm_req_replay_counter_used set_sm_sm_wpa_ie
  set_sm_sm_rsnxe set_sm_wpa set_sm_pairwise set_sm_wpa_key_mgmt set_sm_pmksa
  set_sm_dot11RSNAStatsTKIPLocalMICFailures set_sm_dot11RSNAStatsTKIPRemoteMICFailures
  set_sm_pending_1_of_4_timeout set_group_vlan_id set_group_GInit set_group_GKeyDoneStations
  set_group_GTKReKey set_group_GTK_len set_group_GN set_group_GM set_group_GTKAuthenticator
  set_group_Counter set_group_wpa_group_state set_group_GMK set_group_GTK set_group_GNonce
  set_group_group_changed set_group_first_sta_seen set_group_reject_4way_hs_for_entropy set_group_IGTK
  set_group_BIGTK set_group_GN_igtk set_group_GM_igtk set_group_GN_bigtk set_group_GM_bigtk set_w_sm
  set_w_group set_w_dot11RSNA4WayHandshakeFailures set_w_auth_RemoteMICFailures set_w_eap_keyRun
  set_w_eap_keyAvailable set_w_events set_w_timers set_w_freed set_w_fault addr p2p_dev_addr
  wpa_ptk_state wpa_ptk_group_state Init DeauthenticationRequest AuthenticationRequest
  ReAuthenticationRequest Disconnect disconnect_reason TimeoutCtr GTimeoutCtr TimeoutEvt
  EAPOLKeyReceived EAPOLKeyPairwise EAPOLKeyRequest MICVerified GUpdateStationKeys ANonce SNonce
  alt_SNonce alt_replay_counter PMK pmk_len sm_pmkid PTK keyidx_active use_ext_key_id PTK_valid
  pairwise_set tk_already_set keycount Pair key_replay prev_key_replay PInitAKeys PTKRequest has_GTK
  PtkGroupInit last_rx_eapol_key last_rx_eapol_key_len changed in_step_loop pending_deinit started
  mgmt_frame_prot rx_eapol_key_secure update_snonce alt_snonce_valid is_wnmsleep pmkid_set
  req_replay_counter req_replay_counter_used sm_wpa_ie sm_rsnxe wpa pairwise wpa_key_mgmt pmksa
  dot11RSNAStatsTKIPLocalMICFailures dot11RSNAStatsTKIPRemoteMICFailures pending_1_of_4_timeout
  vlan_id GInit GKeyDoneStations GTKReKey GTK_len GN GM GTKAuthenticator Counter wpa_group_state GMK
  GTK GNonce group_changed first_sta_seen reject_4way_hs_for_entropy IGTK BIGTK GN_igtk GM_igtk
  GN_bigtk GM_bigtk sm group dot11RSNA4WayHandshakeFailures auth_RemoteMICFailures eap_keyRun
  eap_keyAvailable events timers freed fault].
