(* ===== verification/WpaFrame.v ===== *)
(** * EAPOL-Key frames

    The layout of [struct ieee802_1x_hdr] and [struct wpa_eapol_key], and the
    parts of [wpa_receive], [wpa_verify_key_mic] and [__wpa_send_eapol] of hostap's
    [ap/wpa_auth.c] that compute on frames only; [inc_byte_array] of
    [utils/common.c]. *)

From S2P Require Import Prelude Bytes HashSpec Hmac AesInterface AesInternal AesCorrect AesWrap AesOmac Rc4.
From S2P Require Import WpaKeys WpaState.

(** ** Counters *)

(** [while (pos >= 0)]: [n] is [pos + 1]. *)
Fixpoint inc_from (n : nat) (counter : bytes) : bytes :=
  match n with
  | O => counter
  | S pos =>
    let counter := <[pos := u8 (get counter pos + 1)]> counter in
    if negb (get counter pos =? 0) then counter else inc_from pos counter
  end.
Definition inc_byte_array (counter : bytes) (len : nat) : bytes := inc_from len counter.

(** ** Layout *)

Definition WPA_KEY_INFO_TYPE_MASK : Z := Z.lor (Z.lor (BIT 0) (BIT 1)) (BIT 2).
Definition WPA_KEY_INFO_KEY_TYPE : Z := BIT 3.
Definition WPA_KEY_INFO_KEY_INDEX_SHIFT : Z := 4.
Definition WPA_KEY_INFO_INSTALL : Z := BIT 6.
Definition WPA_KEY_INFO_ACK : Z := BIT 7.
Definition WPA_KEY_INFO_MIC : Z := BIT 8.
Definition WPA_KEY_INFO_SECURE : Z := BIT 9.
Definition WPA_KEY_INFO_ERROR : Z := BIT 10.
Definition WPA_KEY_INFO_REQUEST : Z := BIT 11.
Definition WPA_KEY_INFO_ENCR_KEY_DATA : Z := BIT 12.
Definition WPA_KEY_INFO_SMK_MESSAGE : Z := BIT 13.

Definition IEEE802_1X_TYPE_EAPOL_KEY : Z := 3.
Definition EAPOL_KEY_TYPE_RSN : Z := 2.
Definition EAPOL_KEY_TYPE_WPA : Z := 254.

(** [sizeof] of [struct ieee802_1x_hdr] and [struct wpa_eapol_key]. *)
Definition sizeof_hdr : nat := 4.
Definition sizeof_key : nat := 1 + 2 + 2 + 8 + 32 + 16 + 8 + 8.

(** [x & flag]. *)
Definition flag_set (x flag : Z) : bool := negb (Z.land x flag =? 0).

(** The fields of a frame; the MIC follows the key structure, then the length of
    the key data in two octets, then the key data. *)
Definition key_type (data : bytes) : Z := get data sizeof_hdr.
Definition key_info (data : bytes) : Z := WPA_GET_BE16 (drop (sizeof_hdr + 1) data).
Definition replay_counter (data : bytes) : bytes := sub (sizeof_hdr + 5) WPA_REPLAY_COUNTER_LEN data.
Definition key_nonce (data : bytes) : bytes := sub (sizeof_hdr + 13) WPA_NONCE_LEN data.
Definition mic_offset : nat := sizeof_hdr + sizeof_key.
Definition key_data_length (mic_len : nat) (data : bytes) : nat :=
  Z.to_nat (WPA_GET_BE16 (drop (mic_offset + mic_len) data)).
Definition key_data (mic_len : nat) (data : bytes) : bytes :=
  sub (mic_offset + mic_len + 2) (key_data_length mic_len data) data.

(** The frame [__wpa_send_eapol] allocates and fills in. *)
Definition eapol_key_frame (version type info key_length : Z)
    (replay nonce iv rsc mic : bytes) (key_data_length : Z) (key_data : bytes) : bytes :=
  let body := [type] ++ WPA_PUT_BE16 info ++ WPA_PUT_BE16 key_length ++ replay ++ nonce ++ iv ++ rsc
              ++ replicate 8 0 ++ mic ++ WPA_PUT_BE16 key_data_length ++ key_data in
  [u8 version; IEEE802_1X_TYPE_EAPOL_KEY] ++ WPA_PUT_BE16 (Z.of_nat (length body)) ++ body.

Section frame.
Context {C : Crypto} (CONFIG_SAE : bool).

(** [wpa_verify_key_mic]: 0 or -1.  The code clears the MIC in [data] for the
    computation and puts it back. *)
Definition wpa_verify_key_mic (akmp : Z) (pmk_len : nat) (ptk : wpa_ptk) (data : bytes) : Z :=
  let mic_len := wpa_mic_len akmp pmk_len in
  if (length data <? sizeof_hdr + sizeof_key)%nat then -1
  else
    let mic := sub mic_offset mic_len data in
    let cleared := memcpy data mic_offset (replicate mic_len 0) in
    match wpa_eapol_key_mic CONFIG_SAE (kck ptk) (kck_len ptk) akmp
            (Z.land (key_info data) WPA_KEY_INFO_TYPE_MASK) cleared with
    | None => -1
    | Some m => if same mic_len mic m then 0 else -1
    end.

(** The key descriptor version [__wpa_send_eapol] chooses. *)
Definition key_version (sm : wpa_state_machine) : Z :=
  if wpa_use_akm_defined (wpa_key_mgmt sm) then WPA_KEY_INFO_TYPE_AKM_DEFINED
  else if wpa_use_cmac (wpa_key_mgmt sm) then WPA_KEY_INFO_TYPE_AES_128_CMAC
  else if negb (pairwise sm =? WPA_CIPHER_TKIP) then WPA_KEY_INFO_TYPE_HMAC_SHA1_AES
  else WPA_KEY_INFO_TYPE_HMAC_MD5_RC4.

(** Whether the key data is encrypted with AES key wrap. *)
Definition uses_key_wrap (version akmp : Z) : bool :=
  (version =? WPA_KEY_INFO_TYPE_HMAC_SHA1_AES) || wpa_use_aes_key_wrap akmp ||
  (version =? WPA_KEY_INFO_TYPE_AES_128_CMAC).

(** [pad_len] and the length of the encrypted key data. *)
Definition wrap_pad_len (kde_len : nat) : nat :=
  let pad_len := (kde_len mod 8)%nat in if (pad_len =? 0)%nat then 0%nat else (8 - pad_len)%nat.
Definition padded (kde : bytes) : bytes :=
  let pad_len := wrap_pad_len (length kde) in
  if (pad_len =? 0)%nat then kde else kde ++ 0xdd :: replicate (pad_len - 1) 0.

(** The encrypted key data, the IV field and the group counter; [None] when the
    frame is not sent. *)
Definition encrypt_key_data (version akmp : Z) (ptk : wpa_ptk) (group_counter kde : bytes) :
    option (bytes * bytes * bytes) :=
  if uses_key_wrap version akmp then
    let buf := padded kde in
    let '(r, out) := aes_wrap (take (kek_len ptk) (kek ptk)) (Z.of_nat (kek_len ptk)) (length buf / 8) buf in
    if negb (r =? 0) then None else Some (out, replicate 16 0, group_counter)
  else if (kek_len ptk =? 16)%nat then
    let iv := drop (WPA_NONCE_LEN - 16) group_counter in
    let group_counter := inc_byte_array group_counter WPA_NONCE_LEN in
    let ek := iv ++ take (kek_len ptk) (kek ptk) in
    Some (rc4_skip ek 256 kde, iv, group_counter)
  else None.
End frame.
