(* ===== verification/WpaPsk.v ===== *)
(** * Pre-shared keys

    The source of the keys that the WPA authenticator tries for a station:
    hostap's [hostapd_get_psk] of [ap/ap_config.c] and the callback
    [hostapd_wpa_auth_get_psk] of [ap/wpa_auth_glue.c].  The caller passes the
    key it got last and receives the next one, so a pointer to a key is its
    position. *)

From S2P Require Import Prelude Bytes HashSpec Hmac WpaKeys WpaState.
From S2P Require Sha1.

(** [struct hostapd_wpa_psk] and [struct hostapd_sta_wpa_psk_short]. *)
Record hostapd_wpa_psk := {
  psk_group : bool; psk_addr : bytes; psk_p2p_dev_addr : bytes; psk_key : bytes; psk_vlan_id : Z }.
Record hostapd_sta_wpa_psk_short := { is_passphrase : bool; passphrase : bytes; short_psk : bytes }.

(** What the callback reads of the BSS and of the station. *)
Record psk_config := {
  wpa_psk : list hostapd_wpa_psk;
  sta_psk : list hostapd_sta_wpa_psk_short;
  sta_auth_sae : bool;              (* sta->auth_alg == WLAN_AUTH_SAE *)
  sta_sae_pmk : option bytes;       (* sta->sae ? sta->sae->pmk : NULL *)
  ssid : bytes }.

Inductive psk_ptr := ConfPsk (i : nat) | StaPsk (i : nat) | SaePmk.
#[export] Instance psk_ptr_dec : EqDecision psk_ptr. Proof. solve_decision. Defined.

Section psk.
Context {C : Crypto} (CONFIG_SAE : bool) (conf : psk_config).

(** [for (psk = conf->ssid.wpa_psk; psk != NULL; psk = psk->next)]; [addr] is
    [None] when the P2P device address is matched. *)
Fixpoint get_psk_loop (i : nat) (l : list hostapd_wpa_psk) (addr : option bytes) (p2p_dev_addr : bytes)
    (prev_psk : option psk_ptr) (next_ok : bool) : option (psk_ptr * Z) :=
  match l with
  | [] => None
  | psk :: l =>
    let matches :=
      psk_group psk ||
      match addr with
      | Some addr => same ETH_ALEN (psk_addr psk) addr
      | None => same ETH_ALEN (psk_p2p_dev_addr psk) p2p_dev_addr
      end in
    if next_ok && matches then Some (ConfPsk i, psk_vlan_id psk)
    else get_psk_loop (S i) l addr p2p_dev_addr prev_psk
           (next_ok || bool_decide (prev_psk = Some (ConfPsk i)))
  end.

Definition hostapd_get_psk (addr p2p_dev_addr : bytes) (prev_psk : option psk_ptr) : option (psk_ptr * Z) :=
  let addr := if negb (same ETH_ALEN p2p_dev_addr (replicate ETH_ALEN 0)) then None else Some addr in
  get_psk_loop 0 (wpa_psk conf) addr p2p_dev_addr prev_psk (bool_decide (prev_psk = None)).

(** [for (pos = sta->psk; pos; pos = pos->next)], from the [i]-th key on. *)
Fixpoint sta_psk_loop (i : nat) (l : list hostapd_sta_wpa_psk_short) (prev_psk psk : option psk_ptr) :
    option psk_ptr :=
  match l with
  | [] => psk
  | _ :: l =>
    if bool_decide (prev_psk = Some (StaPsk i))
    then match l with [] => None | _ :: _ => Some (StaPsk (S i)) end
    else sta_psk_loop (S i) l prev_psk psk
  end.

(** [uses_sae] is [wpa_auth_uses_sae(sta->wpa_sm)]; the key and the VLAN. *)
Definition hostapd_wpa_auth_get_psk (uses_sae : bool) (addr p2p_dev_addr : bytes)
    (prev_psk : option psk_ptr) : option (psk_ptr * Z) :=
  if CONFIG_SAE && sta_auth_sae conf then
    match sta_sae_pmk conf, prev_psk with
    | Some _, None => Some (SaePmk, 0)
    | _, _ => None
    end
  else if CONFIG_SAE && uses_sae then None
  else
    match hostapd_get_psk addr p2p_dev_addr prev_psk with
    | Some r => Some r
    | None =>
      match sta_psk conf with
      | [] => None
      | _ :: _ =>
        psk ← sta_psk_loop 0 (sta_psk conf) prev_psk (Some (StaPsk 0)); Some (psk, 0)
      end
    end.

(** The 32 bytes at a pointer.  The first call of the callback converts every
    passphrase of [sta->psk], since no pointer has been returned yet. *)
Definition short_psk_bytes (e : hostapd_sta_wpa_psk_short) : bytes :=
  if is_passphrase e then default [] (pbkdf2_sha1 sha1_stack (passphrase e) (ssid conf) 4096 PMK_LEN)
  else short_psk e.
Definition psk_bytes (p : psk_ptr) : bytes :=
  take PMK_LEN
    match p with
    | ConfPsk i => from_option psk_key [] (wpa_psk conf !! i)
    | StaPsk i => from_option short_psk_bytes [] (sta_psk conf !! i)
    | SaePmk => default [] (sta_sae_pmk conf)
    end.

(** ** The iteration ends

    Every call returns a later key: [psk_rank] grows, and is bounded. *)
Definition psk_rank (p : option psk_ptr) : nat :=
  match p with
  | None => 0
  | Some (ConfPsk i) => S i
  | Some (StaPsk i) => S (length (wpa_psk conf) + i)
  | Some SaePmk => S (length (wpa_psk conf) + length (sta_psk conf))
  end.
Definition psk_calls : nat := S (length (wpa_psk conf) + length (sta_psk conf)).

(** A pointer that the callback can have returned. *)
Definition valid_psk_ptr (p : option psk_ptr) : Prop :=
  match p with
  | None => True
  | Some SaePmk => CONFIG_SAE && sta_auth_sae conf = true
  | Some (ConfPsk i) => (i < length (wpa_psk conf))%nat
  | Some (StaPsk i) => (i < length (sta_psk conf))%nat
  end.

Lemma get_psk_loop_later l i addr p2p prev next_ok p v :
  get_psk_loop i l addr p2p prev next_ok = Some (p, v) ->
  exists j, p = ConfPsk j /\ (i <= j < i + length l)%nat /\
    (next_ok = true \/ exists k, prev = Some (ConfPsk k) /\ (i <= k < j)%nat).
Proof.
  revert i next_ok. induction l as [|psk l IH]; intros i next_ok; [done|]. cbn [get_psk_loop length].
  case_match eqn:E.
  - intros H. injection H as <- <-. apply andb_true_iff in E as [-> _]. exists i. split; [done|].
    split; [lia|]. by left.
  - intros H. apply IH in H as (j & -> & Hj & Hok). exists j. split; [done|]. split; [lia|].
    destruct Hok as [Hok|(k & -> & Hk)]; [|right; exists k; split; [done|lia] ].
    apply orb_true_iff in Hok as [Hok|Hok%bool_decide_eq_true_1]; [by left|]. right. exists i. split; [done|lia].
Qed.

Lemma sta_psk_loop_later l i prev p :
  sta_psk_loop i l prev (Some (StaPsk 0)) = Some p ->
  (forall j, prev <> Some (StaPsk j) \/ (j < i + length l)%nat) ->
  (exists k, prev = Some (StaPsk k) /\ (i <= k)%nat /\ p = StaPsk (S k) /\ (S k < i + length l)%nat)
  \/ p = StaPsk 0 /\ forall k, (i <= k)%nat -> prev <> Some (StaPsk k).
Proof.
  revert i. induction l as [|e l IH]; intros i H Hv; cbn [sta_psk_loop length] in *.
  - injection H as <-. right. split; [done|]. intros k Hk E. destruct (Hv k); [done|lia].
  - case_bool_decide as E.
    + left. exists i. destruct l; [done|]. injection H as <-. cbn [length]. repeat split; [done|lia|lia].
    + apply IH in H.
      * destruct H as [(k & -> & Hk & -> & Hl)|[-> Hn]]; [left; exists k; repeat split; lia|].
        right. split; [done|]. intros k Hk Ek. destruct (decide (k = i)) as [->|]; [done|].
        apply (Hn k); [lia|done].
      * intros j. destruct (Hv j); [by left|right; lia].
Qed.

Lemma get_psk_later uses_sae addr p2p prev p v :
  valid_psk_ptr prev -> hostapd_wpa_auth_get_psk uses_sae addr p2p prev = Some (p, v) ->
  valid_psk_ptr (Some p) /\ (psk_rank prev < psk_rank (Some p))%nat /\ (psk_rank (Some p) <= psk_calls)%nat.
Proof.
  unfold hostapd_wpa_auth_get_psk, psk_calls. intros Hv H.
  destruct (CONFIG_SAE && sta_auth_sae conf) eqn:Es.
  { destruct (sta_sae_pmk conf), prev; try done. injection H as <- <-. cbn. repeat split; [done|lia..]. }
  destruct (CONFIG_SAE && uses_sae); [done|].
  destruct (hostapd_get_psk addr p2p prev) as [[q u]|] eqn:E.
  - injection H as -> ->. unfold hostapd_get_psk in E. apply get_psk_loop_later in E as (j & -> & Hj & Hok).
    cbn [valid_psk_ptr psk_rank]. repeat split; try lia.
    destruct Hok as [->%bool_decide_eq_true_1|(k & -> & Hk)]; cbn [psk_rank]; lia.
  - destruct (sta_psk conf) as [|e l] eqn:El; [done|].
    destruct (sta_psk_loop 0 (e :: l) prev (Some (StaPsk 0))) as [q|] eqn:Eq; [|done].
    injection H as -> <-. apply sta_psk_loop_later in Eq.
    + cbn [length] in *. destruct Eq as [(k & -> & Hk & -> & Hl)|[-> Hn]];
        cbn [valid_psk_ptr psk_rank]; rewrite El; cbn [length]; repeat split; try lia.
      destruct prev as [[i|i|]|]; cbn [valid_psk_ptr psk_rank] in *; try lia.
      * exfalso. apply (Hn i); [lia|done].
      * congruence.
    + intros j. destruct prev as [[i|i|]|]; cbn [valid_psk_ptr] in Hv; try (by left).
      destruct (decide (i = j)) as [->|]; [right; rewrite El in Hv; lia|left; congruence].
Qed.
End psk.
