(* ===== verification/WpaGroup.v ===== *)
(** * The WPA authenticator: group keys and sending

    The calls out of hostap's [ap/wpa_auth.c], the group key state machine
    ([wpa_group_sm_step] and what it calls), [wpa_send_eapol],
    [wpa_remove_ptk] and [wpa_auth_sm_event].

    [wpa_sm_step], which is defined last in the C file, is the argument [step] of
    the functions that call it; inside its own loop it only returns 0. *)

From S2P Require Import Prelude Bytes HashSpec Hmac AesInterface AesWrap AesOmac Rc4.
From S2P Require Import WpaKeys WpaState WpaFrame.
From S2P Require WpaKde.
From Stdlib Require String.

Section group.
Context {C : Crypto} {E : WpaEnv} (CONFIG_SAE : bool) (conf : wpa_auth_config).
Notation W := world.

(** ** Calls out of the module *)

Definition upd (f : wpa_state_machine -> wpa_state_machine) (w : W) : W := w <| sm ::= f |>.
Definition updg (f : wpa_group -> wpa_group) (w : W) : W := w <| group ::= f |>.
Definition emit (e : event) (w : W) : W := w <| events ::= cons e |>.

Definition wpa_auth_set_key (vlan : Z) (alg : wpa_alg) (addr0 : option bytes) (idx : Z) (key : bytes)
    (key_flag : Z) (w : W) : Z * W :=
  let w := emit (SetKey vlan alg addr0 idx key key_flag) w in (cb_set_key (events w), w).
Definition wpa_auth_get_seqnum (idx : Z) (w : W) : option bytes * W :=
  let w := emit (GetSeqnum idx) w in (cb_get_seqnum (events w), w).
Definition wpa_auth_set_eapol (var : wpa_eapol_variable) (value : Z) (w : W) : W :=
  let w := emit (SetEapol var value) w in
  match var with
  | WPA_EAPOL_keyRun => w <| eap_keyRun := negb (value =? 0) |>
  | WPA_EAPOL_keyAvailable => w <| eap_keyAvailable := negb (value =? 0) |>
  | _ => w
  end.
Definition wpa_auth_update_vlan (id : Z) (w : W) : Z * W :=
  let w := emit (UpdateVlan id) w in (cb_update_vlan (events w), w).
Definition random (use : random_use) (n : nat) (w : W) : bool * bytes * W :=
  let '(ok, b) := random_get_bytes (events w) use n in (ok, b, emit (Random use ok b) w).
Definition allocate (size : nat) (w : W) : bool * W :=
  let w := emit (Allocate size) w in (os_alloc (events w), w).

(** [eloop_register_timeout] adds a timer, [eloop_cancel_timeout] removes all. *)
Definition eloop_register_timeout (t : wpa_timer) (ms : Z) (w : W) : W :=
  w <| timers ::= fun l => l ++ [(t, ms)] |>.
Definition eloop_cancel_timeout (t : wpa_timer) (w : W) : W :=
  w <| timers ::= filter (fun x => x.1 <> t) |>.

(** ** [wpa_send_eapol] *)

(** The shift of the pending replay counters. *)
Definition next_replay (l : list wpa_key_replay_counter) : list wpa_key_replay_counter :=
  match l with
  | [] => []
  | c :: _ => mk_counter (inc_byte_array (counter c) WPA_REPLAY_COUNTER_LEN) true :: take (RSNA_MAX_EAPOL_RETRIES - 1) l
  end.

(** The length of the key data field: [key_data_len], and the room for AES-SIV
    when there is no MIC. *)
Definition key_data_room (version akmp : Z) (mic_len kde_len : nat) (encr : bool) : nat :=
  ((if uses_key_wrap version akmp && encr then kde_len + wrap_pad_len kde_len + 8 else kde_len) +
   (if (mic_len =? 0)%nat && encr then AES_BLOCK_SIZE else 0))%nat.

Definition frame_key_info (sm : wpa_state_machine) (key_info version keyidx : Z) (encr : bool) : Z :=
  let rsn := bool_decide (wpa sm = WPA_VERSION_WPA2) in
  let key_info := Z.lor key_info version in
  let key_info := if encr && rsn then Z.lor key_info WPA_KEY_INFO_ENCR_KEY_DATA else key_info in
  if rsn then key_info else Z.lor key_info (Z.shiftl keyidx WPA_KEY_INFO_KEY_INDEX_SHIFT).

Definition frame_key_length (sm : wpa_state_machine) (pairwise0 : bool) : Z :=
  if bool_decide (wpa sm = WPA_VERSION_WPA2) && negb pairwise0 then 0
  else Z.of_nat (wpa_cipher_key_len (if pairwise0 then pairwise sm else wpa_group_cipher conf)).

(** [kde] is [None] for [NULL]; [force_version] is 0 unless a test asks. *)
Definition __wpa_send_eapol (key_info : Z) (key_rsc nonce kde : option bytes) (keyidx : Z) (encr : bool)
    (force_version : Z) (w : W) : W :=
  let s := w.(sm) in
  let mic_len := wpa_mic_len (wpa_key_mgmt s) (pmk_len s) in
  let version := if negb (force_version =? 0) then force_version else key_version s in
  let pairwise0 := flag_set key_info WPA_KEY_INFO_KEY_TYPE in
  let kde_len := length (default [] kde) in
  let room := key_data_room version (wpa_key_mgmt s) mic_len kde_len encr in
  let '(ok, w) := allocate (sizeof_hdr + sizeof_key + mic_len + 2 + room) w in
  if negb ok then w
  else
    let key_info := frame_key_info s key_info version keyidx encr in
    let w := upd (fun s => s <| key_replay ::= next_replay |>) w in
    let replay := from_option counter [] (head (key_replay w.(sm))) in
    let frame iv data :=
      eapol_key_frame (eapol_version conf)
        (if bool_decide (wpa s = WPA_VERSION_WPA2) then EAPOL_KEY_TYPE_RSN else EAPOL_KEY_TYPE_WPA)
        key_info (frame_key_length s pairwise0) replay (default (replicate WPA_NONCE_LEN 0) nonce) iv
        (default (replicate WPA_KEY_RSC_LEN 0) key_rsc) (replicate mic_len 0) (Z.of_nat (length data))
        (data ++ replicate (room - length data) 0) in
    (* the key data: the frame before the MIC, or the end of the call *)
    let '(buf, w) :=
      match kde with
      | None => (Some (frame (replicate 16 0) []), w)
      | Some kde =>
        if negb encr then (Some (frame (replicate 16 0) kde), w)
        else
          let '(ok, w) := allocate (key_data_room version (wpa_key_mgmt s) 1 kde_len encr) w in
          if negb ok then (None, w)
          else
            match encrypt_key_data version (wpa_key_mgmt s) (PTK s) (Counter w.(group)) kde with
            | None => (None, w)
            | Some (data, iv, counter) => (Some (frame iv data), updg (fun g => g <| Counter := counter |>) w)
            end
      end in
    match buf with
    | None => w
    | Some buf =>
      let with_mic :=
        if flag_set key_info WPA_KEY_INFO_MIC then
          if negb (PTK_valid s) || (mic_len =? 0)%nat then None
          else mic ← wpa_eapol_key_mic CONFIG_SAE (kck (PTK s)) (kck_len (PTK s)) (wpa_key_mgmt s) version buf;
               Some (memcpy buf mic_offset mic)
        else Some buf in
      match with_mic with
      | None => w
      | Some buf =>
        emit (SendEapol buf (pairwise_set w.(sm))) (wpa_auth_set_eapol WPA_EAPOL_inc_EapolFramesTx 1 w)
      end
    end.

Definition eapol_timeout_ms (key_info ctr : Z) : Z :=
  let pairwise0 := flag_set key_info WPA_KEY_INFO_KEY_TYPE in
  let timeout_ms :=
    if (ctr =? 1) && tx_status conf
    then if pairwise0 then eapol_key_timeout_first else eapol_key_timeout_first_group
    else eapol_key_timeout_subseq in
  if wpa_disable_eapol_key_retries conf && (negb pairwise0 || flag_set key_info WPA_KEY_INFO_MIC)
  then eapol_key_timeout_no_retrans else timeout_ms.

Definition wpa_send_eapol (key_info : Z) (key_rsc nonce kde : option bytes) (keyidx : Z) (encr : bool)
    (w : W) : W :=
  let pairwise0 := flag_set key_info WPA_KEY_INFO_KEY_TYPE in
  let w := __wpa_send_eapol key_info key_rsc nonce kde keyidx encr 0 w in
  let ctr := if pairwise0 then TimeoutCtr w.(sm) else GTimeoutCtr w.(sm) in
  let timeout_ms := eapol_timeout_ms key_info ctr in
  let w := if pairwise0 && (ctr =? 1) && negb (flag_set key_info WPA_KEY_INFO_MIC)
           then upd (fun s => s <| pending_1_of_4_timeout := true |>) w else w in
  eloop_register_timeout T_send_eapol timeout_ms w.

(** ** Losing the keys *)

Definition wpa_remove_ptk (w : W) : W :=
  let w := upd (fun s => s <| PTK_valid := false |> <| PTK := zero_ptk |>) w in
  let w := emit ClearPtksa w in
  let '(_, w) := wpa_auth_set_key 0 WPA_ALG_NONE (Some (addr w.(sm))) 0 [] KEY_FLAG_PAIRWISE w in
  let w := if use_ext_key_id w.(sm)
           then (wpa_auth_set_key 0 WPA_ALG_NONE (Some (addr w.(sm))) 1 [] KEY_FLAG_PAIRWISE w).2 else w in
  let w := upd (fun s => s <| pairwise_set := false |>) w in
  eloop_cancel_timeout T_rekey_ptk w.

(** [sm->group->GKeyDoneStations--] *)
Definition station_done (w : W) : W := updg (fun g => g <| GKeyDoneStations ::= fun n => n - 1 |>) w.

Inductive wpa_event :=
| WPA_AUTH | WPA_ASSOC | WPA_DISASSOC | WPA_DEAUTH | WPA_REAUTH | WPA_REAUTH_EAPOL | WPA_ASSOC_FT
| WPA_ASSOC_FILS | WPA_DRV_STA_REMOVED.
#[local] Instance wpa_event_dec : EqDecision wpa_event.
Proof. solve_decision. Defined.

(** [sm->keyidx_active ^= 1] *)
Definition flip_key_id (w : W) : W := upd (fun s => s <| keyidx_active ::= fun k => Z.lxor k 1 |>) w.

(** The end of [wpa_auth_sm_event], after the [switch]. *)
Definition sm_event_end (step : W -> Z * W) (ev : wpa_event) (w : W) : Z * W :=
  let remove_ptk := negb (mgmt_frame_prot w.(sm) && bool_decide (ev = WPA_AUTH)) in
  let w :=
    if remove_ptk then
      let w := upd (fun s => s <| PTK_valid := false |> <| PTK := zero_ptk |>) w in
      if bool_decide (ev <> WPA_REAUTH_EAPOL) then wpa_remove_ptk w else w
    else w in
  if in_step_loop w.(sm) then (0, upd (fun s => s <| changed := true |>) w) else step w.

Definition wpa_auth_sm_event (step : W -> Z * W) (ev : wpa_event) (w : W) : Z * W :=
  match ev with
  | WPA_AUTH | WPA_ASSOC | WPA_ASSOC_FT | WPA_ASSOC_FILS => sm_event_end step ev w
  | WPA_DEAUTH | WPA_DISASSOC =>
    sm_event_end step ev (upd (fun s => s <| DeauthenticationRequest := true |>) w)
  | WPA_REAUTH | WPA_REAUTH_EAPOL =>
    if negb (started w.(sm)) then
      let w := upd (fun s => s <| started := true |> <| Init := true |>) w in
      let '(r, w) := step w in
      if r =? 1 then (1, w)
      else sm_event_end step ev (upd (fun s => s <| Init := false |> <| AuthenticationRequest := true |>) w)
    else if negb (use_ext_key_id w.(sm)) && wpa_deny_ptk0_rekey conf then
      sm_event_end step ev
        (upd (fun s => s <| Disconnect := true |>
                         <| disconnect_reason := WLAN_REASON_CLASS3_FRAME_FROM_NONASSOC_STA |>) w)
    else
      let w := if use_ext_key_id w.(sm) then flip_key_id w else w in
      let w := if GUpdateStationKeys w.(sm)
               then upd (fun s => s <| GUpdateStationKeys := false |> <| PtkGroupInit := true |>) (station_done w)
               else w in
      sm_event_end step ev (upd (fun s => s <| ReAuthenticationRequest := true |>) w)
  | WPA_DRV_STA_REMOVED => (0, upd (fun s => s <| tk_already_set := false |>) w)
  end.

(** The [disconnect] callback notifies the state machine of the loss of the
    station. *)
Definition wpa_sta_disconnect (step : W -> Z * W) (reason : Z) (w : W) : W :=
  (wpa_auth_sm_event step WPA_DEAUTH (emit (Deauth reason) w)).2.

(** ** The group key state machine *)

Definition wpa_group_init_gmk_and_counter (w : W) : Z * W :=
  let '(ok, b, w) := random R_GMK WPA_GMK_LEN w in
  let w := updg (fun g => g <| GMK := b |>) w in
  if negb ok then (-1, w)
  else
    let buf := take ETH_ALEN (auth_addr conf) ++ wpa_get_ntp_timestamp (events w) ++ group_address in
    let '(ok, rkey, w) := random R_Counter 32 w in
    if negb ok then (-1, w)
    else
      match sha1_prf sha1_stack rkey (str "Init Counter") buf WPA_NONCE_LEN with
      | None => (-1, w)
      | Some c => (0, updg (fun g => g <| Counter := c |>) w)
      end.

(** The return value, and the key unless the derivation failed. *)
Definition wpa_gmk_to_gtk (gmk label addr0 gnonce : bytes) (gtk_len : nat) (w : W) : Z * option bytes * W :=
  let data := take ETH_ALEN addr0 ++ take WPA_NONCE_LEN gnonce ++ wpa_get_ntp_timestamp (events w) in
  let '(ok, r, w) := random R_GTK gtk_len w in
  let data := data ++ r ++ replicate (WPA_GTK_MAX_LEN - gtk_len) 0 in
  match sha256_prf sha256_stack gmk label data gtk_len with
  | None => (-1, None, w)
  | Some gtk => (if ok : bool then 0 else -1, Some gtk, w)
  end.

(** A new nonce from the counter, and a key from it, stored by [store]. *)
Definition derive_group_key (label : bytes) (len : nat) (store : bytes -> wpa_group -> wpa_group) (w : W) :
    Z * W :=
  let w := updg (fun g => g <| GNonce := Counter g |>) w in
  let w := updg (fun g => g <| Counter ::= fun c => inc_byte_array c WPA_NONCE_LEN |>) w in
  let '(ret, key, w) := wpa_gmk_to_gtk (GMK w.(group)) label (auth_addr conf) (GNonce w.(group)) len w in
  (ret, match key with Some key => updg (store key) w | None => w end).

(** The key buffer with index [i] of an array. *)
Definition set_buffer (i : Z) (key : bytes) (l : list bytes) : list bytes :=
  alter (fun b => memcpy b 0 key) (Z.to_nat i) l.
Definition key_buffer (i : Z) (len : nat) (l : list bytes) : bytes :=
  take len (default [] (l !! Z.to_nat i)).

Definition mgmt_key_len : nat := wpa_cipher_key_len (group_mgmt_cipher conf).

Definition wpa_gtk_update (w : W) : Z * W :=
  let '(r1, w) := derive_group_key (str "Group key expansion") (GTK_len w.(group))
                    (fun key g => g <| GTK ::= set_buffer (GN g - 1) key |>) w in
  let '(r2, w) :=
    if ieee80211w conf then
      derive_group_key (str "IGTK key expansion") mgmt_key_len
        (fun key g => g <| IGTK ::= set_buffer (GN_igtk g - 4) key |>) w
    else (0, w) in
  let '(r3, w) :=
    if ieee80211w conf && beacon_prot conf then
      derive_group_key (str "BIGTK key expansion") mgmt_key_len
        (fun key g => g <| BIGTK ::= set_buffer (GN_bigtk g - 6) key |>) w
    else (0, w) in
  (if (r1 =? 0) && (r2 =? 0) && (r3 =? 0) then 0 else -1, w).

Definition wpa_group_gtk_init (w : W) : W :=
  let w := updg (fun g => g <| group_changed := false |> <| wpa_group_state := WPA_GROUP_GTK_INIT |>
                           <| GTK := replicate 2 (replicate WPA_GTK_MAX_LEN 0) |>
                           <| GN := 1 |> <| GM := 2 |> <| GN_igtk := 4 |> <| GM_igtk := 5 |>
                           <| GN_bigtk := 6 |> <| GM_bigtk := 7 |>) w in
  (wpa_gtk_update w).2.

Definition wpa_group_config_group_keys (w : W) : Z * W :=
  let g := w.(group) in
  let '(r, w) := wpa_auth_set_key (vlan_id g) (wpa_cipher_to_alg (wpa_group_cipher conf)) None (GN g)
                   (key_buffer (GN g - 1) (GTK_len g) (GTK g)) KEY_FLAG_GROUP_TX_DEFAULT w in
  let ret := if r <? 0 then -1 else 0 in
  if ieee80211w conf then
    let alg := wpa_cipher_to_alg (group_mgmt_cipher conf) in
    let set_mgmt idx key w :=
      let '(r, w) := wpa_auth_set_key (vlan_id g) alg None idx key KEY_FLAG_GROUP_TX_DEFAULT w in
      (if r <? 0 then -1 else 0, w) in
    let '(ret, w) :=
      if ret =? 0 then set_mgmt (GN_igtk g) (key_buffer (GN_igtk g - 4) mgmt_key_len (IGTK g)) w
      else (ret, w) in
    if (ret =? 0) && beacon_prot conf
    then set_mgmt (GN_bigtk g) (key_buffer (GN_bigtk g - 6) mgmt_key_len (BIGTK g)) w
    else (ret, w)
  else (ret, w).

(** [wpa_auth_for_each_sta(wpa_auth, wpa_group_disconnect_cb, group)] *)
Definition wpa_group_disconnect_cb (w : W) : W := upd (fun s => s <| Disconnect := true |>) w.

Definition wpa_group_fatal_failure (w : W) : W :=
  let w := updg (fun g => g <| group_changed := true |> <| wpa_group_state := WPA_GROUP_FATAL_FAILURE |>) w in
  wpa_group_disconnect_cb w.

Definition wpa_group_setkeysdone (w : W) : W :=
  let w := updg (fun g => g <| group_changed := true |> <| wpa_group_state := WPA_GROUP_SETKEYSDONE |>) w in
  let '(r, w) := wpa_group_config_group_keys w in
  if r <? 0 then wpa_group_fatal_failure w else w.

Definition wpa_group_update_sta (step : W -> Z * W) (w : W) : W :=
  if negb (bool_decide (wpa_ptk_state w.(sm) = WPA_PTK_PTKINITDONE))
  then upd (fun s => s <| GUpdateStationKeys := false |>) w
  else if is_wnmsleep w.(sm) then w
  else
    let w := updg (fun g => g <| GKeyDoneStations ::= fun n => n + 1 |>) w in
    let w := upd (fun s => s <| GUpdateStationKeys := true |>) w in
    (step w).2.

(** [GM] and [GN] and their like exchanged. *)
Definition swap_group_keys (g : wpa_group) : wpa_group :=
  g <| GM := GN g |> <| GN := GM g |> <| GM_igtk := GN_igtk g |> <| GN_igtk := GM_igtk g |>
    <| GM_bigtk := GN_bigtk g |> <| GN_bigtk := GM_bigtk g |>.

Definition wpa_group_setkeys (step : W -> Z * W) (w : W) : W :=
  let w := updg (fun g => g <| group_changed := true |> <| wpa_group_state := WPA_GROUP_SETKEYS |>
                           <| GTKReKey := false |>) w in
  let w := updg swap_group_keys w in
  let w := (wpa_gtk_update w).2 in
  let w := updg (fun g => g <| GKeyDoneStations := 0 |>) w in
  (* the stations: the others, and this one *)
  let w := updg (fun g => g <| GKeyDoneStations := other_stations (events w) |>) w in
  wpa_group_update_sta step w.

Definition wpa_group_sm_step (step : W -> Z * W) (w : W) : W :=
  let g := w.(group) in
  if GInit g then wpa_group_gtk_init w
  else
    match wpa_group_state g with
    | WPA_GROUP_FATAL_FAILURE => w
    | WPA_GROUP_GTK_INIT => if GTKAuthenticator g then wpa_group_setkeysdone w else w
    | WPA_GROUP_SETKEYSDONE => if GTKReKey g then wpa_group_setkeys step w else w
    | WPA_GROUP_SETKEYS =>
      if GKeyDoneStations g =? 0 then wpa_group_setkeysdone w
      else if GTKReKey g then wpa_group_setkeys step w else w
    end.

Definition wpa_group_ensure_init (w : W) : W :=
  if first_sta_seen w.(group) then w
  else
    let w := if negb (random_pool_ready (events w))
             then updg (fun g => g <| reject_4way_hs_for_entropy := true |>) w
             else updg (fun g => g <| first_sta_seen := true |> <| reject_4way_hs_for_entropy := false |>) w in
    let fail w := updg (fun g => g <| first_sta_seen := false |> <| reject_4way_hs_for_entropy := true |>) w in
    let '(r, w) := wpa_group_init_gmk_and_counter w in
    if r <? 0 then fail w
    else
      let '(r, w) := wpa_gtk_update w in
      if r <? 0 then fail w
      else
        let '(r, w) := wpa_group_config_group_keys w in
        if r <? 0 then fail w else w.

(** [wpa_init_keys], and the two steps of [wpa_reconfig]. *)
Definition wpa_init_keys (step : W -> Z * W) (w : W) : Z * W :=
  let w := wpa_group_sm_step step w in
  let w := updg (fun g => g <| GInit := false |>) w in
  let w := wpa_group_sm_step step w in
  (if bool_decide (wpa_group_state w.(group) = WPA_GROUP_FATAL_FAILURE) then -1 else 0, w).

(** [wpa_gtk_rekey]: both key slots get new keys. *)
Definition wpa_gtk_rekey (w : W) : W :=
  let once w := (wpa_group_config_group_keys (wpa_gtk_update (updg swap_group_keys w)).2).2 in
  once (once w).

(** The timer that changes the group master key. *)
Definition wpa_rekey_gmk (w : W) : W :=
  let '(ok, b, w) := random R_GMK WPA_GMK_LEN w in
  let w := updg (fun g => g <| GMK := b |>) w in
  if wpa_gmk_rekey conf =? 0 then w else eloop_register_timeout T_rekey_gmk (wpa_gmk_rekey conf * 1000) w.
End group.

#[export] Instance wpa_event_eq_dec : EqDecision wpa_event.
Proof. solve_decision. Defined.
