(* ===== verification/WpaPtk.v ===== *)
(** * The WPA authenticator: the station's state machines

    The state machines WPA_PTK (the 4-way handshake) and WPA_PTK_GROUP (the group
    key handshake) of hostap's [ap/wpa_auth.c]: one function [sm_X_Y_Enter] for
    each [SM_STATE(X, Y)], [sm_X_Step] for [SM_STEP(X)], and the loop
    [wpa_sm_step]. *)

From S2P Require Import Prelude Bytes HashSpec Hmac AesInterface AesWrap AesOmac Rc4.
From S2P Require Import WpaKeys WpaState WpaFrame WpaPsk WpaGroup.
From S2P Require WpaKde.

(** Where the PMK tried last is stored: [pmk] is compared with [sm->PMK]. *)
Inductive pmk_ptr := Psk (p : psk_ptr) | SmPmk | PmksaPmk.
#[export] Instance pmk_ptr_dec : EqDecision pmk_ptr.
Proof. solve_decision. Defined.

Section ptk.
Context {C : Crypto} {E : WpaEnv} (CONFIG_SAE : bool) (conf : wpa_auth_config) (psks : psk_config).
(** [hash] of [rsn_pmkid] before the call *)
Context (hash0 : bytes).
Notation W := world.

(** Inside the loop of [wpa_sm_step] a further call of it returns at once. *)
Definition in_loop (w : W) : Z * W := (0, w).
Definition disconnect (reason : Z) (w : W) : W := wpa_sta_disconnect conf in_loop reason w.

Definition enter (st : wpa_ptk_states) (w : W) : W :=
  upd (fun s => s <| changed := true |> <| wpa_ptk_state := st |>) w.
Definition enter_group (st : wpa_ptk_group_states) (w : W) : W :=
  upd (fun s => s <| changed := true |> <| wpa_ptk_group_state := st |>) w.

(** [if (sm->GUpdateStationKeys) sm->group->GKeyDoneStations--;
    sm->GUpdateStationKeys = false;] *)
Definition cancel_update (w : W) : W :=
  let w := if GUpdateStationKeys w.(sm) then station_done w else w in
  upd (fun s => s <| GUpdateStationKeys := false |>) w.

Definition psk_like (akm : Z) : bool :=
  wpa_key_mgmt_wpa_psk akm || (akm =? WPA_KEY_MGMT_DPP) || (akm =? WPA_KEY_MGMT_OWE).

(** ** WPA_PTK *)

Definition sm_WPA_PTK_INITIALIZE_Enter (w : W) : W :=
  let w := enter WPA_PTK_INITIALIZE w in
  let w := if Init w.(sm) then upd (fun s => s <| changed := false |>) w else w in
  let w := upd (fun s => s <| keycount := 0 |>) w in
  let w := cancel_update w in
  let w := if bool_decide (wpa w.(sm) = WPA_VERSION_WPA)
           then upd (fun s => s <| PInitAKeys := false |>) w else w in
  let w := upd (fun s => s <| Pair := true |>) w in
  let w := wpa_auth_set_eapol WPA_EAPOL_portEnabled 0 w in
  let w := wpa_remove_ptk w in
  let w := wpa_auth_set_eapol WPA_EAPOL_portValid 0 w in
  let w := upd (fun s => s <| TimeoutCtr := 0 |>) w in
  if psk_like (wpa_key_mgmt w.(sm)) then wpa_auth_set_eapol WPA_EAPOL_authorized 0 w else w.

Definition sm_WPA_PTK_DISCONNECT_Enter (w : W) : W :=
  let reason := disconnect_reason w.(sm) in
  let w := enter WPA_PTK_DISCONNECT w in
  let w := upd (fun s => s <| Disconnect := false |> <| disconnect_reason := 0 |>) w in
  disconnect (if reason =? 0 then WLAN_REASON_PREV_AUTH_NOT_VALID else reason) w.

Definition sm_WPA_PTK_DISCONNECTED_Enter (w : W) : W :=
  upd (fun s => s <| DeauthenticationRequest := false |>) (enter WPA_PTK_DISCONNECTED w).

Definition sm_WPA_PTK_AUTHENTICATION_Enter (w : W) : W :=
  let w := enter WPA_PTK_AUTHENTICATION w in
  let w := upd (fun s => s <| PTK := zero_ptk |> <| PTK_valid := false |>) w in
  let w := wpa_auth_set_eapol WPA_EAPOL_portControl_Auto 1 w in
  let w := wpa_auth_set_eapol WPA_EAPOL_portEnabled 1 w in
  upd (fun s => s <| AuthenticationRequest := false |>) w.

(** A new ANonce; on failure the station is to be disconnected. *)
Definition new_ANonce (w : W) : bool * W :=
  let '(ok, b, w) := random R_ANonce WPA_NONCE_LEN w in
  let w := upd (fun s => s <| ANonce := b |>) w in
  if ok : bool then (true, upd (fun s => s <| TimeoutCtr := 0 |>) w)
  else (false, upd (fun s => s <| Disconnect := true |>) w).

Definition sm_WPA_PTK_AUTHENTICATION2_Enter (w : W) : W :=
  let w := enter WPA_PTK_AUTHENTICATION2 w in
  let w := wpa_group_ensure_init conf w in
  let w := upd (fun s => s <| ReAuthenticationRequest := false |>) w in
  (new_ANonce w).2.

Definition wpa_auth_sm_ptk_update (w : W) : Z * W :=
  let '(ok, w) := new_ANonce w in (if ok : bool then 0 else -1, w).

(** [os_memcpy(sm->PMK, pmk, len); sm->pmk_len = len;] *)
Definition set_pmk (pmk : bytes) (s : wpa_state_machine) : wpa_state_machine :=
  s <| PMK ::= fun b => memcpy b 0 pmk |> <| pmk_len := length pmk |>.

Definition sm_WPA_PTK_INITPMK_Enter (w : W) : W :=
  let w := enter WPA_PTK_INITPMK w in
  let done w :=
    wpa_auth_set_eapol WPA_EAPOL_keyRun 0 (upd (fun s => s <| req_replay_counter_used := false |>) w) in
  let fail w := upd (fun s => s <| Disconnect := true |>) w in
  match pmksa w.(sm) with
  | Some e => done (upd (set_pmk (pmksa_pmk e)) w)
  | None =>
    match cb_get_msk (events w) with
    | Some msk =>
      let msk := take (2 * PMK_LEN) msk in
      let n := if wpa_key_mgmt_sha384 (wpa_key_mgmt w.(sm)) then PMK_LEN_SUITE_B_192 else PMK_LEN in
      if (length msk <? n)%nat then fail w else done (upd (set_pmk (take n msk)) w)
    | None => fail w
    end
  end.

Definition wpa_auth_uses_sae (s : wpa_state_machine) : bool := wpa_key_mgmt_sae (wpa_key_mgmt s).

Definition wpa_auth_get_psk (s : wpa_state_machine) (prev : option psk_ptr) : option (psk_ptr * Z) :=
  hostapd_wpa_auth_get_psk CONFIG_SAE psks (wpa_auth_uses_sae s) (addr s) (p2p_dev_addr s) prev.

Definition sm_WPA_PTK_INITPSK_Enter (w : W) : W :=
  let w := enter WPA_PTK_INITPSK w in
  let w := match wpa_auth_get_psk w.(sm) None with
           | Some (p, _) => upd (set_pmk (psk_bytes psks p)) w
           | None => w
           end in
  let w := match pmksa w.(sm) with
           | Some e => if CONFIG_SAE && wpa_auth_uses_sae w.(sm) then upd (set_pmk (pmksa_pmk e)) w else w
           | None => w
           end in
  upd (fun s => s <| req_replay_counter_used := false |>) w.

(** The PMKID of message 1/4, if it carries one. *)
Definition msg1_pmkid (s : wpa_state_machine) : option bytes :=
  let akm := wpa_key_mgmt s in
  if bool_decide (wpa s = WPA_VERSION_WPA2) &&
     (wpa_key_mgmt_wpa_ieee8021x akm || ((akm =? WPA_KEY_MGMT_OWE) && bool_decide (pmksa s <> None)) ||
      wpa_key_mgmt_sae akm) && negb (akm =? WPA_KEY_MGMT_OSEN)
  then
    match pmksa s with
    | Some e => Some (pmksa_pmkid e)
    | None =>
      if wpa_key_mgmt_suite_b akm then None
      else if CONFIG_SAE && wpa_key_mgmt_sae akm then if pmkid_set s then Some (sm_pmkid s) else None
      else Some (rsn_pmkid sha1_stack sha256_stack hash0 (take (pmk_len s) (PMK s)) (auth_addr conf) (addr s) akm)
    end
  else None.

Definition sm_WPA_PTK_PTKSTART_Enter (w : W) : W :=
  let w := enter WPA_PTK_PTKSTART w in
  let w := upd (fun s => s <| PTKRequest := false |> <| TimeoutEvt := false |>
                           <| alt_snonce_valid := false |> <| TimeoutCtr ::= fun n => n + 1 |>) w in
  if wpa_pairwise_update_count conf <? TimeoutCtr w.(sm) then w
  else
    let kde := pmkid ← msg1_pmkid w.(sm);
               Some ([WpaKde.WLAN_EID_VENDOR_SPECIFIC; Z.of_nat (WpaKde.RSN_SELECTOR_LEN + PMKID_LEN)] ++
                     WPA_PUT_BE32 WpaKde.RSN_KEY_DATA_PMKID ++ take PMKID_LEN pmkid) in
    wpa_send_eapol CONFIG_SAE conf (Z.lor WPA_KEY_INFO_ACK WPA_KEY_INFO_KEY_TYPE) None (Some (ANonce w.(sm)))
      kde 0 false w.

(** [ieee802_11_rsnx_capab]: the element with its header, or [NULL]. *)
Definition ieee802_11_rsnx_capab (rsnxe : option bytes) (capab : Z) : bool :=
  match rsnxe with
  | None => false
  | Some ie =>
    let len := Z.to_nat (get ie 1) in
    let body := sub 2 len ie in
    let flen := (Z.to_nat (Z.land (get body 0) 0x0f) + 1)%nat in
    if (len =? 0)%nat then false
    else if (len <? flen)%nat then false
    else
      let flen := Nat.min flen 4 in
      let capabs := foldr (fun i c => Z.lor c (Z.shiftl (get body i) (8 * Z.of_nat i))) 0 (seq 0 flen) in
      flag_set capabs (BIT capab)
  end.

Definition wpa_derive_ptk (s : wpa_state_machine) (snonce pmk : bytes) (ptk : wpa_ptk) : Z * wpa_ptk :=
  let kdk_len0 :=
    if force_kdk_derivation conf ||
       (secure_ltf conf && ieee802_11_rsnx_capab (sm_rsnxe s) WLAN_RSNX_CAPAB_SECURE_LTF)
    then WPA_KDK_MAX_LEN else 0%nat in
  wpa_pmk_to_ptk pmk (str "Pairwise key expansion") (auth_addr conf) (addr s) (ANonce s) snonce ptk
    (wpa_key_mgmt s) (pairwise s) None kdk_len0.

(** Whether the PMK is one of possibly several pre-shared keys. *)
Definition iterates_psks (s : wpa_state_machine) : bool :=
  wpa_key_mgmt_wpa_psk (wpa_key_mgmt s) && negb (wpa_key_mgmt_sae (wpa_key_mgmt s)).

(** What the search for the PMK finds: the key, where it is stored, its VLAN and
    the PTK; no key; or a null pointer. *)
Inductive pmk_search :=
| Found (pmk : bytes) (ptr : pmk_ptr) (vlan : Z) (ptk : wpa_ptk) (psk_found : bool)
| NotFound (psk_found : bool)
| NullFrame.

(** The [for (;;)] of [PTKCALCNEGOTIATING] and of [wpa_try_alt_snonce]; [frame]
    is the received frame, [fallback] whether the PMKSA entry is used when there
    is no key. *)
Fixpoint search_pmk (fuel : nat) (s : wpa_state_machine) (snonce : bytes) (verifies : nat -> wpa_ptk -> option bool)
    (fallback : bool) (prev : option psk_ptr) (psk_found : bool) (ptk : wpa_ptk) : pmk_search :=
  match fuel with
  | O => NotFound psk_found
  | S fuel =>
    let try (pmk : bytes) (ptr : pmk_ptr) (vlan : Z) (found : bool) (next : wpa_ptk -> pmk_search) : pmk_search :=
      let '(pmk, ptr) :=
        match pmksa s with
        | Some e => if fallback && (length pmk =? 0)%nat then (pmksa_pmk e, PmksaPmk) else (pmk, ptr)
        | None => (pmk, ptr)
        end in
      let '(r, ptk) := wpa_derive_ptk s snonce pmk ptk in
      if r <? 0 then NotFound found
      else
        match verifies (length pmk) ptk with
        | None => NullFrame
        | Some true => Found pmk ptr vlan ptk found
        | Some false => next ptk
        end in
    if iterates_psks s then
      match wpa_auth_get_psk s prev with
      | None => NotFound psk_found
      | Some (p, vlan) =>
        try (psk_bytes psks p) (Psk p) vlan true
          (search_pmk fuel s snonce verifies fallback (Some p) true)
      end
    else try (take (pmk_len s) (PMK s)) SmPmk 0 psk_found (fun _ => NotFound psk_found)
  end.

(** The search ends: [psk_calls] bounds the number of keys. *)
Definition search_fuel : nat := S (psk_calls psks).

(** [mic_len && wpa_verify_key_mic(..., sm->last_rx_eapol_key, ...) == 0]; [None]
    when the frame is [NULL] and is read. *)
Definition last_frame_verifies (s : wpa_state_machine) (mic_len : nat) (n : nat) (ptk : wpa_ptk) : option bool :=
  if (mic_len =? 0)%nat then Some false
  else
    match last_rx_eapol_key s with
    | Some data => Some (wpa_verify_key_mic CONFIG_SAE (wpa_key_mgmt s) n ptk data =? 0)
    | None => if (last_rx_eapol_key_len s <? sizeof_hdr + sizeof_key)%nat then Some false else None
    end.

(** The information element of message 2/4. *)
Definition eapol_key_ie (ie : WpaKde.wpa_eapol_ie_parse) : option (nat * nat) :=
  match WpaKde.rsn_ie ie with
  | Some s => Some s
  | None => match WpaKde.osen ie with Some s => Some s | None => WpaKde.wpa_ie ie end
  end.
Definition span_bytes (buf : bytes) (s : option (nat * nat)) : option bytes :=
  '(p, n) ← s; Some (sub p n buf).

(** [sm->rsnxe] and the one in message 2/4 are both absent or equal. *)
Definition rsnxe_matches (a b : option bytes) : bool :=
  match a, b with
  | None, None => true
  | Some a, Some b => (length a =? length b)%nat && same (length a) a b
  | _, _ => false
  end.

Definition set_null_fault (w : W) : W := w <| fault := true |>.

(** The end of [PTKCALCNEGOTIATING], with a PMK that verifies the frame. *)
Definition accept_msg2 (mic_len : nat) (pmk : bytes) (ptr : pmk_ptr) (vlan : Z) (ptk : wpa_ptk) (w : W) : W :=
  match last_rx_eapol_key w.(sm) with
  | None => set_null_fault w
  | Some data =>
    if (last_rx_eapol_key_len w.(sm) - sizeof_hdr - sizeof_key - mic_len - 2 <? key_data_length mic_len data)%nat
    then w
    else
      let kd := key_data mic_len data in
      match WpaKde.wpa_parse_kde_ies kd with
      | None => set_null_fault w
      | Some (r, kde) =>
        if r <? 0 then w
        else if negb (WpaKde.wpa_compare_rsn_ie (sm_wpa_ie w.(sm)) (span_bytes kd (eapol_key_ie kde)) =? 0)
        then disconnect WLAN_REASON_PREV_AUTH_NOT_VALID w
        else if negb (rsnxe_matches (sm_rsnxe w.(sm)) (span_bytes kd (WpaKde.rsnxe kde)))
        then disconnect WLAN_REASON_PREV_AUTH_NOT_VALID w
        else
          let is_psk := wpa_key_mgmt_wpa_psk (wpa_key_mgmt w.(sm)) in
          let '(r, w) := if negb (vlan =? 0) && is_psk then wpa_auth_update_vlan vlan w else (0, w) in
          if r <? 0 then disconnect WLAN_REASON_PREV_AUTH_NOT_VALID w
          else
            let w := upd (fun s => s <| pending_1_of_4_timeout := false |>) w in
            let w := eloop_cancel_timeout T_send_eapol w in
            let w := if is_psk && bool_decide (ptr <> SmPmk)
                     then upd (set_pmk (take PMK_LEN pmk)) w else w in
            upd (fun s => s <| MICVerified := true |> <| PTK := ptk |> <| PTK_valid := true |>) w
      end
  end.

Definition sm_WPA_PTK_PTKCALCNEGOTIATING_Enter (w : W) : W :=
  let w := enter WPA_PTK_PTKCALCNEGOTIATING w in
  let w := upd (fun s => s <| EAPOLKeyReceived := false |> <| update_snonce := false |>) w in
  let s := w.(sm) in
  let mic_len := wpa_mic_len (wpa_key_mgmt s) (pmk_len s) in
  match search_pmk search_fuel s (SNonce s) (last_frame_verifies s mic_len) true None false zero_ptk with
  | NullFrame => set_null_fault w
  | NotFound psk_found => if psk_found then emit PskFailure w else w
  | Found pmk ptr vlan ptk _ =>
    let w := if bool_decide (ptr = SmPmk) then w else upd (set_pmk pmk) w in
    accept_msg2 mic_len pmk ptr vlan ptk w
  end.

Definition sm_WPA_PTK_PTKCALCNEGOTIATING2_Enter (w : W) : W :=
  upd (fun s => s <| TimeoutCtr := 0 |>) (enter WPA_PTK_PTKCALCNEGOTIATING2 w).

(** *** Message 3/4 *)

Definition WPA_IGTK_KDE_PREFIX_LEN : nat := 2 + 6.
Definition WPA_BIGTK_KDE_PREFIX_LEN : nat := 2 + 6.
Definition ieee80211w_kde_len (s : wpa_state_machine) : nat :=
  ((if mgmt_frame_prot s then 2 + WpaKde.RSN_SELECTOR_LEN + WPA_IGTK_KDE_PREFIX_LEN + mgmt_key_len conf else 0) +
   (if mgmt_frame_prot s && beacon_prot conf
    then 2 + WpaKde.RSN_SELECTOR_LEN + WPA_BIGTK_KDE_PREFIX_LEN + mgmt_key_len conf else 0))%nat.

(** One encapsulation of a management key: key identifier, packet number and
    key; [None] when the random key could not be drawn. *)
Definition mgmt_key_kde (kde : Z) (use : random_use) (stub : bool) (gn : Z) (key : bytes) (w : W) :
    option bytes * W :=
  let '(rsc, w) :=
    if bool_decide (wpa_group_state w.(group) <> WPA_GROUP_SETKEYSDONE) then (None, w)
    else wpa_auth_get_seqnum gn w in
  let pn := take 6 (default (replicate WPA_KEY_RSC_LEN 0) rsc) in
  let '(ok, key, w) := if stub : bool then random use (mgmt_key_len conf) w else (true, key, w) in
  (if ok : bool then Some (WpaKde.wpa_add_kde kde ([u8 gn; 0] ++ pn ++ key) None) else None, w).

Definition ieee80211w_kde_add (w : W) : bytes * W :=
  if negb (mgmt_frame_prot w.(sm)) then ([], w)
  else
    let g := w.(group) in
    let osen := wpa_key_mgmt w.(sm) =? WPA_KEY_MGMT_OSEN in
    let '(igtk, w) := mgmt_key_kde WpaKde.RSN_KEY_DATA_IGTK R_igtk (disable_gtk conf || osen) (GN_igtk g)
                        (key_buffer (GN_igtk g - 4) (mgmt_key_len conf) (IGTK g)) w in
    match igtk with
    | None => ([], w)
    | Some igtk =>
      if negb (beacon_prot conf) then (igtk, w)
      else
        let '(bigtk, w) := mgmt_key_kde WpaKde.RSN_KEY_DATA_BIGTK R_bigtk osen (GN_bigtk g)
                             (key_buffer (GN_bigtk g - 6) (mgmt_key_len conf) (BIGTK g)) w in
        (igtk ++ default [] bigtk, w)
    end.

(** The information elements for a station that uses WPA although RSN is
    enabled: those after the RSN element, RSNXE and mobility domain. *)
Definition skip_element (eid : Z) (ie : bytes) : bytes :=
  if get ie 0 =? eid then drop (Z.to_nat (get ie 1) + 2) ie else ie.
Definition msg3_wpa_ie (s : wpa_state_machine) : bytes :=
  let ie := auth_wpa_ie conf in
  if bool_decide (wpa s = WPA_VERSION_WPA) && flag_set (conf_wpa conf) WPA_PROTO_RSN &&
     (Z.to_nat (get ie 1) + 2 <? length ie)%nat && (get ie 0 =? WpaKde.WLAN_EID_RSN)
  then
    let ie := drop (Z.to_nat (get ie 1) + 2) ie in
    let ie := skip_element WpaKde.WLAN_EID_RSNX ie in
    let ie := skip_element WpaKde.WLAN_EID_MOBILITY_DOMAIN ie in
    take (Z.to_nat (get ie 1) + 2) ie
  else ie.

(** The group key of a message: the current one, or a random one for this
    station only. *)
Definition msg_gtk (w : W) : option bytes * W :=
  let g := w.(group) in
  if disable_gtk conf || (wpa_key_mgmt w.(sm) =? WPA_KEY_MGMT_OSEN) then
    let '(ok, b, w) := random R_stub_gtk (GTK_len g) w in (if ok : bool then Some b else None, w)
  else (Some (key_buffer (GN g - 1) (GTK_len g) (GTK g)), w).

Definition mic_flag (s : wpa_state_machine) : Z :=
  if (wpa_mic_len (wpa_key_mgmt s) (pmk_len s) =? 0)%nat then 0 else WPA_KEY_INFO_MIC.

(** The size of the buffer for the key data. *)
Definition msg3_kde_len (s : wpa_state_machine) (wpa_ie0 : bytes) (gtk : option bytes) : nat :=
  (length wpa_ie0 + ieee80211w_kde_len s +
   (if use_ext_key_id s then 2 + WpaKde.RSN_SELECTOR_LEN + 2 else 0) +
   match gtk with Some k => 2 + WpaKde.RSN_SELECTOR_LEN + 2 + length k | None => 0 end +
   (if (transition_disable conf =? 0)%Z then 0 else 2 + WpaKde.RSN_SELECTOR_LEN + 1))%nat.

(** The key data. *)
Definition msg3_kde (wpa_ie0 : bytes) (gtk : option bytes) (w : W) : bytes * W :=
  let keyid := if use_ext_key_id w.(sm)
               then WpaKde.wpa_add_kde WpaKde.RSN_KEY_DATA_KEYID [Z.land (keyidx_active w.(sm)) 0x01; 0] None
               else [] in
  let gtk := match gtk with
             | Some k => WpaKde.wpa_add_kde WpaKde.RSN_KEY_DATA_GROUPKEY [Z.land (GN w.(group)) 0x03; 0] (Some k)
             | None => []
             end in
  let '(mgmt, w) := ieee80211w_kde_add w in
  let td := if transition_disable conf =? 0 then []
            else WpaKde.wpa_add_kde WpaKde.WFA_KEY_DATA_TRANSITION_DISABLE [u8 (transition_disable conf)] None in
  (wpa_ie0 ++ keyid ++ gtk ++ mgmt ++ td, w).

(** From the allocation of the key data to the end. *)
Definition send_msg3 (secure : bool) (rsc gtk : option bytes) (encr : bool) (w : W) : W :=
  let s := w.(sm) in
  let ie := msg3_wpa_ie s in
  let '(ok, w) := allocate (msg3_kde_len s ie gtk) w in
  if negb ok then w
  else
    let '(kde, w) := msg3_kde ie gtk w in
    let key_info :=
      foldr Z.lor 0 [if secure then WPA_KEY_INFO_SECURE else 0; mic_flag s; WPA_KEY_INFO_ACK;
                     WPA_KEY_INFO_INSTALL; WPA_KEY_INFO_KEY_TYPE] in
    wpa_send_eapol CONFIG_SAE conf key_info rsc (Some (ANonce s)) (Some kde) 0 encr w.

Definition sm_WPA_PTK_PTKINITNEGOTIATING_Enter (w : W) : W :=
  let w := enter WPA_PTK_PTKINITNEGOTIATING w in
  let w := upd (fun s => s <| TimeoutEvt := false |> <| TimeoutCtr ::= fun n => n + 1 |>) w in
  if wpa_disable_eapol_key_retries conf && (1 <? TimeoutCtr w.(sm)) then w
  else if wpa_pairwise_update_count conf <? TimeoutCtr w.(sm) then w
  else
    let '(rsc, w) := wpa_auth_get_seqnum (GN w.(group)) w in
    let rsc := default (replicate WPA_KEY_RSC_LEN 0) rsc in
    let s := w.(sm) in
    if bool_decide (wpa s = WPA_VERSION_WPA2) then
      let '(r, w) :=
        if use_ext_key_id s && (TimeoutCtr s =? 1) then
          wpa_auth_set_key 0 (wpa_cipher_to_alg (pairwise s)) (Some (addr s)) (keyidx_active s)
            (take (wpa_cipher_key_len (pairwise s)) (tk (PTK s))) KEY_FLAG_PAIRWISE_RX w
        else (0, w) in
      if negb (r =? 0) then disconnect WLAN_REASON_PREV_AUTH_NOT_VALID w
      else
        let '(gtk, w) := msg_gtk w in
        match gtk with
        | None => w
        | Some gtk => send_msg3 true (Some rsc) (Some gtk) true w
        end
    else send_msg3 (rx_eapol_key_secure s) None None false w.

(** *** The end of the handshake *)

Definition wpa_auth_set_ptk_rekey_timer (w : W) : W :=
  if wpa_ptk_rekey conf =? 0 then w
  else eloop_register_timeout T_rekey_ptk (wpa_ptk_rekey conf * 1000) (eloop_cancel_timeout T_rekey_ptk w).

Definition ptk_done (w : W) : W :=
  let w := wpa_auth_set_eapol WPA_EAPOL_portValid 1 w in
  let w := wpa_auth_set_eapol WPA_EAPOL_keyAvailable 0 w in
  let w := wpa_auth_set_eapol WPA_EAPOL_keyDone 1 w in
  if bool_decide (wpa w.(sm) = WPA_VERSION_WPA) then upd (fun s => s <| PInitAKeys := true |>) w
  else upd (fun s => s <| has_GTK := true |>) w.

(** [wpa_auth_set_key] of [PTKINITDONE]: with Extended Key ID the key that was
    set for reception is enabled for transmission. *)
Definition install_ptk (w : W) : Z * W :=
  let s := w.(sm) in
  if use_ext_key_id s
  then wpa_auth_set_key 0 WPA_ALG_NONE (Some (addr s)) (keyidx_active s) [] KEY_FLAG_PAIRWISE_RX_TX_MODIFY w
  else wpa_auth_set_key 0 (wpa_cipher_to_alg (pairwise s)) (Some (addr s)) 0
         (take (wpa_cipher_key_len (pairwise s)) (tk (PTK s))) KEY_FLAG_PAIRWISE_RX_TX w.

Definition sm_WPA_PTK_PTKINITDONE_Enter (w : W) : W :=
  let w := enter WPA_PTK_PTKINITDONE w in
  let w := upd (fun s => s <| EAPOLKeyReceived := false |>) w in
  if Pair w.(sm) then
    let '(res, w) := install_ptk w in
    if negb (res =? 0) then disconnect WLAN_REASON_PREV_AUTH_NOT_VALID w
    else
      let w := upd (fun s => s <| pairwise_set := true |>) w in
      let w := wpa_auth_set_ptk_rekey_timer w in
      let w := emit (StorePtksa (PTK w.(sm))) w in
      let w := if psk_like (wpa_key_mgmt w.(sm)) then wpa_auth_set_eapol WPA_EAPOL_authorized 1 w else w in
      ptk_done w
  else ptk_done w.

(** [SM_STEP(WPA_PTK)] *)

Definition handshake_failed (w : W) : W := w <| dot11RSNA4WayHandshakeFailures ::= fun n => n + 1 |>.
Definition retry_limit (w : W) : W :=
  sm_WPA_PTK_DISCONNECT_Enter
    (upd (fun s => s <| disconnect_reason := WLAN_REASON_4WAY_HANDSHAKE_TIMEOUT |>) (handshake_failed w)).

(** A response to a pairwise message has arrived. *)
Definition pairwise_received (s : wpa_state_machine) : bool :=
  EAPOLKeyReceived s && negb (EAPOLKeyRequest s) && EAPOLKeyPairwise s.

Definition sm_WPA_PTK_switch (w : W) : W :=
  let s := w.(sm) in
  match wpa_ptk_state s with
  | WPA_PTK_INITIALIZE => w
  | WPA_PTK_DISCONNECT => sm_WPA_PTK_DISCONNECTED_Enter w
  | WPA_PTK_DISCONNECTED => sm_WPA_PTK_INITIALIZE_Enter w
  | WPA_PTK_AUTHENTICATION => sm_WPA_PTK_AUTHENTICATION2_Enter w
  | WPA_PTK_AUTHENTICATION2 =>
    if wpa_key_mgmt_wpa_ieee8021x (wpa_key_mgmt s) && eap_keyRun w then sm_WPA_PTK_INITPMK_Enter w
    else if wpa_key_mgmt_wpa_psk (wpa_key_mgmt s) || (wpa_key_mgmt s =? WPA_KEY_MGMT_OWE)
    then sm_WPA_PTK_INITPSK_Enter w
    else if wpa_key_mgmt s =? WPA_KEY_MGMT_DPP then sm_WPA_PTK_INITPMK_Enter w
    else w
  | WPA_PTK_INITPMK =>
    if eap_keyAvailable w then sm_WPA_PTK_PTKSTART_Enter w
    else sm_WPA_PTK_DISCONNECT_Enter (handshake_failed w)
  | WPA_PTK_INITPSK =>
    if bool_decide (wpa_auth_get_psk s None <> None) then sm_WPA_PTK_PTKSTART_Enter w
    else if CONFIG_SAE && wpa_auth_uses_sae s && bool_decide (pmksa s <> None) then sm_WPA_PTK_PTKSTART_Enter w
    else sm_WPA_PTK_DISCONNECT_Enter (handshake_failed w)
  | WPA_PTK_PTKSTART =>
    if pairwise_received s then sm_WPA_PTK_PTKCALCNEGOTIATING_Enter w
    else if wpa_pairwise_update_count conf <? TimeoutCtr s then retry_limit w
    else if TimeoutEvt s then sm_WPA_PTK_PTKSTART_Enter w
    else w
  | WPA_PTK_PTKCALCNEGOTIATING =>
    if MICVerified s then sm_WPA_PTK_PTKCALCNEGOTIATING2_Enter w
    else if pairwise_received s then sm_WPA_PTK_PTKCALCNEGOTIATING_Enter w
    else if TimeoutEvt s then sm_WPA_PTK_PTKSTART_Enter w
    else w
  | WPA_PTK_PTKCALCNEGOTIATING2 => sm_WPA_PTK_PTKINITNEGOTIATING_Enter w
  | WPA_PTK_PTKINITNEGOTIATING =>
    if update_snonce s then sm_WPA_PTK_PTKCALCNEGOTIATING_Enter w
    else if pairwise_received s && MICVerified s then sm_WPA_PTK_PTKINITDONE_Enter w
    else if (wpa_pairwise_update_count conf <? TimeoutCtr s) ||
            (wpa_disable_eapol_key_retries conf && (1 <? TimeoutCtr s))
    then retry_limit w
    else if TimeoutEvt s then sm_WPA_PTK_PTKINITNEGOTIATING_Enter w
    else w
  | WPA_PTK_PTKINITDONE => w
  end.

Definition sm_WPA_PTK_Step (w : W) : W :=
  let s := w.(sm) in
  if Init s then sm_WPA_PTK_INITIALIZE_Enter w
  else if Disconnect s then sm_WPA_PTK_DISCONNECT_Enter w
  else if DeauthenticationRequest s then sm_WPA_PTK_DISCONNECTED_Enter w
  else if AuthenticationRequest s then sm_WPA_PTK_AUTHENTICATION_Enter w
  else if ReAuthenticationRequest s then sm_WPA_PTK_AUTHENTICATION2_Enter w
  else if PTKRequest s then
    let '(r, w) := wpa_auth_sm_ptk_update w in
    if r <? 0 then sm_WPA_PTK_DISCONNECTED_Enter w else sm_WPA_PTK_PTKSTART_Enter w
  else sm_WPA_PTK_switch w.

(** ** WPA_PTK_GROUP *)

Definition sm_WPA_PTK_GROUP_IDLE_Enter (w : W) : W :=
  let w := enter_group WPA_PTK_GROUP_IDLE w in
  let w := if Init w.(sm) then upd (fun s => s <| changed := false |>) w else w in
  upd (fun s => s <| GTimeoutCtr := 0 |>) w.

Definition send_group_msg1 (rsc gtk : bytes) (w : W) : W :=
  let s := w.(sm) in
  let g := w.(group) in
  let '(kde, w) :=
    if bool_decide (wpa s = WPA_VERSION_WPA2) then
      let '(ok, w) := allocate (2 + WpaKde.RSN_SELECTOR_LEN + 2 + GTK_len g + ieee80211w_kde_len s) w in
      if negb ok then (None, w)
      else
        let kde := WpaKde.wpa_add_kde WpaKde.RSN_KEY_DATA_GROUPKEY [Z.land (GN g) 0x03; 0] (Some gtk) in
        let '(mgmt, w) := ieee80211w_kde_add w in (Some (kde ++ mgmt), w)
    else (Some gtk, w) in
  match kde with
  | None => w
  | Some kde =>
    let key_info := foldr Z.lor 0 [WPA_KEY_INFO_SECURE; mic_flag s; WPA_KEY_INFO_ACK;
                                   if negb (Pair s) then WPA_KEY_INFO_INSTALL else 0] in
    wpa_send_eapol CONFIG_SAE conf key_info (Some rsc) None (Some kde) (GN g) true w
  end.

Definition sm_WPA_PTK_GROUP_REKEYNEGOTIATING_Enter (w : W) : W :=
  let w := enter_group WPA_PTK_GROUP_REKEYNEGOTIATING w in
  let w := upd (fun s => s <| GTimeoutCtr ::= fun n => n + 1 |>) w in
  if wpa_disable_eapol_key_retries conf && (1 <? GTimeoutCtr w.(sm)) then w
  else if wpa_group_update_count conf <? GTimeoutCtr w.(sm) then w
  else
    let w := if bool_decide (wpa w.(sm) = WPA_VERSION_WPA)
             then upd (fun s => s <| PInitAKeys := false |>) w else w in
    let w := upd (fun s => s <| TimeoutEvt := false |>) w in
    let '(rsc, w) := if bool_decide (wpa_group_state w.(group) = WPA_GROUP_SETKEYSDONE)
                     then wpa_auth_get_seqnum (GN w.(group)) w else (None, w) in
    let '(gtk, w) := msg_gtk w in
    match gtk with
    | None => w
    | Some gtk => send_group_msg1 (default (replicate WPA_KEY_RSC_LEN 0) rsc) gtk w
    end.

Definition sm_WPA_PTK_GROUP_REKEYESTABLISHED_Enter (w : W) : W :=
  let w := enter_group WPA_PTK_GROUP_REKEYESTABLISHED w in
  let w := upd (fun s => s <| EAPOLKeyReceived := false |>) w in
  let w := cancel_update w in
  upd (fun s => s <| GTimeoutCtr := 0 |> <| has_GTK := true |>) w.

Definition sm_WPA_PTK_GROUP_KEYERROR_Enter (w : W) : W :=
  let w := enter_group WPA_PTK_GROUP_KEYERROR w in
  let w := cancel_update w in
  upd (fun s => s <| Disconnect := true |> <| disconnect_reason := WLAN_REASON_GROUP_KEY_UPDATE_TIMEOUT |>) w.

Definition sm_WPA_PTK_GROUP_Step (w : W) : W :=
  let s := w.(sm) in
  if Init s || PtkGroupInit s then
    upd (fun s => s <| PtkGroupInit := false |>) (sm_WPA_PTK_GROUP_IDLE_Enter w)
  else
    match wpa_ptk_group_state s with
    | WPA_PTK_GROUP_IDLE =>
      if GUpdateStationKeys s || (bool_decide (wpa s = WPA_VERSION_WPA) && PInitAKeys s)
      then sm_WPA_PTK_GROUP_REKEYNEGOTIATING_Enter w else w
    | WPA_PTK_GROUP_REKEYNEGOTIATING =>
      if EAPOLKeyReceived s && negb (EAPOLKeyRequest s) && negb (EAPOLKeyPairwise s) && MICVerified s
      then sm_WPA_PTK_GROUP_REKEYESTABLISHED_Enter w
      else if (wpa_group_update_count conf <? GTimeoutCtr s) ||
              (wpa_disable_eapol_key_retries conf && (1 <? GTimeoutCtr s))
      then sm_WPA_PTK_GROUP_KEYERROR_Enter w
      else if TimeoutEvt s then sm_WPA_PTK_GROUP_REKEYNEGOTIATING_Enter w
      else w
    | WPA_PTK_GROUP_KEYERROR | WPA_PTK_GROUP_REKEYESTABLISHED => sm_WPA_PTK_GROUP_IDLE_Enter w
    end.

(** ** [wpa_sm_step] *)

(** One pass of the [do] loop, and whether a pending deinitialization ends it. *)
Definition step_pass (w : W) : bool * W :=
  let w := upd (fun s => s <| changed := false |>) w in
  let w := updg (fun g => g <| group_changed := false |>) w in
  let w := sm_WPA_PTK_Step w in
  if pending_deinit w.(sm) then (true, w)
  else
    let w := sm_WPA_PTK_GROUP_Step w in
    if pending_deinit w.(sm) then (true, w) else (false, wpa_group_sm_step conf in_loop w).

(** Left without fuel, the loop would have [changed] or [group_changed] set. *)
Fixpoint step_loop (fuel : nat) (w : W) : W :=
  match fuel with
  | O => w
  | S fuel =>
    if pending_deinit w.(sm) then w
    else
      let '(stop, w) := step_pass w in
      if stop : bool then w
      else if changed w.(sm) || group_changed w.(group) then step_loop fuel w else w
  end.

(** No run takes more passes while nonces can be drawn. *)
Definition STEP_FUEL : nat := 128.

(** The station's memory is released. *)
Definition wpa_free_sta_sm (w : W) : W := (cancel_update w) <| freed := true |>.

Definition wpa_sm_step (w : W) : Z * W :=
  if in_step_loop w.(sm) then (0, w)
  else
    let w := upd (fun s => s <| in_step_loop := true |>) w in
    let w := step_loop STEP_FUEL w in
    let w := upd (fun s => s <| in_step_loop := false |>) w in
    if pending_deinit w.(sm) then (1, wpa_free_sta_sm w) else (0, w).
End ptk.
