(* ===== verification/WpaAuth.v ===== *)
(** * The WPA authenticator: frames and entry points

    [wpa_receive] and the functions of hostap's [ap/wpa_auth.c] that the access
    point and the event loop call. *)

From S2P Require Import Prelude Bytes HashSpec Hmac AesInterface AesWrap AesOmac Rc4.
From S2P Require Import WpaKeys WpaState WpaFrame WpaPsk WpaGroup WpaPtk.
From S2P Require WpaKde.

(** ** Replay counters *)

Fixpoint wpa_replay_counter_valid (ctr : list wpa_key_replay_counter) (rc : bytes) : bool :=
  match ctr with
  | [] => false
  | c :: ctr =>
    if negb (valid c) then false
    else if same WPA_REPLAY_COUNTER_LEN rc (counter c) then true
    else wpa_replay_counter_valid ctr rc
  end.

(** [None] for [NULL]: all counters. *)
Definition wpa_replay_counter_mark_invalid (rc : option bytes) (ctr : list wpa_key_replay_counter) :
    list wpa_key_replay_counter :=
  map (fun c =>
    if valid c && match rc with None => true | Some rc => same WPA_REPLAY_COUNTER_LEN rc (counter c) end
    then mk_counter (counter c) false else c) ctr.

(** ** A received frame *)

Inductive wpa_msg := PAIRWISE_2 | PAIRWISE_4 | GROUP_2 | REQUEST.
#[export] Instance wpa_msg_dec : EqDecision wpa_msg.
Proof. solve_decision. Defined.

Definition classify (mic_len : nat) (data : bytes) : wpa_msg :=
  let info := key_info data in
  let n := key_data_length mic_len data in
  if flag_set info WPA_KEY_INFO_REQUEST then REQUEST
  else if negb (flag_set info WPA_KEY_INFO_KEY_TYPE) then GROUP_2
  else if (n =? 0)%nat || ((mic_len =? 0)%nat && flag_set info WPA_KEY_INFO_ENCR_KEY_DATA && (n =? AES_BLOCK_SIZE)%nat)
  then PAIRWISE_4 else PAIRWISE_2.

(** The lengths and the descriptor type are right. *)
Definition frame_shape_ok (s : wpa_state_machine) (mic_len : nat) (data : bytes) : bool :=
  let keyhdrlen := (sizeof_key + mic_len + 2)%nat in
  negb (length data <? sizeof_hdr + keyhdrlen)%nat &&
  negb (length data - sizeof_hdr - keyhdrlen <? key_data_length mic_len data)%nat &&
  (if bool_decide (wpa s = WPA_VERSION_WPA2)
   then (key_type data =? EAPOL_KEY_TYPE_WPA) || (key_type data =? EAPOL_KEY_TYPE_RSN)
   else key_type data =? EAPOL_KEY_TYPE_WPA) &&
  negb (flag_set (key_info data) WPA_KEY_INFO_SMK_MESSAGE).

(** The descriptor version is the one negotiated. *)
Definition frame_version_ok (s : wpa_state_machine) (data : bytes) : bool :=
  let ver := Z.land (key_info data) WPA_KEY_INFO_TYPE_MASK in
  let akm := wpa_key_mgmt s in
  (if (pairwise s =? WPA_CIPHER_CCMP) || (pairwise s =? WPA_CIPHER_GCMP) then
     negb (wpa_use_cmac akm && negb (wpa_use_akm_defined akm) && negb (ver =? WPA_KEY_INFO_TYPE_AES_128_CMAC)) &&
     negb (negb (wpa_use_cmac akm) && negb (wpa_use_akm_defined akm) &&
           negb (ver =? WPA_KEY_INFO_TYPE_HMAC_SHA1_AES))
   else true) &&
  negb (wpa_use_akm_defined akm && negb (ver =? WPA_KEY_INFO_TYPE_AKM_DEFINED)).

(** The replay counter: [None] drops the frame, otherwise the state after the
    workaround for stations that change their nonce. *)
Definition check_replay (msg : wpa_msg) (data : bytes) (s : wpa_state_machine) : option wpa_state_machine :=
  let rc := replay_counter data in
  let negotiating := bool_decide (wpa_ptk_state s = WPA_PTK_PTKINITNEGOTIATING) in
  if bool_decide (msg = REQUEST) then
    if req_replay_counter_used s && (os_memcmp WPA_REPLAY_COUNTER_LEN rc (req_replay_counter s) <=? 0)
    then None else Some s
  else if wpa_replay_counter_valid (key_replay s) rc then Some s
  else if bool_decide (msg = PAIRWISE_2) && wpa_replay_counter_valid (prev_key_replay s) rc && negotiating &&
          negb (same WPA_NONCE_LEN (SNonce s) (key_nonce data))
  then
    Some (s <| update_snonce := true |> <| alt_SNonce := SNonce s |> <| alt_snonce_valid := true |>
            <| alt_replay_counter := from_option counter [] (head (key_replay s)) |>)
  else if bool_decide (msg = PAIRWISE_4) && alt_snonce_valid s && negotiating &&
          same WPA_REPLAY_COUNTER_LEN rc (alt_replay_counter s)
  then Some s
  else None.

(** The state expects such a message. *)
Definition msg_expected (msg : wpa_msg) (s : wpa_state_machine) : bool :=
  match msg with
  | PAIRWISE_2 =>
    bool_decide (wpa_ptk_state s = WPA_PTK_PTKSTART) ||
    bool_decide (wpa_ptk_state s = WPA_PTK_PTKCALCNEGOTIATING) ||
    (update_snonce s && bool_decide (wpa_ptk_state s = WPA_PTK_PTKINITNEGOTIATING))
  | PAIRWISE_4 => bool_decide (wpa_ptk_state s = WPA_PTK_PTKINITNEGOTIATING) && PTK_valid s
  | GROUP_2 => bool_decide (wpa_ptk_group_state s = WPA_PTK_GROUP_REKEYNEGOTIATING) && PTK_valid s
  | REQUEST => true
  end.

Section auth.
Context {C : Crypto} {E : WpaEnv} (CONFIG_SAE : bool) (conf : wpa_auth_config) (psks : psk_config).
Context (hash0 : bytes).
Notation W := world.
Notation step := (wpa_sm_step CONFIG_SAE conf psks hash0).

Definition wpa_request_new_ptk (w : W) : W :=
  if negb (use_ext_key_id w.(sm)) && wpa_deny_ptk0_rekey conf then
    upd (fun s => s <| Disconnect := true |>
                    <| disconnect_reason := WLAN_REASON_CLASS3_FRAME_FROM_NONASSOC_STA |>) w
  else
    let w := if use_ext_key_id w.(sm) then flip_key_id w else w in
    upd (fun s => s <| PTKRequest := true |> <| PTK_valid := false |>) w.

(** *** The end of a station *)

(** The first timer of a kind, if it runs longer than that, is shortened; whether
    there is one. *)
Fixpoint deplete (t : wpa_timer) (ms : Z) (l : list (wpa_timer * Z)) : option (list (wpa_timer * Z)) :=
  match l with
  | [] => None
  | (t', ms') :: l =>
    if bool_decide (t' = t) then Some ((t', Z.min ms ms') :: l)
    else l ← deplete t ms l; Some ((t', ms') :: l)
  end.

Definition wpa_auth_sta_deinit (w : W) : W :=
  let w :=
    if wpa_strict_rekey conf && has_GTK w.(sm) then
      match deplete T_rekey_gtk 500 (timers w) with
      | Some l => w <| timers := l |>
      | None => eloop_register_timeout T_rekey_gtk 500 w
      end
    else w in
  let w := eloop_cancel_timeout T_send_eapol w in
  let w := upd (fun s => s <| pending_1_of_4_timeout := false |>) w in
  let w := eloop_cancel_timeout T_call_step w in
  let w := eloop_cancel_timeout T_rekey_ptk w in
  if in_step_loop w.(sm) then upd (fun s => s <| pending_deinit := true |>) w else wpa_free_sta_sm w.

(** *** Requests of the station *)

(** A positive answer of the callback means that countermeasures have removed
    the station. *)
Definition wpa_receive_error_report (is_group : bool) (w : W) : Z * W :=
  if is_group && negb (wpa_group_cipher conf =? WPA_CIPHER_TKIP) then (0, wpa_request_new_ptk w)
  else if negb is_group && negb (pairwise w.(sm) =? WPA_CIPHER_TKIP) then (0, wpa_request_new_ptk w)
  else
    let w := emit MicFailure w in
    if 0 <? cb_mic_failure_report (events w) then (1, wpa_auth_sta_deinit w)
    else
      let w := upd (fun s => s <| dot11RSNAStatsTKIPRemoteMICFailures ::= fun n => n + 1 |>) w in
      let w := w <| auth_RemoteMICFailures ::= fun n => n + 1 |> in
      (0, wpa_request_new_ptk w).

Fixpoint rekey_loop (fuel : nat) (w : W) : W :=
  match fuel with
  | O => w
  | S fuel =>
    let w := updg (fun g => g <| group_changed := false |>) w in
    let w := wpa_group_sm_step conf step w in
    if group_changed w.(group) then rekey_loop fuel w else w
  end.
Definition REKEY_FUEL : nat := 8.

Definition wpa_rekey_gtk (w : W) : W :=
  let w := updg (fun g => g <| GTKReKey := true |>) w in
  let w := rekey_loop REKEY_FUEL w in
  if wpa_group_rekey conf =? 0 then w else eloop_register_timeout T_rekey_gtk (wpa_group_rekey conf * 1000) w.

Definition wpa_auth_gtk_rekey_in_process (w : W) : bool := negb (GKeyDoneStations w.(group) =? 0).

(** A request with a valid MIC; [false] when the station was removed. *)
Definition handle_request (mic_len : nat) (data : bytes) (w : W) : bool * W :=
  let info := key_info data in
  let w := upd (fun s => s <| req_replay_counter_used := true |>
                           <| req_replay_counter := replay_counter data |>) w in
  if flag_set info WPA_KEY_INFO_ERROR then
    let '(r, w) := wpa_receive_error_report (negb (flag_set info WPA_KEY_INFO_KEY_TYPE)) w in
    (negb (0 <? r), w)
  else if flag_set info WPA_KEY_INFO_KEY_TYPE then (true, wpa_request_new_ptk w)
  else
    let mac_addr :=
      (0 <? key_data_length mic_len data)%nat &&
      match WpaKde.wpa_parse_kde_ies (key_data mic_len data) with
      | Some (0, kde) => bool_decide (WpaKde.mac_addr kde <> None)
      | _ => false
      end in
    if mac_addr then (true, w)
    else
      let w := eloop_cancel_timeout T_rekey_gtk w in
      (true, if wpa_auth_gtk_rekey_in_process w then w else wpa_rekey_gtk w).

(** A response uses up its replay counter, and all that are pending. *)
Definition use_replay_counter (msg : wpa_msg) (data : bytes) (s : wpa_state_machine) : wpa_state_machine :=
  let s := s <| key_replay ::= wpa_replay_counter_mark_invalid (Some (replay_counter data)) |> in
  let s := s <| prev_key_replay :=
               if bool_decide (msg = PAIRWISE_2) then key_replay s
               else replicate RSNA_MAX_EAPOL_RETRIES zero_counter |> in
  s <| key_replay ::= wpa_replay_counter_mark_invalid None |>.

(** [wpa_try_alt_snonce]: 0 or -1. *)
Definition wpa_try_alt_snonce (data : bytes) (w : W) : Z * W :=
  let s := w.(sm) in
  let verifies n ptk := Some (wpa_verify_key_mic CONFIG_SAE (wpa_key_mgmt s) n ptk data =? 0) in
  match search_pmk CONFIG_SAE conf psks (search_fuel psks) s (alt_SNonce s) verifies false None false zero_ptk with
  | Found pmk ptr vlan ptk _ =>
    let w := if bool_decide (ptr = SmPmk) then w else upd (set_pmk pmk) w in
    let w := upd (fun s => s <| alt_snonce_valid := false |>) w in
    let '(r, w) := if negb (vlan =? 0) && wpa_key_mgmt_wpa_psk (wpa_key_mgmt w.(sm))
                   then wpa_auth_update_vlan vlan w else (0, w) in
    if r <? 0 then (-1, w)
    else (0, upd (fun s => s <| SNonce := alt_SNonce s |> <| PTK := ptk |> <| PTK_valid := true |>) w)
  | _ => (-1, w)
  end.

(** The check of the MIC: [false] drops the frame. *)
Definition verify_frame (mic_len : nat) (msg : wpa_msg) (data : bytes) (w : W) : bool * W :=
  let w := upd (fun s => s <| MICVerified := false |>) w in
  let s := w.(sm) in
  if PTK_valid s && negb (update_snonce s) then
    let '(bad, w) :=
      if negb (mic_len =? 0)%nat &&
         negb (wpa_verify_key_mic CONFIG_SAE (wpa_key_mgmt s) (pmk_len s) (PTK s) data =? 0)
      then
        if bool_decide (msg <> PAIRWISE_4) || negb (alt_snonce_valid s) then (true, w)
        else let '(r, w) := wpa_try_alt_snonce data w in (negb (r =? 0), w)
      else (false, w) in
    if bad : bool then (false, w)
    else
      let w := upd (fun s => s <| MICVerified := true |>) w in
      let w := eloop_cancel_timeout T_send_eapol w in
      (true, upd (fun s => s <| pending_1_of_4_timeout := false |>) w)
  else (true, w).

(** The end of [wpa_receive]: the frame is kept for the state machines. *)
Definition keep_frame (data : bytes) (w : W) : W :=
  let '(ok, w) := allocate (length data) w in
  if negb ok then upd (fun s => s <| last_rx_eapol_key := None |>) w
  else
    let info := key_info data in
    let w := upd (fun s =>
      s <| last_rx_eapol_key := Some data |> <| last_rx_eapol_key_len := length data |>
        <| rx_eapol_key_secure := flag_set info WPA_KEY_INFO_SECURE |> <| EAPOLKeyReceived := true |>
        <| EAPOLKeyPairwise := flag_set info WPA_KEY_INFO_KEY_TYPE |>
        <| EAPOLKeyRequest := flag_set info WPA_KEY_INFO_REQUEST |> <| SNonce := key_nonce data |>) w in
    (step w).2.

(** From the check of the MIC on. *)
Definition process_frame (mic_len : nat) (msg : wpa_msg) (data : bytes) (w : W) : W :=
  let '(ok, w) := verify_frame mic_len msg data w in
  if negb ok then w
  else if bool_decide (msg = REQUEST) then
    if negb (MICVerified w.(sm)) then w
    else
      let '(go_on, w) := handle_request mic_len data w in
      if go_on : bool then keep_frame data w else w
  else keep_frame data (upd (use_replay_counter msg data) w).

Definition wpa_receive (data : bytes) (w : W) : W :=
  let s := w.(sm) in
  let mic_len := wpa_mic_len (wpa_key_mgmt s) (pmk_len s) in
  let msg := classify mic_len data in
  if conf_wpa conf =? 0 then w
  else if negb (frame_shape_ok s mic_len data) then w
  else if negb (frame_version_ok s data) then w
  else
    match check_replay msg data s with
    | None => w
    | Some s =>
      let w := w <| sm := s |> in
      if negb (msg_expected msg s) then w
      else if bool_decide (msg = PAIRWISE_2) && reject_4way_hs_for_entropy w.(group)
      then wpa_sta_disconnect conf step WLAN_REASON_PREV_AUTH_NOT_VALID w
      else if flag_set (key_info data) WPA_KEY_INFO_ACK then w
      else if negb (wpa_key_mgmt_fils (wpa_key_mgmt s)) && negb (flag_set (key_info data) WPA_KEY_INFO_MIC) then w
      else process_frame mic_len msg data w
    end.

(** *** Entry points *)

(** A cleared [struct wpa_state_machine] for a new station. *)
Definition wpa_auth_sta_init (addr0 : bytes) (p2p_dev_addr0 : option bytes) (w : W) : option wpa_state_machine :=
  if bool_decide (wpa_group_state w.(group) = WPA_GROUP_FATAL_FAILURE) then None
  else
    Some (mk_sm (take ETH_ALEN addr0) (default (replicate ETH_ALEN 0) p2p_dev_addr0)
      WPA_PTK_INITIALIZE WPA_PTK_GROUP_IDLE false false
      false false false 0 0 0 false false
      false false false false
      (replicate WPA_NONCE_LEN 0) (replicate WPA_NONCE_LEN 0) (replicate WPA_NONCE_LEN 0)
      (replicate WPA_REPLAY_COUNTER_LEN 0) (replicate PMK_LEN_MAX 0)
      0 (replicate PMKID_LEN 0) zero_ptk 0 false
      false false false 0 false
      (replicate RSNA_MAX_EAPOL_RETRIES zero_counter) (replicate RSNA_MAX_EAPOL_RETRIES zero_counter)
      false false false false
      None 0 false false
      false false false false
      false false false false
      (replicate WPA_REPLAY_COUNTER_LEN 0) false None None WPA_VERSION_NO_WPA 0 0 None
      0 0 false).

Definition wpa_auth_sta_associated (w : W) : Z * W :=
  if conf_wpa conf =? 0 then (-1, w)
  else if started w.(sm) then
    step (upd (fun s => s <| key_replay := replicate RSNA_MAX_EAPOL_RETRIES zero_counter |>
                          <| ReAuthenticationRequest := true |>) w)
  else
    let '(r, w) := step (upd (fun s => s <| started := true |> <| Init := true |>) w) in
    if r =? 1 then (1, w)
    else step (upd (fun s => s <| Init := false |> <| AuthenticationRequest := true |>) w).

Definition wpa_auth_sta_no_wpa (w : W) : W := upd (fun s => s <| wpa_key_mgmt := 0 |>) w.

Definition wpa_send_eapol_timeout (w : W) : W :=
  (step (upd (fun s => s <| pending_1_of_4_timeout := false |> <| TimeoutEvt := true |>) w)).2.

(** [wpa_rekey_ptk] and [wpa_auth_rekey_ptk] *)
Definition wpa_rekey_ptk (w : W) : W := (step (wpa_request_new_ptk w)).2.

Definition wpa_sm_call_step (w : W) : W := (step w).2.
Definition wpa_auth_sm_notify (w : W) : W := eloop_register_timeout T_call_step 0 w.
Definition wpa_auth_rekey_gtk (w : W) : W :=
  eloop_register_timeout T_rekey_gtk 0 (eloop_cancel_timeout T_rekey_gtk w).

Definition wpa_auth_eapol_key_tx_status (ack : bool) (w : W) : W :=
  if pending_1_of_4_timeout w.(sm) && ack
  then eloop_register_timeout T_send_eapol eapol_key_timeout_subseq (eloop_cancel_timeout T_send_eapol w)
  else w.

Definition wpa_auth_sta_local_mic_failure_report (w : W) : W :=
  upd (fun s => s <| dot11RSNAStatsTKIPLocalMICFailures ::= fun n => n + 1 |>) w.

(** [wpa_auth_add_sae_pmkid] *)
Definition wpa_auth_add_sae_pmkid (pmkid0 : bytes) (w : W) : W :=
  upd (fun s => s <| sm_pmkid := take PMKID_LEN pmkid0 |> <| pmkid_set := true |>) w.

Definition wpa_set_wnmsleep (flag : bool) (w : W) : W := upd (fun s => s <| is_wnmsleep := flag |>) w.
Definition wpa_wnmsleep_rekey_gtk (w : W) : W :=
  if is_wnmsleep w.(sm) then w else wpa_group_update_sta step w.
End auth.
