(* ===== verification/WpaProofs.v ===== *)
(** * The WPA authenticator: what each function changes

    Most of [ap/wpa_auth.c] builds and sends frames, which matters little to the
    state machines: the relation [quiet] collects what such functions leave
    alone.  The lemmas below say for every [SM_STATE] function which fields it
    sets, up to [quiet]; the theorems use these lemmas only. *)

From S2P Require Import Prelude Bytes HashSpec Hmac AesInterface AesWrap AesOmac Rc4.
From S2P Require Import WpaKeys WpaState WpaFrame WpaPsk WpaGroup WpaPtk WpaAuth.
From S2P Require WpaKde.

(** ** Quiet changes *)

(** A pairwise key is enabled for transmission. *)
Definition is_install (e : event) : bool :=
  match e with
  | SetKey _ _ (Some _) _ _ flag =>
    (flag =? KEY_FLAG_PAIRWISE_RX_TX) || (flag =? KEY_FLAG_PAIRWISE_RX_TX_MODIFY)
  | _ => false
  end.
(** A new nonce is drawn. *)
Definition is_anonce (e : event) : bool := match e with Random R_ANonce true _ => true | _ => false end.
(** The port is opened. *)
Definition is_open (e : event) : bool :=
  match e with
  | SetEapol WPA_EAPOL_portValid v | SetEapol WPA_EAPOL_authorized v => negb (v =? 0)
  | _ => false
  end.
Definition loud (e : event) : bool := is_install e || is_anonce e || is_open e.

(** The station without the fields that sending changes. *)
Definition er (s : wpa_state_machine) : wpa_state_machine :=
  s <| key_replay := [] |> <| pending_1_of_4_timeout := false |>.
(** What the loop of [wpa_sm_step] reads of the group. *)
Definition gctl (g : wpa_group) : wpa_group_states * bool * bool * bool :=
  (wpa_group_state g, GTKReKey g, GInit g, group_changed g).

(** The timer that renews the PTK runs. *)
Definition rekey_pending (w : world) : bool := existsb (fun x => bool_decide (x.1 = T_rekey_ptk)) (timers w).

(** Nothing but the station's fields changes that the loop reads, and no loud
    event. *)
Record calm (w w' : world) : Prop := {
  calm_group : gctl (group w') = gctl (group w);
  calm_events : exists new, events w' = new ++ events w /\ Forall (fun e => loud e = false) new;
  calm_freed : freed w' = freed w;
  calm_fault : fault w = true -> fault w' = true;
  calm_rekey : rekey_pending w' = true -> rekey_pending w = true }.

#[export] Instance calm_preorder : PreOrder calm.
Proof.
  split.
  - intros w. split; [done| |done..]. exists []. by split.
  - intros w1 w2 w3 [Hg (n & Hn & Fn) Hf Hl] [Hg' (n' & Hn' & Fn') Hf' Hl'].
    split; [congruence| |congruence|auto..]. exists (n' ++ n).
    rewrite Hn', Hn, app_assoc. split; [done|]. by apply Forall_app.
Qed.

Definition quiet (w w' : world) : Prop := er (sm w') = er (sm w) /\ calm w w'.

#[export] Instance quiet_preorder : PreOrder quiet.
Proof.
  split; [by split|]. intros w1 w2 w3 [Hs Hc] [Hs' Hc']. split; [congruence|by etrans].
Qed.

Lemma calm_emit e w : loud e = false -> calm w (emit e w).
Proof. intros He. split; [done| |done..]. exists [e]. split; [done|]. by constructor. Qed.
Lemma quiet_emit e w : loud e = false -> quiet w (emit e w).
Proof. intros He. split; [done|by apply calm_emit]. Qed.

(** Steps without events. *)
Lemma calm_silent w w' :
  gctl (group w') = gctl (group w) -> events w' = events w -> freed w' = freed w ->
  (fault w = true -> fault w' = true) -> (rekey_pending w' = true -> rekey_pending w = true) -> calm w w'.
Proof. intros ? He ???. split; [done| |done..]. exists []. by split. Qed.
Ltac silent := apply calm_silent; [reflexivity..|by intros|by intros].

Lemma wpa_sm_upd f w : sm (upd f w) = f (sm w).
Proof. done. Qed.
Lemma calm_upd f w : calm w (upd f w).
Proof. silent. Qed.

Section quiet.
Context {C : Crypto} {E : WpaEnv} (CONFIG_SAE : bool) (conf : wpa_auth_config) (psks : psk_config).
Context (hash0 : bytes).
Notation W := world.

Lemma quiet_upd f w : (forall s, er (f s) = er s) -> quiet w (upd f w).
Proof. intros H. split; [apply H|silent]. Qed.
Lemma quiet_updg f w : (forall g, gctl (f g) = gctl g) -> quiet w (updg f w).
Proof. intros H. split; [done|]. apply calm_silent; [apply H|done..]. Qed.
Lemma quiet_timer t ms w : t <> T_rekey_ptk -> quiet w (eloop_register_timeout t ms w).
Proof.
  intros Ht. split; [done|]. apply calm_silent; [done..|]. unfold rekey_pending, eloop_register_timeout. wpa_simpl.
  rewrite existsb_app. cbn [existsb fst]. by rewrite (bool_decide_eq_false_2 _ Ht), !orb_false_r.
Qed.
Lemma calm_cancel t w : calm w (eloop_cancel_timeout t w).
Proof.
  apply calm_silent; [done..|]. unfold rekey_pending, eloop_cancel_timeout. wpa_simpl.
  induction (timers w) as [|x l IH]; [done|]. rewrite filter_cons. cbn [existsb]. case_decide; [cbn [existsb]|].
  - rewrite !orb_true_iff. intros [?|?]; [by left|right; auto].
  - intros H'. rewrite orb_true_iff. right. auto.
Qed.
Lemma quiet_cancel t w : quiet w (eloop_cancel_timeout t w).
Proof. split; [done|apply calm_cancel]. Qed.

Lemma quiet_set_key vlan alg a idx key flag w :
  is_install (SetKey vlan alg a idx key flag) = false ->
  quiet w (wpa_auth_set_key vlan alg a idx key flag w).2.
Proof. intros H. unfold wpa_auth_set_key. apply quiet_emit. unfold loud. by rewrite H. Qed.
Lemma quiet_get_seqnum idx w : quiet w (wpa_auth_get_seqnum idx w).2.
Proof. by apply quiet_emit. Qed.
Lemma quiet_allocate n w : quiet w (allocate n w).2.
Proof. by apply quiet_emit. Qed.
Lemma quiet_update_vlan id w : quiet w (wpa_auth_update_vlan id w).2.
Proof. by apply quiet_emit. Qed.
Lemma quiet_random use n w : use <> R_ANonce -> quiet w (random use n w).2.
Proof.
  intros H. unfold random. destruct (random_get_bytes (events w) use n) as [ok b]. apply quiet_emit.
  unfold loud, is_anonce. by destruct use.
Qed.
Lemma quiet_set_eapol var v w :
  is_open (SetEapol var v) = false -> quiet w (wpa_auth_set_eapol var v w).
Proof.
  intros H. etrans; [apply (quiet_emit (SetEapol var v)); unfold loud; by rewrite H|].
  unfold wpa_auth_set_eapol. destruct var; try reflexivity; (split; [done|silent]).
Qed.
End quiet.

(** [through H]: the goal's [let '(x, w') := f w in _] is entered with the fact
    [H : quiet w (f w).2]. *)
Ltac through H :=
  let x := fresh "r" in let w' := fresh "w" in
  match type of H with quiet ?a (snd ?p) => destruct p as [x w'] eqn:?; cbn [snd] in H end.

Section sending.
Context {C : Crypto} {E : WpaEnv} (CONFIG_SAE : bool) (conf : wpa_auth_config) (psks : psk_config).
Context (hash0 : bytes).
Notation W := world.

Lemma quiet_send key_info rsc nonce kde keyidx encr force w :
  quiet w (__wpa_send_eapol CONFIG_SAE conf key_info rsc nonce kde keyidx encr force w).
Proof.
  unfold __wpa_send_eapol. cbv zeta.
  match goal with |- context [allocate ?n w] => pose proof (quiet_allocate n w) as H1; through H1 end.
  destruct r; cbn [negb]; [|done].
  match goal with |- context [upd ?f w0] => assert (H2 : quiet w (upd f w0)) by
    (etrans; [exact H1|]; by apply quiet_upd); set (w1 := upd f w0) in *; clearbody w1 end.
  match goal with |- quiet w (let '(buf, w') := ?p in _) =>
    assert (H3 : quiet w p.2); [|destruct p as [buf w2]; cbn [snd] in H3] end.
  - destruct kde as [kde|]; [|exact H2]. destruct encr; cbn [negb]; [|exact H2].
    match goal with |- context [allocate ?n w1] => pose proof (quiet_allocate n w1) as H3; through H3 end.
    pose proof (transitivity H2 H3) as H4. destruct r; cbn [negb]; [|exact H4]. 
    destruct (encrypt_key_data _ _ _ _ _) as [ [ [data iv] ctr]|]; [|exact H4]. etrans; [exact H4|]. by apply quiet_updg.
  - destruct buf; [|done]. match goal with |- quiet _ (match ?x with _ => _ end) => destruct x end; [|done]. etrans; [exact H3|].
    etrans; [apply quiet_set_eapol|apply quiet_emit]; reflexivity.
Qed.

Lemma quiet_wpa_send key_info rsc nonce kde keyidx encr w :
  quiet w (wpa_send_eapol CONFIG_SAE conf key_info rsc nonce kde keyidx encr w).
Proof.
  unfold wpa_send_eapol. cbv zeta. etrans; [apply quiet_send|].
  etrans; [|by apply quiet_timer].
  match goal with |- quiet _ (if ?b then _ else _) => destruct b end; [by apply quiet_upd|reflexivity].
Qed.
End sending.

(** ** Group keys *)

Section groups.
Context {C : Crypto} {E : WpaEnv} (CONFIG_SAE : bool) (conf : wpa_auth_config).
Notation W := world.

Lemma quiet_init_gmk w : quiet w (wpa_group_init_gmk_and_counter conf w).2.
Proof.
  unfold wpa_group_init_gmk_and_counter.
  pose proof (quiet_random R_GMK WPA_GMK_LEN w ltac:(done)) as H1. through H1. destruct r as [ok b].
  match goal with |- context [updg ?f w0] => assert (H2 : quiet w (updg f w0)) by
    (etrans; [exact H1|by apply quiet_updg]); set (w1 := updg f w0) in *; clearbody w1 end.
  destruct ok; cbn [negb]; [|exact H2].
  pose proof (quiet_random R_Counter 32 w1 ltac:(done)) as H3. through H3. destruct r as [ok rkey].
  pose proof (transitivity H2 H3) as H4. destruct ok; cbn [negb]; [|exact H4].
  destruct (sha1_prf _ _ _ _ _); [|exact H4]. etrans; [exact H4|]. by apply quiet_updg.
Qed.

Lemma quiet_derive label len store w :
  (forall key g, gctl (store key g) = gctl g) -> quiet w (derive_group_key conf label len store w).2.
Proof.
  intros Hs. unfold derive_group_key, wpa_gmk_to_gtk.
  match goal with |- context [updg ?f (updg ?g w)] => assert (H2 : quiet w (updg f (updg g w))) by
    (etrans; apply quiet_updg; done); set (w1 := updg f (updg g w)) in *; clearbody w1 end.
  pose proof (quiet_random R_GTK len w1 ltac:(done)) as H3. through H3. destruct r as [ok r].
  pose proof (transitivity H2 H3) as H4.
  destruct (sha256_prf _ _ _ _ _); cbn [snd]; [|exact H4]. etrans; [exact H4|]. apply quiet_updg. apply Hs.
Qed.

Lemma quiet_gtk_update w : quiet w (wpa_gtk_update conf w).2.
Proof.
  unfold wpa_gtk_update.
  match goal with |- context [derive_group_key conf ?l ?n ?s w] =>
    pose proof (quiet_derive l n s w ltac:(done)) as H1; through H1 end.
  match goal with |- quiet w (let '(r2, w') := ?p in _).2 => assert (H2 : quiet w0 p.2) by
    (destruct (ieee80211w conf); [by apply quiet_derive|reflexivity]); through H2 end.
  match goal with |- quiet w (let '(r2, w') := ?p in _).2 => assert (H3 : quiet w1 p.2) by
    (destruct (ieee80211w conf && beacon_prot conf); [by apply quiet_derive|reflexivity]); through H3 end.
  cbn [snd]. etrans; [exact H1|]. etrans; [exact H2|exact H3].
Qed.

Lemma quiet_config_group_keys w : quiet w (wpa_group_config_group_keys conf w).2.
Proof.
  unfold wpa_group_config_group_keys. cbv zeta.
  match goal with |- context [wpa_auth_set_key ?a ?b ?c ?d ?e ?f w] =>
    pose proof (quiet_set_key a b c d e f w eq_refl) as H1; through H1 end.
  destruct (ieee80211w conf); [|exact H1].
  match goal with |- quiet w (let '(r2, w') := ?p in _).2 => assert (H2 : quiet w0 p.2) end.
  { destruct (_ =? 0); [|reflexivity].
    match goal with |- context [wpa_auth_set_key ?a ?b ?c ?d ?e ?f w0] =>
      pose proof (quiet_set_key a b c d e f w0 eq_refl) as H2; by through H2 end. }
  through H2. pose proof (transitivity H1 H2) as H3. destruct (_ && _); [|exact H3].
  match goal with |- context [wpa_auth_set_key ?a ?b ?c ?d ?e ?f w1] =>
    pose proof (quiet_set_key a b c d e f w1 eq_refl) as H4; through H4 end.
  cbn [snd]. etrans; [exact H3|exact H4].
Qed.

Lemma quiet_ensure_init w : quiet w (wpa_group_ensure_init conf w).
Proof.
  unfold wpa_group_ensure_init. destruct (first_sta_seen (group w)); [done|]. cbv zeta.
  match goal with |- context [wpa_group_init_gmk_and_counter conf ?x] => set (w1 := x) end.
  assert (H1 : quiet w w1) by (unfold w1; destruct (negb _); by apply quiet_updg). clearbody w1.
  pose proof (quiet_init_gmk w1) as H2. through H2. pose proof (transitivity H1 H2) as H3.
  destruct (r <? 0). { etrans; [exact H3|by apply quiet_updg]. }
  pose proof (quiet_gtk_update w0) as H4. through H4. pose proof (transitivity H3 H4) as H5.
  destruct (r0 <? 0). { etrans; [exact H5|by apply quiet_updg]. }
  pose proof (quiet_config_group_keys w2) as H6. through H6. pose proof (transitivity H5 H6) as H7.
  destruct (r1 <? 0); [|exact H7]. etrans; [exact H7|by apply quiet_updg].
Qed.
End groups.

(** ** The states of WPA_PTK

    [reaches w s w']: the station is [s] afterwards, up to what sending changes. *)

Definition reaches (w : world) (s : wpa_state_machine) (w' : world) : Prop :=
  er (sm w') = er s /\ calm w w'.

Lemma reaches_quiet w s w1 w2 : reaches w s w1 -> quiet w1 w2 -> reaches w s w2.
Proof. intros [Hs Hc] [Hs' Hc']. split; [congruence|by etrans]. Qed.
Lemma reaches_upd w f : reaches w (f (sm w)) (upd f w).
Proof. split; [done|apply calm_upd]. Qed.
Lemma calm_reaches w0 w s w' : calm w0 w -> reaches w s w' -> reaches w0 s w'.
Proof. intros Hc [Hs Hc']. split; [done|by etrans]. Qed.

(** Fields read after a step. *)
Lemma reaches_field {A} (p : wpa_state_machine -> A) w s w' :
  (forall s, p (er s) = p s) -> reaches w s w' -> p (sm w') = p s.
Proof. intros Hp [H _]. by rewrite <- Hp, H, Hp. Qed.

(** [f] computes nothing from the fields that sending changes. *)
Definition respectful (f : wpa_state_machine -> wpa_state_machine) : Prop := forall s, er (f s) = er (f (er s)).

Lemma reaches_then w s w1 f w2 : reaches w s w1 -> respectful f -> reaches w1 (f (sm w1)) w2 -> reaches w (f s) w2.
Proof.
  intros [Hs Hc] Hf [Hs' Hc']. split; [|by etrans]. rewrite Hs', Hf, Hs. symmetry. apply Hf.
Qed.
Lemma reaches_then_upd w s w1 f : reaches w s w1 -> respectful f -> reaches w (f s) (upd f w1).
Proof. intros H Hf. eapply reaches_then; [exact H|exact Hf|apply reaches_upd]. Qed.

(** What losing the keys and being disconnected set. *)
Definition no_keys (s : wpa_state_machine) : wpa_state_machine :=
  s <| PTK_valid := false |> <| PTK := zero_ptk |>.
Definition disconnected (s : wpa_state_machine) : wpa_state_machine :=
  (no_keys (s <| DeauthenticationRequest := true |>)) <| pairwise_set := false |> <| changed := true |>.
Definition in_state (st : wpa_ptk_states) (s : wpa_state_machine) : wpa_state_machine :=
  s <| changed := true |> <| wpa_ptk_state := st |>.
Definition in_group_state (st : wpa_ptk_group_states) (s : wpa_state_machine) : wpa_state_machine :=
  s <| changed := true |> <| wpa_ptk_group_state := st |>.

Section states.
Context {C : Crypto} {E : WpaEnv} (CONFIG_SAE : bool) (conf : wpa_auth_config) (psks : psk_config).
Context (hash0 : bytes).
Notation W := world.

Lemma reaches_remove_ptk w : reaches w ((no_keys (sm w)) <| pairwise_set := false |>) (wpa_remove_ptk w).
Proof.
  unfold wpa_remove_ptk. cbv zeta. eapply reaches_quiet; [|apply quiet_cancel].
  apply (reaches_then_upd w _ _ (set pairwise_set (fun _ => false))); [|done].
  set (w1 := emit ClearPtksa _). assert (H1 : reaches w (no_keys (sm w)) w1).
  { apply (reaches_quiet w _ (upd (fun s => s <| PTK_valid := false |> <| PTK := zero_ptk |>) w)); [split; [done|silent]|by apply quiet_emit]. }
  clearbody w1. set (w2 := emit (SetKey _ _ _ _ _ _) w1).
  assert (H2 : reaches w (no_keys (sm w)) w2) by (apply (reaches_quiet _ _ _ _ H1); by apply quiet_emit).
  clearbody w2. destruct (use_ext_key_id _); [|done].
  apply (reaches_quiet _ _ _ _ H2). by apply quiet_set_key.
Qed.

Lemma reaches_cancel_update w : reaches w ((sm w) <| GUpdateStationKeys := false |>) (cancel_update w).
Proof.
  unfold cancel_update, station_done. destruct (GUpdateStationKeys (sm w)); (split; [done|silent]).
Qed.

Lemma reaches_disconnect reason w :
  in_step_loop (sm w) = true -> reaches w (disconnected (sm w)) (disconnect conf reason w).
Proof.
  intros Hl. unfold disconnect, wpa_sta_disconnect, wpa_auth_sm_event, sm_event_end.
  rewrite (bool_decide_eq_false_2 (WPA_DEAUTH = WPA_AUTH)) by done.
  rewrite (bool_decide_eq_true_2 (WPA_DEAUTH <> WPA_REAUTH_EAPOL)) by done.
  rewrite andb_false_r. cbn [negb].
  match goal with |- context [wpa_remove_ptk ?x] => pose proof (reaches_remove_ptk x) as H1;
    set (w1 := wpa_remove_ptk x) in *; set (w0 := x) in * end.
  assert (Hl1 : in_step_loop (sm w1) = true).
  { rewrite (reaches_field in_step_loop _ _ _ ltac:(done) H1). exact Hl. }
  rewrite Hl1. cbn [snd].
  eapply (reaches_then_upd w ((no_keys (set DeauthenticationRequest (fun _ => true) (sm w))) <| pairwise_set := false |>)
            w1 (set changed (fun _ => true))); [|done].
  apply (calm_reaches w w0); [|exact H1]. unfold w0.
  etrans; [by apply (calm_emit (Deauth reason))|]. etrans; apply calm_upd.
Qed.

Definition clear_pinit (s : wpa_state_machine) : wpa_state_machine :=
  s <| PInitAKeys := PInitAKeys s && negb (bool_decide (wpa s = WPA_VERSION_WPA)) |>.
Definition initialized (s : wpa_state_machine) : wpa_state_machine :=
  (no_keys ((clear_pinit (s <| wpa_ptk_state := WPA_PTK_INITIALIZE |> <| changed := negb (Init s) |> <| keycount := 0 |>
             <| GUpdateStationKeys := false |>)) <| Pair := true |>)) <| pairwise_set := false |> <| TimeoutCtr := 0 |>.

Lemma reaches_INITIALIZE w : reaches w (initialized (sm w)) (sm_WPA_PTK_INITIALIZE_Enter w).
Proof.
  unfold sm_WPA_PTK_INITIALIZE_Enter. cbv zeta.
  match goal with |- reaches w _ (if _ then _ else ?x) => apply (reaches_quiet w _ x);
    [|destruct (psk_like _); [by apply quiet_set_eapol|reflexivity] ] end.
  unfold initialized. apply (reaches_then_upd w _ _ (set TimeoutCtr (fun _ => 0))); [|done].
  eapply reaches_quiet; [|by apply quiet_set_eapol].
  apply (reaches_then w _ _ (fun s => (no_keys s) <| pairwise_set := false |>)) with (3 := reaches_remove_ptk _); [|done].
  eapply reaches_quiet; [|by apply quiet_set_eapol].
  apply (reaches_then_upd w _ _ (set Pair (fun _ => true))); [|done].
  match goal with |- reaches _ _ (if _ then _ else ?x) => apply (reaches_then w _ x clear_pinit) end; [|done|].
  - apply (reaches_then w _ _ (set GUpdateStationKeys (fun _ => false))) with (3 := reaches_cancel_update _); [|done].
    apply (reaches_then_upd w _ _ (set keycount (fun _ => 0))); [|done].
    change (Init (sm (enter WPA_PTK_INITIALIZE w))) with (Init (sm w)).
    destruct (Init (sm w)); (split; [done|silent]).
  - unfold clear_pinit. destruct (bool_decide (wpa _ = WPA_VERSION_WPA)); (split; [|silent]); cbn [negb].
    + by rewrite andb_false_r.
    + rewrite andb_true_r. by destruct (sm _).
Qed.

Lemma reaches_AUTHENTICATION w :
  reaches w ((no_keys (in_state WPA_PTK_AUTHENTICATION (sm w))) <| AuthenticationRequest := false |>)
    (sm_WPA_PTK_AUTHENTICATION_Enter w).
Proof.
  unfold sm_WPA_PTK_AUTHENTICATION_Enter. cbv zeta.
  apply (reaches_then_upd w _ _ (set AuthenticationRequest (fun _ => false))); [|done].
  eapply reaches_quiet; [|by apply quiet_set_eapol]. eapply reaches_quiet; [|by apply quiet_set_eapol].
  split; [done|silent].
Qed.

Lemma reaches_DISCONNECTED w :
  reaches w ((in_state WPA_PTK_DISCONNECTED (sm w)) <| DeauthenticationRequest := false |>)
    (sm_WPA_PTK_DISCONNECTED_Enter w).
Proof. split; [done|silent]. Qed.

Definition disconnect_entered (s : wpa_state_machine) : wpa_state_machine :=
  disconnected ((in_state WPA_PTK_DISCONNECT s) <| Disconnect := false |> <| disconnect_reason := 0 |>).
Lemma reaches_DISCONNECT w :
  in_step_loop (sm w) = true -> reaches w (disconnect_entered (sm w)) (sm_WPA_PTK_DISCONNECT_Enter conf w).
Proof.
  intros Hl. unfold sm_WPA_PTK_DISCONNECT_Enter. cbv zeta.
  match goal with |- reaches _ _ (disconnect _ ?r ?x) => apply (calm_reaches w x); [silent|by apply (reaches_disconnect r x)] end.
Qed.

(** *** Drawing a nonce *)

(** One event, among others that are not loud. *)
Definition one_event (e : event) (w w' : W) : Prop :=
  exists w1, calm w w1 /\ calm (emit e w1) w'.

Definition drawn (ok : bool) (b : bytes) (s : wpa_state_machine) : wpa_state_machine :=
  if ok then s <| ANonce := b |> <| TimeoutCtr := 0 |> else s <| ANonce := b |> <| Disconnect := true |>.

Lemma new_ANonce_spec w : exists ok b,
  (new_ANonce w).1 = ok /\ er (sm (new_ANonce w).2) = er (drawn ok b (sm w)) /\
  random_get_bytes (events w) R_ANonce WPA_NONCE_LEN = (ok, b) /\
  (if ok then one_event (Random R_ANonce true b) w (new_ANonce w).2 else calm w (new_ANonce w).2).
Proof.
  unfold new_ANonce, random. destruct (random_get_bytes (events w) R_ANonce WPA_NONCE_LEN) as [ok b] eqn:Er.
  exists ok, b. destruct ok; cbn [fst snd]; (split; [done|]; split; [done|]; split; [done|]).
  - exists w. split; [done|]. etrans; apply calm_upd.
  - etrans; [by apply (calm_emit (Random R_ANonce false b))|]. etrans; apply calm_upd.
Qed.

Definition auth2_entered (ok : bool) (b : bytes) (s : wpa_state_machine) : wpa_state_machine :=
  drawn ok b ((in_state WPA_PTK_AUTHENTICATION2 s) <| ReAuthenticationRequest := false |>).

Lemma AUTHENTICATION2_spec w : exists ok b,
  er (sm (sm_WPA_PTK_AUTHENTICATION2_Enter conf w)) = er (auth2_entered ok b (sm w)) /\
  (exists ev, random_get_bytes ev R_ANonce WPA_NONCE_LEN = (ok, b)) /\
  (if ok then one_event (Random R_ANonce true b) w (sm_WPA_PTK_AUTHENTICATION2_Enter conf w)
   else calm w (sm_WPA_PTK_AUTHENTICATION2_Enter conf w)).
Proof.
  unfold sm_WPA_PTK_AUTHENTICATION2_Enter. cbv zeta.
  match goal with |- context [new_ANonce ?x] => destruct (new_ANonce_spec x) as (ok & b & _ & Hs & Hr & He);
    set (w1 := x) in * end.
  assert (H1 : reaches w ((in_state WPA_PTK_AUTHENTICATION2 (sm w)) <| ReAuthenticationRequest := false |>) w1).
  { unfold w1. apply (reaches_then_upd w _ _ (set ReAuthenticationRequest (fun _ => false))); [|done].
    eapply reaches_quiet; [|apply quiet_ensure_init]. split; [done|silent]. }
  exists ok, b. destruct H1 as [S1 C1]. split; [|split; [by exists (events w1)|] ].
  - rewrite Hs. unfold auth2_entered. assert (Hd : respectful (drawn ok b)) by (intros s; by destruct ok).
    by rewrite Hd, S1, <- Hd.
  - destruct ok; [|by etrans]. destruct He as (w2 & C2 & C3). exists w2. split; [by etrans|done].
Qed.

(** *** Choosing the PMK *)

(** The station with another PMK, which satisfies [src]. *)
Definition pmk_set (src : bytes -> Prop) (s s' : wpa_state_machine) : Prop :=
  exists b n, s' = s <| PMK := b |> <| pmk_len := n |> /\
    (take n b = take (pmk_len s) (PMK s) \/ src (take n b)).

Lemma pmk_set_refl src s : pmk_set src s s.
Proof. exists (PMK s), (pmk_len s). split; [by destruct s|by left]. Qed.
Lemma take_set_pmk pmk s : take (pmk_len (set_pmk pmk s)) (PMK (set_pmk pmk s)) = pmk.
Proof.
  change (take (length pmk) (memcpy (PMK s) 0 pmk) = pmk). unfold memcpy. rewrite take_0. cbn [app].
  by rewrite take_app_length.
Qed.
Lemma pmk_set_set (src : bytes -> Prop) pmk s s' : src pmk -> pmk_set src s s' -> pmk_set src s (set_pmk pmk s').
Proof.
  intros Hp (b & n & -> & _). exists (memcpy b 0 pmk), (length pmk). split; [done|]. right.
  by rewrite <- (take_set_pmk pmk (s <| PMK := b |>)) in Hp.
Qed.
Lemma pmk_set_weaken (src src' : bytes -> Prop) s s' :
  (forall k, src k -> src' k) -> pmk_set src s s' -> pmk_set src' s s'.
Proof. intros H (b & n & -> & [?|?]); exists b, n; split; [done|by left|done|right; auto]. Qed.

(** The station with a PMK that satisfies [src]. *)
Definition pmk_is (src : bytes -> Prop) (s s' : wpa_state_machine) : Prop :=
  exists b n, s' = s <| PMK := b |> <| pmk_len := n |> /\ src (take n b).

Lemma pmk_is_set (src : bytes -> Prop) pmk s s' : src pmk -> s' = s \/ pmk_is src s s' -> pmk_is src s (set_pmk pmk s').
Proof.
  intros Hp Hs. rewrite <- (take_set_pmk pmk s') in Hp.
  eexists (PMK (set_pmk pmk s')), (length pmk). split; [|exact Hp]. by destruct Hs as [->|(b & n & -> & _)].
Qed.

(** Where a PMK comes from. *)
Definition from_msk (pmk : bytes) : Prop :=
  exists ev msk n, cb_get_msk ev = Some msk /\ (n = PMK_LEN \/ n = PMK_LEN_SUITE_B_192) /\
    (n <= length (take (2 * PMK_LEN) msk))%nat /\ pmk = take n (take (2 * PMK_LEN) msk).
Definition from_pmksa (s : wpa_state_machine) (pmk : bytes) : Prop := exists e, pmksa s = Some e /\ pmk = pmksa_pmk e.
Definition from_psk (pmk : bytes) : Prop := exists p, pmk = psk_bytes psks p.

(** [INITPSK] finds no key. *)
Definition no_key (s : wpa_state_machine) : Prop :=
  wpa_auth_get_psk CONFIG_SAE psks s None = None /\ (CONFIG_SAE && wpa_auth_uses_sae s = true -> pmksa s = None).

Lemma INITPMK_spec w :
  let w' := sm_WPA_PTK_INITPMK_Enter w in
  let s := in_state WPA_PTK_INITPMK (sm w) in
  reaches w (s <| Disconnect := true |>) w' \/
  exists s', pmk_is (fun k => from_msk k \/ from_pmksa (sm w) k) s s' /\
    reaches w (s' <| req_replay_counter_used := false |>) w'.
Proof.
  cbv zeta. unfold sm_WPA_PTK_INITPMK_Enter. cbv zeta.
  set (w1 := enter WPA_PTK_INITPMK w). assert (H1 : reaches w (in_state WPA_PTK_INITPMK (sm w)) w1) by (split; [done|silent]).
  assert (Hp : pmksa (sm w1) = pmksa (sm w)) by done.
  assert (Hdone : forall k, from_msk k \/ from_pmksa (sm w) k -> exists s',
    pmk_is (fun k => from_msk k \/ from_pmksa (sm w) k) (in_state WPA_PTK_INITPMK (sm w)) s' /\
    reaches w (s' <| req_replay_counter_used := false |>)
      (wpa_auth_set_eapol WPA_EAPOL_keyRun 0 (upd (fun s => s <| req_replay_counter_used := false |>) (upd (set_pmk k) w1)))).
  { intros k Hk. exists (set_pmk k (in_state WPA_PTK_INITPMK (sm w))). split.
    - apply pmk_is_set; [done|by left].
    - eapply reaches_quiet; [|by apply quiet_set_eapol].
      apply (reaches_then_upd w _ _ (set req_replay_counter_used (fun _ => false))); [|done].
      by apply (reaches_then_upd w _ _ (set_pmk k)). }
  assert (Hfail : reaches w ((in_state WPA_PTK_INITPMK (sm w)) <| Disconnect := true |>) (upd (fun s => s <| Disconnect := true |>) w1))
    by (by apply (reaches_then_upd w _ _ (set Disconnect (fun _ => true)))).
  clearbody w1. rewrite Hp. destruct (pmksa (sm w)) as [e|] eqn:Ee.
  - right. apply Hdone. right. by exists e.
  - destruct (cb_get_msk (events w1)) as [msk|] eqn:Em; [|by left].
    match goal with |- context [(length ?m <? ?n)%nat] => set (k := n); destruct (Nat.ltb_spec (length m) k) end; [by left|].
    right. apply Hdone. left. exists (events w1), msk, k. split; [done|]. split; [|done].
    unfold k. destruct (wpa_key_mgmt_sha384 _); [by right|by left].
Qed.

Lemma INITPSK_spec w :
  let s := in_state WPA_PTK_INITPSK (sm w) in
  exists s', (pmk_is (fun k => from_psk k \/ from_pmksa (sm w) k) s s' \/ no_key s /\ s' = s) /\
    reaches w (s' <| req_replay_counter_used := false |>) (sm_WPA_PTK_INITPSK_Enter CONFIG_SAE psks w).
Proof.
  cbv zeta. unfold sm_WPA_PTK_INITPSK_Enter. cbv zeta. set (s := in_state WPA_PTK_INITPSK (sm w)).
  set (src := fun k => from_psk k \/ from_pmksa (sm w) k). set (w1 := enter WPA_PTK_INITPSK w).
  set (w2 := match wpa_auth_get_psk CONFIG_SAE psks (sm w1) None with Some (p, _) => upd (set_pmk (psk_bytes psks p)) w1 | None => w1 end).
  assert (H2 : (wpa_auth_get_psk CONFIG_SAE psks s None = None /\ sm w2 = s \/ pmk_is src s (sm w2)) /\ calm w w2).
  { unfold w2. change (sm w1) with s. destruct (wpa_auth_get_psk _ _ _ _) as [ [p v]|]; (split; [|silent]).
    - right. rewrite wpa_sm_upd. apply pmk_is_set; [left; by exists p|by left].
    - by left. }
  clearbody w2. destruct H2 as [H2 C2].
  assert (Hs2 : sm w2 = s \/ pmk_is src s (sm w2)) by (destruct H2 as [ [_ ?]|?]; [by left|by right]).
  assert (Hp : pmksa (sm w2) = pmksa s /\ wpa_auth_uses_sae (sm w2) = wpa_auth_uses_sae s).
  { destruct Hs2 as [->|(b & n & -> & _)]; done. }
  destruct Hp as [-> ->].
  match goal with |- context [upd (fun s => s <| req_replay_counter_used := false |>) ?x] => set (w3 := x) end.
  assert (H3 : (no_key s /\ sm w3 = s \/ pmk_is src s (sm w3)) /\ calm w w3).
  { unfold w3, no_key. destruct (pmksa s) as [e|] eqn:Ee.
    - destruct (CONFIG_SAE && _).
      + split; [|etrans; [exact C2|silent] ]. right. rewrite wpa_sm_upd. apply pmk_is_set; [right; by exists e|exact Hs2].
      + split; [|exact C2]. destruct H2 as [ [??]|?]; [left; by split|by right].
    - split; [|exact C2]. destruct H2 as [ [??]|?]; [left; by split|by right]. }
  clearbody w3. destruct H3 as [H3 C3]. exists (sm w3). split; [destruct H3 as [?|?]; [by right|by left]|].
  split; [done|etrans; [exact C3|silent] ].
Qed.

(** *** The handshake *)

Definition ptkstart_entered (s : wpa_state_machine) : wpa_state_machine :=
  (in_state WPA_PTK_PTKSTART s) <| PTKRequest := false |> <| TimeoutEvt := false |>
    <| alt_snonce_valid := false |> <| TimeoutCtr ::= fun n => n + 1 |>.
Lemma reaches_PTKSTART w :
  reaches w (ptkstart_entered (sm w)) (sm_WPA_PTK_PTKSTART_Enter CONFIG_SAE conf hash0 w).
Proof.
  unfold sm_WPA_PTK_PTKSTART_Enter. cbv zeta.
  match goal with |- reaches _ _ (if _ then ?x else _) => set (w1 := x) end.
  assert (H1 : reaches w (ptkstart_entered (sm w)) w1) by (split; [done|silent]). clearbody w1.
  destruct (_ <? _); [done|]. eapply reaches_quiet; [exact H1|apply quiet_wpa_send].
Qed.

(** A PTK derived by [s] from the nonce [snonce] and the PMK [pmk]. *)
Definition derived_from (s : wpa_state_machine) (snonce pmk : bytes) (ptk : wpa_ptk) : Prop :=
  exists r ptk0, wpa_derive_ptk conf s snonce pmk ptk0 = (r, ptk) /\ 0 <= r.

Definition known_pmk (s : wpa_state_machine) (pmk : bytes) : Prop :=
  from_psk pmk \/ from_pmksa s pmk \/ pmk = take (pmk_len s) (PMK s).

Lemma search_pmk_found s snonce verifies fallback pmk ptr vlan ptk pf fuel prev found ptk0 :
  search_pmk CONFIG_SAE conf psks fuel s snonce verifies fallback prev found ptk0 = Found pmk ptr vlan ptk pf ->
  derived_from s snonce pmk ptk /\ verifies (length pmk) ptk = Some true /\ known_pmk s pmk /\
  (ptr = SmPmk -> pmk = take (pmk_len s) (PMK s)).
Proof.
  assert (Htry : forall k p v found ptk0 next,
    known_pmk s k -> (p = SmPmk -> k = take (pmk_len s) (PMK s)) ->
    (forall ptk', next ptk' = Found pmk ptr vlan ptk pf ->
       derived_from s snonce pmk ptk /\ verifies (length pmk) ptk = Some true /\ known_pmk s pmk /\
       (ptr = SmPmk -> pmk = take (pmk_len s) (PMK s))) ->
    (let '(k', p') :=
       match pmksa s with
       | Some e => if fallback && (length k =? 0)%nat then (pmksa_pmk e, PmksaPmk) else (k, p)
       | None => (k, p)
       end in
     let '(r, ptk') := wpa_derive_ptk conf s snonce k' ptk0 in
     if r <? 0 then NotFound found
     else match verifies (length k') ptk' with
          | None => NullFrame
          | Some true => Found k' p' v ptk' found
          | Some false => next ptk'
          end) = Found pmk ptr vlan ptk pf ->
    derived_from s snonce pmk ptk /\ verifies (length pmk) ptk = Some true /\ known_pmk s pmk /\
    (ptr = SmPmk -> pmk = take (pmk_len s) (PMK s))).
  { intros k p v fd ptk1 next Hk Hp Hnext.
    match goal with |- (let '(k', p') := ?x in _) = _ -> _ =>
      assert (Hx : known_pmk s x.1 /\ (x.2 = SmPmk -> x.1 = take (pmk_len s) (PMK s))); [|destruct x as [k' p'] ] end.
    { destruct (pmksa s) as [e|] eqn:Ee; [|by split]. destruct (fallback && _); [|by split].
      split; [right; left; by exists e|done]. }
    cbn [fst snd] in Hx. destruct Hx as [Hk' Hp'].
    destruct (wpa_derive_ptk conf s snonce k' ptk1) as [r ptk'] eqn:Ed.
    destruct (Z.ltb_spec r 0); [done|]. destruct (verifies (length k') ptk') as [ []|] eqn:Ev; [|apply Hnext|done].
    intros Hf. injection Hf as <- <- <- <- <-. split; [by exists r, ptk1|]. done. }
  revert prev found ptk0. induction fuel as [|fuel IH]; intros prev found ptk0; [done|]. cbn [search_pmk].
  destruct (iterates_psks s).
  - destruct (wpa_auth_get_psk CONFIG_SAE psks s prev) as [ [p v]|]; [|done].
    apply Htry; [left; by exists p|done|apply IH].
  - apply Htry; [by right; right|done|done].
Qed.

Definition calc_entered (s : wpa_state_machine) : wpa_state_machine :=
  (in_state WPA_PTK_PTKCALCNEGOTIATING s) <| EAPOLKeyReceived := false |> <| update_snonce := false |>.

(** The frame that the station holds verifies under a PTK. *)
Definition last_verifies (s : wpa_state_machine) (ptk : wpa_ptk) : Prop :=
  exists data n, last_rx_eapol_key s = Some data /\ wpa_mic_len (wpa_key_mgmt s) (pmk_len s) <> 0%nat /\
    wpa_verify_key_mic CONFIG_SAE (wpa_key_mgmt s) n ptk data = 0.

(** Either nothing is accepted, and the station may be disconnected, or a PTK is. *)
Inductive calc_outcome (s : wpa_state_machine) : wpa_state_machine -> Prop :=
| calc_rejected s' : pmk_set (known_pmk s) (calc_entered s) s' -> calc_outcome s s'
| calc_disconnected s' : pmk_set (known_pmk s) (calc_entered s) s' -> calc_outcome s (disconnected s')
| calc_accepted s' pmk ptk :
    pmk_set (fun k => known_pmk s k \/ k = take PMK_LEN pmk) (calc_entered s) s' ->
    known_pmk s pmk -> derived_from s (SNonce s) pmk ptk -> last_verifies s ptk ->
    calc_outcome s (s' <| MICVerified := true |> <| PTK := ptk |> <| PTK_valid := true |>).

Lemma accept_msg2_spec mic_len pmk ptr vlan ptk w :
  in_step_loop (sm w) = true ->
  let w' := accept_msg2 conf mic_len pmk ptr vlan ptk w in
  reaches w (sm w) w' \/ reaches w (disconnected (sm w)) w' \/
  (exists s', (s' = sm w \/ s' = set_pmk (take PMK_LEN pmk) (sm w)) /\ last_rx_eapol_key (sm w) <> None /\
    reaches w (s' <| MICVerified := true |> <| PTK := ptk |> <| PTK_valid := true |>) w').
Proof.
  intros Hl. cbv zeta. unfold accept_msg2, set_null_fault.
  destruct (last_rx_eapol_key (sm w)) as [data|] eqn:Ed; [|left; split; [done|silent] ].
  destruct (_ <? _)%nat; [by left; split|]. cbv zeta.
  destruct (WpaKde.wpa_parse_kde_ies _) as [ [r kde]|]; [|left; split; [done|silent] ].
  destruct (r <? 0); [by left; split|].
  destruct (negb (_ =? 0)); [right; left; by apply reaches_disconnect|].
  destruct (negb (rsnxe_matches _ _)); [right; left; by apply reaches_disconnect|].
  match goal with |- context [let '(r, w') := ?p in _] => assert (Hp : quiet w p.2) by
    (destruct (_ && _); [by apply quiet_update_vlan|reflexivity]); assert (Hp' : sm p.2 = sm w) by (by destruct (_ && _));
    destruct p as [r1 w1] end.
  cbn [snd] in Hp, Hp'. destruct (r1 <? 0).
  { right. left. apply (calm_reaches w w1); [apply Hp|]. rewrite <- Hp'. apply reaches_disconnect. by rewrite Hp'. }
  right. right. set (is_psk := wpa_key_mgmt_wpa_psk _). clearbody is_psk.
  set (w2 := eloop_cancel_timeout _ _). assert (H2 : reaches w (sm w) w2).
  { unfold w2. apply (calm_reaches w w1); [apply Hp|]. rewrite <- Hp'. split; [done|etrans; [by apply (calm_upd (fun s => s <| pending_1_of_4_timeout := false |>))|apply calm_cancel] ]. }
  clearbody w2. exists (if is_psk && bool_decide (ptr <> SmPmk) then set_pmk (take PMK_LEN pmk) (sm w) else sm w).
  split; [destruct (_ && _); [by right|by left]|]. split; [done|].
  apply (reaches_then_upd w _ _ (fun s => s <| MICVerified := true |> <| PTK := ptk |> <| PTK_valid := true |>)); [|done].
  destruct (_ && _); [|done]. by apply (reaches_then_upd w _ _ (set_pmk (take PMK_LEN pmk))).
Qed.

Lemma pmk_set_field {A} (p : wpa_state_machine -> A) src s s' :
  (forall b n, p (s <| PMK := b |> <| pmk_len := n |>) = p s) -> pmk_set src s s' -> p s' = p s.
Proof. intros H (b & n & -> & _). apply H. Qed.

Lemma PTKCALCNEGOTIATING_spec w :
  in_step_loop (sm w) = true ->
  exists s', calc_outcome (sm w) s' /\
    reaches w s' (sm_WPA_PTK_PTKCALCNEGOTIATING_Enter CONFIG_SAE conf psks w).
Proof.
  intros Hl. unfold sm_WPA_PTK_PTKCALCNEGOTIATING_Enter. cbv zeta.
  match goal with |- context [search_pmk _ _ _ _ (sm ?x)] => set (w1 := x) end.
  assert (E1 : sm w1 = calc_entered (sm w)) by done. assert (C1 : calm w w1) by silent. clearbody w1.
  assert (Hl1 : in_step_loop (sm w1) = true) by (by rewrite E1).
  destruct (search_pmk _ _ _ _ _ _ _ _ _ _ _) as [pmk ptr vlan ptk pf|pf|] eqn:Es.
  - apply search_pmk_found in Es as (Hd & Hv & Hk & Hptr).
    set (w2 := if bool_decide (ptr = SmPmk) then w1 else upd (set_pmk pmk) w1).
    assert (H2 : pmk_set (known_pmk (sm w)) (calc_entered (sm w)) (sm w2) /\ calm w w2).
    { unfold w2. case_bool_decide; (split; [|etrans; [exact C1|silent] ]); rewrite E1 in *.
      - apply pmk_set_refl.
      - change (sm (upd (set_pmk pmk) w1)) with (set_pmk pmk (sm w1)). rewrite E1.
        apply pmk_set_set; [exact Hk|apply pmk_set_refl]. }
    clearbody w2. destruct H2 as [P2 C2].
    assert (Hl2 : in_step_loop (sm w2) = true).
    { rewrite (pmk_set_field in_step_loop _ _ _ ltac:(done) P2). exact Hl. }
    assert (Hx : last_rx_eapol_key (sm w2) = last_rx_eapol_key (sm w)) by
      (by rewrite (pmk_set_field last_rx_eapol_key _ _ _ ltac:(done) P2)).
    match goal with |- context [accept_msg2 conf ?m pmk ptr vlan ptk w2] =>
      destruct (accept_msg2_spec m pmk ptr vlan ptk w2 Hl2) as [H|[H|(s' & Hs' & Hn & H)] ] end.
    + eexists. split; [by apply calc_rejected|]. by apply (calm_reaches w w2).
    + eexists. split; [by apply calc_disconnected|]. by apply (calm_reaches w w2).
    + eexists. split; [|by apply (calm_reaches w w2)]. rewrite E1 in Hd, Hv, Hk.
      apply (calc_accepted (sm w) s' pmk ptk).
      * destruct Hs' as [->| ->].
        -- eapply pmk_set_weaken; [|exact P2]. by left.
        -- apply pmk_set_set; [by right|]. eapply pmk_set_weaken; [|exact P2]. by left.
      * exact Hk.
      * exact Hd.
      * rewrite Hx in Hn. destruct (last_rx_eapol_key (sm w)) as [data|] eqn:Ex; [|done].
        exists data, (length pmk). split; [done|].
        revert Hv. unfold last_frame_verifies.
        change (last_rx_eapol_key (calc_entered (sm w))) with (last_rx_eapol_key (sm w)). rewrite Ex.
        destruct (Nat.eqb_spec (wpa_mic_len (wpa_key_mgmt (calc_entered (sm w))) (pmk_len (calc_entered (sm w)))) 0); [done|].
        intros Hv. injection Hv as Hv. split; [done|]. by apply Z.eqb_eq in Hv.
  - exists (calc_entered (sm w)). split; [apply calc_rejected, pmk_set_refl|].
    assert (H1 : reaches w (calc_entered (sm w)) w1) by (split; [by rewrite E1|done]).
    destruct pf; [|done]. eapply reaches_quiet; [exact H1|by apply quiet_emit].
  - exists (calc_entered (sm w)). split; [apply calc_rejected, pmk_set_refl|].
    split; [by unfold set_null_fault; cbn; rewrite E1|]. etrans; [exact C1|silent].
Qed.

Definition calc2_entered (s : wpa_state_machine) : wpa_state_machine :=
  (in_state WPA_PTK_PTKCALCNEGOTIATING2 s) <| TimeoutCtr := 0 |>.
Lemma reaches_CALC2 w : reaches w (calc2_entered (sm w)) (sm_WPA_PTK_PTKCALCNEGOTIATING2_Enter w).
Proof. split; [done|silent]. Qed.

(** *** Message 3/4 *)

Lemma quiet_msg_gtk w : quiet w (msg_gtk conf w).2.
Proof.
  unfold msg_gtk. cbv zeta. destruct (_ || _); [|done].
  pose proof (quiet_random R_stub_gtk (GTK_len (group w)) w ltac:(done)) as H. through H. by destruct r.
Qed.

Lemma quiet_mgmt_key_kde kde use stub gn key w :
  use <> R_ANonce -> quiet w (mgmt_key_kde conf kde use stub gn key w).2.
Proof.
  intros Hu. unfold mgmt_key_kde.
  match goal with |- quiet w (let '(rsc, w') := ?p in _).2 => assert (H1 : quiet w p.2) by
    (case_bool_decide; [done|apply quiet_get_seqnum]); through H1 end.
  destruct stub; [|exact H1]. pose proof (quiet_random use (mgmt_key_len conf) w0 Hu) as H2.
  destruct (random use (mgmt_key_len conf) w0) as [ [ok b] w2]. cbn [snd] in *. by etrans.
Qed.

Lemma quiet_ieee80211w w : quiet w (ieee80211w_kde_add conf w).2.
Proof.
  unfold ieee80211w_kde_add. cbv zeta. destruct (negb (mgmt_frame_prot _)); [done|].
  match goal with |- context [mgmt_key_kde conf ?a ?b ?c ?d ?e w] =>
    pose proof (quiet_mgmt_key_kde a b c d e w ltac:(done)) as H1; through H1 end.
  destruct r; [|exact H1]. destruct (negb (beacon_prot _)); [exact H1|].
  match goal with |- context [mgmt_key_kde conf ?a ?b ?c ?d ?e w0] =>
    pose proof (quiet_mgmt_key_kde a b c d e w0 ltac:(done)) as H2; through H2 end.
  cbn [snd]. by etrans.
Qed.

Lemma quiet_send_msg3 secure rsc gtk encr w : quiet w (send_msg3 CONFIG_SAE conf secure rsc gtk encr w).
Proof.
  unfold send_msg3, msg3_kde. cbv zeta.
  match goal with |- context [allocate ?n w] => pose proof (quiet_allocate n w) as H1; through H1 end.
  destruct r; cbn [negb]; [|done]. pose proof (quiet_ieee80211w w0) as H2. through H2.
  etrans; [exact H1|]. etrans; [exact H2|]. apply quiet_wpa_send.
Qed.

Definition initneg_entered (s : wpa_state_machine) : wpa_state_machine :=
  (in_state WPA_PTK_PTKINITNEGOTIATING s) <| TimeoutEvt := false |> <| TimeoutCtr ::= fun n => n + 1 |>.

Lemma PTKINITNEGOTIATING_spec w :
  in_step_loop (sm w) = true ->
  let w' := sm_WPA_PTK_PTKINITNEGOTIATING_Enter CONFIG_SAE conf w in
  reaches w (initneg_entered (sm w)) w' \/ reaches w (disconnected (initneg_entered (sm w))) w'.
Proof.
  intros Hl. cbv zeta. unfold sm_WPA_PTK_PTKINITNEGOTIATING_Enter. cbv zeta.
  match goal with |- context [wpa_auth_get_seqnum _ ?x] => set (w1 := x) end.
  assert (H1 : reaches w (initneg_entered (sm w)) w1) by (split; [done|silent]).
  assert (Hs1 : sm w1 = initneg_entered (sm w)) by done. clearbody w1.
  destruct (_ && _); [by left|]. destruct (_ <? _); [by left|].
  pose proof (quiet_get_seqnum (GN (group w1)) w1) as H2.
  assert (Hs2 : sm (wpa_auth_get_seqnum (GN (group w1)) w1).2 = initneg_entered (sm w)) by exact Hs1. through H2.
  cbn [snd] in Hs2. pose proof (reaches_quiet _ _ _ _ H1 H2) as H3.
  destruct (bool_decide _); [|left; eapply reaches_quiet; [exact H3|apply quiet_send_msg3] ].
  match goal with |- context [let '(r, w') := ?p in _] => assert (Hp : quiet w0 p.2 /\ sm p.2 = sm w0); [|destruct p as [r1 w2] ] end.
  { destruct (_ && _); [|by split]. split; [by apply quiet_set_key|done]. }
  cbn [snd] in Hp. destruct Hp as [Hp Hs3]. pose proof (reaches_quiet _ _ _ _ H3 Hp) as H4.
  destruct (negb (r1 =? 0)).
  - right. apply (calm_reaches w w2); [apply H4|]. rewrite <- Hs2, <- Hs3. apply reaches_disconnect.
    rewrite Hs3, Hs2. exact Hl.
  - left. pose proof (quiet_msg_gtk w2) as H5. through H5. pose proof (reaches_quiet _ _ _ _ H4 H5) as H6.
    destruct r0; [|exact H6]. eapply reaches_quiet; [exact H6|apply quiet_send_msg3].
Qed.

(** *** The keys are installed *)

Definition done_entered (s : wpa_state_machine) : wpa_state_machine :=
  (in_state WPA_PTK_PTKINITDONE s) <| EAPOLKeyReceived := false |>.
Definition done_end (s : wpa_state_machine) : wpa_state_machine :=
  if bool_decide (wpa s = WPA_VERSION_WPA) then s <| PInitAKeys := true |> else s <| has_GTK := true |>.

(** The call that installs the key of a station. *)
Definition install_event (s : wpa_state_machine) : event :=
  if use_ext_key_id s
  then SetKey 0 WPA_ALG_NONE (Some (addr s)) (keyidx_active s) [] KEY_FLAG_PAIRWISE_RX_TX_MODIFY
  else SetKey 0 (wpa_cipher_to_alg (pairwise s)) (Some (addr s)) 0
         (take (wpa_cipher_key_len (pairwise s)) (tk (PTK s))) KEY_FLAG_PAIRWISE_RX_TX.

(** Events of a step, newest first. *)
Definition news (P : event -> Prop) (w w' : W) : Prop := exists new, events w' = new ++ events w /\ Forall P new.

(** The events of [PTKINITDONE] are quiet ones, the installation and, above it,
    the opening of the port. *)
Definition opens_only (w w' : W) : Prop :=
  gctl (group w') = gctl (group w) /\ freed w' = freed w /\ (fault w = true -> fault w' = true) /\
  news (fun e => is_anonce e = false /\ is_install e = false) w w'.

#[local] Instance opens_only_preorder : PreOrder opens_only.
Proof.
  split; [split; [done|]; split; [done|]; split; [done|]; exists []; by split|].
  intros w1 w2 w3 (? & ? & ? & n & Hn & Fn) (? & ? & ? & n' & Hn' & Fn').
  split; [congruence|]. split; [congruence|]. split; [auto|]. exists (n' ++ n).
  rewrite Hn', Hn, app_assoc. split; [done|]. by apply Forall_app.
Qed.
Lemma calm_opens_only w w' : calm w w' -> opens_only w w'.
Proof.
  intros [Hg (n & Hn & Fn) Hf Hl]. split; [done|]. split; [done|]. split; [done|]. exists n. split; [done|].
  eapply Forall_impl; [exact Fn|]. intros e He. unfold loud in He. by destruct (is_anonce e), (is_install e).
Qed.

Lemma opens_silent w w' :
  gctl (group w') = gctl (group w) -> events w' = events w -> freed w' = freed w ->
  (fault w = true -> fault w' = true) -> opens_only w w'.
Proof. intros ????. split; [done|]. split; [done|]. split; [done|]. exists []. by split. Qed.

Lemma opens_set_eapol var v w : opens_only w (wpa_auth_set_eapol var v w) /\ sm (wpa_auth_set_eapol var v w) = sm w.
Proof.
  split; [|by destruct var].
  assert (H : opens_only w (emit (SetEapol var v) w)).
  { split; [done|]. split; [done|]. split; [done|]. exists [SetEapol var v]. split; [done|]. by repeat constructor. }
  etrans; [exact H|]. unfold wpa_auth_set_eapol. destruct var; try reflexivity; (apply calm_opens_only; silent).
Qed.

Lemma ptk_done_spec w : opens_only w (ptk_done w) /\ er (sm (ptk_done w)) = er (done_end (sm w)).
Proof.
  unfold ptk_done. cbv zeta.
  destruct (opens_set_eapol WPA_EAPOL_portValid 1 w) as [O1 S1]. set (w1 := wpa_auth_set_eapol _ _ w) in *. clearbody w1.
  destruct (opens_set_eapol WPA_EAPOL_keyAvailable 0 w1) as [O2 S2]. set (w2 := wpa_auth_set_eapol _ _ w1) in *. clearbody w2.
  destruct (opens_set_eapol WPA_EAPOL_keyDone 1 w2) as [O3 S3]. set (w3 := wpa_auth_set_eapol _ _ w2) in *. clearbody w3.
  assert (Es : sm w3 = sm w) by congruence. rewrite <- Es. unfold done_end. split.
  - etrans; [exact O1|]. etrans; [exact O2|]. etrans; [exact O3|]. apply calm_opens_only. case_bool_decide; apply calm_upd.
  - by case_bool_decide.
Qed.

(** Without a pairwise key the port is opened at once; with one, first the key is
    installed, and a failure disconnects the station. *)
Lemma PTKINITDONE_spec w :
  in_step_loop (sm w) = true ->
  let w' := sm_WPA_PTK_PTKINITDONE_Enter conf w in
  if Pair (sm w) then
    let w1 := emit (install_event (sm w)) (upd done_entered w) in
    (opens_only w1 w' /\ er (sm w') = er (done_end ((done_entered (sm w)) <| pairwise_set := true |>))) \/
    (calm w1 w' /\ er (sm w') = er (disconnected (done_entered (sm w))))
  else opens_only w w' /\ er (sm w') = er (done_end (done_entered (sm w))).
Proof.
  intros Hl. cbv zeta. unfold sm_WPA_PTK_PTKINITDONE_Enter. cbv zeta.
  set (w1 := upd (fun s => s <| EAPOLKeyReceived := false |>) (enter WPA_PTK_PTKINITDONE w)).
  assert (Es : sm w1 = done_entered (sm w)) by done.
  change (Pair (sm w1)) with (Pair (sm w)). destruct (Pair (sm w)).
  - assert (Hi : install_ptk w1 = (cb_set_key (install_event (sm w) :: events w), emit (install_event (sm w)) (upd done_entered w))).
    { unfold install_ptk, install_event. change (use_ext_key_id (sm w1)) with (use_ext_key_id (sm w)).
      by destruct (use_ext_key_id (sm w)). }
    rewrite Hi. set (w2 := emit (install_event (sm w)) (upd done_entered w)).
    assert (E2 : sm w2 = done_entered (sm w)) by done. clearbody w2. clear Hi.
    destruct (negb (_ =? 0)).
    + right. assert (H : reaches w2 (disconnected (sm w2)) (disconnect conf WLAN_REASON_PREV_AUTH_NOT_VALID w2)).
      { apply reaches_disconnect. by rewrite E2. }
      rewrite E2 in H. split; apply H.
    + left. match goal with |- context [ptk_done (if _ then _ else ?x)] => set (w3 := x) end.
      assert (C3 : opens_only w2 w3).
      { unfold w3, wpa_auth_set_ptk_rekey_timer.
        match goal with |- opens_only ?a _ => etrans; [|by apply calm_opens_only, calm_emit] end.
        destruct (_ =? 0); by apply opens_silent. }
      assert (E3 : sm w3 = (done_entered (sm w)) <| pairwise_set := true |>).
      { unfold w3, wpa_auth_set_ptk_rekey_timer. rewrite <- E2. by destruct (_ =? 0). }
      clearbody w3. set (w4 := if psk_like _ then _ else w3).
      assert (O4 : opens_only w3 w4 /\ sm w4 = sm w3) by (unfold w4; destruct (psk_like _); [apply opens_set_eapol|done]).
      clearbody w4. destruct O4 as [O4 E4]. destruct (ptk_done_spec w4) as [O5 E5]. split.
      * etrans; [exact C3|]. by etrans.
      * by rewrite E5, E4, E3.
  - destruct (ptk_done_spec w1) as [O5 E5]. split; [|by rewrite E5, Es].
    etrans; [apply calm_opens_only|exact O5]. silent.
Qed.

(** ** The states of WPA_PTK_GROUP *)

Definition idle_entered (s : wpa_state_machine) : wpa_state_machine :=
  s <| changed := negb (Init s) |> <| wpa_ptk_group_state := WPA_PTK_GROUP_IDLE |> <| GTimeoutCtr := 0 |>.
Lemma reaches_IDLE w : reaches w (idle_entered (sm w)) (sm_WPA_PTK_GROUP_IDLE_Enter w).
Proof.
  unfold sm_WPA_PTK_GROUP_IDLE_Enter. cbv zeta. apply (reaches_then_upd w _ _ (set GTimeoutCtr (fun _ => 0))); [|done].
  change (Init (sm (enter_group WPA_PTK_GROUP_IDLE w))) with (Init (sm w)).
  destruct (Init (sm w)); (split; [done|silent]).
Qed.

(** Group message 1/2 has been sent often enough. *)
Definition group_limit (s : wpa_state_machine) : bool :=
  (wpa_group_update_count conf <? GTimeoutCtr s) || (wpa_disable_eapol_key_retries conf && (1 <? GTimeoutCtr s)).

Definition rekeyneg_entered (s : wpa_state_machine) : wpa_state_machine :=
  let s := (in_group_state WPA_PTK_GROUP_REKEYNEGOTIATING s) <| GTimeoutCtr ::= fun n => n + 1 |> in
  if group_limit s then s else (clear_pinit s) <| TimeoutEvt := false |>.

Lemma reaches_REKEYNEGOTIATING w :
  reaches w (rekeyneg_entered (sm w)) (sm_WPA_PTK_GROUP_REKEYNEGOTIATING_Enter CONFIG_SAE conf w).
Proof.
  unfold sm_WPA_PTK_GROUP_REKEYNEGOTIATING_Enter. cbv zeta.
  set (w1 := upd (fun s => s <| GTimeoutCtr ::= fun n => n + 1 |>) (enter_group WPA_PTK_GROUP_REKEYNEGOTIATING w)).
  assert (Es : sm w1 = (in_group_state WPA_PTK_GROUP_REKEYNEGOTIATING (sm w)) <| GTimeoutCtr ::= fun n => n + 1 |>) by done.
  assert (H1 : reaches w (sm w1) w1) by (split; [done|silent]).
  unfold rekeyneg_entered, group_limit. rewrite <- Es. clearbody w1.
  destruct (wpa_disable_eapol_key_retries conf && (1 <? GTimeoutCtr (sm w1))); [by rewrite orb_true_r|].
  rewrite orb_false_r. destruct (_ <? _); [done|].
  match goal with |- context [upd (fun s => s <| TimeoutEvt := false |>) ?x] => set (w2 := x) end.
  assert (H2 : reaches w (clear_pinit (sm w1)) w2).
  { unfold w2, clear_pinit. case_bool_decide; cbn [negb].
    - rewrite andb_false_r. split; [done|]. etrans; [apply H1|silent].
    - rewrite andb_true_r. split; [by destruct (sm w1)|apply H1]. }
  clearbody w2.
  assert (H3 : reaches w ((clear_pinit (sm w1)) <| TimeoutEvt := false |>) (upd (fun s => s <| TimeoutEvt := false |>) w2))
    by (by apply (reaches_then_upd w _ _ (fun s => s <| TimeoutEvt := false |>))).
  set (w3 := upd (fun s => s <| TimeoutEvt := false |>) w2) in *. clearbody w3.
  match goal with |- context [let '(rsc, w') := ?p in _] => assert (Hp : quiet w3 p.2); [|through Hp] end.
  { case_bool_decide; [apply quiet_get_seqnum|done]. }
  pose proof (quiet_msg_gtk w0) as H4. through H4. pose proof (transitivity Hp H4) as H5.
  destruct r0; [|by eapply reaches_quiet]. eapply reaches_quiet; [exact H3|]. etrans; [exact H5|].
  unfold send_group_msg1. cbv zeta.
  match goal with |- context [let '(kde, w') := ?p in _] => assert (Hq : quiet w4 p.2); [|through Hq] end.
  { destruct (bool_decide (wpa (sm w4) = _)); [|done].
    match goal with |- context [allocate ?n w4] => pose proof (quiet_allocate n w4) as H6; through H6 end.
    destruct r0; cbn [negb]; [|done]. pose proof (quiet_ieee80211w w5) as H7. through H7. by etrans. }
  destruct r0; [|done]. etrans; [exact Hq|apply quiet_wpa_send].
Qed.

Definition established_entered (s : wpa_state_machine) : wpa_state_machine :=
  (in_group_state WPA_PTK_GROUP_REKEYESTABLISHED s) <| EAPOLKeyReceived := false |> <| GUpdateStationKeys := false |>
    <| GTimeoutCtr := 0 |> <| has_GTK := true |>.
Lemma reaches_REKEYESTABLISHED w : reaches w (established_entered (sm w)) (sm_WPA_PTK_GROUP_REKEYESTABLISHED_Enter w).
Proof.
  unfold sm_WPA_PTK_GROUP_REKEYESTABLISHED_Enter. cbv zeta.
  apply (reaches_then_upd w _ _ (fun s => s <| GTimeoutCtr := 0 |> <| has_GTK := true |>)); [|done].
  apply (reaches_then w _ _ (set GUpdateStationKeys (fun _ => false))) with (3 := reaches_cancel_update _); [|done].
  split; [done|silent].
Qed.

Definition keyerror_entered (s : wpa_state_machine) : wpa_state_machine :=
  (in_group_state WPA_PTK_GROUP_KEYERROR s) <| GUpdateStationKeys := false |> <| Disconnect := true |>
    <| disconnect_reason := WLAN_REASON_GROUP_KEY_UPDATE_TIMEOUT |>.
Lemma reaches_KEYERROR w : reaches w (keyerror_entered (sm w)) (sm_WPA_PTK_GROUP_KEYERROR_Enter w).
Proof.
  unfold sm_WPA_PTK_GROUP_KEYERROR_Enter. cbv zeta.
  apply (reaches_then_upd w _ _ (fun s => s <| Disconnect := true |> <| disconnect_reason := WLAN_REASON_GROUP_KEY_UPDATE_TIMEOUT |>)); [|done].
  apply (reaches_then w _ _ (set GUpdateStationKeys (fun _ => false))) with (3 := reaches_cancel_update _); [|done].
  split; [done|silent].
Qed.
End states.
