(* ===== verification/WpaRun.v ===== *)
(** * The WPA authenticator: transitions of the station

    A pass of [SM_STEP(WPA_PTK)] as a transition of the station ([ptk_trans]), with the
    guards of the C code and with what sending does left out.  The group's
    transitions and the loop follow in [WpaLoop]. *)

From S2P Require Import Prelude Bytes HashSpec Hmac AesInterface AesWrap AesOmac Rc4.
From S2P Require Import WpaKeys WpaState WpaFrame WpaPsk WpaGroup WpaPtk WpaAuth WpaProofs.

(** What a pass tells the outside: the loud events. *)
Inductive label := Silent | Draw (b : bytes) | Install | Open.

Section trans.
Context {C : Crypto} {E : WpaEnv} (CONFIG_SAE : bool) (conf : wpa_auth_config) (psks : psk_config).
Context (hash0 : bytes).
Notation W := world.
Notation "!! b" := (b = false) (at level 9, only parsing).

(** No request is pending: the state decides. *)
Definition undisturbed (s : wpa_state_machine) : Prop :=
  !!(Init s) /\ !!(Disconnect s) /\ !!(DeauthenticationRequest s) /\ !!(AuthenticationRequest s) /\
  !!(ReAuthenticationRequest s) /\ !!(PTKRequest s).

(** The state waits. *)
Definition ptk_waits (s : wpa_state_machine) : bool :=
  match wpa_ptk_state s with
  | WPA_PTK_INITIALIZE | WPA_PTK_PTKINITDONE | WPA_PTK_AUTHENTICATION2 => true
  | WPA_PTK_PTKSTART =>
    negb (pairwise_received s) && negb (wpa_pairwise_update_count conf <? TimeoutCtr s) && negb (TimeoutEvt s)
  | WPA_PTK_PTKCALCNEGOTIATING => negb (MICVerified s) && negb (pairwise_received s) && negb (TimeoutEvt s)
  | WPA_PTK_PTKINITNEGOTIATING =>
    negb (update_snonce s) && negb (pairwise_received s && MICVerified s) && negb (TimeoutEvt s)
  | _ => false
  end.

Inductive ptk_trans (s : wpa_state_machine) : label -> wpa_state_machine -> Prop :=
| T_Init : Init s = true -> ptk_trans s Silent (initialized s)
| T_Disconnect : !!(Init s) -> Disconnect s = true -> ptk_trans s Silent (disconnect_entered s)
| T_Deauth : !!(Init s) -> !!(Disconnect s) -> DeauthenticationRequest s = true ->
    ptk_trans s Silent ((in_state WPA_PTK_DISCONNECTED s) <| DeauthenticationRequest := false |>)
| T_Auth : !!(Init s) -> !!(Disconnect s) -> !!(DeauthenticationRequest s) -> AuthenticationRequest s = true ->
    ptk_trans s Silent ((no_keys (in_state WPA_PTK_AUTHENTICATION s)) <| AuthenticationRequest := false |>)
| T_ReAuth ok b ev : !!(Init s) -> !!(Disconnect s) -> !!(DeauthenticationRequest s) -> !!(AuthenticationRequest s) ->
    ReAuthenticationRequest s = true -> random_get_bytes ev R_ANonce WPA_NONCE_LEN = (ok, b) ->
    ptk_trans s (if ok then Draw b else Silent) (auth2_entered ok b s)
| T_Request_ok b ev : !!(Init s) -> !!(Disconnect s) -> !!(DeauthenticationRequest s) -> !!(AuthenticationRequest s) ->
    !!(ReAuthenticationRequest s) -> PTKRequest s = true ->
    random_get_bytes ev R_ANonce WPA_NONCE_LEN = (true, b) -> ptk_trans s (Draw b) (ptkstart_entered (drawn true b s))
| T_Request_fail b ev : !!(Init s) -> !!(Disconnect s) -> !!(DeauthenticationRequest s) -> !!(AuthenticationRequest s) ->
    !!(ReAuthenticationRequest s) -> PTKRequest s = true ->
    random_get_bytes ev R_ANonce WPA_NONCE_LEN = (false, b) ->
    ptk_trans s Silent ((in_state WPA_PTK_DISCONNECTED (drawn false b s)) <| DeauthenticationRequest := false |>)
| T_wait : undisturbed s -> ptk_waits s = true -> ptk_trans s Silent s
| T_Disconnected : undisturbed s -> wpa_ptk_state s = WPA_PTK_DISCONNECT ->
    ptk_trans s Silent ((in_state WPA_PTK_DISCONNECTED s) <| DeauthenticationRequest := false |>)
| T_Initialize : undisturbed s -> wpa_ptk_state s = WPA_PTK_DISCONNECTED -> ptk_trans s Silent (initialized s)
| T_Auth2 ok b ev : undisturbed s -> wpa_ptk_state s = WPA_PTK_AUTHENTICATION ->
    random_get_bytes ev R_ANonce WPA_NONCE_LEN = (ok, b) ->
    ptk_trans s (if ok then Draw b else Silent) (auth2_entered ok b s)
| T_InitPmk_fail : undisturbed s -> wpa_ptk_state s = WPA_PTK_AUTHENTICATION2 ->
    ptk_trans s Silent ((in_state WPA_PTK_INITPMK s) <| Disconnect := true |>)
| T_InitPmk s' : undisturbed s -> wpa_ptk_state s = WPA_PTK_AUTHENTICATION2 ->
    pmk_is (fun k => from_msk k \/ from_pmksa s k) (in_state WPA_PTK_INITPMK s) s' ->
    ptk_trans s Silent (s' <| req_replay_counter_used := false |>)
| T_InitPsk s' : undisturbed s -> wpa_ptk_state s = WPA_PTK_AUTHENTICATION2 ->
    pmk_is (fun k => from_psk psks k \/ from_pmksa s k) (in_state WPA_PTK_INITPSK s) s' \/
      no_key CONFIG_SAE psks (in_state WPA_PTK_INITPSK s) /\ s' = in_state WPA_PTK_INITPSK s ->
    ptk_trans s Silent (s' <| req_replay_counter_used := false |>)
| T_Start : undisturbed s ->
    wpa_ptk_state s = WPA_PTK_INITPMK \/ (wpa_ptk_state s = WPA_PTK_INITPSK /\ ~ no_key CONFIG_SAE psks s) ->
    ptk_trans s Silent (ptkstart_entered s)
| T_NoKey : undisturbed s -> wpa_ptk_state s = WPA_PTK_INITPMK \/ wpa_ptk_state s = WPA_PTK_INITPSK ->
    ptk_trans s Silent (disconnect_entered s)
| T_Calc s' : undisturbed s -> wpa_ptk_state s = WPA_PTK_PTKSTART \/ wpa_ptk_state s = WPA_PTK_PTKCALCNEGOTIATING ->
    pairwise_received s = true -> (wpa_ptk_state s = WPA_PTK_PTKCALCNEGOTIATING -> !!(MICVerified s)) ->
    calc_outcome CONFIG_SAE conf psks s s' -> ptk_trans s Silent s'
| T_Recalc s' : undisturbed s -> wpa_ptk_state s = WPA_PTK_PTKINITNEGOTIATING -> update_snonce s = true ->
    calc_outcome CONFIG_SAE conf psks s s' -> ptk_trans s Silent s'
| T_Limit : undisturbed s -> wpa_ptk_state s = WPA_PTK_PTKSTART \/ wpa_ptk_state s = WPA_PTK_PTKINITNEGOTIATING ->
    (wpa_pairwise_update_count conf < TimeoutCtr s \/
     wpa_ptk_state s = WPA_PTK_PTKINITNEGOTIATING /\ wpa_disable_eapol_key_retries conf = true /\ 1 < TimeoutCtr s) ->
    ptk_trans s Silent (disconnect_entered (s <| disconnect_reason := WLAN_REASON_4WAY_HANDSHAKE_TIMEOUT |>))
| T_Restart : undisturbed s -> wpa_ptk_state s = WPA_PTK_PTKSTART \/ wpa_ptk_state s = WPA_PTK_PTKCALCNEGOTIATING ->
    TimeoutEvt s = true -> ptk_trans s Silent (ptkstart_entered s)
| T_Calc2 : undisturbed s -> wpa_ptk_state s = WPA_PTK_PTKCALCNEGOTIATING -> MICVerified s = true ->
    ptk_trans s Silent (calc2_entered s)
| T_Negotiate : undisturbed s ->
    wpa_ptk_state s = WPA_PTK_PTKCALCNEGOTIATING2 \/
    (wpa_ptk_state s = WPA_PTK_PTKINITNEGOTIATING /\ !!(update_snonce s) /\
     !!(pairwise_received s && MICVerified s) /\ TimeoutEvt s = true) ->
    ptk_trans s Silent (initneg_entered s)
| T_Negotiate_fail : undisturbed s ->
    wpa_ptk_state s = WPA_PTK_PTKCALCNEGOTIATING2 \/
    (wpa_ptk_state s = WPA_PTK_PTKINITNEGOTIATING /\ !!(update_snonce s) /\
     !!(pairwise_received s && MICVerified s) /\ TimeoutEvt s = true) ->
    ptk_trans s Silent (disconnected (initneg_entered s))
| T_Done : undisturbed s -> wpa_ptk_state s = WPA_PTK_PTKINITNEGOTIATING -> !!(update_snonce s) ->
    pairwise_received s = true -> MICVerified s = true -> Pair s = true ->
    ptk_trans s Install (done_end ((done_entered s) <| pairwise_set := true |>))
| T_Done_fail : undisturbed s -> wpa_ptk_state s = WPA_PTK_PTKINITNEGOTIATING -> !!(update_snonce s) ->
    pairwise_received s = true -> MICVerified s = true -> Pair s = true ->
    ptk_trans s Install (disconnected (done_entered s))
| T_Done_unpaired : undisturbed s -> wpa_ptk_state s = WPA_PTK_PTKINITNEGOTIATING -> !!(update_snonce s) ->
    pairwise_received s = true -> MICVerified s = true -> Pair s = false ->
    ptk_trans s Open (done_end (done_entered s)).

(** The events of a transition from the station [s]. *)
Definition label_events (l : label) (w w' : W) : Prop :=
  match l with
  | Silent => calm w w'
  | Draw b => one_event (Random R_ANonce true b) w w'
  | Install => opens_only (emit (install_event (sm w)) (upd done_entered w)) w'
  | Open => opens_only w w'
  end.

Definition ptk_stepped (w w' : W) : Prop :=
  exists l s', ptk_trans (sm w) l s' /\ er (sm w') = er s' /\ label_events l w w'.

Lemma stepped_silent w s' w' : ptk_trans (sm w) Silent s' -> reaches w s' w' -> ptk_stepped w w'.
Proof. intros Ht [Hs Hc]. by exists Silent, s'. Qed.

(** *** The transitions, as the functions of the code make them *)

Lemma stepped_wait w : undisturbed (sm w) -> ptk_waits (sm w) = true -> ptk_stepped w w.
Proof. intros Hu Hw. apply (stepped_silent w (sm w)); [by apply T_wait|by split]. Qed.

Lemma stepped_calc w :
  in_step_loop (sm w) = true ->
  (forall s', calc_outcome CONFIG_SAE conf psks (sm w) s' -> ptk_trans (sm w) Silent s') ->
  ptk_stepped w (sm_WPA_PTK_PTKCALCNEGOTIATING_Enter CONFIG_SAE conf psks w).
Proof.
  intros Hl H. destruct (PTKCALCNEGOTIATING_spec CONFIG_SAE conf psks w Hl) as (s' & Ho & Hr).
  apply (stepped_silent w s'); [by apply H|done].
Qed.

Lemma stepped_start w :
  ptk_trans (sm w) Silent (ptkstart_entered (sm w)) ->
  ptk_stepped w (sm_WPA_PTK_PTKSTART_Enter CONFIG_SAE conf hash0 w).
Proof. intros H. apply (stepped_silent w (ptkstart_entered (sm w))); [done|apply reaches_PTKSTART]. Qed.

Lemma stepped_negotiate w :
  in_step_loop (sm w) = true -> undisturbed (sm w) ->
  wpa_ptk_state (sm w) = WPA_PTK_PTKCALCNEGOTIATING2 \/
  (wpa_ptk_state (sm w) = WPA_PTK_PTKINITNEGOTIATING /\ !!(update_snonce (sm w)) /\
   !!(pairwise_received (sm w) && MICVerified (sm w)) /\ TimeoutEvt (sm w) = true) ->
  ptk_stepped w (sm_WPA_PTK_PTKINITNEGOTIATING_Enter CONFIG_SAE conf w).
Proof.
  intros Hl Hu Hs. destruct (PTKINITNEGOTIATING_spec CONFIG_SAE conf w Hl);
    (eapply stepped_silent; [|done]); [by apply T_Negotiate|by apply T_Negotiate_fail].
Qed.

Lemma stepped_limit w :
  in_step_loop (sm w) = true ->
  ptk_trans (sm w) Silent (disconnect_entered ((sm w) <| disconnect_reason := WLAN_REASON_4WAY_HANDSHAKE_TIMEOUT |>)) ->
  ptk_stepped w (retry_limit conf w).
Proof.
  intros Hl H. eapply stepped_silent; [exact H|].
  unfold retry_limit. match goal with |- reaches _ _ (sm_WPA_PTK_DISCONNECT_Enter _ ?x) => apply (calm_reaches w x); [silent|] end.
  by apply reaches_DISCONNECT.
Qed.

Lemma stepped_no_key w :
  in_step_loop (sm w) = true -> ptk_trans (sm w) Silent (disconnect_entered (sm w)) ->
  ptk_stepped w (sm_WPA_PTK_DISCONNECT_Enter conf (handshake_failed w)).
Proof.
  intros Hl H. apply (stepped_silent w (disconnect_entered (sm w))); [done|].
  apply (calm_reaches w (handshake_failed w)); [silent|]. exact (reaches_DISCONNECT conf (handshake_failed w) Hl).
Qed.

(** Message 4/4 with a MIC that verifies. *)
Lemma stepped_done w :
  in_step_loop (sm w) = true -> undisturbed (sm w) -> wpa_ptk_state (sm w) = WPA_PTK_PTKINITNEGOTIATING ->
  !!(update_snonce (sm w)) -> pairwise_received (sm w) = true -> MICVerified (sm w) = true ->
  ptk_stepped w (sm_WPA_PTK_PTKINITDONE_Enter conf w).
Proof.
  intros Hl Hu Hst Hs Hp Hm. pose proof (PTKINITDONE_spec conf w Hl) as H. cbv zeta in H.
  destruct (Pair (sm w)) eqn:EP.
  - destruct H as [ [Ho Hd]|[Hc Hd] ]; exists Install; eexists.
    + split; [by apply T_Done|]. by split.
    + split; [by apply T_Done_fail|]. split; [done|]. by apply calm_opens_only.
  - destruct H as [Ho Hd]. exists Open. eexists. split; [by apply T_Done_unpaired|]. by split.
Qed.

(** *** The states that wait for a frame, and the whole [switch] *)

Notation switch := (sm_WPA_PTK_switch CONFIG_SAE conf psks hash0).

Lemma switch_PTKSTART w :
  in_step_loop (sm w) = true -> undisturbed (sm w) -> wpa_ptk_state (sm w) = WPA_PTK_PTKSTART -> ptk_stepped w (switch w).
Proof.
  intros Hl Hu Est. unfold sm_WPA_PTK_switch. cbv zeta. rewrite Est.
  destruct (pairwise_received (sm w)) eqn:Ep.
  { apply stepped_calc; [done|]. intros s' Ho. apply T_Calc; auto. by rewrite Est. }
  destruct (Z.ltb_spec (wpa_pairwise_update_count conf) (TimeoutCtr (sm w))) as [Hlt|Hge].
  { apply stepped_limit; [done|]. apply T_Limit; auto. }
  destruct (TimeoutEvt (sm w)) eqn:Et; [apply stepped_start, T_Restart; auto|].
  apply stepped_wait; [done|]. unfold ptk_waits. rewrite Est, Ep, Et. apply Z.ltb_ge in Hge. by rewrite Hge.
Qed.

Lemma switch_PTKCALCNEGOTIATING w :
  in_step_loop (sm w) = true -> undisturbed (sm w) -> wpa_ptk_state (sm w) = WPA_PTK_PTKCALCNEGOTIATING ->
  ptk_stepped w (switch w).
Proof.
  intros Hl Hu Est. unfold sm_WPA_PTK_switch. cbv zeta. rewrite Est.
  destruct (MICVerified (sm w)) eqn:Em; [eapply stepped_silent; [by apply T_Calc2|apply reaches_CALC2]|].
  destruct (pairwise_received (sm w)) eqn:Ep.
  { apply stepped_calc; [done|]. intros s' Ho. apply T_Calc; auto. }
  destruct (TimeoutEvt (sm w)) eqn:Et; [apply stepped_start, T_Restart; auto|].
  apply stepped_wait; [done|]. unfold ptk_waits. by rewrite Est, Em, Ep, Et.
Qed.

Lemma switch_PTKINITNEGOTIATING w :
  in_step_loop (sm w) = true -> undisturbed (sm w) -> wpa_ptk_state (sm w) = WPA_PTK_PTKINITNEGOTIATING ->
  ptk_stepped w (switch w).
Proof.
  intros Hl Hu Est. unfold sm_WPA_PTK_switch. cbv zeta. rewrite Est.
  destruct (update_snonce (sm w)) eqn:Eu.
  { apply stepped_calc; [done|]. intros s' Ho. by apply T_Recalc. }
  destruct (pairwise_received (sm w) && MICVerified (sm w)) eqn:Ep.
  { apply andb_true_iff in Ep as [Ep Em]. by apply stepped_done. }
  destruct (_ || _) eqn:El.
  { apply stepped_limit; [done|]. apply T_Limit; auto. apply orb_true_iff in El as [El|El].
    - left. by apply Z.ltb_lt.
    - right. apply andb_true_iff in El as [El1 El2]. split; [done|]. split; [done|]. by apply Z.ltb_lt. }
  destruct (TimeoutEvt (sm w)) eqn:Et; [apply stepped_negotiate; auto|].
  apply stepped_wait; [done|]. unfold ptk_waits. by rewrite Est, Eu, Ep, Et.
Qed.

Lemma ptk_switch_stepped w : in_step_loop (sm w) = true -> undisturbed (sm w) -> ptk_stepped w (switch w).
Proof.
  intros Hl Hu. destruct (wpa_ptk_state (sm w)) eqn:Est.
  8: by apply switch_PTKSTART.
  8: by apply switch_PTKCALCNEGOTIATING.
  9: by apply switch_PTKINITNEGOTIATING.
  all: unfold sm_WPA_PTK_switch; cbv zeta; rewrite Est.
  - apply stepped_wait; [done|]. by unfold ptk_waits; rewrite Est.
  - eapply stepped_silent; [by apply T_Disconnected|apply reaches_DISCONNECTED].
  - eapply stepped_silent; [by apply T_Initialize|apply reaches_INITIALIZE].
  - destruct (AUTHENTICATION2_spec conf w) as (ok & b & Hs & [ev Hr] & He).
    eexists _, _. split; [by apply (T_Auth2 (sm w) ok b ev)|]. split; [done|]. by destruct ok.
  - destruct (_ && _); [|destruct (_ || _); [|destruct (_ =? _)] ].
    1,3: destruct (INITPMK_spec w) as [Hr|(s' & Hp & Hr)];
      [eapply stepped_silent; [by apply T_InitPmk_fail|exact Hr]|eapply stepped_silent; [by eapply T_InitPmk|exact Hr] ].
    + destruct (INITPSK_spec CONFIG_SAE psks w) as (s' & Hp & Hr). eapply stepped_silent; [by eapply T_InitPsk|exact Hr].
    + apply stepped_wait; [done|]. by unfold ptk_waits; rewrite Est.
  - destruct (eap_keyAvailable w); [apply stepped_start, T_Start|apply stepped_no_key, T_NoKey]; auto.
  - case_bool_decide as E1.
    { apply stepped_start, T_Start; [done|]. right. split; [done|]. by intros [H _]. }
    destruct (_ && _) eqn:E2; [|apply stepped_no_key, T_NoKey; auto].
    apply andb_true_iff in E2 as [E2 E3%bool_decide_eq_true_1]. apply stepped_start, T_Start; [done|]. right. split; [done|].
    intros [_ H]. auto.
  - apply stepped_negotiate; auto.
  - apply stepped_wait; [done|]. by unfold ptk_waits; rewrite Est.
Qed.

Lemma ptk_step_stepped w :
  in_step_loop (sm w) = true -> ptk_stepped w (sm_WPA_PTK_Step CONFIG_SAE conf psks hash0 w).
Proof.
  intros Hl. unfold sm_WPA_PTK_Step. cbv zeta.
  destruct (Init (sm w)) eqn:EI; [eapply stepped_silent; [by apply T_Init|apply reaches_INITIALIZE]|].
  destruct (Disconnect (sm w)) eqn:ED; [eapply stepped_silent; [by apply T_Disconnect|by apply reaches_DISCONNECT]|].
  destruct (DeauthenticationRequest (sm w)) eqn:EQ;
    [eapply stepped_silent; [by apply T_Deauth|apply reaches_DISCONNECTED]|].
  destruct (AuthenticationRequest (sm w)) eqn:EA;
    [eapply stepped_silent; [by apply T_Auth|apply reaches_AUTHENTICATION]|].
  destruct (ReAuthenticationRequest (sm w)) eqn:ER.
  { destruct (AUTHENTICATION2_spec conf w) as (ok & b & Hs & [ev Hr] & He).
    eexists _, _. split; [by apply (T_ReAuth (sm w) ok b ev)|]. split; [done|]. by destruct ok. }
  destruct (PTKRequest (sm w)) eqn:ET; [|by apply ptk_switch_stepped].
  unfold wpa_auth_sm_ptk_update. destruct (new_ANonce_spec w) as (ok & b & H1 & H2 & H3 & H4).
  destruct (new_ANonce w) as [ok' w1]. cbn [fst snd] in *. subst ok'. destruct ok.
  - change (0 <? 0) with false. cbv iota. destruct (reaches_PTKSTART CONFIG_SAE conf hash0 w1) as [S1 C1].
    exists (Draw b). eexists. split; [by apply (T_Request_ok (sm w) b (events w))|]. split.
    + rewrite S1. assert (Hd : respectful ptkstart_entered) by done. by rewrite Hd, H2, <- Hd.
    + destruct H4 as (w2 & C2 & C3). exists w2. split; [done|]. by etrans.
  - change (-1 <? 0) with true. cbv iota. destruct (reaches_DISCONNECTED w1) as [S1 C1].
    exists Silent. eexists. split; [by apply (T_Request_fail (sm w) b (events w))|]. split.
    + rewrite S1. assert (Hd : respectful (fun s => (in_state WPA_PTK_DISCONNECTED s) <| DeauthenticationRequest := false |>)) by done.
      transitivity (er ((in_state WPA_PTK_DISCONNECTED (drawn false b (sm w))) <| DeauthenticationRequest := false |>)); [|done].
      by rewrite (Hd (sm w1)), H2, <- Hd.
    + by etrans.
Qed.
End trans.

(** ** Reasoning by cases on a transition *)

(** Rewrites with what is known of the fields. *)
Ltac known_fields :=
  repeat match goal with
  | H : ?f ?s = _ |- context [?f ?s] => lazymatch type of s with wpa_state_machine => rewrite H end
  end.

(** The station a transition leads to, field by field. *)
Ltac entered :=
  unfold initialized, disconnect_entered, disconnected, no_keys, in_state, auth2_entered, drawn, ptkstart_entered,
    clear_pinit, calc_entered, calc2_entered, initneg_entered, done_entered;
  try (unfold done_end, done_entered, in_state);
  wpa_simpl;
  try lazymatch goal with |- context [if bool_decide (wpa _ = _) then _ else _] => case_bool_decide end;
  wpa_simpl.
(** The cases of a transition, its target written out. *)
Ltac cases_of_trans :=
  try match goal with H : pmk_is _ _ _ \/ _ |- _ => destruct H as [?|[? ->] ] end;
  try match goal with H : pmk_is _ _ _ |- _ => destruct H as (? & ? & -> & ?) end;
  try match goal with H : calc_outcome _ _ _ _ _ |- _ => destruct H as [? H|? H|? ? ? H ? ? ?] end;
  try match goal with H : pmk_set _ _ _ |- _ => destruct H as (? & ? & -> & ?) end;
  unfold undisturbed in *; destruct_and?;
  repeat match goal with H : wpa_ptk_state _ = _ \/ _ |- _ => destruct H end; destruct_and?.
