(* ===== verification/WpaLoop.v ===== *)
(** * The WPA authenticator: the loop of [wpa_sm_step]

    The group transitions, a pass of the loop as a relation, and the proof that
    the loop ends: a rank that every change of a state or request lowers. *)

From S2P Require Import Prelude Bytes HashSpec Hmac AesInterface AesWrap AesOmac Rc4.
From S2P Require Import WpaKeys WpaState WpaFrame WpaPsk WpaGroup WpaPtk WpaAuth WpaProofs WpaRun.

(** [calm] but for the group. *)
Record hushed (w w' : world) : Prop := {
  hushed_events : exists new, events w' = new ++ events w /\ Forall (fun e => loud e = false) new;
  hushed_freed : freed w' = freed w;
  hushed_fault : fault w = true -> fault w' = true;
  hushed_rekey : rekey_pending w' = true -> rekey_pending w = true }.
Lemma calm_hushed w w' : calm w w' -> hushed w w'.
Proof. by intros []. Qed.
#[export] Instance hushed_preorder : PreOrder hushed.
Proof.
  split.
  - intros w. by apply calm_hushed.
  - intros w1 w2 w3 [(n & Hn & Fn) Hf Hl Hr] [(n' & Hn' & Fn') Hf' Hl' Hr'].
    split; [|congruence|auto..]. exists (n' ++ n). rewrite Hn', Hn, app_assoc. split; [done|]. by apply Forall_app.
Qed.
Lemma hushed_updg f w : hushed w (updg f w).
Proof. split; [by exists []|done..]. Qed.
Lemma hushed_upd f w : hushed w (upd f w).
Proof. split; [by exists []|done..]. Qed.

Section loop.
Context {C : Crypto} {E : WpaEnv} (CONFIG_SAE : bool) (conf : wpa_auth_config) (psks : psk_config).
Context (hash0 : bytes).
Notation W := world.

(** ** WPA_PTK_GROUP *)

Definition group_received (s : wpa_state_machine) : bool :=
  EAPOLKeyReceived s && negb (EAPOLKeyRequest s) && negb (EAPOLKeyPairwise s) && MICVerified s.
Definition group_requested (s : wpa_state_machine) : bool :=
  GUpdateStationKeys s || (bool_decide (wpa s = WPA_VERSION_WPA) && PInitAKeys s).

Definition gptk_next (s : wpa_state_machine) : wpa_state_machine :=
  if Init s || PtkGroupInit s then (idle_entered s) <| PtkGroupInit := false |>
  else
    match wpa_ptk_group_state s with
    | WPA_PTK_GROUP_IDLE => if group_requested s then rekeyneg_entered conf s else s
    | WPA_PTK_GROUP_REKEYNEGOTIATING =>
      if group_received s then established_entered s
      else if group_limit conf s then keyerror_entered s
      else if TimeoutEvt s then rekeyneg_entered conf s else s
    | WPA_PTK_GROUP_KEYERROR | WPA_PTK_GROUP_REKEYESTABLISHED => idle_entered s
    end.

Lemma reaches_GROUP_Step w : reaches w (gptk_next (sm w)) (sm_WPA_PTK_GROUP_Step CONFIG_SAE conf w).
Proof.
  unfold sm_WPA_PTK_GROUP_Step, gptk_next. cbv zeta. destruct (_ || _).
  { apply (reaches_then_upd w _ _ (set PtkGroupInit (fun _ => false))); [apply reaches_IDLE|done]. }
  destruct (wpa_ptk_group_state (sm w)).
  - unfold group_requested. destruct (_ || _); [apply reaches_REKEYNEGOTIATING|by split].
  - unfold group_received. destruct (_ && MICVerified _); [apply reaches_REKEYESTABLISHED|].
    unfold group_limit. destruct (_ || _); [apply reaches_KEYERROR|].
    destruct (TimeoutEvt _); [apply reaches_REKEYNEGOTIATING|by split].
  - apply reaches_IDLE.
  - apply reaches_IDLE.
Qed.

(** ** The group *)

Definition update_sta (s : wpa_state_machine) : wpa_state_machine :=
  if bool_decide (wpa_ptk_state s = WPA_PTK_PTKINITDONE)
  then if is_wnmsleep s then s else s <| GUpdateStationKeys := true |>
  else s <| GUpdateStationKeys := false |>.

(** On the station, and on the state, [GTKReKey], [GInit] and [changed] of the
    group. *)
Definition gstate : Type := wpa_group_states * bool * bool * bool.
Inductive grp_trans (s : wpa_state_machine) : gstate -> wpa_state_machine -> gstate -> Prop :=
| G_Init st rk ch : grp_trans s (st, rk, true, ch) s (WPA_GROUP_GTK_INIT, rk, true, false)
| G_wait st rk ch : grp_trans s (st, rk, false, ch) s (st, rk, false, ch)
| G_Done st rk ch : st = WPA_GROUP_GTK_INIT \/ st = WPA_GROUP_SETKEYS ->
    grp_trans s (st, rk, false, ch) s (WPA_GROUP_SETKEYSDONE, rk, false, true)
| G_Fail st rk ch : st = WPA_GROUP_GTK_INIT \/ st = WPA_GROUP_SETKEYS ->
    grp_trans s (st, rk, false, ch) (s <| Disconnect := true |>) (WPA_GROUP_FATAL_FAILURE, rk, false, true)
| G_SetKeys st ch : st = WPA_GROUP_SETKEYS \/ st = WPA_GROUP_SETKEYSDONE ->
    grp_trans s (st, true, false, ch) (update_sta s) (WPA_GROUP_SETKEYS, false, false, true).

Definition grp_stepped (w w' : W) : Prop :=
  exists s' g', grp_trans (sm w) (gctl (group w)) s' g' /\ er (sm w') = er s' /\ gctl (group w') = g' /\ hushed w w'.

Lemma gctl_eta g : gctl g = (wpa_group_state g, GTKReKey g, GInit g, group_changed g).
Proof. done. Qed.

Lemma setkeysdone_stepped w :
  GInit (group w) = false ->
  wpa_group_state (group w) = WPA_GROUP_GTK_INIT \/ wpa_group_state (group w) = WPA_GROUP_SETKEYS ->
  grp_stepped w (wpa_group_setkeysdone conf w).
Proof.
  intros Hi Hst. unfold wpa_group_setkeysdone. cbv zeta.
  set (w1 := updg _ w). pose proof (quiet_config_group_keys conf w1) as H1.
  destruct (wpa_group_config_group_keys conf w1) as [r w2]. cbn [snd] in H1.
  assert (E1 : er (sm w2) = er (sm w)) by apply H1.
  assert (E2 : gctl (group w2) = (WPA_GROUP_SETKEYSDONE, GTKReKey (group w), false, true)).
  { rewrite (calm_group _ _ (proj2 H1)). unfold w1. by rewrite <- Hi. }
  assert (E3 : hushed w w2) by (etrans; [apply hushed_updg|apply calm_hushed, H1]).
  unfold grp_stepped. rewrite gctl_eta, Hi. destruct (r <? 0).
  - eexists _, _. split; [by apply G_Fail|]. split; [|split].
    + change (er ((er (sm w2)) <| Disconnect := true |>) = er ((sm w) <| Disconnect := true |>)). by rewrite E1.
    + change ((WPA_GROUP_FATAL_FAILURE, (gctl (group w2)).1.1.2, (gctl (group w2)).1.2, true) =
              (WPA_GROUP_FATAL_FAILURE, GTKReKey (group w), false, true)). by rewrite E2.
    + etrans; [exact E3|]. split; [by exists []|done..].
  - eexists _, _. split; [by apply G_Done|]. by split.
Qed.

(** Inside the loop [wpa_group_update_sta] only marks the station. *)
Lemma update_sta_in_loop w :
  sm (wpa_group_update_sta in_loop w) = update_sta (sm w) /\
  gctl (group (wpa_group_update_sta in_loop w)) = gctl (group w) /\ hushed w (wpa_group_update_sta in_loop w).
Proof.
  unfold wpa_group_update_sta, update_sta. case_bool_decide; cbn [negb].
  - destruct (is_wnmsleep _); [done|]. split; [done|]. split; [done|]. split; [by exists []|done..].
  - split; [done|]. split; [done|apply hushed_upd].
Qed.

(** What [wpa_group_setkeys] does before it marks the station. *)
Lemma setkeys_stepped w :
  GInit (group w) = false -> GTKReKey (group w) = true ->
  wpa_group_state (group w) = WPA_GROUP_SETKEYS \/ wpa_group_state (group w) = WPA_GROUP_SETKEYSDONE ->
  grp_stepped w (wpa_group_setkeys conf in_loop w).
Proof.
  intros Hi Hr Hst. unfold wpa_group_setkeys. cbv zeta.
  match goal with |- context [wpa_gtk_update conf ?x] => set (w1 := x) end.
  pose proof (quiet_gtk_update conf w1) as H1. destruct (wpa_gtk_update conf w1) as [r w2]. cbn [snd] in *.
  match goal with |- grp_stepped w (wpa_group_update_sta in_loop ?x) => set (w3 := x) end.
  destruct (update_sta_in_loop w3) as (S3 & G3 & H3).
  assert (E1 : er (sm w2) = er (sm w)) by apply H1.
  assert (E2 : gctl (group w2) = (WPA_GROUP_SETKEYS, false, false, true)).
  { rewrite (calm_group _ _ (proj2 H1)).
    change ((WPA_GROUP_SETKEYS, false, GInit (group w), true) = (WPA_GROUP_SETKEYS, false, false, true)). by rewrite Hi. }
  unfold grp_stepped. rewrite gctl_eta, Hi, Hr. eexists _, _. split; [by apply G_SetKeys|].
  split; [|split].
  - rewrite S3. change (sm w3) with (sm w2). assert (Hd : respectful update_sta).
    { intros s. unfold update_sta. change (wpa_ptk_state (er s)) with (wpa_ptk_state s).
      change (is_wnmsleep (er s)) with (is_wnmsleep s). case_bool_decide; [|done]. by destruct (is_wnmsleep s). }
    by rewrite Hd, E1, <- Hd.
  - rewrite G3. exact E2.
  - etrans; [|exact H3]. etrans; [|etrans; apply hushed_updg].
    etrans; [|apply calm_hushed, H1]. etrans; apply hushed_updg.
Qed.

Lemma group_step_stepped w : grp_stepped w (wpa_group_sm_step conf in_loop w).
Proof.
  assert (Hself : GInit (group w) = false -> grp_stepped w w).
  { intros Hi. eexists _, _. rewrite gctl_eta, Hi. by split; [apply G_wait|]. }
  unfold wpa_group_sm_step. cbv zeta. destruct (GInit (group w)) eqn:Ei.
  - unfold wpa_group_gtk_init. match goal with |- context [wpa_gtk_update conf ?x] => set (w1 := x) end.
    pose proof (quiet_gtk_update conf w1) as H1.
    eexists _, _. rewrite gctl_eta, Ei. split; [apply G_Init|]. split; [apply H1|]. split.
    + rewrite (calm_group _ _ (proj2 H1)). by rewrite <- Ei.
    + etrans; [apply hushed_updg|apply calm_hushed, H1].
  - destruct (wpa_group_state (group w)) eqn:Est.
    + destruct (GTKAuthenticator _); [apply setkeysdone_stepped; auto|auto].
    + destruct (_ =? _); [apply setkeysdone_stepped; auto|].
      destruct (GTKReKey _) eqn:Er; [apply setkeys_stepped; auto|auto].
    + destruct (GTKReKey _) eqn:Er; [apply setkeys_stepped; auto|auto].
    + auto.
Qed.

(** ** The rank

    What is still to be done, weighted so that every transition lowers the sum:
    a request costs more than the state it leads to.  While [Init] is set only the
    group moves. *)

Definition cost (b : bool) (n : nat) : nat := if b then n else 0.

Definition ptk_cost (st : wpa_ptk_states) : nat :=
  match st with
  | WPA_PTK_INITIALIZE | WPA_PTK_PTKINITDONE => 0
  | WPA_PTK_DISCONNECTED => 1 | WPA_PTK_DISCONNECT => 2
  | WPA_PTK_PTKINITNEGOTIATING | WPA_PTK_PTKSTART => 5
  | WPA_PTK_INITPMK | WPA_PTK_INITPSK => 6
  | WPA_PTK_PTKCALCNEGOTIATING2 => 8 | WPA_PTK_PTKCALCNEGOTIATING => 9
  | WPA_PTK_AUTHENTICATION2 => 12 | WPA_PTK_AUTHENTICATION => 13
  end.
Definition sta_rank (s : wpa_state_machine) : nat :=
  (cost (AuthenticationRequest s) 14 + cost (ReAuthenticationRequest s) 13 + cost (PTKRequest s) 6 +
   cost (Disconnect s) 5 + cost (DeauthenticationRequest s) 2 + cost (TimeoutEvt s) 3 +
   cost (EAPOLKeyReceived s) 7 + cost (update_snonce s) 7 + ptk_cost (wpa_ptk_state s))%nat.

Definition is_rekeying (st : wpa_ptk_group_states) : bool :=
  match st with WPA_PTK_GROUP_REKEYNEGOTIATING => true | _ => false end.
Definition is_wpa (v : wpa_version) : bool := match v with WPA_VERSION_WPA => true | _ => false end.
Definition gptk_cost (st : wpa_ptk_group_states) (limit : bool) : nat :=
  match st with
  | WPA_PTK_GROUP_IDLE => 0 | WPA_PTK_GROUP_REKEYESTABLISHED | WPA_PTK_GROUP_KEYERROR => 1
  | WPA_PTK_GROUP_REKEYNEGOTIATING => if limit then 7 else 8
  end.
Definition gptk_rank (s : wpa_state_machine) : nat :=
  (gptk_cost (wpa_ptk_group_state s) (group_limit conf s) +
   cost (GUpdateStationKeys s && negb (is_rekeying (wpa_ptk_group_state s))) 10 +
   cost (is_wpa (wpa s) && PInitAKeys s) 10 + cost (PtkGroupInit s) 11)%nat.

Definition group_rank (g : gstate) : nat :=
  let '(st, rk, gi, _) := g in
  if gi then 0%nat
  else (match st with WPA_GROUP_GTK_INIT | WPA_GROUP_SETKEYS => 6 | _ => 0 end + cost rk 17)%nat.

Definition rank (s : wpa_state_machine) (g : gstate) : nat :=
  ((if Init s then 0 else sta_rank s + gptk_rank s) + group_rank g)%nat.

Lemma cost_le b n : (cost b n <= n)%nat.
Proof. destruct b; cbn; lia. Qed.
Lemma cost_false n : cost false n = 0%nat.
Proof. done. Qed.
Lemma cost_true n : cost true n = n.
Proof. done. Qed.

Lemma rank_bound s g : (rank s g < STEP_FUEL)%nat.
Proof.
  unfold rank, STEP_FUEL. assert (H1 : (sta_rank s <= 70)%nat).
  { unfold sta_rank. repeat match goal with |- context [cost ?b ?n] =>
      pose proof (cost_le b n); generalize dependent (cost b n); intros end.
    assert (ptk_cost (wpa_ptk_state s) <= 13)%nat by (destruct (wpa_ptk_state s); cbn; lia). lia. }
  assert (H2 : (gptk_rank s <= 32)%nat).
  { unfold gptk_rank. pose proof (cost_le (is_wpa (wpa s) && PInitAKeys s) 10). pose proof (cost_le (PtkGroupInit s) 11).
    destruct (wpa_ptk_group_state s), (GUpdateStationKeys s), (group_limit conf s); cbn [gptk_cost is_rekeying andb negb cost]; lia. }
  assert (H3 : (group_rank g <= 23)%nat).
  { destruct g as [ [ [st rk] gi] ch]. cbn [group_rank]. pose proof (cost_le rk 17). destruct gi; [lia|]. destruct st; lia. }
  destruct (Init s); lia.
Qed.

(** *** Every transition lowers it *)

Definition nonces_available : Prop := forall ev b, random_get_bytes ev R_ANonce WPA_NONCE_LEN <> (false, b).

Lemma received_pairwise s : pairwise_received s = true -> EAPOLKeyReceived s = true.
Proof. unfold pairwise_received. by destruct (EAPOLKeyReceived s). Qed.
Lemma clear_pinit_le s n :
  (cost (is_wpa (wpa s) && (PInitAKeys s && negb (bool_decide (wpa s = WPA_VERSION_WPA)))) n <=
   cost (is_wpa (wpa s) && PInitAKeys s) n)%nat.
Proof. case_bool_decide as E1; cbn [negb]; [|by rewrite andb_true_r]. rewrite !andb_false_r. cbn [cost]. lia. Qed.

Lemma ptk_rank s l s' :
  nonces_available -> ptk_trans CONFIG_SAE conf psks s l s' -> Init s = false ->
  Init s' = false /\
  ((s' = s /\ undisturbed s /\ ptk_waits conf s = true) \/ (sta_rank s' + gptk_rank s' < sta_rank s + gptk_rank s)%nat).
Proof.
  intros Hn Ht Hi. pose proof (received_pairwise s) as Hrx. pose proof (clear_pinit_le s 10) as Hp.
  destruct Ht; try (destruct ok; [|exfalso; by eapply Hn]); try (exfalso; by eapply Hn); try congruence; try (split; [exact Hi|by left]).
  all: split; [try match goal with H : pmk_is _ _ _ \/ _ |- _ => destruct H as [?|[_ ->] ] end|right].
  all: cases_of_trans; try specialize (Hrx ltac:(assumption)).
  all: unfold sta_rank, gptk_rank, group_limit; entered; try exact Hi.
  all: known_fields; cbn [ptk_cost andb negb is_wpa] in *; rewrite ?cost_false, ?cost_true; lia.
Qed.

(** In IDLE no group message has been sent; [wpa_group_update_count] is positive. *)
Definition idle_fresh (s : wpa_state_machine) : Prop :=
  wpa_ptk_group_state s = WPA_PTK_GROUP_IDLE -> GTimeoutCtr s = 0.

Lemma group_limit_fresh s : 1 <= wpa_group_update_count conf -> GTimeoutCtr s = 1 -> group_limit conf s = false.
Proof.
  intros Hc H1. unfold group_limit. rewrite H1. change (1 <? 1) with false. rewrite andb_false_r, orb_false_r.
  by apply Z.ltb_ge.
Qed.

Lemma gptk_next_spec s :
  1 <= wpa_group_update_count conf -> idle_fresh s -> Init s = false ->
  Init (gptk_next s) = false /\ idle_fresh (gptk_next s) /\
  (gptk_next s = s \/ (sta_rank (gptk_next s) + gptk_rank (gptk_next s) < sta_rank s + gptk_rank s)%nat).
Proof.
  intros Hc Hf Hi. unfold gptk_next. rewrite Hi. cbn [orb]. pose proof (clear_pinit_le s 10) as Hp.
  assert (Hrx : group_received s = true -> EAPOLKeyReceived s = true) by
    (unfold group_received; by destruct (EAPOLKeyReceived s)).
  destruct (PtkGroupInit s) eqn:Ep.
  { split; [exact Hi|]. split; [done|]. right. unfold idle_entered, sta_rank, gptk_rank. wpa_simpl.
    rewrite Ep. cbn [gptk_cost is_rekeying negb]. rewrite andb_true_r, cost_false, cost_true.
    destruct (wpa_ptk_group_state s), (GUpdateStationKeys s), (group_limit conf s); cbn [gptk_cost is_rekeying andb negb cost]; lia. }
  destruct (wpa_ptk_group_state s) eqn:Eg.
  - destruct (group_requested s) eqn:Er; [|split; [done|]; split; [done|by left] ].
    unfold rekeyneg_entered. cbv zeta. rewrite group_limit_fresh; [|done|by unfold in_group_state; wpa_simpl; rewrite Hf].
    split; [exact Hi|]. split; [by unfold idle_fresh|]. right.
    match goal with |- context [gptk_rank ?x] => assert (El : group_limit conf x = false) by
      (apply group_limit_fresh; [done|]; unfold in_group_state, clear_pinit; wpa_simpl; by rewrite Hf) end.
    unfold gptk_rank. rewrite El. unfold sta_rank, clear_pinit, in_group_state. wpa_simpl. rewrite Eg, Ep.
    cbn [gptk_cost is_rekeying negb]. rewrite andb_false_r, andb_true_r, !cost_false.
    unfold group_requested in Er. destruct (GUpdateStationKeys s); [rewrite cost_true; lia|].
    cbn [orb] in Er. apply andb_true_iff in Er as [Ew%bool_decide_eq_true_1 Ei]. rewrite Ew, Ei.
    rewrite (bool_decide_eq_true_2 (WPA_VERSION_WPA = WPA_VERSION_WPA)) by done. cbn [is_wpa andb negb cost]. lia.
  - destruct (group_received s) eqn:Er; [|destruct (group_limit conf s) eqn:El; [|destruct (TimeoutEvt s) eqn:Et] ].
    + split; [exact Hi|]. split; [by unfold idle_fresh|]. right. unfold established_entered, gptk_rank, sta_rank, in_group_state. wpa_simpl.
      rewrite Eg, Ep, (Hrx eq_refl). cbn [gptk_cost is_rekeying negb andb]. rewrite andb_false_r, !cost_false, !cost_true.
      destruct (group_limit conf s); lia.
    + split; [exact Hi|]. split; [by unfold idle_fresh|]. right. unfold keyerror_entered, gptk_rank, sta_rank, in_group_state. wpa_simpl.
      rewrite Eg, Ep, El. cbn [gptk_cost is_rekeying negb andb]. rewrite andb_false_r, !cost_false, !cost_true.
      lia.
    + unfold rekeyneg_entered. cbv zeta.
      match goal with |- context [if group_limit conf ?x then _ else _] => set (s1 := x) end.
      assert (Hx : group_limit conf ((clear_pinit s1) <| TimeoutEvt := false |>) = group_limit conf s1) by done.
      destruct (group_limit conf s1) eqn:El1; (split; [exact Hi|]; split; [by unfold idle_fresh|]; right);
        unfold gptk_rank; rewrite ?Hx, ?El1; unfold s1, sta_rank, clear_pinit, in_group_state; wpa_simpl;
        rewrite Eg, El, Ep, Et; cbn [gptk_cost is_rekeying negb andb]; rewrite andb_false_r, ?cost_false, ?cost_true; lia.
    + split; [done|]. split; [done|by left].
  - split; [exact Hi|]. split; [by unfold idle_fresh|]. right. unfold idle_entered, gptk_rank, sta_rank. wpa_simpl.
    rewrite Eg, Ep. cbn [gptk_cost is_rekeying negb andb]. lia.
  - split; [exact Hi|]. split; [by unfold idle_fresh|]. right. unfold idle_entered, gptk_rank, sta_rank. wpa_simpl.
    rewrite Eg, Ep. cbn [gptk_cost is_rekeying negb andb]. lia.
Qed.

Lemma grp_trans_rank s g s' g' :
  grp_trans s g s' g' ->
  Init s' = Init s /\ changed s' = changed s /\ (idle_fresh s -> idle_fresh s') /\ (rank s' g' <= rank s g)%nat /\
  ((s' = s /\ (g' = g \/ g'.2 = false)) \/ (rank s' g' < rank s g)%nat).
Proof.
  intros Ht. destruct Ht as [st rk ch|st rk ch|st rk ch Hst|st rk ch Hst|st ch Hst].
  - split; [done|]. split; [done|]. split; [done|]. split; [done|]. left. split; [done|by right].
  - split; [done|]. split; [done|]. split; [done|]. split; [done|]. left. split; [done|by left].
  - split; [done|]. split; [done|]. split; [done|].
    assert (H : (rank s (WPA_GROUP_SETKEYSDONE, rk, false, true) < rank s (st, rk, false, ch))%nat) by
      (unfold rank, group_rank; destruct Hst as [-> | ->]; lia).
    split; [lia|by right].
  - split; [done|]. split; [done|]. split; [done|].
    match goal with |- (?a <= ?b)%nat /\ _ => assert (H : (a < b)%nat) end.
    { unfold rank, group_rank, sta_rank, gptk_rank, group_limit. wpa_simpl.
      pose proof (cost_le (Disconnect s) 5). rewrite cost_true. destruct Hst as [-> | ->], (Init s); lia. }
    split; [lia|by right].
  - assert (Hk : Init (update_sta s) = Init s /\ changed (update_sta s) = changed s /\
      wpa_ptk_group_state (update_sta s) = wpa_ptk_group_state s /\ GTimeoutCtr (update_sta s) = GTimeoutCtr s /\
      sta_rank (update_sta s) = sta_rank s /\ (gptk_rank (update_sta s) <= gptk_rank s + 10)%nat).
    { assert (Hg : forall b, (gptk_rank (s <| GUpdateStationKeys := b |>) <= gptk_rank s + 10)%nat).
      { intros b. unfold gptk_rank, group_limit. wpa_simpl.
        pose proof (cost_le (b && negb (is_rekeying (wpa_ptk_group_state s))) 10). lia. }
      unfold update_sta. case_bool_decide; [destruct (is_wnmsleep s)|]; (split; [done|]); (split; [done|]);
        (split; [done|]); (split; [done|]); (split; [done|]); [lia|apply Hg..]. }
    destruct Hk as (H1 & H2 & H3 & H4 & H5 & H6). split; [done|]. split; [done|].
    split; [by unfold idle_fresh; rewrite H3, H4|].
    match goal with |- (?a <= ?b)%nat /\ _ => assert (H : (a < b)%nat) end.
    { unfold rank, group_rank. rewrite H1, H5, cost_true, cost_false. destruct Hst as [-> | ->], (Init s); lia. }
    split; [lia|by right].
Qed.

(** *** What no transition changes *)

Definition kept (s : wpa_state_machine) :=
  (Init s, in_step_loop s, pending_deinit s, addr s, p2p_dev_addr s, wpa s, pairwise s, wpa_key_mgmt s, pmksa s, started s,
   last_rx_eapol_key s).

Lemma ptk_trans_kept s l s' : ptk_trans CONFIG_SAE conf psks s l s' -> kept s' = kept s.
Proof.
  destruct 1; cases_of_trans; try (destruct ok); unfold done_end; try (destruct (bool_decide _)); reflexivity.
Qed.
Lemma gptk_next_kept s : kept (gptk_next s) = kept s.
Proof.
  assert (H : kept (rekeyneg_entered conf s) = kept s).
  { unfold rekeyneg_entered. cbv zeta. by destruct (group_limit conf _). }
  unfold gptk_next. destruct (_ || _); [done|]. destruct (wpa_ptk_group_state s); [destruct (group_requested s)| |..]; try done.
  destruct (group_received s); [done|]. destruct (group_limit conf s); [done|]. by destruct (TimeoutEvt s).
Qed.
Lemma grp_trans_kept s g s' g' : grp_trans s g s' g' -> kept s' = kept s.
Proof. destruct 1; try done. unfold update_sta. case_bool_decide; [by destruct (is_wnmsleep s)|done]. Qed.

(** A transition marks the station as changed, or leaves it alone. *)
Lemma ptk_trans_changed s l s' :
  ptk_trans CONFIG_SAE conf psks s l s' -> Init s = false -> changed s' = false ->
  s' = s /\ undisturbed s /\ ptk_waits conf s = true.
Proof.
  intros Ht Hi Hc.
  assert (H : (s' = s /\ undisturbed s /\ ptk_waits conf s = true) \/ changed s' = true).
  { clear Hc. destruct Ht; try congruence; try (left; split; [reflexivity|by split]); right;
      cases_of_trans; try (destruct ok); entered; known_fields; reflexivity. }
  destruct H; [done|congruence].
Qed.
Lemma gptk_next_changed s : Init s = false -> changed (gptk_next s) = false -> gptk_next s = s.
Proof.
  intros Hi. assert (H : changed (rekeyneg_entered conf s) = true).
  { unfold rekeyneg_entered. cbv zeta. by destruct (group_limit conf _). }
  unfold gptk_next. rewrite Hi. cbn [orb]. assert (H' : changed (idle_entered s) = true) by (unfold idle_entered; wpa_simpl; by rewrite Hi).
  destruct (PtkGroupInit s); [change (changed (idle_entered s) = false -> (idle_entered s) <| PtkGroupInit := false |> = s); congruence|].
  destruct (wpa_ptk_group_state s); [destruct (group_requested s)| |..]; try done; try congruence.
  destruct (group_received s); [done|]. destruct (group_limit conf s); [done|]. destruct (TimeoutEvt s); [congruence|done].
Qed.

(** ** A pass *)

Definition looping (w : W) : Prop := in_step_loop (sm w) = true /\ pending_deinit (sm w) = false.
(** The flags [changed] cleared. *)
Definition cleared (w : W) : W :=
  updg (fun g => g <| group_changed := false |>) (upd (fun s => s <| changed := false |>) w).

Lemma looping_kept w w' : kept (sm w') = kept (sm w) -> looping w -> looping w'.
Proof.
  unfold kept, looping. intros H [H1 H2].
  assert (in_step_loop (sm w') = in_step_loop (sm w)) by congruence.
  assert (pending_deinit (sm w') = pending_deinit (sm w)) by congruence. split; congruence.
Qed.
Lemma kept_er s s' : er s' = er s -> kept s' = kept s.
Proof. intros H. change (kept (er s') = kept (er s)). by rewrite H. Qed.

(** The three parts of a pass. *)
Lemma step_pass_cases w :
  looping w -> exists w1 w2 w3,
    ptk_stepped CONFIG_SAE conf psks (cleared w) w1 /\ reaches w1 (gptk_next (sm w1)) w2 /\ grp_stepped w2 w3 /\
    looping w3 /\ step_pass CONFIG_SAE conf psks hash0 w = (false, w3).
Proof.
  intros Hl. unfold step_pass. cbv zeta. change (updg _ (upd _ w)) with (cleared w).
  assert (H0 : looping (cleared w)) by exact Hl.
  pose proof (ptk_step_stepped CONFIG_SAE conf psks hash0 (cleared w) (proj1 H0)) as H1.
  set (w1 := sm_WPA_PTK_Step _ _ _ _ _) in *. clearbody w1.
  assert (L1 : looping w1).
  { destruct H1 as (l & s' & Ht & Hs & _). eapply looping_kept; [|exact H0].
    rewrite (kept_er _ _ Hs). by eapply ptk_trans_kept. }
  rewrite (proj2 L1). pose proof (reaches_GROUP_Step w1) as H2.
  set (w2 := sm_WPA_PTK_GROUP_Step _ _ _) in *. clearbody w2.
  assert (L2 : looping w2).
  { eapply looping_kept; [|exact L1]. rewrite (kept_er _ _ (proj1 H2)). apply gptk_next_kept. }
  rewrite (proj2 L2). pose proof (group_step_stepped w2) as H3.
  set (w3 := wpa_group_sm_step _ _ _) in *. clearbody w3. exists w1, w2, w3. split; [done|]. split; [done|]. split; [done|].
  split; [|done]. destruct H3 as (s' & g' & Ht & Hs & _). eapply looping_kept; [|exact L2].
  rewrite (kept_er _ _ Hs). by eapply grp_trans_kept.
Qed.

Definition settled (w : W) : Prop := changed (sm w) = false /\ group_changed (group w) = false.
Definition world_rank (w : W) : nat := rank (sm w) (gctl (group w)).
Definition fresh_unless_init (s : wpa_state_machine) : Prop := Init s = false -> idle_fresh s.

Lemma rank_er s s' g : er s' = er s -> rank s' g = rank s g.
Proof. intros H. change (rank (er s') g = rank (er s) g). by rewrite H. Qed.
Lemma fresh_er s s' : er s' = er s -> fresh_unless_init s -> fresh_unless_init s'.
Proof. intros H. change (fresh_unless_init s -> fresh_unless_init (er s')). by rewrite H. Qed.
Lemma label_gctl l s' w w' :
  ptk_trans CONFIG_SAE conf psks (sm w) l s' -> label_events l w w' -> gctl (group w') = gctl (group w).
Proof.
  destruct l; cbn [label_events].
  - intros _ H. apply H.
  - intros _ (w1 & H1 & H2). rewrite (calm_group _ _ H2). apply H1.
  - intros _ H. apply H.
  - intros _ H. apply H.
Qed.

Lemma idle_fresh_er s s' : er s' = er s -> idle_fresh s -> idle_fresh s'.
Proof. intros H. change (idle_fresh s -> idle_fresh (er s')). by rewrite H. Qed.
Lemma ptk_trans_fresh s l s' : ptk_trans CONFIG_SAE conf psks s l s' -> idle_fresh s -> idle_fresh s'.
Proof.
  intros Ht Hf. assert (H : (wpa_ptk_group_state s', GTimeoutCtr s') = (wpa_ptk_group_state s, GTimeoutCtr s)).
  { destruct Ht; cases_of_trans; try (destruct ok); unfold done_end; try (destruct (bool_decide _)); reflexivity. }
  injection H as H1 H2. unfold idle_fresh. by rewrite H1, H2.
Qed.

Lemma step_pass_rank w w' :
  nonces_available -> 1 <= wpa_group_update_count conf -> looping w -> fresh_unless_init (sm w) ->
  step_pass CONFIG_SAE conf psks hash0 w = (false, w') ->
  fresh_unless_init (sm w') /\ (settled w' \/ (world_rank w' < world_rank w)%nat).
Proof.
  intros Hn Hc Hl Hf Hp. destruct (step_pass_cases w Hl) as (w1 & w2 & w3 & H1 & H2 & H3 & _ & Hp').
  rewrite Hp in Hp'. injection Hp' as ->.
  destruct H1 as (l & s1 & Ht1 & Es1 & He1). destruct H2 as [Es2 C2]. destruct H3 as (s3 & g3 & Ht3 & Es3 & Eg3 & _).
  assert (Eg1 : gctl (group w1) = gctl (group (cleared w))) by (by eapply label_gctl).
  assert (Eg2 : gctl (group w2) = gctl (group (cleared w))) by (rewrite (calm_group _ _ C2); exact Eg1).
  assert (Er : forall s', er (sm w3) = er s' -> world_rank w3 = rank s' g3).
  { intros s' H. unfold world_rank. rewrite Eg3. by apply rank_er. }
  assert (E0 : world_rank w = rank (sm (cleared w)) (gctl (group (cleared w)))) by done.
  assert (Hg0 : (gctl (group (cleared w))).2 = false) by done.
  assert (Hgc : g3 = gctl (group (cleared w)) \/ g3.2 = false -> group_changed (group w3) = false).
  { rewrite <- Eg3. intros [H|H]; [|exact H]. change ((gctl (group w3)).2 = false). by rewrite H. }
  assert (Ec3 : changed s3 = false -> changed (sm w3) = false).
  { intros H. change (changed (er (sm w3)) = false). rewrite Es3. exact H. }
  pose proof (grp_trans_rank _ _ _ _ Ht3) as (I3 & Ch3 & F3 & R3 & D3). rewrite Eg2 in R3, D3.
  rewrite E0, (Er s3) by done. rewrite (rank_er _ _ _ Es2) in R3, D3.
  assert (Ec2 : changed (sm w2) = changed (gptk_next (sm w1))) by (change (changed (er (sm w2)) = changed (gptk_next (sm w1))); by rewrite Es2).
  destruct (Init (sm (cleared w))) eqn:Ei.
  - assert (Hk : Init (sm w1) = true) by (pose proof (ptk_trans_kept _ _ _ Ht1) as K; rewrite <- (kept_er _ _ Es1) in K; unfold kept in K; congruence).
    assert (Hk2 : Init (gptk_next (sm w1)) = true) by (pose proof (gptk_next_kept (sm w1)) as K; unfold kept in K; congruence).
    assert (Hk3 : Init (sm w3) = true) by (change (Init (er (sm w3)) = true); rewrite Es3; change (Init s3 = true); rewrite I3;
      change (Init (er (sm w2)) = true); by rewrite Es2).
    split; [unfold fresh_unless_init; congruence|]. unfold rank in R3, D3 |- *. rewrite Hk2 in R3, D3. rewrite Ei.
    destruct D3 as [ [-> D3]|D3]; [|by right]. left. split; [|by apply Hgc].
    apply Ec3. rewrite Ec2. unfold gptk_next. rewrite Hk. cbn [orb]. unfold idle_entered. wpa_simpl. by rewrite Hk.
  - assert (F0 : idle_fresh (sm (cleared w))) by (by apply Hf).
    destruct (ptk_rank _ _ _ Hn Ht1 Ei) as [I1 R1].
    assert (F1 : idle_fresh (sm w1)) by (eapply idle_fresh_er; [exact Es1|]; by eapply ptk_trans_fresh).
    assert (I1' : Init (sm w1) = false) by (change (Init (er (sm w1)) = false); rewrite Es1; exact I1).
    destruct (gptk_next_spec (sm w1) Hc F1 I1') as (I2 & F2 & R2).
    split. { exact (fun _ => idle_fresh_er _ _ Es3 (F3 (idle_fresh_er _ _ Es2 F2))). }
    set (g0 := gctl (group (cleared w))) in *.
    assert (Es : sta_rank (sm w1) = sta_rank s1 /\ gptk_rank (sm w1) = gptk_rank s1).
    { split; [change (sta_rank (er (sm w1)) = sta_rank s1)|change (gptk_rank (er (sm w1)) = gptk_rank s1)]; by rewrite Es1. }
    assert (Rd : rank (gptk_next (sm w1)) g0 <> rank (sm (cleared w)) g0 -> (rank (gptk_next (sm w1)) g0 < rank (sm (cleared w)) g0)%nat).
    { unfold rank. rewrite I2, Ei. destruct Es. destruct R1 as [ [-> _]|R1], R2 as [R2|R2]; rewrite ?R2; lia. }
    assert (Rl : (rank (gptk_next (sm w1)) g0 <= rank (sm (cleared w)) g0)%nat) by lia.
    destruct D3 as [ [-> D3]|D3]; [|right; lia].
    destruct (decide (rank (gptk_next (sm w1)) g0 = rank (sm (cleared w)) g0)) as [Re|Re]; [|right; lia].
    unfold rank in Re. rewrite I2, Ei in Re. destruct Es.
    destruct R2 as [R2|R2]; [|destruct R1 as [ [-> _]|R1]; lia]. rewrite R2 in Re.
    destruct R1 as [ [-> _]|R1]; [|lia]. left. split; [|by apply Hgc]. apply Ec3. rewrite Ec2, R2.
    change (changed (er (sm w1)) = false). by rewrite Es1.
Qed.

(** A pass that changes nothing leaves the station waiting. *)
Lemma step_pass_settled w w' :
  looping w -> Init (sm w) = false -> step_pass CONFIG_SAE conf psks hash0 w = (false, w') -> settled w' ->
  undisturbed (sm w') /\ ptk_waits conf (sm w') = true.
Proof.
  intros Hl Hi Hp [Hc Hg]. destruct (step_pass_cases w Hl) as (w1 & w2 & w3 & H1 & H2 & H3 & _ & Hp').
  rewrite Hp in Hp'. injection Hp' as ->.
  destruct H1 as (l & s1 & Ht1 & Es1 & _). destruct H2 as [Es2 _]. destruct H3 as (s3 & g3 & Ht3 & Es3 & Eg3 & _).
  assert (I1 : Init (sm w1) = false).
  { pose proof (ptk_trans_kept _ _ _ Ht1) as K. rewrite <- (kept_er _ _ Es1) in K. unfold kept in K.
    change (Init (sm (cleared w))) with (Init (sm w)) in K. congruence. }
  assert (X : er (sm w3) = er (sm w2)).
  { rewrite Es3. assert (Hg' : g3.2 = false) by (by rewrite <- Eg3). clear - Ht3 Hg'. by destruct Ht3. }
  assert (C2 : changed (gptk_next (sm w1)) = false).
  { change (changed (er (gptk_next (sm w1))) = false). rewrite <- Es2, <- X. exact Hc. }
  pose proof (gptk_next_changed _ I1 C2) as G1. rewrite G1 in *.
  assert (C1 : changed s1 = false) by (change (changed (er s1) = false); rewrite <- Es1; exact C2).
  destruct (ptk_trans_changed _ _ _ Ht1 Hi C1) as (-> & Hu & Hw).
  assert (Ef : er (sm w3) = er (sm (cleared w))) by (by rewrite X, Es2, Es1).
  change (undisturbed (er (sm w3)) /\ ptk_waits conf (er (sm w3)) = true). rewrite Ef. by split.
Qed.

(** While [Init] is set, a pass leaves the station in INITIALIZE. *)
Lemma step_pass_init w w' :
  looping w -> Init (sm w) = true -> step_pass CONFIG_SAE conf psks hash0 w = (false, w') ->
  wpa_ptk_state (sm w') = WPA_PTK_INITIALIZE /\ PTK_valid (sm w') = false /\ idle_fresh (sm w').
Proof.
  intros Hl Hi Hp. destruct (step_pass_cases w Hl) as (w1 & w2 & w3 & H1 & H2 & H3 & _ & Hp').
  rewrite Hp in Hp'. injection Hp' as ->.
  destruct H1 as (l & s1 & Ht1 & Es1 & _). destruct H2 as [Es2 _]. destruct H3 as (s3 & g3 & Ht3 & Es3 & _).
  change (Init (sm w)) with (Init (sm (cleared w))) in Hi.
  assert (K1 : Init s1 = true /\ wpa_ptk_state s1 = WPA_PTK_INITIALIZE /\ PTK_valid s1 = false).
  { destruct Ht1; unfold undisturbed in *; destruct_and?; try congruence. by split. }
  assert (K1' : Init (sm w1) = true /\ wpa_ptk_state (sm w1) = WPA_PTK_INITIALIZE /\ PTK_valid (sm w1) = false).
  { change (Init (er (sm w1)) = true /\ wpa_ptk_state (er (sm w1)) = WPA_PTK_INITIALIZE /\ PTK_valid (er (sm w1)) = false).
    by rewrite Es1. }
  destruct K1' as (I1 & S1 & V1).
  assert (K2 : wpa_ptk_state (sm w2) = WPA_PTK_INITIALIZE /\ PTK_valid (sm w2) = false /\ GTimeoutCtr (sm w2) = 0).
  { change (wpa_ptk_state (er (sm w2)) = WPA_PTK_INITIALIZE /\ PTK_valid (er (sm w2)) = false /\ GTimeoutCtr (er (sm w2)) = 0).
    rewrite Es2. unfold gptk_next. rewrite I1. cbn [orb]. by split. }
  assert (K3 : wpa_ptk_state s3 = WPA_PTK_INITIALIZE /\ PTK_valid s3 = false /\ GTimeoutCtr s3 = 0).
  { destruct Ht3; try done. unfold update_sta. case_bool_decide; [by destruct (is_wnmsleep _)|done]. }
  change (wpa_ptk_state (er (sm w3)) = WPA_PTK_INITIALIZE /\ PTK_valid (er (sm w3)) = false /\ idle_fresh (er (sm w3))).
  rewrite Es3. destruct K3 as (? & ? & ?). split; [done|]. split; [done|]. by intros _.
Qed.

(** *** The loop *)

Lemma ptk_loop_ends n w :
  nonces_available -> 1 <= wpa_group_update_count conf -> looping w -> fresh_unless_init (sm w) -> (world_rank w < n)%nat ->
  settled (step_loop CONFIG_SAE conf psks hash0 n w) /\ fresh_unless_init (sm (step_loop CONFIG_SAE conf psks hash0 n w)) /\
  (exists w0, looping w0 /\ Init (sm w0) = Init (sm w) /\
     step_pass CONFIG_SAE conf psks hash0 w0 = (false, step_loop CONFIG_SAE conf psks hash0 n w)) /\
  forall m, (n <= m)%nat -> step_loop CONFIG_SAE conf psks hash0 m w = step_loop CONFIG_SAE conf psks hash0 n w.
Proof.
  intros Hn Hc. revert w. induction n as [|n IH]; intros w Hl Hf Hr; [lia|]. cbn [step_loop]. rewrite (proj2 Hl).
  destruct (step_pass_cases w Hl) as (w1 & w2 & w3 & H1 & H2 & H3 & L3 & Hp).
  destruct (step_pass_rank w w3 Hn Hc Hl Hf Hp) as [F3 R3].
  assert (I3 : Init (sm w3) = Init (sm w)).
  { destruct H1 as (l & s1 & Ht1 & Es1 & _). destruct H2 as [Es2 _]. destruct H3 as (s3 & g3 & Ht3 & Es3 & _).
    pose proof (ptk_trans_kept _ _ _ Ht1) as K1. rewrite <- (kept_er _ _ Es1) in K1.
    pose proof (gptk_next_kept (sm w1)) as K2. rewrite <- (kept_er _ _ Es2) in K2.
    pose proof (grp_trans_kept _ _ _ _ Ht3) as K3. rewrite <- (kept_er _ _ Es3) in K3.
    change (Init (sm w)) with (Init (sm (cleared w))). unfold kept in *. congruence. }
  assert (Hm : forall m, (S n <= m)%nat -> exists m', m = S m' /\ (n <= m')%nat) by (intros [|m] ?; [lia|exists m; split; [done|lia] ]).
  rewrite Hp. destruct (changed (sm w3) || group_changed (group w3)) eqn:Ech.
  - assert (Hr3 : (world_rank w3 < n)%nat).
    { destruct R3 as [ [E1 E2]|R3]; [rewrite E1, E2 in Ech; done|lia]. }
    destruct (IH w3 L3 F3 Hr3) as (S3 & Fn & (w0 & L0 & I0 & P0) & M3). split; [done|]. split; [done|]. split.
    + exists w0. by rewrite I0.
    + intros m Hle. destruct (Hm m Hle) as (m' & -> & Hle'). cbn [step_loop]. rewrite (proj2 Hl), Hp, Ech. auto.
  - apply orb_false_iff in Ech as [E1 E2]. split; [by split|]. split; [done|]. split; [by exists w|].
    intros m Hle. destruct (Hm m Hle) as (m' & -> & _). cbn [step_loop]. by rewrite (proj2 Hl), Hp, E1, E2.
Qed.

(** When no nonce can be drawn, a request for a new PTK is never served: the
    loop disconnects the station over and over. *)
Definition nonces_exhausted : Prop := forall ev, (random_get_bytes ev R_ANonce WPA_NONCE_LEN).1 = false.

Lemma ptk_trans_exhausted s l s' :
  nonces_exhausted -> ptk_trans CONFIG_SAE conf psks s l s' -> Init s = false -> PTKRequest s = true ->
  changed s' = true /\ PTKRequest s' = true.
Proof.
  intros Hx Ht Hi Hr.
  assert (Hno : forall ok ev b, random_get_bytes ev R_ANonce WPA_NONCE_LEN = (ok, b) -> ok = false).
  { intros ok ev b Hb. specialize (Hx ev). by rewrite Hb in Hx. }
  assert (Hu : ~ undisturbed s) by (unfold undisturbed; rewrite Hr; by intros (? & ? & ? & ? & ? & ?)).
  destruct Ht; try done; try congruence.
  - apply Hno in H4 as ->. by split.
  - apply Hno in H5. done.
Qed.

Lemma step_loop_endless n w :
  nonces_exhausted -> looping w -> Init (sm w) = false -> PTKRequest (sm w) = true -> (0 < n)%nat ->
  changed (sm (step_loop CONFIG_SAE conf psks hash0 n w)) = true.
Proof.
  intros Hx. revert w. induction n as [|n IH]; intros w Hl Hi Hr H0; [lia|]. cbn [step_loop]. rewrite (proj2 Hl).
  destruct (step_pass_cases w Hl) as (w1 & w2 & w3 & H1 & H2 & H3 & L3 & Hp). rewrite Hp.
  destruct H1 as (l & s1 & Ht1 & Es1 & _). destruct H2 as [Es2 _]. destruct H3 as (s3 & g3 & Ht3 & Es3 & _).
  destruct (ptk_trans_exhausted _ _ _ Hx Ht1 Hi Hr) as [C1 R1].
  assert (I1 : Init s1 = false).
  { pose proof (ptk_trans_kept _ _ _ Ht1) as K. unfold kept in K. change (Init (sm (cleared w))) with (Init (sm w)) in K. congruence. }
  assert (K1 : Init (sm w1) = false /\ changed (sm w1) = true /\ PTKRequest (sm w1) = true).
  { change (Init (er (sm w1)) = false /\ changed (er (sm w1)) = true /\ PTKRequest (er (sm w1)) = true). by rewrite Es1. }
  destruct K1 as (I1' & C1' & R1').
  assert (K2 : Init (gptk_next (sm w1)) = false /\ changed (gptk_next (sm w1)) = true /\ PTKRequest (gptk_next (sm w1)) = true).
  { unfold gptk_next. rewrite I1'. cbn [orb].
    assert (Hre : forall s, Init s = false -> PTKRequest s = true ->
      Init (rekeyneg_entered conf s) = false /\ changed (rekeyneg_entered conf s) = true /\ PTKRequest (rekeyneg_entered conf s) = true).
    { intros s ??. unfold rekeyneg_entered. cbv zeta. by destruct (group_limit conf _). }
    assert (Hid : forall s, Init s = false -> PTKRequest s = true ->
      Init (idle_entered s) = false /\ changed (idle_entered s) = true /\ PTKRequest (idle_entered s) = true).
    { intros s Hs ?. unfold idle_entered. wpa_simpl. by rewrite Hs. }
    destruct (PtkGroupInit _); [by apply Hid|]. destruct (wpa_ptk_group_state _); [destruct (group_requested _)| |..]; auto.
    destruct (group_received _); [done|]. destruct (group_limit _ _); [done|]. destruct (TimeoutEvt _); auto. }
  assert (K2' : Init (sm w2) = false /\ changed (sm w2) = true /\ PTKRequest (sm w2) = true).
  { change (Init (er (sm w2)) = false /\ changed (er (sm w2)) = true /\ PTKRequest (er (sm w2)) = true). by rewrite Es2. }
  assert (K3 : Init s3 = false /\ changed s3 = true /\ PTKRequest s3 = true).
  { destruct Ht3; try done. unfold update_sta. case_bool_decide; [by destruct (is_wnmsleep _)|done]. }
  assert (K3' : Init (sm w3) = false /\ changed (sm w3) = true /\ PTKRequest (sm w3) = true).
  { change (Init (er (sm w3)) = false /\ changed (er (sm w3)) = true /\ PTKRequest (er (sm w3)) = true). by rewrite Es3. }
  destruct K3' as (I3 & C3 & R3). rewrite C3. cbn [orb].
  destruct n as [|n]; [exact C3|]. apply IH; [done..|lia].
Qed.

(** ** Invariants of the loop *)

(** What holds at every point of a pass. *)
Record stable (P : W -> Prop) : Prop := {
  stable_clear : forall w, P w -> P (cleared w);
  stable_ptk : forall w w', P w -> ptk_stepped CONFIG_SAE conf psks w w' -> P w';
  stable_gptk : forall w w', P w -> reaches w (gptk_next (sm w)) w' -> P w';
  stable_grp : forall w w', P w -> grp_stepped w w' -> P w' }.

Lemma step_loop_stable P n w : stable P -> looping w -> P w -> P (step_loop CONFIG_SAE conf psks hash0 n w) /\
  looping (step_loop CONFIG_SAE conf psks hash0 n w).
Proof.
  intros HP. revert w. induction n as [|n IH]; intros w Hl Hw; [done|]. cbn [step_loop]. rewrite (proj2 Hl).
  destruct (step_pass_cases w Hl) as (w1 & w2 & w3 & H1 & H2 & H3 & L3 & ->).
  assert (Hw3 : P w3).
  { eapply (stable_grp P HP); [|exact H3]. eapply (stable_gptk P HP); [|exact H2]. eapply (stable_ptk P HP); [|exact H1].
    by apply (stable_clear P HP). }
  destruct (_ || _); [by apply IH|done].
Qed.
End loop.
