(* ===== verification/WpaInv.v ===== *)
(** * The WPA authenticator: invariants of the handshake

    What the transitions keep true of the nonces, the PMK, the PTK and the frame
    that is being processed; and the justification of the two events that matter,
    the installation of a key and the opening of the port. *)

From S2P Require Import Prelude Bytes HashSpec Hmac AesInterface AesWrap AesOmac Rc4.
From S2P Require Import WpaKeys WpaState WpaFrame WpaPsk WpaGroup WpaPtk WpaAuth WpaProofs WpaRun WpaLoop.

(** ** Nonces *)

(** The nonces drawn since a key was installed last. *)
Fixpoint nonces_since_install (l : list event) : list bytes :=
  match l with
  | [] => []
  | e :: l =>
    if is_install e then []
    else match e with Random R_ANonce true b => b :: nonces_since_install l | _ => nonces_since_install l end
  end.

Lemma nonces_app new l :
  Forall (fun e => is_anonce e = false /\ is_install e = false) new ->
  nonces_since_install (new ++ l) = nonces_since_install l.
Proof.
  induction 1 as [|e new [Ha Hi] _ IH]; [done|]. cbn [app nonces_since_install]. rewrite Hi.
  unfold is_anonce in Ha. destruct e as [| | | | | | | | | | |use ok b]; try done. destruct use, ok; done.
Qed.
Lemma nonces_draw b l : nonces_since_install (Random R_ANonce true b :: l) = b :: nonces_since_install l.
Proof. done. Qed.
Lemma quiet_nonces new l : Forall (fun e => loud e = false) new -> nonces_since_install (new ++ l) = nonces_since_install l.
Proof.
  intros H. apply nonces_app. eapply Forall_impl; [exact H|]. intros e He. unfold loud in He.
  destruct (is_install e), (is_anonce e); done.
Qed.
Lemma calm_nonces w w' : calm w w' -> nonces_since_install (events w') = nonces_since_install (events w).
Proof. intros [_ (n & -> & Hn) _ _ _]. by apply quiet_nonces. Qed.
Lemma hushed_nonces w w' : hushed w w' -> nonces_since_install (events w') = nonces_since_install (events w).
Proof. intros [(n & -> & Hn) _ _ _]. by apply quiet_nonces. Qed.

Section inv.
Context {C : Crypto} {E : WpaEnv} (CONFIG_SAE : bool) (conf : wpa_auth_config) (psks : psk_config).
Context (hash0 : bytes).
Notation W := world.
Notation trans := (ptk_trans CONFIG_SAE conf psks).

(** The nonces after a transition. *)
Definition label_nonces (l : label) (N : list bytes) : list bytes :=
  match l with Silent | Open => N | Draw b => b :: N | Install => [] end.

Lemma label_events_nonces l w w' :
  label_events l w w' ->
  nonces_since_install (events w') = label_nonces l (nonces_since_install (events w)).
Proof.
  destruct l; cbn [label_events label_nonces].
  - apply calm_nonces.
  - intros (w1 & H1 & H2). rewrite (calm_nonces _ _ H2). change (events (emit ?e w1)) with (e :: events w1).
    by rewrite nonces_draw, (calm_nonces _ _ H1).
  - intros (_ & _ & _ & n & -> & Hn). rewrite nonces_app by done.
    unfold install_event. change (events (emit ?e ?x)) with (e :: events x). cbn [nonces_since_install].
    by destruct (use_ext_key_id _).
  - intros (_ & _ & _ & n & -> & Hn). by apply nonces_app.
Qed.

(** A nonce drawn since the last installation is used in the handshake. *)
Definition nonce_inv (s : wpa_state_machine) (N : list bytes) : Prop :=
  match wpa_ptk_state s with
  | WPA_PTK_AUTHENTICATION2 => ANonce s ∈ N \/ Disconnect s = true
  | WPA_PTK_INITPMK | WPA_PTK_INITPSK | WPA_PTK_PTKSTART | WPA_PTK_PTKCALCNEGOTIATING
  | WPA_PTK_PTKCALCNEGOTIATING2 | WPA_PTK_PTKINITNEGOTIATING => ANonce s ∈ N
  | _ => True
  end.

Lemma nonce_trans s l s' N : trans s l s' -> nonce_inv s N -> nonce_inv s' (label_nonces l N).
Proof.
  intros Ht Hi. unfold nonce_inv in *.
  destruct Ht; try exact I; try assumption; cases_of_trans; try (destruct ok); cbn [label_nonces]; entered;
    repeat match goal with H : wpa_ptk_state _ = _ |- _ => rewrite H in Hi; clear H end;
    try exact I; try exact Hi; try (by right); try constructor; try (left; constructor).
  all: destruct Hi; [done|congruence].
Qed.

(** ** Keys *)

(** The keys of the PMKSA cache. *)
Context (cached : bytes -> Prop).

(** Where a PMK may come from: the configured pre-shared keys, an EAP method or
    the cache; [PTKCALCNEGOTIATING] shortens some to 32 octets. *)
Inductive trusted_pmk : bytes -> Prop :=
| trusted_psk pmk : from_psk psks pmk -> trusted_pmk pmk
| trusted_msk pmk : from_msk pmk -> trusted_pmk pmk
| trusted_cached pmk : cached pmk -> trusted_pmk pmk
| trusted_cut pmk : trusted_pmk pmk -> trusted_pmk (take PMK_LEN pmk).

Definition pmk_good (s : wpa_state_machine) : Prop := trusted_pmk (take (pmk_len s) (PMK s)).

(** The handshake is over and no other has been asked for. *)
Definition at_rest (s : wpa_state_machine) : Prop :=
  wpa_ptk_state s = WPA_PTK_PTKINITDONE /\ ReAuthenticationRequest s = false /\ PTKRequest s = false /\
  DeauthenticationRequest s = false.

(** The PTK is derived from a trusted PMK, for this station, and unless the
    handshake is over with a nonce that is not used up. *)
Definition ptk_inv (s : wpa_state_machine) (N : list bytes) : Prop :=
  PTK_valid s = true -> exists s0 snonce pmk,
    trusted_pmk pmk /\ derived_from conf s0 snonce pmk (PTK s) /\ addr s0 = addr s /\ (at_rest s \/ ANonce s0 ∈ N).

Definition has_pmk (st : wpa_ptk_states) : bool :=
  match st with
  | WPA_PTK_PTKSTART | WPA_PTK_PTKCALCNEGOTIATING | WPA_PTK_PTKCALCNEGOTIATING2 | WPA_PTK_PTKINITNEGOTIATING
  | WPA_PTK_PTKINITDONE => true
  | _ => false
  end.
(** A PMK must have been chosen; [pend] says that the rekeying timer runs. *)
Definition late (s : wpa_state_machine) (pend : bool) : bool :=
  has_pmk (wpa_ptk_state s) || PTKRequest s || PTK_valid s || pend.

Definition pmk_inv (s : wpa_state_machine) (pend : bool) : Prop :=
  pmk_good s \/
  (late s pend = false /\ (wpa_ptk_state s = WPA_PTK_INITPMK -> Disconnect s = true) /\
   (wpa_ptk_state s = WPA_PTK_INITPSK -> no_key CONFIG_SAE psks s)).

(** Every frame carries a MIC, and the entry of the PMKSA cache is from there. *)
Definition params_ok (s : wpa_state_machine) : Prop :=
  (forall n, wpa_mic_len (wpa_key_mgmt s) n <> 0%nat) /\ (forall e, pmksa s = Some e -> cached (pmksa_pmk e)).

Record hs_inv (s : wpa_state_machine) (N : list bytes) (pend : bool) : Prop := {
  hs_nonce : nonce_inv s N;
  hs_ptk : ptk_inv s N;
  hs_pmk : pmk_inv s pend;
  hs_params : params_ok s }.

Lemma known_trusted s pmk : params_ok s -> pmk_good s -> known_pmk psks s pmk -> trusted_pmk pmk.
Proof.
  intros [_ Hc] Hg [H|[(e & He & ->)| ->] ]; [by apply trusted_psk|by apply trusted_cached, Hc|exact Hg].
Qed.

Lemma source_trusted s pmk :
  params_ok s -> from_msk pmk \/ from_pmksa s pmk \/ from_psk psks pmk -> trusted_pmk pmk.
Proof.
  intros [_ Hc] [H|[(e & He & ->)|H] ]; [by apply trusted_msk|by apply trusted_cached, Hc|by apply trusted_psk].
Qed.

Lemma pmk_trans_inv s l s' pend pend' :
  trans s l s' -> params_ok s -> (l <> Install -> l <> Open -> pend' = true -> pend = true) ->
  pmk_inv s pend -> pmk_inv s' pend'.
Proof.
  intros Ht Hp Hpend Hi. pose proof (source_trusted s) as Hsrc. pose proof (known_trusted s) as Hkn.
  destruct Hi as [Hg|(Hl & H1 & H2)].
  - left. unfold pmk_good in *. destruct Ht; try (destruct ok); cases_of_trans; entered; try exact Hg.
    1-2: apply Hsrc; tauto.
    all: match goal with H : take _ _ = _ \/ _ |- _ => destruct H as [->|H]; [exact Hg|] end; try (by apply Hkn).
    all: match goal with H : _ \/ _ = take _ _ |- _ => destruct H as [H| ->]; [|apply trusted_cut]; by apply Hkn end.
  - unfold late in Hl. apply orb_false_iff in Hl as [Hl Hpe]. apply orb_false_iff in Hl as [Hl Hv]. apply orb_false_iff in Hl as [Hst Hr].
    unfold pmk_inv, late. destruct Ht; try (destruct ok); cases_of_trans; try congruence;
      repeat match goal with H : wpa_ptk_state _ = _ |- _ => rewrite H in Hst end; try discriminate Hst;
      try (specialize (Hpend ltac:(done) ltac:(done)));
      assert (Hp' : pend' = false) by (destruct pend'; [by rewrite Hpend in Hpe|done]); subst pend'.
    all: try (right; entered; known_fields; rewrite ?Hr, ?Hv, ?Hst; done).
    { right. rewrite Hst, Hr, Hv. auto. }
    1-2: left; unfold pmk_good; entered; apply Hsrc; tauto.
    + exfalso. rewrite H1 in H; done.
    + exfalso. auto.
Qed.

(** A transition that leaves the PTK alone. *)
Lemma ptk_inv_same s s' N N' :
  ptk_inv s N -> (PTK_valid s' = true -> PTK_valid s = true /\ PTK s' = PTK s) -> addr s' = addr s ->
  (PTK_valid s' = true -> at_rest s -> at_rest s') -> (forall b, b ∈ N -> b ∈ N' \/ at_rest s') -> ptk_inv s' N'.
Proof.
  intros Hi Hv Ha Hr HN Hv'. destruct (Hv Hv') as [Hv0 ->]. destruct (Hi Hv0) as (s0 & snonce & pmk & H1 & H2 & H3 & H4).
  exists s0, snonce, pmk. split; [done|]. split; [done|]. split; [congruence|].
  destruct H4 as [H4|H4]; [left; auto|]. destruct (HN _ H4); auto.
Qed.

Lemma ptk_trans_inv s l s' N pend :
  trans s l s' -> hs_inv s N pend -> ptk_inv s' (label_nonces l N).
Proof.
  intros Ht [Hn Hi Hpmk Hp].
  assert (Hrest : forall st, wpa_ptk_state s = st -> st <> WPA_PTK_PTKINITDONE -> ~ at_rest s) by (intros st <- H [H' _]; auto).
  assert (Hacc : forall s1 pmk ptk, has_pmk (wpa_ptk_state s) = true ->
    match wpa_ptk_state s with WPA_PTK_PTKINITDONE => False | _ => True end ->
    known_pmk psks s pmk -> derived_from conf s (SNonce s) pmk ptk -> addr s1 = addr s -> PTK s1 = ptk -> ptk_inv s1 N).
  { intros s1 pmk ptk Hst Hnd Hk Hd Ha Hpt _. exists s, (SNonce s), pmk. rewrite Hpt, Ha. split; [|split; [done|split; [done|right] ] ].
    - apply (known_trusted s); [done| |done]. destruct Hpmk as [?|(Hl & _)]; [done|]. unfold late in Hl. by rewrite Hst in Hl.
    - unfold nonce_inv in Hn. by destruct (wpa_ptk_state s). }
  assert (Hsame : forall s1 N', (PTK_valid s1 = true -> PTK_valid s = true /\ PTK s1 = PTK s) -> addr s1 = addr s ->
    ~ at_rest s -> (forall b, b ∈ N -> b ∈ N' \/ at_rest s1) -> ptk_inv s1 N').
  { intros s1 N' H1 H2 H3 H4. eapply ptk_inv_same; [exact Hi|done|done|by intros _ ?|done]. }
  assert (Hno : forall s1 N', PTK_valid s1 = false -> ptk_inv s1 N') by (intros s1 N' H H'; congruence).
  destruct Ht; try (destruct ok); cbn [label_nonces]; try exact Hi; cases_of_trans; try (by apply Hno).
  all: try (apply Hsame; [done|done|intros (? & ? & ? & ?); congruence|intros; by first [left; constructor; done|left] ]).
  all: try (eapply Hacc; [..|eassumption|eassumption|done|done]; match goal with H : wpa_ptk_state _ = _ |- _ => by rewrite H end).
  all: unfold done_end; destruct (bool_decide _); (apply Hsame; [done|done|intros (? & ? & ? & ?); congruence|by right]).
Qed.

Lemma params_trans s l s' : trans s l s' -> params_ok s -> params_ok s'.
Proof.
  intros Ht. apply ptk_trans_kept in Ht. unfold kept in Ht. unfold params_ok.
  assert (wpa_key_mgmt s' = wpa_key_mgmt s) as -> by congruence. by assert (pmksa s' = pmksa s) as -> by congruence.
Qed.

(** ** The received frame

    [D] is what its MIC says of a PTK. *)
Definition rx_inv (D : wpa_ptk -> Prop) (s : wpa_state_machine) : Prop :=
  pairwise_received s = true ->
  match wpa_ptk_state s with
  | WPA_PTK_PTKCALCNEGOTIATING => MICVerified s = true -> PTK_valid s = true /\ D (PTK s)
  | WPA_PTK_PTKCALCNEGOTIATING2 | WPA_PTK_PTKINITNEGOTIATING =>
    update_snonce s = true \/ DeauthenticationRequest s = true \/
    (MICVerified s = true /\ PTK_valid s = true /\ D (PTK s))
  | _ => True
  end.

Lemma rx_trans D s l s' : trans s l s' -> rx_inv D s -> rx_inv D s'.
Proof.
  intros Ht Hi. unfold rx_inv in *.
  destruct Ht; try assumption; cases_of_trans; try (destruct ok); unfold pairwise_received in *; entered;
    repeat match goal with H : wpa_ptk_state _ = _ |- _ => rewrite H in Hi; clear H end; try (intros _; exact I); try done.
  - intros Hr. right; right. split; [done|]. by apply Hi.
  - intros _. right. by left.
  - intros _. right. by left.
Qed.

(** *** Other changes *)

(** What [hs_inv] reads and the loop changes in transitions of WPA_PTK only. *)
Definition hs_core (s : wpa_state_machine) :=
  (wpa_ptk_state s, ANonce s, (PTK s, PTK_valid s), (PMK s, pmk_len s),
   (ReAuthenticationRequest s, PTKRequest s, DeauthenticationRequest s)).
Definition hs_fixed (s : wpa_state_machine) := (addr s, p2p_dev_addr s, wpa_key_mgmt s, pmksa s).
Lemma kept_fixed s s' : kept s' = kept s -> hs_fixed s' = hs_fixed s.
Proof. unfold kept, hs_fixed. intros H. injection H as ?????????? ?. congruence. Qed.
Definition rx_core (s : wpa_state_machine) := (MICVerified s, update_snonce s, EAPOLKeyRequest s, EAPOLKeyPairwise s).

Lemma no_key_kept s s' :
  addr s' = addr s -> p2p_dev_addr s' = p2p_dev_addr s -> wpa_key_mgmt s' = wpa_key_mgmt s -> pmksa s' = pmksa s ->
  no_key CONFIG_SAE psks s -> no_key CONFIG_SAE psks s'.
Proof. unfold no_key, wpa_auth_get_psk, wpa_auth_uses_sae. by intros -> -> -> ->. Qed.

Lemma hs_inv_same s s' N pend pend' :
  hs_fixed s' = hs_fixed s -> hs_core s' = hs_core s -> (Disconnect s = true -> Disconnect s' = true) ->
  (pend' = true -> pend = true) -> hs_inv s N pend -> hs_inv s' N pend'.
Proof.
  intros Hk Hc Hd Hpe [Hn Hi Hpmk Hp]. unfold hs_fixed, hs_core in *.
  assert (wpa_ptk_state s' = wpa_ptk_state s /\ ANonce s' = ANonce s /\ PTK s' = PTK s /\ PTK_valid s' = PTK_valid s /\
    PMK s' = PMK s /\ pmk_len s' = pmk_len s /\ ReAuthenticationRequest s' = ReAuthenticationRequest s /\
    PTKRequest s' = PTKRequest s /\ DeauthenticationRequest s' = DeauthenticationRequest s) as (E1 & E2 & E3 & E4 & E5 & E6 & E7 & E8 & E9)
    by (repeat split; congruence).
  assert (addr s' = addr s /\ p2p_dev_addr s' = p2p_dev_addr s /\ wpa_key_mgmt s' = wpa_key_mgmt s /\ pmksa s' = pmksa s)
    as (K1 & K2 & K3 & K4) by (repeat split; congruence). split.
  - unfold nonce_inv in *. rewrite E1, E2. destruct (wpa_ptk_state s); try done. destruct Hn; [by left|right; auto].
  - unfold ptk_inv, at_rest in *. by rewrite E1, E3, E4, E7, E8, E9, K1.
  - unfold pmk_inv, pmk_good, late in *. rewrite E1, E4, E5, E6, E8. destruct Hpmk as [?|(Hl & H1 & H2)]; [by left|right].
    split; [|split; [auto|intros H; apply (no_key_kept s); auto] ].
    destruct pend'; [|by destruct pend; rewrite ?orb_true_r in Hl]. by rewrite (Hpe eq_refl) in Hl.
  - unfold params_ok in *. by rewrite K3, K4.
Qed.

Lemma rx_inv_same D s s' :
  hs_core s' = hs_core s -> rx_core s' = rx_core s -> (EAPOLKeyReceived s' = true -> EAPOLKeyReceived s = true) ->
  rx_inv D s -> rx_inv D s'.
Proof.
  intros Hc Hr Hx Hi. unfold hs_core, rx_core, rx_inv, pairwise_received in *.
  assert (wpa_ptk_state s' = wpa_ptk_state s /\ PTK s' = PTK s /\ PTK_valid s' = PTK_valid s /\
    DeauthenticationRequest s' = DeauthenticationRequest s /\ MICVerified s' = MICVerified s /\ update_snonce s' = update_snonce s /\
    EAPOLKeyRequest s' = EAPOLKeyRequest s /\ EAPOLKeyPairwise s' = EAPOLKeyPairwise s)
    as (-> & -> & -> & -> & -> & -> & -> & ->) by (repeat split; congruence).
  intros H. apply Hi. destruct (EAPOLKeyReceived s'); [|done]. by rewrite Hx.
Qed.

Lemma gptk_next_core s :
  hs_core (gptk_next conf s) = hs_core s /\ rx_core (gptk_next conf s) = rx_core s /\
  (Disconnect s = true -> Disconnect (gptk_next conf s) = true) /\
  (EAPOLKeyReceived (gptk_next conf s) = true -> EAPOLKeyReceived s = true).
Proof.
  assert (H : hs_core (rekeyneg_entered conf s) = hs_core s /\ rx_core (rekeyneg_entered conf s) = rx_core s /\
    (Disconnect s = true -> Disconnect (rekeyneg_entered conf s) = true) /\
    (EAPOLKeyReceived (rekeyneg_entered conf s) = true -> EAPOLKeyReceived s = true)).
  { unfold rekeyneg_entered. cbv zeta. by destruct (group_limit conf _). }
  unfold gptk_next. destruct (_ || _); [done|]. destruct (wpa_ptk_group_state s); [destruct (group_requested s)| |..]; try done.
  destruct (group_received s); [done|]. destruct (group_limit conf s); [done|]. by destruct (TimeoutEvt s).
Qed.
Lemma grp_trans_core s g s' g' :
  grp_trans s g s' g' ->
  hs_core s' = hs_core s /\ rx_core s' = rx_core s /\ (Disconnect s = true -> Disconnect s' = true) /\
  (EAPOLKeyReceived s' = true -> EAPOLKeyReceived s = true).
Proof. destruct 1; try done. unfold update_sta. case_bool_decide; [by destruct (is_wnmsleep s)|done]. Qed.

(** ** Justified events *)

(** Every event after [base] satisfies [J], given the events before it. *)
Definition since (J : list event -> event -> Prop) (base l : list event) : Prop :=
  exists new, l = new ++ base /\ forall l1 e l2, new = l1 ++ e :: l2 -> J (l2 ++ base) e.

Lemma since_refl J l : since J l l.
Proof. exists []. split; [done|]. by intros [] ?. Qed.
Lemma since_trans J l1 l2 l3 : since J l1 l2 -> since J l2 l3 -> since J l1 l3.
Proof.
  intros (n & -> & Hn) (n' & -> & Hn'). exists (n' ++ n). split; [by rewrite app_assoc|]. intros a e b Hab.
  symmetry in Hab. apply app_eq_inv in Hab as [(k & Ek & Eb)|(k & Ek & Eb)].
  - by apply (Hn k e b).
  - destruct k as [|x k].
    + cbn in Eb. by apply (Hn [] e b).
    + injection Eb as -> ->. rewrite <- app_assoc. by apply (Hn' a x k).
Qed.
Lemma since_cons J base e l : since J base l -> J l e -> since J base (e :: l).
Proof.
  intros H He. eapply since_trans; [exact H|]. exists [e]. split; [done|]. intros l1 e' l2 H1.
  destruct l1 as [|? l1]; [by injection H1 as <- <-|]. injection H1 as _ H1. by destruct l1.
Qed.
Lemma since_forall J base new :
  Forall (fun e => forall past, J past e) new -> since J base (new ++ base).
Proof.
  intros H. exists new. split; [done|]. intros l1 e l2 ->. apply Forall_app in H as [_ H].
  apply Forall_cons in H as [H _]. apply H.
Qed.

(** The call that enables the key of a PTK for the station [a]. *)
Definition installs (a : bytes) (ptk : wpa_ptk) (e : event) : Prop :=
  (exists idx, e = SetKey 0 WPA_ALG_NONE (Some a) idx [] KEY_FLAG_PAIRWISE_RX_TX_MODIFY) \/
  (exists c, e = SetKey 0 (wpa_cipher_to_alg c) (Some a) 0 (take (wpa_cipher_key_len c) (tk ptk)) KEY_FLAG_PAIRWISE_RX_TX).

(** A PTK derived for the station [a] from a trusted PMK and a nonce in [N]. *)
Definition genuine (a : bytes) (fresh : bytes -> Prop) (ptk : wpa_ptk) : Prop :=
  exists s0 snonce pmk, trusted_pmk pmk /\ derived_from conf s0 snonce pmk ptk /\ addr s0 = a /\ fresh (ANonce s0).

Definition justified (a : bytes) (D : wpa_ptk -> Prop) (past : list event) (e : event) : Prop :=
  (is_install e = true -> exists ptk, D ptk /\ genuine a (fun n => n ∈ nonces_since_install past) ptk /\ installs a ptk e) /\
  (is_open e = true -> exists ptk, D ptk /\ genuine a (fun _ => True) ptk).

Lemma justified_quiet a D past e : loud e = false -> justified a D past e.
Proof. unfold loud, justified. destruct (is_install e), (is_anonce e), (is_open e); done. Qed.

(** What a run of the loop keeps. *)
Record loop_inv (a : bytes) (D : wpa_ptk -> Prop) (base : list event) (w : W) : Prop := {
  li_hs : hs_inv (sm w) (nonces_since_install (events w)) (rekey_pending w);
  li_rx : rx_inv D (sm w);
  li_addr : addr (sm w) = a;
  li_since : since (justified a D) base (events w) }.

Lemma genuine_weaken a (P Q : bytes -> Prop) ptk : (forall n, P n -> Q n) -> genuine a P ptk -> genuine a Q ptk.
Proof. intros H (s0 & snonce & pmk & H1 & H2 & H3 & H4). exists s0, snonce, pmk. auto. Qed.

(** The handshake ends with a frame that verifies under a PTK that is genuine. *)
Lemma done_genuine s l s' N pend D :
  trans s l s' -> l = Install \/ l = Open -> hs_inv s N pend -> rx_inv D s ->
  D (PTK s) /\ genuine (addr s) (fun n => n ∈ N) (PTK s).
Proof.
  intros Ht Hl Hh Hr.
  assert (H : undisturbed s /\ wpa_ptk_state s = WPA_PTK_PTKINITNEGOTIATING /\ update_snonce s = false /\ pairwise_received s = true).
  { destruct Ht; try (by destruct Hl); try (destruct ok; by destruct Hl); done. }
  destruct H as ((_ & _ & Hq & _ & _) & Hst & Hu & Hp). specialize (Hr Hp). rewrite Hst in Hr.
  destruct Hr as [Hr|[Hr|(_ & Hv & HD)] ]; [congruence|congruence|]. split; [done|].
  destruct (hs_ptk _ _ _ Hh Hv) as (s0 & snonce & pmk & H1 & H2 & H3 & [ [H4 _]|H4]); [congruence|].
  by exists s0, snonce, pmk.
Qed.

Lemma install_installs s : installs (addr s) (PTK s) (install_event s).
Proof. unfold install_event. destruct (use_ext_key_id s); [left|right]; by eexists. Qed.

(** Events that neither draw a nonce nor install a key. *)
Lemma since_opens a D base new :
  (exists ptk, D ptk /\ genuine a (fun _ => True) ptk) ->
  Forall (fun e => is_anonce e = false /\ is_install e = false) new -> since (justified a D) base (new ++ base).
Proof.
  intros Hg Hn. apply since_forall. eapply Forall_impl; [exact Hn|]. intros e [_ He] past. split; [by rewrite He|done].
Qed.
Lemma since_calm a D w w' : calm w w' -> since (justified a D) (events w) (events w').
Proof.
  intros [_ (n & -> & Hn) _ _ _]. apply since_forall. eapply Forall_impl; [exact Hn|]. intros e He past. by apply justified_quiet.
Qed.
Lemma since_hushed a D w w' : hushed w w' -> since (justified a D) (events w) (events w').
Proof.
  intros [(n & -> & Hn) _ _ _]. apply since_forall. eapply Forall_impl; [exact Hn|]. intros e He past. by apply justified_quiet.
Qed.

Lemma since_label a D l w w' s' pend :
  trans (sm w) l s' -> label_events l w w' -> addr (sm w) = a ->
  hs_inv (sm w) (nonces_since_install (events w)) pend -> rx_inv D (sm w) ->
  since (justified a D) (events w) (events w').
Proof.
  intros Ht He <- Hh Hr. pose proof (fun H => done_genuine _ _ _ _ _ _ Ht H Hh Hr) as Hd.
  destruct l; cbn [label_events] in He.
  - by apply since_calm.
  - destruct He as (w1 & H1 & H2). eapply since_trans; [|by apply since_calm].
    apply since_cons; [by apply since_calm|]. by split.
  - destruct (Hd (or_introl eq_refl)) as [HD Hg]. destruct He as (_ & _ & _ & n & -> & Hn).
    change (events (emit (install_event (sm w)) (upd done_entered w))) with (install_event (sm w) :: events w).
    eapply since_trans; [|apply since_opens; [|exact Hn] ].
    + apply since_cons; [apply since_refl|]. split.
      * intros _. exists (PTK (sm w)). split; [done|]. split; [done|apply install_installs].
      * unfold install_event. by destruct (use_ext_key_id _).
    + exists (PTK (sm w)). split; [done|]. by eapply genuine_weaken.
  - destruct (Hd (or_intror eq_refl)) as [HD Hg]. destruct He as (_ & _ & _ & n & -> & Hn).
    apply since_opens; [|done]. exists (PTK (sm w)). split; [done|]. by eapply genuine_weaken.
Qed.

Lemma hs_inv_er s s' N pend : er s' = er s -> hs_inv s N pend -> hs_inv s' N pend.
Proof. intros H. apply hs_inv_same; try done; change (er s') with (er s').
  - change (hs_fixed (er s') = hs_fixed (er s)). by rewrite H.
  - change (hs_core (er s') = hs_core (er s)). by rewrite H.
  - change (Disconnect (er s) = true -> Disconnect (er s') = true). by rewrite H.
Qed.
Lemma rx_inv_er D s s' : er s' = er s -> rx_inv D s -> rx_inv D s'.
Proof. intros H. change (rx_inv D (er s) -> rx_inv D (er s')). by rewrite H. Qed.
Lemma label_rekey l w w' :
  label_events l w w' -> l <> Install -> l <> Open -> rekey_pending w' = true -> rekey_pending w = true.
Proof.
  destruct l; cbn [label_events]; try done.
  - intros H _ _. apply H.
  - intros (w1 & H1 & H2) _ _ H. apply H1. by apply H2 in H.
Qed.

Lemma loop_inv_stable a D base : stable CONFIG_SAE conf psks (loop_inv a D base).
Proof.
  split.
  - intros w [H1 H2 H3 H4]. split; [|done|done|done]. by eapply hs_inv_same; [..|exact H1].
  - intros w w' [H1 H2 H3 H4] (l & s' & Ht & Es & He). split.
    + rewrite (label_events_nonces _ _ _ He). eapply hs_inv_er; [exact Es|]. split.
      * eapply nonce_trans; [exact Ht|apply H1].
      * eapply ptk_trans_inv; [exact Ht|exact H1].
      * eapply pmk_trans_inv; [exact Ht|apply H1|by eapply label_rekey|apply H1].
      * eapply params_trans; [exact Ht|apply H1].
    + eapply rx_inv_er; [exact Es|]. by eapply rx_trans.
    + rewrite <- H3. apply ptk_trans_kept in Ht. rewrite <- (kept_er _ _ Es) in Ht. unfold kept in Ht. congruence.
    + eapply since_trans; [exact H4|]. by eapply since_label.
  - intros w w' [H1 H2 H3 H4] [Es Hc]. destruct (gptk_next_core (sm w)) as (G1 & G2 & G3 & G4). split.
    + rewrite (calm_nonces _ _ Hc). eapply hs_inv_er; [exact Es|]. eapply hs_inv_same; [apply kept_fixed, gptk_next_kept|exact G1|exact G3| |exact H1].
      apply Hc.
    + eapply rx_inv_er; [exact Es|]. by eapply rx_inv_same.
    + rewrite <- H3. pose proof (gptk_next_kept conf (sm w)) as K. rewrite <- (kept_er _ _ Es) in K. unfold kept in K. congruence.
    + eapply since_trans; [exact H4|]. by apply since_calm.
  - intros w w' [H1 H2 H3 H4] (s' & g' & Ht & Es & _ & Hc). destruct (grp_trans_core _ _ _ _ Ht) as (G1 & G2 & G3 & G4). split.
    + rewrite (hushed_nonces _ _ Hc). eapply hs_inv_er; [exact Es|].
      eapply hs_inv_same; [apply kept_fixed; by eapply grp_trans_kept|exact G1|exact G3| |exact H1]. apply Hc.
    + eapply rx_inv_er; [exact Es|]. by eapply rx_inv_same.
    + rewrite <- H3. pose proof (grp_trans_kept _ _ _ _ Ht) as K. rewrite <- (kept_er _ _ Es) in K. unfold kept in K. congruence.
    + eapply since_trans; [exact H4|]. by apply since_hushed.
Qed.
End inv.
