(* ===== verification/WpaSystem.v ===== *)
(** * The WPA authenticator: runs

    The station between its creation and its end: a run is a sequence of inputs,
    the calls that the access point, the event loop and the driver make. *)

From S2P Require Import Prelude Bytes HashSpec Hmac AesInterface AesWrap AesOmac Rc4.
From S2P Require Import WpaKeys WpaState WpaFrame WpaPsk WpaGroup WpaPtk WpaAuth WpaProofs WpaRun WpaLoop WpaInv.

Inductive wpa_input :=
| Receive (data : bytes)                 (* wpa_receive *)
| EapolTimeout                           (* the timers *)
| PtkTimer
| GtkTimer
| GmkTimer
| CallStep
| TxStatus (ack : bool)                  (* wpa_auth_eapol_key_tx_status *)
| Notify                                 (* wpa_auth_sm_notify *)
| RekeyGtk                               (* wpa_auth_rekey_gtk *)
| Associate (reassoc : bool)             (* handle_assoc_cb and hostapd_new_assoc_sta *)
| Event (ev : wpa_event)                 (* wpa_auth_sm_event *)
| Negotiated (version : wpa_version) (cipher akm : Z) (ie rsnxe : option bytes) (pmf ext : bool)
    (entry : option pmksa_ref)           (* what wpa_validate_wpa_ie stores *)
| EapolState (run avail : bool)          (* the EAPOL state machine *)
| OtherStations (remaining : Z)          (* other stations have got the group key *)
| SaePmkid (id : bytes)                  (* wpa_auth_add_sae_pmkid *)
| WnmSleep (flag : bool)                 (* wpa_set_wnmsleep *)
| WnmRekey                               (* wpa_wnmsleep_rekey_gtk *)
| LocalMicFailure                        (* wpa_auth_sta_local_mic_failure_report *)
| NoWpa.                                 (* wpa_auth_sta_no_wpa *)

(** The first timer of a kind fires. *)
Fixpoint pop_timer (t : wpa_timer) (l : list (wpa_timer * Z)) : list (wpa_timer * Z) :=
  match l with
  | [] => []
  | x :: l => if bool_decide (x.1 = t) then l else x :: pop_timer t l
  end.
Definition fire (t : wpa_timer) (w : world) : world := w <| timers ::= pop_timer t |>.
Definition timer_runs (t : wpa_timer) (w : world) : bool := existsb (fun x => bool_decide (x.1 = t)) (timers w).

Section system.
Context {C : Crypto} {E : WpaEnv} (CONFIG_SAE : bool) (conf : wpa_auth_config) (psks : psk_config).
Context (hash0 : bytes) (cached : bytes -> Prop).
Notation W := world.
Notation step := (wpa_sm_step CONFIG_SAE conf psks hash0).

(** The call, unless the station has been freed by an earlier part of it. *)
Definition exec (i : wpa_input) (w : W) : W :=
  match i with
  | Receive data => wpa_receive CONFIG_SAE conf psks hash0 data w
  | EapolTimeout => wpa_send_eapol_timeout CONFIG_SAE conf psks hash0 (fire T_send_eapol w)
  | PtkTimer => wpa_rekey_ptk CONFIG_SAE conf psks hash0 (fire T_rekey_ptk w)
  | GtkTimer => wpa_rekey_gtk CONFIG_SAE conf psks hash0 (fire T_rekey_gtk w)
  | GmkTimer => wpa_rekey_gmk conf (fire T_rekey_gmk w)
  | CallStep => wpa_sm_call_step CONFIG_SAE conf psks hash0 (fire T_call_step w)
  | TxStatus ack => wpa_auth_eapol_key_tx_status ack w
  | Notify => wpa_auth_sm_notify w
  | RekeyGtk => wpa_auth_rekey_gtk w
  | Associate reassoc =>
    let w := (wpa_auth_sm_event conf step WPA_ASSOC w).2 in
    if reassoc then (wpa_auth_sm_event conf step WPA_REAUTH w).2
    else (wpa_auth_sta_associated CONFIG_SAE conf psks hash0 w).2
  | Event ev => (wpa_auth_sm_event conf step ev w).2
  | Negotiated version cipher akm ie rsnxe pmf ext entry =>
    upd (fun s => s <| wpa := version |> <| pairwise := cipher |> <| wpa_key_mgmt := akm |> <| sm_wpa_ie := ie |>
                    <| sm_rsnxe := rsnxe |> <| mgmt_frame_prot := pmf |> <| use_ext_key_id := ext |>
                    <| pmksa := entry |>) w
  | EapolState run avail => w <| eap_keyRun := run |> <| eap_keyAvailable := avail |>
  | OtherStations remaining => wpa_group_sm_step conf step (updg (fun g => g <| GKeyDoneStations := remaining |>) w)
  | SaePmkid id => wpa_auth_add_sae_pmkid id w
  | WnmSleep flag => wpa_set_wnmsleep flag w
  | WnmRekey => wpa_wnmsleep_rekey_gtk CONFIG_SAE conf psks hash0 w
  | LocalMicFailure => wpa_auth_sta_local_mic_failure_report w
  | NoWpa => wpa_auth_sta_no_wpa w
  end.

(** Timers fire when they run; the PMKSA entry is one of the cache; and the AKM is
    one whose frames carry a MIC (that is, not FILS) of a fixed length (not OWE or
    DPP). *)
Definition enabled (i : wpa_input) (w : W) : Prop :=
  freed w = false /\ fault w = false /\
  match i with
  | EapolTimeout => timer_runs T_send_eapol w = true
  | PtkTimer => timer_runs T_rekey_ptk w = true
  | GtkTimer => timer_runs T_rekey_gtk w = true
  | GmkTimer => timer_runs T_rekey_gmk w = true
  | CallStep => timer_runs T_call_step w = true
  | Negotiated _ _ akm _ _ _ _ entry =>
    (forall n, wpa_mic_len akm n <> 0%nat) /\ (forall e, entry = Some e -> cached (pmksa_pmk e))
  | _ => True
  end.

(** The station as [wpa_auth_sta_init] makes it. *)
Definition attached (a : bytes) (w : W) : Prop :=
  (exists p2p, wpa_auth_sta_init a p2p w = Some (sm w)) /\ timer_runs T_rekey_ptk w = false /\
  freed w = false /\ fault w = false.

Inductive run (w0 : W) : list wpa_input -> W -> Prop :=
| run_start : run w0 [] w0
| run_input l w i : run w0 l w -> enabled i w -> run w0 (l ++ [i]) (exec i w).
End system.
