(* ===== verification/WpaSafety.v ===== *)
(** * The WPA authenticator: safety of the handshake

    Whatever the station and its surroundings do, a key is only installed, and the
    port only opened, while a frame is processed whose MIC verifies under a PTK
    that is derived from a trusted PMK; an installed key is derived with a nonce
    drawn since the last installation. *)

From S2P Require Import Prelude Bytes HashSpec Hmac AesInterface AesWrap AesOmac Rc4.
From S2P Require Import WpaKeys WpaState WpaFrame WpaPsk WpaGroup WpaPtk WpaAuth WpaProofs WpaRun WpaLoop WpaInv WpaSystem.

Section safety.
Context {C : Crypto} {E : WpaEnv} (CONFIG_SAE : bool) (conf : wpa_auth_config) (psks : psk_config).
Context (hash0 : bytes) (cached : bytes -> Prop).
Notation W := world.
Notation step := (wpa_sm_step CONFIG_SAE conf psks hash0).
Notation sloop := (step_loop CONFIG_SAE conf psks hash0).
Notation hs := (hs_inv CONFIG_SAE conf psks cached).
Notation just := (justified conf psks cached).

Hypothesis nonces : nonces_available.
Hypothesis update_count : 1 <= wpa_group_update_count conf.

(** ** Between the inputs *)

(** No answer to a message is left over. *)
Definition rx_rest (s : wpa_state_machine) : Prop :=
  match wpa_ptk_state s with
  | WPA_PTK_PTKCALCNEGOTIATING | WPA_PTK_PTKCALCNEGOTIATING2 | WPA_PTK_PTKINITNEGOTIATING => pairwise_received s = false
  | _ => True
  end.

Record outer_at (a : bytes) (D : wpa_ptk -> Prop) (base : list event) (w : W) : Prop := {
  o_loop : in_step_loop (sm w) = false;
  o_deinit : pending_deinit (sm w) = false;
  o_idle : idle_fresh (sm w);
  o_psk : wpa_ptk_state (sm w) <> WPA_PTK_INITPSK;
  o_hs : hs (sm w) (nonces_since_install (events w)) (rekey_pending w);
  o_addr : addr (sm w) = a;
  o_since : since (just a D) base (events w) }.
(** At rest, and ready for [wpa_sm_step]. *)
Definition resting_at a D base w : Prop := outer_at a D base w /\ Init (sm w) = false /\ rx_rest (sm w).
Definition ready_at a D base w : Prop := outer_at a D base w /\ rx_inv D (sm w).

Lemma rx_rest_inv D s : rx_rest s -> rx_inv D s.
Proof. unfold rx_rest, rx_inv. destruct (wpa_ptk_state s); try done; intros -> H; done. Qed.
Lemma resting_ready a D base w : resting_at a D base w -> ready_at a D base w.
Proof. intros (? & _ & ?). split; [done|by apply rx_rest_inv]. Qed.

Lemma sm_step_unfold w : in_step_loop (sm w) = false -> pending_deinit (sm (sloop STEP_FUEL (upd (fun s => s <| in_step_loop := true |>) w))) = false ->
  step w = (0, upd (fun s => s <| in_step_loop := false |>) (sloop STEP_FUEL (upd (fun s => s <| in_step_loop := true |>) w))).
Proof.
  intros Hl Hd. unfold wpa_sm_step. rewrite Hl. cbv zeta. set (x := step_loop _ _ _ _ _ _) in *. clearbody x.
  change (pending_deinit (sm (upd (fun s => s <| in_step_loop := false |>) x))) with (pending_deinit (sm x)). by rewrite Hd.
Qed.

(** What the loop leaves. *)
Lemma loop_ready a D base w :
  ready_at a D base w ->
  let w1 := sloop STEP_FUEL (upd (fun s => s <| in_step_loop := true |>) w) in
  step w = (0, upd (fun s => s <| in_step_loop := false |>) w1) /\
  loop_inv CONFIG_SAE conf psks cached a D base w1 /\ settled w1 /\ fresh_unless_init (sm w1) /\ looping w1 /\
  exists w0, looping w0 /\ Init (sm w0) = Init (sm w) /\ step_pass CONFIG_SAE conf psks hash0 w0 = (false, w1).
Proof.
  intros [ [H1 H2 H3 H4 H5 H6 H7] Hr]. cbv zeta. set (v := upd (fun s => s <| in_step_loop := true |>) w).
  assert (Lv : looping v) by (by split).
  assert (Iv : loop_inv CONFIG_SAE conf psks cached a D base v).
  { split; [|done|done|done]. by eapply hs_inv_same; [..|exact H5]. }
  assert (Fv : fresh_unless_init (sm v)) by (by intros _).
  destruct (ptk_loop_ends CONFIG_SAE conf psks hash0 STEP_FUEL v nonces update_count Lv Fv) as (S1 & F1 & W1 & _);
    [apply rank_bound|].
  destruct (step_loop_stable CONFIG_SAE conf psks hash0 _ STEP_FUEL v (loop_inv_stable CONFIG_SAE conf psks cached a D base) Lv Iv) as [I1 L1].
  split; [by apply sm_step_unfold, L1|]. done.
Qed.

Lemma step_rests a D base w :
  ready_at a D base w -> Init (sm w) = false -> (step w).1 = 0 /\ resting_at a D base (step w).2.
Proof.
  intros Hr Hi. destruct (loop_ready a D base w Hr) as (Es & [I1 I2 I3 I4] & S1 & F1 & L1 & w0 & L0 & Hi0 & Hp).
  set (w1 := sloop STEP_FUEL _) in *. clearbody w1. rewrite Es. cbn [fst snd]. split; [done|].
  rewrite Hi in Hi0. destruct (step_pass_settled _ _ _ _ _ _ L0 Hi0 Hp S1) as [Hu Hw].
  assert (Hnp : wpa_ptk_state (sm w1) <> WPA_PTK_INITPSK) by (intros H; unfold ptk_waits in Hw; by rewrite H in Hw).
  destruct Hu as (Hu1 & Hu2 & Hu3 & Hu4 & Hu5 & Hu6). split; [|split; [done|] ].
  - split; [done|apply L1|by apply F1|done| |done|done]. by eapply hs_inv_same; [..|exact I1].
  - change (rx_rest (sm w1)). unfold rx_rest. unfold rx_inv in I2. unfold ptk_waits in Hw.
    destruct (wpa_ptk_state (sm w1)); try done.
    + apply andb_true_iff in Hw as [Hw _]. apply andb_true_iff in Hw as [_ Hw]. by apply negb_true_iff in Hw.
    + destruct (pairwise_received (sm w1)); [|done]. apply andb_true_iff in Hw as [Hw _]. apply andb_true_iff in Hw as [Hw1 Hw2].
      apply negb_true_iff in Hw1. destruct (I2 eq_refl) as [?|[?|(Hm & _)] ]; [congruence|congruence|]. by rewrite Hm in Hw2.
Qed.

(** [wpa_sm_step] with [Init] set. *)
Lemma init_rests a D base w :
  ready_at a D base w -> Init (sm w) = true ->
  (step w).1 = 0 /\ outer_at a D base (step w).2 /\ wpa_ptk_state (sm (step w).2) = WPA_PTK_INITIALIZE /\ PTK_valid (sm (step w).2) = false.
Proof.
  intros Hr Hi. destruct (loop_ready a D base w Hr) as (Es & [I1 I2 I3 I4] & S1 & F1 & L1 & w0 & L0 & Hi0 & Hp).
  set (w1 := sloop STEP_FUEL _) in *. clearbody w1. rewrite Es. cbn [fst snd]. split; [done|].
  rewrite Hi in Hi0. destruct (step_pass_init _ _ _ _ _ _ L0 Hi0 Hp) as (Hst & Hv & Hf). split; [|by split].
  split; [done|apply L1|done| | |done|done].
  - change (wpa_ptk_state (sm w1) <> WPA_PTK_INITPSK). by rewrite Hst.
  - by eapply hs_inv_same; [..|exact I1].
Qed.

(** ** Changes outside the loop *)

Context (a : bytes) (D : wpa_ptk -> Prop) (base : list event).
Notation outer := (outer_at a D base).
Notation resting := (resting_at a D base).
Notation ready := (ready_at a D base).

Definition frame (s : wpa_state_machine) :=
  (wpa_ptk_state s, ANonce s, (PMK s, pmk_len s), (in_step_loop s, pending_deinit s),
   (wpa_ptk_group_state s, GTimeoutCtr s), addr s).
(** Requests of a handshake. *)
Definition requests (s : wpa_state_machine) := (ReAuthenticationRequest s, PTKRequest s, DeauthenticationRequest s).

(** [w'] after changes to [w] outside the loop. *)
Record outside (w w' : W) : Prop := {
  out_frame : frame (sm w') = frame (sm w);
  out_hushed : hushed w w';
  out_disconnect : Disconnect (sm w) = true -> Disconnect (sm w') = true;
  out_params : params_ok cached (sm w) -> params_ok cached (sm w');
  out_ptk : PTK_valid (sm w') = true ->
    PTK_valid (sm w) = true /\ PTK (sm w') = PTK (sm w) /\ requests (sm w') = requests (sm w);
  out_request : PTKRequest (sm w') = true ->
    PTKRequest (sm w) = true \/ PTK_valid (sm w) = true \/ rekey_pending w = true }.

Lemma outer_change w w' : outer w -> outside w w' -> outer w'.
Proof.
  intros [H1 H2 H3 H4 [Hn Hi Hpmk Hp] H6 H7] [Hf Hh Hd Hpa Hv Hr]. unfold frame in Hf.
  injection Hf as F1 F2 F3 F4 F5 F6 F7 F8 F9. split; [congruence|congruence|unfold idle_fresh in *; by rewrite F7, F8|congruence| |congruence|].
  - rewrite (hushed_nonces _ _ Hh). split.
    + unfold nonce_inv in *. rewrite F1, F2. destruct (wpa_ptk_state (sm w)); try done. destruct Hn; [by left|right; auto].
    + intros Hv'. destruct (Hv Hv') as (Hv0 & -> & Hq). unfold requests in Hq. injection Hq as Q1 Q2 Q3.
      unfold at_rest. rewrite F1, F9, Q1, Q2, Q3. exact (Hi Hv0).
    + destruct Hpmk as [Hg|(Hl & L1 & L2)].
      * left. unfold pmk_good in *. by rewrite F3, F4.
      * right. unfold late in *. rewrite !orb_false_iff in Hl. destruct Hl as (((Hst & Hr0) & Hv0) & Hpe).
        assert (PTKRequest (sm w') = false) as ->.
        { apply not_true_is_false. intros H. destruct (Hr H) as [?|[?|?] ]; congruence. }
        assert (PTK_valid (sm w') = false) as -> by (apply not_true_is_false; intros H; destruct (Hv H); congruence).
        assert (rekey_pending w' = false) as -> by (apply not_true_is_false; intros H; apply Hh in H; congruence).
        rewrite F1, Hst. split; [done|]. split; [intros H; auto|]. intros H. by destruct H4.
    + auto.
  - eapply since_trans; [exact H7|]. by apply since_hushed.
Qed.

Lemma resting_change w w' :
  resting w -> outside w w' -> Init (sm w') = false ->
  (pairwise_received (sm w') = true -> pairwise_received (sm w) = true) -> resting w'.
Proof.
  intros (Ho & _ & Hr) Hc Hi Hp. split; [by eapply outer_change|]. split; [done|].
  pose proof (out_frame _ _ Hc) as Hf. unfold frame in Hf. injection Hf as F1 _ _ _ _ _ _ _ _. unfold rx_rest in *. rewrite F1.
  destruct (wpa_ptk_state (sm w)); try done; apply not_true_is_false; intros H; rewrite Hp in Hr; done.
Qed.

(** Changes that concern neither the handshake nor the PTK. *)
Lemma outside_quiet w w' : quiet w w' -> outside w w'.
Proof.
  intros [Hs Hc]. assert (He : forall A (f : wpa_state_machine -> A), (forall s, f (er s) = f s) -> f (sm w') = f (sm w)).
  { intros A f Hf. by rewrite <- Hf, Hs, Hf. }
  split; [by apply He|by apply calm_hushed|by rewrite (He _ Disconnect)| |by rewrite (He _ PTK_valid), (He _ PTK), (He _ requests)|
    rewrite (He _ PTKRequest) by done; by left].
  unfold params_ok. by rewrite (He _ wpa_key_mgmt), (He _ pmksa).
Qed.
Lemma outside_trans w1 w2 w3 :
  outside w1 w2 -> outside w2 w3 -> (PTK_valid (sm w3) = true -> PTK_valid (sm w2) = true) -> outside w1 w3.
Proof.
  intros [F H Dm P V R] [F' H' Dm' P' V' R'] Hv. split; [congruence|by etrans|auto|auto| |].
  - intros Hv3. destruct (V' Hv3) as (Hv2 & E1 & E2). destruct (V Hv2) as (Hv1 & E3 & E4). split; [done|]. split; congruence.
  - intros Hr. destruct (R' Hr) as [Hr2|[Hv2|Hp2] ]; [auto|right; left; by apply V|right; right; by apply H].
Qed.

Lemma quiet_init w w' : quiet w w' -> Init (sm w') = Init (sm w) /\ (pairwise_received (sm w') = true -> pairwise_received (sm w) = true).
Proof.
  intros [Hs _]. change (Init (er (sm w')) = Init (sm w) /\ (pairwise_received (er (sm w')) = true -> pairwise_received (sm w) = true)).
  by rewrite Hs.
Qed.
Lemma resting_quiet w w' : resting w -> quiet w w' -> resting w'.
Proof.
  intros Hr Hq. destruct (quiet_init _ _ Hq) as [Hi Hp].
  eapply resting_change; [exact Hr|by apply outside_quiet|by rewrite Hi; apply Hr|exact Hp].
Qed.

(** An update of fields that do not matter. *)
Lemma outside_upd f w :
  (forall s, frame (f s) = frame s /\ (Disconnect s = true -> Disconnect (f s) = true) /\
     (wpa_key_mgmt (f s), pmksa (f s)) = (wpa_key_mgmt s, pmksa s) /\
     (PTK_valid (f s), PTK (f s), requests (f s)) = (PTK_valid s, PTK s, requests s)) -> outside w (upd f w).
Proof.
  intros H. destruct (H (sm w)) as (H1 & H2 & H3 & H4).
  assert (H5 : wpa_key_mgmt (f (sm w)) = wpa_key_mgmt (sm w) /\ pmksa (f (sm w)) = pmksa (sm w)) by (split; congruence).
  assert (H6 : PTK_valid (f (sm w)) = PTK_valid (sm w) /\ PTK (f (sm w)) = PTK (sm w) /\ requests (f (sm w)) = requests (sm w))
    by (split_and!; congruence).
  destruct H5 as [H5 H5'], H6 as (H6 & H7 & H8).
  split; rewrite ?wpa_sm_upd; [done|apply hushed_upd|done|unfold params_ok; by rewrite H5, H5'|by rewrite H6, H7, H8|].
  assert (H9 : PTKRequest (f (sm w)) = PTKRequest (sm w)) by (unfold requests in H8; congruence). rewrite H9. by left.
Qed.
Lemma outside_group f w : outside w (updg f w).
Proof. split; [done|apply hushed_updg|done|done|done|by left]. Qed.

Lemma resting_upd f w :
  resting w ->
  (frame (f (sm w)) = frame (sm w) /\ (Disconnect (sm w) = true -> Disconnect (f (sm w)) = true) /\
     (wpa_key_mgmt (f (sm w)), pmksa (f (sm w))) = (wpa_key_mgmt (sm w), pmksa (sm w)) /\
     (PTK_valid (f (sm w)), PTK (f (sm w)), requests (f (sm w))) = (PTK_valid (sm w), PTK (sm w), requests (sm w))) ->
  Init (f (sm w)) = Init (sm w) -> (pairwise_received (f (sm w)) = true -> pairwise_received (sm w) = true) ->
  resting (upd f w).
Proof.
  intros Hr Hf Hi Hp. pose proof (outside_upd (fun _ => f (sm w)) w) as Ho.
  eapply resting_change; [exact Hr| |rewrite wpa_sm_upd, Hi; apply Hr|exact Hp].
  destruct Hf as (F1 & F2 & F3 & F4).
  assert (H5 : wpa_key_mgmt (f (sm w)) = wpa_key_mgmt (sm w) /\ pmksa (f (sm w)) = pmksa (sm w)) by (split; congruence).
  assert (H6 : PTK_valid (f (sm w)) = PTK_valid (sm w) /\ PTK (f (sm w)) = PTK (sm w) /\ requests (f (sm w)) = requests (sm w))
    by (split_and!; congruence).
  destruct H5 as [H5 H5'], H6 as (H6 & H7 & H8).
  split; rewrite ?wpa_sm_upd; [done|apply hushed_upd|done|unfold params_ok; by rewrite H5, H5'|by rewrite H6, H7, H8|].
  assert (H9 : PTKRequest (f (sm w)) = PTKRequest (sm w)) by (unfold requests in H8; congruence). rewrite H9. by left.
Qed.

(** *** [wpa_sm_step] *)

Lemma step_resting w : resting w -> resting (step w).2.
Proof. intros H. apply step_rests; [by apply resting_ready|apply H]. Qed.

(** *** [wpa_auth_sm_event] *)

Definition keys_lost (ev : wpa_event) (w : W) : W :=
  let w := upd no_keys w in if bool_decide (ev <> WPA_REAUTH_EAPOL) then wpa_remove_ptk w else w.

Lemma keys_lost_outside ev w :
  outside (upd no_keys w) (keys_lost ev w) /\ Init (sm (keys_lost ev w)) = Init (sm w) /\
  pairwise_received (sm (keys_lost ev w)) = pairwise_received (sm w) /\ PTK_valid (sm (keys_lost ev w)) = false.
Proof.
  unfold keys_lost. cbv zeta. case_bool_decide.
  - destruct (reaches_remove_ptk (upd no_keys w)) as [Hs Hc].
    assert (He : forall A (f : wpa_state_machine -> A), (forall s, f (er s) = f s) ->
      f (sm (wpa_remove_ptk (upd no_keys w))) = f ((no_keys (no_keys (sm w))) <| pairwise_set := false |>)).
    { intros A f Hf. by rewrite <- Hf, Hs, Hf. }
    split; [|by rewrite !He].
    split; [by apply He|by apply calm_hushed|by rewrite (He _ Disconnect)| |by rewrite (He _ PTK_valid)|
      rewrite (He _ PTKRequest) by done; by left].
    unfold params_ok. by rewrite (He _ wpa_key_mgmt), (He _ pmksa).
  - split; [|done]. split; try done. by left.
Qed.

Lemma event_end_unfold ev w :
  in_step_loop (sm w) = false ->
  sm_event_end step ev w =
  step (if negb (mgmt_frame_prot (sm w) && bool_decide (ev = WPA_AUTH)) then keys_lost ev w else w).
Proof.
  intros Hl. unfold sm_event_end. cbv zeta. set (b := negb _). clearbody b.
  match goal with |- (if in_step_loop (sm ?x) then _ else _) = step ?y => assert (Hx : x = y) by done; assert (Hy : in_step_loop (sm x) = false) end.
  { destruct b; [|done].
    pose proof (out_frame _ _ (proj1 (keys_lost_outside ev w))) as Hf. unfold frame in Hf.
    assert (H : in_step_loop (sm (keys_lost ev w)) = in_step_loop (sm w)) by (change (in_step_loop (sm w)) with (in_step_loop (sm (upd no_keys w))); congruence).
    transitivity (in_step_loop (sm (keys_lost ev w))); [reflexivity|congruence]. }
  by rewrite Hy.
Qed.

Lemma lost_rests ev w : outer (upd no_keys w) -> rx_rest (sm w) -> Init (sm w) = false -> resting (keys_lost ev w).
Proof.
  intros Ho Hr Hi. destruct (keys_lost_outside ev w) as (H1 & H2 & H3 & _). split; [by eapply outer_change|]. split; [congruence|].
  pose proof (out_frame _ _ H1) as Hf. unfold frame in Hf. injection Hf as F1 _ _ _ _ _ _ _ _.
  unfold rx_rest in *. by rewrite F1, H3.
Qed.

(** After the keys are cleared any request may be set. *)
Lemma outside_cleared f w w' :
  resting w -> quiet w w' ->
  (forall s, frame (f s) = frame s /\ (Disconnect s = true -> Disconnect (f s) = true) /\
     (wpa_key_mgmt (f s), pmksa (f s), PTKRequest (f s), pairwise_received (f s)) =
     (wpa_key_mgmt s, pmksa s, PTKRequest s, pairwise_received s)) ->
  outer (upd no_keys (upd f w')) /\ rx_rest (f (sm w')).
Proof.
  intros Hr Hq Hf. pose proof (resting_quiet _ _ Hr Hq) as (Ho & _ & Hr'). destruct (Hf (sm w')) as (F1 & F2 & F3).
  assert (H : wpa_key_mgmt (f (sm w')) = wpa_key_mgmt (sm w') /\ pmksa (f (sm w')) = pmksa (sm w') /\
    PTKRequest (f (sm w')) = PTKRequest (sm w') /\ pairwise_received (f (sm w')) = pairwise_received (sm w'))
    by (split_and!; congruence). destruct H as (E1 & E2 & E3 & E4). split.
  - eapply outer_change; [exact Ho|]. split; rewrite ?wpa_sm_upd; [exact F1| |exact F2|unfold params_ok; by rewrite <- E1, <- E2|done|].
    + etrans; apply hushed_upd.
    + change (PTKRequest (no_keys (f (sm w')))) with (PTKRequest (f (sm w'))). rewrite E3. by left.
  - unfold frame in F1. injection F1 as F1 _ _ _ _ _ _ _ _. unfold rx_rest in *. by rewrite F1, E4.
Qed.

Lemma event_end_rests ev f w w' :
  resting w -> quiet w w' -> ev <> WPA_AUTH ->
  (forall s, frame (f s) = frame s /\ (Disconnect s = true -> Disconnect (f s) = true) /\
     (wpa_key_mgmt (f s), pmksa (f s), PTKRequest (f s), pairwise_received (f s)) =
     (wpa_key_mgmt s, pmksa s, PTKRequest s, pairwise_received s)) ->
  Init (f (sm w')) = false ->
  resting (sm_event_end step ev (upd f w')).2.
Proof.
  intros Hr Hq Hev Hf Hi. destruct (outside_cleared f w w' Hr Hq Hf) as [Ho Hx].
  rewrite event_end_unfold by exact (o_loop _ _ _ _ Ho).
  rewrite (bool_decide_eq_false_2 (ev = WPA_AUTH)) by done. rewrite andb_false_r. cbn [negb].
  apply step_resting. by apply lost_rests.
Qed.

(** The first start of a station: [Init] is set for one call. *)
Lemma first_start w :
  resting w ->
  let w1 := step (upd (fun s => s <| started := true |> <| Init := true |>) w) in
  w1.1 = 0 /\ resting (upd (fun s => s <| Init := false |> <| AuthenticationRequest := true |>) w1.2).
Proof.
  intros (Ho & Hi & Hr). cbv zeta. set (v := upd _ w).
  assert (Hv : ready v).
  { split; [eapply outer_change; [exact Ho|by apply outside_upd]|by apply rx_rest_inv]. }
  destruct (init_rests a D base v Hv eq_refl) as (H1 & H2 & H3 & H4). split; [done|].
  split; [eapply outer_change; [exact H2|by apply outside_upd]|]. split; [done|]. unfold rx_rest.
  match goal with |- match ?x with _ => _ end => replace x with WPA_PTK_INITIALIZE by (symmetry; exact H3) end. done.
Qed.

Lemma upd_id w : upd (fun s => s) w = w.
Proof. by destruct w. Qed.
Lemma event_end_same ev w : resting w -> ev <> WPA_AUTH -> resting (sm_event_end step ev w).2.
Proof.
  intros Hr Hev. pose proof (event_end_rests ev (fun s => s) w w Hr) as H. rewrite upd_id in H. apply H; [done..|apply Hr].
Qed.

Lemma event_rests ev w : resting w -> resting (wpa_auth_sm_event conf step ev w).2.
Proof.
  intros Hr. pose proof (o_loop _ _ _ _ (proj1 Hr)) as Hl. unfold wpa_auth_sm_event.
  assert (Hsame : ev <> WPA_AUTH -> resting (sm_event_end step ev w).2).
  { by apply event_end_same. }
  assert (Hreauth : ev = WPA_REAUTH \/ ev = WPA_REAUTH_EAPOL -> resting (wpa_auth_sm_event conf step ev w).2).
  { intros Hev. assert (Hne : ev <> WPA_AUTH) by (destruct Hev; congruence).
    assert (Hx : resting (if negb (started (sm w)) then
        let '(r, w1) := step (upd (fun s => s <| started := true |> <| Init := true |>) w) in
        if r =? 1 then (1, w1)
        else sm_event_end step ev (upd (fun s => s <| Init := false |> <| AuthenticationRequest := true |>) w1)
      else if negb (use_ext_key_id (sm w)) && wpa_deny_ptk0_rekey conf then
        sm_event_end step ev (upd (fun s => s <| Disconnect := true |>
                         <| disconnect_reason := WLAN_REASON_CLASS3_FRAME_FROM_NONASSOC_STA |>) w)
      else
        let w1 := if use_ext_key_id (sm w) then flip_key_id w else w in
        let w2 := if GUpdateStationKeys (sm w1)
               then upd (fun s => s <| GUpdateStationKeys := false |> <| PtkGroupInit := true |>) (station_done w1)
               else w1 in
        sm_event_end step ev (upd (fun s => s <| ReAuthenticationRequest := true |>) w2)).2); [|by destruct Hev as [-> | ->] ].
    destruct (started (sm w)); cbn [negb].
    - destruct (_ && _).
      + apply (event_end_rests ev (fun s => s <| Disconnect := true |> <| disconnect_reason := WLAN_REASON_CLASS3_FRAME_FROM_NONASSOC_STA |>) w w);
          [done|done|done|done|apply Hr].
      + cbv zeta. match goal with |- context [upd (fun s => s <| ReAuthenticationRequest := true |>) ?x] => set (w2 := x) end.
        assert (H1 : resting (if use_ext_key_id (sm w) then flip_key_id w else w)).
        { destruct (use_ext_key_id _); [|done]. by apply resting_upd. }
        assert (H2 : resting w2).
        { unfold w2. destruct (GUpdateStationKeys _); [|done].
          apply resting_upd; [|done|done|done]. eapply resting_quiet; [exact H1|]. by apply quiet_updg. }
        apply (event_end_rests ev (fun s => s <| ReAuthenticationRequest := true |>) w2 w2); [done|done|done|done|apply H2].
    - destruct (first_start w Hr) as [H1 H2]. destruct (step _) as [r w1]. cbn [fst snd] in *. subst r. cbn [Z.eqb].
      by apply event_end_same. }
  destruct ev; try (apply Hsame; done); try (apply Hreauth; auto; done).
  - rewrite event_end_unfold by done. apply step_resting. destruct (negb _); [|done].
    apply lost_rests; [|apply Hr|apply Hr]. destruct (outside_cleared (fun s => s) w w Hr) as [H _]; [done|done|]. by rewrite upd_id in H.
  - by apply (event_end_rests WPA_DISASSOC (set DeauthenticationRequest (fun _ => true)) w w); [..|apply Hr].
  - by apply (event_end_rests WPA_DEAUTH (set DeauthenticationRequest (fun _ => true)) w w); [..|apply Hr].
  - by apply resting_upd.
Qed.

(** *** Group keys *)

Lemma resting_group f w : resting w -> resting (updg f w).
Proof. intros H. eapply resting_change; [exact H|apply outside_group|apply H|done]. Qed.

Lemma resting_er w w' s' :
  resting w -> er (sm w') = er s' -> hushed w w' ->
  hs_core s' = hs_core (sm w) -> rx_core s' = rx_core (sm w) -> kept s' = kept (sm w) ->
  (wpa_ptk_group_state s', GTimeoutCtr s') = (wpa_ptk_group_state (sm w), GTimeoutCtr (sm w)) ->
  (Disconnect (sm w) = true -> Disconnect s' = true) ->
  (EAPOLKeyReceived s' = true -> EAPOLKeyReceived (sm w) = true) -> resting w'.
Proof.
  intros Hr Es Hh Hc Hx Hk Hg Hd He.
  assert (HE : forall A (f : wpa_state_machine -> A), (forall s, f (er s) = f s) -> f (sm w') = f s').
  { intros A f Hf. by rewrite <- Hf, Es, Hf. }
  unfold hs_core, rx_core, kept in *.
  assert (Hq : requests s' = requests (sm w)) by (unfold requests; congruence).
  assert (Hv : PTK_valid s' = PTK_valid (sm w) /\ PTK s' = PTK (sm w) /\ PTKRequest s' = PTKRequest (sm w) /\ Init s' = Init (sm w) /\
    wpa_key_mgmt s' = wpa_key_mgmt (sm w) /\ pmksa s' = pmksa (sm w) /\ EAPOLKeyRequest s' = EAPOLKeyRequest (sm w) /\
    EAPOLKeyPairwise s' = EAPOLKeyPairwise (sm w)) by (split_and!; congruence).
  destruct Hv as (V1 & V2 & V3 & V4 & V5 & V6 & V7 & V8).
  eapply resting_change; [exact Hr| |rewrite (HE _ Init), V4 by done; apply Hr|].
  - split; [|done|by rewrite (HE _ Disconnect)| | |].
    + rewrite (HE _ frame) by done. unfold frame. congruence.
    + unfold params_ok. by rewrite (HE _ wpa_key_mgmt), (HE _ pmksa), V5, V6.
    + rewrite (HE _ PTK_valid), (HE _ PTK), (HE _ requests), V1, V2, Hq by done. done.
    + rewrite (HE _ PTKRequest), V3 by done. by left.
  - rewrite (HE _ pairwise_received) by done. unfold pairwise_received. rewrite V7, V8.
    destruct (EAPOLKeyReceived s'); [|done]. by rewrite He.
Qed.

Lemma grp_resting w w' : resting w -> grp_stepped w w' -> resting w'.
Proof.
  intros Hr (s' & g' & Ht & Es & _ & Hh). destruct (grp_trans_core _ _ _ _ Ht) as (C1 & C2 & C3 & C4).
  eapply resting_er; [exact Hr|exact Es|exact Hh|exact C1|exact C2|by eapply grp_trans_kept| |exact C3|exact C4].
  destruct Ht; try done. unfold update_sta. case_bool_decide; [by destruct (is_wnmsleep _)|done].
Qed.

Lemma update_sta_rests w : resting w -> resting (wpa_group_update_sta step w).
Proof.
  intros Hr. unfold wpa_group_update_sta. destruct (negb _); [by apply resting_upd|]. destruct (is_wnmsleep _); [done|].
  apply step_resting. apply resting_upd; [by apply resting_group|done|done|done].
Qed.
Lemma group_step_rests w : resting w -> resting (wpa_group_sm_step conf step w).
Proof.
  intros Hr. pose proof (group_step_stepped conf w) as Hs. unfold wpa_group_sm_step in *. cbv zeta in *.
  assert (Hk : resting (wpa_group_setkeys conf step w)).
  { unfold wpa_group_setkeys. cbv zeta. apply update_sta_rests. apply resting_group, resting_group.
    eapply resting_quiet; [|apply quiet_gtk_update]. by apply resting_group, resting_group. }
  revert Hs. pose proof (fun w' => grp_resting w w' Hr) as Hg.
  destruct (GInit (group w)); [auto|]. destruct (wpa_group_state (group w)); auto.
  - destruct (_ =? _); [auto|]. by destruct (GTKReKey _).
  - by destruct (GTKReKey _).
Qed.
Lemma rekey_loop_rests n w : resting w -> resting (rekey_loop CONFIG_SAE conf psks hash0 n w).
Proof.
  revert w. induction n as [|n IH]; intros w Hr; [done|]. cbn [rekey_loop].
  assert (H : resting (wpa_group_sm_step conf step (updg (fun g => g <| group_changed := false |>) w)))
    by (by apply group_step_rests, resting_group).
  cbv zeta. destruct (group_changed _); auto.
Qed.

(** Timers other than the one that renews the PTK. *)
Lemma timer_rests t ms w : t <> T_rekey_ptk -> resting w -> resting (eloop_register_timeout t ms w).
Proof. intros Ht Hr. eapply resting_quiet; [exact Hr|by apply quiet_timer]. Qed.
Lemma cancel_rests t w : resting w -> resting (eloop_cancel_timeout t w).
Proof. intros Hr. eapply resting_quiet; [exact Hr|apply quiet_cancel]. Qed.
Lemma fire_rests t w : resting w -> resting (fire t w).
Proof.
  intros Hr. eapply resting_quiet; [exact Hr|]. split; [done|]. apply calm_silent; [done..|].
  unfold rekey_pending, fire. wpa_simpl. induction (timers w) as [|x l IH]; [done|]. cbn [pop_timer existsb].
  case_bool_decide; cbn [existsb]; rewrite !orb_true_iff; [by right|]. intros [?|?]; [by left|right; auto].
Qed.

Lemma rekey_gtk_rests w : resting w -> resting (wpa_rekey_gtk CONFIG_SAE conf psks hash0 w).
Proof.
  intros Hr. unfold wpa_rekey_gtk. cbv zeta.
  assert (H : resting (rekey_loop CONFIG_SAE conf psks hash0 REKEY_FUEL (updg (fun g => g <| GTKReKey := true |>) w)))
    by (by apply rekey_loop_rests, resting_group).
  destruct (_ =? _); [done|by apply timer_rests].
Qed.

(** *** A new PTK *)

Lemma request_rests w :
  resting w -> PTK_valid (sm w) = true \/ rekey_pending w = true -> resting (wpa_request_new_ptk conf w).
Proof.
  intros Hr Hv. unfold wpa_request_new_ptk. destruct (_ && _); [by apply resting_upd|]. cbv zeta.
  match goal with |- context [upd (fun s => s <| PTKRequest := true |> <| PTK_valid := false |>) ?x] => set (w1 := x) end.
  assert (H1 : resting w1 /\ (PTK_valid (sm w1) = true \/ rekey_pending w1 = true)).
  { unfold w1. destruct (use_ext_key_id _); [|done]. split; [by apply resting_upd|exact Hv]. }
  clearbody w1. destruct H1 as [H1 H2]. eapply resting_change; [exact H1| |apply H1|done].
  split; [done|apply hushed_upd|done|done|done|by right].
Qed.

(** *** Association

    The event [WPA_ASSOC] clears the keys; the step it makes does not end a
    handshake, since no frame has been received. *)

Definition unkeyed (s : wpa_state_machine) : Prop := wpa_ptk_state s = WPA_PTK_PTKINITDONE -> PTK_valid s = false.

Lemma unkeyed_trans s l s' :
  ptk_trans CONFIG_SAE conf psks s l s' -> l <> Install -> l <> Open -> unkeyed s -> unkeyed s'.
Proof.
  intros Ht H1 H2 Hu. unfold unkeyed in *. destruct Ht; try done; cases_of_trans; try (destruct ok); done.
Qed.
Lemma unkeyed_core s s' : hs_core s' = hs_core s -> unkeyed s -> unkeyed s'.
Proof.
  unfold hs_core, unkeyed. intros Hc. assert (wpa_ptk_state s' = wpa_ptk_state s /\ PTK_valid s' = PTK_valid s) as [-> ->]; [|done].
  split; congruence.
Qed.

Lemma unkeyed_stable :
  (forall ptk, ~ D ptk) ->
  stable CONFIG_SAE conf psks (fun w => loop_inv CONFIG_SAE conf psks cached a D base w /\ unkeyed (sm w)).
Proof.
  intros HD. destruct (loop_inv_stable CONFIG_SAE conf psks cached a D base) as [S1 S2 S3 S4]. split.
  - intros w [H1 H2]. split; [auto|done].
  - intros w w' [H1 H2] Hs. split; [by eapply S2|]. destruct Hs as (l & s' & Ht & Es & _).
    assert (Hl : l <> Install /\ l <> Open).
    { pose proof (fun H => done_genuine _ _ _ _ _ _ _ _ _ _ Ht H (li_hs _ _ _ _ _ _ _ _ H1) (li_rx _ _ _ _ _ _ _ _ H1)) as Hd.
      split; intros ->; (apply (HD (PTK (sm w))), Hd; auto). }
    eapply (unkeyed_core s'); [change (hs_core (er (sm w')) = hs_core (er s')); by rewrite Es|].
    by eapply unkeyed_trans; [exact Ht|apply Hl..|].
  - intros w w' [H1 H2] Hs. split; [by eapply S3|]. destruct Hs as [Es _].
    eapply (unkeyed_core (sm w)); [|done]. transitivity (hs_core (gptk_next conf (sm w))); [|apply gptk_next_core].
    change (hs_core (er (sm w')) = hs_core (er (gptk_next conf (sm w)))). by rewrite Es.
  - intros w w' [H1 H2] Hs. split; [by eapply S4|]. destruct Hs as (s' & g' & Ht & Es & _).
    eapply (unkeyed_core (sm w)); [|done]. transitivity (hs_core s'); [|by eapply grp_trans_core].
    change (hs_core (er (sm w')) = hs_core (er s')). by rewrite Es.
Qed.

Lemma step_unkeyed w : (forall ptk, ~ D ptk) -> resting w -> unkeyed (sm w) -> unkeyed (sm (step w).2).
Proof.
  intros HD Hr Hu. destruct (loop_ready a D base w (resting_ready _ _ _ _ Hr)) as (Es & _).
  rewrite Es. cbn [snd]. set (v := upd (fun s => s <| in_step_loop := true |>) w).
  change (unkeyed (sm (sloop STEP_FUEL v))).
  assert (Lv : looping v) by (split; [done|apply Hr]).
  destruct Hr as (Ho & _ & Hx).
  assert (Iv : loop_inv CONFIG_SAE conf psks cached a D base v).
  { split; [|by apply rx_rest_inv|apply Ho|apply Ho]. by eapply hs_inv_same; [..|apply Ho]. }
  by destruct (step_loop_stable CONFIG_SAE conf psks hash0 _ STEP_FUEL v (unkeyed_stable HD) Lv (conj Iv Hu)) as [ [_ ?] _].
Qed.

Lemma assoc_event_unkeyed w :
  (forall ptk, ~ D ptk) -> resting w -> unkeyed (sm (wpa_auth_sm_event conf step WPA_ASSOC w).2).
Proof.
  intros HD Hr. change (wpa_auth_sm_event conf step WPA_ASSOC w) with (sm_event_end step WPA_ASSOC w).
  rewrite event_end_unfold by apply Hr.
  rewrite (bool_decide_eq_false_2 (WPA_ASSOC = WPA_AUTH)) by done. rewrite andb_false_r. cbn [negb].
  apply step_unkeyed; [done| |].
  - apply lost_rests; [|apply Hr|apply Hr]. destruct (outside_cleared (fun s => s) w w Hr) as [H _]; [done|done|]. by rewrite upd_id in H.
  - intros _. apply keys_lost_outside.
Qed.

Lemma reauth_rests f w :
  resting w -> unkeyed (sm w) -> (f = fun s => s <| key_replay := replicate RSNA_MAX_EAPOL_RETRIES zero_counter |> <| ReAuthenticationRequest := true |>) ->
  resting (upd f w).
Proof.
  intros ([H1 H2 H3 H4 [Hn Hi Hpmk Hp] H6 H7] & Hini & Hr) Hu ->. split; [|by split]. split; try done. split; try done.
  intros Hv. destruct (Hi Hv) as (s0 & snonce & pmk & K1 & K2 & K3 & K4). exists s0, snonce, pmk.
  split; [done|]. split; [done|]. split; [done|]. right. destruct K4 as [ [K4 _]|K4]; [|done].
  apply Hu in K4. change (PTK_valid (sm w) = true) in Hv. congruence.
Qed.

Lemma associated_rests w :
  resting w -> unkeyed (sm w) -> resting (wpa_auth_sta_associated CONFIG_SAE conf psks hash0 w).2.
Proof.
  intros Hr Hu. unfold wpa_auth_sta_associated. destruct (_ =? _); [done|]. destruct (started (sm w)).
  - apply step_resting. by eapply reauth_rests.
  - destruct (first_start w Hr) as [H1 H2]. destruct (step _) as [r w1]. cbn [fst snd] in *. subst r. cbn [Z.eqb].
    by apply step_resting.
Qed.

(** *** Frames *)

Lemma resting_good w : resting w -> late (sm w) (rekey_pending w) = true -> pmk_good psks cached (sm w).
Proof. intros ([_ _ _ _ Hh _ _] & _) Hl. destruct (hs_pmk _ _ _ _ _ _ _ Hh) as [?|(Hl' & _)]; [done|congruence]. Qed.

Lemma resting_set_pmk pmk w : resting w -> trusted_pmk psks cached pmk -> resting (upd (set_pmk pmk) w).
Proof.
  intros ([H1 H2 H3 H4 [Hn Hi Hpmk Hp] H6 H7] & Hini & Hr) Ht. split; [|by split]. split; try done. split; try done.
  left. unfold pmk_good. by rewrite wpa_sm_upd, take_set_pmk.
Qed.

(** A PTK that the station derives itself. *)
Lemma resting_new_ptk w snonce pmk ptk s0 sn :
  resting w -> wpa_ptk_state (sm w) = WPA_PTK_PTKINITNEGOTIATING -> trusted_pmk psks cached pmk ->
  derived_from conf s0 snonce pmk ptk -> addr s0 = addr (sm w) -> ANonce s0 = ANonce (sm w) ->
  resting (upd (fun s => s <| SNonce := sn s |> <| PTK := ptk |> <| PTK_valid := true |>) w).
Proof.
  intros Hres Hst Ht Hd Ha HN.
  assert (Hg : pmk_good psks cached (sm w)) by (apply resting_good; [done|]; unfold late; by rewrite Hst).
  destruct Hres as ([H1 H2 H3 H4 [Hn Hi Hpmk Hp] H6 H7] & Hini & Hr). split; [|by split]. split; try done. split; try done; [|by left].
  intros _. exists s0, snonce, pmk. split; [done|]. split; [done|]. split; [done|]. right.
  unfold nonce_inv in Hn. rewrite Hst in Hn. by rewrite HN.
Qed.

Lemma try_alt_rests data w :
  resting w -> wpa_ptk_state (sm w) = WPA_PTK_PTKINITNEGOTIATING ->
  (forall n ptk, wpa_verify_key_mic CONFIG_SAE (wpa_key_mgmt (sm w)) n ptk data = 0 -> D ptk) ->
  let r := wpa_try_alt_snonce CONFIG_SAE conf psks data w in
  resting r.2 /\ wpa_ptk_state (sm r.2) = wpa_ptk_state (sm w) /\ update_snonce (sm r.2) = update_snonce (sm w) /\
  (r.1 = 0 -> PTK_valid (sm r.2) = true /\ D (PTK (sm r.2))).
Proof.
  intros Hr Hst HD. cbv zeta. unfold wpa_try_alt_snonce. cbv zeta.
  destruct (search_pmk _ _ _ _ _ _ _ _ _ _ _) as [pmk ptr vlan ptk pf|pf|] eqn:Es; [|done..].
  apply search_pmk_found in Es as (Hd & Hv & Hk & _).
  injection Hv as Hv. apply Z.eqb_eq in Hv. apply HD in Hv.
  assert (Ht : trusted_pmk psks cached pmk).
  { apply (known_trusted _ _ (sm w)); [apply Hr| |done]. apply resting_good; [done|]. unfold late. by rewrite Hst. }
  set (w1 := if bool_decide (ptr = SmPmk) then w else upd (set_pmk pmk) w).
  assert (H1 : resting w1 /\ wpa_ptk_state (sm w1) = wpa_ptk_state (sm w) /\ update_snonce (sm w1) = update_snonce (sm w) /\
    addr (sm w1) = addr (sm w) /\ ANonce (sm w1) = ANonce (sm w)).
  { unfold w1. case_bool_decide; [done|]. split; [by apply resting_set_pmk|done]. }
  clearbody w1. set (w2 := upd (fun s => s <| alt_snonce_valid := false |>) w1).
  assert (H2 : resting w2 /\ wpa_ptk_state (sm w2) = wpa_ptk_state (sm w) /\ update_snonce (sm w2) = update_snonce (sm w) /\
    addr (sm w2) = addr (sm w) /\ ANonce (sm w2) = ANonce (sm w)).
  { destruct H1 as (? & ?). split; [by apply resting_upd|done]. }
  clearbody w2.
  match goal with |- context [let '(r, w') := ?p in _] => set (q := p) end.
  assert (H3 : quiet w2 q.2 /\ sm q.2 = sm w2) by (unfold q; destruct (_ && _); [split; [apply quiet_update_vlan|done]|done]).
  clearbody q. destruct q as [r w3]. cbn [fst snd] in *. destruct H3 as [Q3 E3], H2 as (R2 & S2 & U2 & A2 & N2).
  assert (R3 : resting w3) by (by eapply resting_quiet).
  destruct (r <? 0); cbn [fst snd]; [by rewrite E3|].
  split; [|rewrite wpa_sm_upd, E3; done].
  apply (resting_new_ptk w3 (alt_SNonce (sm w)) pmk ptk (sm w)); rewrite ?E3; (done || congruence).
Qed.

Lemma verify_frame_rests mic_len msg data w :
  resting w -> mic_len <> 0%nat -> (msg = PAIRWISE_4 -> wpa_ptk_state (sm w) = WPA_PTK_PTKINITNEGOTIATING) ->
  (forall n ptk, wpa_verify_key_mic CONFIG_SAE (wpa_key_mgmt (sm w)) n ptk data = 0 -> D ptk) ->
  let r := verify_frame CONFIG_SAE conf psks mic_len msg data w in
  resting r.2 /\ wpa_ptk_state (sm r.2) = wpa_ptk_state (sm w) /\ update_snonce (sm r.2) = update_snonce (sm w) /\
  (r.1 = true ->
   (MICVerified (sm r.2) = true /\ PTK_valid (sm r.2) = true /\ D (PTK (sm r.2))) \/
   (MICVerified (sm r.2) = false /\ (PTK_valid (sm w) = false \/ update_snonce (sm w) = true))).
Proof.
  intros Hr Hm Hmsg HD. cbv zeta. unfold verify_frame. cbv zeta.
  set (w1 := upd (fun s => s <| MICVerified := false |>) w).
  assert (R1 : resting w1) by (by apply resting_upd).
  change (PTK_valid (sm w1)) with (PTK_valid (sm w)). change (update_snonce (sm w1)) with (update_snonce (sm w)).
  destruct (PTK_valid (sm w)) eqn:Ev; cbn [andb]; [|split; [done|split; [done|split; [done|] ] ]; right; by split; [|left] ].
  destruct (update_snonce (sm w)) eqn:Eu; cbn [negb]; [split; [done|split; [done|split; [done|] ] ]; right; by split; [|right] |].
  match goal with |- context [let '(bad, w') := ?p in _] => set (q := p) end.
  assert (Hq : resting q.2 /\ wpa_ptk_state (sm q.2) = wpa_ptk_state (sm w) /\ update_snonce (sm q.2) = false /\
    (q.1 = false -> PTK_valid (sm q.2) = true /\ D (PTK (sm q.2)))).
  { unfold q. apply Nat.eqb_neq in Hm. rewrite Hm. cbn [negb andb].
    destruct (Z.eqb_spec (wpa_verify_key_mic CONFIG_SAE (wpa_key_mgmt (sm w1)) (pmk_len (sm w1)) (PTK (sm w1)) data) 0) as [Hv|Hv]; cbn [negb].
    - split; [done|]. split; [done|]. split; [done|]. intros _. split; [done|]. by eapply HD.
    - case_bool_decide as Em; cbn [orb]; [done|]. destruct (negb (alt_snonce_valid _)); [done|].
      destruct (try_alt_rests data w1 R1 (Hmsg Em) HD) as (T1 & T2 & T3 & T4).
      destruct (wpa_try_alt_snonce _ _ _ _ _) as [r w2]. cbn [fst snd] in *. split; [done|]. split; [done|]. split; [by rewrite T3|].
      intros Hz. apply T4. by apply negb_false_iff, Z.eqb_eq in Hz. }
  clearbody q. destruct q as [bad w2]. cbn [fst snd] in Hq. destruct Hq as (R2 & S2 & U2 & D2).
  destruct bad; [done|]. cbn [fst snd]. destruct (D2 eq_refl) as [V2 D2'].
  set (w3 := eloop_cancel_timeout T_send_eapol (upd (fun s => s <| MICVerified := true |>) w2)).
  assert (R3 : resting w3) by (apply cancel_rests; by apply resting_upd).
  split; [by apply resting_upd|]. split; [done|]. split; [done|]. intros _. left. by split.
Qed.

(** The frame answers the message that the state waits for. *)
Definition answers (data : bytes) (s : wpa_state_machine) : Prop :=
  flag_set (key_info data) WPA_KEY_INFO_REQUEST = false -> flag_set (key_info data) WPA_KEY_INFO_KEY_TYPE = true ->
  match wpa_ptk_state s with
  | WPA_PTK_PTKCALCNEGOTIATING => MICVerified s = true -> PTK_valid s = true /\ D (PTK s)
  | WPA_PTK_PTKCALCNEGOTIATING2 | WPA_PTK_PTKINITNEGOTIATING =>
    update_snonce s = true \/ (MICVerified s = true /\ PTK_valid s = true /\ D (PTK s))
  | _ => True
  end.

Lemma keep_frame_rests data w :
  resting w -> answers data (sm w) -> resting (keep_frame CONFIG_SAE conf psks hash0 data w).
Proof.
  intros Hr Ha. unfold keep_frame. cbv zeta.
  pose proof (quiet_allocate (length data) w) as Hq.
  assert (Es : sm (allocate (length data) w).2 = sm w) by done. destruct (allocate (length data) w) as [ok w1]. cbn [fst snd] in *.
  assert (R1 : resting w1) by (by eapply resting_quiet). destruct ok; cbn [negb]; [|by apply resting_upd].
  apply step_rests; [|apply R1]. split.
  - eapply outer_change; [apply R1|]. by apply outside_upd.
  - unfold rx_inv, pairwise_received. rewrite wpa_sm_upd. wpa_simpl. rewrite Es.
    destruct (flag_set (key_info data) WPA_KEY_INFO_REQUEST) eqn:Er; [done|]. cbn [negb andb]. intros Hk.
    specialize (Ha Er Hk). destruct (wpa_ptk_state (sm w)); try exact Ha; destruct Ha as [?|?]; auto.
Qed.

(** At rest, or freed. *)
Definition rested (w : W) : Prop := since (just a D) base (events w) /\ (freed w = true \/ resting w).
Lemma resting_rested w : resting w -> rested w.
Proof. intros H. split; [apply H|by right]. Qed.

Lemma deinit_rested w : resting w -> rested (wpa_auth_sta_deinit conf w).
Proof.
  intros Hr. unfold wpa_auth_sta_deinit. cbv zeta.
  match goal with |- context [eloop_cancel_timeout T_send_eapol ?x] => assert (H : events x = events w /\ sm x = sm w); [|set (v := x) in *; clearbody v] end.
  { destruct (_ && _); [|done]. by destruct (deplete _ _ _). }
  destruct H as [He Hs].
  match goal with |- context [in_step_loop (sm ?x)] => assert (Hl : in_step_loop (sm x) = false) end.
  { change (in_step_loop (sm v) = false). rewrite Hs. apply Hr. }
  rewrite Hl. unfold wpa_free_sta_sm, rested. wpa_simpl. split; [|by left].
  unfold cancel_update. match goal with |- context [if ?b then _ else _] => destruct b end; cbn; rewrite He; apply Hr.
Qed.

Lemma error_report_rests g w :
  resting w -> PTK_valid (sm w) = true ->
  let r := wpa_receive_error_report conf g w in
  rested r.2 /\ (0 <? r.1 = false -> resting r.2).
Proof.
  intros Hr Hv. cbv zeta. unfold wpa_receive_error_report.
  assert (Hn : rested (wpa_request_new_ptk conf w) /\ resting (wpa_request_new_ptk conf w)).
  { assert (resting (wpa_request_new_ptk conf w)) by (apply request_rests; auto). split; [by apply resting_rested|done]. }
  destruct (_ && _); [split; [|intros _]; apply Hn|]. destruct (_ && _); [split; [|intros _]; apply Hn|]. cbv zeta.
  assert (R1 : resting (emit MicFailure w)) by (eapply resting_quiet; [done|by apply quiet_emit]).
  destruct (0 <? cb_mic_failure_report _) eqn:E1; cbn [fst snd].
  - split; [by apply deinit_rested|done].
  - match goal with |- rested (wpa_request_new_ptk conf ?x) /\ _ => assert (R2 : resting x) end.
    { eapply (resting_quiet (upd (fun s => s <| dot11RSNAStatsTKIPRemoteMICFailures ::= fun n => n + 1 |>) (emit MicFailure w))).
      - by apply resting_upd.
      - split; [done|]. by apply calm_silent. }
    match goal with |- rested ?x /\ _ => assert (R3 : resting x) by (apply request_rests; [done|by left]) end.
    split; [by apply resting_rested|done].
Qed.

Lemma handle_request_rests mic_len data w :
  resting w -> PTK_valid (sm w) = true ->
  let r := handle_request CONFIG_SAE conf psks hash0 mic_len data w in
  rested r.2 /\ (r.1 = true -> resting r.2).
Proof.
  intros Hr Hv. cbv zeta. unfold handle_request. cbv zeta. set (w1 := upd _ w).
  assert (R1 : resting w1) by (by apply resting_upd).
  assert (Hok : forall v, resting v -> rested v /\ (true = true -> resting v)) by (intros v ?; split; [by apply resting_rested|done]).
  destruct (flag_set _ WPA_KEY_INFO_ERROR).
  { pose proof (error_report_rests (negb (flag_set (key_info data) WPA_KEY_INFO_KEY_TYPE)) w1 R1 Hv) as He. cbv zeta in He.
    destruct (wpa_receive_error_report conf _ w1) as [r w2]. cbn [fst snd] in *. destruct He as [H1 H2]. split; [done|].
    intros H. apply H2. by apply negb_true_iff. }
  destruct (flag_set _ WPA_KEY_INFO_KEY_TYPE); [apply Hok, request_rests; auto|].
  destruct (_ && _); [by apply Hok|]. apply Hok. destruct (wpa_auth_gtk_rekey_in_process _); [by apply cancel_rests|].
  by apply rekey_gtk_rests, cancel_rests.
Qed.

Lemma classify_flags mic_len data :
  (classify mic_len data = REQUEST <-> flag_set (key_info data) WPA_KEY_INFO_REQUEST = true) /\
  (flag_set (key_info data) WPA_KEY_INFO_REQUEST = false -> flag_set (key_info data) WPA_KEY_INFO_KEY_TYPE = true ->
   classify mic_len data = PAIRWISE_2 \/ classify mic_len data = PAIRWISE_4).
Proof.
  unfold classify. cbv zeta. destruct (flag_set _ WPA_KEY_INFO_REQUEST); [done|].
  destruct (flag_set _ WPA_KEY_INFO_KEY_TYPE); cbn [negb]; [|done]. destruct (_ || _); (split; [done|auto]).
Qed.

Lemma process_frame_rested mic_len data w :
  resting w -> mic_len <> 0%nat -> msg_expected (classify mic_len data) (sm w) = true ->
  (forall n ptk, wpa_verify_key_mic CONFIG_SAE (wpa_key_mgmt (sm w)) n ptk data = 0 -> D ptk) ->
  rested (process_frame CONFIG_SAE conf psks hash0 mic_len (classify mic_len data) data w).
Proof.
  intros Hr Hm He HD. set (msg := classify mic_len data) in *. unfold process_frame.
  assert (Hst : msg = PAIRWISE_4 -> wpa_ptk_state (sm w) = WPA_PTK_PTKINITNEGOTIATING /\ PTK_valid (sm w) = true).
  { intros E1. rewrite E1 in He. cbn [msg_expected] in He. apply andb_true_iff in He as [He ?]. split; [by apply bool_decide_eq_true_1 in He|done]. }
  pose proof (verify_frame_rests mic_len msg data w Hr Hm (fun H => proj1 (Hst H)) HD) as Hv. cbv zeta in Hv.
  destruct (verify_frame _ _ _ _ _ _ _) as [ok w1]. cbn [fst snd] in Hv. destruct Hv as (R1 & S1 & U1 & V1).
  destruct ok; cbn [negb]; [|by apply resting_rested]. specialize (V1 eq_refl). destruct (classify_flags mic_len data) as [F1 F2].
  case_bool_decide as Emsg.
  - destruct (MICVerified (sm w1)) eqn:Em; cbn [negb]; [|by apply resting_rested].
    assert (V2 : PTK_valid (sm w1) = true) by (destruct V1 as [(_ & ? & _)|[? _] ]; [done|congruence]).
    pose proof (handle_request_rests mic_len data w1 R1 V2) as Hh. cbv zeta in Hh.
    destruct (handle_request _ _ _ _ _ _ _) as [go w2]. cbn [fst snd] in Hh. destruct Hh as [H1 H2].
    destruct go; [|done]. apply resting_rested, keep_frame_rests; [auto|]. unfold answers. apply F1 in Emsg. congruence.
  - apply resting_rested, keep_frame_rests; [by apply resting_upd|]. intros Hq Hk.
    change (wpa_ptk_state (sm (upd (use_replay_counter msg data) w1))) with (wpa_ptk_state (sm w1)).
    change (update_snonce (sm (upd (use_replay_counter msg data) w1))) with (update_snonce (sm w1)).
    change (MICVerified (sm (upd (use_replay_counter msg data) w1))) with (MICVerified (sm w1)).
    change (PTK_valid (sm (upd (use_replay_counter msg data) w1))) with (PTK_valid (sm w1)).
    change (PTK (sm (upd (use_replay_counter msg data) w1))) with (PTK (sm w1)).
    rewrite S1, U1. destruct (F2 Hq Hk) as [E2|E2]; fold msg in E2; rewrite E2 in *; cbn [msg_expected] in He.
    + destruct (wpa_ptk_state (sm w)) eqn:Es; try done.
      * destruct V1 as [(_ & V1)|[V1 _] ]; [done|congruence].
      * rewrite andb_false_r in He. done.
      * left. cbn in He. by rewrite andb_true_r in He.
    + destruct (Hst eq_refl) as [-> Hv]. destruct V1 as [V1|[_ [V1|V1] ] ]; [by right|congruence|by left].
Qed.

Lemma receive_rested data w :
  resting w ->
  (forall n ptk, wpa_verify_key_mic CONFIG_SAE (wpa_key_mgmt (sm w)) n ptk data = 0 -> D ptk) ->
  rested (wpa_receive CONFIG_SAE conf psks hash0 data w).
Proof.
  intros Hr HD. unfold wpa_receive. cbv zeta. set (mic_len := wpa_mic_len _ _).
  assert (Hm : mic_len <> 0%nat) by (destruct Hr as ([_ _ _ _ [_ _ _ [Hm _] ] _ _] & _); apply Hm).
  pose proof (resting_rested w Hr) as Hw.
  destruct (_ =? _); [done|]. destruct (negb (frame_shape_ok _ _ _)); [done|]. destruct (negb (frame_version_ok _ _)); [done|].
  destruct (check_replay _ _ _) as [s'|] eqn:Ec; [|done].
  assert (Hs : s' = sm w \/ s' = (sm w) <| update_snonce := true |> <| alt_SNonce := SNonce (sm w) |> <| alt_snonce_valid := true |>
            <| alt_replay_counter := from_option counter [] (head (key_replay (sm w))) |>).
  { revert Ec. unfold check_replay. cbv zeta. repeat match goal with |- context [if ?b then _ else _] => destruct b end; intros Ec; try done; injection Ec as <-; auto. }
  set (w1 := w <| sm := s' |>).
  assert (R1 : resting w1 /\ wpa_key_mgmt (sm w1) = wpa_key_mgmt (sm w)).
  { change w1 with (upd (fun _ => s') w). destruct Hs as [-> | ->]; (split; [by apply resting_upd|done]). }
  destruct R1 as [R1 K1]. destruct (negb (msg_expected _ _)) eqn:Ee; [by apply resting_rested|].
  destruct (_ && _). { apply resting_rested. apply event_rests. eapply resting_quiet; [exact R1|by apply quiet_emit]. }
  destruct (flag_set _ _); [by apply resting_rested|]. destruct (_ && _); [by apply resting_rested|].
  apply process_frame_rested; [done|done|by apply negb_false_iff in Ee|by rewrite K1].
Qed.

(** *** Every input *)

Lemma request_fire t w : wpa_request_new_ptk conf (fire t w) = fire t (wpa_request_new_ptk conf w).
Proof.
  unfold wpa_request_new_ptk. change (sm (fire t w)) with (sm w). destruct (_ && _); [done|].
  by destruct (use_ext_key_id (sm w)).
Qed.

Lemma exec_rested i w :
  resting w -> enabled cached i w ->
  match i with
  | Receive data => forall n ptk, wpa_verify_key_mic CONFIG_SAE (wpa_key_mgmt (sm w)) n ptk data = 0 -> D ptk
  | _ => forall ptk, ~ D ptk
  end -> rested (exec CONFIG_SAE conf psks hash0 i w).
Proof.
  intros Hr (_ & _ & Hen) HD. destruct i as [data| | | | | |ack| | |reassoc|ev|v cipher akm ie rsnxe pmf ext entry|run0 avail|remaining|id|flag| | |];
    cbn [exec]; [by apply receive_rested|apply resting_rested..].
  - apply step_resting. apply resting_upd; [by apply fire_rests|done|done|done].
  - unfold wpa_rekey_ptk. rewrite request_fire. apply step_resting, fire_rests, request_rests; [done|by right].
  - by apply rekey_gtk_rests, fire_rests.
  - unfold wpa_rekey_gmk. pose proof (quiet_random R_GMK WPA_GMK_LEN (fire T_rekey_gmk w) ltac:(done)) as Hq.
    destruct (random R_GMK WPA_GMK_LEN (fire T_rekey_gmk w)) as [ [ok b] w1]. cbn [snd] in Hq. cbv zeta.
    assert (R1 : resting (updg (fun g => g <| GMK := b |>) w1))
      by (apply resting_group; eapply resting_quiet; [by apply (fire_rests T_rekey_gmk)|done]).
    destruct (_ =? _); [done|by apply timer_rests].
  - by apply step_resting, fire_rests.
  - unfold wpa_auth_eapol_key_tx_status. destruct (_ && _); [|done]. by apply timer_rests, cancel_rests.
  - by apply timer_rests.
  - by apply timer_rests, cancel_rests.
  - cbv zeta. pose proof (event_rests WPA_ASSOC w Hr) as R1. destruct reassoc; [by apply event_rests|].
    apply associated_rests; [done|]. by apply assoc_event_unkeyed.
  - by apply event_rests.
  - eapply resting_change; [exact Hr| |apply Hr|done]. split; [done|apply hushed_upd|done|by intros _|done|by left].
  - eapply resting_quiet; [exact Hr|]. split; [done|]. by apply calm_silent.
  - by apply group_step_rests, resting_group.
  - by apply resting_upd.
  - by apply resting_upd.
  - unfold wpa_wnmsleep_rekey_gtk. destruct (is_wnmsleep _); [done|by apply update_sta_rests].
  - by apply resting_upd.
  - eapply resting_change; [exact Hr| |apply Hr|done].
    split; [done|apply hushed_upd|done| |done|by left]. intros [_ H]. split; [done|exact H].
Qed.
End safety.

(** ** Runs *)

Section runs.
Context {C : Crypto} {E : WpaEnv} (CONFIG_SAE : bool) (conf : wpa_auth_config) (psks : psk_config).
Context (hash0 : bytes) (cached : bytes -> Prop).
Notation W := world.

(** The MIC of the input verifies under the PTK. *)
Definition verifies (i : wpa_input) (akm : Z) (ptk : wpa_ptk) : Prop :=
  match i with
  | Receive data => exists n, wpa_verify_key_mic CONFIG_SAE akm n ptk data = 0
  | _ => False
  end.

(** At rest, whatever has happened so far. *)
Definition calm_station (a : bytes) (w : W) : Prop :=
  resting_at CONFIG_SAE conf psks cached a (fun _ => True) (events w) w.

Lemma rebase a D D' base w :
  resting_at CONFIG_SAE conf psks cached a D base w -> resting_at CONFIG_SAE conf psks cached a D' (events w) w.
Proof. intros ([H1 H2 H3 H4 H5 H6 H7] & Hi & Hr). split; [|by split]. split; try done. apply since_refl. Qed.

Lemma attached_resting a w : attached a w -> calm_station (take ETH_ALEN a) w.
Proof.
  intros ([p2p Hs] & Ht & _). unfold wpa_auth_sta_init in Hs. case_bool_decide; [done|]. injection Hs as Hs.
  unfold calm_station, resting_at. rewrite <- Hs. split; [|by split].
  split; rewrite <- ?Hs; try done; [|apply since_refl].
  split; try done. right. split; [|done]. unfold late. wpa_simpl. cbn [has_pmk orb]. exact Ht.
Qed.

Lemma exec_calm a i w :
  nonces_available -> 1 <= wpa_group_update_count conf -> calm_station a w -> enabled cached i w ->
  let w' := exec CONFIG_SAE conf psks hash0 i w in
  since (justified conf psks cached a (verifies i (wpa_key_mgmt (sm w)))) (events w) (events w') /\
  (freed w' = true \/ calm_station a w').
Proof.
  intros Hn Hc Hr He. cbv zeta. set (D := verifies i (wpa_key_mgmt (sm w))).
  assert (H : rested CONFIG_SAE conf psks cached a D (events w) (exec CONFIG_SAE conf psks hash0 i w)).
  { apply exec_rested; [done|done|by eapply rebase|done|]. unfold D, verifies. destruct i; auto. intros n ptk Hv. by exists n. }
  destruct H as [H1 [H2|H2] ]; (split; [done|]); [by left|right; by eapply rebase].
Qed.

Lemma run_calm a w0 l w :
  nonces_available -> 1 <= wpa_group_update_count conf -> attached a w0 ->
  run CONFIG_SAE conf psks hash0 cached w0 l w -> freed w = false -> calm_station (take ETH_ALEN a) w.
Proof.
  intros Hn Hc Ha Hrun. induction Hrun as [|l w i Hrun IH He]; intros Hf; [by apply attached_resting|].
  destruct (exec_calm (take ETH_ALEN a) i w Hn Hc (IH (proj1 He)) He) as [_ [H|H] ]; [congruence|done].
Qed.

(** An event of the last input. *)
Definition happens (w w' : W) (past : list event) (e : event) : Prop :=
  exists l1 l2, events w' = l1 ++ e :: l2 ++ events w /\ past = l2 ++ events w.

Lemma happens_justified J w w' past e : since J (events w) (events w') -> happens w w' past e -> J past e.
Proof.
  intros (new & Ew & Hn) (l1 & l2 & He & ->). rewrite Ew in He. apply (Hn l1 e l2).
  change (new ++ events w = l1 ++ (e :: l2) ++ events w) in He. rewrite app_assoc in He. by apply app_inv_tail in He.
Qed.


(** C5: the EAPOL port is opened, and the station authorized, only while a frame is
    processed whose MIC verifies under a PTK that is derived from a trusted PMK. *)
Theorem port_opened_authenticated a w0 l w i past e :
  nonces_available -> 1 <= wpa_group_update_count conf ->
  attached a w0 -> run CONFIG_SAE conf psks hash0 cached w0 l w -> enabled cached i w ->
  happens w (exec CONFIG_SAE conf psks hash0 i w) past e -> is_open e = true ->
  exists data ptk n, i = Receive data /\ wpa_verify_key_mic CONFIG_SAE (wpa_key_mgmt (sm w)) n ptk data = 0 /\
    genuine conf psks cached (take ETH_ALEN a) (fun _ => True) ptk.
Proof.
  intros Hn Hc Ha Hrun He Hh Ho. pose proof (run_calm _ _ _ _ Hn Hc Ha Hrun (proj1 He)) as Hr.
  destruct (exec_calm _ i w Hn Hc Hr He) as [Hs _]. destruct (happens_justified _ _ _ _ _ Hs Hh) as [_ Hj].
  destruct (Hj Ho) as (ptk & Hv & Hg). destruct i; try done. destruct Hv as [n Hv]. by eexists _, ptk, n.
Qed.
End runs.
