(* ===== verification/WpaTheorems.v ===== *)
(** * The WPA authenticator: termination, retries and replay

    What [wpa_sm_step] promises its callers, the limit on retransmissions, and the
    protection against replayed answers. *)

From S2P Require Import Prelude Bytes HashSpec Hmac AesInterface AesWrap AesOmac Rc4.
From S2P Require Import WpaKeys WpaState WpaFrame WpaPsk WpaGroup WpaPtk WpaAuth WpaProofs WpaRun WpaLoop.

Section theorems.
Context {C : Crypto} {E : WpaEnv} (CONFIG_SAE : bool) (conf : wpa_auth_config) (psks : psk_config).
Context (hash0 : bytes).
Notation W := world.
Notation step := (wpa_sm_step CONFIG_SAE conf psks hash0).
Notation sloop := (step_loop CONFIG_SAE conf psks hash0).

(** [sm->in_step_loop = 1;] *)
Definition entering (w : W) : W := upd (fun s => s <| in_step_loop := true |>) w.

(** C10: while nonces can be drawn, the loop of [wpa_sm_step] ends by itself, after
    at most [STEP_FUEL] passes (more fuel changes nothing, and nothing is marked as
    changed); outside initialization it leaves a station in a state that waits for
    an input, with no request pending. *)
Theorem wpa_sm_step_ends w :
  nonces_available -> 1 <= wpa_group_update_count conf ->
  in_step_loop (sm w) = false -> pending_deinit (sm w) = false -> (Init (sm w) = false -> idle_fresh (sm w)) ->
  (forall fuel, (STEP_FUEL <= fuel)%nat -> sloop fuel (entering w) = sloop STEP_FUEL (entering w)) /\
  settled (sloop STEP_FUEL (entering w)) /\ (step w).1 = 0 /\
  (Init (sm w) = false -> undisturbed (sm (step w).2) /\ ptk_waits conf (sm (step w).2) = true).
Proof.
  intros Hn Hc Hl Hd Hf. assert (Lv : looping (entering w)) by (by split).
  destruct (ptk_loop_ends CONFIG_SAE conf psks hash0 STEP_FUEL (entering w) Hn Hc Lv Hf) as (S1 & _ & (w0 & L0 & I0 & P0) & M1);
    [apply rank_bound|].
  destruct (step_loop_stable CONFIG_SAE conf psks hash0 (fun _ => True) STEP_FUEL (entering w)) as [_ L1]; [by split|done..|].
  assert (Es : step w = (0, upd (fun s => s <| in_step_loop := false |>) (sloop STEP_FUEL (entering w)))).
  { unfold wpa_sm_step. rewrite Hl. cbv zeta. fold (entering w). set (x := sloop STEP_FUEL (entering w)) in *. clearbody x.
    change (pending_deinit (sm (upd (fun s => s <| in_step_loop := false |>) x))) with (pending_deinit (sm x)).
    by rewrite (proj2 L1). }
  split; [exact M1|]. split; [done|]. rewrite Es. split; [done|]. intros Hi. cbn [snd].
  set (x := sloop STEP_FUEL (entering w)) in *. clearbody x. change (Init (sm (entering w))) with (Init (sm w)) in I0.
  rewrite Hi in I0. exact (step_pass_settled CONFIG_SAE conf psks hash0 w0 x L0 I0 P0 S1).
Qed.

(** When no nonce can be drawn, a request for a new PTK is never answered and
    never dropped: [wpa_sm_step] runs for ever, whatever the number of passes. *)
Theorem wpa_sm_step_endless w fuel :
  nonces_exhausted -> in_step_loop (sm w) = false -> pending_deinit (sm w) = false ->
  Init (sm w) = false -> PTKRequest (sm w) = true -> (0 < fuel)%nat ->
  changed (sm (sloop fuel (entering w))) = true.
Proof. intros Hx Hl Hd Hi Hr H0. by apply step_loop_endless. Qed.

(** What [wpa_sta_disconnect] tells the outside. *)
Lemma disconnect_events reason w :
  in_step_loop (sm w) = true ->
  dot11RSNA4WayHandshakeFailures (disconnect conf reason w) = dot11RSNA4WayHandshakeFailures w /\
  exists new, events (disconnect conf reason w) = new ++ Deauth reason :: events w /\
    Forall (fun e => match e with SendEapol _ _ => False | _ => True end) new.
Proof.
  intros Hl. unfold disconnect, wpa_sta_disconnect, wpa_auth_sm_event, sm_event_end, wpa_remove_ptk.
  rewrite (bool_decide_eq_false_2 (WPA_DEAUTH = WPA_AUTH)) by done.
  rewrite (bool_decide_eq_true_2 (WPA_DEAUTH <> WPA_REAUTH_EAPOL)) by done.
  rewrite andb_false_r. cbn [negb]. cbv zeta. unfold wpa_auth_set_key. cbv zeta. cbn [snd].
  match goal with |- context [if use_ext_key_id ?s then _ else _] =>
    change (use_ext_key_id s) with (use_ext_key_id (sm w)) end.
  destruct (use_ext_key_id (sm w)).
  all: match goal with |- context [if in_step_loop ?s then _ else _] =>
    change (in_step_loop s) with (in_step_loop (sm w)) end; rewrite Hl; cbn [snd].
  - split; [done|]. eexists [_; _; _]. split; [reflexivity|]. by repeat constructor.
  - split; [done|]. eexists [_; _]. split; [reflexivity|]. by repeat constructor.
Qed.

(** [DISCONNECT]: the keys are gone, and the reason is told. *)
Lemma DISCONNECT_keys w :
  in_step_loop (sm w) = true ->
  let w' := sm_WPA_PTK_DISCONNECT_Enter conf w in
  wpa_ptk_state (sm w') = WPA_PTK_DISCONNECT /\ PTK_valid (sm w') = false /\ PTK (sm w') = zero_ptk /\
  DeauthenticationRequest (sm w') = true.
Proof.
  intros Hl. cbv zeta. pose proof (reaches_DISCONNECT conf w Hl) as Hx.
  rewrite (reaches_field wpa_ptk_state _ _ _ ltac:(done) Hx), (reaches_field PTK_valid _ _ _ ltac:(done) Hx),
    (reaches_field PTK _ _ _ ltac:(done) Hx), (reaches_field DeauthenticationRequest _ _ _ ltac:(done) Hx).
  clear Hx. by destruct (sm w).
Qed.
Lemma DISCONNECT_events reason w :
  in_step_loop (sm w) = true -> disconnect_reason (sm w) = reason -> reason <> 0 ->
  let w' := sm_WPA_PTK_DISCONNECT_Enter conf w in
  dot11RSNA4WayHandshakeFailures w' = dot11RSNA4WayHandshakeFailures w /\
  exists new, events w' = new ++ Deauth reason :: events w /\
    Forall (fun e => match e with SendEapol _ _ => False | _ => True end) new.
Proof.
  intros Hl Hr H0. cbv zeta. unfold sm_WPA_PTK_DISCONNECT_Enter. cbv zeta. rewrite Hr.
  rewrite (proj2 (Z.eqb_neq reason 0) H0). 
  match goal with |- context [disconnect conf reason ?x] => exact (disconnect_events reason x Hl) end.
Qed.

End theorems.
