(* ===== verification/WpaReplay.v ===== *)
(** * The WPA authenticator: replay counters and the rekeying of the group

    Answers are accepted once: what [use_replay_counter] leaves is rejected by
    [check_replay].  The counter itself ([inc_byte_array]) counts.  The loop of
    [wpa_rekey_gtk] ends. *)

From S2P Require Import Prelude Bytes HashSpec Hmac AesInterface AesWrap AesCtr AesOmac Rc4.
From S2P Require Import WpaKeys WpaState WpaFrame WpaPsk WpaGroup WpaPtk WpaAuth WpaProofs WpaRun WpaLoop.
From S2P Require AesCorrect.

(** ** Used counters *)

Lemma all_marked_invalid l rc : wpa_replay_counter_valid (wpa_replay_counter_mark_invalid None l) rc = false.
Proof.
  destruct l as [|c l]; [done|]. cbn. rewrite andb_true_r. destruct (valid c) eqn:Hv; cbn; [done|by rewrite Hv].
Qed.

(** A counter that has been marked is not found, whatever the others are. *)
Lemma marked_invalid l rc rc' :
  same WPA_REPLAY_COUNTER_LEN rc' rc = true ->
  wpa_replay_counter_valid (wpa_replay_counter_mark_invalid (Some rc) l) rc' = false.
Proof.
  intros Hs. induction l as [|c l IH]; [done|]. cbn [map wpa_replay_counter_mark_invalid wpa_replay_counter_valid].
  destruct (valid c) eqn:Hv; cbn [andb]; [|by rewrite Hv].
  destruct (same WPA_REPLAY_COUNTER_LEN rc (counter c)) eqn:Hc; cbn [valid counter negb]; [done|]. rewrite Hv. cbn [negb].
  destruct (same WPA_REPLAY_COUNTER_LEN rc' (counter c)) eqn:Hc'; [|exact IH].
  unfold same in *. apply bool_decide_eq_true in Hs, Hc'. rewrite Hs in Hc'. by rewrite (bool_decide_eq_true_2 _ Hc') in Hc.
Qed.

Lemma unset_invalid n rc : wpa_replay_counter_valid (replicate n zero_counter) rc = false.
Proof. by destruct n. Qed.

(** ** Counting *)

Lemma get_inserted i v (c : bytes) : (i < length c)%nat -> get (<[i := v]> c) i = v.
Proof. intros Hi. by rewrite AesCorrect.get_insert, decide_True. Qed.
Lemma inc_from_ctr i c : (i < length c)%nat -> inc_from (S i) c = ctr_inc_from i c.
Proof.
  revert c. induction i as [|i IH]; intros c Hi; cbn [inc_from ctr_inc_from]; cbv zeta; rewrite get_inserted by done.
  - by destruct (_ =? 0).
  - destruct (_ =? 0); cbn [negb]; [|done]. apply IH. rewrite length_insert. lia.
Qed.

Definition counter_ok (c : bytes) : Prop := length c = WPA_REPLAY_COUNTER_LEN /\ wf_bytes c.

(** [inc_byte_array] adds one to a big-endian number, and wraps around. *)
Lemma inc_byte_array_decode n c : length c = n -> (0 < n)%nat -> wf_bytes c ->
  length (inc_byte_array c n) = n /\ wf_bytes (inc_byte_array c n) /\
  be_decode (inc_byte_array c n) = (be_decode c + 1) mod 256 ^ Z.of_nat n.
Proof.
  intros Hl H0 Hw. destruct n as [|i]; [lia|]. unfold inc_byte_array. rewrite inc_from_ctr by lia.
  destruct (ctr_inc_from_spec i c [] Hl Hw) as (c' & E & L & W' & D). rewrite !app_nil_r in E. by rewrite E.
Qed.
Lemma counter_inc c : counter_ok c -> be_decode c + 1 < 2 ^ 64 ->
  counter_ok (inc_byte_array c WPA_REPLAY_COUNTER_LEN) /\
  be_decode (inc_byte_array c WPA_REPLAY_COUNTER_LEN) = be_decode c + 1.
Proof.
  intros [Hl Hw] Hb. destruct (inc_byte_array_decode WPA_REPLAY_COUNTER_LEN c Hl) as (H1 & H2 & H3); [unfold WPA_REPLAY_COUNTER_LEN; lia|done|].
  split; [done|]. rewrite H3. pose proof (be_decode_range c Hw). apply Z.mod_small.
  change (256 ^ Z.of_nat WPA_REPLAY_COUNTER_LEN) with (2 ^ 64). lia.
Qed.
Lemma same_counters a b : counter_ok a -> counter_ok b -> same WPA_REPLAY_COUNTER_LEN a b = true -> a = b.
Proof.
  intros [Ha _] [Hb _] H. unfold same in H. apply bool_decide_eq_true in H.
  by rewrite !firstn_all2 in H by lia.
Qed.

(** ** The pending counters *)

(** The newest is the largest. *)
Record replay_ok (l : list wpa_key_replay_counter) (newest : Z) : Prop := {
  ro_counters : Forall (fun c => counter_ok (counter c) /\ be_decode (counter c) <= newest) l;
  ro_newest : exists c l', l = c :: l' /\ be_decode (counter c) = newest }.

Lemma replay_ok_sent l newest : replay_ok l newest -> newest + 1 < 2 ^ 64 -> replay_ok (next_replay l) (newest + 1).
Proof.
  intros [Hc (c & l' & -> & Hn)] Hb. apply Forall_cons in Hc as [ [Hok Hle] Hc].
  destruct (counter_inc (counter c) Hok) as [Hi Hd]; [lia|]. unfold next_replay. split.
  - constructor; [cbn [counter]; split; [done|lia]|]. apply Forall_take. constructor; [split; [done|lia]|].
    eapply Forall_impl; [exact Hc|]. intros c' [? ?]. split; [done|lia].
  - eexists _, _. split; [reflexivity|]. cbn [counter]. lia.
Qed.
Lemma replay_ok_marked l newest rc : replay_ok l newest -> replay_ok (wpa_replay_counter_mark_invalid rc l) newest.
Proof.
  assert (Hk : forall c, counter (if valid c && match rc with None => true | Some rc => same WPA_REPLAY_COUNTER_LEN rc (counter c) end
    then mk_counter (counter c) false else c) = counter c) by (intros c; by destruct (_ && _)).
  intros [Hc (c & l' & -> & Hn)]. split.
  - apply Forall_map. eapply Forall_impl; [exact Hc|]. intros c' H. cbn beta. by rewrite Hk.
  - eexists _, _. split; [reflexivity|]. by rewrite Hk.
Qed.

(** ** Used once *)

(** The counter [rc] is not one of the counters to come, and is accepted neither as
    pending nor as pending before. *)
Record spent (rc : bytes) (newest : Z) (s : wpa_state_machine) : Prop := {
  sp_ok : replay_ok (key_replay s) newest;
  sp_old : be_decode rc <= newest;
  sp_key : wpa_replay_counter_valid (key_replay s) rc = false;
  sp_prev : wpa_replay_counter_valid (prev_key_replay s) rc = false }.

(** What happens to the counters between two frames: a frame is sent, or another
    answer is processed. *)
Inductive counter_op := Sent | Answered (msg : wpa_msg) (data : bytes).
Definition counter_step (op : counter_op) (s : wpa_state_machine) : wpa_state_machine :=
  match op with
  | Sent => s <| key_replay ::= next_replay |>
  | Answered msg data => use_replay_counter msg data s
  end.

Lemma mark_keeps_invalid l rc' rc :
  wpa_replay_counter_valid l rc = false ->
  wpa_replay_counter_valid (wpa_replay_counter_mark_invalid rc' l) rc = false.
Proof.
  induction l as [|c l IH]; [done|]. cbn [map wpa_replay_counter_mark_invalid wpa_replay_counter_valid].
  destruct (valid c) eqn:Hv; cbn [andb negb]; [|by rewrite Hv].
  destruct (same WPA_REPLAY_COUNTER_LEN rc (counter c)) eqn:Hs; [done|]. intros H.
  destruct (match rc' with None => true | Some rc0 => _ end); cbn [valid counter negb]; [done|]. rewrite Hv, Hs. by apply IH.
Qed.
Lemma prefix_invalid n l rc : wpa_replay_counter_valid l rc = false -> wpa_replay_counter_valid (take n l) rc = false.
Proof.
  revert n. induction l as [|c l IH]; intros [|n]; try done. cbn [take wpa_replay_counter_valid].
  destruct (negb _); [done|]. destruct (same _ _ _); [done|]. apply IH.
Qed.

Lemma spent_step rc newest op s :
  counter_ok rc -> spent rc newest s -> newest + 1 < 2 ^ 64 ->
  exists newest', newest <= newest' <= newest + 1 /\ spent rc newest' (counter_step op s).
Proof.
  intros Hrc [Hok Hold Hk Hp] Hb. destruct op as [|msg data]; cbn [counter_step].
  - exists (newest + 1). split; [lia|]. split.
    + by apply replay_ok_sent.
    + lia.
    + wpa_simpl. destruct Hok as [Hc (c & l' & Hl & Hn)]. rewrite Hl in *. unfold next_replay.
      cbn [wpa_replay_counter_valid valid counter negb]. apply Forall_cons in Hc as [ [Hc _] _].
      destruct (counter_inc (counter c) Hc) as [Hi Hd]; [lia|].
      destruct (same WPA_REPLAY_COUNTER_LEN rc _) eqn:Hs; [|by apply prefix_invalid].
      apply same_counters in Hs; [|done..]. rewrite Hs in Hold. lia.
    + exact Hp.
  - exists newest. split; [lia|]. unfold use_replay_counter. cbv zeta. split.
    + wpa_simpl. by do 2 apply replay_ok_marked.
    + done.
    + wpa_simpl. apply all_marked_invalid.
    + wpa_simpl. case_bool_decide; [by apply mark_keeps_invalid|apply unset_invalid].
Qed.

Lemma spent_steps rc newest ops s :
  counter_ok rc -> spent rc newest s -> newest + Z.of_nat (length ops) < 2 ^ 64 ->
  exists newest', spent rc newest' (foldr counter_step s ops) /\ newest' <= newest + Z.of_nat (length ops).
Proof.
  intros Hrc Hs. induction ops as [|op ops IH]; intros Hb; [exists newest; split; [done|simpl; lia]|].
  cbn [length] in Hb. destruct IH as (n1 & S1 & L1); [lia|]. destruct (spent_step rc n1 op _ Hrc S1) as (n2 & L2 & S2); [lia|].
  exists n2. cbn [foldr length]. split; [done|]. lia.
Qed.

(** The counters of a station. *)
Record counters_ok (s : wpa_state_machine) (newest : Z) : Prop := {
  co_key : replay_ok (key_replay s) newest;
  co_prev : Forall (fun c => counter_ok (counter c) /\ be_decode (counter c) <= newest) (prev_key_replay s);
  co_alt : alt_snonce_valid s = true -> counter_ok (alt_replay_counter s) /\ be_decode (alt_replay_counter s) <= newest }.

Lemma valid_counter_old l newest rc :
  Forall (fun c => counter_ok (counter c) /\ be_decode (counter c) <= newest) l -> counter_ok rc ->
  wpa_replay_counter_valid l rc = true -> be_decode rc <= newest.
Proof.
  intros Hl Hrc. induction Hl as [|c l [Hc Hle] Hl IH]; [done|]. cbn [wpa_replay_counter_valid].
  destruct (negb _); [done|]. destruct (same _ _ _) eqn:Hs; [|done]. intros _. by rewrite (same_counters _ _ Hrc Hc Hs).
Qed.
Lemma accepted_old msg data s s' newest :
  counters_ok s newest -> counter_ok (replay_counter data) -> msg <> REQUEST -> check_replay msg data s = Some s' ->
  key_replay s' = key_replay s /\ be_decode (replay_counter data) <= newest.
Proof.
  intros [Hk Hp Ha] Hrc Hm. unfold check_replay. cbv zeta. rewrite (bool_decide_eq_false_2 (msg = REQUEST)) by done.
  destruct (wpa_replay_counter_valid (key_replay s) _) eqn:E1.
  { intros [= <-]. split; [done|]. eapply valid_counter_old; [apply Hk|done..]. }
  destruct (_ && negb _) eqn:E2.
  { intros [= <-]. split; [done|]. apply andb_prop in E2 as [E2 _]. apply andb_prop in E2 as [E2 _].
    apply andb_prop in E2 as [_ E2]. eapply valid_counter_old; [apply Hp|done..]. }
  destruct (_ && same _ _ _) eqn:E3; [|done]. intros [= <-]. split; [done|].
  apply andb_prop in E3 as [E3 Es]. apply andb_prop in E3 as [E3 _]. apply andb_prop in E3 as [_ E3].
  destruct (Ha E3) as [Hc Hle]. by rewrite (same_counters _ _ Hrc Hc Es).
Qed.

(** An accepted answer spends its counter. *)
Lemma accepted_spent msg data s s' newest :
  counters_ok s newest -> counter_ok (replay_counter data) -> msg <> REQUEST ->
  check_replay msg data s = Some s' ->
  spent (replay_counter data) newest (use_replay_counter msg data s').
Proof.
  intros Hok Hrc Hm Hc. destruct (accepted_old _ _ _ _ _ Hok Hrc Hm Hc) as [Hk Hold]. pose proof (co_key _ _ Hok) as Ho.
  unfold use_replay_counter. cbv zeta. split.
  - wpa_simpl. rewrite Hk. by do 2 apply replay_ok_marked.
  - done.
  - wpa_simpl. apply all_marked_invalid.
  - wpa_simpl. case_bool_decide; [|apply unset_invalid]. apply marked_invalid. unfold same. by apply bool_decide_eq_true.
Qed.

Lemma spent_rejected msg data s newest :
  spent (replay_counter data) newest s -> msg <> REQUEST -> (msg = PAIRWISE_4 -> alt_snonce_valid s = false) ->
  check_replay msg data s = None.
Proof.
  intros [_ _ Hk Hp] Hm H4. unfold check_replay. cbv zeta. rewrite (bool_decide_eq_false_2 (msg = REQUEST)) by done.
  rewrite Hk, Hp, andb_false_r. cbn [andb]. case_bool_decide as E; [by rewrite (H4 E)|done].
Qed.

(** ** Requests *)

Lemma os_memcmp_decode n a b : length a = n -> length b = n -> wf_bytes a -> wf_bytes b ->
  (os_memcmp n a b <=? 0) = (be_decode a <=? be_decode b).
Proof.
  revert a b. induction n as [|n IH]; intros [|x a] [|y b] Ha Hb Wa Wb; try done.
  apply Forall_cons in Wa as [Hx Wa]. apply Forall_cons in Wb as [Hy Wb]. injection Ha as Ha. injection Hb as Hb.
  pose proof (be_decode_range a Wa). pose proof (be_decode_range b Wb).
  change (x :: a) with ([x] ++ a). change (y :: b) with ([y] ++ b). rewrite !be_decode_app.
  change (be_decode [x]) with x. change (be_decode [y]) with y. cbn [os_memcmp app get nth tail]. unfold get. cbn [nth].
  rewrite Ha, Hb in *. unfold is_byte in *. set (M := 256 ^ Z.of_nat n) in *. destruct (Z.eqb_spec x y) as [->|Hn].
  - rewrite IH by done. destruct (Z.leb_spec (be_decode a) (be_decode b)), (Z.leb_spec (y * M + be_decode a) (y * M + be_decode b)); lia.
  - destruct (Z.leb_spec (x - y) 0), (Z.leb_spec (x * M + be_decode a) (y * M + be_decode b)); nia.
Qed.

(** A request is accepted only with a counter above the one of the last request. *)
Lemma request_rejected data data' s :
  counter_ok (replay_counter data) -> counter_ok (replay_counter data') ->
  req_replay_counter_used s = true -> req_replay_counter s = replay_counter data ->
  check_replay REQUEST data' s = None <-> be_decode (replay_counter data') <= be_decode (replay_counter data).
Proof.
  intros [Hl Hw] [Hl' Hw'] Hu Hr. unfold check_replay. cbv zeta. rewrite (bool_decide_eq_true_2 (REQUEST = REQUEST)), Hu, Hr by done.
  cbn [andb]. rewrite os_memcmp_decode by done. destruct (Z.leb_spec (be_decode (replay_counter data')) (be_decode (replay_counter data))); split; (done || lia).
Qed.

(** ** Received twice *)

Section replay.
Context {C : Crypto} {E : WpaEnv} (CONFIG_SAE : bool) (conf : wpa_auth_config) (psks : psk_config).
Context (hash0 : bytes).


(** ** The loop of [wpa_rekey_gtk] *)

(** The transitions the group has left. *)
Definition group_left (g : gstate) : nat :=
  let '(st, rk, _, _) := g in
  ((if rk then 2 else 0) + match st with WPA_GROUP_GTK_INIT | WPA_GROUP_SETKEYS => 1 | _ => 0 end)%nat.

Notation W := world.
Notation step := (wpa_sm_step CONFIG_SAE conf psks hash0).
Definition left_of (w : W) : nat := group_left (gctl (group w)).

Lemma grp_trans_left s g s' g' : grp_trans s g s' g' -> g.1.2 = false ->
  g'.1.2 = false /\ (group_left g' <= group_left g)%nat /\ (g.2 = false -> g'.2 = true -> (group_left g' < group_left g)%nat).
Proof.
  destruct 1 as [st rk ch|st rk ch|st rk ch [-> | ->]|st rk ch [-> | ->]|st ch [-> | ->] ]; intros Hi; try done.
  all: split; [done|]; split; [|intros Hc Hc'; try (exfalso; clear -Hc Hc'; simpl in *; congruence)]; simpl; try destruct rk; simpl; lia.
Qed.

(** What the loop of [wpa_sm_step] keeps of it. *)
Definition left_at_most (n : nat) (w : W) : Prop := GInit (group w) = false /\ (left_of w <= n)%nat.
Lemma left_gctl n w w' : gctl (group w') = gctl (group w) -> left_at_most n w -> left_at_most n w'.
Proof.
  intros Hg [H1 H2]. unfold left_at_most, left_of in *. rewrite Hg. split; [|done].
  change ((gctl (group w')).1.2 = false). by rewrite Hg.
Qed.
Lemma left_stable n : stable CONFIG_SAE conf psks (left_at_most n).
Proof.
  split.
  - intros w [H1 H2]. split; [exact H1|]. exact H2.
  - intros w w' Hw (l & s' & Ht & _ & He). eapply left_gctl; [|exact Hw]. by eapply label_gctl.
  - intros w w' Hw [_ Hc]. eapply left_gctl; [by apply calm_group|exact Hw].
  - intros w w' [H1 H2] (s' & g' & Ht & _ & Hg & _). destruct (grp_trans_left _ _ _ _ Ht H1) as (A1 & A2 & _).
    unfold left_at_most, left_of. rewrite Hg. split; [|unfold left_of in H2; lia].
    change ((gctl (group w')).1.2 = false). by rewrite Hg.
Qed.

Definition resting (w : W) : Prop := in_step_loop (sm w) = false /\ pending_deinit (sm w) = false.
Lemma step_left n w : resting w -> left_at_most n w -> resting (step w).2 /\ left_at_most n (step w).2.
Proof.
  intros [Hl Hd] Hw. unfold wpa_sm_step. rewrite Hl. cbv zeta. set (v := upd _ w).
  assert (Lv : looping v) by (by split). assert (Wv : left_at_most n v) by exact Hw.
  destruct (step_loop_stable CONFIG_SAE conf psks hash0 _ STEP_FUEL v (left_stable n) Lv Wv) as [I1 L1].
  set (x := step_loop _ _ _ _ _ v) in *. clearbody x.
  change (pending_deinit (sm (upd (fun s => s <| in_step_loop := false |>) x))) with (pending_deinit (sm x)).
  rewrite (proj2 L1). cbn [snd]. split; [split; [done|apply L1]|exact I1].
Qed.
Lemma update_sta_left n w : resting w -> left_at_most n w ->
  resting (wpa_group_update_sta step w) /\ left_at_most n (wpa_group_update_sta step w).
Proof.
  intros Hr Hw. unfold wpa_group_update_sta. destruct (negb _); [by split|]. destruct (is_wnmsleep _); [by split|].
  cbv zeta. by apply step_left.
Qed.

(** A pass of the loop. *)
Lemma rekey_pass w : resting w -> GInit (group w) = false -> group_changed (group w) = false ->
  let w' := wpa_group_sm_step conf step w in
  resting w' /\ GInit (group w') = false /\ (group_changed (group w') = true -> (left_of w' < left_of w)%nat).
Proof.
  intros Hr Hi Hg. cbv zeta. unfold wpa_group_sm_step. cbv zeta. rewrite Hi.
  assert (Hself : resting w /\ GInit (group w) = false /\ (group_changed (group w) = true -> (left_of w < left_of w)%nat)).
  { split; [done|]. split; [done|]. by rewrite Hg. }
  assert (Hdone : wpa_group_state (group w) = WPA_GROUP_GTK_INIT \/ wpa_group_state (group w) = WPA_GROUP_SETKEYS ->
    let w' := wpa_group_setkeysdone conf w in
    resting w' /\ GInit (group w') = false /\ (group_changed (group w') = true -> (left_of w' < left_of w)%nat)).
  { intros Hs. destruct (setkeysdone_stepped conf w Hi Hs) as (s' & g' & Ht & Hsm & Hgc & _). cbv zeta.
    set (w' := wpa_group_setkeysdone conf w) in *. clearbody w'.
    destruct (grp_trans_left _ _ _ _ Ht Hi) as (A1 & _ & A3). split; [|split].
    - assert (K : kept (sm w') = kept (sm w)) by (rewrite (kept_er _ _ Hsm); by eapply grp_trans_kept).
      destruct Hr as [R1 R2]. unfold kept in K. split; congruence.
    - change ((gctl (group w')).1.2 = false). by rewrite Hgc.
    - intros Hch. unfold left_of. rewrite Hgc. apply A3; [exact Hg|]. rewrite <- Hgc. exact Hch. }
  assert (Hset : GTKReKey (group w) = true -> let w' := wpa_group_setkeys conf step w in
    resting w' /\ GInit (group w') = false /\ (group_changed (group w') = true -> (left_of w' < left_of w)%nat)).
  { intros Hk. unfold wpa_group_setkeys. cbv zeta.
    match goal with |- context [wpa_gtk_update conf ?x] => set (w1 := x) end.
    pose proof (quiet_gtk_update conf w1) as H1. destruct (wpa_gtk_update conf w1) as [r w2]. cbn [snd] in *.
    match goal with |- context [wpa_group_update_sta step ?x] => set (w3 := x) end.
    assert (E3 : gctl (group w3) = (WPA_GROUP_SETKEYS, false, false, true)).
    { change (gctl (group w2) = (WPA_GROUP_SETKEYS, false, false, true)). rewrite (calm_group _ _ (proj2 H1)).
      change ((WPA_GROUP_SETKEYS, false, GInit (group w), true) = (WPA_GROUP_SETKEYS, false, false, true)). by rewrite Hi. }
    assert (R3 : resting w3).
    { destruct Hr as [R1 R2]. pose proof (proj1 H1) as Es.
      split; [change (in_step_loop (er (sm w2)) = false)|change (pending_deinit (er (sm w2)) = false)]; by rewrite Es. }
    assert (L3 : left_at_most 1 w3).
    { unfold left_at_most, left_of. rewrite E3. split; [|done]. change ((gctl (group w3)).1.2 = false). by rewrite E3. }
    clearbody w3. destruct (update_sta_left 1 w3 R3 L3) as [R4 [I4 L4] ]. split; [done|]. split; [done|]. intros _.
    unfold left_of at 2, gctl. rewrite Hk. simpl group_left. lia. }
  destruct (wpa_group_state (group w)) eqn:Est; try exact Hself.
  - destruct (GTKAuthenticator _); [by apply Hdone; left|exact Hself].
  - destruct (GKeyDoneStations _ =? 0); [by apply Hdone; right|]. destruct (GTKReKey _) eqn:Ek; [by apply Hset|exact Hself].
  - destruct (GTKReKey _) eqn:Ek; [by apply Hset|exact Hself].
Qed.

(** The loop ends after at most [REKEY_FUEL] passes: no more fuel changes it. *)
Lemma rekey_loop_ends w fuel : resting w -> (REKEY_FUEL <= fuel)%nat ->
  rekey_loop CONFIG_SAE conf psks hash0 fuel w = rekey_loop CONFIG_SAE conf psks hash0 REKEY_FUEL w /\
  group_changed (group (rekey_loop CONFIG_SAE conf psks hash0 REKEY_FUEL w)) = false.
Proof.
  intros Hr Hf. destruct (GInit (group w)) eqn:Hi.
  { destruct fuel as [|fuel]; [unfold REKEY_FUEL in Hf; lia|]. unfold REKEY_FUEL. cbn [rekey_loop]. cbv zeta.
    set (v := updg _ w). assert (Hc : group_changed (group (wpa_group_sm_step conf step v)) = false).
    { destruct (group_step_stepped conf v) as (s' & g' & Ht & _ & Hg & _).
      assert (Ev : wpa_group_sm_step conf step v = wpa_group_sm_step conf in_loop v).
      { unfold wpa_group_sm_step. change (GInit (group v)) with (GInit (group w)). by rewrite Hi. }
      rewrite Ev. change ((gctl (group (wpa_group_sm_step conf in_loop v))).2 = false). rewrite Hg.
      rewrite gctl_eta in Ht. change (GInit (group v)) with (GInit (group w)) in Ht. rewrite Hi in Ht. by inversion Ht. }
    by rewrite Hc. }
  assert (H : forall n w, resting w -> GInit (group w) = false -> (left_of w < n)%nat -> forall fuel, (n <= fuel)%nat ->
    rekey_loop CONFIG_SAE conf psks hash0 fuel w = rekey_loop CONFIG_SAE conf psks hash0 n w /\
    group_changed (group (rekey_loop CONFIG_SAE conf psks hash0 n w)) = false).
  { clear. intros n. induction n as [|n IH]; intros w Hr Hi Hn fuel Hf; [lia|]. destruct fuel as [|fuel]; [lia|].
    cbn [rekey_loop]. cbv zeta. set (v := updg _ w).
    destruct (rekey_pass v) as (R1 & I1 & L1); [exact Hr|exact Hi|done|].
    assert (El : left_of v = left_of w) by done. rewrite El in L1. clear El. clearbody v.
    set (x := wpa_group_sm_step conf step v) in *. clearbody x.
    destruct (group_changed (group x)) eqn:Ex; [|by split]. apply IH; [done|done| |lia]. specialize (L1 eq_refl). lia. }
  apply H; [done|done| |done]. unfold left_of, gctl, REKEY_FUEL. simpl. destruct (GTKReKey _), (wpa_group_state _); simpl; lia.
Qed.
End replay.
