(* ===== verification/WpaSupp.v ===== *)
(** * The WPA supplicant: reception of EAPOL-Key frames

    The station's side of hostap's [rsn_supp/wpa.c] up to the point where a frame
    is handed to the handshake: [wpa_sm_rx_eapol] with its checks of lengths,
    descriptor version, replay counter and flags,
    [wpa_supplicant_verify_eapol_key_mic] and [wpa_supplicant_decrypt_key_data].
    What is delivered to [wpa_supplicant_process_1_of_4], [_3_of_4] and [_1_of_2]
    is a result of the model; the functions themselves are in [WpaSta].  The call of
    [eapol_sm_notify_lower_layer_success] is left out.  The builds
    with [CONFIG_IEEE80211R] or [CONFIG_FILS] are not modelled. *)

From S2P Require Import Prelude Bytes HashSpec Hmac AesInterface AesWrap Rc4 WpaKeys WpaFrame.

Definition WPA_PROTO_WPA : Z := BIT 0.
Definition WPA_PROTO_RSN : Z := BIT 1.
Definition WPA_PROTO_OSEN : Z := BIT 3.
(** [BIT(4) | BIT(5)] *)
Definition WPA_KEY_INFO_KEY_INDEX_MASK : Z := Z.lor (BIT 4) (BIT 5).

(** What is used of [struct rsn_pmksa_cache_entry]; an entry is identified by
    [sa_id], which stands for its address. *)
Record rsn_pmksa := mk_sa { sa_id : nat; sa_pmk : bytes; sa_pmkid : bytes; sa_opportunistic : bool }.
#[export] Instance sa_settable : Settable rsn_pmksa :=
  fun r => mk_sa (sa_id r) (sa_pmk r) (sa_pmkid r) (sa_opportunistic r).
#[export] Instance set_sa_opportunistic : Setter sa_opportunistic := ltac:(solve_setter).

(** [struct wpa_sm].  [ptk_installed] is [ptk.installed]; that of [tptk] is always 0.
    Of [struct wpa_gtk] and the like the key is kept, [gtk_len] octets; pointers to
    elements are [None] for [NULL]; [has_eapol] says that [eapol] is not [NULL]. *)
Record wpa_sm := mk_supp {
  pmk : bytes; pmk_len : nat; cur_pmksa : option rsn_pmksa; ptk : wpa_ptk; tptk : wpa_ptk;
  ptk_installed : bool; ptk_set : bool; tptk_set : bool; msg_3_of_4_ok : bool; snonce : bytes;
  anonce : bytes; renew_snonce : bool; rx_replay_counter : bytes; rx_replay_counter_set : bool;
  request_counter : bytes; gtk : bytes; gtk_wnm_sleep : bytes; igtk : bytes; igtk_wnm_sleep : bytes;
  bigtk : bytes; bigtk_wnm_sleep : bytes; has_eapol : bool; wpa_ptk_rekey : Z;
  wpa_deny_ptk0_rekey : bool; wpa_rsc_relaxation : bool; beacon_prot : bool; ext_key_id : bool;
  use_ext_key_id : bool; keyidx_active : Z; force_kdk_derivation : bool; own_addr : bytes;
  bssid : bytes; dot11RSNA4WayHandshakeFailures : Z; proto : Z; pairwise_cipher : Z; group_cipher : Z;
  key_mgmt : Z; mgmt_group_cipher : Z; rsn_enabled : bool; secure_ltf : bool;
  assoc_wpa_ie : option bytes; assoc_rsnxe : option bytes; ap_wpa_ie : option bytes;
  ap_rsn_ie : option bytes; ap_rsnxe : option bytes }.
#[export] Instance supp_settable : Settable wpa_sm :=
  fun r => mk_supp
    (pmk r) (pmk_len r) (cur_pmksa r) (ptk r) (tptk r) (ptk_installed r) (ptk_set r) (tptk_set r)
    (msg_3_of_4_ok r) (snonce r) (anonce r) (renew_snonce r) (rx_replay_counter r)
    (rx_replay_counter_set r) (request_counter r) (gtk r) (gtk_wnm_sleep r) (igtk r) (igtk_wnm_sleep r)
    (bigtk r) (bigtk_wnm_sleep r) (has_eapol r) (wpa_ptk_rekey r) (wpa_deny_ptk0_rekey r)
    (wpa_rsc_relaxation r) (beacon_prot r) (ext_key_id r) (use_ext_key_id r) (keyidx_active r)
    (force_kdk_derivation r) (own_addr r) (bssid r) (dot11RSNA4WayHandshakeFailures r) (proto r)
    (pairwise_cipher r) (group_cipher r) (key_mgmt r) (mgmt_group_cipher r) (rsn_enabled r)
    (secure_ltf r) (assoc_wpa_ie r) (assoc_rsnxe r) (ap_wpa_ie r) (ap_rsn_ie r) (ap_rsnxe r).
#[export] Instance set_supp_pmk : Setter pmk := ltac:(solve_setter).
#[export] Instance set_supp_pmk_len : Setter pmk_len := ltac:(solve_setter).
#[export] Instance set_supp_cur_pmksa : Setter cur_pmksa := ltac:(solve_setter).
#[export] Instance set_supp_ptk : Setter ptk := ltac:(solve_setter).
#[export] Instance set_supp_tptk : Setter tptk := ltac:(solve_setter).
#[export] Instance set_supp_ptk_installed : Setter ptk_installed := ltac:(solve_setter).
#[export] Instance set_supp_ptk_set : Setter ptk_set := ltac:(solve_setter).
#[export] Instance set_supp_tptk_set : Setter tptk_set := ltac:(solve_setter).
#[export] Instance set_supp_msg_3_of_4_ok : Setter msg_3_of_4_ok := ltac:(solve_setter).
#[export] Instance set_supp_snonce : Setter snonce := ltac:(solve_setter).
#[export] Instance set_supp_anonce : Setter anonce := ltac:(solve_setter).
#[export] Instance set_supp_renew_snonce : Setter renew_snonce := ltac:(solve_setter).
#[export] Instance set_supp_rx_replay_counter : Setter rx_replay_counter := ltac:(solve_setter).
#[export] Instance set_supp_rx_replay_counter_set : Setter rx_replay_counter_set := ltac:(solve_setter).
#[export] Instance set_supp_request_counter : Setter request_counter := ltac:(solve_setter).
#[export] Instance set_supp_gtk : Setter gtk := ltac:(solve_setter).
#[export] Instance set_supp_gtk_wnm_sleep : Setter gtk_wnm_sleep := ltac:(solve_setter).
#[export] Instance set_supp_igtk : Setter igtk := ltac:(solve_setter).
#[export] Instance set_supp_igtk_wnm_sleep : Setter igtk_wnm_sleep := ltac:(solve_setter).
#[export] Instance set_supp_bigtk : Setter bigtk := ltac:(solve_setter).
#[export] Instance set_supp_bigtk_wnm_sleep : Setter bigtk_wnm_sleep := ltac:(solve_setter).
#[export] Instance set_supp_has_eapol : Setter has_eapol := ltac:(solve_setter).
#[export] Instance set_supp_wpa_ptk_rekey : Setter wpa_ptk_rekey := ltac:(solve_setter).
#[export] Instance set_supp_wpa_deny_ptk0_rekey : Setter wpa_deny_ptk0_rekey := ltac:(solve_setter).
#[export] Instance set_supp_wpa_rsc_relaxation : Setter wpa_rsc_relaxation := ltac:(solve_setter).
#[export] Instance set_supp_beacon_prot : Setter beacon_prot := ltac:(solve_setter).
#[export] Instance set_supp_ext_key_id : Setter ext_key_id := ltac:(solve_setter).
#[export] Instance set_supp_use_ext_key_id : Setter use_ext_key_id := ltac:(solve_setter).
#[export] Instance set_supp_keyidx_active : Setter keyidx_active := ltac:(solve_setter).
#[export] Instance set_supp_force_kdk_derivation : Setter force_kdk_derivation := ltac:(solve_setter).
#[export] Instance set_supp_own_addr : Setter own_addr := ltac:(solve_setter).
#[export] Instance set_supp_bssid : Setter bssid := ltac:(solve_setter).
#[export] Instance set_supp_dot11RSNA4WayHandshakeFailures : Setter dot11RSNA4WayHandshakeFailures := ltac:(solve_setter).
#[export] Instance set_supp_proto : Setter proto := ltac:(solve_setter).
#[export] Instance set_supp_pairwise_cipher : Setter pairwise_cipher := ltac:(solve_setter).
#[export] Instance set_supp_group_cipher : Setter group_cipher := ltac:(solve_setter).
#[export] Instance set_supp_key_mgmt : Setter key_mgmt := ltac:(solve_setter).
#[export] Instance set_supp_mgmt_group_cipher : Setter mgmt_group_cipher := ltac:(solve_setter).
#[export] Instance set_supp_rsn_enabled : Setter rsn_enabled := ltac:(solve_setter).
#[export] Instance set_supp_secure_ltf : Setter secure_ltf := ltac:(solve_setter).
#[export] Instance set_supp_assoc_wpa_ie : Setter assoc_wpa_ie := ltac:(solve_setter).
#[export] Instance set_supp_assoc_rsnxe : Setter assoc_rsnxe := ltac:(solve_setter).
#[export] Instance set_supp_ap_wpa_ie : Setter ap_wpa_ie := ltac:(solve_setter).
#[export] Instance set_supp_ap_rsn_ie : Setter ap_rsn_ie := ltac:(solve_setter).
#[export] Instance set_supp_ap_rsnxe : Setter ap_rsnxe := ltac:(solve_setter).

(** [wpa_sm_init]: cleared memory. *)
Definition wpa_sm_init : wpa_sm :=
  mk_supp (replicate PMK_LEN_MAX 0) 0 None zero_ptk zero_ptk false false false false
    (replicate WPA_NONCE_LEN 0) (replicate WPA_NONCE_LEN 0) true (replicate WPA_REPLAY_COUNTER_LEN 0) false
    (replicate WPA_REPLAY_COUNTER_LEN 0) [] [] [] [] [] [] false 0 false false false false false 0 false
    (replicate ETH_ALEN 0) (replicate ETH_ALEN 0) 0 0 0 0 0 0 false false None None None None None.

(** The functions a frame is handed to, with the frame, the descriptor version and
    the decrypted key data. *)
Inductive delivered :=
| process_1_of_4 (frame : bytes) (ver : Z) (key_data : bytes)
| process_3_of_4 (frame : bytes) (ver : Z) (key_data : bytes)
| process_1_of_2 (frame : bytes) (ver : Z) (key_data : bytes).

Definition key_iv (data : bytes) : bytes := sub (sizeof_hdr + 45) 16 data.

Section supp.
Context {C : Crypto} (CONFIG_SAE : bool) (os_malloc : nat -> bool).

(** The MIC of a frame verifies under a key. *)
Definition mic_matches (sm : wpa_sm) (p : wpa_ptk) (ver : Z) (buf : bytes) : bool :=
  let mic_len := wpa_mic_len (key_mgmt sm) (pmk_len sm) in
  let mic := sub mic_offset mic_len buf in
  let cleared := memcpy buf mic_offset (replicate mic_len 0) in
  match wpa_eapol_key_mic CONFIG_SAE (kck p) (kck_len p) (key_mgmt sm) ver cleared with
  | Some m => same mic_len mic m
  | None => false
  end.

(** 0 or -1. *)
Definition wpa_supplicant_verify_eapol_key_mic (sm : wpa_sm) (ver : Z) (buf : bytes) : Z * wpa_sm :=
  let '(ok, sm) :=
    if tptk_set sm && mic_matches sm (tptk sm) ver buf then
      (true, sm <| tptk_set := false |> <| ptk_set := true |> <| ptk := tptk sm |> <| ptk_installed := false |> <| tptk := zero_ptk |>
                <| renew_snonce := true |>)
    else (false, sm) in
  let ok := ok || (ptk_set sm && mic_matches sm (ptk sm) ver buf) in
  if negb ok then (-1, sm)
  else (0, sm <| rx_replay_counter := replay_counter buf |> <| rx_replay_counter_set := true |>).

(** The decrypted key data, [None] for -1. *)
Definition wpa_supplicant_decrypt_key_data (sm : wpa_sm) (ver : Z) (iv key_data : bytes) : option bytes :=
  let p := ptk sm in
  if negb (ptk_set sm) then None
  else if (ver =? WPA_KEY_INFO_TYPE_HMAC_MD5_RC4) && (kek_len p =? 16)%nat then
    Some (rc4_skip (iv ++ take (kek_len p) (kek p)) 256 key_data)
  else if (ver =? WPA_KEY_INFO_TYPE_HMAC_SHA1_AES) || (ver =? WPA_KEY_INFO_TYPE_AES_128_CMAC) ||
          wpa_use_aes_key_wrap (key_mgmt sm) then
    let key_data_len := length key_data in
    if (key_data_len <? 8)%nat || negb (key_data_len mod 8 =? 0)%nat then None
    else
      let key_data_len := (key_data_len - 8)%nat in
      if negb (os_malloc key_data_len) then None
      else
        let '(r, buf) := aes_unwrap (take (kek_len p) (kek p)) (Z.of_nat (kek_len p)) (key_data_len / 8) key_data in
        if negb (r =? 0) then None else Some buf
  else None.

(** The descriptor version is acceptable. *)
Definition supp_version_ok (sm : wpa_sm) (key_info ver : Z) : bool :=
  let akm := key_mgmt sm in
  negb (negb (ver =? WPA_KEY_INFO_TYPE_HMAC_MD5_RC4) && negb (ver =? WPA_KEY_INFO_TYPE_AES_128_CMAC) &&
        negb (ver =? WPA_KEY_INFO_TYPE_HMAC_SHA1_AES) && negb (wpa_use_akm_defined akm)) &&
  negb (wpa_use_akm_defined akm && negb (ver =? WPA_KEY_INFO_TYPE_AKM_DEFINED)) &&
  (if wpa_key_mgmt_sha256 akm then
     negb (negb (ver =? WPA_KEY_INFO_TYPE_AES_128_CMAC) && negb (wpa_use_akm_defined akm))
   else if (pairwise_cipher sm =? WPA_CIPHER_CCMP) && negb (wpa_use_akm_defined akm) &&
           negb (ver =? WPA_KEY_INFO_TYPE_HMAC_SHA1_AES) then
     (negb (group_cipher sm =? WPA_CIPHER_CCMP) && negb (flag_set key_info WPA_KEY_INFO_KEY_TYPE)) ||
     (ver =? WPA_KEY_INFO_TYPE_AES_128_CMAC)
   else
     negb ((pairwise_cipher sm =? WPA_CIPHER_GCMP) && negb (wpa_use_akm_defined akm) &&
           negb (ver =? WPA_KEY_INFO_TYPE_HMAC_SHA1_AES))).

(** From the dispatch on the kind of message on. *)
Definition rx_dispatch (mic_len : nat) (tmp : bytes) (ver : Z) (key_data : bytes) (sm : wpa_sm) :
    Z * option delivered * wpa_sm :=
  let info := key_info tmp in
  if flag_set info WPA_KEY_INFO_KEY_TYPE then
    if flag_set info WPA_KEY_INFO_KEY_INDEX_MASK then (-1, None, sm)
    else if flag_set info (Z.lor WPA_KEY_INFO_MIC WPA_KEY_INFO_ENCR_KEY_DATA)
    then (1, Some (process_3_of_4 tmp ver key_data), sm)
    else (1, Some (process_1_of_4 tmp ver key_data), sm)
  else if (negb (mic_len =? 0)%nat && flag_set info WPA_KEY_INFO_MIC) ||
          ((mic_len =? 0)%nat && flag_set info WPA_KEY_INFO_ENCR_KEY_DATA)
  then (1, Some (process_1_of_2 tmp ver key_data), sm)
  else (1, None, sm).

(** From the check of the MIC on. *)
Definition rx_protected (mic_len key_data_len : nat) (tmp : bytes) (sm : wpa_sm) : Z * option delivered * wpa_sm :=
  let info := key_info tmp in
  let ver := Z.land info WPA_KEY_INFO_TYPE_MASK in
  let key_data := sub (mic_offset + mic_len + 2) key_data_len tmp in
  let '(bad, sm) :=
    if flag_set info WPA_KEY_INFO_MIC then
      let '(r, sm) := wpa_supplicant_verify_eapol_key_mic sm ver tmp in (negb (r =? 0), sm)
    else (false, sm) in
  if bad : bool then (-1, None, sm)
  else if ((proto sm =? WPA_PROTO_RSN) || (proto sm =? WPA_PROTO_OSEN)) &&
          flag_set info WPA_KEY_INFO_ENCR_KEY_DATA && negb (mic_len =? 0)%nat then
    if negb (flag_set info WPA_KEY_INFO_MIC) then (-1, None, sm)
    else
      match wpa_supplicant_decrypt_key_data sm ver (key_iv tmp) key_data with
      | None => (-1, None, sm)
      | Some key_data => rx_dispatch mic_len tmp ver key_data sm
      end
  else rx_dispatch mic_len tmp ver key_data sm.

(** The return value, what is delivered, and the state. *)
Definition wpa_sm_rx_eapol (buf : bytes) (sm : wpa_sm) : Z * option delivered * wpa_sm :=
  let pmk_len0 := match cur_pmksa sm with
                  | Some e => if (pmk_len sm =? 0)%nat then length (sa_pmk e) else pmk_len sm
                  | None => pmk_len sm end in
  let mic_len := wpa_mic_len (key_mgmt sm) pmk_len0 in
  let keyhdrlen := (sizeof_key + mic_len + 2)%nat in
  if (length buf <? sizeof_hdr + keyhdrlen)%nat then (0, None, sm)
  else
    let plen := Z.to_nat (WPA_GET_BE16 (drop 2 buf)) in
    let data_len := (plen + sizeof_hdr)%nat in
    if negb (get buf 1 =? IEEE802_1X_TYPE_EAPOL_KEY) then (0, None, sm)
    else if (length buf - sizeof_hdr <? plen)%nat || (plen <? keyhdrlen)%nat then (0, None, sm)
    else if negb (os_malloc data_len) then (-1, None, sm)
    else
      let tmp := take data_len buf in
      if negb (key_type tmp =? EAPOL_KEY_TYPE_WPA) && negb (key_type tmp =? EAPOL_KEY_TYPE_RSN) then (0, None, sm)
      else
        let key_data_len := key_data_length mic_len tmp in
        if (plen - keyhdrlen <? key_data_len)%nat then (-1, None, sm)
        else
          let info := key_info tmp in
          let ver := Z.land info WPA_KEY_INFO_TYPE_MASK in
          if negb (supp_version_ok sm info ver) then (-1, None, sm)
          else if rx_replay_counter_set sm &&
                  (os_memcmp WPA_REPLAY_COUNTER_LEN (replay_counter tmp) (rx_replay_counter sm) <=? 0)
          then (-1, None, sm)
          else if flag_set info WPA_KEY_INFO_SMK_MESSAGE then (-1, None, sm)
          else if negb (flag_set info WPA_KEY_INFO_ACK) then (-1, None, sm)
          else if flag_set info WPA_KEY_INFO_REQUEST then (-1, None, sm)
          else rx_protected mic_len key_data_len tmp sm.
End supp.
