(* ===== verification/WpaSta.v ===== *)
(** * The WPA supplicant: the handshakes

    The station's side of the 4-way and the group key handshake: the functions of
    hostap's [rsn_supp/wpa.c] that a received frame is handed to, what they send and
    install, and the calls that begin and end an association.

    Calls that leave the module ([struct wpa_sm_ctx], the EAPOL machine, the PMKSA
    cache) are events, newest first, and their answers come from the class
    [SuppEnv].  An element that the parser of key data finds is a span of the key
    data; a result [None] of the parser is a read out of bounds, which
    [WpaKde.parse_kde_in_bounds] excludes.  Pre-authentication, debug output, the
    notification of the EAPOL machine by [wpa_sm_rx_eapol], and the builds with FT, FILS,
    OWE, OCV, DPP, P2P, TDLS or testing options are not modelled. *)

From S2P Require Import Prelude Bytes HashSpec Hmac AesInterface AesWrap Rc4 WpaKeys WpaFrame WpaSupp.
From S2P Require WpaKde WpaState WpaPtk.

(** ** Constants *)

Definition WLAN_REASON_UNSPECIFIED : Z := 1.
Definition WLAN_REASON_IE_IN_4WAY_DIFFERS : Z := 17.
Definition KEY_FLAG_GROUP_RX : Z := Z.lor WpaState.KEY_FLAG_GROUP WpaState.KEY_FLAG_RX.
Definition KEY_FLAG_GROUP_RX_TX_DEFAULT : Z :=
  Z.lor (Z.lor WpaState.KEY_FLAG_GROUP WpaState.KEY_FLAG_RX_TX) WpaState.KEY_FLAG_DEFAULT.
Definition WPA_KEY_INFO_TXRX : Z := BIT 6.
Definition WPA_CIPHER_GTK_NOT_USED : Z := BIT 14.
Definition WNM_SLEEP_SUBELEM_GTK : Z := 0.
Definition WNM_SLEEP_SUBELEM_IGTK : Z := 1.
Definition WNM_SLEEP_SUBELEM_BIGTK : Z := 2.
Definition IEEE802_1X_TYPE_EAPOL_START : Z := 1.

Inductive wpa_states :=
| WPA_DISCONNECTED | WPA_INTERFACE_DISABLED | WPA_INACTIVE | WPA_SCANNING | WPA_AUTHENTICATING
| WPA_ASSOCIATING | WPA_ASSOCIATED | WPA_4WAY_HANDSHAKE | WPA_GROUP_HANDSHAKE | WPA_COMPLETED.
#[export] Instance wpa_states_dec : EqDecision wpa_states. Proof. solve_decision. Defined.

Inductive pmksa_free_reason := PMKSA_FREE | PMKSA_REPLACE | PMKSA_EXPIRE.
#[export] Instance pmksa_free_reason_dec : EqDecision pmksa_free_reason. Proof. solve_decision. Defined.

(** [wpa_cipher_rsc_len] and the tests of ciphers ([wpa_common.c]). *)
Definition wpa_cipher_rsc_len (cipher : Z) : nat :=
  switch cipher
    [([WPA_CIPHER_CCMP_256; WPA_CIPHER_GCMP_256; WPA_CIPHER_CCMP; WPA_CIPHER_GCMP; WPA_CIPHER_TKIP], 6)]%nat 0%nat.
Definition wpa_cipher_valid_pairwise (cipher : Z) : bool :=
  existsb (Z.eqb cipher)
    [WPA_CIPHER_CCMP_256; WPA_CIPHER_GCMP_256; WPA_CIPHER_CCMP; WPA_CIPHER_GCMP; WPA_CIPHER_TKIP].
Definition wpa_cipher_valid_mgmt_group (cipher : Z) : bool :=
  existsb (Z.eqb cipher)
    [WPA_CIPHER_GTK_NOT_USED; WPA_CIPHER_AES_128_CMAC; WPA_CIPHER_BIP_GMAC_128; WPA_CIPHER_BIP_GMAC_256;
     WPA_CIPHER_BIP_CMAC_256].

(** ** The outside *)

(** Calls whose answer is used. *)
Inductive query :=
| Q_network | Q_bssid | Q_beacon_ie | Q_eap_key (len : nat) | Q_pmksa (addr pmkid : bytes) | Q_candidates
| Q_alloc (size : nat).

(** [SetKey] carries the answer of the driver; the address is [None] for [NULL]. *)
Inductive sta_event :=
| Query (q : query)
| SNonceDrawn (ok : bool) (b : bytes)
| EtherSend (dest data : bytes)
| TxEapolKey
| SetKey (alg : wpa_alg) (addr : option bytes) (idx : Z) (set_tx : bool) (seq key : bytes) (flag : Z) (res : Z)
| StorePtk (p : wpa_ptk)
| SetState (s : wpa_states)
| CancelAuthTimeout
| Deauthenticate (reason : Z)
| Reconnect
| SetProtection (rx_tx : bool)
| PortValid
| EapSuccess
| EapFail (b : bool)
| NotifyCached
| KeyMgmtSetPmk (k : bytes)
| PmksaAdd (k : bytes)
| StartPreauth
| RekeyTimer (seconds : Z)
| CancelTimers
| RekeyOffload
| TransitionDisable (bitmap : Z).

Class SuppEnv := {
  eapol_version : Z;
  random_get_bytes : list sta_event -> nat -> bool * bytes;
  os_alloc : list sta_event -> nat -> bool;
  cb_get_network_ctx : list sta_event -> bool;
  cb_get_bssid : list sta_event -> option bytes;
  cb_set_key : list sta_event -> Z;
  cb_ether_send : list sta_event -> Z;
  (** the WPA, RSN and RSNX elements of the AP *)
  cb_get_beacon_ie : list sta_event -> option (option bytes * option bytes * option bytes);
  (** the key of [eapol_sm_get_key], so many octets *)
  cb_eapol_get_key : list sta_event -> nat -> option bytes;
  cb_pmksa_get : list sta_event -> option rsn_pmksa;
  (** the entries that are removed to make room, and the new one *)
  cb_pmksa_add : list sta_event -> list (rsn_pmksa * pmksa_free_reason) * option rsn_pmksa;
  cb_candidates : list sta_event -> bool }.

(** [wpa_state] is the state of the interface, which [wpa_sm_get_state] reads. *)
Record world := mk_world { sm : wpa_sm; wpa_state : wpa_states; events : list sta_event }.
#[export] Instance sta_settable : Settable world := fun r => mk_world (sm r) (wpa_state r) (events r).
#[export] Instance set_sta_sm : Setter sm := ltac:(solve_setter).
#[export] Instance set_sta_state : Setter wpa_state := ltac:(solve_setter).
#[export] Instance set_sta_events : Setter events := ltac:(solve_setter).

Definition emit (e : sta_event) (w : world) : world := w <| events ::= cons e |>.
Definition upd (f : wpa_sm -> wpa_sm) (w : world) : world := w <| sm ::= f |>.
(** Asks; the answer may depend on all that happened, this call included. *)
Definition ask {A} (q : query) (answer : list sta_event -> A) (w : world) : A * world :=
  let w := emit (Query q) w in (answer (events w), w).

Section sta.
Context {C : Crypto} {E : SuppEnv} (CONFIG_SAE : bool).
Notation W := world.

Definition allocate (n : nat) (w : W) : bool * W := ask (Q_alloc n) (fun ev => os_alloc ev n) w.

Definition set_state (s : wpa_states) (w : W) : W := emit (SetState s) (w <| wpa_state := s |>).
Definition deauthenticate (reason : Z) (w : W) : W := emit (Deauthenticate reason) w.
Definition failed (w : W) : W := deauthenticate WLAN_REASON_UNSPECIFIED w.

Definition wpa_sm_set_key (alg : wpa_alg) (addr : option bytes) (idx : Z) (set_tx : bool)
    (seq key : bytes) (flag : Z) (w : W) : Z * W :=
  let r := cb_set_key (events w) in (r, emit (SetKey alg addr idx set_tx seq key flag r) w).
Definition ether_send (dest data : bytes) (w : W) : Z * W :=
  let w := emit (EtherSend dest data) w in (cb_ether_send (events w), w).

Definition is_rsn (s : wpa_sm) : bool := (proto s =? WPA_PROTO_RSN) || (proto s =? WPA_PROTO_OSEN).
Definition is_zero_ether_addr (a : bytes) : bool := bool_decide (take ETH_ALEN a = replicate ETH_ALEN 0).
Definition broadcast_ether_addr : bytes := replicate ETH_ALEN 0xff.
Definition null_rsc : bytes := replicate 8 0.

(** More fields of a frame. *)
Definition key_rsc (frame : bytes) : bytes := sub (sizeof_hdr + 61) 8 frame.
Definition key_length (frame : bytes) : Z := WPA_GET_BE16 (drop (sizeof_hdr + 3) frame).

Definition parse_ies (kd : bytes) : option WpaKde.wpa_eapol_ie_parse :=
  match WpaKde.wpa_parse_kde_ies kd with
  | Some (r, ie) => if r <? 0 then None else Some ie
  | None => None
  end.
Notation span_bytes := WpaPtk.span_bytes.

(** ** Sending *)

(** The frame is sent, with a MIC if [key_mic] says so; [dest] is the address the
    frame goes to.  Negative results are failures. *)
Definition wpa_eapol_key_send (p : wpa_ptk) (ver : Z) (dest msg : bytes) (key_mic : bool) (w : W) : Z * W :=
  let mic_len := wpa_mic_len (key_mgmt w.(sm)) (pmk_len w.(sm)) in
  let '(dest, w) :=
    if is_zero_ether_addr dest && is_zero_ether_addr (bssid w.(sm)) then
      let '(b, w) := ask Q_bssid cb_get_bssid w in
      match b with Some b => (b, upd (fun s => s <| bssid := b |>) w) | None => (dest, w) end
    else (dest, w) in
  if (mic_len =? 0)%nat then (-1, w)
  else
    let msg :=
      if key_mic then
        if (kck_len p =? 0)%nat then None
        else m ← wpa_eapol_key_mic CONFIG_SAE (kck p) (kck_len p) (key_mgmt w.(sm)) ver msg;
             Some (memcpy msg mic_offset m)
      else Some msg in
    match msg with
    | None => (-1, w)
    | Some msg => let '(r, w) := ether_send dest msg w in (r, emit TxEapolKey w)
    end.

(** [wpa_sm_alloc_eapol] and the fields common to the messages of the station;
    [reply_length] is what the message for WPA copies from the AP's. *)
Definition reply_frame (info reply_length : Z) (replay nonce kd : bytes) (w : W) : option bytes * W :=
  let mic_len := wpa_mic_len (key_mgmt w.(sm)) (pmk_len w.(sm)) in
  let '(ok, w) := allocate (sizeof_hdr + (sizeof_key + mic_len + 2 + length kd)) w in
  let type := if is_rsn w.(sm) then EAPOL_KEY_TYPE_RSN else EAPOL_KEY_TYPE_WPA in
  (if ok : bool then
     Some (eapol_key_frame eapol_version type info (if is_rsn w.(sm) then 0 else reply_length) replay nonce
             (replicate 16 0) (replicate 8 0) (replicate mic_len 0) (Z.of_nat (length kd)) kd)
   else None, w).

(** [WPA_KEY_INFO_MIC], or [ENCR_KEY_DATA] when frames have no MIC. *)
Definition mic_or_encr (s : wpa_sm) : Z :=
  if (wpa_mic_len (key_mgmt s) (pmk_len s) =? 0)%nat then WPA_KEY_INFO_ENCR_KEY_DATA else WPA_KEY_INFO_MIC.

Definition wpa_sm_key_request (error pairwise : bool) (w : W) : W :=
  if pairwise && wpa_deny_ptk0_rekey w.(sm) && negb (use_ext_key_id w.(sm)) &&
     bool_decide (wpa_state w = WPA_COMPLETED)
  then emit Reconnect w
  else
    let s := w.(sm) in
    let ver :=
      if wpa_use_akm_defined (key_mgmt s) then WPA_KEY_INFO_TYPE_AKM_DEFINED
      else if wpa_key_mgmt_ft (key_mgmt s) || wpa_key_mgmt_sha256 (key_mgmt s) then WPA_KEY_INFO_TYPE_AES_128_CMAC
      else if negb (pairwise_cipher s =? WPA_CIPHER_TKIP) then WPA_KEY_INFO_TYPE_HMAC_SHA1_AES
      else WPA_KEY_INFO_TYPE_HMAC_MD5_RC4 in
    let '(b, w) := ask Q_bssid cb_get_bssid w in
    match b with
    | None => w
    | Some b =>
      let mic_len := wpa_mic_len (key_mgmt s) (pmk_len s) in
      let with_mic := ptk_set s && negb (mic_len =? 0)%nat in
      let info := foldr Z.lor (Z.lor WPA_KEY_INFO_REQUEST ver)
        [if ptk_set s then WPA_KEY_INFO_SECURE else 0; if with_mic then WPA_KEY_INFO_MIC else 0;
         if error then WPA_KEY_INFO_ERROR else 0; if pairwise then WPA_KEY_INFO_KEY_TYPE else 0] in
      let '(f, w) := reply_frame info 0 (request_counter s) (replicate WPA_NONCE_LEN 0) [] w in
      match f with
      | None => w
      | Some f =>
        let w := upd (fun s => s <| request_counter ::= fun c => inc_byte_array c WPA_REPLAY_COUNTER_LEN |>) w in
        (wpa_eapol_key_send (ptk w.(sm)) ver b f with_mic w).2
      end
    end.

Definition wpa_supplicant_send_2_of_4 (frame : bytes) (ver : Z) (nonce wpa_ie : bytes) (p : wpa_ptk) (w : W) : Z * W :=
  let info := Z.lor (Z.lor ver WPA_KEY_INFO_KEY_TYPE) (mic_or_encr w.(sm)) in
  let '(f, w) := reply_frame info (key_length frame) (replay_counter frame) nonce wpa_ie w in
  match f with
  | None => (-1, w)
  | Some f => wpa_eapol_key_send p ver (bssid w.(sm)) f true w
  end.

Definition wpa_supplicant_send_4_of_4 (frame : bytes) (ver info : Z) (p : wpa_ptk) (w : W) : Z * W :=
  let info := Z.lor (Z.lor (Z.land info WPA_KEY_INFO_SECURE) (Z.lor ver WPA_KEY_INFO_KEY_TYPE)) (mic_or_encr w.(sm)) in
  let '(f, w) := reply_frame info (key_length frame) (replay_counter frame) (replicate WPA_NONCE_LEN 0) [] w in
  match f with
  | None => (-1, w)
  | Some f => wpa_eapol_key_send p ver (bssid w.(sm)) f true w
  end.

Definition wpa_supplicant_send_2_of_2 (frame : bytes) (ver info : Z) (w : W) : Z * W :=
  let info := Z.lor (Z.lor (Z.land info WPA_KEY_INFO_KEY_INDEX_MASK) (Z.lor ver WPA_KEY_INFO_SECURE))
                (mic_or_encr w.(sm)) in
  let '(f, w) := reply_frame info (key_length frame) (replay_counter frame) (replicate WPA_NONCE_LEN 0) [] w in
  match f with
  | None => (-1, w)
  | Some f => wpa_eapol_key_send (ptk w.(sm)) ver (bssid w.(sm)) f true w
  end.

(** ** The PMK *)

Definition wpa_sm_set_pmk_from_pmksa (w : W) : W :=
  match cur_pmksa w.(sm) with
  | Some e => upd (fun s => s <| pmk_len := length (sa_pmk e) |> <| pmk ::= fun b => memcpy b 0 (sa_pmk e) |>) w
  | None => upd (fun s => s <| pmk_len := 0%nat |> <| pmk := replicate PMK_LEN_MAX 0 |>) w
  end.

(** The callback of the cache when an entry is removed. *)
Definition wpa_sm_pmksa_free_cb (entry : rsn_pmksa) (reason : pmksa_free_reason) (w : W) : W :=
  let current := match cur_pmksa w.(sm) with Some e => (sa_id e =? sa_id entry)%nat | None => false end in
  let w := if current then upd (fun s => s <| cur_pmksa := None |>) w else w in
  let expired := bool_decide (reason = PMKSA_EXPIRE) && (pmk_len w.(sm) =? length (sa_pmk entry))%nat &&
                 same (pmk_len w.(sm)) (pmk w.(sm)) (sa_pmk entry) in
  let w := if expired then upd (fun s => s <| cur_pmksa := None |>) w else w in
  if (current && bool_decide (reason <> PMKSA_REPLACE)) || expired
  then failed (upd (fun s => s <| pmk_len := 0%nat |> <| pmk := replicate PMK_LEN_MAX 0 |>) w)
  else w.

Definition pmksa_cache_add (k : bytes) (w : W) : option rsn_pmksa * W :=
  let w := emit (PmksaAdd k) w in
  let '(gone, sa) := cb_pmksa_add (events w) in
  (sa, foldl (fun w e => wpa_sm_pmksa_free_cb e.1 e.2 w) w gone).
Definition pmksa_cache_get (addr id : bytes) (w : W) : option rsn_pmksa * W :=
  ask (Q_pmksa addr id) cb_pmksa_get w.

(** A failure leaves [pmk] as it was. *)
Definition eapol_sm_get_key (n : nat) (w : W) : bool * W :=
  let '(k, w) := ask (Q_eap_key n) (fun ev => cb_eapol_get_key ev n) w in
  match k with
  | Some k => (true, upd (fun s => s <| pmk ::= fun b => memcpy b 0 (take n k) |>) w)
  | None => (false, w)
  end.

(** The end of [wpa_supplicant_get_pmk]: a full authentication is begun when the
    cached key could not be used. *)
Definition get_pmk_end (abort_cached : bool) (w : W) : Z * W :=
  let akm := key_mgmt w.(sm) in
  if abort_cached && wpa_key_mgmt_wpa_ieee8021x akm && negb (wpa_key_mgmt_suite_b akm) &&
     negb (wpa_key_mgmt_ft akm) && negb (akm =? WPA_KEY_MGMT_OSEN)
  then
    let '(ok, w) := allocate sizeof_hdr w in
    if ok : bool then
      let w := emit (EapFail false) (emit (EapFail true) w) in
      (-2, (ether_send (bssid w.(sm)) [u8 eapol_version; IEEE802_1X_TYPE_EAPOL_START; 0; 0] w).2)
    else (-1, w)
  else (0, w).

(** The key of the EAP machine, 16 octets if it has no more; its length. *)
Definition get_eap_pmk (w : W) : option nat * W :=
  let n := if wpa_key_mgmt_sha384 (key_mgmt w.(sm)) then WpaState.PMK_LEN_SUITE_B_192 else PMK_LEN in
  let '(ok, w) := eapol_sm_get_key n w in
  if ok : bool then (Some n, w)
  else if (n =? PMK_LEN)%nat then
    let '(ok, w) := eapol_sm_get_key 16 w in (if ok : bool then Some 16%nat else None, w)
  else (None, w).

(** With a key from the EAP machine. *)
Definition use_eap_pmk (src : bytes) (pmkid : option bytes) (n : nat) (abort_cached : bool) (w : W) : Z * W :=
  let w := upd (fun s => s <| pmk_len := n |>) w in
  let w := emit (KeyMgmtSetPmk (take n (pmk w.(sm)))) w in
  let akm := key_mgmt w.(sm) in
  let '(sa, w) :=
    if (proto w.(sm) =? WPA_PROTO_RSN) && negb (wpa_key_mgmt_suite_b akm) && negb (wpa_key_mgmt_ft akm)
    then pmksa_cache_add (take n (pmk w.(sm))) w
    else (None, w) in
  let '(found, w) :=
    match cur_pmksa w.(sm), pmkid with
    | None, Some id => let '(e, w) := pmksa_cache_get src id w in (bool_decide (e <> None), w)
    | _, _ => (false, w)
    end in
  if negb found && bool_decide (sa <> None) && bool_decide (cur_pmksa w.(sm) = None) && bool_decide (pmkid <> None)
  then (-1, w)
  else
    let w := if bool_decide (cur_pmksa w.(sm) = None) then upd (fun s => s <| cur_pmksa := sa |>) w else w in
    get_pmk_end (if found then false else abort_cached) w.

(** 0, -1, or -2 when a full authentication has been requested. *)
Definition wpa_supplicant_get_pmk (src : bytes) (pmkid : option bytes) (w : W) : Z * W :=
  let '(abort_cached, w) :=
    match pmkid, cur_pmksa w.(sm) with
    | Some id, None =>
      let '(e, w) := pmksa_cache_get src id w in
      (bool_decide (e = None), upd (fun s => s <| cur_pmksa := e |>) w)
    | _, _ => (false, w)
    end in
  let matched := match pmkid, cur_pmksa w.(sm) with
                 | Some id, Some e => same PMKID_LEN id (sa_pmkid e)
                 | _, _ => false end in
  if matched then get_pmk_end abort_cached (emit NotifyCached (wpa_sm_set_pmk_from_pmksa w))
  else if wpa_key_mgmt_wpa_ieee8021x (key_mgmt w.(sm)) && has_eapol w.(sm) then
    let '(n, w) := get_eap_pmk w in
    match n with
    | Some n => use_eap_pmk src pmkid n abort_cached w
    | None =>
      match cur_pmksa w.(sm) with
      | Some _ => get_pmk_end true (upd (fun s => s <| cur_pmksa := None |>) w)
      | None => if abort_cached then get_pmk_end true w else (-1, w)
      end
    end
  else get_pmk_end abort_cached w.

(** ** Message 1/4 *)

Definition wpa_derive_ptk (s : wpa_sm) (frame : bytes) (p : wpa_ptk) : Z * wpa_ptk :=
  let kdk_len0 :=
    if force_kdk_derivation s ||
       (secure_ltf s && WpaPtk.ieee802_11_rsnx_capab (ap_rsnxe s) WpaState.WLAN_RSNX_CAPAB_SECURE_LTF)
    then WPA_KDK_MAX_LEN else 0%nat in
  wpa_pmk_to_ptk (take (pmk_len s) (pmk s)) (str "Pairwise key expansion") (own_addr s) (bssid s) (snonce s)
    (key_nonce frame) p (key_mgmt s) (pairwise_cipher s) None kdk_len0.

(** The two MIC keys of TKIP change places. *)
Definition swap_mic_keys (k : bytes) : bytes :=
  let buf := sub 16 8 k in
  let k := memcpy k 16 (sub 24 8 k) in
  memcpy k 24 buf.

Definition renew (w : W) : bool * W :=
  if renew_snonce w.(sm) then
    let '(ok, b) := random_get_bytes (events w) WPA_NONCE_LEN in
    let w := emit (SNonceDrawn ok b) (upd (fun s => s <| snonce := b |>) w) in
    if ok : bool then (true, upd (fun s => s <| renew_snonce := false |>) w) else (false, w)
  else (true, w).

(** A new temporary PTK. *)
Definition new_tptk (frame : bytes) (w : W) : bool * W :=
  let '(r, p) := wpa_derive_ptk w.(sm) frame (tptk w.(sm)) in
  if r <? 0 then (false, upd (fun s => s <| tptk := p |>) w)
  else
    let p := if pairwise_cipher w.(sm) =? WPA_CIPHER_TKIP then p <| tk ::= swap_mic_keys |> else p in
    (true, upd (fun s => s <| tptk := p |> <| tptk_set := true |>) w).

(** From the allocation of the key data on. *)
Definition answer_1_of_4 (frame : bytes) (ver : Z) (w : W) : W :=
  let ie := default [] (assoc_wpa_ie w.(sm)) in
  let rsnxe := default [] (assoc_rsnxe w.(sm)) in
  let '(ok, w) := allocate (length ie + 2 + WpaKde.RSN_SELECTOR_LEN + 3 + length rsnxe +
                            2 + WpaKde.RSN_SELECTOR_LEN + 1 + 2 + WpaKde.RSN_SELECTOR_LEN + 2) w in
  if negb ok then failed w
  else
    let '(r, w) := wpa_supplicant_send_2_of_4 frame ver (snonce w.(sm)) (ie ++ rsnxe) (tptk w.(sm)) w in
    if r <? 0 then failed w else upd (fun s => s <| anonce := key_nonce frame |>) w.

Definition wpa_supplicant_process_1_of_4 (src frame : bytes) (ver : Z) (kd : bytes) (w : W) : W :=
  let '(known, w) := ask Q_network cb_get_network_ctx w in
  if negb known then w
  else if wpa_deny_ptk0_rekey w.(sm) && negb (use_ext_key_id w.(sm)) && bool_decide (wpa_state w = WPA_COMPLETED)
  then emit Reconnect w
  else
    let w := set_state WPA_4WAY_HANDSHAKE w in
    match (if is_rsn w.(sm) then parse_ies kd else Some WpaKde.no_ies) with
    | None => failed w
    | Some ie =>
      let pmkid := (fun p => sub p PMKID_LEN kd) <$> WpaKde.pmkid ie in
      let '(res, w) := wpa_supplicant_get_pmk src pmkid w in
      if res =? -2 then w
      else if negb (res =? 0) then failed w
      else
        let '(ok, w) := renew w in
        if negb ok then failed w
        else
          let '(ok, w) := new_tptk frame w in
          if negb ok then failed w else answer_1_of_4 frame ver w
    end.

(** ** Installing keys *)

(** With [WPA_CIPHER_NONE] there are no pairwise keys. *)
Definition wpa_supplicant_install_ptk (frame : bytes) (key_flag : Z) (w : W) : Z * W :=
  let s := w.(sm) in
  let cipher := pairwise_cipher s in
  if ptk_installed s then (0, w)
  else if cipher =? WPA_CIPHER_NONE then (0, w)
  else if negb (wpa_cipher_valid_pairwise cipher) then (-1, w)
  else
    let keylen := wpa_cipher_key_len cipher in
    if (keylen =? 0)%nat || negb (keylen =? tk_len (ptk s))%nat then (-1, w)
    else
      let rsc := take (wpa_cipher_rsc_len cipher) (if is_rsn s then null_rsc else key_rsc frame) in
      let '(r, w) := wpa_sm_set_key (wpa_cipher_to_alg cipher) (Some (bssid s)) (keyidx_active s) true rsc
                       (take keylen (tk (ptk s))) (Z.lor WpaState.KEY_FLAG_PAIRWISE key_flag) w in
      if r <? 0 then (-1, w)
      else
        let w := emit (StorePtk (ptk w.(sm))) w in
        let w := upd (fun s => s <| ptk ::= fun p => p <| tk := replicate WPA_TK_MAX_LEN 0 |> <| tk_len := 0%nat |> |>
                                 <| ptk_installed := true |>) w in
        (0, if wpa_ptk_rekey w.(sm) =? 0 then w else emit (RekeyTimer (wpa_ptk_rekey w.(sm))) w).

Definition wpa_supplicant_activate_ptk (w : W) : Z * W :=
  let '(r, w) := wpa_sm_set_key WPA_ALG_NONE (Some (bssid w.(sm))) (keyidx_active w.(sm)) false [] []
                   WpaState.KEY_FLAG_PAIRWISE_RX_TX_MODIFY w in
  (if r <? 0 then -1 else 0, w).

(** The algorithm and the length of the receive counter, [None] for -1. *)
Definition wpa_supplicant_check_group_cipher (group_cipher : Z) (keylen maxkeylen : nat) : option (wpa_alg * nat) :=
  let alg := wpa_cipher_to_alg group_cipher in
  let klen := wpa_cipher_key_len group_cipher in
  if bool_decide (alg = WPA_ALG_NONE) then None
  else if negb (keylen =? klen)%nat || (maxkeylen <? klen)%nat then None
  else Some (alg, wpa_cipher_rsc_len group_cipher).

(** [gd_gtk] is the buffer of 32 octets. *)
Record wpa_gtk_data := mk_gd {
  gd_alg : wpa_alg; gd_tx : bool; gd_key_rsc_len : nat; gd_keyidx : Z; gd_gtk : bytes; gd_gtk_len : nat }.

(** The key as the driver gets it. *)
Definition driver_gtk (s : wpa_sm) (gd : wpa_gtk_data) : bytes :=
  let k := gd_gtk gd in
  take (gd_gtk_len gd) (if group_cipher s =? WPA_CIPHER_TKIP then take 16 k ++ sub 24 8 k ++ sub 16 8 k else k).

(** [wnm_sleep] tells which copy of the key is kept. *)
Definition wpa_supplicant_install_gtk (gd : wpa_gtk_data) (rsc : bytes) (wnm_sleep : bool) (w : W) : Z * W :=
  let s := w.(sm) in
  let k := take (gd_gtk_len gd) (gd_gtk gd) in
  if bool_decide (gtk s = k) || bool_decide (gtk_wnm_sleep s = k) then (0, w)
  else
    let seq := take (gd_key_rsc_len gd) rsc in
    let '(r, w) :=
      if pairwise_cipher s =? WPA_CIPHER_NONE
      then wpa_sm_set_key (gd_alg gd) None (gd_keyidx gd) true seq (driver_gtk s gd) KEY_FLAG_GROUP_RX_TX_DEFAULT w
      else wpa_sm_set_key (gd_alg gd) (Some broadcast_ether_addr) (gd_keyidx gd) (gd_tx gd) seq (driver_gtk s gd)
             KEY_FLAG_GROUP_RX w in
    if r <? 0 then (-1, w)
    else (0, upd (fun s => if wnm_sleep then s <| gtk_wnm_sleep := k |> else s <| gtk := k |>) w).

Definition wpa_supplicant_gtk_tx_bit_workaround (s : wpa_sm) (tx : bool) : bool :=
  if tx && negb (pairwise_cipher s =? WPA_CIPHER_NONE) then false else tx.

Definition wpa_supplicant_rsc_relaxation (s : wpa_sm) (rsc : bytes) : bool :=
  if negb (wpa_rsc_relaxation s) then false
  else
    (wpa_cipher_rsc_len (group_cipher s) =? 6)%nat &&
    ((negb (get rsc 5 =? 0) && (get rsc 0 =? 0)) || negb (get rsc 6 =? 0) || negb (get rsc 7 =? 0)).
Definition relaxed_rsc (s : wpa_sm) (frame : bytes) : bytes :=
  if wpa_supplicant_rsc_relaxation s (key_rsc frame) then null_rsc else key_rsc frame.

(** [gtk0] is the content of the encapsulation: key identifier, a reserved octet
    and the key. *)
Definition wpa_supplicant_pairwise_gtk (frame gtk0 : bytes) (w : W) : Z * W :=
  let s := w.(sm) in
  if (length gtk0 <? 2)%nat || (32 <? length gtk0 - 2)%nat then (-1, w)
  else
    let k := drop 2 gtk0 in
    if group_cipher s =? WPA_CIPHER_GTK_NOT_USED then (0, w)
    else
      match wpa_supplicant_check_group_cipher (group_cipher s) (length k) (length k) with
      | None => (-1, w)
      | Some (alg, rsc_len) =>
        let gd := mk_gd alg (wpa_supplicant_gtk_tx_bit_workaround s (flag_set (get gtk0 0) (BIT 2))) rsc_len
                    (Z.land (get gtk0 0) 0x3) (k ++ replicate (32 - length k) 0) (length k) in
        let '(r, w) := wpa_supplicant_install_gtk gd (relaxed_rsc s frame) false w in
        (if r =? 0 then 0 else -1, w)
      end.

(** The layout of [struct wpa_igtk_kde] and [struct wpa_bigtk_kde]. *)
Definition kde_keyid (kde : bytes) : Z := WPA_GET_LE16 kde.
Definition kde_pn (kde : bytes) : bytes := sub 2 6 kde.
Definition kde_key (len : nat) (kde : bytes) : bytes := sub 8 len kde.

Definition wpa_supplicant_install_igtk (kde : bytes) (wnm_sleep : bool) (w : W) : Z * W :=
  let s := w.(sm) in
  let len := wpa_cipher_key_len (mgmt_group_cipher s) in
  let keyidx := kde_keyid kde in
  let k := kde_key len kde in
  if bool_decide (igtk s = k) || bool_decide (igtk_wnm_sleep s = k) then (0, w)
  else if 4095 <? keyidx then (-1, w)
  else
    let '(r, w) := wpa_sm_set_key (wpa_cipher_to_alg (mgmt_group_cipher s)) (Some broadcast_ether_addr) keyidx false
                     (kde_pn kde) k KEY_FLAG_GROUP_RX w in
    if (r <? 0) && negb ((keyidx =? 0x0400) || (keyidx =? 0x0500)) then (-1, w)
    else (0, upd (fun s => if wnm_sleep then s <| igtk_wnm_sleep := k |> else s <| igtk := k |>) w).

Definition wpa_supplicant_install_bigtk (kde : bytes) (wnm_sleep : bool) (w : W) : Z * W :=
  let s := w.(sm) in
  let len := wpa_cipher_key_len (mgmt_group_cipher s) in
  let keyidx := kde_keyid kde in
  let k := kde_key len kde in
  if bool_decide (bigtk s = k) || bool_decide (bigtk_wnm_sleep s = k) then (0, w)
  else if (keyidx <? 6) || (7 <? keyidx) then (-1, w)
  else
    let '(r, w) := wpa_sm_set_key (wpa_cipher_to_alg (mgmt_group_cipher s)) (Some broadcast_ether_addr) keyidx false
                     (kde_pn kde) k KEY_FLAG_GROUP_RX w in
    if r <? 0 then (-1, w)
    else (0, upd (fun s => if wnm_sleep then s <| bigtk_wnm_sleep := k |> else s <| bigtk := k |>) w).

Definition ieee80211w_set_keys (kd : bytes) (ie : WpaKde.wpa_eapol_ie_parse) (w : W) : Z * W :=
  let s := w.(sm) in
  let len := wpa_cipher_key_len (mgmt_group_cipher s) in
  if negb (wpa_cipher_valid_mgmt_group (mgmt_group_cipher s)) || (mgmt_group_cipher s =? WPA_CIPHER_GTK_NOT_USED)
  then (0, w)
  else
    let '(r, w) :=
      match span_bytes kd (WpaKde.igtk ie) with
      | Some k =>
        if negb (length k =? WpaPtk.WPA_IGTK_KDE_PREFIX_LEN + len)%nat then (-1, w)
        else wpa_supplicant_install_igtk k false w
      | None => (0, w)
      end in
    if r <? 0 then (-1, w)
    else
      match span_bytes kd (WpaKde.bigtk ie) with
      | Some k =>
        if negb (beacon_prot s) then (0, w)
        else if negb (length k =? WpaPtk.WPA_BIGTK_KDE_PREFIX_LEN + len)%nat then (-1, w)
        else let '(r, w) := wpa_supplicant_install_bigtk k false w in (if r <? 0 then -1 else 0, w)
      | None => (0, w)
      end.

(** ** Message 3/4 *)

Definition wpa_supplicant_key_neg_complete (secure : bool) (w : W) : W :=
  let w := set_state WPA_COMPLETED (emit CancelAuthTimeout w) in
  let w :=
    if secure then
      let w := emit PortValid (emit (SetProtection true) w) in
      let akm := key_mgmt w.(sm) in
      let w := if wpa_key_mgmt_wpa_psk akm || (akm =? WPA_KEY_MGMT_DPP) || (akm =? WPA_KEY_MGMT_OWE)
               then emit EapSuccess w else w in
      let '(some, w) := ask Q_candidates cb_candidates w in
      if some : bool then emit StartPreauth w else w
    else w in
  upd (fun s => s <| cur_pmksa ::= option_map (fun e => e <| sa_opportunistic := false |>) |>) w.

(** 0 or -1. *)
Definition wpa_handle_ext_key_id (kd : bytes) (ie : WpaKde.wpa_eapol_ie_parse) (w : W) : Z * W :=
  let s := w.(sm) in
  let id := (fun p => Z.land (get kd p) 0x03) <$> WpaKde.key_id ie in
  if ext_key_id s then
    match id with
    | None => (if use_ext_key_id s then -1 else 0, upd (fun s => s <| keyidx_active := 0 |>) w)
    | Some id =>
      if 1 <? id then (-1, w) else (0, upd (fun s => s <| keyidx_active := id |> <| use_ext_key_id := true |>) w)
    end
  else
    match id with
    | Some id =>
      if negb (id =? 0) then (-1, w)
      else (0, upd (fun s => s <| keyidx_active := 0 |> <| use_ext_key_id := false |>) w)
    | None => (0, upd (fun s => s <| keyidx_active := 0 |> <| use_ext_key_id := false |>) w)
    end.

(** The element is the same as the one known, or one of them is missing. *)
Definition differs (compare : bytes -> bytes -> bool) (a b : option bytes) : bool :=
  match a, b with Some a, Some b => negb (compare a b) | _, _ => false end.
Definition same_element (a b : bytes) : bool := (length a =? length b)%nat && same (length a) a b.

(** The elements of message 3/4 are those of the beacon. *)
Definition wpa_supplicant_validate_ie (kd : bytes) (ie : WpaKde.wpa_eapol_ie_parse) (w : W) : Z * W :=
  let mismatch w := (-1, deauthenticate WLAN_REASON_IE_IN_4WAY_DIFFERS w) in
  let wpa0 := span_bytes kd (WpaKde.wpa_ie ie) in
  let rsn0 := span_bytes kd (WpaKde.rsn_ie ie) in
  let rsnx0 := span_bytes kd (WpaKde.rsnxe ie) in
  let '(known, w) :=
    if bool_decide (ap_wpa_ie w.(sm) = None) && bool_decide (ap_rsn_ie w.(sm) = None) then
      let '(found, w) := ask Q_beacon_ie cb_get_beacon_ie w in
      match found with
      | Some (a, b, c) => (true, upd (fun s => s <| ap_wpa_ie := a |> <| ap_rsn_ie := b |> <| ap_rsnxe := c |>) w)
      | None => (false, w)
      end
    else (true, w) in
  let s := w.(sm) in
  if negb known then (-1, w)
  else if bool_decide (wpa0 = None) && bool_decide (rsn0 = None) &&
          (bool_decide (ap_wpa_ie s <> None) || bool_decide (ap_rsn_ie s <> None))
  then mismatch w
  else if differs same_element wpa0 (ap_wpa_ie s) ||
          differs (fun a b => WpaKde.wpa_compare_rsn_ie (Some b) (Some a) =? 0) rsn0 (ap_rsn_ie s)
  then mismatch w
  else if (proto s =? WPA_PROTO_WPA) && bool_decide (rsn0 <> None) && bool_decide (ap_rsn_ie s = None) && rsn_enabled s
  then mismatch w
  else if (proto s =? WPA_PROTO_RSN) && negb (WpaPtk.rsnxe_matches (ap_rsnxe s) rsnx0) then mismatch w
  else (0, w).

(** The checks of message 3/4, up to the answer; [false] ends with a
    deauthentication. *)
Definition check_3_of_4 (frame kd : bytes) (ie : WpaKde.wpa_eapol_ie_parse) (w : W) : bool * W :=
  let encrypted := flag_set (key_info frame) WPA_KEY_INFO_ENCR_KEY_DATA in
  let cipher := mgmt_group_cipher w.(sm) in
  if bool_decide (WpaKde.gtk ie <> None) && negb encrypted then (false, w)
  else if bool_decide (WpaKde.igtk ie <> None) && negb encrypted then (false, w)
  else if match WpaKde.igtk ie with
          | Some (_, n) => negb (cipher =? WPA_CIPHER_GTK_NOT_USED) && wpa_cipher_valid_mgmt_group cipher &&
                           negb (n =? WpaPtk.WPA_IGTK_KDE_PREFIX_LEN + wpa_cipher_key_len cipher)%nat
          | None => false
          end
  then (false, w)
  else
    let '(r, w) := wpa_supplicant_validate_ie kd ie w in
    if r <? 0 then (false, w)
    else
      let '(r, w) := wpa_handle_ext_key_id kd ie w in
      if negb (r =? 0) then (false, w)
      else if negb (same WPA_NONCE_LEN (anonce w.(sm)) (key_nonce frame)) then (false, w)
      else (key_length frame =? Z.of_nat (wpa_cipher_key_len (pairwise_cipher w.(sm))), w).

(** The answer and the installation of the pairwise key. *)
Definition answer_3_of_4 (frame : bytes) (ver : Z) (w : W) : bool * W :=
  let info := key_info frame in
  let '(r, w) := if use_ext_key_id w.(sm) then wpa_supplicant_install_ptk frame WpaState.KEY_FLAG_RX w else (0, w) in
  if negb (r =? 0) then (false, w)
  else
    let '(r, w) := wpa_supplicant_send_4_of_4 frame ver info (ptk w.(sm)) w in
    if r <? 0 then (false, w)
    else
      let w := upd (fun s => s <| renew_snonce := true |>) w in
      let '(r, w) :=
        if flag_set info WPA_KEY_INFO_INSTALL then
          if use_ext_key_id w.(sm) then wpa_supplicant_activate_ptk w
          else wpa_supplicant_install_ptk frame WpaState.KEY_FLAG_RX_TX w
        else (0, w) in
      if negb (r =? 0) then (false, w)
      else
        let w := if flag_set info WPA_KEY_INFO_SECURE then emit PortValid (emit (SetProtection false) w) else w in
        (true, set_state WPA_GROUP_HANDSHAKE w).

(** The group keys of message 3/4. *)
Definition install_group_keys (frame kd : bytes) (ie : WpaKde.wpa_eapol_ie_parse) (w : W) : bool * W :=
  let gtk0 := span_bytes kd (WpaKde.gtk ie) in
  let '(ok, w) :=
    if group_cipher w.(sm) =? WPA_CIPHER_GTK_NOT_USED then (true, w)
    else
      match gtk0 with
      | None => (negb (proto w.(sm) =? WPA_PROTO_RSN), w)
      | Some k => let '(r, w) := wpa_supplicant_pairwise_gtk frame k w in (0 <=? r, w)
      end in
  if negb ok then (false, w)
  else let '(r, w) := ieee80211w_set_keys kd ie w in (0 <=? r, w).

(** The end of message 3/4. *)
Definition finish_3_of_4 (frame kd : bytes) (ie : WpaKde.wpa_eapol_ie_parse) (w : W) : W :=
  let has_gtk := bool_decide (WpaKde.gtk ie <> None) in
  let w := if (group_cipher w.(sm) =? WPA_CIPHER_GTK_NOT_USED) || has_gtk
           then wpa_supplicant_key_neg_complete (flag_set (key_info frame) WPA_KEY_INFO_SECURE) w else w in
  let w := if has_gtk then emit RekeyOffload w else w in
  let w :=
    if (proto w.(sm) =? WPA_PROTO_RSN) && wpa_key_mgmt_suite_b (key_mgmt w.(sm)) && bool_decide (cur_pmksa w.(sm) = None)
    then
      let '(sa, w) := pmksa_cache_add (take (pmk_len w.(sm)) (pmk w.(sm))) w in
      if bool_decide (cur_pmksa w.(sm) = None) then upd (fun s => s <| cur_pmksa := sa |>) w else w
    else w in
  let w := match WpaKde.transition_disable ie with
           | Some (p, _) => emit (TransitionDisable (get kd p)) w
           | None => w
           end in
  upd (fun s => s <| msg_3_of_4_ok := true |>) w.

Definition wpa_supplicant_process_3_of_4 (frame : bytes) (ver : Z) (kd : bytes) (w : W) : W :=
  let w := set_state WPA_4WAY_HANDSHAKE w in
  match parse_ies kd with
  | None => failed w
  | Some ie =>
    let '(ok, w) := check_3_of_4 frame kd ie w in
    if negb ok then failed w
    else
      let '(ok, w) := answer_3_of_4 frame ver w in
      if negb ok then failed w
      else
        let '(ok, w) := install_group_keys frame kd ie w in
        if negb ok then failed w else finish_3_of_4 frame kd ie w
  end.

(** ** The group key handshake *)

Definition no_gd : wpa_gtk_data := mk_gd WPA_ALG_NONE false 0 0 (replicate 32 0) 0.

Definition wpa_supplicant_process_1_of_2_rsn (kd : bytes) (info : Z) (w : W) : option wpa_gtk_data * W :=
  let s := w.(sm) in
  match parse_ies kd with
  | None => (None, w)
  | Some ie =>
    match span_bytes kd (WpaKde.gtk ie) with
    | None => (None, w)
    | Some k =>
      if negb (flag_set info WPA_KEY_INFO_ENCR_KEY_DATA) then (None, w)
      else
        let n := (length k - 2)%nat in
        if (length k <? 2)%nat || (32 <? n)%nat then (None, w)
        else
          match wpa_supplicant_check_group_cipher (group_cipher s) n n with
          | None => (None, w)
          | Some (alg, rsc_len) =>
            let gd := mk_gd alg (wpa_supplicant_gtk_tx_bit_workaround s (flag_set (get k 0) (BIT 2))) rsc_len
                        (Z.land (get k 0) 0x3) (drop 2 k ++ replicate (32 - n) 0) n in
            (Some gd, (ieee80211w_set_keys kd ie w).2)
          end
    end
  end.

(** The key of message 1/2 for WPA: all of the key data is the encrypted key. *)
Definition wpa_supplicant_process_1_of_2_wpa (frame kd : bytes) (info ver : Z) (s : wpa_sm) : option wpa_gtk_data :=
  let n := Z.to_nat (key_length frame) in
  let wrapped := ver =? WPA_KEY_INFO_TYPE_HMAC_SHA1_AES in
  if wrapped && (length kd <? 8)%nat then None
  else
    let maxkeylen := if wrapped then (length kd - 8)%nat else length kd in
    if (maxkeylen <? n)%nat then None
    else
      '(alg, rsc_len) ← wpa_supplicant_check_group_cipher (group_cipher s) n maxkeylen;
      let keyidx := Z.shiftr (Z.land info WPA_KEY_INFO_KEY_INDEX_MASK) WPA_KEY_INFO_KEY_INDEX_SHIFT in
      let p := ptk s in
      k ← (if (ver =? WPA_KEY_INFO_TYPE_HMAC_MD5_RC4) && (kek_len p =? 16)%nat then
             if (32 <? length kd)%nat then None
             else Some (rc4_skip (key_iv frame ++ take (kek_len p) (kek p)) 256 kd)
           else if wrapped then
             if negb (maxkeylen mod 8 =? 0)%nat || (32 <? maxkeylen)%nat then None
             else
               let '(r, out) := aes_unwrap (take (kek_len p) (kek p)) (Z.of_nat (kek_len p)) (maxkeylen / 8) kd in
               if negb (r =? 0) then None else Some out
           else None);
      Some (mk_gd alg (wpa_supplicant_gtk_tx_bit_workaround s (flag_set info WPA_KEY_INFO_TXRX)) rsc_len keyidx
              (k ++ replicate (32 - length k) 0) n).

Definition wpa_supplicant_process_1_of_2 (frame kd : bytes) (ver : Z) (w : W) : W :=
  if negb (msg_3_of_4_ok w.(sm)) then failed w
  else
    let rekey := bool_decide (wpa_state w = WPA_COMPLETED) in
    let info := key_info frame in
    let '(gd, w) := if is_rsn w.(sm) then wpa_supplicant_process_1_of_2_rsn kd info w
                    else (wpa_supplicant_process_1_of_2_wpa frame kd info ver w.(sm), w) in
    let w := set_state WPA_GROUP_HANDSHAKE w in
    match gd with
    | None => failed w
    | Some gd =>
      let '(r, w) := wpa_supplicant_install_gtk gd (relaxed_rsc w.(sm) frame) false w in
      if negb (r =? 0) then failed w
      else
        let '(r, w) := wpa_supplicant_send_2_of_2 frame ver info w in
        if r <? 0 then failed w
        else
          let w := if rekey then set_state WPA_COMPLETED (emit CancelAuthTimeout w)
                   else wpa_supplicant_key_neg_complete (flag_set info WPA_KEY_INFO_SECURE) w in
          emit RekeyOffload w
    end.

(** ** The calls from outside *)

(** [wpa_sm_rx_eapol] with the functions a frame is handed to. *)
Definition rx_eapol (src buf : bytes) (w : W) : Z * W :=
  let alloc n := os_alloc (Query (Q_alloc n) :: events w) n in
  let '(r, d, s) := wpa_sm_rx_eapol CONFIG_SAE alloc buf w.(sm) in
  let w := w <| sm := s |> in
  (r, match d with
      | None => w
      | Some (process_1_of_4 frame ver kd) => wpa_supplicant_process_1_of_4 src frame ver kd w
      | Some (process_3_of_4 frame ver kd) => wpa_supplicant_process_3_of_4 frame ver kd w
      | Some (process_1_of_2 frame ver kd) => wpa_supplicant_process_1_of_2 frame kd ver w
      end).

Definition no_ptks (s : wpa_sm) : wpa_sm :=
  s <| ptk_set := false |> <| ptk := zero_ptk |> <| ptk_installed := false |>
    <| tptk_set := false |> <| tptk := zero_ptk |>.
(** [bigtk] and [bigtk_wnm_sleep] stay. *)
Definition no_group_keys (s : wpa_sm) : wpa_sm :=
  s <| gtk := [] |> <| gtk_wnm_sleep := [] |> <| igtk := [] |> <| igtk_wnm_sleep := [] |>.

Definition wpa_sm_notify_assoc (addr : bytes) (w : W) : W :=
  upd (fun s =>
    (no_group_keys (no_ptks (s <| bssid := take ETH_ALEN addr |> <| rx_replay_counter := replicate WPA_REPLAY_COUNTER_LEN 0 |>
                               <| rx_replay_counter_set := false |> <| renew_snonce := true |>)))
      <| keyidx_active := 0 |>) w.

Definition wpa_sm_drop_sa (w : W) : W :=
  upd (fun s => no_group_keys (no_ptks (s <| pmk_len := 0%nat |> <| pmk := replicate PMK_LEN_MAX 0 |>))) w.

Definition wpa_sm_notify_disassoc (w : W) : W :=
  let w := upd (fun s => s <| cur_pmksa := None |>) (emit CancelTimers w) in
  let w := if bool_decide (wpa_state w = WPA_4WAY_HANDSHAKE)
           then upd (fun s => s <| dot11RSNA4WayHandshakeFailures ::= fun n => n + 1 |>) w else w in
  let w := wpa_sm_drop_sa w in
  upd (fun s => s <| keyidx_active := 0 |> <| msg_3_of_4_ok := false |> <| bssid := replicate ETH_ALEN 0 |>) w.

(** [cache] is the address under which the key is cached, if any. *)
Definition wpa_sm_set_pmk (k : bytes) (cache : option bytes) (w : W) : W :=
  let w := upd (fun s => s <| pmk_len := length k |> <| pmk ::= fun b => memcpy b 0 k |>) w in
  match cache with
  | Some _ => let '(sa, w) := pmksa_cache_add k w in upd (fun s => s <| cur_pmksa := sa |>) w
  | None => w
  end.

Definition wpa_wnmsleep_install_key (subelem_id : Z) (buf : bytes) (w : W) : Z * W :=
  let s := w.(sm) in
  if subelem_id =? WNM_SLEEP_SUBELEM_GTK then
    let n := wpa_cipher_key_len (group_cipher s) in
    let alg := wpa_cipher_to_alg (group_cipher s) in
    if bool_decide (alg = WPA_ALG_NONE) then (-1, w)
    else if negb (Z.of_nat n =? get buf 4) then (-1, w)
    else
      let keyinfo := WPA_GET_LE16 (drop 2 buf) in
      let gd := mk_gd alg (wpa_supplicant_gtk_tx_bit_workaround s (flag_set keyinfo WPA_KEY_INFO_TXRX))
                  (wpa_cipher_rsc_len (group_cipher s)) (Z.land keyinfo 0x03)
                  (sub 13 n buf ++ replicate (32 - n) 0) n in
      let '(r, w) := wpa_supplicant_install_gtk gd (drop 5 buf) true w in
      (if r =? 0 then 0 else -1, w)
  else if subelem_id =? WNM_SLEEP_SUBELEM_IGTK then
    let '(r, w) := wpa_supplicant_install_igtk (drop 2 buf) true w in (if r <? 0 then -1 else 0, w)
  else if subelem_id =? WNM_SLEEP_SUBELEM_BIGTK then
    if beacon_prot s then
      let '(r, w) := wpa_supplicant_install_bigtk (drop 2 buf) true w in (if r <? 0 then -1 else 0, w)
    else (0, w)
  else (-1, w).

(** [wpa_sm_set_param]; the parameters nothing here reads are left out. *)
Inductive wpa_sm_conf_params :=
| WPA_PARAM_PROTO | WPA_PARAM_PAIRWISE | WPA_PARAM_GROUP | WPA_PARAM_KEY_MGMT | WPA_PARAM_MGMT_GROUP
| WPA_PARAM_RSN_ENABLED | WPA_PARAM_DENY_PTK0_REKEY | WPA_PARAM_EXT_KEY_ID | WPA_PARAM_USE_EXT_KEY_ID.
Definition wpa_sm_set_param (p : wpa_sm_conf_params) (value : Z) (w : W) : W :=
  upd (fun s =>
    match p with
    | WPA_PARAM_PROTO => s <| proto := value |>
    | WPA_PARAM_PAIRWISE => s <| pairwise_cipher := value |>
    | WPA_PARAM_GROUP => s <| group_cipher := value |>
    | WPA_PARAM_KEY_MGMT => s <| key_mgmt := value |>
    | WPA_PARAM_MGMT_GROUP => s <| mgmt_group_cipher := value |>
    | WPA_PARAM_RSN_ENABLED => s <| rsn_enabled := negb (value =? 0) |>
    | WPA_PARAM_DENY_PTK0_REKEY => s <| wpa_deny_ptk0_rekey := Z.odd value |>
    | WPA_PARAM_EXT_KEY_ID => s <| ext_key_id := negb (value =? 0) |>
    | WPA_PARAM_USE_EXT_KEY_ID => s <| use_ext_key_id := negb (value =? 0) |>
    end) w.

(** [wpa_sm_set_config], as far as it is used here. *)
Definition wpa_sm_set_config (ptk_rekey : Z) (rsc_relaxation force_kdk protect_beacons : bool) (w : W) : W :=
  upd (fun s => s <| wpa_ptk_rekey := ptk_rekey |> <| wpa_rsc_relaxation := rsc_relaxation |>
                  <| force_kdk_derivation := force_kdk |> <| beacon_prot := protect_beacons |>) w.

(** A copy of an element for one of the pointers to elements; -1 when there is no
    memory. *)
Definition copy_element (ie : option bytes) (set : option bytes -> wpa_sm -> wpa_sm) (w : W) : Z * W :=
  match ie with
  | Some ie =>
    if (length ie =? 0)%nat then (0, upd (set None) w)
    else let '(ok, w) := allocate (length ie) w in
         if ok : bool then (0, upd (set (Some ie)) w) else (-1, upd (set None) w)
  | None => (0, upd (set None) w)
  end.
Definition wpa_sm_set_assoc_wpa_ie (ie : option bytes) : W -> Z * W :=
  copy_element ie (fun ie s => s <| assoc_wpa_ie := ie |>).
Definition wpa_sm_set_assoc_rsnxe (ie : option bytes) : W -> Z * W :=
  copy_element ie (fun ie s => s <| assoc_rsnxe := ie |>).
Definition wpa_sm_set_ap_wpa_ie (ie : option bytes) : W -> Z * W := copy_element ie (fun ie s => s <| ap_wpa_ie := ie |>).
Definition wpa_sm_set_ap_rsn_ie (ie : option bytes) : W -> Z * W := copy_element ie (fun ie s => s <| ap_rsn_ie := ie |>).
Definition wpa_sm_set_ap_rsnxe (ie : option bytes) : W -> Z * W := copy_element ie (fun ie s => s <| ap_rsnxe := ie |>).
Definition wpa_sm_set_own_addr (addr : bytes) (w : W) : W := upd (fun s => s <| own_addr := take ETH_ALEN addr |>) w.
Definition wpa_sm_set_eapol (present : bool) (w : W) : W := upd (fun s => s <| has_eapol := present |>) w.
Definition wpa_sm_set_rx_replay_ctr (c : bytes) (w : W) : W :=
  upd (fun s => s <| rx_replay_counter := take WPA_REPLAY_COUNTER_LEN c |> <| rx_replay_counter_set := true |>) w.
Definition wpa_sm_update_replay_ctr (c : bytes) (w : W) : W :=
  upd (fun s => s <| rx_replay_counter := take WPA_REPLAY_COUNTER_LEN c |>) w.
Definition wpa_sm_rekey_ptk (w : W) : W := wpa_sm_key_request false true w.
End sta.
