(* ===== verification/WpaStaProofs.v ===== *)
(** * The WPA supplicant: what each function changes

    Most functions of [WpaSta] leave alone what the theorems are about: the pairwise
    keys and nonces ([pcore]), the group keys ([gcore]) and the events that give
    access ([mute]).  The lemmas below say so, function by function; the tactic
    [quietly] proves them. *)

From S2P Require Import Prelude Bytes HashSpec Hmac AesInterface AesWrap Rc4 WpaKeys WpaFrame WpaSupp WpaSta.
From S2P Require WpaKde WpaState WpaPtk.

(** ** The parts of the state *)

Definition pcore (s : wpa_sm) :=
  (pairwise_cipher s, ptk s, tptk s, tptk_set s, ptk_installed s, snonce s, renew_snonce s).
Definition gcore (s : wpa_sm) := (group_cipher s, mgmt_group_cipher s, gtk s, gtk_wnm_sleep s).

Definition mute (e : sta_event) : bool :=
  match e with SNonceDrawn _ _ | SetKey _ _ _ _ _ _ _ _ | PortValid => false | _ => true end.
(** The installation of a key for one station, and of a group key with the
    algorithm [a]; [Some] is the key. *)
Definition ptk_install (e : sta_event) : option bytes :=
  match e with
  | SetKey alg _ _ _ _ key flag res =>
    if flag_set flag WpaState.KEY_FLAG_PAIRWISE && bool_decide (alg <> WPA_ALG_NONE) && (0 <=? res) then Some key else None
  | _ => None
  end.
Definition gtk_install (a : wpa_alg) (e : sta_event) : option bytes :=
  match e with
  | SetKey alg _ _ _ _ key flag res =>
    if flag_set flag WpaState.KEY_FLAG_GROUP && bool_decide (alg = a) && (0 <=? res) then Some key else None
  | _ => None
  end.
Definition drawn (e : sta_event) : option bytes := match e with SNonceDrawn true b => Some b | _ => None end.

(** Newest first. *)
Definition ptk_installs (l : list sta_event) : list bytes := omap ptk_install l.
Definition gtk_installs (a : wpa_alg) (l : list sta_event) : list bytes := omap (gtk_install a) l.
Definition draws (l : list sta_event) : list bytes := omap drawn l.

(** ** Extending the past *)

Definition extends (P : sta_event -> Prop) (w w' : world) : Prop :=
  exists new, events w' = new ++ events w /\ Forall P new.

#[export] Instance extends_preorder P : PreOrder (extends P).
Proof.
  split.
  - intros w. by exists [].
  - intros w1 w2 w3 (n1 & E1 & F1) (n2 & E2 & F2). exists (n2 ++ n1). rewrite E2, E1, app_assoc.
    split; [done|]. by apply Forall_app.
Qed.
Lemma extends_weaken (P Q : sta_event -> Prop) w w' : (forall e, P e -> Q e) -> extends P w w' -> extends Q w w'.
Proof. intros H (n & E & F). exists n. split; [done|]. eapply Forall_impl; [exact F|exact H]. Qed.
Lemma extends_emit (P : sta_event -> Prop) e w w' : P e -> extends P w w' -> extends P w (emit e w').
Proof. intros H (n & E & F). exists (e :: n). split; [cbn; by rewrite E|]. by constructor. Qed.
Lemma extends_same P w w' w'' : events w'' = events w' -> extends P w w' -> extends P w w''.
Proof. intros H (n & E & F). exists n. by rewrite H. Qed.
Lemma extends_omap {A} (f : sta_event -> option A) w w' :
  extends (fun e => f e = None) w w' -> omap f (events w') = omap f (events w).
Proof.
  intros (n & -> & F). induction F as [|e n He F IH]; [done|]. cbn [app omap list_omap]. by rewrite He.
Qed.

(** ** Steady functions

    [steady k P w w']: the part [k] of the station is the same, and the events since
    have the property [P]. *)

Record steady {T} (k : wpa_sm -> T) (P : sta_event -> Prop) (w w' : world) : Prop := {
  steady_part : k (sm w') = k (sm w);
  steady_events : extends P w w' }.

#[export] Instance steady_preorder {T} (k : wpa_sm -> T) P : PreOrder (steady k P).
Proof.
  split.
  - intros w. by split.
  - intros w1 w2 w3 [P1 E1] [P2 E2]. split; [by rewrite P2|by etrans].
Qed.
Lemma steady_emit {T} (k : wpa_sm -> T) (P : sta_event -> Prop) e w w' :
  P e -> steady k P w w' -> steady k P w (emit e w').
Proof. intros H [K E]. split; [exact K|by apply extends_emit]. Qed.
Lemma steady_upd {T} (k : wpa_sm -> T) P f w w' : k (f (sm w')) = k (sm w') -> steady k P w w' -> steady k P w (upd f w').
Proof. intros Hk [K E]. split; [exact (eq_trans Hk K)|]. by apply (extends_same _ w w'). Qed.
Lemma steady_state {T} (k : wpa_sm -> T) P s w w' : steady k P w w' -> steady k P w (w' <| wpa_state := s |>).
Proof. intros [K E]. split; [exact K|]. by apply (extends_same _ w w'). Qed.

(** Neither keys nor access; no pairwise keys; no group key with the algorithm [a];
    no access. *)
Definition cores (s : wpa_sm) := (pcore s, gcore s).
Definition is_mute (e : sta_event) : Prop := mute e = true.
Definition no_ptk (e : sta_event) : Prop := ptk_install e = None /\ drawn e = None.
Definition no_gtk (a : wpa_alg) (e : sta_event) : Prop := gtk_install a e = None.
Definition access (e : sta_event) : bool := match e with SetKey _ _ _ _ _ _ _ _ | PortValid => true | _ => false end.
Definition no_access (e : sta_event) : Prop := access e = false.
Notation quiet := (steady cores is_mute).
Notation psteady := (steady pcore no_ptk).
Notation gsteady a := (steady gcore (no_gtk a)).

Lemma quiet_psteady w w' : quiet w w' -> psteady w w'.
Proof.
  intros [K E]. split; [exact (f_equal fst K)|]. eapply extends_weaken; [|exact E]. intros e He. by destruct e.
Qed.
Lemma quiet_gsteady a w w' : quiet w w' -> gsteady a w w'.
Proof.
  intros [K E]. split; [exact (f_equal snd K)|]. eapply extends_weaken; [|exact E]. intros e He. by destruct e.
Qed.
Lemma quiet_no_access w w' : quiet w w' -> extends no_access w w'.
Proof. intros [_ E]. eapply extends_weaken; [|exact E]. intros e He. by destruct e. Qed.
(** Reads the past. *)
Lemma psteady_past w w' : psteady w w' ->
  pcore (sm w') = pcore (sm w) /\ ptk_installs (events w') = ptk_installs (events w) /\ draws (events w') = draws (events w).
Proof.
  intros [K E]. split; [exact K|]. split; apply extends_omap; (eapply extends_weaken; [|exact E]); by intros e [? ?].
Qed.
Lemma gsteady_past a w w' : gsteady a w w' ->
  gcore (sm w') = gcore (sm w) /\ gtk_installs a (events w') = gtk_installs a (events w).
Proof. intros [K E]. split; [exact K|]. by apply extends_omap. Qed.

Create HintDb quiet.
#[export] Hint Resolve quiet_psteady quiet_gsteady : quiet.

(** The goal is [steady k P w x] where [x] is built by functions of that kind. *)
Ltac steady_event := first [exact eq_refl|split; exact eq_refl|assumption].
Ltac quiet_chain :=
  repeat first
    [ assumption
    | progress unfold set_state, deauthenticate, failed
    | lazymatch goal with
      | |- steady _ _ ?w ?w => reflexivity
      | |- steady _ _ _ (emit _ _) => apply steady_emit; [steady_event|]
      | |- steady _ _ _ (upd _ _) => apply steady_upd; [exact eq_refl|]
      | |- steady _ _ _ (_ <| wpa_state := _ |>) => apply steady_state
      | |- steady _ _ _ (snd (?f ?w)) => etransitivity; [|solve [eauto with quiet nocore]]
      | |- steady _ _ _ (?f ?w) => etransitivity; [|solve [eauto with quiet nocore]]
      end ].

(** Names the results of the calls, of which it knows that they are of that kind. *)
Ltac quietly :=
  let kind := lazymatch goal with |- ?r ?w _ => constr:(r w) end in
  repeat (cbv zeta;
    match goal with
    | |- context [match ?p with pair _ _ => _ end] =>
      lazymatch p with
      | (if ?b then _ else _) => destruct b
      | match ?o with Some _ => _ | None => _ end => destruct o
      | pair _ _ => cbv beta iota
      | _ =>
        lazymatch type of p with
        | (_ * world)%type =>
          let H := fresh "Hq" in
          assert (H : kind p.2) by quiet_chain;
          destruct p as [? ?]; cbn [snd] in H
        | _ => destruct p
        end
      end
    | |- context [if ?b then _ else _] => destruct b
    | |- context [match ?o with Some _ => _ | None => _ end] => destruct o
    end); cbn [fst snd]; quiet_chain.

Section quiet.
Context {C : Crypto} {E : SuppEnv} (CONFIG_SAE : bool).
Notation W := world.

Lemma ask_quiet {A} q (f : list sta_event -> A) w : quiet w (ask q f w).2.
Proof. unfold ask. cbv zeta. cbn [snd]. quiet_chain. Qed.
#[local] Hint Resolve ask_quiet : quiet.
Lemma allocate_quiet n w : quiet w (allocate n w).2.
Proof. apply ask_quiet. Qed.
#[local] Hint Resolve allocate_quiet : quiet.
Lemma ether_send_quiet d x w : quiet w (ether_send d x w).2.
Proof. unfold ether_send. cbv zeta. cbn [snd]. quiet_chain. Qed.
#[local] Hint Resolve ether_send_quiet : quiet.

Lemma key_send_quiet p ver dest msg m w : quiet w (wpa_eapol_key_send CONFIG_SAE p ver dest msg m w).2.
Proof. unfold wpa_eapol_key_send. quietly. Qed.
#[local] Hint Resolve key_send_quiet : quiet.
Lemma reply_quiet info n r nonce kd w : quiet w (reply_frame info n r nonce kd w).2.
Proof. unfold reply_frame. quietly. Qed.
#[local] Hint Resolve reply_quiet : quiet.
Lemma send_2_of_4_quiet f ver nonce ie p w : quiet w (wpa_supplicant_send_2_of_4 CONFIG_SAE f ver nonce ie p w).2.
Proof. unfold wpa_supplicant_send_2_of_4. quietly. Qed.
Lemma send_4_of_4_quiet f ver info p w : quiet w (wpa_supplicant_send_4_of_4 CONFIG_SAE f ver info p w).2.
Proof. unfold wpa_supplicant_send_4_of_4. quietly. Qed.
Lemma send_2_of_2_quiet f ver info w : quiet w (wpa_supplicant_send_2_of_2 CONFIG_SAE f ver info w).2.
Proof. unfold wpa_supplicant_send_2_of_2. quietly. Qed.
#[local] Hint Resolve send_2_of_4_quiet send_4_of_4_quiet send_2_of_2_quiet : quiet.
Lemma key_request_quiet e p w : quiet w (wpa_sm_key_request CONFIG_SAE e p w).
Proof. unfold wpa_sm_key_request. quietly. Qed.

Lemma free_cb_quiet e r w : quiet w (wpa_sm_pmksa_free_cb e r w).
Proof. unfold wpa_sm_pmksa_free_cb. cbv zeta. destruct (cur_pmksa (sm w)); quietly. Qed.
#[local] Hint Resolve free_cb_quiet : quiet.
Lemma free_all_quiet l w : quiet w (foldl (fun w e => wpa_sm_pmksa_free_cb e.1 e.2 w) w l).
Proof. revert w. induction l as [|e l IH]; intros w; [done|]. cbn [foldl]. etrans; [|apply IH]. apply free_cb_quiet. Qed.
#[local] Hint Resolve free_all_quiet : quiet.
Lemma cache_add_quiet k w : quiet w (pmksa_cache_add k w).2.
Proof.
  unfold pmksa_cache_add. cbv zeta. destruct (cb_pmksa_add _) as [gone sa]. cbn [snd].
  etrans; [|apply free_all_quiet]. quiet_chain.
Qed.
Lemma cache_get_quiet a i w : quiet w (pmksa_cache_get a i w).2.
Proof. apply ask_quiet. Qed.
Lemma set_pmk_from_pmksa_quiet w : quiet w (wpa_sm_set_pmk_from_pmksa w).
Proof. unfold wpa_sm_set_pmk_from_pmksa. quietly. Qed.
Lemma get_key_quiet n w : quiet w (eapol_sm_get_key n w).2.
Proof. unfold eapol_sm_get_key. quietly. Qed.
#[local] Hint Resolve cache_add_quiet cache_get_quiet set_pmk_from_pmksa_quiet get_key_quiet : quiet.
Lemma get_pmk_end_quiet b w : quiet w (get_pmk_end b w).2.
Proof. unfold get_pmk_end. quietly. Qed.
#[local] Hint Resolve get_pmk_end_quiet : quiet.
Lemma get_eap_pmk_quiet w : quiet w (get_eap_pmk w).2.
Proof. unfold get_eap_pmk. quietly. Qed.
Lemma use_eap_pmk_quiet src id n b w : quiet w (use_eap_pmk src id n b w).2.
Proof. unfold use_eap_pmk. quietly. Qed.
#[local] Hint Resolve get_eap_pmk_quiet use_eap_pmk_quiet : quiet.
Lemma get_pmk_quiet src id w : quiet w (wpa_supplicant_get_pmk src id w).2.
Proof. unfold wpa_supplicant_get_pmk. quietly. Qed.
#[local] Hint Resolve get_pmk_quiet : quiet.

Lemma answer_1_of_4_quiet f ver w : quiet w (answer_1_of_4 CONFIG_SAE f ver w).
Proof. unfold answer_1_of_4. quietly. Qed.

Lemma validate_ie_quiet kd ie w : quiet w (wpa_supplicant_validate_ie kd ie w).2.
Proof.
  unfold wpa_supplicant_validate_ie. cbv zeta. destruct (_ && _).
  - pose proof (ask_quiet Q_beacon_ie cb_get_beacon_ie w) as Hq. destruct (ask _ _ w) as [ [ [ [a b] c]|] w1]; cbn [snd] in Hq; quietly.
  - quietly.
Qed.
Lemma handle_ext_key_id_quiet kd ie w : quiet w (wpa_handle_ext_key_id kd ie w).2.
Proof. unfold wpa_handle_ext_key_id. quietly. Qed.
#[local] Hint Resolve answer_1_of_4_quiet validate_ie_quiet handle_ext_key_id_quiet : quiet.
Lemma check_3_of_4_quiet f kd ie w : quiet w (check_3_of_4 f kd ie w).2.
Proof. unfold check_3_of_4. destruct (WpaKde.igtk ie) as [ [? ?]|]; quietly. Qed.

(** *** Access *)

Lemma key_neg_complete_psteady b w : psteady w (wpa_supplicant_key_neg_complete b w).
Proof. unfold wpa_supplicant_key_neg_complete. quietly. Qed.
Lemma key_neg_complete_gsteady a b w : gsteady a w (wpa_supplicant_key_neg_complete b w).
Proof. unfold wpa_supplicant_key_neg_complete. quietly. Qed.
#[local] Hint Resolve key_neg_complete_psteady key_neg_complete_gsteady : quiet.
Lemma finish_3_of_4_psteady f kd ie w : psteady w (finish_3_of_4 f kd ie w).
Proof. unfold finish_3_of_4. destruct (WpaKde.transition_disable ie) as [ [? ?]|]; quietly. Qed.
Lemma finish_3_of_4_gsteady a f kd ie w : gsteady a w (finish_3_of_4 f kd ie w).
Proof. unfold finish_3_of_4. destruct (WpaKde.transition_disable ie) as [ [? ?]|]; quietly. Qed.

(** *** Group keys *)

Lemma set_group_key_psteady alg a idx tx seq key flag w :
  flag_set flag WpaState.KEY_FLAG_PAIRWISE = false -> psteady w (wpa_sm_set_key alg a idx tx seq key flag w).2.
Proof.
  intros H. unfold wpa_sm_set_key. cbv zeta. cbn [snd]. apply steady_emit; [|done].
  split; [|done]. cbn [ptk_install]. by rewrite H.
Qed.
#[local] Hint Extern 1 (steady pcore _ _ (wpa_sm_set_key _ _ _ _ _ _ _ _).2) =>
  apply set_group_key_psteady; exact eq_refl : quiet.
Lemma install_gtk_psteady gd rsc b w : psteady w (wpa_supplicant_install_gtk gd rsc b w).2.
Proof. unfold wpa_supplicant_install_gtk. quietly; by destruct b. Qed.
Lemma install_igtk_psteady kde b w : psteady w (wpa_supplicant_install_igtk kde b w).2.
Proof. unfold wpa_supplicant_install_igtk. quietly; by destruct b. Qed.
Lemma install_bigtk_psteady kde b w : psteady w (wpa_supplicant_install_bigtk kde b w).2.
Proof. unfold wpa_supplicant_install_bigtk. quietly; by destruct b. Qed.
#[local] Hint Resolve install_gtk_psteady install_igtk_psteady install_bigtk_psteady : quiet.
Lemma set_keys_psteady kd ie w : psteady w (ieee80211w_set_keys kd ie w).2.
Proof. unfold ieee80211w_set_keys. quietly. Qed.
Lemma pairwise_gtk_psteady f k w : psteady w (wpa_supplicant_pairwise_gtk f k w).2.
Proof. unfold wpa_supplicant_pairwise_gtk. quietly. Qed.
#[local] Hint Resolve set_keys_psteady pairwise_gtk_psteady : quiet.
Lemma install_group_keys_psteady f kd ie w : psteady w (install_group_keys f kd ie w).2.
Proof. unfold install_group_keys. quietly. Qed.
Lemma process_1_of_2_rsn_psteady kd info w : psteady w (wpa_supplicant_process_1_of_2_rsn kd info w).2.
Proof. unfold wpa_supplicant_process_1_of_2_rsn. quietly. Qed.
#[local] Hint Resolve process_1_of_2_rsn_psteady : quiet.
Lemma process_1_of_2_psteady f kd ver w : psteady w (wpa_supplicant_process_1_of_2 CONFIG_SAE f kd ver w).
Proof. unfold wpa_supplicant_process_1_of_2. quietly. Qed.
Lemma wnmsleep_psteady id buf w : psteady w (wpa_wnmsleep_install_key id buf w).2.
Proof. unfold wpa_wnmsleep_install_key. quietly. Qed.
End quiet.

#[export] Hint Resolve ask_quiet allocate_quiet ether_send_quiet key_send_quiet reply_quiet send_2_of_4_quiet
  send_4_of_4_quiet send_2_of_2_quiet key_request_quiet free_cb_quiet free_all_quiet cache_add_quiet cache_get_quiet
  set_pmk_from_pmksa_quiet get_key_quiet get_pmk_end_quiet get_eap_pmk_quiet use_eap_pmk_quiet get_pmk_quiet
  answer_1_of_4_quiet validate_ie_quiet handle_ext_key_id_quiet check_3_of_4_quiet : quiet.
#[export] Hint Resolve key_neg_complete_psteady key_neg_complete_gsteady finish_3_of_4_psteady finish_3_of_4_gsteady
  install_gtk_psteady install_igtk_psteady install_bigtk_psteady set_keys_psteady pairwise_gtk_psteady
  install_group_keys_psteady process_1_of_2_rsn_psteady process_1_of_2_psteady wnmsleep_psteady : quiet.
