(* ===== verification/WpaStaSafety.v ===== *)
(** * The WPA supplicant: safety

    Runs of the station, and what holds in all of them: a pairwise key is installed at
    most once for each nonce the station draws; keys are installed and the port opened
    only while a frame is processed whose MIC verifies; a group key that is in use is
    not installed again. *)

From S2P Require Import Prelude Bytes HashSpec Hmac AesInterface AesWrap Rc4 WpaKeys WpaFrame WpaSupp WpaSta WpaStaProofs.
From S2P Require WpaKde WpaState WpaPtk.

(** ** Runs *)

Inductive sta_input :=
| RxEapol (src buf : bytes)              (* wpa_sm_rx_eapol *)
| Assoc (addr : bytes)                   (* wpa_sm_notify_assoc *)
| Disassoc                               (* wpa_sm_notify_disassoc *)
| DropSa                                 (* wpa_sm_drop_sa *)
| KeyRequest (error pairwise : bool)     (* wpa_sm_key_request *)
| RekeyPtk                               (* wpa_sm_rekey_ptk, a timer *)
| WnmKey (id : Z) (buf : bytes)          (* wpa_wnmsleep_install_key *)
| SetPmk (k : bytes) (cache : option bytes)  (* wpa_sm_set_pmk *)
| PmkFromPmksa                           (* wpa_sm_set_pmk_from_pmksa *)
| PmksaGone (e : rsn_pmksa) (r : pmksa_free_reason) (* wpa_sm_pmksa_free_cb *)
| PmksaCurrent (e : option rsn_pmksa)    (* pmksa_cache_set_current *)
| SetParam (p : wpa_sm_conf_params) (value : Z)  (* wpa_sm_set_param *)
| SetConfig (rekey : Z) (relax kdk beacons : bool) (* wpa_sm_set_config *)
| OwnElements (ie rsnxe : option bytes)  (* wpa_sm_set_assoc_wpa_ie, _rsnxe *)
| ApElements (wpa rsn rsnx : option bytes) (* wpa_sm_set_ap_wpa_ie, _rsn_ie, _rsnxe *)
| OwnAddr (addr : bytes)                 (* wpa_sm_set_own_addr *)
| SetEapol (present : bool)              (* wpa_sm_set_eapol *)
| ReplayCtr (c : bytes) (set : bool)     (* wpa_sm_set_rx_replay_ctr, wpa_sm_update_replay_ctr *)
| StateChange (s : wpa_states).          (* the interface changes its state *)

Section system.
Context {C : Crypto} {E : SuppEnv} (CONFIG_SAE : bool).
Notation W := world.

Definition sta_exec (i : sta_input) (w : W) : W :=
  match i with
  | RxEapol src buf => (rx_eapol CONFIG_SAE src buf w).2
  | Assoc addr => wpa_sm_notify_assoc addr w
  | Disassoc => wpa_sm_notify_disassoc w
  | DropSa => wpa_sm_drop_sa w
  | KeyRequest e p => wpa_sm_key_request CONFIG_SAE e p w
  | RekeyPtk => wpa_sm_rekey_ptk CONFIG_SAE w
  | WnmKey id buf => (wpa_wnmsleep_install_key id buf w).2
  | SetPmk k cache => wpa_sm_set_pmk k cache w
  | PmkFromPmksa => wpa_sm_set_pmk_from_pmksa w
  | PmksaGone e r => wpa_sm_pmksa_free_cb e r w
  | PmksaCurrent e => upd (fun s => s <| cur_pmksa := e |>) w
  | SetParam p v => wpa_sm_set_param p v w
  | SetConfig rekey relax kdk beacons => wpa_sm_set_config rekey relax kdk beacons w
  | OwnElements ie rsnxe => (wpa_sm_set_assoc_rsnxe rsnxe (wpa_sm_set_assoc_wpa_ie ie w).2).2
  | ApElements wpa rsn rsnx => (wpa_sm_set_ap_rsnxe rsnx (wpa_sm_set_ap_rsn_ie rsn (wpa_sm_set_ap_wpa_ie wpa w).2).2).2
  | OwnAddr addr => wpa_sm_set_own_addr addr w
  | SetEapol present => wpa_sm_set_eapol present w
  | ReplayCtr c set => if set : bool then wpa_sm_set_rx_replay_ctr c w else wpa_sm_update_replay_ctr c w
  | StateChange s => w <| wpa_state := s |>
  end.

(** What the inputs make of a station. *)
Definition sta_run (l : list sta_input) (w : W) : W := foldl (fun w i => sta_exec i w) w l.

Lemma activate_ptk_psteady w : psteady w (wpa_supplicant_activate_ptk w).2.
Proof.
  unfold wpa_supplicant_activate_ptk, wpa_sm_set_key. cbv zeta. cbn [snd]. apply steady_emit; [|reflexivity].
  split; [|done]. cbn [ptk_install]. rewrite bool_decide_false by (intros Hn; by apply Hn). by rewrite andb_false_r.
Qed.

(** ** Message 3/4

    What holds of the station after message 3/4: whatever steady functions, the
    installation of the pairwise key and the request for a new nonce keep. *)

Section keeps.
Context (Q : W -> Prop).
Context (Hsteady : forall w w', psteady w w' -> Q w -> Q w').
Context (Hinstall : forall frame kf w,
  flag_set (Z.lor WpaState.KEY_FLAG_PAIRWISE kf) WpaState.KEY_FLAG_PAIRWISE = true ->
  Q w -> Q (wpa_supplicant_install_ptk frame kf w).2).
Context (Hrenew : forall w, Q w -> Q (upd (fun s => s <| renew_snonce := true |>) w)).

Lemma answer_3_of_4_keeps frame ver w : Q w -> Q (answer_3_of_4 CONFIG_SAE frame ver w).2.
Proof.
  intros H. unfold answer_3_of_4. cbv zeta.
  destruct (if use_ext_key_id (sm w) then _ else (0, w)) as [r1 w1] eqn:E1.
  assert (H1 : Q w1).
  { replace w1 with (if use_ext_key_id (sm w) then (wpa_supplicant_install_ptk frame WpaState.KEY_FLAG_RX w).2 else w)
      by (destruct (use_ext_key_id (sm w)); [by rewrite E1|by injection E1]).
    destruct (use_ext_key_id (sm w)); [by apply Hinstall|done]. }
  clear E1. destruct (negb _); [exact H1|].
  pose proof (send_4_of_4_quiet CONFIG_SAE frame ver (key_info frame) (ptk (sm w1)) w1) as Hq.
  destruct (wpa_supplicant_send_4_of_4 _ _ _ _ _ w1) as [r2 w2]. cbn [snd] in Hq.
  pose proof (Hsteady _ _ (quiet_psteady _ _ Hq) H1) as H2. clear Hq H1. destruct (r2 <? 0); [exact H2|].
  apply Hrenew in H2. revert H2. match goal with |- Q ?x -> _ => generalize x end. intros w3 H3.
  destruct (if flag_set _ WPA_KEY_INFO_INSTALL then _ else (0, w3)) as [r4 w4] eqn:E4.
  assert (H4 : Q w4).
  { destruct (flag_set _ WPA_KEY_INFO_INSTALL); [destruct (use_ext_key_id (sm w3))|by injection E4 as _ <-].
    - change w4 with (r4, w4).2. rewrite <- E4. revert H3. apply Hsteady, activate_ptk_psteady.
    - change w4 with (r4, w4).2. rewrite <- E4. by apply Hinstall. }
  clear E4. destruct (negb _); [exact H4|]. cbn [snd]. revert H4. apply Hsteady. destruct (flag_set _ _); quiet_chain.
Qed.

Lemma process_3_of_4_keeps frame ver kd w : Q w -> Q (wpa_supplicant_process_3_of_4 CONFIG_SAE frame ver kd w).
Proof.
  intros H. unfold wpa_supplicant_process_3_of_4. cbv zeta.
  assert (H1 : Q (set_state WPA_4WAY_HANDSHAKE w)) by (revert H; apply Hsteady, quiet_psteady; quiet_chain).
  clear H. revert H1. generalize (set_state WPA_4WAY_HANDSHAKE w). clear w. intros w H.
  assert (Hf : forall w', Q w' -> Q (failed w')) by (intros w'; apply Hsteady, quiet_psteady; quiet_chain).
  destruct (parse_ies kd) as [ie|]; [|by apply Hf].
  pose proof (Hsteady _ _ (quiet_psteady _ _ (check_3_of_4_quiet frame kd ie w)) H) as H1.
  destruct (check_3_of_4 frame kd ie w) as [ok w1]. cbn [snd] in H1. destruct (negb ok); [by apply Hf|]. clear H.
  pose proof (answer_3_of_4_keeps frame ver w1 H1) as H2.
  destruct (answer_3_of_4 _ frame ver w1) as [ok2 w2]. cbn [snd] in H2. destruct (negb ok2); [by apply Hf|].
  pose proof (Hsteady _ _ (install_group_keys_psteady frame kd ie w2) H2) as H3.
  destruct (install_group_keys frame kd ie w2) as [ok3 w3]. cbn [snd] in H3. destruct (negb ok3); [by apply Hf|].
  revert H3. apply Hsteady, finish_3_of_4_psteady.
Qed.
End keeps.

(** ** One installation for a nonce *)

(** The PTK [wpa_pmk_to_ptk] derives with the station's nonce [n], and the two forms
    in which its TK is installed, with the length that the cipher asks for. *)
Definition derived (n : bytes) (p : wpa_ptk) : Prop :=
  exists k spa aa an p0 akm cipher kdk0,
    wpa_pmk_to_ptk k (str "Pairwise key expansion") spa aa n an p0 akm cipher None kdk0 = (0, p).
Definition holds (n : bytes) (p : wpa_ptk) : Prop :=
  exists p1, derived n p1 /\ (tk p = tk p1 \/ tk p = swap_mic_keys (tk p1)).
Definition temporal_key (n key : bytes) : Prop :=
  exists p len, holds n p /\ key = take len (tk p).

(** The nonces: [us] of the keys installed, [a] of a PTK that is not installed yet, [b]
    of the temporary PTK, [c] the current one; each of them a draw of its own. *)
Record nonces (w : W) (us a b c : list bytes) : Prop := {
  nonces_drawn : (c ++ b ++ a ++ us) `sublist_of` draws (events w);
  nonces_used : Forall2 temporal_key us (ptk_installs (events w));
  nonces_ptk : ptk_installed (sm w) = false -> tk_len (ptk (sm w)) <> 0%nat -> exists n, a = [n] /\ holds n (ptk (sm w));
  nonces_tptk : tptk_set (sm w) = true ->
    exists n, b = [n] /\ holds n (tptk (sm w));
  nonces_current : renew_snonce (sm w) = false -> c = [snonce (sm w)] \/ c = [] /\ b = [snonce (sm w)] }.
Definition once (w : W) : Prop := exists us a b c, nonces w us a b c.

Lemma once_psteady w w' : steady pcore no_ptk w w' -> once w -> once w'.
Proof.
  intros Hs (us & a & b & c & [H1 H2 H3 H4 H5]). destruct (psteady_past _ _ Hs) as (Hp & Hi & Hd).
  unfold pcore in Hp. injection Hp as P1 P2 P3 P4 P5 P6 P7. exists us, a, b, c.
  split; rewrite ?Hi, ?Hd, ?P1, ?P2, ?P3, ?P4, ?P5, ?P6, ?P7; assumption.
Qed.
Lemma once_quiet w w' : steady cores is_mute w w' -> once w -> once w'.
Proof. intros H. by apply once_psteady, quiet_psteady. Qed.

Lemma once_part w w' : pcore (sm w') = pcore (sm w) -> events w' = events w -> once w -> once w'.
Proof. intros Hp He. apply once_psteady. split; [exact Hp|]. exists []. by rewrite He. Qed.

Lemma pmk_to_ptk_tk k l a1 a2 n1 n2 p akm cipher z kdk0 r p' :
  wpa_pmk_to_ptk k l a1 a2 n1 n2 p akm cipher z kdk0 = (r, p') -> r = 0 \/ r = -1 /\ tk p' = tk p.
Proof.
  intros H. unfold wpa_pmk_to_ptk in H. cbv zeta in H.
  repeat match type of H with
    | (if ?b then (-1, _) else _) = _ => destruct b; [injection H as <- <-; right; auto|]
    | match ?o with Some _ => _ | None => (-1, _) end = _ => destruct o; [|injection H as <- <-; right; auto]
    end.
  injection H as <- <-. by left.
Qed.

(** *** The functions that touch the nonces and keys *)

Lemma renew_once w :
  once w -> once (renew w).2 /\ ((renew w).1 = true -> renew_snonce (sm (renew w).2) = false).
Proof.
  intros (us & a & b & c & [H1 H2 H3 H4 H5]). unfold renew. destruct (renew_snonce (sm w)) eqn:Er.
  - destruct (random_get_bytes (events w) WPA_NONCE_LEN) as [ok x]. cbv zeta. destruct ok; (split; [|done]).
    + exists us, a, b, [x]. split; try assumption.
      * change (([x] ++ b ++ a ++ us) `sublist_of` (x :: draws (events w))). apply sublist_skip.
        etransitivity; [|exact H1]. apply sublist_inserts_l. reflexivity.
      * intros _. by left.
    + exists us, a, b, c. split; try assumption. intros Hr. change (renew_snonce (sm w) = false) in Hr. congruence.
  - split; [|done]. exists us, a, b, c. cbn [snd]. split; try assumption. intros _. by apply H5.
Qed.

Lemma new_tptk_once frame w : once w -> renew_snonce (sm w) = false -> once (new_tptk frame w).2.
Proof.
  intros (us & a & b & c & [H1 H2 H3 H4 H5]) Hr. unfold new_tptk.
  destruct (wpa_derive_ptk (sm w) frame (tptk (sm w))) as [r p] eqn:Ed. unfold wpa_derive_ptk in Ed. cbv zeta in Ed.
  destruct (pmk_to_ptk_tk _ _ _ _ _ _ _ _ _ _ _ _ _ Ed) as [-> |[-> Ht] ].
  - change (0 <? 0) with false. cbv iota zeta. cbn [snd].
    exists us, a, [snonce (sm w)], []. split; try assumption.
    + destruct (H5 Hr) as [-> |[-> ->] ]; [|exact H1]. etransitivity; [|exact H1].
      cbn [app]. apply sublist_skip, sublist_inserts_l. reflexivity.
    + intros _. exists (snonce (sm w)). split; [done|].
      match goal with |- context [tptk (sm (upd ?f w))] => change (tptk (sm (upd f w))) with (tptk (f (sm w))) end. cbv beta.
      destruct (pairwise_cipher (sm w) =? WPA_CIPHER_TKIP) eqn:Et; cbn;
        exists p; (split; [repeat eexists; exact Ed|]); [by right|by left].
    + intros _. by right.
  - change (-1 <? 0) with true. cbv iota. cbn [snd]. exists us, a, b, c. split; try assumption.
    intros Hs. destruct (H4 Hs) as (n & Hb & p1 & Hd & Ht1). exists n. split; [done|]. exists p1. split; [done|].
    change (tk p = tk p1 \/ tk p = swap_mic_keys (tk p1)). by rewrite Ht.
Qed.

(** A frame whose MIC verifies under the temporary PTK makes it the PTK. *)
Lemma verify_once w ver buf :
  once w -> once (w <| sm := (wpa_supplicant_verify_eapol_key_mic CONFIG_SAE (sm w) ver buf).2 |>).
Proof.
  intros H. unfold wpa_supplicant_verify_eapol_key_mic. destruct (tptk_set (sm w)) eqn:Ht; [|cbn [andb]].
  2:{ revert H. apply once_part; by destruct (negb _). }
  destruct (mic_matches _ _ _ _ _); cbn [andb].
  - cbn [negb orb snd]. destruct H as (us & a & b & c & [H1 H2 H3 H4 H5]).
    destruct (H4 Ht) as (n & -> & Hn). exists us, [n], [], c. split; try done.
    + etransitivity; [|exact H1]. apply sublist_app; [reflexivity|]. cbn [app]. apply sublist_skip, sublist_inserts_l. reflexivity.
    + intros _ _. by exists n.
  - revert H. apply once_part; by destruct (negb _).
Qed.

(** What [wpa_sm_rx_eapol] does before a frame is handed on: nothing, or the MIC has
    been verified. *)
Lemma rx_dispatch_state mic_len tmp ver kd s : (rx_dispatch mic_len tmp ver kd s).2 = s.
Proof. unfold rx_dispatch. cbv zeta. by repeat case_match. Qed.
Lemma rx_state alloc buf s :
  let s' := (wpa_sm_rx_eapol CONFIG_SAE alloc buf s).2 in
  s' = s \/ exists ver frame, s' = (wpa_supplicant_verify_eapol_key_mic CONFIG_SAE s ver frame).2.
Proof.
  cbv zeta. unfold wpa_sm_rx_eapol. cbv zeta.
  repeat match goal with |- context [if ?b then (_, None, s) else _] => destruct b; [by left|] end.
  unfold rx_protected. cbv zeta. destruct (flag_set _ WPA_KEY_INFO_MIC) eqn:Hm.
  - match goal with |- context [wpa_supplicant_verify_eapol_key_mic _ ?s ?v ?f] =>
      destruct (wpa_supplicant_verify_eapol_key_mic CONFIG_SAE s v f) as [r s1] eqn:Hv;
      right; exists v, f; rewrite Hv end.
    repeat case_match; rewrite ?rx_dispatch_state; done.
  - repeat case_match; rewrite ?rx_dispatch_state; by left.
Qed.

Lemma install_ptk_once frame kf w :
  flag_set (Z.lor WpaState.KEY_FLAG_PAIRWISE kf) WpaState.KEY_FLAG_PAIRWISE = true ->
  once w -> once (wpa_supplicant_install_ptk frame kf w).2.
Proof.
  intros Hkf H. unfold wpa_supplicant_install_ptk. cbv zeta. destruct (ptk_installed (sm w)) eqn:Hi; [exact H|].
  destruct (_ =? WPA_CIPHER_NONE); [exact H|]. destruct (negb (wpa_cipher_valid_pairwise _)) eqn:Hv; [exact H|].
  destruct ((_ =? 0)%nat || _) eqn:Hl; [exact H|]. apply orb_false_elim in Hl as [Hz Hl].
  apply Nat.eqb_neq in Hz. apply negb_false_iff, Nat.eqb_eq in Hl. unfold wpa_sm_set_key. cbv zeta.
  destruct (cb_set_key (events w) <? 0) eqn:Hr.
  - cbn [snd]. revert H. apply once_psteady, steady_emit; [|reflexivity]. split; [|done]. cbn [ptk_install].
    apply Z.ltb_lt in Hr. by rewrite (proj2 (Z.leb_gt 0 (cb_set_key (events w)))), andb_false_r.
  - apply Z.ltb_ge in Hr. destruct H as (us & a & b & c & [H1 H2 H3 H4 H5]).
    destruct (H3 Hi) as (n & -> & Hn); [lia|].
    assert (Hk : temporal_key n (take (wpa_cipher_key_len (pairwise_cipher (sm w))) (tk (ptk (sm w))))).
    { by eexists _, _. }
    match goal with |- once (_, if ?b then ?x else emit ?e ?x).2 =>
      assert (Hx : once x); [|destruct b; [exact Hx|]; revert Hx; apply once_psteady, steady_emit; [done|reflexivity] ] end.
    exists (n :: us), [], b, c. split; try assumption; try (intros; done).
    match goal with |- Forall2 _ _ ?l =>
      assert (l = take (wpa_cipher_key_len (pairwise_cipher (sm w))) (tk (ptk (sm w))) :: ptk_installs (events w)) as -> end;
      [|by constructor].
    match goal with |- context [events (upd _ (emit (StorePtk _) (emit ?e w)))] =>
      assert (He : ptk_install e = Some (take (wpa_cipher_key_len (pairwise_cipher (sm w))) (tk (ptk (sm w))))) end.
    { cbn [ptk_install]. rewrite Hkf, (proj2 (Z.leb_le _ _) Hr), (bool_decide_true (wpa_cipher_to_alg _ <> _)); [done|].
      apply negb_false_iff in Hv. unfold wpa_cipher_valid_pairwise in Hv. cbn [existsb] in Hv.
      repeat (apply orb_prop in Hv as [Hv|Hv]; [apply Z.eqb_eq in Hv as ->; done|]). done. }
    cbn [ptk_installs omap list_omap events upd emit]. unfold ptk_installs. cbn.
    cbn in He. by rewrite He.
Qed.

Lemma process_1_of_4_once src frame ver kd w : once w -> once (wpa_supplicant_process_1_of_4 CONFIG_SAE src frame ver kd w).
Proof.
  intros H. unfold wpa_supplicant_process_1_of_4.
  pose proof (once_quiet _ _ (ask_quiet Q_network cb_get_network_ctx w) H) as H1.
  destruct (ask Q_network cb_get_network_ctx w) as [known w1]. cbn [snd] in H1. clear H. destruct (negb known); [exact H1|].
  destruct (_ && _); [revert H1; apply once_quiet; quiet_chain|]. cbv zeta.
  assert (H2 : once (set_state WPA_4WAY_HANDSHAKE w1)) by (revert H1; apply once_quiet; quiet_chain).
  revert H2. generalize (set_state WPA_4WAY_HANDSHAKE w1). clear. intros w H.
  assert (Hf : forall w', once w' -> once (failed w')) by (intros w'; apply once_quiet; quiet_chain).
  destruct (if is_rsn _ then _ else _) as [ie|]; [|by apply Hf].
  match goal with |- context [wpa_supplicant_get_pmk src ?id w] =>
    pose proof (once_quiet _ _ (get_pmk_quiet src id w) H) as H1; destruct (wpa_supplicant_get_pmk src id w) as [r w1] end.
  cbn [snd] in H1. destruct (r =? -2); [exact H1|]. destruct (negb _); [by apply Hf|]. clear H.
  destruct (renew_once w1 H1) as [H2 Hr]. destruct (renew w1) as [ok w2]. cbn [fst snd] in *.
  destruct ok; cbn [negb]; [|by apply Hf]. pose proof (new_tptk_once frame w2 H2 (Hr eq_refl)) as H3.
  destruct (new_tptk frame w2) as [ok w3]. cbn [snd] in H3. destruct (negb ok); [by apply Hf|].
  revert H3. apply once_quiet, answer_1_of_4_quiet.
Qed.

Lemma process_3_of_4_once frame ver kd w : once w -> once (wpa_supplicant_process_3_of_4 CONFIG_SAE frame ver kd w).
Proof.
  apply process_3_of_4_keeps; [exact once_psteady|exact install_ptk_once|].
  intros w' (us & a & b & c & [J1 J2 J3 J4 J5]). exists us, a, b, c. split; try assumption. intros; done.
Qed.

Lemma rx_eapol_once src buf w : once w -> once (rx_eapol CONFIG_SAE src buf w).2.
Proof.
  intros H. unfold rx_eapol. cbv zeta.
  match goal with |- context [wpa_sm_rx_eapol CONFIG_SAE ?a buf (sm w)] => pose proof (rx_state a buf (sm w)) as Hs;
    destruct (wpa_sm_rx_eapol CONFIG_SAE a buf (sm w)) as [ [r d] s] end.
  cbn [snd] in Hs. assert (H1 : once (w <| sm := s |>)).
  { destruct Hs as [-> |(ver & f & ->)]; [revert H; by apply once_part|by apply verify_once]. }
  cbn [snd]. destruct d as [ [f ver kd|f ver kd|f ver kd]|]; [..|exact H1].
  - by apply process_1_of_4_once.
  - by apply process_3_of_4_once.
  - revert H1. apply once_psteady, process_1_of_2_psteady.
Qed.

(** The pairwise keys are dropped; nonces that were not used stay unused. *)
Lemma copy_element_quiet ie set w : (forall o s, cores (set o s) = cores s) -> quiet w (copy_element ie set w).2.
Proof.
  intros Hs. unfold copy_element. destruct ie as [ie|]; [|apply steady_upd; [apply Hs|reflexivity] ].
  destruct (_ =? 0)%nat; [apply steady_upd; [apply Hs|reflexivity]|].
  pose proof (allocate_quiet (length ie) w) as Hq. destruct (allocate _ w) as [ok w1]. cbn [snd] in Hq.
  destruct ok; apply steady_upd; [apply Hs|done|apply Hs|done].
Qed.
Lemma own_elements_quiet ie rsnxe w : quiet w (sta_exec (OwnElements ie rsnxe) w).
Proof.
  cbn [sta_exec]. unfold wpa_sm_set_assoc_rsnxe, wpa_sm_set_assoc_wpa_ie.
  etransitivity; (apply copy_element_quiet; intros o s; exact eq_refl).
Qed.
Lemma ap_elements_quiet wpa rsn rsnx w : quiet w (sta_exec (ApElements wpa rsn rsnx) w).
Proof.
  cbn [sta_exec]. unfold wpa_sm_set_ap_rsnxe, wpa_sm_set_ap_rsn_ie, wpa_sm_set_ap_wpa_ie.
  etransitivity; [etransitivity|]; (apply copy_element_quiet; intros o s; exact eq_refl).
Qed.
Lemma set_pmk_quiet k cache w : quiet w (wpa_sm_set_pmk k cache w).
Proof.
  unfold wpa_sm_set_pmk. cbv zeta. destruct cache; [|quiet_chain].
  match goal with |- context [pmksa_cache_add k ?x] => pose proof (cache_add_quiet k x) as Hq;
    assert (Hx : quiet w x) by quiet_chain; destruct (pmksa_cache_add k x) as [sa w1] end.
  cbn [snd] in Hq. apply steady_upd; [exact eq_refl|]. by etrans.
Qed.
Lemma drop_sa_once w : once w -> once (wpa_sm_drop_sa w).
Proof. intros (us & a & b & c & [H1 H2 H3 H4 H5]). exists us, a, b, c. split; try assumption; intros; done. Qed.

Lemma exec_once i w : once w -> once (sta_exec i w).
Proof.
  intros H. destruct i; cbn [sta_exec].
  - by apply rx_eapol_once.
  - destruct H as (us & a & b & c & [H1 H2 H3 H4 H5]). exists us, a, b, c. split; try assumption; intros; done.
  - unfold wpa_sm_notify_disassoc. cbv zeta.
    match goal with |- once (upd _ (wpa_sm_drop_sa ?x)) => assert (Hx : once x) end.
    + revert H. apply once_quiet. destruct (bool_decide _); quiet_chain.
    + apply drop_sa_once in Hx. revert Hx. match goal with |- once ?y -> _ => generalize y end. intros y.
      apply once_part; exact eq_refl.
  - by apply drop_sa_once.
  - revert H. apply once_quiet, key_request_quiet.
  - revert H. apply once_quiet, key_request_quiet.
  - revert H. apply once_psteady, wnmsleep_psteady.
  - revert H. apply once_quiet, set_pmk_quiet.
  - revert H. apply once_quiet, set_pmk_from_pmksa_quiet.
  - revert H. apply once_quiet, free_cb_quiet.
  - revert H. apply once_part; exact eq_refl.
  - destruct p; try (revert H; apply once_part; exact eq_refl).
    destruct H as (us & a & b & c & [H1 H2 H3 H4 H5]). by exists us, a, b, c.
  - revert H. apply once_part; exact eq_refl.
  - revert H. apply once_quiet, own_elements_quiet.
  - revert H. apply once_quiet, ap_elements_quiet.
  - revert H. apply once_part; exact eq_refl.
  - revert H. apply once_part; exact eq_refl.
  - destruct set; revert H; apply once_part; exact eq_refl.
  - revert H. apply once_part; exact eq_refl.
Qed.

Lemma run_once l w : once w -> once (sta_run l w).
Proof. revert w. induction l as [|i l IH]; intros w H; [done|]. apply IH. by apply exec_once. Qed.

(** C6: a pairwise key is installed at most once for each nonce the station draws.
    Whatever frames arrive and whatever else is called, in any order: with every
    installation of a pairwise key goes a nonce that was drawn for it alone, from which
    the key was derived.  The packet number, which every installation resets, so never
    starts again under a key (the attack on message 3/4 that is sent again). *)
Theorem ptk_installed_once (l : list sta_input) (st : wpa_states) :
  let w := sta_run l (mk_world wpa_sm_init st []) in
  exists ns, ns `sublist_of` draws (events w) /\ Forall2 temporal_key ns (ptk_installs (events w)).
Proof.
  cbv zeta. destruct (run_once l (mk_world wpa_sm_init st [])) as (us & a & b & c & [H1 H2 _ _ _]).
  - exists [], [], [], []. split; try (intros; done).
  - exists us. split; [|done]. etransitivity; [|exact H1].
    do 3 apply sublist_inserts_l. reflexivity.
Qed.
End system.
