(* ===== verification/WpaStaAccess.v ===== *)
(** * The WPA supplicant: access and group keys

    Keys are installed and the port is opened only while a frame is processed whose
    MIC verifies under a PTK of the station; within an association a group key that is
    in use is not installed again. *)

From S2P Require Import Prelude Bytes HashSpec Hmac AesInterface AesWrap Rc4 WpaKeys WpaFrame WpaSupp WpaSta.
From S2P Require Import WpaStaProofs WpaStaSafety.
From S2P Require WpaKde WpaState WpaPtk.

(** ** Access *)

Definition delivered_frame (d : delivered) : bytes :=
  match d with process_1_of_4 f _ _ | process_3_of_4 f _ _ | process_1_of_2 f _ _ => f end.
Definition is_first (d : delivered) : bool := match d with process_1_of_4 _ _ _ => true | _ => false end.

(** An installation of a pairwise key installs the TK of [p]. *)
Definition installs (p : wpa_ptk) (e : sta_event) : Prop :=
  forall key, ptk_install e = Some key -> key = take (tk_len p) (tk p).

Section access.
Context {C : Crypto} {E : SuppEnv} (CONFIG_SAE : bool).
Notation W := world.

(** The frame has a MIC that verifies under [p], a PTK of the station, and a replay
    counter that has not been used. *)
Record authentic (s : wpa_sm) (p : wpa_ptk) (frame : bytes) : Prop := {
  authentic_ptk : tptk_set s = true /\ p = tptk s \/ ptk_set s = true /\ p = ptk s;
  authentic_mic : mic_matches CONFIG_SAE s p (Z.land (key_info frame) WPA_KEY_INFO_TYPE_MASK) frame = true;
  authentic_fresh : rx_replay_counter_set s = true ->
    0 < os_memcmp WPA_REPLAY_COUNTER_LEN (replay_counter frame) (rx_replay_counter s) }.

Lemma verify_matches s ver buf s' :
  wpa_supplicant_verify_eapol_key_mic CONFIG_SAE s ver buf = (0, s') ->
  exists p, (tptk_set s = true /\ p = tptk s \/ ptk_set s = true /\ p = ptk s) /\
            mic_matches CONFIG_SAE s p ver buf = true /\ ptk s' = p.
Proof.
  unfold wpa_supplicant_verify_eapol_key_mic. destruct (tptk_set s && mic_matches CONFIG_SAE s (tptk s) ver buf) eqn:Ht.
  - apply andb_prop in Ht as [Ht Hm]. intros H. injection H as <-. exists (tptk s). eauto.
  - cbn [orb]. destruct (ptk_set s && mic_matches CONFIG_SAE s (ptk s) ver buf) eqn:Hp; [|done].
    apply andb_prop in Hp as [Hp Hm]. intros H. injection H as <-. exists (ptk s). eauto.
Qed.

Lemma dispatch_frame mic_len tmp ver kd s r d s' :
  rx_dispatch mic_len tmp ver kd s = (r, Some d, s') ->
  s' = s /\ delivered_frame d = tmp /\
  (is_first d = false -> mic_len <> 0%nat ->
   flag_set (key_info tmp) WPA_KEY_INFO_MIC = true \/ flag_set (key_info tmp) WPA_KEY_INFO_ENCR_KEY_DATA = true).
Proof.
  unfold rx_dispatch. cbv zeta. destruct (flag_set _ WPA_KEY_INFO_KEY_TYPE).
  - destruct (flag_set _ WPA_KEY_INFO_KEY_INDEX_MASK); [done|].
    destruct (flag_set _ (Z.lor _ _)) eqn:Hf; intros H; injection H as <- <- <-; (split; [done|split; [done|] ]); [|done].
    intros _ _. unfold flag_set in *. apply negb_true_iff, Z.eqb_neq in Hf. rewrite Z.land_lor_distr_r in Hf.
    destruct (Z.eqb_spec (Z.land (key_info tmp) WPA_KEY_INFO_MIC) 0) as [Hm|]; [|by left]. right.
    rewrite Hm, Z.lor_0_l in Hf. by apply negb_true_iff, Z.eqb_neq.
  - destruct (_ || _) eqn:Hf; [|done]. intros H; injection H as <- <- <-. split; [done|split; [done|] ].
    intros _ Hn%Nat.eqb_neq. rewrite Hn in Hf. cbn [negb andb] in Hf. rewrite orb_false_r in Hf. by left.
Qed.

Lemma protected_authentic alloc mic_len n tmp s r d s' :
  is_rsn s = true -> mic_len <> 0%nat ->
  rx_protected CONFIG_SAE alloc mic_len n tmp s = (r, Some d, s') -> is_first d = false ->
  delivered_frame d = tmp /\
  exists p, (tptk_set s = true /\ p = tptk s \/ ptk_set s = true /\ p = ptk s) /\
    mic_matches CONFIG_SAE s p (Z.land (key_info tmp) WPA_KEY_INFO_TYPE_MASK) tmp = true /\ ptk s' = p.
Proof.
  intros Hrsn Hn H Hd. unfold rx_protected in H. cbv zeta in H.
  destruct (flag_set (key_info tmp) WPA_KEY_INFO_MIC) eqn:Hm.
  - destruct (wpa_supplicant_verify_eapol_key_mic _ _ _ _) as [r1 s1] eqn:Hv.
    destruct (Z.eqb_spec r1 0) as [->|]; [|done]. cbn [negb] in H.
    assert (delivered_frame d = tmp /\ s' = s1) as [Hf ->].
    { repeat case_match; try done; destruct (dispatch_frame _ _ _ _ _ _ _ _ H) as (-> & ? & ?); done. }
    split; [done|]. by apply verify_matches.
  - exfalso. assert (Hx : flag_set (key_info tmp) WPA_KEY_INFO_ENCR_KEY_DATA = false).
    { destruct (flag_set _ WPA_KEY_INFO_ENCR_KEY_DATA); [|done]. unfold is_rsn in Hrsn. rewrite Hrsn in H.
      apply Nat.eqb_neq in Hn. by rewrite Hn in H. }
    rewrite Hx, andb_false_r in H. cbn [andb] in H.
    destruct (dispatch_frame _ _ _ _ _ _ _ _ H) as (-> & <- & Hc). destruct (Hc Hd Hn); congruence.
Qed.

Lemma rx_authentic alloc buf s r d s' :
  is_rsn s = true -> (forall n, wpa_mic_len (key_mgmt s) n <> 0%nat) ->
  wpa_sm_rx_eapol CONFIG_SAE alloc buf s = (r, Some d, s') -> is_first d = false ->
  exists p, authentic s p (delivered_frame d) /\ ptk s' = p.
Proof.
  intros Hrsn Hn H Hd. unfold wpa_sm_rx_eapol in H. cbv zeta in H.
  repeat match type of H with
    | (if rx_replay_counter_set s && ?b then _ else _) = _ => destruct (rx_replay_counter_set s && b) eqn:Hc; [done|]
    | (if ?b then (_, None, s) else _) = _ => destruct b; [done|]
    end.
  destruct (protected_authentic _ _ _ _ _ _ _ _ Hrsn (Hn _) H Hd) as (Hf & p & Hp & Hm & Hs).
  exists p. split; [|done]. rewrite Hf. split; [done|done|]. intros Hr. rewrite Hr in Hc. cbn [andb] in Hc. by apply Z.leb_gt.
Qed.

(** *** What is installed *)

(** From [w0] on only the TK of [p] has been installed; there it still is, unless it
    has been installed. *)
Record loyal (p : wpa_ptk) (w0 w : W) : Prop := {
  loyal_ptk : ptk_installed (sm w) = true \/ ptk (sm w) = p;
  loyal_events : extends (installs p) w0 w }.

Lemma loyal_psteady p w0 w w' : psteady w w' -> loyal p w0 w -> loyal p w0 w'.
Proof.
  intros [K X] [H1 H2]. unfold pcore in K. injection K as P1 P2 P3 P4 P5 P6 P7. split.
  - by rewrite P2, P5.
  - etrans; [exact H2|]. eapply extends_weaken; [|exact X]. intros e [He _] key Hk. congruence.
Qed.
Lemma loyal_install p w0 frame kf w :
  flag_set (Z.lor WpaState.KEY_FLAG_PAIRWISE kf) WpaState.KEY_FLAG_PAIRWISE = true ->
  loyal p w0 w -> loyal p w0 (wpa_supplicant_install_ptk frame kf w).2.
Proof.
  intros Hkf H. unfold wpa_supplicant_install_ptk. cbv zeta. destruct (ptk_installed (sm w)) eqn:Hi; [exact H|].
  destruct (_ =? WPA_CIPHER_NONE); [exact H|]. destruct (negb (wpa_cipher_valid_pairwise _)); [exact H|].
  destruct ((_ =? 0)%nat || _) eqn:Hl; [exact H|]. apply orb_false_elim in Hl as [_ Hl].
  apply negb_false_iff, Nat.eqb_eq in Hl. destruct H as [ [H1|H1] H2]; [congruence|].
  unfold wpa_sm_set_key. cbv zeta. rewrite Hl, H1.
  set (e := SetKey _ _ _ _ _ _ _ _).
  assert (He : installs p e).
  { intros key Hk. unfold e, ptk_install in Hk. destruct (_ && _) in Hk; [|done]. by injection Hk. }
  clearbody e. assert (Hq : extends (installs p) w0 (emit e w)) by (apply extends_emit; assumption).
  destruct (cb_set_key (events w) <? 0); cbn [snd]; [split; [right; exact H1|exact Hq]|].
  match goal with |- loyal _ _ (if ?b then ?x else emit ?e' ?x) => assert (Hx : loyal p w0 x) end.
  { split; [left; exact eq_refl|].
    apply (extends_same _ _ (emit (StorePtk (ptk (sm (emit e w)))) (emit e w))); [exact eq_refl|].
    by apply extends_emit. }
  match goal with |- loyal _ _ (if ?b then _ else _) => destruct b; [exact Hx|] end.
  revert Hx. apply loyal_psteady, steady_emit; [done|reflexivity].
Qed.

Lemma loyal_process_3_of_4 p w0 frame ver kd w :
  loyal p w0 w -> loyal p w0 (wpa_supplicant_process_3_of_4 CONFIG_SAE frame ver kd w).
Proof.
  apply process_3_of_4_keeps; [apply loyal_psteady|apply loyal_install|].
  intros w' [H1 H2]. by split.
Qed.

(** *** Message 1/4 gives no access *)

Notation idle := (steady (fun _ => tt) no_access).
Lemma quiet_idle w w' : quiet w w' -> idle w w'.
Proof. intros H. split; [done|by apply quiet_no_access]. Qed.
#[local] Hint Resolve quiet_idle : quiet.
Lemma renew_idle w : idle w (renew w).2.
Proof. unfold renew. destruct (renew_snonce (sm w)); [|reflexivity]. quietly. Qed.
Lemma new_tptk_idle frame w : idle w (new_tptk frame w).2.
Proof. unfold new_tptk. destruct (wpa_derive_ptk _ _ _) as [r p]. destruct (r <? 0); cbv zeta; cbn [snd]; quiet_chain. Qed.
#[local] Hint Resolve renew_idle new_tptk_idle : quiet.
Lemma first_idle src frame ver kd w : idle w (wpa_supplicant_process_1_of_4 CONFIG_SAE src frame ver kd w).
Proof. unfold wpa_supplicant_process_1_of_4. quietly. Qed.

End access.
