(* ===== verification/WpaStaGroup.v ===== *)
(** * The WPA supplicant: the group key

    Within an association a group key that is in use is not installed again. *)

From Stdlib Require Import Sorted.
From S2P Require Import Prelude Bytes HashSpec Hmac AesInterface AesWrap Rc4 WpaKeys WpaFrame WpaSupp WpaSta.
From S2P Require Import WpaStaProofs WpaStaSafety.
From S2P Require WpaKde WpaState WpaPtk.

(** The form in which the driver gets a group key: for TKIP the MIC keys change places. *)
Definition driver_key (cipher : Z) (k : bytes) : bytes :=
  if cipher =? WPA_CIPHER_TKIP then take 16 k ++ sub 24 8 k ++ sub 16 8 k else k.

Lemma driver_key_inj cipher k1 k2 : (length k1 <= 32)%nat -> (length k2 <= 32)%nat ->
  driver_key cipher k1 = driver_key cipher k2 -> k1 = k2.
Proof.
  unfold driver_key. destruct (_ =? _); [|done]. intros L1 L2 H.
  assert (P : forall k : bytes, (length k <= 32)%nat -> k = take 16 k ++ sub 16 8 k ++ sub 24 8 k).
  { intros k L. unfold sub. rewrite <- (take_drop 16 k) at 1. f_equal.
    rewrite <- (take_drop 8 (drop 16 k)) at 1. f_equal. rewrite drop_drop. cbn [Nat.add].
    rewrite (take_ge (drop 24 k)); [done|]. rewrite length_drop. lia. }
  assert (L : length k1 = length k2).
  { apply (f_equal length) in H. rewrite (P k1 L1), (P k2 L2), !length_app. rewrite !length_app in H. lia. }
  assert (S1 : forall o n, length (sub o n k1) = length (sub o n k2)).
  { intros o n. unfold sub. by rewrite !length_take, !length_drop, L. }
  apply app_inj_1 in H as [H1 H]; [|by rewrite !length_take, L]. apply app_inj_1 in H as [H2 H3]; [|apply S1].
  rewrite (P k1 L1), (P k2 L2). by rewrite H1, H2, H3.
Qed.

Section group.
Context {C : Crypto} {E : SuppEnv} (CONFIG_SAE : bool).
Notation W := world.

(** ** What leaves the group key alone *)

Lemma set_pair_key_gsteady a alg addr idx tx seq key flag w :
  flag_set flag WpaState.KEY_FLAG_GROUP = false -> gsteady a w (wpa_sm_set_key alg addr idx tx seq key flag w).2.
Proof.
  intros H. unfold wpa_sm_set_key. cbv zeta. cbn [snd]. apply steady_emit; [|reflexivity].
  unfold no_gtk, gtk_install. by rewrite H.
Qed.
#[local] Hint Extern 1 (steady gcore _ _ (wpa_sm_set_key _ _ _ _ _ _ _ _).2) =>
  apply set_pair_key_gsteady; first [assumption|exact eq_refl] : quiet.
Lemma install_ptk_gsteady a frame kf w :
  flag_set (Z.lor WpaState.KEY_FLAG_PAIRWISE kf) WpaState.KEY_FLAG_GROUP = false ->
  gsteady a w (wpa_supplicant_install_ptk frame kf w).2.
Proof. intros H. unfold wpa_supplicant_install_ptk. quietly. Qed.
#[local] Hint Extern 1 (steady gcore _ _ (wpa_supplicant_install_ptk _ _ _).2) =>
  apply install_ptk_gsteady; exact eq_refl : quiet.
Lemma activate_ptk_gsteady a w : gsteady a w (wpa_supplicant_activate_ptk w).2.
Proof. unfold wpa_supplicant_activate_ptk. quietly. Qed.
Lemma renew_gsteady a w : gsteady a w (renew w).2.
Proof. unfold renew. destruct (renew_snonce (sm w)); [|reflexivity]. quietly. Qed.
Lemma new_tptk_gsteady a frame w : gsteady a w (new_tptk frame w).2.
Proof. unfold new_tptk. destruct (wpa_derive_ptk _ _ _) as [r p]. destruct (r <? 0); cbv zeta; cbn [snd]; quiet_chain. Qed.
#[local] Hint Resolve activate_ptk_gsteady renew_gsteady new_tptk_gsteady : quiet.
Lemma process_1_of_4_gsteady a src frame ver kd w : gsteady a w (wpa_supplicant_process_1_of_4 CONFIG_SAE src frame ver kd w).
Proof. unfold wpa_supplicant_process_1_of_4. quietly. Qed.
Lemma answer_3_of_4_gsteady a frame ver w : gsteady a w (answer_3_of_4 CONFIG_SAE frame ver w).2.
Proof. unfold answer_3_of_4. quietly. Qed.

(** ** One installation after the other *)

Context (gc mc : Z) (Hmc : wpa_cipher_to_alg mc <> wpa_cipher_to_alg gc).
Notation a := (wpa_cipher_to_alg gc).

(** With these ciphers, the last group key installed is one of the two the station
    keeps, and no two installations in a row are of the same key. *)
Record group_ok (w : W) : Prop := {
  group_ciphers : group_cipher (sm w) = gc /\ mgmt_group_cipher (sm w) = mc;
  group_len : (length (gtk (sm w)) <= 32)%nat /\ (length (gtk_wnm_sleep (sm w)) <= 32)%nat;
  group_last : forall k, head (gtk_installs a (events w)) = Some k ->
    k = driver_key gc (gtk (sm w)) \/ k = driver_key gc (gtk_wnm_sleep (sm w));
  group_differ : Sorted (fun k1 k2 => k1 <> k2) (gtk_installs a (events w)) }.

Lemma group_gsteady w w' : gsteady a w w' -> group_ok w -> group_ok w'.
Proof.
  intros Hs [G1 G2 G3 G4]. destruct (gsteady_past _ _ _ Hs) as [K I]. unfold gcore in K. injection K as K1 K2 K3 K4.
  split; rewrite ?I, ?K1, ?K2, ?K3, ?K4; assumption.
Qed.

(** The data of a key of the group cipher. *)
Definition gd_ok (gd : wpa_gtk_data) : Prop :=
  gd_alg gd = a /\ gd_gtk_len gd = wpa_cipher_key_len gc.
Lemma driver_gtk_key s gd : group_cipher s = gc -> gd_ok gd ->
  driver_gtk s gd = driver_key gc (take (gd_gtk_len gd) (gd_gtk gd)).
Proof.
  intros Hg [_ Hl]. unfold driver_gtk, driver_key. cbv zeta. rewrite Hg. destruct (Z.eqb_spec gc WPA_CIPHER_TKIP) as [Ht|]; [|done].
  rewrite Hl, Ht. change (wpa_cipher_key_len WPA_CIPHER_TKIP) with 32%nat. generalize (gd_gtk gd). intros k. unfold sub.
  rewrite take_take. change (16 `min` 32)%nat with 16%nat.
  rewrite !skipn_firstn_comm, !take_take. change (8 `min` (32 - 24))%nat with 8%nat. change (8 `min` (32 - 16))%nat with 8%nat.
  apply take_ge. rewrite !length_app, !length_take. lia.
Qed.

Lemma key_len_32 cipher : (wpa_cipher_key_len cipher <= 32)%nat.
Proof. unfold wpa_cipher_key_len. cbn [switch existsb orb]. repeat case_match; lia. Qed.

(** A new key. *)
Lemma group_installed (b : bool) e k w :
  group_ok w -> gtk_install a e = Some (driver_key gc k) -> (length k <= 32)%nat -> gtk (sm w) <> k -> gtk_wnm_sleep (sm w) <> k ->
  group_ok (upd (fun s => if b then s <| gtk_wnm_sleep := k |> else s <| gtk := k |>) (emit e w)).
Proof.
  intros [ [G1 G1'] [G2 G2'] G3 G4] He Hk N1 N2.
  assert (Hi : forall f, gtk_installs a (events (upd f (emit e w))) = driver_key gc k :: gtk_installs a (events w)).
  { intros f. change (events (upd f (emit e w))) with (e :: events w). unfold gtk_installs.
    change (omap (gtk_install a) (e :: events w)) with
      (match gtk_install a e with Some x => x :: omap (gtk_install a) (events w) | None => omap (gtk_install a) (events w) end).
    by rewrite He. }
  split; [by destruct b|by destruct b|..]; rewrite Hi.
  - intros k0 Hk0. injection Hk0 as <-. destruct b; [by right|by left].
  - constructor; [done|]. destruct (gtk_installs a (events w)) as [|k0 l]; [done|]. constructor.
    destruct (G3 k0 eq_refl) as [-> | ->]; intros Hd%driver_key_inj; done.
Qed.

Lemma install_gtk_ok gd rsc b w : gd_ok gd -> group_ok w -> group_ok (wpa_supplicant_install_gtk gd rsc b w).2.
Proof.
  intros Hgd H. unfold wpa_supplicant_install_gtk. cbv zeta.
  destruct (bool_decide (gtk (sm w) = _)) eqn:E1; [exact H|]. destruct (bool_decide (gtk_wnm_sleep (sm w) = _)) eqn:E2; [exact H|].
  apply bool_decide_eq_false in E1, E2. cbn [orb]. unfold wpa_sm_set_key. cbv zeta.
  rewrite (driver_gtk_key _ _ (proj1 (group_ciphers _ H)) Hgd). revert E1 E2.
  assert (Hk : (length (take (gd_gtk_len gd) (gd_gtk gd)) <= 32)%nat).
  { rewrite length_take. pose proof (key_len_32 gc). destruct Hgd as [_ ->]. lia. }
  revert Hk. generalize (take (gd_gtk_len gd) (gd_gtk gd)). intros k Hk E1 E2. destruct Hgd as [Ha _].
  assert (Hi : forall ad i tx seq flag, flag_set flag WpaState.KEY_FLAG_GROUP = true ->
    gtk_install a (SetKey (gd_alg gd) ad i tx seq (driver_key gc k) flag (cb_set_key (events w))) =
    (if cb_set_key (events w) <? 0 then None else Some (driver_key gc k))).
  { intros ad i tx seq flag Hf. unfold gtk_install. rewrite Hf, (bool_decide_true _ Ha), Z.leb_antisym.
    by destruct (_ <? 0). }
  destruct (pairwise_cipher (sm w) =? WPA_CIPHER_NONE); (destruct (cb_set_key (events w) <? 0); cbn [snd];
    [revert H; apply group_gsteady, steady_emit; [by apply Hi|reflexivity]|apply group_installed; try done; by apply Hi]).
Qed.

(** The other group keys. *)
Lemma set_mgmt_key_ok ad i tx seq key flag w :
  gsteady a w (wpa_sm_set_key (wpa_cipher_to_alg mc) ad i tx seq key flag w).2.
Proof.
  unfold wpa_sm_set_key. cbv zeta. cbn [snd]. apply steady_emit; [|reflexivity].
  unfold no_gtk, gtk_install. by rewrite (bool_decide_false _ Hmc), andb_false_r.
Qed.
#[local] Hint Extern 1 (steady gcore _ _ (wpa_sm_set_key (wpa_cipher_to_alg mc) _ _ _ _ _ _ _).2) =>
  apply set_mgmt_key_ok : quiet.
Lemma install_igtk_ok kde b w : group_ok w -> group_ok (wpa_supplicant_install_igtk kde b w).2.
Proof.
  intros H. pose proof (proj2 (group_ciphers _ H)) as Hm. revert H. apply group_gsteady.
  unfold wpa_supplicant_install_igtk. rewrite Hm. quietly; by destruct b.
Qed.
Lemma install_bigtk_ok kde b w : group_ok w -> group_ok (wpa_supplicant_install_bigtk kde b w).2.
Proof.
  intros H. pose proof (proj2 (group_ciphers _ H)) as Hm. revert H. apply group_gsteady.
  unfold wpa_supplicant_install_bigtk. rewrite Hm. quietly; by destruct b.
Qed.
Lemma set_keys_ok kd ie w : group_ok w -> group_ok (ieee80211w_set_keys kd ie w).2.
Proof.
  intros H. unfold ieee80211w_set_keys. cbv zeta. destruct (_ || _); [exact H|].
  match goal with |- context [let '(r, w0) := ?x in _] => assert (H1 : group_ok x.2); [|destruct x as [r w1]; cbn [snd] in H1] end.
  { destruct (WpaPtk.span_bytes kd (WpaKde.igtk ie)); [|exact H]. destruct (negb _); [exact H|by apply install_igtk_ok]. }
  destruct (r <? 0); [exact H1|]. destruct (WpaPtk.span_bytes kd (WpaKde.bigtk ie)) as [k|]; [|exact H1].
  destruct (negb _); [exact H1|]. destruct (negb _); [exact H1|].
  pose proof (install_bigtk_ok k false w1 H1) as H2. by destruct (wpa_supplicant_install_bigtk k false w1).
Qed.

Lemma check_group_ok s n m alg rsc tx idx buf : group_cipher s = gc ->
  wpa_supplicant_check_group_cipher (group_cipher s) n m = Some (alg, rsc) -> gd_ok (mk_gd alg tx rsc idx buf n).
Proof.
  intros -> H. unfold wpa_supplicant_check_group_cipher in H. cbv zeta in H. destruct (bool_decide _); [done|].
  destruct (negb (n =? _)%nat || _) eqn:Hn; [done|]. injection H as <- <-. split; [done|]. cbn [gd_gtk_len].
  apply orb_false_elim in Hn as [Hn _]. by apply negb_false_iff, Nat.eqb_eq in Hn.
Qed.

Lemma pairwise_gtk_ok frame k w : group_ok w -> group_ok (wpa_supplicant_pairwise_gtk frame k w).2.
Proof.
  intros H. unfold wpa_supplicant_pairwise_gtk. cbv zeta. destruct (_ || _); [exact H|].
  destruct (_ =? WPA_CIPHER_GTK_NOT_USED); [exact H|].
  destruct (wpa_supplicant_check_group_cipher _ _ _) as [ [alg rsc]|] eqn:Hc; [|exact H].
  match goal with |- context [wpa_supplicant_install_gtk ?gd ?r false w] =>
    assert (Hg : gd_ok gd) by (by eapply check_group_ok; [apply H|]);
    pose proof (install_gtk_ok gd r false w Hg H) as H1; by destruct (wpa_supplicant_install_gtk gd r false w) end.
Qed.
Lemma install_group_keys_ok frame kd ie w : group_ok w -> group_ok (install_group_keys frame kd ie w).2.
Proof.
  intros H. unfold install_group_keys. cbv zeta.
  match goal with |- context [let '(ok, w0) := ?x in _] => assert (H1 : group_ok x.2); [|destruct x as [ok w1]; cbn [snd] in H1] end.
  { destruct (_ =? _); [exact H|]. destruct (WpaPtk.span_bytes _ _) as [k|]; [|exact H].
    pose proof (pairwise_gtk_ok frame k w H) as H1. by destruct (wpa_supplicant_pairwise_gtk frame k w). }
  destruct (negb ok); [exact H1|]. pose proof (set_keys_ok kd ie w1 H1) as H2. by destruct (ieee80211w_set_keys kd ie w1).
Qed.

Lemma process_1_of_2_rsn_ok kd info w : group_ok w ->
  let r := wpa_supplicant_process_1_of_2_rsn kd info w in group_ok r.2 /\ forall gd, r.1 = Some gd -> gd_ok gd.
Proof.
  intros H. unfold wpa_supplicant_process_1_of_2_rsn. cbv zeta. destruct (parse_ies kd) as [ie|]; [|done].
  destruct (WpaPtk.span_bytes _ _) as [k|]; [|done]. destruct (negb _); [done|]. destruct (_ || _); [done|].
  destruct (wpa_supplicant_check_group_cipher _ _ _) as [ [alg rsc]|] eqn:Hc; [|done]. split; [by apply set_keys_ok|].
  intros gd Hgd. injection Hgd as <-. eapply check_group_ok; [apply H|exact Hc].
Qed.
Lemma process_1_of_2_wpa_ok frame kd info ver s gd : group_cipher s = gc ->
  wpa_supplicant_process_1_of_2_wpa frame kd info ver s = Some gd -> gd_ok gd.
Proof.
  intros Hg H. unfold wpa_supplicant_process_1_of_2_wpa in H. cbv zeta in H.
  destruct (_ && _); [done|]. destruct (_ <? _)%nat in H; [done|].
  apply bind_Some in H as ([alg rsc] & Hc & H). apply bind_Some in H as (k & _ & H). injection H as <-.
  by eapply check_group_ok.
Qed.
Lemma process_1_of_2_ok frame kd ver w : group_ok w -> group_ok (wpa_supplicant_process_1_of_2 CONFIG_SAE frame kd ver w).
Proof.
  intros H. unfold wpa_supplicant_process_1_of_2. cbv zeta.
  assert (Hf : forall w', group_ok w' -> group_ok (failed w')) by (intros w'; apply group_gsteady, quiet_gsteady; quiet_chain).
  destruct (negb _); [by apply Hf|].
  match goal with |- context [let '(gd, w0) := ?x in _] =>
    assert (H1 : group_ok x.2 /\ forall gd, x.1 = Some gd -> gd_ok gd); [|destruct x as [gd w1]; cbn [fst snd] in H1] end.
  { destruct (is_rsn (sm w)); [by apply process_1_of_2_rsn_ok|]. split; [done|]. intros gd Hg.
    eapply process_1_of_2_wpa_ok; [apply H|exact Hg]. }
  destruct H1 as [H1 Hgd].
  assert (H2 : group_ok (set_state WPA_GROUP_HANDSHAKE w1)) by (revert H1; apply group_gsteady, quiet_gsteady; quiet_chain).
  revert H2. generalize (set_state WPA_GROUP_HANDSHAKE w1). clear H1. intros w2 H2.
  destruct gd as [gd|]; [|by apply Hf].
  match goal with |- context [wpa_supplicant_install_gtk gd ?r false w2] =>
    pose proof (install_gtk_ok gd r false w2 (Hgd _ eq_refl) H2) as H3;
    destruct (wpa_supplicant_install_gtk gd r false w2) as [r3 w3]; cbn [snd] in H3 end.
  destruct (negb _); [by apply Hf|]. revert H3. apply group_gsteady. quietly.
Qed.

Lemma process_3_of_4_ok frame ver kd w : group_ok w -> group_ok (wpa_supplicant_process_3_of_4 CONFIG_SAE frame ver kd w).
Proof.
  intros H. unfold wpa_supplicant_process_3_of_4. cbv zeta.
  assert (H1 : group_ok (set_state WPA_4WAY_HANDSHAKE w)) by (revert H; apply group_gsteady, quiet_gsteady; quiet_chain).
  clear H. revert H1. generalize (set_state WPA_4WAY_HANDSHAKE w). clear w. intros w H.
  assert (Hf : forall w', group_ok w' -> group_ok (failed w')) by (intros w'; apply group_gsteady, quiet_gsteady; quiet_chain).
  destruct (parse_ies kd) as [ie|]; [|by apply Hf].
  pose proof (group_gsteady _ _ (quiet_gsteady a _ _ (check_3_of_4_quiet frame kd ie w)) H) as H1.
  destruct (check_3_of_4 frame kd ie w) as [ok w1]. cbn [snd] in H1. destruct (negb ok); [by apply Hf|]. clear H.
  pose proof (group_gsteady _ _ (answer_3_of_4_gsteady a frame ver w1) H1) as H2.
  destruct (answer_3_of_4 _ frame ver w1) as [ok2 w2]. cbn [snd] in H2. destruct (negb ok2); [by apply Hf|].
  pose proof (install_group_keys_ok frame kd ie w2 H2) as H3.
  destruct (install_group_keys frame kd ie w2) as [ok3 w3]. cbn [snd] in H3. destruct (negb ok3); [by apply Hf|].
  revert H3. apply group_gsteady, finish_3_of_4_gsteady.
Qed.

Lemma group_part w w' : gcore (sm w') = gcore (sm w) -> events w' = events w -> group_ok w -> group_ok w'.
Proof. intros Hp He. apply group_gsteady. split; [exact Hp|]. exists []. by rewrite He. Qed.
Lemma verify_gcore s ver buf : gcore (wpa_supplicant_verify_eapol_key_mic CONFIG_SAE s ver buf).2 = gcore s.
Proof. unfold wpa_supplicant_verify_eapol_key_mic. destruct (_ && _); [done|]. by destruct (negb _). Qed.
Lemma rx_eapol_ok src buf w : group_ok w -> group_ok (rx_eapol CONFIG_SAE src buf w).2.
Proof.
  intros H. unfold rx_eapol. cbv zeta.
  match goal with |- context [wpa_sm_rx_eapol CONFIG_SAE ?a buf (sm w)] => pose proof (rx_state CONFIG_SAE a buf (sm w)) as Hs;
    destruct (wpa_sm_rx_eapol CONFIG_SAE a buf (sm w)) as [ [r d] s] end.
  cbn [snd] in Hs. assert (H1 : group_ok (w <| sm := s |>)).
  { destruct Hs as [-> |(ver & f & ->)]; revert H; apply group_part; try done. apply verify_gcore. }
  cbn [snd]. destruct d as [ [f ver kd|f ver kd|f ver kd]|]; [..|exact H1].
  - revert H1. apply group_gsteady, process_1_of_4_gsteady.
  - by apply process_3_of_4_ok.
  - by apply process_1_of_2_ok.
Qed.
Lemma wnmsleep_ok id buf w : group_ok w -> group_ok (wpa_wnmsleep_install_key id buf w).2.
Proof.
  intros H. unfold wpa_wnmsleep_install_key. cbv zeta. destruct (_ =? WNM_SLEEP_SUBELEM_GTK).
  - destruct (bool_decide _); [exact H|]. destruct (negb _); [exact H|].
    match goal with |- context [wpa_supplicant_install_gtk ?gd ?r true w] =>
      assert (Hg : gd_ok gd) by (split; cbn [gd_alg gd_gtk_len]; by rewrite (proj1 (group_ciphers _ H)));
      pose proof (install_gtk_ok gd r true w Hg H) as H1; by destruct (wpa_supplicant_install_gtk gd r true w) end.
  - destruct (_ =? WNM_SLEEP_SUBELEM_IGTK).
    { pose proof (install_igtk_ok (drop 2 buf) true w H) as H1. by destruct (wpa_supplicant_install_igtk _ true w). }
    destruct (_ =? WNM_SLEEP_SUBELEM_BIGTK); [|exact H]. destruct (beacon_prot _); [|exact H].
    pose proof (install_bigtk_ok (drop 2 buf) true w H) as H1. by destruct (wpa_supplicant_install_bigtk _ true w).
Qed.

(** ** An association *)

(** Calls that neither begin nor end an association. *)
Definition associated_input (i : sta_input) : bool :=
  match i with
  | Assoc _ | Disassoc | DropSa | SetParam (WPA_PARAM_GROUP | WPA_PARAM_MGMT_GROUP) _ => false
  | _ => true
  end.

Lemma exec_ok i w : associated_input i = true -> group_ok w -> group_ok (sta_exec CONFIG_SAE i w).
Proof.
  intros Hi H. destruct i; cbn [sta_exec]; try discriminate Hi.
  - by apply rx_eapol_ok.
  - revert H. apply group_gsteady, quiet_gsteady, key_request_quiet.
  - revert H. apply group_gsteady, quiet_gsteady, key_request_quiet.
  - by apply wnmsleep_ok.
  - revert H. apply group_gsteady, quiet_gsteady, set_pmk_quiet.
  - revert H. apply group_gsteady, quiet_gsteady, set_pmk_from_pmksa_quiet.
  - revert H. apply group_gsteady, quiet_gsteady, free_cb_quiet.
  - revert H. apply group_part; exact eq_refl.
  - destruct p; try discriminate Hi; revert H; apply group_part; exact eq_refl.
  - revert H. apply group_part; exact eq_refl.
  - revert H. apply group_gsteady, quiet_gsteady, (own_elements_quiet CONFIG_SAE ie rsnxe).
  - revert H. apply group_gsteady, quiet_gsteady, (ap_elements_quiet CONFIG_SAE wpa rsn rsnx).
  - revert H. apply group_part; exact eq_refl.
  - revert H. apply group_part; exact eq_refl.
  - destruct set; revert H; apply group_part; exact eq_refl.
  - revert H. apply group_part; exact eq_refl.
Qed.
End group.

Section association.
Context {C : Crypto} {E : SuppEnv} (CONFIG_SAE : bool).

(** C8: within an association a group key that is in use is not installed again.
    Whatever happens between the beginning of an association and its end, no two
    installations of a GTK in a row are of the same key, whether they come from
    message 3/4, message 1/2 or the end of WNM sleep. *)
Theorem gtk_not_reinstalled (addr : bytes) (w0 : world) (l : list sta_input) :
  let w1 := wpa_sm_notify_assoc addr (w0 <| events := [] |>) in
  let a := wpa_cipher_to_alg (group_cipher (sm w0)) in
  wpa_cipher_to_alg (mgmt_group_cipher (sm w0)) <> a -> forallb associated_input l = true ->
  Sorted (fun k1 k2 => k1 <> k2) (gtk_installs a (events (sta_run CONFIG_SAE l w1))).
Proof.
  cbv zeta. intros Hm Hl.
  apply (group_differ (group_cipher (sm w0)) (mgmt_group_cipher (sm w0))).
  assert (H : group_ok (group_cipher (sm w0)) (mgmt_group_cipher (sm w0)) (wpa_sm_notify_assoc addr (w0 <| events := [] |>))).
  { split; [done|cbn; lia|done|constructor]. }
  revert Hl H. generalize (wpa_sm_notify_assoc addr (w0 <| events := [] |>)).
  induction l as [|i l IH]; intros w Hl H; [done|]. cbn [forallb] in Hl. apply andb_prop in Hl as [Hi Hl].
  apply IH; [done|]. by apply exec_ok.
Qed.
End association.
