(* ===== verification/WpaExchange.v ===== *)
(** * The WPA authenticator and the supplicant: frames in flight

    The layout of the frames [__wpa_send_eapol] builds, and what the station's
    [wpa_sm_rx_eapol] makes of them: the fields are read back, the MIC verifies, the
    key data is decrypted. *)

From S2P Require Import Prelude Bytes HashSpec Hmac AesInterface AesWrap AesOmac Rc4.
From S2P Require Import WpaKeys WpaState WpaFrame WpaPsk WpaGroup WpaPtk WpaAuth WpaReplay.
From S2P Require WpaSupp Md5 Sha1 HashSpec.

(** ** Lengths and kinds of the integrity code *)

(** The suites whose frames this build can protect. *)
Definition known_akm (akm : Z) : Prop :=
  wpa_use_akm_defined akm = false \/ akm = WPA_KEY_MGMT_SAE \/ akm = WPA_KEY_MGMT_FT_SAE.
Lemma mic_len_16 akm n : known_akm akm -> wpa_mic_len akm n = 16%nat.
Proof.
  intros [Hd|[-> | ->] ]; [|reflexivity..]. unfold wpa_mic_len. cbn [switch existsb orb].
  repeat match goal with |- context [akm =? ?k] => destruct (Z.eqb_spec akm k) as [->|?]; [by vm_compute in Hd|] end.
  done.
Qed.

Section mic.
Context {C : Crypto} {L : CryptoLaws C} (CONFIG_SAE : bool).

Lemma cmac_mic_length key buf mic :
  wf_bytes key -> wf_bytes buf -> buf <> [] -> cmac_mic key buf = Some mic -> length mic = 16%nat.
Proof.
  intros Hk Hb Hn Hm. destruct (aes_encrypt_init (take 16 key) 16) as [ctx|] eqn:Hc.
  - rewrite (cmac_mic_cmac _ ctx) in Hm by done. injection Hm as <-. apply is_block_cmac; [|done].
    intros b Hbl. eapply aes_encrypt_block; [|exact Hc|exact Hbl]. by apply wf_bytes_take.
  - unfold cmac_mic, omac1_aes_128, omac1_aes_128_vector, omac1_aes_vector in Hm. by rewrite Hc in Hm.
Qed.

(** A frame is protected only with a suite the build knows. *)
Lemma key_mic_known key n akm ver buf mic :
  ver = WPA_KEY_INFO_TYPE_AKM_DEFINED \/ wpa_use_akm_defined akm = false ->
  wpa_eapol_key_mic CONFIG_SAE key n akm ver buf = Some mic -> known_akm akm.
Proof.
  intros [->|Hv] Hm; [|by left]. right. unfold wpa_eapol_key_mic in Hm. destruct (n =? 0)%nat; [done|].
  change (switch WPA_KEY_INFO_TYPE_AKM_DEFINED _ None) with
    (if CONFIG_SAE && ((akm =? WPA_KEY_MGMT_SAE) || (akm =? WPA_KEY_MGMT_FT_SAE)) then cmac_mic key buf else None) in Hm.
  destruct (CONFIG_SAE && _) eqn:Ha; [|done].
  apply andb_prop in Ha as [_ Ha]. apply orb_prop in Ha as [Ha|Ha]; apply Z.eqb_eq in Ha; auto.
Qed.

(** Every integrity code that is computed has 16 bytes. *)
Lemma key_mic_length key n akm ver buf mic :
  fragment_ok key -> fragment_ok buf -> buf <> [] -> (n <= length key)%nat ->
  wpa_eapol_key_mic CONFIG_SAE key n akm ver buf = Some mic -> length mic = 16%nat.
Proof.
  intros Hk Hb Hne Hn. unfold wpa_eapol_key_mic. destruct (n =? 0)%nat; [done|].
  assert (Hkn : fragment_ok (take n key)).
  { destruct Hk as [? ?]. split; [by apply wf_bytes_take|]. rewrite length_take. lia. }
  destruct Hk as [Hkw _]. pose proof (cmac_mic_length key buf mic Hkw (proj1 Hb) Hne) as Hcm.
  apply switch_ind; [|done]. repeat (apply Forall_cons; split; [cbn [snd]|]); [..|by apply Forall_nil].
  - unfold hmac_md5. rewrite hmac_md5_vector_hmac; [|apply md5_stack_len|done|by constructor|cbn; lia].
    intros [= <-]. unfold hmac. apply Md5.length_md5.
  - unfold hmac_sha1. rewrite hmac_sha1_vector_hmac; [|apply sha1_stack_len|done|by constructor|cbn; lia].
    intros [= <-]. rewrite length_take. unfold hmac. by rewrite length_sha1.
  - exact Hcm.
  - destruct (CONFIG_SAE && _); [exact Hcm|done].
Qed.
End mic.

(** ** The fields of a frame *)

Lemma sub_field off n pre f post : length pre = off -> length f = n -> sub off n (pre ++ f ++ post) = f.
Proof. intros <- <-. unfold sub. by rewrite drop_app_length, take_app_length. Qed.
Lemma sub_last off n (pre f : bytes) : length pre = off -> length f = n -> sub off n (pre ++ f) = f.
Proof. intros Hp Hf. rewrite <- (app_nil_r f) at 1. by apply sub_field. Qed.
Lemma get_field off pre x post : length pre = off -> get (pre ++ x :: post) off = x.
Proof. intros <-. unfold get. by rewrite nth_middle. Qed.

(** The part of a frame before the MIC. *)
Definition frame_head (version type info key_length : Z) (replay nonce iv rsc : bytes) (len : Z) : bytes :=
  [u8 version; IEEE802_1X_TYPE_EAPOL_KEY] ++ WPA_PUT_BE16 len ++ [type] ++ WPA_PUT_BE16 info ++
  WPA_PUT_BE16 key_length ++ replay ++ nonce ++ iv ++ rsc ++ replicate 8 0.

Record fields_ok (replay nonce iv rsc : bytes) : Prop := {
  fo_replay : counter_ok replay;
  fo_nonce : length nonce = WPA_NONCE_LEN /\ wf_bytes nonce;
  fo_iv : length iv = 16%nat /\ wf_bytes iv;
  fo_rsc : length rsc = WPA_KEY_RSC_LEN /\ wf_bytes rsc }.

Lemma BE16_length v : length (WPA_PUT_BE16 v) = 2%nat.
Proof. by rewrite WPA_PUT_BE16_encode, length_be_encode. Qed.
Lemma wf_BE16 v : wf_bytes (WPA_PUT_BE16 v).
Proof. rewrite WPA_PUT_BE16_encode. apply wf_be_encode. Qed.

Section layout.
Context (version type info key_length : Z) (replay nonce iv rsc : bytes).
Context (Hf : fields_ok replay nonce iv rsc) (Htype : is_byte type).
Notation hd := (frame_head version type info key_length replay nonce iv rsc).

Lemma frame_split mic kdl kd :
  eapol_key_frame version type info key_length replay nonce iv rsc mic kdl kd =
  hd (Z.of_nat (79 + length mic + length kd)) ++ mic ++ WPA_PUT_BE16 kdl ++ kd.
Proof.
  destruct Hf as [ [Hr _] [Hn _] [Hi _] [Hs _] ]. unfold eapol_key_frame, frame_head. cbv zeta. rewrite <- !app_assoc.
  do 2 f_equal. f_equal. f_equal. rewrite !length_app, Hr, Hn, Hi, Hs, length_replicate.
  rewrite !WPA_PUT_BE16_encode, !length_be_encode. cbn [length].
  unfold WPA_REPLAY_COUNTER_LEN, WPA_NONCE_LEN, WPA_KEY_RSC_LEN. lia.
Qed.
Lemma length_head n : length (hd n) = mic_offset.
Proof.
  destruct Hf as [ [Hr _] [Hn _] [Hi _] [Hs _] ]. unfold frame_head.
  rewrite !length_app, Hr, Hn, Hi, Hs, length_replicate, !WPA_PUT_BE16_encode, !length_be_encode. done.
Qed.
Lemma wf_head n : wf_bytes (hd n).
Proof.
  destruct Hf as [ [_ Hr] [_ Hn] [_ Hi] [_ Hs] ]. unfold frame_head.
  repeat (apply wf_bytes_app; split); try done; try apply wf_BE16.
  - constructor; [apply is_byte_u8|]. by apply Forall_singleton.
  - by apply Forall_singleton.
  - by apply (wf_bytes_replicate 8).
Qed.

(** Reading the fields. *)
Context (len : Z) (rest : bytes).
Notation frame := (hd len ++ rest).
Lemma head_type : get frame 1 = IEEE802_1X_TYPE_EAPOL_KEY.
Proof. done. Qed.
Lemma BE16_field v pre post off : 0 <= v < 65536 -> length pre = off ->
  WPA_GET_BE16 (drop off (pre ++ WPA_PUT_BE16 v ++ post)) = v.
Proof.
  intros Hv <-. rewrite drop_app_length. rewrite (proj1 (WPA_GET_PUT_BE v post)), u16_mod. by apply Z.mod_small.
Qed.
Lemma head_length : 0 <= len < 65536 -> WPA_GET_BE16 (drop 2 frame) = len.
Proof. intros Hl. unfold frame_head. rewrite <- !app_assoc. by apply BE16_field. Qed.
Lemma head_type_field : key_type frame = type.
Proof.
  unfold key_type, frame_head. rewrite <- !app_assoc. rewrite app_assoc. apply get_field.
  by rewrite length_app, BE16_length.
Qed.
Lemma head_info : 0 <= info < 65536 -> key_info frame = info.
Proof.
  intros Hl. unfold key_info, frame_head. rewrite <- !app_assoc. do 2 rewrite app_assoc. apply BE16_field; [done|].
  by rewrite !length_app, BE16_length.
Qed.
Lemma head_replay : replay_counter frame = replay.
Proof.
  unfold replay_counter, frame_head. rewrite <- !app_assoc. do 4 rewrite app_assoc. apply sub_field; [|apply Hf].
  by rewrite !length_app, !BE16_length.
Qed.
Lemma head_nonce : key_nonce frame = nonce.
Proof.
  unfold key_nonce, frame_head. rewrite <- !app_assoc. do 5 rewrite app_assoc. apply sub_field; [|apply Hf].
  rewrite !length_app, !BE16_length. by rewrite (proj1 (fo_replay _ _ _ _ Hf)).
Qed.
Lemma head_iv : WpaSupp.key_iv frame = iv.
Proof.
  unfold WpaSupp.key_iv, frame_head. rewrite <- !app_assoc. do 6 rewrite app_assoc. apply sub_field; [|apply Hf].
  rewrite !length_app, !BE16_length. by rewrite (proj1 (fo_replay _ _ _ _ Hf)), (proj1 (fo_nonce _ _ _ _ Hf)).
Qed.
End layout.

(** ** What is sent *)

Section sent.
Context {C : Crypto} {E : WpaEnv} (CONFIG_SAE : bool) (conf : wpa_auth_config).
Notation W := world.

(** The key data in a frame, and its IV. *)
Definition carries (s : wpa_state_machine) (group_counter : bytes) (kde : option bytes) (encr : bool)
    (data iv : bytes) : Prop :=
  match kde with
  | None => data = [] /\ iv = replicate 16 0
  | Some kde =>
    if encr then exists c, encrypt_key_data (key_version s) (wpa_key_mgmt s) (PTK s) group_counter kde = Some (data, iv, c)
    else data = kde /\ iv = replicate 16 0
  end.

Definition sent_frame (s : wpa_state_machine) (info0 : Z) (rsc nonce : option bytes) (keyidx : Z) (encr : bool)
    (mic_len room : nat) (data iv : bytes) : bytes :=
  eapol_key_frame (eapol_version conf)
    (if bool_decide (wpa s = WPA_VERSION_WPA2) then EAPOL_KEY_TYPE_RSN else EAPOL_KEY_TYPE_WPA)
    (frame_key_info s info0 (key_version s) keyidx encr)
    (frame_key_length conf s (flag_set info0 WPA_KEY_INFO_KEY_TYPE))
    (from_option counter [] (head (next_replay (key_replay s)))) (default (replicate WPA_NONCE_LEN 0) nonce) iv
    (default (replicate WPA_KEY_RSC_LEN 0) rsc) (replicate mic_len 0) (Z.of_nat (length data))
    (data ++ replicate (room - length data) 0).

(** The end of the call, with the data and IV of the frame. *)
Ltac finish Hfin data iv :=
  let Ex := fresh in
  intros Ex He; cbv beta iota zeta in Ex;
  match type of Ex with _ = match _ with Some _ => _ | None => ?w1 end =>
    refine (Hfin w1 iv data eq_refl _ _ _ Ex He) end.

Lemma send_spec info0 rsc nonce kde keyidx encr w buf enc rest :
  let s := sm w in
  let mic_len := wpa_mic_len (wpa_key_mgmt s) (pmk_len s) in
  let room := key_data_room (key_version s) (wpa_key_mgmt s) mic_len (length (default [] kde)) encr in
  forall w', w' = __wpa_send_eapol CONFIG_SAE conf info0 rsc nonce kde keyidx encr 0 w ->
  flag_set (frame_key_info s info0 (key_version s) keyidx encr) WPA_KEY_INFO_MIC = true ->
  events w' = SendEapol buf enc :: rest ->
  key_replay (sm w') = next_replay (key_replay s) /\
  exists data iv mic, carries s (Counter (group w)) kde encr data iv /\
    let base := sent_frame s info0 rsc nonce keyidx encr mic_len room data iv in
    wpa_eapol_key_mic CONFIG_SAE (kck (PTK s)) (kck_len (PTK s)) (wpa_key_mgmt s) (key_version s) base = Some mic /\
    buf = memcpy base mic_offset mic.
Proof.
  cbv zeta. intros w' Hw' Hm. revert Hw'. unfold __wpa_send_eapol. cbv zeta. change (negb (0 =? 0)) with false. cbv iota. set (s := sm w) in *.
  unfold allocate at 1. cbv zeta. set (a := Allocate _). destruct (os_alloc _); cbn [negb]; [|by intros -> [=]].
  assert (Hfin : forall w1 iv data,
    key_replay (sm w1) = next_replay (key_replay s) -> carries s (Counter (group w)) kde encr data iv ->
    (forall b e r, events w1 <> SendEapol b e :: r) ->
    let base := sent_frame s info0 rsc nonce keyidx encr (wpa_mic_len (wpa_key_mgmt s) (pmk_len s))
      (key_data_room (key_version s) (wpa_key_mgmt s) (wpa_mic_len (wpa_key_mgmt s) (pmk_len s)) (length (default [] kde)) encr) data iv in
    forall x, x = match
       (if negb (PTK_valid s) || (wpa_mic_len (wpa_key_mgmt s) (pmk_len s) =? 0)%nat then None
        else mic ← wpa_eapol_key_mic CONFIG_SAE (kck (PTK s)) (kck_len (PTK s)) (wpa_key_mgmt s) (key_version s) base;
             Some (memcpy base mic_offset mic)) with
      | None => w1
      | Some buf0 => emit (SendEapol buf0 (pairwise_set (sm w1))) (wpa_auth_set_eapol WPA_EAPOL_inc_EapolFramesTx 1 w1)
      end ->
    events x = SendEapol buf enc :: rest ->
    key_replay (sm x) = next_replay (key_replay s) /\
    exists data iv mic, carries s (Counter (group w)) kde encr data iv /\
      let base := sent_frame s info0 rsc nonce keyidx encr (wpa_mic_len (wpa_key_mgmt s) (pmk_len s))
        (key_data_room (key_version s) (wpa_key_mgmt s) (wpa_mic_len (wpa_key_mgmt s) (pmk_len s)) (length (default [] kde)) encr) data iv in
      wpa_eapol_key_mic CONFIG_SAE (kck (PTK s)) (kck_len (PTK s)) (wpa_key_mgmt s) (key_version s) base = Some mic /\
      buf = memcpy base mic_offset mic).
  { intros w1 iv data Hr Hc Hno base x -> He. destruct (negb _ || _); [by apply Hno in He|].
    destruct (wpa_eapol_key_mic _ _ _ _ _ base) as [mic|] eqn:Emic; cbn [mbind option_bind] in He |- *; [|by apply Hno in He].
    injection He as <- _ _. split; [exact Hr|]. by exists data, iv, mic. }
  rewrite Hm. destruct kde as [kde|].
  - destruct encr; cbn [negb].
    + unfold allocate. cbv zeta. destruct (os_alloc _); cbn [negb]; [|by intros -> [=]].
      match goal with |- context [encrypt_key_data ?v ?k ?p ?c ?d] => destruct (encrypt_key_data v k p c d) as [ [ [data iv] c']|] eqn:Ee end;
        [|by intros -> [=]].
      finish Hfin data iv; [by exists c'|intros ? ? ?; discriminate].
    + finish Hfin kde (replicate 16 0); [by split|intros ? ? ?; discriminate].
  - finish Hfin (@nil Z) (replicate 16 0); [by split|intros ? ? ?; discriminate].
Qed.
End sent.

(** ** The key data *)

Lemma length_padded kde : (length (padded kde) mod 8 = 0)%nat /\ length (padded kde) = (length kde + wrap_pad_len (length kde))%nat.
Proof.
  unfold padded, wrap_pad_len. cbv zeta. destruct (Nat.eqb_spec (length kde mod 8) 0) as [E|E]; cbn [Nat.eqb].
  - rewrite E. split; lia.
  - pose proof (Nat.mod_upper_bound (length kde) 8 ltac:(lia)).
    destruct (Nat.eqb_spec (8 - length kde mod 8) 0); [lia|]. rewrite length_app. cbn [length]. rewrite length_replicate.
    split; [|lia]. pose proof (Nat.div_mod_eq (length kde) 8) as Hd.
    replace (length kde + S (8 - length kde mod 8 - 1))%nat with ((length kde / 8 + 1) * 8)%nat by lia.
    by rewrite Nat.Div0.mod_mul.
Qed.
Lemma wf_padded kde : wf_bytes kde -> wf_bytes (padded kde).
Proof.
  intros Hk. unfold padded. cbv zeta. case_match; [done|]. apply wf_bytes_app. split; [done|].
  constructor; [unfold is_byte; lia|]. by apply wf_bytes_replicate.
Qed.

Lemma some_triple {A B D} (a a' : A) (b b' : B) (d d' : D) :
  Some (a, b, d) = Some (a', b', d') -> a = a' /\ b = b' /\ d = d'.
Proof. by intros [= -> -> ->]. Qed.

Section key_data.
Context {C : Crypto} {L : CryptoLaws C} (os_malloc : nat -> bool).

(** What the station gets. *)
Definition plain_key_data (ver akm : Z) (kde : bytes) : bytes := if uses_key_wrap ver akm then padded kde else kde.

Lemma aes_wrap_wf kek n plain kek_len cipher :
  wf_bytes kek -> length plain = (8 * n)%nat -> wf_bytes plain -> aes_wrap kek kek_len n plain = (0, cipher) ->
  wf_bytes cipher /\ length cipher = (8 * n + 8)%nat /\ aes_unwrap kek kek_len n cipher = (0, plain).
Proof.
  intros Hk Hl Hp Hw. destruct (aes_encrypt_init kek kek_len) as [ctx|] eqn:Hi.
  2:{ unfold aes_wrap in Hw. by rewrite Hi in Hw. }
  destruct (aes_unwrap_wrap kek kek_len n plain ctx Hk Hi Hl Hp) as (c & E & Hc & Hu).
  rewrite E in Hw. injection Hw as <-. split; [|done].
  pose proof (registers_wrap n plain Hl Hp) as Hr. destruct (wrap_loop_pair kek kek_len ctx n Hk Hi _ _ Hr) as [Hw Hr'].
  unfold aes_wrap in E. rewrite Hi, take_ge, Hw in E by lia. injection E as <-.
  destruct Hr' as (_ & _ & H3 & H4). by apply wf_bytes_app.
Qed.

(** The encrypted key data and its IV. *)
Lemma encrypted_shape ver akm p group_counter kde data iv c :
  wf_bytes kde -> wf_bytes (kek p) -> length group_counter = WPA_NONCE_LEN -> wf_bytes group_counter ->
  encrypt_key_data ver akm p group_counter kde = Some (data, iv, c) ->
  length data = (if uses_key_wrap ver akm then length kde + wrap_pad_len (length kde) + 8 else length kde)%nat /\
  wf_bytes data /\ length iv = 16%nat /\ wf_bytes iv.
Proof.
  intros Hk Hkek Hcl Hcw. unfold encrypt_key_data. cbv zeta. destruct (uses_key_wrap ver akm).
  - destruct (length_padded kde) as [Hp8 Hpl]. pose proof (Nat.div_mod_eq (length (padded kde)) 8) as Hd. rewrite Hp8 in Hd.
    destruct (aes_wrap _ _ _ _) as [r out] eqn:Ew. destruct (Z.eqb_spec r 0) as [->|]; cbn [negb]; [|done].
    intros [= <- <- <-].
    apply aes_wrap_wf in Ew as (Hw & Hl & _); [|by apply wf_bytes_take|lia|by apply wf_padded].
    split; [lia|]. split; [done|]. split; [done|by apply (wf_bytes_replicate 16)].
  - destruct (kek_len p =? 16)%nat; [|done]. intros H. apply some_triple in H as (<- & <- & _).
    split; [apply length_rc4_skip|]. split; [exact (wf_rc4_skip _ _ _ Hk)|].
    split; [rewrite length_drop, Hcl; done|by apply wf_bytes_drop].
Qed.

Lemma key_data_recovered ver akm p group_counter kde data iv c sm :
  wf_bytes kde -> wf_bytes (kek p) -> WpaSupp.ptk_set sm = true -> WpaSupp.ptk sm = p -> WpaSupp.key_mgmt sm = akm ->
  (uses_key_wrap ver akm = true -> ver <> WPA_KEY_INFO_TYPE_HMAC_MD5_RC4) ->
  (uses_key_wrap ver akm = false -> ver = WPA_KEY_INFO_TYPE_HMAC_MD5_RC4) ->
  (forall n, os_malloc n = true) ->
  encrypt_key_data ver akm p group_counter kde = Some (data, iv, c) ->
  WpaSupp.wpa_supplicant_decrypt_key_data os_malloc sm ver iv data = Some (plain_key_data ver akm kde).
Proof.
  intros Hk Hkek Hset <- <- Hwr Hrc Hm. unfold encrypt_key_data, WpaSupp.wpa_supplicant_decrypt_key_data, plain_key_data.
  cbv zeta. rewrite Hset. cbn [negb]. set (akm := WpaSupp.key_mgmt sm) in *. set (p := WpaSupp.ptk sm) in *.
  destruct (uses_key_wrap ver akm) eqn:Eu.
  - destruct (length_padded kde) as [Hp8 Hpl]. pose proof (Nat.div_mod_eq (length (padded kde)) 8) as Hd. rewrite Hp8 in Hd.
    destruct (aes_wrap _ _ _ _) as [r out] eqn:Ew. destruct (Z.eqb_spec r 0) as [->|]; cbn [negb]; [|done].
    intros [= <- <- <-].
    apply aes_wrap_wf in Ew as (_ & Hl & Hu); [|by apply wf_bytes_take|lia|by apply wf_padded].
    rewrite (proj2 (Z.eqb_neq ver _) (Hwr eq_refl)). cbn [andb].
    assert (Ev : (ver =? WPA_KEY_INFO_TYPE_HMAC_SHA1_AES) || (ver =? WPA_KEY_INFO_TYPE_AES_128_CMAC) ||
      wpa_use_aes_key_wrap akm = true).
    { unfold uses_key_wrap in Eu. destruct (ver =? WPA_KEY_INFO_TYPE_HMAC_SHA1_AES), (ver =? WPA_KEY_INFO_TYPE_AES_128_CMAC),
        (wpa_use_aes_key_wrap akm); done. }
    rewrite Ev, Hl, Hm. cbn [negb].
    destruct (Nat.ltb_spec (8 * (length (padded kde) / 8) + 8) 8); [lia|].
    replace (8 * (length (padded kde) / 8) + 8)%nat with ((length (padded kde) / 8 + 1) * 8)%nat by lia.
    rewrite Nat.Div0.mod_mul. cbn [Nat.eqb negb orb].
    replace ((length (padded kde) / 8 + 1) * 8 - 8)%nat with (length (padded kde) / 8 * 8)%nat by lia.
    rewrite Nat.div_mul by lia. by rewrite Hu.
  - rewrite (Hrc eq_refl). destruct (kek_len p =? 16)%nat; [|done]. intros H. apply some_triple in H as (<- & <- & _).
    change (WPA_KEY_INFO_TYPE_HMAC_MD5_RC4 =? WPA_KEY_INFO_TYPE_HMAC_MD5_RC4) with true. cbn [andb].
    by rewrite rc4_skip_involutive.
Qed.
End key_data.

(** ** Flags and versions *)

Lemma memcpy_mid off pre old new post :
  length pre = off -> length new = length old -> memcpy (pre ++ old ++ post) off new = pre ++ new ++ post.
Proof.
  intros <- Hl. unfold memcpy. rewrite take_app_length, Hl. f_equal. f_equal.
  by rewrite app_assoc, drop_app_length' by (rewrite length_app; done).
Qed.

(** The flags a caller of [__wpa_send_eapol] passes for a protected frame: neither
    the version, nor the key index, nor a flag above [WPA_KEY_INFO_ERROR]. *)
Definition protected_info (info0 : Z) : Prop :=
  0 <= info0 < 2048 /\ Z.land info0 (Z.lor WPA_KEY_INFO_TYPE_MASK WpaSupp.WPA_KEY_INFO_KEY_INDEX_MASK) = 0 /\
  flag_set info0 WPA_KEY_INFO_MIC = true /\ flag_set info0 WPA_KEY_INFO_ACK = true.

Definition with_encr (info0 ver : Z) (encr : bool) : Z :=
  if encr then Z.lor (Z.lor info0 ver) WPA_KEY_INFO_ENCR_KEY_DATA else Z.lor info0 ver.
Definition info_reads_back (info0 ver : Z) (encr : bool) : bool :=
  let info := with_encr info0 ver encr in
  (0 <=? info) && (info <? 65536) && (Z.land info WPA_KEY_INFO_TYPE_MASK =? ver) &&
  flag_set info WPA_KEY_INFO_MIC && flag_set info WPA_KEY_INFO_ACK &&
  eqb (flag_set info WPA_KEY_INFO_KEY_TYPE) (flag_set info0 WPA_KEY_INFO_KEY_TYPE) &&
  eqb (flag_set info WPA_KEY_INFO_ENCR_KEY_DATA) encr && negb (flag_set info WPA_KEY_INFO_SMK_MESSAGE) &&
  negb (flag_set info WPA_KEY_INFO_REQUEST) && negb (flag_set info WpaSupp.WPA_KEY_INFO_KEY_INDEX_MASK) &&
  flag_set info (Z.lor WPA_KEY_INFO_MIC WPA_KEY_INFO_ENCR_KEY_DATA).
Definition protected_infob (info0 : Z) : bool :=
  (Z.land info0 (Z.lor WPA_KEY_INFO_TYPE_MASK WpaSupp.WPA_KEY_INFO_KEY_INDEX_MASK) =? 0) &&
  flag_set info0 WPA_KEY_INFO_MIC && flag_set info0 WPA_KEY_INFO_ACK.

Lemma protected_flags info0 ver encr : protected_info info0 -> 0 <= ver < 4 -> info_reads_back info0 ver encr = true.
Proof.
  intros (Hr & Hz & Hm & Ha) Hv.
  assert (H : forallb (fun i => negb (protected_infob i) ||
    forallb (fun v => info_reads_back i v true && info_reads_back i v false) (seqZ 0 4)) (seqZ 0 2048) = true)
    by (vm_compute; reflexivity).
  rewrite forallb_forall in H. specialize (H info0).
  assert (Hp : protected_infob info0 = true) by (unfold protected_infob; by rewrite Hz, Hm, Ha).
  rewrite Hp in H. cbn [negb orb] in H. rewrite forallb_forall in H.
  assert (E : info_reads_back info0 ver true && info_reads_back info0 ver false = true).
  { apply H; apply list_elem_of_In, elem_of_seqZ; lia. }
  apply andb_prop in E as [? ?]. by destruct encr.
Qed.

Lemma key_version_range s : 0 <= key_version s < 4.
Proof. unfold key_version. repeat case_match; vm_compute; split; congruence. Qed.
Lemma key_version_akm s :
  key_version s = WPA_KEY_INFO_TYPE_AKM_DEFINED \/ wpa_use_akm_defined (wpa_key_mgmt s) = false.
Proof. unfold key_version. destruct (wpa_use_akm_defined _); auto. Qed.

(** The receiver undoes what the sender did. *)
Lemma key_version_wrap s : known_akm (wpa_key_mgmt s) ->
  (uses_key_wrap (key_version s) (wpa_key_mgmt s) = true -> key_version s <> WPA_KEY_INFO_TYPE_HMAC_MD5_RC4) /\
  (uses_key_wrap (key_version s) (wpa_key_mgmt s) = false -> key_version s = WPA_KEY_INFO_TYPE_HMAC_MD5_RC4).
Proof.
  intros [Hd|Hd].
  - unfold uses_key_wrap, key_version. rewrite Hd.
    change (wpa_use_aes_key_wrap (wpa_key_mgmt s)) with (wpa_use_cmac (wpa_key_mgmt s)).
    destruct (wpa_use_cmac _), (negb (pairwise s =? WPA_CIPHER_TKIP)); split; done.
  - unfold key_version. destruct Hd as [-> | ->]; split; done.
Qed.

Lemma cmac_without_ft akm :
  wpa_use_akm_defined akm = false -> wpa_key_mgmt_ft akm = false -> wpa_use_cmac akm = wpa_key_mgmt_sha256 akm.
Proof.
  unfold wpa_use_akm_defined, wpa_use_cmac. intros Hd ->.
  destruct (akm =? WPA_KEY_MGMT_OSEN), (akm =? WPA_KEY_MGMT_OWE), (akm =? WPA_KEY_MGMT_DPP),
    (akm =? WPA_KEY_MGMT_FT_IEEE8021X_SHA384), (wpa_key_mgmt_sae akm), (wpa_key_mgmt_suite_b akm); try done.
  cbn [orb]. by rewrite !orb_false_r.
Qed.

(** The station accepts the version the access point chooses. *)
Lemma version_accepted s sm info :
  wpa_key_mgmt_ft (wpa_key_mgmt s) = false ->
  WpaSupp.key_mgmt sm = wpa_key_mgmt s -> WpaSupp.pairwise_cipher sm = pairwise s ->
  WpaSupp.supp_version_ok sm info (key_version s) = true.
Proof.
  intros Hft Hk Hp. unfold WpaSupp.supp_version_ok. cbv zeta. rewrite Hk, Hp. unfold key_version.
  destruct (wpa_use_akm_defined _) eqn:Hd.
  - change (negb true) with false. rewrite !andb_false_r. cbn [negb andb]. by repeat case_match.
  - rewrite (cmac_without_ft _ Hd Hft). destruct (wpa_key_mgmt_sha256 _); [done|].
    destruct (Z.eqb_spec (pairwise s) WPA_CIPHER_TKIP) as [->|?]; [done|]. cbn [negb]. 
    change (WPA_KEY_INFO_TYPE_HMAC_SHA1_AES =? WPA_KEY_INFO_TYPE_HMAC_SHA1_AES) with true. cbn [negb].
    by rewrite !andb_false_r.
Qed.

(** ** A frame sent is a frame received *)

(** The arguments of [__wpa_send_eapol] and the state of the access point. *)
Record sendable (s : wpa_state_machine) (g : wpa_group) (newest info0 : Z) (rsc nonce kde : option bytes) (encr : bool) :
    Prop := {
  sn_wpa2 : wpa s = WPA_VERSION_WPA2;
  sn_ft : wpa_key_mgmt_ft (wpa_key_mgmt s) = false;
  sn_info : protected_info info0;
  sn_rsc : let b := default (replicate WPA_KEY_RSC_LEN 0) rsc in length b = WPA_KEY_RSC_LEN /\ wf_bytes b;
  sn_nonce : let b := default (replicate WPA_NONCE_LEN 0) nonce in length b = WPA_NONCE_LEN /\ wf_bytes b;
  sn_kde : wf_bytes (default [] kde) /\ Z.of_nat (length (default [] kde)) <= 65000;
  sn_encr : encr = true -> kde <> None;
  sn_replay : replay_ok (key_replay s) newest /\ newest + 1 < 2 ^ 64;
  sn_counter : length (Counter g) = WPA_NONCE_LEN /\ wf_bytes (Counter g);
  sn_kck : fragment_ok (kck (PTK s)) /\ (kck_len (PTK s) <= length (kck (PTK s)))%nat;
  sn_kek : wf_bytes (kek (PTK s)) }.

(** The station has derived the same key (which it may not have used yet), has
    negotiated the same suites, and has seen no later frame. *)
Record shares_key (s : wpa_state_machine) (newest : Z) (v : WpaSupp.wpa_sm) : Prop := {
  sh_akm : WpaSupp.key_mgmt v = wpa_key_mgmt s;
  sh_cipher : WpaSupp.pairwise_cipher v = pairwise s;
  sh_proto : WpaSupp.proto v = WpaSupp.WPA_PROTO_RSN;
  sh_ptk : (WpaSupp.tptk_set v = true /\ WpaSupp.tptk v = PTK s) \/
           (WpaSupp.tptk_set v = false /\ WpaSupp.ptk_set v = true /\ WpaSupp.ptk v = PTK s);
  sh_replay : WpaSupp.rx_replay_counter_set v = true ->
              counter_ok (WpaSupp.rx_replay_counter v) /\ be_decode (WpaSupp.rx_replay_counter v) <= newest }.

Section received.
Context {C : Crypto} {L : CryptoLaws C} {E : WpaEnv} (CONFIG_SAE : bool) (conf : wpa_auth_config) (os_malloc : nat -> bool).
Context (Hmalloc : forall n, os_malloc n = true).
Context (s : wpa_state_machine) (g : wpa_group) (newest info0 : Z) (rsc nonce kde : option bytes) (encr : bool).
Context (Hs : sendable s g newest info0 rsc nonce kde encr).
Notation ver := (key_version s).
Notation akm := (wpa_key_mgmt s).
Notation info := (with_encr info0 ver encr).
Notation replay := (from_option counter [] (head (next_replay (key_replay s)))).
Notation room := (key_data_room ver akm (wpa_mic_len akm (pmk_len s)) (length (default [] kde)) encr).

Lemma frame_info keyidx : frame_key_info s info0 ver keyidx encr = info.
Proof.
  unfold frame_key_info, with_encr. cbv zeta. rewrite (sn_wpa2 _ _ _ _ _ _ _ _ Hs).
  rewrite (bool_decide_eq_true_2 (WPA_VERSION_WPA2 = WPA_VERSION_WPA2)) by done. by rewrite andb_true_r.
Qed.

Lemma next_counter : counter_ok replay /\ be_decode replay = newest + 1.
Proof.
  destruct (sn_replay _ _ _ _ _ _ _ _ Hs) as [Hr Hb]. pose proof (replay_ok_sent _ _ Hr Hb) as [Hc (c & l' & Hl & Hn)].
  rewrite Hl in *. apply Forall_cons in Hc as [ [Hc _] _]. by split.
Qed.

(** The key data in the frame fills the room that was made for it. *)
Lemma carries_shape data iv : known_akm akm -> carries s (Counter g) kde encr data iv ->
  length data = room /\ wf_bytes data /\ Z.of_nat (length data) <= 65016 /\ length iv = 16%nat /\ wf_bytes iv.
Proof.
  intros Hk. unfold key_data_room. rewrite (mic_len_16 _ _ Hk). cbn [Nat.eqb andb]. rewrite Nat.add_0_r.
  destruct (sn_kde _ _ _ _ _ _ _ _ Hs) as [Hw Hl].
  assert (Hz : length (replicate 16 0) = 16%nat /\ wf_bytes (replicate 16 0)) by (split; [done|by apply (wf_bytes_replicate 16)]).
  unfold carries. pose proof (sn_encr _ _ _ _ _ _ _ _ Hs) as He. destruct kde as [kd|].
  - change (default [] (Some kd)) with kd in *. destruct encr.
    + intros [c Hc]. destruct (sn_counter _ _ _ _ _ _ _ _ Hs).
      apply encrypted_shape in Hc as (Hlen & Hwf & Hiv); [|done|apply (sn_kek _ _ _ _ _ _ _ _ Hs)|done..].
      rewrite andb_true_r, Hlen. split; [done|]. split; [done|]. split; [|done].
      destruct (uses_key_wrap _ _); [|lia]. unfold wrap_pad_len. cbv zeta.
      pose proof (Nat.mod_upper_bound (length kd) 8 ltac:(lia)). case_match; lia.
    + intros [-> ->]. rewrite andb_false_r. split; [done|]. split; [done|]. split; [lia|done].
  - destruct encr; [by destruct (He eq_refl)|]. intros [-> ->]. rewrite andb_false_r.
    split; [done|]. split; [done|]. split; [simpl; lia|done].
Qed.

(** The frame, with the MIC in place. *)
Section frame.
Context (data iv mic : bytes) (keyidx : Z) (Hk : known_akm akm) (Hc : carries s (Counter g) kde encr data iv).
Notation hd := (frame_head (eapol_version conf) EAPOL_KEY_TYPE_RSN info (frame_key_length conf s (flag_set info0 WPA_KEY_INFO_KEY_TYPE))
  replay (default (replicate WPA_NONCE_LEN 0) nonce) iv (default (replicate WPA_KEY_RSC_LEN 0) rsc)
  (Z.of_nat (95 + length data))).
Definition with_mic : bytes := hd ++ mic ++ WPA_PUT_BE16 (Z.of_nat (length data)) ++ data.

Lemma sent_fields : fields_ok replay (default (replicate WPA_NONCE_LEN 0) nonce) iv (default (replicate WPA_KEY_RSC_LEN 0) rsc).
Proof.
  destruct (carries_shape data iv Hk Hc) as (_ & _ & _ & Hi & Hiw). split; [apply next_counter|apply Hs|by split|apply Hs].
Qed.
Lemma head_len : length hd = mic_offset.
Proof. apply length_head, sent_fields. Qed.

Lemma sent_frame_form :
  sent_frame conf s info0 rsc nonce keyidx encr (wpa_mic_len akm (pmk_len s)) room data iv =
  hd ++ replicate 16 0 ++ WPA_PUT_BE16 (Z.of_nat (length data)) ++ data.
Proof.
  destruct (carries_shape data iv Hk Hc) as (Hl & _). unfold sent_frame. rewrite frame_info, <- Hl, Nat.sub_diag, (mic_len_16 _ _ Hk).
  rewrite (sn_wpa2 _ _ _ _ _ _ _ _ Hs), (bool_decide_eq_true_2 (WPA_VERSION_WPA2 = WPA_VERSION_WPA2)) by done.
  rewrite frame_split by apply sent_fields. rewrite length_replicate. cbn [replicate]. rewrite app_nil_r.
  done.
Qed.

Lemma wf_base : fragment_ok (hd ++ replicate 16 0 ++ WPA_PUT_BE16 (Z.of_nat (length data)) ++ data).
Proof.
  destruct (carries_shape data iv Hk Hc) as (_ & Hw & Hl & _). split.
  - apply wf_bytes_app. split; [apply wf_head; [apply sent_fields|unfold is_byte, EAPOL_KEY_TYPE_RSN; lia]|].
    apply wf_bytes_app. split; [by apply (wf_bytes_replicate 16)|]. apply wf_bytes_app. split; [apply wf_BE16|done].
  - rewrite !length_app, head_len, length_replicate, BE16_length. unfold mic_offset, sizeof_hdr, sizeof_key. lia.
Qed.

Context (Hmic : wpa_eapol_key_mic CONFIG_SAE (kck (PTK s)) (kck_len (PTK s)) akm ver
  (hd ++ replicate 16 0 ++ WPA_PUT_BE16 (Z.of_nat (length data)) ++ data) = Some mic).
Lemma mic_16 : length mic = 16%nat.
Proof.
  destruct (sn_kck _ _ _ _ _ _ _ _ Hs) as [H1 H2]. refine (key_mic_length CONFIG_SAE _ _ _ _ _ _ H1 wf_base _ H2 Hmic).
  intros Hnil. apply (f_equal length) in Hnil. rewrite length_app, head_len in Hnil. done.
Qed.

(** The station reads the fields as they were written. *)
Lemma reads_length : length with_mic = (99 + length data)%nat.
Proof. unfold with_mic. rewrite !length_app, head_len, mic_16, BE16_length. unfold mic_offset, sizeof_hdr, sizeof_key. lia. Qed.
Lemma reads_body_length : WPA_GET_BE16 (drop 2 with_mic) = Z.of_nat (95 + length data).
Proof. destruct (carries_shape data iv Hk Hc) as (_ & _ & Hl & _). apply head_length. lia. Qed.
Lemma reads_info : key_info with_mic = info.
Proof.
  apply head_info. pose proof (protected_flags info0 ver encr (sn_info _ _ _ _ _ _ _ _ Hs) (key_version_range s)) as H.
  unfold info_reads_back in H. repeat (apply andb_prop in H as [H ?]). apply Z.leb_le in H.
  match goal with K : (_ <? _) = true |- _ => apply Z.ltb_lt in K end. done.
Qed.
Lemma reads_data_length : key_data_length 16 with_mic = length data.
Proof.
  destruct (carries_shape data iv Hk Hc) as (_ & _ & Hl & _). unfold key_data_length, with_mic.
  rewrite app_assoc, BE16_field; [by rewrite Nat2Z.id|lia|]. by rewrite length_app, head_len, mic_16.
Qed.
Lemma reads_data : sub (mic_offset + 16 + 2) (length data) with_mic = data.
Proof.
  unfold with_mic. rewrite !app_assoc. apply sub_last; [|done].
  by rewrite !length_app, head_len, mic_16, BE16_length.
Qed.

(** The MIC verifies under the key it was computed with. *)
Lemma verifies_sent v : WpaSupp.key_mgmt v = akm -> WpaSupp.mic_matches CONFIG_SAE v (PTK s) ver with_mic = true.
Proof.
  intros Ha. unfold WpaSupp.mic_matches. cbv zeta. rewrite Ha, (mic_len_16 _ _ Hk). unfold with_mic.
  rewrite (memcpy_mid mic_offset) by (try apply head_len; rewrite length_replicate; symmetry; apply mic_16).
  rewrite Hmic. rewrite (sub_field mic_offset 16 _ mic) by (apply head_len || apply mic_16).
  unfold same. by apply bool_decide_eq_true.
Qed.

Lemma known_ptk v v' : shares_key s newest v ->
  WpaSupp.wpa_supplicant_verify_eapol_key_mic CONFIG_SAE v ver with_mic = (0, v') ->
  WpaSupp.ptk_set v' = true /\ WpaSupp.ptk v' = PTK s /\ WpaSupp.tptk_set v' = false /\
  WpaSupp.key_mgmt v' = akm /\ WpaSupp.proto v' = WpaSupp.WPA_PROTO_RSN /\
  WpaSupp.rx_replay_counter v' = replay_counter with_mic /\ WpaSupp.rx_replay_counter_set v' = true.
Proof.
  intros Hv. unfold WpaSupp.wpa_supplicant_verify_eapol_key_mic.
  pose proof (verifies_sent v (sh_akm _ _ _ Hv)) as Hm.
  destruct (sh_ptk _ _ _ Hv) as [ [Ht Hp]|(Ht & Hs' & Hp)]; rewrite Ht.
  - rewrite Hp, Hm. cbn [andb]. cbn [orb negb]. intros [= <-]. destruct Hv. by destruct v.
  - cbn [andb]. rewrite Hs', Hp, Hm. cbn [andb orb negb]. intros [= <-]. destruct Hv. by destruct v.
Qed.
Lemma verified v : shares_key s newest v ->
  exists v', WpaSupp.wpa_supplicant_verify_eapol_key_mic CONFIG_SAE v ver with_mic = (0, v').
Proof.
  intros Hv. unfold WpaSupp.wpa_supplicant_verify_eapol_key_mic.
  pose proof (verifies_sent v (sh_akm _ _ _ Hv)) as Hm.
  destruct (sh_ptk _ _ _ Hv) as [ [Ht Hp]|(Ht & Hs' & Hp)]; rewrite Ht.
  - rewrite Hp, Hm. by eexists.
  - cbn [andb]. rewrite Hs', Hp, Hm. by eexists.
Qed.
End frame.
End received.

Lemma info_read info0 ver encr : info_reads_back info0 ver encr = true ->
  let info := with_encr info0 ver encr in
  Z.land info WPA_KEY_INFO_TYPE_MASK = ver /\ flag_set info WPA_KEY_INFO_MIC = true /\
  flag_set info WPA_KEY_INFO_ACK = true /\
  flag_set info WPA_KEY_INFO_KEY_TYPE = flag_set info0 WPA_KEY_INFO_KEY_TYPE /\
  flag_set info WPA_KEY_INFO_ENCR_KEY_DATA = encr /\ flag_set info WPA_KEY_INFO_SMK_MESSAGE = false /\
  flag_set info WPA_KEY_INFO_REQUEST = false /\ flag_set info WpaSupp.WPA_KEY_INFO_KEY_INDEX_MASK = false /\
  flag_set info (Z.lor WPA_KEY_INFO_MIC WPA_KEY_INFO_ENCR_KEY_DATA) = true.
Proof.
  unfold info_reads_back. cbv zeta. intros H. repeat (apply andb_prop in H as [H ?]).
  repeat match goal with
  | K : negb _ = true |- _ => apply negb_true_iff in K
  | K : (_ =? _) = true |- _ => apply Z.eqb_eq in K
  | K : eqb _ _ = true |- _ => apply eqb_prop in K
  end. by repeat split.
Qed.

Section receive.
Context {C : Crypto} {L : CryptoLaws C} {E : WpaEnv} (CONFIG_SAE : bool) (conf : wpa_auth_config) (os_malloc : nat -> bool).
Context (Hmalloc : forall n, os_malloc n = true).

(** The message a protected frame is, and what the station gets of its key data. *)
Definition delivered_as (info0 : Z) : bytes -> Z -> bytes -> WpaSupp.delivered :=
  if flag_set info0 WPA_KEY_INFO_KEY_TYPE then WpaSupp.process_3_of_4 else WpaSupp.process_1_of_2.
Definition received_key_data (s : wpa_state_machine) (kde : option bytes) (encr : bool) : bytes :=
  if encr then plain_key_data (key_version s) (wpa_key_mgmt s) (default [] kde) else default [] kde.

Lemma dispatched s g newest info0 rsc nonce kde encr v' buf mic_len kd ver :
  sendable s g newest info0 rsc nonce kde encr -> key_info buf = with_encr info0 (key_version s) encr -> mic_len = 16%nat ->
  WpaSupp.rx_dispatch mic_len buf ver kd v' = (1, Some (delivered_as info0 buf ver kd), v').
Proof.
  intros Hs Hi ->. destruct (info_read _ _ _ (protected_flags info0 _ encr (sn_info _ _ _ _ _ _ _ _ Hs) (key_version_range s)))
    as (F1 & F2 & F3 & F4 & F5 & F6 & F7 & F8 & F9).
  unfold WpaSupp.rx_dispatch, delivered_as. cbv zeta. rewrite Hi, F4, F8, F9, F2.
  by destruct (flag_set info0 WPA_KEY_INFO_KEY_TYPE).
Qed.

(** What follows the checks of the frame. *)
Lemma protected_received s g newest info0 rsc nonce kde encr data iv mic v :
  sendable s g newest info0 rsc nonce kde encr -> known_akm (wpa_key_mgmt s) ->
  carries s (Counter g) kde encr data iv -> shares_key s newest v ->
  let buf := with_mic conf s info0 rsc nonce encr data iv mic in
  wpa_eapol_key_mic CONFIG_SAE (kck (PTK s)) (kck_len (PTK s)) (wpa_key_mgmt s) (key_version s)
    (sent_frame conf s info0 rsc nonce 0 encr (wpa_mic_len (wpa_key_mgmt s) (pmk_len s))
       (key_data_room (key_version s) (wpa_key_mgmt s) (wpa_mic_len (wpa_key_mgmt s) (pmk_len s))
         (length (default [] kde)) encr) data iv) = Some mic ->
  exists v', WpaSupp.rx_protected CONFIG_SAE os_malloc 16 (length data) buf v =
    (1, Some (delivered_as info0 buf (key_version s) (received_key_data s kde encr)), v') /\
    WpaSupp.ptk_set v' = true /\ WpaSupp.ptk v' = PTK s /\ WpaSupp.tptk_set v' = false /\
    WpaSupp.rx_replay_counter v' = replay_counter buf /\ WpaSupp.rx_replay_counter_set v' = true.
Proof.
  intros Hs Hk Hc Hv buf Hmic. rewrite (sent_frame_form conf s g newest) in Hmic by done.
  pose proof (reads_info conf s g newest _ _ _ _ _ Hs data iv mic) as Hi. fold buf in Hi.
  destruct (info_read _ _ _ (protected_flags info0 _ encr (sn_info _ _ _ _ _ _ _ _ Hs) (key_version_range s)))
    as (F1 & F2 & F3 & F4 & F5 & F6 & F7 & F8 & F9).
  destruct (verified CONFIG_SAE conf s g newest _ _ _ _ _ Hs data iv mic Hk Hc Hmic v Hv) as [v' Hv'].
  destruct (known_ptk CONFIG_SAE conf s g newest _ _ _ _ _ Hs data iv mic Hk Hc Hmic v v' Hv Hv') as (P1 & P2 & P3 & P4 & P5 & P6 & P7).
  fold buf in Hv', P6. exists v'. split; [|done].
  unfold WpaSupp.rx_protected. cbv zeta. rewrite Hi, F1, F2, Hv'. cbn [Z.eqb negb]. rewrite P5, F5.
  pose proof (reads_data CONFIG_SAE conf s g newest _ _ _ _ _ Hs data iv mic Hk Hc Hmic) as Hrd. fold buf in Hrd. rewrite Hrd.
  change ((WpaSupp.WPA_PROTO_RSN =? WpaSupp.WPA_PROTO_RSN) || (WpaSupp.WPA_PROTO_RSN =? WpaSupp.WPA_PROTO_OSEN)) with true.
  cbn [andb Nat.eqb negb]. rewrite andb_true_r.
  assert (Hd : (if encr then WpaSupp.wpa_supplicant_decrypt_key_data os_malloc v' (key_version s) (WpaSupp.key_iv buf) data else Some data) =
    Some (received_key_data s kde encr)).
  { unfold received_key_data. unfold carries in Hc. pose proof (sn_encr _ _ _ _ _ _ _ _ Hs) as He. destruct encr.
    - destruct kde as [kd|]; [|by destruct (He eq_refl)]. assert (Hiv : WpaSupp.key_iv buf = iv).
      { unfold buf, with_mic. apply head_iv. by apply (sent_fields s g newest info0 rsc nonce (Some kd) true Hs data). }
      rewrite Hiv. destruct Hc as [c Hc]. destruct (key_version_wrap s Hk).
      apply (key_data_recovered os_malloc _ _ (PTK s) (Counter g) kd data iv c); try done; apply Hs.
    - destruct kde; by destruct Hc as [-> _]. }
  destruct encr.
  - rewrite Hd. by apply (dispatched s g newest _ rsc nonce kde true).
  - injection Hd as ->. by apply (dispatched s g newest _ rsc nonce kde false).
Qed.

(** The checks of the frame before that. *)
Lemma checks_passed s g newest info0 rsc nonce kde encr data iv mic v :
  sendable s g newest info0 rsc nonce kde encr -> known_akm (wpa_key_mgmt s) ->
  carries s (Counter g) kde encr data iv -> shares_key s newest v ->
  wpa_eapol_key_mic CONFIG_SAE (kck (PTK s)) (kck_len (PTK s)) (wpa_key_mgmt s) (key_version s)
    (sent_frame conf s info0 rsc nonce 0 encr (wpa_mic_len (wpa_key_mgmt s) (pmk_len s))
       (key_data_room (key_version s) (wpa_key_mgmt s) (wpa_mic_len (wpa_key_mgmt s) (pmk_len s))
         (length (default [] kde)) encr) data iv) = Some mic ->
  let buf := with_mic conf s info0 rsc nonce encr data iv mic in
  replay_counter buf = from_option counter [] (head (next_replay (key_replay s))) /\
  key_nonce buf = default (replicate WPA_NONCE_LEN 0) nonce /\
  WpaSupp.wpa_sm_rx_eapol CONFIG_SAE os_malloc buf v = WpaSupp.rx_protected CONFIG_SAE os_malloc 16 (length data) buf v.
Proof.
  intros Hs Hk Hc Hv Hmic buf. rewrite (sent_frame_form conf s g newest) in Hmic by done.
  pose proof (reads_length CONFIG_SAE conf s g newest _ _ _ _ _ Hs data iv mic Hk Hc Hmic) as Hlen.
  pose proof (reads_data_length CONFIG_SAE conf s g newest _ _ _ _ _ Hs data iv mic Hk Hc Hmic) as Hkl. fold buf in Hkl.
  pose proof (sent_fields s g newest _ _ _ _ _ Hs data iv Hk Hc) as Hf.
  pose proof (reads_info conf s g newest _ _ _ _ _ Hs data iv mic) as Hi. fold buf in Hi, Hlen.
  pose proof (reads_body_length conf s g newest _ _ _ _ _ Hs data iv mic Hk Hc) as Hb. fold buf in Hb.
  destruct (info_read _ _ _ (protected_flags info0 _ encr (sn_info _ _ _ _ _ _ _ _ Hs) (key_version_range s)))
    as (F1 & F2 & F3 & F4 & F5 & F6 & F7 & F8 & F9).
  assert (Hrc : replay_counter buf = from_option counter [] (head (next_replay (key_replay s)))) by (by apply head_replay).
  split; [exact Hrc|]. split; [by apply head_nonce|].
  destruct (next_counter s g newest _ _ _ _ _ Hs) as [Hok Hnew].
  unfold WpaSupp.wpa_sm_rx_eapol. cbv zeta. rewrite (sh_akm _ _ _ Hv), (mic_len_16 _ _ Hk), Hlen, Hb, Nat2Z.id, Hmalloc.
  change (get buf 1) with IEEE802_1X_TYPE_EAPOL_KEY.
  assert (Ht : key_type buf = EAPOL_KEY_TYPE_RSN) by (by apply head_type_field).
  rewrite (take_ge buf) by (rewrite Hlen; unfold sizeof_hdr; lia). rewrite Ht, Hi, F1, F6, F3, F7, Hrc.
  rewrite (version_accepted s v) by (apply Hs || apply Hv). rewrite Hkl.
  assert (Hrep : WpaSupp.rx_replay_counter_set v &&
    (os_memcmp WPA_REPLAY_COUNTER_LEN (from_option counter [] (head (next_replay (key_replay s)))) (WpaSupp.rx_replay_counter v) <=? 0) = false).
  { destruct (WpaSupp.rx_replay_counter_set v) eqn:Hset; [|done]. destruct (sh_replay _ _ _ Hv Hset) as [ [R1 R2] R3].
    destruct Hok. rewrite os_memcmp_decode by done. cbn [andb]. apply Z.leb_gt. lia. }
  rewrite Hrep.
  destruct (Nat.ltb_spec (99 + length data) (sizeof_hdr + (sizeof_key + 16 + 2))); [unfold sizeof_hdr, sizeof_key in *; lia|].
  destruct (Nat.ltb_spec (99 + length data - sizeof_hdr) (95 + length data)); [unfold sizeof_hdr, sizeof_key in *; lia|].
  destruct (Nat.ltb_spec (95 + length data) (sizeof_key + 16 + 2)); [unfold sizeof_hdr, sizeof_key in *; lia|].
  destruct (Nat.ltb_spec (95 + length data - (sizeof_key + 16 + 2)) (length data)); [unfold sizeof_hdr, sizeof_key in *; lia|].
  done.
Qed.

(** C22: a protected frame the access point sends is received by the station that has
    derived the same PTK.  Whatever [__wpa_send_eapol] sends with the MIC flag, the
    station's [wpa_sm_rx_eapol] accepts: the lengths, the descriptor version, the
    replay counter and the MIC are right; the key data it hands on, decrypted, is
    what was to be sent (padded, where it is wrapped); the nonce is read back; and
    the answer with the frame's replay counter is one the access point waits for. *)
Theorem sent_frame_received w newest info0 rsc nonce kde keyidx encr buf enc rest v :
  let s := sm w in
  let w' := __wpa_send_eapol CONFIG_SAE conf info0 rsc nonce kde keyidx encr 0 w in
  sendable s (group w) newest info0 rsc nonce kde encr -> shares_key s newest v ->
  events w' = SendEapol buf enc :: rest ->
  exists v',
    WpaSupp.wpa_sm_rx_eapol CONFIG_SAE os_malloc buf v =
      (1, Some (delivered_as info0 buf (key_version s) (received_key_data s kde encr)), v') /\
    WpaSupp.ptk_set v' = true /\ WpaSupp.ptk v' = PTK s /\ WpaSupp.tptk_set v' = false /\
    WpaSupp.rx_replay_counter v' = replay_counter buf /\ WpaSupp.rx_replay_counter_set v' = true /\
    key_nonce buf = default (replicate WPA_NONCE_LEN 0) nonce /\
    wpa_replay_counter_valid (key_replay (sm w')) (replay_counter buf) = true.
Proof.
  intros s w' Hs Hv He.
  assert (Hm : flag_set (frame_key_info s info0 (key_version s) keyidx encr) WPA_KEY_INFO_MIC = true).
  { rewrite (frame_info s (group w) newest) with (1 := Hs).
    apply (info_read _ _ _ (protected_flags info0 _ encr (sn_info _ _ _ _ _ _ _ _ Hs) (key_version_range s))). }
  destruct (send_spec CONFIG_SAE conf info0 rsc nonce kde keyidx encr w buf enc rest w' eq_refl Hm He)
    as (Hr & data & iv & mic & Hc & Hmic & Hb). cbv zeta in Hmic, Hb. fold s in Hr, Hc, Hmic, Hb.
  assert (Hk : known_akm (wpa_key_mgmt s)) by exact (key_mic_known CONFIG_SAE _ _ _ _ _ _ (key_version_akm s) Hmic).
  assert (Hf : forall k, sent_frame conf s info0 rsc nonce k encr (wpa_mic_len (wpa_key_mgmt s) (pmk_len s))
    (key_data_room (key_version s) (wpa_key_mgmt s) (wpa_mic_len (wpa_key_mgmt s) (pmk_len s)) (length (default [] kde)) encr) data iv = _)
    by (intros k; exact (sent_frame_form conf s (group w) newest info0 rsc nonce kde encr Hs data iv k Hk Hc)).
  assert (Hm16 : length mic = 16%nat).
  { rewrite Hf in Hmic. exact (mic_16 CONFIG_SAE conf s (group w) newest _ _ _ _ _ Hs data iv mic Hk Hc Hmic). }
  assert (Hbuf : buf = with_mic conf s info0 rsc nonce encr data iv mic).
  { rewrite Hb, Hf. unfold with_mic. apply memcpy_mid; [|by rewrite length_replicate].
    by apply (head_len conf s (group w) newest info0 rsc nonce kde encr Hs data iv). }
  rewrite (Hf keyidx), <- (Hf 0) in Hmic.
  destruct (checks_passed s (group w) newest info0 rsc nonce kde encr data iv mic v Hs Hk Hc Hv Hmic) as (Hrc & Hn & Hrx).
  destruct (protected_received s (group w) newest info0 rsc nonce kde encr data iv mic v Hs Hk Hc Hv Hmic) as (v' & Hp & Hrest).
  rewrite <- Hbuf in Hrc, Hn, Hrx, Hp, Hrest. exists v'. rewrite Hrx, Hp, Hn, Hr, Hrc in *.
  destruct Hrest as (P1 & P2 & P3 & P4 & P5). split; [done|]. split; [done|]. split; [done|]. split; [done|].
  split; [done|]. split; [done|]. split; [done|].
  destruct (replay_ok_sent _ _ (proj1 (sn_replay _ _ _ _ _ _ _ _ Hs)) (proj2 (sn_replay _ _ _ _ _ _ _ _ Hs))) as [_ (c & l' & Hl & _)].
  destruct (key_replay s) as [|c0 l0] eqn:Ekr; [done|]. cbn [next_replay head from_option wpa_replay_counter_valid valid counter negb].
  unfold same. by rewrite bool_decide_eq_true_2.
Qed.
End receive.
