(* ===== verification/WpaExamples.v ===== *)
(** * The WPA authenticator: a handshake

    A small WPA2-Personal network with one station, in which the definitions are
    evaluated: the whole 4-way handshake, and the theorems at its inputs. *)

From S2P Require Import Prelude Bytes HashSpec Hmac AesInterface AesInternal AesWrap Rc4.
From S2P Require Import WpaKeys WpaState WpaFrame WpaPsk WpaGroup WpaPtk WpaAuth WpaProofs WpaRun WpaLoop.
From S2P Require Import WpaInv WpaSystem WpaSafety WpaTheorems WpaReplay WpaExchange.
From S2P Require WpaSupp.

(** ** The network *)

Definition counted (n : nat) (from : Z) : bytes := map (fun i => u8 (Z.of_nat i * 7 + from)) (seq 0 n).

#[local] Existing Instance internal_crypto.

(** Everything succeeds; the random bytes depend on what has happened before. *)
Definition friendly_env : WpaEnv := {|
  random_get_bytes := fun ev use n => (true, counted n (Z.of_nat (length ev)));
  os_alloc := fun _ => true; random_pool_ready := fun _ => true;
  wpa_get_ntp_timestamp := fun _ => replicate 8 1; cb_set_key := fun _ => 0;
  cb_get_seqnum := fun _ => Some (replicate 8 2); cb_get_msk := fun _ => None; cb_update_vlan := fun _ => 0;
  cb_mic_failure_report := fun _ => 0; other_stations := fun _ => 0; group_address := replicate 8 0 |}.
(** The random number generator never delivers. *)
Definition exhausted_env : WpaEnv := {|
  random_get_bytes := fun ev use n => (false, replicate n 0);
  os_alloc := fun _ => true; random_pool_ready := fun _ => true;
  wpa_get_ntp_timestamp := fun _ => replicate 8 1; cb_set_key := fun _ => 0;
  cb_get_seqnum := fun _ => Some (replicate 8 2); cb_get_msk := fun _ => None; cb_update_vlan := fun _ => 0;
  cb_mic_failure_report := fun _ => 0; other_stations := fun _ => 0; group_address := replicate 8 0 |}.

(** The RSN element: CCMP for both, PSK. *)
Definition rsn_element : bytes :=
  [48; 20; 1; 0; 0; 15; 172; 4; 1; 0; 0; 15; 172; 4; 1; 0; 0; 15; 172; 2; 0; 0].
Definition home_conf : wpa_auth_config := {|
  conf_wpa := 2; wpa_group_cipher := WPA_CIPHER_CCMP; wpa_group_rekey := 0; wpa_gmk_rekey := 0;
  wpa_strict_rekey := false; wpa_ptk_rekey := 0; wpa_deny_ptk0_rekey := false; wpa_group_update_count := 4;
  wpa_pairwise_update_count := 4; wpa_disable_eapol_key_retries := false; eapol_version := 2;
  tx_status := true; ieee80211w := false; beacon_prot := false; group_mgmt_cipher := 32; disable_gtk := false;
  secure_ltf := false; WpaState.transition_disable := 0; force_kdk_derivation := false;
  auth_addr := example_aa; auth_wpa_ie := rsn_element |}.
(** Two passphrases; the station uses the second. *)
Definition home_psks : psk_config := {|
  wpa_psk := [
    {| psk_group := false; psk_addr := example_spa; psk_p2p_dev_addr := []; psk_key := replicate 32 9;
       psk_vlan_id := 0 |};
    {| psk_group := true; psk_addr := []; psk_p2p_dev_addr := []; psk_key := example_pmk; psk_vlan_id := 0 |}];
  sta_psk := []; sta_auth_sae := false; sta_sae_pmk := None; ssid := [] |}.

Definition new_group : wpa_group :=
  mk_group 0 true 0 false 16 0 0 true (counted 32 3) WPA_GROUP_GTK_INIT (counted 32 3)
    (replicate 2 (replicate 32 0)) (replicate 32 0) false false false
    (replicate 2 (replicate 32 0)) (replicate 2 (replicate 32 0)) 0 0 0 0.
Definition no_station : wpa_state_machine :=
  mk_sm [] [] WPA_PTK_INITIALIZE WPA_PTK_GROUP_IDLE false false
    false false false 0 0 0 false false false false false false
    [] [] [] [] [] 0 [] zero_ptk 0 false false false false 0 false [] []
    false false false false None 0 false false false false false false
    false false false false [] false None None WPA_VERSION_NO_WPA 0 0 None 0 0 false.
Definition no_world : world := mk_world no_station new_group 0 0 false false [] [] false false.
(** The group has its keys, the station is attached. *)
Definition attached_world : world :=
  let w := (wpa_init_keys (E := friendly_env) home_conf (fun w => (0, w)) no_world).2 in
  match wpa_auth_sta_init example_spa None w with Some s => w <| sm := s |> | None => w end.

Notation net_step E := (wpa_sm_step (E := E) false home_conf home_psks []).
Notation net_run := (run (E := friendly_env) false home_conf home_psks [] (fun _ => False)).
Notation net_exec := (exec (E := friendly_env) false home_conf home_psks []).

(** ** The station *)

(** The frame sent last. *)
Fixpoint last_frame (l : list event) : bytes :=
  match l with [] => [] | SendEapol d _ :: _ => d | _ :: l => last_frame l end.
Definition peer_ptk (f : bytes) : wpa_ptk :=
  (wpa_pmk_to_ptk example_pmk (str "Pairwise key expansion") example_spa example_aa example_snonce (key_nonce f)
     zero_ptk WPA_KEY_MGMT_PSK WPA_CIPHER_CCMP None 0).2.
(** The answer to a frame. *)
Definition reply (f : bytes) (ptk : wpa_ptk) (info : Z) (nonce kd : bytes) : bytes :=
  let b := eapol_key_frame 2 2 info 0 (replay_counter f) nonce (replicate 16 0) (replicate 8 0) (replicate 16 0)
             (Z.of_nat (length kd)) kd in
  match wpa_eapol_key_mic false (kck ptk) (kck_len ptk) WPA_KEY_MGMT_PSK (Z.land info 7) b with
  | Some m => memcpy b mic_offset m | None => b end.

(** ** The handshake *)

Definition negotiated : wpa_input :=
  Negotiated WPA_VERSION_WPA2 WPA_CIPHER_CCMP WPA_KEY_MGMT_PSK (Some rsn_element) None false false None.
Definition sent0 : world := net_exec negotiated attached_world.
Definition sent1 : world := net_exec (Associate false) sent0.
Definition message1 : bytes := last_frame (events sent1).
Definition message2 : bytes := reply message1 (peer_ptk message1) 0x10a example_snonce rsn_element.
Definition sent3 : world := net_exec (Receive message2) sent1.
Definition message3 : bytes := last_frame (events sent3).
Definition message4 : bytes := reply message3 (peer_ptk message1) 0x30a (replicate 32 0) [].
Notation finished := (net_exec (Receive message4) sent3).

(** What the state, the timers, the port and the kind of the messages are after each frame. *)
Example handshake_completes :
  map (fun w => (wpa_ptk_state (sm w), timers w)) [sent1; sent3; finished] =
    [(WPA_PTK_PTKSTART, [(T_send_eapol, 100)]); (WPA_PTK_PTKINITNEGOTIATING, [(T_send_eapol, 100)]);
     (WPA_PTK_PTKINITDONE, [])] /\
  Pair (sm finished) = true /\ has_GTK (sm finished) = true /\
  bool_decide (tk (PTK (sm finished)) = tk (peer_ptk message1)) = true /\ freed finished = false /\ fault finished = false.
Proof. vm_compute. repeat split. Qed.

(** ** The theorems at the handshake *)

Lemma friendly_nonces : nonces_available (E := friendly_env).
Proof. intros ev b H. discriminate H. Qed.
Lemma station_attached : attached example_spa attached_world.
Proof. split; [exists None; vm_compute; reflexivity|]. vm_compute. repeat split; reflexivity. Qed.

Lemma negotiated_enabled w :
  freed w = false -> fault w = false -> enabled (fun _ => False) negotiated w.
Proof. intros Hf Hl. split; [done|]. split; [done|]. split; [|done]. intros n. vm_compute. discriminate. Qed.
Lemma run_on l w i : net_run attached_world l w -> enabled (fun _ => False) i w ->
  net_run attached_world (l ++ [i]) (net_exec i w).
Proof. apply run_input. Qed.
Lemma alive w : freed w || fault w = false -> freed w = false /\ fault w = false.
Proof. by destruct (freed w), (fault w). Qed.
Lemma run_sent3 : net_run attached_world ([negotiated; Associate false] ++ [Receive message2]) sent3.
Proof.
  unfold sent3. apply run_on; [|destruct (alive sent1) as [Ha Hb]; [vm_compute; reflexivity|exact (conj Ha (conj Hb I))] ].
  change [negotiated; Associate false] with ([negotiated] ++ [Associate false]).
  unfold sent1. apply run_on; [|destruct (alive sent0) as [Ha Hb]; [vm_compute; reflexivity|exact (conj Ha (conj Hb I))] ].
  change [negotiated] with ([] ++ [negotiated]). unfold sent0. apply run_on; [apply run_start|].
  destruct (alive attached_world); [vm_compute; reflexivity|]. by apply negotiated_enabled.
Qed.

(** The event with a given index is one of a step. *)
Lemma happens_at w w' k e :
  events w' !! k = Some e -> (k < length (events w') - length (events w))%nat ->
  drop (length (events w') - length (events w)) (events w') = events w ->
  happens w w' (drop (S k) (events w')) e.
Proof.
  intros He Hk Hd. set (n := (length (events w') - length (events w))%nat) in *.
  assert (Es : drop (S k) (events w') = take (n - S k) (drop (S k) (events w')) ++ events w).
  { rewrite <- (take_drop (n - S k) (drop (S k) (events w'))) at 1. f_equal. rewrite drop_drop, <- Hd. f_equal. lia. }
  exists (take k (events w')), (take (n - S k) (drop (S k) (events w'))). split; [|done].
  rewrite <- Es, <- (take_drop k (events w')) at 1. f_equal. by apply drop_S.
Qed.

Definition event_at (k : nat) : event := default (Deauth 0) (events finished !! k).
Lemma finished_event k : (k < 7)%nat -> happens sent3 finished (drop (S k) (events finished)) (event_at k).
Proof.
  intros Hk.
  assert (Hl : (length (events finished) - length (events sent3) = 7)%nat) by (vm_compute; reflexivity).
  assert (Hl' : length (events finished) = 33%nat) by (vm_compute; reflexivity).
  apply happens_at; [|by rewrite Hl|rewrite Hl; vm_compute; reflexivity].
  unfold event_at. destruct (events finished !! k) eqn:He; [done|].
  apply lookup_ge_None in He. lia.
Qed.

Lemma receive4_enabled : enabled (fun _ => False) (Receive message4) sent3.
Proof. destruct (alive sent3) as [Ha Hb]; [vm_compute; reflexivity|]. exact (conj Ha (conj Hb I)). Qed.

Notation net_genuine := (genuine (E := friendly_env) home_conf home_psks (fun _ => False) (take ETH_ALEN example_spa)).


(** Message 4/4 opens the port: the fourth call before the end. *)
Lemma port_opened_authenticated_witness :
  exists data ptk n, Receive message4 = Receive data /\
    wpa_verify_key_mic false (wpa_key_mgmt (sm sent3)) n ptk data = 0 /\ net_genuine (fun _ => True) ptk.
Proof.
  apply (port_opened_authenticated false home_conf home_psks [] (fun _ => False) example_spa attached_world
           ([negotiated; Associate false] ++ [Receive message2]) sent3 (Receive message4)
           (drop 4 (events finished)) (event_at 3)).
  - exact friendly_nonces.
  - vm_compute. discriminate.
  - exact station_attached.
  - exact run_sent3.
  - exact receive4_enabled.
  - apply (finished_event 3). repeat constructor.
  - vm_compute. reflexivity.
Defined.

(** The arrival of message 2/4, as [keep_frame] leaves it to [wpa_sm_step]. *)
Definition received2 : world :=
  upd (fun s => s <| last_rx_eapol_key := Some message2 |> <| last_rx_eapol_key_len := length message2 |>
                  <| EAPOLKeyReceived := true |> <| EAPOLKeyPairwise := true |> <| EAPOLKeyRequest := false |>
                  <| SNonce := example_snonce |>) sent1.
Lemma wpa_sm_step_ends_witness :
  settled (step_loop (E := friendly_env) false home_conf home_psks [] STEP_FUEL (entering received2)) /\
  ptk_waits home_conf (sm (net_step friendly_env received2).2) = true.
Proof.
  destruct (wpa_sm_step_ends (E := friendly_env) false home_conf home_psks [] received2) as (_ & Hs & _ & Hw).
  - exact friendly_nonces.
  - vm_compute. discriminate.
  - vm_compute. reflexivity.
  - vm_compute. reflexivity.
  - intros _ _. vm_compute. reflexivity.
  - split; [exact Hs|]. apply Hw. vm_compute. reflexivity.
Defined.

(** A station asks for a new key when the random number generator has failed. *)
Lemma wpa_sm_step_endless_witness :
  changed (sm (step_loop (E := exhausted_env) false home_conf home_psks [] 1000
    (entering (wpa_request_new_ptk home_conf sent1)))) = true.
Proof.
  apply (wpa_sm_step_endless (E := exhausted_env)).
  - intros ev. reflexivity.
  - vm_compute. reflexivity.
  - vm_compute. reflexivity.
  - vm_compute. reflexivity.
  - vm_compute. reflexivity.
  - lia.
Defined.

(** Message 1/4 has been sent four times without an answer, and the timer fires again. *)
Definition unanswered : world :=
  upd (fun s => s <| TimeoutCtr := 5 |> <| TimeoutEvt := true |> <| in_step_loop := true |>) sent1.

(** Message 2/4 once more: nothing happens. *)
Lemma counters_checked s newest :
  bool_decide (Forall (fun c => length (counter c) = WPA_REPLAY_COUNTER_LEN /\ wf_bytes (counter c) /\
    be_decode (counter c) <= newest) (key_replay s ++ prev_key_replay s)) = true ->
  option_map (fun c => be_decode (counter c)) (head (key_replay s)) = Some newest -> alt_snonce_valid s = false ->
  counters_ok s newest.
Proof.
  intros Hb Hh Ha. apply bool_decide_eq_true in Hb. apply Forall_app in Hb as [H1 H2].
  assert (Hi : forall l, Forall (fun c => length (counter c) = WPA_REPLAY_COUNTER_LEN /\ wf_bytes (counter c) /\
    be_decode (counter c) <= newest) l -> Forall (fun c => counter_ok (counter c) /\ be_decode (counter c) <= newest) l).
  { intros l H. eapply Forall_impl; [exact H|]. by intros c (? & ? & ?). }
  split; [|by apply Hi|by rewrite Ha]. split; [by apply Hi|].
  destruct (key_replay s) as [|c l]; [done|]. injection Hh as Hh. by exists c, l.
Qed.

(** A group key under the PTK of the handshake, to a station that has not used the PTK yet. *)
Definition some_kde : bytes := [0xdd; 22; 0; 15; 172; 1; 1; 0] ++ counted 16 5.
Definition group_info : Z := Z.lor (Z.lor WPA_KEY_INFO_SECURE WPA_KEY_INFO_MIC) WPA_KEY_INFO_ACK.
Definition group_sent : world :=
  __wpa_send_eapol (E := friendly_env) false home_conf group_info (Some (counted 8 1)) None (Some some_kde) 1 true 0 sent3.
#[local] Existing Instances WpaSupp.supp_settable WpaSupp.set_supp_pmk_len WpaSupp.set_supp_tptk WpaSupp.set_supp_tptk_set
  WpaSupp.set_supp_rx_replay_counter_set WpaSupp.set_supp_proto WpaSupp.set_supp_pairwise_cipher
  WpaSupp.set_supp_group_cipher WpaSupp.set_supp_key_mgmt.
Definition station : WpaSupp.wpa_sm :=
  WpaSupp.wpa_sm_init <| WpaSupp.pmk_len := 32%nat |> <| WpaSupp.tptk := PTK (sm sent3) |> <| WpaSupp.tptk_set := true |>
    <| WpaSupp.rx_replay_counter_set := true |> <| WpaSupp.proto := WpaSupp.WPA_PROTO_RSN |>
    <| WpaSupp.pairwise_cipher := WPA_CIPHER_CCMP |> <| WpaSupp.group_cipher := WPA_CIPHER_CCMP |>
    <| WpaSupp.key_mgmt := WPA_KEY_MGMT_PSK |>.
Lemma bytes_checked n b : bool_decide (length b = n /\ wf_bytes b) = true -> length b = n /\ wf_bytes b.
Proof. apply bool_decide_eq_true_1. Qed.
Lemma group_sendable :
  sendable (sm sent3) (group sent3) 2 group_info (Some (counted 8 1)) None (Some some_kde) true.
Proof.
  split.
  - vm_compute. reflexivity.
  - vm_compute. reflexivity.
  - split; [|vm_compute; repeat split]. vm_compute. split; [discriminate|reflexivity].
  - apply bytes_checked. vm_compute. reflexivity.
  - apply bytes_checked. vm_compute. reflexivity.
  - split; [apply (bool_decide_eq_true_1 _); vm_compute; reflexivity|vm_compute; discriminate].
  - discriminate.
  - split; [|reflexivity]. apply (co_key (sm sent3)). apply counters_checked; vm_compute; reflexivity.
  - apply bytes_checked. vm_compute. reflexivity.
  - split; [apply fragment_ok_check; vm_compute; reflexivity|]. apply Nat.leb_le. vm_compute. reflexivity.
  - apply (bool_decide_eq_true_1 _). vm_compute. reflexivity.
Qed.
Lemma sent_frame_received_witness :
  let buf := last_frame (events group_sent) in
  exists v', WpaSupp.wpa_sm_rx_eapol false (fun _ => true) buf station =
    (1, Some (WpaSupp.process_1_of_2 buf 2 some_kde), v') /\ WpaSupp.ptk v' = PTK (sm sent3).
Proof.
  destruct (sent_frame_received (E := friendly_env) false home_conf (fun _ => true) (fun _ => eq_refl) sent3 2 group_info
    (Some (counted 8 1)) None (Some some_kde) 1 true (last_frame (events group_sent)) false (tail (events group_sent)) station)
    as (v' & H1 & _ & H2 & _).
  - exact group_sendable.
  - split; [vm_compute; reflexivity..| |].
    + left. split; reflexivity.
    + intros _. split; [apply bytes_checked; vm_compute; reflexivity|vm_compute; discriminate].
  - vm_compute. reflexivity.
  - exists v'. split; [|exact H2]. rewrite H1. vm_compute (key_version _). vm_compute (received_key_data _ _ _).
    reflexivity.
Defined.
