(* ===== verification/WpaStaExamples.v ===== *)
(** * The handshake between hostapd and wpa_supplicant

    The two models at work together: the network of [WpaExamples] and a station with
    the same passphrase exchange the four messages, and install the same keys.  Then
    the witnesses of the theorems on the station, and what modelling it showed. *)

From Stdlib Require Import Sorted.
From S2P Require Import Prelude Bytes HashSpec Hmac AesInterface AesInternal AesWrap Rc4 WpaKeys WpaFrame WpaSupp WpaSta.
From S2P Require Import WpaStaProofs WpaStaSafety WpaStaAccess WpaStaGroup.
From S2P Require WpaExamples WpaSystem WpaState WpaPtk WpaKde.

#[local] Existing Instance internal_crypto.

(** The station's surroundings: everything succeeds. *)
Definition station_env : SuppEnv := {|
  eapol_version := 1; random_get_bytes := fun ev n => (true, example_snonce); os_alloc := fun _ _ => true;
  cb_get_network_ctx := fun _ => true; cb_get_bssid := fun _ => Some example_aa; cb_set_key := fun _ => 0;
  cb_ether_send := fun _ => 0; cb_get_beacon_ie := fun _ => None; cb_eapol_get_key := fun _ _ => None;
  cb_pmksa_get := fun _ => None; cb_pmksa_add := fun _ => ([], None); cb_candidates := fun _ => false |}.
#[local] Existing Instance station_env.

(** The calls of an association. *)
Definition setup (protocol : Z) (wpa rsn : option bytes) : list sta_input :=
  [SetParam WPA_PARAM_PROTO protocol; SetParam WPA_PARAM_PAIRWISE WPA_CIPHER_CCMP; SetParam WPA_PARAM_GROUP WPA_CIPHER_CCMP;
   SetParam WPA_PARAM_KEY_MGMT WPA_KEY_MGMT_PSK; OwnAddr example_spa;
   OwnElements (match rsn with Some ie => Some ie | None => wpa end) None; ApElements wpa rsn None;
   SetPmk example_pmk None; Assoc example_aa].
Definition start (protocol : Z) (wpa rsn : option bytes) : world :=
  sta_run false (setup protocol wpa rsn) (mk_world wpa_sm_init WPA_ASSOCIATED []).
Definition associated : world := start WPA_PROTO_RSN None (Some WpaExamples.rsn_element).

Definition receive (f : bytes) (w : world) : world := sta_exec false (RxEapol example_aa f) w.
Fixpoint last_sent (l : list sta_event) : bytes :=
  match l with [] => [] | EtherSend _ d :: _ => d | _ :: l => last_sent l end.
Notation ap_receive f w := (WpaExamples.net_exec (WpaSystem.Receive f) w).

(** The four messages. *)
Definition sta1 : world := receive WpaExamples.message1 associated.
Definition ap2 := ap_receive (last_sent (events sta1)) WpaExamples.sent1.
Definition message3 : bytes := WpaExamples.last_frame (WpaState.events ap2).
Definition sta3 : world := receive message3 sta1.
Definition ap4 := ap_receive (last_sent (events sta3)) ap2.

Definition is_port_valid (e : sta_event) : bool := match e with PortValid => true | _ => false end.

(** Both sides end with the same pairwise and group key; the station has installed
    each of them once, and its port is open. *)
Example handshake_interoperates :
  WpaState.wpa_ptk_state (WpaState.sm ap4) = WpaState.WPA_PTK_PTKINITDONE /\
  ptk_installs (events sta3) = [take 16 (tk (WpaState.PTK (WpaState.sm ap4)))] /\
  gtk_installs WPA_ALG_CCMP (events sta3) = [take 16 (nth 0 (WpaState.GTK (WpaState.group ap4)) [])] /\
  wpa_state sta3 = WPA_COMPLETED /\ existsb is_port_valid (events sta3) = true.
Proof. vm_compute. repeat split. Qed.

(** Message 3/4 sent again is answered, but nothing is installed again. *)
Definition again : bytes :=
  let f := memcpy (memcpy message3 9 [0; 0; 0; 0; 0; 0; 0; 9]) mic_offset (replicate 16 0) in
  let p := ptk (sm sta3) in
  memcpy f mic_offset (default [] (wpa_eapol_key_mic false (kck p) (kck_len p) WPA_KEY_MGMT_PSK 2 f)).
Example message_3_again :
  let w := receive again sta3 in
  wpa_state w = WPA_COMPLETED /\ ptk_installs (events w) = ptk_installs (events sta3) /\
  gtk_installs WPA_ALG_CCMP (events w) = gtk_installs WPA_ALG_CCMP (events sta3) /\
  length (omap (fun e => match e with EtherSend _ d => Some d | _ => None end) (events w)) = 3%nat.
Proof. vm_compute. repeat split. Qed.

(** ** Witnesses *)

Definition new_events (w w' : world) : list sta_event := take (length (events w') - length (events w)) (events w').


Lemma gtk_not_reinstalled_witness :
  Sorted (fun k1 k2 => k1 <> k2) (gtk_installs WPA_ALG_CCMP (events (sta_run false
    [RxEapol example_aa WpaExamples.message1; RxEapol example_aa message3; RxEapol example_aa again]
    (wpa_sm_notify_assoc example_aa (associated <| events := [] |>))))).
Proof.
  apply (gtk_not_reinstalled false example_aa associated); [discriminate|reflexivity].
Defined.

(** ** Findings *)

(** With WPA, not RSN, message 3/4 is accepted without a MIC when it claims that its
    key data is encrypted: whoever knows the nonce of message 1/4 and the element of
    the access point installs a group key of his own. *)
Definition wpa_element : bytes :=
  [0xdd; 22; 0; 0x50; 0xf2; 1; 1; 0; 0; 0x50; 0xf2; 4; 1; 0; 0; 0x50; 0xf2; 4; 1; 0; 0; 0x50; 0xf2; 2].
Definition wpa_frame (info : Z) (count : Z) (kd : bytes) : bytes :=
  eapol_key_frame 1 EAPOL_KEY_TYPE_WPA (foldr Z.lor info [WPA_KEY_INFO_TYPE_HMAC_SHA1_AES; WPA_KEY_INFO_KEY_TYPE; WPA_KEY_INFO_ACK])
    16 [0; 0; 0; 0; 0; 0; 0; count] example_anonce (replicate 16 0) (replicate 8 0) (replicate 16 0) (Z.of_nat (length kd)) kd.
Definition with_mic (p : wpa_ptk) (f : bytes) : bytes :=
  memcpy f mic_offset (default [] (wpa_eapol_key_mic false (kck p) (kck_len p) WPA_KEY_MGMT_PSK 2 f)).
Definition wpa1 : world := receive (wpa_frame 0 1 []) (start WPA_PROTO_WPA (Some wpa_element) None).
Definition wpa3 : world :=
  receive (with_mic (tptk (sm wpa1)) (wpa_frame (Z.lor WPA_KEY_INFO_MIC WPA_KEY_INFO_INSTALL) 2 wpa_element)) wpa1.
Definition forged_key : bytes := replicate 16 0x41.
Definition forged : bytes :=
  wpa_frame WPA_KEY_INFO_ENCR_KEY_DATA 3 (wpa_element ++ [0xdd; 22; 0; 0x0f; 0xac; 1; 1; 0] ++ forged_key).
Example wpa_gtk_unauthenticated :
  length (ptk_installs (events wpa3)) = 1%nat /\ gtk_installs WPA_ALG_CCMP (events wpa3) = [] /\
  flag_set (key_info forged) WPA_KEY_INFO_MIC = false /\
  gtk_installs WPA_ALG_CCMP (events (receive forged wpa3)) = [forged_key] /\
  wpa_state (receive forged wpa3) = WPA_COMPLETED.
Proof. vm_compute. repeat split. Qed.

(** A new association forgets the other group keys, not the BIGTK: when the access
    point gives the same one again, it is not installed. *)
Lemma install_bigtk_same kde b w :
  bigtk (sm w) = kde_key (wpa_cipher_key_len (mgmt_group_cipher (sm w))) kde -> wpa_supplicant_install_bigtk kde b w = (0, w).
Proof. intros H. unfold wpa_supplicant_install_bigtk. cbv zeta. by rewrite (bool_decide_true _ H). Qed.
Lemma reassociated_bigtk addr w :
  let s := sm (wpa_sm_notify_assoc addr (wpa_sm_notify_disassoc w)) in
  bigtk s = bigtk (sm w) /\ mgmt_group_cipher s = mgmt_group_cipher (sm w).
Proof. cbv zeta. unfold wpa_sm_notify_disassoc. cbv zeta. destruct (bool_decide _); split; exact eq_refl. Qed.
Lemma bigtk_not_installed_again (addr kde : bytes) (b : bool) (w : world) :
  bigtk (sm w) = kde_key (wpa_cipher_key_len (mgmt_group_cipher (sm w))) kde ->
  let w' := wpa_sm_notify_assoc addr (wpa_sm_notify_disassoc w) in
  wpa_supplicant_install_bigtk kde b w' = (0, w').
Proof.
  intros H. apply install_bigtk_same. destruct (reassociated_bigtk addr w) as [E1 E2]. by rewrite E1, E2.
Qed.
