(* ===== verification/PmksaCache.v ===== *)
(** * The PMKSA cache: code

    Hostap's [ap/pmksa_cache_auth.c], the authenticator's cache of pairwise
    master keys: entries on a list ordered by expiration time and, at the same
    time, on one of 128 hash chains.  The entries live in a heap, pointers are
    keys of it, and an access through a pointer to no entry, or a loop that
    finds no end, is the result [None].  [sta_pmksa] are the [pmksa] pointers
    of the stations, which [free_cb] ([wpa_auth_pmksa_free_cb] of [wpa_auth.c])
    clears.

    The build has RADIUS, and neither Suite B nor SHA-384.  Debug output is left
    out, and so are the two text dumps of the cache;
    [pmksa_cache_to_eapol_data] is in [EapolAuth], [rsn_pmkid] in [WpaKeys]. *)

From stdpp Require Import gmap.
From S2P Require Import Prelude Bytes HashSpec Hmac WpaKeys.
From S2P Require Sha1 Sha256.

(** ** Data *)

Abbreviation ptr := (option positive).

Record vlan_description := { notempty : Z; untagged : Z; tagged : list Z }.

(** [radius_class] is its [attr] array, [count] elements long. *)
Record rsn_pmksa_cache_entry := mk_entry {
  next : ptr; hnext : ptr;
  pmkid : bytes; pmk : bytes; pmk_len : Z; expiration : Z; akmp : Z; spa : bytes;
  identity : option bytes; identity_len : Z; cui : option bytes;
  radius_class : option (list bytes); eap_type_authsrv : Z;
  vlan_desc : option vlan_description; opportunistic : Z; acct_multi_session_id : Z }.

Definition PMKID_HASH_SIZE : nat := 128.
Definition pmksa_cache_max_entries : Z := 1024.
Definition dot11RSNAConfigPMKLifetime : Z := 43200.

Definition zero_entry : rsn_pmksa_cache_entry :=
  mk_entry None None (replicate PMKID_LEN 0) (replicate PMK_LEN_MAX 0) 0 0 0 (replicate ETH_ALEN 0)
    None 0 None None 0 None 0 0.

#[export] Instance entry_settable : Settable rsn_pmksa_cache_entry :=
  fun e => mk_entry (next e) (hnext e) (pmkid e) (pmk e) (pmk_len e) (expiration e) (akmp e) (spa e)
    (identity e) (identity_len e) (cui e) (radius_class e) (eap_type_authsrv e) (vlan_desc e)
    (opportunistic e) (acct_multi_session_id e).
#[export] Instance set_next : Setter next := ltac:(solve_setter).
#[export] Instance set_hnext : Setter hnext := ltac:(solve_setter).
#[export] Instance set_pmkid : Setter pmkid := ltac:(solve_setter).
#[export] Instance set_pmk : Setter pmk := ltac:(solve_setter).
#[export] Instance set_pmk_len : Setter pmk_len := ltac:(solve_setter).
#[export] Instance set_expiration : Setter expiration := ltac:(solve_setter).
#[export] Instance set_akmp : Setter akmp := ltac:(solve_setter).
#[export] Instance set_spa : Setter spa := ltac:(solve_setter).
#[export] Instance set_identity : Setter identity := ltac:(solve_setter).
#[export] Instance set_identity_len : Setter identity_len := ltac:(solve_setter).
#[export] Instance set_cui : Setter cui := ltac:(solve_setter).
#[export] Instance set_radius_class : Setter radius_class := ltac:(solve_setter).
#[export] Instance set_eap_type : Setter eap_type_authsrv := ltac:(solve_setter).
#[export] Instance set_vlan_desc : Setter vlan_desc := ltac:(solve_setter).
#[export] Instance set_opportunistic : Setter opportunistic := ltac:(solve_setter).
#[export] Instance set_session_id : Setter acct_multi_session_id := ltac:(solve_setter).

(** [struct rsn_pmksa_cache] ([bucket] is its array [pmkid]) with the memory of
    the entries, the stations' pointers, and the second at which the timeout
    [pmksa_cache_expire] is due, if it is registered. *)
Abbreviation heap_of := (gmap positive rsn_pmksa_cache_entry).
Record rsn_pmksa_cache := mk_cache {
  heap : heap_of; bucket : list ptr; pmksa : ptr; pmksa_count : Z;
  sta_pmksa : list ptr; timeout : option Z }.

#[export] Instance cache_settable : Settable rsn_pmksa_cache :=
  fun w => mk_cache (heap w) (bucket w) (pmksa w) (pmksa_count w) (sta_pmksa w) (timeout w).
#[export] Instance set_heap : Setter heap := ltac:(solve_setter).
#[export] Instance set_bucket : Setter bucket := ltac:(solve_setter).
#[export] Instance set_pmksa : Setter pmksa := ltac:(solve_setter).
#[export] Instance set_pmksa_count : Setter pmksa_count := ltac:(solve_setter).
#[export] Instance set_sta_pmksa : Setter sta_pmksa := ltac:(solve_setter).
#[export] Instance set_timeout : Setter timeout := ltac:(solve_setter).
Abbreviation W := rsn_pmksa_cache.

Definition PMKID_HASH (pmkid : bytes) : nat := Z.to_nat (Z.land (get pmkid 0) 0x7f).

(** More passes than a loop over a list of entries can make. *)
Definition passes (h : heap_of) : nat := S (size h).

(** ** Freeing *)

Definition wpa_auth_pmksa_free_cb (entry : positive) (w : W) : W :=
  w <| sta_pmksa := (fun p => if bool_decide (p = Some entry) then None else p) <$> sta_pmksa w |>.

(** One of the two links of an entry. *)
Record link := {
  link_get : rsn_pmksa_cache_entry -> ptr;
  link_set : ptr -> rsn_pmksa_cache_entry -> rsn_pmksa_cache_entry;
}.
Definition by_next : link := {| link_get := next; link_set p e := e <| next := p |> |}.
Definition by_hnext : link := {| link_get := hnext; link_set p e := e <| hnext := p |> |}.

(** [while (pos)]: the new head of the list and the heap. *)
Fixpoint unlink (lk : link) (fuel : nat) (h : heap_of) (head : ptr) (entry : positive)
    (pos prev : ptr) : option (ptr * heap_of) :=
  match fuel with
  | O => None
  | S fuel =>
    match pos with
    | None => Some (head, h)
    | Some p =>
      e ← h !! p;
      if bool_decide (p = entry) then
        match prev with
        | Some q => eq ← h !! q; Some (head, <[q := link_set lk (link_get lk e) eq]> h)
        | None => Some (link_get lk e, h)
        end
      else unlink lk fuel h head entry (link_get lk e) (Some p)
    end
  end.

Definition pmksa_cache_free_entry (entry : positive) (w : W) : option W :=
  let w := w <| pmksa_count ::= Z.pred |> in
  let w := wpa_auth_pmksa_free_cb entry w in
  e ← heap w !! entry;
  let hash := PMKID_HASH (pmkid e) in
  head ← bucket w !! hash;
  '(head, h) ← unlink by_hnext (passes (heap w)) (heap w) head entry head None;
  let w := w <| bucket := <[hash := head]> (bucket w) |> <| heap := h |> in
  '(head, h) ← unlink by_next (passes (heap w)) (heap w) (pmksa w) entry (pmksa w) None;
  let w := w <| pmksa := head |> <| heap := h |> in
  Some (w <| heap := delete entry (heap w) |>).

(** [while (pmksa->pmksa)]. *)
Fixpoint flush_loop (fuel : nat) (w : W) : option W :=
  match fuel with
  | O => None
  | S fuel =>
    match pmksa w with
    | None => Some w
    | Some p => w ← pmksa_cache_free_entry p w; flush_loop fuel w
    end
  end.
Definition pmksa_cache_auth_flush (w : W) : option W := flush_loop (passes (heap w)) w.

(** ** Expiration *)

(** C's [int]. *)
Definition i32 (x : Z) : Z := (x + 2 ^ 31) mod 2 ^ 32 - 2 ^ 31.

(** [now] is the [sec] of [os_get_reltime]. *)
Definition pmksa_cache_set_expiration (now : Z) (w : W) : option W :=
  let w := w <| timeout := None |> in
  match pmksa w with
  | None => Some w
  | Some p =>
    e ← heap w !! p;
    let sec := i32 (expiration e - now) in
    let sec := if sec <? 0 then 0 else sec in
    Some (w <| timeout := Some (now + (sec + 1)) |>)
  end.

Fixpoint expire_loop (fuel : nat) (now : Z) (w : W) : option W :=
  match fuel with
  | O => None
  | S fuel =>
    match pmksa w with
    | None => Some w
    | Some p =>
      e ← heap w !! p;
      if expiration e <=? now then w ← pmksa_cache_free_entry p w; expire_loop fuel now w
      else Some w
    end
  end.
Definition pmksa_cache_expire (now : Z) (w : W) : option W :=
  w ← expire_loop (passes (heap w)) now w; pmksa_cache_set_expiration now w.

(** ** Adding *)

(** [while (pos)]: the entry after which the new one goes. *)
Fixpoint link_position (fuel : nat) (h : heap_of) (exp : Z) (pos prev : ptr) : option ptr :=
  match fuel with
  | O => None
  | S fuel =>
    match pos with
    | None => Some prev
    | Some p =>
      e ← h !! p;
      if exp <? expiration e then Some prev else link_position fuel h exp (next e) (Some p)
    end
  end.

Definition pmksa_cache_link_entry (now : Z) (entry : positive) (w : W) : option W :=
  e ← heap w !! entry;
  prev ← link_position (passes (heap w)) (heap w) (expiration e) (pmksa w) None;
  w ← match prev with
      | None =>
        let w := w <| heap := <[entry := e <| next := pmksa w |>]> (heap w) |> in
        Some (w <| pmksa := Some entry |>)
      | Some q =>
        eq ← heap w !! q;
        let w := w <| heap := <[entry := e <| next := next eq |>]> (heap w) |> in
        Some (w <| heap := alter (fun eq => eq <| next := Some entry |>) q (heap w) |>)
      end;
  let hash := PMKID_HASH (pmkid e) in
  head ← bucket w !! hash;
  let w := w <| heap := alter (fun e => e <| hnext := head |>) entry (heap w) |> in
  let w := w <| bucket := <[hash := Some entry]> (bucket w) |> in
  let w := w <| pmksa_count ::= Z.succ |> in
  match prev with None => pmksa_cache_set_expiration now w | Some _ => Some w end.

(** ** Looking up *)

Fixpoint find_in (lk : link) (match_ : rsn_pmksa_cache_entry -> bool) (fuel : nat) (h : heap_of)
    (pos : ptr) : option ptr :=
  match fuel with
  | O => None
  | S fuel =>
    match pos with
    | None => Some None
    | Some p =>
      e ← h !! p;
      if match_ e then Some (Some p) else find_in lk match_ fuel h (link_get lk e)
    end
  end.

(** [spa] and [pmkid] are [None] to match any. *)
Definition matches_spa (spa0 : option bytes) (e : rsn_pmksa_cache_entry) : bool :=
  match spa0 with None => true | Some a => same ETH_ALEN (spa e) a end.

Definition pmksa_cache_auth_get (spa0 pmkid0 : option bytes) (w : W) : option ptr :=
  match pmkid0 with
  | Some id =>
    head ← bucket w !! PMKID_HASH id;
    find_in by_hnext (fun e => matches_spa spa0 e && same PMKID_LEN (pmkid e) id)
      (passes (heap w)) (heap w) head
  | None => find_in by_next (matches_spa spa0) (passes (heap w)) (heap w) (pmksa w)
  end.

Section pmksa.
(** The uninitialised stack of the hash functions, and the sizes of the C types. *)
Context (s1 : Sha1.SHA1Context) (s256 : Sha256.sha256_state) (hash0 : bytes).
Context (sizeof_entry sizeof_vlan sizeof_attr : nat).

(** ** Creating entries *)

(** The attributes copied before memory runs out. *)
Fixpoint copy_attrs `{Malloc} (l : list bytes) : list bytes :=
  match l with
  | [] => []
  | a :: l => match os_memdup a with None => [] | Some b => b :: copy_attrs l end
  end.

Definition radius_copy_class `{Malloc} (dst src : option (list bytes)) : option (list bytes) :=
  match src with
  | None => dst
  | Some l =>
    match os_malloc (length l * sizeof_attr) with
    | None => None
    | Some _ => Some (copy_attrs l)
    end
  end.

(** [wpabuf_dup]; the header of a [struct wpabuf] is 32 bytes. *)
Definition wpabuf_dup `{Malloc} (src : bytes) : option bytes :=
  _ ← os_malloc (32 + length src); Some src.

(** What is read of an EAPOL state machine and of its station. *)
Record eapol_data := {
  eapol_identity : option bytes; eapol_radius_cui : option bytes;
  eapol_radius_class : option (list bytes); eapol_eap_type_authsrv : Z;
  eapol_sta_vlan_desc : option vlan_description; eapol_acct_multi_session_id : Z }.

(** [os_malloc] and [os_memcpy] of an identity, here and in [pmksa_cache_add_okc]. *)
Definition copy_identity `{Malloc} (id : option bytes) (entry : rsn_pmksa_cache_entry) :
    rsn_pmksa_cache_entry :=
  match id with
  | None => entry
  | Some id =>
    match os_memdup id with
    | None => entry <| identity := None |>
    | Some b => entry <| identity := Some b |> <| identity_len := Z.of_nat (length id) |>
    end
  end.

Definition copy_vlan `{Malloc} (vlan : option vlan_description) : option vlan_description :=
  v ← vlan; _ ← os_malloc sizeof_vlan; Some v.

Definition pmksa_cache_from_eapol_data `{Malloc} (eapol : option eapol_data)
    (entry : rsn_pmksa_cache_entry) : rsn_pmksa_cache_entry :=
  match eapol with
  | None => entry
  | Some eapol =>
    let entry := copy_identity (eapol_identity eapol) entry in
    let entry := match eapol_radius_cui eapol with
                 | Some cui0 => entry <| cui := wpabuf_dup cui0 |> | None => entry end in
    let entry := entry <| radius_class := radius_copy_class (radius_class entry)
                                            (eapol_radius_class eapol) |> in
    let entry := entry <| eap_type_authsrv := eapol_eap_type_authsrv eapol |> in
    let entry :=
      match eapol_sta_vlan_desc eapol with
      | Some v => if negb (notempty v =? 0) then entry <| vlan_desc := copy_vlan (Some v) |>
                  else entry <| vlan_desc := None |>
      | None => entry <| vlan_desc := None |>
      end in
    entry <| acct_multi_session_id := eapol_acct_multi_session_id eapol |>
  end.

(** [os_zalloc] of an entry at a free address; the caller fills it in. *)
Definition alloc_entry `{Malloc} (h : heap_of) : option positive :=
  _ ← os_malloc sizeof_entry; Some (fresh (dom h)).

Definition new_entry `{Malloc} (pmk0 : bytes) (pmkid0 kck : option bytes) (aa spa0 : bytes)
    (session_timeout : Z) (eapol : option eapol_data) (akmp0 now : Z) : rsn_pmksa_cache_entry :=
  let entry := zero_entry <| pmk := memcpy (pmk zero_entry) 0 pmk0 |>
                          <| pmk_len := Z.of_nat (length pmk0) |> in
  let entry :=
    match pmkid0 with
    | Some id => entry <| pmkid := take PMKID_LEN id |>
    | None =>
      if akmp0 =? WPA_KEY_MGMT_IEEE8021X_SUITE_B_192 then entry
      else if wpa_key_mgmt_suite_b akmp0 then entry
      else entry <| pmkid := rsn_pmkid s1 s256 hash0 pmk0 aa spa0 akmp0 |>
    end in
  let entry := entry <| expiration := now |> in
  let entry := entry <| expiration ::= Z.add (if 0 <? session_timeout then session_timeout
                                              else dot11RSNAConfigPMKLifetime) |> in
  let entry := entry <| akmp := akmp0 |> <| spa := take ETH_ALEN spa0 |> in
  pmksa_cache_from_eapol_data eapol entry.

(** The new entry, or [None] for [NULL], and the heap; the calls of
    [rsn_pmkid_suite_b] and [rsn_pmkid_suite_b_192] return -1 in this build. *)
Definition pmksa_cache_auth_create_entry `{Malloc} (pmk0 : bytes) (pmkid0 kck : option bytes)
    (aa spa0 : bytes) (session_timeout : Z) (eapol : option eapol_data) (akmp0 now : Z) (w : W) : ptr * W :=
  if (PMK_LEN_MAX <? length pmk0)%nat then (None, w)
  else if wpa_key_mgmt_suite_b akmp0 && negb (bool_decide (is_Some kck)) then (None, w)
  else
    match alloc_entry (heap w) with
    | None => (None, w)
    | Some p =>
      let entry := new_entry pmk0 pmkid0 kck aa spa0 session_timeout eapol akmp0 now in
      (Some p, w <| heap := <[p := entry]> (heap w) |>)
    end.

(** The C return value with the cache. *)
Definition pmksa_cache_auth_add_entry (entry : ptr) (now : Z) (w : W) : option (Z * W) :=
  match entry with
  | None => Some (-1, w)
  | Some entry =>
    e ← heap w !! entry;
    pos ← pmksa_cache_auth_get (Some (spa e)) None w;
    w ← match pos with Some p => pmksa_cache_free_entry p w | None => Some w end;
    w ← match pmksa w with
        | Some p => if pmksa_cache_max_entries <=? pmksa_count w then pmksa_cache_free_entry p w
                    else Some w
        | None => Some w
        end;
    w ← pmksa_cache_link_entry now entry w;
    Some (0, w)
  end.

Definition pmksa_cache_auth_add `{Malloc} (pmk0 : bytes) (pmkid0 kck : option bytes) (aa spa0 : bytes)
    (session_timeout : Z) (eapol : option eapol_data) (akmp0 now : Z) (w : W) : option (ptr * W) :=
  let '(entry, w) :=
    pmksa_cache_auth_create_entry pmk0 pmkid0 kck aa spa0 session_timeout eapol akmp0 now w in
  '(r, w) ← pmksa_cache_auth_add_entry entry now w;
  if r <? 0 then Some (None, w) else Some (entry, w).

(** The copy for opportunistic key caching. *)
Definition okc_entry `{Malloc} (old_entry : rsn_pmksa_cache_entry) (pmkid0 : bytes) :
    rsn_pmksa_cache_entry :=
  let entry := zero_entry <| pmkid := take PMKID_LEN pmkid0 |> in
  let entry := entry <| pmk := memcpy (pmk entry) 0 (take (Z.to_nat (pmk_len old_entry)) (pmk old_entry)) |> in
  let entry := entry <| pmk_len := pmk_len old_entry |> <| expiration := expiration old_entry |> in
  let entry := entry <| akmp := akmp old_entry |> <| spa := take ETH_ALEN (spa old_entry) |> in
  let entry := entry <| opportunistic := 1 |> in
  let entry := copy_identity (identity old_entry) entry in
  let entry := match cui old_entry with
               | Some cui0 => entry <| cui := wpabuf_dup cui0 |> | None => entry end in
  let entry := entry <| radius_class := radius_copy_class (radius_class entry) (radius_class old_entry) |> in
  let entry := entry <| eap_type_authsrv := eap_type_authsrv old_entry |> in
  let entry := entry <| vlan_desc := copy_vlan (vlan_desc old_entry) |> in
  entry <| opportunistic := 1 |>.

(** [old_entry] may be an entry of another cache, so it is passed by value. *)
Definition pmksa_cache_add_okc `{Malloc} (old_entry : rsn_pmksa_cache_entry) (pmkid0 : bytes) (now : Z)
    (w : W) : option (ptr * W) :=
  match alloc_entry (heap w) with
  | None => Some (None, w)
  | Some p =>
    let w := w <| heap := <[p := okc_entry old_entry pmkid0]> (heap w) |> in
    w ← pmksa_cache_link_entry now p w;
    Some (Some p, w)
  end.

(** The entry whose key gives [pmkid0] with the authenticator address [aa]. *)
Definition okc_match (aa spa0 pmkid0 : bytes) (e : rsn_pmksa_cache_entry) : bool :=
  if negb (same ETH_ALEN (spa e) spa0) then false
  else if wpa_key_mgmt_sae (akmp e) || wpa_key_mgmt_fils (akmp e) then same PMKID_LEN (pmkid e) pmkid0
  else
    let new_pmkid := rsn_pmkid s1 s256 hash0 (take (Z.to_nat (pmk_len e)) (pmk e)) aa spa0 (akmp e) in
    same PMKID_LEN new_pmkid pmkid0.

Definition pmksa_cache_get_okc (aa spa0 pmkid0 : bytes) (w : W) : option ptr :=
  find_in by_next (okc_match aa spa0 pmkid0) (passes (heap w)) (heap w) (pmksa w).

(** ** The whole cache *)

(** [None] when there is no memory. *)
Definition pmksa_cache_auth_init `{Malloc} (sizeof_cache : nat) (stations : nat) : option W :=
  _ ← os_malloc sizeof_cache;
  Some (mk_cache ∅ (replicate PMKID_HASH_SIZE None) None 0 (replicate stations None) None).

Fixpoint deinit_loop (fuel : nat) (entry : ptr) (h : heap_of) : option heap_of :=
  match fuel with
  | O => None
  | S fuel =>
    match entry with
    | None => Some h
    | Some prev => e ← h !! prev; deinit_loop fuel (next e) (delete prev h)
    end
  end.

(** What is left of the memory of the entries. *)
Definition pmksa_cache_auth_deinit (w : W) : option heap_of :=
  deinit_loop (passes (heap w)) (pmksa w) (heap w).

(** ** Disconnect requests of a RADIUS server *)

(** The attributes [das_attr_match] looks at. *)
Record radius_das_attrs := {
  das_sta_addr : option bytes; das_user_name : option bytes; das_acct_session_id : option bytes;
  das_acct_multi_session_id : option bytes; das_cui : option bytes }.

(** [os_snprintf(buf, sizeof(buf), "%016llX", id)], without the terminator. *)
Definition hex_digit (d : Z) : Z := if d <? 10 then 48 + d else 55 + d.
Definition hex16 (id : Z) : bytes :=
  map (fun i => hex_digit (Z.land (Z.shiftr id (4 * (15 - i))) 15)) (seqZ 0 16).

(** One attribute: absent, or present and equal ([+1]); [None] is [return 0]. *)
Definition das_test (attr : option bytes) (equal : bytes -> bool) (match_ : Z) : option Z :=
  match attr with
  | None => Some match_
  | Some a => if equal a then Some (match_ + 1) else None
  end.

Definition das_attr_match (e : rsn_pmksa_cache_entry) (attr : radius_das_attrs) : Z :=
  default 0 (
    m ← das_test (das_sta_addr attr) (fun a => same ETH_ALEN a (spa e)) 0;
    m ← das_test (das_acct_multi_session_id attr)
          (fun a => (length a =? 16)%nat && same 16 a (hex16 (acct_multi_session_id e))) m;
    m ← das_test (das_cui attr) (fun a => bool_decide (cui e = Some a)) m;
    das_test (das_user_name attr)
      (fun a => match identity e with
                | None => false
                | Some id => (Z.of_nat (length a) =? identity_len e) && same (length a) a id
                end) m).

Fixpoint das_loop (fuel : nat) (attr : radius_das_attrs) (entry : ptr) (found : Z) (w : W) :
    option (Z * W) :=
  match fuel with
  | O => None
  | S fuel =>
    match entry with
    | None => Some (found, w)
    | Some p =>
      e ← heap w !! p;
      if negb (das_attr_match e attr =? 0) then
        w ← pmksa_cache_free_entry p w; das_loop fuel attr (next e) (found + 1) w
      else das_loop fuel attr (next e) found w
    end
  end.

Definition pmksa_cache_auth_radius_das_disconnect (attr : radius_das_attrs) (w : W) : option (Z * W) :=
  match das_acct_session_id attr with
  | Some _ => Some (-1, w)
  | None =>
    '(found, w) ← das_loop (passes (heap w)) attr (pmksa w) 0 w;
    Some (if negb (found =? 0) then 0 else -1, w)
  end.

(** ** The users of the cache in the WPA authenticator *)

(** [wpa_auth_pmksa_remove]. *)
Definition wpa_auth_pmksa_remove (sta_addr : bytes) (w : W) : option W :=
  entry ← pmksa_cache_auth_get (Some sta_addr) None w;
  match entry with Some p => pmksa_cache_free_entry p w | None => Some w end.

(** [wpa_auth_sta_clear_pmksa] for the [i]-th station. *)
Definition wpa_auth_sta_clear_pmksa (i : nat) (pmksa0 : positive) (w : W) : W :=
  if bool_decide (sta_pmksa w !! i = Some (Some pmksa0))
  then w <| sta_pmksa := <[i := None]> (sta_pmksa w) |> else w.

(** The loop over the PMKIDs of the station's RSN element. *)
Fixpoint get_any (addr : bytes) (pmkids : list bytes) (w : W) : option ptr :=
  match pmkids with
  | [] => Some None
  | id :: pmkids =>
    entry ← pmksa_cache_auth_get (Some addr) (Some id) w;
    match entry with Some p => Some (Some p) | None => get_any addr pmkids w end
  end.

(** [wpa_auth_for_each_auth] with [wpa_auth_okc_iter]: the entry found in the
    caches of the interfaces before this one, in this one's, or after it. *)
Definition okc_lookup (before after : bytes -> option rsn_pmksa_cache_entry) (aa addr id : bytes)
    (w : W) : option (option rsn_pmksa_cache_entry) :=
  match before id with
  | Some e => Some (Some e)
  | None =>
    entry ← pmksa_cache_get_okc aa addr id w;
    match entry with
    | Some p => e ← heap w !! p; Some (Some e)
    | None => Some (after id)
    end
  end.

Fixpoint okc_any `{Malloc} (before after : bytes -> option rsn_pmksa_cache_entry) (aa addr : bytes)
    (now : Z) (pmkids : list bytes) (w : W) : option (ptr * W) :=
  match pmkids with
  | [] => Some (None, w)
  | id :: pmkids =>
    found ← okc_lookup before after aa addr id w;
    match found with
    | Some e => pmksa_cache_add_okc e id now w
    | None => okc_any before after aa addr now pmkids w
    end
  end.

(** The part of [wpa_validate_wpa_ie] that chooses [sm->pmksa]; [okc] is
    [wpa_auth->conf.okc]. *)
Definition select_pmksa `{Malloc} (before after : bytes -> option rsn_pmksa_cache_entry) (okc : bool)
    (i : nat) (aa addr : bytes) (pmkids : list bytes) (now : Z) (w : W) : option W :=
  let w := w <| sta_pmksa := <[i := None]> (sta_pmksa w) |> in
  entry ← get_any addr pmkids w;
  '(entry, w) ← match entry with
                | Some p => Some (Some p, w)
                | None => if okc then okc_any before after aa addr now pmkids w else Some (None, w)
                end;
  Some (w <| sta_pmksa := <[i := entry]> (sta_pmksa w) |>).
End pmksa.
