(* ===== verification/PmksaProofs.v ===== *)
(** * The PMKSA cache: the lists it stands for

    The abstract cache is a list of entries ordered by expiration time and the
    same entries ordered by age, newest first; a hash chain holds the entries of
    one hash value in the second order.  [rep] relates a heap to it, and each
    function of [PmksaCache] is proved to do to the lists what it should, never
    following a pointer to a freed entry. *)

From stdpp Require Import gmap sorting.
From S2P Require Import Prelude Bytes WpaKeys PmksaCache.

(** ** The abstract cache *)

(** Entries by address, their links erased. *)
Abbreviation aentry := (positive * rsn_pmksa_cache_entry)%type.
Definition erase (e : rsn_pmksa_cache_entry) : rsn_pmksa_cache_entry :=
  e <| next := None |> <| hnext := None |>.

Record acache := mk_acache { by_expiry : list aentry; by_age : list aentry; stas : list ptr }.

Definition ids (l : list aentry) : list positive := l.*1.

(** The entries for which [f] holds, and the stations' pointers to them. *)
Definition keep (f : aentry -> bool) (l : list aentry) : list aentry := filter (fun x => f x = true) l.
Definition a_keep (f : aentry -> bool) (s : acache) : acache :=
  {| by_expiry := keep f (by_expiry s); by_age := keep f (by_age s);
     stas := (fun p => match p with
                       | Some q => if bool_decide (q ∈ ids (keep f (by_expiry s))) then p else None
                       | None => None end) <$> stas s |}.
Definition other_than (p : positive) (x : aentry) : bool := negb (bool_decide (x.1 = p)).
Definition a_free (p : positive) : acache -> acache := a_keep (other_than p).

Fixpoint insert_expiry (x : aentry) (l : list aentry) : list aentry :=
  match l with
  | [] => [x]
  | y :: l => if expiration x.2 <? expiration y.2 then x :: y :: l else y :: insert_expiry x l
  end.
Definition a_link (p : positive) (e : rsn_pmksa_cache_entry) (s : acache) : acache :=
  {| by_expiry := insert_expiry (p, e) (by_expiry s); by_age := (p, e) :: by_age s; stas := stas s |}.

(** The first entry a test accepts. *)
Definition first_of (f : rsn_pmksa_cache_entry -> bool) (l : list aentry) : ptr :=
  fst <$> head (keep (fun x => f x.2) l).

(** ** Chains of pointers *)

Fixpoint chain (lk : link) (h : heap_of) (pos : ptr) (l : list aentry) : Prop :=
  match l with
  | [] => pos = None
  | (p, e) :: l =>
    pos = Some p /\ exists e', h !! p = Some e' /\ erase e' = e /\ chain lk h (link_get lk e') l
  end.

Definition head_ptr (l : list aentry) : ptr := fst <$> head l.
Definition prev_of (prev : ptr) (l : list aentry) : ptr :=
  match last l with Some (q, _) => Some q | None => prev end.

Lemma chain_head lk h pos l : chain lk h pos l -> pos = head_ptr l.
Proof. by destruct l as [|[p e] l]; [|intros [-> _]]. Qed.

Lemma chain_split lk h pos l1 l2 :
  chain lk h pos (l1 ++ l2) -> exists pos', chain lk h pos' l2.
Proof.
  revert pos. induction l1 as [|[p e] l1 IH]; intros pos Hc; [by exists pos|].
  destruct Hc as (_ & e' & _ & _ & Hc). by apply IH in Hc.
Qed.

Lemma chain_lookup lk h pos l x :
  chain lk h pos l -> x ∈ l -> exists e', h !! x.1 = Some e' /\ erase e' = x.2.
Proof.
  revert pos. induction l as [|[p e] l IH]; intros pos Hc Hx; [by apply elem_of_nil in Hx|].
  destruct Hc as (_ & e' & Hp & He & Hc). apply elem_of_cons in Hx as [->|Hx]; [by exists e'|].
  by apply (IH _ Hc).
Qed.

(** A change of the heap that the chain does not see. *)
Lemma chain_ext lk h h' pos l :
  (forall x e, x ∈ l -> h !! x.1 = Some e ->
     exists e', h' !! x.1 = Some e' /\ erase e' = erase e /\ link_get lk e' = link_get lk e) ->
  chain lk h pos l -> chain lk h' pos l.
Proof.
  revert pos. induction l as [|[p e] l IH]; intros pos Hh Hc; [done|].
  destruct Hc as (-> & e' & Hp & He & Hc). split; [done|].
  destruct (Hh (p, e) e' ltac:(left) Hp) as (e2 & Hp2 & He2 & Hl).
  exists e2. split_and!; [done|by rewrite He2|]. rewrite Hl. apply IH; [|done].
  intros x e0 Hx. apply Hh. by right.
Qed.

Lemma chain_alter_other lk f q h pos l :
  (forall e, link_get lk (f e) = link_get lk e /\ erase (f e) = erase e) ->
  chain lk h pos l -> chain lk (alter f q h) pos l.
Proof.
  intros Hf. apply chain_ext. intros x e _ Hx. destruct (decide (q = x.1)) as [->|].
  - exists (f e). rewrite lookup_alter_eq, Hx. by destruct (Hf e).
  - exists e. by rewrite lookup_alter_ne.
Qed.

Lemma chain_not_in lk h h' pos l :
  (forall x, x ∈ l -> h' !! x.1 = h !! x.1) -> chain lk h pos l -> chain lk h' pos l.
Proof. intros Hh. apply chain_ext. intros x e Hx Hp. exists e. by rewrite Hh. Qed.

Lemma not_in_ids (q : positive) (l : list aentry) x : q ∉ ids l -> x ∈ l -> x.1 <> q.
Proof. intros Hq Hx <-. apply Hq. by apply list_elem_of_fmap_2. Qed.

Lemma chain_alter_out lk f q h pos l :
  q ∉ ids l -> chain lk h pos l -> chain lk (alter f q h) pos l.
Proof.
  intros Hq. apply chain_not_in. intros x Hx. apply lookup_alter_ne.
  intros ->. by apply (not_in_ids _ _ x Hq Hx).
Qed.
Lemma chain_delete_out lk q h pos l :
  q ∉ ids l -> chain lk h pos l -> chain lk (delete q h) pos l.
Proof.
  intros Hq. apply chain_not_in. intros x Hx. apply lookup_delete_ne.
  intros ->. by apply (not_in_ids _ _ x Hq Hx).
Qed.
Lemma chain_insert_out lk q e h pos l :
  q ∉ ids l -> chain lk h pos l -> chain lk (<[q := e]> h) pos l.
Proof.
  intros Hq. apply chain_not_in. intros x Hx. apply lookup_insert_ne.
  intros ->. by apply (not_in_ids _ _ x Hq Hx).
Qed.

(** The entries of a chain are different places of the heap, so loops over it
    have enough passes. *)
Lemma chain_passes lk h pos l : chain lk h pos l -> NoDup (ids l) -> (length l < passes h)%nat.
Proof.
  intros Hc Hn. unfold passes. rewrite <- size_dom, <- (length_fmap fst l).
  apply Nat.lt_succ_r. change (l.*1) with (ids l).
  rewrite <- (size_list_to_set (C := gset positive) (ids l)) by done. apply subseteq_size.
  intros p Hp. apply elem_of_list_to_set, list_elem_of_fmap_1 in Hp as (x & -> & Hx).
  apply (chain_lookup _ _ _ _ _ Hc) in Hx as (e & He & _). by apply elem_of_dom_2 in He.
Qed.

Lemma passes_alter f q h : passes (alter f q h) = passes h.
Proof. unfold passes. by rewrite <- !size_dom, dom_alter. Qed.

(** ** Unlinking *)

Definition link_ok (lk : link) : Prop :=
  forall e p, link_get lk (link_set lk p e) = p /\ erase (link_set lk p e) = erase e.
Lemma by_next_ok : link_ok by_next. Proof. by intros [] p. Qed.
Lemma by_hnext_ok : link_ok by_hnext. Proof. by intros [] p. Qed.

(** The head and the heap when the entry after [prev] is left out. *)
Definition unlinked (lk : link) (h : heap_of) (head prev : ptr) (e : rsn_pmksa_cache_entry) :
    ptr * heap_of :=
  match prev with
  | None => (link_get lk e, h)
  | Some q => (head, alter (link_set lk (link_get lk e)) q h)
  end.

Lemma prev_of_cons prev p e l : prev_of prev ((p, e) :: l) = prev_of (Some p) l.
Proof. unfold prev_of. rewrite last_cons. by destruct (last l) as [[]|]. Qed.

Lemma unlink_spec lk fuel h hd p e e' l1 l2 pos prev :
  chain lk h pos (l1 ++ (p, e) :: l2) -> p ∉ ids l1 -> (length l1 < fuel)%nat ->
  (forall q, prev = Some q -> is_Some (h !! q)) -> h !! p = Some e' ->
  unlink lk fuel h hd p pos prev = Some (unlinked lk h hd (prev_of prev l1) e').
Proof.
  revert l1 pos prev. induction fuel as [|fuel IH]; intros l1 pos prev Hc Hn Hf Hq Hp; [lia|].
  destruct l1 as [|[q eq] l1]; cbn [app chain] in Hc.
  - destruct Hc as (-> & _). cbn [unlink]. rewrite Hp. cbn [mbind option_bind].
    rewrite bool_decide_eq_true_2 by done. unfold unlinked, prev_of. cbn [last].
    destruct prev as [q|]; [|done]. destruct (Hq q eq_refl) as [eq Heq]. rewrite Heq.
    cbn [mbind option_bind]. do 2 f_equal. apply map_eq. intros k.
    destruct (decide (k = q)) as [->|].
    + by rewrite lookup_insert_eq, lookup_alter_eq, Heq.
    + by rewrite lookup_insert_ne, lookup_alter_ne.
  - destruct Hc as (-> & e2 & Hq2 & _ & Hc). cbn [unlink]. rewrite Hq2. cbn [mbind option_bind].
    cbn [ids fmap list_fmap] in Hn. apply not_elem_of_cons in Hn as [Hne Hn].
    rewrite bool_decide_eq_false_2 by done. rewrite prev_of_cons. cbn [length] in Hf.
    apply IH; [done..|lia| |done]. intros q' [= <-]. by exists e2.
Qed.

Lemma chain_unlinked lk h hd p e e' l1 l2 :
  link_ok lk -> chain lk h hd (l1 ++ (p, e) :: l2) -> NoDup (ids (l1 ++ (p, e) :: l2)) ->
  h !! p = Some e' ->
  let r := unlinked lk h hd (prev_of None l1) e' in chain lk r.2 r.1 (l1 ++ l2).
Proof.
  intros Hok. revert hd. induction l1 as [|[q eq] l1 IH]; intros hd Hc Hn Hp; cbv zeta.
  - destruct Hc as (-> & e2 & Hp2 & _ & Hc). cbn. by rewrite Hp in Hp2; injection Hp2 as ->.
  - cbn [app chain] in Hc. destruct Hc as (-> & e2 & Hq2 & Heq & Hc).
    rewrite prev_of_cons. cbn [app ids fmap list_fmap] in Hn. apply NoDup_cons in Hn as [Hnq Hn].
    change (fst <$> (l1 ++ (p, e) :: l2)) with (ids (l1 ++ (p, e) :: l2)) in Hnq, Hn.
    specialize (IH _ Hc Hn Hp). cbv zeta in IH.
    destruct (last l1) as [[r er]|] eqn:El.
    + assert (Er : prev_of (Some q) l1 = Some r) by (unfold prev_of; by rewrite El).
      assert (Er' : prev_of None l1 = Some r) by (unfold prev_of; by rewrite El).
      rewrite Er. rewrite Er' in IH. cbn [unlinked fst snd] in IH |- *.
      assert (r <> q).
      { intros ->. apply Hnq. apply last_Some in El as [l ->]. unfold ids.
        rewrite !fmap_app. set_solver. }
      cbn [app chain]. split; [done|]. exists e2. rewrite lookup_alter_ne by done.
      by split_and!.
    + apply last_None in El as ->. cbn [prev_of last unlinked fst snd app chain] in *.
      split; [done|]. exists (link_set lk (link_get lk e') e2).
      rewrite lookup_alter_eq, Hq2. destruct (Hok e2 (link_get lk e')) as [-> He2].
      split_and!; [done|by rewrite He2|].
      apply chain_alter_out; [|done]. intros Hin. apply Hnq. by right.
Qed.

(** ** What a cache stands for *)

Definition hash_of (x : aentry) : nat := PMKID_HASH (pmkid x.2).
Definition in_bucket (i : nat) (x : aentry) : bool := (hash_of x =? i)%nat.
Definition expires_first (x y : aentry) : Prop := expiration x.2 <= expiration y.2.

(** Any [more] entries are allocated and not yet linked. *)
Record rep (more : gset positive) (w : W) (s : acache) : Prop := {
  rep_list : chain by_next (heap w) (pmksa w) (by_expiry s);
  rep_hash : forall i, (i < PMKID_HASH_SIZE)%nat -> exists hd, bucket w !! i = Some hd /\
    chain by_hnext (heap w) hd (keep (in_bucket i) (by_age s));
  rep_buckets : length (bucket w) = PMKID_HASH_SIZE;
  rep_perm : by_age s ≡ₚ by_expiry s;
  rep_nodup : NoDup (ids (by_expiry s));
  rep_sorted : StronglySorted expires_first (by_expiry s);
  rep_count : pmksa_count w = Z.of_nat (length (by_expiry s));
  rep_stas : sta_pmksa w = stas s;
  rep_live : Forall (fun p => forall q, p = Some q -> q ∈ ids (by_expiry s)) (stas s);
  rep_armed : by_expiry s <> [] -> is_Some (timeout w);
  rep_dom : dom (heap w) = list_to_set (ids (by_expiry s)) ∪ more;
}.

Lemma hash_range id : (PMKID_HASH id < PMKID_HASH_SIZE)%nat.
Proof.
  unfold PMKID_HASH, PMKID_HASH_SIZE. change 0x7f with (Z.ones 7). rewrite Z.land_ones by lia.
  pose proof (Z.mod_pos_bound (get id 0) (2 ^ 7) ltac:(lia)). lia.
Qed.

(** *** Keeping entries *)

Lemma elem_of_keep f x l : x ∈ keep f l <-> f x = true /\ x ∈ l.
Proof. unfold keep. by rewrite list_elem_of_filter. Qed.

Lemma ids_keep_elem f q l : q ∈ ids (keep f l) -> q ∈ ids l.
Proof.
  unfold ids. rewrite !list_elem_of_fmap. intros (x & -> & Hx). apply elem_of_keep in Hx as [_ Hx].
  by exists x.
Qed.

Lemma keep_keep f g l : keep f (keep g l) = keep (fun x => f x && g x) l.
Proof.
  unfold keep. rewrite list_filter_filter. apply list_filter_iff. intros x.
  by rewrite andb_true_iff.
Qed.
Lemma keep_comm f g l : keep f (keep g l) = keep g (keep f l).
Proof. rewrite !keep_keep. unfold keep. apply list_filter_iff. intros x. by rewrite andb_comm. Qed.
Lemma keep_all f l : Forall (fun x => f x = true) l -> keep f l = l.
Proof.
  induction 1 as [|x l Hx _ IH]; [done|]. unfold keep in *. rewrite filter_cons_True by done.
  by rewrite IH.
Qed.
Lemma keep_app f l k : keep f (l ++ k) = keep f l ++ keep f k.
Proof. apply filter_app. Qed.
Lemma keep_nodup f l : NoDup (ids l) -> NoDup (ids (keep f l)).
Proof.
  induction l as [|x l IH]; [done|]. unfold keep, ids. cbn [fmap list_fmap]. intros Hn.
  apply NoDup_cons in Hn as [Hx Hn]. destruct (decide (f x = true)).
  - rewrite filter_cons_True by done. cbn [fmap list_fmap]. apply NoDup_cons. split; [|by apply IH].
    intros Hi. apply Hx. by apply (ids_keep_elem f).
  - rewrite filter_cons_False by done. by apply IH.
Qed.
Lemma keep_sorted f l : StronglySorted expires_first l -> StronglySorted expires_first (keep f l).
Proof.
  induction 1 as [|x l _ IH Hx]; [constructor|]. unfold keep. destruct (decide (f x = true)).
  - rewrite filter_cons_True by done. constructor; [done|]. rewrite Forall_forall in Hx |- *.
    intros y Hy. apply elem_of_keep in Hy as [_ Hy]. by apply Hx.
  - by rewrite filter_cons_False by done.
Qed.

Lemma keep_other_split p e l1 l2 :
  NoDup (ids (l1 ++ (p, e) :: l2)) -> keep (other_than p) (l1 ++ (p, e) :: l2) = l1 ++ l2.
Proof.
  intros Hn. unfold ids in Hn. rewrite fmap_app, fmap_cons in Hn.
  apply NoDup_app in Hn as (Hn1 & Hd & Hn2). apply NoDup_cons in Hn2 as [Hp _]. cbn [fst] in Hp.
  rewrite keep_app. unfold keep at 2.
  rewrite filter_cons_False by (unfold other_than; rewrite bool_decide_eq_true_2; done).
  f_equal; apply keep_all; apply Forall_forall; intros x Hx; unfold other_than;
    rewrite bool_decide_eq_false_2; try done; intros <-.
  - apply (Hd x.1); [by apply list_elem_of_fmap_2|]. by left.
  - apply Hp. by apply list_elem_of_fmap_2.
Qed.

Lemma keep_other_absent p l : p ∉ ids l -> keep (other_than p) l = l.
Proof.
  intros Hp. apply keep_all, Forall_forall. intros x Hx. unfold other_than.
  rewrite bool_decide_eq_false_2; [done|]. by apply (not_in_ids _ l).
Qed.

Lemma perm_keep f l k : l ≡ₚ k -> keep f l ≡ₚ keep f k.
Proof. intros H. unfold keep. by rewrite H. Qed.

Lemma ids_perm (l k : list aentry) : l ≡ₚ k -> ids l ≡ₚ ids k.
Proof. intros H. unfold ids. by rewrite H. Qed.

Lemma elem_of_ids_split p l : p ∈ ids l -> exists e l1 l2, l = l1 ++ (p, e) :: l2 /\ p ∉ ids l1.
Proof.
  intros Hp. apply (list_elem_of_fmap_1 fst) in Hp as ([q e] & -> & Hx). cbn [fst].
  induction l as [|[r er] l IH]; [by apply elem_of_nil in Hx|]. destruct (decide (r = q)) as [->|Hne].
  - exists er, [], l. split; [done|]. apply not_elem_of_nil.
  - apply elem_of_cons in Hx as [[= -> ->]|Hx]; [done|].
    destruct (IH Hx) as (e' & l1 & l2 & -> & Hn). exists e', ((r, er) :: l1), l2. split; [done|].
    cbn. apply not_elem_of_cons. by split.
Qed.

(** ** Freeing *)

Lemma stas_free p l s :
  Forall (fun q => forall r, q = Some r -> r ∈ ids (by_expiry s)) l ->
  NoDup (ids (by_expiry s)) ->
  ((fun q => if bool_decide (q = Some p) then None else q) <$> l)
  = ((fun q => match q with
               | Some r => if bool_decide (r ∈ ids (keep (other_than p) (by_expiry s))) then q else None
               | None => None end) <$> l).
Proof.
  intros Hl Hn. apply list_fmap_ext. intros i q Hiq. pose proof (Forall_lookup_1 _ _ _ _ Hl Hiq) as Hq.
  destruct q as [r|]; [|done]. specialize (Hq r eq_refl). destruct (decide (r = p)) as [->|Hne].
  - rewrite bool_decide_eq_true_2, bool_decide_eq_false_2; [done| |done]. intros Hi.
    apply (list_elem_of_fmap_1 fst) in Hi as (x & -> & Hx). apply elem_of_keep in Hx as [Hx _].
    unfold other_than in Hx. by rewrite bool_decide_eq_true_2 in Hx.
  - rewrite bool_decide_eq_false_2, bool_decide_eq_true_2; [done| |congruence].
    apply (list_elem_of_fmap_1 fst) in Hq as (x & -> & Hx). apply list_elem_of_fmap_2, elem_of_keep.
    split; [|done]. unfold other_than. by rewrite bool_decide_eq_false_2.
Qed.

Lemma live_keep f s :
  Forall (fun p => forall q, p = Some q -> q ∈ ids (by_expiry (a_keep f s))) (stas (a_keep f s)).
Proof.
  unfold a_keep. cbn [stas by_expiry]. apply Forall_fmap, Forall_true. intros [r|]; [|done].
  cbn. case_bool_decide; [by intros q [= <-]|done].
Qed.

(** Unlinking from one list leaves the chains over the other link alone. *)
Lemma unlinked_other lk lk2 h hd prev e pos l :
  (forall e p, link_get lk2 (link_set lk p e) = link_get lk2 e /\
               erase (link_set lk p e) = erase e) ->
  chain lk2 h pos l -> chain lk2 (unlinked lk h hd prev e).2 pos l.
Proof.
  intros Hok Hc. destruct prev as [q|]; [|done]. cbn [unlinked snd].
  apply chain_alter_other; [|done]. intros e'. apply Hok.
Qed.

Lemma next_hnext e p :
  link_get by_next (link_set by_hnext p e) = link_get by_next e /\ erase (link_set by_hnext p e) = erase e.
Proof. by destruct e. Qed.
Lemma hnext_next e p :
  link_get by_hnext (link_set by_next p e) = link_get by_hnext e /\ erase (link_set by_next p e) = erase e.
Proof. by destruct e. Qed.

Lemma passes_unlinked lk h hd prev e : passes (unlinked lk h hd prev e).2 = passes h.
Proof. destruct prev; [apply passes_alter|done]. Qed.
Lemma dom_unlinked lk h hd prev e : dom (unlinked lk h hd prev e).2 = dom h.
Proof. destruct prev; [apply dom_alter_L|done]. Qed.

(** An unlinked heap changes no entry off the list but its own link. *)
Lemma unlinked_out lk h hd l1 e q :
  q ∉ ids l1 -> (unlinked lk h hd (prev_of None l1) e).2 !! q = h !! q.
Proof.
  intros Hq. unfold prev_of. destruct (last l1) as [[r er]|] eqn:E; [|done]. cbn [unlinked snd].
  apply lookup_alter_ne. intros ->. apply Hq. apply last_Some in E as [l ->].
  unfold ids. rewrite fmap_app. apply elem_of_app. right. by left.
Qed.

Lemma unlinked_lookup lk h hd prev e q e0 :
  link_ok lk -> h !! q = Some e0 ->
  exists e1, (unlinked lk h hd prev e).2 !! q = Some e1 /\ erase e1 = erase e0.
Proof.
  intros Hok Hq. destruct prev as [r|]; [|by exists e0]. cbn [unlinked snd].
  destruct (decide (r = q)) as [->|].
  - rewrite lookup_alter_eq, Hq. eexists. split; [done|]. apply Hok.
  - rewrite lookup_alter_ne by done. by exists e0.
Qed.

Lemma keep_bucket_in i p e l :
  (p, e) ∈ l -> hash_of (p, e) = i -> (p, e) ∈ keep (in_bucket i) l.
Proof. intros Hx Hh. apply elem_of_keep. split; [|done]. by apply Nat.eqb_eq. Qed.

Lemma nodup_id_unique (l : list aentry) p e e2 :
  NoDup (ids l) -> (p, e) ∈ l -> (p, e2) ∈ l -> e = e2.
Proof.
  induction l as [|[q eq] l IH]; intros Hn H1 H2; [by apply elem_of_nil in H1|].
  apply NoDup_cons in Hn as [Hq Hn].
  apply elem_of_cons in H1 as [[= -> ->]|H1]; apply elem_of_cons in H2 as [[= ->]|H2]; subst; try done.
  - exfalso. apply Hq. by apply (list_elem_of_fmap_2 fst _ (q, e2)).
  - exfalso. apply Hq. by apply (list_elem_of_fmap_2 fst _ (q, e)).
  - by apply IH.
Qed.

Ltac cache_simpl :=
  cbn [heap bucket pmksa pmksa_count sta_pmksa timeout set set_heap set_bucket set_pmksa set_pmksa_count
       set_sta_pmksa set_timeout mbind option_bind fst snd].

Lemma free_entry_run w p e e' hd l1 l2 m1 m2 :
  chain by_next (heap w) (pmksa w) (l1 ++ (p, e) :: l2) -> p ∉ ids l1 ->
  NoDup (ids (l1 ++ (p, e) :: l2)) -> NoDup (ids (m1 ++ (p, e) :: m2)) ->
  bucket w !! PMKID_HASH (pmkid e') = Some hd ->
  chain by_hnext (heap w) hd (m1 ++ (p, e) :: m2) -> p ∉ ids m1 -> heap w !! p = Some e' ->
  let r1 := unlinked by_hnext (heap w) hd (prev_of None m1) e' in
  let r2 := unlinked by_next r1.2 (pmksa w) (prev_of None l1) e' in
  pmksa_cache_free_entry p w =
    Some (mk_cache (delete p r2.2) (<[PMKID_HASH (pmkid e') := r1.1]> (bucket w)) r2.1
            (Z.pred (pmksa_count w))
            ((fun q => if bool_decide (q = Some p) then None else q) <$> sta_pmksa w) (timeout w)).
Proof.
  intros Hl Hp1 Hn Hnb Hhd Hb Hm1 Hpe r1 r2.
  unfold pmksa_cache_free_entry, wpa_auth_pmksa_free_cb. cbv zeta. cache_simpl.
  rewrite Hpe. cache_simpl. rewrite Hhd. cache_simpl.
  pose proof (chain_passes _ _ _ _ Hb Hnb) as Hfb. rewrite length_app in Hfb.
  rewrite (unlink_spec by_hnext (passes (heap w)) _ hd p e e' m1 m2 hd None Hb Hm1 ltac:(lia) ltac:(done) Hpe).
  fold r1. rewrite (surjective_pairing r1). cache_simpl.
  assert (Hl' : chain by_next r1.2 (pmksa w) (l1 ++ (p, e) :: l2)).
  { by apply unlinked_other; [apply next_hnext|]. }
  assert (Hpe' : r1.2 !! p = Some e') by (unfold r1; by rewrite unlinked_out).
  pose proof (chain_passes _ _ _ _ Hl' Hn) as Hf. rewrite length_app in Hf.
  rewrite (unlink_spec by_next (passes r1.2) _ (pmksa w) p e e' l1 l2 _ None Hl' Hp1 ltac:(lia) ltac:(done) Hpe').
  fold r2. rewrite (surjective_pairing r2). by cache_simpl.
Qed.

Lemma keep_bucket_free i p l :
  keep (in_bucket i) (keep (other_than p) l) = keep (other_than p) (keep (in_bucket i) l).
Proof. apply keep_comm. Qed.

Lemma hash_other_bucket p e i l :
  NoDup (ids l) -> (p, e) ∈ l -> i <> hash_of (p, e) -> p ∉ ids (keep (in_bucket i) l).
Proof.
  intros Hn Hx Hi Hin. apply (list_elem_of_fmap_1 fst) in Hin as ([q e2] & -> & Hin).
  apply elem_of_keep in Hin as [Hb Hin]. cbn [fst] in *.
  rewrite (nodup_id_unique l q e e2) in Hi by done. apply Nat.eqb_eq in Hb. by rewrite Hb in Hi.
Qed.

Lemma chain_not_in_ids lk h h' pos l :
  (forall q, q ∈ ids l -> h' !! q = h !! q) -> chain lk h pos l -> chain lk h' pos l.
Proof. intros Hh. apply chain_not_in. intros x Hx. by apply Hh, list_elem_of_fmap_2. Qed.

Lemma buckets_disjoint i j q l :
  NoDup (ids l) -> q ∈ ids (keep (in_bucket i) l) -> q ∈ ids (keep (in_bucket j) l) -> i = j.
Proof.
  intros Hn Hi Hj. apply (list_elem_of_fmap_1 fst) in Hi as ([q1 e1] & -> & Hi).
  apply elem_of_keep in Hi as [Hbi Hi]. apply Nat.eqb_eq in Hbi as <-.
  destruct (decide (j = hash_of (q1, e1))) as [->|Hne]; [done|].
  exfalso. by apply (hash_other_bucket q1 e1 j l).
Qed.

(** Where an entry of the cache is on its two lists. *)
Lemma rep_split more w s p :
  rep more w s -> p ∈ ids (by_expiry s) ->
  exists e e' l1 l2 m1 m2 hd,
    by_expiry s = l1 ++ (p, e) :: l2 /\ p ∉ ids l1 /\ heap w !! p = Some e' /\ (p, e) ∈ by_age s /\
    PMKID_HASH (pmkid e') = hash_of (p, e) /\ bucket w !! hash_of (p, e) = Some hd /\
    keep (in_bucket (hash_of (p, e))) (by_age s) = m1 ++ (p, e) :: m2 /\ p ∉ ids m1 /\
    chain by_hnext (heap w) hd (m1 ++ (p, e) :: m2).
Proof.
  intros [Rl Rh _ Rp Rn _ _ _ _ _ _] Hp.
  destruct (elem_of_ids_split _ _ Hp) as (e & l1 & l2 & El & Hp1).
  assert (Hin : (p, e) ∈ by_expiry s) by (rewrite El; apply elem_of_app; right; left).
  destruct (chain_lookup _ _ _ _ (p, e) Rl Hin) as (e' & Hpe & He).
  assert (Hage : (p, e) ∈ by_age s) by (by rewrite Rp).
  assert (Hnage : NoDup (ids (by_age s))) by (by rewrite (ids_perm _ _ Rp)).
  destruct (Rh (hash_of (p, e)) (hash_range _)) as (hd & Hhd & Rchain).
  assert (Hbk : p ∈ ids (keep (in_bucket (hash_of (p, e))) (by_age s))).
  { apply (list_elem_of_fmap_2 fst _ (p, e)). by apply keep_bucket_in. }
  destruct (elem_of_ids_split _ _ Hbk) as (e0 & m1 & m2 & Em & Hm1).
  assert (e0 = e) as ->.
  { assert (Hin0 : (p, e0) ∈ keep (in_bucket (hash_of (p, e))) (by_age s)).
    { rewrite Em. apply elem_of_app. right. by left. }
    apply elem_of_keep in Hin0 as [_ Hin0]. by apply (nodup_id_unique (by_age s) p). }
  exists e, e', l1, l2, m1, m2, hd. split_and!; try done; [|by rewrite <- Em].
  unfold hash_of. cbn [snd] in He |- *. by rewrite <- He.
Qed.

Lemma not_in_split (p : positive) (e : rsn_pmksa_cache_entry) l1 l2 :
  NoDup (ids (l1 ++ (p, e) :: l2)) -> p ∉ ids (l1 ++ l2).
Proof.
  intros Hn Hp. rewrite <- (keep_other_split p e) in Hp by done.
  apply (list_elem_of_fmap_1 fst) in Hp as (x & -> & Hx). apply elem_of_keep in Hx as [Hx _].
  unfold other_than in Hx. by rewrite bool_decide_eq_true_2 in Hx.
Qed.

Lemma ids_keep_dom p e l1 l2 (more : gset positive) :
  NoDup (ids (l1 ++ (p, e) :: l2)) -> p ∉ more ->
  (list_to_set (ids (l1 ++ (p, e) :: l2)) ∪ more) ∖ {[p]}
  = list_to_set (ids (l1 ++ l2)) ∪ more.
Proof.
  intros Hn Hp. pose proof (not_in_split _ _ _ _ Hn) as Hout. revert Hout.
  unfold ids. rewrite !fmap_app, fmap_cons. cbn [fst]. intros Hout.
  apply set_eq. intros x. set_solver.
Qed.

(** [pmksa_cache_free_entry] of an entry of the cache takes it off the lists,
    clears the stations' pointers to it and frees it. *)
Lemma free_entry_rep more w s p :
  rep more w s -> p ∈ ids (by_expiry s) -> p ∉ more ->
  exists w', pmksa_cache_free_entry p w = Some w' /\ rep more w' (a_free p s) /\
    timeout w' = timeout w /\
    (forall q, q ∉ ids (by_expiry s) -> heap w' !! q = heap w !! q).
Proof.
  intros R Hp Hmore.
  destruct (rep_split _ _ _ _ R Hp) as (e & e' & l1 & l2 & m1 & m2 & hd & El & Hp1 & Hpe & Hage & Hi &
    Hhd & Em & Hm1 & Rc0). destruct R as [Rl Rh Rb Rp Rn Rs Rc Rst Rlive Rarm Rdom].
  assert (Hnage : NoDup (ids (by_age s))) by (by rewrite (ids_perm _ _ Rp)).
  pose proof Rl as Rl0. pose proof Rn as Rn0. rewrite El in Rl0, Rn0.
  pose proof (keep_nodup (in_bucket (hash_of (p, e))) _ Hnage) as Hnb. rewrite Em in Hnb.
  pose proof Hhd as Hhd0. rewrite <- Hi in Hhd0.
  eexists. split; [by apply (free_entry_run w p e e' hd l1 l2 m1 m2)|]. cache_simpl.
  set (r1 := unlinked by_hnext (heap w) hd (prev_of None m1) e').
  set (r2 := unlinked by_next r1.2 (pmksa w) (prev_of None l1) e').
  assert (Hout : forall q, q ∉ ids (by_expiry s) -> (delete p r2.2) !! q = heap w !! q).
  { intros q Hq. rewrite lookup_delete_ne by (intros ->; done). unfold r2.
    rewrite unlinked_out by (intros ?; apply Hq; rewrite El; unfold ids in *; set_solver).
    unfold r1. apply unlinked_out. intros Hm. apply Hq. rewrite <- (ids_perm _ _ Rp).
    apply (ids_keep_elem (in_bucket (hash_of (p, e)))). rewrite Em. unfold ids in *. set_solver. }
  split; [|by split].
  assert (Hr1p : r1.2 !! p = Some e') by (unfold r1; by rewrite unlinked_out).
  split; cache_simpl; unfold a_free, a_keep; cbn [by_expiry by_age stas].
  - rewrite El, keep_other_split by done. apply chain_delete_out; [by apply (not_in_split p e)|].
    apply (chain_unlinked by_next r1.2 (pmksa w) p e e'); [apply by_next_ok| |done..].
    apply unlinked_other; [apply next_hnext|done].
  - intros i Hir. rewrite keep_bucket_free, Hi. destruct (decide (i = hash_of (p, e))) as [->|Hne].
    + exists r1.1. split; [apply list_lookup_insert_eq; by rewrite Rb|].
      rewrite Em, keep_other_split by done. apply chain_delete_out; [by apply (not_in_split p e)|].
      apply unlinked_other; [apply hnext_next|].
      by apply (chain_unlinked by_hnext (heap w) hd p e e'); [apply by_hnext_ok|..].
    + destruct (Rh i Hir) as (hdi & Hhdi & Rci). exists hdi.
      rewrite list_lookup_insert_ne by done. split; [done|].
      pose proof (hash_other_bucket p e i _ Hnage Hage Hne) as Hpi.
      rewrite keep_other_absent by done. apply chain_delete_out; [done|].
      apply unlinked_other; [apply hnext_next|]. revert Rci. apply chain_not_in_ids.
      intros q Hq. apply unlinked_out. intros Hm. apply Hne.
      apply (buckets_disjoint i (hash_of (p, e)) q (by_age s)); [done..|]. rewrite Em.
      unfold ids in *. set_solver.
  - by rewrite length_insert.
  - by apply perm_keep.
  - by apply keep_nodup.
  - by apply keep_sorted.
  - rewrite El, keep_other_split, Rc, El, !length_app by done. cbn [length]. lia.
  - rewrite Rst. by apply stas_free.
  - apply (live_keep (other_than p) s).
  - intros Hne. apply Rarm. intros Hnil. apply Hne. by rewrite Hnil.
  - rewrite dom_delete_L. unfold r2, r1. rewrite !dom_unlinked, Rdom, El, keep_other_split by done.
    by apply ids_keep_dom.
Qed.
