(* ===== verification/PmksaRefine.v ===== *)
(** * The PMKSA cache: what its functions do to the lists

    For every function of [PmksaCache] the result and the new lists, given a
    heap that stands for some lists: loops end within their fuel and no pointer
    to a freed entry is followed. *)

From stdpp Require Import gmap sorting.
From S2P Require Import Prelude Bytes WpaKeys PmksaCache PmksaProofs.

(** ** Entries kept *)

Lemma ids_keep_In f x l : x ∈ l -> f x = true -> x.1 ∈ ids (keep f l).
Proof. intros Hx Hf. apply list_elem_of_fmap_2. by apply elem_of_keep. Qed.

Lemma keep_ext f g l : (forall x, x ∈ l -> f x = g x) -> keep f l = keep g l.
Proof.
  induction l as [|x l IH]; intros Hfg; [done|].
  assert (IHl : keep f l = keep g l) by (apply IH; intros y Hy; apply Hfg; by right).
  assert (Hx : f x = g x) by (apply Hfg; left). unfold keep in *. rewrite !filter_cons, Hx.
  case_decide; by rewrite IHl.
Qed.

Lemma a_keep_ext f g s :
  (forall x, x ∈ by_expiry s -> f x = g x) -> (forall x, x ∈ by_age s -> f x = g x) ->
  a_keep f s = a_keep g s.
Proof.
  intros H1 H2. unfold a_keep. by rewrite (keep_ext f g (by_expiry s)), (keep_ext f g (by_age s)).
Qed.

Lemma a_keep_keep f g s : a_keep f (a_keep g s) = a_keep (fun x => f x && g x) s.
Proof.
  unfold a_keep. cbn [by_expiry by_age stas]. rewrite !keep_keep. f_equal.
  rewrite <- list_fmap_compose. apply list_fmap_ext. intros _ [q|] _; [|done]. cbn [compose].
  destruct (decide (q ∈ ids (keep g (by_expiry s)))) as [Hin|Hout].
  - by rewrite (bool_decide_eq_true_2 (q ∈ ids (keep g _))).
  - rewrite (bool_decide_eq_false_2 (q ∈ ids (keep g _))) by done.
    rewrite bool_decide_eq_false_2; [done|]. intros Hin. apply Hout.
    rewrite <- keep_keep in Hin. by apply ids_keep_elem in Hin.
Qed.

Lemma a_keep_all f more w s :
  rep more w s -> (forall x, x ∈ by_expiry s -> f x = true) -> a_keep f s = s.
Proof.
  intros R Hf. unfold a_keep.
  assert (He : keep f (by_expiry s) = by_expiry s) by (apply keep_all; by apply Forall_forall).
  rewrite He, (keep_all f (by_age s)).
  - destruct s as [a b l]. f_equal. rewrite <- (list_fmap_id l) at 2.
    apply list_fmap_ext. intros i p Hp.
    pose proof (Forall_lookup_1 _ _ _ _ (rep_live _ _ _ R) Hp) as Hl. cbn in Hl |- *.
    destruct p as [q|]; [|done]. by rewrite bool_decide_eq_true_2 by by apply Hl.
  - apply Forall_forall. intros x Hx. apply Hf. by rewrite <- (rep_perm _ _ _ R).
Qed.

(** Freeing an entry that is not kept anyway. *)
Lemma a_keep_free f more w s p e :
  rep more w s -> (p, e) ∈ by_expiry s -> f (p, e) = false -> a_keep f (a_free p s) = a_keep f s.
Proof.
  intros R Hp Hf. unfold a_free. rewrite a_keep_keep.
  assert (Hx : forall x, x ∈ by_expiry s -> f x && other_than p x = f x).
  { intros [q eq] Hx. unfold other_than. cbn [fst]. case_bool_decide as Hq; [|by rewrite andb_true_r].
    subst q. rewrite (nodup_id_unique (by_expiry s) p eq e), Hf by (done || apply (rep_nodup _ _ _ R)).
    done. }
  apply a_keep_ext; [done|]. intros x Hx'. apply Hx. by rewrite <- (rep_perm _ _ _ R).
Qed.

Lemma rep_fuel more w s : rep more w s -> (length (by_expiry s) < passes (heap w))%nat.
Proof.
  intros R. apply (chain_passes by_next (heap w) (pmksa w)); [apply (rep_list _ _ _ R)|].
  apply (rep_nodup _ _ _ R).
Qed.

(** What the loops preserve besides [rep]. *)
Definition frame (more : gset positive) (w w' : W) : Prop :=
  timeout w' = timeout w /\ forall q, q ∈ more -> heap w' !! q = heap w !! q.

Lemma frame_refl more w : frame more w w. Proof. done. Qed.
Lemma frame_trans more w1 w2 w3 : frame more w1 w2 -> frame more w2 w3 -> frame more w1 w3.
Proof.
  intros [T1 H1] [T2 H2]. split; [by rewrite T2|]. intros q Hq. by rewrite H2, H1.
Qed.

(** The entries allocated and not linked are not on the lists. *)
Definition apart (more : gset positive) (s : acache) : Prop :=
  forall q, q ∈ more -> q ∉ ids (by_expiry s).
Lemma apart_keep f more s : apart more s -> apart more (a_keep f s).
Proof. intros Ha q Hq Hi. apply (Ha q Hq). by apply ids_keep_elem in Hi. Qed.

Lemma free_entry_holds more w s p :
  rep more w s -> apart more s -> p ∈ ids (by_expiry s) ->
  exists w', pmksa_cache_free_entry p w = Some w' /\ rep more w' (a_free p s) /\ frame more w w'.
Proof.
  intros R Ha Hp. destruct (free_entry_rep more w s p R Hp) as (w' & E & R' & Ht & Hh).
  { intros Hm. by apply (Ha p). }
  exists w'. split_and!; [done..|]. split; [done|]. intros q Hq. apply Hh. by apply Ha.
Qed.

Lemma rep_head more w s p e l :
  rep more w s -> by_expiry s = (p, e) :: l ->
  pmksa w = Some p /\ exists e', heap w !! p = Some e' /\ erase e' = e.
Proof.
  intros R E. pose proof (rep_list _ _ _ R) as Hc. rewrite E in Hc.
  destruct Hc as (-> & e' & Hp & He & _). split; [done|]. by exists e'.
Qed.

Lemma a_free_head more w s p e l :
  rep more w s -> by_expiry s = (p, e) :: l -> by_expiry (a_free p s) = l.
Proof.
  intros R E. unfold a_free, a_keep. cbn [by_expiry].
  pose proof (rep_nodup _ _ _ R) as Hn. rewrite E in Hn |- *. apply (keep_other_split p e [] l Hn).
Qed.

(** ** Flushing, expiring, disconnecting *)

Lemma rep_nil more w s : rep more w s -> by_expiry s = [] -> pmksa w = None.
Proof. intros R E. pose proof (rep_list _ _ _ R) as Hc. by rewrite E in Hc. Qed.

Lemma erase_expiration e : expiration (erase e) = expiration e. Proof. by destruct e. Qed.

(** A loop that frees the first entry until it may stay. *)
Lemma free_heads more (stop : aentry -> bool) (loop : nat -> W -> option W) :
  (forall fuel w s x l, rep more w s -> by_expiry s = x :: l -> stop x = false ->
     loop (S fuel) w = (w ← pmksa_cache_free_entry x.1 w; loop fuel w)) ->
  (forall fuel w s, rep more w s -> match by_expiry s with [] => True | x :: _ => stop x = true end ->
     loop (S fuel) w = Some w) ->
  (forall x y, expires_first x y -> stop x = true -> stop y = true) ->
  forall fuel w s, rep more w s -> apart more s -> (length (by_expiry s) < fuel)%nat ->
  exists w', loop fuel w = Some w' /\ rep more w' (a_keep stop s) /\ frame more w w'.
Proof.
  intros Hgo Hstop Hmono. induction fuel as [|fuel IH]; intros w s R Ha Hf; [lia|].
  destruct (by_expiry s) as [|[p e] l] eqn:E.
  - exists w. split_and!; [by apply (Hstop _ _ s); [|rewrite E]| |apply frame_refl].
    rewrite (a_keep_all stop more w s R); [done|]. rewrite E. intros x Hx. by apply elem_of_nil in Hx.
  - destruct (stop (p, e)) eqn:Es.
    + exists w. split_and!; [by apply (Hstop _ _ s); [|rewrite E]| |apply frame_refl].
      rewrite (a_keep_all stop more w s R); [done|]. rewrite E. intros x Hx.
      apply elem_of_cons in Hx as [->|Hx]; [done|]. apply (Hmono (p, e)); [|done].
      pose proof (rep_sorted _ _ _ R) as Hs. rewrite E in Hs. apply StronglySorted_inv in Hs as [_ Hs].
      rewrite Forall_forall in Hs. by apply Hs.
    + rewrite (Hgo _ _ s (p, e) l R E Es).
      destruct (free_entry_holds more w s p R Ha) as (w1 & Ew & R1 & F1); [rewrite E; left|].
      cbn [fst]. rewrite Ew. cbn [mbind option_bind].
      destruct (IH w1 (a_free p s) R1) as (w2 & Ew2 & R2 & F2).
      * by apply apart_keep.
      * rewrite (a_free_head _ _ _ _ _ _ R E). cbn [length] in Hf. lia.
      * exists w2. split_and!; [done| |by apply (frame_trans _ _ w1)].
        erewrite <- a_keep_free; [exact R2|exact R| |exact Es]. rewrite E. left.
Qed.

Lemma auth_flush_holds more w s :
  rep more w s -> apart more s ->
  exists w', pmksa_cache_auth_flush w = Some w' /\ rep more w' (a_keep (fun _ => false) s) /\
    frame more w w'.
Proof.
  intros R Ha. apply (free_heads more (fun _ => false) flush_loop);
    [| |done|done|done|by apply (rep_fuel more)]; clear w s R Ha.
  - intros fuel w s [p e] l R E _. cbn [flush_loop fst].
    by destruct (rep_head _ _ _ _ _ _ R E) as [-> _].
  - intros fuel w s R E. cbn [flush_loop]. destruct (by_expiry s) as [|x l] eqn:El; [|done].
    by rewrite (rep_nil _ _ _ R El).
Qed.

Definition not_expired (now : Z) (x : aentry) : bool := now <? expiration x.2.

Lemma expire_loop_holds more now w s :
  rep more w s -> apart more s ->
  exists w', expire_loop (passes (heap w)) now w = Some w' /\
    rep more w' (a_keep (not_expired now) s) /\ frame more w w'.
Proof.
  intros R Ha. apply (free_heads more (not_expired now) (fun fuel => expire_loop fuel now));
    [| | |done|done|by apply (rep_fuel more)]; clear w s R Ha; unfold not_expired.
  - intros fuel w s [p e] l R E Hs. cbn [expire_loop fst snd] in *.
    destruct (rep_head _ _ _ _ _ _ R E) as (-> & e' & -> & <-). rewrite erase_expiration in Hs.
    cbn [mbind option_bind]. destruct (Z.leb_spec (expiration e') now); [done|].
    apply Z.ltb_ge in Hs; lia.
  - intros fuel w s R Hs. cbn [expire_loop]. destruct (by_expiry s) as [|[p e] l] eqn:E.
    + by rewrite (rep_nil _ _ _ R E).
    + destruct (rep_head _ _ _ _ _ _ R E) as (-> & e' & -> & <-). cbn [snd] in Hs.
      rewrite erase_expiration in Hs. cbn [mbind option_bind].
      apply Z.ltb_lt in Hs. destruct (Z.leb_spec (expiration e') now); [lia|done].
  - unfold expires_first. intros x y Hxy Hx. apply Z.ltb_lt in Hx. apply Z.ltb_lt. lia.
Qed.

(** When the timeout is due that [pmksa_cache_set_expiration] registers. *)
Definition due (now : Z) (l : list aentry) : option Z :=
  match l with
  | [] => None
  | x :: _ => Some (now + (Z.max 0 (i32 (expiration x.2 - now)) + 1))
  end.

Lemma set_expiration_holds more now w s :
  rep more w s ->
  exists w', pmksa_cache_set_expiration now w = Some w' /\ rep more w' s /\ heap w' = heap w /\
    timeout w' = due now (by_expiry s).
Proof.
  intros R. unfold pmksa_cache_set_expiration. cbv zeta. cache_simpl.
  destruct (by_expiry s) as [|[p e] l] eqn:E; cbn [due].
  - rewrite (rep_nil _ _ _ R E). eexists. split_and!; [done| |done|done].
    destruct R. split; cache_simpl; try done.
  - destruct (rep_head _ _ _ _ _ _ R E) as (-> & e' & -> & <-). cbn [mbind option_bind snd].
    rewrite erase_expiration. eexists. split_and!; [done| |done|].
    + destruct R. split; cache_simpl; done.
    + cache_simpl. do 3 f_equal. destruct (Z.ltb_spec (i32 (expiration e' - now)) 0); lia.
Qed.

Lemma expire_holds more now w s :
  rep more w s -> apart more s ->
  exists w', pmksa_cache_expire now w = Some w' /\ rep more w' (a_keep (not_expired now) s) /\
    timeout w' = due now (keep (not_expired now) (by_expiry s)) /\
    (forall q, q ∈ more -> heap w' !! q = heap w !! q).
Proof.
  intros R Ha. destruct (expire_loop_holds more now w s R Ha) as (w1 & E1 & R1 & _ & F1).
  destruct (set_expiration_holds more now w1 _ R1) as (w2 & E2 & R2 & H2 & T2).
  exists w2. unfold pmksa_cache_expire. rewrite E1. cbn [mbind option_bind].
  split_and!; [done..|]. intros q Hq. by rewrite H2, F1.
Qed.

Lemma chain_next lk h pos l1 p e l2 :
  chain lk h pos (l1 ++ (p, e) :: l2) ->
  exists e', h !! p = Some e' /\ erase e' = e /\ link_get lk e' = head_ptr l2.
Proof.
  intros Hc. destruct (chain_split _ _ _ _ _ Hc) as (pos' & Hc').
  destruct Hc' as (_ & e' & Hp & He & Hc'). exists e'. split_and!; [done..|]. by apply chain_head in Hc'.
Qed.

Lemma das_attr_match_erase e attr : das_attr_match (erase e) attr = das_attr_match e attr.
Proof. by destruct e. Qed.

Definition das_matches (attr : radius_das_attrs) (x : aentry) : bool :=
  negb (das_attr_match x.2 attr =? 0).
Definition das_keeps (attr : radius_das_attrs) (x : aentry) : bool := negb (das_matches attr x).

Lemma keep_cons f x l : keep f (x :: l) = if f x then x :: keep f l else keep f l.
Proof. unfold keep. rewrite filter_cons. destruct (f x); by case_decide. Qed.

Lemma das_loop_holds more attr w s fuel ahead rest found :
  rep more w s -> apart more s -> by_expiry s = ahead ++ rest ->
  Forall (fun x => das_matches attr x = false) ahead -> (length rest < fuel)%nat ->
  exists w', das_loop fuel attr (head_ptr rest) found w
             = Some (found + Z.of_nat (length (keep (das_matches attr) rest)), w') /\
    rep more w' (a_keep (das_keeps attr) s) /\ frame more w w'.
Proof.
  revert w s ahead rest found. induction fuel as [|fuel IH]; intros w s ahead rest found R Ha E Hd Hf;
    [lia|].
  destruct rest as [|[p e] rest]; cbn [das_loop head_ptr head fmap option_fmap option_map fst].
  - exists w. split_and!; [by rewrite Z.add_0_r| |apply frame_refl].
    rewrite (a_keep_all (das_keeps attr) more w s R); [done|]. rewrite E, app_nil_r.
    intros x Hx. rewrite Forall_forall in Hd. unfold das_keeps. by rewrite Hd.
  - pose proof (rep_list _ _ _ R) as Hc. rewrite E in Hc.
    destruct (chain_next _ _ _ _ _ _ _ Hc) as (e' & -> & He & Hn). cbn [link_get by_next] in Hn.
    cbn [mbind option_bind]. rewrite Hn, <- (das_attr_match_erase e'), He.
    change (negb (das_attr_match e attr =? 0)) with (das_matches attr (p, e)).
    cbn [length] in Hf. rewrite keep_cons. destruct (das_matches attr (p, e)) eqn:Em.
    + assert (Hin : (p, e) ∈ by_expiry s) by (rewrite E; apply elem_of_app; right; left).
      destruct (free_entry_holds more w s p R Ha) as (w1 & Ew & R1 & F1).
      { by apply (list_elem_of_fmap_2 fst _ (p, e)). }
      rewrite Ew. cbn [mbind option_bind].
      destruct (IH w1 (a_free p s) ahead rest (found + 1) R1) as (w2 & Ew2 & R2 & F2);
        [by apply apart_keep| |done|lia|].
      * unfold a_free, a_keep. cbn [by_expiry]. pose proof (rep_nodup _ _ _ R) as Hnd.
        rewrite E in Hnd |- *. by apply keep_other_split.
      * exists w2. rewrite Ew2. cbn [length]. split_and!; [|..|by apply (frame_trans _ _ w1)].
        -- do 2 f_equal. lia.
        -- erewrite <- a_keep_free; [exact R2|exact R|exact Hin|]. unfold das_keeps. by rewrite Em.
    + apply (IH w s (ahead ++ [(p, e)]) rest found); [done|done| | |lia].
      * by rewrite <- app_assoc.
      * apply Forall_app. split; [done|]. by constructor.
Qed.

Lemma das_disconnect_holds more attr w s :
  rep more w s -> apart more s ->
  exists w', pmksa_cache_auth_radius_das_disconnect attr w
    = Some (match das_acct_session_id attr with
            | Some _ => -1
            | None => if existsb (das_matches attr) (by_expiry s) then 0 else -1
            end, w') /\
    rep more w' (match das_acct_session_id attr with
                 | Some _ => s
                 | None => a_keep (das_keeps attr) s end) /\ frame more w w'.
Proof.
  intros R Ha. unfold pmksa_cache_auth_radius_das_disconnect.
  destruct (das_acct_session_id attr); [by exists w|].
  pose proof (chain_head _ _ _ _ (rep_list _ _ _ R)) as ->.
  destruct (das_loop_holds more attr w s (passes (heap w)) [] (by_expiry s) 0) as (w' & -> & R' & F');
    [done..|by apply (rep_fuel more)|].
  exists w'. cbn [mbind option_bind]. split_and!; [|done..]. do 2 f_equal. rewrite Z.add_0_l.
  clear. induction (by_expiry s) as [|x l IH]; [done|]. rewrite keep_cons. cbn [existsb].
  by destruct (das_matches attr x).
Qed.

(** ** Looking up *)

Lemma find_in_holds lk f fuel h pos l :
  (forall e, f (erase e) = f e) -> chain lk h pos l -> (length l < fuel)%nat ->
  find_in lk f fuel h pos = Some (first_of f l).
Proof.
  intros Hf. revert pos l. induction fuel as [|fuel IH]; intros pos l Hc Hl; [lia|].
  destruct l as [|[p e] l]; cbn [chain find_in] in *; [by rewrite Hc|].
  destruct Hc as (-> & e' & -> & He & Hc). cbn [mbind option_bind]. rewrite <- Hf, He.
  unfold first_of. rewrite keep_cons. cbn [snd]. destruct (f e); [done|].
  apply IH; [done|]. cbn [length] in Hl. lia.
Qed.

(** What a lookup in the cache returns. *)
Definition a_get (spa0 pmkid0 : option bytes) (s : acache) : ptr :=
  match pmkid0 with
  | None => first_of (matches_spa spa0) (by_expiry s)
  | Some id => first_of (fun e => matches_spa spa0 e && same PMKID_LEN (pmkid e) id) (by_age s)
  end.

Lemma same_spec n a b : same n a b = true <-> take n a = take n b.
Proof. apply bool_decide_eq_true. Qed.

Lemma get_take_0 n l : (0 < n)%nat -> get (take n l) 0 = get l 0.
Proof. intros Hn. destruct n, l; done || lia. Qed.

Lemma same_hash a b : same PMKID_LEN a b = true -> PMKID_HASH a = PMKID_HASH b.
Proof.
  intros H. apply same_spec in H. unfold PMKID_HASH.
  rewrite <- (get_take_0 PMKID_LEN a), H, get_take_0; [done|unfold PMKID_LEN; lia..].
Qed.

Lemma first_of_bucket f i l :
  (forall e, f e = true -> PMKID_HASH (pmkid e) = i) ->
  first_of f (keep (in_bucket i) l) = first_of f l.
Proof.
  intros Hf. unfold first_of. f_equal. f_equal. rewrite keep_keep. apply keep_ext. intros x _.
  unfold in_bucket, hash_of. destruct (f x.2) eqn:E; [|done]. by rewrite (Hf _ E), Nat.eqb_refl.
Qed.

Lemma erase_spa e : spa (erase e) = spa e. Proof. by destruct e. Qed.
Lemma erase_pmkid e : pmkid (erase e) = pmkid e. Proof. by destruct e. Qed.

Lemma match_erase spa0 id e :
  matches_spa spa0 (erase e) && same PMKID_LEN (pmkid (erase e)) id
  = matches_spa spa0 e && same PMKID_LEN (pmkid e) id.
Proof. by destruct e. Qed.

Lemma length_keep f (l : list aentry) : (length (keep f l) <= length l)%nat.
Proof. apply length_filter. Qed.

Lemma auth_get_holds more w s spa0 pmkid0 :
  rep more w s -> pmksa_cache_auth_get spa0 pmkid0 w = Some (a_get spa0 pmkid0 s).
Proof.
  intros R. pose proof (rep_fuel _ _ _ R) as Hf. unfold pmksa_cache_auth_get, a_get.
  destruct pmkid0 as [id|].
  - destruct (rep_hash _ _ _ R (PMKID_HASH id) (hash_range _)) as (hd & -> & Hc).
    cbn [mbind option_bind].
    rewrite (find_in_holds by_hnext _ _ _ _ _ (match_erase spa0 id) Hc).
    + f_equal. apply first_of_bucket. intros e He. apply andb_true_iff in He as [_ He].
      by apply same_hash.
    + pose proof (length_keep (in_bucket (PMKID_HASH id)) (by_age s)) as Hk.
      rewrite (Permutation_length (rep_perm _ _ _ R)) in Hk. lia.
  - apply find_in_holds; [|apply (rep_list _ _ _ R)|done]. intros e. by destruct e.
Qed.

(** ** Linking a new entry *)

Lemma link_position_holds exp fuel h pos prev l :
  chain by_next h pos l -> (length l < fuel)%nat ->
  forall p e, expiration e = exp ->
  exists l1 l2, l = l1 ++ l2 /\ insert_expiry (p, e) l = l1 ++ (p, e) :: l2 /\
    link_position fuel h exp pos prev = Some (prev_of prev l1).
Proof.
  revert pos prev l. induction fuel as [|fuel IH]; intros pos prev l Hc Hl p e He; [lia|].
  destruct l as [|[q eq] l]; cbn [chain link_position insert_expiry snd] in *.
  - exists [], []. by rewrite Hc.
  - destruct Hc as (-> & e' & -> & Heq & Hc). cbn [mbind option_bind]. rewrite He, <- Heq, erase_expiration.
    destruct (exp <? expiration e').
    + exists [], ((q, erase e') :: l). done.
    + cbn [length] in Hl. destruct (IH (next e') (Some q) l Hc ltac:(lia) p e He) as (l1 & l2 & -> & -> & ->).
      exists ((q, erase e') :: l1), l2. by rewrite prev_of_cons.
Qed.

(** The head and the heap with [p] after [prev]. *)
Definition linked (h : heap_of) (hd prev : ptr) (p : positive) (e : rsn_pmksa_cache_entry) : ptr * heap_of :=
  match prev with
  | None => (Some p, <[p := e <| next := hd |>]> h)
  | Some q =>
    (hd, alter (fun eq => eq <| next := Some p |>) q
           (<[p := e <| next := default None (next <$> h !! q) |>]> h))
  end.

Lemma last_head (l : list aentry) q eq : last l = Some (q, eq) -> q ∈ ids l.
Proof.
  intros E. apply last_Some in E as [l' ->]. apply (list_elem_of_fmap_2 fst _ (q, eq)).
  apply elem_of_app. right. by left.
Qed.

Lemma chain_linked h hd p e l1 l2 :
  chain by_next h hd (l1 ++ l2) -> NoDup (ids (l1 ++ l2)) -> p ∉ ids (l1 ++ l2) ->
  let r := linked h hd (prev_of None l1) p e in
  chain by_next r.2 r.1 (l1 ++ (p, erase e) :: l2).
Proof.
  revert hd. induction l1 as [|[q eq] l1 IH]; intros hd Hc Hn Hp; cbv zeta.
  - cbn [app] in *. change (prev_of None []) with (@None positive). cbn [linked fst snd chain].
    split; [done|]. eexists. rewrite lookup_insert_eq.
    split_and!; [done|by destruct e|]. by apply chain_insert_out.
  - rewrite prev_of_cons. cbn [app ids fmap list_fmap] in Hn, Hp.
    apply NoDup_cons in Hn as [Hqn Hn]. apply not_elem_of_cons in Hp as [Hpq Hp].
    cbn [app chain] in Hc. destruct Hc as (-> & e2 & Hq & Heq & Hc).
    destruct (last l1) as [[r er]|] eqn:El.
    + assert (Er : prev_of (Some q) l1 = Some r) by (unfold prev_of; by rewrite El).
      assert (Er' : prev_of None l1 = Some r) by (unfold prev_of; by rewrite El).
      specialize (IH _ Hc Hn Hp). cbv zeta in IH. rewrite Er' in IH. rewrite Er.
      cbn [linked fst snd app chain] in IH |- *. split; [done|]. exists e2.
      assert (r <> q).
      { intros ->. apply Hqn. unfold ids. rewrite fmap_app. apply elem_of_app. left.
        by apply last_head in El. }
      rewrite lookup_alter_ne, lookup_insert_ne by done. by split_and!.
    + apply last_None in El as ->. change (prev_of (Some q) []) with (Some q).
      cbn [linked fst snd app chain] in *. split; [done|]. rewrite Hq. cbn [fmap option_fmap option_map default].
      exists (e2 <| next := Some p |>). rewrite lookup_alter_eq, lookup_insert_ne, Hq by done.
      split_and!; [done|by destruct e2|done|]. eexists.
      rewrite lookup_alter_ne, lookup_insert_eq by done. split_and!; [done|by destruct e|].
      apply chain_alter_out; [done|]. by apply chain_insert_out.
Qed.

Lemma elem_of_insert_expiry x y l : y ∈ insert_expiry x l <-> y = x \/ y ∈ l.
Proof.
  induction l as [|z l IH]; cbn [insert_expiry]; [by rewrite list_elem_of_singleton, elem_of_nil; tauto|].
  case_match; rewrite !elem_of_cons; [done|]. rewrite IH. tauto.
Qed.

Lemma insert_expiry_perm x l : insert_expiry x l ≡ₚ x :: l.
Proof.
  induction l as [|y l IH]; cbn [insert_expiry]; [done|]. case_match; [done|].
  rewrite IH. apply perm_swap.
Qed.

Lemma insert_expiry_sorted x l :
  StronglySorted expires_first l -> StronglySorted expires_first (insert_expiry x l).
Proof.
  induction 1 as [|y l Hs IH Hy]; cbn [insert_expiry]; [by repeat constructor|].
  destruct (Z.ltb_spec (expiration x.2) (expiration y.2)) as [Hlt|Hge].
  - constructor; [by constructor|]. constructor; [unfold expires_first; lia|].
    eapply Forall_impl; [exact Hy|]. unfold expires_first. intros z Hz. lia.
  - constructor; [done|]. apply Forall_forall. intros z Hz. apply elem_of_insert_expiry in Hz as [->|Hz].
    + exact Hge.
    + rewrite Forall_forall in Hy. by apply Hy.
Qed.

Lemma linked_other h hd prev p e pos l :
  p ∉ ids l -> chain by_hnext h pos l -> chain by_hnext (linked h hd prev p e).2 pos l.
Proof.
  intros Hp Hc. destruct prev as [q|]; cbn [linked snd]; [|by apply chain_insert_out].
  apply chain_alter_other; [by intros []|]. by apply chain_insert_out.
Qed.

Lemma linked_at h hd l1 p e :
  p ∉ ids l1 ->
  exists e', (linked h hd (prev_of None l1) p e).2 !! p = Some e' /\ erase e' = erase e.
Proof.
  intros Hp. unfold prev_of. destruct (last l1) as [[q eq]|] eqn:E; cbn [linked snd].
  - rewrite lookup_alter_ne by (intros ->; apply last_head in E; done). rewrite lookup_insert_eq.
    eexists. split; [done|]. by destruct e.
  - rewrite lookup_insert_eq. eexists. split; [done|]. by destruct e.
Qed.

Lemma linked_out h hd l1 p e q :
  q <> p -> q ∉ ids l1 -> (linked h hd (prev_of None l1) p e).2 !! q = h !! q.
Proof.
  intros Hqp Hq. unfold prev_of. destruct (last l1) as [[r er]|] eqn:E; cbn [linked snd].
  - rewrite lookup_alter_ne, lookup_insert_ne; [done|done|].
    intros ->. apply last_head in E. done.
  - by rewrite lookup_insert_ne.
Qed.

Lemma dom_linked h hd l1 p e : p ∈ dom h -> dom (linked h hd (prev_of None l1) p e).2 = dom h.
Proof.
  intros Hp. assert (Hd : forall x, dom (<[p := x]> h) = dom h).
  { intros x. rewrite dom_insert_L. set_solver. }
  unfold prev_of. destruct (last l1) as [[q eq]|]; cbn [linked snd]; [by rewrite dom_alter_L, Hd|done].
Qed.

(** The cache after an entry was linked, but for the timeout. *)
Definition link_state (w : W) (p : positive) (e : rsn_pmksa_cache_entry) (prev hd : ptr) : W :=
  let r := linked (heap w) (pmksa w) prev p e in
  mk_cache (alter (fun e => e <| hnext := hd |>) p r.2)
    (<[PMKID_HASH (pmkid e) := Some p]> (bucket w)) r.1 (Z.succ (pmksa_count w)) (sta_pmksa w) (timeout w).

Lemma link_entry_run now w p e hd prev :
  heap w !! p = Some e -> bucket w !! PMKID_HASH (pmkid e) = Some hd ->
  link_position (passes (heap w)) (heap w) (expiration e) (pmksa w) None = Some prev ->
  (forall q, prev = Some q -> is_Some (heap w !! q)) ->
  pmksa_cache_link_entry now p w
  = match prev with
    | None => pmksa_cache_set_expiration now (link_state w p e None hd)
    | Some q => Some (link_state w p e (Some q) hd)
    end.
Proof.
  intros Hp Hhd Hpos Hq. unfold pmksa_cache_link_entry. rewrite Hp. cbn [mbind option_bind].
  rewrite Hpos. cbn [mbind option_bind]. destruct prev as [q|]; cache_simpl.
  - destruct (Hq q eq_refl) as [eq Heq]. rewrite Heq. cache_simpl. rewrite Hhd. cache_simpl.
    unfold link_state. cbn [linked fst snd]. by rewrite Heq.
  - rewrite Hhd. by cache_simpl.
Qed.

Lemma keep_bucket_cons i p e l :
  keep (in_bucket i) ((p, e) :: l)
  = if decide (i = PMKID_HASH (pmkid e)) then (p, e) :: keep (in_bucket i) l else keep (in_bucket i) l.
Proof.
  rewrite keep_cons. unfold in_bucket, hash_of. cbn [snd].
  case_decide as Hd; case_match eqn:Hb; try done.
  - apply Nat.eqb_neq in Hb. congruence.
  - apply Nat.eqb_eq in Hb. congruence.
Qed.

Lemma link_state_rep more w s p e l1 l2 hd t :
  rep more w s -> apart more s -> p ∈ more -> heap w !! p = Some e ->
  by_expiry s = l1 ++ l2 -> insert_expiry (p, erase e) (by_expiry s) = l1 ++ (p, erase e) :: l2 ->
  bucket w !! PMKID_HASH (pmkid e) = Some hd -> is_Some t ->
  rep (more ∖ {[p]}) ((link_state w p e (prev_of None l1) hd) <| timeout := t |>) (a_link p (erase e) s).
Proof.
  intros R Ha Hp Hpe El Eins Hhd Ht. destruct R as [Rl Rh Rb Rp Rn Rs Rc Rst Rlive Rarm Rdom].
  pose proof (Ha p Hp) as Hout. assert (Hout1 : p ∉ ids l1).
  { intros H. apply Hout. rewrite El. unfold ids in *. rewrite fmap_app. apply elem_of_app. by left. }
  assert (Hage : p ∉ ids (by_age s)) by (by rewrite (ids_perm _ _ Rp)).
  assert (Hf : forall e' : rsn_pmksa_cache_entry, erase (e' <| hnext := hd |>) = erase e') by by intros [].
  unfold link_state. split; cache_simpl; unfold a_link; cbn [by_expiry by_age stas].
  - rewrite Eins. apply chain_alter_other; [by intros []|].
    apply chain_linked; rewrite <- El; done.
  - intros i Hi. rewrite keep_bucket_cons, erase_pmkid. case_decide as Hd.
    + subst i. exists (Some p). rewrite list_lookup_insert_eq by by rewrite Rb.
      split; [done|]. cbn [chain]. split; [done|].
      destruct (linked_at (heap w) (pmksa w) l1 p e Hout1) as (e' & Hp' & He').
      eexists. rewrite lookup_alter_eq, Hp'. split_and!; [done|by rewrite Hf|].
      destruct (Rh _ Hi) as (hd' & Hhd' & Hc). rewrite Hhd in Hhd'. injection Hhd' as <-.
      cbn [link_get by_hnext]. change (hnext (e' <| hnext := hd |>)) with hd.
      assert (Hk : p ∉ ids (keep (in_bucket (PMKID_HASH (pmkid e))) (by_age s)))
        by (intros H; by apply ids_keep_elem in H).
      apply chain_alter_out; [done|]. by apply linked_other.
    + destruct (Rh i Hi) as (hd' & Hhd' & Hc). exists hd'.
      rewrite list_lookup_insert_ne by done. split; [done|].
      assert (Hk : p ∉ ids (keep (in_bucket i) (by_age s)))
        by (intros H; by apply ids_keep_elem in H).
      apply chain_alter_out; [done|]. by apply linked_other.
  - by rewrite length_insert.
  - by rewrite insert_expiry_perm, Rp.
  - rewrite (ids_perm _ _ (insert_expiry_perm _ _)). by apply NoDup_cons.
  - by apply insert_expiry_sorted.
  - rewrite (Permutation_length (insert_expiry_perm _ _)), Rc. cbn [length]. lia.
  - done.
  - eapply Forall_impl; [exact Rlive|]. intros q Hq r Hr. cbn in Hq. specialize (Hq r Hr).
    rewrite (ids_perm _ _ (insert_expiry_perm _ _)). by right.
  - done.
  - rewrite dom_alter_L, dom_linked, Rdom by by apply elem_of_dom_2 in Hpe.
    unfold ids. rewrite (fmap_Permutation fst _ _ (insert_expiry_perm (p, erase e) (by_expiry s))).
    rewrite fmap_cons. cbn [fst list_to_set]. apply set_eq. intros x.
    destruct (decide (x = p)) as [->|Hxp]; [clear -Hp|clear -Hxp]; set_solver.
Qed.

(** When the timeout is due after an entry was linked. *)
Definition link_due (now : Z) (p : positive) (l : list aentry) (t : option Z) : option Z :=
  if decide (head_ptr l = Some p) then due now l else t.

Lemma link_entry_holds more now w s p e :
  rep more w s -> apart more s -> p ∈ more -> heap w !! p = Some e ->
  exists w', pmksa_cache_link_entry now p w = Some w' /\
    rep (more ∖ {[p]}) w' (a_link p (erase e) s) /\
    timeout w' = link_due now p (insert_expiry (p, erase e) (by_expiry s)) (timeout w) /\
    (forall q, q ∈ more -> q <> p -> heap w' !! q = heap w !! q).
Proof.
  intros R Ha Hp Hpe.
  destruct (rep_hash _ _ _ R (PMKID_HASH (pmkid e)) (hash_range _)) as (hd & Hhd & _).
  destruct (link_position_holds (expiration e) (passes (heap w)) (heap w) (pmksa w) None (by_expiry s)
    (rep_list _ _ _ R) (rep_fuel _ _ _ R) p (erase e) (erase_expiration e)) as (l1 & l2 & El & Eins & Epos).
  pose proof (link_state_rep more w s p e l1 l2 hd) as Hrep.
  specialize (fun t => Hrep t R Ha Hp Hpe El Eins Hhd). fold (link_due now p).
  assert (Hframe : forall q, q ∈ more -> q <> p ->
    heap (link_state w p e (prev_of None l1) hd) !! q = heap w !! q).
  { intros q Hq Hne. unfold link_state. cache_simpl. rewrite lookup_alter_ne, linked_out; try done.
    intros Hin. apply (Ha q Hq). rewrite El. unfold ids in *. rewrite fmap_app. apply elem_of_app. by left. }
  rewrite (link_entry_run now w p e hd (prev_of None l1) Hpe Hhd Epos).
  - unfold link_due. destruct l1 as [|[q eq] l1].
    + change (prev_of None []) with (@None positive) in *.
      destruct (set_expiration_holds _ now _ _ (Hrep (Some 0) ltac:(done))) as (w' & E & R' & Hh & Ht).
      exists w'. split_and!; [exact E|exact R'| |intros q Hq Hne; rewrite Hh; by apply Hframe].
      rewrite Ht. unfold a_link. cbn [by_expiry]. rewrite Eins. cbn [app head_ptr head fmap option_fmap option_map fst].
      by rewrite decide_True.
    + assert (Hprev : exists q', prev_of None ((q, eq) :: l1) = Some q').
      { rewrite prev_of_cons. unfold prev_of. destruct (last l1) as [[]|]; by eexists. }
      destruct Hprev as [q' Hq']. rewrite Hq' in *. eexists. split_and!; [done| | |exact Hframe].
      * apply (Hrep (timeout w)). apply (rep_armed _ _ _ R). by rewrite El.
      * rewrite Eins. cbn [app head_ptr head fmap option_fmap option_map fst].
        rewrite decide_False; [done|]. intros [= ->]. apply (Ha p Hp). rewrite El. left.
  - intros q Hq. unfold prev_of in Hq. destruct (last l1) as [[r er]|] eqn:E; [|done]. injection Hq as <-.
    apply last_head in E. assert (Hin : r ∈ ids (by_expiry s)).
    { rewrite El. unfold ids in *. rewrite fmap_app. apply elem_of_app. by left. }
    apply (list_elem_of_fmap_1 fst) in Hin as (x & -> & Hx).
    destruct (chain_lookup _ _ _ _ x (rep_list _ _ _ R) Hx) as (e0 & He0 & _). by exists e0.
Qed.
