(* ===== verification/PmksaOps.v ===== *)
(** * The PMKSA cache: its operations as operations on lists

    The operations other modules call, each with the function on abstract caches
    it implements, and the proof that it does, from any state. *)

From stdpp Require Import gmap sorting.
From S2P Require Import Prelude Bytes WpaKeys PmksaCache PmksaProofs PmksaRefine.
From S2P Require Sha1 Sha256.

(** ** Allocating an entry *)

Lemma keep_nil_apart s : apart ∅ s.
Proof. intros q Hq. by apply not_elem_of_empty in Hq. Qed.

Definition new_id (s : acache) : positive := fresh (list_to_set (ids (by_expiry s)) : gset positive).

Lemma rep_new_id w s : rep ∅ w s -> fresh (dom (heap w)) = new_id s.
Proof. intros R. rewrite (rep_dom _ _ _ R), union_empty_r_L. done. Qed.

Lemma new_id_fresh s : new_id s ∉ ids (by_expiry s).
Proof.
  intros H. apply (is_fresh (list_to_set (ids (by_expiry s)) : gset positive)).
  by apply elem_of_list_to_set.
Qed.

(** A new entry in the heap, not yet on a list. *)
Lemma rep_alloc w s e :
  rep ∅ w s ->
  let p := new_id s in
  rep {[p]} (w <| heap := <[p := e]> (heap w) |>) s /\ apart {[p]} s.
Proof.
  intros R p. pose proof (new_id_fresh s) as Hp. split.
  - destruct R as [Rl Rh Rb Rp Rn Rs Rc Rst Rlive Rarm Rdom]. split; cache_simpl; try done.
    + by apply chain_insert_out.
    + intros i Hi. destruct (Rh i Hi) as (hd & Hhd & Hc). exists hd. split; [done|].
      apply chain_insert_out; [|done]. intros H. apply ids_keep_elem in H.
      by rewrite (ids_perm _ _ Rp) in H.
    + rewrite dom_insert_L, Rdom, union_empty_r_L. apply union_comm_L.
  - intros q Hq. apply elem_of_singleton in Hq as ->. done.
Qed.

(** Setting the pointer of a station. *)
Definition a_set_sta (i : nat) (v : ptr) (s : acache) : acache :=
  {| by_expiry := by_expiry s; by_age := by_age s; stas := <[i := v]> (stas s) |}.

Lemma rep_set_sta more w s i v :
  rep more w s -> (forall q, v = Some q -> q ∈ ids (by_expiry s)) ->
  rep more (w <| sta_pmksa := <[i := v]> (sta_pmksa w) |>) (a_set_sta i v s).
Proof.
  intros R Hv. destruct R. split; cache_simpl; unfold a_set_sta; cbn [by_expiry by_age stas]; try done.
  - by f_equal.
  - apply Forall_insert; [done|]. exact Hv.
Qed.

Lemma elem_of_first_of f l p : first_of f l = Some p -> exists e, (p, e) ∈ l /\ f e = true.
Proof.
  unfold first_of. destruct (keep (fun x => f x.2) l) as [|[q e] k] eqn:E; [done|].
  intros [= <-]. assert (Hin : (q, e) ∈ keep (fun x => f x.2) l) by (rewrite E; left).
  apply elem_of_keep in Hin as [Hf Hin]. by exists e.
Qed.

Lemma a_get_in more w s spa0 pmkid0 q :
  rep more w s -> a_get spa0 pmkid0 s = Some q -> q ∈ ids (by_expiry s).
Proof.
  intros R Hg. assert (exists e, (q, e) ∈ by_expiry s) as [e He].
  { destruct pmkid0 as [id|]; apply elem_of_first_of in Hg as (e & He & _); exists e; [|done].
    by rewrite <- (rep_perm _ _ _ R). }
  by apply (list_elem_of_fmap_2 fst _ (q, e)).
Qed.

(** ** Adding *)

Definition a_replace (addr : bytes) (s : acache) : acache :=
  match a_get (Some addr) None s with Some q => a_free q s | None => s end.
Definition a_make_room (s : acache) : acache :=
  match by_expiry s with
  | [] => s
  | x :: _ => if pmksa_cache_max_entries <=? Z.of_nat (length (by_expiry s)) then a_free x.1 s else s
  end.
Definition a_add_entry (p : positive) (e : rsn_pmksa_cache_entry) (s : acache) : acache :=
  a_link p (erase e) (a_make_room (a_replace (spa e) s)).

Lemma replace_holds more w s addr :
  rep more w s -> apart more s ->
  exists w', (match a_get (Some addr) None s with
              | Some p => pmksa_cache_free_entry p w | None => Some w end) = Some w' /\
    rep more w' (a_replace addr s) /\ frame more w w'.
Proof.
  intros R Ha. unfold a_replace. destruct (a_get (Some addr) None s) as [q|] eqn:Eg.
  - apply free_entry_holds; [done..|]. by apply (a_get_in more w s (Some addr) None).
  - by exists w.
Qed.

Lemma apart_replace more addr s : apart more s -> apart more (a_replace addr s).
Proof. intros Ha. unfold a_replace. case_match; [by apply apart_keep|done]. Qed.
Lemma apart_make_room more s : apart more s -> apart more (a_make_room s).
Proof. intros Ha. unfold a_make_room. repeat case_match; by try apply apart_keep. Qed.

Lemma make_room_holds more w s :
  rep more w s -> apart more s ->
  exists w', (match pmksa w with
              | Some p => if pmksa_cache_max_entries <=? pmksa_count w
                          then pmksa_cache_free_entry p w else Some w
              | None => Some w end) = Some w' /\
    rep more w' (a_make_room s) /\ frame more w w'.
Proof.
  intros R Ha. unfold a_make_room. rewrite (rep_count _ _ _ R).
  destruct (by_expiry s) as [|[p e] l] eqn:E.
  - rewrite (rep_nil _ _ _ R E). by exists w.
  - destruct (rep_head _ _ _ _ _ _ R E) as [-> _]. case_match; [|by exists w].
    apply free_entry_holds; [done..|]. rewrite E. left.
Qed.

Lemma add_entry_holds now w s e :
  rep ∅ w s ->
  let p := new_id s in
  exists w', pmksa_cache_auth_add_entry (Some p) now (w <| heap := <[p := e]> (heap w) |>) = Some (0, w') /\
    rep ∅ w' (a_add_entry p e s).
Proof.
  intros R p. destruct (rep_alloc w s e R) as [R0 Ha0]. fold p in R0, Ha0.
  set (w0 := w <| heap := <[p := e]> (heap w) |>) in *.
  assert (Hp : heap w0 !! p = Some e) by (unfold w0; cache_simpl; apply lookup_insert_eq).
  unfold pmksa_cache_auth_add_entry. rewrite Hp. cbn [mbind option_bind].
  rewrite (auth_get_holds _ _ _ (Some (spa e)) None R0). cbn [mbind option_bind].
  destruct (replace_holds _ w0 s (spa e) R0 Ha0) as (w1 & -> & R1 & F1). cbn [mbind option_bind].
  pose proof (apart_replace _ (spa e) _ Ha0) as Ha1.
  destruct (make_room_holds _ w1 _ R1 Ha1) as (w2 & -> & R2 & F2). cbn [mbind option_bind].
  pose proof (apart_make_room _ _ Ha1) as Ha2.
  destruct (frame_trans _ _ _ _ F1 F2) as [_ Fh].
  destruct (link_entry_holds _ now w2 _ p e R2 Ha2) as (w3 & -> & R3 & _ & _).
  - by apply elem_of_singleton.
  - rewrite Fh by by apply elem_of_singleton. exact Hp.
  - exists w3. split; [done|]. by rewrite difference_diag_L in R3.
Qed.

Section ops.
Context (s1 : Sha1.SHA1Context) (s256 : Sha256.sha256_state) (hash0 : bytes).
Context (sizeof_entry sizeof_vlan sizeof_attr : nat).

(** Whether [pmksa_cache_auth_create_entry] makes an entry. *)
Definition creates `{Malloc} (pmk0 : bytes) (kck : option bytes) (akmp0 : Z) : bool :=
  (length pmk0 <=? PMK_LEN_MAX)%nat && (negb (wpa_key_mgmt_suite_b akmp0) || bool_decide (is_Some kck)) &&
  bool_decide (is_Some (os_malloc sizeof_entry)).

Definition a_add `{Malloc} pmk0 (pmkid0 kck : option bytes) aa spa0 session_timeout eapol akmp0 now
    (s : acache) : ptr * acache :=
  if creates pmk0 kck akmp0 then
    let e := new_entry s1 s256 hash0 sizeof_vlan sizeof_attr pmk0 pmkid0 kck aa spa0 session_timeout eapol
               akmp0 now in
    (Some (new_id s), a_add_entry (new_id s) e s)
  else (None, s).

Lemma create_entry_holds `{Malloc} pmk0 pmkid0 kck aa spa0 st eapol akmp0 now w s :
  rep ∅ w s ->
  pmksa_cache_auth_create_entry s1 s256 hash0 sizeof_entry sizeof_vlan sizeof_attr pmk0 pmkid0 kck aa spa0 st
    eapol akmp0 now w
  = if creates pmk0 kck akmp0 then
      (Some (new_id s),
       w <| heap := <[new_id s := new_entry s1 s256 hash0 sizeof_vlan sizeof_attr pmk0 pmkid0 kck aa spa0 st
                                    eapol akmp0 now]> (heap w) |>)
    else (None, w).
Proof.
  intros R. unfold pmksa_cache_auth_create_entry, creates, alloc_entry.
  destruct (Nat.ltb_spec PMK_LEN_MAX (length pmk0)), (Nat.leb_spec (length pmk0) PMK_LEN_MAX); try lia;
    [done|].
  destruct (wpa_key_mgmt_suite_b akmp0), (bool_decide (is_Some kck)); cbn [negb andb orb]; try done;
    (destruct (os_malloc sizeof_entry) as [b|]; cbn [mbind option_bind];
      [rewrite bool_decide_eq_true_2 by done; by rewrite (rep_new_id _ _ R)
      |rewrite bool_decide_eq_false_2; [done|by intros []]]).
Qed.

Lemma auth_add_holds `{Malloc} pmk0 pmkid0 kck aa spa0 st eapol akmp0 now w s :
  rep ∅ w s ->
  let r := a_add pmk0 pmkid0 kck aa spa0 st eapol akmp0 now s in
  exists w', pmksa_cache_auth_add s1 s256 hash0 sizeof_entry sizeof_vlan sizeof_attr pmk0 pmkid0 kck aa spa0
    st eapol akmp0 now w = Some (r.1, w') /\ rep ∅ w' r.2.
Proof.
  intros R r. unfold pmksa_cache_auth_add. rewrite (create_entry_holds _ _ _ _ _ _ _ _ _ _ _ R).
  unfold r, a_add. destruct (creates pmk0 kck akmp0).
  - destruct (add_entry_holds now w s (new_entry s1 s256 hash0 sizeof_vlan sizeof_attr pmk0 pmkid0 kck aa
      spa0 st eapol akmp0 now) R) as (w' & -> & R'). cbn [mbind option_bind]. by exists w'.
  - cbn [pmksa_cache_auth_add_entry mbind option_bind]. by exists w.
Qed.

(** ** Opportunistic key caching *)

Definition a_add_okc `{Malloc} (old_entry : rsn_pmksa_cache_entry) (pmkid0 : bytes) (s : acache) :
    ptr * acache :=
  if decide (is_Some (os_malloc sizeof_entry)) then
    (Some (new_id s),
     a_link (new_id s) (erase (okc_entry sizeof_vlan sizeof_attr old_entry pmkid0)) s)
  else (None, s).

Lemma okc_entry_erase `{Malloc} e id :
  okc_entry sizeof_vlan sizeof_attr (erase e) id = okc_entry sizeof_vlan sizeof_attr e id.
Proof. by destruct e. Qed.

Lemma add_okc_holds `{Malloc} e id now w s :
  rep ∅ w s ->
  let r := a_add_okc (erase e) id s in
  exists w', pmksa_cache_add_okc sizeof_entry sizeof_vlan sizeof_attr e id now w = Some (r.1, w') /\
    rep ∅ w' r.2.
Proof.
  intros R r. unfold pmksa_cache_add_okc, alloc_entry, r, a_add_okc. rewrite okc_entry_erase.
  destruct (os_malloc sizeof_entry) as [b|]; cbn [mbind option_bind].
  - rewrite decide_True by done. rewrite (rep_new_id _ _ R). cbn [fst snd].
    set (e' := okc_entry sizeof_vlan sizeof_attr e id).
    destruct (rep_alloc w s e' R) as [R0 Ha0].
    destruct (link_entry_holds _ now _ _ (new_id s) e' R0 Ha0) as (w' & -> & R' & _).
    + by apply elem_of_singleton.
    + cache_simpl. apply lookup_insert_eq.
    + exists w'. split; [done|]. by rewrite difference_diag_L in R'.
  - rewrite decide_False by by intros []. by exists w.
Qed.

Lemma okc_match_erase aa addr id e :
  okc_match s1 s256 hash0 aa addr id (erase e) = okc_match s1 s256 hash0 aa addr id e.
Proof. by destruct e. Qed.

Lemma get_okc_holds more aa addr id w s :
  rep more w s ->
  pmksa_cache_get_okc s1 s256 hash0 aa addr id w
  = Some (first_of (okc_match s1 s256 hash0 aa addr id) (by_expiry s)).
Proof.
  intros R. apply find_in_holds; [|apply (rep_list _ _ _ R)|by apply (rep_fuel more)].
  intros e. apply okc_match_erase.
Qed.

(** The entries found, links erased. *)
Definition a_okc_lookup (before after : bytes -> option rsn_pmksa_cache_entry) (aa addr id : bytes)
    (s : acache) : option rsn_pmksa_cache_entry :=
  match before id with
  | Some e => Some (erase e)
  | None =>
    match head (keep (fun x => okc_match s1 s256 hash0 aa addr id x.2) (by_expiry s)) with
    | Some x => Some x.2
    | None => erase <$> after id
    end
  end.

Lemma okc_lookup_holds more before after aa addr id w s :
  rep more w s ->
  exists found, okc_lookup s1 s256 hash0 before after aa addr id w = Some found /\
    erase <$> found = a_okc_lookup before after aa addr id s.
Proof.
  intros R. unfold okc_lookup, a_okc_lookup. destruct (before id) as [e|]; [by exists (Some e)|].
  rewrite (get_okc_holds more _ _ _ _ _ R). cbn [mbind option_bind]. unfold first_of.
  destruct (keep _ _) as [|[p e] l] eqn:E; cbn [head fmap option_fmap option_map fst snd];
    [by exists (after id)|].
  assert (Hin : (p, e) ∈ by_expiry s).
  { assert (Hk : (p, e) ∈ (p, e) :: l) by left. rewrite <- E in Hk. by apply elem_of_keep in Hk as []. }
  destruct (chain_lookup _ _ _ _ _ (rep_list _ _ _ R) Hin) as (e' & Hp & He).
  cbn [fst snd] in Hp, He. exists (Some e'). by rewrite Hp, <- He.
Qed.

Fixpoint a_get_any (addr : bytes) (pmkids : list bytes) (s : acache) : ptr :=
  match pmkids with
  | [] => None
  | id :: pmkids =>
    match a_get (Some addr) (Some id) s with Some p => Some p | None => a_get_any addr pmkids s end
  end.

Fixpoint a_okc_any `{Malloc} (before after : bytes -> option rsn_pmksa_cache_entry) (aa addr : bytes)
    (pmkids : list bytes) (s : acache) : ptr * acache :=
  match pmkids with
  | [] => (None, s)
  | id :: pmkids =>
    match a_okc_lookup before after aa addr id s with
    | Some e => a_add_okc e id s
    | None => a_okc_any before after aa addr pmkids s
    end
  end.

Lemma get_any_holds more addr pmkids w s :
  rep more w s -> get_any addr pmkids w = Some (a_get_any addr pmkids s).
Proof.
  intros R. induction pmkids as [|id pmkids IH]; [done|]. cbn [get_any a_get_any].
  rewrite (auth_get_holds _ _ _ _ _ R). cbn [mbind option_bind]. by case_match.
Qed.

Lemma okc_any_holds `{Malloc} before after aa addr now pmkids w s :
  rep ∅ w s ->
  let r := a_okc_any before after aa addr pmkids s in
  exists w', okc_any s1 s256 hash0 sizeof_entry sizeof_vlan sizeof_attr before after aa addr now pmkids w
             = Some (r.1, w') /\ rep ∅ w' r.2.
Proof.
  intros R. induction pmkids as [|id pmkids IH]; cbv zeta; [by exists w|]. cbn [okc_any a_okc_any].
  destruct (okc_lookup_holds _ before after aa addr id w s R) as (found & -> & <-).
  cbn [mbind option_bind]. destruct found as [e|]; cbn [fmap option_fmap option_map]; [|exact IH].
  by apply add_okc_holds.
Qed.

Definition a_select `{Malloc} (before after : bytes -> option rsn_pmksa_cache_entry) (okc : bool) (i : nat)
    (aa addr : bytes) (pmkids : list bytes) (s : acache) : acache :=
  let s := a_set_sta i None s in
  let r := match a_get_any addr pmkids s with
           | Some p => (Some p, s)
           | None => if okc then a_okc_any before after aa addr pmkids s else (None, s)
           end in
  a_set_sta i r.1 r.2.

Lemma a_get_any_in more w addr pmkids s q :
  rep more w s -> a_get_any addr pmkids s = Some q -> q ∈ ids (by_expiry s).
Proof.
  intros R. induction pmkids as [|id pmkids IH]; cbn [a_get_any]; [done|].
  destruct (a_get (Some addr) (Some id) s) as [p|] eqn:E; [|exact IH].
  intros [= <-]. by apply (a_get_in more w s (Some addr) (Some id)).
Qed.

Lemma a_okc_any_in `{Malloc} before after aa addr pmkids s q :
  (a_okc_any before after aa addr pmkids s).1 = Some q ->
  q ∈ ids (by_expiry (a_okc_any before after aa addr pmkids s).2).
Proof.
  induction pmkids as [|id pmkids IH]; cbn [a_okc_any]; [done|].
  destruct (a_okc_lookup before after aa addr id s) as [e|]; [|exact IH].
  unfold a_add_okc. case_decide; [|done]. cbn [fst snd]. intros [= <-].
  unfold a_link. cbn [by_expiry]. rewrite (ids_perm _ _ (insert_expiry_perm _ _)). by left.
Qed.

Lemma select_holds `{Malloc} before after okc i aa addr pmkids now w s :
  rep ∅ w s ->
  exists w', select_pmksa s1 s256 hash0 sizeof_entry sizeof_vlan sizeof_attr before after okc i aa addr pmkids
               now w = Some w' /\ rep ∅ w' (a_select before after okc i aa addr pmkids s).
Proof.
  intros R. unfold select_pmksa, a_select. cbv zeta.
  pose proof (rep_set_sta _ w s i None R ltac:(done)) as R0.
  set (w0 := w <| sta_pmksa := <[i := None]> (sta_pmksa w) |>) in *. set (s0 := a_set_sta i None s) in *.
  rewrite (get_any_holds _ addr pmkids w0 s0 R0). cbn [mbind option_bind].
  destruct (a_get_any addr pmkids s0) as [p|] eqn:Eg; cbn [mbind option_bind fst snd].
  - eexists. split; [done|]. apply rep_set_sta; [done|]. intros q [= <-].
    by apply (a_get_any_in ∅ w0 addr pmkids s0).
  - destruct okc; cbn [mbind option_bind fst snd].
    + destruct (okc_any_holds before after aa addr now pmkids w0 s0 R0) as (w1 & -> & R1).
      cbn [mbind option_bind]. eexists. split; [done|]. apply rep_set_sta; [done|].
      intros q Hq. by apply a_okc_any_in.
    + eexists. split; [done|]. by apply rep_set_sta.
Qed.
End ops.

(** ** The rest of the interface *)

Definition a_clear_sta (i : nat) (p : positive) (s : acache) : acache :=
  if bool_decide (stas s !! i = Some (Some p)) then a_set_sta i None s else s.

Lemma clear_sta_holds more w s i p :
  rep more w s -> rep more (wpa_auth_sta_clear_pmksa i p w) (a_clear_sta i p s).
Proof.
  intros R. unfold wpa_auth_sta_clear_pmksa, a_clear_sta. rewrite <- (rep_stas _ _ _ R).
  case_bool_decide; [|done]. by apply rep_set_sta.
Qed.

Lemma remove_holds w s addr :
  rep ∅ w s ->
  exists w', wpa_auth_pmksa_remove addr w = Some w' /\ rep ∅ w' (a_replace addr s).
Proof.
  intros R. unfold wpa_auth_pmksa_remove. rewrite (auth_get_holds _ _ _ _ _ R). cbn [mbind option_bind].
  destruct (replace_holds ∅ w s addr R (keep_nil_apart s)) as (w' & E & R' & _). by exists w'.
Qed.

Definition a_init (stations : nat) : acache :=
  {| by_expiry := []; by_age := []; stas := replicate stations None |}.

Lemma init_holds `{Malloc} sizeof_cache stations w :
  pmksa_cache_auth_init sizeof_cache stations = Some w -> rep ∅ w (a_init stations).
Proof.
  unfold pmksa_cache_auth_init. destruct (os_malloc sizeof_cache); [|done]. cbn [mbind option_bind].
  intros H0. apply (inj Some) in H0. subst w. split; cache_simpl; unfold a_init; cbn [by_expiry by_age stas]; try done.
  - intros i Hi. exists None. by rewrite lookup_replicate_2.
  - constructor.
  - constructor.
  - apply Forall_replicate. done.
Qed.

(** [pmksa_cache_auth_deinit] frees every entry. *)
Lemma deinit_loop_holds fuel h pos l :
  chain by_next h pos l -> NoDup (ids l) -> dom h = list_to_set (ids l) -> (length l < fuel)%nat ->
  deinit_loop fuel pos h = Some ∅.
Proof.
  revert h pos l. induction fuel as [|fuel IH]; intros h pos l Hc Hn Hd Hf; [lia|].
  destruct l as [|[p e] l]; cbn [chain deinit_loop] in *.
  - rewrite Hc. f_equal. apply dom_empty_inv_L. by rewrite Hd.
  - destruct Hc as (-> & e' & -> & _ & Hc). cbn [mbind option_bind].
    cbn [ids fmap list_fmap fst] in Hn, Hd. apply NoDup_cons in Hn as [Hp Hn].
    apply (IH _ _ l); [by apply chain_delete_out|done| |cbn [length] in Hf; lia].
    rewrite dom_delete_L, Hd. cbn [list_to_set].
    rewrite difference_union_distr_l_L, difference_diag_L, union_empty_l_L.
    apply difference_disjoint_L. apply disjoint_singleton_r. by rewrite elem_of_list_to_set.
Qed.

Lemma deinit_holds w s : rep ∅ w s -> pmksa_cache_auth_deinit w = Some ∅.
Proof.
  intros R. apply (deinit_loop_holds _ _ _ (by_expiry s));
    [apply (rep_list _ _ _ R)|apply (rep_nodup _ _ _ R)| |by apply (rep_fuel ∅)].
  by rewrite (rep_dom _ _ _ R), union_empty_r_L.
Qed.

(** The heap holds the entries of the list and nothing else. *)
Lemma rep_heap w s : rep ∅ w s -> erase <$> heap w = list_to_map (by_expiry s).
Proof.
  intros R. apply map_eq. intros p. rewrite lookup_fmap.
  destruct (decide (p ∈ ids (by_expiry s))) as [Hp|Hp].
  - apply (list_elem_of_fmap_1 fst) in Hp as ([q e] & -> & Hx). cbn [fst].
    destruct (chain_lookup _ _ _ _ _ (rep_list _ _ _ R) Hx) as (e' & Hq & He). cbn [fst snd] in Hq, He.
    rewrite Hq. cbn [fmap option_fmap option_map]. rewrite He. symmetry.
    apply elem_of_list_to_map_1; [apply (rep_nodup _ _ _ R)|done].
  - rewrite (not_elem_of_list_to_map_1 _ _ Hp).
    assert (heap w !! p = None) as ->; [|done]. apply not_elem_of_dom.
    by rewrite (rep_dom _ _ _ R), union_empty_r_L, elem_of_list_to_set.
Qed.
