(* ===== verification/PmksaTheorems.v ===== *)
(** * The PMKSA cache: theorems

    Whatever sequence of calls a cache gets, it behaves like two lists of
    entries; it never follows a pointer to a freed entry and leaves none with a
    station; without opportunistic caching it keeps within its limit and holds
    one entry for a station. *)

From stdpp Require Import gmap sorting.
From S2P Require Import Prelude Bytes WpaKeys PmksaCache PmksaProofs PmksaRefine PmksaOps.
From S2P Require Sha1 Sha256.

(** ** Sequences of calls *)

(** The calls from the rest of the access point and from the event loop, with
    the state of the allocator and the time they happen at. *)
Inductive op :=
| Add (M : Malloc) (pmk0 : bytes) (pmkid0 kck : option bytes) (aa spa0 : bytes) (session_timeout : Z)
    (eapol : option eapol_data) (akmp0 now : Z)
| Select (M : Malloc) (before after : bytes -> option rsn_pmksa_cache_entry) (okc : bool) (i : nat)
    (aa addr : bytes) (pmkids : list bytes) (now : Z)
| Get (spa0 pmkid0 : option bytes)
| Clear (i : nat) (p : positive)
| Remove (addr : bytes)
| Expire (now : Z)
| Flush
| Das (attr : radius_das_attrs).

(** What a call returns. *)
Inductive result := Entry (p : ptr) | Int (z : Z) | Void.

Section theorems.
Context (s1 : Sha1.SHA1Context) (s256 : Sha256.sha256_state) (hash0 : bytes).
Context (sizeof_entry sizeof_vlan sizeof_attr : nat).

Definition run_op (o : op) (w : W) : option (result * W) :=
  match o with
  | Add M pmk0 pmkid0 kck aa spa0 st eapol akmp0 now =>
    '(p, w) ← pmksa_cache_auth_add s1 s256 hash0 sizeof_entry sizeof_vlan sizeof_attr pmk0 pmkid0 kck aa spa0
                st eapol akmp0 now w; Some (Entry p, w)
  | Select M before after okc i aa addr pmkids now =>
    w ← select_pmksa s1 s256 hash0 sizeof_entry sizeof_vlan sizeof_attr before after okc i aa addr pmkids now w;
    Some (Void, w)
  | Get spa0 pmkid0 => p ← pmksa_cache_auth_get spa0 pmkid0 w; Some (Entry p, w)
  | Clear i p => Some (Void, wpa_auth_sta_clear_pmksa i p w)
  | Remove addr => w ← wpa_auth_pmksa_remove addr w; Some (Void, w)
  | Expire now => w ← pmksa_cache_expire now w; Some (Void, w)
  | Flush => w ← pmksa_cache_auth_flush w; Some (Void, w)
  | Das attr => '(r, w) ← pmksa_cache_auth_radius_das_disconnect attr w; Some (Int r, w)
  end.

Fixpoint run_ops (ops : list op) (w : W) : option (list result * W) :=
  match ops with
  | [] => Some ([], w)
  | o :: ops => '(r, w) ← run_op o w; '(rs, w) ← run_ops ops w; Some (r :: rs, w)
  end.

(** The same calls on two lists: no pointers, no hash table, no loops. *)
Definition spec_op (o : op) (s : acache) : result * acache :=
  match o with
  | Add M pmk0 pmkid0 kck aa spa0 st eapol akmp0 now =>
    let r := a_add s1 s256 hash0 sizeof_entry sizeof_vlan sizeof_attr pmk0 pmkid0 kck aa spa0 st eapol akmp0
               now s in (Entry r.1, r.2)
  | Select M before after okc i aa addr pmkids now =>
    (Void, a_select s1 s256 hash0 sizeof_entry sizeof_vlan sizeof_attr before after okc i aa addr pmkids s)
  | Get spa0 pmkid0 => (Entry (a_get spa0 pmkid0 s), s)
  | Clear i p => (Void, a_clear_sta i p s)
  | Remove addr => (Void, a_replace addr s)
  | Expire now => (Void, a_keep (not_expired now) s)
  | Flush => (Void, a_keep (fun _ => false) s)
  | Das attr =>
    match das_acct_session_id attr with
    | Some _ => (Int (-1), s)
    | None => (Int (if existsb (das_matches attr) (by_expiry s) then 0 else -1), a_keep (das_keeps attr) s)
    end
  end.

Fixpoint spec_ops (ops : list op) (s : acache) : list result * acache :=
  match ops with
  | [] => ([], s)
  | o :: ops => let r := spec_op o s in let rs := spec_ops ops r.2 in (r.1 :: rs.1, rs.2)
  end.

Lemma run_op_holds o w s :
  rep ∅ w s -> exists w', run_op o w = Some ((spec_op o s).1, w') /\ rep ∅ w' (spec_op o s).2.
Proof.
  intros R. pose proof (keep_nil_apart s) as Ha. destruct o; cbn [run_op spec_op fst snd].
  - destruct (auth_add_holds s1 s256 hash0 sizeof_entry sizeof_vlan sizeof_attr pmk0 pmkid0 kck aa spa0
      session_timeout eapol akmp0 now w s R) as (w' & -> & R'). by exists w'.
  - destruct (select_holds s1 s256 hash0 sizeof_entry sizeof_vlan sizeof_attr before after okc i aa addr
      pmkids now w s R) as (w' & -> & R'). by exists w'.
  - rewrite (auth_get_holds _ _ _ _ _ R). by exists w.
  - eexists. split; [done|]. by apply clear_sta_holds.
  - destruct (remove_holds w s addr R) as (w' & -> & R'). by exists w'.
  - destruct (expire_holds ∅ now w s R Ha) as (w' & -> & R' & _). by exists w'.
  - destruct (auth_flush_holds ∅ w s R Ha) as (w' & -> & R' & _). by exists w'.
  - destruct (das_disconnect_holds ∅ attr w s R Ha) as (w' & -> & R' & _). exists w'.
    by destruct (das_acct_session_id attr).
Qed.

Lemma run_ops_holds ops w s :
  rep ∅ w s -> exists w', run_ops ops w = Some ((spec_ops ops s).1, w') /\ rep ∅ w' (spec_ops ops s).2.
Proof.
  revert w s. induction ops as [|o ops IH]; intros w s R; cbn [run_ops spec_ops fst snd]; [by exists w|].
  destruct (run_op_holds o w s R) as (w1 & -> & R1). cbn [mbind option_bind].
  destruct (IH w1 _ R1) as (w2 & -> & R2). by exists w2.
Qed.

(** C29: the cache refines a pair of lists.  Every sequence of calls on a new
    cache runs to its end without following a pointer to a freed entry and
    returns what the same calls on the lists return; the heap, the two linked
    structures, the counter and the stations' pointers stand for the lists. *)
Theorem cache_refines_lists `{Malloc} sizeof_cache stations ops w :
  pmksa_cache_auth_init sizeof_cache stations = Some w ->
  exists w', run_ops ops w = Some ((spec_ops ops (a_init stations)).1, w') /\
             rep ∅ w' (spec_ops ops (a_init stations)).2.
Proof. intros Hi. apply run_ops_holds. by apply init_holds in Hi. Qed.

(** The caches that sequences of calls lead to. *)
Definition reachable `{Malloc} (ops : list op) (w : W) : Prop :=
  exists sizeof_cache stations w0 outs,
    pmksa_cache_auth_init sizeof_cache stations = Some w0 /\ run_ops ops w0 = Some (outs, w).

Lemma reachable_rep `{Malloc} ops w :
  reachable ops w -> exists stations, rep ∅ w (spec_ops ops (a_init stations)).2.
Proof.
  intros (sz & stations & w0 & outs & Hi & Hr). exists stations. apply init_holds in Hi.
  destruct (run_ops_holds ops w0 _ Hi) as (w' & E & R). rewrite Hr in E. by injection E as _ <-.
Qed.

(** C30: no station is left with a pointer to a freed entry, and closing the
    cache frees every entry. *)
Theorem no_dangling_pointers `{Malloc} ops w :
  reachable ops w ->
  Forall (fun p => forall q, p = Some q -> is_Some (heap w !! q)) (sta_pmksa w) /\
  pmksa_cache_auth_deinit w = Some ∅.
Proof.
  intros (stations & R)%reachable_rep. split; [|by apply deinit_holds in R].
  rewrite (rep_stas _ _ _ R). eapply Forall_impl; [apply (rep_live _ _ _ R)|]. intros p Hp q Hq.
  apply elem_of_dom. rewrite (rep_dom _ _ _ R). apply elem_of_union_l, elem_of_list_to_set. by apply Hp.
Qed.

(** ** Without opportunistic caching *)

Definition no_okc (o : op) : Prop := match o with Select _ _ _ okc _ _ _ _ _ => okc = false | _ => True end.

Definition station (x : aentry) : bytes := take ETH_ALEN (spa x.2).
Record bounded (s : acache) : Prop := {
  bounded_size : Z.of_nat (length (by_expiry s)) <= pmksa_cache_max_entries;
  bounded_unique : NoDup (station <$> by_expiry s) }.

Lemma bounded_keep f s : bounded s -> bounded (a_keep f s).
Proof.
  intros [Hs Hu]. unfold a_keep. split; cbn [by_expiry].
  - pose proof (length_keep f (by_expiry s)). lia.
  - apply (sublist_NoDup _ (station <$> by_expiry s)); [done|]. apply fmap_sublist, sublist_filter.
Qed.

Lemma bounded_sta i v s : bounded s -> bounded (a_set_sta i v s).
Proof. by intros []. Qed.

(** After an address was replaced, no entry has it. *)
Lemma replace_absent addr s x :
  bounded s -> NoDup (ids (by_expiry s)) -> x ∈ by_expiry (a_replace addr s) ->
  station x <> take ETH_ALEN addr.
Proof.
  intros [_ Hu] Hn Hx Heq. unfold a_replace in Hx.
  destruct (a_get (Some addr) None s) as [q|] eqn:E; unfold a_get, first_of in E.
  - unfold a_free, a_keep in Hx. cbn [by_expiry] in Hx. apply elem_of_keep in Hx as [Ho Hx].
    destruct (keep _ _) as [|[q' eq] k] eqn:Ek; [done|]. injection E as <-.
    assert (Hq : (q', eq) ∈ (q', eq) :: k) by left. rewrite <- Ek in Hq. apply elem_of_keep in Hq as [Hm Hq].
    cbn [matches_spa snd] in Hm. apply same_spec in Hm.
    assert (x = (q', eq)) as ->.
    { apply list_elem_of_lookup in Hx as [i Hi], Hq as [j Hj].
      assert (i = j); [|by simplify_eq].
      apply (NoDup_lookup (station <$> by_expiry s) i j (take ETH_ALEN addr)); [done|..];
        rewrite list_lookup_fmap; [rewrite Hi|rewrite Hj]; cbn [fmap option_fmap option_map];
        f_equal; done. }
    unfold other_than in Ho. by rewrite bool_decide_eq_true_2 in Ho.
  - destruct (keep _ _) as [|x' k] eqn:Ek; [|done].
    assert (Hk : x ∈ keep (fun y => matches_spa (Some addr) y.2) (by_expiry s)).
    { apply elem_of_keep. split; [|done]. by apply same_spec. }
    rewrite Ek in Hk. by apply elem_of_nil in Hk.
Qed.

Lemma bounded_make_room s :
  bounded s -> NoDup (ids (by_expiry s)) ->
  bounded (a_make_room s) /\ Z.of_nat (length (by_expiry (a_make_room s))) < pmksa_cache_max_entries /\
  forall x, x ∈ by_expiry (a_make_room s) -> x ∈ by_expiry s.
Proof.
  intros Hb Hn. unfold a_make_room. pose proof (bounded_size _ Hb) as Hs.
  destruct (by_expiry s) as [|[p e] l] eqn:E; [by rewrite E|].
  destruct (Z.leb_spec pmksa_cache_max_entries (Z.of_nat (length ((p, e) :: l)))) as [Hle|Hgt].
  - split; [by apply bounded_keep|]. unfold a_free, a_keep. cbn [by_expiry]. rewrite E. cbn [fst].
    change ((p, e) :: l) with ([] ++ (p, e) :: l). rewrite keep_other_split by done.
    cbn [app length] in *. split; [lia|].
    intros x Hx. by right.
  - rewrite E. done.
Qed.

Lemma replace_ids addr s : NoDup (ids (by_expiry s)) -> NoDup (ids (by_expiry (a_replace addr s))).
Proof. intros Hn. unfold a_replace. case_match; [by apply keep_nodup|done]. Qed.

Lemma bounded_replace addr s : bounded s -> bounded (a_replace addr s).
Proof. intros Hb. unfold a_replace. case_match; [by apply bounded_keep|done]. Qed.

Lemma bounded_add p e s : bounded s -> NoDup (ids (by_expiry s)) -> bounded (a_add_entry p e s).
Proof.
  intros Hb Hn. pose proof (bounded_replace (spa e) s Hb) as Hb1.
  destruct (bounded_make_room _ Hb1 (replace_ids (spa e) s Hn)) as (Hb2 & Hlt & Hin).
  unfold a_add_entry, a_link. split; cbn [by_expiry].
  - rewrite (Permutation_length (insert_expiry_perm _ _)). cbn [length]. lia.
  - rewrite (fmap_Permutation station _ _ (insert_expiry_perm _ _)). rewrite fmap_cons.
    apply NoDup_cons. split; [|apply (bounded_unique _ Hb2)].
    unfold station at 1. cbn [snd]. rewrite erase_spa. intros Hx.
    apply (list_elem_of_fmap_1 station) in Hx as (x & Hx1 & Hx2).
    by apply (replace_absent (spa e) s x Hb Hn (Hin _ Hx2)).
Qed.

Lemma spec_op_bounded o w s :
  rep ∅ w s -> no_okc o -> bounded s -> bounded (spec_op o s).2.
Proof.
  intros R Ho Hb. pose proof (rep_nodup _ _ _ R) as Hn.
  destruct o; cbn [spec_op snd no_okc] in *; try done.
  - unfold a_add. case_match; [|done]. by apply bounded_add.
  - subst okc. unfold a_select. destruct (a_get_any _ _ _); cbn [fst snd]; by repeat apply bounded_sta.
  - unfold a_clear_sta. case_match; [by apply bounded_sta|done].
  - by apply bounded_replace.
  - by apply bounded_keep.
  - by apply bounded_keep.
  - destruct (das_acct_session_id attr); [done|by apply bounded_keep].
Qed.

Lemma spec_ops_bounded ops w s :
  rep ∅ w s -> Forall no_okc ops -> bounded s -> bounded (spec_ops ops s).2.
Proof.
  revert w s. induction ops as [|o ops IH]; intros w s R Ho Hb; cbn [spec_ops fst snd]; [done|].
  apply Forall_cons in Ho as [Ho Hos]. destruct (run_op_holds o w s R) as (w1 & _ & R1).
  apply (IH w1); [done|done|]. by apply (spec_op_bounded o w).
Qed.

Lemma bounded_init stations : bounded (a_init stations).
Proof. split; cbn [a_init by_expiry length]; [done|constructor]. Qed.

Lemma reachable_bounded `{Malloc} ops w :
  reachable ops w -> Forall no_okc ops -> exists s, rep ∅ w s /\ bounded s.
Proof.
  intros (sz & stations & w0 & outs & Hi & Hr) Ho. apply init_holds in Hi.
  exists (spec_ops ops (a_init stations)).2.
  destruct (run_ops_holds ops w0 _ Hi) as (w' & E & R). rewrite Hr in E. injection E as _ <-.
  split; [done|]. by apply (spec_ops_bounded ops w0); [|done|apply bounded_init].
Qed.

Lemma rep_size w s : rep ∅ w s -> size (heap w) = length (by_expiry s).
Proof.
  intros R. rewrite <- size_dom, (rep_dom _ _ _ R), union_empty_r_L, size_list_to_set.
  - apply length_fmap.
  - apply (rep_nodup _ _ _ R).
Qed.

Lemma rep_entry w s p e :
  rep ∅ w s -> heap w !! p = Some e -> (p, erase e) ∈ by_expiry s.
Proof.
  intros R Hp. assert (Hi : p ∈ ids (by_expiry s)).
  { apply elem_of_dom_2 in Hp. by rewrite (rep_dom _ _ _ R), union_empty_r_L, elem_of_list_to_set in Hp. }
  apply (list_elem_of_fmap_1 fst) in Hi as ([q e0] & -> & Hx).
  destruct (chain_lookup _ _ _ _ _ (rep_list _ _ _ R) Hx) as (e' & Hq & He). cbn [fst snd] in *.
  rewrite Hp in Hq. injection Hq as <-. by rewrite He.
Qed.

(** C31: without opportunistic caching the cache stays within
    [pmksa_cache_max_entries] and holds at most one entry for a station; the
    counter is the number of entries. *)
Theorem cache_bounded `{Malloc} ops w :
  reachable ops w -> Forall no_okc ops ->
  pmksa_count w = Z.of_nat (size (heap w)) /\ pmksa_count w <= pmksa_cache_max_entries /\
  forall p q e eq, heap w !! p = Some e -> heap w !! q = Some eq ->
    take ETH_ALEN (spa e) = take ETH_ALEN (spa eq) -> p = q.
Proof.
  intros Hr Ho. destruct (reachable_bounded ops w Hr Ho) as (s & R & [Hs Hu]).
  rewrite (rep_count _ _ _ R), (rep_size _ _ R). split_and!; [done|done|].
  intros p q e eq Hp Hq Heq. apply (rep_entry _ _ _ _ R) in Hp, Hq.
  apply list_elem_of_lookup in Hp as [i Hi], Hq as [j Hj].
  assert (i = j); [|by simplify_eq].
  apply (NoDup_lookup (station <$> by_expiry s) i j (take ETH_ALEN (spa e))); [done|..];
    rewrite list_lookup_fmap; [rewrite Hi|rewrite Hj]; cbn [fmap option_fmap option_map]; f_equal;
    unfold station; cbn [snd]; by rewrite erase_spa.
Qed.

(** The opportunistic copies are not counted against the limit: each one is
    added whatever the size of the cache. *)
Theorem okc_ignores_limit `{Malloc} ops w old pmkid0 now p w' :
  reachable ops w ->
  pmksa_cache_add_okc sizeof_entry sizeof_vlan sizeof_attr old pmkid0 now w = Some (Some p, w') ->
  pmksa_count w' = pmksa_count w + 1.
Proof.
  intros (stations & R)%reachable_rep Ha.
  destruct (add_okc_holds sizeof_entry sizeof_vlan sizeof_attr old pmkid0 now w _ R) as (w2 & E & R2).
  rewrite Ha in E. injection E as Ep <-. unfold a_add_okc in Ep, R2. case_decide; [|done].
  rewrite (rep_count _ _ _ R2), (rep_count _ _ _ R). cbn [snd a_link by_expiry].
  rewrite (Permutation_length (insert_expiry_perm _ _)). cbn [length]. lia.
Qed.

(** ** An added entry is found *)

(** The part of an entry that says which key it holds. *)
Definition key_of (e : rsn_pmksa_cache_entry) :=
  (pmkid e, pmk e, pmk_len e, expiration e, akmp e, spa e).

Ltac entry_simpl :=
  cbn [next hnext pmkid pmk pmk_len expiration akmp spa identity identity_len cui radius_class
       eap_type_authsrv vlan_desc opportunistic acct_multi_session_id set set_next set_hnext set_pmkid
       set_pmk set_pmk_len set_expiration set_akmp set_spa set_identity set_identity_len set_cui
       set_radius_class set_eap_type set_vlan_desc set_opportunistic set_session_id].

Lemma key_of_erase e : key_of (erase e) = key_of e. Proof. by destruct e. Qed.

Lemma key_of_identity `{Malloc} id e : key_of (copy_identity id e) = key_of e.
Proof. unfold copy_identity. by destruct id as [id|]; [destruct (os_memdup id)|]. Qed.

Lemma key_of_eapol `{Malloc} eapol e :
  key_of (pmksa_cache_from_eapol_data sizeof_vlan sizeof_attr eapol e) = key_of e.
Proof.
  destruct eapol as [d|]; [|done]. unfold pmksa_cache_from_eapol_data.
  rewrite <- (key_of_identity (eapol_identity d) e).
  generalize (copy_identity (eapol_identity d) e). intros e1.
  destruct (eapol_radius_cui d), (eapol_sta_vlan_desc d) as [v|]; [destruct (negb _)| |destruct (negb _)|];
    done.
Qed.

(** The PMKID the code gives to a new entry. *)
Definition pmkid_of (pmk0 : bytes) (pmkid0 : option bytes) (aa spa0 : bytes) (akmp0 : Z) : bytes :=
  match pmkid0 with
  | Some id => take PMKID_LEN id
  | None => rsn_pmkid s1 s256 hash0 pmk0 aa spa0 akmp0
  end.

Lemma suite_b_192 akmp0 :
  wpa_key_mgmt_suite_b akmp0 = false -> (akmp0 =? WPA_KEY_MGMT_IEEE8021X_SUITE_B_192) = false.
Proof.
  intros Hb. apply Z.eqb_neq. intros ->. revert Hb. vm_compute. discriminate.
Qed.

Lemma new_entry_key `{Malloc} pmk0 pmkid0 kck aa spa0 st eapol akmp0 now :
  wpa_key_mgmt_suite_b akmp0 = false ->
  key_of (new_entry s1 s256 hash0 sizeof_vlan sizeof_attr pmk0 pmkid0 kck aa spa0 st eapol akmp0 now)
  = (pmkid_of pmk0 pmkid0 aa spa0 akmp0, memcpy (replicate PMK_LEN_MAX 0) 0 pmk0, Z.of_nat (length pmk0),
     (if 0 <? st then st else dot11RSNAConfigPMKLifetime) + now, akmp0, take ETH_ALEN spa0).
Proof.
  intros Hb. unfold new_entry. rewrite key_of_eapol, (suite_b_192 _ Hb), Hb.
  by destruct pmkid0.
Qed.

Lemma rep_link_entry w s p e :
  rep ∅ w (a_link p e s) -> exists e', heap w !! p = Some e' /\ erase e' = e.
Proof.
  intros R. assert (Hin : (p, e) ∈ by_expiry (a_link p e s)).
  { unfold a_link. cbn [by_expiry]. apply elem_of_insert_expiry. by left. }
  destruct (chain_lookup _ _ _ _ _ (rep_list _ _ _ R) Hin) as (e' & Hp & He). by exists e'.
Qed.

Lemma first_of_unique f (l : list aentry) p e :
  (p, e) ∈ l -> f e = true -> (forall x, x ∈ l -> f x.2 = true -> x.1 = p) -> first_of f l = Some p.
Proof.
  intros Hin Hf Hu. unfold first_of. destruct (keep (fun x => f x.2) l) as [|x k] eqn:E.
  - assert (Hk : (p, e) ∈ keep (fun x => f x.2) l) by by apply elem_of_keep.
    rewrite E in Hk. by apply elem_of_nil in Hk.
  - assert (Hk : x ∈ x :: k) by left. rewrite <- E in Hk. apply elem_of_keep in Hk as [Hx1 Hx2].
    cbn [head fmap option_fmap option_map]. f_equal. by apply Hu.
Qed.

(** What was added is found, by address and PMKID always, and by the
    address alone as long as nothing was cached opportunistically; the entry
    holds the key, its PMKID, and the time it expires at. *)
Theorem added_entry_found `{Malloc} ops w (M : Malloc) pmk0 pmkid0 kck aa spa0 st eapol akmp0 now p w' :
  reachable ops w -> wpa_key_mgmt_suite_b akmp0 = false ->
  pmksa_cache_auth_add s1 s256 hash0 sizeof_entry sizeof_vlan sizeof_attr pmk0 pmkid0 kck aa spa0 st eapol
    akmp0 now w = Some (Some p, w') ->
  (exists e, heap w' !! p = Some e /\
     key_of e = (pmkid_of pmk0 pmkid0 aa spa0 akmp0, memcpy (replicate PMK_LEN_MAX 0) 0 pmk0,
                 Z.of_nat (length pmk0), (if 0 <? st then st else dot11RSNAConfigPMKLifetime) + now, akmp0,
                 take ETH_ALEN spa0)) /\
  pmksa_cache_auth_get (Some spa0) (Some (pmkid_of pmk0 pmkid0 aa spa0 akmp0)) w' = Some (Some p) /\
  (Forall no_okc ops -> pmksa_cache_auth_get (Some spa0) None w' = Some (Some p)).
Proof.
  intros Hr Hb Ha. pose proof (new_entry_key pmk0 pmkid0 kck aa spa0 st eapol akmp0 now Hb) as Hkey.
  set (e := new_entry s1 s256 hash0 sizeof_vlan sizeof_attr pmk0 pmkid0 kck aa spa0 st eapol akmp0 now) in *.
  assert (Hspec : forall s, rep ∅ w s -> rep ∅ w' (a_add_entry p e s)).
  { intros s R. destruct (auth_add_holds s1 s256 hash0 sizeof_entry sizeof_vlan sizeof_attr pmk0 pmkid0 kck aa
      spa0 st eapol akmp0 now w s R) as (w2 & E & R2). rewrite Ha in E. injection E as Ep <-.
    unfold a_add in Ep, R2. destruct (creates _ pmk0 kck akmp0); [|done]. by injection Ep as ->. }
  assert (Hspa : spa e = take ETH_ALEN spa0) by (unfold key_of in Hkey; by injection Hkey).
  assert (Hid : pmkid e = pmkid_of pmk0 pmkid0 aa spa0 akmp0) by (unfold key_of in Hkey; by injection Hkey).
  assert (Hmatch : matches_spa (Some spa0) (erase e) = true).
  { cbn [matches_spa]. apply same_spec. rewrite erase_spa, Hspa, take_take. done. }
  split; [|split].
  - destruct (reachable_rep ops w Hr) as (stations & R). destruct (rep_link_entry _ _ _ _ (Hspec _ R)) as (e' & Hp & He).
    exists e'. split; [done|]. by rewrite <- (key_of_erase e'), He, key_of_erase.
  - destruct (reachable_rep ops w Hr) as (stations & R). rewrite (auth_get_holds _ _ _ _ _ (Hspec _ R)).
    unfold a_get, a_add_entry, a_link. cbn [by_age]. unfold first_of. rewrite keep_cons. cbn [snd].
    rewrite Hmatch, erase_pmkid, Hid. rewrite (proj2 (same_spec _ _ _)) by done. done.
  - intros Ho. destruct (reachable_bounded ops w Hr Ho) as (s & R & Hbd).
    pose proof (Hspec _ R) as R'. rewrite (auth_get_holds _ _ _ _ _ R'). f_equal. unfold a_get.
    pose proof (bounded_add p e s Hbd (rep_nodup _ _ _ R)) as [_ Hu].
    assert (Hin : (p, erase e) ∈ by_expiry (a_add_entry p e s)).
    { unfold a_add_entry, a_link. cbn [by_expiry]. apply elem_of_insert_expiry. by left. }
    apply (first_of_unique _ _ p (erase e)); [done|done|]. intros x Hx Hm.
    apply list_elem_of_lookup in Hx as [i Hi], Hin as [j Hj].
    assert (i = j); [|by simplify_eq].
    cbn [matches_spa] in Hm, Hmatch. apply same_spec in Hm, Hmatch.
    apply (NoDup_lookup _ i j (take ETH_ALEN spa0) Hu); rewrite list_lookup_fmap; [rewrite Hi|rewrite Hj];
      cbn [fmap option_fmap option_map]; by f_equal.
Qed.

(** ** Expiration *)

Lemma keep_list_to_map f l :
  NoDup (ids l) ->
  list_to_map (keep f l) = filter (fun x => f x = true) (list_to_map l : gmap positive rsn_pmksa_cache_entry).
Proof.
  induction l as [|[p e] l IH]; intros Hn; [done|]. rewrite keep_cons.
  cbn [ids fmap list_fmap fst] in Hn. apply NoDup_cons in Hn as [Hp Hn]. cbn [list_to_map fst snd foldr].
  assert (Hnone : (list_to_map l : gmap positive rsn_pmksa_cache_entry) !! p = None)
    by by apply not_elem_of_list_to_map_1.
  destruct (f (p, e)) eqn:Ef; cbn [list_to_map foldr fst snd]; rewrite IH by done.
  - by rewrite map_filter_insert_True.
  - rewrite map_filter_insert_not'; [done|by rewrite Ef|]. intros y Hy. by rewrite Hnone in Hy.
Qed.

(** C32: expiring removes exactly the entries whose time has come, together with
    the stations' pointers to them, and the timeout is then due one second after
    the first of the others expires. *)
Theorem expire_exact `{Malloc} ops w now :
  reachable ops w -> (forall p e, heap w !! p = Some e -> expiration e - now < 2 ^ 31) ->
  exists w', pmksa_cache_expire now w = Some w' /\
    erase <$> heap w' = filter (fun x => (now <? expiration x.2) = true) (erase <$> heap w) /\
    sta_pmksa w' = (fun p => q ← p; if bool_decide (is_Some (heap w' !! q)) then Some q else None)
                     <$> sta_pmksa w /\
    match timeout w' with
    | None => heap w' = ∅
    | Some t => (exists p e, heap w' !! p = Some e /\ t = expiration e + 1) /\
                (forall p e, heap w' !! p = Some e -> t <= expiration e + 1)
    end.
Proof.
  intros (stations & R)%reachable_rep Hfar. set (s := (spec_ops ops (a_init stations)).2) in *.
  destruct (expire_holds ∅ now w s R (keep_nil_apart s)) as (w' & E & R' & Ht & _).
  exists w'. split; [done|]. pose proof (rep_heap _ _ R) as Hh. pose proof (rep_heap _ _ R') as Hh'.
  pose proof (rep_nodup _ _ _ R) as Hn. unfold a_keep in Hh'. cbn [by_expiry] in Hh'. split_and!.
  - rewrite Hh, Hh'. by apply (keep_list_to_map (not_expired now)).
  - rewrite (rep_stas _ _ _ R'), (rep_stas _ _ _ R). unfold a_keep at 1. cbn [stas].
    apply list_fmap_ext. intros i [q|] _; [|done]. cbn [mbind option_bind].
    assert (Hd : q ∈ ids (keep (not_expired now) (by_expiry s)) <-> is_Some (heap w' !! q)).
    { rewrite <- elem_of_dom, (rep_dom _ _ _ R'), union_empty_r_L, elem_of_list_to_set. done. }
    by rewrite (bool_decide_ext _ _ Hd).
  - pose proof (rep_sorted _ _ _ R') as Hs. unfold a_keep in Hs. cbn [by_expiry] in Hs. rewrite Ht.
    assert (Hall : forall p e, heap w' !! p = Some e -> (p, erase e) ∈ keep (not_expired now) (by_expiry s))
      by (intros p e; apply (rep_entry w' _ p e R')).
    destruct (keep (not_expired now) (by_expiry s)) as [|[p e] l] eqn:Ek; cbn [due].
    + by apply (fmap_empty_inv erase).
    + assert (Hk : (p, e) ∈ (p, e) :: l) by left. rewrite <- Ek in Hk.
      apply elem_of_keep in Hk as [Hlate Hin]. apply Z.ltb_lt in Hlate. cbn [snd] in Hlate |- *.
      destruct (chain_lookup _ _ _ _ _ (rep_list _ _ _ R) Hin) as (e0 & Hp0 & He0). cbn [fst snd] in Hp0, He0.
      pose proof (Hfar p e0 Hp0) as Hf. rewrite <- (erase_expiration e0), He0 in Hf.
      assert (Hi : i32 (expiration e - now) = expiration e - now).
      { unfold i32. rewrite Z.mod_small; lia. }
      rewrite Hi, Z.max_r by lia. split.
      * assert (Hin' : (p, e) ∈ by_expiry (a_keep (not_expired now) s)).
        { unfold a_keep. cbn [by_expiry]. rewrite Ek. left. }
        destruct (chain_lookup _ _ _ _ _ (rep_list _ _ _ R') Hin') as (e' & Hp & He). cbn [fst snd] in Hp, He.
        exists p, e'. split; [done|]. rewrite <- (erase_expiration e'), He. lia.
      * intros q eq Hq. apply Hall in Hq. rewrite <- (erase_expiration eq).
        apply elem_of_cons in Hq as [[= -> <-]|Hq]; [lia|].
        apply StronglySorted_inv in Hs as [_ Hs]. rewrite Forall_forall in Hs. specialize (Hs _ Hq).
        unfold expires_first in Hs. cbn [snd] in Hs. lia.
Qed.
End theorems.

(** ** Witnesses *)

Definition always : Malloc := fun n => Some (replicate n 0).
Definition addr1 : bytes := [2; 0; 0; 0; 0; 1].
Definition addr2 : bytes := [2; 0; 0; 0; 0; 2].
Definition ap_addr : bytes := [2; 0; 0; 0; 0; 0].
Definition pmk1 : bytes := replicate 32 7.
Definition id1 : bytes := replicate 16 1.
Definition id2 : bytes := replicate 16 2.

Definition toy_add (spa0 id : bytes) (timeout0 now : Z) : op :=
  Add always pmk1 (Some id) None ap_addr spa0 timeout0 None WPA_KEY_MGMT_SAE now.

(** Two stations are added, the first reassociates, its entry expires. *)
Definition toy_ops : list op :=
  [toy_add addr1 id1 50 100; toy_add addr2 id2 90 100;
   Select always (fun _ => None) (fun _ => None) false 1 ap_addr addr1 [id2; id1] 110].

Definition toy_run := run_ops Sha1.some_context Sha256.some_context [] 500 80 16.
Definition toy_start : W := mk_cache ∅ (replicate PMKID_HASH_SIZE None) None 0 [None; None] None.
Definition toy_end (ops : list op) : W :=
  match toy_run ops toy_start with Some (_, w) => w | None => toy_start end.
Definition toy_reachable_by (ops : list op) : Prop :=
  reachable Sha1.some_context Sha256.some_context [] 500 80 16 (H := always) ops (toy_end ops).

Lemma toy_init : pmksa_cache_auth_init (H := always) 10 2 = Some toy_start.
Proof. vm_compute. reflexivity. Qed.

Lemma toy_runs : toy_reachable_by toy_ops.
Proof.
  exists 10%nat, 2%nat, toy_start, [Entry (Some 1%positive); Entry (Some 2%positive); Void].
  split; [exact toy_init|vm_compute; reflexivity].
Qed.

Lemma toy_no_okc : Forall no_okc toy_ops.
Proof. repeat (apply Forall_cons; split; [reflexivity || exact I|]). constructor. Qed.

Lemma cache_refines_lists_witness :
  exists w', toy_run toy_ops toy_start = Some ([Entry (Some 1%positive); Entry (Some 2%positive); Void], w') /\
    pmksa_count w' = 2 /\ sta_pmksa w' = [None; Some 1%positive].
Proof.
  destruct (cache_refines_lists Sha1.some_context Sha256.some_context [] 500 80 16 (H := always) 10 2 toy_ops
    toy_start toy_init) as (w' & E & R).
  exists w'. split_and!.
  - unfold toy_run. rewrite E. vm_compute. reflexivity.
  - rewrite (rep_count _ _ _ R). vm_compute. reflexivity.
  - rewrite (rep_stas _ _ _ R). vm_compute. reflexivity.
Defined.

Lemma no_dangling_pointers_witness :
  sta_pmksa (toy_end toy_ops) = [None; Some 1%positive] /\
  is_Some (heap (toy_end toy_ops) !! 1%positive) /\ pmksa_cache_auth_deinit (toy_end toy_ops) = Some ∅.
Proof.
  destruct (no_dangling_pointers Sha1.some_context Sha256.some_context [] 500 80 16 (H := always) toy_ops
    (toy_end toy_ops) toy_runs) as [Hl Hd].
  assert (Hs : sta_pmksa (toy_end toy_ops) = [None; Some 1%positive]) by (vm_compute; reflexivity).
  rewrite Hs in Hl |- *. split; [reflexivity|]. split; [|exact Hd].
  apply Forall_cons in Hl as [_ Hl]. apply Forall_cons in Hl as [Hl _]. exact (Hl _ eq_refl).
Defined.

Lemma cache_bounded_witness :
  pmksa_count (toy_end toy_ops) = 2 /\ pmksa_count (toy_end toy_ops) <= pmksa_cache_max_entries.
Proof.
  destruct (cache_bounded Sha1.some_context Sha256.some_context [] 500 80 16 (H := always) toy_ops
    (toy_end toy_ops) toy_runs toy_no_okc) as (_ & Hb & _).
  split; [vm_compute; reflexivity|exact Hb].
Defined.

(** The first station comes back with another key. *)
Lemma added_entry_found_witness :
  exists p w', pmksa_cache_auth_add (H := always) Sha1.some_context Sha256.some_context [] 500 80 16 pmk1
      (Some id2) None ap_addr addr1 0 None WPA_KEY_MGMT_SAE 120 (toy_end toy_ops) = Some (Some p, w') /\
    pmksa_cache_auth_get (Some addr1) (Some id2) w' = Some (Some p) /\
    pmksa_cache_auth_get (Some addr1) None w' = Some (Some p).
Proof.
  destruct (pmksa_cache_auth_add (H := always) Sha1.some_context Sha256.some_context [] 500 80 16 pmk1
      (Some id2) None ap_addr addr1 0 None WPA_KEY_MGMT_SAE 120 (toy_end toy_ops)) as [[[p|] w']|] eqn:E;
    [|exfalso; revert E; vm_compute; discriminate|exfalso; revert E; vm_compute; discriminate].
  exists p, w'. split; [reflexivity|].
  destruct (added_entry_found Sha1.some_context Sha256.some_context [] 500 80 16 (H := always) toy_ops
    (toy_end toy_ops) always pmk1 (Some id2) None ap_addr addr1 0 None WPA_KEY_MGMT_SAE 120 p w' toy_runs
    eq_refl E) as (_ & H1 & H2).
  split; [exact H1|exact (H2 toy_no_okc)].
Defined.

(** At 160 the first entry has expired; the second one does at 190. *)
Lemma expire_exact_witness :
  exists w', pmksa_cache_expire 160 (toy_end toy_ops) = Some w' /\ sta_pmksa w' = [None; None] /\
    timeout w' = Some 191.
Proof.
  destruct (expire_exact Sha1.some_context Sha256.some_context [] 500 80 16 (H := always) toy_ops
    (toy_end toy_ops) 160 toy_runs) as (w' & E & _ & Hs & Ht).
  - intros p e Hp. apply elem_of_map_to_list in Hp.
    assert (Hall : forallb (fun x => expiration x.2 - 160 <? 2 ^ 31) (map_to_list (heap (toy_end toy_ops))) = true)
      by (vm_compute; reflexivity).
    rewrite forallb_forall in Hall. apply list_elem_of_In in Hp. apply Z.ltb_lt. exact (Hall _ Hp).
  - exists w'. split; [exact E|].
    assert (E' : pmksa_cache_expire 160 (toy_end toy_ops)
      = Some (toy_end (toy_ops ++ [Expire 160]))) by (vm_compute; reflexivity).
    rewrite E in E'. injection E' as ->. split; vm_compute; reflexivity.
Defined.
